(* ===== verification/_CoqProject ===== *)
-Q . S2P
Prelude.v
Stdio.v
Bin2Srec.v
Srec2Bin.v
SrecRoundtrip.v
XyzModem.v
XyzModemFacts.v
XyzModemProps.v
Spi.v
SpiBus.v
EpcsCommands.v
EpcsFlash.v
EpcsFacts.v
EpcsProps.v
EpcsDev.v
Lcd.v
LcdFacts.v
LcdProps.v
Os.v
OsSim.v
FirmwareUtil.v
FirmwareUtilProps.v
Bootloader.v
BootloaderFacts.v
BootMac.v
BootMenu.v
BootProps.v
Ring.v
Oeth.v
OethFacts.v
OethDriver.v
OethSend.v
OethRx.v
OethInit.v
OethProps.v
Sgdma.v
SgdmaFacts.v
Tse.v
TsePhy.v
TseRely.v
TseTx.v
TseRx.v
TseProps.v
Esa.v
Cf.v
CfProps.v
Serial.v
Uart.v
JtagUart.v
Diag.v
UartFacts.v
JtagFacts.v
UartProps.v
JtagProps.v
CommProps.v
Hal.v
Cache.v
Stub.v
StubProps.v
Arch.v
Ocm.v
OcmFacts.v
OcmTx.v
OcmPhy.v
OcmRx.v
OcmInit.v
OcmProps.v
Clock.v
Signal.v
SignalFacts.v
SignalProps.v
SignalSafe.v
Timers.v
Pthread.v
PthreadFacts.v
PthreadCalls.v
PthreadProps.v
Mqueue.v
MqueueFacts.v
MqueueProps.v
