(* ===== verification/Prelude.v ===== *)
(** * A verification library for nios2ecos

    nios2ecos is the port of eCos to the Nios II soft processor: the hardware
    abstraction layer, a bootloader, host tools for its image format, a utility that
    installs firmware, and drivers for the peripherals of Altera's SOPC Builder.  This
    library models the parts with logic of their own and proves what makes them correct.

    ** The program and the files

    The bootloader (src/bootloader/bootloader) runs from the factory image.  Its menu on
    the serial port sets the MAC address and configuration files, receives files by
    Y-modem and installs them in flash with the firmware utility; then it loads the
    application configuration of the FPGA.  The tools bin2srec and srec2bin convert the
    images to S-records and back on the host.  The other parts are under src/packages
    (devs: drivers, hal: the processor and the debugging channels, io/epcs: the serial
    flash) and src/eth_ocm (a second driver of an Ethernet controller).

    - [Prelude]: machine integers at their widths, the state monad [M] over the outcomes
      return / undefined behaviour / out of fuel, weakest preconditions [wp], tactics
      and shared lemmas.
    - [Stdio]: what the code uses of the C library: printf and sscanf conversions, FILE
      streams.
    - [Bin2Srec], [Srec2Bin]: common.c, bin2srec.c and srec2bin.c, from the options to [main].  [SrecRoundtrip]: their theorems.
    - [XyzModem]: xyzModem.c, the receiver: the input ring, packets, opening, reading,
      ending.  [XyzModemFacts]: the ring as a queue, totality of every loop.
      [XyzModemProps]: a sender, what the receiver makes of it, and the theorems.
    - [Spi]: altera_avalon_spi.c of the EPCS package against a class of SPI cores with
      laws.  [SpiBus]: the eCos driver of the SPI bus on the same cores.
    - [EpcsCommands], [EpcsFlash]: epcs_commands.c, altera_avalon_epcs_flash_controller.c
      and epcs.c, over a class of chips.  [EpcsFacts]: geometry and the effect of each
      operation; [EpcsProps]: a chip that satisfies the laws and the theorems.
      [EpcsDev]: the table of flash devices as linked structures and its use by epcs.c.
    - [Lcd]: altera_avalon_lcd_16207.c with its register writes as a trace and the timer
      ticks that interrupt a repaint as an argument.  [LcdFacts]: the panel the trace
      drives, the invariant that it mirrors the lines; [LcdProps]: the theorems.
    - [Os]: the eCos file system, the eCos flash library and zlib as classes of
      operations, views of their states, and laws.  [OsSim]: implementations that satisfy
      the laws.
    - [FirmwareUtil]: firmwareutil.c.  [FirmwareUtilProps]: lemmas
      and theorems.
    - [Bootloader]: bootloader.c and addresses.h, with exceptions for the ways a run ends.
      [BootloaderFacts]: the calculus [bwp] and line editing; [BootMac], [BootMenu]:
      lemmas on the MAC address, uploads and the menu; [BootProps]: the
      theorems.
    - [Ring]: positions in rings of descriptors, shared by the two drivers that follow.
    - [Oeth]: if_oeth.c, the OpenCores driver of eCos, over a board it shares with the
      controller.  [OethFacts]: what the controller may do ([hw_step]), the rings as
      queues; [OethDriver]: the invariant of the driver; [OethSend], [OethRx], [OethInit]: the
      operations under it; [OethProps]: a controller and the theorems.
    - [Ocm], [OcmPhy]: ins_eth_ocm.c and eth_ocm_phy.c, the driver of the same controller
      for the InterNiche stack, with its queues of packets.  [OcmFacts]: the rings and
      the invariant; [OcmTx], [OcmRx], [OcmInit]: sending, receiving and the interrupt,
      starting; [OcmProps]: the theorems and a run.
    - [Sgdma]: altera_avalon_sgdma.c, for every state with controllers and descriptors
      (class [HasDma]).  [SgdmaFacts]: its theorems, and the rule for starting a transfer
      that its clients use.
    - [Tse]: if_tse.c, the triple-speed driver, a client of [Sgdma].  [TsePhy]: the
      multicast filter and initialisation; [TseRely]: the hardware and the
      invariant; [TseTx], [TseRx]: sending and receiving under it; [TseProps]: a board
      and the theorems.
    - [Esa]: the address of the board for the triple-speed and the lan91c111 drivers.
    - [Cf]: altera_avalon_cf.c, the disk driver with its queue of card events.  With lemmas on
      sectors and events.  [CfProps]: a card and the theorems.
    - [Serial]: what the serial drivers use of the eCos serial layer.  [Uart],
      [JtagUart]: altera_avalon_uart.c and altera_avalon_jtag_uart.c.  [Diag]: a debug
      channel of the HAL as a class.  [UartFacts], [JtagFacts]: lemmas, and the two
      implementations of the class, altera_avalon_uart_comm.c and
      altera_avalon_jtag_uart_comm.c; [UartProps], [JtagProps], [CommProps]: devices and
      theorems.
    - [Hal]: hal_misc.c (bit searches, delay, copying of sections, constructors) and the
      timer of hal/sopc/altera_avalon_timer, with their theorems.
    - [Cache]: the cache macros of hal_cache.h on a processor with data and instruction
      caches; a direct-mapped one satisfies its contract.  [Stub]: nios2-stub.c, single
      steps and breakpoints.  [StubProps]: the theorems.
    - [Arch]: hal_intr.h and hal_arch.h: the interrupt tables, the saved registers and
      the registers of the debugger, with their theorems.
    - [Mqueue]: mqueue.cxx, the message queues of POSIX on those of the kernel (a class):
      the table, the linked descriptors, every call.  [MqueueFacts]: an abstract machine of
      named queues and the relation between the two; [MqueueProps]: each call under it,
      the theorems, a kernel and runs.
    - [Clock], [Signal]: the conversions of time.cxx and signal.cxx, with the handlers of the
      application as a class of programs of calls, so that delivery is recursive in fuel.
      [SignalFacts]: the free list and the circular queues in the pool as queues of values,
      the view of a state; [SignalProps]: delivery to handlers that do not call back, queued
      values; [SignalSafe]: handlers that do, ignored signals, accepting a signal.
      [Timers]: the rest of time.cxx, the timers as a map from ids, their expirations as
      signals.
    - [Pthread]: pthread.cxx, with the threads of the kernel as a class, the structures of
      threads by their addresses, and the routines of the application as programs of calls.
      [PthreadFacts]: the invariant, the map from ids to threads that a state stands for,
      keys and their data; [PthreadCalls]: reaping, creation and the other calls on that
      map; [PthreadProps]: sequences of calls, joins that wait, the theorems and runs.

    ** How code is modelled

    A C function is a Gallina function in the state monad of its component; its state is
    a record of the struct and the static variables it uses, and of the devices it
    drives.  Assignments that can wrap are written with [uwrap] and [swrap].  An access
    outside an array, a null pointer, a negative length passed to memcpy and a signed
    overflow that matters give [UB]; so a theorem that a call returns also says that it
    stays in its bounds.  Devices and libraries outside the repository are classes with
    laws; each class has an instance that satisfies the laws, on which the witnesses
    run.  Inputs (a serial line, timer ticks) are lists of events; outputs are traces.

    The Ethernet drivers share memory with hardware that runs at the same time.  Their
    state has a list [env] of functions: what the hardware does before each of the coming
    accesses of the driver.  The theorems hold for all such functions that respect a
    relation [hw_step], the rely condition taken from the manual of the controller;
    stores to cached memory take no step of their own, and for descriptors of the DMA a
    theorem on every prefix of the stores shows why that loses nothing.

    Loops that are not structural take fuel.  Where the bound depends on the state (the
    pending input of the receiver, the size of a file, the keys typed) the operation
    computes its fuel and a lemma shows it to be enough; the firmware utility takes it
    as an argument, and 1033 times the size of the file, plus the size of the image, is
    enough, because zlib expands its input at most 1032 times; for the interrupt handler
    of the InterNiche driver the number of coming loads, of descriptors and of packets
    is enough.  Where the code really does not end, a theorem says so for every amount of
    fuel.

    ** The theorems

    - S-records: both tools together give the file back; every record has the right
      checksum; srec2bin ends on every input; a long record overruns its buffer, and
      bin2srec does not end on an empty file.
    - Receiver: against a sender on a line that corrupts and repeats packets the reads
      deliver the file exactly; on every line every call returns in bounds; the ring is a
      queue; a read after an error is undefined.
    - SPI and EPCS: a command is an exchange with the slave; write then read gives the
      data back and leaves other blocks alone; erase is exact; the query recognises the
      chips; an unaligned erase does not end; the table of devices is a map from names.
    - LCD: whatever is printed and whenever the timer ticks, the panel shows the window of
      each line; three inputs leave the arrays.
    - Firmware utility: bad files leave the flash alone; good files are installed, only
      their sectors change; the size of the region is not checked.
    - Bootloader: line editing; the MAC address round trip; no application without an
      address; uploads are stored; the update from the key press to the bytes in flash;
      the start of the application; two error paths that are undefined.
    - OpenCores Ethernet: from reset on, frames go out in order, each key is reported
      once and after its frame, received frames go up in order; the address requests; the
      check of the address in flash.  For the InterNiche driver, from the start on and
      for all calls: frames go out in order, packets are given back once and not before
      their frames, none waits while a descriptor is free, received frames go up in
      order, one lost for each packet that the stack refuses; the interrupt handler ends; the duplex is that of the PHY's vendor.
    - DMA: a descriptor is never visible half made; a transfer is started exactly on an
      idle controller.
    - Triple-speed Ethernet: frames go out in order and keys are reported after their
      frames; an interrupt delivers the finished frames in order and arms the chain
      again; the multicast filter is that of the list; initialisation ends whatever the
      hardware answers and gives up a MAC stuck in reset.
    - CompactFlash: what is written is read, unless the card sets its error flag, at which
      the driver does not look; a card is announced once however it is plugged.
    - SPI bus: a transaction is the exchange of its bytes with the selected device.
    - Serial lines and debug channels: the interrupt handlers move the characters in
      order, that of the JTAG UART if the serial layer answers its requests; the configuration is exact; a read of a channel takes exactly the bytes that
      are there, and both implementations satisfy the interface.
    - HAL: the bit searches are those of the binary logarithms; the delay is bounded by
      the ticks; constructors run once; a flush writes back exactly its lines; a single
      step stops at the next instruction, for jmpi, bret and traps at the following word,
      and restores the memory; the tables of
      interrupts implement a map; the registers of the debugger are a round trip.
    - Message queues: the calls refine the abstract machine for every client with names
      that are not empty and open descriptors; the queues stay ordered and in their
      bounds; the empty name and a failed opening leave the contract.
    - Signals and timers: pending signals are delivered in order with their values, once,
      and masks and queues are as before; with handlers that call back to any depth nothing
      is accessed outside and no thread blocks itself, if the actions can be called and the
      ids of threads index their table; a wait accepts one value; an ignored
      signal hangs its sender.  The timers are a map from the ids that index their table, never report too short a
      time, and wake the thread that waits for their signal.
    - Threads: every sequence of calls refines the map from ids to threads, and never does
      anything undefined; a join that waits returns at the first wake after the end, with
      the value, unless others join or detach the thread, or cancel or detach the joiner;
      handlers and destructors that make no calls are called in order, each once; a new key is the
      lowest that is free and null everywhere; what is set under a key is what is got.

    ** What is not modelled

    The exception entry, the context switch and the reset code of the HAL are assembly,
    and its profiling timer only passes calls on.  Device tables are constants made from
    system.h.  The deflator calls zlib and prints.  The statistics of the InterNiche
    driver only print.  Of the POSIX sources under src/tools, which are
    those of eCos with patches for a compiler, the message queues (with descriptors checked
    and notifications configured), the signals, the clocks and timers and the
    threads are modelled; mutexes, semaphores and the rest are calls of the kernel.
    Calls of several threads are taken in the order in which they hold the mutex; what other
    threads and alarms do while one waits is an input; in the models of
    the message queues and signals threads are not cancelled, and the handlers of one thread do not run between two steps of a call of another.  Cache operations have no effect on the
    values of the models other than [Cache] and [Stub].  The output of the bootloader and
    of its receiver are two traces: their interleaving on the line is not part of a
    statement. *)

From stdpp Require Export base numbers list strings gmap.
From stdpp Require Export tactics.

#[global] Open Scope Z_scope.
#[global] Generalizable All Variables.

(** ** Machine integers

    A [w]-bit C integer is a [Z]; the conversions below are the wrap-around
    of assignment to an unsigned ([uwrap]) or a signed ([swrap]) object. *)

Definition uwrap (w z : Z) : Z := z mod 2 ^ w.

Definition swrap (w z : Z) : Z := (z + 2 ^ (w - 1)) mod 2 ^ w - 2 ^ (w - 1).

Abbreviation u8 := (uwrap 8).
Abbreviation u16 := (uwrap 16).
Abbreviation u32 := (uwrap 32).
Abbreviation s8 := (swrap 8).
Abbreviation s32 := (swrap 32).

(** The range of a byte, of a byte string and of a 32-bit unsigned object. *)
Definition is_byte (z : Z) : Prop := 0 <= z < 256.

Definition is_u32 (z : Z) : Prop := 0 <= z < 4294967296.

Abbreviation bytes_ok := (Forall is_byte).

#[global] Instance is_byte_dec z : Decision (is_byte z).
Proof. unfold is_byte. apply _. Defined.

#[global] Instance is_u32_dec z : Decision (is_u32 z).
Proof. unfold is_u32. apply _. Defined.

(** The macros [min] and [max] of C code: a conditional on [<] and [>]. *)
Definition cmin (a b : Z) : Z := if a <? b then a else b.

Definition cmax (a b : Z) : Z := if a >? b then a else b.

(** C truth of an integer expression. *)
Definition ctrue (z : Z) : bool := negb (z =? 0).

(** Character codes of a string literal. *)
Definition codes (s : string) : list Z :=
  map (fun c => Z.of_N (Ascii.N_of_ascii c)) (String.list_ascii_of_string s).

(** ** Outcomes of C code

    A run either returns, reaches an operation whose behaviour C leaves
    undefined (an access out of an object's bounds, a null pointer, a division
    by zero), or uses up the fuel that bounds the loops of the model. *)

Inductive outcome (A : Type) : Type :=
| Ret (a : A)
| UB
| NoFuel.
Arguments Ret {A} a.
Arguments UB {A}.
Arguments NoFuel {A}.

#[global] Instance outcome_ret : MRet outcome := fun A a => Ret a.

#[global] Instance outcome_bind : MBind outcome := fun A B f m =>
  match m with Ret a => f a | UB => UB | NoFuel => NoFuel end.

(** Code that threads a state through: the state monad over [outcome]. *)
Definition M (S A : Type) : Type := S -> outcome (A * S).

#[global] Instance M_ret {S} : MRet (M S) := fun A a s => Ret (a, s).

#[global] Instance M_bind {S} : MBind (M S) := fun A B f m s =>
  match m s with Ret (a, s') => f a s' | UB => UB | NoFuel => NoFuel end.

Definition get {S} : M S S := fun s => Ret (s, s).

Definition gets {S A} (f : S -> A) : M S A := fun s => Ret (f s, s).

Definition modify {S} (f : S -> S) : M S unit := fun s => Ret (tt, f s).

Definition undef {S A} : M S A := fun _ => UB.

Definition no_fuel {S A} : M S A := fun _ => NoFuel.

Definition unless {S} (b : bool) (m : M S unit) : M S unit := if b then mret tt else m.

Definition when {S} (b : bool) (m : M S unit) : M S unit := if b then m else mret tt.

(** What a run did, when it returned. *)
Definition returns {A} (o : outcome A) : Prop := exists a, o = Ret a.

Create HintDb nios.
Create Rewrite HintDb nios.

(** ** Lemmas on outcomes *)

Lemma bind_Ret {S A B} (m : M S A) (f : A -> M S B) s a s' :
  m s = Ret (a, s') -> (m ≫= f) s = f a s'.
Proof. intros H. unfold mbind, M_bind. by rewrite H. Qed.

Lemma bind_inv {S A B} (m : M S A) (f : A -> M S B) s b s'' :
  (m ≫= f) s = Ret (b, s'') -> exists a s', m s = Ret (a, s') /\ f a s' = Ret (b, s'').
Proof.
  unfold mbind, M_bind. destruct (m s) as [[a s']| |]; try done. eauto.
Qed.

Lemma obind_inv {A B} (m : outcome A) (f : A -> outcome B) b :
  (m ≫= f) = Ret b -> exists a, m = Ret a /\ f a = Ret b.
Proof. unfold mbind, outcome_bind. destruct m; try done. eauto. Qed.

(** ** Weakest preconditions

    [wp m Q s]: run from [s], [m] returns (no undefined behaviour, no missing
    fuel) and its result and final state satisfy [Q]. *)

Definition wp {S A} (m : M S A) (Q : A -> S -> Prop) (s : S) : Prop :=
  match m s with Ret (a, s') => Q a s' | _ => False end.

Section WP.
Context {S : Type}.

Lemma wp_ret {A} (a : A) (Q : A -> S -> Prop) s : Q a s -> wp (mret a) Q s.
Proof. done. Qed.

Lemma wp_bind {A B} (m : M S A) (f : A -> M S B) Q s :
  wp m (fun a s' => wp (f a) Q s') s -> wp (m ≫= f) Q s.
Proof. unfold wp, mbind, M_bind. by destruct (m s) as [[]| |]. Qed.

Lemma wp_get (Q : S -> S -> Prop) s : Q s s -> wp get Q s.
Proof. done. Qed.

Lemma wp_gets {A} (f : S -> A) (Q : A -> S -> Prop) s : Q (f s) s -> wp (gets f) Q s.
Proof. done. Qed.

Lemma wp_modify f (Q : unit -> S -> Prop) s : Q tt (f s) -> wp (modify f) Q s.
Proof. done. Qed.

Lemma wp_when b m (Q : unit -> S -> Prop) s :
  (b = true -> wp m Q s) -> (b = false -> Q tt s) -> wp (when b m) Q s.
Proof. destruct b; intros H1 H2; [by apply H1 | by apply H2]. Qed.

Lemma wp_mono {A} (m : M S A) (Q Q' : A -> S -> Prop) s :
  wp m Q s -> (forall a s', Q a s' -> Q' a s') -> wp m Q' s.
Proof. unfold wp. destruct (m s) as [[]| |]; auto. Qed.

Lemma wp_and {A} (m : M S A) (Q Q' : A -> S -> Prop) s :
  wp m Q s -> wp m Q' s -> wp m (fun a s' => Q a s' /\ Q' a s') s.
Proof. unfold wp. destruct (m s) as [[]| |]; auto. Qed.

Lemma wp_Ret {A} (m : M S A) (Q : A -> S -> Prop) s :
  wp m Q s <-> exists a s', m s = Ret (a, s') /\ Q a s'.
Proof.
  unfold wp. split; [|by intros (? & ? & -> & ?)].
  destruct (m s) as [[a s']| |]; [eauto|done..].
Qed.

Lemma wp_eq {A} (m : M S A) (Q : A -> S -> Prop) s a s' :
  m s = Ret (a, s') -> Q a s' -> wp m Q s.
Proof. unfold wp. by intros ->. Qed.

End WP.

(** [wlp m Q s]: the same when fuel may be missing. *)
Definition wlp {S A} (m : M S A) (Q : A -> S -> Prop) (s : S) : Prop :=
  match m s with Ret (a, s') => Q a s' | NoFuel => True | UB => False end.

Section WLP.
Context {S : Type}.

Lemma wlp_wp {A} (m : M S A) (Q : A -> S -> Prop) s : wp m Q s -> wlp m Q s.
Proof. unfold wp, wlp. by destruct (m s) as [[]| |]. Qed.

Lemma wlp_ret {A} (a : A) (Q : A -> S -> Prop) s : Q a s -> wlp (mret a) Q s.
Proof. done. Qed.

Lemma wlp_bind {A B} (m : M S A) (f : A -> M S B) Q s :
  wlp m (fun a s' => wlp (f a) Q s') s -> wlp (m ≫= f) Q s.
Proof. unfold wlp, mbind, M_bind. by destruct (m s) as [[]| |]. Qed.

Lemma wlp_mono {A} (m : M S A) (Q Q' : A -> S -> Prop) s :
  wlp m Q s -> (forall a s', Q a s' -> Q' a s') -> wlp m Q' s.
Proof. unfold wlp. destruct (m s) as [[]| |]; auto. Qed.

End WLP.

(** One step of a sequence whose head is a basic operation. *)
Ltac wp_step :=
  lazymatch goal with
  | |- wp (mbind _ _) _ _ => apply wp_bind; wp_step
  | |- wp (mret _) _ _ => apply wp_ret
  | |- wp get _ _ => apply wp_get
  | |- wp (modify _) _ _ => apply wp_modify
  | |- _ => idtac
  end; cbn beta.

Ltac wp_steps := repeat (progress wp_step).

(** A case distinction on the condition the code tests. *)
Ltac wp_if := match goal with |- wp (if ?b then _ else _) _ _ => destruct b eqn:? end.

(** Unfolds one layer of the state monad. *)
Ltac mred :=
  unfold mbind, M_bind, mret, M_ret, get, gets, modify, when, unless in *; cbn [fst snd] in *.

(** ** Lemmas on machine integers *)

Lemma uwrap_range w z : 0 <= w -> 0 <= uwrap w z < 2 ^ w.
Proof. intros Hw. apply Z.mod_pos_bound, Z.pow_pos_nonneg; lia. Qed.

Lemma uwrap_id w z : 0 <= z < 2 ^ w -> uwrap w z = z.
Proof. apply Z.mod_small. Qed.

Lemma u8_byte z : is_byte (u8 z).
Proof. apply (uwrap_range 8); lia. Qed.

Lemma u8_id z : is_byte z -> u8 z = z.
Proof. intros H. by apply (uwrap_id 8). Qed.

Lemma u32_id z : is_u32 z -> u32 z = z.
Proof. intros H. by apply (uwrap_id 32). Qed.

Lemma u32_range z : is_u32 (u32 z).
Proof. apply (uwrap_range 32). lia. Qed.

Lemma swrap_id w z : 0 < w -> - 2 ^ (w - 1) <= z < 2 ^ (w - 1) -> swrap w z = z.
Proof.
  intros Hw Hz. unfold swrap.
  replace (2 ^ w) with (2 * 2 ^ (w - 1)); [rewrite Z.mod_small; lia|].
  rewrite <- (Z.pow_succ_r 2 (w - 1)) by lia. f_equal. lia.
Qed.

Lemma s8_id z : -128 <= z < 128 -> s8 z = z.
Proof. intros H. by apply (swrap_id 8). Qed.

Lemma s32_id z : -2147483648 <= z < 2147483648 -> s32 z = z.
Proof. intros H. by apply (swrap_id 32). Qed.

Lemma uwrap_add_l w a b : uwrap w (uwrap w a + b) = uwrap w (a + b).
Proof. apply Zplus_mod_idemp_l. Qed.

Lemma land_255 z : Z.land z 255 = z mod 256.
Proof. change 255 with (Z.ones 8). by rewrite Z.land_ones by lia. Qed.

Lemma land_255_byte z : is_byte (Z.land z 255).
Proof. rewrite land_255. apply Z.mod_pos_bound. lia. Qed.

Lemma cmin_min a b : cmin a b = Z.min a b.
Proof. unfold cmin. destruct (Z.ltb_spec a b); lia. Qed.

Lemma cmax_max a b : cmax a b = Z.max a b.
Proof. unfold cmax. destruct (Z.gtb_spec a b); lia. Qed.

#[export] Hint Resolve u8_byte land_255_byte u32_range : nios.
#[export] Hint Rewrite cmin_min cmax_max : nios.

(** ** Lemmas on lists *)

Lemma take_app_exact {A} (l k : list A) n : n = length l -> take n (l ++ k) = l.
Proof. intros ->. by rewrite take_app_length. Qed.

Lemma drop_app_exact {A} (l k : list A) n : n = length l -> drop n (l ++ k) = k.
Proof. intros ->. by rewrite drop_app_length. Qed.

Lemma Forall_take_drop {A} (P : A -> Prop) n l :
  Forall P l -> Forall P (take n l) /\ Forall P (drop n l).
Proof. intros H. split; [by apply Forall_take | by apply Forall_drop]. Qed.

(** A property of the 256 byte values is checked by evaluation. *)
Lemma byte_forall (P : Z -> bool) :
  forallb P (seqZ 0 256) = true -> forall z, is_byte z -> P z = true.
Proof.
  intros H z Hz. rewrite forallb_forall in H. apply H.
  apply list_elem_of_In, elem_of_seqZ. unfold is_byte in Hz. lia.
Qed.

(** A filter that keeps everything, and one that keeps nothing. *)
Lemma list_filter_all {A} (P : A -> Prop) `{!forall x, Decision (P x)} (l : list A) :
  (forall x, x ∈ l -> P x) -> filter P l = l.
Proof.
  induction l as [|x l IH]; intros Hl; [done|].
  rewrite filter_cons_True by (apply Hl; left). rewrite IH; [done|]. intros y Hy. apply Hl. by right.
Qed.

Lemma list_filter_none {A} (P : A -> Prop) `{!forall x, Decision (P x)} (l : list A) :
  (forall x, x ∈ l -> ~ P x) -> filter P l = [].
Proof.
  induction l as [|x l IH]; intros Hl; [done|].
  rewrite filter_cons_False by (apply Hl; left). apply IH. intros y Hy. apply Hl. by right.
Qed.

(** The bits of a small number, and the concatenation of two numbers. *)
Lemma small_bits z k j : 0 <= k -> 0 <= z < 2 ^ k -> k <= j -> Z.testbit z j = false.
Proof.
  intros Hk Hz Hj. destruct (decide (z = 0)) as [->|]; [apply Z.bits_0|].
  apply Z.bits_above_log2; [lia|]. apply Z.log2_lt_pow2; [lia|].
  apply Z.lt_le_trans with (2 ^ k); [lia|]. apply Z.pow_le_mono_r; lia.
Qed.

Lemma lor_shift_add a b k : 0 <= k -> 0 <= b < 2 ^ k -> Z.lor (Z.shiftl a k) b = a * 2 ^ k + b.
Proof.
  intros Hk Hb. rewrite <- Z.shiftl_mul_pow2 by lia. rewrite <- Z.add_lor_land.
  assert (Z.land (Z.shiftl a k) b = 0) as ->; [|lia].
  apply Z.bits_inj'. intros j Hj. rewrite Z.land_spec, Z.bits_0. destruct (decide (j < k)).
  - by rewrite Z.shiftl_spec_low by lia.
  - rewrite (small_bits b k j) by lia. apply andb_false_r.
Qed.

(** A mask of one bit tests it; the low bits of a wrapped number. *)
Lemma ctrue_land_pow2 z k : 0 <= k -> ctrue (Z.land z (2 ^ k)) = Z.testbit z k.
Proof.
  intros Hk. unfold ctrue.
  assert (Z.land z (2 ^ k) = if Z.testbit z k then 2 ^ k else 0) as ->.
  { apply Z.bits_inj'. intros j Hj. rewrite Z.land_spec, Z.pow2_bits_eqb by lia.
    destruct (Z.eqb_spec k j) as [->|Hne].
    - destruct (Z.testbit z j) eqn:E; cbn; [by rewrite Z.pow2_bits_true by lia | by rewrite Z.bits_0].
    - rewrite andb_false_r. destruct (Z.testbit z k).
      + by rewrite Z.pow2_bits_false by lia.
      + by rewrite Z.bits_0. }
  destruct (Z.testbit z k); [|done].
  assert (0 < 2 ^ k) by (apply Z.pow_pos_nonneg; lia). by destruct (Z.eqb_spec (2 ^ k) 0); [lia|].
Qed.

Lemma uwrap_testbit w z k : 0 <= k < w -> Z.testbit (uwrap w z) k = Z.testbit z k.
Proof. intros Hk. unfold uwrap. by rewrite Z.mod_pow2_bits_low by lia. Qed.

(** ** Around a table of [m] entries, from entry [a] on *)

Lemma wrap_step a j m : (a < m)%nat -> (if (m <=? S ((a + j) mod m))%nat then O else S ((a + j) mod m)%nat) = ((a + S j) mod m)%nat.
Proof.
  intros Ha. assert ((a + j) mod m < m)%nat as Hc by (apply Nat.mod_upper_bound; lia).
  replace (a + S j)%nat with (1 + (a + j))%nat by lia. rewrite <- (Nat.Div0.add_mod_idemp_r 1 (a + j) m).
  generalize dependent ((a + j) mod m)%nat. intros c Hc. cbn [Nat.add]. destruct (Nat.leb_spec m (S c)) as [H|H].
  - replace (S c) with m by lia. by rewrite Nat.Div0.mod_same.
  - by rewrite Nat.mod_small by lia.
Qed.

Lemma wrap_back a j m : (a < m)%nat -> (0 < j <= m)%nat -> ((a + j) mod m =? a)%nat = (j =? m)%nat.
Proof.
  intros Ha Hj. destruct (decide (a + j < m)%nat) as [H|H].
  - rewrite Nat.mod_small by done. destruct (Nat.eqb_spec (a + j) a), (Nat.eqb_spec j m); lia.
  - replace (a + j)%nat with ((a + j - m) + 1 * m)%nat by lia. rewrite Nat.Div0.mod_add, Nat.mod_small by lia.
    destruct (Nat.eqb_spec (a + j - m) a), (Nat.eqb_spec j m); lia.
Qed.

Lemma wrap_all (P : nat -> Prop) a m : (a < m)%nat -> (forall k, (k < m)%nat -> P ((a + k) mod m)%nat) -> forall i, (i < m)%nat -> P i.
Proof.
  intros Ha H i Hi. destruct (decide (a <= i)%nat).
  - specialize (H (i - a)%nat ltac:(lia)). by replace (a + (i - a))%nat with i in H by lia; rewrite Nat.mod_small in H.
  - specialize (H (i + m - a)%nat ltac:(lia)). replace (a + (i + m - a))%nat with (i + 1 * m)%nat in H by lia. by rewrite Nat.Div0.mod_add, Nat.mod_small in H.
Qed.

(** ** Tables as maps

    A table whose entry is told by the key: what it holds as a map, and how many. *)

Section Slots.
Context {V : Type} (ix : Z -> nat).

Abbreviation row := (option (Z * V)).

Definition slots_ok (l : list row) : Prop := forall i k v, l !! i = Some (Some (k, v)) -> ix k = i.

Definition slots_map (l : list row) : gmap Z V := list_to_map (omap (fun x => x) l).

Lemma slots_elem (l : list row) x : x ∈ omap (fun x => x) l <-> exists i, l !! i = Some (Some x).
Proof.
  rewrite list_elem_of_omap. split.
  - intros (y & [i Hi]%list_elem_of_lookup & ->). by exists i.
  - intros [i Hi]. exists (Some x). split; [by eapply list_elem_of_lookup_2|done].
Qed.

Lemma slots_NoDup (l : list row) : slots_ok l -> NoDup (omap (fun x => x) l).*1.
Proof.
  intros H. assert (exists n, forall i k v, l !! i = Some (Some (k, v)) -> ix k = (n + i)%nat) as [n Hn] by by exists 0%nat.
  clear H. induction l as [|[[k v]|] l IH] in n, Hn |- *; cbn; [constructor| |].
  - apply list.NoDup_cons. split; [|apply (IH (S n)); intros i k' v' Hi; rewrite (Hn (S i) k' v' Hi); lia].
    intros ([k' v'] & E & [i Hi]%slots_elem)%list_elem_of_fmap. cbn in E. subst k'.
    pose proof (Hn 0%nat k v eq_refl). pose proof (Hn (S i) k v' Hi). lia.
  - apply (IH (S n)). intros i k v Hi. rewrite (Hn (S i) k v Hi). lia.
Qed.

Lemma slots_Some l k v : slots_ok l -> slots_map l !! k = Some v <-> exists i, l !! i = Some (Some (k, v)).
Proof. intros H. unfold slots_map. rewrite <- elem_of_list_to_map by by apply slots_NoDup. apply slots_elem. Qed.

Lemma slots_lookup l k : slots_ok l ->
  slots_map l !! k = match l !! ix k with Some (Some (k', v)) => if k' =? k then Some v else None | _ => None end.
Proof.
  intros H. apply option_eq. intros v. rewrite slots_Some by done. split.
  - intros [i Hi]. rewrite (H i k v Hi), Hi. by rewrite Z.eqb_refl.
  - destruct (l !! ix k) as [[[k' v']|]|] eqn:E; [|done..]. destruct (Z.eqb_spec k' k) as [->|]; [|done]. intros [= ->]. by exists (ix k).
Qed.

Definition row_del (x : row) (m : gmap Z V) : gmap Z V := match x with Some (k, _) => delete k m | None => m end.

Definition row_add (x : row) (m : gmap Z V) : gmap Z V := match x with Some (k, v) => <[k := v]> m | None => m end.

(** One entry is changed. *)
Lemma slots_put l i x y : slots_ok l -> l !! i = Some x -> slots_ok (<[i := y]> l) -> slots_map (<[i := y]> l) = row_add y (row_del x (slots_map l)).
Proof.
  intros H Hi H'. pose proof (lookup_lt_Some _ _ _ Hi) as Hlt. apply map_eq. intros k. rewrite slots_lookup by done.
  assert (forall k v, y = Some (k, v) -> ix k = i) as Hy by (intros k' v' ->; eapply H'; by apply list_lookup_insert_eq).
  assert (forall k v, x = Some (k, v) -> ix k = i) as Hx by (intros k' v' ->; by eapply H).
  assert (row_del x (slots_map l) !! k = if decide (ix k = i) then None else slots_map l !! k) as Ed.
  { destruct x as [[k' v']|]; cbn; case_decide as E.
    - destruct (decide (k = k')) as [->|Hk]; [by rewrite lookup_delete_eq|]. rewrite lookup_delete_ne, slots_lookup, E, Hi by done.
      by destruct (Z.eqb_spec k' k).
    - rewrite lookup_delete_ne; [done|]. intros ->. by eapply E, Hx.
    - by rewrite slots_lookup, E, Hi.
    - done. }
  destruct y as [[k' v']|]; cbn.
  - destruct (decide (k = k')) as [->|Hk].
    + rewrite lookup_insert_eq, (Hy k' v' eq_refl), list_lookup_insert_eq by done. by rewrite Z.eqb_refl.
    + rewrite lookup_insert_ne, Ed by done. case_decide as E; [rewrite E, list_lookup_insert_eq by done; by destruct (Z.eqb_spec k' k)|].
      by rewrite list_lookup_insert_ne, slots_lookup by done.
  - rewrite Ed. case_decide as E; [by rewrite E, list_lookup_insert_eq|]. by rewrite list_lookup_insert_ne, slots_lookup.
Qed.

Lemma slots_ok_put l i x y : slots_ok l -> l !! i = Some x -> (forall k v, y = Some (k, v) -> ix k = i) -> slots_ok (<[i := y]> l).
Proof.
  intros H Hi Hy j k v Hj. apply list_lookup_insert_Some in Hj as [(<- & -> & _)|[_ Hj]]; [by eapply Hy|by eapply H].
Qed.

(** A key that belongs to an entry with another key, or none, is not there. *)
Lemma slots_fresh l i k x : slots_ok l -> l !! i = Some x -> ix k = i -> (forall v, x <> Some (k, v)) -> slots_map l !! k = None.
Proof.
  intros H Hi Hk Hx. rewrite slots_lookup, Hk, Hi by done. destruct x as [[k' v']|]; [|done]. destruct (Z.eqb_spec k' k) as [->|]; [by destruct (Hx v')|done].
Qed.

Lemma slots_size l : slots_ok l -> size (slots_map l) = length (omap (fun x => x) l).
Proof. intros H. unfold slots_map. by rewrite map_size_list_to_map by by apply slots_NoDup. Qed.

Lemma slots_full l : slots_ok l -> (forall x, x ∈ l -> x <> None) -> size (slots_map l) = length l.
Proof.
  intros H Hl. rewrite slots_size by done. clear H. induction l as [|[x|] l IH]; cbn; [done| |].
  - f_equal. apply IH. intros y Hy. apply Hl. by right.
  - by destruct (Hl None ltac:(left)).
Qed.

Lemma slots_not_full l i : slots_ok l -> l !! i = Some None -> (size (slots_map l) < length l)%nat.
Proof.
  intros H Hi. rewrite slots_size by done. clear H. induction l as [|x l IH] in i, Hi |- *; [done|].
  assert (forall l : list row, length (omap (fun x => x) l) <= length l)%nat as Hle.
  { clear. induction l as [|[x|] l IH]; cbn; lia. }
  destruct i as [|i]; cbn in Hi.
  - injection Hi as ->. cbn. specialize (Hle l). lia.
  - specialize (IH i Hi). destruct x; cbn; lia.
Qed.

End Slots.
