(* ===== verification/Stdio.v ===== *)
(** * The C library the tools use

    The conversions of [printf] and [sscanf] that the S-record tools use, and
    the part of [FILE] streams they depend on: [fgets], [fread], [fwrite],
    [fseek], [rewind] and [feof].  Characters are their codes in [Z]. *)

From S2P Require Import Prelude.

(** ** Formatted output *)

(** The digit characters of [%X]. *)
Definition hexdig (d : Z) : Z := if d <? 10 then 48 + d else 55 + d.

(** Digits of [v] in base [b], most significant first, no leading zero. *)
Fixpoint digits (fuel : nat) (b v : Z) (acc : list Z) : list Z :=
  match fuel with
  | O => acc
  | S k =>
      let acc' := hexdig (v mod b) :: acc in
      if v / b =? 0 then acc' else digits k b (v / b) acc'
  end.

(** [%0<w>X] of a 32-bit unsigned argument. *)
Definition fmt_X (w : nat) (v : Z) : list Z :=
  let ds := digits 8 16 v [] in replicate (w - length ds)%nat 48 ++ ds.

(** [%d] of an [int]. *)
Definition fmt_d (v : Z) : list Z :=
  if v <? 0 then 45 :: digits 10 10 (- v) [] else digits 10 10 v [].

(** ** Formatted input: [sscanf(s, "%d", &x)] *)

Definition isspace (c : Z) : bool := (c =? 32) || ((9 <=? c) && (c <=? 13)).

Definition isdigit (c : Z) : bool := (48 <=? c) && (c <=? 57).

Fixpoint skip_space (s : list Z) : list Z :=
  match s with
  | c :: s' => if isspace c then skip_space s' else s
  | [] => []
  end.

(** The decimal number a string starts with; [None] without a digit. *)
Fixpoint scan_digits (s : list Z) (acc : option Z) : option Z :=
  match s with
  | c :: s' => if isdigit c then scan_digits s' (Some (10 * default 0 acc + (c - 48))) else acc
  | [] => acc
  end.

Definition scan_signed (s : list Z) : option Z :=
  match s with
  | c :: s' =>
      if c =? 45 then Z.opp <$> scan_digits s' None
      else if c =? 43 then scan_digits s' None
      else scan_digits s None
  | [] => None
  end.

(** The new value of [x]: unchanged when nothing matches; the result is
    undefined when the number does not fit an [int]. *)
Definition sscanf_d (s : list Z) (x : Z) : outcome Z :=
  match scan_signed (skip_space s) with
  | None => Ret x
  | Some v =>
      if (-2147483648 <=? v) && (v <=? 2147483647) then Ret v else UB
  end.

(** ** Input streams *)

Record FILE := mkFILE {
  fcontent : list Z;  (* the bytes of the file *)
  fpos : nat;         (* the position of the next byte *)
  feof : bool         (* the end-of-file indicator *)
}.

Definition fopen_rb (content : list Z) : FILE := mkFILE content 0 false.

Definition frest (f : FILE) : list Z := drop (fpos f) (fcontent f).

(** [fseek(f, pos, SEEK_SET)] moves the position and clears the indicator. *)
Definition fseek_set (f : FILE) (pos : Z) : FILE := mkFILE (fcontent f) (Z.to_nat pos) false.

Definition rewind (f : FILE) : FILE := mkFILE (fcontent f) 0 false.

(** At most [n] characters up to and including a newline: the characters,
    and whether the end of the file was met. *)
Fixpoint take_line (n : nat) (s : list Z) : list Z * bool :=
  match n with
  | O => ([], false)
  | S k =>
      match s with
      | [] => ([], true)
      | c :: s' =>
          if c =? 10 then ([c], false)
          else let '(l, e) := take_line k s' in (c :: l, e)
      end
  end.

(** [fgets(line, n, f)]: the array is left as it is when the end of the file
    comes before any character; bytes after the terminator keep their values. *)
Definition fgets (line : list Z) (n : nat) (f : FILE) : list Z * FILE :=
  let '(l, e) := take_line (n - 1) (frest f) in
  let f' := mkFILE (fcontent f) (fpos f + length l) (feof f || e) in
  match l with
  | [] => (line, f')
  | _ => (l ++ 0 :: drop (S (length l)) line, f')
  end.

(** [fread(buf, 1, n, f)]: a short count leaves the rest of the array. *)
Definition fread (buf : list Z) (n : nat) (f : FILE) : list Z * FILE :=
  let got := take n (frest f) in
  (got ++ drop (length got) buf,
   mkFILE (fcontent f) (fpos f + length got) (feof f || bool_decide (length got < n)%nat)).

(** ** Output streams: [fseek(f, pos, SEEK_SET)] then [fwrite(data, 1, n, f)] *)

(** A write past the end leaves a gap of zeros; an empty write does nothing. *)
Definition fwrite_at (out : list Z) (pos : nat) (data : list Z) : list Z :=
  match data with
  | [] => out
  | _ => take pos (out ++ replicate (pos - length out)%nat 0) ++ data
           ++ drop (pos + length data) out
  end.

(** ** Lemmas *)

Lemma hexdig_byte d : 0 <= d < 16 -> is_byte (hexdig d).
Proof. intros H. unfold hexdig, is_byte. destruct (Z.ltb_spec d 10); lia. Qed.

Lemma hexdig_printable d : 0 <= d < 16 -> 48 <= hexdig d <= 70.
Proof. intros H. unfold hexdig. destruct (Z.ltb_spec d 10); lia. Qed.

(** [%02X] of a byte is its two digits. *)
Lemma fmt_X2 v : is_byte v -> fmt_X 2 v = [hexdig (v / 16); hexdig (v mod 16)].
Proof.
  intros H. apply (bool_decide_eq_true_1 (fmt_X 2 v = [hexdig (v / 16); hexdig (v mod 16)])).
  revert v H. apply byte_forall. vm_compute. reflexivity.
Qed.

Lemma fmt_X2_length v : is_byte v -> length (fmt_X 2 v) = 2%nat.
Proof. intros H. by rewrite fmt_X2. Qed.

Lemma digits_printable fuel b v acc :
  2 <= b <= 16 -> Forall (fun c => 48 <= c <= 70) acc ->
  Forall (fun c => 48 <= c <= 70) (digits fuel b v acc).
Proof.
  intros Hb. revert v acc. induction fuel as [|k IH]; intros v acc Hacc; simpl; [done|].
  assert (Forall (fun c => 48 <= c <= 70) (hexdig (v mod b) :: acc)).
  { constructor; [|done]. apply hexdig_printable.
    pose proof (Z.mod_pos_bound v b). lia. }
  destruct (v / b =? 0); auto.
Qed.

Lemma fmt_X_printable w v : Forall (fun c => 48 <= c <= 70) (fmt_X w v).
Proof.
  unfold fmt_X. apply Forall_app. split.
  - apply Forall_replicate. lia.
  - by apply digits_printable.
Qed.

Lemma digits_length fuel b v acc :
  (length (digits fuel b v acc) <= fuel + length acc)%nat.
Proof.
  revert v acc. induction fuel as [|k IH]; intros v acc; simpl; [lia|].
  destruct (v / b =? 0); simpl; [lia|]. etrans; [apply IH|]. simpl. lia.
Qed.

Lemma fmt_X_length_le w v : (length (fmt_X w v) <= Nat.max w 8)%nat.
Proof.
  unfold fmt_X. rewrite length_app, length_replicate.
  pose proof (digits_length 8 16 v []) as H. cbn [length] in H. lia.
Qed.

(** A line that ends in a newline is read whole. *)
Lemma take_line_newline n l rest :
  Forall (fun c => c <> 10) l -> (length l < n)%nat ->
  take_line n (l ++ 10 :: rest) = (l ++ [10], false).
Proof.
  intros Hl. revert n. induction Hl as [|c l Hc Hl IH]; intros [|n] Hn; simpl in *; try lia.
  - done.
  - destruct (Z.eqb_spec c 10); [done|]. rewrite IH by lia. done.
Qed.

Lemma fgets_newline line n content pos e l rest :
  drop pos content = l ++ 10 :: rest ->
  Forall (fun c => c <> 10) l -> (length l + 1 < n)%nat ->
  fgets line n (mkFILE content pos e)
  = (l ++ [10] ++ 0 :: drop (length l + 2) line, mkFILE content (pos + (length l + 1)) e).
Proof.
  intros Hd Hl Hn. unfold fgets, frest. simpl. rewrite Hd, take_line_newline by (auto; lia).
  rewrite length_app, orb_false_r. simpl.
  destruct (l ++ [10]) eqn:E; [by destruct l|]. rewrite <- E, <- app_assoc.
  replace (S (length l + 1)) with (length l + 2)%nat by lia. done.
Qed.

(** At the end of the file nothing is read and the array is kept. *)
Lemma fgets_eof line n content pos e :
  (1 < n)%nat -> drop pos content = [] ->
  fgets line n (mkFILE content pos e) = (line, mkFILE content pos true).
Proof.
  intros Hn Hd. unfold fgets, frest. simpl. rewrite Hd.
  destruct (n - 1)%nat eqn:E; [lia|]. simpl.
  by rewrite Nat.add_0_r, orb_true_r.
Qed.

(** [fgets] makes progress unless it meets the end of the file. *)
Lemma take_line_progress n s l e :
  (0 < n)%nat -> take_line n s = (l, e) -> e = false -> (0 < length l)%nat.
Proof.
  destruct n as [|n]; [lia|]. intros _. destruct s as [|c s]; simpl; [by intros [= <- <-]|].
  destruct (c =? 10); [intros [= <- <-] _; simpl; lia|].
  destruct (take_line n s). intros [= <- <-] _. simpl. lia.
Qed.

Lemma take_line_length n s l e : take_line n s = (l, e) -> (length l <= length s)%nat.
Proof.
  revert s l e. induction n as [|n IH]; intros [|c s] l e; simpl; try by intros [= <- <-]; simpl; lia.
  destruct (c =? 10); [intros [= <- <-]; simpl; lia|].
  destruct (take_line n s) as [l' e'] eqn:E. intros [= <- <-]. apply IH in E. simpl. lia.
Qed.

(** Writing the next chunk of a file in place. *)
Lemma fwrite_at_in_range out pos data :
  (pos + length data <= length out)%nat ->
  fwrite_at out pos data = take pos out ++ data ++ drop (pos + length data) out.
Proof.
  intros H. unfold fwrite_at. destruct data as [|b data'].
  - simpl. rewrite Nat.add_0_r. symmetry. apply take_drop.
  - replace (pos - length out)%nat with 0%nat by lia. simpl. by rewrite app_nil_r.
Qed.

Lemma length_fwrite_at out pos data :
  (pos + length data <= length out)%nat -> length (fwrite_at out pos data) = length out.
Proof.
  intros H. rewrite fwrite_at_in_range, !length_app, length_take, length_drop by done. lia.
Qed.
