(* ===== verification/Bin2Srec.v ===== *)
(** * bin2srec: binary file to Motorola S-records (bin2srec/bin2srec.c)

    The globals the options set are the record [opts]; [process] prints the
    records of the selected part of the file; [main] reads the options, opens
    the file and runs [process].  The model keeps standard output, the exit
    code, and the contents [buf0] of the uninitialised line buffer; the
    progress text on standard error is left out. *)

From S2P Require Import Prelude.
From S2P Require Import Stdio.

(** * Functions shared by bin2srec and srec2bin (bin2srec/common.c)

    [char_to_uint] and [str_to_uint32] read hexadecimal text, [file_size] is
    the size of an open file as a 32-bit object. *)

Definition char_to_uint (c : Z) : Z :=
  if (48 <=? c) && (c <=? 57) then c - 48
  else if (65 <=? c) && (c <=? 70) then c - 65 + 10
  else if (97 <=? c) && (c <=? 102) then c - 97 + 10
  else 0.

(** The loop of [str_to_uint32]: [n] is what is left of the eight digits. *)
Fixpoint str_to_uint32_loop (n : nat) (s : list Z) (res : Z) : Z :=
  match n, s with
  | S k, c :: s' => str_to_uint32_loop k s' (u32 (u32 (Z.shiftl res 4) + char_to_uint c))
  | _, _ => res
  end.

Definition str_to_uint32 (s : list Z) : Z := str_to_uint32_loop 8 s 0.

(** [fstat] succeeds on an open file, and [st_size] is cut to 32 bits. *)
Definition file_size (f : FILE) : Z := u32 (Z.of_nat (length (fcontent f))).

(** ** Lemmas *)

Lemma char_to_uint_range c : 0 <= char_to_uint c < 16.
Proof.
  unfold char_to_uint.
  repeat match goal with |- context [if ?b then _ else _] => destruct b eqn:? end; lia.
Qed.

(** Reading a digit back gives its value. *)
Lemma char_to_uint_hexdig d : 0 <= d < 16 -> char_to_uint (hexdig d) = d.
Proof.
  intros H. unfold char_to_uint, hexdig. destruct (Z.ltb_spec d 10).
  - rewrite (proj2 (Z.leb_le _ _)), (proj2 (Z.leb_le _ _)) by lia. simpl. lia.
  - rewrite (proj2 (Z.leb_le 48 _)), (proj2 (Z.leb_gt _ 57)) by lia.
    rewrite (proj2 (Z.leb_le 65 _)), (proj2 (Z.leb_le _ 70)) by lia. simpl. lia.
Qed.

Lemma str_to_uint32_loop_range n s res : is_u32 res -> is_u32 (str_to_uint32_loop n s res).
Proof.
  revert s res. induction n as [|n IH]; intros [|c s] res H; simpl; auto with nios.
Qed.

Lemma str_to_uint32_range s : is_u32 (str_to_uint32 s).
Proof. apply str_to_uint32_loop_range. by vm_compute. Qed.

(** Two hexadecimal digits read as the byte they print. *)
Lemma byte_of_digits v :
  is_byte v ->
  Z.shiftl (char_to_uint (hexdig (v / 16))) 4 + char_to_uint (hexdig (v mod 16)) = v.
Proof.
  unfold is_byte. intros H.
  assert (0 <= v / 16 < 16) by (split; [apply Z.div_pos; lia | apply Z.div_lt_upper_bound; lia]).
  pose proof (Z.mod_pos_bound v 16).
  rewrite !char_to_uint_hexdig, Z.shiftl_mul_pow2 by lia.
  pose proof (Z.div_mod v 16). change (2 ^ 4) with 16. lia.
Qed.

(** * The theorems *)

(** The globals; [end_specified] and [offset_specified] are locals of [main]. *)
Record opts := mkOpts {
  filename : option (list Z);
  addr_offset : Z;
  begin_addr : Z;
  end_addr : Z;
  addr_bytes : Z;
  do_headers : bool;
  verbose : bool;
  line_length : Z;
  offset_specified : bool;
  end_specified : bool
}.

Definition opts0 : opts := mkOpts None 0 0 0 2 true true 32 false false.

Definition set_filename (o : opts) (v : list Z) : opts :=
  mkOpts (Some v) (addr_offset o) (begin_addr o) (end_addr o) (addr_bytes o) (do_headers o)
    (verbose o) (line_length o) (offset_specified o) (end_specified o).

Definition set_offset (o : opts) (v : Z) : opts :=
  mkOpts (filename o) v (begin_addr o) (end_addr o) (addr_bytes o) (do_headers o)
    (verbose o) (line_length o) true (end_specified o).

Definition set_begin (o : opts) (v : Z) : opts :=
  mkOpts (filename o) (addr_offset o) v (end_addr o) (addr_bytes o) (do_headers o)
    (verbose o) (line_length o) (offset_specified o) (end_specified o).

Definition set_end (o : opts) (v : Z) : opts :=
  mkOpts (filename o) (addr_offset o) (begin_addr o) v (addr_bytes o) (do_headers o)
    (verbose o) (line_length o) (offset_specified o) true.

Definition set_addr_bytes (o : opts) (v : Z) : opts :=
  mkOpts (filename o) (addr_offset o) (begin_addr o) (end_addr o) v (do_headers o)
    (verbose o) (line_length o) (offset_specified o) (end_specified o).

Definition set_line_length (o : opts) (v : Z) : opts :=
  mkOpts (filename o) (addr_offset o) (begin_addr o) (end_addr o) (addr_bytes o) (do_headers o)
    (verbose o) v (offset_specified o) (end_specified o).

Definition set_do_headers (o : opts) (v : bool) : opts :=
  mkOpts (filename o) (addr_offset o) (begin_addr o) (end_addr o) (addr_bytes o) v
    (verbose o) (line_length o) (offset_specified o) (end_specified o).

Definition set_verbose (o : opts) (v : bool) : opts :=
  mkOpts (filename o) (addr_offset o) (begin_addr o) (end_addr o) (addr_bytes o) (do_headers o)
    v (line_length o) (offset_specified o) (end_specified o).

(** ** process *)

(** The address bytes, most significant first, and the running checksum. *)
Fixpoint print_address (n : nat) (address checksum : Z) : list Z * Z :=
  match n with
  | O => ([], checksum)
  | S i =>
      let c := Z.land (Z.shiftr address (Z.shiftl (Z.of_nat i) 3)) 255 in
      let '(out, ck) := print_address i address (u8 (checksum + c)) in
      (fmt_X 2 c ++ out, ck)
  end.

(** The data bytes and the running checksum. *)
Fixpoint print_data (data : list Z) (checksum : Z) : list Z * Z :=
  match data with
  | [] => ([], checksum)
  | b :: data' =>
      let '(out, ck) := print_data data' (u8 (checksum + b)) in
      (fmt_X 2 b ++ out, ck)
  end.

(** One data record: type, count, address, data, checksum, newline. *)
Definition print_record (addr_bytes address : Z) (data : list Z) : list Z :=
  let byte_count := addr_bytes + Z.of_nat (length data) + 1 in
  let '(addr_out, ck1) := print_address (Z.to_nat addr_bytes) address (u8 byte_count) in
  let '(data_out, ck2) := print_data data ck1 in
  codes "S" ++ fmt_d (addr_bytes - 1) ++ fmt_X 2 byte_count ++ addr_out ++ data_out
    ++ fmt_X 2 (255 - ck2) ++ [10].

(** The loop over the lines; the counter [address] is a 32-bit object. *)
Fixpoint record_loop (fuel : nat) (addr_bytes line_length max_addr address : Z)
    (infile : FILE) (buf : list Z) (record_count : Z) (out : list Z) : outcome (list Z * Z) :=
  match fuel with
  | O => NoFuel
  | S k =>
      if address <=? max_addr then
        let this_line := cmin line_length (u32 (1 + max_addr - address)) in
        let '(buf', infile') := fread buf (Z.to_nat this_line) infile in
        let rec := print_record addr_bytes address (take (Z.to_nat this_line) buf') in
        record_loop k addr_bytes line_length max_addr (u32 (address + line_length))
          infile' buf' (s32 (record_count + 1)) (out ++ rec)
      else Ret (out, record_count)
  end.

(** The count record S5 and the termination record S7, S8 or S9. *)
Definition print_footer (addr_bytes addr_offset record_count : Z) : list Z :=
  let checksum :=
    u8 (3 + Z.land record_count 255 + Z.land (Z.shiftr record_count 8) 255) in
  let byte_count := addr_bytes + 1 in
  let '(addr_out, ck) := print_address (Z.to_nat addr_bytes) addr_offset (u8 byte_count) in
  codes "S503" ++ fmt_X 4 (u32 record_count) ++ fmt_X 2 (255 - checksum) ++ [10]
    ++ codes "S" ++ fmt_d (11 - addr_bytes) ++ fmt_X 2 byte_count
    ++ addr_out ++ fmt_X 2 (255 - ck) ++ [10].

(** The address width [process] settles on. *)
Definition final_addr_bytes (addr_bytes max_addr : Z) : Z :=
  let a := if (65535 <? max_addr) && (addr_bytes <? 3) then 3 else addr_bytes in
  if (16777215 <? max_addr) && (a <? 4) then 4 else a.

Definition process (fuel : nat) (o : opts) (infile : FILE) (buf0 : list Z) : outcome (list Z) :=
  let max_addr := u32 (addr_offset o + u32 (end_addr o - begin_addr o)) in
  let infile := fseek_set infile (begin_addr o) in
  let ab := final_addr_bytes (addr_bytes o) max_addr in
  let header := if do_headers o then codes "S00600004844521B" ++ [10] else [] in
  '(out, record_count) ← record_loop fuel ab (line_length o) max_addr (addr_offset o)
                           infile buf0 0 header;
  mret (out ++ if do_headers o then print_footer ab (addr_offset o) record_count else []).

(** ** main *)

Definition streq (a b : list Z) : bool := bool_decide (a = b).

(** The option loop: [inr tt] is the exit of [-h]; an option without its
    argument dereferences the null pointer at the end of [argv]. *)
Fixpoint parse_args (argv : list (list Z)) (o : opts) : outcome (opts + unit) :=
  match argv with
  | [] => Ret (inl o)
  | a :: rest =>
      if streq a (codes "-o") then
        match rest with
        | [] => UB
        | v :: rest' => parse_args rest' (set_offset o (str_to_uint32 v))
        end
      else if streq a (codes "-b") then
        match rest with
        | [] => UB
        | v :: rest' => parse_args rest' (set_begin o (str_to_uint32 v))
        end
      else if streq a (codes "-e") then
        match rest with
        | [] => UB
        | v :: rest' => parse_args rest' (set_end o (str_to_uint32 v))
        end
      else if streq a (codes "-a") then
        match rest with
        | [] => UB
        | v :: rest' =>
            match sscanf_d v (addr_bytes o) with
            | Ret n => parse_args rest' (set_addr_bytes o (cmin 4 (cmax 2 n)))
            | _ => UB
            end
        end
      else if streq a (codes "-l") then
        match rest with
        | [] => UB
        | v :: rest' =>
            match sscanf_d v (line_length o) with
            | Ret n => parse_args rest' (set_line_length o (cmin 32 (cmax 8 n)))
            | _ => UB
            end
        end
      else if streq a (codes "-s") then parse_args rest (set_do_headers o false)
      else if streq a (codes "-q") then parse_args rest (set_verbose o false)
      else if streq (take 2 a) (codes "-h") then Ret (inr tt)
      else parse_args rest (set_filename o a)
  end.

(** [main]: the exit code and what was printed. *)
Definition main (fuel : nat) (argv : list (list Z)) (fs : list Z -> option (list Z))
    (buf0 : list Z) : outcome (Z * list Z) :=
  r ← parse_args argv opts0;
  match r with
  | inr _ => Ret (0, [])
  | inl o =>
      match filename o with
      | None => Ret (1, [])
      | Some name =>
          match fs name with
          | None => Ret (2, [])
          | Some content =>
              let infile := fopen_rb content in
              let size := u32 (file_size infile - 1) in
              let o_end := set_end o (if end_specified o then cmin size (end_addr o) else size) in
              if size <? begin_addr o_end then Ret (3, [])
              else if end_addr o_end <? begin_addr o_end then Ret (3, [])
              else
                let o' := if offset_specified o_end then o_end
                          else set_offset o_end (begin_addr o_end) in
                out ← process fuel o' infile buf0;
                Ret (0, out)
          end
      end
  end.
