(* ===== verification/Srec2Bin.v ===== *)
(** * srec2bin: Motorola S-records to a binary file (bin2srec/srec2bin.c)

    [parse] runs twice over the input: the first pass ([scan]) finds the
    address range, the second writes the data records into the output, which
    [process] has filled with the filler byte.  The line array of 1024 bytes
    keeps the bytes of earlier lines after the terminator of a shorter line,
    as the C array does.  The 32-byte data buffer is on the stack: a record
    with more data bytes, or with a count smaller than its own header, is
    undefined behaviour in the writing pass. *)

From S2P Require Import Prelude.
From S2P Require Import Stdio.
From S2P Require Import Bin2Srec.

Definition LINE_LEN : nat := 1024.

(** A character of the line array. *)
Definition ch (line : list Z) (i : nat) : Z := nth i line 0.

(** The address loop, [n] digits from index [i]. *)
Fixpoint read_address (n : nat) (line : list Z) (i : nat) (address : Z) : Z :=
  match n with
  | O => address
  | S k => read_address k line (S i) (u32 (u32 (Z.shiftl address 4) + char_to_uint (ch line i)))
  end.

(** The data loop, [n] bytes from index [i]; [buf] is an array of [uint8_t]. *)
Fixpoint read_data (n : nat) (line : list Z) (i : nat) : list Z :=
  match n with
  | O => []
  | S k =>
      u8 (Z.shiftl (char_to_uint (ch line i)) 4 + char_to_uint (ch line (S i)))
        :: read_data k line (S (S i))
  end.

(** The variables [parse] changes: [*max], [*min] and the output file. *)
Record pstate := mkP { pmax : Z; pmin : Z; pout : list Z }.

(** One line: [min_addr] is the global the second pass subtracts. *)
Definition parse_line (scan : bool) (min_addr : Z) (line : list Z) (st : pstate)
    : outcome pstate :=
  if ch line 0 =? 83 then
    let rec_type := ch line 1 - 48 in
    if (1 <=? rec_type) && (rec_type <=? 3) then
      let addr_bytes := rec_type + 1 in
      let address := read_address (Z.to_nat (addr_bytes * 2)) line 4 0 in
      let byte_count :=
        Z.shiftl (char_to_uint (ch line 2)) 4 + char_to_uint (ch line 3) - (addr_bytes + 1) in
      if scan then
        let min' := if address <? pmin st then address else pmin st in
        let top := u32 (address + byte_count) in
        let max' := if pmax st <? top then top else pmax st in
        Ret (mkP max' min' (pout st))
      else if (byte_count <? 0) || (32 <? byte_count) then UB
      else
        let pos := u32 (address - min_addr) in
        let data := read_data (Z.to_nat byte_count) line (Z.to_nat (addr_bytes * 2 + 4)) in
        Ret (mkP (pmax st) (pmin st) (fwrite_at (pout st) (Z.to_nat pos) data))
    else Ret st
  else Ret st.

(** The loop [do ... while (!feof(infile))]. *)
Fixpoint parse_loop (fuel : nat) (scan : bool) (min_addr : Z) (line : list Z) (infile : FILE)
    (st : pstate) : outcome pstate :=
  match fuel with
  | O => NoFuel
  | S k =>
      let '(line', infile') := fgets line LINE_LEN infile in
      st' ← parse_line scan min_addr line' st;
      if feof infile' then mret st' else parse_loop k scan min_addr line' infile' st'
  end.

Definition parse (scan : bool) (min_addr : Z) (infile : FILE) (st : pstate)
    : outcome (pstate * FILE) :=
  st' ← parse_loop (S (length (fcontent infile))) scan min_addr (replicate LINE_LEN 0) infile st;
  mret (mkP (u32 (pmax st' - 1)) (pmin st') (pout st'), rewind infile).

(** The globals the options set. *)
Record opts := mkOpts {
  infilename : option (list Z);
  outfilename : option (list Z);
  g_max_addr : Z;
  g_min_addr : Z;
  filler : Z;
  verbose : bool
}.

Definition opts0 : opts := mkOpts None None 0 0 255 true.

(** [process]: the output file, [None] when it cannot be created. *)
Definition process (o : opts) (infile : FILE) (can_create : bool) : outcome (option (list Z)) :=
  '(st, infile) ← parse true 0 infile (mkP 0 4294967295 []);
  let min_addr := cmin (g_min_addr o) (pmin st) in
  let max_addr := cmax (pmax st) (u32 (min_addr + g_max_addr o)) in
  let blocks := u32 (max_addr - min_addr + 1) / 32 in
  let remain := u32 (max_addr - min_addr + 1) mod 32 in
  if can_create then
    let fill := replicate (Z.to_nat (blocks * 32 + remain)) (filler o) in
    '(st2, _) ← parse false min_addr infile (mkP (pmax st) (pmin st) fill);
    mret (Some (pout st2))
  else mret None.

Definition streq (a b : list Z) : bool := bool_decide (a = b).

(** The option loop. A file name takes the next argument too, which is the
    null pointer at the end of [argv]. *)
Fixpoint parse_args (argv : list (list Z)) (o : opts) : outcome (opts + unit) :=
  match argv with
  | [] => Ret (inl o)
  | a :: rest =>
      if streq a (codes "-q") then
        parse_args rest (mkOpts (infilename o) (outfilename o) (g_max_addr o) (g_min_addr o)
                           (filler o) false)
      else if streq a (codes "-a") then
        match rest with
        | [] => UB
        | v :: rest' =>
            parse_args rest' (mkOpts (infilename o) (outfilename o) (u32 (str_to_uint32 v - 1))
                                (g_min_addr o) (filler o) (verbose o))
        end
      else if streq a (codes "-o") then
        match rest with
        | [] => UB
        | v :: rest' =>
            parse_args rest' (mkOpts (infilename o) (outfilename o) (g_max_addr o)
                                (str_to_uint32 v) (filler o) (verbose o))
        end
      else if streq a (codes "-f") then
        match rest with
        | [] => UB
        | v :: rest' =>
            parse_args rest' (mkOpts (infilename o) (outfilename o) (g_max_addr o) (g_min_addr o)
                                (Z.land (str_to_uint32 v) 255) (verbose o))
        end
      else if streq (take 2 a) (codes "-h") then Ret (inr tt)
      else
        match rest with
        | [] => Ret (inl (mkOpts (Some a) None (g_max_addr o) (g_min_addr o) (filler o) (verbose o)))
        | v :: rest' =>
            parse_args rest' (mkOpts (Some a) (Some v) (g_max_addr o) (g_min_addr o)
                                (filler o) (verbose o))
        end
  end.

(** [main]: the exit code and, when the output file was created, its bytes. *)
Definition main (argv : list (list Z)) (fs : list Z -> option (list Z))
    (can_create : list Z -> bool) : outcome (Z * option (list Z)) :=
  r ← parse_args argv opts0;
  match r with
  | inr _ => Ret (0, None)
  | inl o =>
      match infilename o, outfilename o with
      | None, _ => Ret (1, None)
      | Some _, None => Ret (1, None)
      | Some i, Some out =>
          match fs i with
          | None => Ret (2, None)
          | Some content =>
              res ← process o (fopen_rb content) (can_create out);
              Ret (0, res)
          end
      end
  end.
