(* ===== verification/SrecRoundtrip.v ===== *)
(** * S-record tools: format and round trip

    What bin2srec prints is a list of S-record lines whose data records cover
    the selected bytes in order; srec2bin reads such a list back into the same
    bytes.  The two programs are composed: [srec2bin (bin2srec file) = file]. *)

From S2P Require Import Prelude.
From S2P Require Import Stdio.
From S2P Require Import Bin2Srec.
From S2P Require Bin2Srec Srec2Bin.

(** ** The text of a record, without the running checksum *)

Definition hex_bytes (bs : list Z) : list Z := mjoin (fmt_X 2 <$> bs).

(** The address as [n] bytes, most significant first. *)
Fixpoint be_bytes (n : nat) (address : Z) : list Z :=
  match n with
  | O => []
  | S i => address / 256 ^ Z.of_nat i mod 256 :: be_bytes i address
  end.

(** The sum a record's checksum complements. *)
Definition sum8 (bs : list Z) : Z := foldl (fun a b => u8 (a + b)) 0 bs.

Definition rec_body (ab : nat) (address : Z) (data : list Z) : list Z :=
  (Z.of_nat ab + Z.of_nat (length data) + 1) :: be_bytes ab address ++ data.

(** A data record line, without its newline. *)
Definition rec_line (ab : nat) (address : Z) (data : list Z) : list Z :=
  83 :: (47 + Z.of_nat ab) :: hex_bytes (rec_body ab address data)
    ++ fmt_X 2 (255 - sum8 (rec_body ab address data)).

Lemma land_shiftr_byte address i :
  Z.land (Z.shiftr address (Z.shiftl (Z.of_nat i) 3)) 255 = address / 256 ^ Z.of_nat i mod 256.
Proof.
  rewrite land_255, Z.shiftl_mul_pow2, Z.shiftr_div_pow2 by lia.
  change (2 ^ 3) with 8. rewrite Z.mul_comm, Z.pow_mul_r by lia. done.
Qed.

Lemma be_bytes_ok n address : bytes_ok (be_bytes n address).
Proof.
  induction n as [|n IH]; simpl; constructor; [|done]. apply Z.mod_pos_bound. lia.
Qed.

Lemma be_bytes_length n address : length (be_bytes n address) = n.
Proof. induction n; simpl; lia. Qed.

Lemma foldl_u8_byte bs a : is_byte a -> is_byte (foldl (fun a b => u8 (a + b)) a bs).
Proof. revert a. induction bs as [|b bs IH]; intros a H; simpl; auto with nios. Qed.

Lemma sum8_byte bs : is_byte (sum8 bs).
Proof. apply foldl_u8_byte. by vm_compute. Qed.

Lemma print_address_eq n address ck :
  Bin2Srec.print_address n address ck
  = (hex_bytes (be_bytes n address), foldl (fun a b => u8 (a + b)) ck (be_bytes n address)).
Proof.
  revert ck. induction n as [|i IH]; intros ck; [done|].
  cbn [Bin2Srec.print_address be_bytes foldl]. rewrite land_shiftr_byte, IH. done.
Qed.

Lemma print_data_eq data ck :
  Bin2Srec.print_data data ck = (hex_bytes data, foldl (fun a b => u8 (a + b)) ck data).
Proof.
  revert ck. induction data as [|b data IH]; intros ck; [done|].
  cbn [Bin2Srec.print_data foldl]. by rewrite IH.
Qed.

Lemma hex_bytes_app a b : hex_bytes (a ++ b) = hex_bytes a ++ hex_bytes b.
Proof. unfold hex_bytes. by rewrite fmap_app, join_app. Qed.

Lemma hex_bytes_printable bs : Forall (fun c => 48 <= c <= 70) (hex_bytes bs).
Proof.
  induction bs as [|b bs IH]; [constructor|].
  apply Forall_app. split; [apply fmt_X_printable | done].
Qed.

Lemma hex_bytes_length bs : bytes_ok bs -> length (hex_bytes bs) = (2 * length bs)%nat.
Proof.
  induction 1 as [|b bs Hb Hbs IH]; [done|].
  change (hex_bytes (b :: bs)) with (fmt_X 2 b ++ hex_bytes bs).
  rewrite length_app, fmt_X2_length, IH by done. simpl. lia.
Qed.

(** The program's record is the specified line. *)
Lemma print_record_line ab address data :
  (2 <= ab <= 4)%nat -> (length data <= 32)%nat ->
  Bin2Srec.print_record (Z.of_nat ab) address data = rec_line ab address data ++ [10].
Proof.
  intros Hab Hd. unfold Bin2Srec.print_record, rec_line, sum8, rec_body.
  rewrite print_address_eq, print_data_eq, Nat2Z.id.
  cbn [foldl]. rewrite foldl_app, Z.add_0_l.
  change (hex_bytes (?x :: ?l)) with (fmt_X 2 x ++ hex_bytes l).
  rewrite hex_bytes_app.
  assert (fmt_d (Z.of_nat ab - 1) = [47 + Z.of_nat ab]) as ->.
  { destruct ab as [|[|[|[|[|]]]]]; try lia; reflexivity. }
  simpl. rewrite <- !app_assoc. done.
Qed.

(** ** Reading a record back *)

Lemma ch_drop line i c rest :
  drop i line = c :: rest -> Srec2Bin.ch line i = c /\ drop (S i) line = rest.
Proof.
  revert line. induction i as [|i IH]; intros line; simpl.
  - destruct line; [done|]. by intros [= -> ->].
  - destruct line; [done|]. intros H. by apply IH in H.
Qed.

(** Two characters that print a byte. *)
Lemma ch_byte line i b rest :
  is_byte b -> drop i line = fmt_X 2 b ++ rest ->
  Z.shiftl (char_to_uint (Srec2Bin.ch line i)) 4 + char_to_uint (Srec2Bin.ch line (S i)) = b
  /\ drop (S (S i)) line = rest.
Proof.
  intros Hb H. rewrite fmt_X2 in H by done.
  apply ch_drop in H as [-> H]. apply ch_drop in H as [-> H].
  split; [by apply byte_of_digits | done].
Qed.

Lemma u32_shift_add a d1 d2 :
  u32 (u32 (Z.shiftl (u32 (u32 (Z.shiftl a 4) + d1)) 4) + d2)
  = u32 (a * 256 + (Z.shiftl d1 4 + d2)).
Proof.
  rewrite !Z.shiftl_mul_pow2 by lia. change (2 ^ 4) with 16. unfold uwrap.
  rewrite Zplus_mod_idemp_l, <- Zplus_mod_idemp_l, Zmult_mod_idemp_l, Zplus_mod_idemp_l.
  rewrite Z.mul_add_distr_r, <- Z.add_assoc, <- Zplus_mod_idemp_l, Zmult_mod_idemp_l,
    Zplus_mod_idemp_l.
  f_equal. lia.
Qed.

Lemma read_address_step n line i a b rest :
  is_byte b -> drop i line = fmt_X 2 b ++ rest ->
  Srec2Bin.read_address (S (S n)) line i a
  = Srec2Bin.read_address n line (S (S i)) (u32 (a * 256 + b))
  /\ drop (S (S i)) line = rest.
Proof.
  intros Hb H. destruct (ch_byte line i b rest Hb H) as [Hv Hr].
  cbn [Srec2Bin.read_address]. rewrite u32_shift_add, Hv. done.
Qed.

Lemma be_split n address :
  address mod 256 ^ Z.of_nat (S n)
  = address / 256 ^ Z.of_nat n mod 256 * 256 ^ Z.of_nat n + address mod 256 ^ Z.of_nat n.
Proof.
  rewrite Nat2Z.inj_succ, Z.pow_succ_r, (Z.mul_comm 256) by lia.
  rewrite Z.rem_mul_r by (try apply Z.pow_nonzero; lia). lia.
Qed.

(** The address digits read as the address, modulo the width. *)
Lemma read_address_be n line i address a rest :
  drop i line = hex_bytes (be_bytes n address) ++ rest -> is_u32 a ->
  Srec2Bin.read_address (2 * n) line i a
  = u32 (a * 256 ^ Z.of_nat n + address mod 256 ^ Z.of_nat n)
  /\ drop (i + 2 * n) line = rest.
Proof.
  revert i a. induction n as [|n IH]; intros i a Hd Ha.
  - simpl. rewrite Z.mod_1_r, Z.add_0_r, Z.mul_1_r, u32_id, Nat.add_0_r by done. done.
  - cbn [be_bytes] in Hd.
    change (hex_bytes (?x :: ?l)) with (fmt_X 2 x ++ hex_bytes l) in Hd.
    rewrite <- app_assoc in Hd.
    replace (2 * S n)%nat with (S (S (2 * n))) by lia.
    edestruct (read_address_step (2 * n) line i a) as [-> Hd']; [|exact Hd|].
    { apply Z.mod_pos_bound. lia. }
    apply (IH (S (S i)) (u32 (a * 256 + _))) in Hd' as [-> Hd']; [|apply u32_range].
    split; [|rewrite <- Hd'; f_equal; lia].
    rewrite be_split. unfold uwrap.
    rewrite <- Zplus_mod_idemp_l, Zmult_mod_idemp_l, Zplus_mod_idemp_l. f_equal.
    rewrite Nat2Z.inj_succ, Z.pow_succ_r by lia. lia.
Qed.

Lemma read_data_hex data line i rest :
  bytes_ok data -> drop i line = hex_bytes data ++ rest ->
  Srec2Bin.read_data (length data) line i = data.
Proof.
  intros Hok. revert i. induction Hok as [|b data Hb Hdata IH]; intros i Hd; [done|].
  change (hex_bytes (b :: data)) with (fmt_X 2 b ++ hex_bytes data) in Hd.
  rewrite <- app_assoc in Hd. destruct (ch_byte line i b _ Hb Hd) as [Hv Hd'].
  cbn [length Srec2Bin.read_data]. by rewrite Hv, u8_id, (IH _ Hd').
Qed.

(** ** The effect of a line *)

(** A line of an S-record file: a data record, or one srec2bin ignores. *)
Inductive sline :=
| Data (address : Z) (data : list Z)
| Other (text : list Z).

Definition line_text (ab : nat) (l : sline) : list Z :=
  match l with
  | Data a d => rec_line ab a d
  | Other t => t
  end.

Definition line_ok (ab : nat) (l : sline) : Prop :=
  match l with
  | Data a d => 0 <= a < 256 ^ Z.of_nat ab /\ a + Z.of_nat (length d) < 4294967296
                /\ bytes_ok d /\ (length d <= 32)%nat
  | Other t => (2 <= length t <= 100)%nat /\ Forall (fun c => c <> 10) t
               /\ (forall c0 c1 t', t = c0 :: c1 :: t' -> c1 < 49 \/ 51 < c1)
  end.

(** What [parse] does with the line, as a function on its variables. *)
Definition line_effect (scan : bool) (m : Z) (l : sline) (st : Srec2Bin.pstate)
    : Srec2Bin.pstate :=
  match l with
  | Other _ => st
  | Data a d =>
      if scan then
        Srec2Bin.mkP (Z.max (Srec2Bin.pmax st) (a + Z.of_nat (length d)))
          (Z.min (Srec2Bin.pmin st) a) (Srec2Bin.pout st)
      else
        Srec2Bin.mkP (Srec2Bin.pmax st) (Srec2Bin.pmin st)
          (fwrite_at (Srec2Bin.pout st) (Z.to_nat (u32 (a - m))) d)
  end.

Lemma pow256_le ab : (ab <= 4)%nat -> 256 ^ Z.of_nat ab <= 4294967296.
Proof. intros H. change 4294967296 with (256 ^ 4). apply Z.pow_le_mono_r; lia. Qed.

(** The fields of a data record line, read by index as [parse] reads them. *)
Lemma rec_line_fields ab a d tail :
  (2 <= ab <= 4)%nat -> line_ok ab (Data a d) ->
  let line := rec_line ab a d ++ tail in
  Srec2Bin.ch line 0 = 83 /\ Srec2Bin.ch line 1 = 47 + Z.of_nat ab
  /\ Z.shiftl (char_to_uint (Srec2Bin.ch line 2)) 4 + char_to_uint (Srec2Bin.ch line 3)
     = Z.of_nat ab + Z.of_nat (length d) + 1
  /\ Srec2Bin.read_address (2 * ab) line 4 0 = a
  /\ Srec2Bin.read_data (length d) line (4 + 2 * ab) = d.
Proof.
  intros Hab (Ha & Htop & Hd & Hlen) line. pose proof (pow256_le ab ltac:(lia)).
  assert (drop 2 line = fmt_X 2 (Z.of_nat ab + Z.of_nat (length d) + 1)
            ++ (hex_bytes (be_bytes ab a) ++ (hex_bytes d
            ++ fmt_X 2 (255 - sum8 (rec_body ab a d)) ++ tail))) as H2.
  { unfold line, rec_line, rec_body at 1. simpl.
    change (hex_bytes (?x :: ?l)) with (fmt_X 2 x ++ hex_bytes l).
    rewrite hex_bytes_app, <- !app_assoc. done. }
  assert (is_byte (Z.of_nat ab + Z.of_nat (length d) + 1)) as Hb by (unfold is_byte; lia).
  destruct (ch_byte line 2 _ _ Hb H2) as [Hc H4].
  destruct (read_address_be ab line 4 a 0 _ H4 ltac:(done)) as [Hra Hd4].
  split_and!; [done..| |].
  - rewrite Hra, Z.mul_0_l, Z.add_0_l, (Z.mod_small a), u32_id by (unfold is_u32; lia). done.
  - by apply (read_data_hex d line _ _ Hd Hd4).
Qed.

Lemma parse_line_effect scan m ab l tail st :
  (2 <= ab <= 4)%nat -> line_ok ab l ->
  Srec2Bin.parse_line scan m (line_text ab l ++ tail) st = Ret (line_effect scan m l st).
Proof.
  intros Hab Hl. destruct l as [a d|t].
  - destruct (rec_line_fields ab a d tail Hab Hl) as (H0 & H1 & Hc & Hra & Hrd).
    destruct Hl as (Ha & Htop & Hd & Hlen). pose proof (pow256_le ab ltac:(lia)).
    unfold Srec2Bin.parse_line, line_text. rewrite H0, H1, Hc.
    replace (47 + Z.of_nat ab - 48) with (Z.of_nat ab - 1) by lia.
    replace (Z.of_nat ab - 1 + 1) with (Z.of_nat ab) by lia.
    replace (Z.to_nat (Z.of_nat ab * 2)) with (2 * ab)%nat by lia.
    replace (Z.to_nat (Z.of_nat ab * 2 + 4)) with (4 + 2 * ab)%nat by lia.
    replace (_ + _ + 1 - (_ + 1)) with (Z.of_nat (length d)) by lia.
    rewrite Hra, Nat2Z.id, Hrd, u32_id by (unfold is_u32; lia).
    rewrite (proj2 (Z.leb_le 1 _)), (proj2 (Z.leb_le _ 3)) by lia. simpl.
    rewrite (proj2 (Z.ltb_ge _ 0)), (proj2 (Z.ltb_ge 32 _)) by lia. simpl.
    destruct scan; [|done]. f_equal. f_equal.
    + destruct (Z.ltb_spec (Srec2Bin.pmax st) (a + Z.of_nat (length d))); lia.
    + destruct (Z.ltb_spec a (Srec2Bin.pmin st)); lia.
  - destruct Hl as (Hlen & _ & Ht). destruct t as [|c0 [|c1 t]]; simpl in Hlen; try lia.
    specialize (Ht c0 c1 t eq_refl). unfold Srec2Bin.parse_line, line_text. simpl.
    change (Srec2Bin.ch (c0 :: c1 :: t ++ tail) 0) with c0.
    change (Srec2Bin.ch (c0 :: c1 :: t ++ tail) 1) with c1.
    destruct (c0 =? 83); [|done].
    destruct (Z.leb_spec 1 (c1 - 48)), (Z.leb_spec (c1 - 48) 3); try done. lia.
Qed.

Lemma line_effect_idem scan m l st :
  line_effect scan m l (line_effect scan m l st) = line_effect scan m l st.
Proof.
  destruct l as [a d|t]; [|done]. unfold line_effect. destruct scan; simpl.
  - f_equal; lia.
  - f_equal. unfold fwrite_at. destruct d as [|b d]; [done|].
    set (p := Z.to_nat (u32 (a - m))). set (out := Srec2Bin.pout st).
    set (pre := take p (out ++ replicate (p - length out) 0)).
    assert (length pre = p) as Hp.
    { unfold pre. rewrite length_take, length_app, length_replicate. lia. }
    rewrite !length_app, Hp. replace (p - _)%nat with 0%nat by lia. simpl replicate.
    rewrite app_nil_r, take_app_exact by done. do 2 f_equal.
    rewrite app_assoc. apply drop_app_exact. rewrite length_app. lia.
Qed.

Lemma line_text_short ab l :
  (2 <= ab <= 4)%nat -> line_ok ab l ->
  Forall (fun c => c <> 10) (line_text ab l) /\ (length (line_text ab l) <= 100)%nat.
Proof.
  intros Hab Hl. destruct l as [a d|t]; simpl in *; [|split; [tauto|lia]].
  destruct Hl as (Ha & Htop & Hd & Hlen). unfold rec_line. split.
  - constructor; [lia|]. constructor; [lia|].
    apply Forall_app. split.
    + eapply Forall_impl; [|apply hex_bytes_printable]. simpl. lia.
    + eapply Forall_impl; [|apply fmt_X_printable]. simpl. lia.
  - assert (bytes_ok (rec_body ab a d)).
    { unfold rec_body. constructor; [unfold is_byte; lia|].
      apply Forall_app. split; [apply be_bytes_ok | done]. }
    simpl. rewrite length_app, hex_bytes_length by done.
    pose proof (fmt_X_length_le 2 (255 - sum8 (rec_body ab a d))) as Hx. simpl in Hx.
    unfold rec_body at 1. simpl. rewrite length_app, be_bytes_length. lia.
Qed.

(** ** A whole file of lines *)

Definition file_text (ab : nat) (ls : list sline) : list Z :=
  mjoin ((fun l => line_text ab l ++ [10]) <$> ls).

Lemma file_text_cons ab l ls :
  file_text ab (l :: ls) = line_text ab l ++ [10] ++ file_text ab ls.
Proof. unfold file_text. simpl. by rewrite <- app_assoc. Qed.

Definition file_effect (scan : bool) (m : Z) (ls : list sline) (st : Srec2Bin.pstate)
    : Srec2Bin.pstate := foldl (fun st l => line_effect scan m l st) st ls.

(** The loop runs every line, and the last one once more at the end of the
    file, which changes nothing. *)
Lemma parse_loop_lines scan m ab ls content pos line st fuel :
  (2 <= ab <= 4)%nat -> Forall (line_ok ab) ls -> ls <> [] ->
  drop pos content = file_text ab ls ->
  (length ls < fuel)%nat ->
  Srec2Bin.parse_loop fuel scan m line (mkFILE content pos false) st
  = Ret (file_effect scan m ls st).
Proof.
  intros Hab Hls. revert pos line st fuel.
  induction Hls as [|l ls Hl Hls IH]; intros pos line st fuel Hne Hd Hf; [done|].
  destruct fuel as [|fuel]; [lia|]. simpl in Hf. cbn [Srec2Bin.parse_loop].
  destruct (line_text_short ab l Hab Hl) as [Hnl Hlen].
  rewrite (fgets_newline line _ content pos false (line_text ab l) (file_text ab ls));
    [|by rewrite Hd, file_text_cons|done|unfold Srec2Bin.LINE_LEN; lia].
  rewrite (parse_line_effect scan m ab l) by done. simpl.
  assert (drop (pos + (length (line_text ab l) + 1)) content = file_text ab ls) as Hd'.
  { rewrite <- drop_drop, Hd, file_text_cons, app_assoc. apply drop_app_exact.
    by rewrite length_app. }
  destruct ls as [|l' ls'].
  - destruct fuel as [|fuel]; [lia|]. cbn [Srec2Bin.parse_loop].
    rewrite fgets_eof by (done || (unfold Srec2Bin.LINE_LEN; lia)).
    rewrite (parse_line_effect scan m ab l) by done. simpl. by rewrite line_effect_idem.
  - rewrite IH by (done || simpl in *; lia). done.
Qed.

Lemma file_text_length ab ls : (length ls <= length (file_text ab ls))%nat.
Proof.
  induction ls as [|l ls IH]; [simpl; lia|].
  rewrite file_text_cons, !length_app. simpl. lia.
Qed.

Lemma parse_file scan m ab ls st :
  (2 <= ab <= 4)%nat -> Forall (line_ok ab) ls -> ls <> [] ->
  Srec2Bin.parse scan m (fopen_rb (file_text ab ls)) st
  = Ret (let st' := file_effect scan m ls st in
         Srec2Bin.mkP (u32 (Srec2Bin.pmax st' - 1)) (Srec2Bin.pmin st') (Srec2Bin.pout st'),
         fopen_rb (file_text ab ls)).
Proof.
  intros Hab Hls Hne. unfold Srec2Bin.parse, fopen_rb.
  pose proof (file_text_length ab ls).
  rewrite (parse_loop_lines scan m ab ls); simpl; try done; lia.
Qed.

(** ** Data records that cover a range *)

(** The data records [ls] hold the bytes [d] in order from address [a]. *)
Inductive covers : Z -> list Z -> list sline -> Prop :=
| covers_nil a : covers a [] []
| covers_cons a c d ls :
    c <> [] -> (length c <= 32)%nat ->
    covers (a + Z.of_nat (length c)) d ls ->
    covers a (c ++ d) (Data a c :: ls).

Lemma covers_empty a ls : covers a [] ls -> ls = [].
Proof.
  intros H. remember [] as d eqn:E. destruct H as [|a c d ls Hc]; [done|]. by destruct c.
Qed.

Lemma covers_scan m a d ls st :
  covers a d ls -> d <> [] ->
  file_effect true m ls st
  = Srec2Bin.mkP (Z.max (Srec2Bin.pmax st) (a + Z.of_nat (length d)))
      (Z.min (Srec2Bin.pmin st) a) (Srec2Bin.pout st).
Proof.
  intros H. revert st. induction H as [a|a c d ls Hc Hlen H IH]; intros st Hne; [done|].
  unfold file_effect in *. cbn [foldl].
  destruct d as [|b d].
  - rewrite (covers_empty _ _ H). simpl. by rewrite app_nil_r.
  - rewrite IH by done. cbn [line_effect Srec2Bin.pmax Srec2Bin.pmin Srec2Bin.pout].
    rewrite length_app. f_equal; lia.
Qed.

Lemma covers_write m a d ls st :
  covers a d ls -> m <= a -> 0 <= m -> a + Z.of_nat (length d) < 4294967296 ->
  a + Z.of_nat (length d) - m <= Z.of_nat (length (Srec2Bin.pout st)) ->
  file_effect false m ls st
  = Srec2Bin.mkP (Srec2Bin.pmax st) (Srec2Bin.pmin st)
      (take (Z.to_nat (a - m)) (Srec2Bin.pout st) ++ d
         ++ drop (Z.to_nat (a - m) + length d) (Srec2Bin.pout st)).
Proof.
  intros H. revert st. induction H as [a|a c d ls Hc Hlen H IH]; intros st Hm Hm0 Hu Hl.
  - simpl. rewrite Nat.add_0_r, take_drop. by destruct st.
  - rewrite length_app in Hu, Hl. unfold file_effect in *. cbn [foldl].
    set (p := Z.to_nat (a - m)).
    assert (fwrite_at (Srec2Bin.pout st) p c
            = take p (Srec2Bin.pout st) ++ c ++ drop (p + length c) (Srec2Bin.pout st)) as Hw
      by (apply fwrite_at_in_range; lia).
    rewrite IH; simpl; rewrite ?u32_id by (unfold is_u32; lia); fold p;
      rewrite ?length_fwrite_at, ?Hw; try lia.
    replace (Z.to_nat (a + Z.of_nat (length c) - m)) with (p + length c)%nat by lia.
    f_equal.
    rewrite (app_assoc (take p _) c), take_app_exact
      by (rewrite length_app, length_take; lia).
    rewrite <- !app_assoc. do 3 f_equal. rewrite length_app.
    rewrite <- drop_drop, (app_assoc (take p _) c), drop_app_exact
      by (rewrite length_app, length_take; lia).
    rewrite drop_drop. f_equal. lia.
Qed.

Lemma covers_ok ab a d ls :
  covers a d ls -> bytes_ok d -> 0 <= a ->
  a + Z.of_nat (length d) <= 256 ^ Z.of_nat ab -> a + Z.of_nat (length d) < 4294967296 ->
  Forall (line_ok ab) ls.
Proof.
  intros H. induction H as [a|a c d ls Hc Hlen H IH]; intros Hok Ha Hp Hu; [constructor|].
  rewrite length_app in *. apply Forall_app in Hok as [? ?].
  assert (0 < length c)%nat by (destruct c; simpl in *; [done|lia]).
  constructor; [repeat split; try done; lia|]. apply IH; try done; lia.
Qed.

(** ** What bin2srec prints *)

Lemma record_loop_covers ab ll max a d more content pos e buf cnt out fuel :
  (2 <= ab <= 4)%nat -> 8 <= ll <= 32 -> 0 <= max -> max + ll < 4294967296 ->
  0 <= a <= max + ll -> Z.of_nat (length d) = Z.max 0 (max + 1 - a) ->
  drop pos content = d ++ more -> length buf = 32%nat ->
  (length d + 8 <= 8 * fuel)%nat ->
  exists ls cnt',
    Bin2Srec.record_loop fuel (Z.of_nat ab) ll max a (mkFILE content pos e) buf cnt out
    = Ret (out ++ file_text ab ls, cnt')
    /\ covers a d ls.
Proof.
  intros Hab Hll Hmax Hnw. revert a d pos e buf cnt out.
  induction fuel as [|fuel IH]; intros a d pos e buf cnt out Ha Hd Hdrop Hbuf Hf; [lia|].
  cbn [Bin2Srec.record_loop]. destruct (Z.leb_spec a max) as [Hle|Hgt].
  - rewrite u32_id, cmin_min by (unfold is_u32; lia).
    set (n := Z.to_nat (Z.min ll (1 + max - a))).
    set (c := take n d). set (d' := drop n d).
    assert (length c = n) as Hc by (unfold c; rewrite length_take; lia).
    assert (take n (frest (mkFILE content pos e)) = c) as Hgot.
    { unfold frest. simpl. rewrite Hdrop. unfold c. apply take_app_le. lia. }
    unfold fread. rewrite Hgot, Hc. simpl fcontent. simpl fpos.
    rewrite (take_app_exact c) by done. rewrite print_record_line by lia.
    rewrite u32_id by (unfold is_u32; lia).
    edestruct (IH (a + ll) d' (pos + n)%nat) as (ls & cnt' & -> & Hcov).
    + lia.
    + unfold d'. rewrite length_drop. lia.
    + rewrite <- drop_drop, Hdrop, drop_app_le by lia. reflexivity.
    + rewrite length_app, length_drop. lia.
    + unfold d'. rewrite length_drop. lia.
    + exists (Data a c :: ls), cnt'. rewrite file_text_cons. cbn [line_text].
      rewrite <- !app_assoc. split; [done|].
      rewrite <- (take_drop n d). fold c d'. constructor; [intros Hnil; rewrite Hnil in Hc; simpl in Hc; lia|lia|].
      destruct d' as [|b d''] eqn:Ed'; [rewrite (covers_empty _ _ Hcov); apply covers_nil|].
      rewrite Hc. unfold n. replace (Z.of_nat _) with ll; [done|].
      assert (length d' = (length d - n)%nat) as Hl' by (unfold d'; by rewrite length_drop).
      rewrite Ed' in Hl'. simpl in Hl'. lia.
  - exists [], cnt. unfold file_text. simpl. rewrite app_nil_r. split; [done|].
    destruct d; [constructor|simpl in Hd; lia].
Qed.

Lemma file_text_app ab l1 l2 : file_text ab (l1 ++ l2) = file_text ab l1 ++ file_text ab l2.
Proof. unfold file_text. by rewrite fmap_app, join_app. Qed.

Lemma file_effect_app scan m l1 l2 st :
  file_effect scan m (l1 ++ l2) st = file_effect scan m l2 (file_effect scan m l1 st).
Proof. apply foldl_app. Qed.

Lemma final_addr_bytes_fits ab0 max :
  2 <= ab0 <= 4 -> 0 <= max < 4294967296 ->
  exists ab, Bin2Srec.final_addr_bytes ab0 max = Z.of_nat ab /\ (2 <= ab <= 4)%nat
             /\ max < 256 ^ Z.of_nat ab.
Proof.
  intros Hab Hmax. unfold Bin2Srec.final_addr_bytes.
  assert (ab0 = 2 \/ ab0 = 3 \/ ab0 = 4) as [-> | [-> | ->]] by lia;
    destruct (Z.ltb_spec 65535 max), (Z.ltb_spec 16777215 max); simpl; try lia;
    first [exists 2%nat; change (256 ^ Z.of_nat 2) with 65536; lia
          |exists 3%nat; change (256 ^ Z.of_nat 3) with 16777216; lia
          |exists 4%nat; change (256 ^ Z.of_nat 4) with 4294967296; lia].
Qed.

(** The lines around the data records. *)
Definition header_lines (h : bool) : list sline :=
  if h then [Other (codes "S00600004844521B")] else [].

Definition footer_lines (h : bool) (ab : nat) (offset cnt : Z) : list sline :=
  if h then
    [Other (codes "S503" ++ fmt_X 4 (u32 cnt)
              ++ fmt_X 2 (255 - u8 (3 + Z.land cnt 255 + Z.land (Z.shiftr cnt 8) 255)));
     Other (83 :: (59 - Z.of_nat ab) :: fmt_X 2 (Z.of_nat ab + 1) ++ hex_bytes (be_bytes ab offset)
              ++ fmt_X 2 (255 - foldl (fun a b => u8 (a + b)) (u8 (Z.of_nat ab + 1))
                                  (be_bytes ab offset)))]
  else [].

Lemma header_lines_ok h ab : Forall (line_ok ab) (header_lines h).
Proof.
  destruct h; [|constructor]. constructor; [|constructor]. cbn [line_ok]. split_and!.
  - vm_compute. lia.
  - vm_compute. lia.
  - apply (bool_decide_eq_true_1 (Forall _ _)). reflexivity.
  - intros c0 c1 t' [= <- <- <-]. by left.
Qed.

Lemma printable_not_nl l : Forall (fun c => 48 <= c <= 70) l -> Forall (fun c => c <> 10) l.
Proof. apply Forall_impl. lia. Qed.

Lemma footer_lines_ok h ab offset cnt :
  (2 <= ab <= 4)%nat -> Forall (line_ok ab) (footer_lines h ab offset cnt).
Proof.
  intros Hab. destruct h; [|constructor].
  pose proof (fmt_X_length_le 4 (u32 cnt)). pose proof (fmt_X_length_le 2).
  pose proof (be_bytes_ok ab offset) as Hbe. pose proof (hex_bytes_length _ Hbe) as Hhl.
  rewrite be_bytes_length in Hhl.
  constructor; [|constructor; [|constructor]]; cbn [line_ok].
  - split_and!.
    + simpl. lia.
    + rewrite !length_app.
      specialize (H0 (255 - u8 (3 + Z.land cnt 255 + Z.land (Z.shiftr cnt 8) 255))).
      simpl in *. lia.
    + apply Forall_app. split; [by apply (bool_decide_eq_true_1 (Forall _ _))|].
      apply printable_not_nl, Forall_app. split; apply fmt_X_printable.
    + intros c0 c1 t' [= <- <- <-]. right. by vm_compute.
  - split_and!.
    + simpl. lia.
    + cbn [length]. rewrite !length_app, Hhl. pose proof (H0 (Z.of_nat ab + 1)) as H1.
      specialize (H0 (255 - foldl (fun a b => u8 (a + b)) (u8 (Z.of_nat ab + 1))
                              (be_bytes ab offset))).
      simpl in H0, H1. lia.
    + constructor; [lia|]. constructor; [lia|].
      apply printable_not_nl. rewrite !Forall_app.
      split_and!; (apply fmt_X_printable || apply hex_bytes_printable).
    + intros c0 c1 t' [= <- <- <-]. lia.
Qed.

Lemma print_footer_text ab offset cnt :
  (2 <= ab <= 4)%nat ->
  Bin2Srec.print_footer (Z.of_nat ab) offset cnt = file_text ab (footer_lines true ab offset cnt).
Proof.
  intros Hab. unfold Bin2Srec.print_footer. rewrite print_address_eq, Nat2Z.id.
  unfold footer_lines. rewrite !file_text_cons. cbn [line_text].
  unfold file_text at 1. simpl mjoin. rewrite app_nil_r.
  assert (fmt_d (11 - Z.of_nat ab) = [59 - Z.of_nat ab]) as ->.
  { destruct ab as [|[|[|[|[|]]]]]; try lia; reflexivity. }
  rewrite <- !app_assoc. simpl. rewrite <- !app_assoc. done.
Qed.

Lemma other_effect scan m h ab offset cnt st :
  file_effect scan m (header_lines h) st = st
  /\ file_effect scan m (footer_lines h ab offset cnt) st = st.
Proof. by destruct h. Qed.

(** bin2srec terminates and prints lines that cover the selected bytes. *)
Lemma bin2srec_covers fuel o content buf0 :
  bytes_ok content -> length buf0 = 32%nat ->
  2 <= Bin2Srec.addr_bytes o <= 4 -> 8 <= Bin2Srec.line_length o <= 32 ->
  0 <= Bin2Srec.begin_addr o <= Bin2Srec.end_addr o ->
  Bin2Srec.end_addr o < Z.of_nat (length content) ->
  0 <= Bin2Srec.addr_offset o ->
  Bin2Srec.addr_offset o + (Bin2Srec.end_addr o - Bin2Srec.begin_addr o)
    + Bin2Srec.line_length o < 4294967296 ->
  Bin2Srec.end_addr o - Bin2Srec.begin_addr o + 9 <= 8 * Z.of_nat fuel ->
  let d := take (Z.to_nat (Bin2Srec.end_addr o - Bin2Srec.begin_addr o + 1))
             (drop (Z.to_nat (Bin2Srec.begin_addr o)) content) in
  exists ab ls cnt,
    let hd := header_lines (Bin2Srec.do_headers o) in
    let ft := footer_lines (Bin2Srec.do_headers o) ab (Bin2Srec.addr_offset o) cnt in
    Bin2Srec.process fuel o (fopen_rb content) buf0 = Ret (file_text ab (hd ++ ls ++ ft))
    /\ (2 <= ab <= 4)%nat /\ Forall (line_ok ab) (hd ++ ls ++ ft)
    /\ covers (Bin2Srec.addr_offset o) d ls.
Proof.
  intros Hok Hbuf Hab Hll Hbe Hend Hoff Hnw Hf d.
  set (n := Bin2Srec.end_addr o - Bin2Srec.begin_addr o) in *.
  assert (n = Bin2Srec.end_addr o - Bin2Srec.begin_addr o) as Hn by done.
  set (off := Bin2Srec.addr_offset o) in *.
  assert (u32 (off + u32 n) = off + n) as Hmax by (rewrite (u32_id n), u32_id; unfold is_u32; lia).
  destruct (final_addr_bytes_fits (Bin2Srec.addr_bytes o) (off + n)) as (ab & Hfab & Hab' & Hfit);
    [lia..|].
  assert (length d = Z.to_nat (n + 1)) as Hd by (unfold d; rewrite length_take, length_drop; lia).
  edestruct (record_loop_covers ab (Bin2Srec.line_length o) (off + n) off d
               (drop (Z.to_nat (n + 1)) (drop (Z.to_nat (Bin2Srec.begin_addr o)) content))
               content (Z.to_nat (Bin2Srec.begin_addr o)) false buf0 0
               (file_text ab (header_lines (Bin2Srec.do_headers o))) fuel)
    as (ls & cnt & Hloop & Hcov); try lia.
  { unfold d. by rewrite take_drop. }
  exists ab, ls, cnt. split_and!; try lia.
  - unfold Bin2Srec.process. fold n off. rewrite Hmax, Hfab.
    assert ((if Bin2Srec.do_headers o then codes "S00600004844521B" ++ [10] else [])
            = file_text ab (header_lines (Bin2Srec.do_headers o))) as ->
      by (by destruct (Bin2Srec.do_headers o)).
    unfold fopen_rb, fseek_set. cbn [fcontent]. rewrite Hloop. simpl.
    rewrite !file_text_app, <- app_assoc. do 2 f_equal.
    destruct (Bin2Srec.do_headers o); [by rewrite print_footer_text|done].
  - rewrite !Forall_app. split_and!.
    + apply header_lines_ok.
    + apply (covers_ok ab off d); try done; try lia.
      unfold d. by apply Forall_take, Forall_drop.
    + by apply footer_lines_ok.
  - done.
Qed.

(** srec2bin reads such lines back. *)
Lemma srec2bin_covers so ab h cnt off d ls :
  (2 <= ab <= 4)%nat ->
  Forall (line_ok ab) (header_lines h ++ ls ++ footer_lines h ab off cnt) ->
  covers off d ls -> d <> [] -> 0 <= off ->
  off + Z.of_nat (length d) < 4294967296 ->
  Srec2Bin.g_min_addr so = off -> Srec2Bin.g_max_addr so = 0 ->
  Srec2Bin.process so
    (fopen_rb (file_text ab (header_lines h ++ ls ++ footer_lines h ab off cnt))) true
  = Ret (Some d).
Proof.
  intros Hab Hok Hcov Hd Hoff Htop Hmin Hmax.
  assert (0 < length d)%nat by (destruct d; simpl; [done|lia]).
  assert (header_lines h ++ ls ++ footer_lines h ab off cnt <> []) as Hne.
  { intros E. apply app_eq_nil in E as [_ E]. apply app_eq_nil in E as [-> _].
    by inversion Hcov; subst. }
  unfold Srec2Bin.process.
  rewrite (parse_file true 0 ab) by done. cbn [mbind outcome_bind mret outcome_ret].
  rewrite !file_effect_app, (proj1 (other_effect _ _ h ab off cnt _)),
    (proj2 (other_effect _ _ h ab off cnt _)), (covers_scan 0 off d ls) by done.
  cbn [Srec2Bin.pmax Srec2Bin.pmin Srec2Bin.pout].
  rewrite Hmin, Hmax, cmin_min, cmax_max, Z.add_0_r.
  replace (Z.min off (Z.min 4294967295 off)) with off by lia.
  replace (Z.max 0 (off + Z.of_nat (length d)) - 1) with (off + Z.of_nat (length d) - 1) by lia.
  rewrite (u32_id off), (u32_id (off + _ - 1)) by (unfold is_u32; lia).
  replace (Z.max (off + Z.of_nat (length d) - 1) off - off + 1) with (Z.of_nat (length d)) by lia.
  rewrite (u32_id (Z.of_nat (length d))) by (unfold is_u32; lia).
  replace (Z.of_nat (length d) / 32 * 32 + Z.of_nat (length d) mod 32)
    with (Z.of_nat (length d)) by (pose proof (Z.div_mod (Z.of_nat (length d)) 32); lia).
  rewrite (parse_file false off ab) by done. simpl.
  rewrite !file_effect_app, (proj1 (other_effect _ _ h ab off cnt _)),
    (proj2 (other_effect _ _ h ab off cnt _)).
  rewrite (covers_write off off d ls); try done; try lia; simpl.
  - rewrite Z.sub_diag, Nat2Z.id. simpl. rewrite drop_ge by (rewrite length_replicate; lia).
    by rewrite app_nil_r.
  - rewrite length_replicate. lia.
Qed.

(** ** Termination and undefined behaviour of srec2bin *)

Lemma parse_line_no_stuck scan m line st : Srec2Bin.parse_line scan m line st <> NoFuel.
Proof.
  unfold Srec2Bin.parse_line.
  repeat match goal with |- context [if ?b then _ else _] => destruct b end; done.
Qed.

Lemma parse_line_scan m line st : returns (Srec2Bin.parse_line true m line st).
Proof.
  unfold Srec2Bin.parse_line, returns.
  repeat match goal with |- context [if ?b then _ else _] => destruct b end; eauto.
Qed.

(** A round that does not end the loop moves the position forward. *)
Lemma fgets_progress line f line' f' :
  fgets line Srec2Bin.LINE_LEN f = (line', f') -> feof f' = false ->
  fcontent f' = fcontent f /\ feof f = false
  /\ (length (frest f') < length (frest f))%nat.
Proof.
  unfold fgets. destruct (take_line _ _) as [l e] eqn:E. intros Hf Hfe.
  assert (f' = mkFILE (fcontent f) (fpos f + length l) (feof f || e)) as ->
    by (destruct l; congruence).
  simpl in Hfe. apply orb_false_iff in Hfe as [-> ->]. split_and!; [done..|].
  assert (0 < Srec2Bin.LINE_LEN - 1)%nat as Hn by (unfold Srec2Bin.LINE_LEN; lia).
  pose proof (take_line_progress _ _ _ _ Hn E eq_refl).
  pose proof (take_line_length _ _ _ _ E). unfold frest in *. simpl.
  rewrite !length_drop in *. lia.
Qed.

Lemma parse_loop_terminates scan m fuel line f st :
  (length (frest f) < fuel)%nat -> Srec2Bin.parse_loop fuel scan m line f st <> NoFuel.
Proof.
  revert line f st. induction fuel as [|fuel IH]; intros line f st Hf; [lia|].
  cbn [Srec2Bin.parse_loop]. destruct (fgets line Srec2Bin.LINE_LEN f) as [line' f'] eqn:E.
  pose proof (parse_line_no_stuck scan m line' st).
  destruct (Srec2Bin.parse_line scan m line' st) as [st'| |]; simpl; try done.
  destruct (feof f') eqn:Efe; [done|]. apply IH.
  destruct (fgets_progress _ _ _ _ E Efe) as (_ & _ & ?). lia.
Qed.

Lemma parse_args_no_stuck argv o : Srec2Bin.parse_args argv o <> NoFuel.
Proof.
  remember (length argv) as n eqn:Hn. revert argv o Hn.
  induction n as [n IH] using lt_wf_ind. intros argv o ->.
  destruct argv as [|a argv]; [done|]. cbn [Srec2Bin.parse_args].
  repeat match goal with
  | |- context [if ?b then _ else _] => destruct b
  | |- context [match ?l with [] => _ | _ :: _ => _ end] => is_var l; destruct l
  end; try done; (eapply IH; [|reflexivity]); simpl; lia.
Qed.

Lemma zsum_app (l k : list Z) : foldr Z.add 0 (l ++ k) = foldr Z.add 0 l + foldr Z.add 0 k.
Proof. induction l as [|x l IH]; simpl; [done|]. rewrite IH. lia. Qed.

(** ** Properties *)

(** C2: The two tools compose to the identity: for any non-empty binary file
    whose size leaves room for one line in the 32-bit address space, bin2srec
    with default options exits 0 having printed a text, and srec2bin with
    default options turns that text back into exactly the file. *)
Theorem srec_tools_roundtrip content buf0 fuel :
  content <> [] -> bytes_ok content -> Z.of_nat (length content) + 32 <= 4294967296 ->
  length buf0 = 32%nat -> Z.of_nat (length content) + 8 <= 8 * Z.of_nat fuel ->
  exists text,
    Bin2Srec.main fuel [codes "image.bin"] (fun _ => Some content) buf0 = Ret (0, text)
    /\ Srec2Bin.main [codes "image.s19"; codes "image.out"] (fun _ => Some text) (fun _ => true)
       = Ret (0, Some content).
Proof.
  intros Hne Hok Hlen Hbuf Hf.
  assert (0 < length content)%nat by (destruct content; simpl; [done|lia]).
  set (size := Z.of_nat (length content)) in *. assert (size = Z.of_nat (length content)) by done.
  set (o := Bin2Srec.mkOpts (Some (codes "image.bin")) 0 0 (size - 1) 2 true true 32 true true).
  destruct (bin2srec_covers fuel o content buf0) as (ab & ls & cnt & Hp & Hab & Hls & Hcov);
    try done; try (simpl; lia).
  simpl in Hcov. rewrite take_ge in Hcov by (rewrite length_drop; lia).
  change (drop (Z.to_nat 0) content) with content in Hcov.
  eexists. split.
  - unfold Bin2Srec.main, file_size. simpl. fold size.
    rewrite (u32_id size), (u32_id (size - 1)) by (unfold is_u32; lia).
    rewrite !(proj2 (Z.ltb_ge _ _)) by lia.
    change (Bin2Srec.set_offset _ 0) with o. rewrite Hp. reflexivity.
  - unfold Srec2Bin.main. simpl. rewrite (srec2bin_covers _ ab true cnt 0 content ls); try done. lia.
Qed.

Lemma srec_tools_roundtrip_witness :
  exists text,
    Bin2Srec.main 7 [codes "image.bin"] (fun _ => Some (seqZ 0 40)) (replicate 32 0)
    = Ret (0, text)
    /\ Srec2Bin.main [codes "image.s19"; codes "image.out"] (fun _ => Some text) (fun _ => true)
       = Ret (0, Some (seqZ 0 40)).
Proof.
  apply srec_tools_roundtrip; [done| |vm_compute; congruence|done|vm_compute; congruence].
  apply (bool_decide_eq_true_1 (Forall _ _)). vm_compute. reflexivity.
Defined.

(** The round trip for every option of bin2srec: a byte range, an address
    offset, an address width, a line length, with or without header and
    footer.  srec2bin started with the same offset writes exactly the
    selected bytes. *)
Theorem srec_process_roundtrip content buf0 fuel o so :
  bytes_ok content -> length buf0 = 32%nat ->
  2 <= Bin2Srec.addr_bytes o <= 4 -> 8 <= Bin2Srec.line_length o <= 32 ->
  0 <= Bin2Srec.begin_addr o <= Bin2Srec.end_addr o ->
  Bin2Srec.end_addr o < Z.of_nat (length content) ->
  0 <= Bin2Srec.addr_offset o ->
  Bin2Srec.addr_offset o + (Bin2Srec.end_addr o - Bin2Srec.begin_addr o)
    + Bin2Srec.line_length o < 4294967296 ->
  Bin2Srec.end_addr o - Bin2Srec.begin_addr o + 9 <= 8 * Z.of_nat fuel ->
  Srec2Bin.g_min_addr so = Bin2Srec.addr_offset o -> Srec2Bin.g_max_addr so = 0 ->
  exists text,
    Bin2Srec.process fuel o (fopen_rb content) buf0 = Ret text
    /\ Srec2Bin.process so (fopen_rb text) true
       = Ret (Some (take (Z.to_nat (Bin2Srec.end_addr o - Bin2Srec.begin_addr o + 1))
                     (drop (Z.to_nat (Bin2Srec.begin_addr o)) content))).
Proof.
  intros Hok Hbuf Hab Hll Hbe Hend Hoff Hnw Hf Hmin Hmax.
  destruct (bin2srec_covers fuel o content buf0) as (ab & ls & cnt & Hp & Hab' & Hls & Hcov);
    try done.
  eexists. split; [exact Hp|].
  assert (length (take (Z.to_nat (Bin2Srec.end_addr o - Bin2Srec.begin_addr o + 1))
                    (drop (Z.to_nat (Bin2Srec.begin_addr o)) content))
          = Z.to_nat (Bin2Srec.end_addr o - Bin2Srec.begin_addr o + 1)) as Hd
    by (rewrite length_take, length_drop; lia).
  apply srec2bin_covers; try done; [|lia].
  intros E. rewrite E in Hd. simpl in Hd. lia.
Qed.

Lemma srec_process_roundtrip_witness :
  exists text,
    Bin2Srec.process 4
      (Bin2Srec.mkOpts None 65530 3 12 2 false false 8 true true)
      (fopen_rb (seqZ 0 20)) (replicate 32 0) = Ret text
    /\ Srec2Bin.process (Srec2Bin.mkOpts None None 0 65530 255 false) (fopen_rb text) true
       = Ret (Some (seqZ 3 10)).
Proof.
  apply (srec_process_roundtrip (seqZ 0 20) (replicate 32 0) 4
           (Bin2Srec.mkOpts None 65530 3 12 2 false false 8 true true)
           (Srec2Bin.mkOpts None None 0 65530 255 false)); simpl; try done; try lia.
  apply (bool_decide_eq_true_1 (Forall _ _)). vm_compute. reflexivity.
Defined.

(** Every data record bin2srec prints is well formed: after the type
    digit comes a list of bytes in hexadecimal whose first is the number of
    bytes that follow, and which sum to 255 modulo 256. *)
Theorem print_record_checksum ab address data :
  (2 <= ab <= 4)%nat -> bytes_ok data -> (length data <= 32)%nat ->
  exists count bs,
    Bin2Srec.print_record (Z.of_nat ab) address data
    = 83 :: (47 + Z.of_nat ab) :: hex_bytes (count :: bs) ++ [10]
    /\ count = Z.of_nat (length bs) /\ bytes_ok (count :: bs)
    /\ foldr Z.add 0 (count :: bs) mod 256 = 255.
Proof.
  intros Hab Hok Hlen. rewrite print_record_line by done.
  set (b := rec_body ab address data). pose proof (sum8_byte b) as Hs.
  exists (Z.of_nat ab + Z.of_nat (length data) + 1), (be_bytes ab address ++ data ++ [255 - sum8 b]).
  rewrite !length_app, be_bytes_length. split_and!.
  - unfold rec_line. fold b.
    change (hex_bytes (?x :: ?y ++ ?z)) with (fmt_X 2 x ++ hex_bytes (y ++ z)).
    unfold b at 1, rec_body.
    change (hex_bytes (?x :: ?y ++ ?z)) with (fmt_X 2 x ++ hex_bytes (y ++ z)).
    rewrite !hex_bytes_app.
    change (hex_bytes [255 - sum8 b]) with (fmt_X 2 (255 - sum8 b) ++ []).
    rewrite app_nil_r, <- !app_assoc. simpl. by rewrite <- !app_assoc.
  - simpl. lia.
  - constructor; [unfold is_byte; lia|]. rewrite !Forall_app.
    split_and!; [apply be_bytes_ok|done|]. constructor; [unfold is_byte in *; lia|constructor].
  - assert (forall l a, foldl (fun a b => u8 (a + b)) (u8 a) l = u8 (a + foldr Z.add 0 l)) as Hsum.
    { induction l as [|x l IH]; intros a; simpl; [f_equal; lia|].
      rewrite uwrap_add_l, IH. f_equal. lia. }
    assert (sum8 b = u8 (foldr Z.add 0 b)) as Hb by (apply (Hsum b 0)).
    assert (Z.of_nat ab + Z.of_nat (length data) + 1 :: be_bytes ab address ++ data ++ [255 - sum8 b]
            = b ++ [255 - sum8 b]) as ->
      by (unfold b at 2, rec_body; simpl; by rewrite <- app_assoc).
    rewrite zsum_app. cbn [foldr]. rewrite Z.add_0_r.
    rewrite Hb. unfold uwrap. change (2 ^ 8) with 256.
    replace (foldr Z.add 0 b + (255 - foldr Z.add 0 b mod 256))
      with (255 + (foldr Z.add 0 b / 256) * 256)
      by (pose proof (Z.div_mod (foldr Z.add 0 b) 256); lia).
    rewrite Z_mod_plus_full. done.
Qed.

Lemma print_record_checksum_witness :
  exists count bs,
    Bin2Srec.print_record 2 4096 [1; 2; 3]
    = 83 :: 49 :: hex_bytes (count :: bs) ++ [10]
    /\ count = Z.of_nat (length bs) /\ bytes_ok (count :: bs)
    /\ foldr Z.add 0 (count :: bs) mod 256 = 255.
Proof.
  apply (print_record_checksum 2 4096 [1; 2; 3]); [lia| |simpl; lia].
  by apply (bool_decide_eq_true_1 (Forall _ _)).
Defined.

(** Srec2bin terminates on every command line, file system and input
    text: the fuel of the model, one more than the number of characters of
    the file, is always enough. *)
Theorem srec2bin_terminates argv fs can_create : Srec2Bin.main argv fs can_create <> NoFuel.
Proof.
  assert (forall scan m f st, fpos f = 0%nat -> Srec2Bin.parse scan m f st <> NoFuel) as Hparse.
  { intros scan m f st Hpos. unfold Srec2Bin.parse.
    pose proof (parse_loop_terminates scan m (S (length (fcontent f)))
                  (replicate Srec2Bin.LINE_LEN 0) f st) as Hl.
    destruct (Srec2Bin.parse_loop _ _ _ _ _ _); try done.
    exfalso. apply Hl; [|done]. unfold frest. rewrite Hpos, drop_0. lia. }
  unfold Srec2Bin.main. pose proof (parse_args_no_stuck argv Srec2Bin.opts0) as Hargs.
  destruct (Srec2Bin.parse_args argv Srec2Bin.opts0) as [[o|]| |]; try done. simpl.
  destruct (Srec2Bin.infilename o), (Srec2Bin.outfilename o); try done.
  destruct (fs l) as [content|]; [|done]. unfold Srec2Bin.process.
  destruct (Srec2Bin.parse true 0 (fopen_rb content) _) as [[st f]| |] eqn:E1; try done.
  2: by apply Hparse in E1. simpl.
  assert (fpos f = 0%nat) as Hf.
  { unfold Srec2Bin.parse in E1.
    destruct (Srec2Bin.parse_loop _ _ _ _ _ _); simpl in E1; congruence || (by injection E1 as _ <-). }
  destruct (can_create l0); [|done].
  match goal with |- context [Srec2Bin.parse false ?m f ?st] =>
    pose proof (Hparse false m f st Hf); destruct (Srec2Bin.parse false m f st) as [[]| |] end; done.
Qed.

(** A data record with more than 32 data bytes, which the S-record format
    allows, overruns the 32-byte buffer of srec2bin: once the output file is
    open, converting a file that starts with such a record is undefined
    behaviour. *)
Theorem srec2bin_long_record_undefined ab a d rest so :
  (2 <= ab <= 4)%nat -> bytes_ok d -> (32 < length d <= 250)%nat ->
  Srec2Bin.process so (fopen_rb (rec_line ab a d ++ 10 :: rest)) true = UB.
Proof.
  intros Hab Hok Hlen. set (text := rec_line ab a d ++ 10 :: rest).
  assert (Forall (fun c => c <> 10) (rec_line ab a d) /\ (length (rec_line ab a d) <= 600)%nat)
    as [Hnl Hll].
  { assert (bytes_ok (rec_body ab a d)) as Hb.
    { constructor; [unfold is_byte; lia|]. apply Forall_app. split; [apply be_bytes_ok|done]. }
    unfold rec_line. split.
    - constructor; [lia|]. constructor; [lia|]. apply printable_not_nl, Forall_app.
      split; [apply hex_bytes_printable|apply fmt_X_printable].
    - pose proof (fmt_X_length_le 2 (255 - sum8 (rec_body ab a d))) as Hx.
      simpl in *. rewrite length_app, hex_bytes_length by done.
      unfold rec_body at 1. cbn [length]. rewrite length_app, be_bytes_length. lia. }
  unfold Srec2Bin.process.
  assert (forall m st, Srec2Bin.parse false m (fopen_rb text) st = UB) as Hub.
  { intros m st. unfold Srec2Bin.parse, fopen_rb. cbn [fcontent Srec2Bin.parse_loop].
    rewrite (fgets_newline _ _ text 0 false (rec_line ab a d) rest);
      [|done|done|unfold Srec2Bin.LINE_LEN; lia].
    set (line := rec_line ab a d ++ _).
    assert (exists t, drop 2 line = fmt_X 2 (Z.of_nat ab + Z.of_nat (length d) + 1) ++ t) as [t H2].
    { unfold line, rec_line, rec_body at 1. simpl.
      change (hex_bytes (?x :: ?y ++ ?z)) with (fmt_X 2 x ++ hex_bytes (y ++ z)).
      rewrite <- !app_assoc. by eexists. }
    assert (is_byte (Z.of_nat ab + Z.of_nat (length d) + 1)) as Hb by (unfold is_byte; lia).
    destruct (ch_byte line 2 _ _ Hb H2) as [Hc _].
    unfold Srec2Bin.parse_line. rewrite Hc.
    change (Srec2Bin.ch line 0) with 83. change (Srec2Bin.ch line 1) with (47 + Z.of_nat ab).
    rewrite (proj2 (Z.leb_le 1 _)), (proj2 (Z.leb_le _ 3)) by lia. simpl.
    rewrite (proj2 (Z.ltb_ge _ 0)), (proj2 (Z.ltb_lt 32 _)) by lia. done. }
  assert (exists st, Srec2Bin.parse true 0 (fopen_rb text) (Srec2Bin.mkP 0 4294967295 [])
                     = Ret (st, fopen_rb text)) as [st ->].
  { unfold Srec2Bin.parse.
    assert (forall fuel line f st, (length (frest f) < fuel)%nat ->
              returns (Srec2Bin.parse_loop fuel true 0 line f st)) as Hret.
    { induction fuel as [|fuel IH]; intros line f st Hf; [lia|]. cbn [Srec2Bin.parse_loop].
      destruct (fgets line Srec2Bin.LINE_LEN f) as [line' f'] eqn:E.
      destruct (parse_line_scan 0 line' st) as [st' ->]. simpl.
      destruct (feof f') eqn:Efe; [by eexists|]. apply IH.
      destruct (fgets_progress _ _ _ _ E Efe) as (_ & _ & ?). lia. }
    edestruct (Hret (S (length (fcontent (fopen_rb text))))) as [st ->]; [|by eexists].
    unfold frest, fopen_rb. simpl. lia. }
  cbn [mbind outcome_bind]. by rewrite Hub.
Qed.

Lemma srec2bin_long_record_undefined_witness :
  Srec2Bin.process Srec2Bin.opts0 (fopen_rb (rec_line 2 0 (replicate 33 7) ++ [10])) true = UB.
Proof.
  apply (srec2bin_long_record_undefined 2 0 (replicate 33 7) [] Srec2Bin.opts0);
    [lia| |rewrite length_replicate; lia].
  by apply (bool_decide_eq_true_1 (Forall _ _)).
Defined.

(** bin2srec never ends on an empty input file: [file_size - 1] wraps to
    0xFFFFFFFF, which becomes the last address, and the 32-bit loop counter
    never exceeds it.  No amount of fuel gives a result. *)
Theorem bin2srec_empty_file_diverges fuel buf0 :
  Bin2Srec.main fuel [codes "image.bin"] (fun _ => Some []) buf0 = NoFuel.
Proof.
  assert (forall fuel ab a f buf cnt out, is_u32 a ->
            Bin2Srec.record_loop fuel ab 32 4294967295 a f buf cnt out = NoFuel) as Hloop.
  { clear. induction fuel as [|fuel IH]; intros ab a f buf cnt out Ha; [done|].
    cbn [Bin2Srec.record_loop]. unfold is_u32 in Ha.
    rewrite (proj2 (Z.leb_le _ _)) by lia.
    destruct (fread _ _ _). apply IH, u32_range. }
  unfold Bin2Srec.main. simpl. unfold Bin2Srec.process.
  change (u32 (Bin2Srec.addr_offset _ + _)) with 4294967295.
  change (Bin2Srec.line_length _) with 32. rewrite Hloop; [done|]. unfold is_u32. simpl. lia.
Qed.
