(* ===== verification/XyzModem.v ===== *)
(** * The X/Y-modem receiver of the bootloader (bootloader/xyzModem.c)

    State: the struct [xyz] of the protocol, the 4096-byte input ring, and the
    serial line, as the list of what the next [select]/[read] calls give and
    the list of what was sent.  A poll of the line gives nothing within the two
    seconds ([RxIdle]), another descriptor ([RxNotSet]), or bytes to read
    ([RxRead]; none when [read] fails); after the list the line stays idle.

    The loops that end only when the line goes quiet take fuel; the fuel the
    operations use is computed from what is still to arrive, and the lemmas of
    XyzModemFacts show that it is always enough.

    [cyg_crc16] is a function of the eCos CRC package and a parameter here. *)

From S2P Require Import Prelude.

(** ** Protocol constants *)

Definition SOH : Z := 1.
Definition STX : Z := 2.
Definition EOT : Z := 4.
Definition ACK : Z := 6.
Definition BSP : Z := 8.
Definition NAK : Z := 21.
Definition CAN : Z := 24.
Definition EOFC : Z := 26.
Definition CHAR_C : Z := 67.

Definition xyzModem_MAX_RETRIES : nat := 20.
Definition xyzModem_MAX_RETRIES_WITH_CRC : Z := 10.
Definition xyzModem_CAN_COUNT : Z := 3.

Definition xyzModem_xmodem : Z := 1.
Definition xyzModem_ymodem : Z := 2.

Definition xyzModem_access : Z := -1.
Definition xyzModem_noZmodem : Z := -2.
Definition xyzModem_timeout : Z := -3.
Definition xyzModem_eof : Z := -4.
Definition xyzModem_cancel : Z := -5.
Definition xyzModem_frame : Z := -6.
Definition xyzModem_cksum : Z := -7.
Definition xyzModem_sequence : Z := -8.

Definition bufsize : Z := 4096.

(** ** The serial line *)

Inductive rx_event :=
| RxIdle
| RxNotSet
| RxRead (bs : list Z).

Inductive tx_event :=
| TxChar (c : Z)
| TxDelay (us : Z)
| TxClose (h : Z).

(** The static input ring and what its [select] and [read] calls will give. *)
Record ring := mkRing {
  readpos : Z;  (* the next byte to take *)
  writepos : Z;  (* where the next byte goes *)
  buffer : list Z;  (* 4096 bytes *)
  rx : list rx_event  (* what the line will deliver *)
}.

Definition set_readpos (v : Z) (s : ring) : ring :=
  mkRing v (writepos s) (buffer s) (rx s).

Definition set_writepos (v : Z) (s : ring) : ring :=
  mkRing (readpos s) v (buffer s) (rx s).

Definition set_buffer (v : list Z) (s : ring) : ring :=
  mkRing (readpos s) (writepos s) v (rx s).

Definition set_rx (v : list rx_event) (s : ring) : ring :=
  mkRing (readpos s) (writepos s) (buffer s) v.

(** The struct [xyz], the input side of the line, and the output. *)
Record st := mkSt {
  chan : Z;  (* xyz.__chan *)
  pkt : list Z;  (* xyz.pkt, 1024 bytes *)
  bufp : Z;  (* xyz.bufp, as an offset into pkt *)
  blk : Z;
  cblk : Z;
  crc1 : Z;
  crc2 : Z;
  next_blk : Z;  (* the expected block *)
  len : Z;  (* bytes left in the packet, -1 after an error *)
  mode : Z;
  total_retries : Z;
  total_SOH : Z;
  total_STX : Z;
  total_CAN : Z;
  crc_mode : bool;
  at_eof : bool;
  tx_ack : bool;  (* an ACK is owed to the sender *)
  line : ring;  (* the input side *)
  tx : list tx_event  (* what was sent, newest last *)
}.

Definition set_chan (v : Z) (s : st) : st :=
  mkSt v (pkt s) (bufp s) (blk s) (cblk s) (crc1 s) (crc2 s) (next_blk s) (len s) (mode s)
    (total_retries s) (total_SOH s) (total_STX s) (total_CAN s) (crc_mode s) (at_eof s)
    (tx_ack s) (line s) (tx s).

Definition set_pkt (v : list Z) (s : st) : st :=
  mkSt (chan s) v (bufp s) (blk s) (cblk s) (crc1 s) (crc2 s) (next_blk s) (len s) (mode s)
    (total_retries s) (total_SOH s) (total_STX s) (total_CAN s) (crc_mode s) (at_eof s)
    (tx_ack s) (line s) (tx s).

Definition set_bufp (v : Z) (s : st) : st :=
  mkSt (chan s) (pkt s) v (blk s) (cblk s) (crc1 s) (crc2 s) (next_blk s) (len s) (mode s)
    (total_retries s) (total_SOH s) (total_STX s) (total_CAN s) (crc_mode s) (at_eof s)
    (tx_ack s) (line s) (tx s).

Definition set_blk (v : Z) (s : st) : st :=
  mkSt (chan s) (pkt s) (bufp s) v (cblk s) (crc1 s) (crc2 s) (next_blk s) (len s) (mode s)
    (total_retries s) (total_SOH s) (total_STX s) (total_CAN s) (crc_mode s) (at_eof s)
    (tx_ack s) (line s) (tx s).

Definition set_cblk (v : Z) (s : st) : st :=
  mkSt (chan s) (pkt s) (bufp s) (blk s) v (crc1 s) (crc2 s) (next_blk s) (len s) (mode s)
    (total_retries s) (total_SOH s) (total_STX s) (total_CAN s) (crc_mode s) (at_eof s)
    (tx_ack s) (line s) (tx s).

Definition set_crc1 (v : Z) (s : st) : st :=
  mkSt (chan s) (pkt s) (bufp s) (blk s) (cblk s) v (crc2 s) (next_blk s) (len s) (mode s)
    (total_retries s) (total_SOH s) (total_STX s) (total_CAN s) (crc_mode s) (at_eof s)
    (tx_ack s) (line s) (tx s).

Definition set_crc2 (v : Z) (s : st) : st :=
  mkSt (chan s) (pkt s) (bufp s) (blk s) (cblk s) (crc1 s) v (next_blk s) (len s) (mode s)
    (total_retries s) (total_SOH s) (total_STX s) (total_CAN s) (crc_mode s) (at_eof s)
    (tx_ack s) (line s) (tx s).

Definition set_next_blk (v : Z) (s : st) : st :=
  mkSt (chan s) (pkt s) (bufp s) (blk s) (cblk s) (crc1 s) (crc2 s) v (len s) (mode s)
    (total_retries s) (total_SOH s) (total_STX s) (total_CAN s) (crc_mode s) (at_eof s)
    (tx_ack s) (line s) (tx s).

Definition set_len (v : Z) (s : st) : st :=
  mkSt (chan s) (pkt s) (bufp s) (blk s) (cblk s) (crc1 s) (crc2 s) (next_blk s) v (mode s)
    (total_retries s) (total_SOH s) (total_STX s) (total_CAN s) (crc_mode s) (at_eof s)
    (tx_ack s) (line s) (tx s).

Definition set_mode (v : Z) (s : st) : st :=
  mkSt (chan s) (pkt s) (bufp s) (blk s) (cblk s) (crc1 s) (crc2 s) (next_blk s) (len s) v
    (total_retries s) (total_SOH s) (total_STX s) (total_CAN s) (crc_mode s) (at_eof s)
    (tx_ack s) (line s) (tx s).

Definition set_total_retries (v : Z) (s : st) : st :=
  mkSt (chan s) (pkt s) (bufp s) (blk s) (cblk s) (crc1 s) (crc2 s) (next_blk s) (len s) (mode
    s) v (total_SOH s) (total_STX s) (total_CAN s) (crc_mode s) (at_eof s) (tx_ack s) (line s)
    (tx s).

Definition set_total_SOH (v : Z) (s : st) : st :=
  mkSt (chan s) (pkt s) (bufp s) (blk s) (cblk s) (crc1 s) (crc2 s) (next_blk s) (len s) (mode
    s) (total_retries s) v (total_STX s) (total_CAN s) (crc_mode s) (at_eof s) (tx_ack s)
    (line s) (tx s).

Definition set_total_STX (v : Z) (s : st) : st :=
  mkSt (chan s) (pkt s) (bufp s) (blk s) (cblk s) (crc1 s) (crc2 s) (next_blk s) (len s) (mode
    s) (total_retries s) (total_SOH s) v (total_CAN s) (crc_mode s) (at_eof s) (tx_ack s)
    (line s) (tx s).

Definition set_total_CAN (v : Z) (s : st) : st :=
  mkSt (chan s) (pkt s) (bufp s) (blk s) (cblk s) (crc1 s) (crc2 s) (next_blk s) (len s) (mode
    s) (total_retries s) (total_SOH s) (total_STX s) v (crc_mode s) (at_eof s) (tx_ack s)
    (line s) (tx s).

Definition set_crc_mode (v : bool) (s : st) : st :=
  mkSt (chan s) (pkt s) (bufp s) (blk s) (cblk s) (crc1 s) (crc2 s) (next_blk s) (len s) (mode
    s) (total_retries s) (total_SOH s) (total_STX s) (total_CAN s) v (at_eof s) (tx_ack s)
    (line s) (tx s).

Definition set_at_eof (v : bool) (s : st) : st :=
  mkSt (chan s) (pkt s) (bufp s) (blk s) (cblk s) (crc1 s) (crc2 s) (next_blk s) (len s) (mode
    s) (total_retries s) (total_SOH s) (total_STX s) (total_CAN s) (crc_mode s) v (tx_ack s)
    (line s) (tx s).

Definition set_tx_ack (v : bool) (s : st) : st :=
  mkSt (chan s) (pkt s) (bufp s) (blk s) (cblk s) (crc1 s) (crc2 s) (next_blk s) (len s) (mode
    s) (total_retries s) (total_SOH s) (total_STX s) (total_CAN s) (crc_mode s) (at_eof s) v
    (line s) (tx s).

Definition set_line (v : ring) (s : st) : st :=
  mkSt (chan s) (pkt s) (bufp s) (blk s) (cblk s) (crc1 s) (crc2 s) (next_blk s) (len s) (mode
    s) (total_retries s) (total_SOH s) (total_STX s) (total_CAN s) (crc_mode s) (at_eof s)
    (tx_ack s) v (tx s).

Definition set_tx (v : list tx_event) (s : st) : st :=
  mkSt (chan s) (pkt s) (bufp s) (blk s) (cblk s) (crc1 s) (crc2 s) (next_blk s) (len s) (mode
    s) (total_retries s) (total_SOH s) (total_STX s) (total_CAN s) (crc_mode s) (at_eof s)
    (tx_ack s) (line s) v.

(** What is still to arrive: bounds the loops that wait for a quiet line. *)
Fixpoint rx_size (es : list rx_event) : nat :=
  match es with
  | [] => 0
  | RxRead bs :: es' => S (Datatypes.length bs + rx_size es')
  | _ :: es' => S (rx_size es')
  end.

Definition pending (r : ring) : nat :=
  Z.to_nat ((writepos r - readpos r) mod bufsize) + rx_size (rx r).

(** ** Input and output of characters *)

Definition send (e : tx_event) : M st unit := modify (fun s => set_tx (tx s ++ [e]) s).

Definition putChar (t : Z) : M st unit := send (TxChar t).

Definition HAL_DELAY_US (us : Z) : M st unit := send (TxDelay us).

(** Storing [bs] at offset [w] of an array. *)
Definition store_at (l : list Z) (w : Z) (bs : list Z) : option (list Z) :=
  let w := Z.to_nat w in
  if decide (w + Datatypes.length bs <= Datatypes.length l)%nat
  then Some (take w l ++ bs ++ drop (w + Datatypes.length bs) l) else None.

(** The end of [getCharTimeout]: take the next character of the ring. *)
Definition ring_next : M ring (option Z) :=
  s ← get;
  match buffer s !! Z.to_nat (readpos s) with
  | Some c => modify (set_readpos ((readpos s + 1) mod bufsize));; mret (Some c)
  | None => undef
  end.

(** [getCharTimeout]: [Some c] for a return of 1, [None] for 0. *)
Definition getCharTimeout : M ring (option Z) :=
  s ← get;
  if readpos s =? writepos s then
    match rx s with
    | [] => mret None
    | RxIdle :: es => modify (set_rx es);; mret None
    | RxNotSet :: es => modify (set_rx es);; mret None
    | RxRead bs :: es =>
        let remainder :=
          if writepos s <? readpos s then readpos s - writepos s else bufsize - writepos s in
        let got := take (Z.to_nat remainder) bs in
        let left := drop (Z.to_nat remainder) bs in
        modify (set_rx (match left with [] => es | _ => RxRead left :: es end));;
        let actual := Z.of_nat (Datatypes.length got) in
        if actual <=? 0 then mret None
        else
          match store_at (buffer s) (writepos s) got with
          | None => undef
          | Some b =>
              modify (set_buffer b);;
              modify (set_writepos ((writepos s + actual) mod bufsize));;
              ring_next
          end
    end
  else ring_next.

(** The same on the whole state. *)
Definition getc : M st (option Z) := fun s =>
  match getCharTimeout (line s) with
  | Ret (c, l) => Ret (c, set_line l s)
  | UB => UB
  | NoFuel => NoFuel
  end.

(** [xyzModem_flush]: drop input until the line is quiet. *)
Fixpoint flush_loop (fuel : nat) : M st unit :=
  match fuel with
  | O => no_fuel
  | S k =>
      r ← getc;
      match r with
      | None => mret tt
      | Some _ => flush_loop k
      end
  end.

Definition xyzModem_flush : M st unit :=
  s ← get;
  flush_loop (S (pending (line s))).

(** ** Packets *)

(** The search for the start of a header: [inl stat] is an early return,
    [inr c] the start character SOH or STX. *)
Fixpoint hdr_loop (fuel : nat) (can_total hdr_chars : Z) : M st (Z + Z) :=
  match fuel with
  | O => no_fuel
  | S k =>
      r ← getc;
      match r with
      | Some c =>
          let hdr_chars := hdr_chars + 1 in
          if c =? SOH then
            modify (fun s => set_total_SOH (total_SOH s + 1) s);;
            mret (inr c)
          else if c =? STX then
            modify (fun s => set_total_STX (total_STX s + 1) s);;
            mret (inr c)
          else if c =? CAN then
            modify (fun s => set_total_CAN (total_CAN s + 1) s);;
            if can_total + 1 =? xyzModem_CAN_COUNT then mret (inl xyzModem_cancel)
            else hdr_loop k (can_total + 1) hdr_chars
          else if c =? EOT then
            if hdr_chars =? 1 then putChar ACK;; mret (inl xyzModem_eof)
            else hdr_loop k can_total hdr_chars
          else hdr_loop k can_total hdr_chars
      | None =>
          xyzModem_flush;;
          HAL_DELAY_US 250000;;
          mret (inl xyzModem_timeout)
      end
  end.

(** The data bytes, [n] of them from index [i]; [false] is a timeout. *)
Fixpoint pkt_loop (n : nat) (i : nat) : M st bool :=
  match n with
  | O => mret true
  | S k =>
      r ← getc;
      match r with
      | Some c => modify (fun s => set_pkt (<[i := c]> (pkt s)) s);; pkt_loop k (S i)
      | None => mret false
      end
  end.

(** Reading one character into a field: [false] is a timeout. *)
Definition get_field (set : Z -> st -> st) : M st bool :=
  r ← getc;
  match r with
  | Some c => modify (set c);; mret true
  | None => mret false
  end.

(** The 8-bit sum of the packet, in an [unsigned short]. *)
Definition checksum (data : list Z) : Z := foldl (fun a b => u16 (a + b)) 0 data.

Section Protocol.
Context (cyg_crc16 : list Z -> Z).

(** The checks on a complete packet. *)
Definition validate : M st Z :=
  s ← get;
  let data := take (Z.to_nat (len s)) (pkt s) in
  if negb (Z.lxor (blk s) (cblk s) =? 255) then
    xyzModem_flush;;
    mret xyzModem_frame
  else if crc_mode s then
    if negb (cyg_crc16 data =? Z.lor (Z.shiftl (crc1 s) 8) (crc2 s)) then mret xyzModem_cksum
    else mret 0
  else
    if negb (crc1 s =? Z.land (checksum data) 255) then mret xyzModem_cksum
    else mret 0.

(** Everything after the start character [c]. *)
Definition get_packet (c : Z) : M st Z :=
  ok ← get_field set_blk;
  if negb ok then mret xyzModem_timeout else
  ok ← get_field set_cblk;
  if negb ok then mret xyzModem_timeout else
  let n := if c =? SOH then 128 else 1024 in
  modify (set_len n);;
  modify (set_bufp 0);;
  ok ← pkt_loop (Z.to_nat n) 0;
  if negb ok then mret xyzModem_timeout else
  ok ← get_field set_crc1;
  if negb ok then mret xyzModem_timeout else
  s ← get;
  if crc_mode s then
    ok ← get_field set_crc2;
    if negb ok then mret xyzModem_timeout else validate
  else validate.

Definition xyzModem_get_hdr : M st Z :=
  s ← get;
  when (tx_ack s) (putChar ACK;; modify (set_tx_ack false));;
  s ← get;
  r ← hdr_loop (S (pending (line s))) 0 0;
  match r with
  | inl stat => mret stat
  | inr c => get_packet c
  end.

(** The request for a packet: 'C' asks for CRC, NAK for a checksum. *)
Definition request : M st unit :=
  s ← get;
  putChar (if crc_mode s then CHAR_C else NAK).

(** ** Opening a stream *)

(** The retry loop; the result is the return value and what is stored
    through [err], if anything. *)
Fixpoint open_loop (retries : nat) (crc_retries stat : Z) : M st (Z * option Z) :=
  match retries with
  | O => mret (-1, Some stat)
  | S k =>
      stat ← xyzModem_get_hdr;
      if stat =? 0 then
        s ← get;
        when (blk s =? 0) (modify (set_tx_ack true));;
        modify (set_next_blk 1);;
        modify (set_len 0);;
        mret (0, None)
      else if stat =? xyzModem_timeout then
        let crc_retries := crc_retries - 1 in
        when (crc_retries <=? 0) (modify (set_crc_mode false));;
        HAL_DELAY_US 500000;;
        request;;
        modify (fun s => set_total_retries (total_retries s + 1) s);;
        open_loop k crc_retries stat
      else if stat =? xyzModem_cancel then mret (-1, Some stat)
      else open_loop k crc_retries stat
  end.

(** [fd] is what [open] of the serial device returned. *)
Definition xyzModem_stream_open (fd info_mode : Z) : M st (Z * option Z) :=
  modify (set_chan fd);;
  if fd <? 0 then mret (fd, None)
  else
    modify (set_len 0);;
    modify (set_crc_mode true);;
    modify (set_at_eof false);;
    modify (set_tx_ack false);;
    modify (set_mode info_mode);;
    modify (set_total_retries 0);;
    modify (set_total_SOH 0);;
    modify (set_total_STX 0);;
    modify (set_total_CAN 0);;
    request;;
    if info_mode =? xyzModem_xmodem then
      modify (set_next_blk 1);;
      mret (0, None)
    else open_loop xyzModem_MAX_RETRIES xyzModem_MAX_RETRIES_WITH_CRC 0.

(** ** Reading data *)

(** The index of the last byte that is not ^Z, plus one. *)
Fixpoint strip_eof (data : list Z) (n : nat) : nat :=
  match n with
  | O => O
  | S k => if nth k data 0 =? EOFC then strip_eof data k else n
  end.

(** Padding is removed when the packet ends in at least three ^Z. *)
Definition strip_len (data : list Z) (n : Z) : Z :=
  let at_ i := nth (Z.to_nat (n - i)) data 0 =? EOFC in
  if at_ 1 && at_ 2 && at_ 3 then Z.of_nat (strip_eof data (Z.to_nat n)) else n.

(** What follows a bad packet: give up, end the stream, or ask again. *)
Definition bad_packet (retry : Z -> M st Z) (stat : Z) : M st Z :=
  if stat =? xyzModem_cancel then mret stat
  else if stat =? xyzModem_eof then
    putChar ACK;;
    s ← get;
    stat ← (if mode s =? xyzModem_ymodem then
              request;;
              modify (fun s => set_total_retries (total_retries s + 1) s);;
              stat ← xyzModem_get_hdr;
              putChar ACK;;
              mret stat
            else mret stat);
    modify (set_at_eof true);;
    mret stat
  else
    request;;
    modify (fun s => set_total_retries (total_retries s + 1) s);;
    retry stat.

(** The retry loop for one block: the final [stat]. *)
Fixpoint block_loop (retries : nat) (stat : Z) : M st Z :=
  match retries with
  | O => mret stat
  | S k =>
      stat ← xyzModem_get_hdr;
      s ← get;
      if stat =? 0 then
        if blk s =? next_blk s then
          modify (set_tx_ack true);;
          modify (set_next_blk (Z.land (next_blk s + 1) 255));;
          modify (set_len (strip_len (drop (Z.to_nat (bufp s)) (pkt s)) (len s)));;
          mret stat
        else if blk s =? Z.land (next_blk s - 1) 255 then
          putChar ACK;;
          block_loop k stat
        else bad_packet (block_loop k) xyzModem_sequence
      else bad_packet (block_loop k) stat
  end.

(** The copy to the caller's buffer; a negative length is a huge [size_t]. *)
Definition copy_out (size : Z) : M st (list Z) :=
  s ← get;
  let n := if size <? len s then size else len s in
  if (n <? 0) || (Z.of_nat (Datatypes.length (pkt s)) <? bufp s + n) then undef
  else
    modify (set_len (len s - n));;
    modify (set_bufp (bufp s + n));;
    mret (take (Z.to_nat n) (drop (Z.to_nat (bufp s)) (pkt s))).

(** The outer loop: the bytes delivered and what is stored through [err]. *)
Fixpoint read_loop (fuel : nat) (size : Z) (acc : list Z) : M st (list Z * option Z) :=
  match fuel with
  | O => no_fuel
  | S k =>
      s ← get;
      if at_eof s || (size <=? 0) then mret (acc, None)
      else
        stat ← (if len s =? 0 then block_loop xyzModem_MAX_RETRIES xyzModem_cancel else mret 0);
        if stat <? 0 then
          modify (set_len (-1));;
          mret (acc, Some stat)
        else
          s ← get;
          if at_eof s then read_loop k size acc
          else
            d ← copy_out size;
            read_loop k (size - Z.of_nat (Datatypes.length d)) (acc ++ d)
  end.

Definition xyzModem_stream_read (size : Z) : M st (list Z * option Z) :=
  s ← get;
  read_loop (S (S (Z.to_nat size + pending (line s)))) size [].

(** ** Ending a stream *)

Definition xyzModem_stream_close : M st unit :=
  s ← get;
  send (TxClose (chan s)).

(** The trailing characters the caller's [getc] still gives. *)
Fixpoint drain (chars : list Z) : list Z :=
  match chars with
  | c :: g => if -1 <? c then drain g else g
  | [] => []
  end.

(** [chars] is the list of what successive calls of the callback return;
    the result is what is left of it. *)
Definition xyzModem_stream_terminate (abort : bool) (chars : list Z) : M st (list Z) :=
  if abort then
    s ← get;
    when ((mode s =? xyzModem_xmodem) || (mode s =? xyzModem_ymodem))
      (putChar CAN;; putChar CAN;; putChar CAN;; putChar CAN;;
       putChar BSP;; putChar BSP;; putChar BSP;; putChar BSP;;
       xyzModem_flush;;
       modify (set_at_eof true));;
    mret chars
  else
    HAL_DELAY_US 250000;;
    mret (drain chars).

End Protocol.

Definition xyzModem_error (err : Z) : string :=
  if err =? xyzModem_access then "Can't access file"
  else if err =? xyzModem_noZmodem then "Sorry, zModem not available yet"
  else if err =? xyzModem_timeout then "Timed out"
  else if err =? xyzModem_eof then "End of file"
  else if err =? xyzModem_cancel then "Cancelled"
  else if err =? xyzModem_frame then "Invalid framing"
  else if err =? xyzModem_cksum then "CRC/checksum error"
  else if err =? xyzModem_sequence then "Block sequence error"
  else "Unknown error".
