(* ===== verification/XyzModemFacts.v ===== *)
(** * The X/Y-modem receiver: the input ring and the waiting loops

    The ring and the pending [read] results are one queue of characters, the
    [wire]; [getCharTimeout] takes its head.  The loops that wait for input
    never run out of the fuel the operations give them. *)

From S2P Require Import Prelude.
From S2P Require Import XyzModem.

(** ** The queue the ring implements *)

(** [n] bytes of the circular array [b] from [r]. *)
Definition ring_slice (b : list Z) (r n : nat) : list Z := take n (drop r (b ++ b)).

Definition ring_data (r : ring) : list Z :=
  ring_slice (buffer r) (Z.to_nat (readpos r)) (Z.to_nat ((writepos r - readpos r) mod bufsize)).

(** The bytes the line delivers before it goes quiet, and what comes then. *)
Fixpoint line_data (es : list rx_event) : list Z :=
  match es with
  | RxRead (b :: bs) :: es' => (b :: bs) ++ line_data es'
  | _ => []
  end.

Fixpoint line_after (es : list rx_event) : list rx_event :=
  match es with
  | RxRead (_ :: _) :: es' => line_after es'
  | _ => es
  end.

Definition wire (r : ring) : list Z := ring_data r ++ line_data (rx r).

Record ring_ok (r : ring) : Prop := {
  ring_read : 0 <= readpos r < bufsize;
  ring_write : 0 <= writepos r < bufsize;
  ring_len : Z.of_nat (length (buffer r)) = bufsize
}.

Lemma ring_slice_step b r n :
  (r < length b)%nat -> (n < length b)%nat ->
  exists c, b !! r = Some c
    /\ ring_slice b r (S n) = c :: ring_slice b ((r + 1) mod length b) n.
Proof.
  intros Hr Hn. destruct (lookup_lt_is_Some_2 b r Hr) as [c Hc]. exists c. split; [done|].
  unfold ring_slice.
  assert (drop r (b ++ b) = c :: drop (r + 1) (b ++ b)) as ->.
  { rewrite Nat.add_1_r. apply drop_S. by apply lookup_app_l_Some. }
  cbn [take]. f_equal. destruct (decide (r + 1 = length b)%nat) as [E|E].
  - rewrite E, Nat.Div0.mod_same, drop_app_length, drop_0. by rewrite take_app_le by lia.
  - rewrite Nat.mod_small by lia. done.
Qed.

Lemma store_at_slice b w got :
  (w + length got <= length b)%nat ->
  exists b', store_at b (Z.of_nat w) got = Some b' /\ length b' = length b
             /\ ring_slice b' w (length got) = got.
Proof.
  intros H. unfold store_at. rewrite Nat2Z.id. rewrite decide_True by done.
  eexists. split; [done|]. split.
  - rewrite !length_app, length_take, length_drop. lia.
  - unfold ring_slice. rewrite <- app_assoc, drop_app_exact by (rewrite length_take; lia).
    rewrite <- app_assoc. by rewrite take_app_exact.
Qed.

Lemma ring_count r n :
  ring_ok r -> 0 <= n < bufsize -> writepos r = (readpos r + n) mod bufsize ->
  (writepos r - readpos r) mod bufsize = n.
Proof.
  intros [Hr Hw _] Hn ->. rewrite Zminus_mod_idemp_l.
  replace (readpos r + n - readpos r) with n by lia. by apply Z.mod_small.
Qed.

(** Taking a character from [n + 1] stored ones. *)
Lemma ring_next_ok r n :
  ring_ok r -> 0 <= n < bufsize -> writepos r = (readpos r + (n + 1)) mod bufsize ->
  exists c r', ring_next r = Ret (Some c, r') /\ ring_ok r' /\ rx r' = rx r
    /\ ring_slice (buffer r) (Z.to_nat (readpos r)) (Z.to_nat (n + 1)) = c :: ring_data r'
    /\ (writepos r' - readpos r') mod bufsize = n.
Proof.
  intros Hok Hn Hw. pose proof Hok as [Hr Hw' Hl].
  destruct (ring_slice_step (buffer r) (Z.to_nat (readpos r)) (Z.to_nat n)) as (c & Hc & Hs);
    [lia..|].
  exists c, (set_readpos ((readpos r + 1) mod bufsize) r).
  assert (ring_ok (set_readpos ((readpos r + 1) mod bufsize) r)) as Hok'.
  { split; simpl; [apply Z.mod_pos_bound; unfold bufsize; lia|done|done]. }
  assert ((writepos r - (readpos r + 1) mod bufsize) mod bufsize = n) as Hcnt.
  { apply (ring_count (set_readpos ((readpos r + 1) mod bufsize) r) n Hok' Hn). simpl.
    rewrite Hw, Zplus_mod_idemp_l. f_equal. lia. }
  split_and!; try done.
  - unfold ring_next. mred. by rewrite Hc.
  - replace (Z.to_nat (n + 1)) with (S (Z.to_nat n)) by lia. rewrite Hs. f_equal.
    unfold ring_data. simpl. rewrite Hcnt. f_equal.
    rewrite <- Nat2Z.id at 1. f_equal. rewrite Nat2Z.inj_mod, Hl. f_equal. lia.
Qed.

Lemma bufsize_pos : 0 < bufsize.
Proof. done. Qed.

(** The ring is empty exactly when the two positions agree. *)
Lemma ring_data_nil r : ring_ok r -> ring_data r = [] <-> readpos r = writepos r.
Proof.
  intros [Hr Hw Hl]. unfold ring_data, ring_slice. split; intros H.
  - apply (f_equal length) in H. rewrite length_take, length_drop, length_app in H. simpl in H.
    pose proof (Z.mod_pos_bound (writepos r - readpos r) bufsize bufsize_pos).
    assert ((writepos r - readpos r) mod bufsize = 0) as E by lia.
    apply Z.mod_divide in E as [k Hk]; [|done]. unfold bufsize in *. lia.
  - by rewrite H, Z.sub_diag.
Qed.

Lemma line_data_cons es c w :
  line_data es = c :: w ->
  exists bs es', es = RxRead (c :: bs) :: es' /\ w = bs ++ line_data es'.
Proof.
  destruct es as [|[| |[|b bs]] es]; simpl; try done. intros [= -> <-]. eauto.
Qed.

Lemma ring_data_length r :
  ring_ok r -> Z.of_nat (length (ring_data r)) = (writepos r - readpos r) mod bufsize.
Proof.
  intros [Hr Hw Hl]. unfold ring_data, ring_slice.
  rewrite length_take, length_drop, length_app.
  pose proof (Z.mod_pos_bound (writepos r - readpos r) bufsize bufsize_pos). lia.
Qed.

(** What one successful call does to the queue. *)
Definition takes (r : ring) (c : Z) (w : list Z) (r' : ring) : Prop :=
  getCharTimeout r = Ret (Some c, r') /\ ring_ok r' /\ wire r' = w
  /\ line_after (rx r') = line_after (rx r) /\ (pending r' < pending r)%nat.

(** The ring is empty: one [read] fills it, and its first byte is taken. *)
Lemma getCharTimeout_fill r c bs es :
  ring_ok r -> readpos r = writepos r -> rx r = RxRead (c :: bs) :: es ->
  exists r', takes r c (bs ++ line_data es) r'.
Proof.
  intros Hok E Hrx. pose proof Hok as [Hr Hw Hl]. unfold takes, getCharTimeout. mred.
  rewrite E, Z.eqb_refl, Hrx, Z.ltb_irrefl. set (m := Z.to_nat (bufsize - writepos r)).
  set (got := take m (c :: bs)). set (left := drop m (c :: bs)).
  assert (m = S (pred m)) as Hm by lia.
  assert (got = c :: take (pred m) bs) as Hgot by (unfold got; by rewrite Hm).
  assert (length got <= m)%nat as Hlg by (unfold got; rewrite length_take; lia).
  rewrite (proj2 (Z.leb_gt _ 0)) by (rewrite Hgot; simpl; lia).
  destruct (store_at_slice (buffer r) (Z.to_nat (writepos r)) got) as (b' & Hs & Hb' & Hsl);
    [lia|]. rewrite Z2Nat.id in Hs by lia. rewrite Hs.
  set (es' := match left with [] => es | _ => RxRead left :: es end).
  match goal with |- context [ring_next ?x] => set (r1 := x) end.
  destruct (ring_next_ok r1 (Z.of_nat (length got) - 1)) as (c' & r' & Hn & Hok' & Hrx' & Hsl' & Hc').
  { split; simpl; rewrite ?E, ?Hb'; try done. apply Z.mod_pos_bound. done. }
  { rewrite Hgot in *. simpl in *. lia. }
  { simpl. rewrite E. f_equal. lia. }
  simpl in Hsl'. rewrite E in Hsl'.
  replace (Z.to_nat (Z.of_nat (length got) - 1 + 1)) with (length got) in Hsl' by lia.
  rewrite Hsl, Hgot in Hsl'. injection Hsl' as <- Hrd.
  assert (line_data es' = drop (pred m) bs ++ line_data es /\ line_after es' = line_after es)
    as [Hld Hla] by (unfold es', left; rewrite Hm; simpl; by destruct (drop (pred m) bs)).
  exists r'. split_and!; try done.
  - unfold wire. rewrite <- Hrd, Hrx'. simpl. fold es'. rewrite Hld.
    by rewrite app_assoc, take_drop.
  - rewrite Hrx'. done.
  - assert (length got + length left = S (length bs))%nat as Hlen.
    { unfold got, left. rewrite <- length_app, take_drop. done. }
    unfold pending. rewrite Hc', Hrx', Hrx. simpl. fold es'. rewrite Hgot in Hlen |- *.
    destruct left eqn:El; subst es'; simpl in *; lia.
Qed.

(** The ring holds characters. *)
Lemma getCharTimeout_held r c d :
  ring_ok r -> ring_data r = c :: d -> exists r', takes r c (d ++ line_data (rx r)) r'.
Proof.
  intros Hok Hd. pose proof Hok as [Hr Hw Hl]. unfold takes, getCharTimeout. mred.
  destruct (Z.eqb_spec (readpos r) (writepos r)) as [E|E].
  { apply ring_data_nil in E; [congruence|done]. }
  pose proof (ring_data_length r Hok) as Hlen. rewrite Hd in Hlen. simpl in Hlen.
  set (n := (writepos r - readpos r) mod bufsize) in *.
  pose proof (Z.mod_pos_bound (writepos r - readpos r) bufsize bufsize_pos) as Hn. fold n in Hn.
  destruct (ring_next_ok r (n - 1)) as (c' & r' & Hnx & Hok' & Hrx' & Hsl & Hc'); [done|lia| |].
  { replace (n - 1 + 1) with n by lia. unfold n. rewrite Zplus_mod_idemp_r, Z.mod_small; lia. }
  replace (n - 1 + 1) with n in Hsl by lia.
  change (ring_slice _ _ _) with (ring_data r) in Hsl. rewrite Hd in Hsl.
  injection Hsl as <- Hd'. exists r'. split_and!; try done.
  - unfold wire. by rewrite <- Hd', Hrx'.
  - by rewrite Hrx'.
  - unfold pending. fold n. rewrite Hc', Hrx'. lia.
Qed.

(** Taking the next character of the wire. *)
Lemma getCharTimeout_some r c w : ring_ok r -> wire r = c :: w -> exists r', takes r c w r'.
Proof.
  intros Hok Hwire. unfold wire in Hwire. destruct (ring_data r) as [|c0 d] eqn:Hd; simpl in Hwire.
  - apply ring_data_nil in Hd; [|done]. apply line_data_cons in Hwire as (bs & es & Hrx & ->).
    by apply getCharTimeout_fill.
  - injection Hwire as -> <-. by apply getCharTimeout_held.
Qed.

(** On a quiet line the wait times out and one event is consumed. *)
Lemma getCharTimeout_none r :
  ring_ok r -> wire r = [] ->
  getCharTimeout r = Ret (None, set_rx (tail (rx r)) r).
Proof.
  intros Hok Hwire. apply app_eq_nil in Hwire as [Hd Hl].
  apply ring_data_nil in Hd as E; [|done]. unfold getCharTimeout. mred. rewrite E, Z.eqb_refl.
  destruct (rx r) as [|[| |[|b bs]] es] eqn:Hrx; simpl in *; try done.
  - destruct r. simpl in *. by subst.
  - by rewrite take_nil, drop_nil.
Qed.

(** ** What every step of the receiver preserves *)

Definition left (s : st) : nat := pending (line s).

(** [s'] is a well-formed state reached from [s]: no more input is pending
    than before, and the control fields are the same. *)
Record after (s s' : st) : Prop := {
  after_ring : ring_ok (line s');
  after_pkt : Z.of_nat (length (pkt s')) = 1024;
  after_left : (left s' <= left s)%nat;
  after_ctl : (next_blk s', mode s', crc_mode s', at_eof s', chan s')
              = (next_blk s, mode s, crc_mode s, at_eof s, chan s)
}.

Definition st_ok (s : st) : Prop := after s s.

Lemma after_trans s1 s2 s3 : after s1 s2 -> after s2 s3 -> after s1 s3.
Proof. intros [] []. split; try done; [lia|congruence]. Qed.

Lemma after_ok s s' : after s s' -> st_ok s'.
Proof. intros []. by split. Qed.

Lemma after_set_line s l :
  st_ok s -> ring_ok l -> (pending l <= left s)%nat -> after s (set_line l s).
Proof. intros [] ??. by split. Qed.

(** Solves [after] goals for updates of other fields. *)
Ltac after_tac :=
  lazymatch goal with
  | H : after ?s ?s1 |- after ?s _ => destruct H; split; simpl in *; rewrite ?length_insert; auto
  end.

Lemma getc_total s :
  st_ok s ->
  wp getc (fun r s' => after s s' /\ (exists l, s' = set_line l s)
                       /\ (r <> None -> (left s' < left s)%nat)) s.
Proof.
  intros Hok. pose proof Hok as [Hr Hp _ _]. unfold wp, getc.
  destruct (wire (line s)) as [|c w] eqn:Hw.
  - rewrite getCharTimeout_none by done. split_and!; [|by eexists|done].
    apply after_set_line; [done|by destruct Hr; split|]. unfold left, pending. simpl.
    destruct (rx (line s)) as [|[| |] es]; simpl; lia.
  - destruct (getCharTimeout_some (line s) c w Hr Hw) as (r' & -> & Hok' & _ & _ & Hlt).
    split_and!; [|by eexists|done]. apply after_set_line; [done..|]. unfold left. lia.
Qed.

Lemma flush_loop_total fuel s :
  st_ok s -> (left s < fuel)%nat ->
  wp (flush_loop fuel) (fun _ s' => after s s' /\ exists l, s' = set_line l s) s.
Proof.
  revert s. induction fuel as [|k IH]; intros s Hok Hf; [lia|]. cbn [flush_loop].
  apply wp_bind. eapply wp_mono; [by apply getc_total|]. intros [c|] s' (Ha & [l ->] & Hlt).
  - eapply wp_mono; [apply IH; [by eapply after_ok|specialize (Hlt ltac:(done)); lia]|].
    intros _ s'' (Ha' & l' & ->). split; [by eapply after_trans|]. by exists l'.
  - apply wp_ret. eauto.
Qed.

Lemma xyzModem_flush_total s :
  st_ok s -> wp xyzModem_flush (fun _ s' => after s s' /\ exists l, s' = set_line l s) s.
Proof. intros Hok. apply wp_bind, wp_get, flush_loop_total; [done|]. unfold left. lia. Qed.

Lemma hdr_loop_total fuel can hc s :
  st_ok s -> (left s < fuel)%nat ->
  wp (hdr_loop fuel can hc)
    (fun r s' => after s s' /\ tx_ack s' = tx_ack s
       /\ match r with
          | inl stat => stat < 0
          | inr c => (left s' < left s)%nat /\ (c = SOH \/ c = STX)
          end) s.
Proof.
  revert can hc s. induction fuel as [|k IH]; intros can hc s Hok Hf; [lia|]. cbn [hdr_loop].
  apply wp_bind. eapply wp_mono; [by apply getc_total|]. intros [c|] s' (Ha & [l ->] & Hlt).
  - specialize (Hlt ltac:(done)).
    assert (forall can hc s1, after s s1 -> tx_ack s1 = tx_ack s -> (left s1 < left s)%nat ->
              wp (hdr_loop k can hc)
                (fun r s' => after s s' /\ tx_ack s' = tx_ack s
                   /\ match r with
                      | inl stat => stat < 0
                      | inr c => (left s' < left s)%nat /\ (c = SOH \/ c = STX)
                      end) s1) as Hrec.
    { intros can' hc' s1 Ha1 Ht1 Hl1.
      eapply wp_mono; [apply IH; [by eapply after_ok|lia]|].
      intros r s2 (Ha2 & Ht2 & Hr). split; [by eapply after_trans|]. split; [congruence|].
      destruct r; [done|]. split; [lia|tauto]. }
    destruct (Z.eqb_spec c SOH); [wp_steps; split_and!; [after_tac|done|done|by left]|].
    destruct (Z.eqb_spec c STX); [wp_steps; split_and!; [after_tac|done|done|by right]|].
    destruct (Z.eqb_spec c CAN); [|destruct (Z.eqb_spec c EOT)].
    + wp_steps. destruct (_ =? _); [wp_steps; split_and!; [after_tac|done|done]|].
      apply Hrec; [after_tac|done|done].
    + destruct (_ =? 1); [|by apply Hrec]. wp_steps. split_and!; [after_tac|done|done].
    + by apply Hrec.
  - apply wp_bind. eapply wp_mono; [apply xyzModem_flush_total; by eapply after_ok|].
    intros _ s2 (Ha2 & l2 & ->). unfold HAL_DELAY_US, send. wp_steps.
    split_and!; [|done|done]. pose proof (after_trans _ _ _ Ha Ha2). after_tac.
Qed.

Lemma pkt_loop_total n i s :
  st_ok s ->
  wp (pkt_loop n i)
    (fun _ s' => after s s' /\ exists p l, s' = set_pkt p (set_line l s)) s.
Proof.
  revert i s. induction n as [|n IH]; intros i s Hok; cbn [pkt_loop].
  - wp_steps. split; [done|]. exists (pkt s), (line s). by destruct s.
  - apply wp_bind. eapply wp_mono; [by apply getc_total|]. intros [c|] s' (Ha & [l ->] & _).
    + wp_steps. assert (after s (set_pkt (<[i:=c]> (pkt (set_line l s))) (set_line l s))) as Ha1.
      { destruct Ha. split; simpl in *; rewrite ?length_insert; auto. }
      eapply wp_mono; [apply IH; by eapply after_ok|].
      intros b s2 (Ha2 & p & l2 & ->). split; [by eapply after_trans|]. by exists p, l2.
    + wp_steps. split; [done|]. exists (pkt s), l. by destruct s.
Qed.

Lemma get_field_total (set : Z -> st -> st) s :
  st_ok s -> (forall s1 c, after s s1 -> after s (set c s1)) ->
  wp (get_field set) (fun _ s' => after s s' /\ exists l, s' = set_line l s
                                                 \/ exists c, s' = set c (set_line l s)) s.
Proof.
  intros Hok Hset. unfold get_field. apply wp_bind. eapply wp_mono; [by apply getc_total|].
  intros [c|] s' (Ha & [l ->] & _); wp_steps.
  - split; [by apply Hset|]. exists l. right. by exists c.
  - split; [done|]. exists l. by left.
Qed.

Section Facts.
Context (cyg_crc16 : list Z -> Z).

Lemma validate_total s :
  st_ok s ->
  wp (validate cyg_crc16)
    (fun stat s' => after s s' /\ stat <= 0 /\ exists l, s' = set_line l s) s.
Proof.
  intros Hok. unfold validate. wp_steps.
  assert (s = set_line (line s) s) as Hs by (by destruct s).
  destruct (negb _).
  - apply wp_bind. eapply wp_mono; [by apply xyzModem_flush_total|]. intros _ s' [Ha [l ->]].
    wp_steps. split_and!; [done|unfold xyzModem_frame; lia|by exists l].
  - destruct (crc_mode s), (negb _); wp_steps;
      (split_and!; [done|unfold xyzModem_cksum; lia|by exists (line s)]).
Qed.

Lemma get_packet_total c s :
  st_ok s -> c = SOH \/ c = STX ->
  wp (get_packet cyg_crc16 c)
    (fun stat s' => after s s' /\ stat <= 0 /\ tx_ack s' = tx_ack s
       /\ (stat = 0 -> bufp s' = 0 /\ (len s' = 128 \/ len s' = 1024))) s.
Proof.
  intros Hok Hc. unfold get_packet, xyzModem_timeout.
  apply wp_bind. eapply wp_mono; [apply get_field_total; [done|intros; after_tac]|].
  intros b1 s1 (A1 & l1 & E1). assert (tx_ack s1 = tx_ack s) as T1 by (by destruct E1 as [->|[? ->]]).
  destruct b1; simpl; [|wp_steps; split_and!; [done|lia|done|lia]].
  apply wp_bind. eapply wp_mono; [apply get_field_total; [by eapply after_ok|intros; after_tac]|].
  intros b2 s2 (A2 & l2 & E2). assert (tx_ack s2 = tx_ack s1) as T2 by (by destruct E2 as [->|[? ->]]).
  pose proof (after_trans _ _ _ A1 A2) as A12.
  destruct b2; simpl; [|wp_steps; split_and!; [done|lia|congruence|lia]].
  set (n := if c =? SOH then 128 else 1024). wp_steps.
  match goal with |- wp _ _ ?x => assert (after s x) as A3 by after_tac; set (s3 := x) in * end.
  eapply wp_mono; [apply pkt_loop_total; by eapply after_ok|].
  intros b4 s4 (A4 & p4 & l4 & ->). pose proof (after_trans _ _ _ A3 A4) as A14.
  destruct b4; simpl; [|wp_steps; split_and!; [done|lia|simpl; congruence|lia]].
  apply wp_bind. eapply wp_mono; [apply get_field_total; [by eapply after_ok|intros; after_tac]|].
  intros b5 s5 (A5 & l5 & E5). pose proof (after_trans _ _ _ A14 A5) as A15.
  assert (tx_ack s5 = tx_ack s2 /\ bufp s5 = 0 /\ len s5 = n) as (T5 & B5 & L5)
    by (by destruct E5 as [->|[? ->]]).
  destruct b5; simpl; [|wp_steps; split_and!; [done|lia|congruence|lia]].
  assert (n = 128 \/ n = 1024) as Hn by (unfold n; destruct (c =? SOH); auto).
  assert (forall s6, after s5 s6 -> tx_ack s6 = tx_ack s5 -> bufp s6 = 0 -> len s6 = n ->
            wp (validate cyg_crc16)
              (fun stat s' => after s s' /\ stat <= 0 /\ tx_ack s' = tx_ack s
                 /\ (stat = 0 -> bufp s' = 0 /\ (len s' = 128 \/ len s' = 1024))) s6) as Hv.
  { intros s6 A6 T6 B6 L6. eapply wp_mono; [apply validate_total; by eapply after_ok|].
    intros stat s7 (A7 & Hstat & l7 & ->).
    split_and!; [exact (after_trans _ _ _ A15 (after_trans _ _ _ A6 A7))|done|simpl; congruence|].
    intros _. simpl. split; [done|]. lia. }
  wp_steps. destruct (crc_mode s5).
  - apply wp_bind. eapply wp_mono; [apply get_field_total; [by eapply after_ok|intros; after_tac]|].
    intros b6 s6 (A6 & l6 & E6). destruct b6; simpl.
    + apply Hv; [done|..]; by destruct E6 as [->|[? ->]].
    + wp_steps. split_and!; [by eapply after_trans|lia| |lia].
      destruct E6 as [->|[? ->]]; simpl; congruence.
  - apply Hv; try done. by eapply after_ok.
Qed.

Lemma get_hdr_total s :
  st_ok s ->
  wp (xyzModem_get_hdr cyg_crc16)
    (fun stat s' => after s s' /\ stat <= 0
       /\ (stat = 0 -> (left s' < left s)%nat /\ bufp s' = 0 /\ (len s' = 128 \/ len s' = 1024))) s.
Proof.
  intros Hok. unfold xyzModem_get_hdr. wp_steps.
  apply (wp_mono _ (fun _ s1 => after s s1)).
  { apply wp_when; [|done]. intros _. unfold putChar, send. wp_steps. unfold st_ok in Hok. after_tac. }
  intros _ s1 A1. wp_steps.
  eapply wp_mono; [apply hdr_loop_total; [by eapply after_ok|unfold left; lia]|].
  intros [stat|c] s2 (A2 & _ & Hr).
  - wp_steps. split_and!; [by eapply after_trans|lia|lia].
  - destruct Hr as [Hl Hc]. eapply wp_mono; [apply get_packet_total; [by eapply after_ok|done]|].
    intros stat s3 (A3 & Hs & _ & Hz).
    split_and!; [exact (after_trans _ _ _ A1 (after_trans _ _ _ A2 A3))|done|].
    intros E. destruct (Hz E) as [? ?]. split_and!; try done.
    destruct A1, A3. lia.
Qed.

End Facts.
