(* ===== verification/XyzModemProps.v ===== *)
(** * The X/Y-modem receiver: its properties

    The input ring is a queue; every call returns and stays in bounds whatever
    the line carries; against a Y-modem sender the reads deliver the file. *)

From S2P Require Import Prelude.
From S2P Require Import XyzModem.
From S2P Require Import XyzModemFacts.

(** * The X/Y-modem receiver as a byte stream

    First, safety for every behaviour of the line: [xyzModem_stream_open] and
    [xyzModem_stream_read] return, and stay inside their buffers.  Then the
    refinement: against a sender that follows the protocol, over a line that
    corrupts and repeats packets, the sequence of reads delivers the sender's
    data, each block once and in order. *)

Section Stream.
Context (cyg_crc16 : list Z -> Z).

(** ** Safety *)

(** A packet that can be copied out. *)
Definition readable (s : st) : Prop :=
  st_ok s /\ 0 <= bufp s /\ 0 <= len s /\ bufp s + len s <= 1024.

Lemma after_upd s s' f :
  after s s' -> line (f s') = line s' -> pkt (f s') = pkt s' -> st_ok (f s').
Proof. intros [] E1 E2. split; rewrite ?E1, ?E2; auto. Qed.

Lemma after_frame s s' f :
  after s s' -> line (f s') = line s' -> pkt (f s') = pkt s' ->
  (next_blk (f s'), mode (f s'), crc_mode (f s'), at_eof (f s'), chan (f s'))
  = (next_blk s', mode s', crc_mode s', at_eof s', chan s') ->
  after s (f s').
Proof. intros [] E1 E2 E3. unfold left in *. split; unfold left; rewrite ?E1, ?E2, ?E3; auto. Qed.

Lemma strip_eof_le data n : (strip_eof data n <= n)%nat.
Proof. induction n as [|n IH]; simpl; [done|]. destruct (_ =? _); lia. Qed.

Lemma strip_len_range data n : 0 <= n -> 0 <= strip_len data n <= n.
Proof.
  intros Hn. unfold strip_len. destruct (_ && _); [|lia].
  pose proof (strip_eof_le data (Z.to_nat n)). lia.
Qed.

Lemma send_ok e s : st_ok s -> wp (send e) (fun _ s' => after s s' /\ s' = set_tx (tx s ++ [e]) s) s.
Proof. intros Hok. unfold send. wp_steps. split; [|done]. unfold st_ok in Hok. after_tac. Qed.

Lemma request_ok s : st_ok s -> wp request (fun _ s' => after s s') s.
Proof.
  intros Hok. unfold request, putChar. wp_steps. eapply wp_mono; [by apply send_ok|]. by intros ? ? [].
Qed.

(** The outcome of the loop for one block, from a line with [L] pending. *)
Definition block_result (L : nat) (stat : Z) (s : st) : Prop :=
  st_ok s /\ (left s <= L)%nat /\ stat <= 0
  /\ (stat = 0 -> bufp s = 0 /\ 0 <= len s <= 1024 /\ (at_eof s = true \/ (left s < L)%nat)).

Lemma bad_packet_total retry b L s :
  block_result L b s -> at_eof s = false -> b < 0 ->
  (forall s' b', block_result L b' s' -> at_eof s' = false ->
     wp (retry b') (fun stat s'' => block_result L stat s'') s') ->
  wp (bad_packet cyg_crc16 retry b) (fun stat s' => block_result L stat s') s.
Proof.
  intros Hb Heof Hneg Hretry. pose proof Hb as (Hok & HL & _ & _). unfold bad_packet.
  destruct (b =? xyzModem_cancel); [by wp_steps|]. destruct (b =? xyzModem_eof).
  - unfold putChar. wp_steps. eapply wp_mono; [by apply send_ok|]. intros _ s2 [A2 _]. wp_steps.
    apply (wp_mono _ (fun stat s' => after s s' /\ stat <= 0
                        /\ (stat = 0 -> bufp s' = 0 /\ 0 <= len s' <= 1024))).
    + destruct (mode _ =? _); [|wp_steps; split_and!; [done|lia..]]. wp_steps.
      eapply wp_mono; [apply request_ok; by eapply after_ok|]. intros ? s3 A3; cbn beta in A3. wp_steps.
      pose proof (after_trans _ _ _ A2 A3) as A23.
      match goal with |- wp _ _ ?x => assert (after s x) as A4 by by apply (after_frame _ _ _ A23) end.
      eapply wp_mono; [apply get_hdr_total; by eapply after_ok|]. intros st4 s4 (A5 & Hst4 & Hz4).
      wp_steps. eapply wp_mono; [apply send_ok; by eapply after_ok|]. intros _ s5 [A6 E5]. wp_steps.
      split_and!; [exact (after_trans _ _ _ A4 (after_trans _ _ _ A5 A6))|done|].
      intros E. destruct (Hz4 E) as (_ & ? & ?). rewrite E5. simpl. lia.
    + intros st3 s3 (A3 & Hst3 & Hz3). wp_steps.
      split_and!; [by apply (after_upd _ _ _ A3)|destruct A3; unfold left in *; simpl; lia|done|].
      intros E. destruct (Hz3 E). split; [done|]. split; [done|]. by left.
  - wp_steps. eapply wp_mono; [by apply request_ok|]. intros ? s2 A2; cbn beta in A2. wp_steps.
    apply Hretry; [|destruct A2; simpl; congruence].
    split_and!; [by apply (after_upd _ _ _ A2)|destruct A2; unfold left in *; simpl; lia|lia|lia].
Qed.

Lemma block_loop_total k stat L s :
  block_result L stat s -> at_eof s = false ->
  wp (block_loop cyg_crc16 k stat) (fun stat' s' => block_result L stat' s') s.
Proof.
  revert stat s. induction k as [|k IH]; intros stat s (Hok & HL & Hst & Hz) Heof; cbn [block_loop].
  { wp_steps. by split_and!. }
  apply wp_bind. eapply wp_mono; [by apply get_hdr_total|]. intros st1 s1 (A1 & Hst1 & Hz1).
  pose proof (after_ok _ _ A1) as Hok1. assert (left s1 <= L)%nat as HL1 by (destruct A1; lia).
  assert (at_eof s1 = false) as Heof1 by (destruct A1; congruence).
  wp_steps. destruct (Z.eqb_spec st1 0) as [->|Hne].
  2: { apply bad_packet_total; [split_and!; (done || lia)|done|lia|eauto]. }
  destruct (Hz1 eq_refl) as (Hlt & Hb & Hl).
  destruct (blk s1 =? next_blk s1); [|destruct (blk s1 =? _)].
  - wp_steps. split_and!; [by split; destruct Hok1|unfold left in *; simpl; lia|done|].
    pose proof (strip_len_range (drop (Z.to_nat (bufp s1)) (pkt s1)) (len s1)).
    intros _. simpl. split_and!; [done|lia..|]. right. unfold left in *. simpl. lia.
  - unfold putChar. wp_steps. eapply wp_mono; [by apply send_ok|]. intros _ s2 [A2 ->].
    apply IH; [|done]. split_and!; [by eapply after_ok|destruct A2; lia|done|].
    intros _. simpl. split_and!; [lia..|]. right. destruct A2. unfold left in *. simpl in *. lia.
  - apply bad_packet_total; [|done|done|eauto]. split_and!; done.
Qed.


(** What a call of [xyzModem_stream_read] for [n] bytes leaves behind. *)
Definition read_result (n : Z) (d : list Z) (err : option Z) (s : st) : Prop :=
  Z.of_nat (length d) <= n
  /\ match err with
     | None => (at_eof s = true \/ Z.of_nat (length d) = n) /\ readable s
     | Some e => e < 0 /\ len s = -1
     end.

Lemma copy_out_eq size s :
  readable s -> 0 < size ->
  let n := Z.min size (len s) in
  copy_out size s = Ret (take (Z.to_nat n) (drop (Z.to_nat (bufp s)) (pkt s)),
                         set_bufp (bufp s + n) (set_len (len s - n) s)).
Proof.
  intros ([_ Hp _ _] & Hb & Hl & Hbl) Hsz. simpl. unfold copy_out. mred.
  assert ((if size <? len s then size else len s) = Z.min size (len s)) as ->
    by (destruct (Z.ltb_spec size (len s)); lia).
  destruct (Z.ltb_spec (Z.min size (len s)) 0); [lia|].
  by destruct (Z.ltb_spec (Z.of_nat (length (pkt s))) (bufp s + Z.min size (len s))); [lia|].
Qed.

Lemma copy_out_total size s :
  readable s -> 0 < size ->
  wp (copy_out size)
    (fun d s' => readable s' /\ left s' = left s /\ Z.of_nat (length d) = Z.min size (len s)
                 /\ at_eof s' = at_eof s) s.
Proof.
  intros Hrd Hsz. eapply wp_eq; [by apply copy_out_eq|].
  destruct Hrd as ([? Hp ? ?] & Hb & Hl & Hbl). split_and!; simpl; try done.
  - split_and!; simpl; try lia. by split.
  - rewrite length_take, length_drop. lia.
Qed.

(** The start of a turn of the outer loop: a packet with data is kept, one
    that is used up is replaced. *)
Definition read_turn : M st Z :=
  s ← get;
  if len s =? 0 then block_loop cyg_crc16 xyzModem_MAX_RETRIES xyzModem_cancel else mret 0.

Lemma read_turn_total s :
  readable s -> at_eof s = false ->
  wp read_turn
    (fun stat s1 => stat <= 0 /\ (left s1 <= left s)%nat /\
       (stat = 0 -> readable s1 /\ (at_eof s1 = true \/ at_eof s1 = false /\
          ((left s1 < left s)%nat \/ left s1 = left s /\ 0 < len s1)))) s.
Proof.
  intros (Hok & Hb & Hl & Hbl) Heof. unfold read_turn. wp_steps.
  destruct (Z.eqb_spec (len s) 0) as [E|E].
  - eapply wp_mono; [apply (block_loop_total _ _ (left s)); [|done]|].
    { split_and!; unfold xyzModem_cancel; try done; lia. }
    intros stat s1 (Hok1 & HL1 & Hst1 & Hz1). split_and!; [done..|]. intros E0.
    destruct (Hz1 E0) as (Hb1 & Hl1 & Hor). split; [split_and!; (done || lia)|].
    destruct (at_eof s1); [by left|]. right. split; [done|]. left. destruct Hor; [done|lia].
  - wp_steps. split_and!; try lia. intros _. split; [by split_and!|]. right. split; [done|].
    right. lia.
Qed.

Lemma read_loop_total k size acc s :
  readable s -> 0 <= size -> (Z.to_nat size + left s + (if at_eof s then 0 else 1) < k)%nat ->
  wp (read_loop cyg_crc16 k size acc)
    (fun r s' => read_result (Z.of_nat (length acc) + size) r.1 r.2 s') s.
Proof.
  revert size acc s. induction k as [|k IH]; intros size acc s Hrd Hsz Hk; [lia|].
  cbn [read_loop]. wp_steps. destruct (at_eof s) eqn:Heof.
  { wp_steps. split; simpl; [lia|]. by split; [left|]. }
  cbn [orb]. destruct (Z.leb_spec size 0) as [Hle|Hgt].
  { wp_steps. split; simpl; [lia|]. split; [right; lia|done]. }
  apply wp_bind. eapply wp_mono; [by apply read_turn_total|].
  intros stat s1 (Hst & HL1 & Hz). destruct (Z.ltb_spec stat 0) as [Hneg|Hnn].
  { wp_steps. split; simpl; [lia|]. split; [done|done]. }
  destruct (Hz ltac:(lia)) as [Hrd1 Hor]. wp_steps. destruct (at_eof s1) eqn:Heof1.
  { apply IH; [done..|]. rewrite Heof1. lia. }
  destruct Hor as [?|[_ Hprog]]; [done|].
  apply wp_bind. eapply wp_mono; [by apply copy_out_total|].
  intros d s2 (Hrd2 & HL2 & Hd & Heof2).
  assert (0 <= len s1) by (by destruct Hrd1 as (_ & _ & ? & _)).
  eapply wp_mono; [apply IH; [done|lia|rewrite Heof2, Heof1, HL2; lia]|].
  intros [d' err] s3. rewrite length_app. cbn [fst snd]. unfold read_result.
  replace (Z.of_nat (length acc + length d) + (size - Z.of_nat (length d)))
    with (Z.of_nat (length acc) + size) by lia. done.
Qed.


Lemma stream_read_total size s :
  readable s ->
  wp (xyzModem_stream_read cyg_crc16 size) (fun r s' => read_result (Z.max 0 size) r.1 r.2 s') s.
Proof.
  intros Hrd. unfold xyzModem_stream_read. wp_steps.
  destruct (Z.leb_spec 0 size) as [H|H].
  - rewrite Z.max_r by done. apply (read_loop_total _ size []); [done..|].
    unfold left. destruct (at_eof s); lia.
  - cbn [read_loop]. wp_steps. rewrite (proj2 (Z.leb_le size 0)), orb_true_r by lia. wp_steps.
    split; simpl; [lia|]. split; [right; lia|done].
Qed.

Lemma open_loop_total k cr stat s :
  st_ok s -> wp (open_loop cyg_crc16 k cr stat)
               (fun r s' => (r.1 = 0 \/ r.1 = -1) /\ (r.1 = 0 -> readable s')) s.
Proof.
  revert cr stat s. induction k as [|k IH]; intros cr stat s Hok; cbn [open_loop].
  { wp_steps. split; simpl; lia. }
  apply wp_bind. eapply wp_mono; [by apply get_hdr_total|]. intros st1 s1 (A1 & _ & Hz).
  apply after_ok in A1 as Hok1. destruct (Z.eqb_spec st1 0) as [->|Hne].
  - destruct (Hz eq_refl) as (_ & Hb & _). wp_steps.
    destruct (blk s1 =? 0); (split; [by left|]; intros _);
      (split_and!; simpl; [|lia..]; destruct Hok1; by split).
  - destruct (st1 =? xyzModem_timeout).
    + wp_steps. apply wp_when; intros _; wp_steps; unfold HAL_DELAY_US, send, request, putChar;
        wp_steps; apply IH; destruct Hok1; by split.
    + destruct (st1 =? xyzModem_cancel); [wp_steps; split; simpl; lia|]. by apply IH.
Qed.

Lemma stream_open_total fd info_mode s :
  st_ok s -> 0 <= bufp s <= 1024 ->
  wp (xyzModem_stream_open cyg_crc16 fd info_mode)
    (fun r s' => r.1 <= 0 /\ (r.1 = 0 -> readable s')) s.
Proof.
  intros Hok Hb. unfold xyzModem_stream_open. wp_steps. destruct (Z.ltb_spec fd 0) as [H|H].
  { wp_steps. split; simpl; lia. }
  unfold request, putChar, send. wp_steps.
  destruct (info_mode =? xyzModem_xmodem).
  - wp_steps. split; [done|]. intros _. split_and!; simpl; [|lia..]. destruct Hok. by split.
  - eapply wp_mono; [apply open_loop_total; destruct Hok; by split|].
    intros [r e] s' [Hr Hz]. simpl in *. split; [lia|done].
Qed.

(** A client that opens the stream and reads until the end of the file, an
    error, or the end of its list of sizes. *)
Fixpoint reads (sizes : list Z) : M st (list Z) :=
  match sizes with
  | [] => mret []
  | n :: ns =>
      r ← xyzModem_stream_read cyg_crc16 n;
      match r.2 with
      | Some _ => mret r.1
      | None => d ← reads ns; mret (r.1 ++ d)
      end
  end.

Definition transfer (fd info_mode : Z) (sizes : list Z) : M st (Z * list Z) :=
  r ← xyzModem_stream_open cyg_crc16 fd info_mode;
  if r.1 =? 0 then d ← reads sizes; mret (r.1, d) else mret (r.1, []).

Lemma sum_max_nonneg ns : 0 <= foldr Z.add 0 (map (Z.max 0) ns).
Proof.
  induction ns as [|n ns IH]; cbn [map foldr]; [done|]. pose proof (Z.le_max_l 0 n). lia.
Qed.

Lemma reads_total sizes s :
  readable s ->
  wp (reads sizes)
    (fun d _ => Z.of_nat (length d) <= foldr Z.add 0 (map (Z.max 0) sizes)) s.
Proof.
  revert s. induction sizes as [|n ns IH]; intros s Hrd; cbn [reads].
  { by wp_steps. }
  apply wp_bind. eapply wp_mono; [by apply stream_read_total|]. intros [d err] s1 [Hd Herr].
  cbn [fst snd map foldr] in *.
  pose proof (sum_max_nonneg ns).
  destruct err as [e|]; [wp_steps; lia|]. apply wp_bind.
  eapply wp_mono; [apply IH; apply Herr|]. intros d' s2 Hd'. cbn beta in Hd'. wp_steps.
  rewrite length_app. lia.
Qed.

(** ** The protocol as the sender sees it *)

(** A packet: start character, block number and its complement, the data, and
    the two check bytes. *)
Definition packet (b cb : Z) (data : list Z) (crc : Z) : list Z :=
  (if decide (length data = 128%nat) then SOH else STX)
    :: b :: cb :: data ++ [Z.shiftr crc 8; Z.land crc 255].

Definition frame (b : Z) (data : list Z) : list Z := packet b (255 - b) data (cyg_crc16 data).

Definition sized (data : list Z) : Prop := length data = 128%nat \/ length data = 1024%nat.

(** Before a block the line may carry packets that fail their check, and the
    previous block again. *)
Inductive attempt :=
| Corrupt (b : Z) (data : list Z) (crc : Z)
| Repeat (data : list Z).

Definition attempt_bytes (b : Z) (a : attempt) : list Z :=
  match a with
  | Corrupt b' data crc => packet b' (255 - b') data crc
  | Repeat data => frame (Z.land (b - 1) 255) data
  end.

Definition attempt_ok (a : attempt) : Prop :=
  match a with
  | Corrupt b data crc => is_byte b /\ sized data /\ 0 <= crc < 65536 /\ crc <> cyg_crc16 data
  | Repeat data => sized data
  end.

(** What the sender puts on the line from block [b] on: every block after its
    failed attempts, then EOT and the header that ends the batch. *)
Fixpoint session (b : Z) (blocks : list (list attempt * list Z)) (last : list Z) : list Z :=
  match blocks with
  | [] => EOT :: frame 0 last
  | (atts, data) :: rest =>
      mjoin (map (attempt_bytes b) atts) ++ frame b data ++ session (Z.land (b + 1) 255) rest last
  end.

Definition block_ok (x : list attempt * list Z) : Prop :=
  Forall attempt_ok x.1 /\ (length x.1 < xyzModem_MAX_RETRIES)%nat /\ sized x.2.

(** The data of a block without its padding. *)
Definition payload (data : list Z) : list Z :=
  take (Z.to_nat (strip_len data (Z.of_nat (length data)))) data.

Definition contents (blocks : list (list attempt * list Z)) : list Z :=
  mjoin (map (fun x => payload x.2) blocks).

(** ** Reading from a wire *)

Definition at_wire (s : st) (w : list Z) : Prop := st_ok s /\ wire (line s) = w.

Lemma at_wire_upd s w f :
  at_wire s w -> line (f s) = line s -> length (pkt (f s)) = length (pkt s) -> at_wire (f s) w.
Proof. intros [[] Hw] E1 E2. split; [split; rewrite ?E1, ?E2; auto|by rewrite E1]. Qed.

Lemma getc_wire s c w :
  at_wire s (c :: w) ->
  wp getc (fun r s' => r = Some c /\ exists l, s' = set_line l s /\ at_wire s' w) s.
Proof.
  intros [Hok Hw]. pose proof Hok as [Hr Hp _ _]. unfold wp, getc.
  destruct (getCharTimeout_some (line s) c w Hr Hw) as (r' & -> & Hok' & Hw' & _ & _).
  split; [done|]. exists r'. split; [done|]. split; [by split|done].
Qed.

Lemma get_field_wire (set : Z -> st -> st) s c w :
  at_wire s (c :: w) ->
  wp (get_field set)
    (fun ok s' => ok = true /\ exists l, s' = set c (set_line l s) /\ at_wire (set_line l s) w) s.
Proof.
  intros Hw. unfold get_field. apply wp_bind. eapply wp_mono; [by apply getc_wire|].
  intros r s' (-> & l & -> & Hw'). wp_steps. split; [done|]. by exists l.
Qed.

Lemma pkt_loop_wire data i s w :
  (i + length data <= 1024)%nat -> at_wire s (data ++ w) ->
  wp (pkt_loop (length data) i)
    (fun ok s' => ok = true /\ at_wire s' w /\ exists l p, s' = set_pkt p (set_line l s)
       /\ take (i + length data) p = take i (pkt s) ++ data) s.
Proof.
  revert i s. induction data as [|c data IH]; intros i s Hi Hw; cbn [length pkt_loop].
  { wp_steps. split; [done|]. split; [done|]. exists (line s), (pkt s). split; [by destruct s|].
    by rewrite Nat.add_0_r, app_nil_r. }
  apply wp_bind. eapply wp_mono; [by apply getc_wire|]. intros r s1 (-> & l & -> & Hw1).
  wp_steps. pose proof Hw1 as [[_ Hp _ _] _]. simpl in Hp, Hi.
  eapply wp_mono; [apply IH; [lia|]|].
  { by apply (at_wire_upd _ _ (fun s => set_pkt (<[i:=c]> (pkt s)) s) Hw1); simpl;
      rewrite ?length_insert. }
  intros ok s2 (-> & Hw2 & l2 & p & -> & Ht). split; [done|]. split; [done|].
  exists l2, p. split; [done|]. replace (i + S (length data))%nat with (S i + length data)%nat by lia.
  rewrite Ht. simpl. rewrite (take_S_r _ _ c) by (apply list_lookup_insert_eq; lia).
  rewrite take_insert_ge by lia. by rewrite <- app_assoc.
Qed.

Lemma lxor_complement b : is_byte b -> Z.lxor b (255 - b) = 255.
Proof. intros Hb. apply Z.eqb_eq. revert b Hb. apply byte_forall. vm_compute. done. Qed.

Lemma crc_join crc : Z.lor (Z.shiftl (Z.shiftr crc 8) 8) (Z.land crc 255) = crc.
Proof.
  apply Z.bits_inj'. intros i Hi.
  rewrite Z.lor_spec, Z.land_spec. change 255 with (Z.ones 8).
  destruct (Z.ltb_spec i 8).
  - rewrite Z.shiftl_spec_low, Z.ones_spec_low by lia. by rewrite andb_true_r.
  - rewrite Z.shiftl_spec, Z.shiftr_spec, Z.ones_spec_high by lia.
    rewrite andb_false_r, orb_false_r. f_equal. lia.
Qed.

(** A packet whose complement is right, read in CRC mode. *)
Definition read_packet (b : Z) (data : list Z) (crc : Z) (w : list Z) (stat : Z) (s : st) : Prop :=
  at_wire s w /\ stat = (if cyg_crc16 data =? crc then 0 else xyzModem_cksum)
  /\ blk s = b /\ bufp s = 0 /\ len s = Z.of_nat (length data) /\ take (length data) (pkt s) = data.

Lemma get_packet_wire c b data crc w s :
  at_wire s (tail (packet b (255 - b) data crc) ++ w) -> crc_mode s = true -> is_byte b ->
  sized data -> c = (if decide (length data = 128%nat) then SOH else STX) ->
  wp (get_packet cyg_crc16 c) (fun stat s' => read_packet b data crc w stat s') s.
Proof.
  intros Hw Hcrc Hb Hsz ->. unfold get_packet. simpl in Hw. rewrite <- app_assoc in Hw. simpl in Hw.
  apply wp_bind. eapply wp_mono; [by apply get_field_wire|]. intros ok1 s1 (-> & l1 & -> & Hw1). simpl.
  apply wp_bind. eapply wp_mono; [by apply get_field_wire, (at_wire_upd _ _ (set_blk b) Hw1)|].
  intros ok2 s2 (-> & l2 & -> & Hw2). simpl.
  match goal with |- context [set_len ?x] => assert (x = Z.of_nat (length data)) as -> end.
  { destruct Hsz as [E|E]; rewrite E; done. }
  wp_steps. rewrite Nat2Z.id. eapply wp_mono; [apply pkt_loop_wire; [destruct Hsz; lia|]|].
  { by apply (at_wire_upd _ _ (fun s => set_bufp 0 (set_len (Z.of_nat (length data)) (set_cblk (255 - b) s))) Hw2). }
  intros ok3 s3 (-> & Hw3 & l3 & p & -> & Hp). simpl in Hp |- *.
  apply wp_bind. eapply wp_mono; [by apply get_field_wire|]. intros ok4 s4 (-> & l4 & -> & Hw4). simpl.
  wp_steps. simpl. rewrite Hcrc.
  apply wp_bind. eapply wp_mono; [by apply get_field_wire, (at_wire_upd _ _ (set_crc1 (Z.shiftr crc 8)) Hw4)|].
  intros ok5 s5 (-> & l5 & -> & Hw5). cbn [negb]. unfold validate. wp_steps. simpl.
  rewrite Nat2Z.id, Hp, lxor_complement, Hcrc, crc_join by done. simpl.
  assert (forall stat, stat = (if cyg_crc16 data =? crc then 0 else xyzModem_cksum) ->
            read_packet b data crc w stat
              (set_crc2 (Z.land crc 255) (set_line l5 (set_crc1 (Z.shiftr crc 8) (set_line l4
                 (set_pkt p (set_line l3 (set_bufp 0 (set_len (Z.of_nat (length data))
                    (set_cblk (255 - b) (set_line l2 (set_blk b (set_line l1 s)))))))))))))
    as Hrp.
  { intros stat Hst. split_and!; try done. by apply (at_wire_upd _ _ (set_crc2 (Z.land crc 255)) Hw5). }
  destruct (Z.eqb_spec (cyg_crc16 data) crc) as [E|E]; cbn [negb]; wp_steps; by apply Hrp.
Qed.

Lemma ack_wire s w :
  at_wire s w ->
  wp (when (tx_ack s) (putChar ACK;; modify (set_tx_ack false)))
    (fun _ s' => at_wire s' w /\ crc_mode s' = crc_mode s) s.
Proof.
  intros Hw. apply wp_when; [|done]. intros _. unfold putChar, send. wp_steps. split; [|done].
  by apply (at_wire_upd _ _ (fun s => set_tx_ack false (set_tx (tx s ++ [TxChar ACK]) s)) Hw).
Qed.

Lemma get_hdr_wire b data crc w s :
  at_wire s (packet b (255 - b) data crc ++ w) -> crc_mode s = true -> is_byte b -> sized data ->
  wp (xyzModem_get_hdr cyg_crc16)
    (fun stat s' => after s s' /\ read_packet b data crc w stat s') s.
Proof.
  intros Hw Hcrc Hb Hsz. apply wp_and.
  { eapply wp_mono; [apply get_hdr_total, Hw|]. by intros ? ? []. }
  unfold xyzModem_get_hdr. wp_steps. eapply wp_mono; [by apply ack_wire|].
  intros _ s1 [Hw1 Hcrc1]. wp_steps. rewrite Hcrc in Hcrc1. cbn [hdr_loop].
  change (packet b (255 - b) data crc ++ w)
    with ((if decide (length data = 128%nat) then SOH else STX)
            :: tail (packet b (255 - b) data crc) ++ w) in Hw1.
  apply wp_bind. eapply wp_mono; [by apply getc_wire|]. intros r s2 (-> & l & -> & Hw2).
  destruct (decide (length data = 128%nat)) as [E|E]; wp_steps; simpl.
  - wp_steps. apply get_packet_wire; [|done..|by rewrite decide_True].
    by apply (at_wire_upd _ _ (fun s => set_total_SOH (total_SOH s + 1) s) Hw2).
  - wp_steps. apply get_packet_wire; [|done..|by rewrite decide_False].
    by apply (at_wire_upd _ _ (fun s => set_total_STX (total_STX s + 1) s) Hw2).
Qed.

(** EOT as the first character of a header. *)
Lemma get_hdr_eot w s :
  at_wire s (EOT :: w) ->
  wp (xyzModem_get_hdr cyg_crc16)
    (fun stat s' => after s s' /\ stat = xyzModem_eof /\ at_wire s' w) s.
Proof.
  intros Hw. apply wp_and.
  { eapply wp_mono; [apply get_hdr_total, Hw|]. by intros ? ? []. }
  unfold xyzModem_get_hdr. wp_steps. eapply wp_mono; [by apply ack_wire|].
  intros _ s1 [Hw1 _]. wp_steps. cbn [hdr_loop].
  apply wp_bind. eapply wp_mono; [by apply getc_wire|]. intros r s2 (-> & l & -> & Hw2).
  simpl. unfold putChar, send. wp_steps. split; [done|].
  by apply (at_wire_upd _ _ (fun s => set_tx (tx s ++ [TxChar ACK]) s) Hw2).
Qed.

(** The control part of the state. *)
Definition ctl (s : st) : Z * Z * bool * bool * Z :=
  (next_blk s, mode s, crc_mode s, at_eof s, chan s).

(** Asking again, before whatever follows. *)
Lemma wp_request {A} (m : M st A) Q s w :
  at_wire s w -> (forall s', at_wire s' w -> ctl s' = ctl s -> wp m Q s') ->
  wp (request;; modify (fun s => set_total_retries (total_retries s + 1) s);; m) Q s.
Proof.
  intros Hw Hm. unfold request, putChar, send. wp_steps. apply Hm; [|done].
  by apply (at_wire_upd _ _ (fun s1 => set_total_retries (total_retries s1 + 1)
    (set_tx (tx s1 ++ [TxChar (if crc_mode s then CHAR_C else NAK)]) s1)) Hw).
Qed.

Lemma wp_putChar {A} (m : M st A) c Q s w :
  at_wire s w -> (forall s', at_wire s' w -> ctl s' = ctl s -> (blk s', bufp s', len s', pkt s')
                              = (blk s, bufp s, len s, pkt s) -> wp m Q s') ->
  wp (putChar c;; m) Q s.
Proof.
  intros Hw Hm. unfold putChar, send. wp_steps. apply Hm; [|done..].
  by apply (at_wire_upd _ _ (fun s1 => set_tx (tx s1 ++ [TxChar c]) s1) Hw).
Qed.

(** Failed attempts are skipped: a bad check asks again, a repetition is
    acknowledged and dropped. *)
Lemma block_loop_attempts atts k stat s rest Q :
  at_wire s (mjoin (map (attempt_bytes (next_blk s)) atts) ++ rest) -> crc_mode s = true ->
  Forall attempt_ok atts -> is_byte (next_blk s) ->
  (forall stat' s', at_wire s' rest -> ctl s' = ctl s -> wp (block_loop cyg_crc16 k stat') Q s') ->
  wp (block_loop cyg_crc16 (length atts + k) stat) Q s.
Proof.
  revert stat s. induction atts as [|a atts IH]; intros stat s Hw Hcrc Hok Hnb HQ; [by apply HQ|].
  inversion_clear Hok as [|? ? Ha Hok'].
  change (mjoin (map ?f (a :: atts))) with (attempt_bytes (next_blk s) a ++ mjoin (map f atts)) in Hw.
  rewrite <- app_assoc in Hw.
  cbn [length Nat.add block_loop]. apply wp_bind.
  assert (forall stat' s', at_wire s' (mjoin (map (attempt_bytes (next_blk s)) atts) ++ rest) ->
            ctl s' = ctl s -> wp (block_loop cyg_crc16 (length atts + k) stat') Q s') as Hrec.
  { intros stat' s' Hw' Hc. pose proof Hc as Hc'. injection Hc' as Hn Hm Hcm He Hch.
    apply IH; rewrite ?Hn; try done; [congruence|]. intros. apply HQ; congruence. }
  destruct a as [b data crc|data]; cbn [attempt_bytes attempt_ok] in Hw, Ha; unfold frame in Hw.
  - destruct Ha as (Hb & Hsz & _ & Hne). eapply wp_mono; [by apply get_hdr_wire|].
    intros st1 s1 (A & Hw1 & -> & _). rewrite (proj2 (Z.eqb_neq (cyg_crc16 data) crc)) by congruence.
    wp_steps. simpl. unfold bad_packet. simpl. eapply wp_request; [done|].
    intros s2 Hw2 Hc2. apply Hrec; [done|]. rewrite Hc2. apply A.
  - eapply wp_mono; [by apply get_hdr_wire; auto with nios|].
    intros st1 s1 (A & Hw1 & -> & Hblk & _). rewrite Z.eqb_refl. wp_steps. simpl.
    pose proof (after_ctl _ _ A) as Hc. injection Hc as Hn _ _ _ _.
    rewrite Hblk, Hn. destruct (Z.eqb_spec (Z.land (next_blk s - 1) 255) (next_blk s)) as [E|_].
    { exfalso. rewrite land_255 in E. unfold is_byte in Hnb.
      destruct (decide (next_blk s = 0)) as [E0|E0]; [by rewrite E0 in E|].
      rewrite Z.mod_small in E by lia. lia. }
    rewrite Z.eqb_refl. eapply wp_putChar; [done|]. intros s2 Hw2 Hc2 _.
    apply Hrec; [done|]. rewrite Hc2. apply A.
Qed.

Lemma strip_eof_take p n m : (m <= n)%nat -> strip_eof p m = strip_eof (take n p) m.
Proof.
  induction m as [|m IH]; intros H; simpl; [done|].
  rewrite IH by lia. rewrite !nth_lookup, lookup_take_lt by lia. done.
Qed.

Lemma strip_len_take p n :
  (3 <= n)%nat -> strip_len p (Z.of_nat n) = strip_len (take n p) (Z.of_nat n).
Proof.
  intros Hn. unfold strip_len. rewrite Nat2Z.id, <- strip_eof_take by done.
  rewrite !nth_lookup, !lookup_take_lt by lia. done.
Qed.

(** A block after its failed attempts. *)
Lemma block_loop_data atts data w s :
  at_wire s (mjoin (map (attempt_bytes (next_blk s)) atts) ++ frame (next_blk s) data ++ w) ->
  crc_mode s = true -> is_byte (next_blk s) -> block_ok (atts, data) ->
  wp (block_loop cyg_crc16 xyzModem_MAX_RETRIES xyzModem_cancel)
    (fun stat s' => stat = 0 /\ at_wire s' w /\ bufp s' = 0
       /\ ctl s' = (Z.land (next_blk s + 1) 255, mode s, crc_mode s, at_eof s, chan s)
       /\ len s' = strip_len data (Z.of_nat (length data))
       /\ take (Z.to_nat (len s')) (pkt s') = payload data) s.
Proof.
  intros Hw Hcrc Hnb (Hatts & Hlen & Hsz). simpl in Hatts, Hlen, Hsz.
  replace xyzModem_MAX_RETRIES
    with (length atts + S (xyzModem_MAX_RETRIES - S (length atts)))%nat by lia.
  eapply block_loop_attempts; [done..|]. intros stat' s' Hw' Hc. cbn [block_loop].
  pose proof Hc as Hc'. injection Hc' as Hn Hm Hcm He Hch.
  apply wp_bind. eapply wp_mono; [apply (get_hdr_wire (next_blk s) data (cyg_crc16 data)); try done|].
  { congruence. }
  intros st1 s1 (A & Hw1 & -> & Hb1 & Hbp1 & Hl1 & Hp1). rewrite Z.eqb_refl. wp_steps. simpl.
  pose proof (after_ctl _ _ A) as Hc1. injection Hc1 as Hn1 Hm1 Hcm1 He1 Hch1.
  rewrite Hb1, Hn1, Hn, Z.eqb_refl. wp_steps. simpl.
  assert (strip_len (drop (Z.to_nat (bufp s1)) (pkt s1)) (len s1)
          = strip_len data (Z.of_nat (length data))) as ->.
  { rewrite Hbp1, Hl1, drop_0, strip_len_take by (destruct Hsz; lia). by rewrite Hp1. }
  pose proof (strip_len_range data (Z.of_nat (length data))).
  split_and!; try done.
  - by apply (at_wire_upd _ _ (fun s => set_len _ (set_next_blk _ (set_tx_ack true s))) Hw1).
  - unfold ctl. simpl. congruence.
  - unfold payload. set (m := Z.to_nat _). rewrite <- Hp1, take_take. f_equal. lia.
Qed.

(** The end of the batch. *)
Lemma block_loop_end last w s k stat0 :
  at_wire s (EOT :: frame 0 last ++ w) -> crc_mode s = true -> mode s = xyzModem_ymodem ->
  sized last ->
  wp (block_loop cyg_crc16 (S k) stat0)
    (fun stat s' => stat = 0 /\ at_eof s' = true) s.
Proof.
  intros Hw Hcrc Hm Hsz. cbn [block_loop]. apply wp_bind.
  eapply wp_mono; [by eapply get_hdr_eot|]. intros st1 s1 (A & -> & Hw1). wp_steps. simpl.
  pose proof (after_ctl _ _ A) as Hc1. injection Hc1 as _ Hm1 Hcm1 _ _.
  unfold bad_packet. simpl. eapply wp_putChar; [done|]. intros s2 Hw2 Hc2 _.
  injection Hc2 as _ Hm2 Hcm2 _ _.
  wp_steps. rewrite Hm2, Hm1, Hm, Z.eqb_refl. eapply wp_request; [done|]. intros s3 Hw3 Hc3.
  injection Hc3 as _ _ Hcm3 _ _.
  apply wp_bind. eapply wp_mono; [apply (get_hdr_wire 0 last (cyg_crc16 last)); try done; congruence|].
  intros st4 s4 (A4 & Hw4 & -> & _). rewrite Z.eqb_refl. eapply wp_putChar; [done|].
  intros s5 Hw5 _ _. wp_steps. done.
Qed.

(** ** The stream a state stands for *)

Inductive streams (s : st) : list Z -> Prop :=
| streams_end : at_eof s = true -> streams s []
| streams_blocks blocks last w :
    readable s -> at_eof s = false -> crc_mode s = true -> mode s = xyzModem_ymodem ->
    is_byte (next_blk s) -> Forall block_ok blocks -> sized last ->
    wire (line s) = session (next_blk s) blocks last ++ w ->
    streams s (take (Z.to_nat (len s)) (drop (Z.to_nat (bufp s)) (pkt s)) ++ contents blocks).

Lemma copy_out_streams size s d blocks last w :
  readable s -> at_eof s = false -> crc_mode s = true -> mode s = xyzModem_ymodem ->
  is_byte (next_blk s) -> Forall block_ok blocks -> sized last ->
  wire (line s) = session (next_blk s) blocks last ++ w ->
  d = take (Z.to_nat (len s)) (drop (Z.to_nat (bufp s)) (pkt s)) ++ contents blocks ->
  0 < size ->
  wp (copy_out size)
    (fun d1 s' => d1 = take (length d1) d /\ streams s' (drop (length d1) d)) s.
Proof.
  intros Hrd He Hc Hm Hnb Hbl Hlast Hw -> Hsz. pose proof Hrd as ([_ Hp _ _] & Hb & Hl & Hbl').
  pose proof (copy_out_total size s Hrd Hsz) as Ht. unfold wp in *.
  rewrite copy_out_eq in * by done. destruct Ht as (Hrd' & _ & Hd1 & He').
  set (d1 := take _ (drop (Z.to_nat (bufp s)) (pkt s))) in *.
  set (n := Z.min size (len s)) in *.
  set (p := drop (Z.to_nat (bufp s)) (pkt s)) in *.
  assert (Z.to_nat n <= length p)%nat by (unfold p; rewrite length_drop; lia).
  assert (length d1 = Z.to_nat n) as Hd1n by lia. rewrite Hd1n.
  rewrite take_app_le, drop_app_le by (rewrite length_take; lia). split.
  - unfold d1. rewrite take_take. f_equal. lia.
  - replace (drop (Z.to_nat n) (take (Z.to_nat (len s)) p))
      with (take (Z.to_nat (len s - n)) (drop (Z.to_nat (bufp s + n)) (pkt s))).
    { by apply (streams_blocks (set_bufp (bufp s + n) (set_len (len s - n) s)) _ last w). }
    unfold p. replace (Z.to_nat (len s)) with (Z.to_nat n + Z.to_nat (len s - n))%nat by lia.
    rewrite <- take_drop_commute, drop_drop. f_equal. f_equal. lia.
Qed.

(** One turn of the outer loop on a packet that is used up. *)
Lemma block_loop_streams s d :
  streams s d -> at_eof s = false -> len s = 0 ->
  wp (block_loop cyg_crc16 xyzModem_MAX_RETRIES xyzModem_cancel)
    (fun stat s' => stat = 0 /\ streams s' d) s.
Proof.
  intros Hd Heof Hlen. destruct Hd as [?|blocks last w Hrd He Hc Hm Hnb Hbl Hlast Hw]; [congruence|].
  rewrite Hlen. cbn [Z.to_nat take app]. destruct blocks as [|[atts data] rest].
  - eapply wp_mono; [apply (block_loop_end last w); [|done..]; split; [apply Hrd|done]|].
    intros stat s' [-> He']. split; [done|]. by apply streams_end.
  - inversion_clear Hbl as [|? ? Hb Hrest]. pose proof Hrd as (Hok & _ & _ & _).
    eapply wp_mono; [apply wp_and; [apply (block_loop_total _ _ (left s)); [|done]|
                       apply (block_loop_data atts data); [split; [done|]|done..]]|].
    { split_and!; [done|done|unfold xyzModem_cancel; lia..]. }
    { rewrite Hw. cbn [session]. by rewrite <- !app_assoc. }
    intros stat s' ((Hok' & _ & _ & Hz) & -> & [_ Hw'] & Hb' & Hc' & Hl' & Hp').
    split; [done|]. destruct (Hz eq_refl) as (_ & Hl0 & _). injection Hc' as Hn1 Hm1 Hcm1 He1 _.
    change (contents ((atts, data) :: rest)) with (payload data ++ contents rest).
    rewrite <- Hp'. replace (pkt s') with (drop (Z.to_nat (bufp s')) (pkt s')) by by rewrite Hb'.
    apply (streams_blocks s' rest last w); try congruence; try done.
    + split_and!; [done|lia..].
    + rewrite Hn1. auto with nios.
Qed.

Lemma read_turn_streams s d :
  streams s d -> at_eof s = false -> wp read_turn (fun stat s' => stat = 0 /\ streams s' d) s.
Proof.
  intros Hd Heof. unfold read_turn. wp_steps.
  destruct (Z.eqb_spec (len s) 0); [by apply block_loop_streams|by wp_steps].
Qed.

Lemma read_loop_streams k size acc s d :
  readable s \/ at_eof s = true -> streams s d -> 0 <= size ->
  (Z.to_nat size + left s + (if at_eof s then 0 else 1) < k)%nat ->
  wp (read_loop cyg_crc16 k size acc)
    (fun r s' => r = (acc ++ take (Z.to_nat size) d, None) /\ streams s' (drop (Z.to_nat size) d)) s.
Proof.
  revert size acc s d. induction k as [|k IH]; intros size acc s d Hrd Hd Hsz Hk; [lia|].
  cbn [read_loop]. wp_steps. destruct (at_eof s) eqn:Heof.
  { wp_steps. destruct Hd; [|congruence]. rewrite take_nil, drop_nil, app_nil_r.
    split; [done|by apply streams_end]. }
  destruct Hrd as [Hrd|?]; [|done].
  cbn [orb]. destruct (Z.leb_spec size 0) as [Hle|Hgt].
  { wp_steps. replace size with 0 by lia. by rewrite take_0, drop_0, app_nil_r. }
  apply wp_bind. eapply wp_mono; [apply wp_and; [by apply read_turn_total|by apply read_turn_streams]|].
  intros stat s1 ((_ & HL1 & Hz) & -> & Hd1). cbn [Z.ltb Z.compare].
  destruct (Hz eq_refl) as [Hrd1 Hor]. wp_steps. destruct (at_eof s1) eqn:Heof1.
  { apply IH; [by left|done..|]. rewrite Heof1. lia. }
  destruct Hor as [?|[_ Hprog]]; [done|].
  destruct Hd1 as [?|blocks last w _ _ Hc Hm Hnb Hbl Hlast Hw]; [congruence|].
  apply wp_bind. eapply wp_mono; [apply wp_and; [by apply copy_out_total|
    by eapply (copy_out_streams size s1 _ blocks last w)]|].
  intros d1 s2 ((Hrd2 & HL2 & Hlen & Heof2) & Hd1 & Hd2).
  set (d := _ ++ contents blocks) in *.
  assert (0 <= len s1) by (by destruct Hrd1 as (_ & _ & ? & _)).
  eapply wp_mono; [apply IH; [by left|done|lia|rewrite Heof2, Heof1, HL2; lia]|].
  intros r s3 [-> Hd3].
  replace (Z.to_nat size) with (length d1 + Z.to_nat (size - Z.of_nat (length d1)))%nat by lia.
  rewrite <- take_take_drop, <- Hd1, <- drop_drop, <- app_assoc. done.
Qed.

Lemma stream_read_streams size s d :
  readable s \/ at_eof s = true -> streams s d -> 0 <= size ->
  wp (xyzModem_stream_read cyg_crc16 size)
    (fun r s' => r = (take (Z.to_nat size) d, None) /\ streams s' (drop (Z.to_nat size) d)) s.
Proof.
  intros Hrd Hd Hsz. unfold xyzModem_stream_read. wp_steps.
  apply (read_loop_streams _ size []); [done..|]. unfold left. destruct (at_eof s); lia.
Qed.

Lemma streams_readable s d : streams s d -> readable s \/ at_eof s = true.
Proof. destruct 1; eauto. Qed.

Lemma reads_streams sizes s d :
  streams s d -> Forall (fun n => 0 <= n) sizes ->
  wp (reads sizes) (fun d' _ => d' = take (Z.to_nat (foldr Z.add 0 sizes)) d) s.
Proof.
  intros Hd Hsz. revert s d Hd. induction Hsz as [|n ns Hn Hns IH]; intros s d Hd; cbn [reads].
  { by wp_steps. }
  pose proof (streams_readable _ _ Hd).
  apply wp_bind. eapply wp_mono; [by apply stream_read_streams|]. intros r s1 [-> Hd1].
  cbn [fst snd]. apply wp_bind. eapply wp_mono; [by apply IH|]. intros d' s2 ->. wp_steps.
  rewrite take_take_drop. f_equal. cbn [foldr].
  assert (0 <= foldr Z.add 0 ns) by (clear IH; induction Hns; simpl; lia). lia.
Qed.

(** Opening a stream on a Y-modem sender. *)
Lemma stream_open_streams fd s header blocks last w :
  st_ok s -> 0 <= bufp s <= 1024 -> 0 <= fd ->
  wire (line s) = frame 0 header ++ session 1 blocks last ++ w ->
  sized header -> Forall block_ok blocks -> sized last ->
  wp (xyzModem_stream_open cyg_crc16 fd xyzModem_ymodem)
    (fun r s' => r = (0, None) /\ streams s' (contents blocks)) s.
Proof.
  intros Hok Hb Hfd Hw Hh Hbl Hl. unfold xyzModem_stream_open. wp_steps.
  rewrite (proj2 (Z.ltb_ge fd 0)) by done. unfold request, putChar, send. wp_steps.
  change (xyzModem_ymodem =? xyzModem_xmodem) with false. cbn iota.
  change xyzModem_MAX_RETRIES with (S 19). generalize 19%nat as k. intros k.
  cbn [open_loop]. apply wp_bind.
  eapply wp_mono; [apply (get_hdr_wire 0 header (cyg_crc16 header)); try done|].
  { split; [destruct Hok; by split|done]. }
  intros st1 s1 (A & [Hok1 Hw1] & -> & Hblk & Hb1 & Hl1 & _). rewrite Z.eqb_refl. cbn [Z.eqb].
  wp_steps. rewrite Hblk, Z.eqb_refl. apply wp_modify. wp_steps. split; [done|].
  pose proof (after_ctl _ _ A) as Hc. injection Hc as _ Hm Hcm He _. simpl in *.
  apply (streams_blocks (set_len 0 (set_next_blk 1 (set_tx_ack true s1))) blocks last w);
    simpl; try done. split_and!; simpl; try lia. destruct Hok1. by split.
Qed.

(** After an error the length is negative and a read copies a negative size. *)
Lemma read_negative_len size s :
  len s = -1 -> at_eof s = false -> 0 < size -> xyzModem_stream_read cyg_crc16 size s = UB.
Proof.
  intros Hlen Heof Hsz. unfold xyzModem_stream_read.
  mred. generalize (S (Z.to_nat size + pending (line s))) as k. intros k. cbn [read_loop]. mred.
  rewrite Heof, (proj2 (Z.leb_gt size 0)), Hlen by done. cbn [orb Z.eqb Z.ltb Z.compare].
  rewrite Heof. unfold copy_out. mred. rewrite Hlen.
  by rewrite (proj2 (Z.ltb_ge size (-1))) by lia.
Qed.

End Stream.

(** * The theorems *)

(** [getCharTimeout] implements a queue of characters.  The ring, whatever
    its positions, and the [read] results to come stand for one list; the call
    takes its head, returns nothing when it is empty (the two seconds pass),
    keeps the ring well formed, and never leaves the 4096-byte buffer. *)
Theorem getCharTimeout_queue r :
  ring_ok r ->
  exists o r', getCharTimeout r = Ret (o, r') /\ ring_ok r'
    /\ match wire r with
       | c :: w => o = Some c /\ wire r' = w
       | [] => o = None /\ r' = set_rx (tail (rx r)) r
       end.
Proof.
  intros Hok. destruct (wire r) as [|c w] eqn:Hw.
  - exists None, (set_rx (tail (rx r)) r). rewrite getCharTimeout_none by done.
    split_and!; try done. by destruct Hok.
  - destruct (getCharTimeout_some r c w Hok Hw) as (r' & H1 & H2 & H3 & _). eauto 10.
Qed.

(** A ring of 4095 free bytes before its end wraps around on input. *)
Definition ring0 : ring := mkRing 4094 4094 (replicate 4096 0) [RxRead [1; 2; 3]; RxRead [4]].

Lemma ring0_ok : ring_ok ring0.
Proof. split; vm_compute; done. Qed.

Lemma getCharTimeout_queue_witness :
  exists o r', getCharTimeout ring0 = Ret (o, r') /\ ring_ok r'
    /\ match wire ring0 with
       | c :: w => o = Some c /\ wire r' = w
       | [] => o = None /\ r' = set_rx (tail (rx ring0)) ring0
       end.
Proof. apply (getCharTimeout_queue ring0). exact ring0_ok. Defined.

Section Claims.
Context (cyg_crc16 : list Z -> Z).

(** Whatever the line carries, [xyzModem_stream_read] returns, without an
    access outside the packet or a negative copy, provided the last call did
    not report an error.  It stores at most [size] bytes; without an error it
    stores exactly [size] unless the file ended, and the stream can be read
    again; an error is negative. *)
Theorem stream_read_safe size s :
  readable s ->
  exists d err s', xyzModem_stream_read cyg_crc16 size s = Ret ((d, err), s')
    /\ Z.of_nat (length d) <= Z.max 0 size
    /\ match err with
       | None => (at_eof s' = true \/ Z.of_nat (length d) = Z.max 0 size) /\ readable s'
       | Some e => e < 0 /\ len s' = -1
       end.
Proof.
  intros Hrd. pose proof (stream_read_total cyg_crc16 size s Hrd) as H.
  apply wp_Ret in H as ([d err] & s' & E & H). eauto.
Qed.

(** C27: a client that opens the stream, in any mode, and reads until an error
    always gets its result: no input makes the receiver loop for ever, run
    out of its bounds, or deliver more than was asked for. *)
Theorem transfer_safe fd info_mode sizes s :
  st_ok s -> 0 <= bufp s <= 1024 ->
  exists r d s', transfer cyg_crc16 fd info_mode sizes s = Ret ((r, d), s')
    /\ r <= 0 /\ Z.of_nat (length d) <= foldr Z.add 0 (map (Z.max 0) sizes).
Proof.
  intros Hok Hb.
  assert (wp (transfer cyg_crc16 fd info_mode sizes)
            (fun r _ => r.1 <= 0 /\ Z.of_nat (length r.2) <= foldr Z.add 0 (map (Z.max 0) sizes)) s)
    as H.
  { unfold transfer. apply wp_bind. eapply wp_mono; [by apply stream_open_total|].
    intros [r e] s1 [Hr Hz]. simpl in *. destruct (Z.eqb_spec r 0) as [->|Hne].
    - apply wp_bind. eapply wp_mono; [by apply reads_total, Hz|]. intros d s2 Hd. by wp_steps.
    - wp_steps. simpl. split; [done|]. apply sum_max_nonneg. }
  apply wp_Ret in H as ([r d] & s' & E & H). eauto.
Qed.

(** C3: Y-modem end to end.  The sender puts on the line a header, the blocks
    of a file (each after fewer than twenty failed attempts: packets with a
    wrong check value, or the previous block again) and the end of the batch.
    Then opening succeeds, and any sequence of reads delivers the file without
    its padding, in order, each block once: as many bytes as were asked for,
    up to the end of the file. *)
Theorem ymodem_delivers fd s header blocks last w sizes :
  st_ok s -> 0 <= bufp s <= 1024 -> 0 <= fd ->
  wire (line s) = frame cyg_crc16 0 header ++ session cyg_crc16 1 blocks last ++ w ->
  sized header -> Forall (block_ok cyg_crc16) blocks -> sized last ->
  Forall (fun n => 0 <= n) sizes ->
  exists s', transfer cyg_crc16 fd xyzModem_ymodem sizes s
             = Ret ((0, take (Z.to_nat (foldr Z.add 0 sizes)) (contents blocks)), s').
Proof.
  intros Hok Hb Hfd Hw Hh Hbl Hl Hsz.
  assert (wp (transfer cyg_crc16 fd xyzModem_ymodem sizes)
            (fun r _ => r = (0, take (Z.to_nat (foldr Z.add 0 sizes)) (contents blocks))) s) as H.
  { unfold transfer. apply wp_bind. eapply wp_mono; [by eapply stream_open_streams|].
    intros r s1 [-> Hd]. simpl. apply wp_bind. eapply wp_mono; [by eapply reads_streams|].
    intros d s2 ->. by wp_steps. }
  apply wp_Ret in H as (r & s' & E & ->). eauto.
Qed.

(** The condition on the last call is needed.  After a read that reported an error
    before the end of the file, the length field is -1, and the next read
    copies a negative number of bytes. *)
Theorem read_after_error_undefined n size s d e s' :
  readable s -> xyzModem_stream_read cyg_crc16 n s = Ret ((d, Some e), s') ->
  at_eof s' = false -> 0 < size -> xyzModem_stream_read cyg_crc16 size s' = UB.
Proof.
  intros Hrd E Heof Hsz. pose proof (stream_read_total cyg_crc16 n s Hrd) as H.
  unfold wp in H. rewrite E in H. destruct H as [_ [_ Hlen]]. by apply read_negative_len.
Qed.

End Claims.

(** ** Concrete transfers *)

(** CRC-16 with polynomial 0x1021, most significant bit first. *)
Definition crc_step (crc b : Z) : Z :=
  Nat.iter 8 (fun c => u16 (if Z.testbit c 15 then Z.lxor (Z.shiftl c 1) 4129 else Z.shiftl c 1))
    (Z.lxor crc (Z.shiftl b 8)).

Definition crc_xmodem (data : list Z) : Z := foldl crc_step 0 data.

Definition st0 (r : ring) : st :=
  mkSt 0 (replicate 1024 0) 0 0 0 0 0 0 0 0 0 0 0 0 false false false r [].

Lemma st0_ok r : ring_ok r -> st_ok (st0 r).
Proof. intros H. split; [done|vm_compute; done|done|done]. Qed.

Definition data1 : list Z := replicate 128 65.

Definition data2 : list Z := replicate 100 66 ++ replicate 28 EOFC.

Definition blocks0 : list (list attempt * list Z) :=
  [([Corrupt 1 data1 7; Corrupt 9 data2 0], data1); ([Repeat data1], data2)].

Definition line0 : list Z :=
  frame crc_xmodem 0 data1 ++ session crc_xmodem 1 blocks0 data1.

Definition ring1 : ring := mkRing 4000 4000 (replicate 4096 0) [RxRead line0].

Lemma ring1_ok : ring_ok ring1.
Proof. split; vm_compute; done. Qed.

Lemma blocks0_ok : Forall (block_ok crc_xmodem) blocks0.
Proof.
  assert (sized data1 /\ sized data2) as [H1 H2] by (split; by left).
  assert (7 <> crc_xmodem data1 /\ 0 <> crc_xmodem data2) as [C1 C2]
    by (split; vm_compute; discriminate).
  repeat constructor; cbn [fst snd length]; unfold xyzModem_MAX_RETRIES; (done || lia).
Qed.

Lemma stream_read_safe_witness :
  exists d err s', xyzModem_stream_read crc_xmodem 10 (st0 ring0) = Ret ((d, err), s')
    /\ Z.of_nat (length d) <= Z.max 0 10
    /\ match err with
       | None => (at_eof s' = true \/ Z.of_nat (length d) = Z.max 0 10) /\ readable s'
       | Some e => e < 0 /\ len s' = -1
       end.
Proof.
  apply (stream_read_safe crc_xmodem 10 (st0 ring0)).
  split; [apply st0_ok, ring0_ok|]. vm_compute. repeat split; discriminate.
Defined.

Lemma transfer_safe_witness :
  exists r d s', transfer crc_xmodem 3 xyzModem_xmodem [10; 20] (st0 ring0) = Ret ((r, d), s')
    /\ r <= 0 /\ Z.of_nat (length d) <= foldr Z.add 0 (map (Z.max 0) [10; 20]).
Proof.
  apply (transfer_safe crc_xmodem 3 xyzModem_xmodem [10; 20] (st0 ring0)).
  - apply st0_ok, ring0_ok.
  - vm_compute. split; discriminate.
Defined.

Lemma ymodem_delivers_witness :
  exists s', transfer crc_xmodem 3 xyzModem_ymodem [200; 20; 30] (st0 ring1)
             = Ret ((0, replicate 128 65 ++ replicate 100 66), s').
Proof.
  destruct (ymodem_delivers crc_xmodem 3 (st0 ring1) data1 blocks0 data1 [] [200; 20; 30])
    as [s' E].
  - apply st0_ok, ring1_ok.
  - vm_compute. split; discriminate.
  - lia.
  - vm_compute. reflexivity.
  - by left.
  - exact blocks0_ok.
  - by left.
  - repeat constructor; lia.
  - exists s'. rewrite E. vm_compute. reflexivity.
Defined.

(** The state after a read on a line that goes quiet inside a packet. *)
Definition failed : st :=
  match xyzModem_stream_read crc_xmodem 5 (st0 ring0) with Ret (_, s') => s' | _ => st0 ring0 end.

Lemma read_after_error_undefined_witness :
  xyzModem_stream_read crc_xmodem 5 (st0 ring0) = Ret (([], Some xyzModem_timeout), failed)
  /\ xyzModem_stream_read crc_xmodem 1 failed = UB.
Proof.
  assert (xyzModem_stream_read crc_xmodem 5 (st0 ring0)
          = Ret (([], Some xyzModem_timeout), failed)) as E by (vm_compute; reflexivity).
  split; [exact E|].
  apply (read_after_error_undefined crc_xmodem 5 1 (st0 ring0) [] xyzModem_timeout).
  - split; [apply st0_ok, ring0_ok|]. vm_compute. repeat split; discriminate.
  - exact E.
  - vm_compute. reflexivity.
  - lia.
Defined.
