(* ===== verification/Spi.v ===== *)
(** * The SPI transfer routine of the serial-flash driver
    (packages/io/epcs, altera_avalon_spi.c)

    The SPI core is hardware: its registers are the class [SpiCore], and what
    the core's manual promises about them is the class [SpiLaws], relative to
    a slave that exchanges one byte at a time.  [alt_avalon_spi_command] is
    the driver's loop over the registers; it is shown to send the command
    followed by zeros and to return what the slave answers to the zeros.

    A state [D] is one controller, so the register base address is left out. *)

From S2P Require Import Prelude.

Definition TMT_MSK : Z := 32.
Definition TRDY_MSK : Z := 64.
Definition RRDY_MSK : Z := 128.
Definition CONTROL_SSO_MSK : Z := 1024.
Definition COMMAND_MERGE : Z := 1.
Definition COMMAND_TOGGLE_SS_N : Z := 2.

(** The registers of the core. *)
Class SpiCore (D : Type) := {
  IORD_STATUS : D -> Z * D;
  IORD_RXDATA : D -> Z * D;
  IOWR_TXDATA : Z -> D -> D;
  IOWR_CONTROL : Z -> D -> D;
  IOWR_SLAVE_SEL : Z -> D -> D
}.

Section Driver.
Context {D : Type} {core : SpiCore D}.

Definition iord (f : D -> Z * D) : M D Z := fun d => Ret (f d).

(** The inner [do ... while]: wait until something can be sent or read. *)
Fixpoint wait_ready (fuel : nat) (credits : Z) : M D Z :=
  match fuel with
  | O => no_fuel
  | S k =>
      status ← iord IORD_STATUS;
      if ((Z.land status TRDY_MSK =? 0) || (credits =? 0)) && (Z.land status RRDY_MSK =? 0)
      then wait_ready k credits
      else mret status
  end.

Fixpoint wait_tmt (fuel : nat) : M D unit :=
  match fuel with
  | O => no_fuel
  | S k =>
      status ← iord IORD_STATUS;
      if Z.land status TMT_MSK =? 0 then wait_tmt k else mret tt
  end.

(** The state of the main loop: what is left to write, the zeros to write
    after it, the bytes to ignore, the credits, and the bytes read. *)
Record xfer := mkXfer {
  write_data : list Z;
  write_zeros : Z;
  read_ignore : Z;
  credits : Z;
  read_data : list Z
}.

(** The send half of a turn. *)
Definition xfer_send (status : Z) (x : xfer) : M D xfer :=
  let '(mkXfer wr wz ri cr rd) := x in
  if negb (Z.land status TRDY_MSK =? 0) && (cr >? 0) then
    match wr with
    | b :: wr' => modify (IOWR_TXDATA b);; mret (mkXfer wr' wz ri (cr - 1) rd)
    | [] =>
        if wz >? 0 then modify (IOWR_TXDATA 0);; mret (mkXfer [] (wz - 1) ri (cr - 1) rd)
        else mret (mkXfer [] wz ri (-1024) rd)
    end
  else mret x.

(** The receive half; the flag is the [break]. *)
Definition xfer_receive (read_length status : Z) (x : xfer) : M D (bool * xfer) :=
  if negb (Z.land status RRDY_MSK =? 0) then
    rxdata ← iord IORD_RXDATA;
    let '(mkXfer wr wz ri cr rd) := x in
    let ri' := if ri >? 0 then ri - 1 else ri in
    let rd' := if ri >? 0 then rd else rd ++ [u8 rxdata] in
    mret ((ri' =? 0) && (Z.of_nat (Datatypes.length rd') =? read_length),
          mkXfer wr wz ri' (cr + 1) rd')
  else mret (false, x).

Fixpoint xfer_loop (polls fuel : nat) (read_length : Z) (x : xfer) : M D (list Z) :=
  match fuel with
  | O => no_fuel
  | S k =>
      status ← wait_ready polls (credits x);
      x ← xfer_send status x;
      r ← xfer_receive read_length status x;
      match r with
      | (true, x) => mret (read_data x)
      | (false, x) => xfer_loop polls k read_length x
      end
  end.

(** [alt_avalon_spi_command]: the bytes it stores at [read_data]; its return
    value is [read_length].  [polls] bounds each wait for the core; a transfer
    takes two turns per byte. *)
Definition alt_avalon_spi_command (polls : nat) (slave : Z) (wr : list Z)
    (read_length flags : Z) : M D (list Z) :=
  modify (IOWR_SLAVE_SEL (Z.shiftl 1 slave));;
  when (Z.land flags COMMAND_TOGGLE_SS_N =? 0) (modify (IOWR_CONTROL CONTROL_SSO_MSK));;
  iord IORD_RXDATA;;
  let n := Datatypes.length wr in
  rd ← xfer_loop polls (S (2 * (n + Z.to_nat read_length))) read_length
         (mkXfer wr read_length (Z.of_nat n) 1 []);
  wait_tmt polls;;
  when (Z.land flags COMMAND_MERGE =? 0) (modify (IOWR_CONTROL 0));;
  mret rd.

End Driver.

(** ** The slave and the core's contract *)

Class SpiSlave (C : Type) := {
  sl_select : C -> C;
  sl_xfer : Z -> C -> Z * C;
  sl_deselect : C -> C;
  sl_xfer_byte : forall b c, is_byte (sl_xfer b c).1
}.

(** The bytes the slave answers to [bs]. *)
Fixpoint exchange {C} `{SpiSlave C} (bs : list Z) (c : C) : list Z * C :=
  match bs with
  | [] => ([], c)
  | b :: bs' => let '(o, c1) := sl_xfer b c in let '(os, c2) := exchange bs' c1 in (o :: os, c2)
  end.

(** One selection of the chip. *)
Definition transact {C} `{SpiSlave C} (bs : list Z) (c : C) : list Z * C :=
  let '(o, c1) := exchange bs (sl_select c) in (o, sl_deselect c1).

(** What the core promises.  [idle d sel c n]: nothing is in flight, nothing is
    to be read, the select line is [sel], the slave is in state [c], and TMT is
    set after [n] polls.  [busy d c r n]: a byte is in flight; after [n] polls
    it has arrived, the slave is in state [c] and [r] can be read. *)
Class SpiLaws (D C : Type) {core : SpiCore D} {slave : SpiSlave C} := {
  idle : D -> bool -> C -> nat -> Prop;
  busy : D -> C -> Z -> nat -> Prop;
  latency : nat;
  idle_bound : forall d sel c n, idle d sel c n -> (n <= latency)%nat;
  busy_bound : forall d c r n, busy d c r n -> (n <= latency)%nat;
  idle_sel : forall d sel c n, idle d sel c n -> idle (IOWR_SLAVE_SEL 1 d) sel c n;
  idle_rx : forall d sel c n, idle d sel c n -> idle (IORD_RXDATA d).2 sel c n;
  idle_sso : forall d sel c n, idle d sel c n ->
    idle (IOWR_CONTROL CONTROL_SSO_MSK d) true (if sel then c else sl_select c) n;
  idle_release : forall d c n, idle d true c n ->
    idle (IOWR_CONTROL 0 d) false (sl_deselect c) n;
  idle_status : forall d sel c n, idle d sel c n ->
    Z.land (IORD_STATUS d).1 TRDY_MSK <> 0 /\ Z.land (IORD_STATUS d).1 RRDY_MSK = 0
    /\ (Z.land (IORD_STATUS d).1 TMT_MSK = 0 <-> n <> 0%nat)
    /\ idle (IORD_STATUS d).2 sel c (pred n);
  idle_tx : forall d c n b, idle d true c n ->
    exists m, busy (IOWR_TXDATA b d) (sl_xfer b c).2 (sl_xfer b c).1 m;
  busy_status : forall d c r n, busy d c r n ->
    (Z.land (IORD_STATUS d).1 RRDY_MSK = 0 <-> n <> 0%nat)
    /\ busy (IORD_STATUS d).2 c r (pred n);
  busy_rx : forall d c r, busy d c r 0 ->
    u8 (IORD_RXDATA d).1 = r /\ exists m, idle (IORD_RXDATA d).2 true c m
}.

Section Facts.
Context {D C : Type} `{laws : SpiLaws D C}.

Lemma wp_iord f (Q : Z -> D -> Prop) d : Q (f d).1 (f d).2 -> wp (iord f) Q d.
Proof. unfold wp, iord. by destruct (f d). Qed.

(** With nothing in flight the core accepts a byte at once. *)
Lemma wait_ready_idle fuel cr d sel c n :
  idle d sel c n -> 0 < cr -> (0 < fuel)%nat ->
  wp (wait_ready fuel cr)
    (fun status d' => Z.land status TRDY_MSK <> 0 /\ Z.land status RRDY_MSK = 0
                      /\ exists m, idle d' sel c m) d.
Proof.
  intros Hi Hcr Hf. destruct fuel as [|k]; [lia|]. cbn [wait_ready]. apply wp_bind, wp_iord.
  destruct (idle_status _ _ _ _ Hi) as (H1 & H2 & _ & H3).
  rewrite (proj2 (Z.eqb_neq _ _) H1), (proj2 (Z.eqb_neq cr 0)) by lia. cbn [orb andb].
  wp_steps. eauto.
Qed.

(** With a byte in flight and no credit the wait ends when it has arrived. *)
Lemma wait_ready_busy fuel d c r n :
  busy d c r n -> (n < fuel)%nat ->
  wp (wait_ready fuel 0) (fun status d' => Z.land status RRDY_MSK <> 0 /\ busy d' c r 0) d.
Proof.
  revert d n. induction fuel as [|k IH]; intros d n Hb Hf; [lia|]. cbn [wait_ready].
  apply wp_bind, wp_iord. destruct (busy_status _ _ _ _ Hb) as [H1 H2].
  rewrite orb_true_r. cbn [andb].
  destruct (Z.eqb_spec (Z.land (IORD_STATUS d).1 RRDY_MSK) 0) as [E|E].
  - eapply IH; [done|]. apply H1 in E. lia.
  - wp_steps. split; [done|]. destruct n; [done|]. by destruct E; apply H1.
Qed.

Lemma wait_tmt_idle fuel d sel c n :
  idle d sel c n -> (n < fuel)%nat ->
  wp (wait_tmt fuel) (fun _ d' => exists m, idle d' sel c m) d.
Proof.
  revert d n. induction fuel as [|k IH]; intros d n Hi Hf; [lia|]. cbn [wait_tmt].
  apply wp_bind, wp_iord. destruct (idle_status _ _ _ _ Hi) as (_ & _ & H1 & H2).
  destruct (Z.eqb_spec (Z.land (IORD_STATUS d).1 TMT_MSK) 0) as [E|E].
  - eapply IH; [done|]. apply H1 in E. lia.
  - wp_steps. eauto.
Qed.
(** Two turns of the main loop move one byte each way: the byte [b] goes out,
    [o] comes back and is ignored or stored. *)
Lemma xfer_byte polls k rl b wr wz ri rd wr' wz' d c n Q :
  (latency < polls)%nat -> idle d true c n ->
  (wr = b :: wr' /\ wz' = wz \/ wr = [] /\ wr' = [] /\ b = 0 /\ 0 < wz /\ wz' = wz - 1) ->
  let o := (sl_xfer b c).1 in
  let ri' := if ri >? 0 then ri - 1 else ri in
  let rd' := if ri >? 0 then rd else rd ++ [o] in
  (forall d' m, idle d' true (sl_xfer b c).2 m ->
     wp (if (ri' =? 0) && (Z.of_nat (length rd') =? rl) then mret rd'
         else xfer_loop polls k rl (mkXfer wr' wz' ri' 1 rd')) Q d') ->
  wp (xfer_loop polls (S (S k)) rl (mkXfer wr wz ri 1 rd)) Q d.
Proof.
  intros Hp Hi Hnext o ri' rd' HQ. cbn [xfer_loop credits]. apply wp_bind.
  eapply wp_mono; [eapply wait_ready_idle; [done|lia|lia]|]. intros st1 d1 (T1 & R1 & m1 & Hi1).
  apply wp_bind. unfold xfer_send. rewrite (proj2 (Z.eqb_neq _ _) T1). cbn [negb andb Z.gtb Z.compare].
  apply (wp_mono _ (fun x d2 => x = mkXfer wr' wz' ri 0 rd /\ exists m, busy d2 (sl_xfer b c).2 o m)).
  { destruct Hnext as [[-> ->]|(-> & -> & -> & Hwz & ->)].
    - wp_steps. split; [done|]. by apply (idle_tx _ _ _ _ Hi1).
    - rewrite (proj2 (Z.gtb_lt wz 0)) by done. wp_steps. split; [done|]. by apply (idle_tx _ _ _ _ Hi1). }
  intros x d2 [-> [m Hb]]. apply wp_bind. unfold xfer_receive at 1. rewrite R1. cbn [Z.eqb negb].
  wp_steps. cbn [credits]. pose proof (busy_bound _ _ _ _ Hb).
  eapply wp_mono; [eapply wait_ready_busy; [exact Hb|lia]|]. intros st3 d3 [R3 Hb3].
  apply wp_bind. unfold xfer_send. cbn [Z.gtb Z.compare]. rewrite andb_false_r. wp_steps.
  unfold xfer_receive. rewrite (proj2 (Z.eqb_neq _ _) R3). cbn [negb]. apply wp_bind, wp_iord.
  destruct (busy_rx _ _ _ Hb3) as [-> [m4 Hi4]]. wp_steps. fold o ri' rd'.
  specialize (HQ _ m4 Hi4). change (0 + 1) with 1. by destruct (_ && _).
Qed.

Lemma exchange_length bs c : length (exchange bs c).1 = length bs.
Proof.
  revert c. induction bs as [|b bs IH]; intros c; [done|]. simpl.
  destruct (sl_xfer b c) as [o c1]. specialize (IH c1). destruct (exchange bs c1). simpl in *. lia.
Qed.

Lemma exchange_app bs1 bs2 c :
  exchange (bs1 ++ bs2) c
  = ((exchange bs1 c).1 ++ (exchange bs2 (exchange bs1 c).2).1,
     (exchange bs2 (exchange bs1 c).2).2).
Proof.
  revert c. induction bs1 as [|b bs IH]; intros c; simpl; [by destruct (exchange bs2 c)|].
  destruct (sl_xfer b c) as [o c1]. rewrite IH. by destruct (exchange bs c1).
Qed.

Lemma xfer_loop_exchange polls k rl bs wr wz ri rd d c n :
  (latency < polls)%nat -> idle d true c n ->
  bs = wr ++ replicate (Z.to_nat wz) 0 -> bs <> [] -> 0 <= wz -> 0 <= ri ->
  Z.of_nat (length bs) = ri + (rl - Z.of_nat (length rd)) -> Z.of_nat (length rd) <= rl ->
  (2 * length bs <= k)%nat ->
  wp (xfer_loop polls k rl (mkXfer wr wz ri 1 rd))
    (fun out d' => out = rd ++ drop (Z.to_nat ri) (exchange bs c).1
                   /\ exists m, idle d' true (exchange bs c).2 m) d.
Proof.
  intros Hp. revert k wr wz ri rd d c n.
  induction bs as [|b bs IH]; intros k wr wz ri rd d c n Hi Hbs Hne Hwz Hri Hlen Hrd Hk; [done|].
  destruct k as [|[|k]]; [simpl in Hk; lia..|].
  assert (exists wr' wz',
    (wr = b :: wr' /\ wz' = wz \/ wr = [] /\ wr' = [] /\ b = 0 /\ 0 < wz /\ wz' = wz - 1)
    /\ bs = wr' ++ replicate (Z.to_nat wz') 0 /\ 0 <= wz') as (wr' & wz' & Hnext & Hbs' & Hwz').
  { destruct wr as [|w0 wr]; simpl in Hbs.
    - destruct (Z.to_nat wz) as [|z] eqn:E; [done|]. injection Hbs as -> ->.
      exists [], (wz - 1). split_and!; [right; split_and!; (done || lia)| |lia].
      simpl. f_equal. lia.
    - injection Hbs as -> ->. exists wr, wz. eauto. }
  eapply (xfer_byte polls k rl b wr wz ri rd wr' wz'); [done..|]. intros d' m Hi'.
  set (ri' := if ri >? 0 then ri - 1 else ri).
  set (o := (sl_xfer b c).1) in *. set (rd' := if ri >? 0 then rd else rd ++ [o]).
  assert (Z.of_nat (length bs) = ri' + (rl - Z.of_nat (length rd')) /\ 0 <= ri'
          /\ Z.of_nat (length rd') <= rl
          /\ forall l, rd ++ drop (Z.to_nat ri) (o :: l) = rd' ++ drop (Z.to_nat ri') l)
    as (Hlen' & Hri' & Hrd' & Happ).
  { unfold ri', rd'. simpl in Hlen. destruct (Z.gtb_spec ri 0) as [H|H].
    - split_and!; try lia. intros l. by replace (Z.to_nat ri) with (S (Z.to_nat (ri - 1))) by lia.
    - replace ri with 0 by lia. rewrite length_app. simpl. split_and!; try lia.
      intros l. by rewrite <- app_assoc. }
  assert (exchange (b :: bs) c = (o :: (exchange bs (sl_xfer b c).2).1, (exchange bs (sl_xfer b c).2).2)) as ->.
  { simpl. unfold o. destruct (sl_xfer b c) as [o' c']. simpl. by destruct (exchange bs c'). }
  cbn [fst snd]. rewrite Happ. destruct bs as [|b2 bs].
  - simpl in Hlen'. rewrite (proj2 (Z.eqb_eq ri' 0)), (proj2 (Z.eqb_eq _ rl)) by lia. cbn [andb].
    wp_steps. cbn [exchange fst snd]. rewrite drop_nil, app_nil_r. eauto.
  - assert ((ri' =? 0) && (Z.of_nat (length rd') =? rl) = false) as ->.
    { destruct (Z.eqb_spec ri' 0), (Z.eqb_spec (Z.of_nat (length rd')) rl); try done. simpl in Hlen'. lia. }
    eapply IH; try done. simpl in *. lia.
Qed.

(** The whole routine: the command goes out with the chip selected, zeros
    follow, and the answer to the zeros is returned. *)
Lemma alt_avalon_spi_command_ok polls wr rl flags d sel c n :
  (latency < polls)%nat -> idle d sel c n ->
  Z.land flags COMMAND_TOGGLE_SS_N = 0 -> 0 <= rl -> (wr <> [] \/ 0 < rl) ->
  let c0 := if sel then c else sl_select c in
  let e := exchange (wr ++ replicate (Z.to_nat rl) 0) c0 in
  wp (alt_avalon_spi_command polls 0 wr rl flags)
    (fun out d' => out = drop (length wr) e.1
       /\ exists m, if Z.land flags COMMAND_MERGE =? 0 then idle d' false (sl_deselect e.2) m
                    else idle d' true e.2 m) d.
Proof.
  intros Hp Hi Hflag Hrl Hne c0 e. unfold alt_avalon_spi_command.
  change (Z.shiftl 1 0) with 1. rewrite Hflag. cbn [Z.eqb when]. wp_steps.
  apply wp_iord. wp_steps. apply idle_sel, idle_sso, idle_rx in Hi.
  eapply wp_mono; [eapply (xfer_loop_exchange polls _ rl (wr ++ replicate (Z.to_nat rl) 0));
                   [done|done|done|..]|].
  - destruct wr, (Z.to_nat rl) eqn:E; try done. destruct Hne; [done|lia].
  - lia.
  - lia.
  - rewrite length_app, length_replicate. simpl. lia.
  - simpl. lia.
  - rewrite length_app, length_replicate. lia.
  - intros out d1 (-> & m & Hi1). wp_steps. pose proof (idle_bound _ _ _ _ Hi1).
    eapply wp_mono; [eapply wait_tmt_idle; [done|lia]|]. intros _ d2 [m2 Hi2]. wp_steps.
    rewrite Nat2Z.id. apply wp_when; intros ->; wp_steps; (split; [done|]); [|by exists m2].
    exists m2. by apply idle_release.
Qed.

End Facts.

(** ** A core that keeps the contract

    Bytes take [lat] polls to arrive, and TMT is set two polls later. *)

Section Sim.
Context {C : Type} `{SpiSlave C} (lat : nat).

Record sim := mkSim {
  sim_sel : bool;
  sim_chip : C;
  sim_flight : option (Z * nat);
  sim_settle : nat
}.

Definition sim_bits (d : sim) : Z :=
  TRDY_MSK + match sim_flight d with
             | Some (_, O) => RRDY_MSK
             | Some _ => 0
             | None => if decide (sim_settle d = 0%nat) then TMT_MSK else 0
             end.

Definition sim_poll (d : sim) : sim :=
  match sim_flight d with
  | Some (r, n) => mkSim (sim_sel d) (sim_chip d) (Some (r, pred n)) (sim_settle d)
  | None => mkSim (sim_sel d) (sim_chip d) None (pred (sim_settle d))
  end.

#[global] Instance sim_core : SpiCore sim := {
  IORD_STATUS d := (sim_bits d, sim_poll d);
  IORD_RXDATA d :=
    match sim_flight d with
    | Some (r, O) => (r, mkSim (sim_sel d) (sim_chip d) None 2)
    | _ => (0, d)
    end;
  IOWR_TXDATA b d :=
    let '(o, c) := sl_xfer b (sim_chip d) in mkSim (sim_sel d) c (Some (o, lat)) 0;
  IOWR_CONTROL v d :=
    let on := negb (Z.land v CONTROL_SSO_MSK =? 0) in
    mkSim on
      (if on then (if sim_sel d then sim_chip d else sl_select (sim_chip d))
       else (if sim_sel d then sl_deselect (sim_chip d) else sim_chip d))
      (sim_flight d) (sim_settle d);
  IOWR_SLAVE_SEL _ d := d
}.

#[global, refine] Instance sim_laws : SpiLaws sim C := {
  idle d sel c n := d = mkSim sel c None n /\ (n <= lat + 2)%nat;
  busy d c r n := d = mkSim true c (Some (r, n)) 0 /\ (n <= lat + 2)%nat /\ is_byte r;
  latency := lat + 2
}.
Proof.
  - by intros ???? [].
  - by intros ???? (_ & ? & _).
  - by intros ???? [-> ?].
  - by intros ???? [-> ?].
  - by intros ???? [-> ?].
  - by intros ??? [-> ?].
  - intros ? sel c n [-> Hn]. unfold sim_poll. cbn [IORD_STATUS sim_core fst snd sim_flight].
    destruct n; split_and!; (done || lia || split; done).
  - intros ? c n b [-> Hn]. exists lat. cbn. pose proof (sl_xfer_byte b c).
    destruct (sl_xfer b c). split_and!; (done || lia).
  - intros ? c r n (-> & Hn & Hr). destruct n; split_and!; (done || lia || split; done).
  - intros ? c r (-> & Hn & Hr). split; [by apply u8_id|]. exists 2%nat. split; [done|lia].
Defined.

End Sim.

(** ** Properties *)

Section Claims.
Context {D C : Type} `{laws : SpiLaws D C}.

(** [alt_avalon_spi_command] implements an exchange with the slave.  From
    an idle core, with any wait that exceeds the core's latency, it returns;
    the slave, selected at the start unless it already was, has received the
    command bytes and then one zero per byte to read; the result is what the
    slave answered to the zeros, the answers to the command being dropped; the
    slave is released unless the caller asked to keep it. *)
Theorem spi_command_exchange polls wr rl flags d sel c n :
  (latency < polls)%nat -> idle d sel c n ->
  Z.land flags COMMAND_TOGGLE_SS_N = 0 -> 0 <= rl -> (wr <> [] \/ 0 < rl) ->
  let c0 := if sel then c else sl_select c in
  let e := exchange (wr ++ replicate (Z.to_nat rl) 0) c0 in
  exists d' m, alt_avalon_spi_command polls 0 wr rl flags d = Ret (drop (length wr) e.1, d')
    /\ (if Z.land flags COMMAND_MERGE =? 0 then idle d' false (sl_deselect e.2) m
        else idle d' true e.2 m)
    /\ length (drop (length wr) e.1) = Z.to_nat rl.
Proof.
  intros Hp Hi Hf Hrl Hne c0 e.
  pose proof (alt_avalon_spi_command_ok polls wr rl flags d sel c n Hp Hi Hf Hrl Hne) as H.
  apply wp_Ret in H as (out & d' & E & -> & m & Hm). exists d', m. split_and!; [done|done|].
  unfold e. rewrite length_drop, exchange_length, length_app, length_replicate. lia.
Qed.

(** A command with nothing to send and nothing to read never returns: no
    bound on the turns of the main loop is enough. *)
Theorem spi_command_empty_hangs polls k d sel c n out d' :
  idle d sel c n -> xfer_loop polls k 0 (mkXfer [] 0 0 1 []) d <> Ret (out, d').
Proof.
  intros Hi. destruct polls as [|p]; [by destruct k|].
  assert (forall k cr d sel c n, idle d sel c n -> cr = 1 \/ cr = -1024 ->
            xfer_loop (S p) k 0 (mkXfer [] 0 0 cr []) d <> Ret (out, d')) as Hloop; [|eauto].
  clear. induction k as [|k IH]; intros cr d sel c n Hi Hcr; [done|].
  cbn [xfer_loop wait_ready credits]. mred. unfold iord.
  destruct (idle_status _ _ _ _ Hi) as (HT & HR & _ & Hi'). destruct (IORD_STATUS d) as [status d1].
  cbn [fst snd] in *. rewrite (proj2 (Z.eqb_neq _ _) HT).
  assert ((cr =? 0) = false) as -> by (destruct Hcr as [-> | ->]; done). cbn [orb andb].
  unfold xfer_send. rewrite (proj2 (Z.eqb_neq _ _) HT).
  assert (forall x, xfer_receive 0 status x d1 = Ret ((false, x), d1)) as Hrx.
  { intros x. unfold xfer_receive. by rewrite HR. }
  destruct Hcr as [-> | ->]; cbn; rewrite Hrx; eapply IH; eauto.
Qed.

End Claims.

(** A slave that answers every byte with its successor and logs it. *)
#[refine] Instance echo_slave : SpiSlave (list Z) := {
  sl_select c := c;
  sl_xfer b c := (u8 (b + 1), c ++ [b]);
  sl_deselect c := c ++ [-1]
}.
Proof. intros. apply u8_byte. Defined.

Lemma spi_command_exchange_witness :
  exists d', alt_avalon_spi_command (D := sim) (core := sim_core 3) 9 0 [10; 20] 3 0
               (mkSim false [] None 0) = Ret ([1; 1; 1], d')
             /\ sim_chip d' = [10; 20; 0; 0; 0; -1].
Proof.
  destruct (spi_command_exchange (laws := sim_laws 3) 9 [10; 20] 3 0
              (mkSim false [] None 0) false [] 0) as (d' & m & E & Hi & _).
  - vm_compute. lia.
  - split; [done|lia].
  - done.
  - lia.
  - by left.
  - exists d'. split; [exact E|]. destruct Hi as [-> _]. reflexivity.
Defined.

Lemma spi_command_empty_hangs_witness :
  xfer_loop (core := sim_core 3) 9 100 0 (mkXfer [] 0 0 1 []) (mkSim false ([] : list Z) None 0)
  <> Ret ([], mkSim false [] None 0).
Proof.
  apply (spi_command_empty_hangs (laws := sim_laws 3) 9 100 _ false [] 0). split; [done|lia].
Defined.
