(* ===== verification/SpiBus.v ===== *)
(** * The eCos driver of the SPI bus
    (packages/devs/spi/sopc/altera_avalon_spi, altera_avalon_spi.c)

    The registers are those of the core of [Spi].  Here the bus has several
    slaves, so its contract, [BusLaws], has the slave-select register and the
    state of every slave.  A state is the one bus the file declares. *)

From stdpp Require Import functions.
From S2P Require Import Prelude.
From S2P Require Import Spi.

(** ** State *)

(** The bus: its flags, and which devices a transaction has initialised. *)
Record cyg_spi_sopc_bus_t (D : Type) := mkBus {
  core : D;
  cs_up : bool;           (* chip select up flag *)
  common_init : bool;     (* the upper layer's data *)
  dev_init : nat -> bool  (* the init flag of a device, by its number *)
}.

Arguments mkBus {D}.
Arguments core {D}.
Arguments cs_up {D}.
Arguments common_init {D}.
Arguments dev_init {D}.

Definition set_core {D} (d : D) (s : cyg_spi_sopc_bus_t D) : cyg_spi_sopc_bus_t D :=
  mkBus d (cs_up s) (common_init s) (dev_init s).

Definition set_cs_up {D} (b : bool) (s : cyg_spi_sopc_bus_t D) : cyg_spi_sopc_bus_t D :=
  mkBus (core s) b (common_init s) (dev_init s).

(** The keys and error codes of eCos. *)
Class SpiConfig := {
  GET_CLOCKRATE : Z;
  SET_CLOCKRATE : Z;
  EINVAL : Z;
}.

Section Driver.
Context {D : Type} {spi : SpiCore D} {cfg : SpiConfig}.

Abbreviation bus := (cyg_spi_sopc_bus_t D).

(** A register access. *)
Definition reg_read (f : D -> Z * D) : M bus Z := fun s =>
  let '(v, d) := f (core s) in Ret (v, set_core d s).

Definition reg_write (f : D -> D) : M bus unit := modify (fun s => set_core (f (core s)) s).

(** [do status = ...; while ((status & mask) == 0)], at most [polls] times. *)
Fixpoint wait_for (mask : Z) (polls : nat) : M bus unit :=
  match polls with
  | O => no_fuel
  | S k =>
      status ← reg_read IORD_STATUS;
      if Z.land status mask =? 0 then wait_for mask k else mret tt
  end.

Definition spi_sopc_init_bus : M bus unit :=
  modify (fun s => mkBus (core s) (cs_up s) true (dev_init s)).

Definition spi_sopc_start_transfer (dev : nat) : M bus unit :=
  up ← gets cs_up;
  if (up : bool) then mret tt
  else
    reg_write (IOWR_SLAVE_SEL (Z.shiftl 1 (Z.of_nat dev)));;
    reg_write (IOWR_CONTROL CONTROL_SSO_MSK);;
    modify (set_cs_up true).

Definition spi_sopc_drop_cs : M bus unit :=
  up ← gets cs_up;
  if negb up then mret tt
  else
    reg_write (IOWR_SLAVE_SEL 0);;
    reg_write (IOWR_CONTROL 0);;
    modify (set_cs_up false).

Variable polls : nat.

(** The bytes received, in order; [tx_data] is what the pointer leads to. *)
Fixpoint transfer_bytes (count : nat) (tx_data : list Z) : M bus (list Z) :=
  match count with
  | O => mret []
  | S k =>
      match tx_data with
      | [] => undef
      | b :: rest =>
          wait_for TRDY_MSK polls;;
          reg_write (IOWR_TXDATA b);;
          wait_for TMT_MSK polls;;
          wait_for RRDY_MSK polls;;
          val ← reg_read IORD_RXDATA;
          r ← transfer_bytes k rest;
          mret (u8 val :: r)
      end
  end.

(** [rx_data]: the buffer, or null; the result is the buffer afterwards. *)
Definition spi_sopc_transfer_polled (count : Z) (tx_data : list Z) (rx_data : option (list Z)) :
    M bus (option (list Z)) :=
  _ ← reg_read IORD_RXDATA;
  vals ← transfer_bytes (Z.to_nat count) tx_data;
  match rx_data with
  | None => mret None
  | Some rx => if (length rx <? length vals)%nat then undef else mret (Some (vals ++ drop (length vals) rx))
  end.

Definition spi_sopc_transaction_begin (dev : nat) : M bus unit :=
  init ← gets (fun s => dev_init s dev);
  if (init : bool) then mret tt
  else modify (fun s => mkBus (core s) (cs_up s) (common_init s) (<[dev := true]> (dev_init s))).

Definition spi_sopc_transaction_transfer (dev : nat) (count : Z) (tx_data : list Z)
    (rx_data : option (list Z)) (drop_cs : bool) : M bus (option (list Z)) :=
  spi_sopc_start_transfer dev;;
  rx ← spi_sopc_transfer_polled count tx_data rx_data;
  when drop_cs spi_sopc_drop_cs;;
  mret rx.

(** The 40 bytes of the array of zeros. *)
Definition zeros : list Z := replicate 40 0.

Fixpoint tick_loop (fuel : nat) (count : Z) : M bus unit :=
  if count >? 0 then
    match fuel with
    | O => no_fuel
    | S k =>
        let tcnt := if count >? 40 then 40 else count in
        _ ← spi_sopc_transfer_polled tcnt zeros None;
        tick_loop k (u32 (count - tcnt))
    end
  else mret tt.

Definition spi_sopc_transaction_tick (count : Z) : M bus unit :=
  tick_loop (Z.to_nat (count / 40 + 1)) count.

Definition spi_sopc_transaction_end : M bus unit := spi_sopc_drop_cs.

(** [len] is what the length pointer holds; nothing is read or set. *)
Definition spi_sopc_get_config (key len : Z) : M bus Z :=
  if key =? GET_CLOCKRATE then (if negb (len =? 4) then mret (- EINVAL) else mret 0)
  else mret (- EINVAL).

Definition spi_sopc_set_config (key len : Z) : M bus Z :=
  if key =? SET_CLOCKRATE then (if negb (len =? 4) then mret (- EINVAL) else mret 0)
  else mret (- EINVAL).

End Driver.

(** ** The contract of a bus with several slaves

    [at_rest d sel f n]: nothing is in flight, [sel] is the selected slave, the
    slaves are in the states [f], and TMT is set after [n] polls.  [in_flight d
    sel f r t n]: a byte was sent; TMT is set after [t] polls and the answer [r] is
    there after [n]. [sel] has the slave-select register as well:
    [Pointing k]: the register has the slave's bit, the line is not driven. *)

Inductive select := Released | Pointing (k : nat) | Selected (k : nat) | Lifted.

Section Contract.
Context {C : Type} {slave : SpiSlave C}.

(** A byte on the bus: the selected slave hears it. *)
Definition hears (sel : select) (b : Z) (f : nat -> C) : nat -> C :=
  match sel with Selected k => <[k := (sl_xfer b (f k)).2]> f | _ => f end.

(** What is answered is known if a slave is selected. *)
Definition answers (sel : select) (b : Z) (f : nat -> C) (r : Z) : Prop :=
  match sel with Selected k => r = (sl_xfer b (f k)).1 | _ => True end.
End Contract.

Class BusLaws (D C : Type) {spi : SpiCore D} {slave : SpiSlave C} := {
  at_rest : D -> select -> (nat -> C) -> nat -> Prop;
  in_flight : D -> select -> (nat -> C) -> Z -> nat -> nat -> Prop;
  bus_latency : nat;
  rest_ext d sel f g n : (forall k, f k = g k) -> at_rest d sel f n -> at_rest d sel g n;
  rest_bound d sel f n : at_rest d sel f n -> (n <= bus_latency)%nat;
  flight_bound d sel f r t n : in_flight d sel f r t n -> (t <= bus_latency)%nat /\ (n <= bus_latency)%nat;
  point_law d k f n : at_rest d Released f n -> at_rest (IOWR_SLAVE_SEL (Z.shiftl 1 (Z.of_nat k)) d) (Pointing k) f n;
  select_law d k f n : at_rest d (Pointing k) f n ->
    at_rest (IOWR_CONTROL CONTROL_SSO_MSK d) (Selected k) (<[k := sl_select (f k)]> f) n;
  lift_law d k f n : at_rest d (Selected k) f n ->
    at_rest (IOWR_SLAVE_SEL 0 d) Lifted (<[k := sl_deselect (f k)]> f) n;
  release_law d f n : at_rest d Lifted f n -> at_rest (IOWR_CONTROL 0 d) Released f n;
  rest_rx d sel f n : at_rest d sel f n -> at_rest (IORD_RXDATA d).2 sel f n;
  rest_status d sel f n : at_rest d sel f n ->
    Z.land (IORD_STATUS d).1 TRDY_MSK <> 0 /\ at_rest (IORD_STATUS d).2 sel f (pred n);
  send_law d sel f n b : at_rest d sel f n ->
    exists r t m, answers sel b f r /\ in_flight (IOWR_TXDATA b d) sel (hears sel b f) r t m;
  flight_status d sel f r t n : in_flight d sel f r t n ->
    (Z.land (IORD_STATUS d).1 TMT_MSK = 0 <-> t <> 0%nat) /\
    (Z.land (IORD_STATUS d).1 RRDY_MSK = 0 <-> n <> 0%nat) /\
    in_flight (IORD_STATUS d).2 sel f r (pred t) (pred n);
  flight_rx d sel f r : in_flight d sel f r 0 0 ->
    u8 (IORD_RXDATA d).1 = u8 r /\ exists m, at_rest (IORD_RXDATA d).2 sel f m
}.

(** ** The driver against the contract *)

Section Facts.
Context {D C : Type} `{laws : BusLaws D C}.

Abbreviation bus := (cyg_spi_sopc_bus_t D).

(** Everything but the hardware is the same. *)
Definition same_flags (s s' : bus) : Prop :=
  cs_up s' = cs_up s /\ common_init s' = common_init s /\ dev_init s' = dev_init s.

Lemma same_flags_refl s : same_flags s s.
Proof. done. Qed.

Lemma same_flags_trans s1 s2 s3 : same_flags s1 s2 -> same_flags s2 s3 -> same_flags s1 s3.
Proof. intros (? & ? & ?) (? & ? & ?). repeat split; congruence. Qed.

#[local] Hint Resolve same_flags_refl : core.

Lemma wp_reg_read (f : D -> Z * D) (Q : Z -> bus -> Prop) s :
  Q (f (core s)).1 (set_core (f (core s)).2 s) -> wp (reg_read f) Q s.
Proof. unfold wp, reg_read. by destruct (f (core s)). Qed.

(** What a sequence of bytes does to the slaves. *)
Definition talk (sel : select) (bs : list Z) (f : nat -> C) : nat -> C :=
  match sel with Selected k => <[k := (exchange bs (f k)).2]> f | _ => f end.

Lemma exchange_cons b bs c :
  exchange (b :: bs) c =
    ((sl_xfer b c).1 :: (exchange bs (sl_xfer b c).2).1, (exchange bs (sl_xfer b c).2).2).
Proof. simpl. destruct (sl_xfer b c) as [o c1]. simpl. by destruct (exchange bs c1). Qed.

Lemma talk_cons sel b bs f k : talk sel bs (hears sel b f) k = talk sel (b :: bs) f k.
Proof.
  destruct sel as [|j|j|]; cbn [talk hears]; [done..| |done]. rewrite exchange_cons. cbn [snd].
  rewrite fn_lookup_insert. destruct (decide (j = k)) as [->|];
    by rewrite ?fn_lookup_insert, ?fn_lookup_insert_ne by done.
Qed.

Lemma talk_app sel bs bs' f k : talk sel bs' (talk sel bs f) k = talk sel (bs ++ bs') f k.
Proof.
  destruct sel as [|j|j|]; cbn [talk]; [done..| |done]. rewrite exchange_app. cbn [snd].
  rewrite fn_lookup_insert. destruct (decide (j = k)) as [->|];
    by rewrite ?fn_lookup_insert, ?fn_lookup_insert_ne by done.
Qed.

Lemma talk_nil sel f k : talk sel [] f k = f k.
Proof.
  destruct sel as [|j|j|]; cbn; [done..| |done].
  by destruct (decide (j = k)) as [->|]; rewrite ?fn_lookup_insert, ?fn_lookup_insert_ne by done.
Qed.

(** The waits of a transfer in flight. *)
Lemma wp_wait_tmt polls sel f r t n (Q : unit -> bus -> Prop) s :
  in_flight (core s) sel f r t n -> (t < polls)%nat ->
  (forall d' n', (n' <= n)%nat -> in_flight d' sel f r 0 n' -> Q tt (set_core d' s)) ->
  wp (wait_for TMT_MSK polls) Q s.
Proof.
  revert t n s. induction polls as [|p IH]; intros t n s Hf Hp HQ; [lia|]. cbn [wait_for].
  apply wp_bind, wp_reg_read. destruct (flight_status _ _ _ _ _ _ Hf) as (Ht & _ & Hf').
  destruct (Z.eqb_spec (Z.land (IORD_STATUS (core s)).1 TMT_MSK) 0) as [E|E].
  - apply Ht in E. eapply IH; [exact Hf'|lia|]. intros d' n' Hn Hd. apply (HQ d' n'); [lia|done].
  - assert (t = 0%nat) as -> by (destruct t; [done|by destruct E; apply Ht]).
    apply wp_ret. eapply HQ; [|exact Hf']. lia.
Qed.

Lemma wp_wait_rrdy polls sel f r n (Q : unit -> bus -> Prop) s :
  in_flight (core s) sel f r 0 n -> (n < polls)%nat ->
  (forall d', in_flight d' sel f r 0 0 -> Q tt (set_core d' s)) ->
  wp (wait_for RRDY_MSK polls) Q s.
Proof.
  revert n s. induction polls as [|p IH]; intros n s Hf Hp HQ; [lia|]. cbn [wait_for].
  apply wp_bind, wp_reg_read. destruct (flight_status _ _ _ _ _ _ Hf) as (_ & Hn & Hf').
  destruct (Z.eqb_spec (Z.land (IORD_STATUS (core s)).1 RRDY_MSK) 0) as [E|E].
  - apply Hn in E. eapply IH; [exact Hf'|cbn; lia|]. intros d' Hd. by apply HQ.
  - assert (n = 0%nat) as -> by (destruct n; [done|by destruct E; apply Hn]).
    apply wp_ret. by eapply HQ.
Qed.

Lemma wp_bus_wait_trdy polls sel f n (Q : unit -> bus -> Prop) s :
  at_rest (core s) sel f n -> (0 < polls)%nat ->
  (forall d' n', at_rest d' sel f n' -> Q tt (set_core d' s)) ->
  wp (wait_for TRDY_MSK polls) Q s.
Proof.
  intros Hr Hp HQ. destruct polls as [|p]; [lia|]. cbn [wait_for]. apply wp_bind, wp_reg_read.
  destruct (rest_status _ _ _ _ Hr) as [Htr Hr1]. rewrite (proj2 (Z.eqb_neq _ _) Htr).
  by eapply wp_ret, HQ.
Qed.

(** The loop moves the bytes. *)
Lemma wp_transfer_bytes polls count tx sel f n (Q : list Z -> bus -> Prop) s :
  (bus_latency < polls)%nat -> at_rest (core s) sel f n -> (count <= length tx)%nat ->
  (forall vals d' m, length vals = count ->
     (forall k, sel = Selected k -> vals = (exchange (take count tx) (f k)).1) ->
     at_rest d' sel (talk sel (take count tx) f) m -> Q vals (set_core d' s)) ->
  wp (transfer_bytes polls count tx) Q s.
Proof.
  intros Hp. revert tx f n Q s. induction count as [|c IH]; intros tx f n Q s Hr Hl HQ; cbn [transfer_bytes].
  { apply wp_ret. destruct s as [d ? ? ?]. apply (HQ [] d n); [done|done|].
    eapply rest_ext; [|exact Hr]. intros k. by rewrite talk_nil. }
  destruct tx as [|b tx]; [cbn in Hl; lia|].
  apply wp_bind. eapply wp_bus_wait_trdy; [exact Hr|lia|]. intros d1 n1 Hr1.
  apply wp_bind, wp_modify. destruct (send_law _ _ _ _ b Hr1) as (r & t & m & Hans & Hfl).
  destruct (flight_bound _ _ _ _ _ _ Hfl) as [Ht Hm].
  apply wp_bind. eapply wp_wait_tmt; [exact Hfl|lia|]. intros d2 n2 Hn2 Hfl2.
  apply wp_bind. eapply wp_wait_rrdy; [exact Hfl2|lia|]. intros d3 Hfl3.
  apply wp_bind, wp_reg_read. cbn [core set_core].
  destruct (flight_rx _ _ _ _ Hfl3) as [-> [m4 Hr4]].
  apply wp_bind. eapply IH; [exact Hr4|cbn in Hl; lia|]. intros vals d5 m5 Hlen Hvals Hr5.
  apply wp_ret. apply (HQ (u8 r :: vals) d5 m5); [cbn; lia| |].
  - intros k ->. cbn [answers hears] in Hans, Hvals. rewrite (Hvals k eq_refl), fn_lookup_insert.
    cbn [take]. rewrite exchange_cons. cbn [fst]. subst r. by rewrite u8_id by apply sl_xfer_byte.
  - eapply rest_ext; [|exact Hr5]. intros k. cbn [take]. apply talk_cons.
Qed.

(** ** One transfer *)

Definition filled (rx : option (list Z)) (vals : list Z) : option (list Z) :=
  b ← rx; Some (vals ++ drop (length vals) b).

Definition fits (rx : option (list Z)) (n : nat) : Prop := forall b, rx = Some b -> (n <= length b)%nat.

Lemma wp_transfer_polled polls count tx rx sel f n (Q : option (list Z) -> bus -> Prop) s :
  (bus_latency < polls)%nat -> at_rest (core s) sel f n ->
  (Z.to_nat count <= length tx)%nat -> fits rx (Z.to_nat count) ->
  (forall vals d' m, length vals = Z.to_nat count ->
     (forall k, sel = Selected k -> vals = (exchange (take (Z.to_nat count) tx) (f k)).1) ->
     at_rest d' sel (talk sel (take (Z.to_nat count) tx) f) m -> Q (filled rx vals) (set_core d' s)) ->
  wp (spi_sopc_transfer_polled polls count tx rx) Q s.
Proof.
  intros Hp Hr Hl Hrx HQ. apply wp_bind, wp_reg_read. apply rest_rx in Hr.
  apply wp_bind. eapply wp_transfer_bytes; [done|exact Hr|done|]. intros vals d' m Hlen Hv Hr'.
  destruct rx as [b|]; [|by apply wp_ret; eapply (HQ vals)].
  destruct (Nat.ltb_spec (length b) (length vals)) as [Hlt|_]; [pose proof (Hrx b eq_refl); lia|].
  apply wp_ret. by eapply (HQ vals).
Qed.

Lemma zeros_take c : 0 <= c <= 40 -> take (Z.to_nat c) zeros = replicate (Z.to_nat c) 0.
Proof. intros Hc. unfold zeros. rewrite take_replicate. f_equal. lia. Qed.

(** Ticks: that many zeros, to a selected slave or to none. *)
Lemma wp_tick_loop polls fuel count sel f n (Q : unit -> bus -> Prop) s :
  (bus_latency < polls)%nat -> at_rest (core s) sel f n -> 0 <= count < 4294967296 ->
  (Z.to_nat ((count + 39) / 40) <= fuel)%nat ->
  (forall d' m, at_rest d' sel (talk sel (replicate (Z.to_nat count) 0) f) m -> Q tt (set_core d' s)) ->
  wp (tick_loop polls fuel count) Q s.
Proof.
  intros Hp. revert count f n Q s. induction fuel as [|k IH]; intros count f n Q s Hr Hc Hfuel HQ; cbn [tick_loop].
  all: destruct (Z.gtb_spec count 0) as [Hpos|Hz].
  1: { pose proof (Z.div_le_mono 40 (count + 39) 40). change (40 / 40) with 1 in *. lia. }
  1,3: apply wp_ret; destruct s as [d ? ? ?]; apply (HQ d n); eapply rest_ext; [|exact Hr];
       intros j; replace (Z.to_nat count) with 0%nat by lia; symmetry; apply talk_nil.
  set (tcnt := if count >? 40 then 40 else count).
  assert (0 < tcnt <= 40 /\ tcnt <= count /\ (tcnt = 40 \/ tcnt = count)) as (Ht & Htc & Hcase)
    by (subst tcnt; destruct (Z.gtb_spec count 40); lia).
  apply wp_bind. eapply wp_transfer_polled; [done|exact Hr|unfold zeros; rewrite length_replicate; lia|done|].
  intros vals d' m _ _ Hr'. rewrite zeros_take in Hr' by lia.
  rewrite (uwrap_id 32) by lia. eapply IH; [exact Hr'|lia| |].
  - destruct Hcase as [-> | ->].
    + replace (count + 39) with (count - 40 + 39 + 1 * 40) in Hfuel by lia.
      rewrite Z.div_add in Hfuel by lia. lia.
    + rewrite Z.sub_diag. change ((0 + 39) `div` 40) with 0. lia.
  - intros d2 m2 Hr2. apply (HQ d2 m2). eapply rest_ext; [|exact Hr2]. intros j.
    rewrite talk_app, <- replicate_add. do 2 f_equal. lia.
Qed.

(** ** Transactions

    A transaction on device [k]: its transfers and ticks between the call that
    begins it and the call that ends it. *)

Inductive op :=
| Transfer (count : Z) (tx : list Z) (rx : option (list Z)) (drop_cs : bool)
| Tick (count : Z).

Definition run_op polls (k : nat) (o : op) : M bus (option (list Z)) :=
  match o with
  | Transfer count tx rx drop_cs => spi_sopc_transaction_transfer polls k count tx rx drop_cs
  | Tick count => spi_sopc_transaction_tick polls count;; mret None
  end.

Fixpoint run_ops polls (k : nat) (os : list op) : M bus (list (option (list Z))) :=
  match os with
  | [] => mret []
  | o :: rest => r ← run_op polls k o; rs ← run_ops polls k rest; mret (r :: rs)
  end.

Definition transaction polls (k : nat) (os : list op) : M bus (list (option (list Z))) :=
  spi_sopc_transaction_begin k;;
  rs ← run_ops polls k os;
  spi_sopc_transaction_end;;
  mret rs.

(** What the slave should see of an operation: whether it is selected, and its state. *)
Definition op_spec (o : op) (x : bool * C) : option (list Z) * (bool * C) :=
  let '(up, c) := x in
  match o with
  | Transfer count tx rx drop_cs =>
      let e := exchange (take (Z.to_nat count) tx) (if up then c else sl_select c) in
      (filled rx e.1, (negb drop_cs, if drop_cs then sl_deselect e.2 else e.2))
  | Tick count => (None, (up, if up then (exchange (replicate (Z.to_nat count) 0) c).2 else c))
  end.

Fixpoint ops_spec (os : list op) (x : bool * C) : list (option (list Z)) * (bool * C) :=
  match os with
  | [] => ([], x)
  | o :: rest => let r := op_spec o x in let rs := ops_spec rest r.2 in (r.1 :: rs.1, rs.2)
  end.

Definition released (x : bool * C) : C := if x.1 then sl_deselect x.2 else x.2.

(** The caller's arrays are long enough. *)
Definition op_ok (o : op) : Prop :=
  match o with
  | Transfer count tx rx _ => (Z.to_nat count <= length tx)%nat /\ fits rx (Z.to_nat count)
  | Tick count => 0 <= count < 4294967296
  end.

(** The bus during a transaction on [k]: the slave [k] is in state [c], the others as in [f]. *)
Definition on_bus (k : nat) (f : nat -> C) (x : bool * C) (s : bus) : Prop :=
  cs_up s = x.1 /\ exists n, at_rest (core s) (if x.1 then Selected k else Released) (<[k := x.2]> f) n.

Lemma insert_same (k : nat) (c c' : C) (f : nat -> C) (j : nat) : <[k := c]> (<[k := c']> f) j = <[k := c]> f j.
Proof.
  by destruct (decide (k = j)) as [->|]; rewrite ?fn_lookup_insert, ?fn_lookup_insert_ne by done.
Qed.

Lemma wp_bus_start_transfer k f up c (Q : unit -> bus -> Prop) s :
  on_bus k f (up, c) s ->
  (forall s', on_bus k f (true, if up then c else sl_select c) s' -> Q tt s') ->
  wp (spi_sopc_start_transfer k) Q s.
Proof.
  intros [Hup [n Hr]] HQ. unfold spi_sopc_start_transfer. apply wp_bind. unfold wp, gets.
  rewrite Hup. cbn [fst snd] in *. destruct up; [apply HQ; split; [done|by eexists]|].
  apply HQ. split; [done|]. exists n. eapply rest_ext; [|by apply select_law, point_law].
  intros j. rewrite fn_lookup_insert. apply insert_same.
Qed.

Lemma wp_drop_cs k f up c (Q : unit -> bus -> Prop) s :
  on_bus k f (up, c) s ->
  (forall s', on_bus k f (false, released (up, c)) s' -> Q tt s') ->
  wp spi_sopc_drop_cs Q s.
Proof.
  intros [Hup [n Hr]] HQ. unfold spi_sopc_drop_cs. apply wp_bind. unfold wp, gets.
  rewrite Hup. cbn [fst snd released] in *. destruct up; [|apply HQ; split; [done|by eexists]].
  apply HQ. split; [done|]. exists n. eapply rest_ext; [|by apply release_law, lift_law].
  intros j. rewrite fn_lookup_insert. apply insert_same.
Qed.

Lemma wp_run_op polls k f o x (Q : option (list Z) -> bus -> Prop) s :
  (bus_latency < polls)%nat -> op_ok o -> on_bus k f x s ->
  (forall s', on_bus k f (op_spec o x).2 s' -> Q (op_spec o x).1 s') ->
  wp (run_op polls k o) Q s.
Proof.
  intros Hp Hok Hb HQ. destruct x as [up c], o as [count tx rx drop_cs|count]; cbn [run_op].
  - destruct Hok as [Htx Hrx]. unfold spi_sopc_transaction_transfer.
    apply wp_bind. eapply wp_bus_start_transfer; [exact Hb|]. intros s1 [Hup1 [n1 Hr1]].
    apply wp_bind. eapply wp_transfer_polled; [done|exact Hr1|done..|]. intros vals d m _ Hv Hr2.
    rewrite (Hv k eq_refl). cbn [talk snd fst] in *. rewrite fn_lookup_insert in *.
    assert (on_bus k f (true, (exchange (take (Z.to_nat count) tx) (if up then c else sl_select c)).2)
              (set_core d s1)) as Hb2.
    { split; [done|]. exists m. eapply rest_ext; [|exact Hr2]. intros j. apply insert_same. }
    apply wp_bind, wp_when; intros ->.
    + eapply wp_drop_cs; [exact Hb2|]. intros s3 Hb3. by apply wp_ret, HQ.
    + by apply wp_ret, HQ.
  - apply wp_bind. destruct Hb as [Hup [n Hr]].
    eapply wp_tick_loop; [done|exact Hr|exact Hok| |].
    { unfold op_ok in Hok. replace (count / 40 + 1) with ((count + 40) / 40)
        by (replace (count + 40) with (count + 1 * 40) by lia; by rewrite Z.div_add by lia).
      apply Z2Nat.inj_le; [apply Z.div_pos; lia..|]. apply Z.div_le_mono; lia. }
    intros d m Hr'. apply wp_ret, HQ. split; [done|]. cbn [op_spec fst snd] in *. exists m.
    destruct up; [|exact Hr']. eapply rest_ext; [|exact Hr']. intros j. cbn [talk].
    rewrite fn_lookup_insert. apply insert_same.
Qed.

Lemma wp_run_ops polls k f os x (Q : list (option (list Z)) -> bus -> Prop) s :
  (bus_latency < polls)%nat -> Forall op_ok os -> on_bus k f x s ->
  (forall s', on_bus k f (ops_spec os x).2 s' -> Q (ops_spec os x).1 s') ->
  wp (run_ops polls k os) Q s.
Proof.
  intros Hp Hok. revert x Q s. induction Hok as [|o os Ho Hos IH]; intros x Q s Hb HQ; cbn [run_ops].
  { by apply wp_ret, HQ. }
  apply wp_bind. eapply wp_run_op; [done|exact Ho|exact Hb|]. intros s1 Hb1.
  apply wp_bind. eapply IH; [exact Hb1|]. intros s2 Hb2. by apply wp_ret, HQ.
Qed.

(** C19: a transaction implements the protocol of its slave.  From a released bus, with
    arrays that are long enough and waits that exceed the latency of the core,
    it returns: the slave, selected before the first byte of each run of
    transfers and deselected after a transfer that asks for it and at the end,
    has received exactly the bytes of the transfers, and zeros for the ticks
    while it was selected; the buffers hold its answers; no other slave has
    heard anything; and the bus is released. *)
Theorem spi_transaction_protocol polls k os f s n :
  (bus_latency < polls)%nat -> Forall op_ok os ->
  cs_up s = false -> at_rest (core s) Released f n ->
  wp (transaction polls k os) (fun rs s' =>
    rs = (ops_spec os (false, f k)).1 /\ cs_up s' = false /\
    exists m, at_rest (core s') Released (<[k := released (ops_spec os (false, f k)).2]> f) m) s.
Proof.
  intros Hp Hok Hup Hr.
  assert (on_bus k f (false, f k) s) as Hb.
  { split; [done|]. exists n. eapply rest_ext; [|exact Hr]. intros j.
    by destruct (decide (k = j)) as [->|]; rewrite ?fn_lookup_insert, ?fn_lookup_insert_ne by done. }
  assert (wp (spi_sopc_transaction_begin k) (fun _ s' => on_bus k f (false, f k) s') s) as Hbegin.
  { unfold spi_sopc_transaction_begin, wp, gets, mbind, M_bind. by destruct (dev_init s k). }
  apply wp_bind. eapply wp_mono; [exact Hbegin|]. intros ? s1 Hb1.
  apply wp_bind. eapply wp_run_ops; [done|exact Hok|exact Hb1|]. intros s2 Hb2.
  destruct (ops_spec os (false, f k)) as [rs [up c]]. cbn [fst snd] in *.
  apply wp_bind. eapply wp_drop_cs; [exact Hb2|].
  intros s3 [Hup3 [m Hr3]]. apply wp_ret. split; [done|]. split; [done|]. by exists m.
Qed.

End Facts.

(** ** A bus that keeps the contract

    A byte takes [lat] polls; its answer is there when TMT is set. *)

Section Sim.
Context {C : Type} `{SpiSlave C} (lat : nat).

Record bsim := mkBsim {
  b_sel : select;
  b_slaves : nat -> C;
  b_flight : option (Z * nat);
}.

Definition b_bits (d : bsim) : Z :=
  TRDY_MSK + match b_flight d with
             | Some (_, O) => TMT_MSK + RRDY_MSK
             | Some _ => 0
             | None => TMT_MSK
             end.

Definition b_select (v : Z) (d : bsim) : bsim :=
  match b_sel d with
  | Selected k => if v =? 0 then mkBsim Lifted (<[k := sl_deselect (b_slaves d k)]> (b_slaves d)) (b_flight d) else d
  | Released => mkBsim (Pointing (Z.to_nat (Z.log2 v))) (b_slaves d) (b_flight d)
  | _ => d
  end.

Definition b_control (v : Z) (d : bsim) : bsim :=
  match b_sel d with
  | Pointing k =>
      if v =? CONTROL_SSO_MSK then mkBsim (Selected k) (<[k := sl_select (b_slaves d k)]> (b_slaves d)) (b_flight d)
      else d
  | Lifted => if v =? 0 then mkBsim Released (b_slaves d) (b_flight d) else d
  | _ => d
  end.

#[global] Instance bsim_core : SpiCore bsim := {
  IORD_STATUS d :=
    (b_bits d, mkBsim (b_sel d) (b_slaves d) (r ← b_flight d; Some (r.1, pred r.2)));
  IORD_RXDATA d :=
    match b_flight d with
    | Some (r, O) => (r, mkBsim (b_sel d) (b_slaves d) None)
    | _ => (0, d)
    end;
  IOWR_TXDATA b d :=
    mkBsim (b_sel d) (hears (b_sel d) b (b_slaves d))
      (Some (match b_sel d with Selected k => (sl_xfer b (b_slaves d k)).1 | _ => 255 end, lat));
  IOWR_CONTROL := b_control;
  IOWR_SLAVE_SEL := b_select
}.

Definition b_state (d : bsim) (sel : select) (f : nat -> C) (fl : option (Z * nat)) : Prop :=
  b_sel d = sel /\ (forall k, b_slaves d k = f k) /\ b_flight d = fl.

Lemma b_insert (f g : nat -> C) k (h : C -> C) j :
  (forall i, f i = g i) -> <[k := h (f k)]> f j = <[k := h (g k)]> g j.
Proof.
  intros Hfg. rewrite Hfg. by destruct (decide (k = j)) as [->|];
    rewrite ?fn_lookup_insert, ?fn_lookup_insert_ne by done.
Qed.

#[global, refine] Instance bsim_laws : BusLaws bsim C := {
  at_rest d sel f n := b_state d sel f None /\ n = 0%nat;
  in_flight d sel f r t n := b_state d sel f (Some (r, n)) /\ t = n /\ (n <= lat)%nat;
  bus_latency := lat
}.
Proof.
  - intros d sel f g n Hfg [(Hs & Hf & Hfl) Hn]. repeat split; try done. intros k. by rewrite Hf.
  - intros d sel f n [_ ->]. lia.
  - intros d sel f r t n (_ & -> & Hn). done.
  - intros [sel g fl] k f n [(Hs & Hf & Hfl) Hn]. cbn in *. subst. unfold b_select. cbn [b_sel].
    rewrite Z.shiftl_1_l, Z.log2_pow2, Nat2Z.id by lia. done.
  - intros [sel g fl] k f n [(Hs & Hf & Hfl) Hn]. cbn in *. subst. split; [|done]. split; [done|].
    split; [|done]. intros j. by apply b_insert.
  - intros [sel g fl] k f n [(Hs & Hf & Hfl) Hn]. cbn in *. subst. split; [|done]. split; [done|].
    split; [|done]. intros j. by apply b_insert.
  - intros [sel g fl] f n [(Hs & Hf & Hfl) Hn]. cbn in *. by subst.
  - intros [sel g fl] sel' f n [(Hs & Hf & Hfl) Hn]. cbn in *. by subst.
  - intros [sel g fl] sel' f n [(Hs & Hf & Hfl) Hn]. cbn in *. by subst.
  - intros [sel g fl] sel' f n b [(Hs & Hf & Hfl) Hn]. cbn in *. subst.
    eexists _, lat, lat. split; [|split; [split; [done|split; [|done]]|done]].
    + destruct sel'; cbn; try done. by rewrite Hf.
    + intros j. destruct sel' as [|k|k|]; cbn; try done. apply (b_insert g f k (fun c => (sl_xfer b c).2) j Hf).
  - intros [sel g fl] sel' f r t n ((Hs & Hf & Hfl) & -> & Hn). cbn in *. subst.
    unfold b_bits. cbn [b_flight]. destruct n; repeat split; try done; cbn; lia.
  - intros [sel g fl] sel' f r [(Hs & Hf & Hfl) Hn]. cbn in *. subst. cbn. split; [done|].
    by exists 0%nat.
Defined.

End Sim.

Lemma spi_transaction_protocol_witness :
  wp (transaction (spi := bsim_core 3) 9 1
        [Transfer 2 [5; 6] (Some [0; 0; 0]) false; Transfer 1 [7] None true; Tick 41; Transfer 1 [8] (Some [0]) false])
     (fun rs s' =>
       rs = [Some [6; 7; 0]; None; None; Some [9]] /\ cs_up s' = false /\
       b_slaves (core s') 1 = [5; 6; 7; -1; 8; -1] /\ b_slaves (core s') 0 = [])
     (mkBus (mkBsim Released (fun _ => [] : list Z) None) false true (fun _ => false)).
Proof.
  eapply wp_mono.
  - apply (spi_transaction_protocol (laws := bsim_laws 3) 9 1
      [Transfer 2 [5; 6] (Some [0; 0; 0]) false; Transfer 1 [7] None true; Tick 41; Transfer 1 [8] (Some [0]) false]
      (fun _ => []) _ 0).
    + cbn. lia.
    + repeat constructor; cbn; try lia; intros b [= <-]; cbn; lia.
    + done.
    + done.
  - intros rs s' (-> & Hup & m & Hr & _). destruct Hr as (_ & Hf & _). rewrite !Hf. done.
Defined.
