(* ===== verification/EpcsCommands.v ===== *)
(** * Commands of the serial configuration flash
    (packages/io/epcs, epcs_commands.c)

    Each command is one or two SPI transfers.  The chip is hardware: the class
    [EpcsChip] states what its data sheet promises for each command, in terms
    of the memory contents, the write-enable latch and the write in progress;
    the lemmas lift that to the driver's functions. *)

From S2P Require Import Prelude.
From S2P Require Import Spi.

Definition epcs_read : Z := 3.
Definition epcs_pp : Z := 2.
Definition epcs_wren : Z := 6.
Definition epcs_rdsr : Z := 5.
Definition epcs_wrsr : Z := 1.
Definition epcs_se : Z := 216.
Definition epcs_res : Z := 171.
Definition epcs_rdid : Z := 159.

Section Commands.
Context {D : Type} {core : SpiCore D} (polls wips : nat).

Abbreviation spi := (alt_avalon_spi_command polls 0).

(** The command and its three address bytes. *)
Definition command (op offset : Z) : list Z :=
  [op; Z.land (Z.shiftr offset 16) 255; Z.land (Z.shiftr offset 8) 255; Z.land offset 255].

(** A one-byte answer; the stack variable is uninitialised before. *)
Definition answer (r : list Z) : M D Z :=
  match r with s :: _ => mret s | [] => undef end.

Definition epcs_read_status_register : M D Z := r ← spi [epcs_rdsr] 1 0; answer r.

Definition epcs_test_wip : M D Z := s ← epcs_read_status_register; mret (Z.land s 1).

Fixpoint epcs_await_wip_released (fuel : nat) : M D unit :=
  match fuel with
  | O => no_fuel
  | S k => w ← epcs_test_wip; if ctrue w then epcs_await_wip_released k else mret tt
  end.

Definition epcs_sector_erase (offset : Z) : M D unit :=
  spi (command epcs_se offset) 0 0;;
  epcs_await_wip_released wips.

(** The bytes stored at [dest_addr] and the return value. *)
Definition epcs_read_buffer (offset length : Z) : M D (list Z * Z) :=
  epcs_await_wip_released wips;;
  r ← spi (command epcs_read offset) length 0;
  mret (r, length).

Definition epcs_write_enable : M D unit := spi [epcs_wren] 0 0;; mret tt.

Definition epcs_write_status_register (value : Z) : M D unit :=
  spi [epcs_wrsr; value] 0 0;;
  epcs_await_wip_released wips.

Definition epcs_write_buffer (offset : Z) (src : list Z) : M D Z :=
  epcs_write_enable;;
  spi (command epcs_pp offset) 0 COMMAND_MERGE;;
  spi src 0 0;;
  epcs_await_wip_released wips;;
  mret (Z.of_nat (Datatypes.length src)).

Definition epcs_read_electronic_signature : M D Z := r ← spi [epcs_res; 0; 0; 0] 1 0; answer r.

Definition epcs_read_device_id : M D Z := r ← spi [epcs_rdid; 0; 0] 1 0; answer r.

End Commands.

(** ** The memory of the chip *)

(** Replacing the bytes from [a] on. *)
Definition splice (m : list Z) (a : Z) (l : list Z) : list Z :=
  take (Z.to_nat a) m ++ l ++ drop (Z.to_nat a + length l) m.

Definition slice (m : list Z) (a n : Z) : list Z := take (Z.to_nat n) (drop (Z.to_nat a) m).

(** Programming clears bits. *)
Definition program (m : list Z) (a : Z) (data : list Z) : list Z :=
  splice m a (zip_with Z.land (slice m a (Z.of_nat (length data))) data).

(** Erasing sets them. *)
Definition erase (m : list Z) (a n : Z) : list Z := splice m a (replicate (Z.to_nat n) 255).

(** [ready c m wel]: deselected, nothing in progress, memory [m], write-enable
    latch [wel].  [working c m n]: a write is in progress; its result is [m],
    and it is over after [n] reads of the status register. *)
Class EpcsChip (C : Type) {slave : SpiSlave C} := {
  ready : C -> list Z -> bool -> Prop;
  working : C -> list Z -> nat -> Prop;
  write_latency : nat;
  page : Z;
  sector : Z;
  signature : Z;
  device_id : Z;
  working_bound : forall c m n, working c m n -> (n <= write_latency)%nat;
  law_rdsr_ready : forall c m w, ready c m w ->
    exists o s c', transact [epcs_rdsr; 0] c = ([o; s], c') /\ Z.land s 1 = 0 /\ ready c' m w;
  law_rdsr_working : forall c m n, working c m n ->
    exists o s c', transact [epcs_rdsr; 0] c = ([o; s], c')
      /\ match n with
         | O => Z.land s 1 = 0 /\ ready c' m false
         | S k => Z.land s 1 = 1 /\ working c' m k
         end;
  law_wren : forall c m w, ready c m w -> ready (transact [epcs_wren] c).2 m true;
  law_read : forall c m w b2 b1 b0 n, ready c m w ->
    is_byte b2 -> is_byte b1 -> is_byte b0 ->
    let a := b2 * 65536 + b1 * 256 + b0 in
    a + Z.of_nat n <= Z.of_nat (length m) ->
    let t := transact ([epcs_read; b2; b1; b0] ++ replicate n 0) c in
    drop 4 t.1 = slice m a (Z.of_nat n) /\ ready t.2 m w;
  law_pp : forall c m b2 b1 b0 data, ready c m true ->
    is_byte b2 -> is_byte b1 -> is_byte b0 -> bytes_ok data -> data <> [] ->
    let a := b2 * 65536 + b1 * 256 + b0 in
    let last := a + Z.of_nat (length data) - 1 in
    last < Z.of_nat (length m) -> a / page = last / page ->
    exists n, working (transact ([epcs_pp; b2; b1; b0] ++ data) c).2 (program m a data) n;
  law_se : forall c m b2 b1 b0, ready c m true ->
    is_byte b2 -> is_byte b1 -> is_byte b0 ->
    let a := b2 * 65536 + b1 * 256 + b0 in
    a < Z.of_nat (length m) ->
    exists n, working (transact [epcs_se; b2; b1; b0] c).2 (erase m (a / sector * sector) sector) n;
  law_res : forall c m w, ready c m w ->
    let t := transact [epcs_res; 0; 0; 0; 0] c in
    drop 4 t.1 = [signature] /\ ready t.2 m w;
  law_rdid : forall c m w, ready c m w ->
    let t := transact [epcs_rdid; 0; 0; 0] c in
    drop 3 t.1 = [device_id] /\ ready t.2 m w
}.

Lemma addr_bytes a :
  0 <= a < 16777216 ->
  Z.land (Z.shiftr a 16) 255 * 65536 + Z.land (Z.shiftr a 8) 255 * 256 + Z.land a 255 = a.
Proof.
  intros Ha. rewrite !land_255, !Z.shiftr_div_pow2 by lia.
  change (2 ^ 16) with 65536. change (2 ^ 8) with 256.
  rewrite (Z.mod_small (a / 65536)) by (split; [apply Z.div_pos; lia|apply Z.div_lt_upper_bound; lia]).
  replace (a / 65536) with (a / 256 / 256) by (by rewrite Z.div_div by lia).
  pose proof (Z.div_mod (a / 256) 256 ltac:(lia)). pose proof (Z.div_mod a 256 ltac:(lia)). lia.
Qed.

Section Facts.
Context {D C : Type} `{laws : SpiLaws D C} {chip : EpcsChip C} (polls wips : nat).
Hypothesis polls_ok : (latency < polls)%nat.
Hypothesis wips_ok : (write_latency < wips)%nat.

(** The flash as the driver sees it between two calls. *)
Definition flash_ready (d : D) (m : list Z) (w : bool) : Prop :=
  exists c n, idle d false c n /\ ready c m w.

Definition flash_working (d : D) (m : list Z) (k : nat) : Prop :=
  exists c n, idle d false c n /\ working c m k.

(** A whole transaction in one transfer. *)
Lemma spi_transact wr rl d c n :
  idle d false c n -> 0 <= rl -> (wr <> [] \/ 0 < rl) ->
  let t := transact (wr ++ replicate (Z.to_nat rl) 0) c in
  wp (alt_avalon_spi_command polls 0 wr rl 0)
    (fun out d' => out = drop (length wr) t.1 /\ exists m, idle d' false t.2 m) d.
Proof.
  intros Hi Hrl Hne t. eapply wp_mono; [by eapply alt_avalon_spi_command_ok|].
  intros out d' [-> [m Hm]]. cbn [Z.land Z.eqb] in Hm. unfold t, transact.
  destruct (exchange _ (sl_select c)). simpl in *. eauto.
Qed.

Lemma read_status_ready d m w :
  flash_ready d m w ->
  wp (epcs_test_wip polls) (fun s d' => s = 0 /\ flash_ready d' m w) d.
Proof.
  intros (c & n & Hi & Hr). unfold epcs_test_wip, epcs_read_status_register.
  destruct (law_rdsr_ready _ _ _ Hr) as (o & s & c' & Ht & Hs & Hr').
  do 2 apply wp_bind. eapply wp_mono; [eapply (spi_transact [epcs_rdsr] 1); [done|lia|by left]|].
  cbn [app Z.to_nat replicate]. simpl. rewrite Ht. intros out d' [-> [k Hk]]. simpl. wp_steps.
  split; [done|]. by exists c', k.
Qed.

Lemma read_status_working d m k :
  flash_working d m k ->
  wp (epcs_test_wip polls)
    (fun s d' => match k with
                 | O => s = 0 /\ flash_ready d' m false
                 | S k' => s = 1 /\ flash_working d' m k'
                 end) d.
Proof.
  intros (c & n & Hi & Hr). unfold epcs_test_wip, epcs_read_status_register.
  destruct (law_rdsr_working _ _ _ Hr) as (o & s & c' & Ht & Hk).
  do 2 apply wp_bind. eapply wp_mono; [eapply (spi_transact [epcs_rdsr] 1); [done|lia|by left]|].
  simpl. rewrite Ht. intros out d' [-> [j Hj]]. simpl. wp_steps.
  destruct k; (split; [apply Hk|]); by exists c', j; split; [|apply Hk].
Qed.

Lemma await_ready fuel d m w :
  flash_ready d m w -> (0 < fuel)%nat ->
  wp (epcs_await_wip_released polls fuel) (fun _ d' => flash_ready d' m w) d.
Proof.
  intros Hr Hf. destruct fuel; [lia|]. cbn [epcs_await_wip_released]. apply wp_bind.
  eapply wp_mono; [by apply read_status_ready|]. intros s d' [-> Hd]. by wp_steps.
Qed.

(** The wait for the end of a write terminates, and the write is done. *)
Lemma await_working fuel d m k :
  flash_working d m k -> (k < fuel)%nat ->
  wp (epcs_await_wip_released polls fuel) (fun _ d' => flash_ready d' m false) d.
Proof.
  revert d k. induction fuel as [|f IH]; intros d k Hw Hf; [lia|].
  cbn [epcs_await_wip_released]. apply wp_bind.
  eapply wp_mono; [by apply read_status_working|]. intros s d' Hs. destruct k as [|k].
  - destruct Hs as [-> Hr]. by wp_steps.
  - destruct Hs as [-> Hw']. simpl. eapply IH; [done|lia].
Qed.

Lemma await_wip d m k :
  flash_working d m k ->
  wp (epcs_await_wip_released polls wips) (fun _ d' => flash_ready d' m false) d.
Proof.
  intros Hw. eapply await_working; [done|]. destruct Hw as (c & n & _ & Hw).
  apply working_bound in Hw. lia.
Qed.

Lemma epcs_write_enable_ok d m w :
  flash_ready d m w -> wp (epcs_write_enable polls) (fun _ d' => flash_ready d' m true) d.
Proof.
  intros (c & n & Hi & Hr). unfold epcs_write_enable. apply wp_bind.
  eapply wp_mono; [eapply (spi_transact [epcs_wren] 0); [done|lia|by left]|].
  intros out d' [_ [k Hk]]. wp_steps. exists (transact [epcs_wren] c).2, k.
  split; [exact Hk|by eapply law_wren].
Qed.

Lemma epcs_sector_erase_ok d m a :
  flash_ready d m true -> 0 <= a < 16777216 -> a < Z.of_nat (length m) ->
  wp (epcs_sector_erase polls wips a)
    (fun _ d' => flash_ready d' (erase m (a / sector * sector) sector) false) d.
Proof.
  intros (c & n & Hi & Hr) Ha Hm. unfold epcs_sector_erase. apply wp_bind.
  eapply wp_mono; [eapply (spi_transact (command epcs_se a) 0); [done|lia|by left]|].
  intros out d' [_ [k Hk]].
  destruct (law_se c m (Z.land (Z.shiftr a 16) 255) (Z.land (Z.shiftr a 8) 255) (Z.land a 255))
    as [j Hj]; rewrite ?addr_bytes by done; auto with nios.
  rewrite addr_bytes in Hj by done. eapply await_wip. eexists _, k. split; [exact Hk|exact Hj].
Qed.

Lemma epcs_read_buffer_ok d m w a n :
  flash_ready d m w -> 0 <= a < 16777216 -> 0 <= n -> a + n <= Z.of_nat (length m) ->
  wp (epcs_read_buffer polls wips a n)
    (fun r d' => r = (slice m a n, n) /\ flash_ready d' m w) d.
Proof.
  intros Hr Ha Hn Hm. unfold epcs_read_buffer. apply wp_bind.
  eapply wp_mono; [apply await_ready; [done|lia]|]. intros _ d1 (c & k & Hi & Hr1). apply wp_bind.
  eapply wp_mono; [eapply (spi_transact (command epcs_read a) n); [done|lia|by left]|].
  intros out d' [-> [j Hj]]. wp_steps.
  destruct (law_read c m w (Z.land (Z.shiftr a 16) 255) (Z.land (Z.shiftr a 8) 255)
              (Z.land a 255) (Z.to_nat n)) as [E Hr2]; rewrite ?addr_bytes by done; auto with nios.
  { lia. }
  rewrite addr_bytes, Z2Nat.id in E by done. split; [f_equal; exact E|]. eexists _, j. split; [exact Hj|exact Hr2].
Qed.

Lemma epcs_write_buffer_ok d m w a data :
  flash_ready d m w -> 0 <= a < 16777216 -> bytes_ok data -> data <> [] ->
  let last := a + Z.of_nat (length data) - 1 in
  last < Z.of_nat (length m) -> a / page = last / page ->
  wp (epcs_write_buffer polls wips a data)
    (fun r d' => r = Z.of_nat (length data) /\ flash_ready d' (program m a data) false) d.
Proof.
  intros Hr Ha Hb Hne last Hm Hpage. unfold epcs_write_buffer. apply wp_bind.
  eapply wp_mono; [by eapply epcs_write_enable_ok|]. intros _ d1 (c & k & Hi & Hr1). apply wp_bind.
  eapply wp_mono; [eapply (alt_avalon_spi_command_ok polls (command epcs_pp a)); [exact polls_ok|exact Hi|done|done|by left]|].
  intros o1 d2 [_ [k2 Hi2]]. cbn [Z.land Z.eqb COMMAND_MERGE Pos.land] in Hi2. apply wp_bind.
  eapply wp_mono; [eapply (alt_avalon_spi_command_ok polls data); [exact polls_ok|exact Hi2|done|done|by left]|].
  intros o2 d3 [_ [k3 Hi3]]. cbn [Z.land Z.eqb] in Hi3. apply wp_bind.
  destruct (law_pp c m (Z.land (Z.shiftr a 16) 255) (Z.land (Z.shiftr a 8) 255) (Z.land a 255) data)
    as [j Hj]; rewrite ?addr_bytes by done; auto with nios.
  rewrite addr_bytes in Hj by done.
  assert (flash_working d3 (program m a data) j) as Hw.
  { eexists _, k3. split; [exact Hi3|]. unfold transact in Hj. rewrite exchange_app in Hj.
    cbn [Z.to_nat replicate] in *. rewrite !app_nil_r. exact Hj. }
  eapply wp_mono; [by eapply await_wip|]. intros ? d4 H4; cbn beta in H4. by wp_steps.
Qed.

Lemma epcs_read_electronic_signature_ok d m w :
  flash_ready d m w ->
  wp (epcs_read_electronic_signature polls) (fun r d' => r = signature /\ flash_ready d' m w) d.
Proof.
  intros (c & k & Hi & Hr). unfold epcs_read_electronic_signature. apply wp_bind.
  eapply wp_mono; [eapply (spi_transact [epcs_res; 0; 0; 0] 1); [done|lia|by left]|].
  destruct (law_res _ _ _ Hr) as [E Hr']. simpl in *. rewrite E. intros out d' [-> [j Hj]].
  wp_steps. split; [done|]. eexists _, j. split; [exact Hj|exact Hr'].
Qed.

Lemma epcs_read_device_id_ok d m w :
  flash_ready d m w ->
  wp (epcs_read_device_id polls) (fun r d' => r = device_id /\ flash_ready d' m w) d.
Proof.
  intros (c & k & Hi & Hr). unfold epcs_read_device_id. apply wp_bind.
  eapply wp_mono; [eapply (spi_transact [epcs_rdid; 0; 0] 1); [done|lia|by left]|].
  destruct (law_rdid _ _ _ Hr) as [E Hr']. simpl in *. rewrite E. intros out d' [-> [j Hj]].
  wp_steps. split; [done|]. eexists _, j. split; [exact Hj|exact Hr'].
Qed.

End Facts.
