(* ===== verification/EpcsFlash.v ===== *)
(** * The serial-flash driver
    (packages/io/epcs, altera_avalon_epcs_flash_controller.c and epcs.c)

    Operations on the flash through its commands: device query, reading,
    comparison in chunks, block erase, page-wise programming, the two write
    routines, the erase of a range, and the block-device entry points.

    A buffer argument is the list of its bytes; a read past its end is
    undefined.  The device descriptor changes only in [alt_epcs_flash_query]. *)

From S2P Require Import Prelude.
From S2P Require Import Spi.
From S2P Require Import EpcsCommands.

Definition ENODEV : Z := 19.
Definition EIO : Z := 5.
Definition ENOMEM : Z := 12.
Definition EINVAL : Z := 22.
Definition ALT_MAX_NUMBER_OF_FLASH_REGIONS : Z := 8.

Record flash_region := mkRegion {
  r_offset : Z;
  region_size : Z;
  number_of_blocks : Z;
  block_size : Z
}.

Record flash_dev := mkDev {
  number_of_regions : Z;
  region_info : list flash_region;
  base_addr : Z
}.

Record epcs_dev := mkEpcs {
  dev : flash_dev;
  size_in_bytes : Z;
  silicon_id : Z;
  page_size : Z
}.

(** [memcmp] of the C library: the difference of the first bytes that differ. *)
Fixpoint memcmp (a b : list Z) : Z :=
  match a, b with
  | x :: a', y :: b' => if x =? y then memcmp a' b' else x - y
  | _, _ => 0
  end.

Section Driver.
Context {D : Type} {core : SpiCore D} (polls wips : nat).

(** ** Device query *)

(** The first region of the table becomes [r]. *)
Definition set_region0 (size blocks bsize : Z) (d : flash_dev) : flash_dev :=
  match region_info d with
  | r :: rs => mkDev (number_of_regions d) (mkRegion (r_offset r) size blocks bsize :: rs) (base_addr d)
  | [] => d
  end.

Definition known_device (id : Z) : option (Z * Z * Z) :=
  if id =? 22 then Some (64 * 1024 * 1024 / 8, 128, 65536)
  else if id =? 20 then Some (16 * 1024 * 1024 / 8, 32, 65536)
  else if id =? 19 then Some (8 * 1024 * 1024 / 8, 16, 65536)
  else if id =? 18 then Some (4 * 1024 * 1024 / 8, 8, 65536)
  else if id =? 16 then Some (1 * 1024 * 1024 / 8, 4, 32768)
  else None.

Definition alt_epcs_flash_query (f : epcs_dev) : M D (Z * epcs_dev) :=
  id ← epcs_read_electronic_signature polls;
  x ← match known_device id with
      | Some (size, blocks, bsize) => mret (0, id, set_region0 size blocks bsize (dev f))
      | None =>
          id ← epcs_read_device_id polls;
          if id =? 24
          then mret (0, id, set_region0 (128 * 1024 * 1024 / 8) 64 262144 (dev f))
          else mret (- ENODEV, id, dev f)
      end;
  match x with
  | (ret_code, id, d) =>
      match region_info d with
      | [] => undef
      | r :: rs =>
          let r := mkRegion 0 (region_size r) (number_of_blocks r) (block_size r) in
          mret (ret_code, mkEpcs (mkDev 1 (r :: rs) (base_addr d)) (region_size r) id 256)
      end
  end.

(** [alt_flash_device_register] belongs to the board support package. *)
Definition alt_epcs_flash_init (alt_flash_device_register : flash_dev -> Z) (f : epcs_dev)
    : M D (Z * epcs_dev) :=
  x ← alt_epcs_flash_query f;
  match x with
  | (ret_code, f) =>
      mret (if ret_code =? 0 then alt_flash_device_register (dev f) else ret_code, f)
  end.

(** [alt_epcs_flash_get_info]: the return code, the table and its length. *)
Definition alt_epcs_flash_get_info (fd : option flash_dev)
    : outcome (Z * option (list flash_region) * Z) :=
  match fd with
  | None => UB
  | Some d =>
      let n := number_of_regions d in
      if n =? 0 then Ret (- EIO, None, n)
      else if n >? ALT_MAX_NUMBER_OF_FLASH_REGIONS then Ret (- ENOMEM, None, n)
      else Ret (0, Some (region_info d), n)
  end.

(** ** Reading *)

(** The comparison is between unsigned values. *)
Definition alt_epcs_test_address (f : epcs_dev) (offset : Z) : M D Z :=
  let last_region_index := u32 (number_of_regions (dev f) - 1) in
  match region_info (dev f) !! Z.to_nat last_region_index with
  | None => undef
  | Some r =>
      let last_device_address := u32 (-1 + r_offset r + region_size r) in
      mret (if u32 offset >? last_device_address then - EIO else 0)
  end.

(** The return code and the bytes stored. *)
Definition alt_epcs_flash_read (f : epcs_dev) (offset length : Z) : M D (Z * list Z) :=
  ret_code ← alt_epcs_test_address f offset;
  if ret_code >=? 0 then
    r ← epcs_read_buffer polls wips offset length;
    match r with
    | (bytes, ret_code) => mret (if ret_code =? length then 0 else ret_code, bytes)
    end
  else mret (ret_code, []).

Definition chunk_size : Z := 32.

Fixpoint memcmp_loop (fuel : nat) (f : epcs_dev) (src : list Z) (offset n : Z) : M D Z :=
  match fuel with
  | O => no_fuel
  | S k =>
      if n >? 0 then
        let this_chunk_size := if n >? chunk_size then chunk_size else n in
        r ← alt_epcs_flash_read f offset this_chunk_size;
        match r with
        | (ret, bytes) =>
            if ret <? 0 then mret (-1)
            else if Z.of_nat (length src) <? this_chunk_size then undef
            else
              let this_chunk_cmp := memcmp (take (Z.to_nat this_chunk_size) src) bytes in
              if ctrue this_chunk_cmp then mret this_chunk_cmp
              else memcmp_loop k f (drop (Z.to_nat this_chunk_size) src)
                     (offset + this_chunk_size) (n - this_chunk_size)
        end
      else mret 0
  end.

(** [n] is a [size_t]; a chunk is at least one byte. *)
Definition alt_epcs_flash_memcmp (f : epcs_dev) (src : list Z) (offset n : Z) : M D Z :=
  memcmp_loop (S (Z.to_nat (u32 n))) f src offset (u32 n).

(** ** Erasing and programming *)

Definition alt_epcs_flash_erase_block (f : epcs_dev) (block_offset : Z) : M D Z :=
  ret_code ← alt_epcs_test_address f block_offset;
  if ret_code >=? 0 then
    epcs_write_enable polls;;
    epcs_sector_erase polls wips block_offset;;
    mret ret_code
  else mret ret_code.

(** The start of the page after the one of [data_offset]. *)
Definition next_page (f : epcs_dev) (data_offset : Z) : Z :=
  s32 (Z.land (u32 (data_offset + page_size f)) (u32 (Z.lnot (page_size f - 1)))).

Fixpoint page_loop (fuel : nat) (f : epcs_dev) (data_offset : Z) (data : list Z) (len : Z)
    : M D unit :=
  match fuel with
  | O => no_fuel
  | S k =>
      if ctrue len then
        let next_page_start := next_page f data_offset in
        let n := cmin len (next_page_start - data_offset) in
        if Z.of_nat (length data) <? n then undef
        else
          epcs_write_buffer polls wips data_offset (take (Z.to_nat n) data);;
          page_loop k f next_page_start (drop (Z.to_nat n) data) (len - n)
      else mret tt
  end.

Definition alt_epcs_flash_write_block (f : epcs_dev) (data_offset : Z) (data : list Z) (len : Z)
    : M D Z :=
  ret_code ← alt_epcs_test_address f data_offset;
  if ret_code >=? 0 then
    page_loop (S (Z.to_nat len)) f data_offset data len;;
    mret ret_code
  else mret ret_code.

(** ** The write routines *)

(** The loop over the blocks of a region, [step] being what is done with the
    part of the data that falls into a block: [inl] is the jump to [finished],
    [inr] what is left after the loop. *)
Fixpoint write_blocks (step : Z -> Z -> list Z -> Z -> M D Z) (r : flash_region) (j : nat)
    (current_offset offset : Z) (src : list Z) (len : Z) : M D (Z + Z * list Z * Z) :=
  match j with
  | O => mret (inr (offset, src, len))
  | S j' =>
      if (offset >=? current_offset) && (offset <? current_offset + block_size r) then
        let data_to_write := cmin (current_offset + block_size r - offset) len in
        ret_code ← step current_offset offset src data_to_write;
        if (len =? data_to_write) || ctrue ret_code then mret (inl ret_code)
        else
          write_blocks step r j' (current_offset + block_size r) (current_offset + block_size r)
            (drop (Z.to_nat data_to_write) src) (len - data_to_write)
      else write_blocks step r j' (current_offset + block_size r) offset src len
  end.

Fixpoint write_regions (step : Z -> Z -> list Z -> Z -> M D Z) (d : flash_dev) (n i : nat)
    (offset : Z) (src : list Z) (len : Z) : M D Z :=
  match n with
  | O => mret 0
  | S n' =>
      match region_info d !! i with
      | None => undef
      | Some r =>
          if (offset >=? r_offset r) && (offset <? r_offset r + region_size r) then
            x ← write_blocks step r (Z.to_nat (number_of_blocks r)) (r_offset r) offset src len;
            match x with
            | inl ret_code => mret ret_code
            | inr (offset, src, len) => write_regions step d n' (S i) offset src len
            end
          else write_regions step d n' (S i) offset src len
      end
  end.

(** [alt_epcs_flash_write] erases a block that differs, then writes it. *)
Definition erase_and_write (f : epcs_dev) (current_offset offset : Z) (src : list Z) (n : Z)
    : M D Z :=
  c ← alt_epcs_flash_memcmp f src offset n;
  if ctrue c then
    ret_code ← alt_epcs_flash_erase_block f current_offset;
    if ret_code =? 0 then alt_epcs_flash_write_block f offset src n else mret ret_code
  else mret 0.

Definition alt_epcs_flash_write (f : epcs_dev) (offset : Z) (src : list Z) (len : Z) : M D Z :=
  write_regions (erase_and_write f) (dev f) (Z.to_nat (number_of_regions (dev f))) 0 offset src len.

(** [epcs_flash_write] of epcs.c writes without erasing. *)
Definition write_only (f : epcs_dev) (current_offset offset : Z) (src : list Z) (n : Z) : M D Z :=
  c ← alt_epcs_flash_memcmp f src offset n;
  if ctrue c then alt_epcs_flash_write_block f offset src n else mret 0.

Definition epcs_flash_write (f : epcs_dev) (offset : Z) (src : list Z) (len : Z) : M D Z :=
  write_regions (write_only f) (dev f) (Z.to_nat (number_of_regions (dev f))) 0 offset src len.

(** ** Erasing a range *)

Definition erased_sample : list Z := replicate 8 255.

(** Is the block erased?  Sampled eight bytes at a time from offset [j]. *)
Fixpoint erased_loop (fuel : nat) (f : epcs_dev) (current_offset bsize j : Z) : M D bool :=
  match fuel with
  | O => no_fuel
  | S k =>
      if j <? bsize then
        c ← alt_epcs_flash_memcmp f erased_sample (current_offset + j) 8;
        if ctrue c then mret false else erased_loop k f current_offset bsize (j + 8)
      else mret true
  end.

(** The [while] loop; [offset] and [len] are unsigned, [current_offset] is an
    [int] whose overflow is undefined.  The result is the final offset. *)
Fixpoint erase_loop (fuel : nat) (f : epcs_dev) (r : flash_region) (current_offset offset len : Z)
    : M D (Z * Z) :=
  match fuel with
  | O => no_fuel
  | S k =>
      if len >? 0 then
        let bs := block_size r in
        let next := current_offset + bs in
        if next >=? 2147483648 then undef
        else if (offset >=? current_offset) && (offset <? next) then
          erased ← erased_loop (S (Z.to_nat bs)) f current_offset bs 0;
          match erased with
          | true => mret 0
          | false => alt_epcs_flash_erase_block f current_offset
          end;;
          erase_loop k f r next next (u32 (len - bs))
        else erase_loop k f r next offset len
      else mret (offset, len)
  end.

Fixpoint erase_regions (fuel : nat) (f : epcs_dev) (n i : nat) (offset len : Z) : M D Z :=
  match n with
  | O => mret 0
  | S n' =>
      match region_info (dev f) !! i with
      | None => undef
      | Some r =>
          if (offset >=? r_offset r) && (offset <? r_offset r + region_size r) then
            x ← erase_loop fuel f r (r_offset r) offset len;
            match x with (offset, len) => erase_regions fuel f n' (S i) offset len end
          else erase_regions fuel f n' (S i) offset len
      end
  end.

Definition cyg_epcs_erase_blocks (fuel : nat) (f : epcs_dev) (offset len : Z) : M D Z :=
  erase_regions fuel f (Z.to_nat (number_of_regions (dev f))) 0 offset len.

(** ** The block device *)

Definition epcs_init (alt_flash_device_register : flash_dev -> Z) (f : epcs_dev) : M D (bool * epcs_dev) :=
  x ← alt_epcs_flash_init alt_flash_device_register f;
  mret (x.1 =? 0, x.2).

Definition epcs_bread (f : epcs_dev) (len pos : Z) : M D (Z * list Z) :=
  alt_epcs_flash_read f pos len.

Definition epcs_bwrite (f : epcs_dev) (buf : list Z) (len pos : Z) : M D Z :=
  ret ← epcs_flash_write f pos buf len;
  if ret =? 0 then alt_epcs_flash_memcmp f buf pos len else mret ret.

Inductive config_key :=
| FLASH_ERASE (offset len : Z)
| FLASH_DEVSIZE
| FLASH_DEVADDR
| FLASH_BLOCKSIZE
| CONFIG_OTHER.

(** The return code and the value stored in the caller's structure. *)
Definition epcs_get_config (fuel : nat) (f : epcs_dev) (key : config_key) : M D (Z * option Z) :=
  match key with
  | FLASH_ERASE offset len =>
      e ← cyg_epcs_erase_blocks fuel f offset len;
      mret (e, Some e)
  | FLASH_DEVSIZE =>
      let n := Z.to_nat (number_of_regions (dev f)) in
      if decide (n <= length (region_info (dev f)))%nat
      then mret (0, Some (foldr Z.add 0 (map region_size (take n (region_info (dev f))))))
      else undef
  | FLASH_DEVADDR => mret (0, Some (base_addr (dev f)))
  | FLASH_BLOCKSIZE =>
      match region_info (dev f) with
      | r :: _ => mret (0, Some (block_size r))
      | [] => undef
      end
  | CONFIG_OTHER => mret (- EINVAL, None)
  end.

End Driver.
