(* ===== verification/EpcsFacts.v ===== *)
(** * The serial-flash driver: lemmas

    Memory updates, the functional behaviour of each operation of the driver
    on a flash whose geometry the descriptor describes. *)

From S2P Require Import Prelude.
From S2P Require Import Spi.
From S2P Require Import EpcsCommands.
From S2P Require Import EpcsFlash.

(** ** Updates of a memory *)

Lemma splice_length m a l :
  0 <= a -> a + Z.of_nat (length l) <= Z.of_nat (length m) -> length (splice m a l) = length m.
Proof. intros Ha H. unfold splice. rewrite !length_app, length_take, length_drop. lia. Qed.

Lemma slice_length m a n :
  0 <= a -> 0 <= n -> a + n <= Z.of_nat (length m) -> length (slice m a n) = Z.to_nat n.
Proof. intros Ha Hn H. unfold slice. rewrite length_take, length_drop. lia. Qed.

Lemma splice_lookup m a l (i : nat) :
  0 <= a -> a + Z.of_nat (length l) <= Z.of_nat (length m) ->
  splice m a l !! i
  = if decide (a <= Z.of_nat i < a + Z.of_nat (length l)) then l !! (i - Z.to_nat a)%nat else m !! i.
Proof.
  intros Ha H. unfold splice. destruct (decide (i < Z.to_nat a)%nat) as [H1|H1].
  - rewrite decide_False by lia. rewrite lookup_app_l by (rewrite length_take; lia).
    by rewrite lookup_take_lt by lia.
  - rewrite lookup_app_r by (rewrite length_take; lia). rewrite length_take, Nat.min_l by lia.
    destruct (decide _) as [H2|H2].
    + by rewrite lookup_app_l by lia.
    + rewrite lookup_app_r, lookup_drop by lia. f_equal. lia.
Qed.

Lemma slice_lookup m a n (i : nat) :
  0 <= a -> slice m a n !! i = if decide (Z.of_nat i < n) then m !! (Z.to_nat a + i)%nat else None.
Proof.
  intros Ha. unfold slice. destruct (decide _) as [H|H].
  - by rewrite lookup_take_lt, lookup_drop by lia.
  - apply lookup_take_ge. lia.
Qed.

Lemma program_data_length m a data :
  0 <= a -> a + Z.of_nat (length data) <= Z.of_nat (length m) ->
  length (zip_with Z.land (slice m a (Z.of_nat (length data))) data) = length data.
Proof.
  intros Ha H. rewrite length_zip_with, slice_length, Nat2Z.id by lia. lia.
Qed.

Lemma program_length m a data :
  0 <= a -> a + Z.of_nat (length data) <= Z.of_nat (length m) ->
  length (program m a data) = length m.
Proof. intros Ha H. unfold program. rewrite splice_length; rewrite ?program_data_length; done. Qed.

Lemma program_lookup m a data (i : nat) :
  0 <= a -> a + Z.of_nat (length data) <= Z.of_nat (length m) ->
  program m a data !! i
  = if decide (a <= Z.of_nat i < a + Z.of_nat (length data))
    then x ← m !! i; y ← data !! (i - Z.to_nat a)%nat; Some (Z.land x y) else m !! i.
Proof.
  intros Ha H. unfold program. rewrite splice_lookup; rewrite ?program_data_length by done; [|done..].
  destruct (decide _) as [H2|H2]; [|done].
  rewrite lookup_zip_with, slice_lookup, decide_True by lia.
  by replace (Z.to_nat a + (i - Z.to_nat a))%nat with i by lia.
Qed.

Lemma program_nil m a : 0 <= a <= Z.of_nat (length m) -> program m a [] = m.
Proof.
  intros Ha. apply list_eq. intros i. rewrite program_lookup by (simpl; lia).
  rewrite decide_False by (simpl; lia). done.
Qed.

Lemma program_app m a d1 d2 :
  0 <= a -> a + Z.of_nat (length (d1 ++ d2)) <= Z.of_nat (length m) ->
  program (program m a d1) (a + Z.of_nat (length d1)) d2 = program m a (d1 ++ d2).
Proof.
  intros Ha H. rewrite length_app in H. apply list_eq. intros i.
  rewrite (program_lookup (program m a d1)) by (rewrite ?program_length; lia).
  rewrite !program_lookup by (rewrite ?length_app; lia). rewrite length_app.
  destruct (m !! i); simpl; repeat destruct (decide _); try lia; try done.
  - rewrite lookup_app_r by lia.
    by replace (i - Z.to_nat a - length d1)%nat
      with (i - Z.to_nat (a + Z.of_nat (length d1)))%nat by lia.
  - by rewrite lookup_app_l by lia.
Qed.

(** Programming what is already there changes nothing. *)
Lemma program_same m a data :
  0 <= a -> a + Z.of_nat (length data) <= Z.of_nat (length m) ->
  slice m a (Z.of_nat (length data)) = data -> program m a data = m.
Proof.
  intros Ha H Hs. apply list_eq. intros i. rewrite program_lookup by done.
  destruct (decide _) as [Hi|Hi]; [|done].
  assert (data !! (i - Z.to_nat a)%nat = m !! i) as ->.
  { transitivity (slice m a (Z.of_nat (length data)) !! (i - Z.to_nat a)%nat); [by rewrite Hs|].
    rewrite slice_lookup, decide_True by lia. f_equal. lia. }
  destruct (m !! i) as [x|]; simpl; [|done]. by rewrite Z.land_diag.
Qed.

Lemma erase_length m a n :
  0 <= a -> 0 <= n -> a + n <= Z.of_nat (length m) -> length (erase m a n) = length m.
Proof. intros. unfold erase. apply splice_length; rewrite ?length_replicate; lia. Qed.

Lemma erase_lookup m a n (i : nat) :
  0 <= a -> 0 <= n -> a + n <= Z.of_nat (length m) ->
  erase m a n !! i = if decide (a <= Z.of_nat i < a + n) then Some 255 else m !! i.
Proof.
  intros Ha Hn H. unfold erase. rewrite splice_lookup by (rewrite ?length_replicate; lia).
  rewrite length_replicate, Z2Nat.id by done. destruct (decide _); [|done].
  apply lookup_replicate_2. lia.
Qed.

Lemma erase_app m a n1 n2 :
  0 <= a -> 0 <= n1 -> 0 <= n2 -> a + n1 + n2 <= Z.of_nat (length m) ->
  erase (erase m a n1) (a + n1) n2 = erase m a (n1 + n2).
Proof.
  intros Ha H1 H2 H. apply list_eq. intros i.
  rewrite (erase_lookup (erase m a n1)) by (rewrite ?erase_length; lia).
  rewrite !erase_lookup by lia.
  repeat destruct (decide _); try lia; done.
Qed.

Lemma erase_same m a n :
  0 <= a -> 0 <= n -> a + n <= Z.of_nat (length m) ->
  slice m a n = replicate (Z.to_nat n) 255 -> erase m a n = m.
Proof.
  intros Ha Hn H Hs. apply list_eq. intros i. rewrite erase_lookup by done.
  destruct (decide _) as [Hi|Hi]; [|done].
  assert (slice m a n !! (i - Z.to_nat a)%nat = Some 255) as E.
  { rewrite Hs. apply lookup_replicate_2. lia. }
  rewrite slice_lookup, decide_True in E by lia. by replace (Z.to_nat a + (i - Z.to_nat a))%nat with i in E by lia.
Qed.

Lemma slice_app m a n1 n2 :
  0 <= a -> 0 <= n1 -> 0 <= n2 -> slice m a (n1 + n2) = slice m a n1 ++ slice m (a + n1) n2.
Proof.
  intros Ha H1 H2. unfold slice. rewrite !Z2Nat.inj_add by done.
  by rewrite <- drop_drop, take_take_drop.
Qed.

(** ** [memcmp] *)

Lemma memcmp_zero a b : length a = length b -> (memcmp a b = 0 <-> a = b).
Proof.
  revert b. induction a as [|x a IH]; intros [|y b] H; simplify_eq/=; [done|].
  destruct (Z.eqb_spec x y) as [->|Hne].
  - rewrite IH by done. split; [by intros ->|by intros [= ->]].
  - split; [lia|]. intros [= ? ?]. lia.
Qed.

(** ** The driver on a flash of known geometry *)

(** The descriptor describes a chip with one region of [size] bytes, whose
    erase blocks are the chip's sectors and whose pages are its pages. *)
Record geometry `{EpcsChip C} (f : epcs_dev) (size : Z) : Prop := {
  g_regions : number_of_regions (dev f) = 1;
  g_info : exists blocks rest, region_info (dev f) = mkRegion 0 size blocks sector :: rest
             /\ size = blocks * sector /\ 0 <= blocks;
  g_page : page_size f = page;
  g_pow : exists k, 0 <= k <= 16 /\ page = 2 ^ k;
  g_sector : 0 < sector /\ (8 | sector);
  g_size : 0 < size <= 16777216
}.

Section Facts.
Context {D C : Type} `{laws : SpiLaws D C} {chip : EpcsChip C} (polls wips : nat).
Context (polls_ok : (latency < polls)%nat) (wips_ok : (write_latency < wips)%nat).
Context (f : epcs_dev) (size : Z) (geo : geometry f size).

(** The flash is between two calls and holds [m]. *)
Definition holds (d : D) (m : list Z) : Prop :=
  Z.of_nat (length m) = size /\ exists w, flash_ready d m w.

Lemma u32_small z : 0 <= z < 4294967296 -> u32 z = z.
Proof. apply u32_id. Qed.

Lemma test_address_ok (d : D) off :
  0 <= off < size -> wp (alt_epcs_test_address f off) (fun r d' => r = 0 /\ d' = d) d.
Proof.
  intros Hoff. destruct geo as [Hn (blocks & rest & Hi & _ & _) _ _ _ Hs].
  unfold alt_epcs_test_address. rewrite Hn. change (u32 (1 - 1)) with 0. rewrite Hi.
  cbn [Z.to_nat lookup list_lookup]. wp_steps. split; [|done].
  cbn [r_offset region_size]. rewrite !u32_small by lia.
  destruct (Z.gtb_spec off (-1 + 0 + size)); (done || lia).
Qed.

(** An address past the end is refused, and the chip is left alone. *)
Lemma test_address_out (d : D) off :
  size <= off < 4294967296 -> wp (alt_epcs_test_address f off) (fun r d' => r = - EIO /\ d' = d) d.
Proof.
  intros Hoff. destruct geo as [Hn (blocks & rest & Hi & _ & _) _ _ _ Hs].
  unfold alt_epcs_test_address. rewrite Hn. change (u32 (1 - 1)) with 0. rewrite Hi.
  cbn [Z.to_nat lookup list_lookup]. wp_steps. split; [|done].
  cbn [r_offset region_size]. rewrite !u32_small by lia.
  destruct (Z.gtb_spec off (-1 + 0 + size)); (done || lia).
Qed.

Lemma flash_read_ok d m off n :
  holds d m -> 0 <= off < size -> 0 <= n -> off + n <= size ->
  wp (alt_epcs_flash_read polls wips f off n)
    (fun r d' => r = (0, slice m off n) /\ holds d' m) d.
Proof.
  intros [Hm [w Hr]] Hoff Hn Hend. pose proof (g_size _ _ geo). unfold alt_epcs_flash_read.
  apply wp_bind. eapply wp_mono; [by apply test_address_ok|]. intros r d1 [-> ->]. simpl.
  apply wp_bind. eapply wp_mono; [eapply epcs_read_buffer_ok; (done || lia)|].
  intros r2 d2 [-> Hr2]. rewrite Z.eqb_refl. wp_steps. split; [done|]. split; [done|]. eauto.
Qed.

Lemma memcmp_loop_ok fuel d m src off n :
  holds d m -> 0 <= off -> 0 <= n -> off + n <= size -> n <= Z.of_nat (length src) ->
  (Z.to_nat n < fuel)%nat ->
  wp (memcmp_loop polls wips fuel f src off n)
    (fun c d' => (c = 0 <-> take (Z.to_nat n) src = slice m off n) /\ holds d' m) d.
Proof.
  revert d src off n. induction fuel as [|k IH]; intros d src off n Hd Hoff Hn Hend Hsrc Hk; [lia|].
  cbn [memcmp_loop]. destruct (Z.gtb_spec n 0) as [Hpos|Hle].
  2: { wp_steps. replace n with 0 by lia. split; [|done]. split; [|done]. intros _. done. }
  unfold chunk_size. set (c := if n >? 32 then 32 else n).
  assert (0 < c <= n) as Hc by (unfold c; destruct (Z.gtb_spec n 32); lia).
  apply wp_bind. eapply wp_mono; [apply flash_read_ok; (done || lia)|]. intros r d1 [-> Hd1]. simpl.
  rewrite (proj2 (Z.ltb_ge _ c)) by lia.
  assert (length (take (Z.to_nat c) src) = length (slice m off c)) as Hl.
  { destruct Hd as [Hm _]. rewrite length_take, slice_length; lia. }
  pose proof (memcmp_zero _ _ Hl) as Hz.
  assert (take (Z.to_nat n) src = take (Z.to_nat c) src ++ take (Z.to_nat (n - c)) (drop (Z.to_nat c) src)
          /\ slice m off n = slice m off c ++ slice m (off + c) (n - c)) as [E1 E2].
  { split; [rewrite take_take_drop; f_equal; lia|]. rewrite <- slice_app by lia. f_equal. lia. }
  rewrite E1, E2. unfold ctrue.
  destruct (Z.eqb_spec (memcmp (take (Z.to_nat c) src) (slice m off c)) 0) as [E|E]; cbn [negb].
  - eapply wp_mono; [apply IH; try done; rewrite ?length_drop; lia|]. intros c2 d2 [H2 Hd2].
    split; [|done]. rewrite H2. apply Hz in E. rewrite E. split; [by intros ->|apply app_inv_head].
  - wp_steps. split; [|done]. split; [done|]. intros Heq. apply Hz.
    by apply app_inj_1 in Heq as [? _].
Qed.

Lemma flash_memcmp_ok d m src off n :
  holds d m -> 0 <= off -> 0 <= n -> off + n <= size -> n <= Z.of_nat (length src) ->
  wp (alt_epcs_flash_memcmp polls wips f src off n)
    (fun c d' => (c = 0 <-> take (Z.to_nat n) src = slice m off n) /\ holds d' m) d.
Proof.
  intros. pose proof (g_size _ _ geo). unfold alt_epcs_flash_memcmp. rewrite u32_small by lia.
  apply memcmp_loop_ok; (done || lia).
Qed.


(** ** Pages *)

Lemma next_page_eq off : 0 <= off < 16777216 -> next_page f off = (off / page + 1) * page.
Proof.
  intros Hoff. unfold next_page. destruct geo as [_ _ -> (k & Hk & ->) _ _].
  assert (0 < 2 ^ k <= 2 ^ 16) as Hp.
  { split; [apply Z.pow_pos_nonneg; lia|apply Z.pow_le_mono_r; lia]. }
  change (2 ^ 16) with 65536 in Hp. rewrite (u32_small (off + 2 ^ k)) by lia.
  replace (2 ^ k - 1) with (Z.ones k) by (rewrite Z.ones_equiv; lia).
  unfold uwrap. rewrite <- Z.land_ones by lia.
  rewrite (Z.land_comm (Z.lnot _)), Z.land_assoc, (Z.land_ones _ 32), Z.mod_small by lia.
  rewrite <- Z.ldiff_land, Z.ldiff_ones_r, Z.shiftr_div_pow2, Z.shiftl_mul_pow2 by lia.
  replace (off + 2 ^ k) with (off + 1 * 2 ^ k) by lia. rewrite Z.div_add by lia.
  apply s32_id. pose proof (Z.div_mod off (2 ^ k)). pose proof (Z.mod_pos_bound off (2 ^ k)).
  assert (0 <= off / 2 ^ k * 2 ^ k <= off) by (split; [|lia]; apply Z.mul_nonneg_nonneg; [apply Z.div_pos|]; lia).
  lia.
Qed.

Lemma page_pos : 0 < page.
Proof. destruct geo as [_ _ _ (k & Hk & ->) _ _]. apply Z.pow_pos_nonneg; lia. Qed.

(** The page-wise loop programs all the data, and each command stays in one
    page. *)
Lemma page_loop_ok fuel d m off data n :
  holds d m -> 0 <= off -> 0 <= n <= Z.of_nat (length data) -> off + n <= size ->
  bytes_ok data -> (Z.to_nat n < fuel)%nat ->
  wp (page_loop polls wips fuel f off data n)
    (fun _ d' => holds d' (program m off (take (Z.to_nat n) data))) d.
Proof.
  pose proof (g_size _ _ geo) as Hsize. pose proof page_pos as Hpage.
  revert d m off data n. induction fuel as [|k IH]; intros d m off data n Hd Hoff Hn Hend Hb Hk; [lia|].
  cbn [page_loop]. unfold ctrue. destruct (Z.eqb_spec n 0) as [->|Hne]; cbn [negb].
  { wp_steps. rewrite program_nil; [done|]. destruct Hd as [Hm _]. lia. }
  rewrite next_page_eq, cmin_min by lia. set (next := (off / page + 1) * page).
  assert (page <> 0) as Hp0 by lia. pose proof (Z.div_mod off page Hp0) as Hdm.
  pose proof (Z.mod_pos_bound off page Hpage) as Hmod.
  assert (off < next) by (unfold next; nia). set (c := Z.min n (next - off)). assert (0 < c <= n) as Hc by lia.
  rewrite (proj2 (Z.ltb_ge _ c)) by lia. destruct Hd as [Hm [w Hr]].
  assert (length (take (Z.to_nat c) data) = Z.to_nat c) as Hlc by (rewrite length_take; lia).
  apply wp_bind. eapply wp_mono; [eapply epcs_write_buffer_ok; try done|].
  - lia.
  - by apply Forall_take.
  - intros E. rewrite E in Hlc. simpl in Hlc. lia.
  - lia.
  - rewrite Hlc, Z2Nat.id by lia.
    apply (Z.div_unique_pos _ _ (off / page) (off + c - 1 - page * (off / page))); lia.
  - intros r d1 [_ Hr1].
    assert (holds d1 (program m off (take (Z.to_nat c) data))) as Hd1.
    { split; [|eauto]. rewrite program_length; lia. }
    destruct (decide (n = c)) as [Enc|Hnc].
    { replace (n - c) with 0 by lia. rewrite Enc. destruct k; [lia|]. by cbn [page_loop]. }
    replace next with (off + c) by lia.
    eapply wp_mono; [apply IH; try done; rewrite ?length_drop; try lia; by apply Forall_drop|].
    intros ? d2 Hd2. cbn beta in Hd2.
    replace (off + c) with (off + Z.of_nat (length (take (Z.to_nat c) data))) in Hd2 by lia.
    rewrite program_app in Hd2.
    + rewrite take_take_drop in Hd2. by replace (Z.to_nat c + Z.to_nat (n - c))%nat with (Z.to_nat n) in Hd2 by lia.
    + done.
    + rewrite take_take_drop, length_take. lia.
Qed.


Lemma write_block_ok d m off data n :
  holds d m -> 0 <= off < size -> 0 <= n <= Z.of_nat (length data) -> off + n <= size ->
  bytes_ok data ->
  wp (alt_epcs_flash_write_block polls wips f off data n)
    (fun r d' => r = 0 /\ holds d' (program m off (take (Z.to_nat n) data))) d.
Proof.
  intros Hd Hoff Hn Hend Hb. unfold alt_epcs_flash_write_block. apply wp_bind.
  eapply wp_mono; [by apply test_address_ok|]. intros r d1 [-> ->].
  cbn [Z.geb Z.compare]. apply wp_bind.
  eapply wp_mono; [apply page_loop_ok; (done || lia)|]. intros ? d2 Hd2. by wp_steps.
Qed.

(** An erase command for the start of a block erases that block. *)
Lemma erase_block_ok d m b :
  holds d m -> 0 <= b -> b * sector + sector <= size ->
  wp (alt_epcs_flash_erase_block polls wips f (b * sector))
    (fun r d' => r = 0 /\ holds d' (erase m (b * sector) sector)) d.
Proof.
  intros [Hm [w Hr]] Hb Hend. pose proof (g_size _ _ geo). pose proof (g_sector _ _ geo) as [Hsec _].
  assert (0 <= b * sector) by (apply Z.mul_nonneg_nonneg; lia).
  unfold alt_epcs_flash_erase_block. apply wp_bind.
  eapply wp_mono; [apply test_address_ok; lia|]. intros r d1 [-> ->]. simpl. apply wp_bind.
  eapply wp_mono; [by eapply epcs_write_enable_ok|]. intros ? d2 Hr2. cbn beta in Hr2. apply wp_bind.
  eapply wp_mono; [eapply epcs_sector_erase_ok; (done || lia)|]. intros ? d3 Hr3. cbn beta in Hr3.
  wp_steps. split; [done|]. rewrite Z.div_mul in Hr3 by lia. split; [|eauto].
  rewrite erase_length; lia.
Qed.

Lemma write_only_ok d m cur off data n :
  holds d m -> 0 <= off < size -> 0 <= n <= Z.of_nat (length data) -> off + n <= size ->
  bytes_ok data ->
  wp (write_only polls wips f cur off data n)
    (fun r d' => r = 0 /\ holds d' (program m off (take (Z.to_nat n) data))) d.
Proof.
  intros Hd Hoff Hn Hend Hb. unfold write_only. apply wp_bind.
  eapply wp_mono; [by apply flash_memcmp_ok; (done || lia)|]. intros c d1 [Hc Hd1]. unfold ctrue.
  destruct (Z.eqb_spec c 0) as [E|E]; cbn [negb].
  - wp_steps. split; [done|]. apply Hc in E. pose proof Hd as [Hm _].
    assert (length (take (Z.to_nat n) data) = Z.to_nat n) as Hl by (rewrite length_take; lia).
    rewrite program_same; [done|lia|lia|]. rewrite Hl, Z2Nat.id by lia. done.
  - by apply write_block_ok.
Qed.

(** The loop over the blocks, for a treatment of a block that takes memory [m]
    to some [m'] with [R m m' lo hi off data], where the block is [lo, hi). *)
Section Blocks.
Context (step : Z -> Z -> list Z -> Z -> M D Z).
Context (R : list Z -> list Z -> Z -> Z -> Z -> list Z -> Prop).
Hypothesis step_ok : forall d m b off data n,
  holds d m -> 0 <= b -> b * sector <= off < (b + 1) * sector -> (b + 1) * sector <= size ->
  0 <= n <= Z.of_nat (length data) -> off + n <= (b + 1) * sector -> bytes_ok data ->
  wp (step (b * sector) off data n)
    (fun r d' => r = 0 /\ exists m', holds d' m'
       /\ R m m' (b * sector) ((b + 1) * sector) off (take (Z.to_nat n) data)) d.
Hypothesis R_app : forall m m1 m2 lo hi off d1 d2,
  let mid := off + Z.of_nat (length d1) in
  0 <= lo <= off -> mid + Z.of_nat (length d2) <= hi <= Z.of_nat (length m) ->
  length m1 = length m ->
  R m m1 lo mid off d1 -> R m1 m2 mid hi mid d2 -> R m m2 lo hi off (d1 ++ d2).

Lemma write_blocks_ok j blocks d m b off data n :
  let r := mkRegion 0 size blocks sector in
  holds d m -> 0 <= b -> b * sector <= off < (b + Z.of_nat j) * sector ->
  (b + Z.of_nat j) * sector <= size -> 0 <= n <= Z.of_nat (length data) ->
  off + n <= (b + Z.of_nat j) * sector -> bytes_ok data ->
  wp (write_blocks step r j (b * sector) off data n)
    (fun x d' => x = inl 0 /\ exists m', holds d' m'
       /\ R m m' (off / sector * sector) (((off + Z.max n 1 - 1) / sector + 1) * sector)
            off (take (Z.to_nat n) data)) d.
Proof.
  intros r. pose proof (g_sector _ _ geo) as [Hsec _].
  revert d m b off data n. induction j as [|j IH]; intros d m b off data n Hd Hb Hoff Hsz Hn Hend Hby.
  { lia. }
  assert (0 <= b * sector) by (apply Z.mul_nonneg_nonneg; lia).
  cbn [write_blocks]. change (block_size r) with sector.
  replace (b * sector + sector) with ((b + 1) * sector) by lia.
  rewrite (proj2 (Z.geb_le _ _)) by lia. cbn [andb].
  destruct (Z.ltb_spec off ((b + 1) * sector)) as [Hin|Hout].
  2: { apply IH; (done || nia). }
  rewrite cmin_min. set (c := Z.min ((b + 1) * sector - off) n).
  assert ((b + 1) * sector <= size) by nia.
  assert (off / sector = b) as Hdiv
    by (symmetry; apply (Z.div_unique_pos _ _ b (off - sector * b)); lia).
  apply wp_bind. eapply wp_mono; [apply step_ok; (done || lia)|]. intros ret d1 (-> & m1 & Hd1 & HR1).
  cbn [ctrue Z.eqb negb]. rewrite orb_false_r. destruct (Z.eqb_spec n c) as [E|E].
  { wp_steps. split; [done|]. exists m1. split; [done|]. rewrite Hdiv.
    replace ((off + Z.max n 1 - 1) / sector) with b; [by rewrite E|].
    apply (Z.div_unique_pos _ _ b (off + Z.max n 1 - 1 - sector * b)); lia. }
  assert (length (take (Z.to_nat c) data) = Z.to_nat c) as Hlc by (rewrite length_take; lia).
  eapply wp_mono; [apply IH; try done; rewrite ?length_drop; try nia; by apply Forall_drop|].
  intros x d2 (-> & m2 & Hd2 & HR2). split; [done|]. exists m2. split; [done|].
  rewrite Z.div_mul in HR2 by lia.
  assert ((b + 1) * sector = off + Z.of_nat (length (take (Z.to_nat c) data))) as Emid by lia.
  replace (take (Z.to_nat n) data)
    with (take (Z.to_nat c) data ++ take (Z.to_nat (n - c)) (drop (Z.to_nat c) data))
    by (rewrite take_take_drop; f_equal; lia).
  assert ((b + 1) * sector + Z.max (n - c) 1 - 1 = off + Z.max n 1 - 1) as Elast by lia.
  rewrite Elast in HR2. rewrite Emid in HR1, HR2. rewrite Hdiv.
  pose proof Hd as [Hm _]. pose proof Hd1 as [Hm1 _].
  eapply R_app; [..|exact HR1|exact HR2]; try lia.
  rewrite !length_take, length_drop. set (e := off + Z.max n 1 - 1).
  assert (e < (b + Z.of_nat (S j)) * sector) as He by lia.
  pose proof (Z.div_lt_upper_bound e sector (b + Z.of_nat (S j)) Hsec ltac:(lia)).
  pose proof (Z.mul_succ_div_gt e sector Hsec). nia.
Qed.

Lemma write_regions_ok d m off data n :
  holds d m -> 0 <= off < size -> 0 <= n <= Z.of_nat (length data) -> off + n <= size ->
  bytes_ok data ->
  wp (write_regions step (dev f) (Z.to_nat (number_of_regions (dev f))) 0 off data n)
    (fun r d' => r = 0 /\ exists m', holds d' m'
       /\ R m m' (off / sector * sector) (((off + Z.max n 1 - 1) / sector + 1) * sector)
            off (take (Z.to_nat n) data)) d.
Proof.
  intros Hd Hoff Hn Hend Hb.
  destruct geo as [-> (blocks & rest & Hi & Hsz & Hbl) _ _ _ _]. change (Z.to_nat 1) with 1%nat.
  cbn [write_regions]. rewrite Hi. cbn [lookup list_lookup].
  cbn [r_offset region_size number_of_blocks].
  rewrite (proj2 (Z.geb_le _ _)), (proj2 (Z.ltb_lt _ _)) by lia. cbn [andb]. apply wp_bind.
  assert ((0 + Z.of_nat (Z.to_nat blocks)) * sector = size) as Hblk by (rewrite Z2Nat.id; lia).
  eapply wp_mono; [apply (write_blocks_ok _ blocks d m 0 off data n); rewrite ?Hblk; (done || lia)|].
  intros x d' [-> Hd']. by wp_steps.
Qed.
End Blocks.

(** [epcs_flash_write]: the result is the memory with the data programmed. *)
Lemma epcs_flash_write_ok d m off data n :
  holds d m -> 0 <= off < size -> 0 <= n <= Z.of_nat (length data) -> off + n <= size ->
  bytes_ok data ->
  wp (epcs_flash_write polls wips f off data n)
    (fun r d' => r = 0 /\ holds d' (program m off (take (Z.to_nat n) data))) d.
Proof.
  intros Hd Hoff Hn Hend Hb. unfold epcs_flash_write.
  eapply wp_mono; [apply (write_regions_ok _ (fun m m' _ _ off d => m' = program m off d)); try done|].
  - intros. eapply wp_mono; [apply write_only_ok; (done || nia)|]. intros r d' [-> Hd']. eauto.
  - intros ? ? ? ? ? ? d1 d2 mid ? ? ? -> ->. apply program_app; [lia|]. rewrite length_app. lia.
  - intros r d' (-> & m' & Hd' & ->). done.
Qed.

(** What the write with erase leaves: the data from [off] on; elsewhere in the
    blocks [lo, hi) the old byte or an erased one; the old memory outside. *)
Definition rewritten (m m' : list Z) (lo hi off : Z) (data : list Z) : Prop :=
  length m' = length m /\
  forall i : nat,
    if decide (off <= Z.of_nat i < off + Z.of_nat (length data))
    then m' !! i = data !! (i - Z.to_nat off)%nat
    else if decide (lo <= Z.of_nat i < hi) then m' !! i = m !! i \/ m' !! i = Some 255
    else m' !! i = m !! i.

Lemma land_255_l x : is_byte x -> Z.land 255 x = x.
Proof. intros Hx. rewrite Z.land_comm, land_255. by apply Z.mod_small. Qed.

(** Programming an erased block stores the data. *)
Lemma rewritten_erased m lo hi off data :
  0 <= lo <= off -> off + Z.of_nat (length data) <= hi <= Z.of_nat (length m) -> bytes_ok data ->
  rewritten m (program (erase m lo (hi - lo)) off data) lo hi off data.
Proof.
  intros H1 H2 Hb. split; [rewrite program_length, erase_length; rewrite ?erase_length; lia|].
  intros i. rewrite program_lookup by (rewrite ?erase_length; lia).
  rewrite erase_lookup by lia. replace (lo + (hi - lo)) with hi by lia.
  repeat destruct (decide _); try lia; auto.
  destruct (data !! (i - Z.to_nat off)%nat) as [x|] eqn:E; [|done]. cbn. f_equal.
  apply land_255_l. by eapply Forall_lookup_1.
Qed.

Lemma rewritten_same m lo hi off data :
  0 <= off -> off + Z.of_nat (length data) <= Z.of_nat (length m) ->
  data = slice m off (Z.of_nat (length data)) -> rewritten m m lo hi off data.
Proof.
  intros Ho Hl E. split; [done|]. intros i. repeat destruct (decide _); auto.
  rewrite E, slice_lookup, decide_True by lia. f_equal. lia.
Qed.

Lemma rewritten_app m m1 m2 lo hi off d1 d2 :
  let mid := off + Z.of_nat (length d1) in
  0 <= lo <= off -> mid + Z.of_nat (length d2) <= hi <= Z.of_nat (length m) ->
  length m1 = length m ->
  rewritten m m1 lo mid off d1 -> rewritten m1 m2 mid hi mid d2 -> rewritten m m2 lo hi off (d1 ++ d2).
Proof.
  intros mid H1 H2 Hl [L1 R1] [L2 R2]. split; [congruence|]. intros i.
  specialize (R1 i). specialize (R2 i). rewrite length_app. unfold mid in *.
  repeat case_decide; try lia; rewrite ?lookup_app_l by lia; try congruence.
  rewrite R2, lookup_app_r by lia. f_equal. lia.
Qed.

Lemma erase_and_write_ok d m b off data n :
  holds d m -> 0 <= b -> b * sector <= off < (b + 1) * sector -> (b + 1) * sector <= size ->
  0 <= n <= Z.of_nat (length data) -> off + n <= (b + 1) * sector -> bytes_ok data ->
  wp (erase_and_write polls wips f (b * sector) off data n)
    (fun r d' => r = 0 /\ exists m', holds d' m'
       /\ rewritten m m' (b * sector) ((b + 1) * sector) off (take (Z.to_nat n) data)) d.
Proof.
  intros Hd Hb Hoff Hsz Hn Hend Hby. pose proof (g_sector _ _ geo) as [Hsec _].
  assert (0 <= b * sector) by (apply Z.mul_nonneg_nonneg; lia). pose proof Hd as [Hm _].
  assert (length (take (Z.to_nat n) data) = Z.to_nat n) as Hl by (rewrite length_take; lia).
  unfold erase_and_write. apply wp_bind.
  eapply wp_mono; [apply flash_memcmp_ok; (done || lia)|]. intros c d1 [Hc Hd1]. unfold ctrue.
  destruct (Z.eqb_spec c 0) as [E|E]; cbn [negb].
  - wp_steps. split; [done|]. exists m. split; [done|]. apply rewritten_same; [lia|lia|].
    rewrite Hl, Z2Nat.id by lia. by apply Hc.
  - apply wp_bind. eapply wp_mono; [apply erase_block_ok; (done || lia)|]. intros r d2 [-> Hd2].
    cbn [Z.eqb]. eapply wp_mono; [apply write_block_ok; (done || lia)|]. intros r d3 [-> Hd3].
    split; [done|]. eexists. split; [exact Hd3|].
    replace sector with ((b + 1) * sector - b * sector) at 2 by lia.
    apply rewritten_erased; [lia|lia|by apply Forall_take].
Qed.

Lemma alt_epcs_flash_write_ok d m off data n :
  holds d m -> 0 <= off < size -> 0 <= n <= Z.of_nat (length data) -> off + n <= size ->
  bytes_ok data ->
  wp (alt_epcs_flash_write polls wips f off data n)
    (fun r d' => r = 0 /\ exists m', holds d' m'
       /\ rewritten m m' (off / sector * sector) (((off + Z.max n 1 - 1) / sector + 1) * sector)
            off (take (Z.to_nat n) data)) d.
Proof.
  intros. apply (write_regions_ok _ rewritten); try done.
  - exact erase_and_write_ok.
  - exact rewritten_app.
Qed.

(** ** Erasing a range *)

(** A block reported as erased is erased. *)
Lemma erased_loop_ok fuel d m b j :
  holds d m -> 0 <= b -> (b + 1) * sector <= size -> 0 <= j <= sector -> (8 | j) ->
  (Z.to_nat (sector - j) < fuel)%nat ->
  wp (erased_loop polls wips fuel f (b * sector) sector j)
    (fun e d' => holds d' m
       /\ (e = true -> slice m (b * sector + j) (sector - j) = replicate (Z.to_nat (sector - j)) 255)) d.
Proof.
  pose proof (g_sector _ _ geo) as [Hsec [q Hq]].
  revert d j. induction fuel as [|k IH]; intros d j Hd Hb Hsz Hj [p Hp] Hk; [lia|]. cbn [erased_loop].
  destruct (Z.ltb_spec j sector) as [Hlt|Hge].
  2: { wp_steps. split; [done|]. intros _. by replace (sector - j) with 0 by lia. }
  assert (0 <= b * sector) by (apply Z.mul_nonneg_nonneg; lia). assert (j + 8 <= sector) by lia.
  apply wp_bind. eapply wp_mono; [apply flash_memcmp_ok; try done; simpl; lia|].
  intros c d1 [Hc Hd1]. unfold ctrue. destruct (Z.eqb_spec c 0) as [E|E]; cbn [negb].
  2: { by wp_steps. }
  eapply wp_mono; [apply IH; try done; [lia|exists (p + 1); lia|lia]|].
  intros e d2 [Hd2 He]. split; [done|]. intros Ht. specialize (He Ht). apply Hc in E.
  replace (sector - j) with (8 + (sector - (j + 8))) by lia. rewrite slice_app by lia.
  rewrite <- E, Z2Nat.inj_add, replicate_add by lia. f_equal. rewrite <- He. f_equal. lia.
Qed.

Lemma erase_loop_ok fuel blocks d m b o c :
  let r := mkRegion 0 size blocks sector in
  holds d m -> 0 <= b <= o -> 0 <= c -> (o + c) * sector <= size ->
  (Z.to_nat (o - b) + Z.to_nat c < fuel)%nat ->
  wp (erase_loop polls wips fuel f r (b * sector) (o * sector) (c * sector))
    (fun x d' => x = ((o + c) * sector, 0) /\ holds d' (erase m (o * sector) (c * sector))) d.
Proof.
  intros r. pose proof (g_sector _ _ geo) as [Hsec _]. pose proof (g_size _ _ geo) as Hsize.
  revert d m b o c. induction fuel as [|k IH]; intros d m b o c Hd Hb Hc Hsz Hk; [lia|].
  assert (0 <= o * sector) by (apply Z.mul_nonneg_nonneg; lia).
  cbn [erase_loop]. change (block_size r) with sector. destruct (decide (c = 0)) as [->|Hc0].
  { wp_steps. split; [f_equal; f_equal; lia|]. pose proof Hd as [Hm _]. rewrite erase_same; try lia; done. }
  rewrite (proj2 (Z.gtb_lt _ _)) by nia. replace (b * sector + sector) with ((b + 1) * sector) by lia.
  assert ((b + 1) * sector <= size) by nia.
  assert (((b + 1) * sector >=? 2147483648) = false) as -> by (rewrite Z.geb_leb, Z.leb_gt; lia).
  rewrite (proj2 (Z.geb_le _ _)) by nia. cbn [andb].
  destruct (Z.ltb_spec (o * sector) ((b + 1) * sector)) as [Hin|Hout].
  2: { apply IH; (done || nia). }
  assert (o = b) as -> by nia. apply wp_bind.
  eapply wp_mono; [apply (erased_loop_ok _ d m b 0); (done || lia || by exists 0)|].
  intros e d1 [Hd1 He]. rewrite Z.add_0_r, Z.sub_0_r in He. apply wp_bind.
  apply (wp_mono _ (fun _ d2 => holds d2 (erase m (b * sector) sector))).
  { destruct e.
    - wp_steps. pose proof Hd as [Hm _]. rewrite erase_same; (done || lia || by apply He).
    - eapply wp_mono; [apply erase_block_ok; (done || lia)|]. by intros ? ? []. }
  intros ? d2 Hd2. cbn beta in Hd2. pose proof Hd as [Hm _].
  assert (u32 (c * sector - sector) = (c - 1) * sector) as ->.
  { rewrite u32_small by nia. lia. }
  eapply wp_mono; [apply IH; (done || nia)|]. intros x d3 [-> Hd3].
  replace (b + 1 + (c - 1)) with (b + c) by lia. split; [done|].
  replace ((b + 1) * sector) with (b * sector + sector) in Hd3 by lia.
  rewrite erase_app in Hd3 by nia. by replace (c * sector) with (sector + (c - 1) * sector) by lia.
Qed.

Lemma erase_blocks_ok fuel d m o c :
  holds d m -> 0 <= o -> 0 <= c -> o * sector < size -> (o + c) * sector <= size ->
  (Z.to_nat (o + c) < fuel)%nat ->
  wp (cyg_epcs_erase_blocks polls wips fuel f (o * sector) (c * sector))
    (fun r d' => r = 0 /\ holds d' (erase m (o * sector) (c * sector))) d.
Proof.
  intros Hd Ho Hc Hlt Hsz Hf. unfold cyg_epcs_erase_blocks. pose proof (g_sector _ _ geo) as [Hsec _].
  destruct geo as [-> (blocks & rest & Hi & _ & _) _ _ _ _]. change (Z.to_nat 1) with 1%nat.
  cbn [erase_regions]. rewrite Hi. cbn [lookup list_lookup]. cbn [r_offset region_size].
  rewrite (proj2 (Z.geb_le _ _)), (proj2 (Z.ltb_lt _ _)) by nia. cbn [andb]. apply wp_bind.
  eapply wp_mono; [apply (erase_loop_ok _ blocks d m 0 o c); (done || lia)|].
  intros x d' [-> Hd']. by wp_steps.
Qed.

End Facts.
