(* ===== verification/EpcsProps.v ===== *)
(** * The serial-flash driver: its properties

    On every chip that keeps the data-sheet contract, reached through every SPI
    core that keeps its own, the driver's writes, reads and erases do to the
    memory what they announce. *)

From S2P Require Import Prelude.
From S2P Require Import Spi.
From S2P Require Import EpcsCommands.
From S2P Require Import EpcsFlash.
From S2P Require Import EpcsFacts.

(** * A serial flash that keeps the data-sheet contract

    An executable chip: it collects the bytes of a transaction, answers each
    one, and carries the command out when it is released.  It instantiates the
    class [EpcsChip], so that the driver runs on it. *)

Record simchip := mkChip {
  sc_mem : list Z;
  sc_wel : bool;
  sc_wip : nat;  (* status reads until the write is over *)
  sc_cmd : list Z  (* the bytes received since the chip was selected *)
}.

Definition addr3 (b2 b1 b0 : Z) : Z := b2 * 65536 + b1 * 256 + b0.

Section Chip.
Context (pagesz sectorsz sig id : Z).

Definition sc_out (c : simchip) : Z :=
  match sc_cmd c with
  | op :: b2 :: b1 :: b0 :: rest =>
      if op =? epcs_read then nth (Z.to_nat (addr3 b2 b1 b0) + length rest) (sc_mem c) 0
      else if (op =? epcs_res) then sig
      else 0
  | op :: rest =>
      if op =? epcs_rdsr then (match sc_wip c with O => 0 | S _ => 1 end)
      else if (op =? epcs_rdid) && (length rest =? 2)%nat then id
      else 0
  | [] => 0
  end.

Definition sc_release (c : simchip) : simchip :=
  match sc_cmd c with
  | op :: b2 :: b1 :: b0 :: data =>
      let a := addr3 b2 b1 b0 in
      if (op =? epcs_pp) && sc_wel c then mkChip (program (sc_mem c) a data) false 2 []
      else if (op =? epcs_se) && sc_wel c
      then mkChip (erase (sc_mem c) (a / sectorsz * sectorsz) sectorsz) false 2 []
      else mkChip (sc_mem c) (sc_wel c) (sc_wip c) []
  | op :: _ =>
      if op =? epcs_wren then mkChip (sc_mem c) true (sc_wip c) []
      else if op =? epcs_rdsr then mkChip (sc_mem c) (sc_wel c) (pred (sc_wip c)) []
      else mkChip (sc_mem c) (sc_wel c) (sc_wip c) []
  | [] => c
  end.

#[refine] Instance sc_slave : SpiSlave simchip := {
  sl_select c := mkChip (sc_mem c) (sc_wel c) (sc_wip c) [];
  sl_xfer b c := (u8 (sc_out c), mkChip (sc_mem c) (sc_wel c) (sc_wip c) (sc_cmd c ++ [b]));
  sl_deselect := sc_release
}.
Proof. intros. apply u8_byte. Defined.

Lemma sc_exchange bs c :
  (exchange bs c).2 = mkChip (sc_mem c) (sc_wel c) (sc_wip c) (sc_cmd c ++ bs).
Proof.
  revert c. induction bs as [|b bs IH]; intros c; simpl; [rewrite app_nil_r; by destruct c|].
  specialize (IH (mkChip (sc_mem c) (sc_wel c) (sc_wip c) (sc_cmd c ++ [b]))).
  destruct (exchange bs _). simpl in *. rewrite IH. simpl. by rewrite <- app_assoc.
Qed.

Lemma sc_transact bs c :
  (transact bs c).2 = sc_release (mkChip (sc_mem c) (sc_wel c) (sc_wip c) bs).
Proof.
  unfold transact. pose proof (sc_exchange bs (sl_select c)) as E.
  destruct (exchange bs (sl_select c)). simpl in *. by rewrite E.
Qed.

(** The answers to the zeros of a read command. *)
Lemma sc_read_out m w k b2 b1 b0 rest n :
  bytes_ok m ->
  (Z.to_nat (addr3 b2 b1 b0) + length rest + n <= length m)%nat ->
  (exchange (replicate n 0) (mkChip m w k (epcs_read :: b2 :: b1 :: b0 :: rest))).1
  = take n (drop (Z.to_nat (addr3 b2 b1 b0) + length rest) m).
Proof.
  intros Hm. revert rest. induction n as [|n IH]; intros rest Hl; [done|]. cbn [replicate exchange].
  destruct (sl_xfer 0 _) as [o c1] eqn:E. injection E as <- <-.
  specialize (IH (rest ++ [0])). rewrite length_app in IH. simpl in IH.
  cbn [sc_cmd app sc_mem sc_wel sc_wip]. destruct (exchange (replicate n 0) _) as [os c2].
  simpl in IH |- *. rewrite IH by lia. unfold sc_out. cbn [sc_cmd sc_mem].
  rewrite Z.eqb_refl.
  destruct (lookup_lt_is_Some_2 m (Z.to_nat (addr3 b2 b1 b0) + length rest)) as [x Hx]; [lia|].
  rewrite (drop_S m x (Z.to_nat (addr3 b2 b1 b0) + length rest) Hx). cbn [take]. rewrite nth_lookup, Hx. cbn [default].
  rewrite u8_id by (by eapply Forall_lookup_1). f_equal. f_equal. f_equal. lia.
Qed.

Lemma land_byte x y : is_byte y -> is_byte (Z.land x y).
Proof.
  intros Hy. rewrite <- (Z.mod_small y 256) by done. rewrite <- land_255, Z.land_assoc.
  auto with nios.
Qed.

Lemma splice_bytes m a l : bytes_ok m -> bytes_ok l -> bytes_ok (splice m a l).
Proof.
  intros Hm Hl. unfold splice. rewrite !Forall_app. split_and!; [by apply Forall_take|done|by apply Forall_drop].
Qed.

Lemma program_bytes m a data : bytes_ok m -> bytes_ok data -> bytes_ok (program m a data).
Proof.
  intros Hm Hd. apply splice_bytes; [done|]. apply Forall_lookup. intros i x Hx.
  rewrite lookup_zip_with in Hx. apply bind_Some in Hx as (u & Hu & Hx).
  apply bind_Some in Hx as (v & Hv & [= <-]). apply land_byte. by eapply Forall_lookup_1.
Qed.

Lemma erase_bytes m a n : bytes_ok m -> bytes_ok (erase m a n).
Proof. intros Hm. apply splice_bytes; [done|]. by apply Forall_replicate. Qed.

Context (sig_ok : is_byte sig) (id_ok : is_byte id).

Definition sc_is (c : simchip) (m : list Z) (w : bool) (n : nat) : Prop :=
  c = mkChip m w n [] /\ bytes_ok m.

#[refine] Instance sc_chip : EpcsChip simchip := {
  ready c m w := sc_is c m w 0;
  working c m n := sc_is c m false n /\ (n <= 2)%nat;
  write_latency := 2;
  page := pagesz;
  sector := sectorsz;
  signature := sig;
  device_id := id
}.
Proof.
  - by intros ??? [].
  - intros ? m w [-> Hm]. eexists _, _, _. split; [reflexivity|]. by split.
  - intros ? m n [[-> Hm] Hn]. eexists _, _, _. split; [reflexivity|]. destruct n; split_and!; (done || lia).
  - intros ? m w [-> Hm]. by rewrite sc_transact.
  - intros ? m w b2 b1 b0 n [-> Hm] H2 H1 H0 a Hn. unfold is_byte in *. split.
    + unfold transact. rewrite exchange_app. cbn [fst snd].
      rewrite drop_app_exact by (by rewrite exchange_length). rewrite sc_exchange. simpl.
      rewrite sc_read_out; unfold addr3; [|done|simpl; lia].
      unfold slice. rewrite Nat2Z.id. cbn [length]. by rewrite Nat.add_0_r.
    + by rewrite sc_transact.
  - intros ? m b2 b1 b0 data [-> Hm] _ _ _ Hd Hne a last _ _. exists 2%nat. rewrite sc_transact.
    split; [|lia]. split; [done|]. by apply program_bytes.
  - intros ? m b2 b1 b0 [-> Hm] _ _ _ a _. exists 2%nat. rewrite sc_transact.
    split; [|lia]. split; [done|]. by apply erase_bytes.
  - intros ? m w [-> Hm]. simpl. rewrite u8_id by done. done.
  - intros ? m w [-> Hm]. simpl. rewrite u8_id by done. done.
Defined.

End Chip.

(** * The theorems *)

Lemma known_device_size id sz blocks bs :
  known_device id = Some (sz, blocks, bs) ->
  sz = blocks * bs /\ 0 <= blocks /\ 0 < bs /\ bs mod 8 = 0 /\ 0 < sz <= 16777216.
Proof. intros E. unfold known_device in E. repeat case_match; by simplify_eq. Qed.

Lemma geometry_intro `{EpcsChip C} f sz blocks bs rest base :
  dev f = mkDev 1 (mkRegion 0 sz blocks bs :: rest) base -> page_size f = 256 -> page = 256 ->
  sector = bs -> sz = blocks * bs -> 0 <= blocks -> 0 < bs -> bs mod 8 = 0 -> 0 < sz <= 16777216 ->
  geometry f sz.
Proof.
  intros Hdev Hps Hp Hs ? ? ? Hb ?. apply Z.mod_divide in Hb; [|done].
  split; rewrite ?Hdev, ?Hps, ?Hp, ?Hs; try done; [by exists blocks, rest|by exists 8].
Qed.

Section Claims.
Context {D C : Type} `{laws : SpiLaws D C} {chip : EpcsChip C} (polls wips : nat).

(** [epcs_bwrite] programs the data and verifies it.  The memory becomes
    the old one with the bits that are 0 in the data cleared at [pos], nothing
    else changed (blocks that already hold the data are skipped without an
    effect); it returns 0 exactly when the flash then holds the data, which is
    the case when the range was erased before. *)
Theorem epcs_bwrite_verified f size d m buf len pos :
  (latency < polls)%nat -> (write_latency < wips)%nat -> geometry f size ->
  holds size d m -> 0 <= pos < size -> 0 <= len <= Z.of_nat (length buf) -> pos + len <= size ->
  bytes_ok buf ->
  let data := take (Z.to_nat len) buf in
  exists ret d', epcs_bwrite polls wips f buf len pos d = Ret (ret, d')
    /\ holds size d' (program m pos data)
    /\ (ret = 0 <-> slice (program m pos data) pos len = data)
    /\ (slice m pos len = replicate (Z.to_nat len) 255 -> ret = 0).
Proof.
  intros Hp Hw geo Hd Hpos Hlen Hend Hb data. pose proof Hd as [Hm _].
  assert (length data = Z.to_nat len) as Hl by (unfold data; rewrite length_take; lia).
  assert (wp (epcs_bwrite polls wips f buf len pos)
            (fun c d' => (c = 0 <-> data = slice (program m pos data) pos len)
                         /\ holds size d' (program m pos data)) d) as H.
  { unfold epcs_bwrite. apply wp_bind. eapply wp_mono; [by eapply epcs_flash_write_ok|].
    intros r d1 [-> Hd1]. cbn [Z.eqb]. eapply flash_memcmp_ok; (done || lia). }
  apply wp_Ret in H as (c & d' & E & Hc & Hd'). exists c, d'. split_and!; try done.
  - by rewrite Hc.
  - intros He. apply Hc. apply list_eq. intros i. rewrite slice_lookup by lia.
    destruct (decide _) as [Hi|Hi]; [|apply lookup_ge_None_2; lia].
    rewrite program_lookup, decide_True by lia.
    replace (Z.to_nat pos + i - Z.to_nat pos)%nat with i by lia.
    assert (m !! (Z.to_nat pos + i)%nat = Some 255) as ->.
    { transitivity (slice m pos len !! i); [by rewrite slice_lookup, decide_True by lia|].
      rewrite He. apply lookup_replicate_2. lia. }
    destruct (data !! i) as [x|] eqn:Ex; [|done]. cbn. f_equal. symmetry. apply land_255_l.
    eapply Forall_lookup_1; [|exact Ex]. by apply Forall_take.
Qed.

(** C5: write and read back.  After [alt_epcs_flash_write], which erases the
    blocks that differ, [alt_epcs_flash_read] of the range returns the data,
    whatever was in the flash; every byte outside the blocks the range touches
    is as before. *)
Theorem epcs_write_read_back f size d m data len off :
  (latency < polls)%nat -> (write_latency < wips)%nat -> geometry f size ->
  holds size d m -> 0 <= off < size -> 0 <= len <= Z.of_nat (length data) -> off + len <= size ->
  bytes_ok data ->
  exists d1 d2 m', alt_epcs_flash_write polls wips f off data len d = Ret (0, d1)
    /\ alt_epcs_flash_read polls wips f off len d1 = Ret ((0, take (Z.to_nat len) data), d2)
    /\ holds size d2 m'
    /\ forall i : nat, Z.of_nat i < off / sector * sector
                       \/ ((off + Z.max len 1 - 1) / sector + 1) * sector <= Z.of_nat i ->
         m' !! i = m !! i.
Proof.
  intros Hp Hw geo Hd Hoff Hlen Hend Hb. pose proof Hd as [Hm _].
  assert (length (take (Z.to_nat len) data) = Z.to_nat len) as Hl by (rewrite length_take; lia).
  pose proof (alt_epcs_flash_write_ok polls wips Hp Hw f size geo d m off data len Hd Hoff Hlen Hend Hb) as H.
  apply wp_Ret in H as (r & d1 & E1 & -> & m' & Hd1 & Hlen' & Hm').
  pose proof (flash_read_ok polls wips Hp Hw f size geo d1 m' off len Hd1 Hoff ltac:(lia) Hend) as H.
  apply wp_Ret in H as (r & d2 & E2 & -> & Hd2). exists d1, d2, m'. split_and!; try done.
  - rewrite E2. do 3 f_equal. apply list_eq. intros i. rewrite slice_lookup by lia.
    destruct (decide _) as [Hi|Hi]; [|symmetry; apply lookup_ge_None_2; lia].
    specialize (Hm' (Z.to_nat off + i)%nat). rewrite decide_True in Hm' by lia. rewrite Hm'.
    f_equal. lia.
  - intros i Hi. specialize (Hm' i). pose proof (g_sector _ _ geo) as [Hsec _].
    pose proof (Z.mul_div_le off sector Hsec).
    pose proof (Z.mul_succ_div_gt (off + Z.max len 1 - 1) sector Hsec).
    rewrite decide_False, decide_False in Hm' by lia. done.
Qed.

(** Erasing whole blocks erases exactly them: [cyg_epcs_erase_blocks] for
    [c] blocks from block [o] on returns 0 within [o + c + 1] turns of its
    loop, the range holds 0xFF and the rest is as before; blocks that are
    already erased are skipped without an effect. *)
Theorem epcs_erase_exact f size fuel d m o c :
  (latency < polls)%nat -> (write_latency < wips)%nat -> geometry f size ->
  holds size d m -> 0 <= o -> 0 <= c -> o * sector < size -> (o + c) * sector <= size ->
  (Z.to_nat (o + c) < fuel)%nat ->
  exists d', cyg_epcs_erase_blocks polls wips fuel f (o * sector) (c * sector) d = Ret (0, d')
    /\ holds size d' (erase m (o * sector) (c * sector)).
Proof.
  intros Hp Hw geo Hd Ho Hc Ho' Hsz Hf.
  pose proof (erase_blocks_ok polls wips Hp Hw f size geo fuel d m o c Hd Ho Hc Ho' Hsz Hf) as H.
  apply wp_Ret in H as (r & d' & E & -> & Hd'). eauto.
Qed.

(** The query fills the descriptor in: for a chip whose signature is one
    of the known devices it returns 0 and the geometry the other operations
    rely on, for another chip with the identifier of an EPCS128 the same, and
    -ENODEV otherwise. *)
Theorem epcs_query_geometry f size d m r rest :
  (latency < polls)%nat -> (write_latency < wips)%nat ->
  flash_ready d m false -> region_info (dev f) = r :: rest -> page = 256 ->
  match known_device signature with
  | Some (sz, blocks, bs) => sector = bs /\ size = sz
  | None => device_id = 24 -> sector = 262144 /\ size = 16777216
  end ->
  exists ret f' d', alt_epcs_flash_query polls f d = Ret ((ret, f'), d')
    /\ flash_ready d' m false
    /\ (if bool_decide (is_Some (known_device signature)) || (device_id =? 24)
        then ret = 0 /\ geometry f' size else ret = - ENODEV).
Proof.
  intros Hp Hw Hd Hi Hpage Hdev.
  assert (wp (alt_epcs_flash_query polls f)
    (fun x d' => flash_ready d' m false
       /\ (if bool_decide (is_Some (known_device signature)) || (device_id =? 24)
           then x.1 = 0 /\ geometry x.2 size else x.1 = - ENODEV)) d) as H.
  { unfold alt_epcs_flash_query. apply wp_bind.
    eapply wp_mono; [by eapply epcs_read_electronic_signature_ok|]. intros id d1 [-> Hd1].
    destruct (known_device signature) as [[[sz blocks] bs]|] eqn:E.
    - destruct Hdev as [Hs ->]. apply known_device_size in E as (? & ? & ? & ? & ?).
      wp_steps. unfold set_region0. rewrite Hi. simpl. split; [done|]. split; [done|].
      by eapply (geometry_intro _ sz blocks bs rest).
    - do 2 apply wp_bind. eapply wp_mono; [by eapply epcs_read_device_id_ok|].
      intros id d2 [-> Hd2]. destruct (Z.eqb_spec device_id 24) as [E24|E24].
      + destruct (Hdev E24) as [Hs ->]. wp_steps. unfold set_region0. rewrite Hi. simpl.
        split; [done|]. split; [done|]. by eapply (geometry_intro _ 16777216 64 262144 rest).
      + wp_steps. rewrite Hi. simpl. done. }
  apply wp_Ret in H as ([ret f'] & d' & E & H). eauto.
Qed.
End Claims.

Section Unaligned.
Context {D : Type} {core : SpiCore D} (polls wips : nat).

Lemma erase_loop_unaligned fuel f r cur offset len x (d d' : D) :
  0 < block_size r -> (block_size r | 4294967296) -> 0 <= len < 4294967296 ->
  len mod block_size r <> 0 -> erase_loop polls wips fuel f r cur offset len d <> Ret (x, d').
Proof.
  intros Hbs Hdvd. revert cur offset len d. induction fuel as [|k IH]; intros cur offset len d Hl Hmod; [done|].
  assert (len <> 0) by (intros ->; by rewrite Z.mod_0_l in Hmod by lia).
  cbn [erase_loop]. rewrite (proj2 (Z.gtb_lt _ _)) by lia.
  destruct (_ >=? 2147483648); [done|]. destruct (_ && _); [|by apply IH].
  intros E. apply bind_inv in E as (e & d1 & _ & E). apply bind_inv in E as (u & d2 & _ & E).
  revert E. apply IH; [apply u32_range|]. unfold uwrap.
  rewrite Z.mod_mod_divide by done. replace (len - block_size r) with (len + -1 * block_size r) by lia.
  by rewrite Z.mod_add by lia.
Qed.

(** A length that is not a multiple of the block size is fatal: the
    unsigned counter steps over zero, so the loop of [cyg_epcs_erase_blocks]
    never ends, on any hardware, and erases what it meets. *)
Theorem epcs_erase_unaligned_never_returns f r rest fuel offset len ret (d d' : D) :
  number_of_regions (dev f) = 1 -> region_info (dev f) = r :: rest ->
  r_offset r <= offset < r_offset r + region_size r ->
  0 < block_size r -> (block_size r | 4294967296) -> 0 <= len < 4294967296 ->
  len mod block_size r <> 0 ->
  cyg_epcs_erase_blocks polls wips fuel f offset len d <> Ret (ret, d').
Proof.
  intros Hn Hi Hoff Hbs Hdvd Hl Hmod. unfold cyg_epcs_erase_blocks. rewrite Hn.
  change (Z.to_nat 1) with 1%nat. cbn [erase_regions]. rewrite Hi. cbn [lookup list_lookup].
  rewrite (proj2 (Z.geb_le _ _)), (proj2 (Z.ltb_lt _ _)) by lia. cbn [andb].
  intros E. apply bind_inv in E as (x & d1 & E & _). by apply erase_loop_unaligned in E.
Qed.

End Unaligned.

(** ** Runs on the simulated chip

    Three blocks of 32 bytes, pages of 16. *)

Lemma byte20 : is_byte 20.
Proof. done. Qed.

Lemma byte0 : is_byte 0.
Proof. done. Qed.

#[local] Instance chip_slave : SpiSlave simchip := sc_slave 32 20 0.

#[local] Instance chip_epcs : EpcsChip simchip := sc_chip 16 32 20 0 byte20 byte0.

#[local] Instance chip_core : SpiCore (sim (C := simchip)) := sim_core 3.

#[local] Instance chip_laws : SpiLaws (sim (C := simchip)) simchip := sim_laws 3.

Definition dev0 : epcs_dev := mkEpcs (mkDev 1 [mkRegion 0 96 3 32] 0) 96 20 16.

Definition mem0 : list Z := replicate 40 255 ++ replicate 56 7.

Definition board0 : sim (C := simchip) := mkSim false (mkChip mem0 false 0 []) None 0.

Lemma geometry0 : geometry dev0 96.
Proof.
  split; try done.
  - by exists 3, [].
  - by exists 4.
  - split; [done|by exists 4].
Qed.

Lemma holds0 : holds 96 board0 mem0.
Proof.
  split; [done|]. exists false, (mkChip mem0 false 0 []), 0%nat.
  split; [split; [done|lia]|]. split; [done|]. vm_compute. repeat constructor; discriminate.
Qed.

Lemma epcs_bwrite_verified_witness :
  exists d', epcs_bwrite 10 10 dev0 (replicate 20 1) 20 12 board0 = Ret (0, d')
             /\ holds 96 d' (program mem0 12 (replicate 20 1)).
Proof.
  destruct (epcs_bwrite_verified 10 10 dev0 96 board0 mem0 (replicate 20 1) 20 12)
    as (ret & d' & E & Hd & _ & Hz).
  - vm_compute. lia.
  - vm_compute. lia.
  - exact geometry0.
  - exact holds0.
  - lia.
  - simpl. lia.
  - lia.
  - by apply Forall_replicate.
  - exists d'. split; [|exact Hd]. rewrite E. rewrite Hz by reflexivity. reflexivity.
Defined.

Lemma epcs_write_read_back_witness :
  exists d1 d2, alt_epcs_flash_write 10 10 dev0 50 [1; 2; 3] 3 board0 = Ret (0, d1)
             /\ alt_epcs_flash_read 10 10 dev0 50 3 d1 = Ret ((0, [1; 2; 3]), d2).
Proof.
  destruct (epcs_write_read_back 10 10 dev0 96 board0 mem0 [1; 2; 3] 3 50)
    as (d1 & d2 & m' & E1 & E2 & _).
  - vm_compute. lia.
  - vm_compute. lia.
  - exact geometry0.
  - exact holds0.
  - lia.
  - simpl. lia.
  - lia.
  - repeat constructor; discriminate.
  - exists d1, d2. split; [exact E1|exact E2].
Defined.

Lemma epcs_erase_exact_witness :
  exists d', cyg_epcs_erase_blocks 10 10 4 dev0 32 64 board0 = Ret (0, d')
             /\ holds 96 d' (erase mem0 32 64).
Proof.
  destruct (epcs_erase_exact 10 10 dev0 96 4 board0 mem0 1 2) as (d' & E & Hd).
  - vm_compute. lia.
  - vm_compute. lia.
  - exact geometry0.
  - exact holds0.
  - lia.
  - lia.
  - vm_compute. done.
  - vm_compute. discriminate.
  - lia.
  - change (1 * sector) with 32 in E, Hd. change (2 * sector) with 64 in E, Hd. eauto.
Defined.

Lemma epcs_erase_unaligned_never_returns_witness :
  cyg_epcs_erase_blocks 10 10 50 dev0 32 40 board0 <> Ret (0, board0).
Proof.
  apply (epcs_erase_unaligned_never_returns 10 10 dev0 (mkRegion 0 96 3 32) []); simpl; try done.
  - by exists 134217728.
Defined.

(** An EPCS16. *)
#[local] Instance epcs16_slave : SpiSlave simchip := sc_slave 65536 20 0.

Lemma epcs_query_geometry_witness :
  exists ret f' d', alt_epcs_flash_query (core := sim_core (H := epcs16_slave) 3) 10 dev0 board0
                    = Ret ((ret, f'), d')
    /\ ret = 0 /\ region_info (dev f') = [mkRegion 0 2097152 32 65536].
Proof.
  destruct (epcs_query_geometry (laws := sim_laws (H := epcs16_slave) 3)
              (chip := sc_chip 256 65536 20 0 byte20 byte0)
              10 10 dev0 2097152 board0 mem0 (mkRegion 0 96 3 32) [])
    as (ret & f' & d' & E & _ & Hret & Hg).
  - vm_compute. lia.
  - vm_compute. lia.
  - exists (mkChip mem0 false 0 []), 0%nat. split; [split; [done|lia]|]. split; [done|].
    vm_compute. repeat constructor; discriminate.
  - reflexivity.
  - reflexivity.
  - split; reflexivity.
  - exists ret, f', d'. split; [exact E|]. split; [exact Hret|].
    assert (Ret (ret, f', d') = alt_epcs_flash_query (core := sim_core (H := epcs16_slave) 3) 10 dev0 board0)
      as E' by (symmetry; exact E). vm_compute in E'. by simplify_eq.
Defined.
