(* ===== verification/EpcsDev.v ===== *)
(** * The table of flash devices and the EPCS entry of eCos
    (packages/io/epcs: alt_dev_llist_insert.c, alt_find_dev.c, alt_flash_dev.c, epcs.c)

    Devices are structures in memory that a circular list links; [nexts] are the links,
    by address, and [devs] the structures.  The insertion into a list is the vendor
    library's ([LList], with its documented effect); so are the functions that the
    pointers of a structure stand for.  The names are C strings: lists of bytes that
    end with a zero in memory. *)

From stdpp Require Import gmap.
From S2P Require Import Prelude.
From S2P Require Import EpcsFlash.

Definition ENOERR : Z := 0.

(** ** State *)

(** [alt_flash_dev]; a null pointer is 0. *)
Record flash_entry := mkEntry {
  fname : option (list Z);
  fopen : Z;
  fclose : Z;
  fdev : flash_dev
}.

Record st := mkSt {
  nexts : gmap Z Z;
  devs : gmap Z flash_entry;
  p_epcs_fd : Z;
  p_epcs_reg_info : option (list flash_region);
  num_epcs_regs : Z
}.

Definition set_nexts (v : gmap Z Z) (s : st) : st :=
  mkSt v (devs s) (p_epcs_fd s) (p_epcs_reg_info s) (num_epcs_regs s).

Definition set_fd (v : Z) (s : st) : st :=
  mkSt (nexts s) (devs s) v (p_epcs_reg_info s) (num_epcs_regs s).

Definition set_info (r : option (list flash_region)) (n : Z) (s : st) : st :=
  mkSt (nexts s) (devs s) (p_epcs_fd s) r n.

(** ** Circular lists *)

(** From [a] the links lead over [es] to [head]. *)
Fixpoint path (m : gmap Z Z) (head a : Z) (es : list Z) : Prop :=
  match es with
  | [] => m !! a = Some head
  | e :: es => m !! a = Some e /\ path m head e es
  end.

(** The entries of the list at [head]. *)
Definition is_list (m : gmap Z Z) (head : Z) (es : list Z) : Prop :=
  path m head head es /\ NoDup (head :: es) /\ 0 ∉ head :: es.

(** Insertion directly after the head. *)
Class LList := {
  alt_llist_insert : Z -> Z -> gmap Z Z -> gmap Z Z;
  llist_insert_spec : forall m head es e,
    is_list m head es -> e ∉ 0 :: head :: es -> is_list (alt_llist_insert head e m) head (e :: es);
}.

(** The functions that drivers put into the structures. *)
Class Callbacks := {
  call_open : Z -> Z -> list Z -> M st Z;
  call_close : Z -> Z -> M st unit;
}.

Section Devices.
Context {ll : LList} {cb : Callbacks}.

(** ** The table *)

Definition device (a : Z) : M st flash_entry := fun s =>
  match devs s !! a with Some d => Ret (d, s) | None => UB end.

Definition alt_dev_llist_insert (dev lst : Z) : M st Z :=
  if dev =? 0 then mret (-1)
  else
    d ← device dev;
    match fname d with
    | None => mret (-1)
    | Some _ => modify (fun s => set_nexts (alt_llist_insert lst dev (nexts s)) s);; mret 0
    end.

Definition next_of (a : Z) : M st Z := fun s =>
  match nexts s !! a with Some n => Ret (n, s) | None => UB end.

(** [memcmp] over the name with its zero. *)
Fixpoint find_loop (fuel : nat) (nm : list Z) (llist next : Z) : M st Z :=
  if next =? llist then mret 0
  else
    match fuel with
    | O => no_fuel
    | S k =>
        d ← device next;
        match fname d with
        | None => undef
        | Some n =>
            if memcmp (n ++ [0]) (nm ++ [0]) =? 0 then mret next
            else next ← next_of next; find_loop k nm llist next
        end
    end.

Definition alt_find_dev (fuel : nat) (nm : list Z) (llist : Z) : M st Z :=
  next ← next_of llist;
  find_loop fuel nm llist next.

(** [alt_flash_dev_list] is the address of the list of flash devices. *)
Definition alt_flash_open_dev (alt_flash_dev_list : Z) (fuel : nat) (nm : list Z) : M st Z :=
  dev ← alt_find_dev fuel nm alt_flash_dev_list;
  if dev =? 0 then mret dev
  else
    d ← device dev;
    if fopen d =? 0 then mret dev else call_open (fopen d) dev nm.

Definition alt_flash_close_dev (fd : Z) : M st unit :=
  if fd =? 0 then mret tt
  else
    d ← device fd;
    if fclose d =? 0 then mret tt else call_close (fclose d) fd.

(** ** The entry of eCos *)

(** [EPCS_FLASH_CONTROLLER_NAME] is the board's. *)
Definition epcs_open (EPCS_FLASH_CONTROLLER_NAME : list Z) (alt_flash_dev_list : Z) (fuel : nat) : M st Z :=
  fd ← alt_flash_open_dev alt_flash_dev_list fuel EPCS_FLASH_CONTROLLER_NAME;
  modify (set_fd fd);;
  d ← device fd;
  match alt_epcs_flash_get_info (Some (fdev d)) with
  | Ret (ret, info, n) =>
      modify (fun s => set_info (match info with Some i => Some i | None => p_epcs_reg_info s end) n s);;
      mret ret
  | _ => undef
  end.

Definition epcs_lookup := epcs_open.

Inductive set_key := CYG_IO_SET_CONFIG_CLOSE | SET_CONFIG_OTHER.

Definition epcs_set_config (key : set_key) : M st Z :=
  match key with
  | CYG_IO_SET_CONFIG_CLOSE => fd ← gets p_epcs_fd; alt_flash_close_dev fd;; mret (- ENOERR)
  | SET_CONFIG_OTHER => mret (- EINVAL)
  end.

End Devices.

(** ** What the table does *)

Definition text (n : list Z) : Prop := Forall (fun c => c <> 0) n.

Lemma memcmp_names n nm : text n -> text nm -> (memcmp (n ++ [0]) (nm ++ [0]) =? 0) = bool_decide (n = nm).
Proof.
  intros Hn. induction Hn as [|x n Hx Hn IH] in nm |- *; intros Hm; destruct Hm as [|y nm Hy Hm]; cbn [app memcmp].
  - done.
  - destruct (Z.eqb_spec 0 y); [lia|]. rewrite bool_decide_eq_false_2 by done. apply Z.eqb_neq. lia.
  - destruct (Z.eqb_spec x 0); [lia|]. rewrite bool_decide_eq_false_2 by done. apply Z.eqb_neq. lia.
  - destruct (Z.eqb_spec x y) as [->|Hne].
    + rewrite IH by done. apply bool_decide_ext. split; [by intros ->|by intros [= ->]].
    + rewrite bool_decide_eq_false_2 by congruence. apply Z.eqb_neq. lia.
Qed.

Section Table.
Context {ll : LList} {cb : Callbacks}.

(** A registered device: it exists, and has a name. *)
Definition named (s : st) (a : Z) (n : list Z) : Prop :=
  exists d, devs s !! a = Some d /\ fname d = Some n /\ text n.

(** The first entry with the name. *)
Fixpoint first_named (name : Z -> list Z) (es : list Z) (nm : list Z) : Z :=
  match es with
  | [] => 0
  | e :: es => if decide (name e = nm) then e else first_named name es nm
  end.

Lemma wp_find_loop fuel name nm head a es (Q : Z -> st -> Prop) s :
  text nm -> (length es <= fuel)%nat -> head ∉ es -> Forall (fun e => named s e (name e)) es ->
  path (nexts s) head a es -> Q (first_named name es nm) s ->
  wp (next ← next_of a; find_loop fuel nm head next) Q s.
Proof.
  intros Hnm. induction fuel as [|k IH] in a, es |- *; intros Hf Hhead Hn Hp HQ;
    (destruct es as [|e es]; [apply wp_bind, (wp_eq _ _ _ head s); [unfold next_of; by rewrite Hp|]; cbn [find_loop]; rewrite Z.eqb_refl; by apply wp_ret|]).
  - cbn in Hf. lia.
  - destruct Hp as [Ha Hp]. apply not_elem_of_cons in Hhead as [Hne Hhead]. apply Forall_cons_1 in Hn as [(d & Hd & Hdn & Hdt) Hn].
    apply wp_bind, (wp_eq _ _ _ e s); [unfold next_of; by rewrite Ha|]. cbn [find_loop]. rewrite (proj2 (Z.eqb_neq e head)) by congruence.
    apply wp_bind, (wp_eq _ _ _ d s); [unfold device; by rewrite Hd|]. rewrite Hdn, memcmp_names by done. cbn [first_named] in HQ.
    case_bool_decide as E.
    + rewrite decide_True in HQ by done. by apply wp_ret.
    + rewrite decide_False in HQ by done. apply (IH e es); [cbn in Hf; lia|done|done|done|done].
Qed.

(** The devices at the addresses are registered one after the other. *)
Fixpoint register (lst : Z) (addrs : list Z) : M st unit :=
  match addrs with
  | [] => mret tt
  | a :: addrs => alt_dev_llist_insert a lst;; register lst addrs
  end.

Lemma wp_register lst addrs es name (Q : unit -> st -> Prop) s :
  is_list (nexts s) lst es -> NoDup (addrs ++ lst :: es) -> 0 ∉ addrs -> Forall (fun a => named s a (name a)) addrs ->
  (forall m, is_list m lst (rev addrs ++ es) -> Q tt (set_nexts m s)) -> wp (register lst addrs) Q s.
Proof.
  induction addrs as [|a addrs IH] in es, s |- *; intros Hl Hnd H0 Hn HQ; cbn [register].
  - apply wp_ret. replace s with (set_nexts (nexts s) s) by (by destruct s). by apply HQ.
  - apply Forall_cons_1 in Hn as [(d & Hd & Hdn & Hdt) Hn]. apply not_elem_of_cons in H0 as [Ha H0].
    cbn [app] in Hnd. apply list.NoDup_cons in Hnd as [Hin Hnd].
    assert (a ∉ lst :: es) as Hfresh by (intros H; apply Hin, elem_of_app; by right).
    apply wp_bind. unfold alt_dev_llist_insert. rewrite (proj2 (Z.eqb_neq a 0)) by congruence.
    apply wp_bind, (wp_eq _ _ _ d s); [unfold device; by rewrite Hd|]. rewrite Hdn. apply wp_bind, wp_modify, wp_ret.
    apply (IH (a :: es)).
    + apply llist_insert_spec; [done|]. apply not_elem_of_cons. split; [congruence|done].
    + apply list.NoDup_app. apply list.NoDup_app in Hnd as (N1 & N2 & N3). split_and!; [done| |].
      * intros x Hx Hx'. apply (N2 x Hx). apply elem_of_cons in Hx' as [->|Hx']; [by left|].
        apply elem_of_cons in Hx' as [->|Hx']; [exfalso; apply Hin, elem_of_app; by left|by right].
      * apply list.NoDup_cons in N3 as [N3 N4]. apply list.NoDup_cons. split.
        -- intros Hx. apply elem_of_cons in Hx as [->|Hx]; [apply Hfresh; by left|done].
        -- apply list.NoDup_cons. split; [|done]. intros Hx. apply Hfresh. by right.
    + done.
    + exact Hn.
    + intros m Hm. cbn [rev] in HQ. specialize (HQ m). rewrite <- app_assoc in HQ. by apply HQ.
Qed.

(** The abstract table: the last device that was registered with a name. *)
Definition table (name : Z -> list Z) (addrs : list Z) : gmap (list Z) Z :=
  foldl (fun t a => <[name a := a]> t) ∅ addrs.

Lemma first_named_table name addrs nm : first_named name (rev addrs) nm = default 0 (table name addrs !! nm).
Proof.
  unfold table. induction addrs as [|a addrs IH] using rev_ind; [done|]. rewrite rev_app_distr, foldl_app. cbn.
  case_decide as E; [by rewrite E, lookup_insert_eq|by rewrite lookup_insert_ne].
Qed.

Lemma table_elem name addrs nm a : table name addrs !! nm = Some a -> a ∈ addrs.
Proof.
  unfold table. induction addrs as [|x addrs IH] using rev_ind; [done|]. rewrite foldl_app. cbn. intros H. apply elem_of_app.
  apply lookup_insert_Some in H as [[_ <-]|[_ H]]; [right; by left|left; by apply IH].
Qed.

(** The assumptions on the devices to be registered. *)
Record registrable (lst : Z) (addrs : list Z) (name : Z -> list Z) (s : st) : Prop := {
  rg_empty : is_list (nexts s) lst [];
  rg_distinct : NoDup (lst :: addrs);
  rg_nonnull : 0 ∉ addrs;
  rg_named : Forall (fun a => named s a (name a)) addrs;
  rg_callbacks : forall a d, devs s !! a = Some d -> fopen d = 0 /\ fclose d = 0;
  rg_null : devs s !! 0 = None;
}.

Lemma wp_open_registered lst addrs name nm fuel (Q : unit -> st -> Prop) s :
  registrable lst addrs name s -> text nm -> (length addrs <= fuel)%nat ->
  (forall m, (forall Q' : Z -> st -> Prop, Q' (default 0 (table name addrs !! nm)) (set_nexts m s) ->
     wp (alt_flash_open_dev lst fuel nm) Q' (set_nexts m s)) -> Q tt (set_nexts m s)) ->
  wp (register lst addrs) Q s.
Proof.
  intros [Hl Hnd H0 Hn Hcb _] Hnm Hf HQ. apply list.NoDup_cons in Hnd as [Hlst Hnd].
  eapply (wp_register lst addrs []); [done| |done|done|].
  { apply list.NoDup_app. split_and!; [done| |apply NoDup_singleton]. intros x Hx Hx'. apply list_elem_of_singleton in Hx' as ->. done. }
  intros m [Hp [Hnd' H0']]. rewrite app_nil_r in *. apply HQ. intros Q' HQ'. unfold alt_flash_open_dev. apply wp_bind.
  apply (wp_find_loop fuel name nm lst lst (rev addrs)); [done|by rewrite length_rev|apply list.NoDup_cons in Hnd'; tauto| |done|].
  { apply Forall_rev. exact Hn. }
  rewrite first_named_table. destruct (table name addrs !! nm) as [a|] eqn:E; cbn in *; [|by apply wp_ret].
  apply table_elem in E. rewrite (proj2 (Z.eqb_neq a 0)) by congruence.
  rewrite Forall_forall in Hn. destruct (Hn a) as (d & Hd & _); [by apply list_elem_of_In|].
  apply wp_bind, (wp_eq _ _ _ d (set_nexts m s)); [unfold device; cbn; by rewrite Hd|].
  rewrite (proj1 (Hcb a d Hd)). by apply wp_ret.
Qed.

(** The table of flash devices is a map from names to devices: after any
    registrations of different devices, opening a name gives the device that was
    registered with it last, or the null pointer. *)
Theorem flash_table_refines lst addrs name nm fuel s :
  registrable lst addrs name s -> text nm -> (length addrs <= fuel)%nat ->
  wp (register lst addrs;; alt_flash_open_dev lst fuel nm)
    (fun r s' => r = default 0 (table name addrs !! nm) /\ devs s' = devs s) s.
Proof. intros Hr Hnm Hf. apply wp_bind, (wp_open_registered _ _ name nm fuel); [done..|]. intros m Hm. by apply Hm. Qed.

(** What opening the EPCS device reports. *)
Definition open_result (d : flash_dev) (ret : Z) (s : st) : Prop :=
  num_epcs_regs s = number_of_regions d /\
  if decide (number_of_regions d = 0) then ret = - EIO
  else if decide (number_of_regions d > ALT_MAX_NUMBER_OF_FLASH_REGIONS) then ret = - ENOMEM
  else ret = 0 /\ p_epcs_reg_info s = Some (region_info d).

(** Opening the EPCS device: it becomes the open one, and the result is that of its
    table of regions; closing succeeds. *)
Lemma epcs_open_registered lst addrs name nm a fuel s :
  registrable lst addrs name s -> text nm -> (length addrs <= fuel)%nat -> table name addrs !! nm = Some a ->
  exists d, devs s !! a = Some d /\
    wp (register lst addrs;; ret ← epcs_lookup nm lst fuel; c ← epcs_set_config CYG_IO_SET_CONFIG_CLOSE; mret (ret, c))
      (fun r s' => p_epcs_fd s' = a /\ open_result (fdev d) r.1 s' /\ r.2 = 0) s.
Proof.
  intros Hr Hnm Hf E. pose proof (table_elem _ _ _ _ E) as Hin. pose proof (rg_named _ _ _ _ Hr) as Hn.
  rewrite Forall_forall in Hn. destruct (Hn a) as (d & Hd & _); [by apply list_elem_of_In|]. exists d. split; [done|].
  assert (a <> 0) as Ha by (intros ->; by apply (rg_nonnull _ _ _ _ Hr)).
  pose proof (proj2 (rg_callbacks _ _ _ _ Hr a d Hd)) as Hc.
  apply wp_bind, (wp_open_registered _ _ name nm fuel); [done..|]. intros m Hm. apply wp_bind. unfold epcs_lookup, epcs_open.
  apply wp_bind, Hm. rewrite E. cbn [default from_option id]. apply wp_bind, wp_modify.
  apply wp_bind, (wp_eq _ _ _ d (set_fd a (set_nexts m s))); [unfold device; cbn; by rewrite Hd|].
  assert (forall r n ret (Q : Z * Z -> st -> Prop), Q (ret, 0) (set_info r n (set_fd a (set_nexts m s))) ->
    wp (c ← epcs_set_config CYG_IO_SET_CONFIG_CLOSE; mret (ret, c)) Q (set_info r n (set_fd a (set_nexts m s)))) as Hclose.
  { intros r n ret Q HQ. apply wp_bind. apply wp_bind, (wp_eq _ _ _ a (set_info r n (set_fd a (set_nexts m s)))); [done|].
    unfold alt_flash_close_dev. rewrite (proj2 (Z.eqb_neq a 0)) by done.
    apply wp_bind, wp_bind, (wp_eq _ _ _ d (set_info r n (set_fd a (set_nexts m s)))); [unfold device; cbn; by rewrite Hd|].
    rewrite Hc. by apply wp_ret, wp_ret, wp_ret. }
  unfold alt_epcs_flash_get_info. unfold open_result.
  destruct (Z.eqb_spec (number_of_regions (fdev d)) 0) as [E0|E0].
  - apply wp_bind, wp_modify, wp_ret, Hclose. split_and!; try done. by rewrite decide_True.
  - destruct (Z.gtb_spec (number_of_regions (fdev d)) ALT_MAX_NUMBER_OF_FLASH_REGIONS) as [E1|E1];
      apply wp_bind, wp_modify, wp_ret, Hclose; (split_and!; try done); rewrite decide_False by done.
    + by rewrite decide_True by lia.
    + by rewrite decide_False by lia.
Qed.

(** Without the device, the null pointer is used. *)
Lemma epcs_open_unregistered lst addrs name nm fuel s :
  registrable lst addrs name s -> text nm -> (length addrs <= fuel)%nat -> table name addrs !! nm = None ->
  wp (register lst addrs) (fun _ s1 => epcs_open nm lst fuel s1 = UB) s.
Proof.
  intros Hr Hnm Hf E. apply (wp_open_registered _ _ name nm fuel); [done..|]. intros m Hm.
  specialize (Hm (fun r s' => r = 0 /\ s' = set_nexts m s)). rewrite E in Hm. specialize (Hm (conj eq_refl eq_refl)).
  apply wp_Ret in Hm as (r & s' & Hs & -> & ->). unfold epcs_open, mbind, M_bind. rewrite Hs. cbn.
  unfold device. cbn. by rewrite (rg_null _ _ _ _ Hr).
Qed.

End Table.

(** ** A table *)

(** The insertion of the vendor's library. *)
Definition insert_after (head e : Z) (m : gmap Z Z) : gmap Z Z :=
  match m !! head with Some n => <[head := e]> (<[e := n]> m) | None => m end.

Lemma path_insert m head a es x v : x ∉ a :: es -> path m head a es -> path (<[x := v]> m) head a es.
Proof.
  induction es as [|e es IH] in a |- *; cbn [path]; intros Hx; [|intros [Ha Hp]].
  - intros Ha. rewrite lookup_insert_ne; [done|]. intros ->. apply Hx. by left.
  - split.
    + rewrite lookup_insert_ne; [done|]. intros ->. apply Hx. by left.
    + apply IH; [|done]. intros H. apply Hx. by right.
Qed.

Lemma insert_after_spec m head es e :
  is_list m head es -> e ∉ 0 :: head :: es -> is_list (insert_after head e m) head (e :: es).
Proof.
  intros (Hp & Hnd & H0) He. rewrite !not_elem_of_cons in He. destruct He as (He0 & Heh & Hes).
  pose proof Hnd as Hnd'. apply list.NoDup_cons in Hnd' as [Hh Hnd'].
  split; [|split].
  - unfold insert_after. destruct es as [|x es]; cbn [path] in *.
    + rewrite Hp. rewrite lookup_insert_eq, lookup_insert_ne, lookup_insert_eq by congruence. done.
    + destruct Hp as [Hx Hp]. rewrite Hx. rewrite lookup_insert_eq, lookup_insert_ne, lookup_insert_eq by congruence.
      split_and!; [done|done|]. by apply path_insert, path_insert.
  - apply list.NoDup_cons. split; [|by apply list.NoDup_cons]. intros [->|Hin]%elem_of_cons; [done|by apply Hh].
  - rewrite !not_elem_of_cons in *. destruct H0. split_and!; [done|congruence|done].
Qed.

Definition sim_llist : LList := {| alt_llist_insert := insert_after; llist_insert_spec := insert_after_spec |}.

Definition sim_callbacks : Callbacks := {| call_open := fun _ dev _ => mret dev; call_close := fun _ _ => mret tt |}.

Definition sim_flash : flash_dev := mkDev 1 [mkRegion 0 2097152 32 65536] 0.
Definition sim_name (a : Z) : list Z := if a =? 200 then [47; 99] else [47; 101; 112].
Definition sim_devs : st :=
  mkSt {[ 8 := 8 ]}
    {[ 100 := mkEntry (Some (sim_name 100)) 0 0 sim_flash; 200 := mkEntry (Some (sim_name 200)) 0 0 sim_flash;
       300 := mkEntry (Some (sim_name 300)) 0 0 sim_flash ]} 0 None 0.

Lemma sim_registrable : registrable 8 [100; 200; 300] sim_name sim_devs.
Proof.
  split.
  - split_and!; [by vm_compute|by apply NoDup_singleton|]. by rewrite list_elem_of_singleton.
  - apply (bool_decide_unpack _). by vm_compute.
  - apply (bool_decide_unpack _). by vm_compute.
  - repeat apply Forall_cons_2; [..|by apply Forall_nil_2]; (eexists; split_and!; [by vm_compute|done|]); repeat constructor; done.
  - intros a d Ha. unfold sim_devs in Ha. cbn [devs] in Ha. rewrite !lookup_insert_Some, lookup_singleton_Some in Ha.
    by destruct Ha as [[_ <-]|[_ [[_ <-]|[_ [_ <-]]]]].
  - by vm_compute.
Qed.

Lemma flash_table_refines_witness :
  wp (register (ll := sim_llist) 8 [100; 200; 300];; alt_flash_open_dev (cb := sim_callbacks) 8 5 [47; 101; 112])
    (fun r s' => r = default 0 (table sim_name [100; 200; 300] !! [47; 101; 112]) /\ devs s' = devs sim_devs) sim_devs /\
  default 0 (table sim_name [100; 200; 300] !! [47; 101; 112]) = 300.
Proof.
  split; [|by vm_compute]. apply (flash_table_refines (ll := sim_llist) (cb := sim_callbacks)).
  - apply sim_registrable.
  - repeat constructor; done.
  - cbn. lia.
Defined.
