(* ===== verification/Lcd.v ===== *)
(** * The character LCD as a small terminal
    (packages/devs/serial/sopc/altera_avalon_lcd_16207, altera_avalon_lcd_16207.c)

    State: the device structure, the sequence of register writes, and how long
    the panel will be busy at each of the coming waits.  [char] is signed, so
    the cursor and the scroll limit wrap at 128.  An index outside its array is
    undefined.

    The timer interrupt may fire while a character is put: [putc] takes the
    numbers of ticks that occur during its successive repaints. *)

From S2P Require Import Prelude.

Definition ALT_LCD_HEIGHT : Z := 2.
Definition ALT_LCD_WIDTH : Z := 16.
Definition ALT_LCD_VIRTUAL_WIDTH : Z := 80.

Definition LCD_CMD_WRITE_DATA : Z := 128.
Definition LCD_CMD_FUNCTION_SET : Z := 32.
Definition LCD_CMD_8BIT : Z := 16.
Definition LCD_CMD_TWO_LINE : Z := 8.
Definition LCD_CMD_ONOFF : Z := 8.
Definition LCD_CMD_ENABLE_DISP : Z := 4.
Definition LCD_CMD_MODES : Z := 4.
Definition LCD_CMD_MODE_INC : Z := 2.
Definition LCD_CMD_CLEAR : Z := 1.

(** Where in the character memory the rows start. *)
Definition colstart : list Z := [0; 64; 32; 96].

Definition SPACE : Z := 32.

Inductive lcd_event :=
| LcdCommand (c : Z)
| LcdData (c : Z)
| LcdDelay (us : Z).

(** One line of the terminal. *)
Record row := mkRow {
  visible : list Z;  (* what the panel shows, 16 characters *)
  data : list Z;  (* the virtual line, 81 characters *)
  width : Z;  (* columns that scroll *)
  speed : Z  (* scroll speed, in 1/256 columns per tick *)
}.

Definition set_visible (v : list Z) (s : row) : row :=
  mkRow v (data s) (width s) (speed s).

Definition set_data (v : list Z) (s : row) : row :=
  mkRow (visible s) v (width s) (speed s).

Definition set_width (v : Z) (s : row) : row :=
  mkRow (visible s) (data s) v (speed s).

Definition set_speed (v : Z) (s : row) : row :=
  mkRow (visible s) (data s) (width s) v.

(** The structure [alt_lcd_16207_dev] and the panel's side. *)
Record lcd := mkLcd {
  broken : bool;  (* the panel did not answer *)
  x : Z;  (* a signed char *)
  y : Z;  (* a signed char *)
  address : Z;  (* the panel's address counter *)
  esccount : Z;  (* -1 outside an escape sequence *)
  scrollpos : Z;
  scrollmax : Z;  (* a signed char *)
  active : bool;  (* the foreground is painting *)
  escape : list Z;  (* 8 characters *)
  lines : list row;  (* 2 lines *)
  busy : list nat;  (* how long the panel will be busy, at each wait *)
  out : list lcd_event  (* the register writes, newest last *)
}.

Definition set_broken (v : bool) (s : lcd) : lcd :=
  mkLcd v (x s) (y s) (address s) (esccount s) (scrollpos s) (scrollmax s) (active s) (escape
    s) (lines s) (busy s) (out s).

Definition set_x (v : Z) (s : lcd) : lcd :=
  mkLcd (broken s) v (y s) (address s) (esccount s) (scrollpos s) (scrollmax s) (active s)
    (escape s) (lines s) (busy s) (out s).

Definition set_y (v : Z) (s : lcd) : lcd :=
  mkLcd (broken s) (x s) v (address s) (esccount s) (scrollpos s) (scrollmax s) (active s)
    (escape s) (lines s) (busy s) (out s).

Definition set_address (v : Z) (s : lcd) : lcd :=
  mkLcd (broken s) (x s) (y s) v (esccount s) (scrollpos s) (scrollmax s) (active s) (escape
    s) (lines s) (busy s) (out s).

Definition set_esccount (v : Z) (s : lcd) : lcd :=
  mkLcd (broken s) (x s) (y s) (address s) v (scrollpos s) (scrollmax s) (active s) (escape s)
    (lines s) (busy s) (out s).

Definition set_scrollpos (v : Z) (s : lcd) : lcd :=
  mkLcd (broken s) (x s) (y s) (address s) (esccount s) v (scrollmax s) (active s) (escape s)
    (lines s) (busy s) (out s).

Definition set_scrollmax (v : Z) (s : lcd) : lcd :=
  mkLcd (broken s) (x s) (y s) (address s) (esccount s) (scrollpos s) v (active s) (escape s)
    (lines s) (busy s) (out s).

Definition set_active (v : bool) (s : lcd) : lcd :=
  mkLcd (broken s) (x s) (y s) (address s) (esccount s) (scrollpos s) (scrollmax s) v (escape
    s) (lines s) (busy s) (out s).

Definition set_escape (v : list Z) (s : lcd) : lcd :=
  mkLcd (broken s) (x s) (y s) (address s) (esccount s) (scrollpos s) (scrollmax s) (active s)
    v (lines s) (busy s) (out s).

Definition set_lines (v : list row) (s : lcd) : lcd :=
  mkLcd (broken s) (x s) (y s) (address s) (esccount s) (scrollpos s) (scrollmax s) (active s)
    (escape s) v (busy s) (out s).

Definition set_busy (v : list nat) (s : lcd) : lcd :=
  mkLcd (broken s) (x s) (y s) (address s) (esccount s) (scrollpos s) (scrollmax s) (active s)
    (escape s) (lines s) v (out s).

Definition set_out (v : list lcd_event) (s : lcd) : lcd :=
  mkLcd (broken s) (x s) (y s) (address s) (esccount s) (scrollpos s) (scrollmax s) (active s)
    (escape s) (lines s) (busy s) v.

Definition emit (e : lcd_event) : M lcd unit := modify (fun s => set_out (out s ++ [e]) s).

(** ** Access to the panel *)

(** The wait loop, for a panel that reports busy [n] times: does it become
    ready before the counter [i] reaches zero? *)
Fixpoint wait_loop (n : nat) (i : Z) : bool :=
  match n with
  | O => true
  | S k => if i - 1 =? 0 then false else wait_loop k (i - 1)
  end.

Definition lcd_wait : M lcd bool :=
  s ← get;
  modify (set_busy (tail (busy s)));;
  if wait_loop (default O (head (busy s))) 1000000 then mret true
  else modify (set_broken true);; mret false.

Definition lcd_write_command (command : Z) : M lcd unit :=
  s ← get;
  if broken s then mret tt
  else
    ok ← lcd_wait;
    when ok (emit (LcdDelay 100);; emit (LcdCommand command)).

Definition lcd_write_data (c : Z) : M lcd unit :=
  s ← get;
  if broken s then mret tt
  else
    ok ← lcd_wait;
    when ok
      (emit (LcdDelay 100);; emit (LcdData c);;
       modify (fun s => set_address (s8 (address s + 1)) s)).

(** ** Lines *)

Definition blank_row (r : row) : row :=
  mkRow (replicate 16 SPACE) (replicate 81 SPACE) 0 (speed r).

Definition lcd_clear_screen : M lcd unit :=
  lcd_write_command LCD_CMD_CLEAR;;
  modify (set_x 0);;
  modify (set_y 0);;
  modify (set_address 0);;
  modify (fun s => set_lines (map blank_row (lines s)) s).

(** A line of the device, by index. *)
Definition get_row (i : Z) : M lcd row :=
  s ← get;
  if i <? 0 then undef
  else match lines s !! Z.to_nat i with Some r => mret r | None => undef end.

Definition put_row (i : Z) (r : row) : M lcd unit :=
  s ← get;
  if (i <? 0) || (Z.of_nat (Datatypes.length (lines s)) <=? i) then undef
  else modify (set_lines (<[Z.to_nat i := r]> (lines s))).

(** One character cell of the repaint. *)
Definition repaint_cell (i offset w col : Z) : M lcd unit :=
  r ← get_row i;
  if w =? 0 then undef
  else
    match data r !! Z.to_nat ((col + offset) mod w), visible r !! Z.to_nat col,
          colstart !! Z.to_nat i with
    | Some c, Some v, Some start =>
        if v =? c then mret tt
        else
          let addr := u8 (col + start) in
          s ← get;
          unless (addr =? address s)
            (lcd_write_command (Z.lor LCD_CMD_WRITE_DATA addr);; modify (set_address (s8 addr)));;
          lcd_write_data c;;
          r ← get_row i;
          put_row i (set_visible (<[Z.to_nat col := c]> (visible r)) r)
    | _, _, _ => undef
    end.

Fixpoint repaint_cells (n : nat) (i offset w col : Z) : M lcd unit :=
  match n with
  | O => mret tt
  | S k => repaint_cell i offset w col;; repaint_cells k i offset w (col + 1)
  end.

Definition repaint_row (pos i : Z) : M lcd unit :=
  r ← get_row i;
  let offset := Z.shiftr (pos * speed r) 8 in
  let offset := if offset >=? width r then 0 else offset in
  repaint_cells 16 i offset (width r) 0.

Definition lcd_repaint_screen : M lcd unit :=
  s ← get;
  let pos := scrollpos s in
  repaint_row pos 0;;
  repaint_row pos 1.

(** Only the 80 columns of the virtual width move. *)
Definition move_row (from r : row) : row := set_data (take 80 (data from) ++ drop 80 (data r)) r.

Definition clear_row (r : row) : row := set_data (replicate 80 SPACE ++ drop 80 (data r)) r.

Definition lcd_scroll_up : M lcd unit :=
  r0 ← get_row 0;
  r1 ← get_row 1;
  put_row 0 (move_row r1 r0);;
  put_row 1 (clear_row r1);;
  modify (fun s => set_y (s8 (y s - 1)) s).

(** ** Escape sequences *)

Definition isdigit (c : Z) : bool := (48 <=? c) && (c <=? 57).

(** The digits at the start of a text, and the rest; past the array is
    undefined. *)
Fixpoint scan_parm (s : list Z) (parm : Z) : option (Z * list Z) :=
  match s with
  | [] => None
  | c :: s' => if isdigit c then scan_parm s' (parm * 10 + (c - 48)) else Some (parm, s)
  end.

Definition scan_parms (esc : list Z) : option (Z * Z) :=
  match esc with
  | [] => None
  | c :: rest =>
      if c =? 91 then
        match scan_parm rest 0 with
        | None => None
        | Some (parm1, rest) =>
            match rest with
            | 59 :: rest' =>
                match scan_parm rest' 0 with
                | None => None
                | Some (parm2, _) => Some (parm1, parm2)
                end
            | _ => Some (parm1, 0)
            end
        end
      else Some (-1, 0)
  end.

(** [while (dev->y > ALT_LCD_HEIGHT) lcd_scroll_up(dev)]; [y] is at most 4. *)
Fixpoint scroll_loop (fuel : nat) : M lcd unit :=
  match fuel with
  | O => no_fuel
  | S k =>
      s ← get;
      if y s >? ALT_LCD_HEIGHT then lcd_scroll_up;; scroll_loop k else mret tt
  end.

Definition move_cursor (parm1 parm2 : Z) : M lcd unit :=
  when (parm2 >? 0) (modify (set_x (s8 (parm2 - 1))));;
  when (parm1 >? 0)
    (modify (set_y (s8 (parm1 - 1)));;
     s ← get;
     when (y s >? ALT_LCD_HEIGHT * 2) (modify (set_y (s8 (ALT_LCD_HEIGHT * 2))));;
     scroll_loop 3).

Definition clear_to_eol : M lcd unit :=
  s ← get;
  if x s <? ALT_LCD_VIRTUAL_WIDTH then
    if x s <? 0 then undef
    else
      r ← get_row (y s);
      let n := Z.to_nat (x s) in
      put_row (y s) (set_data (take n (data r) ++ replicate (80 - n) SPACE ++ drop 80 (data r)) r)
  else mret tt.

Definition lcd_handle_escape (c : Z) : M lcd unit :=
  s ← get;
  match scan_parms (escape s) with
  | None => undef
  | Some (parm1, parm2) =>
      if (c =? 72) || (c =? 102) then move_cursor parm1 parm2
      else if c =? 74 then when (parm1 =? 2) lcd_clear_screen
      else if c =? 75 then when (parm1 <? 1) clear_to_eol
      else mret tt
  end.

(** ** Writing a character *)

Definition isprint (c : Z) : bool := (32 <=? c) && (c <=? 126).

Definition store_escape (c : Z) : M lcd unit :=
  s ← get;
  let n := esccount s in
  if ((n =? 0) && negb (c =? 91)) || ((n >? 0) && negb (isdigit c) && negb (c =? 59)) then
    modify (set_escape (<[Z.to_nat n := 0]> (escape s)));;
    lcd_handle_escape c;;
    modify (set_esccount (-1))
  else
    when (n <? 7)
      (modify (set_escape (<[Z.to_nat n := c]> (escape s)));; modify (set_esccount (n + 1))).

Definition store_char (c : Z) : M lcd unit :=
  s ← get;
  when (y s >=? ALT_LCD_HEIGHT) lcd_scroll_up;;
  s ← get;
  when (x s <? ALT_LCD_VIRTUAL_WIDTH)
    (if x s <? 0 then undef
     else
       r ← get_row (y s);
       put_row (y s) (set_data (<[Z.to_nat (x s) := c]> (data r)) r));;
  modify (fun s => set_x (s8 (x s + 1)) s).

Definition dispatch (c : Z) : M lcd unit :=
  s ← get;
  if esccount s >=? 0 then store_escape c
  else if c =? 27 then modify (set_esccount 0)
  else if c =? 13 then modify (set_x 0)
  else if c =? 10 then
    modify (set_x 0);;
    modify (fun s => set_y (s8 (y s + 1)) s);;
    s ← get;
    when (y s >? ALT_LCD_HEIGHT) lcd_scroll_up
  else if c =? 8 then when (x s >? 0) (modify (set_x (s8 (x s - 1))))
  else if isprint c then store_char c
  else mret tt.

(** The index after the last character that is not a space. *)
Fixpoint text_width (n : nat) (d : list Z) : Z :=
  match n with
  | O => 0
  | S k => if nth k d 0 =? SPACE then text_width k d else Z.of_nat n
  end.

Definition row_width (r : row) : Z :=
  let w := text_width 80 (data r) in
  if w <=? ALT_LCD_WIDTH then ALT_LCD_WIDTH else w + 1.

Definition measure_row (r : row) : row := set_speed 0 (set_width (s8 (row_width r)) r).

Definition speed_row (widthmax : Z) (r : row) : row :=
  if width r >? ALT_LCD_WIDTH then set_speed (u8 (256 * width r / widthmax)) r else r.

Definition set_scrolling (s : lcd) : lcd :=
  let rows := map measure_row (lines s) in
  let widthmax := foldl (fun w r => if w <? row_width r then row_width r else w)
                    ALT_LCD_WIDTH (lines s) in
  if widthmax <=? ALT_LCD_WIDTH then set_scrollmax 0 (set_lines rows s)
  else
    let widthmax := widthmax * 2 in
    set_scrollmax (s8 widthmax) (set_lines (map (speed_row widthmax) rows) s).

(** ** The timer *)

Definition next_scrollpos (s : lcd) : Z :=
  if scrollpos s + 1 >=? scrollmax s then 0 else s8 (scrollpos s + 1).

Definition alt_lcd_16207_timeout : M lcd unit :=
  modify (fun s => set_scrollpos (next_scrollpos s) s);;
  s ← get;
  when ((scrollmax s >? 0) && negb (active s)) lcd_repaint_screen.

Fixpoint run_ticks (n : nat) : M lcd unit :=
  match n with
  | O => mret tt
  | S k => alt_lcd_16207_timeout;; run_ticks k
  end.

(** Repaint until no tick came in between; [ticks] says how many come during
    each repaint, none after its end. *)
Fixpoint repaint_loop (ticks : list nat) : M lcd unit :=
  s ← get;
  let old_scrollpos := scrollpos s in
  lcd_repaint_screen;;
  match ticks with
  | [] => modify (set_active false)
  | n :: ticks' =>
      run_ticks n;;
      modify (set_active false);;
      s ← get;
      if scrollpos s =? old_scrollpos then mret tt
      else modify (set_active true);; repaint_loop ticks'
  end.

Definition alt_lcd_16207_putc (ticks : list nat) (c : Z) : M lcd bool :=
  modify (set_active true);;
  dispatch c;;
  modify set_scrolling;;
  repaint_loop ticks;;
  mret true.

Definition alt_lcd_16207_getc : Z := 0.

(** ** Initialisation *)

(** The set-up of the panel and the structure; the alarm that calls
    [alt_lcd_16207_timeout] every 100 ms is created by the kernel. *)
Definition alt_lcd_16207_init : M lcd bool :=
  modify (set_broken false);;
  emit (LcdDelay 15000);;
  emit (LcdCommand (Z.lor LCD_CMD_FUNCTION_SET LCD_CMD_8BIT));;
  emit (LcdDelay 4100);;
  emit (LcdCommand (Z.lor LCD_CMD_FUNCTION_SET LCD_CMD_8BIT));;
  emit (LcdDelay 1000);;
  emit (LcdCommand (Z.lor LCD_CMD_FUNCTION_SET LCD_CMD_8BIT));;
  lcd_write_command (Z.lor (Z.lor LCD_CMD_FUNCTION_SET LCD_CMD_8BIT) LCD_CMD_TWO_LINE);;
  lcd_write_command LCD_CMD_ONOFF;;
  lcd_clear_screen;;
  lcd_write_command (Z.lor LCD_CMD_MODES LCD_CMD_MODE_INC);;
  lcd_write_command (Z.lor LCD_CMD_ONOFF LCD_CMD_ENABLE_DISP);;
  modify (set_esccount (-1));;
  modify (set_escape (replicate 8 0));;
  modify (set_scrollpos 0);;
  modify (set_scrollmax 0);;
  modify (set_active false);;
  mret true.
