(* ===== verification/LcdFacts.v ===== *)
(** * The LCD terminal: the panel mirrors the device structure

    [panel_step] is the effect of a register write on the panel's character
    memory and address counter, as its controller documents it.  As long as the
    panel answers, the driver's [visible] arrays and [address] are what the
    panel holds, and a repaint makes them the scrolled window of the lines. *)

From S2P Require Import Prelude.
From S2P Require Import Lcd.

(** ** The panel *)

Record panel := mkPanel { ddram : list Z; ac : Z }.

Definition panel_step (p : panel) (e : lcd_event) : panel :=
  match e with
  | LcdCommand c =>
      if Z.testbit c 7 then mkPanel (ddram p) (Z.land c 127)
      else if c =? LCD_CMD_CLEAR then mkPanel (replicate 128 SPACE) 0
      else p
  | LcdData c => mkPanel (<[Z.to_nat (ac p) := c]> (ddram p)) (ac p + 1)
  | LcdDelay _ => p
  end.

Definition panel0 : panel := mkPanel (replicate 128 0) 0.

Definition panel_of (o : list lcd_event) : panel := foldl panel_step panel0 o.

(** ** Well-formed states *)

Record row_ok (r : row) : Prop := {
  row_visible : length (visible r) = 16%nat;
  row_data : length (data r) = 81%nat
}.

Definition rows_ok (ls : list row) : Prop := length ls = 2%nat /\ Forall row_ok ls.

(** While the panel answers, it holds what the structure says. *)
Record mirrors (s : lcd) : Prop := {
  mir_rows : rows_ok (lines s);
  mir_addr : 0 <= address s <= 80;
  mir_ddram : length (ddram (panel_of (out s))) = 128%nat;
  mir_ac : broken s = false -> ac (panel_of (out s)) = address s;
  mir_cells : broken s = false ->
    forall (i j : nat) r, lines s !! i = Some r -> (j < 16)%nat ->
      ddram (panel_of (out s)) !! (Z.to_nat (nth i colstart 0%Z) + j)%nat = visible r !! j
}.

Lemma panel_of_app o e : panel_of (o ++ [e]) = panel_step (panel_of o) e.
Proof. unfold panel_of. by rewrite foldl_app. Qed.

Lemma ddram_step p e : length (ddram p) = 128%nat -> length (ddram (panel_step p e)) = 128%nat.
Proof.
  intros H. destruct e as [c|c|us]; cbn [panel_step ddram]; [|by rewrite length_insert|done].
  destruct (Z.testbit c 7), (c =? LCD_CMD_CLEAR); done.
Qed.

Lemma panel_of_length o : length (ddram (panel_of o)) = 128%nat.
Proof.
  induction o as [|e o IH] using rev_ind; [done|]. rewrite panel_of_app. by apply ddram_step.
Qed.

(** A change of the panel's side and of the address only. *)
Definition with_hw (b : bool) (a : Z) (bs : list nat) (o : list lcd_event) (s : lcd) : lcd :=
  set_broken b (set_address a (set_busy bs (set_out o s))).

Lemma with_hw_same b s : broken s = b -> s = with_hw b (address s) (busy s) (out s) s.
Proof. intros <-. by destruct s. Qed.

(** Either the panel gave up, or it got the command. *)
Lemma lcd_write_command_ok c s :
  wp (lcd_write_command c)
    (fun _ s' => exists b bs o, s' = with_hw b (address s) bs o s
       /\ (b = true /\ o = out s
           \/ b = false /\ broken s = false
              /\ panel_of o = panel_step (panel_of (out s)) (LcdCommand c))) s.
Proof.
  unfold lcd_write_command, lcd_wait. wp_steps. destruct (broken s) eqn:Hb.
  { wp_steps. exists true, (busy s), (out s). split; [by apply with_hw_same|]. auto. }
  wp_steps. destruct (wait_loop _ _); wp_steps; unfold when.
  - unfold emit. wp_steps. exists false, (tail (busy s)), ((out s ++ [LcdDelay 100]) ++ [LcdCommand c]).
    split; [unfold with_hw; destruct s; simpl in *; by subst|].
    rewrite !panel_of_app. auto.
  - wp_steps. exists true, (tail (busy s)), (out s). split; [by destruct s|]. auto.
Qed.

Lemma lcd_write_data_ok c s :
  0 <= address s <= 79 ->
  wp (lcd_write_data c)
    (fun _ s' => exists b a bs o, s' = with_hw b a bs o s
       /\ (b = true /\ o = out s /\ a = address s
           \/ b = false /\ broken s = false
              /\ panel_of o = panel_step (panel_of (out s)) (LcdData c) /\ a = address s + 1)) s.
Proof.
  intros Ha. unfold lcd_write_data, lcd_wait. wp_steps. destruct (broken s) eqn:Hb.
  { wp_steps. exists true, (address s), (busy s), (out s). split; [by apply with_hw_same|]. auto. }
  wp_steps. destruct (wait_loop _ _); wp_steps; unfold when.
  - unfold emit. wp_steps.
    exists false, (address s + 1), (tail (busy s)), ((out s ++ [LcdDelay 100]) ++ [LcdData c]).
    split; [destruct s; simpl in *; subst; unfold with_hw; simpl; by rewrite s8_id by lia|].
    rewrite !panel_of_app. auto.
  - wp_steps. exists true, (address s), (tail (busy s)), (out s). split; [by destruct s|]. auto.
Qed.

Lemma get_row_ok (i : nat) r s (Q : row -> lcd -> Prop) :
  lines s !! i = Some r -> Q r s -> wp (get_row (Z.of_nat i)) Q s.
Proof.
  intros Hr HQ. unfold get_row. wp_steps. rewrite (proj2 (Z.ltb_ge _ _)) by lia.
  rewrite Nat2Z.id, Hr. by wp_steps.
Qed.

Lemma put_row_ok (i : nat) r s (Q : unit -> lcd -> Prop) :
  (i < length (lines s))%nat -> Q tt (set_lines (<[i := r]> (lines s)) s) ->
  wp (put_row (Z.of_nat i) r) Q s.
Proof.
  intros Hi HQ. unfold put_row. wp_steps.
  rewrite (proj2 (Z.ltb_ge _ _)), (proj2 (Z.leb_gt _ _)) by lia. cbn [orb].
  wp_steps. by rewrite Nat2Z.id.
Qed.

Definition start (i : nat) : Z := nth i colstart 0.

Lemma start_lookup i : (i < 2)%nat -> colstart !! i = Some (start i) /\ (start i = 0 \/ start i = 64).
Proof. intros Hi. destruct i as [|[|]]; [by auto..|lia]. Qed.

(** Writing [c] at the panel's address puts it into the cell that [col] of row
    [i] names. *)
Lemma cell_written (i j i' j' : nat) (c : Z) (d v v' : list Z) :
  (i < 2)%nat -> (i' < 2)%nat -> (j < 16)%nat -> (j' < 16)%nat -> length d = 128%nat ->
  d !! (Z.to_nat (start i') + j')%nat = v' !! j' -> length v = 16%nat -> (i = i' -> v = v') ->
  <[(Z.to_nat (start i) + j)%nat := c]> d !! (Z.to_nat (start i') + j')%nat
  = (if decide (i = i') then <[j := c]> v else v') !! j'.
Proof.
  intros Hi Hi' Hj Hj' Hd Hv Hl Heq.
  destruct (start_lookup i Hi) as [_ Hs], (start_lookup i' Hi') as [_ Hs'].
  destruct (decide (i = i')) as [<-|Hne].
  - rewrite <- (Heq eq_refl) in Hv. destruct (decide (j = j')) as [->|Hjj].
    + rewrite !list_lookup_insert_eq by lia. done.
    + rewrite !list_lookup_insert_ne by lia. done.
  - rewrite list_lookup_insert_ne; [done|]. unfold start in *.
    destruct i as [|[|]], i' as [|[|]]; simpl; lia.
Qed.

Definition cell (r : row) (off w : Z) (col : nat) : Z :=
  nth (Z.to_nat ((Z.of_nat col + off) mod w)) (data r) 0.

Definition with_cell (i col : nat) (r : row) (c : Z) (s : lcd) : lcd :=
  set_lines (<[i := set_visible (<[col := c]> (visible r)) r]> (lines s)) s.

Lemma mirrors_rows_insert ls i r' :
  rows_ok ls -> row_ok r' -> rows_ok (<[i := r']> ls).
Proof. intros [Hl Hf] Hr. split; [by rewrite length_insert|]. by apply Forall_insert. Qed.

(** The cell after the write, when the panel answered. *)
Lemma mirrors_cell s i col r c b a bs o p :
  mirrors s -> lines s !! i = Some r -> (col < 16)%nat ->
  ddram p = ddram (panel_of (out s)) -> ac p = start i + Z.of_nat col ->
  (b = false -> broken s = false) ->
  (panel_of o = panel_step p (LcdData c) /\ a = ac p + 1
   \/ b = true /\ ddram (panel_of o) = ddram (panel_of (out s)) /\ a = ac p) ->
  mirrors (with_hw b a bs o (with_cell i col r c s)).
Proof.
  intros [Hrows Ha Hd Hac Hcells] Hr Hcol Hpd Hpa Hb Ho.
  pose proof Hrows as [Hlen Hall]. pose proof (lookup_lt_Some _ _ _ Hr) as Hi. rewrite Hlen in Hi.
  assert (row_ok r) as Hrok by (by eapply Forall_lookup_1).
  destruct (start_lookup i Hi) as [_ Hst].
  split; cbn [with_hw with_cell set_broken set_address set_busy set_out set_lines lines address out broken].
  - apply mirrors_rows_insert; [done|]. destruct Hrok. split; simpl; [by rewrite length_insert|done].
  - destruct Ho as [[_ ->]|(_ & _ & ->)]; lia.
  - destruct Ho as [[-> _]|(_ & -> & _)]; [|done]. apply ddram_step. by rewrite Hpd.
  - intros ->. destruct Ho as [[-> ->]|[? _]]; done.
  - intros -> i' j' r' Hr' Hj'. destruct Ho as [[-> ->]|[? _]]; [|done].
    assert (i' < 2)%nat as Hi' by (apply lookup_lt_Some in Hr'; rewrite length_insert, Hlen in Hr'; done).
    destruct (lookup_lt_is_Some_2 (lines s) i') as [r0 Hr0]; [lia|].
    specialize (Hcells (Hb eq_refl) i' j' r0 Hr0 Hj'). fold (start i') in Hcells.
    cbn [panel_step ddram]. rewrite Hpd, Hpa.
    replace (Z.to_nat (start i + Z.of_nat col)) with (Z.to_nat (start i) + col)%nat by lia.
    fold (start i'). rewrite (cell_written i col i' j' c _ (visible r) (visible r0)); try done.
    + destruct (decide (i = i')) as [<-|Hne].
      * rewrite list_lookup_insert_eq in Hr' by lia. by injection Hr' as <-.
      * rewrite list_lookup_insert_ne, Hr0 in Hr' by done. by injection Hr' as <-.
    + by destruct Hrok.
    + intros <-. congruence.
Qed.

Lemma with_cell_same i col r s :
  lines s !! i = Some r -> forall c, visible r !! col = Some c -> with_cell i col r c s = s.
Proof.
  intros Hr c Hc. unfold with_cell. rewrite (list_insert_id (visible r)) by done.
  replace (set_visible (visible r) r) with r by (by destruct r).
  rewrite list_insert_id by done. by destruct s.
Qed.

Lemma write_address_bits a : 0 <= a <= 79 ->
  Z.testbit (Z.lor LCD_CMD_WRITE_DATA a) 7 = true /\ Z.land (Z.lor LCD_CMD_WRITE_DATA a) 127 = a.
Proof.
  intros Ha.
  assert (forallb (fun a => Z.testbit (Z.lor LCD_CMD_WRITE_DATA a) 7
            && (Z.land (Z.lor LCD_CMD_WRITE_DATA a) 127 =? a)) (seqZ 0 80) = true) as H
    by (vm_compute; done).
  rewrite forallb_forall in H. specialize (H a). rewrite andb_true_iff, Z.eqb_eq in H.
  apply H, list_elem_of_In, elem_of_seqZ. lia.
Qed.

(** Repainting a cell makes it the character of the scrolled line, in the
    structure and on the panel. *)
Lemma repaint_cell_ok (i col : nat) off w r s :
  mirrors s -> lines s !! i = Some r -> (col < 16)%nat -> 0 < w <= 81 ->
  wp (repaint_cell (Z.of_nat i) off w (Z.of_nat col))
    (fun _ s' => exists b a bs o, s' = with_hw b a bs o (with_cell i col r (cell r off w col) s)
                 /\ mirrors s') s.
Proof.
  intros Hm Hr Hcol Hw. pose proof Hm as [[Hlen Hall] Ha _ Hac _].
  pose proof (lookup_lt_Some _ _ _ Hr) as Hi. rewrite Hlen in Hi.
  assert (row_ok r) as [Hvis Hdat] by (by eapply Forall_lookup_1).
  destruct (start_lookup i Hi) as [Hstart Hst]. set (k := (Z.of_nat col + off) mod w).
  assert (0 <= k < w) as Hk by (apply Z.mod_pos_bound; lia).
  destruct (lookup_lt_is_Some_2 (data r) (Z.to_nat k)) as [c Hc]; [lia|].
  destruct (lookup_lt_is_Some_2 (visible r) col) as [v Hv]; [lia|].
  assert (cell r off w col = c) as -> by (unfold cell; fold k; by rewrite nth_lookup, Hc).
  unfold repaint_cell. apply wp_bind. eapply get_row_ok; [done|].
  rewrite (proj2 (Z.eqb_neq w 0)) by lia. fold k. rewrite Hc, !Nat2Z.id, Hv, Hstart.
  destruct (Z.eqb_spec v c) as [->|Hne].
  { wp_steps. exists (broken s), (address s), (busy s), (out s). rewrite (with_cell_same _ _ _ _ Hr) by done.
    rewrite <- (with_hw_same (broken s) s eq_refl). done. }
  assert (u8 (Z.of_nat col + start i) = start i + Z.of_nat col) as ->
    by (rewrite u8_id by (unfold is_byte; lia); lia).
  set (ad := start i + Z.of_nat col). assert (0 <= ad <= 79) as Had by (unfold ad; lia). wp_steps.
  apply (wp_mono _ (fun _ s1 => exists b1 bs1 o1, s1 = with_hw b1 ad bs1 o1 s
           /\ (b1 = false -> broken s = false) /\ ddram (panel_of o1) = ddram (panel_of (out s))
           /\ (b1 = false -> ac (panel_of o1) = ad))).
  { destruct (Z.eqb_spec ad (address s)) as [E|E]; unfold unless.
    - wp_steps. exists (broken s), (busy s), (out s). rewrite E.
      split_and!; [by apply with_hw_same|done..].
    - apply wp_bind. eapply wp_mono; [apply lcd_write_command_ok|].
      intros _ s1 (b1 & bs1 & o1 & -> & Ho1). wp_steps. exists b1, bs1, o1.
      split; [unfold with_hw; rewrite s8_id by lia; by destruct s|].
      destruct (write_address_bits ad Had) as [Hbit Hland].
      destruct Ho1 as [[-> ->]|(-> & Hbs & ->)]; [done|].
      cbn [panel_step]. rewrite Hbit. done. }
  intros _ s1 (b1 & bs1 & o1 & -> & Hb1 & Hd1 & Hac1). apply wp_bind.
  eapply wp_mono; [apply lcd_write_data_ok; done|].
  intros _ s2 (b2 & a2 & bs2 & o2 & -> & Ho2). apply wp_bind. eapply get_row_ok; [done|].
  apply put_row_ok; [simpl; lia|].
  exists b2, a2, bs2, o2. split; [by destruct s|].
  replace (set_lines _ _) with (with_hw b2 a2 bs2 o2 (with_cell i col r c s)) by (by destruct s).
  eapply (mirrors_cell s i col r c b2 a2 bs2 o2 (mkPanel (ddram (panel_of o1)) ad)); try done.
  - intros ->. destruct Ho2 as [[? _]|(_ & Hbr & _)]; [done|]. by apply Hb1.
  - destruct Ho2 as [(-> & -> & ->)|(-> & Hbr & -> & ->)]; [right|left].
    + done.
    + split; [|done]. simpl in Hbr |- *. by rewrite (Hac1 Hbr).
Qed.

Lemma repaint_cells_ok n (i col : nat) off w r s :
  mirrors s -> lines s !! i = Some r -> (col + n <= 16)%nat -> 0 < w <= 81 ->
  wp (repaint_cells n (Z.of_nat i) off w (Z.of_nat col))
    (fun _ s' => exists b a bs o v,
       s' = with_hw b a bs o (set_lines (<[i := set_visible v r]> (lines s)) s)
       /\ mirrors s'
       /\ forall j, v !! j = if decide (col <= j < col + n)%nat then Some (cell r off w j)
                             else visible r !! j) s.
Proof.
  revert col r s. induction n as [|n IH]; intros col r s Hm Hr Hcol Hw; cbn [repaint_cells].
  { wp_steps. exists (broken s), (address s), (busy s), (out s), (visible r).
    replace (set_visible (visible r) r) with r by (by destruct r). rewrite list_insert_id by done.
    replace (set_lines (lines s) s) with s by (by destruct s).
    split; [by apply with_hw_same|]. split; [done|]. intros j. by rewrite decide_False by lia. }
  apply wp_bind. eapply wp_mono; [eapply repaint_cell_ok; (done || lia)|].
  intros _ s1 (b1 & a1 & bs1 & o1 & -> & Hm1).
  pose proof Hm as [[Hlen Hall] _ _ _ _]. pose proof (lookup_lt_Some _ _ _ Hr) as Hi.
  assert (row_ok r) as [Hvis Hdat] by (by eapply Forall_lookup_1).
  set (r1 := set_visible (<[col:=cell r off w col]> (visible r)) r) in *.
  replace (Z.of_nat col + 1) with (Z.of_nat (S col)) by lia.
  eapply wp_mono; [apply (IH (S col) r1); try done; [|lia]|].
  { simpl. by apply list_lookup_insert_eq. }
  intros _ s2 (b2 & a2 & bs2 & o2 & v & -> & Hm2 & Hv). exists b2, a2, bs2, o2, v.
  assert (with_hw b2 a2 bs2 o2
            (set_lines (<[i:=set_visible v r1]> (lines (with_hw b1 a1 bs1 o1 (with_cell i col r (cell r off w col) s))))
               (with_hw b1 a1 bs1 o1 (with_cell i col r (cell r off w col) s)))
          = with_hw b2 a2 bs2 o2 (set_lines (<[i:=set_visible v r]> (lines s)) s)) as E.
  { destruct s. unfold with_hw, with_cell. simpl. by rewrite list_insert_insert_eq. }
  rewrite E in *. split_and!; [done|done|]. intros j. rewrite Hv.
  change (cell r1 off w j) with (cell r off w j). cbn [visible set_visible r1].
  destruct (decide (j = col)) as [->|Hj].
  - rewrite decide_False, decide_True by lia. apply list_lookup_insert_eq. lia.
  - rewrite list_lookup_insert_ne by done.
    repeat destruct (decide _); try lia; done.
Qed.

(** The scrolled window of a line. *)
Definition row_offset (pos : Z) (r : row) : Z :=
  let off := Z.shiftr (pos * speed r) 8 in if off >=? width r then 0 else off.

Definition window (pos : Z) (r : row) : list Z :=
  map (cell r (row_offset pos r) (width r)) (seq 0 16).

Definition repainted (pos : Z) (r : row) : row := set_visible (window pos r) r.

Lemma repaint_row_ok (i : nat) pos r s :
  mirrors s -> lines s !! i = Some r -> 0 < width r <= 81 ->
  wp (repaint_row pos (Z.of_nat i))
    (fun _ s' => exists b a bs o, s' = with_hw b a bs o (set_lines (<[i := repainted pos r]> (lines s)) s)
                 /\ mirrors s') s.
Proof.
  intros Hm Hr Hw. unfold repaint_row. apply wp_bind. eapply get_row_ok; [done|].
  eapply wp_mono; [apply (repaint_cells_ok 16 i 0 (row_offset pos r) (width r) r); (done || lia)|].
  intros _ s' (b & a & bs & o & v & -> & Hm' & Hv). exists b, a, bs, o.
  assert (v = window pos r) as ->; [|done]. apply list_eq. intros j. rewrite Hv. unfold window.
  rewrite list_lookup_fmap. destruct (decide _) as [Hj|Hj].
  - rewrite lookup_seq_lt by lia. done.
  - rewrite lookup_seq_ge by lia. simpl. apply lookup_ge_None_2.
    pose proof Hm as [[_ Hall] _ _ _ _]. assert (row_ok r) as [-> _] by (by eapply Forall_lookup_1). lia.
Qed.

Definition widths_ok (s : lcd) : Prop := Forall (fun r => 0 < width r <= 81) (lines s).

Lemma lcd_repaint_screen_ok s :
  mirrors s -> widths_ok s ->
  wp lcd_repaint_screen
    (fun _ s' => exists b a bs o,
       s' = with_hw b a bs o (set_lines (map (repainted (scrollpos s)) (lines s)) s)
       /\ mirrors s') s.
Proof.
  intros Hm Hw. pose proof Hm as [[Hlen Hall] _ _ _ _]. unfold lcd_repaint_screen. wp_steps.
  unfold widths_ok in Hw. destruct (lines s) as [|r0 [|r1 [|]]] eqn:El; try done.
  inversion_clear Hw as [|? ? Hw0 Hw']. inversion_clear Hw' as [|? ? Hw1 _].
  eapply wp_mono; [apply (repaint_row_ok 0 (scrollpos s) r0); (done || by rewrite El)|].
  intros _ s1 (b1 & a1 & bs1 & o1 & -> & Hm1). rewrite El in *. simpl in *.
  eapply wp_mono; [apply (repaint_row_ok 1 (scrollpos s) r1); done|].
  intros _ s2 (b2 & a2 & bs2 & o2 & -> & Hm2). exists b2, a2, bs2, o2. simpl.
  assert (forall A B : lcd, A = B -> mirrors A -> A = B /\ mirrors A) as Hpair by done.
  apply Hpair; [by destruct s|exact Hm2].
Qed.

(** ** Painting while the timer ticks *)

Lemma repainted_twice p q ls : map (repainted p) (map (repainted q) ls) = map (repainted p) ls.
Proof. rewrite map_map. apply map_ext. by intros []. Qed.

(** While the foreground is active a tick only moves the scroll position. *)
Lemma run_ticks_ok n s :
  active s = true -> 0 <= scrollpos s < 128 -> -128 <= scrollmax s < 128 ->
  wp (run_ticks n) (fun _ s' => exists p, s' = set_scrollpos p s /\ 0 <= p < 128) s.
Proof.
  revert s. induction n as [|n IH]; intros s Ha Hp Hm; cbn [run_ticks].
  { wp_steps. exists (scrollpos s). split; [by destruct s|done]. }
  unfold alt_lcd_16207_timeout. wp_steps. cbn [active set_scrollpos]. rewrite Ha, andb_false_r. cbn [when]. wp_steps.
  assert (0 <= next_scrollpos s < 128) as Hn.
  { unfold next_scrollpos. destruct (Z.geb_spec (scrollpos s + 1) (scrollmax s)); [lia|].
    rewrite s8_id by lia. lia. }
  eapply wp_mono; [apply IH; done|]. intros _ s' (p & -> & Hp'). exists p. by destruct s.
Qed.

Lemma mirrors_upd s f :
  mirrors s -> lines (f s) = lines s -> address (f s) = address s -> out (f s) = out s ->
  broken (f s) = broken s -> mirrors (f s).
Proof. intros [] E1 E2 E3 E4. split; rewrite ?E1, ?E2, ?E3, ?E4; auto. Qed.

Lemma widths_repainted p ls :
  Forall (fun r => 0 < width r <= 81) ls -> Forall (fun r => 0 < width r <= 81) (map (repainted p) ls).
Proof. intros H. rewrite Forall_map. eapply Forall_impl; [|exact H]. by intros []. Qed.

(** When [repaint_loop] ends, the panel shows the window of the scroll position
    of that moment, however many ticks came in between. *)
Lemma repaint_loop_ok ticks s :
  mirrors s -> widths_ok s -> active s = true -> 0 <= scrollpos s < 128 -> -128 <= scrollmax s < 128 ->
  wp (repaint_loop ticks)
    (fun _ s' => exists b a bs o p,
       s' = with_hw b a bs o (set_active false (set_scrollpos p
              (set_lines (map (repainted p) (lines s)) s)))
       /\ mirrors s' /\ 0 <= p < 128) s.
Proof.
  revert s. induction ticks as [|n ticks IH]; intros s Hm Hw Hact Hp Hmax; cbn [repaint_loop].
  - wp_steps. eapply wp_mono; [by apply lcd_repaint_screen_ok|].
    intros _ s1 (b & a & bs & o & -> & Hm1). wp_steps. exists b, a, bs, o, (scrollpos s).
    split_and!; [by destruct s|by apply (mirrors_upd _ (set_active false))|lia..].
  - wp_steps. eapply wp_mono; [by apply lcd_repaint_screen_ok|].
    intros _ s1 (b & a & bs & o & -> & Hm1). apply wp_bind.
    eapply wp_mono; [apply run_ticks_ok; done|]. intros _ s2 (p & -> & Hp2). wp_steps. simpl.
    destruct (Z.eqb_spec p (scrollpos s)) as [->|Hne].
    + wp_steps. exists b, a, bs, o, (scrollpos s). split_and!; [by destruct s| |lia..].
      by apply (mirrors_upd _ (fun s' => set_active false (set_scrollpos (scrollpos s) s'))).
    + wp_steps. eapply wp_mono; [apply IH; try done|].
      * by apply (mirrors_upd _ (fun s' => set_active true (set_active false (set_scrollpos p s')))).
      * by apply widths_repainted.
      * intros _ s3 (b3 & a3 & bs3 & o3 & p3 & -> & Hm3 & Hp3). exists b3, a3, bs3, o3, p3.
        simpl in *. rewrite repainted_twice in *. by destruct s.
Qed.

(** ** The terminal *)

Record lcd_ok (s : lcd) : Prop := {
  lo_mirrors : mirrors s;
  lo_x : 0 <= x s <= 127;
  lo_y : 0 <= y s <= 2;
  lo_esc : -1 <= esccount s <= 7;
  lo_escape : length (escape s) = 8%nat;
  lo_pos : 0 <= scrollpos s < 128 /\ -128 <= scrollmax s < 128
}.

(** New text in the lines leaves the panel's side alone. *)
Lemma mirrors_lines s ls :
  mirrors s -> length ls = 2%nat ->
  (forall i r', ls !! i = Some r' ->
     exists r, lines s !! i = Some r /\ visible r' = visible r /\ length (data r') = 81%nat) ->
  mirrors (set_lines ls s).
Proof.
  intros [[Hlen Hall] Ha Hd Hac Hcells] Hl Hrows. split; simpl; try done.
  - split; [done|]. apply Forall_lookup. intros i r' Hi.
    destruct (Hrows i r' Hi) as (r & Hr & Hv & Hda).
    assert (row_ok r) as [Hrv _] by (by eapply Forall_lookup_1). split; congruence.
  - intros Hb i j r' Hi Hj. destruct (Hrows i r' Hi) as (r & Hr & -> & _). by apply Hcells.
Qed.

Lemma rows_two s : mirrors s ->
  exists r0 r1, lines s = [r0; r1] /\ row_ok r0 /\ row_ok r1.
Proof.
  intros [[Hl Hall] _ _ _ _]. destruct (lines s) as [|r0 [|r1 [|]]]; try done.
  inversion_clear Hall as [|? ? H0 H]. inversion_clear H. eauto.
Qed.

Lemma lcd_scroll_up_ok s r0 r1 (Q : unit -> lcd -> Prop) :
  lines s = [r0; r1] ->
  Q tt (set_y (s8 (y s - 1)) (set_lines [move_row r1 r0; clear_row r1] s)) ->
  wp lcd_scroll_up Q s.
Proof.
  intros El HQ. unfold lcd_scroll_up. apply wp_bind, (get_row_ok 0 r0); [by rewrite El|].
  apply wp_bind, (get_row_ok 1 r1); [by rewrite El|].
  apply wp_bind, (put_row_ok 0); [rewrite El; simpl; lia|].
  apply wp_bind, (put_row_ok 1); [simpl; rewrite El; simpl; lia|]. wp_steps.
  destruct s. simpl in *. by subst.
Qed.

Lemma mirrors_scrolled s r0 r1 v :
  mirrors s -> lines s = [r0; r1] -> row_ok r0 -> row_ok r1 ->
  mirrors (set_y v (set_lines [move_row r1 r0; clear_row r1] s)).
Proof.
  intros Hm El [Hv0 Hd0] [Hv1 Hd1]. apply (mirrors_upd _ (set_y v)); try done.
  apply mirrors_lines; [done..|]. intros [|[|i]] r' Hi; try done; injection Hi as <-; rewrite El.
  - exists r0. split_and!; try done. simpl. rewrite length_app, length_take, length_drop. lia.
  - exists r1. split_and!; try done. cbn [data set_data clear_row].
    rewrite length_app, length_replicate, length_drop. lia.
Qed.

Lemma scroll_up_ok s :
  lcd_ok s -> 0 < y s ->
  wp lcd_scroll_up (fun _ s' => lcd_ok s' /\ y s' = y s - 1 /\ x s' = x s /\ active s' = active s) s.
Proof.
  intros [Hm Hx Hy He Hes Hp] Hpos. destruct (rows_two s Hm) as (r0 & r1 & El & H0 & H1).
  eapply lcd_scroll_up_ok; [done|]. rewrite s8_id by lia.
  split_and!; try done. split; simpl; try done; [by apply mirrors_scrolled|lia].
Qed.

(** Clearing the screen. *)
Lemma lcd_clear_screen_ok s :
  length (lines s) = 2%nat ->
  wp lcd_clear_screen
    (fun _ s' => exists b bs o, s' = with_hw b 0 bs o (set_x 0 (set_y 0 (set_lines (map blank_row (lines s)) s)))
                 /\ mirrors s') s.
Proof.
  intros Hlen. unfold lcd_clear_screen. apply wp_bind.
  eapply wp_mono; [apply lcd_write_command_ok|]. intros _ s1 (b & bs & o & -> & Ho). wp_steps.
  exists b, bs, o. split; [by destruct s|].
  split; cbn [lines address out broken set_lines set_address set_x set_y with_hw set_broken set_busy set_out].
  - split; [by rewrite length_map|]. rewrite Forall_map. apply Forall_true. by intros [].
  - lia.
  - apply panel_of_length.
  - intros ->. by destruct Ho as [[? _]|(_ & _ & ->)].
  - intros -> i j r Hr Hj. destruct Ho as [[? _]|(_ & _ & ->)]; [done|].
    cbn [panel_step]. change (Z.testbit LCD_CMD_CLEAR 7) with false. cbn [Z.eqb LCD_CMD_CLEAR Pos.eqb ddram].
    apply lookup_lt_Some in Hr as Hi. rewrite length_map, Hlen in Hi.
    apply list_lookup_fmap_Some in Hr as (r0 & -> & _). cbn [blank_row visible].
    destruct (start_lookup i Hi) as [_ Hst]. fold (start i).
    rewrite !lookup_replicate_2 by lia. done.
Qed.

(** A zero in the text stops the scan inside it. *)
Lemma scan_parm_stops s k p :
  s !! k = Some 0 -> exists p' rest k', scan_parm s p = Some (p', rest) /\ rest !! k' = Some 0.
Proof.
  revert k p. induction s as [|c s IH]; intros k p Hk; [done|]. simpl.
  destruct (isdigit c) eqn:Hd; [|by exists p, (c :: s), k].
  destruct k as [|k]; [by injection Hk as ->|]. by eapply IH.
Qed.

Lemma scan_parms_stops esc k : esc !! k = Some 0 -> exists p1 p2, scan_parms esc = Some (p1, p2).
Proof.
  intros Hk. destruct esc as [|c rest]; [done|]. unfold scan_parms.
  destruct (Z.eqb_spec c 91) as [->|]; [|by eexists _, _]. destruct k as [|k]; [done|].
  destruct (scan_parm_stops rest k 0 Hk) as (p1 & rest' & k' & -> & Hk').
  destruct rest' as [|c' rest']; [done|].
  destruct (decide (c' = 59)) as [->|Hne].
  - destruct k' as [|k']; [done|]. destruct (scan_parm_stops rest' k' 0 Hk') as (p2 & ? & ? & -> & _). eauto.
  - exists p1, 0. destruct c' as [|c'|]; try done. repeat (destruct c' as [c'|c'|]; try done).
Qed.

(** What a character must not do: move the cursor to a column or a row past
    127, clear a line below the screen, or write past column 127. *)
Definition guard (s : lcd) (c : Z) : bool :=
  if esccount s >=? 0 then
    match scan_parms (<[Z.to_nat (esccount s) := 0]> (escape s)) with
    | Some (p1, p2) =>
        if (c =? 72) || (c =? 102) then (p1 <=? 128) && (p2 <=? 128)
        else if c =? 75 then (p1 >=? 1) || (y s <? 2) || (80 <=? x s)
        else true
    | None => true
    end
  else negb (isprint c) || (x s <? 127).

Lemma lcd_ok_upd s f :
  lcd_ok s -> lines (f s) = lines s -> address (f s) = address s -> out (f s) = out s ->
  broken (f s) = broken s -> 0 <= x (f s) <= 127 -> 0 <= y (f s) <= 2 ->
  -1 <= esccount (f s) <= 7 -> length (escape (f s)) = 8%nat ->
  (scrollpos (f s), scrollmax (f s)) = (scrollpos s, scrollmax s) -> lcd_ok (f s).
Proof.
  intros [Hm _ _ _ _ [Hp1 Hp2]] E1 E2 E3 E4 Hx Hy He Hl [= E5 E6].
  split; try done; [by apply mirrors_upd|]. rewrite E5, E6. done.
Qed.

Lemma scroll_loop_ok fuel s :
  mirrors s -> 0 <= x s <= 127 -> 0 <= y s <= Z.of_nat fuel + 1 -> -1 <= esccount s <= 7 ->
  length (escape s) = 8%nat -> 0 <= scrollpos s < 128 /\ -128 <= scrollmax s < 128 -> y s < 100 ->
  (0 < fuel)%nat ->
  wp (scroll_loop fuel) (fun _ s' => lcd_ok s' /\ active s' = active s) s.
Proof.
  revert s. induction fuel as [|k IH]; intros s Hm Hx Hy He Hes Hp Hy' Hf; [lia|].
  cbn [scroll_loop]. wp_steps. unfold ALT_LCD_HEIGHT. destruct (Z.gtb_spec (y s) 2) as [Hgt|Hle].
  - destruct (rows_two s Hm) as (r0 & r1 & El & H0 & H1). apply wp_bind.
    eapply lcd_scroll_up_ok; [done|]. rewrite s8_id by lia.
    eapply wp_mono; [apply IH; simpl; try done; try lia; by apply mirrors_scrolled|]. done.
  - wp_steps. split; [split; (done || lia)|done].
Qed.

Lemma move_cursor_ok p1 p2 s :
  lcd_ok s -> p1 <= 128 -> p2 <= 128 ->
  wp (move_cursor p1 p2) (fun _ s' => lcd_ok s' /\ active s' = active s) s.
Proof.
  intros Hok H1 H2. unfold move_cursor. apply wp_bind.
  apply (wp_mono _ (fun _ s1 => lcd_ok s1 /\ active s1 = active s)).
  { apply wp_when; [|done]. intros Hp2. apply Z.gtb_lt in Hp2. wp_steps. split; [|done].
    apply (lcd_ok_upd s (set_x (s8 (p2 - 1)))); try apply Hok; try done. simpl. rewrite s8_id by lia. lia. }
  intros _ s1 [[Hm Hx Hy He Hes Hp] Hact]. apply wp_when; [|done]. intros Hp1. apply Z.gtb_lt in Hp1.
  wp_steps. cbn [y set_y]. rewrite s8_id by lia. unfold ALT_LCD_HEIGHT. rewrite s8_id by lia.
  apply (wp_mono _ (fun _ s2 => exists v, s2 = set_y v s1 /\ 0 <= v <= 4)).
  { apply wp_when; intros Hc; rewrite Z.gtb_ltb in Hc.
    - wp_steps. exists 4. by destruct s1.
    - apply Z.ltb_ge in Hc. exists (p1 - 1). split; [done|lia]. }
  intros _ s2 (v & -> & Hv). eapply wp_mono; [apply scroll_loop_ok; simpl; try done; try lia|].
  - by apply (mirrors_upd s1 (set_y v)).
  - intros _ s3 [Hok3 Ha3]. simpl in Ha3. split; [done|congruence].
Qed.

Lemma clear_to_eol_ok s :
  lcd_ok s -> y s < 2 \/ 80 <= x s ->
  wp clear_to_eol (fun _ s' => lcd_ok s' /\ active s' = active s) s.
Proof.
  intros Hok Hor. pose proof Hok as [Hm Hx Hy He Hes Hp]. unfold clear_to_eol. wp_steps.
  unfold ALT_LCD_VIRTUAL_WIDTH. destruct (Z.ltb_spec (x s) 80) as [Hlt|Hge]; [|by wp_steps].
  rewrite (proj2 (Z.ltb_ge (x s) 0)) by lia.
  destruct (rows_two s Hm) as (r0 & r1 & El & [Hv0 Hd0] & [Hv1 Hd1]).
  assert (exists r, lines s !! Z.to_nat (y s) = Some r /\ length (data r) = 81%nat) as (r & Hr & Hd).
  { rewrite El. destruct (Z.to_nat (y s)) as [|[|]] eqn:E; [by exists r0|by exists r1|lia]. }
  replace (y s) with (Z.of_nat (Z.to_nat (y s))) by lia.
  apply wp_bind. eapply get_row_ok; [done|]. apply put_row_ok; [rewrite El; simpl; lia|].
  split; [|done]. split; simpl; try done.
  apply mirrors_lines; [done|rewrite length_insert, El; done|]. intros i r' Hi.
  apply list_lookup_insert_Some in Hi as [(<- & <- & _)|[_ Hi]].
  - exists r. split_and!; [done..|]. cbn [data set_data].
    rewrite !length_app, length_take, length_replicate, length_drop. lia.
  - exists r'. split_and!; [done..|]. pose proof Hm as [[_ Hall] _ _ _ _].
    assert (row_ok r') as [_ ?] by (by eapply Forall_lookup_1). done.
Qed.

Lemma store_escape_ok c s :
  lcd_ok s -> 0 <= esccount s -> guard s c = true ->
  wp (store_escape c) (fun _ s' => lcd_ok s' /\ active s' = active s) s.
Proof.
  intros Hok He Hg. pose proof Hok as [Hm Hx Hy Hesc Hes Hp].
  unfold guard in Hg. rewrite (proj2 (Z.geb_le _ _)) in Hg by lia.
  unfold store_escape. wp_steps. wp_if.
  - set (n := Z.to_nat (esccount s)) in *. set (s1 := set_escape (<[n:=0]> (escape s)) s).
    assert (lcd_ok s1) as Hok1.
    { apply (lcd_ok_upd s (fun s => set_escape (<[n:=0]> (escape s)) s)); try done.
      simpl. by rewrite length_insert. }
    destruct (scan_parms_stops (<[n:=0]> (escape s)) n) as (p1 & p2 & Hparms).
    { apply list_lookup_insert_eq. lia. }
    wp_steps. fold s1.
    apply (wp_mono _ (fun _ s2 => lcd_ok s2 /\ active s2 = active s)).
    + unfold lcd_handle_escape. wp_steps. change (escape s1) with (<[n:=0]> (escape s)).
      rewrite Hparms in *. destruct ((c =? 72) || (c =? 102)).
      { apply andb_true_iff in Hg as [H1 H2]. apply (move_cursor_ok _ _ s1); [done|lia..]. }
      destruct (c =? 74) eqn:E74; [|destruct (c =? 75)].
      * apply wp_when; [|done]. intros _. eapply wp_mono; [apply lcd_clear_screen_ok, Hok1|].
        intros _ s2 (b & bs & o & -> & Hm2). split; [|done].
        destruct Hok1; split; simpl in *; (done || lia).
      * apply wp_when; [|done]. intros Hp1. apply (clear_to_eol_ok s1); [done|]. simpl.
        rewrite !orb_true_iff in Hg. destruct Hg as [[Hg|Hg]|Hg]; lia.
      * by wp_steps.
    + intros _ s2 [Hok2 Ha]. wp_steps. split; [|done].
      apply (lcd_ok_upd s2 (set_esccount (-1))); try apply Hok2; try done; simpl; lia.
  - apply wp_when; [|done]. intros Hlt. apply Z.ltb_lt in Hlt. wp_steps. split; [|done].
    set (n := Z.to_nat (esccount s)).
    apply (lcd_ok_upd s (fun s0 => set_esccount (esccount s + 1) (set_escape (<[n:=c]> (escape s)) s0)));
      try done; simpl; [lia|by rewrite length_insert].
Qed.

Lemma store_char_ok c s :
  lcd_ok s -> x s < 127 -> wp (store_char c) (fun _ s' => lcd_ok s' /\ active s' = active s) s.
Proof.
  intros Hok Hx. unfold store_char. wp_steps. unfold ALT_LCD_HEIGHT, ALT_LCD_VIRTUAL_WIDTH.
  apply (wp_mono _ (fun _ s1 => lcd_ok s1 /\ y s1 < 2 /\ x s1 = x s /\ active s1 = active s)).
  { apply wp_when; intros Hy.
    - rewrite Z.geb_le in Hy. eapply wp_mono; [apply scroll_up_ok; [done|lia]|].
      intros _ s1 (Hok1 & Hy1 & Hx1 & Ha1). pose proof (lo_y _ Hok). split_and!; [done|lia|done..].
    - rewrite Z.geb_leb, Z.leb_gt in Hy. done. }
  intros _ s1 (Hok1 & Hy1 & Hx1 & Ha1). pose proof Hok1 as [Hm1 Hxx Hyy Hes Hesc Hp].
  wp_steps. apply (wp_mono _ (fun _ s2 => lcd_ok s2 /\ x s2 = x s /\ active s2 = active s)).
  { apply wp_when; [|done]. intros Hlt. rewrite (proj2 (Z.ltb_ge (x s1) 0)) by lia.
    apply Z.ltb_lt in Hlt. destruct (rows_two s1 Hm1) as (r0 & r1 & El & [Hv0 Hd0] & [Hv1 Hd1]).
    assert (exists r, lines s1 !! Z.to_nat (y s1) = Some r /\ length (data r) = 81%nat) as (r & Hr & Hd).
    { rewrite El. destruct (Z.to_nat (y s1)) as [|[|]] eqn:E; [by exists r0|by exists r1|lia]. }
    replace (y s1) with (Z.of_nat (Z.to_nat (y s1))) by lia.
    apply wp_bind. eapply get_row_ok; [done|]. apply put_row_ok; [rewrite El; simpl; lia|].
    split; [|done]. split; simpl; try done.
    apply mirrors_lines; [done|rewrite length_insert, El; done|]. intros i r' Hi.
    apply list_lookup_insert_Some in Hi as [(<- & <- & _)|[_ Hi]].
    - exists r. split_and!; [done..|]. simpl. by rewrite length_insert.
    - exists r'. split_and!; [done..|]. pose proof Hm1 as [[_ Hall] _ _ _ _].
      assert (row_ok r') as [_ ?] by (by eapply Forall_lookup_1). done. }
  intros _ s2 (Hok2 & Hx2 & Ha2). wp_steps. split; [|done].
  apply (lcd_ok_upd s2 (fun s => set_x (s8 (x s + 1)) s)); try apply Hok2; try done.
  simpl. pose proof (lo_x _ Hok2). rewrite s8_id by lia. lia.
Qed.

Lemma dispatch_ok c s :
  lcd_ok s -> guard s c = true -> wp (dispatch c) (fun _ s' => lcd_ok s' /\ active s' = active s) s.
Proof.
  intros Hok Hg. pose proof Hok as [Hm Hx Hy He Hes Hp]. unfold dispatch. wp_steps.
  destruct (Z.geb_spec (esccount s) 0) as [Hge|Hlt]; [by apply store_escape_ok; [|lia|]|].
  destruct (c =? 27).
  { wp_steps. split; [|done]. apply (lcd_ok_upd s (set_esccount 0)); try done; simpl; lia. }
  destruct (c =? 13).
  { wp_steps. split; [|done]. apply (lcd_ok_upd s (set_x 0)); try done; simpl; lia. }
  destruct (c =? 10).
  { wp_steps. cbn [y set_y set_x]. rewrite s8_id by lia. unfold ALT_LCD_HEIGHT.
    destruct (rows_two s Hm) as (r0 & r1 & El & H0 & H1).
    apply wp_when; intros Hc; rewrite Z.gtb_ltb in Hc.
    - apply Z.ltb_lt in Hc. eapply lcd_scroll_up_ok; [exact El|]. simpl. rewrite s8_id by lia.
      split; [|done]. split; simpl; try done; try lia.
      apply (mirrors_scrolled (set_y (y s + 1) (set_x 0 s))); try done.
      by apply (mirrors_upd s (fun s => set_y (y s + 1) (set_x 0 s))).
    - apply Z.ltb_ge in Hc. split; [|done].
      apply (lcd_ok_upd s (fun s => set_y (y s + 1) (set_x 0 s))); try done; simpl; lia. }
  destruct (c =? 8).
  { apply wp_when; [|done]. intros Hc. apply Z.gtb_lt in Hc. wp_steps. split; [|done].
    apply (lcd_ok_upd s (set_x (s8 (x s - 1)))); try done; simpl; rewrite s8_id by lia; lia. }
  destruct (isprint c) eqn:Hpr; [|by wp_steps]. apply store_char_ok; [done|].
  unfold guard in Hg. rewrite Z.geb_leb, (proj2 (Z.leb_gt _ _)), Hpr in Hg by lia. simpl in Hg. lia.
Qed.

(** ** Scrolling parameters and the whole of [putc] *)

Lemma text_width_range n d : 0 <= text_width n d <= Z.of_nat n.
Proof. induction n as [|n IH]; cbn [text_width]; [lia|]. destruct (_ =? _); lia. Qed.

Lemma row_width_range r : 16 <= row_width r <= 81.
Proof.
  unfold row_width, ALT_LCD_WIDTH. pose proof (text_width_range 80 (data r)).
  destruct (Z.leb_spec (text_width 80 (data r)) 16); lia.
Qed.

Lemma s8_range z : -128 <= s8 z < 128.
Proof. unfold swrap. pose proof (Z.mod_pos_bound (z + 2 ^ (8 - 1)) (2 ^ 8) ltac:(lia)). simpl in *. lia. Qed.

Lemma set_scrolling_ok s :
  lcd_ok s -> lcd_ok (set_scrolling s) /\ widths_ok (set_scrolling s) /\ active (set_scrolling s) = active s.
Proof.
  intros [Hm Hx Hy He Hes [Hp _]].
  assert (forall g m, (forall r, visible (g r) = visible r /\ data (g r) = data r /\ 0 < width (g r) <= 81) ->
            -128 <= m < 128 ->
            lcd_ok (set_scrollmax m (set_lines (map g (lines s)) s))
            /\ widths_ok (set_scrollmax m (set_lines (map g (lines s)) s))) as Hmap.
  { intros g m Hg Hmr. split.
    - split; simpl; try done. apply (mirrors_upd _ (set_scrollmax m)); try done.
      pose proof Hm as [[Hlen Hall] _ _ _ _].
      apply mirrors_lines; [done|by rewrite length_map|]. intros i r' Hi.
      apply list_lookup_fmap_Some in Hi as (r & -> & Hr). exists r. destruct (Hg r) as (Hv & -> & _).
      assert (row_ok r) as [_ ?] by (by eapply Forall_lookup_1). done.
    - unfold widths_ok. simpl. rewrite Forall_map. apply Forall_true. intros r. apply Hg. }
  assert (forall r, visible (measure_row r) = visible r /\ data (measure_row r) = data r
                    /\ 0 < width (measure_row r) <= 81) as Hmeas.
  { intros r. pose proof (row_width_range r). simpl. rewrite s8_id by lia. split_and!; (done || lia). }
  unfold set_scrolling. destruct (_ <=? ALT_LCD_WIDTH).
  - destruct (Hmap measure_row 0) as [H1 H2]; (done || lia || auto).
  - rewrite map_map. set (wm := foldl _ _ _).
    destruct (Hmap (fun r => speed_row (wm * 2) (measure_row r)) (s8 (wm * 2))) as [H1 H2]; [|apply s8_range|done].
    intros r. specialize (Hmeas r). unfold speed_row. by destruct (_ >? _).
Qed.

(** Every row of the structure shows its window. *)
Definition shows_window (s : lcd) : Prop :=
  Forall (fun r => visible r = window (scrollpos s) r) (lines s).

Lemma putc_total ticks c s :
  lcd_ok s -> guard s c = true ->
  wp (alt_lcd_16207_putc ticks c)
    (fun b s' => b = true /\ lcd_ok s' /\ widths_ok s' /\ shows_window s' /\ active s' = false) s.
Proof.
  intros Hok Hg. unfold alt_lcd_16207_putc. wp_steps.
  assert (lcd_ok (set_active true s)) as Hok0 by (by apply (lcd_ok_upd s (set_active true)); try apply Hok).
  eapply wp_mono; [by apply dispatch_ok|]. intros _ s1 [Hok1 Ha1]. simpl in Ha1. wp_steps.
  destruct (set_scrolling_ok s1 Hok1) as (Hok2 & Hw2 & Ha2).
  pose proof Hok2 as [Hm2 Hx2 Hy2 He2 Hes2 [Hp2 Hmax2]].
  eapply wp_mono; [apply repaint_loop_ok; try done; congruence|].
  intros _ s3 (b & a & bs & o & p & -> & Hm3 & Hp3). wp_steps. split_and!; [done|..|done].
  - split; simpl; done.
  - by apply widths_repainted.
  - unfold shows_window. simpl. rewrite Forall_map. apply Forall_true. by intros [].
Qed.

(** The timer keeps the terminal well formed too. *)
Lemma timeout_total s :
  lcd_ok s -> widths_ok s \/ scrollmax s = 0 ->
  wp alt_lcd_16207_timeout
    (fun _ s' => lcd_ok s' /\ (scrollmax s > 0 -> active s = false -> shows_window s')) s.
Proof.
  intros [Hm Hx Hy He Hes [Hp Hmax]] Hw. unfold alt_lcd_16207_timeout. wp_steps.
  assert (0 <= next_scrollpos s < 128) as Hn.
  { unfold next_scrollpos. destruct (Z.geb_spec (scrollpos s + 1) (scrollmax s)); [lia|].
    rewrite s8_id by lia. lia. }
  assert (mirrors (set_scrollpos (next_scrollpos s) s)) as Hm1
    by (by apply (mirrors_upd s (fun s => set_scrollpos (next_scrollpos s) s))).
  cbn [scrollmax active set_scrollpos]. apply wp_when; intros Hc.
  - apply andb_true_iff in Hc as [Hc1 Hc2]. apply Z.gtb_lt in Hc1.
    eapply wp_mono; [apply lcd_repaint_screen_ok; [done|]|].
    { destruct Hw as [Hw|Hw]; [done|lia]. }
    intros _ s' (b & a & bs & o & -> & Hm'). split; [split; simpl; done|].
    intros _ _. unfold shows_window. simpl. rewrite Forall_map. apply Forall_true. by intros [].
  - split; [split; simpl; done|]. intros H1 H2. rewrite H2, andb_true_r in Hc.
    rewrite Z.gtb_ltb, Z.ltb_ge in Hc. lia.
Qed.

(** A sequence of characters, each with the ticks that come during it. *)
Fixpoint puts (cs : list (list nat * Z)) : M lcd unit :=
  match cs with
  | [] => mret tt
  | (ticks, c) :: cs' => alt_lcd_16207_putc ticks c;; puts cs'
  end.

(** ** Initialisation *)

Lemma lcd_write_command_mirrors c s :
  mirrors s -> (forall p, panel_step p (LcdCommand c) = p) ->
  wp (lcd_write_command c)
    (fun _ s' => mirrors s' /\ exists b bs o, s' = with_hw b (address s) bs o s) s.
Proof.
  intros [Hrows Ha Hd Hac Hcells] Hc. eapply wp_mono; [apply lcd_write_command_ok|].
  intros _ s' (b & bs & o & -> & Ho). split; [|by exists b, bs, o].
  split; simpl; try done; [apply panel_of_length|..]; intros ->;
    (destruct Ho as [[? _]|(_ & Hb & ->)]; [done|]); rewrite Hc; [by apply Hac|by apply Hcells].
Qed.

(** A line with this text and spaces up to its end. *)
Definition text_row (t : list Z) : list Z := t ++ replicate (81 - length t) SPACE.

(** Commands keep the lines and the cursor. *)
Lemma lcd_write_command_frame c s :
  wp (lcd_write_command c) (fun _ s' => lines s' = lines s) s.
Proof.
  eapply wp_mono; [apply lcd_write_command_ok|]. by intros _ s' (b & bs & o & -> & _).
Qed.

Definition blank (s : lcd) : Prop :=
  mirrors s /\ (x s, y s) = (0, 0) /\ map data (lines s) = [text_row []; text_row []].

Lemma blank_command c s :
  blank s -> (forall p, panel_step p (LcdCommand c) = p) ->
  wp (lcd_write_command c) (fun _ s' => blank s') s.
Proof.
  intros (Hm & Hxy & Hd) Hc. eapply wp_mono; [by apply lcd_write_command_mirrors|].
  intros _ s' (Hm' & b & bs & o & ->). done.
Qed.

Lemma clear_blank s : length (lines s) = 2%nat -> wp lcd_clear_screen (fun _ s' => blank s') s.
Proof.
  intros Hl. eapply wp_mono; [by apply lcd_clear_screen_ok|].
  intros _ s' (b & bs & o & -> & Hm). split; [done|]. split; [done|].
  change (lines (with_hw _ _ _ _ _)) with (map blank_row (lines s)).
  destruct (lines s) as [|r0 [|r1 [|]]]; try done.
Qed.

Lemma alt_lcd_16207_init_ok s :
  length (lines s) = 2%nat ->
  wp alt_lcd_16207_init
    (fun b s' => b = true /\ lcd_ok s' /\ blank s' /\ esccount s' = -1 /\ active s' = false) s.
Proof.
  intros Hlen. unfold alt_lcd_16207_init, emit. wp_steps.
  match goal with |- wp _ _ ?t => assert (lines t = lines s) as E0 by done; generalize dependent t end.
  intros s0 E0. eapply wp_mono; [apply lcd_write_command_frame|]. intros ? s1 E1. cbn beta in E1. apply wp_bind.
  eapply wp_mono; [apply lcd_write_command_frame|]. intros ? s2 E2. cbn beta in E2. apply wp_bind.
  eapply wp_mono; [apply clear_blank; congruence|]. intros ? s3 H3. cbn beta in H3. apply wp_bind.
  eapply wp_mono; [apply blank_command; [done|by intros []]|]. intros ? s4 H4. cbn beta in H4. apply wp_bind.
  eapply wp_mono; [apply blank_command; [done|by intros []]|]. intros ? s5 (Hm & Hxy & Hd). wp_steps.
  injection Hxy as Hx Hy. split; [done|].
  assert (mirrors (set_active false (set_scrollmax 0 (set_scrollpos 0
            (set_escape (replicate 8 0) (set_esccount (-1) s5)))))) as Hm'
    by (by apply (mirrors_upd _ (fun s => set_active false (set_scrollmax 0 (set_scrollpos 0
          (set_escape (replicate 8 0) (set_esccount (-1) s))))))).
  split; [split; simpl; (done || lia)|]. split; [|done]. split; [done|]. split; [simpl; congruence|done].
Qed.
