(* ===== verification/LcdProps.v ===== *)
(** * The LCD terminal: its properties *)

From S2P Require Import Prelude.
From S2P Require Import Lcd.
From S2P Require Import LcdFacts.

(** ** The text on the screen *)

(** The scroll parameters of a row follow from its text. *)
Definition measured (r : row) : Prop :=
  width r = row_width r /\ (row_width r <= 16 -> speed r = 0).

Lemma set_scrolling_measured s : Forall measured (lines (set_scrolling s)).
Proof.
  assert (forall r, width (measure_row r) = row_width r) as Hw.
  { intros r. simpl. apply s8_id. pose proof (row_width_range r). lia. }
  unfold set_scrolling. destruct (_ <=? ALT_LCD_WIDTH); cbn [lines set_lines set_scrollmax];
    rewrite ?map_map, Forall_map; apply Forall_true; intros r.
  - split; [exact (Hw r)|done].
  - unfold speed_row, measured. rewrite Hw. unfold ALT_LCD_WIDTH.
    destruct (Z.gtb_spec (row_width r) 16); (split; [exact (Hw r)|]); [|done].
    change (row_width (set_speed _ _)) with (row_width r). lia.
Qed.

Lemma set_scrolling_text s :
  map data (lines (set_scrolling s)) = map data (lines s)
  /\ (x (set_scrolling s), y (set_scrolling s), esccount (set_scrolling s)) = (x s, y s, esccount s).
Proof.
  unfold set_scrolling. destruct (_ <=? ALT_LCD_WIDTH); (split; [|done]);
    cbn [lines set_lines set_scrollmax]; rewrite ?map_map; apply map_ext; intros r; [done|].
  unfold speed_row. by destruct (_ >? _).
Qed.

(** [putc] is [dispatch] followed by a repaint of the text it leaves. *)
Lemma putc_effect ticks c s s1 :
  dispatch c (set_active true s) = Ret (tt, s1) -> lcd_ok s1 -> active s1 = true ->
  wp (alt_lcd_16207_putc ticks c)
    (fun _ s' => lcd_ok s' /\ shows_window s' /\ Forall measured (lines s')
       /\ map data (lines s') = map data (lines s1)
       /\ (x s', y s', esccount s') = (x s1, y s1, esccount s1)) s.
Proof.
  intros Hd Hok1 Ha1. unfold alt_lcd_16207_putc. wp_steps. eapply wp_eq; [exact Hd|]. wp_steps.
  destruct (set_scrolling_ok s1 Hok1) as (Hok2 & Hw2 & Ha2).
  destruct (set_scrolling_text s1) as [Ht Hxy]. pose proof (set_scrolling_measured s1) as Hms.
  generalize dependent (set_scrolling s1). intros s2 Hok2 Hw2 Ha2 Ht Hxy Hms.
  pose proof Hok2 as [Hm2 Hx2 Hy2 He2 Hes2 [Hp2 Hmax2]].
  eapply wp_mono; [apply repaint_loop_ok; try done; congruence|].
  intros _ s3 (b & a & bs & o & p & -> & Hm3 & Hp3). wp_steps. split_and!.
  - split; simpl; done.
  - unfold shows_window. simpl. rewrite Forall_map. apply Forall_true. by intros [].
  - simpl. rewrite Forall_map. eapply Forall_impl; [|exact Hms]. by intros [].
  - simpl. rewrite map_map, <- Ht. apply map_ext. by intros [].
  - done.
Qed.

Lemma text_row_lookup t i : (length t <= i < 81)%nat -> text_row t !! i = Some SPACE.
Proof.
  intros Hi. unfold text_row. rewrite lookup_app_r by lia. apply lookup_replicate_2. lia.
Qed.

Lemma text_row_snoc t c :
  (length t < 81)%nat -> <[length t := c]> (text_row t) = text_row (t ++ [c]).
Proof.
  intros Ht. unfold text_row. rewrite length_app.
  replace (81 - length t)%nat with (S (81 - (length t + length [c])))%nat by (simpl; lia).
  cbn [replicate]. rewrite insert_app_r_alt by lia. rewrite Nat.sub_diag. simpl. by rewrite <- app_assoc.
Qed.

Lemma text_width_row t n :
  (length t <= n <= 81)%nat -> text_width n (text_row t) <= Z.of_nat (length t).
Proof.
  induction n as [|n IH]; intros Hn; [simpl; lia|]. cbn [text_width].
  destruct (decide (length t = S n)) as [E|E].
  { destruct (_ =? _); [|lia]. pose proof (text_width_range n (text_row t)). lia. }
  rewrite nth_lookup, text_row_lookup by lia. simpl. apply IH. lia.
Qed.

(** A short line is shown as it is. *)
Lemma window_short pos t r :
  measured r -> data r = text_row t -> (length t <= 16)%nat ->
  window pos r = take 16 (text_row t).
Proof.
  intros [Hw Hs] Hd Ht. assert (row_width r = 16) as E.
  { unfold row_width. rewrite Hd. pose proof (text_width_row t 80 ltac:(lia)). unfold ALT_LCD_WIDTH.
    destruct (Z.leb_spec (text_width 80 (text_row t)) 16); lia. }
  unfold window, row_offset. rewrite Hw, E, Hs, Z.mul_0_r by lia. cbn [Z.shiftr Z.shiftl Z.geb Z.compare].
  apply list_eq. intros j. rewrite list_lookup_fmap. destruct (decide (j < 16)%nat) as [Hj|Hj].
  - rewrite lookup_seq_lt, lookup_take_lt by done. simpl. unfold cell. rewrite Hd, Z.add_0_r, Z.mod_small by lia.
    rewrite Nat2Z.id. destruct (lookup_lt_is_Some_2 (text_row t) j) as [v Hv].
    { unfold text_row. rewrite length_app, length_replicate. lia. }
    by rewrite nth_lookup, Hv.
  - rewrite lookup_seq_ge, lookup_take_ge by lia. done.
Qed.

(** The terminal after [t0] on the first line and, once the cursor is on the
    second, [t1] there. *)
Definition typed (second : bool) (t0 t1 : list Z) (s : lcd) : Prop :=
  lcd_ok s /\ map data (lines s) = [text_row t0; text_row t1] /\ esccount s = -1
  /\ (if second then y s = 1 /\ x s = Z.of_nat (length t1)
      else y s = 0 /\ x s = Z.of_nat (length t0) /\ t1 = []).

Definition shown (s : lcd) : Prop := shows_window s /\ Forall measured (lines s).

(** A printable character goes to the end of the current line. *)
Lemma putc_print ticks c second t0 t1 s :
  typed second t0 t1 s -> isprint c = true ->
  (length (if second then t1 else t0) < 80)%nat ->
  wp (alt_lcd_16207_putc ticks c)
    (fun _ s' => shown s' /\ typed second (if second then t0 else t0 ++ [c])
                               (if second then t1 ++ [c] else t1) s') s.
Proof.
  intros (Hok & Hd & He & Hpos) Hc Hlt. pose proof Hok as [Hm Hx Hy _ _ _].
  assert (wp (dispatch c) (fun _ s' => lcd_ok s' /\ active s' = active (set_active true s)) (set_active true s)) as Hsafe.
  { apply dispatch_ok; [by apply (lcd_ok_upd s (set_active true)); try apply Hok|].
    unfold guard. cbn [esccount set_active x]. rewrite He, Hc. cbn [Z.geb Z.compare negb orb].
    apply Z.ltb_lt. destruct second; lia. }
  set (i := if second then 1%nat else 0%nat).
  assert (y s = Z.of_nat i) as Hyi by (unfold i; destruct second; lia).
  destruct (rows_two s Hm) as (r0 & r1 & El & _ & _).
  assert (exists r, lines s !! i = Some r /\ data r = text_row (if second then t1 else t0)) as (r & Hr & Hdr).
  { rewrite El in *. injection Hd as Hd0 Hd1. unfold i. destruct second; eauto. }
  set (n := length (if second then t1 else t0)) in *.
  assert (x s = Z.of_nat n) as Hxn by (unfold n; destruct second; lia).
  set (s1 := set_x (x s + 1) (set_lines (<[i := set_data (<[n := c]> (data r)) r]> (lines s)) (set_active true s))).
  assert (dispatch c (set_active true s) = Ret (tt, s1)) as Hdisp.
  { assert (wp (dispatch c) (fun _ s' => s' = s1) (set_active true s)) as H.
    - unfold dispatch. wp_steps. cbn [esccount set_active]. rewrite He. cbn [Z.geb Z.compare].
      unfold isprint in Hc. apply andb_true_iff in Hc as [Hc1 Hc2].
      rewrite !(proj2 (Z.eqb_neq c _)) by lia. unfold isprint. rewrite Hc1, Hc2. cbn [andb].
      unfold store_char. wp_steps. cbn [y set_active]. rewrite Hyi. unfold ALT_LCD_HEIGHT, ALT_LCD_VIRTUAL_WIDTH.
      assert ((Z.of_nat i >=? 2) = false) as -> by (unfold i; by destruct second).
      cbn [when]. wp_steps. cbn [x set_active y]. rewrite (proj2 (Z.ltb_lt (x s) 80)), Hyi by lia.
      cbn [when]. rewrite (proj2 (Z.ltb_ge (x s) 0)) by lia.
      apply wp_bind. eapply get_row_ok; [exact Hr|].
      apply put_row_ok; [cbn [lines set_active]; by eapply lookup_lt_Some|]. wp_steps.
      cbn [x set_lines set_active]. rewrite s8_id, Hxn, Nat2Z.id by lia. unfold s1. by rewrite Hxn.
    - apply wp_Ret in H as ([] & s' & E & ->). done. }
  unfold wp in Hsafe. rewrite Hdisp in Hsafe. destruct Hsafe as [Hok1 Ha1].
  eapply wp_mono; [by eapply putc_effect|]. intros _ s' (Hok' & Hsh & Hms & Hd' & Hxy).
  injection Hxy as Hx' Hy' He'. split; [done|]. split; [done|].
  split; [|split; [rewrite He'; exact He|]].
  - rewrite Hd'. cbn [lines set_x set_lines s1]. rewrite Hdr. unfold n. rewrite El in *.
    rewrite text_row_snoc by (destruct second; lia). injection Hd as Hd0 Hd1.
    unfold i. destruct second; simpl; congruence.
  - rewrite Hy', Hx'. cbn [y x s1 set_x set_lines set_active]. destruct second; rewrite ?length_app;
      cbn [length]; [lia|]. destruct Hpos as (? & ? & ->). split_and!; (done || lia).
Qed.

(** A line feed after a first line goes to the second. *)
Lemma putc_newline ticks t0 s :
  typed false t0 [] s ->
  wp (alt_lcd_16207_putc ticks 10) (fun _ s' => shown s' /\ typed true t0 [] s') s.
Proof.
  intros (Hok & Hd & He & Hy & _ & _).
  assert (wp (dispatch 10) (fun _ s' => lcd_ok s' /\ active s' = active (set_active true s)) (set_active true s)) as Hsafe.
  { apply dispatch_ok; [by apply (lcd_ok_upd s (set_active true)); try apply Hok|].
    unfold guard. cbn [esccount set_active x]. by rewrite He. }
  assert (dispatch 10 (set_active true s) = Ret (tt, set_y 1 (set_x 0 (set_active true s)))) as Hdisp.
  { unfold dispatch. mred. cbn [esccount set_active]. rewrite He. cbn [Z.geb Z.compare Z.eqb Pos.eqb].
    mred. cbn [y set_x set_active set_y]. rewrite Hy. reflexivity. }
  unfold wp in Hsafe. rewrite Hdisp in Hsafe. destruct Hsafe as [Hok1 Ha1].
  eapply wp_mono; [by eapply putc_effect|]. intros _ s' (Hok' & Hsh & Hms & Hd' & Hxy).
  injection Hxy as Hx' Hy' He'. split; [done|]. split; [done|]. split; [by rewrite Hd'|].
  split; [by rewrite He'|]. by rewrite Hy', Hx'.
Qed.

(** A text typed with arbitrary ticks in between. *)
Lemma puts_print cs second t0 t1 s :
  typed second t0 t1 s -> Forall (fun x => isprint x.2 = true) cs ->
  (length (if second then t1 else t0) + length cs <= 80)%nat ->
  wp (puts cs)
    (fun _ s' => (shown s -> shown s')
       /\ typed second (if second then t0 else t0 ++ map snd cs) (if second then t1 ++ map snd cs else t1) s') s.
Proof.
  revert t0 t1 s. induction cs as [|[ticks c] cs IH]; intros t0 t1 s Ht Hcs Hlen; cbn [puts].
  { wp_steps. split; [done|]. cbn [map]. destruct second; by rewrite app_nil_r. }
  inversion_clear Hcs as [|? ? Hc Hcs']. apply wp_bind. simpl in Hlen.
  eapply wp_mono; [apply putc_print; [done|done|destruct second; lia]|]. intros ? s1 [Hsh Ht1].
  eapply wp_mono; [eapply IH; [exact Ht1|done|destruct second; rewrite ?length_app; simpl; lia]|].
  intros ? s2 [Hsh2 Ht2]. split; [intros _; by apply Hsh2|].
  cbn [map snd]. destruct second; by rewrite <- app_assoc in Ht2.
Qed.

Lemma wp_puts_app a b Q s :
  wp (puts a) (fun _ s' => wp (puts b) Q s') s -> wp (puts (a ++ b)) Q s.
Proof.
  revert s. induction a as [|[ticks c] a IH]; intros s H; cbn [puts app] in *; [done|].
  apply wp_bind. unfold wp, mbind, M_bind in H |- *.
  destruct (alt_lcd_16207_putc ticks c s) as [[b0 s1]| |]; [|done..]. by apply IH.
Qed.

(** The 16 characters the panel shows in row [i]. *)
Definition panel_row (o : list lcd_event) (i : nat) : list Z :=
  take 16 (drop (Z.to_nat (start i)) (ddram (panel_of o))).

Lemma panel_row_window s i r :
  mirrors s -> shows_window s -> broken s = false -> lines s !! i = Some r ->
  panel_row (out s) i = window (scrollpos s) r.
Proof.
  intros Hm Hsh Hb Hr. pose proof Hm as [[Hlen Hall] _ Hd _ Hcells].
  assert (row_ok r) as [Hv _] by (by eapply Forall_lookup_1).
  rewrite <- (Forall_lookup_1 _ _ _ _ Hsh Hr). unfold panel_row.
  pose proof (lookup_lt_Some _ _ _ Hr) as Hi. rewrite Hlen in Hi.
  apply list_eq. intros j. destruct (decide (j < 16)%nat) as [Hj|Hj].
  - rewrite lookup_take_lt, lookup_drop by done. by apply Hcells.
  - rewrite lookup_take_ge, lookup_ge_None_2 by lia. done.
Qed.

(** ** Claims *)

(** A character put on the terminal is shown.  From a well-formed state,
    unless the character moves the cursor past column or row 127, clears a line
    below the screen, or is the 128th of its line, [putc] stays within its
    arrays, whatever ticks come while it paints; the state is well formed
    again; and if the panel answered, each of its rows shows the window of the
    line at the present scroll position: no repaint is missed. *)
Theorem putc_shows ticks c s :
  lcd_ok s -> guard s c = true ->
  exists s', alt_lcd_16207_putc ticks c s = Ret (true, s') /\ lcd_ok s' /\ active s' = false
    /\ (broken s' = false -> forall i r, lines s' !! i = Some r ->
          panel_row (out s') i = window (scrollpos s') r).
Proof.
  intros Hok Hg. pose proof (putc_total ticks c s Hok Hg) as H.
  apply wp_Ret in H as (b & s' & E & -> & Hok' & _ & Hsh & Ha). exists s'. split_and!; try done.
  intros Hb i r Hr. apply panel_row_window; try done. apply Hok'.
Qed.

(** Two lines of text.  After initialisation, whatever the structure held
    before, printing a line of at most 16 printable characters, a line feed,
    and a second such line makes the panel show exactly these two lines, padded
    with spaces, provided it answers. *)
Theorem lcd_shows_two_lines s l0 tk l1 :
  length (lines s) = 2%nat ->
  Forall (fun x => isprint x.2 = true) l0 -> Forall (fun x => isprint x.2 = true) l1 ->
  (length l0 <= 16)%nat -> (length l1 <= 16)%nat ->
  exists s', (alt_lcd_16207_init;; puts (l0 ++ (tk, 10) :: l1)) s = Ret (tt, s')
    /\ (broken s' = false ->
          panel_row (out s') 0 = map snd l0 ++ replicate (16 - length l0) SPACE
          /\ panel_row (out s') 1 = map snd l1 ++ replicate (16 - length l1) SPACE).
Proof.
  intros Hl Hp0 Hp1 Hl0 Hl1.
  assert (wp (alt_lcd_16207_init;; puts (l0 ++ (tk, 10) :: l1))
            (fun _ s' => shown s' /\ typed true (map snd l0) (map snd l1) s') s) as H.
  { apply wp_bind. eapply wp_mono; [by apply alt_lcd_16207_init_ok|].
    intros b s1 (-> & Hok1 & (_ & Hxy & Hd) & He & _). injection Hxy as Hx Hy.
    assert (typed false [] [] s1) as Ht1 by (by split_and!).
    apply wp_puts_app. eapply wp_mono; [apply (puts_print l0 false [] []); [done|done|simpl; lia]|].
    intros ? s2 [_ Ht2]. cbn [puts]. apply wp_bind. eapply wp_mono; [by apply putc_newline|].
    intros ? s3 [Hsh3 Ht3].
    eapply wp_mono; [apply (puts_print l1 true (map snd l0) []); [exact Ht3|done|simpl; lia]|].
    intros ? s4 [Hsh4 Ht4]. split; [by apply Hsh4|exact Ht4]. }
  apply wp_Ret in H as ([] & s' & E & [Hsh Hms] & Hok & Hd & _). exists s'. split; [done|]. intros Hb.
  destruct (rows_two s' (lo_mirrors _ Hok)) as (r0 & r1 & El & _ & _). rewrite El in Hd, Hms.
  injection Hd as Hd0 Hd1. inversion_clear Hms as [|? ? Hm0 Hms']. inversion_clear Hms' as [|? ? Hm1 _].
  assert (forall l : list (list nat * Z), (length l <= 16)%nat ->
            take 16 (text_row (map snd l)) = map snd l ++ replicate (16 - length l) SPACE) as Htake.
  { intros l Hle. unfold text_row. rewrite length_map.
    replace (81 - length l)%nat with ((16 - length l) + 65)%nat by lia.
    rewrite replicate_add, app_assoc. apply take_app_exact. rewrite length_app, length_map, length_replicate. lia. }
  split.
  - rewrite (panel_row_window s' 0 r0); [|apply Hok|done..|by rewrite El].
    rewrite (window_short _ (map snd l0)); [by apply Htake|done..|by rewrite length_map].
  - rewrite (panel_row_window s' 1 r1); [|apply Hok|done..|by rewrite El].
    rewrite (window_short _ (map snd l1)); [by apply Htake|done..|by rewrite length_map].
Qed.

Lemma widest_bounds ls w :
  16 <= w <= 81 ->
  let m := foldl (fun w r => if w <? row_width r then row_width r else w) w ls in
  w <= m <= 81 /\ Forall (fun r => row_width r <= m) ls.
Proof.
  revert w. induction ls as [|r ls IH]; intros w Hw; cbn [foldl]; [split; [lia|done]|].
  pose proof (row_width_range r).
  destruct (Z.ltb_spec w (row_width r)) as [Hlt|Hge].
  - destruct (IH (row_width r)) as [H1 H2]; [lia|]. split; [lia|]. constructor; [lia|done].
  - destruct (IH w) as [H1 H2]; [lia|]. split; [lia|]. constructor; [lia|done].
Qed.

(** A line of 63 to 80 characters never scrolls, although it does not fit
    the panel: twice its width does not fit the signed [char] that holds the
    scroll limit, so the limit is negative, and the timer routine then keeps the
    position at 0 and paints nothing. *)
Theorem lcd_wide_line_never_scrolls s r :
  r ∈ lines s -> 63 <= text_width 80 (data r) -> 0 <= scrollpos s ->
  let s1 := set_scrolling s in
  scrollmax s1 < 0 /\ alt_lcd_16207_timeout s1 = Ret (tt, set_scrollpos 0 s1).
Proof.
  intros Hr Hw Hp s1. destruct (widest_bounds (lines s) 16 ltac:(lia)) as [Hm Hall].
  set (m := foldl _ _ _) in *.
  assert (64 <= m) as H64.
  { rewrite Forall_forall in Hall. specialize (Hall r (proj1 (list_elem_of_In _ _) Hr)). unfold row_width, ALT_LCD_WIDTH in Hall.
    destruct (Z.leb_spec (text_width 80 (data r)) 16); lia. }
  assert (scrollmax s1 < 0 /\ scrollpos s1 = scrollpos s) as [Hneg Hpos].
  { unfold s1, set_scrolling. change ALT_LCD_WIDTH with 16. fold m.
    rewrite (proj2 (Z.leb_gt m 16)) by lia. cbn [scrollmax set_scrollmax scrollpos set_lines]. split; [|done].
    unfold swrap. change (2 ^ (8 - 1)) with 128. change (2 ^ 8) with 256.
    replace (m * 2 + 128) with (m * 2 - 128 + 1 * 256) by lia. rewrite Z.mod_add by lia.
    rewrite Z.mod_small by lia. lia. }
  split; [done|]. unfold alt_lcd_16207_timeout. mred. cbn [scrollmax set_scrollpos active].
  assert (next_scrollpos s1 = 0) as ->.
  { unfold next_scrollpos. destruct (Z.geb_spec (scrollpos s1 + 1) (scrollmax s1)); [done|lia]. }
  rewrite Z.gtb_ltb, (proj2 (Z.ltb_ge _ _)) by lia. done.
Qed.

(** ** Concrete runs *)

Definition row0 : row := mkRow (replicate 16 0) (replicate 81 0) 0 0.

Definition lcd0 : lcd := mkLcd false 0 0 0 0 0 0 false (replicate 8 0) [row0; row0] [3; 0; 7]%nat [].

Definition lcd1 : lcd := match alt_lcd_16207_init lcd0 with Ret (_, s) => s | _ => lcd0 end.

Lemma lcd1_run : alt_lcd_16207_init lcd0 = Ret (true, lcd1).
Proof. vm_compute. reflexivity. Qed.

Lemma init_result s s1 :
  length (lines s) = 2%nat -> alt_lcd_16207_init s = Ret (true, s1) -> lcd_ok s1.
Proof.
  intros Hl E. pose proof (alt_lcd_16207_init_ok s Hl) as H. unfold wp in H. rewrite E in H. apply H.
Qed.

Lemma lcd1_ok : lcd_ok lcd1.
Proof. exact (init_result lcd0 lcd1 eq_refl lcd1_run). Qed.

(** Inputs that write outside the arrays, each after a correct start: 129
    characters without a line feed (the column wraps to -128); a cursor address
    beyond row 128 (the row becomes negative) followed by a character; and
    clearing to the end of the line from the position below the last line. *)
Theorem lcd_undefined_inputs :
  puts (replicate 129 ([], 97)) lcd1 = UB
  /\ puts (map (pair []) (27 :: codes "[200;1Ha")) lcd1 = UB
  /\ puts (map (pair []) ([10; 10; 27] ++ codes "[K")) lcd1 = UB.
Proof. split_and!; vm_compute; reflexivity. Qed.

Lemma putc_shows_witness :
  exists s', alt_lcd_16207_putc [2; 1]%nat 97 lcd1 = Ret (true, s') /\ lcd_ok s' /\ active s' = false
    /\ (broken s' = false -> forall i r, lines s' !! i = Some r ->
          panel_row (out s') i = window (scrollpos s') r).
Proof. apply (putc_shows [2; 1]%nat 97 lcd1); [exact lcd1_ok|reflexivity]. Defined.

Lemma lcd_shows_two_lines_witness :
  exists s', (alt_lcd_16207_init;; puts (map (pair [1%nat]) (codes "Hello")
                                          ++ ([], 10) :: map (pair []) (codes "world"))) lcd0 = Ret (tt, s')
    /\ (broken s' = false ->
          panel_row (out s') 0 = codes "Hello           " /\ panel_row (out s') 1 = codes "world           ").
Proof.
  apply (lcd_shows_two_lines lcd0 (map (pair [1%nat]) (codes "Hello")) [] (map (pair []) (codes "world"))).
  - reflexivity.
  - repeat constructor.
  - repeat constructor.
  - simpl. lia.
  - simpl. lia.
Defined.

Definition wide_row : row := mkRow (replicate 16 32) (text_row (replicate 70 97)) 16 0.

Lemma lcd_wide_line_never_scrolls_witness :
  alt_lcd_16207_timeout (set_scrolling (set_lines [wide_row; row0] lcd1))
  = Ret (tt, set_scrollpos 0 (set_scrolling (set_lines [wide_row; row0] lcd1))).
Proof.
  apply (lcd_wide_line_never_scrolls (set_lines [wide_row; row0] lcd1) wide_row).
  - left.
  - vm_compute. discriminate.
  - vm_compute. discriminate.
Defined.
