(* ===== verification/Os.v ===== *)
(** * The services the bootloader and the firmware utility call

    The eCos file system, the eCos flash library and zlib are not part of the
    repository.  Each is an interface here: a class of the calls the code
    makes, a view that says what a state of the library stands for (the
    contents of the files, the open descriptors, the bytes of the flash, what
    a decompression stream has read and written), and a class of laws, which
    state the documented behaviour of the calls.  Failing calls are part of the
    laws; what a call gives when nothing fails is under [healthy] and [works].
    OsSim has implementations of the three interfaces that satisfy the laws. *)

From S2P Require Import Prelude.
From S2P Require Import Stdio.

(** ** String literals and messages *)

(** The characters of a C literal: the escapes [\n], [\r] and [\ooo]. *)
Fixpoint unescape (fuel : nat) (s : list Z) : list Z :=
  match fuel with
  | O => []
  | S k =>
      match s with
      | 92 :: 110 :: s' => 10 :: unescape k s'
      | 92 :: 114 :: s' => 13 :: unescape k s'
      | 92 :: a :: b :: c :: s' => (64 * (a - 48) + 8 * (b - 48) + (c - 48)) :: unescape k s'
      | c :: s' => c :: unescape k s'
      | [] => []
      end
  end.

Definition lit (s : string) : list Z := unescape (String.length s) (codes s).

(** A message is a format, as the source writes it, and its arguments. *)

Inductive arg :=
| AStr (s : list Z)
| AInt (z : Z)
| APtr (z : Z).

Definition msg : Type := string * list arg.

(** ** Files *)

Abbreviation path := (list Z).

Inductive oflag := O_RDONLY | O_RDWR | O_CREAT | O_TRUNC | O_SYNC | O_NONBLOCK.

(** [os_read] gives the bytes stored, or [None] for a negative result. *)
Class Posix (O : Type) := {
  os_open : path -> list oflag -> O -> Z * O;
  os_creat : path -> O -> Z * O;
  os_read : Z -> Z -> O -> option (list Z) * O;
  os_write : Z -> list Z -> O -> Z * O;
  os_lseek : Z -> Z -> O -> Z * O;
  os_close : Z -> O -> Z * O;
  os_remove : path -> O -> Z * O;
  os_stat : path -> O -> option Z;
  os_mount : string -> string -> string -> O -> Z * O;
  os_umount : string -> O -> Z * O
}.

Class PosixView (O : Type) := {
  file : O -> path -> option (list Z);  (* the contents of a file *)
  desc : O -> Z -> option (path * nat);  (* the file and the position of a descriptor *)
  healthy : O -> Prop  (* no call fails for want of memory, space or descriptors *)
}.

Section PosixSpec.
Context {O : Type} `{!PosixView O}.

Definition same_files (o o' : O) : Prop := forall q, file o' q = file o q.

Definition same_files_but (p : path) (o o' : O) : Prop :=
  forall q, q <> p -> file o' q = file o q.

Definition same_descs (o o' : O) : Prop := forall fd, desc o' fd = desc o fd.

Definition same_descs_but (fd : Z) (o o' : O) : Prop :=
  forall fd', fd' <> fd -> desc o' fd' = desc o fd'.

(** A call that opens [p] for reading. *)
Definition opened (p : path) (o : O) (fd : Z) (o' : O) : Prop :=
  same_files o o' /\ (healthy o -> healthy o')
  /\ if fd <? 0 then same_descs o o' /\ (healthy o -> file o p = None)
     else desc o fd = None /\ desc o' fd = Some (p, 0%nat) /\ same_descs_but fd o o'
          /\ is_Some (file o p) /\ (healthy o -> 0 < fd).

(** A call that creates [p], empty, and opens it. *)
Definition created (p : path) (o : O) (fd : Z) (o' : O) : Prop :=
  same_files_but p o o' /\ (healthy o -> healthy o' /\ 0 < fd)
  /\ if fd <? 0 then same_files o o' /\ same_descs o o'
     else desc o fd = None /\ desc o' fd = Some (p, 0%nat) /\ same_descs_but fd o o'
          /\ file o' p = Some [].

End PosixSpec.

Class PosixLaws (O : Type) `{!Posix O, !PosixView O} := {
  open_rdonly p o fd o' : os_open p [O_RDONLY] o = (fd, o') -> opened p o fd o';
  open_create p o fd o' : os_open p [O_RDWR; O_CREAT; O_TRUNC] o = (fd, o') -> created p o fd o';
  creat_create p o fd o' : os_creat p o = (fd, o') -> created p o fd o';
  open_device p o fd o' :
    os_open p [O_RDWR; O_SYNC; O_NONBLOCK] o = (fd, o') ->
    same_files o o' /\ (healthy o -> healthy o' /\ 0 < fd)
    /\ if fd <? 0 then same_descs o o' else desc o fd = None /\ same_descs_but fd o o';
  read_ok fd n o r o' p k c :
    os_read fd n o = (r, o') -> desc o fd = Some (p, k) -> file o p = Some c ->
    same_files o o' /\ same_descs_but fd o o' /\ (healthy o -> healthy o' /\ r <> None)
    /\ match r with
       | Some d => d = take (length d) (drop k c) /\ Z.of_nat (length d) <= Z.max 0 n
                   /\ (d = [] -> n <= 0 \/ drop k c = [])
                   /\ desc o' fd = Some (p, (k + length d)%nat)
       | None => desc o' fd = Some (p, k)
       end;
  write_ok fd d o r o' p k c :
    os_write fd d o = (r, o') -> desc o fd = Some (p, k) -> file o p = Some c ->
    same_files_but p o o' /\ same_descs_but fd o o' /\ is_Some (file o' p)
    /\ r <= Z.of_nat (length d) /\ (healthy o -> healthy o' /\ r = Z.of_nat (length d))
    /\ (0 <= r -> file o' p = Some (fwrite_at c k (take (Z.to_nat r) d))
                  /\ desc o' fd = Some (p, (k + Z.to_nat r)%nat));
  lseek_ok fd off o r o' :
    os_lseek fd off o = (r, o') ->
    same_files o o' /\ same_descs_but fd o o' /\ (healthy o -> healthy o');
  close_ok fd o r o' :
    os_close fd o = (r, o') ->
    same_files o o' /\ same_descs_but fd o o' /\ (healthy o -> healthy o' /\ desc o' fd = None);
  remove_ok p o r o' :
    os_remove p o = (r, o') ->
    same_files_but p o o' /\ same_descs o o'
    /\ (healthy o -> healthy o' /\ file o' p = None);
  stat_ok p o c : file o p = Some c -> healthy o -> os_stat p o = Some (Z.of_nat (length c))
}.

(** ** Flash *)

(** The calls give a status, zero for success; [flash_byte] is a read of the
    memory-mapped device. *)
Class FlashDev (F : Type) := {
  block_locking : bool;  (* CYGHWR_IO_FLASH_BLOCK_LOCKING *)
  flash_init : F -> Z * F;
  flash_unlock : Z -> Z -> F -> Z * F;
  flash_erase : Z -> Z -> F -> Z * F;
  flash_program : Z -> list Z -> F -> Z * F;
  flash_byte : F -> Z -> Z;
  flash_errmsg : Z -> list Z;
  flash_err_addr : F -> Z  (* what the failing call stored through its last argument *)
}.

(** The sector of an address, and the devices on which calls succeed. *)
Class FlashView (F : Type) := {
  sector : Z -> Z;
  on_device : Z -> Z -> Prop;  (* the addresses of [n] bytes from [a] on are the device's *)
  works : F -> Prop
}.

(** An erase touches the whole sectors its range meets. *)
Definition touched {F} `{!FlashView F} (a n x : Z) : bool :=
  (sector a <=? sector x) && (sector x <=? sector (a + n - 1)).

Class FlashLaws (F : Type) `{!FlashDev F, !FlashView F} := {
  sector_mono a b : a <= b -> sector a <= sector b;
  flash_byte_range f x : is_byte (flash_byte f x);
  init_ok f r f' : flash_init f = (r, f') ->
    (forall x, flash_byte f' x = flash_byte f x) /\ (works f -> r = 0 /\ works f');
  unlock_ok a n f r f' : flash_unlock a n f = (r, f') ->
    (forall x, flash_byte f' x = flash_byte f x)
    /\ (works f -> on_device a n -> r = 0 /\ works f');
  erase_ok a n f r f' : flash_erase a n f = (r, f') -> 0 < n ->
    (forall x, touched a n x = false -> flash_byte f' x = flash_byte f x)
    /\ (r = 0 -> forall x, touched a n x = true -> flash_byte f' x = 255)
    /\ (works f -> on_device a n -> r = 0 /\ works f');
  program_ok a d f r f' : flash_program a d f = (r, f') ->
    (forall x, x < a \/ a + Z.of_nat (length d) <= x -> flash_byte f' x = flash_byte f x)
    /\ (forall i b, d !! i = Some b ->
          flash_byte f' (a + Z.of_nat i) = Z.land (flash_byte f (a + Z.of_nat i)) b
          \/ r <> 0 /\ flash_byte f' (a + Z.of_nat i) = flash_byte f (a + Z.of_nat i))
    /\ (works f -> on_device a (Z.of_nat (length d)) -> r = 0 /\ works f');
  on_device_sub a n b m : on_device a n -> a <= b -> b + m <= a + n -> 0 <= m -> on_device b m
}.

(** ** Decompression *)

Definition Z_OK : Z := 0.
Definition Z_STREAM_END : Z := 1.
Definition Z_MEM_ERROR : Z := -4.

(** [inflate z inp room]: the result, how many bytes of [inp] were used, the
    bytes put out, at most [room], and the new stream. *)
Class Zlib (Zs : Type) := {
  inflateInit : Z * Zs;
  inflate : Zs -> list Z -> Z -> Z * nat * list Z * Zs
}.

Class ZlibView (Zs : Type) := {
  zin : Zs -> list Z;  (* the bytes read so far *)
  zout : Zs -> list Z;  (* the bytes written so far *)
  zlive : Zs -> Prop;  (* initialised, and not ended *)
  decodes : list Z -> list Z -> Prop  (* a complete stream and its data *)
}.

Class ZlibLaws (Zs : Type) `{!Zlib Zs, !ZlibView Zs} := {
  init_live : inflateInit.1 <> Z_MEM_ERROR ->
    zlive inflateInit.2 /\ zin inflateInit.2 = [] /\ zout inflateInit.2 = [];
  inflate_ok z inp room err used out z' :
    inflate z inp room = (err, used, out, z') -> zlive z -> 0 < room ->
    err = Z_OK \/ err = Z_STREAM_END ->
    (used <= length inp)%nat /\ Z.of_nat (length out) <= room
    /\ zin z' = zin z ++ take used inp /\ zout z' = zout z ++ out
    /\ (err = Z_OK -> zlive z' /\ (0 < used + length out)%nat)
    /\ (err = Z_STREAM_END -> decodes (zin z') (zout z'));
  inflate_complete z inp room err used out z' src d :
    inflate z inp room = (err, used, out, z') -> zlive z -> 0 < room ->
    decodes src d -> zin z ++ inp `prefix_of` src \/ src `prefix_of` zin z ++ inp ->
    inp <> [] \/ zin z = src ->
    err = Z_OK \/ err = Z_STREAM_END;
  live_prefix z src d :
    zlive z -> decodes src d -> zin z `prefix_of` src \/ src `prefix_of` zin z ->
    zin z `prefix_of` src;
  expansion z : zlive z -> (length (zout z) <= 1032 * length (zin z))%nat;
  decodes_unique s1 d1 s2 d2 :
    decodes s1 d1 -> decodes s2 d2 -> s1 `prefix_of` s2 -> s1 = s2 /\ d1 = d2
}.
