(* ===== verification/OsSim.v ===== *)
(** * Implementations of the interfaces of Os

    A file system in memory, a flash chip of 128-KiB sectors, and a trivial
    decompressor (a stream is its data and a final zero byte), with the proofs
    that they satisfy the laws.  They show that the laws hold together and let
    the definitions run on concrete inputs. *)

From S2P Require Import Prelude.
From S2P Require Import Stdio.
From S2P Require Import Os.

Lemma take_length_take {A} n (l : list A) : take (length (take n l)) l = take n l.
Proof. by rewrite length_take, <- take_take, (take_ge l (length l)) by lia. Qed.

(** ** Files in memory *)

Record ramfs := mkRamfs {
  rf_files : gmap path (list Z);
  rf_descs : gmap Z (path * nat)
}.

(** A descriptor above those in use, and above the standard ones. *)
Definition new_fd (o : ramfs) : Z := map_fold (fun k _ m => Z.max m (k + 1)) 3 (rf_descs o).

Definition alloc (p : path) (o : ramfs) : Z * ramfs :=
  (new_fd o, mkRamfs (rf_files o) (<[new_fd o := (p, 0%nat)]> (rf_descs o))).

Definition make (p : path) (o : ramfs) : Z * ramfs :=
  alloc p (mkRamfs (<[p := []]> (rf_files o)) (rf_descs o)).

Definition ram_open (p : path) (flags : list oflag) (o : ramfs) : Z * ramfs :=
  match flags with
  | [O_RDONLY] => match rf_files o !! p with Some _ => alloc p o | None => (-1, o) end
  | [O_RDWR; O_SYNC; O_NONBLOCK] => alloc p o
  | _ => make p o
  end.

Definition ram_read (fd n : Z) (o : ramfs) : option (list Z) * ramfs :=
  match rf_descs o !! fd with
  | Some (p, k) =>
      match rf_files o !! p with
      | Some c =>
          let d := take (Z.to_nat n) (drop k c) in
          (Some d, mkRamfs (rf_files o) (<[fd := (p, (k + length d)%nat)]> (rf_descs o)))
      | None => (None, o)
      end
  | None => (None, o)
  end.

Definition ram_write (fd : Z) (d : list Z) (o : ramfs) : Z * ramfs :=
  match rf_descs o !! fd with
  | Some (p, k) =>
      match rf_files o !! p with
      | Some c =>
          (Z.of_nat (length d),
           mkRamfs (<[p := fwrite_at c k d]> (rf_files o))
             (<[fd := (p, (k + length d)%nat)]> (rf_descs o)))
      | None => (-1, o)
      end
  | None => (-1, o)
  end.

#[export] Instance ramfs_posix : Posix ramfs := {
  os_open := ram_open;
  os_creat := make;
  os_read := ram_read;
  os_write := ram_write;
  os_lseek _ _ o := (-1, o);
  os_close fd o := (0, mkRamfs (rf_files o) (delete fd (rf_descs o)));
  os_remove p o := (0, mkRamfs (delete p (rf_files o)) (rf_descs o));
  os_stat p o := (fun c => Z.of_nat (length c)) <$> rf_files o !! p;
  os_mount _ _ _ o := (0, o);
  os_umount _ o := (0, o)
}.

#[export] Instance ramfs_view : PosixView ramfs := {
  file o p := rf_files o !! p;
  desc o fd := rf_descs o !! fd;
  healthy _ := True
}.

Lemma new_fd_fresh o : 0 < new_fd o /\ rf_descs o !! new_fd o = None.
Proof.
  assert (3 <= new_fd o /\ forall k, is_Some (rf_descs o !! k) -> k < new_fd o) as [H1 H2].
  { unfold new_fd. apply (map_fold_weak_ind
      (fun r (m : gmap Z (path * nat)) => 3 <= r /\ forall k, is_Some (m !! k) -> k < r)).
    - split; [lia|]. intros k. rewrite lookup_empty. by intros [].
    - intros k x m r Hm [IH1 IH2]. split; [lia|]. intros k'.
      destruct (decide (k = k')) as [->|]; [lia|]. rewrite lookup_insert_ne by done.
      intros Hk. specialize (IH2 _ Hk). lia. }
  split; [lia|]. destruct (rf_descs o !! new_fd o) eqn:E; [|done].
  assert (new_fd o < new_fd o) by eauto. lia.
Qed.

Lemma alloc_spec p o fd o' :
  alloc p o = (fd, o') ->
  0 < fd /\ rf_files o' = rf_files o /\ rf_descs o !! fd = None
  /\ rf_descs o' = <[fd := (p, 0%nat)]> (rf_descs o).
Proof. intros [= <- <-]. destruct (new_fd_fresh o). done. Qed.

Lemma make_created p o fd o' : make p o = (fd, o') -> created p o fd o'.
Proof.
  intros (Hfd & Hf & Hn & Hd)%alloc_spec. simpl in *. unfold created, same_files_but, same_descs_but.
  simpl. rewrite Hf, Hd, (proj2 (Z.ltb_ge fd 0)) by lia.
  split_and!; try done; intros; simplify_map_eq; done.
Qed.

#[export] Instance ramfs_laws : PosixLaws ramfs.
Proof.
  split.
  - intros p o fd o'. simpl. unfold opened, same_files, same_descs_but, same_descs.
    destruct (rf_files o !! p) eqn:E; [|by intros [= <- <-]].
    intros (Hfd & Hf & Hn & Hd)%alloc_spec. simpl. rewrite Hf, Hd, (proj2 (Z.ltb_ge fd 0)) by lia.
    split_and!; try done; intros; by simplify_map_eq.
  - intros p o fd o'. apply make_created.
  - intros p o fd o'. apply make_created.
  - intros p o fd o' (Hfd & Hf & Hn & Hd)%alloc_spec. unfold same_files, same_descs_but. simpl.
    rewrite Hf, Hd, (proj2 (Z.ltb_ge fd 0)) by lia. split_and!; try done; intros; by simplify_map_eq.
  - intros fd n o r o' p k c. simpl. unfold ram_read. intros E Hd Hc. rewrite Hd, Hc in E.
    injection E as <- <-. unfold same_files, same_descs_but. simpl.
    split_and!; try done; try by intros; simplify_map_eq.
    + by rewrite take_length_take.
    + rewrite length_take. lia.
    + intros Hn%(f_equal length). rewrite length_take in Hn. simpl in Hn.
      destruct (drop k c); [by right|]. simpl in Hn. left. lia.
  - intros fd d o r o' p k c. simpl. unfold ram_write. intros E Hd Hc. rewrite Hd, Hc in E.
    injection E as <- <-. unfold same_files_but, same_descs_but. simpl.
    split_and!; try done; try by intros; simplify_map_eq.
    intros _. by rewrite take_ge, !lookup_insert_eq, Nat2Z.id by lia.
  - by intros fd off o r o' [= <- <-].
  - intros fd o r o' [= <- <-]. unfold same_files, same_descs_but. simpl.
    split_and!; try done; intros; try split; by simplify_map_eq.
  - intros p o r o' [= <- <-]. unfold same_files_but, same_descs. simpl.
    split_and!; try done; intros; try split; by simplify_map_eq.
  - intros p o c. simpl. by intros -> _.
Qed.

(** ** A flash chip: the bytes that are not 0xff *)

Abbreviation chip := (gmap Z Z).

Definition chip_byte (f : chip) (x : Z) : Z := Z.land (default 255 (f !! x)) 255.

Fixpoint chip_program (a : Z) (d : list Z) (f : chip) : chip :=
  match d with
  | [] => f
  | b :: d' => chip_program (a + 1) d' (<[a := Z.land (chip_byte f a) b]> f)
  end.

Definition sector_size : Z := 131072.

#[export] Instance chip_view : FlashView chip := {
  sector x := x / sector_size;
  on_device a n := 2147483648 <= a /\ a + n <= 2164260864;
  works _ := True
}.

#[export] Instance chip_dev : FlashDev chip := {
  block_locking := true;
  flash_init f := (0, f);
  flash_unlock _ _ f := (0, f);
  flash_erase a n f := (0, filter (fun kv : Z * Z => touched (F := chip) a n kv.1 = false) f);
  flash_program a d f := (0, chip_program a d f);
  flash_byte := chip_byte;
  flash_errmsg _ := codes "error";
  flash_err_addr _ := 0
}.

Lemma chip_program_other a d f x :
  x < a \/ a + Z.of_nat (length d) <= x -> chip_program a d f !! x = f !! x.
Proof.
  revert a f. induction d as [|b d IH]; intros a f Hx; cbn [chip_program]; [done|].
  cbn [length] in Hx. rewrite IH by lia. apply lookup_insert_ne. lia.
Qed.

Lemma chip_program_at a d f i b :
  d !! i = Some b ->
  chip_byte (chip_program a d f) (a + Z.of_nat i) = Z.land (chip_byte f (a + Z.of_nat i)) b.
Proof.
  revert a f i. induction d as [|c d IH]; intros a f i Hi; [done|]. destruct i as [|i].
  - injection Hi as ->. cbn [chip_program]. unfold chip_byte at 1.
    rewrite Z.add_0_r, chip_program_other, lookup_insert_eq by lia. simpl. unfold chip_byte.
    by rewrite <- !Z.land_assoc, (Z.land_comm b 255), (Z.land_assoc 255 255 b).
  - cbn [chip_program]. simpl in Hi. replace (a + Z.of_nat (S i)) with (a + 1 + Z.of_nat i) by lia.
    rewrite IH by done. unfold chip_byte. by rewrite lookup_insert_ne by lia.
Qed.

#[export] Instance chip_laws : FlashLaws chip.
Proof.
  split.
  - intros a b H. by apply Z.div_le_mono.
  - intros f x. apply land_255_byte.
  - by intros f r f' [= <- <-].
  - by intros a n f r f' [= <- <-].
  - intros a n f r f' E _. injection E as <- <-. split_and!; try done.
    + intros x Hx. simpl. unfold chip_byte. rewrite map_lookup_filter. simpl.
      destruct (f !! x); simpl; [|done]. by rewrite option_guard_True.
    + intros _ x Hx. simpl. unfold chip_byte. rewrite map_lookup_filter. simpl.
      destruct (f !! x); simpl; [|done]. rewrite option_guard_False; [done|congruence].
  - intros a d f r f' [= <- <-]. split_and!; try done.
    + intros x Hx. simpl. unfold chip_byte. by rewrite chip_program_other.
    + intros i b Hb. left. by apply chip_program_at.
  - intros a n b m. simpl. lia.
Qed.

(** ** A decompressor *)

Record pass := mkPass { pin : list Z; pout : list Z }.

(** The bytes before the first zero. *)
Fixpoint before_zero (l : list Z) : list Z :=
  match l with
  | c :: l' => if c =? 0 then [] else c :: before_zero l'
  | [] => []
  end.

Definition pass_inflate (z : pass) (inp : list Z) (room : Z) : Z * nat * list Z * pass :=
  let out := take (Z.to_nat room) (before_zero inp) in
  match inp !! length out with
  | Some 0 =>
      (Z_STREAM_END, S (length out), out, mkPass (pin z ++ out ++ [0]) (pout z ++ out))
  | _ =>
      match out with
      | [] => (-5, 0%nat, [], z)
      | _ => (Z_OK, length out, out, mkPass (pin z ++ out) (pout z ++ out))
      end
  end.

#[export] Instance pass_zlib : Zlib pass := {
  inflateInit := (Z_OK, mkPass [] []);
  inflate := pass_inflate
}.

#[export] Instance pass_view : ZlibView pass := {
  zin := pin;
  zout := pout;
  zlive z := pin z = pout z /\ ~ (0 ∈ pin z);
  decodes s d := s = d ++ [0] /\ ~ (0 ∈ d)
}.

Lemma before_zero_spec l : ~ (0 ∈ before_zero l) /\ exists r, l = before_zero l ++ r.
Proof.
  induction l as [|c l [IH1 (r & IH2)]]; simpl; [split; [apply not_elem_of_nil|by exists []]|].
  destruct (Z.eqb_spec c 0) as [->|Hc]; [split; [apply not_elem_of_nil|by eexists]|].
  split; [by apply not_elem_of_cons|]. exists r. simpl. by f_equal.
Qed.

(** What a call puts out is the input it uses, without a zero. *)
Lemma pass_out inp room (out := take (Z.to_nat room) (before_zero inp)) :
  ~ (0 ∈ out) /\ out = take (length out) inp /\ (length out <= length inp)%nat
  /\ Z.of_nat (length out) <= Z.max 0 room.
Proof.
  destruct (before_zero_spec inp) as [H1 (r & H2)]. unfold out. split_and!.
  - intros (i & Hi)%list_elem_of_lookup. apply lookup_take_Some in Hi as [Hi _].
    by apply H1, (list_elem_of_lookup_2 _ i).
  - rewrite H2 at 3. rewrite take_app_le by (rewrite length_take; lia).
    by rewrite take_length_take.
  - rewrite H2 at 2. rewrite length_app, length_take. lia.
  - rewrite length_take. lia.
Qed.

Lemma zero_in (d r : list Z) : 0 ∈ d ++ 0 :: r.
Proof. rewrite elem_of_app. right. by left. Qed.

Lemma zero_unique (d1 d2 r : list Z) :
  ~ (0 ∈ d1) -> ~ (0 ∈ d2) -> d1 ++ 0 :: r = d2 ++ [0] -> d1 = d2.
Proof.
  revert d2. induction d1 as [|c d1 IH]; intros [|c2 d2] H1 H2 E; simpl in *.
  - done.
  - injection E as <- E. by destruct H2; left.
  - injection E as -> E. by destruct H1; left.
  - injection E as -> E. f_equal. apply IH; [| |done]; intros ?; [apply H1|apply H2]; by right.
Qed.

#[export] Instance pass_laws : ZlibLaws pass.
Proof.
  split.
  - intros _. simpl. split_and!; [done|set_solver|done|done].
  - intros z inp room err used out z'. simpl. unfold pass_inflate.
    destruct (pass_out inp room) as (H0 & H1 & H2 & H3).
    set (o := take (Z.to_nat room) (before_zero inp)) in *. intros E [Hl Hz] Hr He.
    destruct (decide (inp !! length o = Some 0)) as [Hx|Hx].
    { rewrite Hx in E. injection E as <- <- <- <-. simpl. apply lookup_lt_Some in Hx as Hlt.
      split_and!; try done; try lia.
      - f_equal. rewrite (take_S_r _ _ 0) by done. by rewrite <- H1.
      - intros _. rewrite Hl, app_assoc. split; [done|]. rewrite <- Hl, elem_of_app. tauto. }
    assert ((match o with
             | [] => (-5, 0%nat, [], z)
             | _ => (Z_OK, length o, o, mkPass (pin z ++ o) (pout z ++ o))
             end) = (err, used, out, z')) as E'.
    { destruct (inp !! length o) as [[]|]; done. }
    destruct o eqn:Ho; [injection E' as <- <- <- <-; by destruct He|].
    rewrite <- Ho in *. injection E' as <- <- <- <-. simpl.
    split_and!; try done; try lia; [by rewrite <- H1|].
    intros _. assert (0 < length o)%nat by (rewrite Ho; simpl; lia).
    rewrite <- Hl, elem_of_app. split_and!; [done|tauto|lia].
  - intros z inp room err used out z' src d. simpl. unfold pass_inflate.
    set (o := take (Z.to_nat room) (before_zero inp)). intros E [Hl Hz] Hr [-> Hd] _ Hi.
    destruct Hi as [Hi|Hi]; [|destruct Hz; rewrite Hi; apply zero_in]. destruct inp as [|c inp]; [done|].
    destruct (decide (c = 0)) as [->|Hc].
    + unfold o in E. simpl in E. rewrite take_nil in E. simpl in E. injection E as <- _ _ _. by right.
    + assert (exists x o', o = x :: o') as (x & o' & Ho).
      { unfold o. simpl. rewrite (proj2 (Z.eqb_neq c 0)) by done.
        destruct (Z.to_nat room) eqn:?; [lia|]. simpl. eauto. }
      rewrite Ho in E. destruct (_ !! _) as [[]|]; simplify_eq; auto.
  - intros z src d [_ Hz] [-> Hd] [H|[r H]]; [done|]. simpl in *. destruct Hz.
    rewrite H, <- app_assoc. apply zero_in.
  - intros z [Hl _]. simpl. rewrite Hl. lia.
  - intros s1 d1 s2 d2 [-> H1] [-> H2] [r H]. rewrite <- app_assoc in H. simpl in H.
    by rewrite (zero_unique d1 d2 r).
Qed.
