(* ===== verification/FirmwareUtil.v ===== *)
(** * The firmware utility (packages/services/firmwareutil, firmwareutil.c)

    Checks the header of an uploaded file, decompresses the rest into a
    temporary file, and programs the result into flash.  The file system, the
    flash library and zlib are the interfaces of Os.

    The calls of the caller's [print_info] are recorded in order; the callback
    only reports, so that its effect is the caller's to apply.  [inflateEnd]
    frees the memory of the stream and has no counterpart. *)

From S2P Require Import Prelude.
From S2P Require Import Stdio.
From S2P Require Import Os.

(** struct cyg_upgrade_info; [print_info] is what the log stands for. *)
Record cyg_upgrade_info := mkInfo {
  flash_base : Z;
  info_file : path;
  name : list Z;
  start_address : Z;
  length_ : Z;  (* the size of the region in flash *)
  header : list Z
}.

Definition tmp_file : path := codes "/ram/tmp".

(** The sizes of the static buffers. *)
Definition inflate_size : Z := 8192.
Definition flash_size : Z := 65536.

Record fw (Fs F : Type) := mkFw {
  fw_os : Fs;  (* the file system *)
  fw_flash : F;  (* the flash *)
  fw_log : list msg  (* the calls of print_info *)
}.
Arguments mkFw {Fs F} _ _ _.
Arguments fw_os {Fs F} _.
Arguments fw_flash {Fs F} _.
Arguments fw_log {Fs F} _.

Section FirmwareUtil.
Context {Fs F Zs : Type} `{!Posix Fs, !FlashDev F, !Zlib Zs}.

Abbreviation fwM := (M (fw Fs F)).

(** Calls of the file system and of the flash library. *)
Definition on_os {A} (f : Fs -> A * Fs) : fwM A := fun s =>
  let '(a, o) := f (fw_os s) in Ret (a, mkFw o (fw_flash s) (fw_log s)).

Definition on_flash {A} (f : F -> A * F) : fwM A := fun s =>
  let '(a, d) := f (fw_flash s) in Ret (a, mkFw (fw_os s) d (fw_log s)).

Definition report_info (fmt : string) (args : list arg) : fwM unit :=
  modify (fun s => mkFw (fw_os s) (fw_flash s) (fw_log s ++ [(fmt, args)])).

Definition close (fd : Z) : fwM unit :=
  _ ← on_os (os_close fd);
  mret tt.

(** ** The header *)

(** The loop of [expect]: [strin] from index [i] on. *)
Fixpoint expect_loop (whole : list Z) (fd : Z) (i : Z) (strin : list Z) : fwM bool :=
  match strin with
  | [] => mret true
  | c :: strin' =>
      r ← on_os (os_read fd 1);
      match r with
      | Some [t] =>
          if negb (t =? c) then
            report_info "Unexpected data in firmware file while expecting %s\n" [AStr whole];;
            mret false
          else expect_loop whole fd (i + 1) strin'
      | _ =>
          report_info "Error: reading firmware file , expecting \042%s\042\n" [AStr whole];;
          _ ← on_os (os_lseek fd (- (i + 1)));
          mret false
      end
  end.

Definition expect (fd : Z) (strin : list Z) : fwM bool := expect_loop strin fd 0 strin.

(** ** Decompression *)

(** Giving up closes both files. *)
Definition give_up_gunzip (tmpFile firmwareFile : Z) : fwM (option Z) :=
  close tmpFile;;
  close firmwareFile;;
  mret None.

(** The input is topped up to the size of the buffer; [None] is a read error. *)
Definition fill (firmwareFile : Z) (inp : list Z) : fwM (option (list Z)) :=
  let avail_in := Z.of_nat (length inp) in
  if avail_in <? inflate_size then
    r ← on_os (os_read firmwareFile (inflate_size - avail_in));
    match r with
    | None => mret None
    | Some d => mret (Some (inp ++ d))
    end
  else mret (Some inp).

(** The loop: [inp] are the [avail_in] bytes at [next_in]. *)
Fixpoint inflate_loop (fuel : nat) (tmpFile firmwareFile : Z) (inp : list Z) (d_stream : Zs)
    (offset : Z) : fwM (option Z) :=
  match fuel with
  | O => no_fuel
  | S k =>
      r ← fill firmwareFile inp;
      match r with
      | None =>
          report_info "Error: failed to read from firmware file" [];;
          give_up_gunzip tmpFile firmwareFile
      | Some inp =>
          let '(err, used, out, d_stream) := inflate d_stream inp inflate_size in
          if negb (err =? Z_STREAM_END) && negb (err =? Z_OK) then
            report_info "Error: failed to deflate application %d\n" [AInt err];;
            give_up_gunzip tmpFile firmwareFile
          else
            let len := Z.of_nat (length out) in
            actual ← on_os (os_write tmpFile out);
            if negb (actual =? len) then
              report_info "Error: Failed to write to temp file\n" [];;
              give_up_gunzip tmpFile firmwareFile
            else
              let offset := s32 (offset + len) in
              if err =? Z_STREAM_END then mret (Some offset)
              else inflate_loop k tmpFile firmwareFile (drop used inp) d_stream offset
      end
  end.

(** The length of the decompressed file, or [None] for false. *)
Definition gunzip_firmware (fuel : nat) (upgraded_file : cyg_upgrade_info) : fwM (option Z) :=
  firmwareFile ← on_os (os_open (info_file upgraded_file) [O_RDONLY]);
  if firmwareFile <=? 0 then
    report_info "Error: could not open %s\n" [AStr (info_file upgraded_file)];;
    mret None
  else
  tmpFile ← on_os (os_open tmp_file [O_RDWR; O_CREAT; O_TRUNC]);
  if tmpFile <=? 0 then
    report_info "Error: could not open temp file" [];;
    close firmwareFile;;
    mret None
  else
  ok ← expect firmwareFile (header upgraded_file);
  if negb ok then
    report_info "invalid image uploaded. Safely aborting upgrade.\n" [];;
    give_up_gunzip tmpFile firmwareFile
  else
  let '(err, d_stream) := inflateInit in
  if err =? Z_MEM_ERROR then
    report_info "Error: Failed to deflate application %d\n" [AInt err];;
    give_up_gunzip tmpFile firmwareFile
  else
  r ← inflate_loop fuel tmpFile firmwareFile [] d_stream 0;
  match r with
  | None => mret None
  | Some offset =>
      close tmpFile;;
      close firmwareFile;;
      mret (Some offset)
  end.

(** ** Programming *)

(** A chunk padded with 0xff to a multiple of four bytes. *)
Definition pad (d : list Z) : list Z :=
  let actual := Z.of_nat (length d) in
  let flashbuffer := d ++ replicate (Z.to_nat (flash_size - actual)) 255 in
  take (Z.to_nat (Z.land (actual + 3) (Z.lnot 3))) flashbuffer.

Definition flash_failed (what : string) (stat : Z) (firmwareFile : Z) : fwM unit :=
  s ← get;
  report_info what [AInt stat; APtr (flash_err_addr (fw_flash s)); AStr (flash_errmsg stat)];;
  close firmwareFile.

(** The loop: [None] when programming fails, else whether the last [read]
    failed and the address reached. *)
Fixpoint program_loop (fuel : nat) (firmwareFile startAddr write_times : Z)
    : fwM (option (bool * Z)) :=
  match fuel with
  | O => no_fuel
  | S k =>
      r ← on_os (os_read firmwareFile flash_size);
      match r with
      | None => mret (Some (true, startAddr))
      | Some [] => mret (Some (false, startAddr))
      | Some d =>
          stat ← on_flash (flash_program startAddr (pad d));
          if negb (stat =? 0) then
            flash_failed "Error: programming flash failed(%d, %p): %s\n" stat firmwareFile;;
            mret None
          else
            report_info "." [];;
            when (write_times mod 32 =? 0) (report_info "\n" []);;
            program_loop k firmwareFile (startAddr + Z.of_nat (length d)) (write_times + 1)
      end
  end.

(** The end: close, remove the upload, report. *)
Definition finish (upgraded_file : cyg_upgrade_info) (firmwareFile : Z) (failed : bool)
    : fwM bool :=
  close firmwareFile;;
  _ ← on_os (os_remove (info_file upgraded_file));
  if failed then
    report_info "Error: catastrophic failure. %s corrupt\n" [AStr (name upgraded_file)];;
    mret false
  else
    report_info "%s successfully updated.\n" [AStr (name upgraded_file)];;
    mret true.

(** Erasing and programming from the open temporary file. *)
Definition write_flash (fuel : nat) (upgraded_file : cyg_upgrade_info) (firmwareFile actuallength : Z)
    : fwM bool :=
  let startAddr := flash_base upgraded_file + start_address upgraded_file in
  stat ← (if block_locking then on_flash (flash_unlock startAddr actuallength) else mret 0);
  if negb (stat =? 0) then
    flash_failed "Error: unlocking flash failed(%d, %p): %s\n" stat firmwareFile;;
    mret false
  else
  report_info "Erasing flash..." [];;
  stat ← on_flash (flash_erase startAddr actuallength);
  if negb (stat =? 0) then
    flash_failed "Error: erasing flash failed(%d, %p): %s\n" stat firmwareFile;;
    mret false
  else
  report_info "done.\n" [];;
  report_info "Programming flash at %p %d bytes" [APtr startAddr; AInt actuallength];;
  r ← program_loop fuel firmwareFile startAddr 1;
  match r with
  | None => mret false
  | Some (failed, reached) =>
      report_info "done.\n" [];;
      when (negb (startAddr + actuallength =? reached))
        (report_info
           "Warning: firmware file corrupt, wrote incorrect amount of data to flash.\n" []);;
      finish upgraded_file firmwareFile failed
  end.

Definition cyg_firmware_upgrade (fuel : nat) (upgraded_file : cyg_upgrade_info) : fwM bool :=
  r ← gunzip_firmware fuel upgraded_file;
  match r with
  | None => mret false
  | Some actuallength =>
      firmwareFile ← on_os (os_open tmp_file [O_RDONLY]);
      if firmwareFile <=? 0 then
        report_info "Error: could not open %s\n" [AStr tmp_file];;
        mret false
      else
      report_info "%s update in progress\n" [AStr (name upgraded_file)];;
      write_flash fuel upgraded_file firmwareFile actuallength
  end.

End FirmwareUtil.
