(* ===== verification/FirmwareUtilProps.v ===== *)
(** * The firmware utility: its properties

    An upgrade touches the flash only for a file with the right header and a
    complete compressed image, and then programs that image; the size of the
    region is not checked. *)

From S2P Require Import Prelude.
From S2P Require Import Stdio.
From S2P Require Import Os.
From S2P Require Import OsSim.
From S2P Require Import FirmwareUtil.

(** * The firmware utility: lemmas

    The header check, the decompression loop and the programming loop, each
    with what it leaves alone, what it gives, and why it can only fail when a
    call failed or the file is not a firmware file. *)

Lemma fwrite_at_end c d : fwrite_at c (length c) d = c ++ d.
Proof.
  unfold fwrite_at. destruct d as [|b d]; [by rewrite app_nil_r|].
  rewrite take_app_length, (drop_ge c) by lia. by rewrite app_nil_r.
Qed.

Lemma land_lnot_3 x : 0 <= x -> Z.land x (Z.lnot 3) = 4 * (x / 4).
Proof.
  intros Hx. rewrite <- Z.ldiff_land. change 3 with (Z.ones 2).
  rewrite Z.ldiff_ones_r, Z.shiftr_div_pow2, Z.shiftl_mul_pow2 by lia. change (2 ^ 2) with 4. lia.
Qed.

(** A chunk is padded with at most three bytes 0xff. *)
Lemma pad_spec d :
  0 < Z.of_nat (length d) <= flash_size -> exists m, (m < 4)%nat /\ pad d = d ++ replicate m 255.
Proof.
  unfold pad, flash_size. intros Hd. set (n := Z.of_nat (length d)) in *.
  rewrite land_lnot_3 by lia. pose proof (Z_div_mod_eq_full (n + 3) 4) as Hdiv.
  pose proof (Z.mod_pos_bound (n + 3) 4 ltac:(lia)) as Hmod. set (q := (n + 3) / 4) in *.
  assert (n <= 4 * q <= n + 3 /\ 4 * q <= 65536) as [Hq Hq'].
  { lia. }
  exists (Z.to_nat (4 * q - n)). split; [lia|].
  rewrite take_app_ge by lia. f_equal. rewrite take_replicate. f_equal. lia.
Qed.

Section Facts.
Context {Fs F Zs : Type} `{!Posix Fs, !FlashDev F, !Zlib Zs}
  `{!PosixView Fs, !FlashView F, !ZlibView Zs} `{!PosixLaws Fs, !FlashLaws F, !ZlibLaws Zs}.
Implicit Types (s : fw Fs F) (o : Fs) (z : Zs).

(** ** Calls *)

Lemma wp_os {A} (f : Fs -> A * Fs) (Q : A -> fw Fs F -> Prop) s :
  (forall a o, f (fw_os s) = (a, o) -> Q a (mkFw o (fw_flash s) (fw_log s))) ->
  wp (on_os f) Q s.
Proof. intros H. unfold wp, on_os. destruct (f (fw_os s)) as [a o]. by apply H. Qed.

Lemma wp_flash {A} (f : F -> A * F) (Q : A -> fw Fs F -> Prop) s :
  (forall a d, f (fw_flash s) = (a, d) -> Q a (mkFw (fw_os s) d (fw_log s))) ->
  wp (on_flash f) Q s.
Proof. intros H. unfold wp, on_flash. destruct (f (fw_flash s)) as [a d]. by apply H. Qed.

(** What a run leaves alone: the flash, and the files but [p]. *)
Definition keeps (p : path) (s s' : fw Fs F) : Prop :=
  fw_flash s' = fw_flash s /\ same_files_but p (fw_os s) (fw_os s')
  /\ (healthy (fw_os s) -> healthy (fw_os s')).

Lemma keeps_refl p s : keeps p s s.
Proof. by split_and!. Qed.

Lemma keeps_trans p s1 s2 s3 : keeps p s1 s2 -> keeps p s2 s3 -> keeps p s1 s3.
Proof.
  intros (H1 & H2 & H3) (K1 & K2 & K3). split_and!; [congruence| |auto].
  intros q Hq. by rewrite K2, H2.
Qed.

Lemma keeps_same p s o l :
  same_files (fw_os s) o -> (healthy (fw_os s) -> healthy o) -> keeps p s (mkFw o (fw_flash s) l).
Proof. intros H1 H2. split_and!; [done|intros q _; apply H1|done]. Qed.

Lemma wp_report fmt args (Q : unit -> fw Fs F -> Prop) s :
  Q tt (mkFw (fw_os s) (fw_flash s) (fw_log s ++ [(fmt, args)])) -> wp (report_info fmt args) Q s.
Proof. done. Qed.

Lemma wp_close fd (Q : unit -> fw Fs F -> Prop) s :
  (forall s', fw_flash s' = fw_flash s -> same_files (fw_os s) (fw_os s') ->
     (healthy (fw_os s) -> healthy (fw_os s')) -> Q tt s') ->
  wp (close fd) Q s.
Proof.
  intros H. unfold close. apply wp_bind, wp_os. intros r o E. apply wp_ret.
  apply close_ok in E as (E1 & _ & E3). apply H; [done..|]. intros Hh. by apply E3.
Qed.

Lemma give_up_spec fd fd' p (Q : option Z -> fw Fs F -> Prop) s :
  (forall s', keeps p s s' -> Q None s') -> wp (give_up_gunzip fd fd') Q s.
Proof.
  intros H. unfold give_up_gunzip. apply wp_bind, wp_close. intros s1 A1 A2 A3.
  apply wp_bind, wp_close. intros s2 B1 B2 B3. apply wp_ret, H.
  split_and!; [congruence| |auto]. intros q _. by rewrite B2, A2.
Qed.

(** ** The header *)

Lemma expect_loop_spec whole fd i strin s p k c :
  desc (fw_os s) fd = Some (p, k) -> file (fw_os s) p = Some c ->
  wp (expect_loop whole fd i strin)
    (fun ok s' => fw_flash s' = fw_flash s /\ same_files (fw_os s) (fw_os s')
       /\ same_descs_but fd (fw_os s) (fw_os s') /\ (healthy (fw_os s) -> healthy (fw_os s'))
       /\ if ok then exists r, drop k c = strin ++ r
                      /\ desc (fw_os s') fd = Some (p, (k + length strin)%nat)
          else healthy (fw_os s) -> ~ strin `prefix_of` drop k c) s.
Proof.
  revert i s k. induction strin as [|ch strin IH]; intros i s k Hd Hf; cbn [expect_loop].
  { apply wp_ret. split_and!; try done. exists (drop k c). by rewrite Nat.add_0_r. }
  apply wp_bind, wp_os. intros r o E.
  eapply read_ok in E as (E1 & E2 & E3 & E4); [|done..].
  destruct r as [[|t [|t' r]]|].
  2: { destruct E4 as (E4 & _ & _ & E5). simpl in E4, E5.
       destruct (drop k c) as [|x rest] eqn:Hdr; [done|]. injection E4 as ->.
       destruct (Z.eqb_spec x ch) as [->|Hne]; cbn [negb].
       - eapply wp_mono; [apply (IH (i + 1) _ (k + 1)%nat)|]; simpl.
         { done. }
         { by rewrite E1. }
         intros ok s' (A1 & A2 & A3 & A4 & A5). simpl in *. split_and!; try done.
         + intros q. by rewrite A2, E1.
         + intros fd' Hfd. by rewrite A3, E2.
         + intros Hh. by apply A4, E3.
         + rewrite <- drop_drop, Hdr, skipn_cons, drop_0 in A5. destruct ok.
           * destruct A5 as (r & -> & ->). exists r. split; [done|]. cbn [length]. do 2 f_equal. lia.
           * intros Hh Hp. apply A5; [by apply E3|]. by apply prefix_cons_inv_2 in Hp.
       - apply wp_bind, wp_report, wp_ret. simpl. split_and!; try done.
         { intros Hh. by apply E3. }
         intros Hh Hp. by apply prefix_cons_inv_1 in Hp. }
  all: apply wp_bind, wp_report; apply wp_bind, wp_os; intros r' o' E'; apply wp_ret;
    apply lseek_ok in E' as (L1 & L2 & L3); simpl in *; split_and!; try done;
    try (intros q; by rewrite L1, E1); try (intros fd' Hfd; by rewrite L2, E2);
    try (intros Hh; by apply L3, E3).
  - destruct E4 as (_ & _ & E4 & _). destruct (E4 eq_refl) as [?| ->]; [lia|]. intros _ [? [=]].
  - destruct E4 as (_ & E4 & _). simpl in E4. lia.
  - intros Hh. by destruct (E3 Hh).
Qed.

(** ** Decompression *)

(** The state of the decompression of [payload], read from [p] and written to
    the temporary file: [z] has read a part of the payload, [inp] is waiting in
    the buffer, the rest is still in the file; what [z] has written is the
    temporary file. *)
Record inflating (p : path) (c payload : list Z) (tmpFile firmwareFile : Z)
    (inp : list Z) (z : Zs) (offset : Z) (o : Fs) : Prop := {
  inf_paths : p <> tmp_file;
  inf_fds : tmpFile <> firmwareFile;
  inf_file : file o p = Some c;
  inf_tmp : file o tmp_file = Some (zout z);
  inf_tmp_desc : desc o tmpFile = Some (tmp_file, length (zout z));
  inf_live : zlive z;
  inf_offset : offset = s32 (Z.of_nat (length (zout z)));
  inf_payload : exists k, desc o firmwareFile = Some (p, k) /\ payload = zin z ++ inp ++ drop k c
}.

Lemma s32_add a b : s32 (s32 a + b) = s32 (a + b).
Proof.
  unfold swrap. f_equal.
  replace ((a + 2 ^ (32 - 1)) `mod` 2 ^ 32 - 2 ^ (32 - 1) + b + 2 ^ (32 - 1))
    with ((a + 2 ^ (32 - 1)) `mod` 2 ^ 32 + b) by lia.
  rewrite Zplus_mod_idemp_l. f_equal. lia.
Qed.

(** After the buffer is filled it is empty only at the end of the file. *)
Lemma fill_spec p c payload tf ff inp z off s :
  inflating p c payload tf ff inp z off (fw_os s) ->
  wp (fill ff inp)
    (fun r s' => keeps tmp_file s s'
       /\ match r with
          | Some inp' => inflating p c payload tf ff inp' z off (fw_os s')
                         /\ (inp' = [] -> zin z = payload)
          | None => healthy (fw_os s) -> False
          end) s.
Proof.
  intros [Hp Hfd Hf Ht Htd Hl Ho (k & Hd & Hpl)]. unfold fill.
  destruct (Z.ltb_spec (Z.of_nat (length inp)) inflate_size) as [Hlt|Hge].
  - apply wp_bind, wp_os. intros r o E. eapply read_ok in E as (E1 & E2 & E3 & E4); [|done..].
    destruct r as [d|]; apply wp_ret; simpl.
    + destruct E4 as (E4 & _ & E6 & E7).
      split; [apply keeps_same; [done|intros Hh; by apply E3]|]. split.
      * split; try done; [by rewrite E1|by rewrite E1|by rewrite E2|].
        exists (k + length d)%nat. split; [done|].
        rewrite <- drop_drop, Hpl, <- app_assoc. do 2 f_equal.
        rewrite E4 at 1. by rewrite take_drop.
      * intros [-> ->]%app_eq_nil. destruct (E6 eq_refl) as [?|E]; [simpl in *; lia|].
        by rewrite Hpl, E, app_nil_r.
    + split; [apply keeps_same; [done|intros Hh; by apply E3]|]. intros Hh. by destruct (E3 Hh).
  - apply wp_ret. split; [apply keeps_refl|]. split; [by split; eauto|].
    unfold inflate_size in Hge. intros ->. simpl in Hge. lia.
Qed.

(** A valid stream at the start of the payload cannot make [inflate] fail. *)
Lemma inflate_no_error p c payload tf ff inp z off o err used out z' src d :
  inflating p c payload tf ff inp z off o -> (inp = [] -> zin z = payload) ->
  inflate z inp inflate_size = (err, used, out, z') ->
  decodes src d -> src `prefix_of` payload -> err = Z_OK \/ err = Z_STREAM_END.
Proof.
  intros [_ _ _ _ _ Hl _ (k & _ & Hpl)] He E Hd Hs.
  assert (zin z ++ inp `prefix_of` src \/ src `prefix_of` zin z ++ inp) as Hc.
  { apply (prefix_weak_total _ _ payload); [|done]. exists (drop k c). by rewrite Hpl, app_assoc. }
  eapply inflate_complete; [done..|]. destruct inp as [|x inp]; [right|by left].
  rewrite app_nil_r in Hc. rewrite He in * by done.
  destruct (live_prefix z src d Hl Hd) as [r Hr]; [by rewrite He|]. rewrite He in Hr by done.
  destruct Hs as [r' Hr']. rewrite Hr' in Hr. rewrite Hr' in *.
  apply (f_equal length) in Hr. rewrite !length_app in Hr. destruct r'; [|simpl in *; lia].
  by rewrite app_nil_r.
Qed.

(** A step of the stream and the write of its output. *)
Lemma inflating_step p c payload tf ff inp z off s err used out z' o' :
  inflating p c payload tf ff inp z off (fw_os s) ->
  inflate z inp inflate_size = (err, used, out, z') -> err = Z_OK \/ err = Z_STREAM_END ->
  os_write tf out (fw_os s) = (Z.of_nat (length out), o') ->
  keeps tmp_file s (mkFw o' (fw_flash s) (fw_log s))
  /\ file o' tmp_file = Some (zout z') /\ zin z' `prefix_of` payload
  /\ s32 (off + Z.of_nat (length out)) = s32 (Z.of_nat (length (zout z')))
  /\ (err = Z_OK -> inflating p c payload tf ff (drop used inp) z'
                      (s32 (off + Z.of_nat (length out))) o'
        /\ (length (zin z) + length (zout z) < length (zin z') + length (zout z'))%nat)
  /\ (err = Z_STREAM_END -> decodes (zin z') (zout z')).
Proof.
  intros [Hp Hfd Hf Ht Htd Hl Ho (k & Hd & Hpl)] E He W.
  eapply inflate_ok in E as (E1 & _ & E3 & E4 & E5 & E6); [|done..].
  eapply write_ok in W as (W1 & W2 & _ & _ & W5 & W6); [|done..].
  destruct W6 as [W6 W7]; [lia|]. rewrite Nat2Z.id, take_ge, fwrite_at_end, <- E4 in W6 by lia.
  assert (s32 (off + Z.of_nat (length out)) = s32 (Z.of_nat (length (zout z')))) as Hoff.
  { rewrite Ho, s32_add, E4, length_app. f_equal. lia. }
  split_and!; try done.
  - split_and!; [done..|]. intros Hh. by apply W5.
  - rewrite E3. exists (drop used inp ++ drop k c). rewrite Hpl, <- !app_assoc. f_equal.
    by rewrite app_assoc, take_drop.
  - intros HOK. destruct (E5 HOK) as [Hl' Hprog]. split; [|by rewrite E3, E4, !length_app, length_take; lia].
    split; try done; [by rewrite W1|by rewrite W7, E4, length_app; do 2 f_equal; lia|].
    exists k. rewrite W2 by done. split; [done|]. rewrite E3, Hpl, <- !app_assoc. f_equal.
    by rewrite app_assoc, take_drop.
Qed.

Lemma inflating_bound p c payload tf ff inp z off o :
  inflating p c payload tf ff inp z off o ->
  (length (zin z) + length (zout z) <= 1033 * length payload)%nat.
Proof.
  intros [_ _ _ _ _ Hl _ (k & _ & ->)]. apply expansion in Hl. rewrite !length_app. lia.
Qed.

(** A payload that starts with a valid stream of [d]. *)
Definition starts_with (payload d : list Z) : Prop :=
  exists src, decodes src d /\ src `prefix_of` payload.

(** The loop: fuel for every byte that can be read or written is enough.  It
    can fail only when a call failed or the payload is no valid stream. *)
Lemma inflate_loop_spec fuel p c payload tf ff inp z off s :
  inflating p c payload tf ff inp z off (fw_os s) ->
  (1033 * length payload < fuel + length (zin z) + length (zout z))%nat ->
  wp (inflate_loop fuel tf ff inp z off)
    (fun r s' => keeps tmp_file s s'
       /\ match r with
          | Some n => exists d, starts_with payload d /\ file (fw_os s') tmp_file = Some d
                               /\ n = s32 (Z.of_nat (length d))
          | None => healthy (fw_os s) -> forall d, ~ starts_with payload d
          end) s.
Proof.
  revert inp z off s. induction fuel as [|fuel IH]; intros inp z off s Hi Hfuel; cbn [inflate_loop].
  { apply inflating_bound in Hi. lia. }
  apply wp_bind. eapply wp_mono; [by eapply fill_spec|]. clear Hi. intros [inp'|] s1 [K1 H1].
  2: { apply wp_bind, wp_report, (give_up_spec _ _ tmp_file). intros s2 K2.
       split; [by eapply keeps_trans|]. intros Hh. by destruct (H1 Hh). }
  destruct H1 as [Hi He]. destruct (inflate z inp' inflate_size) as [[[err used] out] z'] eqn:E.
  wp_if.
  { apply wp_bind, wp_report, (give_up_spec _ _ tmp_file). intros s2 K2.
    split; [by eapply keeps_trans|]. intros _ d (src & Hs1 & Hs2).
    destruct (inflate_no_error _ _ _ _ _ _ _ _ _ _ _ _ _ _ _ Hi He E Hs1 Hs2) as [-> | ->]; done. }
  assert (err = Z_OK \/ err = Z_STREAM_END) as Herr.
  { destruct (Z.eqb_spec err Z_STREAM_END), (Z.eqb_spec err Z_OK); auto; done. }
  apply wp_bind, wp_os. intros r o W. wp_if.
  { apply wp_bind, wp_report, (give_up_spec _ _ tmp_file). intros s2 K2.
    pose proof Hi as [Hp Hfd Hf Ht Htd _ _ _].
    eapply write_ok in W as (W1 & _ & _ & _ & W5 & _); [|done..]. split.
    - eapply keeps_trans; [done|]. eapply keeps_trans; [|exact K2].
      split_and!; [done..|]. intros Hh. by apply W5.
    - intros Hh. destruct W5 as [_ W5]; [by apply K1|]. subst r. by rewrite Z.eqb_refl in *. }
  assert (r = Z.of_nat (length out)) as -> by by apply Z.eqb_eq, negb_false_iff.
  destruct (inflating_step _ _ _ _ _ _ _ _ s1 _ _ _ _ _ Hi E Herr W) as (K2 & S1 & S2 & S3 & S4 & S5).
  pose proof (keeps_trans _ _ _ _ K1 K2) as K. wp_if.
  { apply wp_ret. split; [exact K|]. exists (zout z'). split; [exists (zin z')|]; auto.
    split; [|done]. apply S5. by apply Z.eqb_eq. }
  destruct S4 as [Hi' Hlt]; [destruct Herr; [done|subst; done]|].
  eapply wp_mono; [apply IH; [exact Hi'|lia]|]. intros r s3 [K3 H3].
  split; [by eapply keeps_trans|]. destruct r; [done|]. intros Hh. apply H3. by apply K2, K1.
Qed.

(** [c] is a firmware file of the image [d]: its header, then its stream. *)
Definition firmware_of (info : cyg_upgrade_info) (c d : list Z) : Prop :=
  exists payload, c = header info ++ payload /\ starts_with payload d.

Lemma firmware_of_drop info c d :
  firmware_of info c d -> header info `prefix_of` c /\ starts_with (drop (length (header info)) c) d.
Proof. intros (pl & -> & H). rewrite drop_app_length. split; [by exists pl|done]. Qed.

(** An image is the only one of its file. *)
Lemma firmware_of_unique info c d d' : firmware_of info c d -> firmware_of info c d' -> d = d'.
Proof.
  intros [_ (s1 & D1 & P1)]%firmware_of_drop [_ (s2 & D2 & P2)]%firmware_of_drop.
  destruct (prefix_weak_total _ _ _ P1 P2) as [P|P].
  - by destruct (decodes_unique _ _ _ _ D1 D2 P).
  - by destruct (decodes_unique _ _ _ _ D2 D1 P).
Qed.

(** The check of the header and the loop, from the two open files. *)
Lemma gunzip_body fuel info tf ff s c :
  info_file info <> tmp_file -> tf <> ff -> (1033 * length c < fuel)%nat ->
  file (fw_os s) (info_file info) = Some c -> desc (fw_os s) ff = Some (info_file info, 0%nat) ->
  file (fw_os s) tmp_file = Some [] -> desc (fw_os s) tf = Some (tmp_file, 0%nat) ->
  wp (ok ← expect ff (header info);
      if negb ok then
        report_info "invalid image uploaded. Safely aborting upgrade.\n" [];; give_up_gunzip tf ff
      else
      let '(err, z) := inflateInit in
      if err =? Z_MEM_ERROR then
        report_info "Error: Failed to deflate application %d\n" [AInt err];; give_up_gunzip tf ff
      else
      r ← inflate_loop fuel tf ff [] z 0;
      match r with
      | None => mret None
      | Some offset => close tf;; close ff;; mret (Some offset)
      end)
    (fun r s' => keeps tmp_file s s'
       /\ match r with
          | Some n => exists d, firmware_of info c d /\ file (fw_os s') tmp_file = Some d
                               /\ n = s32 (Z.of_nat (length d))
          | None => healthy (fw_os s) -> (inflateInit (Zs := Zs)).1 <> Z_MEM_ERROR ->
                    forall d, ~ firmware_of info c d
          end) s.
Proof.
  intros Hp Hfd Hfuel Hc Hff Ht Htf. apply wp_bind.
  eapply wp_mono; [by apply expect_loop_spec|]. intros ok s1 (A1 & A2 & A3 & A4 & A5).
  assert (keeps tmp_file s s1) as K1 by (split_and!; [done|intros q _; apply A2|done]).
  destruct ok; cbn [negb].
  2: { apply wp_bind, wp_report, (give_up_spec _ _ tmp_file). intros s2 K2.
       split; [by eapply keeps_trans|]. intros Hh _ d [H _]%firmware_of_drop. by apply A5. }
  destruct A5 as (payload & Hc' & Hd). rewrite drop_0 in Hc'. simpl in Hd.
  destruct inflateInit as [err z] eqn:Hinit. pose proof init_live as Hz.
  rewrite Hinit in Hz. simpl in Hz. destruct (Z.eqb_spec err Z_MEM_ERROR) as [->|Herr].
  { apply wp_bind, wp_report, (give_up_spec _ _ tmp_file). intros s2 K2.
    split; [by eapply keeps_trans|]. done. }
  destruct (Hz Herr) as (Hz1 & Hz2 & Hz3). apply wp_bind.
  eapply wp_mono; [apply (inflate_loop_spec fuel (info_file info) c payload)|].
  { split; try done; rewrite ?A2, ?Hz3; try done; [by rewrite A3|].
    exists (length (header info)). split; [done|]. by rewrite Hz2, Hc', drop_app_length. }
  { rewrite Hc', length_app in Hfuel. lia. }
  intros [n|] s2 [K2 H2].
  - destruct H2 as (d & H2 & H3 & ->). apply wp_bind, wp_close. intros s3 B1 B2 B3.
    apply wp_bind, wp_close. intros s4 C1 C2 C3. apply wp_ret. split.
    + eapply keeps_trans; [exact K1|]. eapply keeps_trans; [exact K2|].
      split_and!; [congruence| |auto]. intros q _. by rewrite C2, B2.
    + exists d. rewrite C2, B2. split_and!; [by exists payload|done|done].
  - apply wp_ret. split; [by eapply keeps_trans|]. intros Hh _ d [_ Hs]%firmware_of_drop.
    rewrite Hc', drop_app_length in Hs. by apply (H2 (A4 Hh) d).
Qed.

Lemma gunzip_spec fuel info s :
  info_file info <> tmp_file ->
  (forall c, file (fw_os s) (info_file info) = Some c -> (1033 * length c < fuel)%nat) ->
  wp (gunzip_firmware fuel info)
    (fun r s' => keeps tmp_file s s'
       /\ match r with
          | Some n => exists c d, file (fw_os s) (info_file info) = Some c /\ firmware_of info c d
                        /\ file (fw_os s') tmp_file = Some d /\ n = s32 (Z.of_nat (length d))
          | None => healthy (fw_os s) -> (inflateInit (Zs := Zs)).1 <> Z_MEM_ERROR ->
                    forall c d, file (fw_os s) (info_file info) = Some c -> ~ firmware_of info c d
          end) s.
Proof.
  intros Hp Hfuel. unfold gunzip_firmware. apply wp_bind, wp_os. intros ff o1 E1.
  apply open_rdonly in E1 as (O1 & O2 & O3).
  destruct (Z.leb_spec ff 0) as [Hff|Hff].
  { apply wp_bind, wp_report, wp_ret. split; [by apply (keeps_same _ s o1)|]. intros Hh _ c d Hc.
    destruct (Z.ltb_spec ff 0); [destruct O3 as [_ O3]; rewrite O3 in Hc; done|].
    destruct O3 as (_ & _ & _ & _ & O3). specialize (O3 Hh). lia. }
  rewrite (proj2 (Z.ltb_ge ff 0)) in O3 by lia. destruct O3 as (_ & O4 & _ & [c Hc] & _).
  apply wp_bind, wp_os. intros tf o2 E2. apply open_create in E2 as (P1 & P2 & P3). simpl in *.
  assert (keeps tmp_file s (mkFw o2 (fw_flash s) (fw_log s))) as K.
  { split_and!; [done| |]; simpl; [intros q Hq; by rewrite P1, O1|]. intros Hh. by apply P2, O2. }
  destruct (Z.leb_spec tf 0) as [Htf|Htf].
  { apply wp_bind, wp_report. apply wp_bind, wp_close. intros s3 C1 C2 C3. apply wp_ret. split.
    - eapply keeps_trans; [exact K|]. split_and!; [done|intros q _; apply C2|done].
    - intros Hh. destruct P2 as [_ ?]; [by apply O2|lia]. }
  rewrite (proj2 (Z.ltb_ge tf 0)) in P3 by lia. destruct P3 as (P3 & P4 & P5 & P6).
  assert (tf <> ff) as Hne by congruence.
  eapply wp_mono; [apply (gunzip_body fuel info tf ff _ c)|]; simpl; auto.
  - by rewrite P1, O1.
  - by rewrite P5.
  - intros r s3 [K3 H3]. split; [by eapply keeps_trans|]. destruct r as [n|].
    + destruct H3 as (d & H3). by exists c, d.
    + intros Hh Hi c' d Hc'. simplify_eq. apply H3; [|done]. by apply K.
Qed.

(** ** Programming *)

Lemma land_byte_255 b : is_byte b -> Z.land b 255 = b.
Proof. intros H. rewrite land_255. by apply Z.mod_small. Qed.

(** The padding changes nothing. *)
Lemma program_pad a c f r f' :
  flash_program a (pad c) f = (r, f') -> 0 < Z.of_nat (length c) <= flash_size ->
  (forall x, x < a \/ a + Z.of_nat (length c) <= x -> flash_byte f' x = flash_byte f x)
  /\ (r = 0 -> forall i b, c !! i = Some b ->
        flash_byte f' (a + Z.of_nat i) = Z.land (flash_byte f (a + Z.of_nat i)) b)
  /\ (works f -> on_device a (Z.of_nat (length c) + 3) -> r = 0 /\ works f').
Proof.
  intros E Hc. destruct (pad_spec c Hc) as (m & Hm & Hpad). rewrite Hpad in E.
  apply program_ok in E as (E1 & E2 & E3). rewrite length_app, length_replicate in *.
  split_and!.
  - intros x Hx. destruct (decide (x < a \/ a + Z.of_nat (length c + m) <= x)) as [?|Hin]; [by apply E1|].
    destruct (E2 (Z.to_nat (x - a)) 255) as [E|[_ E]].
    + rewrite lookup_app_r by lia. apply lookup_replicate. split; [done|lia].
    + replace (a + Z.of_nat (Z.to_nat (x - a))) with x in E by lia.
      by rewrite E, land_byte_255 by apply flash_byte_range.
    + by replace (a + Z.of_nat (Z.to_nat (x - a))) with x in E by lia.
  - intros -> i b Hb. destruct (E2 i b) as [E|[? _]]; [by apply lookup_app_l_Some|done|done].
  - intros Hw Hd. apply E3; [done|]. eapply on_device_sub; [done|lia..].
Qed.

Lemma program_loop_spec fuel fd start d k wt s :
  desc (fw_os s) fd = Some (tmp_file, k) -> file (fw_os s) tmp_file = Some d ->
  (k <= length d)%nat -> (length d < fuel + k)%nat ->
  (forall j, (k <= j < length d)%nat -> flash_byte (fw_flash s) (start + Z.of_nat j) = 255) ->
  wp (program_loop fuel fd (start + Z.of_nat k) wt)
    (fun r s' => same_files (fw_os s) (fw_os s') /\ (healthy (fw_os s) -> healthy (fw_os s'))
       /\ (forall x, x < start + Z.of_nat k \/ start + Z.of_nat (length d) <= x ->
             flash_byte (fw_flash s') x = flash_byte (fw_flash s) x)
       /\ match r with
          | Some (false, a) => a = start + Z.of_nat (length d)
              /\ forall j b, (k <= j)%nat -> d !! j = Some b ->
                   flash_byte (fw_flash s') (start + Z.of_nat j) = u8 b
          | Some (true, _) => healthy (fw_os s) -> False
          | None => works (fw_flash s) -> on_device start (Z.of_nat (length d) + 3) -> False
          end) s.
Proof.
  revert k wt s. induction fuel as [|fuel IH]; intros k wt s Hd Hf Hk Hfuel He; [lia|].
  cbn [program_loop]. apply wp_bind, wp_os. intros r o E.
  eapply read_ok in E as (E1 & E2 & E3 & E4); [|done..].
  destruct r as [[|b0 c0]|].
  - apply wp_ret. simpl. destruct E4 as (_ & _ & E4 & _).
    destruct (E4 eq_refl) as [?|Hnil]; [unfold flash_size in *; lia|].
    apply (f_equal length) in Hnil. rewrite length_drop in Hnil. simpl in Hnil.
    split_and!; try done; [intros Hh; by apply E3|lia|].
    intros j b Hj Hb%lookup_lt_Some. lia.
  - destruct E4 as (E4 & E5 & _ & E6). set (c := b0 :: c0) in *.
    assert (0 < length c)%nat as Hc by (simpl; lia). clearbody c.
    assert (k + length c <= length d)%nat as Hkc.
    { apply (f_equal length) in E4. rewrite length_take, length_drop in E4. lia. }
    apply wp_bind, wp_flash. intros st f P. simpl in P.
    apply program_pad in P as (P1 & P2 & P3); [|unfold flash_size in *; lia].
    destruct (Z.eqb_spec st 0) as [->|Hst]; cbn [negb].
    2: { apply wp_bind. unfold flash_failed. wp_steps. apply wp_report. apply wp_close. intros s4 C1 C2 C3.
         apply wp_ret. simpl in *. split_and!.
         - intros q. by rewrite C2, E1.
         - intros Hh. by apply C3, E3.
         - intros x Hx. rewrite C1. apply P1. lia.
         - intros Hw Hdev. destruct P3 as [? _]; try done.
           eapply on_device_sub; [done|lia..]. }
    apply wp_bind, wp_report. apply wp_bind.
    eapply (wp_mono _ (fun _ s5 => fw_os s5 = o /\ fw_flash s5 = f)).
    { by apply wp_when. }
    intros _ s5 [Ho5 Hf5].
    replace (start + Z.of_nat k + Z.of_nat (length c))
      with (start + Z.of_nat (k + length c)) by lia.
    eapply wp_mono; [apply (IH (k + length c)%nat); rewrite ?Ho5, ?Hf5;
      [done|by rewrite E1|done|lia|intros j Hj; rewrite P1 by lia; apply He; lia]|].
    rewrite Ho5, Hf5. intros r s6 (A1 & A2 & A3 & A4). split_and!.
    + intros q. by rewrite A1, E1.
    + intros Hh. by apply A2, E3.
    + intros x Hx. rewrite A3 by lia. apply P1. lia.
    + destruct r as [[[] a]|].
      * intros Hh. by apply A4, E3.
      * destruct A4 as [-> A4]. split; [done|]. intros j b Hj Hb.
        destruct (decide (j < k + length c)%nat) as [Hlt|]; [|apply A4; [lia|done]].
        rewrite A3 by lia. replace (start + Z.of_nat j) with (start + Z.of_nat k + Z.of_nat (j - k)) by lia.
        rewrite (P2 eq_refl _ b).
        { replace (start + Z.of_nat k + Z.of_nat (j - k)) with (start + Z.of_nat j) by lia.
          apply lookup_lt_Some in Hb. rewrite He by lia. by rewrite Z.land_comm, land_255. }
        rewrite E4, lookup_take_lt, lookup_drop by lia. rewrite <- Hb. f_equal. lia.
      * intros Hw Hdev. apply A4; [|done]. apply P3; [done|]. eapply on_device_sub; [done|lia..].
  - apply wp_ret. simpl. split_and!; try done; intros Hh; by apply E3.
Qed.

Lemma touched_inside a n x : a <= x < a + n -> touched (F := F) a n x = true.
Proof.
  intros Hx. unfold touched. apply andb_true_iff. split; apply Z.leb_le, sector_mono; lia.
Qed.

Lemma finish_spec info fd failed s :
  wp (finish info fd failed)
    (fun b s' => b = negb failed /\ fw_flash s' = fw_flash s
       /\ (healthy (fw_os s) -> healthy (fw_os s') /\ file (fw_os s') (info_file info) = None)) s.
Proof.
  unfold finish. apply wp_bind, wp_close. intros s1 A1 A2 A3. apply wp_bind, wp_os. intros r o E.
  apply remove_ok in E as (_ & _ & E). destruct failed; apply wp_bind, wp_report, wp_ret; simpl; auto.
Qed.

(** A status that is not zero ends the upgrade. *)
Lemma flash_failed_spec what stat fd (Q : bool -> fw Fs F -> Prop) s :
  (forall s', fw_flash s' = fw_flash s -> Q false s') ->
  wp (flash_failed what stat fd;; mret false) Q s.
Proof.
  intros H. apply wp_bind. unfold flash_failed. wp_steps. apply wp_report, wp_close.
  intros s' E _ _. by apply wp_ret, H.
Qed.

Definition start (info : cyg_upgrade_info) : Z := flash_base info + start_address info.

(** The bytes at [a] are those of [d]. *)
Definition holds (f : F) (a : Z) (d : list Z) : Prop :=
  forall i b, d !! i = Some b -> flash_byte f (a + Z.of_nat i) = u8 b.

Definition untouched (f f' : F) (a n : Z) : Prop :=
  forall x, touched (F := F) a n x = false -> flash_byte f' x = flash_byte f x.

Definition flash_ready (f : F) (a n : Z) : Prop := works f /\ on_device (F := F) a (n + 3).

Lemma unlock_spec a n s :
  wp (if block_locking (F := F) then on_flash (flash_unlock a n) else mret 0)
    (fun st s' => fw_os s' = fw_os s
       /\ (forall x, flash_byte (fw_flash s') x = flash_byte (fw_flash s) x)
       /\ (0 <= n -> flash_ready (fw_flash s) a n -> st = 0 /\ works (fw_flash s'))) s.
Proof.
  destruct block_locking; [|apply wp_ret; split_and!; [done..|by intros _ []]].
  apply wp_flash. intros st f E. apply unlock_ok in E as [E1 E2]. simpl. split_and!; [done..|].
  intros Hn [Hw Hd]. apply E2; [done|]. eapply on_device_sub; [done|lia..].
Qed.

Lemma write_flash_spec fuel info fd s d :
  desc (fw_os s) fd = Some (tmp_file, 0%nat) -> file (fw_os s) tmp_file = Some d ->
  0 < Z.of_nat (length d) -> (length d < fuel)%nat ->
  wp (write_flash fuel info fd (Z.of_nat (length d)))
    (fun b s' => untouched (fw_flash s) (fw_flash s') (start info) (Z.of_nat (length d))
       /\ (b = true -> holds (fw_flash s') (start info) d)
       /\ (healthy (fw_os s) -> flash_ready (fw_flash s) (start info) (Z.of_nat (length d)) ->
            b = true /\ healthy (fw_os s') /\ file (fw_os s') (info_file info) = None)) s.
Proof.
  intros Hd Hf Hn Hfuel. unfold write_flash. fold (start info). set (a := start info).
  apply wp_bind. eapply wp_mono; [apply unlock_spec|]. intros st s1 (U1 & U2 & U3).
  destruct (Z.eqb_spec st 0) as [->|Hst]; cbn [negb].
  2: { apply flash_failed_spec. intros s2 E. split_and!; [|done|].
       - intros x _. by rewrite E.
       - intros _ Hr. destruct U3; [lia|done|done]. }
  apply wp_bind, wp_report. apply wp_bind, wp_flash. intros st f E. simpl in E.
  apply erase_ok in E as (E1 & E2 & E3); [|done].
  destruct (Z.eqb_spec st 0) as [->|Hst]; cbn [negb].
  2: { apply flash_failed_spec. intros s2 E. split_and!; [|done|].
       - intros x Hx. by rewrite E, <- U2, <- E1.
       - intros _ Hr. destruct U3; [lia|done|]. destruct E3 as [? _]; try done.
         destruct Hr as [_ Hr]. eapply on_device_sub; [done|lia..]. }
  apply wp_bind, wp_report. apply wp_bind, wp_report. apply wp_bind.
  replace a with (a + Z.of_nat 0) at 1 by lia.
  eapply wp_mono; [apply (program_loop_spec _ _ _ d 0); simpl; [by rewrite U1..|lia|lia|]|].
  { intros j Hj. apply E2; [done|]. apply touched_inside. lia. }
  intros r s2 (A1 & A2 & A3 & A4). simpl in *. rewrite U1 in *.
  assert (untouched (fw_flash s) (fw_flash s2) a (Z.of_nat (length d))) as Hun.
  { intros x Hx. rewrite A3, E1, U2; [done..|].
    destruct (decide (a <= x < a + Z.of_nat (length d))) as [Hin|]; [|lia].
    by rewrite touched_inside in Hx. }
  assert (flash_ready (fw_flash s) a (Z.of_nat (length d)) -> works f) as Hworks.
  { intros Hr. destruct U3; [lia|done|]. apply E3; [done|]. destruct Hr as [_ Hr].
    eapply on_device_sub; [done|lia..]. }
  destruct r as [[failed reached]|].
  2: { apply wp_ret. split_and!; [done|done|]. intros _ Hr. destruct A4; [auto|apply Hr]. }
  apply wp_bind, wp_report. apply wp_bind.
  eapply (wp_mono _ (fun _ s3 => fw_os s3 = fw_os s2 /\ fw_flash s3 = fw_flash s2)).
  { by apply wp_when. }
  intros _ s3 [Ho Hfl]. eapply wp_mono; [apply finish_spec|]. rewrite Ho, Hfl.
  intros b s4 (-> & F1 & F2). rewrite F1. split_and!; [done| |].
  - destruct failed; [done|]. intros _ i b. apply A4. lia.
  - intros Hh _. destruct failed; [by destruct A4|]. split; [done|]. by apply F2, A2.
Qed.

(** The whole upgrade of a file that is a firmware file. *)
Lemma upgrade_spec fuel info s c d :
  info_file info <> tmp_file -> file (fw_os s) (info_file info) = Some c -> firmware_of info c d ->
  0 < Z.of_nat (length d) < 2147483648 -> (1033 * length c < fuel)%nat -> (length d < fuel)%nat ->
  wp (cyg_firmware_upgrade (Zs := Zs) fuel info)
    (fun b s' => untouched (fw_flash s) (fw_flash s') (start info) (Z.of_nat (length d))
       /\ (b = true -> holds (fw_flash s') (start info) d)
       /\ (healthy (fw_os s) -> (inflateInit (Zs := Zs)).1 <> Z_MEM_ERROR ->
            flash_ready (fw_flash s) (start info) (Z.of_nat (length d)) ->
            b = true /\ healthy (fw_os s') /\ file (fw_os s') (info_file info) = None)) s.
Proof.
  intros Hp Hc Hd Hn Hfuel Hfuel'. unfold cyg_firmware_upgrade. apply wp_bind.
  eapply wp_mono; [apply gunzip_spec; [done|congruence]|]. intros [n|] s1 [(K1 & K2 & K3) H1].
  2: { apply wp_ret. rewrite K1. split_and!; [done|done|]. intros Hh Hi. by destruct (H1 Hh Hi c d). }
  destruct H1 as (c' & d' & Hc' & Hd' & Ht & ->). simplify_eq.
  assert (d' = d) as -> by by eapply firmware_of_unique.
  rewrite (s32_id (Z.of_nat (length d))) by lia.
  apply wp_bind, wp_os. intros fd o E. apply open_rdonly in E as (O1 & O2 & O3).
  destruct (Z.leb_spec fd 0) as [Hfd|Hfd].
  { apply wp_bind, wp_report, wp_ret. simpl. rewrite K1. split_and!; [done|done|]. intros Hh _ _.
    destruct (Z.ltb_spec fd 0); [destruct O3 as [_ O3]; rewrite O3 in Ht; [done|auto]|].
    destruct O3 as (_ & _ & _ & _ & O3). specialize (O3 (K3 Hh)). lia. }
  rewrite (proj2 (Z.ltb_ge fd 0)) in O3 by lia. destruct O3 as (_ & O4 & _).
  apply wp_bind, wp_report.
  eapply wp_mono; [apply (write_flash_spec _ _ _ _ d); simpl; [done|by rewrite O1|lia|done]|].
  simpl. rewrite K1. intros b s2 (A1 & A2 & A3). split_and!; [done..|]. intros Hh _ Hr. apply A3; auto.
Qed.

End Facts.

(** * The theorems *)

Section Claims.
Context {Fs F Zs : Type} `{!Posix Fs, !FlashDev F, !Zlib Zs}
  `{!PosixView Fs, !FlashView F, !ZlibView Zs} `{!PosixLaws Fs, !FlashLaws F, !ZlibLaws Zs}.

(** C6: a file that is missing, has another header, or does not hold a complete
    compressed image is rejected: the call returns false, whatever else fails,
    the flash has not been touched, and no file but the temporary one changed. *)
Theorem upgrade_rejects fuel info (s : fw Fs F) :
  info_file info <> tmp_file ->
  (forall c, file (fw_os s) (info_file info) = Some c ->
     (1033 * length c < fuel)%nat /\ forall d, ~ firmware_of (Zs := Zs) info c d) ->
  exists s', cyg_firmware_upgrade (Zs := Zs) fuel info s = Ret (false, s')
    /\ fw_flash s' = fw_flash s /\ same_files_but tmp_file (fw_os s) (fw_os s').
Proof.
  intros Hp Hc.
  assert (wp (cyg_firmware_upgrade (Zs := Zs) fuel info)
            (fun b s' => b = false /\ fw_flash s' = fw_flash s
               /\ same_files_but tmp_file (fw_os s) (fw_os s')) s) as H.
  { unfold cyg_firmware_upgrade. apply wp_bind.
    eapply wp_mono; [apply gunzip_spec; [done|by intros c []%Hc]|].
    intros [n|] s1 [(K1 & K2 & K3) H1]; [|by apply wp_ret].
    destruct H1 as (c & d & Hf & Hd & _). by destruct (proj2 (Hc c Hf) d). }
  apply wp_Ret in H as (b & s' & E & -> & H). eauto.
Qed.

(** C4: a firmware file of the image [d] is installed.  The call returns; only
    sectors that the image covers change, even when a call fails half-way; when
    it returns true the flash holds the image at the start address; and it does
    return true, with the upload removed, when no call of the file system, of
    zlib or of the flash library fails. *)
Theorem upgrade_installs fuel info (s : fw Fs F) c d :
  info_file info <> tmp_file -> file (fw_os s) (info_file info) = Some c ->
  firmware_of (Zs := Zs) info c d -> 0 < Z.of_nat (length d) < 2147483648 ->
  (1033 * length c < fuel)%nat -> (length d < fuel)%nat ->
  exists b s', cyg_firmware_upgrade (Zs := Zs) fuel info s = Ret (b, s')
    /\ untouched (fw_flash s) (fw_flash s') (start info) (Z.of_nat (length d))
    /\ (b = true -> holds (fw_flash s') (start info) d)
    /\ (healthy (fw_os s) -> (inflateInit (Zs := Zs)).1 <> Z_MEM_ERROR ->
        flash_ready (fw_flash s) (start info) (Z.of_nat (length d)) ->
        b = true /\ file (fw_os s') (info_file info) = None).
Proof.
  intros Hp Hc Hd Hn Hf1 Hf2. pose proof (upgrade_spec fuel info s c d Hp Hc Hd Hn Hf1 Hf2) as H.
  apply wp_Ret in H as (b & s' & E & H1 & H2 & H3). exists b, s'. split_and!; [done..|].
  intros Hh Hi Hr. destruct (H3 Hh Hi Hr) as (? & _ & ?). done.
Qed.

(** The size of the region is not part of the checks.  A successful upgrade
    with an image longer than [length_] has written the byte after the region. *)
Theorem upgrade_overruns_region fuel info (s s' : fw Fs F) c d b :
  info_file info <> tmp_file -> file (fw_os s) (info_file info) = Some c ->
  firmware_of (Zs := Zs) info c d -> 0 < Z.of_nat (length d) < 2147483648 ->
  (1033 * length c < fuel)%nat -> (length d < fuel)%nat ->
  0 <= length_ info -> d !! Z.to_nat (length_ info) = Some b ->
  cyg_firmware_upgrade (Zs := Zs) fuel info s = Ret (true, s') ->
  flash_byte (fw_flash s') (start info + length_ info) = u8 b.
Proof.
  intros Hp Hc Hd Hn Hf1 Hf2 Hl Hb E.
  pose proof (upgrade_spec fuel info s c d Hp Hc Hd Hn Hf1 Hf2) as H. unfold wp in H.
  rewrite E in H. destruct H as (_ & H & _). specialize (H eq_refl _ _ Hb).
  by rewrite Z2Nat.id in H by done.
Qed.

End Claims.

(** ** Concrete upgrades *)

Definition info0 : cyg_upgrade_info :=
  mkInfo 2147483648 (codes "/ram/f.phi") (codes "Firmware") 131072 2 (codes "Hd").

Definition fw0 (c : list Z) : fw ramfs chip :=
  mkFw (mkRamfs {[codes "/ram/f.phi" := c]} ∅) {[2147483648 + 131072 + 1 := 0]} [].

Definition truncated : list Z := codes "Hd" ++ [7; 8].

Definition complete : list Z := codes "Hd" ++ [7; 8; 9; 0; 5].

Lemma truncated_bad d : ~ firmware_of (Zs := pass) info0 truncated d.
Proof.
  intros [_ (src & [-> _] & [r Hr])]%firmware_of_drop. change (drop _ _) with [7; 8] in Hr.
  assert (0 ∈ [7; 8]) as H0 by (rewrite Hr, <- app_assoc; apply zero_in).
  rewrite !elem_of_cons in H0. destruct H0 as [?|[?|?]]; [done..|]. by eapply elem_of_nil.
Qed.

Lemma complete_good : firmware_of (Zs := pass) info0 complete [7; 8; 9].
Proof.
  exists [7; 8; 9; 0; 5]. split; [done|]. exists [7; 8; 9; 0]. split; [|by exists [5]].
  split; [done|]. rewrite !not_elem_of_cons. split_and!; try done. apply not_elem_of_nil.
Qed.

Lemma upgrade_rejects_witness :
  exists s', cyg_firmware_upgrade (Zs := pass) 5000 info0 (fw0 truncated) = Ret (false, s')
    /\ fw_flash s' = fw_flash (fw0 truncated)
    /\ same_files_but tmp_file (fw_os (fw0 truncated)) (fw_os s').
Proof.
  apply (upgrade_rejects (Zs := pass) 5000 info0 (fw0 truncated)).
  - by vm_compute.
  - intros c Hc. assert (c = truncated) as -> by (vm_compute in Hc; by injection Hc).
    split; [apply Nat.ltb_lt; vm_compute; reflexivity|exact truncated_bad].
Defined.

Definition fuel0 : nat := Z.to_nat 7232.

Lemma fuel0_ok : (1033 * length complete < fuel0)%nat.
Proof. apply Nat.ltb_lt. vm_compute. reflexivity. Qed.

Lemma upgrade_installs_witness :
  exists b s', cyg_firmware_upgrade (Zs := pass) fuel0 info0 (fw0 complete) = Ret (b, s')
    /\ untouched (fw_flash (fw0 complete)) (fw_flash s') (start info0) 3
    /\ (b = true -> holds (fw_flash s') (start info0) [7; 8; 9])
    /\ (healthy (fw_os (fw0 complete)) -> (inflateInit (Zs := pass)).1 <> Z_MEM_ERROR ->
        flash_ready (fw_flash (fw0 complete)) (start info0) 3 ->
        b = true /\ file (fw_os s') (info_file info0) = None).
Proof.
  apply (upgrade_installs (Zs := pass) fuel0 info0 (fw0 complete) complete [7; 8; 9]).
  - by vm_compute.
  - by vm_compute.
  - exact complete_good.
  - simpl. lia.
  - exact fuel0_ok.
  - apply Nat.ltb_lt. vm_compute. reflexivity.
Defined.

Definition after0 : fw ramfs chip :=
  match cyg_firmware_upgrade (Zs := pass) fuel0 info0 (fw0 complete) with
  | Ret (_, s') => s'
  | _ => fw0 complete
  end.

(** The region of [info0] has two bytes; the third byte is the image's. *)
Lemma upgrade_overruns_region_witness :
  cyg_firmware_upgrade (Zs := pass) fuel0 info0 (fw0 complete) = Ret (true, after0)
  /\ flash_byte (fw_flash after0) (start info0 + length_ info0) = 9.
Proof.
  assert (cyg_firmware_upgrade (Zs := pass) fuel0 info0 (fw0 complete) = Ret (true, after0)) as E
    by (vm_compute; reflexivity).
  split; [exact E|].
  apply (upgrade_overruns_region (Zs := pass) fuel0 info0 (fw0 complete) after0 complete [7; 8; 9] 9).
  - by vm_compute.
  - by vm_compute.
  - exact complete_good.
  - simpl. lia.
  - exact fuel0_ok.
  - apply Nat.ltb_lt. vm_compute. reflexivity.
  - by vm_compute.
  - reflexivity.
  - exact E.
Defined.
