(* ===== verification/Bootloader.v ===== *)
(** * The bootloader (bootloader/bootloader.c, addresses.h)

    The menu on the serial port, the configuration files, the MAC address in
    flash, the upload of files, the firmware upgrade and the start of the
    application.  The file system and the flash are the interfaces of Os, the
    upload is the receiver of XyzModem, the upgrade is FirmwareUtil.

    State: the file system, the flash, the receiver with the serial line it
    shares with the menu, the stream [ser_fp], the static write buffer, the
    speed of the port, and a trace of what the program did.

    The write of 1 to register 0x20 of the remote-update block reconfigures the
    FPGA and ends the run; so do waiting for ever on a quiet line and the jumps
    to an application.  These ends are the exceptions of the monad [B].

    Constants of the generated system.h, the calls of the serial library and
    of the allocator are the class [Board]. *)

From S2P Require Import Prelude.
From S2P Require Import Stdio.
From S2P Require Import Os.
From S2P Require Import FirmwareUtil.
From S2P Require Import XyzModem.

(** ** addresses.h *)

Definition FACTORY_FPGA_OFFSET : Z := 0x20000.
Definition BOOTLOADER_OFFSET : Z := 0x120000.
Definition APPLICATION_FPGA_OFFSET : Z := 0x300000.
Definition APPLICATION_OFFSET : Z := 0x420000.
Definition JFFS2_LENGTH : Z := 0x100000.

(** ** The board *)

Class Board := {
  EXT_FLASH_BASE : Z;
  EXT_FLASH_SPAN : Z;
  REMOTE_UPDATE_BASE : Z;
  UART_0_NAME : path;
  FLASH_BLOCK_DEVICE : string;  (* CYGDAT_IO_FLASH_BLOCK_DEVICE_NAME_1 *)
  NAME_MAX : Z;
  build_date : list Z;  (* __DATE__ *)
  build_time : list Z;  (* __TIME__ *)
  fmt_p : Z -> list Z;  (* how the C library prints a pointer *)
  fdopen_ok : Z -> bool;  (* fdopen gives a stream *)
  malloc_ok : Z -> bool;  (* malloc gives memory *)
  fordblks : Z;  (* the free memory mallinfo reports *)
  cyg_crc16 : list Z -> Z;
  io_lookup : Z;  (* the results of the calls of set115200 *)
  io_get_config : Z;
  io_set_config : Z
}.

Definition JFFS2_OFFSET `{Board} : Z := EXT_FLASH_SPAN - JFFS2_LENGTH.

Definition UNCACHED_EXT_FLASH_BASE `{Board} : Z := 0x80000000 + EXT_FLASH_BASE.

(** ** Formatted output *)

Definition to_lower (c : Z) : Z := if (65 <=? c) && (c <=? 90) then c + 32 else c.

Definition fmt_x (w : nat) (v : Z) : list Z := map to_lower (fmt_X w v).

(** The conversions %s, %d, %c, %p and %0<w>x. *)
Fixpoint render `{Board} (f : list Z) (args : list arg) : list Z :=
  match f with
  | [] => []
  | c :: f1 =>
      if negb (c =? 37) then c :: render f1 args else
      match f1, args with
      | k :: f2, a :: args' =>
          match a with
          | AStr s => s ++ render f2 args'
          | APtr p => fmt_p p ++ render f2 args'
          | AInt v =>
              if k =? 100 then fmt_d v ++ render f2 args'
              else if k =? 99 then v :: render f2 args'
              else match f2 with
                   | w :: _ :: f3 => fmt_x (Z.to_nat (w - 48)) v ++ render f3 args'
                   | _ => []
                   end
          end
      | _, _ => []
      end
  end.

Definition sprintf `{Board} (fmt : string) (args : list arg) : list Z := render (lit fmt) args.

(** ** State *)

(** What the program does to the outside, in order. *)
Inductive act :=
| Serial (text : list Z)  (* written to the stream of the serial port *)
| Diag (text : list Z)  (* diag_printf, or printf to the console *)
| Delay (ticks : Z)
| Write32 (base reg value : Z)  (* IOWR *)
| Baud (rate : Z).

(** How a run can end. *)
Inductive stop :=
| Reconfigured  (* the FPGA loads a configuration and restarts *)
| Waiting  (* select without a timeout on a line that stays quiet *)
| Running (code : list Z)  (* an uploaded program *)
| Application.  (* the application in flash *)

Record boot (Fs F : Type) := mkBoot {
  os : Fs;  (* the file system *)
  flash : F;  (* the flash *)
  modem : st;  (* the receiver and the serial line *)
  ser : Z;  (* the descriptor of the port *)
  ser_fp : bool;  (* its stream is open *)
  WRITE_BUF : list Z;  (* 4096 bytes *)
  remote : Z -> Z;  (* the registers of the remote-update block *)
  acts : list act  (* what was done *)
}.

Arguments mkBoot {Fs F} _ _ _ _ _ _ _ _.
Arguments os {Fs F} _.
Arguments flash {Fs F} _.
Arguments modem {Fs F} _.
Arguments ser {Fs F} _.
Arguments ser_fp {Fs F} _.
Arguments WRITE_BUF {Fs F} _.
Arguments remote {Fs F} _.
Arguments acts {Fs F} _.

Definition set_os {Fs F} (v : Fs) (s : boot Fs F) : boot Fs F :=
  mkBoot v (flash s) (modem s) (ser s) (ser_fp s) (WRITE_BUF s) (remote s) (acts s).

Definition set_flash {Fs F} (v : F) (s : boot Fs F) : boot Fs F :=
  mkBoot (os s) v (modem s) (ser s) (ser_fp s) (WRITE_BUF s) (remote s) (acts s).

Definition set_modem {Fs F} (v : st) (s : boot Fs F) : boot Fs F :=
  mkBoot (os s) (flash s) v (ser s) (ser_fp s) (WRITE_BUF s) (remote s) (acts s).

Definition set_ser {Fs F} (v : Z) (s : boot Fs F) : boot Fs F :=
  mkBoot (os s) (flash s) (modem s) v (ser_fp s) (WRITE_BUF s) (remote s) (acts s).

Definition set_ser_fp {Fs F} (v : bool) (s : boot Fs F) : boot Fs F :=
  mkBoot (os s) (flash s) (modem s) (ser s) v (WRITE_BUF s) (remote s) (acts s).

Definition set_WRITE_BUF {Fs F} (v : list Z) (s : boot Fs F) : boot Fs F :=
  mkBoot (os s) (flash s) (modem s) (ser s) (ser_fp s) v (remote s) (acts s).

Definition set_remote {Fs F} (v : Z -> Z) (s : boot Fs F) : boot Fs F :=
  mkBoot (os s) (flash s) (modem s) (ser s) (ser_fp s) (WRITE_BUF s) v (acts s).

Definition set_acts {Fs F} (v : list act) (s : boot Fs F) : boot Fs F :=
  mkBoot (os s) (flash s) (modem s) (ser s) (ser_fp s) (WRITE_BUF s) (remote s) v.

(** ** Code that may end the run *)

Definition B (Fs F A : Type) : Type := M (boot Fs F) (stop + A).

#[global] Instance B_ret {Fs F} : MRet (B Fs F) := fun A a s => Ret (inr a, s).

#[global] Instance B_bind {Fs F} : MBind (B Fs F) := fun A A' f m s =>
  match m s with
  | Ret (inr a, s') => f a s'
  | Ret (inl e, s') => Ret (inl e, s')
  | UB => UB
  | NoFuel => NoFuel
  end.

(** The characters of a C string in an array. *)
Fixpoint cstr (buf : list Z) : list Z :=
  match buf with
  | c :: buf' => if c =? 0 then [] else c :: cstr buf'
  | [] => []
  end.

Section Bootloader.
Context `{Board} {Fs F Zs : Type} `{!Posix Fs, !FlashDev F, !Zlib Zs}.

Abbreviation bM := (B Fs F).

Definition look {A} (f : boot Fs F -> A) : bM A := fun s => Ret (inr (f s), s).

Definition upd (f : boot Fs F -> boot Fs F) : bM unit := fun s => Ret (inr tt, f s).

Definition ends {A} (e : stop) : bM A := fun s => Ret (inl e, s).

Definition undefined {A} : bM A := fun _ => UB.

Definition out_of_fuel {A} : bM A := fun _ => NoFuel.

Definition bwhen (b : bool) (m : bM unit) : bM unit := if b then m else mret tt.

Definition do_act (a : act) : bM unit := upd (fun s => set_acts (acts s ++ [a]) s).

(** Calls of the file system, the flash library and the receiver. *)
Definition on_fs {A} (f : Fs -> A * Fs) : bM A := fun s =>
  let '(a, o) := f (os s) in Ret (inr a, set_os o s).

Definition on_chip {A} (f : F -> A * F) : bM A := fun s =>
  let '(a, d) := f (flash s) in Ret (inr a, set_flash d s).

Definition on_modem {A} (m : M st A) : bM A := fun s =>
  match m (modem s) with
  | Ret (a, t) => Ret (inr a, set_modem t s)
  | UB => UB
  | NoFuel => NoFuel
  end.

(** Output to the stream of the port, which must be open. *)
Definition fputs (text : list Z) : bM unit :=
  fp ← look ser_fp;
  if negb fp then undefined else do_act (Serial text).

Definition fprintf (fmt : string) (args : list arg) : bM unit := fputs (sprintf fmt args).

(** A newline becomes a carriage return and a newline. *)
Fixpoint crlf (text : list Z) : list Z :=
  match text with
  | c :: text' => if c =? 10 then 13 :: c :: crlf text' else c :: crlf text'
  | [] => []
  end.

(** [report_info], through a buffer of 1024 bytes. *)
Definition report_info (m : msg) : bM unit :=
  fputs (crlf (cstr (take 1023 (sprintf m.1 m.2)))).

Definition bootloader : cyg_upgrade_info :=
  mkInfo UNCACHED_EXT_FLASH_BASE (codes "/ram/bootloader.phi") (codes "Bootloader")
    FACTORY_FPGA_OFFSET (APPLICATION_FPGA_OFFSET - FACTORY_FPGA_OFFSET)
    (lit "ZylinNiosBootloader\n").

Definition firmware : cyg_upgrade_info :=
  mkInfo UNCACHED_EXT_FLASH_BASE (codes "/ram/firmware.phi") (codes "Firmware")
    APPLICATION_FPGA_OFFSET (JFFS2_OFFSET - APPLICATION_FPGA_OFFSET)
    (lit "ZylinNiosFirmware\n").

Definition IP_FILE : path := codes "/config/ip".

Definition WRITE_BUF_SIZE : Z := 4096.

(** ** Ending *)

Definition cleaning : bM unit :=
  fp ← look ser_fp;
  if negb fp then undefined else
  upd (set_ser_fp false);;
  fd ← look ser;
  _ ← on_fs (os_close fd);
  do_act (Delay 100).

Definition IOWR (base reg value : Z) : bM unit := do_act (Write32 base reg value).

(** The write that reconfigures the FPGA. *)
Definition reconfigure {A} (base : Z) : bM A :=
  IOWR base 32 1;;
  ends Reconfigured.

Definition reset {A} : bM A :=
  fprintf "Resetting\r\n" [];;
  _ ← on_fs (os_umount "/config");
  cleaning;;
  reconfigure REMOTE_UPDATE_BASE.

(** An error message and a reset. *)
Definition fatal {A} (text : string) : bM A :=
  fprintf "%s\r\n" [AStr (lit text)];;
  reset.

(** ** Input *)

(** [select] on the port, with or without a timeout. *)
Inductive selected :=
| Forever  (* it never returns *)
| TimedOut (es : list rx_event)  (* it returns zero *)
| NotSet (es : list rx_event)  (* it returns, without the descriptor *)
| Ready (bs : list Z) (es : list rx_event).  (* what [read] can take *)

Fixpoint select (timeout : bool) (es : list rx_event) : selected :=
  match es with
  | [] => if timeout then TimedOut [] else Forever
  | RxIdle :: es' => if timeout then TimedOut es' else select timeout es'
  | RxNotSet :: es' => NotSet es'
  | RxRead bs :: es' => Ready bs es'
  end.

Definition set_input (es : list rx_event) (s : boot Fs F) : boot Fs F :=
  set_modem (set_line (set_rx es (line (modem s))) (modem s)) s.

(** What a [read] of [n] bytes leaves. *)
Definition unread (n : nat) (bs : list Z) (es : list rx_event) : list rx_event :=
  match drop n bs with
  | [] => es
  | rest => RxRead rest :: es
  end.

(** [select] and a [read] of up to [n] bytes: whether [select] returned
    non-zero, and the bytes, none on failure. *)
Definition poll (timeout : bool) (n : nat) : bM (bool * list Z) :=
  es ← look (fun s => rx (line (modem s)));
  match select timeout es with
  | Forever => ends Waiting
  | TimedOut es' => upd (set_input es');; mret (false, [])
  | NotSet es' => upd (set_input es');; mret (true, [])
  | Ready bs es' => upd (set_input (unread n bs es'));; mret (true, take n bs)
  end.

(** [Some key] for a result of true. *)
Definition getChar : bM (option Z) :=
  r ← poll false 1;
  mret (head r.2).

(** True, with or without a new key, when [select] found something. *)
Definition waitChar1 (seconds : Z) : bM (bool * option Z) :=
  r ← poll true 1024;
  mret (r.1, head r.2).

Definition waitChar (seconds : Z) : bM (option Z) :=
  r ← poll (0 <? seconds) 1;
  mret (head r.2).

(** ** Opening the port, mounting *)

Definition openSerial : bM unit :=
  fd ← on_fs (os_open UART_0_NAME [O_RDWR; O_SYNC; O_NONBLOCK]);
  upd (set_ser fd);;
  bwhen (fd <? 0)
    (do_act (Diag (sprintf "Error: serial device problems %s\r\n" [AStr UART_0_NAME]));; reset);;
  upd (set_ser_fp (fdopen_ok fd));;
  bwhen (negb (fdopen_ok fd))
    (do_act (Diag (sprintf "Error: serial device problems %s\r\n" [AStr UART_0_NAME]));; reset).

Definition unlock (address length : Z) : bM Z :=
  if block_locking then on_chip (flash_unlock address length) else mret 0.

Definition mountJFFS2 : bM unit :=
  err ← on_chip flash_init;
  if negb (err =? 0) then fprintf "Error: could not init flash\r\n" [] else
  err ← unlock UNCACHED_EXT_FLASH_BASE EXT_FLASH_SPAN;
  if negb (err =? 0) then fprintf "Error: could not unlock flash\r\n" [] else
  err ← on_fs (os_mount FLASH_BLOCK_DEVICE "/config" "jffs2");
  bwhen (err <? 0) (fprintf "Error: could not mount flash %d\r\n" [AInt err]).

Definition mountRamFS : bM unit :=
  err ← on_fs (os_mount "" "/ram" "ramfs");
  bwhen (err <? 0) (fprintf "Error: could not mount RAMFS %d\r\n" [AInt err]).

(** ** Erasing *)

(** The message and the reset for a status that is not zero. *)
Definition check (stat : Z) (text : string) : bM unit :=
  bwhen (negb (stat =? 0)) (fprintf "Error: %s\r\n" [AStr (codes text)];; reset).

Definition flash_erase_range (address length : Z) : bM unit :=
  stat ← on_chip flash_init;
  check stat "Initializing flash failed";;
  stat ← unlock UNCACHED_EXT_FLASH_BASE EXT_FLASH_SPAN;
  check stat "Unlocking flash failed";;
  fprintf "Erasing flash at %p, 0x%08x bytes\r\n" [APtr address; AInt length];;
  stat ← on_chip (flash_erase address length);
  check stat "Erasing flash failed".

Definition format {A} : bM A :=
  fprintf "Formatting JFFS2...\r\n" [];;
  flash_erase_range (UNCACHED_EXT_FLASH_BASE + JFFS2_OFFSET) JFFS2_LENGTH;;
  fprintf "/config formatted successfully\r\n" [];;
  reset.

(** ** Reading a line *)

(** buffer[index] = c *)
Definition assign (buffer : list Z) (index c : Z) : bM (list Z) :=
  if (0 <=? index) && (index <? Z.of_nat (length buffer))
  then mret (<[Z.to_nat index := c]> buffer) else undefined.

Fixpoint readLine_loop (fuel : nat) (buffer : list Z) (maxLen index : Z) : bM (list Z) :=
  match fuel with
  | O => out_of_fuel
  | S k =>
      r ← getChar;
      let c := default 0 r in
      if c =? 3 then fatal "\r\nCtrl-c pressed"
      else if (c =? 10) || (c =? 13) then
        if index =? 0 then fatal "\r\nEmpty string not allowed"
        else
          buffer ← assign buffer index 0;
          fprintf "\r\n" [];;
          mret buffer
      else if c =? 8 then
        if 0 <? index then
          fprintf "%c %c" [AInt c; AInt c];;
          readLine_loop k buffer maxLen (index - 1)
        else readLine_loop k buffer maxLen index
      else if maxLen - 1 <=? index then fatal "\r\nString too long"
      else
        fprintf "%c" [AInt c];;
        buffer ← assign buffer index c;
        readLine_loop k buffer maxLen (index + 1)
  end.

(** Every turn takes something from the line. *)
Definition readLine (buffer : list Z) (maxLen : Z) : bM (list Z) :=
  n ← look (fun s => rx_size (rx (line (modem s))));
  readLine_loop (S n) buffer maxLen 0.

Definition getFileName (name : list Z) (maxLen : Z) : bM (list Z) := readLine name maxLen.

(** ** Configuration files *)

Definition writeFile (fileName string : list Z) : bM unit :=
  if Z.of_nat (length string) =? 0 then
    _ ← on_fs (os_remove fileName);
    mret tt
  else
    fd ← on_fs (os_creat fileName);
    if fd <? 0 then fprintf "unable to create %s\r\n" [AStr fileName]
    else
      _ ← on_fs (os_write fd string);
      _ ← on_fs (os_close fd);
      mret tt.

(** A local array, read into by [readLine]; the result is its string. *)
Definition ask (prompt : string) (size : Z) : bM (list Z) :=
  fprintf prompt [];;
  buffer ← readLine (replicate (Z.to_nat size) 0) size;
  mret (cstr buffer).

Definition enterParameter : bM unit :=
  name ← ask "Enter file name: " 81;
  param ← ask "Enter parameter: " 128;
  writeFile name param.

(** Up to [n] bytes of the file, one at a time. *)
Fixpoint show_loop (n : nat) (name : list Z) (param : Z) : bM unit :=
  match n with
  | O => mret tt
  | S k =>
      r ← on_fs (os_read param 1);
      match r with
      | None => fprintf "\r\nFailed while reading %s" [AStr name];; reset
      | Some [c] => fprintf "%c" [AInt c];; show_loop k name param
      | Some _ => mret tt
      end
  end.

Definition showParameter : bM unit :=
  name ← ask "Enter filename: " 81;
  param ← on_fs (os_open name [O_RDONLY]);
  if param <? 0 then fprintf "Could not open %s\r\n" [AStr name]
  else
    fprintf "Displaying up to 1024 bytes of that parameter\r\n" [];;
    show_loop 1024 name param;;
    fprintf "\r\n" [];;
    _ ← on_fs (os_close param);
    mret tt.

Definition changeIP {A} : bM A :=
  ip ← ask "\r\nEnter ip, mask and gateway(optional) (x.x.x.x,y.y.y.y[,z.z.z.z]):\r\n" 81;
  writeFile IP_FILE ip;;
  reset.

(** ** The MAC address *)

Definition wrongMAC {A} : bM A :=
  fprintf "Error: wrong MAC address syntax\r\n" [];;
  reset.

Definition toupper (c : Z) : Z := if (97 <=? c) && (c <=? 122) then c - 32 else c.

(** mac_addr[i / 2] += val << (4 * ((i + 1) % 2)) *)
Definition add_digit (mac_addr : list Z) (i : nat) (val : Z) : list Z :=
  alter (fun b => u8 (b + Z.shiftl val (4 * ((Z.of_nat i + 1) mod 2)))) (i / 2)%nat mac_addr.

Fixpoint mac_loop (mac_addr : list Z) (i : nat) (digits : list Z) : bM (list Z) :=
  match digits with
  | [] => mret mac_addr
  | d :: digits' =>
      let c := toupper d in
      if (48 <=? c) && (c <=? 57) then
        mac_loop (add_digit mac_addr i (u8 (c - 48))) (S i) digits'
      else if (65 <=? c) && (c <=? 70) then
        mac_loop (add_digit mac_addr i (u8 (c - 65 + 10))) (S i) digits'
      else wrongMAC
  end.

(** [buffer] is the string; the result is the array of six bytes. *)
Definition transformMacAddress (buffer : list Z) : bM (list Z) :=
  if negb (Z.of_nat (length buffer) =? 12) then wrongMAC
  else mac_loop (replicate 6 0) 0 buffer.

Definition macAddr : Z := UNCACHED_EXT_FLASH_BASE + FACTORY_FPGA_OFFSET - 6.

Definition macAddrLen : Z := 6.

(** The six bytes in flash. *)
Definition mac_bytes (f : F) : list Z :=
  map (fun i => flash_byte f (macAddr + Z.of_nat i)) (seq 0 6).

Definition has_mac (f : F) : bool := negb (foldl Z.land 255 (mac_bytes f) =? 255).

Definition hasMacAddress : bM bool := look (fun s => has_mac (flash s)).

Definition printMACAddress : bM unit :=
  b ← hasMacAddress;
  if b : bool then
    mac ← look (fun s => mac_bytes (flash s));
    fprintf "Mac address %02x:%02x:%02x:%02x:%02x:%02x\r\n" (map AInt mac)
  else fprintf "Mac address not set\r\n" [].

Definition changeMac : bM unit :=
  mac ← ask "Enter the mac address in the format XXXXXXXXXXXX\r\n" 13;
  ui_mac ← transformMacAddress mac;
  fprintf "New MAC address: %02x:%02x:%02x:%02x:%02x:%02x\r\n" (map AInt ui_mac);;
  stat ← unlock macAddr macAddrLen;
  check stat "Unlocking flash failed";;
  stat ← on_chip (flash_erase macAddr macAddrLen);
  check stat "Erasing flash failed";;
  do_act (Diag (lit "erasing done\n"));;
  stat ← on_chip (flash_program macAddr ui_mac);
  check stat "Programming flash failed".

(** ** Running a file *)

Definition runfile {A} (name : path) : bM A :=
  size ← look (fun s => os_stat name (os s));
  match size with
  | None => fprintf "Error: could not get length of file" [];; reset
  | Some size =>
      fd ← on_fs (os_open name [O_RDONLY]);
      if fd <=? 0 then fprintf "Error: failed to open file" [];; reset
      else if negb (malloc_ok size) then fprintf "Error: out of memory" [];; reset
      else
        r ← on_fs (os_read fd size);
        ends (Running (default [] r))
  end.

(** ** Upload *)

Definition stream_open : bM (Z * option Z) :=
  fd ← on_fs (os_open UART_0_NAME [O_RDWR; O_SYNC; O_NONBLOCK]);
  on_modem (xyzModem_stream_open cyg_crc16 fd xyzModem_ymodem).

Definition stream_close : bM unit :=
  on_modem xyzModem_stream_close;;
  fd ← look (fun s => chan (modem s));
  _ ← on_fs (os_close fd);
  mret tt.

(** WRITE_BUF + pos receives the bytes. *)
Definition stream_read (pos : Z) : bM (Z * option Z) :=
  r ← on_modem (xyzModem_stream_read cyg_crc16 (WRITE_BUF_SIZE - pos));
  buf ← look WRITE_BUF;
  match store_at buf pos r.1 with
  | None => undefined
  | Some buf' => upd (set_WRITE_BUF buf');; mret (Z.of_nat (length r.1), r.2)
  end.

(** The result: [abortedByWrite], and the last [actual] and [err]. *)
Fixpoint upload_loop (fuel : nat) (fileName : path) (firmwareFile pos : Z)
    : bM (bool * Z * option Z) :=
  match fuel with
  | O => out_of_fuel
  | S k =>
      r ← stream_read pos;
      let '(actual, err) := r in
      if actual <? 0 then mret (false, actual, err)
      else
      let pos := pos + actual in
      w ← (if ((actual =? 0) && (0 <? pos)) || (WRITE_BUF_SIZE - 256 <? pos) then
             buf ← look WRITE_BUF;
             written ← on_fs (os_write firmwareFile (take (Z.to_nat pos) buf));
             if written <? pos then
               fprintf "Writing %s failed\r\n" [AStr fileName];;
               mret None
             else mret (Some 0)
           else mret (Some pos));
      match w with
      | None => mret (true, actual, err)
      | Some pos =>
          if actual =? 0 then mret (false, actual, err)
          else upload_loop k fileName firmwareFile pos
      end
  end.

Definition ymodemUpload (fuel : nat) (fileName : path) : bM unit :=
  fprintf "Start Ymodem upload of %s\r\n" [AStr fileName];;
  fprintf "Connection over %s\r\n" [AStr fileName];;
  r ← stream_open;
  bwhen (negb (r.1 =? 0))
    (fprintf "Could not open Ymodem connection %d\r\n" [AInt (default 0 r.2)];; reset);;
  firmwareFile ← on_fs (os_creat fileName);
  bwhen (firmwareFile <? 0)
    (stream_close;; fprintf "Error: could not create firmware file\r\n" [];; reset);;
  r ← upload_loop fuel fileName firmwareFile 0;
  let '(abortedByWrite, actual, err) := r in
  stream_close;;
  let ok := negb abortedByWrite && (actual =? 0) && bool_decide (err = None) in
  bwhen ok (fprintf "\r\nYmodem transfer complete\r\n" []);;
  _ ← on_fs (os_close firmwareFile);
  bwhen (negb ok)
    (_ ← on_fs (os_remove fileName);
     bwhen (negb abortedByWrite)
       (fprintf "\r\nFirmware upload failed: %s\r\n"
          [AStr (codes (xyzModem_error (default 0 err)))];;
        reset)).

(** The upgrade, and its reports on the port. *)
Definition upgrade (fuel : nat) (info : cyg_upgrade_info) : bM bool := fun s =>
  match cyg_firmware_upgrade (Zs := Zs) fuel info (mkFw (os s) (flash s) []) with
  | Ret (b, w) =>
      (foldr (fun m k => report_info m;; k) (mret b) (fw_log w))
        (set_flash (fw_flash w) (set_os (fw_os w) s))
  | UB => UB
  | NoFuel => NoFuel
  end.

(** ** The menu *)

Definition printAvailableRAM : bM unit := fprintf "Available RAM: %d\r\n" [AInt fordblks].

Definition set115200 : bM unit :=
  if negb (io_lookup =? 0) then fprintf "Error: could not get port handle\r\n" []
  else if negb (io_get_config =? 0) then fprintf "Error: could not get port settings\r\n" []
  else if negb (io_set_config =? 0) then fprintf "Error: could not set baud rate\r\n" []
  else do_act (Baud 115200).

Definition start_prompt : bM unit :=
  fprintf "Press <space> for advanced help\r\n" [];;
  b ← hasMacAddress;
  if b : bool then
    fprintf "Press <i> to set static IP address\r\n" [];;
    fprintf "Press <enter> to start Ymodem upload of firmware\r\n" []
  else fprintf "Press <m> to set MAC address\r\n" [].

Definition advanced_help : bM unit :=
  fprintf "\r\nAdvanced menu:\r\n\r\n" [];;
  fprintf "Press <F> format flash\r\n" [];;
  fprintf "Press <U> to start Ymodem upload of a file to a specified file name\r\n" [];;
  fprintf "Press <E> execute file from RAM\r\n" [];;
  fprintf "Press <Y> start single shot update of bootloader\r\n" [];;
  fprintf "Press <P> set parameter\r\n" [];;
  fprintf "Press <D> show parameter\r\n" [];;
  fprintf "Press <B> set 115200 serial speed\r\n" [];;
  fprintf "Press <X> erase MAC address\r\n" [];;
  fprintf "Press <R> reset\r\n" [];;
  fprintf "Press <C> continue\r\n" [].

(** Where the switch goes: one of the two labels, or past the switch. *)
Inductive next :=
| start_menu
| waitMoreChar (waiting : Z)
| past.

(** strcpy(fileName, firmware.file) into an array of NAME_MAX bytes. *)
Definition copy_default_name : bM unit :=
  if NAME_MAX <=? Z.of_nat (length (info_file firmware)) then undefined else mret tt.

Definition fileName_array : list Z :=
  info_file firmware ++ replicate (Z.to_nat NAME_MAX - length (info_file firmware))%nat 0.

Definition menu_key (fuel : nat) (waiting key : Z) : bM next :=
  if key =? 70 then format
  else if (key =? 105) || (key =? 73) then changeIP
  else if key =? 80 then enterParameter;; mret start_menu
  else if key =? 68 then showParameter;; mret start_menu
  else if key =? 66 then set115200;; mret (waitMoreChar waiting)
  else if key =? 88 then
    fprintf "Erasing MAC address..." [];;
    flash_erase_range macAddr macAddrLen;;
    fprintf "done\r\n" [];;
    mret start_menu
  else if key =? 85 then
    fprintf "File name: " [];;
    fileName ← getFileName fileName_array NAME_MAX;
    ymodemUpload fuel (cstr fileName);;
    mret start_menu
  else if key =? 13 then
    fprintf "Default firmware file update\r\n" [];;
    ymodemUpload fuel (info_file firmware);;
    _ ← upgrade fuel firmware;
    reset
  else if key =? 89 then
    fprintf "Single shot bootloader update\r\n" [];;
    ymodemUpload fuel (info_file bootloader);;
    _ ← upgrade fuel bootloader;
    reset
  else if key =? 69 then
    fprintf "Upload and run file from RAM\r\n" [];;
    ymodemUpload fuel (codes "/ram/run");;
    runfile (codes "/ram/run")
  else if key =? 82 then reset
  else if key =? 32 then advanced_help;; mret (waitMoreChar 0)
  else mret past.

(** The end of [menu]: no application without a MAC address. *)
Definition menu_end : bM unit :=
  b ← hasMacAddress;
  bwhen (negb b) (fprintf "Error: MAC address not set\r\n" [];; reset);;
  _ ← on_fs (os_umount "/config");
  _ ← on_fs (os_umount "/ram");
  mret tt.

Definition maybe_change_mac (key : Z) : bM unit :=
  b ← hasMacAddress;
  bwhen (negb b && ((key =? 77) || (key =? 109))) changeMac.

(** From a label on; every turn takes something from the line. *)
Fixpoint menu_loop (turns fuel : nat) (at_ : next) : bM unit :=
  match turns with
  | O => out_of_fuel
  | S k =>
      waiting ← match at_ with
                | waitMoreChar waiting => mret waiting
                | _ => start_prompt;; copy_default_name;; mret 5
                end;
      key ← waitChar waiting;
      match key with
      | None => menu_end
      | Some key =>
          goto ← menu_key fuel waiting key;
          match goto with
          | past => maybe_change_mac key;; menu_end
          | l => menu_loop k fuel l
          end
      end
  end.

Definition menu (fuel : nat) : bM unit :=
  fprintf "Bootloader 2.1.\r\n" [];;
  fprintf "Copyright FSF 2006-2010 All rights reserved\r\n" [];;
  fprintf "eCos license (GPL with exception)\r\n" [];;
  fprintf "Build date %s %s\r\n" [AStr build_date; AStr build_time];;
  mountJFFS2;;
  mountRamFS;;
  printMACAddress;;
  n ← look (fun s => rx_size (rx (line (modem s))));
  menu_loop (S n) fuel start_menu.

(** ** Starting the application *)

Definition CycloneIIIReconfig {A} (remote_update_base flash_base reconfig_offset watchdog_timeout
    width_of_flash : Z) : bM A :=
  let watchdog_timeout := Z.shiftr watchdog_timeout 17 in
  (if 0 <? watchdog_timeout then IOWR remote_update_base 2 watchdog_timeout
   else IOWR remote_update_base 3 0);;
  let offset_shift := Z.quot width_of_flash 8 + 1 in
  IOWR remote_update_base 4 (Z.shiftr reconfig_offset offset_shift);;
  reconfigure remote_update_base.

Definition needReset : bM bool := look (fun s => remote s 0 =? 0).

Definition main (fuel : nat) : bM unit :=
  openSerial;;
  b ← needReset;
  bwhen b
    (menu fuel;;
     fprintf "Start application image\r\n" [];;
     cleaning;;
     CycloneIIIReconfig REMOTE_UPDATE_BASE UNCACHED_EXT_FLASH_BASE APPLICATION_FPGA_OFFSET 0 16);;
  fprintf "Jump to application\r\n" [];;
  cleaning;;
  ends Application.

End Bootloader.
