(* ===== verification/BootloaderFacts.v ===== *)
(** * The bootloader: lemmas

    A calculus for code that may end the run, the reading of a line against a
    specification of line editing, the MAC address, and the upload. *)

From S2P Require Import Prelude.
From S2P Require Import Stdio.
From S2P Require Import Os.
From S2P Require Import FirmwareUtil.
From S2P Require Import FirmwareUtilProps.
From S2P Require Import XyzModem.
From S2P Require Import XyzModemFacts.
From S2P Require Import XyzModemProps.
From S2P Require Import Bootloader.

(** ** Weakest preconditions

    [bwp m Q E s]: run from [s], [m] either returns a result that satisfies
    [Q] or ends the run in a way that satisfies [E]. *)

Definition bwp {Fs F A} (m : B Fs F A) (Q : A -> boot Fs F -> Prop)
    (E : stop -> boot Fs F -> Prop) (s : boot Fs F) : Prop :=
  match m s with
  | Ret (inr a, s') => Q a s'
  | Ret (inl e, s') => E e s'
  | _ => False
  end.

Section Rules.
Context {Fs F : Type}.
Implicit Types (s : boot Fs F).

Lemma bwp_ret {A} (a : A) (Q : A -> boot Fs F -> Prop) E s : Q a s -> bwp (mret a) Q E s.
Proof. done. Qed.

Lemma bwp_bind {A A'} (m : B Fs F A) (f : A -> B Fs F A') Q E s :
  bwp m (fun a s' => bwp (f a) Q E s') E s -> bwp (m ≫= f) Q E s.
Proof. unfold bwp, mbind, B_bind. by destruct (m s) as [[[] ?]| |]. Qed.

Lemma bwp_mono {A} (m : B Fs F A) (Q Q' : A -> boot Fs F -> Prop) (E E' : stop -> boot Fs F -> Prop) s :
  bwp m Q E s -> (forall a s', Q a s' -> Q' a s') -> (forall e s', E e s' -> E' e s') -> bwp m Q' E' s.
Proof. unfold bwp. destruct (m s) as [[[] ?]| |]; auto. Qed.

Lemma bwp_look {A} (f : boot Fs F -> A) (Q : A -> boot Fs F -> Prop) E s :
  Q (f s) s -> bwp (look f) Q E s.
Proof. done. Qed.

Lemma bwp_upd f (Q : unit -> boot Fs F -> Prop) E s : Q tt (f s) -> bwp (upd f) Q E s.
Proof. done. Qed.

Lemma bwp_ends {A} e (Q : A -> boot Fs F -> Prop) (E : stop -> boot Fs F -> Prop) s :
  E e s -> bwp (ends e) Q E s.
Proof. done. Qed.

Lemma bwp_when b m (Q : unit -> boot Fs F -> Prop) E s :
  (b = true -> bwp m Q E s) -> (b = false -> Q tt s) -> bwp (bwhen b m) Q E s.
Proof. destruct b; intros H1 H2; [by apply H1 | by apply H2]. Qed.

Lemma bwp_fs {A} (f : Fs -> A * Fs) (Q : A -> boot Fs F -> Prop) E s :
  (forall a o, f (os s) = (a, o) -> Q a (set_os o s)) -> bwp (on_fs f) Q E s.
Proof. intros H. unfold bwp, on_fs. destruct (f (os s)) as [a o]. by apply H. Qed.

Lemma bwp_chip {A} (f : F -> A * F) (Q : A -> boot Fs F -> Prop) E s :
  (forall a d, f (flash s) = (a, d) -> Q a (set_flash d s)) -> bwp (on_chip f) Q E s.
Proof. intros H. unfold bwp, on_chip. destruct (f (flash s)) as [a d]. by apply H. Qed.

Lemma bwp_modem {A} (m : M st A) (Q : A -> boot Fs F -> Prop) E s :
  wp m (fun a t => Q a (set_modem t s)) (modem s) -> bwp (on_modem m) Q E s.
Proof. unfold bwp, wp, on_modem. by destruct (m (modem s)) as [[]| |]. Qed.

Lemma bwp_Ret {A} (m : B Fs F A) Q E s :
  bwp m Q E s <->
  (exists a s', m s = Ret (inr a, s') /\ Q a s') \/ (exists e s', m s = Ret (inl e, s') /\ E e s').
Proof.
  unfold bwp. split.
  - destruct (m s) as [[[] ?]| |]; eauto 10; done.
  - by intros [(? & ? & -> & ?)|(? & ? & -> & ?)].
Qed.

(** The change of output alone. *)
Lemma set_acts_acts l l' s : set_acts l (set_acts l' s) = set_acts l s.
Proof. done. Qed.

End Rules.

(** ** Line editing

    The keys a line stands for, when every call waits: a failed [read] counts
    as the key 0. *)

Fixpoint typed (es : list rx_event) : list Z :=
  match es with
  | [] => []
  | RxIdle :: es' => typed es'
  | RxNotSet :: es' => 0 :: typed es'
  | RxRead [] :: es' => 0 :: typed es'
  | RxRead bs :: es' => bs ++ typed es'
  end.

(** What becomes of a line: the string and the keys after it, a reset, or not
    enough keys. *)
Inductive edited :=
| Line (str rest : list Z)
| Rejected
| Unfinished.

(** Editing on a list: the return key ends a line that is not empty, the
    backspace key removes the last character, ctrl-c and a line of [maxLen]
    characters are rejected. *)
Fixpoint edit (maxLen : Z) (str keys : list Z) : edited :=
  match keys with
  | [] => Unfinished
  | c :: keys' =>
      if c =? 3 then Rejected
      else if (c =? 10) || (c =? 13) then
        if bool_decide (str = []) then Rejected else Line str keys'
      else if c =? 8 then edit maxLen (take (length str - 1) str) keys'
      else if maxLen - 1 <=? Z.of_nat (length str) then Rejected
      else edit maxLen (str ++ [c]) keys'
  end.

Lemma length_typed es : (length (typed es) <= rx_size es)%nat.
Proof.
  induction es as [|[| |[|b bs]] es IH]; simpl; try lia. rewrite length_app. lia.
Qed.

Lemma typed_unread c bs es : typed (unread 1 (c :: bs) es) = bs ++ typed es.
Proof. unfold unread. simpl. by destruct bs. Qed.

Lemma cstr_app str rest : cstr (str ++ 0 :: rest) = cstr str.
Proof. induction str as [|c str IH]; simpl; [done|]. by rewrite IH. Qed.

Lemma cstr_id str : Forall (fun c => c <> 0) str -> cstr str = str.
Proof.
  induction 1 as [|c str Hc _ IH]; simpl; [done|]. by rewrite (proj2 (Z.eqb_neq c 0)), IH.
Qed.

(** One step of a sequence whose head is a basic operation. *)
Ltac bwp_step :=
  lazymatch goal with
  | |- bwp (mbind _ _) _ _ _ => apply bwp_bind; bwp_step
  | |- bwp (mret _) _ _ _ => apply bwp_ret
  | |- bwp (look _) _ _ _ => apply bwp_look
  | |- bwp (upd _) _ _ _ => apply bwp_upd
  | |- bwp (ends _) _ _ _ => apply bwp_ends
  | |- bwp (do_act _) _ _ _ => apply bwp_upd
  | |- _ => idtac
  end; cbn beta.

Ltac bwp_steps := repeat (progress bwp_step).

Section Facts.
Context `{Board} {Fs F Zs : Type} `{!Posix Fs, !FlashDev F, !Zlib Zs}
  `{!PosixView Fs, !FlashView F, !ZlibView Zs} `{!PosixLaws Fs, !FlashLaws F, !ZlibLaws Zs}.
Implicit Types (s : boot Fs F).

(** ** Output *)

Lemma bwp_fputs text (Q : unit -> boot Fs F -> Prop) E s :
  ser_fp s = true -> (forall l, Q tt (set_acts l s)) -> bwp (fputs text) Q E s.
Proof. intros Hs HQ. unfold bwp, fputs, mbind, B_bind, look. rewrite Hs. simpl. apply HQ. Qed.

Lemma bwp_fprintf fmt args (Q : unit -> boot Fs F -> Prop) E s :
  ser_fp s = true -> (forall l, Q tt (set_acts l s)) -> bwp (fprintf fmt args) Q E s.
Proof. apply bwp_fputs. Qed.

(** ** Ending *)

(** What a reset leaves: the flash and the files. *)
Lemma bwp_reset {A} (Q : A -> boot Fs F -> Prop) (E : stop -> boot Fs F -> Prop) s :
  ser_fp s = true ->
  (forall s', flash s' = flash s ->
     (exists l, acts s' = acts s ++ l ++ [Write32 REMOTE_UPDATE_BASE 32 1]) -> E Reconfigured s') ->
  bwp reset Q E s.
Proof.
  intros Hs HE. unfold reset, fprintf, fputs. bwp_steps. rewrite Hs. cbn [negb]. bwp_steps.
  apply bwp_fs. intros r o _. unfold cleaning. bwp_steps. simpl. rewrite Hs. cbn [negb]. bwp_steps.
  apply bwp_fs. intros r' o' _. unfold reconfigure, IOWR. bwp_steps.
  apply HE; [done|]. simpl. eexists [_; _]. by rewrite <- !app_assoc.
Qed.

Lemma bwp_fatal {A} text (Q : A -> boot Fs F -> Prop) (E : stop -> boot Fs F -> Prop) s :
  ser_fp s = true -> (forall s', flash s' = flash s -> E Reconfigured s') ->
  bwp (fatal text) Q E s.
Proof.
  intros Hs HE. unfold fatal. apply bwp_bind, bwp_fprintf; [done|]. intros l.
  apply bwp_reset; [done|]. intros s' Hf _. by apply HE.
Qed.

(** ** Input *)

(** The line moved on to [es], and output. *)
Definition moved (s : boot Fs F) (keys : list Z) (s' : boot Fs F) : Prop :=
  exists es l, s' = set_acts l (set_input es s) /\ typed es = keys.

Lemma moved_acts s keys s' l : moved s keys s' -> moved s keys (set_acts l s').
Proof. intros (es & l' & -> & Hk). by exists es, l. Qed.

Lemma moved_trans s1 k2 s2 k3 s3 : moved s1 k2 s2 -> moved s2 k3 s3 -> moved s1 k3 s3.
Proof. intros (es & l & -> & _) (es' & l' & -> & Hk). by exists es', l'. Qed.

Lemma moved_fp s keys s' : moved s keys s' -> ser_fp s = true -> ser_fp s' = true.
Proof. by intros (es & l & -> & _). Qed.

Lemma moved_flash s keys s' : moved s keys s' -> flash s' = flash s.
Proof. by intros (es & l & -> & _). Qed.

Lemma moved_os s keys s' : moved s keys s' -> os s' = os s.
Proof. by intros (es & l & -> & _). Qed.

Definition keys (s : boot Fs F) : list Z := typed (rx (line (modem s))).

Lemma moved_keys s ks s' : moved s ks s' -> keys s' = ks.
Proof. by intros (es & l & -> & <-). Qed.

Lemma select_typed es :
  match select false es with
  | Forever => typed es = []
  | TimedOut _ => False
  | NotSet es' => typed es = 0 :: typed es'
  | Ready [] es' => typed es = 0 :: typed es'
  | Ready bs es' => typed es = bs ++ typed es'
  end.
Proof. induction es as [|[| |[|b bs]] es IH]; simpl; try done. Qed.

Lemma moved_input s es : moved s (typed es) (set_input es s).
Proof. by exists es, (acts s). Qed.

Lemma getChar_spec (Q : option Z -> boot Fs F -> Prop) (E : stop -> boot Fs F -> Prop) s :
  match keys s with
  | [] => E Waiting s
  | c :: w => forall s' r, default 0 r = c -> moved s w s' -> Q r s'
  end -> bwp getChar Q E s.
Proof.
  unfold getChar, poll, keys. intros HQ. bwp_steps.
  pose proof (select_typed (rx (line (modem s)))) as Ht.
  destruct (select false (rx (line (modem s)))) as [|es|es|[|c bs] es]; [..|rewrite Ht in HQ];
    try rewrite Ht in HQ; bwp_steps; try done; apply HQ; try done; try apply moved_input.
  rewrite <- (typed_unread c). apply moved_input.
Qed.

(** ** Reading a line *)

Lemma assign_spec buf i c (Q : list Z -> boot Fs F -> Prop) E s :
  0 <= i < Z.of_nat (length buf) -> Q (<[Z.to_nat i := c]> buf) s -> bwp (assign buf i c) Q E s.
Proof.
  intros Hi HQ. unfold assign. rewrite (proj2 (Z.leb_le 0 i)), (proj2 (Z.ltb_lt i _)) by lia. done.
Qed.

Lemma take_insert_next (buf : list Z) str c :
  (length str < length buf)%nat -> take (length str) buf = str ->
  take (length (str ++ [c])) (<[length str := c]> buf) = str ++ [c].
Proof.
  intros Hl Hs. rewrite length_app, Nat.add_1_r. erewrite take_S_r by (by rewrite list_lookup_insert_eq).
  by rewrite take_insert_ge, Hs by lia.
Qed.

Lemma readLine_loop_spec fuel buf maxLen str s :
  ser_fp s = true -> Z.of_nat (length buf) = maxLen -> take (length str) buf = str ->
  (length str < length buf)%nat -> (length (keys s) < fuel)%nat ->
  bwp (readLine_loop fuel buf maxLen (Z.of_nat (length str)))
    (fun buf' s' => exists str' rest, edit maxLen str (keys s) = Line str' rest
       /\ cstr buf' = cstr str' /\ moved s rest s')
    (fun e s' => flash s' = flash s
       /\ match edit maxLen str (keys s) with
          | Line _ _ => False
          | Rejected => e = Reconfigured
          | Unfinished => e = Waiting
          end) s.
Proof.
  revert buf str s. induction fuel as [|fuel IH]; intros buf str s Hfp Hlen Hstr Hlt Hfuel; [lia|].
  cbn [readLine_loop]. apply bwp_bind, getChar_spec. destruct (keys s) as [|c w] eqn:Hk; [done|].
  intros s1 r -> M1. pose proof (moved_fp _ _ _ M1 Hfp) as Hfp1.
  pose proof (moved_flash _ _ _ M1) as Hf1. pose proof (moved_keys _ _ _ M1) as Hk1.
  cbn [length] in Hfuel. cbn [edit].
  assert (forall buf2 str2 s2, moved s w s2 -> Z.of_nat (length buf2) = maxLen ->
    take (length str2) buf2 = str2 -> (length str2 < length buf2)%nat ->
    bwp (readLine_loop fuel buf2 maxLen (Z.of_nat (length str2)))
      (fun buf' s' => exists str' rest, edit maxLen str2 w = Line str' rest
         /\ cstr buf' = cstr str' /\ moved s rest s')
      (fun e s' => flash s' = flash s
         /\ match edit maxLen str2 w with
            | Line _ _ => False | Rejected => e = Reconfigured | Unfinished => e = Waiting
            end) s2) as Hrec.
  { intros buf2 str2 s2 M2 L1 L2 L3. pose proof (moved_keys _ _ _ M2) as Hk2.
    eapply bwp_mono; [apply (IH buf2 str2 s2); [by eapply moved_fp|done..|rewrite Hk2; lia]|..];
      rewrite Hk2.
    - intros buf' s' (str' & rest & ? & ? & M3). exists str', rest. split_and!; [done..|].
      by eapply moved_trans.
    - intros e s' [Hf He]. by rewrite Hf, (moved_flash _ _ _ M2). }
  destruct (c =? 3); [apply bwp_fatal; [done|]; intros s' Hf; by rewrite Hf|].
  destruct ((c =? 10) || (c =? 13)).
  { destruct str as [|x str].
    - apply bwp_fatal; [done|]. intros s' Hf. by rewrite Hf.
    - rewrite (proj2 (Z.eqb_neq _ 0)) by (simpl; lia). apply bwp_bind, assign_spec; [lia|].
      apply bwp_bind, bwp_fprintf; [done|]. intros l. apply bwp_ret.
      exists (x :: str), w. split_and!; [done| |by apply moved_acts].
      rewrite Nat2Z.id, insert_take_drop, Hstr by done. apply cstr_app. }
  destruct (c =? 8).
  { destruct str as [|x str].
    - apply Hrec; try done.
    - rewrite (proj2 (Z.ltb_lt 0 _)) by (simpl; lia).
      apply bwp_bind, bwp_fprintf; [done|]. intros l. cbn [length].
      replace (Z.of_nat (S (length str)) - 1) with (Z.of_nat (length (take (length str) (x :: str))))
        by (rewrite length_take; simpl; lia).
      rewrite Nat.sub_succ, Nat.sub_0_r. apply Hrec; [by apply moved_acts|done|..];
        rewrite length_take; simpl in *; [|lia].
      rewrite <- Hstr, take_take. f_equal; lia. }
  destruct (maxLen - 1 <=? Z.of_nat (length str)) eqn:Hm;
    [apply bwp_fatal; [done|]; intros s' Hf; by rewrite Hf|].
  apply bwp_bind, bwp_fprintf; [done|]. intros l. apply bwp_bind, assign_spec; [lia|].
  rewrite Nat2Z.id. replace (Z.of_nat (length str) + 1) with (Z.of_nat (length (str ++ [c])))
    by (rewrite length_app; simpl; lia).
  apply Z.leb_gt in Hm.
  apply Hrec; [by apply moved_acts|by rewrite length_insert|by apply take_insert_next|].
  rewrite length_app, length_insert. simpl. lia.
Qed.

Lemma readLine_spec buf maxLen s :
  ser_fp s = true -> Z.of_nat (length buf) = maxLen -> 0 < maxLen ->
  bwp (readLine buf maxLen)
    (fun buf' s' => exists str rest, edit maxLen [] (keys s) = Line str rest
       /\ cstr buf' = cstr str /\ moved s rest s')
    (fun e s' => flash s' = flash s
       /\ match edit maxLen [] (keys s) with
          | Line _ _ => False
          | Rejected => e = Reconfigured
          | Unfinished => e = Waiting
          end) s.
Proof.
  intros Hfp Hlen Hpos. unfold readLine. bwp_steps.
  apply (readLine_loop_spec _ buf maxLen []); [done..|simpl; lia|].
  pose proof (length_typed (rx (line (modem s)))). unfold keys. lia.
Qed.

Lemma moved_refl s l : moved s (keys s) (set_acts l s).
Proof.
  exists (rx (line (modem s))), l. split; [|done]. destruct s as [? ? m ? ? ? ? ?], m as [].
  by match goal with r : ring |- _ => destruct r end.
Qed.

Lemma ask_spec prompt size s :
  ser_fp s = true -> 0 < size ->
  bwp (ask prompt size)
    (fun str s' => exists l rest, edit size [] (keys s) = Line l rest /\ str = cstr l
       /\ moved s rest s')
    (fun e s' => flash s' = flash s
       /\ match edit size [] (keys s) with
          | Line _ _ => False
          | Rejected => e = Reconfigured
          | Unfinished => e = Waiting
          end) s.
Proof.
  intros Hfp Hsz. unfold ask. apply bwp_bind, bwp_fprintf; [done|]. intros l. apply bwp_bind.
  eapply bwp_mono; [apply readLine_spec; [done|rewrite length_replicate; lia|done]|..].
  - intros buf s1 (str & rest & He & Hc & M). bwp_steps. exists str, rest. split_and!; [done..|].
    eapply moved_trans; [apply (moved_refl s l)|done].
  - intros e s1 He. done.
Qed.

(** ** Flash *)

Lemma bwp_check stat text (Q : unit -> boot Fs F -> Prop) (E : stop -> boot Fs F -> Prop) s :
  ser_fp s = true -> (stat = 0 -> Q tt s) ->
  (stat <> 0 -> forall s', flash s' = flash s -> E Reconfigured s') ->
  bwp (check stat text) Q E s.
Proof.
  intros Hfp HQ HE. unfold check. apply bwp_when; rewrite ?negb_true_iff, ?negb_false_iff.
  - intros Hs%Z.eqb_neq. apply bwp_bind, bwp_fprintf; [done|]. intros l.
    apply bwp_reset; [done|]. intros s' Hf _. by apply HE.
  - intros Hs%Z.eqb_eq. auto.
Qed.

Definition same_bytes (f f' : F) : Prop := forall x, flash_byte f' x = flash_byte f x.

Lemma bwp_unlock a n (Q : Z -> boot Fs F -> Prop) E s :
  (forall r f, same_bytes (flash s) f ->
     (works (flash s) -> on_device (F := F) a n -> r = 0 /\ works f) -> Q r (set_flash f s)) ->
  bwp (unlock a n) Q E s.
Proof.
  intros HQ. unfold unlock. destruct block_locking.
  - apply bwp_chip. intros r f E'. apply unlock_ok in E' as [E1 E2]. by apply HQ.
  - apply bwp_ret. specialize (HQ 0 (flash s)). destruct s. by apply HQ.
Qed.

End Facts.
