(* ===== verification/BootMac.v ===== *)
(** * The bootloader: the MAC address

    Parsing the typed address, storing it in flash, and the check the menu
    makes. *)

From S2P Require Import Prelude.
From S2P Require Import Stdio.
From S2P Require Import Os.
From S2P Require Import FirmwareUtil.
From S2P Require Import FirmwareUtilProps.
From S2P Require Import XyzModem.
From S2P Require Import Bootloader.
From S2P Require Import BootloaderFacts.

(** ** Digits *)

Definition hexval (d : Z) : option Z :=
  let c := toupper d in
  if (48 <=? c) && (c <=? 57) then Some (c - 48)
  else if (65 <=? c) && (c <=? 70) then Some (c - 55)
  else None.

(** The bytes of a list of digit values. *)
Fixpoint bytes_of (vs : list Z) : list Z :=
  match vs with
  | h :: l :: vs' => (16 * h + l) :: bytes_of vs'
  | _ => []
  end.

Fixpoint add_digits (mac : list Z) (i : nat) (vs : list Z) : list Z :=
  match vs with
  | [] => mac
  | v :: vs' => add_digits (add_digit mac i v) (S i) vs'
  end.

Lemma hexval_range d v : hexval d = Some v -> 0 <= v < 16.
Proof.
  unfold hexval. intros E.
  destruct ((48 <=? toupper d) && _) eqn:E1;
    [|destruct ((65 <=? toupper d) && _) eqn:E2; [|done]]; injection E as <-;
    rewrite ?andb_true_iff, ?Z.leb_le in *; lia.
Qed.

(** Both ways of printing a byte give its two digits. *)
Lemma fmt_x_digits b :
  is_byte b ->
  (exists c1 c2, fmt_x 2 b = [c1; c2] /\ hexval c1 = Some (b / 16) /\ hexval c2 = Some (b mod 16))
  /\ exists c1 c2, fmt_X 2 b = [c1; c2] /\ hexval c1 = Some (b / 16) /\ hexval c2 = Some (b mod 16).
Proof.
  set (ok := fun l : list Z => match l with
             | [c1; c2] => bool_decide (hexval c1 = Some (b / 16) /\ hexval c2 = Some (b mod 16))
             | _ => false end).
  assert (forall l, ok l = true ->
    exists c1 c2, l = [c1; c2] /\ hexval c1 = Some (b / 16) /\ hexval c2 = Some (b mod 16)) as Hok.
  { intros [|c1 [|c2 [|]]]; try done. intros []%bool_decide_eq_true_1. eauto. }
  intros Hb. assert (ok (fmt_x 2 b) && ok (fmt_X 2 b) = true) as [H1 H2]%andb_true_iff; [|by split; apply Hok].
  unfold ok. clear Hok ok. revert b Hb. apply byte_forall. vm_compute. reflexivity.
Qed.

Lemma byte_of_nibbles h l e e' :
  e = 4 -> e' = 0 -> 0 <= h < 16 -> 0 <= l < 16 ->
  u8 (u8 (0 + Z.shiftl h e) + Z.shiftl l e') = 16 * h + l.
Proof.
  intros -> -> Hh Hl. rewrite Z.shiftl_mul_pow2, Z.shiftl_0_r by done. change (2 ^ 4) with 16.
  rewrite !u8_id; unfold is_byte; rewrite ?u8_id; unfold is_byte; lia.
Qed.

(** Twelve values below sixteen give six bytes. *)
Lemma add_digits_bytes vs :
  length vs = 12%nat -> Forall (fun v => 0 <= v < 16) vs ->
  add_digits (replicate 6 0) 0 vs = bytes_of vs.
Proof.
  intros Hl Hv. do 12 (destruct vs as [|? vs]; [done|]). destruct vs; [|done].
  repeat (apply Forall_cons_1 in Hv as [? Hv]). cbn -[uwrap Z.shiftl Z.add Z.mul].
  repeat (f_equal; [by apply byte_of_nibbles|..]).
Qed.

Section Mac.
Context `{Board} {Fs F Zs : Type} `{!Posix Fs, !FlashDev F, !Zlib Zs}
  `{!PosixView Fs, !FlashView F, !ZlibView Zs} `{!PosixLaws Fs, !FlashLaws F, !ZlibLaws Zs}.
Implicit Types (s : boot Fs F).

(** ** Parsing *)

Lemma mac_loop_spec mac i ds (Q : list Z -> boot Fs F -> Prop) (E : stop -> boot Fs F -> Prop) s :
  ser_fp s = true ->
  match mapM hexval ds with
  | Some vs => Q (add_digits mac i vs) s
  | None => forall s', flash s' = flash s -> E Reconfigured s'
  end -> bwp (mac_loop mac i ds) Q E s.
Proof.
  intros Hfp. revert mac i. induction ds as [|d ds IH]; intros mac i HQ; [by apply bwp_ret|].
  cbn [mac_loop]. cbn [mapM] in HQ.
  destruct (hexval d) as [v|] eqn:Hd.
  - pose proof (hexval_range _ _ Hd) as Hv.
    assert (bwp (mac_loop (add_digit mac i v) (S i) ds) Q E s) as HIH.
    { apply IH. simpl in HQ. by destruct (mapM hexval ds). }
    unfold hexval in Hd. destruct ((48 <=? toupper d) && _).
    { injection Hd as Hd. by rewrite Hd, u8_id by (unfold is_byte; lia). }
    destruct ((65 <=? toupper d) && _); [|done].
    injection Hd as Hd. replace (toupper d - 65 + 10) with v by lia.
    by rewrite u8_id by (unfold is_byte; lia).
  - unfold hexval in Hd. destruct ((48 <=? toupper d) && _); [done|].
    destruct ((65 <=? toupper d) && _); [done|]. unfold wrongMAC. simpl in HQ.
    apply bwp_bind, bwp_fprintf; [done|]. intros l. apply bwp_reset; [done|].
    intros s' Hf _. by apply HQ.
Qed.

(** Twelve digits are an address; anything else is a reset. *)
Lemma transform_spec str (Q : list Z -> boot Fs F -> Prop) (E : stop -> boot Fs F -> Prop) s :
  ser_fp s = true ->
  (forall vs, length str = 12%nat -> mapM hexval str = Some vs -> Q (bytes_of vs) s) ->
  (length str <> 12%nat \/ mapM hexval str = None ->
     forall s', flash s' = flash s -> E Reconfigured s') ->
  bwp (transformMacAddress str) Q E s.
Proof.
  intros Hfp HQ HE. unfold transformMacAddress. destruct (Z.eqb_spec (Z.of_nat (length str)) 12) as [Hl|Hl].
  - cbn [negb]. apply mac_loop_spec; [done|]. destruct (mapM hexval str) as [vs|] eqn:Hv; [|auto].
    pose proof Hv as Hv'. apply mapM_Some_1 in Hv' as Hf2.
    rewrite add_digits_bytes; [apply HQ; [lia|done]|apply Forall2_length in Hf2; lia|].
    clear -Hf2. induction Hf2; constructor; eauto using hexval_range.
  - cbn [negb]. unfold wrongMAC. apply bwp_bind, bwp_fprintf; [done|]. intros l.
    apply bwp_reset; [done|]. intros s' Hf _. apply HE; [lia|done].
Qed.

Lemma bytes_of_length vs : length vs = 12%nat -> length (bytes_of vs) = 6%nat.
Proof. intros Hl. do 12 (destruct vs as [|? vs]; [done|]). by destruct vs. Qed.

(** ** The address in flash *)

Lemma land_255_both a b : is_byte a -> is_byte b -> Z.land a b = 255 <-> a = 255 /\ b = 255.
Proof.
  intros Ha Hb.
  assert (bool_decide (Z.land a b = 255 <-> a = 255 /\ b = 255) = true) as E.
  2: by apply bool_decide_eq_true_1 in E.
  revert b Hb. apply byte_forall. revert a Ha. apply byte_forall. vm_compute. reflexivity.
Qed.

Lemma land_all l : bytes_ok l -> foldl Z.land 255 l = 255 <-> Forall (eq 255) l.
Proof.
  intros Hl. assert (forall a, is_byte a -> foldl Z.land a l = 255 <-> a = 255 /\ Forall (eq 255) l) as G.
  { induction Hl as [|b l Hb Hl IH]; intros a Ha; simpl.
    { split; [by intros ->|by intros []]. }
    assert (is_byte (Z.land a b)) as Hab.
    { rewrite <- (land_byte_255 b), Z.land_assoc by done. apply land_255_byte. }
    split.
    - intros [[-> ->]%land_255_both Hr]%(IH _ Hab); auto.
    - intros [-> [<- Hr]%Forall_cons_1]. apply (IH _ Hab). split; [done|exact Hr]. }
  split; [by intros [_ ?]%G|]. intros Hf. by apply G.
Qed.

Lemma mac_bytes_ok (f : F) : bytes_ok (mac_bytes f).
Proof. apply Forall_map, Forall_true. intros i. apply flash_byte_range. Qed.

(** There is no address when the six bytes are erased. *)
Lemma has_mac_spec (f : F) : has_mac f = true <-> mac_bytes f <> replicate 6 255.
Proof.
  unfold has_mac. rewrite negb_true_iff, Z.eqb_neq. apply not_iff_compat.
  split; [intros E%land_all; [|apply mac_bytes_ok]|intros ->; reflexivity].
  symmetry. by apply replicate_as_Forall_2.
Qed.

Lemma holds_mac (f : F) mac :
  holds f macAddr mac -> length mac = 6%nat -> bytes_ok mac -> mac_bytes f = mac.
Proof.
  intros Hh Hl Hb. apply list_eq_same_length with 6%nat; [done|done|].
  intros i x y Hi Hx Hy. unfold mac_bytes in Hx. rewrite list_lookup_fmap, lookup_seq_lt in Hx by done.
  injection Hx as <-. simpl. rewrite (Hh _ _ Hy). apply u8_id.
  by eapply Forall_lookup_1 in Hb.
Qed.

Lemma bytes_of_ok vs : Forall (fun v => 0 <= v < 16) vs -> bytes_ok (bytes_of vs).
Proof.
  remember (length vs) as n eqn:Hn. revert vs Hn.
  induction (lt_wf n) as [n _ IH]. intros [|h [|l vs]] -> Hv; simpl; try constructor.
  - apply Forall_cons_1 in Hv as [? [? _]%Forall_cons_1]. unfold is_byte. lia.
  - apply Forall_cons_1 in Hv as [_ [_ ?]%Forall_cons_1]. eapply IH; [|done..]. simpl. lia.
Qed.

(** The typed line is an address. *)
Definition typed_mac (s : boot Fs F) (mac rest : list Z) : Prop :=
  exists l vs, edit 13 [] (keys s) = Line l rest /\ length (cstr l) = 12%nat
    /\ mapM hexval (cstr l) = Some vs /\ mac = bytes_of vs.

Lemma typed_mac_ok s mac rest : typed_mac s mac rest -> length mac = 6%nat /\ bytes_ok mac.
Proof.
  intros (l & vs & _ & Hl & Hv & ->). apply mapM_Some_1 in Hv as Hf2.
  pose proof (Forall2_length Hf2). split; [apply bytes_of_length; lia|]. apply bytes_of_ok.
  clear -Hf2. induction Hf2; constructor; eauto using hexval_range.
Qed.

(** The bytes after an erase and a program of the same range. *)
Lemma erase_program (f f1 f2 : F) a n d r1 r2 :
  flash_erase a n f = (r1, f1) -> flash_program a d f1 = (r2, f2) -> n = Z.of_nat (length d) ->
  0 < n -> untouched f f2 a n /\ (r1 = 0 -> r2 = 0 -> holds f2 a d).
Proof.
  intros E1 E2 -> Hn. apply erase_ok in E1 as (E1 & E1' & _); [|done].
  apply program_ok in E2 as (E2 & E2' & _). split.
  - intros x Hx. rewrite E2; [by apply E1|].
    destruct (decide (a <= x < a + Z.of_nat (length d))); [|lia]. by rewrite touched_inside in Hx.
  - intros -> -> i b Hb. apply lookup_lt_Some in Hb as Hi. destruct (E2' i b Hb) as [->|[? _]]; [|done].
    rewrite E1' by (done || apply touched_inside; lia). by rewrite Z.land_comm, land_255.
Qed.

Lemma untouched_trans (f f1 f2 : F) a n :
  same_bytes f f1 -> untouched f1 f2 a n -> untouched f f2 a n.
Proof. intros H1 H2 x Hx. by rewrite H2, H1. Qed.

Lemma changeMac_spec s :
  ser_fp s = true ->
  bwp changeMac
    (fun _ s' => exists mac rest, typed_mac s mac rest /\ mac_bytes (flash s') = mac
       /\ untouched (flash s) (flash s') macAddr 6 /\ keys s' = rest /\ ser_fp s' = true
       /\ os s' = os s)
    (fun e s' => untouched (flash s) (flash s') macAddr 6
       /\ (works (flash s) -> on_device (F := F) macAddr 6 -> forall mac rest, ~ typed_mac s mac rest)) s.
Proof.
  intros Hfp. unfold changeMac. apply bwp_bind. eapply bwp_mono; [by apply ask_spec|..].
  2: { intros e s' [Hf He]. rewrite Hf. split; [done|]. intros _ _ mac rest (l & vs & E & _).
       by rewrite E in He. }
  intros str s1 (l & rest & He & -> & M). pose proof (moved_fp _ _ _ M Hfp) as Hfp1.
  pose proof (moved_flash _ _ _ M) as Hf1. apply bwp_bind, transform_spec; [done|..].
  2: { intros Hbad s' Hf. rewrite Hf, Hf1. split; [done|].
       intros _ _ mac rest' (l' & vs & E & E2 & E3 & _). rewrite He in E.
       injection E as <- <-. destruct Hbad; congruence. }
  intros vs Hl Hv. assert (typed_mac s (bytes_of vs) rest) as Hm by (by exists l, vs).
  destruct (typed_mac_ok _ _ _ Hm) as [Hml Hmb].
  set (mac := bytes_of vs) in *. clearbody mac. apply bwp_bind, bwp_fprintf; [done|]. intros o1.
  apply bwp_bind, bwp_unlock. intros r f S1 W1. simpl in S1, W1. rewrite Hf1 in S1, W1.
  apply bwp_bind, bwp_check; [done|..].
  2: { intros Hr s' Hf. rewrite Hf. split; [intros x _; apply S1|]. intros Hw Hd. by destruct (W1 Hw Hd). }
  intros ->. apply bwp_bind, bwp_chip. intros r1 f1 E1. simpl in E1.
  pose proof E1 as (N1 & N2 & W2)%erase_ok; [|done]. apply bwp_bind, bwp_check; [done|..].
  2: { intros Hr s' Hf. rewrite Hf. split; [by eapply untouched_trans|].
       intros Hw Hd. destruct (W1 Hw Hd) as [_ Hw1]. by destruct (W2 Hw1 Hd). }
  intros ->. bwp_steps. apply bwp_chip. intros r2 f2 E2. simpl in E2.
  destruct (erase_program _ _ _ _ _ _ _ _ E1 E2) as [U H2]; [by rewrite Hml|done|].
  apply bwp_check; [done|..].
  - intros ->. exists mac, rest. split_and!; try done.
    + by apply holds_mac; [apply H2|..].
    + by eapply untouched_trans.
    + by rewrite <- (moved_keys _ _ _ M).
    + by rewrite <- (moved_os _ _ _ M).
  - intros Hr s' Hf. rewrite Hf. split; [by eapply untouched_trans|].
    intros Hw Hd. destruct (W1 Hw Hd) as [_ Hw1]. destruct (W2 Hw1 Hd) as [_ Hw2].
    apply program_ok in E2 as (_ & _ & W3). rewrite Hml in W3. by destruct (W3 Hw2 Hd).
Qed.

End Mac.
