(* ===== verification/BootMenu.v ===== *)
(** * The bootloader: the menu

    The start of the menu up to its first key, and the ways out of it. *)

From S2P Require Import Prelude.
From S2P Require Import Stdio.
From S2P Require Import XyzModem.
From S2P Require Import XyzModemFacts.
From S2P Require Import XyzModemProps.
From S2P Require Import Os.
From S2P Require Import FirmwareUtil.
From S2P Require Import FirmwareUtilProps.
From S2P Require Import Bootloader.
From S2P Require Import BootloaderFacts.
From S2P Require Import BootMac.

(** * The bootloader: uploads

    The loop that stores a Y-modem stream in a file, the whole upload, and the
    upgrade as the bootloader calls it. *)

Section Upload.
Context `{Board} {Fs F Zs : Type} `{!Posix Fs, !FlashDev F, !Zlib Zs}
  `{!PosixView Fs, !FlashView F, !ZlibView Zs} `{!PosixLaws Fs, !FlashLaws F, !ZlibLaws Zs}.
Implicit Types (s : boot Fs F).

(** [c] is the upload: the part [w] in the file, the part in the buffer, and
    the part [rest] that the receiver still has to deliver. *)
Record uploading (fn : path) (ff : Z) (c w : list Z) (pos : Z) (rest : list Z) s : Prop := {
  up_fp : ser_fp s = true;
  up_healthy : healthy (os s);
  up_desc : desc (os s) ff = Some (fn, length w);
  up_file : file (os s) fn = Some w;
  up_buf : Z.of_nat (length (WRITE_BUF s)) = WRITE_BUF_SIZE;
  up_pos : 0 <= pos <= WRITE_BUF_SIZE - 256;
  up_streams : streams cyg_crc16 (modem s) rest;
  up_parts : c = w ++ take (Z.to_nat pos) (WRITE_BUF s) ++ rest
}.

Lemma store_at_take (buf d : list Z) pos :
  (Z.to_nat pos + length d <= length buf)%nat ->
  exists buf', store_at buf pos d = Some buf' /\ length buf' = length buf
    /\ take (Z.to_nat pos + length d) buf' = take (Z.to_nat pos) buf ++ d.
Proof.
  intros Hl. unfold store_at. rewrite decide_True by done. eexists. split; [done|]. split.
  - rewrite !length_app, length_take, length_drop. lia.
  - rewrite app_assoc, take_app_le by (rewrite length_app, length_take; lia).
    apply take_ge. rewrite length_app, length_take. lia.
Qed.

(** A read: as much as fits, stored after what is in the buffer. *)
Lemma stream_read_spec fn ff c w pos rest s :
  uploading fn ff c w pos rest s ->
  bwp (stream_read pos)
    (fun r s' => exists d rest', rest = d ++ rest' /\ r = (Z.of_nat (length d), None)
       /\ (d = [] -> rest = []) /\ pos + Z.of_nat (length d) <= WRITE_BUF_SIZE
       /\ ser_fp s' = true /\ os s' = os s /\ flash s' = flash s
       /\ Z.of_nat (length (WRITE_BUF s')) = WRITE_BUF_SIZE
       /\ take (Z.to_nat (pos + Z.of_nat (length d))) (WRITE_BUF s')
          = take (Z.to_nat pos) (WRITE_BUF s) ++ d
       /\ streams cyg_crc16 (modem s') rest')
    (fun _ _ => False) s.
Proof.
  intros [Hfp Hh Hd Hf Hb Hp Hs Hc]. unfold WRITE_BUF_SIZE in *. unfold stream_read.
  apply bwp_bind, bwp_modem. set (n := Z.to_nat (WRITE_BUF_SIZE - pos)).
  eapply wp_mono; [apply stream_read_streams; [by eapply streams_readable|done|]|].
  { unfold WRITE_BUF_SIZE. lia. }
  intros r t [-> Ht]. fold n in Ht |- *. bwp_steps. simpl.
  assert (n = Z.to_nat (4096 - pos)) as Hn by done. clearbody n.
  destruct (store_at_take (WRITE_BUF s) (take n rest) pos) as (buf' & E & L & T).
  { rewrite length_take. lia. }
  rewrite E. bwp_steps. exists (take n rest), (drop n rest). rewrite take_drop. simpl.
  split_and!; try done.
  - intros Hnil%(f_equal length). rewrite length_take in Hnil. destruct rest; [done|]. simpl in *. lia.
  - rewrite length_take. lia.
  - by rewrite L.
  - rewrite Z2Nat.inj_add, Nat2Z.id by lia. done.
Qed.

(** A write of the buffer empties it into the file. *)
Lemma flush_spec fn ff (w x : list Z) s r o :
  healthy (os s) -> desc (os s) ff = Some (fn, length w) -> file (os s) fn = Some w ->
  os_write ff x (os s) = (r, o) ->
  r = Z.of_nat (length x) /\ healthy o /\ file o fn = Some (w ++ x)
  /\ desc o ff = Some (fn, length (w ++ x)).
Proof.
  intros Hh Hd Hf E. eapply write_ok in E as (_ & _ & _ & _ & E1 & E2); [|done..].
  destruct (E1 Hh) as [Hh' ->]. destruct E2 as [E2 E3]; [lia|].
  rewrite Nat2Z.id, take_ge, fwrite_at_end in E2 by lia. rewrite Nat2Z.id in E3.
  by rewrite length_app.
Qed.

Lemma upload_loop_spec fuel fn ff c w pos rest s :
  uploading fn ff c w pos rest s -> (length rest < fuel)%nat ->
  bwp (upload_loop fuel fn ff pos)
    (fun r s' => r = (false, 0, None) /\ ser_fp s' = true /\ flash s' = flash s
       /\ healthy (os s') /\ file (os s') fn = Some c)
    (fun _ _ => False) s.
Proof.
  revert w pos rest s. induction fuel as [|fuel IH]; intros w pos rest s Hup Hfuel; [lia|].
  cbn [upload_loop]. apply bwp_bind. eapply bwp_mono; [by eapply stream_read_spec|..|done].
  destruct Hup as [Hfp Hh Hd Hf Hb Hp Hs Hc].
  intros r s1 (d & rest' & Hrest & -> & Hnil & Hfit & Hfp1 & Ho1 & Hf1 & Hb1 & Ht1 & Hs1).
  rewrite (proj2 (Z.ltb_ge _ 0)) by lia. set (pos' := pos + Z.of_nat (length d)) in *.
  assert (c = w ++ take (Z.to_nat pos') (WRITE_BUF s1) ++ rest') as Hc1.
  { rewrite Hc, Hrest, Ht1, <- !app_assoc. done. }
  destruct (decide (d = [])) as [->|Hne].
  - assert (pos' = pos) as -> by (unfold pos'; simpl; lia). specialize (Hnil eq_refl). subst rest.
    assert (rest' = []) as -> by done. rewrite app_nil_r in Hc1.
    cbn [length]. change (Z.of_nat 0) with 0. change (0 =? 0) with true. cbn [andb].
    rewrite (proj2 (Z.ltb_ge (WRITE_BUF_SIZE - 256) pos)), orb_false_r by lia.
    apply bwp_bind. destruct (Z.ltb_spec 0 pos).
    + bwp_steps.
      apply bwp_fs. intros r o E. rewrite Ho1 in E.
      edestruct flush_spec as (-> & F1 & F2 & _); [exact Hh|done..|].
      rewrite length_take, Nat.min_l, Z2Nat.id, Z.ltb_irrefl by (unfold WRITE_BUF_SIZE in *; lia).
      bwp_steps. simpl. rewrite F2, <- Hc1. done.
    + assert (pos = 0) as -> by lia. bwp_steps. cbn in Hc1. rewrite app_nil_r in Hc1. by rewrite Ho1, Hf, Hc1.
  - assert (length rest' < length rest)%nat.
    { rewrite Hrest, length_app. destruct d; [done|]. simpl. lia. }
    assert (0 < Z.of_nat (length d)) by (destruct d; [done|]; simpl; lia).
    rewrite (proj2 (Z.eqb_neq (Z.of_nat (length d)) 0)) by lia. cbn [andb orb].
    apply bwp_bind. destruct (Z.ltb_spec (WRITE_BUF_SIZE - 256) pos').
    + bwp_steps. apply bwp_fs. intros r o E. rewrite Ho1 in E.
      edestruct flush_spec as (-> & F1 & F2 & F3); [exact Hh|done..|].
      rewrite length_take, Nat.min_l, Z2Nat.id, Z.ltb_irrefl by (unfold WRITE_BUF_SIZE in *; lia).
      bwp_steps. simpl. eapply bwp_mono; [eapply (IH _ 0 rest'); [|lia]|..|done].
      { split; simpl; try done. by rewrite Hc1, <- app_assoc. }
      simpl. rewrite Hf1. done.
    + bwp_steps. eapply bwp_mono; [eapply (IH w pos' rest'); [|lia]|..|done].
      { split; rewrite ?Ho1; try done. unfold pos'. lia. }
      rewrite Hf1. done.
Qed.

(** ** The whole upload *)

(** A Y-modem sender is on the line, with a file of the contents [c]. *)
Definition sends (m : st) (c : list Z) : Prop :=
  exists header blocks last w,
    wire (line m) = frame cyg_crc16 0 header ++ session cyg_crc16 1 blocks last ++ w
    /\ sized header /\ Forall (block_ok cyg_crc16) blocks /\ sized last /\ c = contents blocks.

(** The program is ready for an upload. *)
Record idle (s : boot Fs F) : Prop := {
  idle_fp : ser_fp s = true;
  idle_buf : Z.of_nat (length (WRITE_BUF s)) = WRITE_BUF_SIZE;
  idle_modem : st_ok (modem s);
  idle_bufp : 0 <= bufp (modem s) <= 1024
}.

Lemma stream_open_spec s c :
  idle s -> healthy (os s) -> sends (modem s) c ->
  bwp stream_open
    (fun r s' => r = (0, None) /\ ser_fp s' = true /\ flash s' = flash s
       /\ WRITE_BUF s' = WRITE_BUF s /\ healthy (os s') /\ streams cyg_crc16 (modem s') c)
    (fun _ _ => False) s.
Proof.
  intros [Hfp Hb Hm Hbp] Hh (header & blocks & last & w & Hw & Hsh & Hsb & Hsl & ->).
  unfold stream_open. apply bwp_bind, bwp_fs. intros fd o E. apply open_device in E as (_ & E & _).
  destruct (E Hh) as [Hh' Hfd]. apply bwp_modem. simpl.
  eapply wp_mono; [eapply stream_open_streams; [done|done|lia|done..]|].
  intros r t [-> Ht]. done.
Qed.

Lemma stream_close_spec (Q : unit -> boot Fs F -> Prop) E s :
  healthy (os s) ->
  (forall s', ser_fp s' = ser_fp s -> flash s' = flash s -> healthy (os s') ->
     same_files (os s) (os s') -> Q tt s') ->
  bwp stream_close Q E s.
Proof.
  intros Hh HQ. unfold stream_close. apply bwp_bind, bwp_modem. unfold xyzModem_stream_close, send.
  wp_steps. bwp_steps. apply bwp_fs. intros r o E'. apply close_ok in E' as (E1 & _ & E2).
  bwp_steps. apply HQ; [done..| |done]. by apply E2.
Qed.

Lemma ymodemUpload_spec fuel fn c s :
  idle s -> healthy (os s) -> sends (modem s) c -> (length c < fuel)%nat ->
  bwp (ymodemUpload fuel fn)
    (fun _ s' => ser_fp s' = true /\ flash s' = flash s /\ healthy (os s')
       /\ file (os s') fn = Some c)
    (fun _ _ => False) s.
Proof.
  intros Hid Hh Hc Hfuel. unfold ymodemUpload.
  apply bwp_bind, bwp_fprintf; [apply Hid|]. intros l1. apply bwp_bind, bwp_fprintf; [apply Hid|].
  intros l2. apply bwp_bind. eapply bwp_mono; [eapply stream_open_spec|..|done]; simpl.
  { destruct Hid. split; done. }
  { done. }
  { done. }
  intros r s1 (-> & Hfp1 & Hf1 & Hb1 & Hh1 & Hs1). apply bwp_bind, bwp_when; [done|intros _].
  apply bwp_bind, bwp_fs. intros ff o E. apply creat_create in E as (_ & E1 & E2).
  destruct (E1 Hh1) as [Hh2 Hff]. rewrite (proj2 (Z.ltb_ge ff 0)) in * by lia.
  destruct E2 as (_ & E3 & _ & E4). apply bwp_bind, bwp_when; [done|intros _]. apply bwp_bind.
  eapply bwp_mono; [eapply (upload_loop_spec fuel fn ff c [] 0 c); [|done]|..|done].
  { split; simpl; try done. rewrite Hb1. apply Hid. }
  intros r s2 (-> & Hfp2 & Hf2 & Hh3 & Hfile). apply bwp_bind, stream_close_spec; [done|].
  intros s3 A1 A2 A3 A4. cbn [negb andb Z.eqb bool_decide]. rewrite bool_decide_true by done. cbn [bwhen].
  apply bwp_bind, bwp_fprintf; [by rewrite A1|]. intros l3. apply bwp_bind, bwp_fs. intros r o' E'.
  apply close_ok in E' as (C1 & _ & C2). bwp_steps. simpl in *. split_and!.
  - simpl. by rewrite A1.
  - simpl. by rewrite A2, Hf2.
  - simpl. by apply C2.
  - simpl. by rewrite C1, A4.
Qed.

(** ** The upgrade *)

Lemma report_all_spec (b : bool) msgs (Q : bool -> boot Fs F -> Prop) E s :
  ser_fp s = true -> (forall l, Q b (set_acts l s)) ->
  bwp (foldr (fun m k => report_info m;; k) (mret b) msgs) Q E s.
Proof.
  revert s. induction msgs as [|m msgs IH]; intros s Hfp HQ; simpl.
  - specialize (HQ (acts s)). by destruct s.
  - apply bwp_bind. unfold report_info. apply bwp_fputs; [done|]. intros l. by apply IH.
Qed.

Lemma bwp_upgrade fuel info (Q : bool -> boot Fs F -> Prop) E s :
  ser_fp s = true ->
  wp (cyg_firmware_upgrade (Zs := Zs) fuel info)
    (fun b w => forall s', ser_fp s' = true -> flash s' = fw_flash w -> os s' = fw_os w -> Q b s')
    (mkFw (os s) (flash s) []) ->
  bwp (upgrade (Zs := Zs) fuel info) Q E s.
Proof.
  intros Hfp Hw. unfold bwp, upgrade. unfold wp in Hw.
  destruct (cyg_firmware_upgrade _ _ _) as [[b w]| |]; [|done..].
  apply (report_all_spec b (fw_log w) Q E); [done|]. intros l. by apply Hw.
Qed.

End Upload.

(** * The theorems *)

Section Menu.
Context `{Board} {Fs F Zs : Type} `{!Posix Fs, !FlashDev F, !Zlib Zs}
  `{!PosixView Fs, !FlashView F, !ZlibView Zs} `{!PosixLaws Fs, !FlashLaws F, !ZlibLaws Zs}.
Implicit Types (s : boot Fs F).

(** What the start of the menu leaves as it was. *)
Record kept s s' : Prop := {
  kept_fp : ser_fp s' = ser_fp s;
  kept_modem : modem s' = modem s;
  kept_buf : WRITE_BUF s' = WRITE_BUF s;
  kept_remote : remote s' = remote s;
  kept_bytes : same_bytes (flash s) (flash s')
}.

Lemma kept_trans s1 s2 s3 : kept s1 s2 -> kept s2 s3 -> kept s1 s3.
Proof. intros [? ? ? ? H1] [? ? ? ? H2]. split; congruence. Qed.

Lemma kept_idle s s' : kept s s' -> idle s -> idle s'.
Proof. intros [E1 E2 E3 E4 E5] []. split; by rewrite ?E1, ?E2, ?E3. Qed.

Lemma mac_bytes_same (f f' : F) : same_bytes f f' -> mac_bytes f' = mac_bytes f.
Proof. intros Hs. unfold mac_bytes. apply map_ext. intros i. apply Hs. Qed.

Lemma has_mac_same (f f' : F) : same_bytes f f' -> has_mac f' = has_mac f.
Proof. intros Hs. unfold has_mac. by rewrite (mac_bytes_same f f'). Qed.

(** The file system after the two mounts. *)
Definition mounted (o : Fs) : Fs :=
  (os_mount "" "/ram" "ramfs" (os_mount FLASH_BLOCK_DEVICE "/config" "jffs2" o).2).2.

(** The whole flash answers. *)
Definition flash_up (f : F) : Prop :=
  works f /\ on_device (F := F) UNCACHED_EXT_FLASH_BASE EXT_FLASH_SPAN.

Lemma mountJFFS2_spec (Q : unit -> boot Fs F -> Prop) E s :
  ser_fp s = true ->
  (forall s', kept s s' ->
     (flash_up (flash s) -> works (flash s')
        /\ os s' = (os_mount FLASH_BLOCK_DEVICE "/config" "jffs2" (os s)).2) -> Q tt s') ->
  bwp mountJFFS2 Q E s.
Proof.
  intros Hfp HQ. unfold mountJFFS2. apply bwp_bind, bwp_chip. intros r f E1.
  apply init_ok in E1 as [I1 I2]. destruct (Z.eqb_spec r 0) as [->|Hr]; cbn [negb].
  2: { apply bwp_fprintf; [done|]. intros l. apply HQ; [by split|].
       intros [Hw _]. by destruct (I2 Hw). }
  apply bwp_bind, bwp_unlock. intros r f' U1 U2. simpl in U1, U2.
  assert (same_bytes (flash s) f') as Hb by (intros x; by rewrite U1, I1).
  destruct (Z.eqb_spec r 0) as [->|Hr]; cbn [negb].
  2: { apply bwp_fprintf; [done|]. intros l. apply HQ; [by split|].
       intros [Hw Hd]. destruct (I2 Hw) as [_ Hw']. by destruct (U2 Hw' Hd). }
  apply bwp_bind, bwp_fs. intros r o E2. simpl in E2.
  assert (forall l, Q tt (set_acts l (set_os o (set_flash f' (set_flash f s))))) as HQ'.
  { intros l. apply HQ; [by split|]. intros [Hw Hd]. destruct (I2 Hw) as [_ Hw'].
    rewrite E2. by destruct (U2 Hw' Hd). }
  apply bwp_when; intros _; [by apply bwp_fprintf|]. apply (HQ' (acts s)).
Qed.

Lemma mountRamFS_spec (Q : unit -> boot Fs F -> Prop) E s :
  ser_fp s = true ->
  (forall s', kept s s' -> flash s' = flash s ->
     os s' = (os_mount "" "/ram" "ramfs" (os s)).2 -> Q tt s') ->
  bwp mountRamFS Q E s.
Proof.
  intros Hfp HQ. unfold mountRamFS. apply bwp_bind, bwp_fs. intros r o E2.
  assert (forall l, Q tt (set_acts l (set_os o s))) as HQ' by (intros l; apply HQ; [by split|done|by rewrite E2]).
  apply bwp_when; intros _; [by apply bwp_fprintf|]. apply (HQ' (acts s)).
Qed.

(** Up to the first turn of the menu. *)
Lemma menu_start fuel (Q : unit -> boot Fs F -> Prop) E s :
  ser_fp s = true ->
  (forall s', kept s s' ->
     (flash_up (flash s) -> works (flash s') /\ os s' = mounted (os s)) ->
     bwp (menu_loop (Zs := Zs) (S (rx_size (rx (line (modem s))))) fuel start_menu) Q E s') ->
  bwp (menu (Zs := Zs) fuel) Q E s.
Proof.
  intros Hfp HQ. unfold menu. do 4 (apply bwp_bind, bwp_fprintf; [done|]; intros ?).
  apply bwp_bind, mountJFFS2_spec; [done|]. intros s1 K1 O1.
  apply bwp_bind, mountRamFS_spec; [by rewrite (kept_fp _ _ K1)|]. intros s2 K2 F2 O2.
  pose proof (kept_trans _ _ _ K1 K2) as K. apply bwp_bind.
  eapply (bwp_mono _ (fun _ s' => exists l, s' = set_acts l s2) _ (fun _ _ => False)); [..|done].
  { unfold printMACAddress, hasMacAddress. bwp_steps. destruct (has_mac _); bwp_steps;
      (apply bwp_fprintf; [by rewrite (kept_fp _ _ K)|eauto]). }
  intros _ s3 [l9 ->]. bwp_steps. simpl. rewrite (kept_modem _ _ K). simpl. apply HQ.
  - destruct K. by split.
  - intros Hup. destruct (O1 Hup) as [Hw Ho]. simpl. by rewrite F2, O2, Ho.
Qed.

(** The turn at the label [start_menu]. *)
Lemma menu_turn k fuel (Q : unit -> boot Fs F -> Prop) E s :
  ser_fp s = true -> Z.of_nat (length (info_file firmware)) < NAME_MAX ->
  (forall l, bwp (key ← waitChar 5;
                  match key with
                  | None => menu_end
                  | Some key =>
                      goto ← menu_key (Zs := Zs) fuel 5 key;
                      match goto with
                      | past => maybe_change_mac key;; menu_end
                      | l => menu_loop (Zs := Zs) k fuel l
                      end
                  end) Q E (set_acts l s)) ->
  bwp (menu_loop (Zs := Zs) (S k) fuel start_menu) Q E s.
Proof.
  intros Hfp Hn HQ. cbn [menu_loop]. apply bwp_bind, bwp_bind. unfold start_prompt, hasMacAddress.
  apply bwp_bind, bwp_fprintf; [done|]. intros l1. bwp_steps.
  assert (forall l, bwp (copy_default_name;; mret 5)
    (fun w s' => w = 5 /\ exists l', s' = set_acts l' s) (fun _ _ => False) (set_acts l s)) as Hc.
  { intros l. unfold copy_default_name. apply bwp_bind.
    rewrite (proj2 (Z.leb_gt _ _)) by done. bwp_steps. eauto. }
  assert (forall l, bwp (copy_default_name;; mret 5)
    (fun a s' => bwp (key ← waitChar a;
                  match key with
                  | None => menu_end
                  | Some key =>
                      goto ← menu_key (Zs := Zs) fuel a key;
                      match goto with
                      | past => maybe_change_mac key;; menu_end
                      | l => menu_loop (Zs := Zs) k fuel l
                      end
                  end) Q E s') E (set_acts l s)) as Hall.
  { intros l. eapply bwp_mono; [apply Hc|..|done]. intros a s' [-> [l' ->]]. apply HQ. }
  destruct (has_mac _).
  - apply bwp_bind, bwp_fprintf; [done|]. intros l2. apply bwp_fprintf; [done|]. intros l3. apply Hall.
  - apply bwp_fprintf; [done|]. intros l2. apply Hall.
Qed.

(** A key that waits on the line. *)
Lemma waitChar_key (Q : option Z -> boot Fs F -> Prop) E s c bs es :
  rx (line (modem s)) = RxRead (c :: bs) :: es ->
  Q (Some c) (set_input (unread 1 (c :: bs) es) s) -> bwp (waitChar 5) Q E s.
Proof. intros Hr HQ. unfold waitChar, poll. bwp_steps. rewrite Hr. cbn. exact HQ. Qed.

(** Five seconds without a key. *)
Lemma waitChar_quiet (Q : option Z -> boot Fs F -> Prop) E s :
  match rx (line (modem s)) with [] | RxIdle :: _ => True | _ => False end ->
  (forall es, Q None (set_input es s)) -> bwp (waitChar 5) Q E s.
Proof.
  intros Hr HQ. unfold waitChar, poll. bwp_steps.
  destruct (rx (line (modem s))) as [|[| |bs] es]; [cbn; apply HQ|cbn; apply HQ|done|done].
Qed.

(** ** Leaving the menu *)

Lemma bind_returns {A A'} (m : B Fs F A) (f : A -> B Fs F A') s b s'' :
  (m ≫= f) s = Ret (inr b, s'') -> exists a s', m s = Ret (inr a, s') /\ f a s' = Ret (inr b, s'').
Proof. unfold mbind, B_bind. destruct (m s) as [[[] ?]| |]; try done. eauto. Qed.

Lemma reset_never_returns {A} s (a : A) s' : reset s <> Ret (inr a, s').
Proof.
  unfold reset, reconfigure. intros (? & ? & _ & (? & ? & _ & (? & ? & _ & (? & ? & _ & E)%bind_returns)%bind_returns)%bind_returns)%bind_returns.
  done.
Qed.

Lemma menu_end_returns s u s' : menu_end s = Ret (inr u, s') -> has_mac (flash s') = true.
Proof.
  unfold menu_end. intros (b & s1 & E1 & (? & s2 & E2 & (? & s3 & E3 & (? & s4 & E4 & E5)%bind_returns)%bind_returns)%bind_returns)%bind_returns.
  injection E1 as <- <-. unfold bwhen in E2. destruct (has_mac (flash s)) eqn:Hm; cbn [negb] in E2.
  - injection E2 as _ <-. unfold on_fs in E3, E4. destruct (os_umount "/config" _) as [r1 o1].
    injection E3 as _ <-. destruct (os_umount "/ram" _) as [r2 o2]. injection E4 as _ <-.
    by injection E5 as _ <-.
  - apply bind_returns in E2 as (? & ? & _ & E2). by apply reset_never_returns in E2.
Qed.

Lemma menu_loop_returns turns fuel l s u s' :
  menu_loop (Zs := Zs) turns fuel l s = Ret (inr u, s') -> has_mac (flash s') = true.
Proof.
  revert l s. induction turns as [|k IH]; intros l s; cbn [menu_loop]; [done|].
  intros (w & s1 & _ & (key & s2 & _ & E)%bind_returns)%bind_returns.
  destruct key as [key|]; [|by eapply menu_end_returns].
  apply bind_returns in E as (goto & s3 & _ & E). destruct goto; [by eapply IH..|].
  apply bind_returns in E as (? & s4 & _ & E). by eapply menu_end_returns.
Qed.

(** ** Keys *)

(** [key] waits on the line; the receiver without it is [m]. *)
Definition key_waits (key : Z) s (m : st) : Prop :=
  exists bs es, rx (line (modem s)) = RxRead (key :: bs) :: es
    /\ m = set_line (set_rx (unread 1 (key :: bs) es) (line (modem s))) (modem s).

(** The menu up to its first key, for a key that waits. *)
Lemma menu_key_spec fuel key m (Q : unit -> boot Fs F -> Prop) E s :
  ser_fp s = true -> Z.of_nat (length (info_file firmware)) < NAME_MAX -> key_waits key s m ->
  (forall s1 s2, kept s s1 ->
     (flash_up (flash s) -> works (flash s1) /\ os s1 = mounted (os s)) ->
     s2 = set_modem m s1 ->
     bwp (goto ← menu_key (Zs := Zs) fuel 5 key;
          match goto with
          | past => maybe_change_mac key;; menu_end
          | l => menu_loop (Zs := Zs) (rx_size (rx (line (modem s)))) fuel l
          end) Q E s2) ->
  bwp (menu (Zs := Zs) fuel) Q E s.
Proof.
  intros Hfp Hn (bs & es & Hrx & ->) HQ. apply menu_start; [done|]. intros s1 K1 O1.
  apply menu_turn; [by rewrite (kept_fp _ _ K1)|done|]. intros l. apply bwp_bind.
  eapply waitChar_key; [simpl; by rewrite (kept_modem _ _ K1)|].
  apply (HQ (set_acts l s1)); [destruct K1; by split|done|].
  unfold set_input, set_modem. simpl. by rewrite (kept_modem _ _ K1).
Qed.

Lemma idle_input s m key : idle s -> key_waits key s m -> idle (set_modem m s).
Proof.
  intros [? ? [[] ? _ _] ?] (bs & es & _ & ->). split; simpl; try done.
Qed.

(** A key that starts an update, and what it updates. *)
Definition update_key (key : Z) (info : cyg_upgrade_info) : Prop :=
  key = 13 /\ info = firmware \/ key = 89 /\ info = bootloader.

Lemma update_spec fuel key info c d m s s1 :
  update_key key info -> idle s -> Z.of_nat (length (info_file firmware)) < NAME_MAX ->
  flash_up (flash s) -> healthy (mounted (os s)) -> (inflateInit (Zs := Zs)).1 <> Z_MEM_ERROR ->
  key_waits key s m -> sends m c -> firmware_of (Zs := Zs) info c d ->
  0 < Z.of_nat (length d) < 2147483648 ->
  start_address info + Z.of_nat (length d) + 3 <= EXT_FLASH_SPAN ->
  (1033 * length c < fuel)%nat -> (length d < fuel)%nat ->
  kept s s1 -> works (flash s1) /\ os s1 = mounted (os s) ->
  bwp (ymodemUpload fuel (info_file info);; _ ← upgrade (Zs := Zs) fuel info; (reset : B Fs F next))
    (fun _ _ => False)
    (fun e s' => e = Reconfigured /\ holds (flash s') (start info) d
       /\ untouched (flash s) (flash s') (start info) (Z.of_nat (length d))) (set_modem m s1).
Proof.
  intros Hk Hid Hn [Hw Hdev] Hh Hi Hkey Hs Hfw Hlen Hfit Hf1 Hf2 K [Hw1 Ho1]. apply bwp_bind.
  assert (0 <= start_address info /\ flash_base info = UNCACHED_EXT_FLASH_BASE
          /\ info_file info <> tmp_file) as (Hst & Hbase & Hne).
  { destruct Hk as [[_ ->]|[_ ->]]; done. }
  eapply bwp_mono; [apply (ymodemUpload_spec _ _ c)|..|done].
  { destruct (idle_input _ _ _ Hid Hkey), K as [E1 E2 E3 _ _]. split; simpl in *; congruence. }
  { simpl. by rewrite Ho1. }
  { done. }
  { lia. }
  simpl. intros _ s2 (Hfp2 & Hfl2 & Hh2 & Hfile). apply bwp_bind, bwp_upgrade; [done|].
  eapply wp_mono; [apply (upgrade_spec fuel info _ c d); done|].
  simpl. rewrite Hfl2. intros b w (U & Hb & Hok) s3 Hfp3 Hfl3 _.
  apply bwp_reset; [done|]. intros s4 Hf4 _. rewrite Hf4, Hfl3. split_and!; [done|..].
  - apply Hb, Hok; [done..|]. split; [done|].
    eapply on_device_sub; [exact Hdev|unfold start; lia..].
  - eapply untouched_trans; [apply K|done].
Qed.

Lemma menu_key_update fuel key info :
  update_key key info ->
  exists text, menu_key (Fs := Fs) (F := F) (Zs := Zs) fuel 5 key
    = (fprintf text [];; ymodemUpload fuel (info_file info);; _ ← upgrade (Zs := Zs) fuel info; reset).
Proof. intros [[-> ->]|[-> ->]]; by eexists. Qed.

(** With an address the menu ends by unmounting. *)
Lemma menu_end_spec (Q : unit -> boot Fs F -> Prop) E s :
  has_mac (flash s) = true -> (forall o, Q tt (set_os o s)) -> bwp menu_end Q E s.
Proof.
  intros Hm HQ. unfold menu_end, hasMacAddress. bwp_steps. rewrite Hm. cbn [negb bwhen]. bwp_steps.
  apply bwp_fs. intros r o _. bwp_steps. apply bwp_fs. intros r' o' _. bwp_steps. apply (HQ o').
Qed.

(** Five quiet seconds with an address: the menu returns. *)
Lemma menu_quiet fuel (Q : unit -> boot Fs F -> Prop) E s :
  ser_fp s = true -> Z.of_nat (length (info_file firmware)) < NAME_MAX ->
  has_mac (flash s) = true ->
  match rx (line (modem s)) with [] | RxIdle :: _ => True | _ => False end ->
  (forall s', ser_fp s' = true -> same_bytes (flash s) (flash s') -> Q tt s') ->
  bwp (menu (Zs := Zs) fuel) Q E s.
Proof.
  intros Hfp Hn Hm Hq HQ. apply menu_start; [done|]. intros s1 K1 _.
  apply menu_turn; [by rewrite (kept_fp _ _ K1)|done|]. intros l. apply bwp_bind, waitChar_quiet.
  { simpl. by rewrite (kept_modem _ _ K1). }
  intros es. apply menu_end_spec.
  - simpl. by rewrite (has_mac_same (flash s)) by apply K1.
  - intros o. apply HQ; [simpl; by rewrite (kept_fp _ _ K1)|apply K1].
Qed.

(** Opening the port when nothing fails. *)
Lemma openSerial_spec (Q : unit -> boot Fs F -> Prop) E s :
  healthy (os s) -> (forall fd, fdopen_ok fd = true) ->
  (forall fd o, Q tt (set_ser_fp true (set_ser fd (set_os o s)))) -> bwp openSerial Q E s.
Proof.
  intros Hh Hfd HQ. unfold openSerial. apply bwp_bind, bwp_fs. intros fd o E1.
  apply open_device in E1 as (_ & E1 & _). destruct (E1 Hh) as [_ Hpos]. bwp_steps.
  rewrite (proj2 (Z.ltb_ge fd 0)) by lia. cbn [bwhen]. bwp_steps. rewrite Hfd. apply (HQ fd o).
Qed.

Lemma bwp_cleaning (Q : unit -> boot Fs F -> Prop) E s :
  ser_fp s = true ->
  (forall s', flash s' = flash s -> Q tt s') -> bwp cleaning Q E s.
Proof.
  intros Hfp HQ. unfold cleaning. bwp_steps. rewrite Hfp. cbn [negb]. bwp_steps.
  apply bwp_fs. intros r o _. bwp_steps. by apply HQ.
Qed.

End Menu.
