(* ===== verification/BootProps.v ===== *)
(** * The bootloader: its properties

    Lines typed on the port, the MAC address, uploads, the update of the
    firmware from the key to the flash, and the start of the application. *)

From S2P Require Import Prelude.
From S2P Require Import Stdio.
From S2P Require Import Os.
From S2P Require Import OsSim.
From S2P Require Import FirmwareUtil.
From S2P Require Import FirmwareUtilProps.
From S2P Require Import XyzModem.
From S2P Require Import XyzModemFacts.
From S2P Require Import XyzModemProps.
From S2P Require Import Bootloader.
From S2P Require Import BootloaderFacts.
From S2P Require Import BootMac.
From S2P Require Import BootMenu.

Section Claims.
Context `{Board} {Fs F Zs : Type} `{!Posix Fs, !FlashDev F, !Zlib Zs}
  `{!PosixView Fs, !FlashView F, !ZlibView Zs} `{!PosixLaws Fs, !FlashLaws F, !ZlibLaws Zs}.
Implicit Types (s : boot Fs F).

(** C8: [readLine] implements line editing on a list, [edit], for every sequence
    of keys and every array of [maxLen] bytes.  It stores the edited string,
    terminated, takes exactly the keys of the line, and never writes outside
    the array; ctrl-c, an empty line and a line that is too long end in a
    reset; without a return key it waits. *)
Theorem readLine_edits buf maxLen s :
  ser_fp s = true -> Z.of_nat (length buf) = maxLen -> 0 < maxLen ->
  match edit maxLen [] (keys s) with
  | Line str rest => exists buf' s', readLine buf maxLen s = Ret (inr buf', s')
                       /\ cstr buf' = cstr str /\ keys s' = rest
  | Rejected => exists s', readLine buf maxLen s = Ret (inl Reconfigured, s')
  | Unfinished => exists s', readLine buf maxLen s = Ret (inl Waiting, s')
  end.
Proof.
  intros Hfp Hl Hp. pose proof (readLine_spec buf maxLen s Hfp Hl Hp) as Hr. apply bwp_Ret in Hr.
  destruct Hr as [(buf' & s' & E & str & rest & He & Hc & M)|(e & s' & E & _ & He)].
  - rewrite He. exists buf', s'. split_and!; [done..|]. by eapply moved_keys.
  - destruct (edit maxLen [] (keys s)); [done|subst e; eauto..].
Qed.

(** An address printed as twelve digits, in either case, is parsed back. *)
Theorem mac_text_roundtrip mac s :
  length mac = 6%nat -> bytes_ok mac -> ser_fp s = true ->
  transformMacAddress (mjoin (map (fmt_x 2) mac)) s = Ret (inr mac, s)
  /\ transformMacAddress (mjoin (map (fmt_X 2) mac)) s = Ret (inr mac, s).
Proof.
  intros Hl Hb Hfp. 
  assert (forall text : Z -> list Z,
    (forall b, is_byte b -> exists c1 c2, text b = [c1; c2] /\ hexval c1 = Some (b / 16)
                                     /\ hexval c2 = Some (b mod 16)) ->
    transformMacAddress (mjoin (map text mac)) s = Ret (inr mac, s)) as G.
  2: { split; apply G; intros b Hx; by apply fmt_x_digits. }
  intros text Ht.
  assert (length (mjoin (map text mac)) = (2 * length mac)%nat
          /\ exists vs, mapM hexval (mjoin (map text mac)) = Some vs /\ bytes_of vs = mac)
    as (Hlen & vs & Hvs & Hmac).
  { clear Hl. induction Hb as [|b mac Hb Hmac (Hlen & vs & Hvs & IH)]; [by split; [|exists []]|].
    destruct (Ht b Hb) as (c1 & c2 & E & H1 & H2). simpl. rewrite E. simpl. rewrite Hlen.
    split; [lia|]. exists (b / 16 :: b mod 16 :: vs). rewrite H1, H2. simpl. rewrite Hvs. simpl.
    split; [done|]. rewrite IH. f_equal. pose proof (Z_div_mod_eq_full b 16). lia. }
  assert (bwp (transformMacAddress (mjoin (map text mac))) (fun r s' => r = mac /\ s' = s)
            (fun _ _ => False) s) as Hw.
  { apply transform_spec; [done|..].
    - intros vs' _ Hvs'. by simplify_eq.
    - intros [?|?]; [lia|congruence]. }
  apply bwp_Ret in Hw as [(? & ? & E & -> & ->)|(? & ? & _ & [])]. done.
Qed.

(** C7: the menu lets the application start only with a MAC address in flash,
    whatever was typed and whatever calls failed. *)
Theorem menu_requires_mac fuel s u s' :
  menu (Zs := Zs) fuel s = Ret (inr u, s') -> mac_bytes (flash s') <> replicate 6 255.
Proof.
  unfold menu. intros E. do 8 apply bind_returns in E as (? & ? & _ & E).
  apply has_mac_spec. by eapply menu_loop_returns.
Qed.

(** C9: a Y-modem upload is stored.  When a sender is on the line and no call
    of the file system fails, the upload returns, and the file holds what was
    sent, without the padding; the flash is as it was. *)
Theorem ymodemUpload_stores fuel fn c s :
  idle s -> healthy (os s) -> sends (modem s) c -> (length c < fuel)%nat ->
  exists s', ymodemUpload fuel fn s = Ret (inr tt, s') /\ file (os s') fn = Some c
    /\ flash s' = flash s.
Proof.
  intros Hid Hh Hc Hf. pose proof (ymodemUpload_spec fuel fn c s Hid Hh Hc Hf) as Hw.
  apply bwp_Ret in Hw as [([] & s' & E & _ & Hfl & _ & Hfile)|(? & ? & _ & [])]. eauto.
Qed.

(** The upload does not survive an error after data.  When a read delivers
    some bytes and then meets an error before the end of the file, the loop
    reads again, and this read copies a negative number of bytes. *)
Theorem upload_error_undefined k fn ff pos s d e m :
  xyzModem_stream_read cyg_crc16 (WRITE_BUF_SIZE - pos) (modem s) = Ret ((d, Some e), m) ->
  readable (modem s) -> at_eof m = false -> d <> [] -> 0 <= pos ->
  Z.of_nat (length (WRITE_BUF s)) = WRITE_BUF_SIZE ->
  pos + Z.of_nat (length d) <= WRITE_BUF_SIZE - 256 ->
  upload_loop (S (S k)) fn ff pos s = UB.
Proof.
  intros E Hrd Heof Hd Hp Hb Hfit.
  pose proof (stream_read_total cyg_crc16 (WRITE_BUF_SIZE - pos) _ Hrd) as Ht.
  unfold wp in Ht. rewrite E in Ht. destruct Ht as [_ [_ Hlen]].
  assert (0 < length d)%nat by (destruct d; [done|simpl; lia]).
  destruct (store_at_take (WRITE_BUF s) d pos) as (buf' & Es & _ & _);
    [unfold WRITE_BUF_SIZE in *; lia|].
  assert (stream_read pos s
          = Ret (inr (Z.of_nat (length d), Some e), set_WRITE_BUF buf' (set_modem m s))) as E1.
  { unfold stream_read, on_modem, mbind, B_bind, look, upd. rewrite E. simpl. by rewrite Es. }
  cbn [upload_loop]. unfold mbind, B_bind. rewrite E1.
  rewrite (proj2 (Z.ltb_ge _ 0)), (proj2 (Z.eqb_neq (Z.of_nat (length d)) 0)) by lia. cbn [andb orb].
  rewrite (proj2 (Z.ltb_ge (WRITE_BUF_SIZE - 256) _)) by lia. cbn.
  unfold stream_read, on_modem, mbind, B_bind. simpl.
  by rewrite (read_negative_len cyg_crc16) by (done || unfold WRITE_BUF_SIZE in *; lia).
Qed.

(** When the serial port cannot be opened the error path itself fails: the
    reset prints on a stream that does not exist. *)
Theorem openSerial_error_undefined s fd o :
  ser_fp s = false -> os_open UART_0_NAME [O_RDWR; O_SYNC; O_NONBLOCK] (os s) = (fd, o) ->
  fd < 0 \/ fdopen_ok fd = false -> openSerial s = UB.
Proof.
  intros Hfp Ho Hbad. unfold openSerial, mbind, B_bind, on_fs, upd, bwhen, do_act, reset, fprintf, fputs.
  rewrite Ho. unfold mbind, B_bind, look. simpl.
  destruct (Z.ltb_spec fd 0) as [Hlt|Hge]; simpl; [by rewrite Hfp|].
  destruct Hbad as [?| ->]; [lia|]. done.
Qed.

(** C1: an update, from the key to the flash.  With the enter key (the
    firmware) or Y (the bootloader) on the line, followed by a Y-modem sender of
    a firmware file, and no failing call, the program ends in a reset with the
    image of the file in flash at its place; only sectors the image covers have
    changed. *)
Theorem update_key_installs fuel key info c d m s :
  update_key key info -> idle s -> Z.of_nat (length (info_file firmware)) < NAME_MAX ->
  flash_up (flash s) -> healthy (mounted (os s)) -> (inflateInit (Zs := Zs)).1 <> Z_MEM_ERROR ->
  key_waits key s m -> sends m c -> firmware_of (Zs := Zs) info c d ->
  0 < Z.of_nat (length d) < 2147483648 ->
  start_address info + Z.of_nat (length d) + 3 <= EXT_FLASH_SPAN ->
  (1033 * length c < fuel)%nat -> (length d < fuel)%nat ->
  exists s', menu (Zs := Zs) fuel s = Ret (inl Reconfigured, s')
    /\ holds (flash s') (UNCACHED_EXT_FLASH_BASE + start_address info) d
    /\ untouched (flash s) (flash s') (UNCACHED_EXT_FLASH_BASE + start_address info)
         (Z.of_nat (length d)).
Proof.
  intros Hk Hid Hn Hup Hh Hi Hkey Hs Hfw Hlen Hfit Hf1 Hf2.
  assert (start info = UNCACHED_EXT_FLASH_BASE + start_address info) as Hst
    by (by destruct Hk as [[_ ->]|[_ ->]]).
  assert (bwp (menu (Zs := Zs) fuel) (fun _ _ => False)
    (fun e s' => e = Reconfigured /\ holds (flash s') (start info) d
       /\ untouched (flash s) (flash s') (start info) (Z.of_nat (length d))) s) as Hw.
  { eapply menu_key_spec; [apply Hid|done..|]. intros s1 s2 K O ->.
    destruct (menu_key_update (Fs := Fs) (F := F) (Zs := Zs) fuel key info Hk) as [text ->].
    apply bwp_bind, bwp_bind, bwp_fprintf; [simpl; rewrite (kept_fp _ _ K); apply Hid|].
    intros l. eapply bwp_mono; [eapply (update_spec fuel key info c d m s (set_acts l s1))|..]; try done.
    - destruct K. by split.
    - by apply O. }
  apply bwp_Ret in Hw as [(? & ? & _ & [])|(e & s' & E & -> & Hh1 & Hu)]. rewrite Hst in *. eauto.
Qed.

(** C10: the address typed after the key m is stored.  Without an address in
    flash, and no failing call, the menu parses the line, programs the six
    bytes and returns; when the sector ends before the factory image, no byte
    of the image has changed. *)
Theorem mac_key_sets_address fuel key m mac rest s :
  key = 77 \/ key = 109 -> ser_fp s = true -> Z.of_nat (length (info_file firmware)) < NAME_MAX ->
  flash_up (flash s) -> FACTORY_FPGA_OFFSET <= EXT_FLASH_SPAN -> has_mac (flash s) = false ->
  key_waits key s m -> typed_mac (set_modem m s) mac rest -> mac <> replicate 6 255 ->
  exists s', menu (Zs := Zs) fuel s = Ret (inr tt, s') /\ mac_bytes (flash s') = mac
    /\ (sector (F := F) (macAddr + 5) < sector (F := F) (macAddr + 6) ->
        forall x, UNCACHED_EXT_FLASH_BASE + FACTORY_FPGA_OFFSET <= x ->
          flash_byte (flash s') x = flash_byte (flash s) x).
Proof.
  intros Hk Hfp Hn Hup Hspan Hno Hkey Hmac Hff.
  assert (bwp (menu (Zs := Zs) fuel)
    (fun _ s' => mac_bytes (flash s') = mac /\ untouched (flash s) (flash s') macAddr 6)
    (fun _ _ => False) s) as Hw.
  { eapply menu_key_spec; [done..|]. intros s1 s2 K O ->. destruct (O Hup) as [Hw1 _].
    assert (has_mac (flash s1) = false) as Hno1
      by (by rewrite (has_mac_same (flash s)) by apply K).
    assert (menu_key (Fs := Fs) (F := F) (Zs := Zs) fuel 5 key = mret past) as ->
      by (by destruct Hk as [-> | ->]).
    bwp_steps. unfold maybe_change_mac, hasMacAddress. bwp_steps. simpl. rewrite Hno1.
    replace ((key =? 77) || (key =? 109)) with true by (by destruct Hk as [-> | ->]).
    cbn [negb andb bwhen]. eapply bwp_mono.
    - apply changeMac_spec. simpl. by rewrite (kept_fp _ _ K).
    - simpl. intros _ s3 (mac' & rest' & T & Hb & U & _ & _ & _).
      assert (mac' = mac) as ->.
      { destruct T as (l & vs & E1 & _ & E2 & ->), Hmac as (l' & vs' & E1' & _ & E2' & ->).
        unfold keys in *. simpl in *. congruence. }
      apply menu_end_spec; [apply has_mac_spec; congruence|]. intros o. simpl. split; [done|].
      eapply untouched_trans; [apply K|done].
    - simpl. intros e s3 [_ Hnot]. destruct (Hnot Hw1) with mac rest; [|done].
      destruct Hup as [_ Hd]. eapply on_device_sub; [exact Hd|unfold macAddr, FACTORY_FPGA_OFFSET in *; lia..]. }
  apply bwp_Ret in Hw as [([] & s' & E & Hb & U)|(? & ? & _ & [])]. exists s'. split_and!; [done..|].
  intros Hsec x Hx. apply U. unfold touched. apply andb_false_iff. right. apply Z.leb_gt.
  replace (macAddr + 6 - 1) with (macAddr + 5) by lia.
  enough (sector (F := F) (macAddr + 6) <= sector (F := F) x) by lia.
  apply sector_mono. unfold macAddr. lia.
Qed.

(** C11: the start of the application.  From the factory configuration, with an
    address in flash and nothing typed for five seconds, the program loads the
    application configuration: it writes the offset 0x300000, shifted for a
    16-bit flash, to the remote-update block and triggers it.  In the
    application configuration it jumps to the application at once. *)
Theorem main_starts_application fuel s :
  healthy (os s) -> (forall fd, fdopen_ok fd = true) ->
  Z.of_nat (length (info_file firmware)) < NAME_MAX -> has_mac (flash s) = true ->
  match rx (line (modem s)) with [] | RxIdle :: _ => True | _ => False end ->
  exists e s', main (Zs := Zs) fuel s = Ret (inl e, s') /\ same_bytes (flash s) (flash s')
    /\ if remote s 0 =? 0 then
         e = Reconfigured /\ exists l, acts s' = l ++ [Write32 REMOTE_UPDATE_BASE 3 0;
           Write32 REMOTE_UPDATE_BASE 4 0x60000; Write32 REMOTE_UPDATE_BASE 32 1]
       else e = Application.
Proof.
  intros Hh Hfd Hn Hm Hq.
  assert (bwp (main (Zs := Zs) fuel) (fun _ _ => False)
    (fun e s' => same_bytes (flash s) (flash s')
       /\ if remote s 0 =? 0 then
            e = Reconfigured /\ exists l, acts s' = l ++ [Write32 REMOTE_UPDATE_BASE 3 0;
              Write32 REMOTE_UPDATE_BASE 4 0x60000; Write32 REMOTE_UPDATE_BASE 32 1]
          else e = Application) s) as Hw.
  { unfold main. apply bwp_bind, openSerial_spec; [done..|]. intros fd o.
    unfold needReset. bwp_steps. simpl. destruct (remote s 0 =? 0); cbn [bwhen].
    - apply bwp_bind, menu_quiet; [done..|]. intros s1 Hfp1 Hb1.
      apply bwp_bind, bwp_fprintf; [done|]. intros l. apply bwp_bind, bwp_cleaning; [done|].
      intros s2 Hf2. unfold CycloneIIIReconfig, reconfigure, IOWR. simpl in *. bwp_steps.
      simpl. split; [by rewrite Hf2|]. split; [done|]. exists (acts s2). by rewrite <- !app_assoc.
    - bwp_steps. apply bwp_fprintf; [done|]. intros l. apply bwp_bind, bwp_cleaning; [done|].
      intros s2 Hf2. bwp_steps. by rewrite Hf2. }
  apply bwp_Ret in Hw as [(? & ? & _ & [])|(e & s' & E & Hb & He)]. eauto.
Qed.

End Claims.

(** ** Concrete runs *)

#[local] Instance board0 : Board := {
  EXT_FLASH_BASE := 0;
  EXT_FLASH_SPAN := 16777216;
  REMOTE_UPDATE_BASE := 4096;
  UART_0_NAME := codes "/dev/ser0";
  FLASH_BLOCK_DEVICE := "/dev/flash1";
  NAME_MAX := 256;
  build_date := codes "Jan  1 2010";
  build_time := codes "00:00:00";
  fmt_p := fmt_X 8;
  fdopen_ok _ := true;
  malloc_ok _ := true;
  fordblks := 0;
  cyg_crc16 := crc_xmodem;
  io_lookup := 0;
  io_get_config := 0;
  io_set_config := 0
}.

Definition ring_of (es : list rx_event) : ring := mkRing 0 0 (replicate 4096 0) es.

Definition boot0 (f : chip) (es : list rx_event) : boot ramfs chip :=
  mkBoot (mkRamfs ∅ ∅) f (st0 (ring_of es)) 3 true (replicate 4096 0) (fun _ => 0) [].

Lemma ring_of_ok es : ring_ok (ring_of es).
Proof. split; vm_compute; done. Qed.

Lemma boot0_idle f es : idle (boot0 f es).
Proof.
  split; [done|vm_compute; done|apply st0_ok, ring_of_ok|vm_compute; split; discriminate].
Qed.

Definition typed0 : list rx_event := [RxIdle; RxRead [104; 9; 8]; RxRead [105; 13; 77]].

Lemma readLine_edits_witness :
  exists buf' s', readLine (replicate 10 7) 10 (boot0 ∅ typed0) = Ret (inr buf', s')
    /\ cstr buf' = codes "hi" /\ keys s' = [77].
Proof. apply (readLine_edits (replicate 10 7) 10 (boot0 ∅ typed0)); reflexivity. Defined.

Definition mac0 : list Z := [0; 18; 171; 255; 7; 90].

Lemma mac_text_roundtrip_witness :
  transformMacAddress (codes "0012abff075a") (boot0 ∅ []) = Ret (inr mac0, boot0 ∅ [])
  /\ transformMacAddress (codes "0012ABFF075A") (boot0 ∅ []) = Ret (inr mac0, boot0 ∅ []).
Proof.
  apply (mac_text_roundtrip mac0 (boot0 ∅ [])).
  - reflexivity.
  - unfold mac0. repeat constructor; vm_compute; discriminate.
  - reflexivity.
Defined.

Definition chip_mac : chip := {[macAddr := 0]}.

Definition menu_result (f : chip) (es : list rx_event) : boot ramfs chip :=
  match menu (Zs := pass) 10 (boot0 f es) with Ret (_, s') => s' | _ => boot0 f es end.

Lemma menu_requires_mac_witness :
  menu (Zs := pass) 10 (boot0 chip_mac []) = Ret (inr tt, menu_result chip_mac [])
  /\ mac_bytes (flash (menu_result chip_mac [])) <> replicate 6 255.
Proof.
  assert (menu (Zs := pass) 10 (boot0 chip_mac []) = Ret (inr tt, menu_result chip_mac [])) as E
    by (vm_compute; reflexivity).
  split; [exact E|].
  exact (menu_requires_mac (Zs := pass) 10 (boot0 chip_mac []) tt (menu_result chip_mac []) E).
Defined.

(** A firmware file in one block, and the line that carries it. *)
Definition file0 : list Z := lit "ZylinNiosFirmware\n" ++ [7; 8; 9; 0].

Definition block0 : list Z := file0 ++ replicate 106 EOFC.

Definition upload0 : list Z :=
  frame crc_xmodem 0 data1 ++ session crc_xmodem 1 [([], block0)] data1.

Lemma upload0_sends m : wire (line m) = upload0 -> sends m file0.
Proof.
  intros Hw. exists data1, [([], block0)], data1, []. rewrite app_nil_r.
  split_and!; [exact Hw|by left| |by left|vm_compute; reflexivity].
  constructor; [|done]. split_and!; [done|simpl; unfold xyzModem_MAX_RETRIES; lia|by left].
Qed.

Lemma ymodemUpload_stores_witness :
  exists s', ymodemUpload 100 (codes "/ram/x") (boot0 ∅ [RxRead upload0]) = Ret (inr tt, s')
    /\ file (os s') (codes "/ram/x") = Some file0 /\ flash s' = ∅.
Proof.
  apply (ymodemUpload_stores 100 (codes "/ram/x") file0 (boot0 ∅ [RxRead upload0])).
  - apply boot0_idle.
  - done.
  - apply upload0_sends. vm_compute. reflexivity.
  - vm_compute. lia.
Defined.

(** Five bytes of a packet are left, and the line is quiet. *)
Definition boot1 : boot ramfs chip :=
  set_modem (set_len 5 (st0 (ring_of []))) (boot0 ∅ []).

Definition modem1 : st :=
  match xyzModem_stream_read crc_xmodem 4096 (modem boot1) with
  | Ret (_, m) => m
  | _ => modem boot1
  end.

Lemma upload_error_undefined_witness :
  upload_loop 2 (codes "/ram/x") 4 0 boot1 = UB.
Proof.
  apply (upload_error_undefined 0 (codes "/ram/x") 4 0 boot1 (replicate 5 0) xyzModem_timeout modem1).
  - vm_compute. reflexivity.
  - split; [split; [apply ring_of_ok|vm_compute; reflexivity|done|done]|]. vm_compute. repeat split; discriminate.
  - vm_compute. reflexivity.
  - done.
  - lia.
  - vm_compute. reflexivity.
  - vm_compute. discriminate.
Defined.

(** A board on which the port gives no stream. *)
Definition board1 : Board := {|
  EXT_FLASH_BASE := 0; EXT_FLASH_SPAN := 16777216; REMOTE_UPDATE_BASE := 4096;
  UART_0_NAME := codes "/dev/ser0"; FLASH_BLOCK_DEVICE := "/dev/flash1"; NAME_MAX := 256;
  build_date := []; build_time := []; fmt_p := fmt_X 8; fdopen_ok _ := false; malloc_ok _ := true;
  fordblks := 0; cyg_crc16 := crc_xmodem; io_lookup := 0; io_get_config := 0; io_set_config := 0
|}.

Lemma openSerial_error_undefined_witness :
  @openSerial board1 ramfs chip _ (set_ser_fp false (boot0 ∅ [])) = UB.
Proof.
  apply (@openSerial_error_undefined board1 ramfs chip _ (set_ser_fp false (boot0 ∅ [])) 3
           (mkRamfs ∅ {[3 := (codes "/dev/ser0", 0%nat)]})).
  - reflexivity.
  - vm_compute. reflexivity.
  - by right.
Defined.

Definition line_enter : list rx_event := [RxRead (13 :: upload0)].

Definition modem_enter : st := st0 (ring_of [RxRead upload0]).

Definition fuel1 : nat := Z.to_nat 22727.

Lemma fuel1_ok : (1033 * length file0 < fuel1)%nat.
Proof. apply Nat.ltb_lt. vm_compute. reflexivity. Qed.

Lemma file0_firmware : firmware_of (Zs := pass) firmware file0 [7; 8; 9].
Proof.
  exists [7; 8; 9; 0]. split; [vm_compute; reflexivity|]. exists [7; 8; 9; 0]. split; [|done].
  split; [done|]. rewrite !not_elem_of_cons. split_and!; try done. apply not_elem_of_nil.
Qed.

Lemma update_key_installs_witness :
  exists s', menu (Zs := pass) fuel1 (boot0 ∅ line_enter) = Ret (inl Reconfigured, s')
    /\ holds (flash s') (UNCACHED_EXT_FLASH_BASE + APPLICATION_FPGA_OFFSET) [7; 8; 9]
    /\ untouched (F := chip) ∅ (flash s') (UNCACHED_EXT_FLASH_BASE + APPLICATION_FPGA_OFFSET) 3.
Proof.
  apply (update_key_installs (Zs := pass) fuel1 13 firmware file0 [7; 8; 9] modem_enter
           (boot0 ∅ line_enter)).
  - by left.
  - apply boot0_idle.
  - reflexivity.
  - split; [done|]. vm_compute. split; discriminate.
  - done.
  - done.
  - exists upload0, []. split; reflexivity.
  - apply upload0_sends. vm_compute. reflexivity.
  - exact file0_firmware.
  - simpl. lia.
  - vm_compute. discriminate.
  - exact fuel1_ok.
  - apply Nat.ltb_lt. vm_compute. reflexivity.
Defined.

Definition line_mac : list rx_event := [RxRead (109 :: codes "0012abff075a" ++ [13])].

Definition modem_mac : st := st0 (ring_of [RxRead (codes "0012abff075a" ++ [13])]).

Lemma mac_key_sets_address_witness :
  exists s', menu (Zs := pass) 10 (boot0 ∅ line_mac) = Ret (inr tt, s')
    /\ mac_bytes (flash s') = mac0
    /\ (sector (F := chip) (macAddr + 5) < sector (F := chip) (macAddr + 6) ->
        forall x, UNCACHED_EXT_FLASH_BASE + FACTORY_FPGA_OFFSET <= x ->
          flash_byte (flash s') x = flash_byte (F := chip) ∅ x).
Proof.
  apply (mac_key_sets_address (Zs := pass) 10 109 modem_mac mac0 [] (boot0 ∅ line_mac)).
  - by right.
  - reflexivity.
  - reflexivity.
  - split; [done|]. vm_compute. split; discriminate.
  - vm_compute. discriminate.
  - vm_compute. reflexivity.
  - exists (codes "0012abff075a" ++ [13]), []. split; reflexivity.
  - exists (codes "0012abff075a"), [0; 0; 1; 2; 10; 11; 15; 15; 0; 7; 5; 10].
    vm_compute. repeat split.
  - done.
Defined.

Lemma main_starts_application_witness :
  exists e s', main (Zs := pass) 10 (boot0 chip_mac [RxIdle]) = Ret (inl e, s')
    /\ same_bytes chip_mac (flash s')
    /\ e = Reconfigured /\ exists l, acts s' = l ++ [Write32 4096 3 0;
         Write32 4096 4 0x60000; Write32 4096 32 1].
Proof.
  destruct (main_starts_application (Zs := pass) 10 (boot0 chip_mac [RxIdle]))
    as (e & s' & H1 & H2 & H3).
  - done.
  - done.
  - reflexivity.
  - vm_compute. reflexivity.
  - done.
  - exists e, s'. split; [exact H1|]. split; [exact H2|]. destruct H3 as [-> [l Hl]].
    split; [reflexivity|]. exists l. exact Hl.
Defined.
