(* ===== verification/Ring.v ===== *)
(** * Rings of descriptors

    What the drivers of the OpenCores controller share: the flag of a descriptor's
    word, and the positions of a ring. *)

From stdpp Require Import list.
From S2P Require Import Prelude.

(** ** Flags *)

(** Bit 15 is READY in a transmit and EMPTY in a receive descriptor. *)
Abbreviation flag15 ls := (Z.testbit ls 15).

Lemma flag15_lor z v : flag15 (u32 (Z.lor z v)) = flag15 z || flag15 v.
Proof. by rewrite uwrap_testbit, Z.lor_spec by lia. Qed.

Lemma flag15_land z v : flag15 (u32 (Z.land z v)) = flag15 z && flag15 v.
Proof. by rewrite uwrap_testbit, Z.land_spec by lia. Qed.

(** ** Positions of a ring *)

(** The count [c] occupies slot [i] of a ring of [n]. *)
Definition slot (n c : nat) : nat := (c mod n)%nat.

Lemma slot_lt n c : (0 < n)%nat -> (slot n c < n)%nat.
Proof. intros. apply Nat.mod_upper_bound. lia. Qed.

Lemma slot_inj n a c c' :
  (a <= c < a + n)%nat -> (a <= c' < a + n)%nat -> slot n c = slot n c' -> c = c'.
Proof.
  unfold slot. intros H1 H2 H.
  pose proof (Nat.div_mod c n ltac:(lia)). pose proof (Nat.div_mod c' n ltac:(lia)).
  assert (c / n = c' / n)%nat; nia.
Qed.

Lemma slot_succ n c : (0 < n)%nat -> slot n (S c) = ((slot n c + 1) mod n)%nat.
Proof. intros. unfold slot. rewrite Nat.Div0.add_mod_idemp_l. f_equal. lia. Qed.

Lemma slot_wrap n c : (0 < n)%nat -> slot n (c + n) = slot n c.
Proof.
  intros. unfold slot. rewrite <- Nat.Div0.add_mod_idemp_r, Nat.Div0.mod_same. f_equal. lia.
Qed.

(** A slot is free when no count from [a] to [z] occupies it. *)
Definition free (n a z i : nat) : Prop := forall c, (a <= c < z)%nat -> slot n c <> i.

Lemma free_next n a z : (a <= z < a + n)%nat -> free n a z (slot n z).
Proof. intros H c Hc E. apply (slot_inj n a) in E; lia. Qed.

Lemma free_shrink n a a' z i : free n a z i -> (a <= a')%nat -> free n a' z i.
Proof. intros H Ha c Hc. apply H. lia. Qed.

Lemma free_grow n a z i : free n a z i -> i <> slot n z -> free n a (S z) i.
Proof. intros H Hi c Hc. destruct (decide (c = z)) as [->|]; [congruence|]. apply H. lia. Qed.

Lemma free_grow_inv n a z i : free n a (S z) i -> free n a z i.
Proof. intros H c Hc. apply H. lia. Qed.

(** A slot that is not free is occupied by some count. *)
Lemma occupied n a z i : ~ free n a z i -> exists c, (a <= c < z)%nat /\ slot n c = i.
Proof.
  intros H. destruct (decide (Exists (fun c => slot n c = i) (seq a (z - a)))) as [E|E].
  - apply Exists_exists in E as (c & Hc & ?). exists c.
    apply list_elem_of_In, elem_of_seq in Hc. split; [lia|done].
  - exfalso. apply H. intros c Hc Ei. apply E, Exists_exists. exists c. split; [|done].
    apply list_elem_of_In, elem_of_seq. lia.
Qed.
