(* ===== verification/Oeth.v ===== *)
(** * The driver of the OpenCores Ethernet controller
    (packages/devs/eth/opencores/ethermac, if_oeth.c and oeth_info.h)

    The driver and the controller share the registers, a memory of 128 buffer
    descriptors and the buffers.  The controller runs while the driver runs:
    the field [env] of the state lists what it does to the shared memory before
    each of the coming loads of a register or a descriptor, as arbitrary
    functions; [hw_step] in [OethFacts] states what a controller may do.

    A descriptor's address is the array and the index of a buffer.  The network
    stack of eCos is outside the repository: what it is told is the trace [log],
    and the buffers it offers for a received frame are a function of that trace.
    The cache operations, which have no effect on values here, and the output of
    [db_printf], which is compiled out, are left out. *)

From stdpp Require Import functions.
From S2P Require Import Prelude.

(** ** Constants *)

Definition OETH_TX_BD_READY : Z := 32768.
Definition OETH_TX_BD_IRQ : Z := 16384.
Definition OETH_TX_BD_WRAP : Z := 8192.
Definition OETH_TX_BD_PAD : Z := 4096.
Definition OETH_TX_BD_CRC : Z := 2048.
Definition OETH_TX_BD_UNDERRUN : Z := 256.
Definition OETH_TX_BD_RETRY : Z := 240.
Definition OETH_TX_BD_RETLIM : Z := 8.
Definition OETH_TX_BD_LATECOL : Z := 4.
Definition OETH_TX_BD_DEFER : Z := 2.
Definition OETH_TX_BD_CARRIER : Z := 1.

(** The constants of a set of flags. *)
Definition flags (l : list Z) : Z := foldr Z.lor 0 l.

Definition OETH_TX_BD_STATS : Z :=
  flags [OETH_TX_BD_UNDERRUN; OETH_TX_BD_RETRY; OETH_TX_BD_RETLIM; OETH_TX_BD_LATECOL;
         OETH_TX_BD_DEFER; OETH_TX_BD_CARRIER].

Definition OETH_RX_BD_EMPTY : Z := 32768.
Definition OETH_RX_BD_IRQ : Z := 16384.
Definition OETH_RX_BD_WRAP : Z := 8192.
Definition OETH_RX_BD_MISS : Z := 128.
Definition OETH_RX_BD_OVERRUN : Z := 64.
Definition OETH_RX_BD_INVSIMB : Z := 32.
Definition OETH_RX_BD_DRIBBLE : Z := 16.
Definition OETH_RX_BD_TOOLONG : Z := 8.
Definition OETH_RX_BD_SHORT : Z := 4.
Definition OETH_RX_BD_CRCERR : Z := 2.
Definition OETH_RX_BD_LATECOL : Z := 1.

Definition OETH_RX_BD_STATS : Z :=
  flags [OETH_RX_BD_MISS; OETH_RX_BD_OVERRUN; OETH_RX_BD_INVSIMB; OETH_RX_BD_DRIBBLE;
         OETH_RX_BD_TOOLONG; OETH_RX_BD_SHORT; OETH_RX_BD_CRCERR; OETH_RX_BD_LATECOL].

Definition OETH_MODER_RXEN : Z := 1.
Definition OETH_MODER_TXEN : Z := 2.
Definition OETH_MODER_IAM : Z := 16.
Definition OETH_MODER_PRO : Z := 32.
Definition OETH_MODER_IFG : Z := 64.
Definition OETH_MODER_FULLD : Z := 1024.
Definition OETH_MODER_RST : Z := 2048.
Definition OETH_MODER_CRCEN : Z := 8192.
Definition OETH_MODER_HUGEN : Z := 16384.
Definition OETH_MODER_PAD : Z := 32768.

Definition OETH_INT_TXB : Z := 1.
Definition OETH_INT_TXE : Z := 2.
Definition OETH_INT_RXF : Z := 4.
Definition OETH_INT_RXE : Z := 8.
Definition OETH_INT_BUSY : Z := 16.
Definition OETH_INT_TXC : Z := 32.
Definition OETH_INT_RXC : Z := 64.

Definition OETH_MIICOMMAND_RSTAT : Z := 2.
Definition OETH_MIICOMMAND_WCTRLDATA : Z := 4.
Definition OETH_MIISTATUS_BUSY : Z := 2.
Definition OETH_MIISTATUS_NVALID : Z := 4.

Definition OETH_TOTAL_BD : Z := 128.
Definition OETH_MAX_FRAME_SIZE : Z := Z.land (1518 + 7) (Z.lnot 7).
Definition OETH_RX_BUFF_SIZE : Z := OETH_MAX_FRAME_SIZE.
Definition OETH_TX_BUFF_SIZE : Z := OETH_MAX_FRAME_SIZE.
Definition ETH_ZLEN : Z := 60.

Definition CYG_ISR_HANDLED : Z := 1.
Definition CYG_ISR_CALL_DSR : Z := 2.

(** ** Data *)

(** The registers of [oeth_regs]. *)
Inductive oeth_reg :=
| moder | int_src | int_mask | ipgt | ipgr1 | ipgr2 | packet_len | collconf | tx_bd_num
| ctrlmoder | miimoder | miicommand | miiaddress | miitx_data | miirx_data | miistatus
| mac_addr0 | mac_addr1 | hash_addr0 | hash_addr1.

#[global] Instance oeth_reg_eq_dec : EqDecision oeth_reg.
Proof. solve_decision. Defined.

(** The address of a buffer: null, an element of [txbuff] or of [rxbuff]. *)
Inductive bufptr := NoBuf | TxBuf (i : Z) | RxBuf (i : Z).

(** A buffer descriptor. *)
Record oeth_bd := mkBd {
  len_status : Z;  (* length in the upper half, flags in the lower *)
  addr : bufptr  (* buffer address *)
}.

Definition set_len_status (v : Z) (s : oeth_bd) : oeth_bd :=
  mkBd v (addr s).

Definition set_addr (v : bufptr) (s : oeth_bd) : oeth_bd :=
  mkBd (len_status s) v.

(** The statistics, 32-bit counters. *)
Record net_device_stats := mkStats {
  rx_packets : Z;  (* total packets received *)
  tx_packets : Z;  (* total packets transmitted *)
  rx_bytes : Z;
  tx_bytes : Z;
  rx_errors : Z;  (* bad packets received *)
  tx_errors : Z;  (* packet transmit problems *)
  rx_dropped : Z;
  tx_dropped : Z;
  multicast : Z;
  collisions : Z;
  rx_length_errors : Z;
  rx_over_errors : Z;
  rx_crc_errors : Z;  (* with a CRC error *)
  rx_frame_errors : Z;  (* frame alignment error *)
  rx_fifo_errors : Z;
  rx_missed_errors : Z;
  tx_aborted_errors : Z;
  tx_carrier_errors : Z;
  tx_fifo_errors : Z;
  tx_heartbeat_errors : Z;
  tx_window_errors : Z;
  rx_compressed : Z;
  tx_compressed : Z
}.

Definition set_rx_packets (v : Z) (s : net_device_stats) : net_device_stats :=
  mkStats v (tx_packets s) (rx_bytes s) (tx_bytes s) (rx_errors s) (tx_errors s) (rx_dropped
    s) (tx_dropped s) (multicast s) (collisions s) (rx_length_errors s) (rx_over_errors s)
    (rx_crc_errors s) (rx_frame_errors s) (rx_fifo_errors s) (rx_missed_errors s)
    (tx_aborted_errors s) (tx_carrier_errors s) (tx_fifo_errors s) (tx_heartbeat_errors s)
    (tx_window_errors s) (rx_compressed s) (tx_compressed s).

Definition set_tx_packets (v : Z) (s : net_device_stats) : net_device_stats :=
  mkStats (rx_packets s) v (rx_bytes s) (tx_bytes s) (rx_errors s) (tx_errors s) (rx_dropped
    s) (tx_dropped s) (multicast s) (collisions s) (rx_length_errors s) (rx_over_errors s)
    (rx_crc_errors s) (rx_frame_errors s) (rx_fifo_errors s) (rx_missed_errors s)
    (tx_aborted_errors s) (tx_carrier_errors s) (tx_fifo_errors s) (tx_heartbeat_errors s)
    (tx_window_errors s) (rx_compressed s) (tx_compressed s).

Definition set_tx_errors (v : Z) (s : net_device_stats) : net_device_stats :=
  mkStats (rx_packets s) (tx_packets s) (rx_bytes s) (tx_bytes s) (rx_errors s) v (rx_dropped
    s) (tx_dropped s) (multicast s) (collisions s) (rx_length_errors s) (rx_over_errors s)
    (rx_crc_errors s) (rx_frame_errors s) (rx_fifo_errors s) (rx_missed_errors s)
    (tx_aborted_errors s) (tx_carrier_errors s) (tx_fifo_errors s) (tx_heartbeat_errors s)
    (tx_window_errors s) (rx_compressed s) (tx_compressed s).

Definition set_collisions (v : Z) (s : net_device_stats) : net_device_stats :=
  mkStats (rx_packets s) (tx_packets s) (rx_bytes s) (tx_bytes s) (rx_errors s) (tx_errors s)
    (rx_dropped s) (tx_dropped s) (multicast s) v (rx_length_errors s) (rx_over_errors s)
    (rx_crc_errors s) (rx_frame_errors s) (rx_fifo_errors s) (rx_missed_errors s)
    (tx_aborted_errors s) (tx_carrier_errors s) (tx_fifo_errors s) (tx_heartbeat_errors s)
    (tx_window_errors s) (rx_compressed s) (tx_compressed s).

Definition set_rx_length_errors (v : Z) (s : net_device_stats) : net_device_stats :=
  mkStats (rx_packets s) (tx_packets s) (rx_bytes s) (tx_bytes s) (rx_errors s) (tx_errors s)
    (rx_dropped s) (tx_dropped s) (multicast s) (collisions s) v (rx_over_errors s)
    (rx_crc_errors s) (rx_frame_errors s) (rx_fifo_errors s) (rx_missed_errors s)
    (tx_aborted_errors s) (tx_carrier_errors s) (tx_fifo_errors s) (tx_heartbeat_errors s)
    (tx_window_errors s) (rx_compressed s) (tx_compressed s).

Definition set_rx_crc_errors (v : Z) (s : net_device_stats) : net_device_stats :=
  mkStats (rx_packets s) (tx_packets s) (rx_bytes s) (tx_bytes s) (rx_errors s) (tx_errors s)
    (rx_dropped s) (tx_dropped s) (multicast s) (collisions s) (rx_length_errors s)
    (rx_over_errors s) v (rx_frame_errors s) (rx_fifo_errors s) (rx_missed_errors s)
    (tx_aborted_errors s) (tx_carrier_errors s) (tx_fifo_errors s) (tx_heartbeat_errors s)
    (tx_window_errors s) (rx_compressed s) (tx_compressed s).

Definition set_rx_frame_errors (v : Z) (s : net_device_stats) : net_device_stats :=
  mkStats (rx_packets s) (tx_packets s) (rx_bytes s) (tx_bytes s) (rx_errors s) (tx_errors s)
    (rx_dropped s) (tx_dropped s) (multicast s) (collisions s) (rx_length_errors s)
    (rx_over_errors s) (rx_crc_errors s) v (rx_fifo_errors s) (rx_missed_errors s)
    (tx_aborted_errors s) (tx_carrier_errors s) (tx_fifo_errors s) (tx_heartbeat_errors s)
    (tx_window_errors s) (rx_compressed s) (tx_compressed s).

Definition set_tx_aborted_errors (v : Z) (s : net_device_stats) : net_device_stats :=
  mkStats (rx_packets s) (tx_packets s) (rx_bytes s) (tx_bytes s) (rx_errors s) (tx_errors s)
    (rx_dropped s) (tx_dropped s) (multicast s) (collisions s) (rx_length_errors s)
    (rx_over_errors s) (rx_crc_errors s) (rx_frame_errors s) (rx_fifo_errors s)
    (rx_missed_errors s) v (tx_carrier_errors s) (tx_fifo_errors s) (tx_heartbeat_errors s)
    (tx_window_errors s) (rx_compressed s) (tx_compressed s).

Definition set_tx_carrier_errors (v : Z) (s : net_device_stats) : net_device_stats :=
  mkStats (rx_packets s) (tx_packets s) (rx_bytes s) (tx_bytes s) (rx_errors s) (tx_errors s)
    (rx_dropped s) (tx_dropped s) (multicast s) (collisions s) (rx_length_errors s)
    (rx_over_errors s) (rx_crc_errors s) (rx_frame_errors s) (rx_fifo_errors s)
    (rx_missed_errors s) (tx_aborted_errors s) v (tx_fifo_errors s) (tx_heartbeat_errors s)
    (tx_window_errors s) (rx_compressed s) (tx_compressed s).

Definition set_tx_fifo_errors (v : Z) (s : net_device_stats) : net_device_stats :=
  mkStats (rx_packets s) (tx_packets s) (rx_bytes s) (tx_bytes s) (rx_errors s) (tx_errors s)
    (rx_dropped s) (tx_dropped s) (multicast s) (collisions s) (rx_length_errors s)
    (rx_over_errors s) (rx_crc_errors s) (rx_frame_errors s) (rx_fifo_errors s)
    (rx_missed_errors s) (tx_aborted_errors s) (tx_carrier_errors s) v (tx_heartbeat_errors s)
    (tx_window_errors s) (rx_compressed s) (tx_compressed s).

Definition set_tx_window_errors (v : Z) (s : net_device_stats) : net_device_stats :=
  mkStats (rx_packets s) (tx_packets s) (rx_bytes s) (tx_bytes s) (rx_errors s) (tx_errors s)
    (rx_dropped s) (tx_dropped s) (multicast s) (collisions s) (rx_length_errors s)
    (rx_over_errors s) (rx_crc_errors s) (rx_frame_errors s) (rx_fifo_errors s)
    (rx_missed_errors s) (tx_aborted_errors s) (tx_carrier_errors s) (tx_fifo_errors s)
    (tx_heartbeat_errors s) v (rx_compressed s) (tx_compressed s).

(** The structure [oeth_private]: the rings. *)
Record oeth_private := mkPriv {
  tx_next : Z;  (* next buffer to be sent *)
  tx_last : Z;  (* next buffer to be checked if packet sent *)
  tx_full : Z;  (* buffer ring full indicator *)
  rx_cur : Z;  (* next buffer to be checked if packet received *)
  regs_base : Z;  (* address of the registers *)
  rx_bd_base : Z;  (* index of the first receive descriptor *)
  tx_bd_base : Z;  (* index of the first transmit descriptor *)
  irq : Z;
  tx_keys : list Z;  (* remember tx keys *)
  stats : net_device_stats
}.

Definition set_tx_next (v : Z) (s : oeth_private) : oeth_private :=
  mkPriv v (tx_last s) (tx_full s) (rx_cur s) (regs_base s) (rx_bd_base s) (tx_bd_base s) (irq
    s) (tx_keys s) (stats s).

Definition set_tx_last (v : Z) (s : oeth_private) : oeth_private :=
  mkPriv (tx_next s) v (tx_full s) (rx_cur s) (regs_base s) (rx_bd_base s) (tx_bd_base s) (irq
    s) (tx_keys s) (stats s).

Definition set_tx_full (v : Z) (s : oeth_private) : oeth_private :=
  mkPriv (tx_next s) (tx_last s) v (rx_cur s) (regs_base s) (rx_bd_base s) (tx_bd_base s) (irq
    s) (tx_keys s) (stats s).

Definition set_rx_cur (v : Z) (s : oeth_private) : oeth_private :=
  mkPriv (tx_next s) (tx_last s) (tx_full s) v (regs_base s) (rx_bd_base s) (tx_bd_base s)
    (irq s) (tx_keys s) (stats s).

Definition set_regs_base (v : Z) (s : oeth_private) : oeth_private :=
  mkPriv (tx_next s) (tx_last s) (tx_full s) (rx_cur s) v (rx_bd_base s) (tx_bd_base s) (irq
    s) (tx_keys s) (stats s).

Definition set_rx_bd_base (v : Z) (s : oeth_private) : oeth_private :=
  mkPriv (tx_next s) (tx_last s) (tx_full s) (rx_cur s) (regs_base s) v (tx_bd_base s) (irq s)
    (tx_keys s) (stats s).

Definition set_tx_bd_base (v : Z) (s : oeth_private) : oeth_private :=
  mkPriv (tx_next s) (tx_last s) (tx_full s) (rx_cur s) (regs_base s) (rx_bd_base s) v (irq s)
    (tx_keys s) (stats s).

Definition set_irq (v : Z) (s : oeth_private) : oeth_private :=
  mkPriv (tx_next s) (tx_last s) (tx_full s) (rx_cur s) (regs_base s) (rx_bd_base s)
    (tx_bd_base s) v (tx_keys s) (stats s).

Definition set_tx_keys (v : list Z) (s : oeth_private) : oeth_private :=
  mkPriv (tx_next s) (tx_last s) (tx_full s) (rx_cur s) (regs_base s) (rx_bd_base s)
    (tx_bd_base s) (irq s) v (stats s).

Definition set_stats (v : net_device_stats) (s : oeth_private) : oeth_private :=
  mkPriv (tx_next s) (tx_last s) (tx_full s) (rx_cur s) (regs_base s) (rx_bd_base s)
    (tx_bd_base s) (irq s) (tx_keys s) v.

(** The structure [oeth_info]; the interrupt objects are handles of the kernel. *)
Record oeth_info := mkInfo {
  cep : oeth_private;
  found : bool;  (* was hardware discovered? *)
  active : bool;  (* has this if been brung up? *)
  multicast_all : bool;
  promisc : bool;
  dev_addr : list Z;
  idx : Z
}.

Definition set_cep (v : oeth_private) (s : oeth_info) : oeth_info :=
  mkInfo v (found s) (active s) (multicast_all s) (promisc s) (dev_addr s) (idx s).

Definition set_found (v : bool) (s : oeth_info) : oeth_info :=
  mkInfo (cep s) v (active s) (multicast_all s) (promisc s) (dev_addr s) (idx s).

Definition set_active (v : bool) (s : oeth_info) : oeth_info :=
  mkInfo (cep s) (found s) v (multicast_all s) (promisc s) (dev_addr s) (idx s).

Definition set_multicast_all (v : bool) (s : oeth_info) : oeth_info :=
  mkInfo (cep s) (found s) (active s) v (promisc s) (dev_addr s) (idx s).

Definition set_promisc (v : bool) (s : oeth_info) : oeth_info :=
  mkInfo (cep s) (found s) (active s) (multicast_all s) v (dev_addr s) (idx s).

Definition set_dev_addr (v : list Z) (s : oeth_info) : oeth_info :=
  mkInfo (cep s) (found s) (active s) (multicast_all s) (promisc s) v (idx s).

Definition set_idx (v : Z) (s : oeth_info) : oeth_info :=
  mkInfo (cep s) (found s) (active s) (multicast_all s) (promisc s) (dev_addr s) v.

(** What the driver shares with the controller: registers, descriptors, buffers.
    The last four fields are the controller's own; no code of the driver uses them. *)
Record board := mkBoard {
  regs : oeth_reg -> Z;  (* the registers *)
  bds : list oeth_bd;  (* the descriptor memory *)
  txbuff : list (list Z);
  rxbuff : list (list Z);
  tx_pos : nat;  (* the transmit descriptor the controller reads next *)
  rx_pos : nat;  (* the receive descriptor it fills next *)
  wire : list (list Z);  (* frames the controller has put on the wire *)
  heard : list (Z * list Z)  (* frames it has stored, with their status *)
}.

Definition set_regs (v : oeth_reg -> Z) (s : board) : board :=
  mkBoard v (bds s) (txbuff s) (rxbuff s) (tx_pos s) (rx_pos s) (wire s) (heard s).

Definition set_bds (v : list oeth_bd) (s : board) : board :=
  mkBoard (regs s) v (txbuff s) (rxbuff s) (tx_pos s) (rx_pos s) (wire s) (heard s).

Definition set_txbuff (v : list (list Z)) (s : board) : board :=
  mkBoard (regs s) (bds s) v (rxbuff s) (tx_pos s) (rx_pos s) (wire s) (heard s).

Definition set_rxbuff (v : list (list Z)) (s : board) : board :=
  mkBoard (regs s) (bds s) (txbuff s) v (tx_pos s) (rx_pos s) (wire s) (heard s).

Definition set_tx_pos (v : nat) (s : board) : board :=
  mkBoard (regs s) (bds s) (txbuff s) (rxbuff s) v (rx_pos s) (wire s) (heard s).

Definition set_rx_pos (v : nat) (s : board) : board :=
  mkBoard (regs s) (bds s) (txbuff s) (rxbuff s) (tx_pos s) v (wire s) (heard s).

Definition set_wire (v : list (list Z)) (s : board) : board :=
  mkBoard (regs s) (bds s) (txbuff s) (rxbuff s) (tx_pos s) (rx_pos s) v (heard s).

Definition set_heard (v : list (Z * list Z)) (s : board) : board :=
  mkBoard (regs s) (bds s) (txbuff s) (rxbuff s) (tx_pos s) (rx_pos s) (wire s) v.

(** Calls out of the driver: the kernel's interrupt objects, the network stack,
    and messages. *)
Inductive event :=
| IrqCreate (v : Z) | IrqAttach | IrqAck (v : Z) | IrqMask (v : Z) | IrqUnmask (v : Z)
| IrqDelete
| Dsr                                         (* eth_drv_dsr *)
| StackInit (addr : list Z)                   (* init *)
| TxDone (key : Z)                            (* tx_done, with status 0 *)
| Recv (total_len : Z) (chunks : list (list Z)) (* recv, what its buffers got *)
| NotRecv (total_len : Z)                     (* recv, no buffers *)
| Diag (message : string).

(** The state of the driver. *)
Record st := mkSt {
  oi : oeth_info;
  macaddr : list Z;  (* the static copy of the address *)
  dev : board;
  env : list (board -> board);  (* what the controller does at the coming loads *)
  log : list event  (* calls out of the driver, newest last *)
}.

Definition set_oi (v : oeth_info) (s : st) : st :=
  mkSt v (macaddr s) (dev s) (env s) (log s).

Definition set_macaddr (v : list Z) (s : st) : st :=
  mkSt (oi s) v (dev s) (env s) (log s).

Definition set_dev (v : board) (s : st) : st :=
  mkSt (oi s) (macaddr s) v (env s) (log s).

Definition set_env (v : list (board -> board)) (s : st) : st :=
  mkSt (oi s) (macaddr s) (dev s) v (log s).

Definition set_log (v : list event) (s : st) : st :=
  mkSt (oi s) (macaddr s) (dev s) (env s) v.

Definition upd_cep (f : oeth_private -> oeth_private) (s : st) : st :=
  set_oi (set_cep (f (cep (oi s))) (oi s)) s.

Definition upd_dev (f : board -> board) (s : st) : st := set_dev (f (dev s)) s.

Definition upd_stats (f : net_device_stats -> net_device_stats) : st -> st :=
  upd_cep (fun c => set_stats (f (stats c)) c).

(** The size of the rings and of a cache line are configuration; [eth_drv_recv]
    is the stack's choice of buffers (is it a null pointer, its length), or that
    it does not ask for the frame. *)
Class OethConfig := {
  OETH_TXBD_NUM : Z;
  OETH_RXBD_NUM : Z;
  HAL_DCACHE_LINE_SIZE : Z;
  eth_drv_recv : list event -> Z -> option (list (bool * Z));
}.

(** ** Access to the shared memory *)

(** The controller acts before a load. *)
Definition hw : M st unit := fun s =>
  match env s with
  | [] => Ret (tt, s)
  | f :: e => Ret (tt, set_env e (upd_dev f s))
  end.

Definition emit (e : event) : M st unit := modify (fun s => set_log (log s ++ [e]) s).

Definition diag_printf (message : string) : M st unit := emit (Diag message).

Definition OETH_REGLOAD (r : oeth_reg) : M st Z := hw;; gets (fun s => regs (dev s) r).

(** Writing ones to the interrupt source register clears them. *)
Definition reg_write (r : oeth_reg) (v : Z) (b : board) : board :=
  let v' := if decide (r = int_src) then Z.land (regs b r) (Z.lnot v) else u32 v in
  set_regs (<[r := v']> (regs b)) b.

Definition OETH_REGSAVE (r : oeth_reg) (v : Z) : M st unit := modify (upd_dev (reg_write r v)).

Definition OETH_REGORIN (r : oeth_reg) (v : Z) : M st unit :=
  va ← OETH_REGLOAD r; OETH_REGSAVE r (Z.lor va v).

Definition OETH_REGANDIN (r : oeth_reg) (v : Z) : M st unit :=
  va ← OETH_REGLOAD r; OETH_REGSAVE r (Z.land va v).

(** The same for the descriptor at [bdp], an index. *)
Definition bd_at (bdp : Z) : M st oeth_bd := fun s =>
  match bds (dev s) !! Z.to_nat bdp with
  | Some bd => Ret (bd, s)
  | None => UB
  end.

Definition bd_put (bdp : Z) (bd : oeth_bd) (b : board) : board :=
  set_bds (<[Z.to_nat bdp := bd]> (bds b)) b.

Definition bd_load (bdp : Z) : M st Z := hw;; bd ← bd_at bdp; mret (len_status bd).

Definition bd_load_addr (bdp : Z) : M st bufptr := hw;; bd ← bd_at bdp; mret (addr bd).

Definition bd_save (bdp v : Z) : M st unit :=
  bd ← bd_at bdp; modify (upd_dev (bd_put bdp (set_len_status (u32 v) bd))).

Definition bd_save_addr (bdp : Z) (p : bufptr) : M st unit :=
  bd ← bd_at bdp; modify (upd_dev (bd_put bdp (set_addr p bd))).

Definition bd_orin (bdp v : Z) : M st unit := va ← bd_load bdp; bd_save bdp (Z.lor va v).

Definition bd_andin (bdp v : Z) : M st unit := va ← bd_load bdp; bd_save bdp (Z.land va v).

(** Buffers: [None] is an access outside them. *)
Definition buffer_at (p : bufptr) (b : board) : option (list Z) :=
  match p with
  | NoBuf => None
  | TxBuf i => txbuff b !! Z.to_nat i
  | RxBuf i => rxbuff b !! Z.to_nat i
  end.

Definition buffer_put (p : bufptr) (buf : list Z) (b : board) : board :=
  match p with
  | NoBuf => b
  | TxBuf i => set_txbuff (<[Z.to_nat i := buf]> (txbuff b)) b
  | RxBuf i => set_rxbuff (<[Z.to_nat i := buf]> (rxbuff b)) b
  end.

(** [memcpy] into a buffer at offset [off]. *)
Definition copy_in (p : bufptr) (off : Z) (d : list Z) : M st unit := fun s =>
  match buffer_at p (dev s) with
  | Some buf =>
      if off + Z.of_nat (length d) <=? Z.of_nat (length buf) then
        Ret (tt, upd_dev (buffer_put p (take (Z.to_nat off) buf ++ d ++
                                        drop (Z.to_nat off + length d) buf)) s)
      else UB
  | None => UB
  end.

(** [memcpy] of [n] bytes out of a buffer at offset [off]. *)
Definition copy_from (p : bufptr) (off n : Z) : M st (list Z) := fun s =>
  match buffer_at p (dev s) with
  | Some buf =>
      if (0 <=? n) && (off + n <=? Z.of_nat (length buf)) then
        Ret (take (Z.to_nat n) (drop (Z.to_nat off) buf), s)
      else UB
  | None => UB
  end.

(** A loop [for (i = a; i < a + n; i++)]. *)
Fixpoint for_range (n : nat) (a : Z) (body : Z -> M st unit) : M st unit :=
  match n with
  | O => mret tt
  | S k => body a;; for_range k (a + 1) body
  end.

Section Driver.
Context {conf : OethConfig}.

(** The size of an element of [rxbuff] and [txbuff]. *)
Definition ROUND_UP_BUF_SIZE (a : Z) : Z :=
  (a + HAL_DCACHE_LINE_SIZE - 1) / HAL_DCACHE_LINE_SIZE * HAL_DCACHE_LINE_SIZE.

Definition the_cep : M st oeth_private := gets (fun s => cep (oi s)).

Definition cep_set (f : oeth_private -> oeth_private) : M st unit := modify (upd_cep f).

Definition bump (f : net_device_stats -> net_device_stats) : M st unit := modify (upd_stats f).

(** ** Starting and stopping *)

Definition openeth_stop : M st unit :=
  c ← the_cep;
  emit IrqDelete;;
  OETH_REGANDIN moder (Z.lnot (Z.lor OETH_MODER_RXEN OETH_MODER_TXEN));;
  for_range (Z.to_nat OETH_RXBD_NUM) 0 (fun i =>
    bd_andin (rx_bd_base c + i) (Z.lnot (Z.lor OETH_RX_BD_STATS OETH_RX_BD_EMPTY)));;
  for_range (Z.to_nat OETH_TXBD_NUM) 0 (fun i =>
    bd_andin (tx_bd_base c + i) (Z.lnot (Z.lor OETH_TX_BD_STATS OETH_TX_BD_READY)));;
  cep_set (fun c => set_tx_keys (map (fun _ => 0) (tx_keys c)) c);;
  modify (fun s => set_oi (set_active false (oi s)) s).

Definition reset_rings : M st unit :=
  cep_set (set_rx_cur 0);; cep_set (set_tx_next 0);; cep_set (set_tx_last 0);;
  cep_set (set_tx_full 0).

Definition openeth_start : M st unit :=
  a ← gets (fun s => active (oi s));
  when a openeth_stop;;
  c ← the_cep;
  emit (IrqCreate (irq c));;
  emit IrqAttach;;
  emit (IrqAck (irq c));;
  emit (IrqUnmask (irq c));;
  modify (fun s => set_oi (set_active true (oi s)) s);;
  reset_rings;;
  for_range (Z.to_nat OETH_RXBD_NUM) 0 (fun i => bd_orin (rx_bd_base c + i) OETH_RX_BD_EMPTY);;
  OETH_REGORIN moder (Z.lor OETH_MODER_RXEN (if OETH_TXBD_NUM >? 1 then OETH_MODER_TXEN else 0)).

(** ** Interrupts *)

Definition eth_isr : M st Z :=
  int_events ← OETH_REGLOAD int_src;
  OETH_REGSAVE int_src int_events;;
  let on f := ctrue (Z.land int_events f) in
  let calldsr := if on (Z.lor OETH_INT_RXF OETH_INT_RXE) then CYG_ISR_CALL_DSR else 0 in
  let calldsr := if on (Z.lor OETH_INT_TXB OETH_INT_TXE) then CYG_ISR_CALL_DSR else calldsr in
  let calldsr := if on OETH_INT_BUSY then CYG_ISR_CALL_DSR else calldsr in
  c ← the_cep;
  emit (IrqAck (irq c));;
  when (ctrue calldsr) (emit (IrqMask (irq c)));;
  mret (Z.lor CYG_ISR_HANDLED calldsr).

Definition eth_dsr : M st unit := emit Dsr.

(** ** Transmission *)

(** The statistics of a frame that was sent. *)
Definition tx_account (status : Z) : M st unit :=
  let on f := ctrue (Z.land status f) in
  when (on OETH_TX_BD_LATECOL)
    (bump (fun t => set_tx_window_errors (u32 (tx_window_errors t + 1)) t));;
  when (on OETH_TX_BD_RETLIM)
    (bump (fun t => set_tx_aborted_errors (u32 (tx_aborted_errors t + 1)) t));;
  when (on OETH_TX_BD_UNDERRUN)
    (bump (fun t => set_tx_fifo_errors (u32 (tx_fifo_errors t + 1)) t));;
  when (on OETH_TX_BD_CARRIER)
    (bump (fun t => set_tx_carrier_errors (u32 (tx_carrier_errors t + 1)) t));;
  when (on (flags [OETH_TX_BD_LATECOL; OETH_TX_BD_RETLIM; OETH_TX_BD_UNDERRUN]))
    (bump (fun t => set_tx_errors (u32 (tx_errors t + 1)) t));;
  bump (fun t => set_tx_packets (u32 (tx_packets t + 1)) t);;
  bump (fun t => set_collisions (u32 (collisions t + Z.land (Z.shiftr status 4) 15)) t).

Fixpoint oeth_tx_loop (fuel : nat) : M st unit :=
  match fuel with
  | O => no_fuel
  | S k =>
      c ← the_cep;
      status ← bd_load (tx_bd_base c + tx_last c);
      if ctrue (Z.land status OETH_TX_BD_READY)
         || ((tx_last c =? tx_next c) && negb (ctrue (tx_full c))) then mret tt
      else
        tx_account status;;
        when (ctrue (tx_full c)) (cep_set (set_tx_full 0));;
        cep_set (fun c => set_tx_last ((tx_last c + 1) mod OETH_TXBD_NUM) c);;
        oeth_tx_loop k
  end.

(** Every turn takes a frame out of the ring. *)
Definition oeth_tx : M st unit := oeth_tx_loop (S (Z.to_nat OETH_TXBD_NUM)).

(** Passes the keys of sent frames up the stack. *)
Definition report_key (i : Z) : M st unit :=
  c ← the_cep;
  status ← bd_load (tx_bd_base c + i);
  match tx_keys c !! Z.to_nat i with
  | None => undef
  | Some k =>
      when (ctrue k && negb (ctrue (Z.land status OETH_TX_BD_READY)))
        (cep_set (fun c => set_tx_keys (<[Z.to_nat i := 0]> (tx_keys c)) c);;
         emit (TxDone k))
  end.

Definition oeth_txdone : M st unit :=
  oeth_tx;;
  for_range (Z.to_nat OETH_TXBD_NUM) 0 report_key.

Definition openeth_can_send : M st Z :=
  c ← the_cep; mret (if ctrue (tx_full c) then 0 else 1).

(** The pieces of a frame are copied one after the other; the result is the
    number of bytes. *)
Fixpoint copy_pieces (p : bufptr) (ec : Z) (sg_list : list (list Z)) : M st Z :=
  match sg_list with
  | [] => mret ec
  | d :: rest => copy_in p ec d;; copy_pieces p (ec + Z.of_nat (length d)) rest
  end.

(** The frame is put into the ring and handed to the controller. *)
Definition send_frame (bdp : Z) (sg_list : list (list Z)) (total_len : Z) : M st unit :=
  to_addr ← bd_load_addr bdp;
  ec ← copy_pieces to_addr 0 sg_list;
  when (negb (ec =? total_len)) (diag_printf "openeth: packet length wrong!.");;
  status ← bd_load bdp;
  bd_save bdp (Z.lor (Z.land status 65535) (Z.shiftl total_len 16));;
  cep_set (fun c => set_tx_next (u32 (tx_next c + 1)) c);;
  c ← the_cep;
  when (tx_next c >=? OETH_TXBD_NUM) (cep_set (set_tx_next 0));;
  c ← the_cep;
  when (tx_next c =? tx_last c) (cep_set (set_tx_full 1));;
  when (OETH_TXBD_NUM =? 1) (OETH_REGANDIN moder (Z.lnot OETH_MODER_TXEN));;
  bd_orin bdp (flags [OETH_TX_BD_READY; OETH_TX_BD_IRQ; OETH_TX_BD_CRC]);;
  when (OETH_TXBD_NUM =? 1) (OETH_REGORIN moder OETH_MODER_TXEN).

Definition openeth_send (sg_list : list (list Z)) (total_len key : Z) : M st unit :=
  c ← the_cep;
  let bdp := tx_bd_base c + tx_next c in
  if Z.of_nat (length (tx_keys c)) <=? tx_next c then undef else
  cep_set (fun c => set_tx_keys (<[Z.to_nat (tx_next c) := u32 key]> (tx_keys c)) c);;
  status ← bd_load bdp;
  if ctrue (Z.land OETH_TX_BD_READY status) then diag_printf "openeth: tx counter mismatch!."
  else if ctrue (tx_full c) then diag_printf "openeth: tx queue full!."
  else
    bd_andin bdp (Z.lnot OETH_TX_BD_STATS);;
    (if total_len <=? ETH_ZLEN then bd_orin bdp OETH_TX_BD_PAD
     else bd_andin bdp (Z.lnot OETH_TX_BD_PAD));;
    if total_len >? OETH_TX_BUFF_SIZE then diag_printf "openeth: tx frame too long!."
    else send_frame bdp sg_list total_len.

(** ** Reception *)

Definition packetLength (status : Z) : Z := Z.shiftr (s32 status) 16.

(** The frame is scattered over the buffers of the stack; [None] is the return
    when a buffer is missing. *)
Fixpoint scatter_out (from_addr : bufptr) (off pkt_len : Z) (sg_list : list (bool * Z))
    : M st (list (list Z) * option Z) :=
  match sg_list with
  | [] => mret ([], Some pkt_len)
  | (null, len) :: rest =>
      if null || (len <=? 0) then mret ([], None)
      else
        let len := if len >? pkt_len then pkt_len else len in
        d ← copy_from from_addr off len;
        r ← scatter_out from_addr (off + len) (pkt_len - len) rest;
        mret (d :: r.1, r.2)
  end.

Definition openeth_recv (sg_list : list (bool * Z)) : M st (list (list Z)) :=
  c ← the_cep;
  let bdp := rx_bd_base c + rx_cur c in
  status ← bd_load bdp;
  from ← bd_load_addr bdp;
  r ← scatter_out from 0 (packetLength status) sg_list;
  match r.2 with
  | None => mret r.1
  | Some pkt_len =>
      when (0 <? pkt_len) (diag_printf "oeth: sglist: not all data received");;
      bump (fun t => set_rx_packets (u32 (rx_packets t + 1)) t);;
      mret r.1
  end.

(** The call up the stack, which asks for the frame. *)
Definition stack_recv (pkt_len : Z) : M st unit :=
  h ← gets log;
  match eth_drv_recv h pkt_len with
  | None => emit (NotRecv pkt_len)
  | Some sg_list => chunks ← openeth_recv sg_list; emit (Recv pkt_len chunks)
  end.

Definition rx_error (cond : bool) (message : string)
    (f : net_device_stats -> net_device_stats) : M st unit :=
  when cond (diag_printf message;; bump f).

Definition count_length (t : net_device_stats) : net_device_stats :=
  set_rx_length_errors (u32 (rx_length_errors t + 1)) t.

Definition count_frame (t : net_device_stats) : net_device_stats :=
  set_rx_frame_errors (u32 (rx_frame_errors t + 1)) t.

Definition count_crc (t : net_device_stats) : net_device_stats :=
  set_rx_crc_errors (u32 (rx_crc_errors t + 1)) t.

(** Checks the status for errors; the result is the new value of [bad]. *)
Definition rx_check (bad : bool) (status : Z) : M st bool :=
  let on f := ctrue (Z.land status f) in
  let e1 := on (Z.lor OETH_RX_BD_TOOLONG OETH_RX_BD_SHORT) in
  rx_error e1 "openeth: length error" count_length;;
  let e2 := on OETH_RX_BD_DRIBBLE in
  rx_error e2 "openeth: dribble error" count_frame;;
  let e3 := on OETH_RX_BD_CRCERR in
  rx_error e3 "openeth: crc error" count_crc;;
  let e4 := on OETH_RX_BD_OVERRUN in
  rx_error e4 "openeth: overrun error. Length %d" count_crc;;
  let e5 := on OETH_RX_BD_LATECOL in
  rx_error e5 "openeth: latecol error" count_frame;;
  let bad := bad || e1 || e2 || e3 || e4 || e5 in
  let e6 := negb bad && (packetLength status <? 64) in
  rx_error e6 "openeth: manual discard error" count_crc;;
  let e7 := on OETH_RX_BD_MISS in
  rx_error e7 "openeth: miss error" count_crc;;
  mret (bad || e6 || e7).

Fixpoint rxready_loop (fuel : nat) (bad : bool) : M st unit :=
  match fuel with
  | O => no_fuel
  | S k =>
      c ← the_cep;
      let bdp := rx_bd_base c + rx_cur c in
      status ← bd_load bdp;
      if ctrue (Z.land status OETH_RX_BD_EMPTY) then mret tt
      else
        bad ← rx_check bad status;
        unless bad (stack_recv (packetLength status));;
        cep_set (fun c => set_rx_cur (u32 (rx_cur c + 1)) c);;
        c ← the_cep;
        when (rx_cur c >=? OETH_RXBD_NUM) (cep_set (set_rx_cur 0));;
        c ← the_cep;
        bd_save bdp (flags [OETH_RX_BD_EMPTY; OETH_RX_BD_IRQ;
                            if rx_cur c =? 0 then OETH_RX_BD_WRAP else 0]);;
        rxready_loop k bad
  end.

(** A turn takes a frame out of the ring; the controller can add frames only at
    the loads that are left in [env]. *)
Definition openeth_rxready : M st unit :=
  n ← gets (fun s => length (env s));
  rxready_loop (S (n + Z.to_nat OETH_RXBD_NUM)) false.

Definition openeth_deliver : M st unit :=
  openeth_rxready;;
  oeth_txdone;;
  c ← the_cep;
  emit (IrqUnmask (irq c)).

Definition openeth_poll : M st unit :=
  _ ← eth_isr;
  openeth_deliver.

Definition openeth_int_vector : M st Z := c ← the_cep; mret (irq c).

(** ** Addresses and filters *)

Definition eth_get_mac_address : M st (Z * list Z) :=
  m1 ← OETH_REGLOAD mac_addr1;
  m0 ← OETH_REGLOAD mac_addr0;
  mret (0, [Z.land (Z.shiftr m1 8) 255; Z.land (Z.shiftr m1 0) 255;
            Z.land (Z.shiftr m0 24) 255; Z.land (Z.shiftr m0 16) 255;
            Z.land (Z.shiftr m0 8) 255; Z.land (Z.shiftr m0 0) 255]).

(** The two registers that hold the address. *)
Definition mac_hi (a : Z -> Z) : Z := Z.lor (Z.shiftl (a 0) 8) (a 1).

Definition mac_lo (a : Z -> Z) : Z :=
  Z.lor (Z.lor (Z.lor (Z.shiftl (a 2) 24) (Z.shiftl (a 3) 16)) (Z.shiftl (a 4) 8)) (a 5).

Definition eth_set_mac_address (address : list Z) : M st Z :=
  if (length address <? 6)%nat then undef
  else
    modify (fun s => set_oi (set_dev_addr (take 6 address) (oi s)) s);;
    let a i := nth (Z.to_nat i) address 0 in
    OETH_REGSAVE mac_addr1 (mac_hi a);;
    OETH_REGSAVE mac_addr0 (mac_lo a);;
    mret 1.

Definition calc_crc (mac_addr : list Z) : Z := let result := 0 in Z.land result 63.

Definition add_group (a : list Z) : M st unit :=
  if negb (ctrue (Z.land (nth 0 a 0) 1)) then mret tt
  else
    let hash_b := calc_crc a in
    if hash_b >=? 32 then OETH_REGORIN hash_addr1 (Z.shiftl 1 (hash_b - 32))
    else OETH_REGORIN hash_addr0 (Z.shiftl 1 hash_b).

Fixpoint add_groups (addrs : list (list Z)) : M st unit :=
  match addrs with
  | [] => mret tt
  | a :: rest => add_group a;; add_groups rest
  end.

(** [mcl] is the null pointer or a list of addresses. *)
Definition oeth_set_multicast_list (mcl : option (list (list Z))) : M st unit :=
  o ← gets oi;
  if promisc o then OETH_REGORIN moder OETH_MODER_PRO
  else
    OETH_REGANDIN moder (Z.lnot OETH_MODER_PRO);;
    if multicast_all o then
      OETH_REGSAVE hash_addr0 4294967295;;
      OETH_REGSAVE hash_addr1 4294967295
    else
      match mcl with
      | Some (a :: rest) =>
          OETH_REGORIN moder OETH_MODER_IAM;;
          OETH_REGSAVE hash_addr0 0;;
          OETH_REGSAVE hash_addr0 0;;
          add_groups (a :: rest)
      | _ => mret tt
      end.

(** The requests of [openeth_ioctl], with their data. *)
Inductive request :=
| ETH_DRV_SET_MC_LIST (mcl : option (list (list Z)))
| ETH_DRV_SET_MC_ALL
| ETH_DRV_SET_MAC_ADDRESS (data : list Z) (data_length : Z)
| ETH_DRV_GET_MAC_ADDRESS
| ETH_DRV_OTHER.

(** The value returned, and what is stored through [data]. *)
Definition openeth_ioctl (key : request) : M st (Z * list Z) :=
  match key with
  | ETH_DRV_SET_MC_LIST mcl =>
      modify (fun s => set_oi (set_multicast_all false (oi s)) s);;
      oeth_set_multicast_list mcl;;
      mret (0, [])
  | ETH_DRV_SET_MC_ALL =>
      modify (fun s => set_oi (set_multicast_all true (oi s)) s);;
      oeth_set_multicast_list None;;
      mret (0, [])
  | ETH_DRV_SET_MAC_ADDRESS data data_length =>
      if negb (6 =? data_length) then mret (-2, [])
      else r ← eth_set_mac_address data; mret (r, [])
  | ETH_DRV_GET_MAC_ADDRESS => eth_get_mac_address
  | ETH_DRV_OTHER => mret (-1, [])
  end.

(** ** The PHY *)

(** [do load while busy]: the status can only change at a load. *)
Fixpoint mii_wait (fuel : nat) : M st unit :=
  match fuel with
  | O => no_fuel
  | S k =>
      tmp ← OETH_REGLOAD miistatus;
      if ctrue (Z.land tmp OETH_MIISTATUS_BUSY) then mii_wait k else mret tt
  end.

Definition mii_idle : M st unit := n ← gets (fun s => length (env s)); mii_wait (S n).

Definition read_mii (phy reg : Z) : M st Z :=
  mii_idle;;
  OETH_REGSAVE miiaddress (Z.lor (Z.shiftl reg 8) phy);;
  OETH_REGSAVE miicommand OETH_MIICOMMAND_RSTAT;;
  mii_idle;;
  tmp ← OETH_REGLOAD miistatus;
  if negb (ctrue (Z.land tmp OETH_MIISTATUS_NVALID)) then OETH_REGLOAD miirx_data
  else diag_printf "open_eth: failed to read mii";; mret 0.

Definition write_mii (phy reg data : Z) : M st unit :=
  mii_idle;;
  OETH_REGSAVE miiaddress (Z.lor (Z.shiftl reg 8) phy);;
  OETH_REGSAVE miitx_data data;;
  OETH_REGSAVE miicommand OETH_MIICOMMAND_WCTRLDATA;;
  mii_idle.

(** ** Initialisation *)

(** The address is copied from flash; is there a byte other than 0xff? *)
Fixpoint copy_mac (macstart : list Z) : list Z * bool :=
  match macstart with
  | [] => ([], false)
  | m :: rest => let '(l, gotMac) := copy_mac rest in (m :: l, negb (m =? 255) || gotMac)
  end.

(** The index of the first byte that is not zero. *)
Fixpoint first_nonzero (i : Z) (mac : list Z) : Z :=
  match mac with
  | [] => i
  | m :: rest => if negb (m =? 0) then i else first_nonzero (i + 1) rest
  end.

Definition init_bds (c : oeth_private) : M st unit :=
  let tx_bd := tx_bd_base c in
  let rx_bd := rx_bd_base c in
  for_range (Z.to_nat OETH_TXBD_NUM) 0 (fun i =>
    bd_save (tx_bd + i) (flags [OETH_TX_BD_PAD; OETH_TX_BD_CRC; OETH_TX_BD_IRQ]);;
    bd_save_addr (tx_bd + i) (TxBuf i));;
  bd_orin (tx_bd + (OETH_TXBD_NUM - 1)) OETH_TX_BD_WRAP;;
  for_range (Z.to_nat OETH_RXBD_NUM) 0 (fun i =>
    bd_save (rx_bd + i) (Z.lor OETH_RX_BD_EMPTY OETH_RX_BD_IRQ);;
    bd_save_addr (rx_bd + i) (RxBuf i));;
  bd_orin (rx_bd + (OETH_RXBD_NUM - 1)) OETH_RX_BD_WRAP.

Definition init_regs : M st unit :=
  OETH_REGSAVE packet_len 4195840;;
  OETH_REGSAVE ipgt 18;;
  OETH_REGSAVE ipgr1 12;;
  OETH_REGSAVE ipgr2 18;;
  OETH_REGSAVE collconf 983103;;
  OETH_REGSAVE ctrlmoder 0.

(** [macstart] are the six bytes of the address in flash. *)
Definition openeth_device_init (macstart : list Z) (idx base irq : Z) : M st bool :=
  modify (fun s => set_oi (set_found true (oi s)) s);;
  let '(mac, notAllFF) := copy_mac macstart in
  modify (set_macaddr mac);;
  let gotMac := notAllFF && negb (first_nonzero 0 mac =? 6) in
  if negb gotMac then
    diag_printf "Set MAC address via bootloader. ";;
    mret false
  else
    modify (fun s => set_oi (set_dev_addr mac (oi s)) s);;
    modify (fun s => set_oi (set_idx idx (oi s)) s);;
    cep_set (set_regs_base base);;
    cep_set (set_irq irq);;
    OETH_REGSAVE ctrlmoder 0;;
    OETH_REGSAVE moder OETH_MODER_RST;;
    OETH_REGSAVE moder 0;;
    OETH_REGSAVE tx_bd_num OETH_TXBD_NUM;;
    cep_set (set_tx_bd_base 0);;
    cep_set (set_rx_bd_base OETH_TXBD_NUM);;
    reset_rings;;
    init_regs;;
    c ← the_cep;
    init_bds c;;
    let a i := nth (Z.to_nat i) mac 0 in
    OETH_REGSAVE mac_addr1 (mac_hi a);;
    OETH_REGSAVE mac_addr0 (mac_lo a);;
    OETH_REGSAVE int_src 4294967295;;
    OETH_REGSAVE moder (flags [OETH_MODER_HUGEN; OETH_MODER_PAD; OETH_MODER_IFG;
                               OETH_MODER_CRCEN; OETH_MODER_FULLD]);;
    OETH_REGSAVE int_mask (flags [OETH_INT_TXB; OETH_INT_TXE; OETH_INT_RXF; OETH_INT_RXE;
                                  OETH_INT_BUSY; OETH_INT_TXC; OETH_INT_RXC]);;
    o ← gets oi;
    emit (StackInit (dev_addr o));;
    mret true.

End Driver.
