(* ===== verification/OethFacts.v ===== *)
(** * The rings of the Ethernet driver and the controller

    [hw_step] is what a controller may do to the memory it shares with the
    driver, as its manual describes: it sends the frame of the transmit
    descriptor it is at when that is ready and clears the flag; it stores a
    frame in the receive descriptor it is at when that is empty; it goes round
    both rings; and it changes its interrupt and PHY registers.  The invariants
    [tx_board] and [rx_board] read both rings as queues; they are stable under
    [hw_step], and the lemmas say what each operation of the driver does to
    them. *)

From stdpp Require Import relations functions.
From S2P Require Import Prelude.
From S2P Require Import Ring.
From S2P Require Import Oeth.

(** ** Flags *)

Lemma ready_flag ls : ctrue (Z.land ls OETH_TX_BD_READY) = flag15 ls.
Proof. by rewrite <- (ctrue_land_pow2 ls 15). Qed.

Lemma ready_flag' ls : ctrue (Z.land OETH_TX_BD_READY ls) = flag15 ls.
Proof. by rewrite Z.land_comm, ready_flag. Qed.

Lemma empty_flag ls : ctrue (Z.land ls OETH_RX_BD_EMPTY) = flag15 ls.
Proof. by rewrite <- (ctrue_land_pow2 ls 15). Qed.

(** The word that [openeth_send] builds keeps the length in its upper half. *)
Lemma tx_word_length status len f :
  0 <= len < 65536 -> 0 <= f < 65536 ->
  Z.shiftr (u32 (Z.lor (u32 (Z.lor (Z.land status 65535) (Z.shiftl len 16))) f)) 16 = len.
Proof.
  intros Hl Hf. apply Z.bits_inj'. intros k Hk.
  rewrite Z.shiftr_spec by lia.
  assert (forall z j, 0 <= z < 65536 -> 16 <= j -> Z.testbit z j = false) as Hhi.
  { intros z j Hz Hj. by apply (small_bits z 16). }
  destruct (decide (k < 16)) as [Hlt|Hge].
  - rewrite uwrap_testbit, Z.lor_spec, uwrap_testbit, Z.lor_spec, Z.land_spec, Z.shiftl_spec by lia.
    rewrite (Hhi f) by lia. rewrite (Hhi 65535) by lia.
    rewrite andb_false_r, orb_false_r. cbn. f_equal. lia.
  - rewrite (Hhi len) by lia. unfold uwrap. by rewrite Z.mod_pow2_bits_high by lia.
Qed.

Create HintDb oeth.
#[export] Hint Resolve slot_lt free_grow_inv : oeth.

(** ** The controller *)

Section Rings.
Context {conf : OethConfig}.

Abbreviation TXN := (Z.to_nat OETH_TXBD_NUM).
Abbreviation RXN := (Z.to_nat OETH_RXBD_NUM).

(** The configuration: [#error] in oeth_info.h rejects others. *)
Class OethConfigOk := {
  txn_pos : 1 <= OETH_TXBD_NUM;
  rxn_pos : 1 <= OETH_RXBD_NUM;
  bds_fit : OETH_TXBD_NUM + OETH_RXBD_NUM <= OETH_TOTAL_BD;
  line_pos : 0 < HAL_DCACHE_LINE_SIZE;
}.

(** The word of a descriptor that a frame [d] was stored in. *)
Definition rx_word (ls : Z) (d : list Z) : Prop :=
  is_u32 ls /\ flag15 ls = false /\ Z.shiftr ls 16 = Z.of_nat (length d) /\
  Z.of_nat (length d) <= OETH_RX_BUFF_SIZE.

Definition sent (bd : oeth_bd) (buf : list Z) (ls : Z) (b : board) : board :=
  mkBoard (regs b) (<[tx_pos b := set_len_status ls bd]> (bds b)) (txbuff b) (rxbuff b)
    ((tx_pos b + 1) mod TXN) (rx_pos b)
    (wire b ++ [take (Z.to_nat (Z.shiftr (len_status bd) 16)) buf]) (heard b).

Definition stored (bd : oeth_bd) (buf : list Z) (ls : Z) (d : list Z) (b : board) : board :=
  let b := buffer_put (addr bd) (d ++ drop (length d) buf) b in
  mkBoard (regs b) (<[(TXN + rx_pos b)%nat := set_len_status ls bd]> (bds b)) (txbuff b) (rxbuff b)
    (tx_pos b) ((rx_pos b + 1) mod RXN) (wire b) (heard b ++ [(ls, d)]).

Inductive hw_step : board -> board -> Prop :=
| hw_sent b bd buf ls :
    bds b !! tx_pos b = Some bd ->
    flag15 (len_status bd) = true ->
    buffer_at (addr bd) b = Some buf ->
    flag15 ls = false ->
    is_u32 ls ->
    hw_step b (sent bd buf ls b)
| hw_stored b bd buf ls d :
    bds b !! (TXN + rx_pos b)%nat = Some bd ->
    flag15 (len_status bd) = true ->
    buffer_at (addr bd) b = Some buf ->
    rx_word ls d ->
    hw_step b (stored bd buf ls d b)
| hw_reg b r v :
    r = int_src \/ r = miistatus \/ r = miirx_data ->
    hw_step b (set_regs (<[r := v]> (regs b)) b).

(** A function that describes the controller between two loads. *)
Definition respects (f : board -> board) : Prop := forall b, rtc hw_step b (f b).

(** ** The rings as queues *)

Definition buf_size : nat := Z.to_nat (ROUND_UP_BUF_SIZE OETH_MAX_FRAME_SIZE).

(** Of the frames handed to the driver, [P] are on the wire and the others are
    in ready descriptors. *)
Record tx_board (b : board) (P : nat) (frames : list (list Z)) : Prop := {
  tx_range : (P <= length frames <= P + TXN)%nat;
  tx_at : tx_pos b = slot TXN P;
  tx_wire : wire b = take P frames;
  tx_bufs : forall i, (i < TXN)%nat -> exists buf, txbuff b !! i = Some buf /\ length buf = buf_size;
  tx_bds : forall i, (i < TXN)%nat -> exists bd,
      bds b !! i = Some bd /\ addr bd = TxBuf (Z.of_nat i) /\
      (free TXN P (length frames) i -> flag15 (len_status bd) = false);
  tx_queue : forall c f, (P <= c)%nat -> frames !! c = Some f -> exists bd buf,
      bds b !! slot TXN c = Some bd /\ flag15 (len_status bd) = true /\
      txbuff b !! slot TXN c = Some buf /\
      f = take (Z.to_nat (Z.shiftr (len_status bd) 16)) buf;
}.

(** Of the frames the controller has stored the driver has taken [C]; the
    others are in descriptors that are not empty. *)
Record rx_board (b : board) (C : nat) : Prop := {
  rx_range : (C <= length (heard b) <= C + RXN)%nat;
  rx_at : rx_pos b = slot RXN (length (heard b));
  rx_bufs : forall i, (i < RXN)%nat -> exists buf, rxbuff b !! i = Some buf /\ length buf = buf_size;
  rx_bds : forall i, (i < RXN)%nat -> exists bd,
      bds b !! (TXN + i)%nat = Some bd /\ addr bd = RxBuf (Z.of_nat i) /\
      (free RXN C (length (heard b)) i -> flag15 (len_status bd) = true);
  rx_queue : forall c ls d, (C <= c)%nat -> heard b !! c = Some (ls, d) -> exists bd buf,
      bds b !! (TXN + slot RXN c)%nat = Some bd /\ len_status bd = ls /\ rx_word ls d /\
      rxbuff b !! slot RXN c = Some buf /\ take (length d) buf = d;
}.

Context {conf_ok : OethConfigOk}.

Lemma TXN_pos : (0 < TXN)%nat.
Proof. pose proof txn_pos. lia. Qed.

Lemma RXN_pos : (0 < RXN)%nat.
Proof. pose proof rxn_pos. lia. Qed.

(** Each invariant depends on its own part of the memory. *)
Lemma tx_board_ext b b' P frames :
  (forall i, (i < TXN)%nat -> bds b' !! i = bds b !! i) -> txbuff b' = txbuff b ->
  tx_pos b' = tx_pos b -> wire b' = wire b -> tx_board b P frames -> tx_board b' P frames.
Proof.
  intros Hbd Hbuf Hpos Hw [Hr Ha Hwi Hb Hd Hq].
  split; rewrite ?Hpos, ?Hw, ?Hbuf; try done.
  - intros i Hi. rewrite Hbd by done. by apply Hd.
  - intros c f Hc Hf. rewrite Hbd by (apply slot_lt, TXN_pos). by apply Hq.
Qed.

Lemma rx_board_ext b b' C :
  (forall i, (i < RXN)%nat -> bds b' !! (TXN + i)%nat = bds b !! (TXN + i)%nat) ->
  rxbuff b' = rxbuff b -> rx_pos b' = rx_pos b -> heard b' = heard b ->
  rx_board b C -> rx_board b' C.
Proof.
  intros Hbd Hbuf Hpos Hw [Hr Ha Hb Hd Hq].
  split; rewrite ?Hpos, ?Hw, ?Hbuf; try done.
  - intros i Hi. rewrite Hbd by done. by apply Hd.
  - intros c ls d Hc Hf. rewrite Hbd by (apply slot_lt, RXN_pos). by apply Hq.
Qed.

(** A ready descriptor at the controller's position means a frame is waiting. *)
Lemma tx_pos_waiting b P frames bd :
  tx_board b P frames -> bds b !! tx_pos b = Some bd -> flag15 (len_status bd) = true ->
  exists f, frames !! P = Some f.
Proof.
  intros HT Hbd Hfl. apply lookup_lt_is_Some. destruct (tx_range _ _ _ HT) as [HP _].
  destruct (decide (P = length frames)) as [E|]; [exfalso|lia].
  rewrite (tx_at _ _ _ HT) in Hbd.
  destruct (tx_bds _ _ _ HT (slot TXN P) (slot_lt _ _ TXN_pos)) as (bd' & Hbd' & _ & Hfr).
  rewrite Hbd in Hbd'. injection Hbd' as <-. rewrite Hfr in Hfl; [done|].
  intros c Hc. lia.
Qed.

Lemma tx_board_sent b P frames bd buf ls :
  tx_board b P frames -> bds b !! tx_pos b = Some bd -> flag15 (len_status bd) = true ->
  buffer_at (addr bd) b = Some buf -> flag15 ls = false -> tx_board (sent bd buf ls b) (S P) frames.
Proof.
  intros HT Hbd Hfl Hbuf Hls.
  destruct (tx_pos_waiting _ _ _ _ HT Hbd Hfl) as [f Hf].
  pose proof (lookup_lt_Some _ _ _ Hf) as HPN. pose proof TXN_pos as Hn.
  pose proof (slot_lt TXN P Hn) as HsP.
  destruct HT as [Hr Ha Hw Hb Hd Hq]. rewrite Ha in *.
  pose proof (lookup_lt_Some _ _ _ Hbd) as Hlen.
  destruct (Hq P f ltac:(lia) Hf) as (bd' & buf' & Hbd' & _ & Hbuf' & Hfeq).
  rewrite Hbd in Hbd'. injection Hbd' as <-.
  destruct (Hd (slot TXN P) HsP) as (bd' & Hbd' & Haddr & _).
  rewrite Hbd in Hbd'. injection Hbd' as <-.
  rewrite Haddr in Hbuf. cbn in Hbuf. rewrite Nat2Z.id, Hbuf' in Hbuf. injection Hbuf as <-.
  assert (forall i, i <> slot TXN P ->
    <[slot TXN P := set_len_status ls bd]> (bds b) !! i = bds b !! i) as Hother.
  { intros i Hi. by rewrite list_lookup_insert_ne by congruence. }
  split; cbn; rewrite ?Ha; try done.
  - lia.
  - by rewrite slot_succ by done.
  - rewrite Hw, <- Hfeq. symmetry. by apply take_S_r.
  - intros i Hi. destruct (decide (i = slot TXN P)) as [->|Hi'].
    + rewrite list_lookup_insert_eq by done. eauto.
    + rewrite Hother by done. destruct (Hd i Hi) as (bd2 & Hbd2 & Had2 & Hfr2).
      exists bd2. split_and!; try done. intros Hfree. apply Hfr2. intros c Hc.
      destruct (decide (c = P)) as [->|]; [congruence|]. apply Hfree. lia.
  - intros c g Hc Hg. pose proof (lookup_lt_Some _ _ _ Hg).
    rewrite Hother; [by apply Hq; [lia|]|].
    intros E. apply (slot_inj TXN P) in E; lia.
Qed.

Lemma rx_board_sent b C bd buf ls P frames :
  tx_board b P frames -> rx_board b C -> rx_board (sent bd buf ls b) C.
Proof.
  intros HT. apply rx_board_ext; try done. intros i Hi. cbn.
  rewrite (tx_at _ _ _ HT). pose proof (slot_lt TXN P TXN_pos).
  by rewrite list_lookup_insert_ne by lia.
Qed.

(** An empty descriptor at the controller's position means the ring is not full. *)
Lemma rx_pos_room b C bd :
  rx_board b C -> bds b !! (TXN + rx_pos b)%nat = Some bd -> flag15 (len_status bd) = true ->
  (length (heard b) < C + RXN)%nat /\ addr bd = RxBuf (Z.of_nat (slot RXN (length (heard b)))).
Proof.
  intros HR Hbd Hfl. destruct (rx_range _ _ HR) as [HC HC'].
  rewrite (rx_at _ _ HR) in Hbd.
  destruct (rx_bds _ _ HR _ (slot_lt RXN (length (heard b)) RXN_pos)) as (bd' & Hbd' & Had & _).
  rewrite Hbd in Hbd'. injection Hbd' as <-. split; [|done].
  destruct (decide (length (heard b) = C + RXN)%nat) as [E|]; [exfalso|lia].
  pose proof RXN_pos.
  destruct (lookup_lt_is_Some_2 (heard b) C ltac:(lia)) as [[ls d] Hh].
  destruct (rx_queue _ _ HR C ls d ltac:(lia) Hh) as (bd' & buf & Hbd' & Hls & Hwd & _).
  rewrite E, slot_wrap, Hbd' in Hbd by lia. injection Hbd as ->. rewrite Hls in Hfl.
  destruct Hwd as (_ & Hwd & _). congruence.
Qed.

Lemma buf_size_ge : OETH_MAX_FRAME_SIZE <= Z.of_nat buf_size.
Proof.
  unfold buf_size, ROUND_UP_BUF_SIZE. pose proof line_pos as Hl.
  set (a := OETH_MAX_FRAME_SIZE). set (l := HAL_DCACHE_LINE_SIZE) in *.
  pose proof (Z.div_mod (a + l - 1) l ltac:(lia)). pose proof (Z.mod_pos_bound (a + l - 1) l Hl).
  assert (0 < a) by done. nia.
Qed.

Lemma rx_board_stored b C bd buf ls d :
  rx_board b C -> bds b !! (TXN + rx_pos b)%nat = Some bd -> flag15 (len_status bd) = true ->
  buffer_at (addr bd) b = Some buf -> rx_word ls d -> rx_board (stored bd buf ls d b) C.
Proof.
  intros HR Hbd Hfl Hbuf Hwd.
  destruct (rx_pos_room _ _ _ HR Hbd Hfl) as [Hroom Had].
  pose proof RXN_pos as Hm. set (H := length (heard b)) in *.
  pose proof (slot_lt RXN H Hm) as HsH.
  destruct HR as [Hr Ha Hb Hd Hq]. fold H in Hr, Ha, Hd. rewrite Ha in *.
  pose proof (lookup_lt_Some _ _ _ Hbd) as Hlen.
  rewrite Had in Hbuf. cbn in Hbuf. rewrite Nat2Z.id in Hbuf.
  pose proof (lookup_lt_Some _ _ _ Hbuf) as Hlenb.
  destruct (Hb _ HsH) as (buf' & Hbuf' & Hsz). rewrite Hbuf in Hbuf'. injection Hbuf' as <-.
  pose proof buf_size_ge as Hge. destruct Hwd as (Hw1 & Hw2 & Hw3 & Hw4).
  change OETH_RX_BUFF_SIZE with OETH_MAX_FRAME_SIZE in Hw4.
  assert (forall c, (C <= c < H)%nat -> slot RXN c <> slot RXN H) as Hne.
  { intros c Hc E. apply (slot_inj RXN C) in E; lia. }
  unfold stored. rewrite Had. cbn. rewrite Nat2Z.id.
  split; cbn; rewrite ?Ha, ?length_app; cbn [length]; fold H; try done.
  - lia.
  - replace (H + 1)%nat with (S H) by lia. by rewrite slot_succ by done.
  - intros i Hi. destruct (decide (i = slot RXN H)) as [->|Hi'].
    + rewrite list_lookup_insert_eq by done. eexists. split; [done|].
      rewrite length_app, length_drop. lia.
    + rewrite list_lookup_insert_ne by congruence. by apply Hb.
  - intros i Hi. destruct (decide (i = slot RXN H)) as [->|Hi'].
    + rewrite list_lookup_insert_eq by done. eexists. split_and!; [done|done|].
      intros Hfree. exfalso. apply (Hfree H); [lia|done].
    + rewrite list_lookup_insert_ne by lia. destruct (Hd i Hi) as (bd2 & Hbd2 & Had2 & Hfr2).
      exists bd2. split_and!; try done. intros Hfree. apply Hfr2. intros c Hc. apply Hfree. lia.
  - intros c ls' d' Hc. rewrite lookup_app_Some.
    intros [Hold|[Hge' Hnew]].
    + pose proof (lookup_lt_Some _ _ _ Hold).
      destruct (Hq c ls' d' Hc Hold) as (bd2 & buf2 & Q1 & Q2 & Q3 & Q4 & Q5).
      rewrite !list_lookup_insert_ne by (pose proof (Hne c); lia). eauto 10.
    + fold H in Hge', Hnew. apply list_lookup_singleton_Some in Hnew as [Hc0 [= <- <-]].
      assert (c = H) as -> by lia. rewrite !list_lookup_insert_eq by done.
      eexists _, _. split_and!; try done. by rewrite take_app_length.
Qed.

Lemma tx_board_stored b P frames bd buf ls d C :
  rx_board b C -> bds b !! (TXN + rx_pos b)%nat = Some bd -> flag15 (len_status bd) = true ->
  tx_board b P frames -> tx_board (stored bd buf ls d b) P frames.
Proof.
  intros HR Hbd Hfl. destruct (rx_pos_room _ _ _ HR Hbd Hfl) as [_ Had].
  unfold stored. rewrite Had. cbn. apply tx_board_ext; try done.
  intros i Hi. cbn. by rewrite list_lookup_insert_ne by lia.
Qed.

(** Both rings, and what the controller leaves alone: the descriptors the driver
    owns and the frames it has not taken yet. *)
Definition rings (b : board) (P C : nat) (frames : list (list Z)) : Prop :=
  tx_board b P frames /\ rx_board b C.

Record leaves (b b' : board) (P C : nat) (frames : list (list Z)) : Prop := {
  leaves_txbuff : txbuff b' = txbuff b;
  leaves_heard : heard b `prefix_of` heard b';
  leaves_tx : forall i, (i < TXN)%nat -> free TXN P (length frames) i -> bds b' !! i = bds b !! i;
  leaves_rx : forall c, (C <= c < length (heard b))%nat ->
      bds b' !! (TXN + slot RXN c)%nat = bds b !! (TXN + slot RXN c)%nat /\
      rxbuff b' !! slot RXN c = rxbuff b !! slot RXN c;
  leaves_mac : regs b' mac_addr0 = regs b mac_addr0 /\ regs b' mac_addr1 = regs b mac_addr1;
}.

Lemma leaves_refl b P C frames : leaves b b P C frames.
Proof. by split. Qed.

Lemma leaves_trans b1 b2 b3 P P' C frames :
  (P <= P')%nat -> leaves b1 b2 P C frames -> leaves b2 b3 P' C frames -> leaves b1 b3 P C frames.
Proof.
  intros HP [A1 A2 A3 A4 [A5 A6]] [B1 B2 B3 B4 [B5 B6]].
  pose proof (prefix_length _ _ A2). split.
  - congruence.
  - by etrans.
  - intros i Hi Hf. rewrite B3, A3; eauto using free_shrink.
  - intros c Hc. destruct (A4 c Hc), (B4 c); [lia|]. split; congruence.
  - split; congruence.
Qed.

Lemma hw_step_leaves b b' P C frames :
  hw_step b b' -> rings b P C frames ->
  exists P', (P <= P')%nat /\ rings b' P' C frames /\ leaves b b' P C frames.
Proof.
  intros Hstep [HT HR]. destruct Hstep as [b bd buf ls Hbd Hfl Hbuf Hls _
    |b bd buf ls d Hbd Hfl Hbuf Hwd|b r v Hr].
  - exists (S P). split; [lia|]. split.
    + split; [by apply tx_board_sent | by eapply rx_board_sent].
    + destruct (tx_pos_waiting _ _ _ _ HT Hbd Hfl) as [f Hf].
      apply lookup_lt_Some in Hf. pose proof (slot_lt TXN P TXN_pos).
      split; try done; cbn; rewrite (tx_at _ _ _ HT).
      * intros i Hi Hfree. rewrite list_lookup_insert_ne; [done|]. apply (Hfree P). lia.
      * intros c Hc. by rewrite list_lookup_insert_ne by lia.
  - exists P. split; [lia|]. split.
    + split; [by eapply tx_board_stored | by apply rx_board_stored].
    + destruct (rx_pos_room _ _ _ HR Hbd Hfl) as [Hroom Had].
      unfold stored. rewrite Had. split; try done; cbn; rewrite ?(rx_at _ _ HR), ?Nat2Z.id.
      * by apply prefix_app_r.
      * intros i Hi _. by rewrite list_lookup_insert_ne by lia.
      * intros c Hc. assert (slot RXN c <> slot RXN (length (heard b))).
        { intros E. apply (slot_inj RXN C) in E; lia. }
        rewrite !list_lookup_insert_ne by lia. done.
  - exists P. split; [lia|]. split; [split|].
    + by apply (tx_board_ext b).
    + by apply (rx_board_ext b).
    + split; try done. cbn. unfold insert, fn_insert. destruct Hr as [->|[->| ->]]; done.
Qed.

Lemma rtc_leaves b b' P C frames :
  rtc hw_step b b' -> rings b P C frames ->
  exists P', (P <= P')%nat /\ rings b' P' C frames /\ leaves b b' P C frames.
Proof.
  intros Hrtc. revert P. induction Hrtc as [b|b1 b2 b3 Hs _ IH]; intros P HB.
  - exists P. split; [lia|]. split; [done|apply leaves_refl].
  - destruct (hw_step_leaves _ _ _ _ _ Hs HB) as (P1 & HP1 & HB1 & K1).
    destruct (IH P1 HB1) as (P2 & HP2 & HB2 & K2).
    exists P2. split; [lia|]. split; [done|]. by apply (leaves_trans _ b2 _ P P1).
Qed.

End Rings.
