(* ===== verification/OethDriver.v ===== *)
(** * The Ethernet driver between its clients and the controller

    [drv] is the invariant of the whole driver: the rings, the pointers into
    them, the keys that are still to be reported, and what the network stack has
    been told.  The lemmas say what the loads and the transmit operations do to
    it, whatever the controller does meanwhile. *)

From stdpp Require Import relations functions.
From S2P Require Import Prelude.
From S2P Require Import Ring.
From S2P Require Import Oeth.
From S2P Require Import OethFacts.

(** ** What the stack has been told *)

Fixpoint txdones (l : list event) : list Z :=
  match l with
  | [] => []
  | TxDone k :: l' => k :: txdones l'
  | _ :: l' => txdones l'
  end.

Fixpoint recvs (l : list event) : list (list Z) :=
  match l with
  | [] => []
  | Recv _ chunks :: l' => concat chunks :: recvs l'
  | _ :: l' => recvs l'
  end.

Lemma txdones_app l l' : txdones (l ++ l') = txdones l ++ txdones l'.
Proof. induction l as [|[]]; cbn; congruence. Qed.

Lemma recvs_app l l' : recvs (l ++ l') = recvs l ++ recvs l'.
Proof. induction l as [|[]]; cbn; congruence. Qed.

(** ** Frames the driver drops *)

(** The flags of an error, or a frame that is too short. *)
Definition rx_bad (f : Z * list Z) : bool :=
  ctrue (Z.land f.1 (Z.lor OETH_RX_BD_TOOLONG OETH_RX_BD_SHORT))
  || ctrue (Z.land f.1 OETH_RX_BD_DRIBBLE) || ctrue (Z.land f.1 OETH_RX_BD_CRCERR)
  || ctrue (Z.land f.1 OETH_RX_BD_OVERRUN) || ctrue (Z.land f.1 OETH_RX_BD_LATECOL)
  || (Z.of_nat (length f.2) <? 64) || ctrue (Z.land f.1 OETH_RX_BD_MISS).

(** Of the frames one call finds in the ring, those before the first bad one. *)
Fixpoint good_prefix (fs : list (Z * list Z)) : list (list Z) :=
  match fs with
  | [] => []
  | f :: fs' => if rx_bad f then [] else f.2 :: good_prefix fs'
  end.

Lemma good_prefix_snoc fs f :
  good_prefix (fs ++ [f]) =
  good_prefix fs ++ (if existsb rx_bad fs || rx_bad f then [] else [f.2]).
Proof.
  induction fs as [|g fs IH]; cbn; [by destruct (rx_bad f)|].
  destruct (rx_bad g); cbn; [done|]. by rewrite IH.
Qed.

Lemma good_prefix_all fs : Forall (fun f => rx_bad f = false) fs -> good_prefix fs = map snd fs.
Proof. induction 1 as [|f fs Hf _ IH]; cbn; [done|]. by rewrite Hf, IH. Qed.

(** ** The invariant *)

(** A frame the driver accepted: its key, its bytes, and whether the key has
    been reported. *)
Abbreviation entry := (Z * list Z * bool)%type.

Definition frames_of (acc : list entry) : list (list Z) := map (fun e => e.1.2) acc.

Definition reported (acc : list entry) : list Z :=
  map (fun e => e.1.1) (filter (fun e => e.2 = true) acc).

Section Driver.
Context {conf : OethConfig} {conf_ok : OethConfigOk}.

Abbreviation TXN := (Z.to_nat OETH_TXBD_NUM).
Abbreviation RXN := (Z.to_nat OETH_RXBD_NUM).

(** The keys array: from [K] on it holds the keys that are not reported. *)
Record keys_ok (keys : list Z) (acc : list entry) (K P : nat) : Prop := {
  k_range : (length acc <= K + TXN)%nat;
  k_length : length keys = TXN;
  k_old : forall c e, acc !! c = Some e -> (c < K)%nat -> e.2 = true;
  k_new : forall c e, acc !! c = Some e -> (K <= c)%nat ->
      keys !! slot TXN c = Some (if (e.2 : bool) then 0 else e.1.1);
  k_sent : forall c e, acc !! c = Some e -> e.2 = true -> (c < P)%nat;
  k_nonzero : forall c e, acc !! c = Some e -> e.1.1 <> 0;
  k_free : forall i, (i < TXN)%nat -> free TXN K (length acc) i -> keys !! i = Some 0;
}.

(** [acc]: the frames accepted so far; the ring holds those from [L] on, and [P]
    are on the wire.  [C]: received frames taken from the ring, in the [groups]
    that the calls took. *)
Record drv (s : st) (acc : list entry) (K L P C : nat) (groups : list (list (Z * list Z))) : Prop := {
  d_env : Forall respects (env s);
  d_rings : rings (dev s) P C (frames_of acc);
  d_base : tx_bd_base (cep (oi s)) = 0 /\ rx_bd_base (cep (oi s)) = OETH_TXBD_NUM;
  d_last : tx_last (cep (oi s)) = Z.of_nat (slot TXN L);
  d_next : tx_next (cep (oi s)) = Z.of_nat (slot TXN (length acc));
  d_full : tx_full (cep (oi s)) = if decide (length acc = L + TXN)%nat then 1 else 0;
  d_order : (K <= L <= P)%nat /\ (length acc <= L + TXN)%nat;
  d_cur : rx_cur (cep (oi s)) = Z.of_nat (slot RXN C);
  d_keys : keys_ok (tx_keys (cep (oi s))) acc K P;
  d_done : txdones (log s) ≡ₚ reported acc;
  d_taken : take C (heard (dev s)) = concat groups;
  d_recv : recvs (log s) = concat (map good_prefix groups);
}.

Lemma frames_length acc : length (frames_of acc) = length acc.
Proof. apply length_map. Qed.

Lemma d_P_range s acc K L P C G : drv s acc K L P C G -> (P <= length acc)%nat.
Proof.
  intros D. destruct (d_rings _ _ _ _ _ _ _ D) as [HT _].
  pose proof (tx_range _ _ _ HT). rewrite frames_length in *. lia.
Qed.

(** The position of the controller can be read off the wire. *)
Lemma d_P_wire s acc K L P C G : drv s acc K L P C G -> P = length (wire (dev s)).
Proof.
  intros D. pose proof (d_P_range _ _ _ _ _ _ _ D). destruct (d_rings _ _ _ _ _ _ _ D) as [HT _].
  rewrite (tx_wire _ _ _ HT), length_take, frames_length. lia.
Qed.

Lemma keys_ok_mono keys acc K P P' : (P <= P')%nat -> keys_ok keys acc K P -> keys_ok keys acc K P'.
Proof.
  intros HP [H1 H2 H3 H4 H5 H6 H7]. split; try done. intros c e Hc He.
  pose proof (H5 c e Hc He). lia.
Qed.

(** ** The controller acts *)

(** What a load does besides reading. *)
Record acted (s s' : st) (P C : nat) (frames : list (list Z)) : Prop := {
  a_oi : oi s' = oi s;
  a_log : log s' = log s;
  a_env : env s' = tail (env s);
  a_mac : macaddr s' = macaddr s;
  a_leaves : leaves (dev s) (dev s') P C frames;
  a_quiet : env s = [] -> dev s' = dev s;
}.

Lemma wp_act (Q : unit -> st -> Prop) s P C frames :
  Forall respects (env s) -> rings (dev s) P C frames ->
  (forall s' P', (P <= P')%nat -> Forall respects (env s') -> rings (dev s') P' C frames ->
     acted s s' P C frames -> Q tt s') ->
  wp hw Q s.
Proof.
  intros He HB HQ. unfold wp, hw. destruct (env s) as [|f e] eqn:E.
  - apply (HQ s P); [lia|by rewrite E|done|]. split; [done..|by rewrite E|done|apply leaves_refl|done].
  - apply Forall_cons_1 in He as [Hf He].
    destruct (rtc_leaves _ _ _ _ _ (Hf (dev s)) HB) as (P' & HP & HB' & HK).
    apply (HQ _ P'); try done. split; cbn; try done; by rewrite E.
Qed.

Lemma acted_taken s s' P C frames :
  acted s s' P C frames -> rings (dev s) P C frames -> take C (heard (dev s')) = take C (heard (dev s)).
Proof.
  intros A [_ HR]. destruct (leaves_heard _ _ _ _ _ (a_leaves _ _ _ _ _ A)) as [k ->].
  pose proof (rx_range _ _ HR). by rewrite take_app_le by lia.
Qed.

(** The invariant does not care when the controller acts. *)
Lemma drv_acted s s' acc K L P P' C G :
  drv s acc K L P C G -> acted s s' P C (frames_of acc) -> (P <= P')%nat ->
  Forall respects (env s') -> rings (dev s') P' C (frames_of acc) -> drv s' acc K L P' C G.
Proof.
  intros [H1 H2 H3 H4 H5 H6 H7 H8 H9 H10 H11 H12] A HP He HB.
  split; rewrite ?(a_oi _ _ _ _ _ A), ?(a_log _ _ _ _ _ A); try done.
  - lia.
  - by apply (keys_ok_mono _ _ _ P).
  - by rewrite (acted_taken _ _ _ _ _ A).
Qed.

Lemma drv_env s acc K L P C G e :
  drv s acc K L P C G -> Forall respects e -> drv (set_env e s) acc K L P C G.
Proof. intros [H1 H2 H3 H4 H5 H6 H7 H8 H9 H10 H11 H12] He. by split. Qed.

Lemma wp_hw (Q : unit -> st -> Prop) s acc K L P C G :
  drv s acc K L P C G ->
  (forall s' P', (P <= P')%nat -> drv s' acc K L P' C G -> acted s s' P C (frames_of acc) -> Q tt s') ->
  wp hw Q s.
Proof.
  intros D HQ. apply (wp_act _ s P C (frames_of acc)); [apply D|apply D|].
  intros s' P' HP He HB A. apply (HQ s' P' HP); [|done]. by eapply drv_acted.
Qed.

Lemma wp_tx_load (Q : Z -> st -> Prop) s acc K L P C G i :
  drv s acc K L P C G -> (i < TXN)%nat ->
  (forall s' P' bd, (P <= P')%nat -> drv s' acc K L P' C G -> acted s s' P C (frames_of acc) ->
     bds (dev s') !! i = Some bd -> addr bd = TxBuf (Z.of_nat i) ->
     Q (len_status bd) s') ->
  wp (bd_load (Z.of_nat i)) Q s.
Proof.
  intros D Hi HQ. unfold bd_load. apply wp_bind, (wp_hw _ s acc K L P C G D).
  intros s' P' HP D' A. destruct (d_rings _ _ _ _ _ _ _ D') as [HT _].
  destruct (tx_bds _ _ _ HT i Hi) as (bd & Hbd & Had & _).
  apply wp_bind. unfold wp, bd_at. rewrite Nat2Z.id, Hbd. by apply (HQ s' P' bd).
Qed.

(** A descriptor is ready exactly when the frame in it is not on the wire. *)
Lemma ready_iff b P C frames i bd :
  rings b P C frames -> (i < TXN)%nat -> bds b !! i = Some bd ->
  flag15 (len_status bd) = true <-> exists c, (P <= c < length frames)%nat /\ slot TXN c = i.
Proof.
  intros [HT _] Hi Hbd. split.
  - intros Hfl. apply occupied. intros Hfree.
    destruct (tx_bds _ _ _ HT i Hi) as (bd' & Hbd' & _ & Hf). rewrite Hbd in Hbd'.
    injection Hbd' as <-. rewrite Hf in Hfl; done.
  - intros (c & Hc & <-). destruct (lookup_lt_is_Some_2 frames c ltac:(lia)) as [f Hf].
    destruct (tx_queue _ _ _ HT c f ltac:(lia) Hf) as (bd' & buf & Hbd' & Hfl & _).
    rewrite Hbd in Hbd'. by injection Hbd' as <-.
Qed.

(** ** Statistics and messages *)

(** Steps that change only statistics and the messages of the log. *)
Record minor (s s' : st) : Prop := {
  m_dev : dev s' = dev s;
  m_env : env s' = env s;
  m_done : txdones (log s') = txdones (log s);
  m_recv : recvs (log s') = recvs (log s);
  m_cep : forall t, set_stats t (cep (oi s')) = set_stats t (cep (oi s));
}.

#[global] Instance minor_preorder : PreOrder minor.
Proof.
  split; [by intros s; split|]. intros s1 s2 s3 [A1 A2 A3 A4 A5] [B1 B2 B3 B4 B5].
  split; congruence.
Qed.

Lemma minor_field {A} (f : oeth_private -> A) s s' :
  minor s s' -> (forall t c, f (set_stats t c) = f c) -> f (cep (oi s')) = f (cep (oi s)).
Proof.
  intros H Hf. pose proof (f_equal f (m_cep _ _ H (stats (cep (oi s))))) as E.
  by rewrite !Hf in E.
Qed.

Lemma drv_minor s s' acc K L P C G :
  minor s s' -> drv s acc K L P C G -> drv s' acc K L P C G.
Proof.
  intros Hm [H1 H2 H3 H4 H5 H6 H7 H8 H9 H10 H11 H12].
  split; rewrite ?(m_dev _ _ Hm), ?(m_env _ _ Hm), ?(m_done _ _ Hm), ?(m_recv _ _ Hm); try done.
  - by rewrite !(minor_field tx_bd_base _ _ Hm), !(minor_field rx_bd_base _ _ Hm).
  - by rewrite !(minor_field tx_last _ _ Hm).
  - by rewrite !(minor_field tx_next _ _ Hm).
  - by rewrite !(minor_field tx_full _ _ Hm).
  - by rewrite !(minor_field rx_cur _ _ Hm).
  - by rewrite !(minor_field tx_keys _ _ Hm).
Qed.

(** Computations all of whose steps are such. *)
Class Minor {A} (m : M st A) := minor_wp : forall s, wp m (fun _ s' => minor s s') s.

#[global] Instance Minor_ret {A} (a : A) : Minor (mret a : M st A).
Proof. intros s. by apply wp_ret. Qed.

#[global] Instance Minor_bind {A B} (m : M st A) (f : A -> M st B) :
  Minor m -> (forall a, Minor (f a)) -> Minor (m ≫= f).
Proof.
  intros Hm Hf s. apply wp_bind. eapply wp_mono; [apply Hm|]. intros a s' H1. cbn beta in H1.
  eapply wp_mono; [apply Hf|]. intros b s'' H2. by etrans.
Qed.

#[global] Instance Minor_when b (m : M st unit) : Minor m -> Minor (when b m).
Proof. intros Hm. destruct b; [apply Hm|apply Minor_ret]. Qed.

#[global] Instance Minor_bump f : Minor (bump f).
Proof. intros s. by apply wp_modify. Qed.

#[global] Instance Minor_diag m : Minor (diag_printf m).
Proof.
  intros s. apply wp_modify. split; try done; cbn.
  - rewrite txdones_app. cbn. by rewrite app_nil_r.
  - rewrite recvs_app. cbn. by rewrite app_nil_r.
Qed.

#[global] Instance Minor_tx_account status : Minor (tx_account status).
Proof. unfold tx_account. apply _. Qed.

#[global] Instance Minor_rx_error b m f : Minor (rx_error b m f).
Proof. unfold rx_error. apply _. Qed.

Lemma wp_minor {A} (m : M st A) `{!Minor m} (Q : A -> st -> Prop) s :
  (forall a s', minor s s' -> Q a s') -> wp m Q s.
Proof. intros HQ. eapply wp_mono; [apply Minor0|]. intros a s' H. by apply HQ. Qed.

(** The next position, as the code computes it. *)
Lemma wrap_next n c :
  (0 < n <= 128)%nat ->
  (if u32 (Z.of_nat (slot n c) + 1) >=? Z.of_nat n then 0 else u32 (Z.of_nat (slot n c) + 1))
  = Z.of_nat (slot n (S c)).
Proof.
  intros Hn. pose proof (slot_lt n c ltac:(lia)). rewrite slot_succ by lia.
  rewrite u32_id by (unfold is_u32; lia). rewrite Nat2Z.inj_mod, Nat2Z.inj_add. change (Z.of_nat 1) with 1.
  destruct (Z.geb_spec (Z.of_nat (slot n c) + 1) (Z.of_nat n)).
  - replace (Z.of_nat (slot n c) + 1) with (Z.of_nat n) by lia. by rewrite Z_mod_same_full.
  - by rewrite Z.mod_small by lia.
Qed.

(** ** Taking sent frames out of the ring *)

Lemma slot_next n c : (0 < n)%nat -> (Z.of_nat (slot n c) + 1) mod Z.of_nat n = Z.of_nat (slot n (S c)).
Proof.
  intros. rewrite slot_succ, Nat2Z.inj_mod by done. f_equal. lia.
Qed.

Lemma drv_advance s acc K L P C G s' :
  drv s acc K L P C G -> (L < P)%nat -> (L < length acc)%nat ->
  env s' = env s -> dev s' = dev s -> log s' = log s ->
  cep (oi s') = set_tx_last (Z.of_nat (slot TXN (S L))) (set_tx_full 0 (cep (oi s))) ->
  drv s' acc K (S L) P C G.
Proof.
  intros [H1 H2 H3 H4 H5 H6 H7 H8 H9 H10 H11 H12] HL HN He Hd Hl Hc.
  split; rewrite ?He, ?Hd, ?Hl, ?Hc; cbn; try done.
  - rewrite decide_False by lia. done.
  - lia.
Qed.

(** The test of the loop: is there a frame of the ring on the wire? *)
Lemma oeth_tx_test s acc K L P C G bd :
  drv s acc K L P C G -> bds (dev s) !! slot TXN L = Some bd ->
  ctrue (Z.land (len_status bd) OETH_TX_BD_READY)
  || ((tx_last (cep (oi s)) =? tx_next (cep (oi s))) && negb (ctrue (tx_full (cep (oi s)))))
  = negb (L <? P)%nat.
Proof.
  intros D Hbd. pose proof TXN_pos as Hn. pose proof (d_P_range _ _ _ _ _ _ _ D) as HPN.
  destruct (d_order _ _ _ _ _ _ _ D) as [HKL HLN].
  pose proof (ready_iff _ _ _ _ _ _ (d_rings _ _ _ _ _ _ _ D) (slot_lt _ L Hn) Hbd) as Hready.
  rewrite frames_length in Hready.
  rewrite ready_flag, (d_last _ _ _ _ _ _ _ D), (d_next _ _ _ _ _ _ _ D), (d_full _ _ _ _ _ _ _ D).
  destruct (Nat.ltb_spec L P) as [Hlt|Hge]; cbn [negb].
  - assert (flag15 (len_status bd) = false) as ->.
    { apply not_true_is_false. intros (c & Hc & E)%Hready. apply (slot_inj TXN L) in E; lia. }
    cbn [orb]. case_decide as Hfull; [by rewrite andb_false_r|].
    destruct (Z.eqb_spec (Z.of_nat (slot TXN L)) (Z.of_nat (slot TXN (length acc)))) as [E|]; [|done].
    apply Nat2Z.inj, (slot_inj TXN L) in E; lia.
  - assert (L = P) as -> by lia. destruct (decide (P = length acc)) as [E|].
    + rewrite E, Z.eqb_refl, decide_False by lia. cbn [negb ctrue Z.eqb andb]. by rewrite orb_true_r.
    + assert (flag15 (len_status bd) = true) as ->; [|done]. apply Hready. exists P. split; [lia|done].
Qed.

(** One turn of the loop. *)
Lemma wp_tx_turn status (m : M st unit) (Q : unit -> st -> Prop) s acc K L P C G c :
  drv s acc K L P C G -> (L < P)%nat -> c = cep (oi s) ->
  (forall s', drv s' acc K (S L) P C G -> env s' = env s -> dev s' = dev s -> wp m Q s') ->
  wp (tx_account status;; when (ctrue (tx_full c)) (cep_set (set_tx_full 0));;
      cep_set (fun c => set_tx_last ((tx_last c + 1) mod OETH_TXBD_NUM) c);; m) Q s.
Proof.
  intros D HLP -> HQ. pose proof TXN_pos. pose proof (d_P_range _ _ _ _ _ _ _ D).
  apply wp_bind, wp_minor; [apply _|]. intros _ s1 Hm.
  pose proof (drv_minor _ _ _ _ _ _ _ _ Hm D) as D1.
  assert ((Z.of_nat (slot TXN L) + 1) mod OETH_TXBD_NUM = Z.of_nat (slot TXN (S L))) as Hnext.
  { rewrite <- slot_next by done. f_equal. lia. }
  pose proof (minor_field tx_full _ _ Hm ltac:(done)) as Hfull. rewrite <- Hfull.
  rewrite (d_full _ _ _ _ _ _ _ D1). apply wp_bind.
  case_decide as Hf; cbn [when ctrue Z.eqb negb]; (apply wp_modify || apply wp_ret);
    apply wp_bind, wp_modify; (apply HQ; [|exact (m_env _ _ Hm)|exact (m_dev _ _ Hm)]).
  - eapply (drv_advance s1); try done; [lia|]. cbn. by rewrite (d_last _ _ _ _ _ _ _ D1), Hnext.
  - eapply (drv_advance s1); try done; [lia|]. cbn.
    rewrite (d_last _ _ _ _ _ _ _ D1), Hnext.
    pose proof (d_full _ _ _ _ _ _ _ D1) as E. rewrite decide_False in E by done.
    unfold set_tx_last, set_tx_full. cbn. by rewrite E.
Qed.

(** The loop stops at the first frame that is not on the wire. *)
Lemma oeth_tx_loop_spec fuel (Q : unit -> st -> Prop) s acc K L P C G :
  drv s acc K L P C G -> (length acc < L + fuel)%nat ->
  (forall s' P', (P <= P')%nat -> drv s' acc K P' P' C G ->
     (env s = [] -> dev s' = dev s /\ env s' = []) -> Q tt s') ->
  wp (oeth_tx_loop fuel) Q s.
Proof.
  revert s L P. induction fuel as [|fuel IH]; intros s L P D Hfuel HQ.
  { destruct (d_order _ _ _ _ _ _ _ D) as [HL _]. pose proof (d_P_range _ _ _ _ _ _ _ D). lia. }
  cbn [oeth_tx_loop]. pose proof TXN_pos as Hn. unfold the_cep.
  apply wp_bind. unfold wp at 1, gets. cbn beta iota.
  destruct (d_base _ _ _ _ _ _ _ D) as [Hb _].
  rewrite Hb, (d_last _ _ _ _ _ _ _ D), Z.add_0_l, <- (d_last _ _ _ _ _ _ _ D).
  apply wp_bind. rewrite (d_last _ _ _ _ _ _ _ D) at 1.
  apply (wp_tx_load _ s acc K L P C G _ D (slot_lt _ _ Hn)).
  intros s1 P1 bd HP1 D1 A Hbd _. rewrite <- (a_oi _ _ _ _ _ A).
  rewrite (oeth_tx_test _ _ _ _ _ _ _ _ D1 Hbd).
  assert (env s = [] -> dev s1 = dev s /\ env s1 = []) as Hquiet.
  { intros E. split; [by apply A|]. by rewrite (a_env _ _ _ _ _ A), E. }
  destruct (Nat.ltb_spec L P1) as [Hlt|Hge]; cbn [negb].
  - destruct (d_order _ _ _ _ _ _ _ D1) as [HKL _].
    apply (wp_tx_turn _ _ _ s1 acc K L P1 C G); try done.
    intros s2 D2 He Hd. apply (IH s2 (S L) P1 D2); [lia|].
    intros s3 P3 HP3 D3 Hq. apply (HQ s3 P3); [lia|done|].
    intros E. destruct (Hquiet E) as [E1 E2]. rewrite <- E1, <- Hd. apply Hq. congruence.
  - apply wp_ret. apply (HQ s1 P1); [done| |done].
    destruct (d_order _ _ _ _ _ _ _ D1) as [HKL _]. assert (L = P1) as <- by lia. done.
Qed.

Lemma wp_oeth_tx (Q : unit -> st -> Prop) s acc K L P C G :
  drv s acc K L P C G ->
  (forall s' P', (P <= P')%nat -> drv s' acc K P' P' C G ->
     (env s = [] -> dev s' = dev s /\ env s' = []) -> Q tt s') ->
  wp oeth_tx Q s.
Proof.
  intros D. apply (oeth_tx_loop_spec _ _ _ _ _ L); [done|].
  destruct (d_order _ _ _ _ _ _ _ D) as [_ HL]. lia.
Qed.

End Driver.

(** * Transmission: reporting keys and sending frames

    What [oeth_txdone] and [openeth_send] do to the invariant of the driver. *)

(** ** Marking an accepted frame as reported *)

Definition mark (c : nat) (acc : list entry) : list entry :=
  match acc !! c with Some e => <[c := (e.1, true)]> acc | None => acc end.

Lemma mark_fst c acc : map fst (mark c acc) = map fst acc.
Proof.
  unfold mark. destruct (acc !! c) as [e|] eqn:E; [|done].
  change (map ?f ?l) with (f <$> l). rewrite list_fmap_insert. cbn. apply list_insert_id.
  by rewrite list_lookup_fmap, E.
Qed.

Lemma frames_of_fst acc : frames_of acc = map snd (map fst acc).
Proof. unfold frames_of. by rewrite map_map. Qed.

Lemma mark_length c acc : length (mark c acc) = length acc.
Proof. rewrite <- (length_map fst), mark_fst. apply length_map. Qed.

Lemma mark_lookup c acc j e :
  mark c acc !! j = Some e ->
  (j = c /\ e.2 = true /\ exists e0, acc !! c = Some e0 /\ e.1 = e0.1) \/ (j <> c /\ acc !! j = Some e).
Proof.
  unfold mark. destruct (acc !! c) as [e0|] eqn:E.
  - destruct (decide (j = c)) as [->|Hne].
    + rewrite list_lookup_insert_eq by eauto using lookup_lt_Some. intros [= <-]. left. eauto.
    + rewrite list_lookup_insert_ne by done. auto.
  - intros H. destruct (decide (j = c)) as [->|]; [congruence|auto].
Qed.

Lemma mark_reported c acc k f :
  acc !! c = Some (k, f, false) -> reported (mark c acc) ≡ₚ k :: reported acc.
Proof.
  intros E. unfold mark, reported. rewrite E. pose proof (take_drop_middle _ _ _ E) as Hsplit.
  rewrite <- Hsplit at 2. rewrite insert_take_drop by eauto using lookup_lt_Some.
  rewrite !list_basics.list.filter_app, !map_app. cbn [fst]. rewrite filter_cons_True, filter_cons_False by done.
  cbn [map fst]. by rewrite Permutation_middle.
Qed.

(** Nothing that was reported is forgotten, and no frame changes. *)
Record progresses (acc acc' : list entry) : Prop := {
  pr_fst : map fst acc' = map fst acc;
  pr_true : forall c e, acc !! c = Some e -> e.2 = true -> acc' !! c = Some e;
}.

#[global] Instance progresses_preorder : PreOrder progresses.
Proof.
  split; [by intros acc; split|]. intros a1 a2 a3 [A1 A2] [B1 B2]. split; [congruence|]. eauto.
Qed.

Lemma mark_progresses c acc : progresses acc (mark c acc).
Proof.
  split; [apply mark_fst|]. intros j [e r] Hj. cbn. intros ->. unfold mark.
  destruct (acc !! c) as [e0|] eqn:E; [|done]. destruct (decide (j = c)) as [->|].
  - rewrite list_lookup_insert_eq by eauto using lookup_lt_Some. rewrite E in Hj. by injection Hj as ->.
  - by rewrite list_lookup_insert_ne by done.
Qed.

Section Tx.
Context {conf : OethConfig} {conf_ok : OethConfigOk}.

Abbreviation TXN := (Z.to_nat OETH_TXBD_NUM).

Lemma keys_ok_mark keys acc K P c e :
  keys_ok keys acc K P -> acc !! c = Some e -> (K <= c < P)%nat ->
  keys_ok (<[slot TXN c := 0]> keys) (mark c acc) K P.
Proof.
  intros [H1 H2 H3 H4 H5 H6 H7] Hc HP. pose proof (lookup_lt_Some _ _ _ Hc) as Hlt.
  pose proof (slot_lt TXN c TXN_pos) as Hs.
  split; rewrite ?mark_length, ?length_insert; try done.
  - intros j e' Hj HjK. apply mark_lookup in Hj as [(-> & ? & _)|(_ & Hj)]; [lia|]. by eapply H3.
  - intros j e' Hj HjK. apply mark_lookup in Hj as [(-> & -> & _)|(Hne & Hj)].
    + by rewrite list_lookup_insert_eq by lia.
    + rewrite list_lookup_insert_ne; [by apply H4|]. intros E.
      pose proof (lookup_lt_Some _ _ _ Hj). apply (slot_inj TXN K) in E; lia.
  - intros j e' Hj Hr. apply mark_lookup in Hj as [(-> & ? & _)|(_ & Hj)]; [lia|]. by eapply H5.
  - intros j e' Hj. apply mark_lookup in Hj as [(-> & _ & e0 & He0 & ->)|(_ & Hj)]; by eapply H6.
  - intros i Hi Hfree. rewrite list_lookup_insert_ne; [by apply H7|]. apply Hfree. lia.
Qed.

(** A key is passed to the stack. *)
Lemma drv_mark s acc K L P C G c k f :
  drv s acc K L P C G -> acc !! c = Some (k, f, false) -> (K <= c < P)%nat ->
  drv (set_log (log s ++ [TxDone k])
         (upd_cep (fun c' => set_tx_keys (<[slot TXN c := 0]> (tx_keys c')) c') s))
    (mark c acc) K L P C G.
Proof.
  intros [H1 H2 H3 H4 H5 H6 H7 H8 H9 H10 H11 H12] Hc HP.
  split; cbn; rewrite ?mark_length; try done.
  - by rewrite frames_of_fst, mark_fst, <- frames_of_fst.
  - by eapply keys_ok_mark.
  - rewrite txdones_app, (mark_reported _ _ _ _ Hc), H10. cbn. by rewrite Permutation_app_comm.
  - rewrite recvs_app. cbn. by rewrite app_nil_r.
Qed.

(** What the loads leave: nothing when the controller is quiet. *)
Definition quiet (s s' : st) : Prop := env s = [] -> dev s' = dev s /\ env s' = [].

Lemma quiet_refl s : quiet s s.
Proof. by intros E. Qed.

Lemma quiet_trans s1 s2 s3 : quiet s1 s2 -> quiet s2 s3 -> quiet s1 s3.
Proof. intros H1 H2 E. destruct (H1 E) as [<- E2]. by apply H2. Qed.

Lemma acted_quiet s s' P C frames : acted s s' P C frames -> quiet s s'.
Proof. intros A E. split; [by apply A|]. by rewrite (a_env _ _ _ _ _ A), E. Qed.

Lemma wp_report_key (Q : unit -> st -> Prop) s acc K L P C G i :
  drv s acc K L P C G -> (i < TXN)%nat ->
  (forall s' acc' P', (P <= P')%nat -> drv s' acc' K L P' C G -> progresses acc acc' ->
     (forall c e, (K <= c < P)%nat -> slot TXN c = i -> acc' !! c = Some e -> e.2 = true) ->
     quiet s s' -> Q tt s') ->
  wp (report_key (Z.of_nat i)) Q s.
Proof.
  intros D Hi HQ. unfold report_key, the_cep. apply wp_bind. unfold wp at 1, gets. cbn beta iota.
  destruct (d_base _ _ _ _ _ _ _ D) as [-> _]. rewrite Z.add_0_l.
  apply wp_bind, (wp_tx_load _ s acc K L P C G i D Hi). intros s1 P1 bd HP1 D1 A Hbd _.
  rewrite <- (a_oi _ _ _ _ _ A), Nat2Z.id. pose proof (acted_quiet _ _ _ _ _ A) as Hq.
  pose proof (d_keys _ _ _ _ _ _ _ D1) as KO. pose proof KO as [H1 H2 H3 H4 H5 H6 H7].
  destruct (lookup_lt_is_Some_2 (tx_keys (cep (oi s1))) i ltac:(lia)) as [k Hk]. rewrite Hk.
  pose proof (ready_iff _ _ _ _ _ _ (d_rings _ _ _ _ _ _ _ D1) Hi Hbd) as Hready.
  rewrite ready_flag. rewrite frames_length in Hready. pose proof (d_P_range _ _ _ _ _ _ _ D).
  apply wp_when; intros Hcond.
  - apply andb_true_iff in Hcond as [Hnz Hnr%negb_true_iff].
    assert (k <> 0) as Hk0 by (intros ->; done).
    destruct (occupied TXN K (length acc) i) as (c & Hc & Hci).
    { intros Hfree. rewrite H7 in Hk by done. congruence. }
    destruct (lookup_lt_is_Some_2 acc c ltac:(lia)) as [[[k' f] r] He].
    pose proof (H4 c _ He ltac:(lia)) as Hkey. rewrite Hci, Hk in Hkey. cbn in Hkey.
    destruct r; [congruence|]. injection Hkey as <-.
    assert (c < P1)%nat as HcP.
    { destruct (decide (c < P1)%nat); [done|]. rewrite (proj2 Hready) in Hnr; [done|].
      exists c. split; [lia|done]. }
    apply wp_bind, wp_modify, wp_modify. eapply (HQ _ (mark c acc) P1); [done| | | |].
    + rewrite <- Hci. apply (drv_mark _ _ _ _ _ _ _ c k f D1); [done|lia].
    + apply mark_progresses.
    + intros c' e' Hc' Es He'. assert (c' = c) as -> by (apply (slot_inj TXN K); lia || congruence).
      apply mark_lookup in He' as [(_ & ? & _)|(? & _)]; done.
    + exact Hq.
  - apply (HQ s1 acc P1); try done. intros c [[k' f] r] Hc Hci He. cbn.
    pose proof (H4 c _ He ltac:(lia)) as Hkey. rewrite Hci, Hk in Hkey. cbn in Hkey.
    destruct r; [done|]. injection Hkey as ->. pose proof (H6 _ _ He) as Hnz. cbn in Hnz.
    assert (ctrue k' = true) as Ek by (unfold ctrue; by destruct (Z.eqb_spec k' 0)).
    rewrite Ek in Hcond. apply negb_false_iff in Hcond. apply Hready in Hcond as (c' & Hc' & E).
    rewrite <- Hci in E. apply (slot_inj TXN K) in E; lia.
Qed.

Lemma report_loop n j (Q : unit -> st -> Prop) s acc K L P P0 C G :
  drv s acc K L P C G -> (P0 <= P)%nat -> (j + n = TXN)%nat ->
  (forall c e, (K <= c < P0)%nat -> (slot TXN c < j)%nat -> acc !! c = Some e -> e.2 = true) ->
  (forall s' acc' P', (P <= P')%nat -> drv s' acc' K L P' C G -> progresses acc acc' ->
     (forall c e, (K <= c < P0)%nat -> acc' !! c = Some e -> e.2 = true) -> quiet s s' -> Q tt s') ->
  wp (for_range n (Z.of_nat j) report_key) Q s.
Proof.
  revert j s acc P. induction n as [|n IH]; intros j s acc P D HP0 Hj Hdone HQ; cbn [for_range].
  - apply wp_ret, (HQ s acc P); try done.
    intros c e Hc He. apply (Hdone c e); try done. pose proof (slot_lt TXN c TXN_pos). lia.
  - apply wp_bind, (wp_report_key _ s acc K L P C G j D); [lia|].
    intros s1 acc1 P1 HP1 D1 HP Hi Hq1.
    replace (Z.of_nat j + 1) with (Z.of_nat (S j)) by lia.
    apply (IH (S j) s1 acc1 P1 D1); [lia|lia| |].
    + intros c e Hc Hs He. destruct (decide (slot TXN c = j)) as [E|].
      * apply (Hi c e); [lia|done|done].
      * destruct (lookup_lt_is_Some_2 acc c) as [e0 He0].
        { rewrite <- (length_map fst), <- (pr_fst _ _ HP), length_map. by eapply lookup_lt_Some. }
        pose proof (Hdone c e0 Hc ltac:(lia) He0) as Hr.
        pose proof (pr_true _ _ HP c e0 He0 Hr). congruence.
    + intros s2 acc2 P2 HP2 D2 Hpr Hall Hq2.
      apply (HQ s2 acc2 P2); [lia|done|by etrans|done|by eapply quiet_trans].
Qed.

(** The slots of frames that left the ring hold no key. *)
Lemma drv_collect s acc K L P C G :
  drv s acc K L P C G -> (forall c e, (c < L)%nat -> acc !! c = Some e -> e.2 = true) ->
  drv s acc L L P C G.
Proof.
  intros [H1 H2 H3 H4 H5 H6 H7 H8 H9 H10 H11 H12] Hall. split; try done; [lia|].
  destruct H9 as [J1 J2 J3 J4 J5 J6 J7]. split; try done; [lia|eauto| |].
  - intros c e Hc HcL. apply J4; [done|lia].
  - intros i Hi Hfree. destruct (decide (Exists (fun c => slot TXN c = i) (seq K (L - K)))) as [E|E].
    + apply Exists_exists in E as (c & Hc%list_elem_of_In%elem_of_seq & <-).
      destruct (decide (c < length acc)%nat) as [Hl|Hl].
      * destruct (lookup_lt_is_Some_2 acc c Hl) as [e He]. rewrite (J4 c e He) by lia.
        by rewrite (Hall c e) by (done || lia).
      * apply J7; [done|]. intros c' Hc'. apply Hfree. 
        destruct H2 as [HT _]. pose proof (tx_range _ _ _ HT). rewrite frames_length in *. lia.
    + apply J7; [done|]. intros c Hc Ei. destruct (decide (c < L)%nat).
      * apply E, Exists_exists. exists c. split; [|done]. apply list_elem_of_In, elem_of_seq. lia.
      * apply (Hfree c); [lia|done].
Qed.

(** [oeth_txdone] reports every frame that is on the wire when it starts, and
    only frames that are on the wire. *)
Lemma wp_oeth_txdone (Q : unit -> st -> Prop) s acc L P C G :
  drv s acc L L P C G ->
  (forall s' acc' L' P', (P <= L' <= P')%nat -> drv s' acc' L' L' P' C G -> progresses acc acc' ->
     (forall c e, (c < L')%nat -> acc' !! c = Some e -> e.2 = true) -> quiet s s' -> Q tt s') ->
  wp oeth_txdone Q s.
Proof.
  intros D HQ. unfold oeth_txdone. apply wp_bind, (wp_oeth_tx _ _ _ _ _ _ _ _ D).
  intros s1 P1 HP1 D1 Hq1.
  apply (report_loop TXN 0 _ s1 acc L P1 P1 P1 C G D1); [lia|lia|intros; lia|].
  intros s2 acc2 P2 HP2 D2 Hpr Hall Hq2.
  assert (forall c e, (c < P1)%nat -> acc2 !! c = Some e -> e.2 = true) as Hall'.
  { intros c e Hc He. destruct (decide (L <= c)%nat); [apply (Hall c e); [lia|done]|].
    eapply (k_old _ _ _ _ (d_keys _ _ _ _ _ _ _ D2)); [done|lia]. }
  apply (HQ s2 acc2 P1 P2); [lia|by eapply drv_collect|done|done|].
  by eapply quiet_trans.
Qed.

End Tx.
