(* ===== verification/OethSend.v ===== *)
(** * Sending a frame

    While [openeth_send] fills a descriptor it owns, the controller may act at
    each of its loads; [owns] is what stays known of the descriptor and of its
    buffer.  The last store hands the descriptor over. *)

From stdpp Require Import relations functions.
From S2P Require Import Prelude.
From S2P Require Import Ring.
From S2P Require Import Oeth.
From S2P Require Import OethFacts.
From S2P Require Import OethDriver.

Section Send.
Context {conf : OethConfig} {conf_ok : OethConfigOk}.

Abbreviation TXN := (Z.to_nat OETH_TXBD_NUM).
Abbreviation RXN := (Z.to_nat OETH_RXBD_NUM).

(** ** What the driver's stores do to the rings *)

Lemma rings_regs b P C frames r v : rings b P C frames -> rings (reg_write r v b) P C frames.
Proof. intros [HT HR]. split; [by apply (tx_board_ext b) | by apply (rx_board_ext b)]. Qed.

Lemma tx_index_lt b P C frames i : rings b P C frames -> (i < TXN)%nat -> (i < length (bds b))%nat.
Proof.
  intros [HT _] Hi. destruct (tx_bds _ _ _ HT i Hi) as (bd & Hbd & _). by eapply lookup_lt_Some.
Qed.

Lemma rx_board_tx_store b C i bd :
  (i < TXN)%nat -> rx_board b C -> rx_board (bd_put (Z.of_nat i) bd b) C.
Proof.
  intros Hi. apply rx_board_ext; try done. intros j Hj. cbn. rewrite Nat2Z.id.
  by rewrite list_lookup_insert_ne by lia.
Qed.

Lemma rings_bd_put b P C frames i bd ls :
  rings b P C frames -> (i < TXN)%nat -> free TXN P (length frames) i ->
  bds b !! i = Some bd -> flag15 ls = false ->
  rings (bd_put (Z.of_nat i) (set_len_status ls bd) b) P C frames.
Proof.
  intros HB Hi Hfree Hbd Hls. pose proof (tx_index_lt _ _ _ _ _ HB Hi) as Hlen.
  destruct HB as [HT HR]. split; [|by apply rx_board_tx_store].
  destruct (tx_bds _ _ _ HT i Hi) as (bd' & Hbd' & Had & _). rewrite Hbd in Hbd'. injection Hbd' as <-.
  destruct HT as [H1 H2 H3 H4 H5 H6]. split; cbn; rewrite ?Nat2Z.id; try done.
  - intros j Hj. destruct (decide (j = i)) as [->|Hne].
    + rewrite list_lookup_insert_eq by done. eauto.
    + rewrite list_lookup_insert_ne by done. by apply H5.
  - intros c f Hc Hf. rewrite list_lookup_insert_ne; [by apply H6|].
    apply not_eq_sym, Hfree. apply lookup_lt_Some in Hf. lia.
Qed.

Lemma rings_txbuff b P C frames i buf :
  rings b P C frames -> (i < TXN)%nat -> free TXN P (length frames) i -> length buf = buf_size ->
  rings (buffer_put (TxBuf (Z.of_nat i)) buf b) P C frames.
Proof.
  intros [HT HR] Hi Hfree Hlen. split; [|by apply (rx_board_ext b)].
  destruct HT as [H1 H2 H3 H4 H5 H6].
  destruct (H4 i Hi) as (buf0 & Hb0 & _). apply lookup_lt_Some in Hb0.
  split; cbn; rewrite ?Nat2Z.id; try done.
  - intros j Hj. destruct (decide (j = i)) as [->|Hne].
    + rewrite list_lookup_insert_eq by done. eauto.
    + rewrite list_lookup_insert_ne by done. by apply H4.
  - intros c f Hc Hf. rewrite list_lookup_insert_ne; [by apply H6|].
    apply not_eq_sym, Hfree. apply lookup_lt_Some in Hf. lia.
Qed.

(** The store that makes the descriptor ready adds the frame to the queue. *)
Lemma rings_hand_over b P C frames bd ls buf f :
  rings b P C frames -> (length frames < P + TXN)%nat ->
  bds b !! slot TXN (length frames) = Some bd ->
  txbuff b !! slot TXN (length frames) = Some buf ->
  flag15 ls = true -> f = take (Z.to_nat (Z.shiftr ls 16)) buf ->
  rings (bd_put (Z.of_nat (slot TXN (length frames))) (set_len_status ls bd) b) P C (frames ++ [f]).
Proof.
  intros HB Hroom Hbd Hbuf Hls Hf. set (N := length frames) in *.
  pose proof (slot_lt TXN N TXN_pos) as Hi. pose proof (tx_index_lt _ _ _ _ _ HB Hi) as Hlen.
  destruct HB as [HT HR]. split; [|by apply rx_board_tx_store].
  destruct (tx_bds _ _ _ HT _ Hi) as (bd' & Hbd' & Had & _). rewrite Hbd in Hbd'. injection Hbd' as <-.
  destruct HT as [H1 H2 H3 H4 H5 H6].
  split; cbn; rewrite ?Nat2Z.id, ?length_app; cbn [length]; fold N; try done.
  - fold N in H1. lia.
  - rewrite H3. fold N in H1. by rewrite take_app_le by lia.
  - intros j Hj. destruct (decide (j = slot TXN N)) as [->|Hne].
    + rewrite list_lookup_insert_eq by done. eexists. split_and!; [done|done|].
      intros Hfree. exfalso. apply (Hfree N); [fold N in H1; lia|done].
    + rewrite list_lookup_insert_ne by done. destruct (H5 j Hj) as (bd2 & Q1 & Q2 & Q3).
      exists bd2. split_and!; try done. intros Hfree. apply Q3. intros c Hc. apply Hfree. fold N in Hc. lia.
  - intros c g Hc. rewrite lookup_app_Some. intros [Hold|[Hge Hnew]].
    + pose proof (lookup_lt_Some _ _ _ Hold) as Hlt. fold N in Hlt. rewrite list_lookup_insert_ne.
      * by apply H6.
      * intros E. apply (slot_inj TXN P) in E; lia.
    + apply list_lookup_singleton_Some in Hnew as [Hc0 <-]. fold N in Hge, Hc0.
      assert (c = N) as -> by lia. rewrite list_lookup_insert_eq by done. eauto 10.
Qed.

(** ** A descriptor the driver owns *)

(** Descriptor [i] with the word [ls] and the buffer [buf]; [o] and [lg] are the
    driver's structure and the log, [T] the frames it has taken. *)
Record owns (s : st) (P C : nat) (frames : list (list Z)) (i : nat) (ls : Z) (buf : list Z)
    (o : oeth_info) (lg : list event) (T : list (Z * list Z)) : Prop := {
  o_env : Forall respects (env s);
  o_rings : rings (dev s) P C frames;
  o_slot : (i < TXN)%nat;
  o_free : free TXN P (length frames) i;
  o_bd : bds (dev s) !! i = Some (mkBd ls (TxBuf (Z.of_nat i)));
  o_flag : flag15 ls = false;
  o_buf : txbuff (dev s) !! i = Some buf;
  o_oi : oi s = o;
  o_log : log s = lg;
  o_taken : take C (heard (dev s)) = T;
}.

Lemma owns_acted s s' P P' C frames i ls buf o lg T :
  owns s P C frames i ls buf o lg T -> acted s s' P C frames -> (P <= P')%nat ->
  Forall respects (env s') -> rings (dev s') P' C frames ->
  owns s' P' C frames i ls buf o lg T.
Proof.
  intros [H1 H2 H3 H4 H5 H6 H7 H8 H9 H10] A HP He HB. pose proof (a_leaves _ _ _ _ _ A) as HK.
  split; try done.
  - by eapply free_shrink.
  - by rewrite (leaves_tx _ _ _ _ _ HK).
  - by rewrite (leaves_txbuff _ _ _ _ _ HK).
  - by rewrite (a_oi _ _ _ _ _ A).
  - by rewrite (a_log _ _ _ _ _ A).
  - by rewrite (acted_taken _ _ _ _ _ A).
Qed.

Section Owned.
Context (C : nat) (frames : list (list Z)) (i : nat) (T : list (Z * list Z)).

Lemma wp_owned_hw (Q : unit -> st -> Prop) s P ls buf o lg :
  owns s P C frames i ls buf o lg T ->
  (forall s' P', (P <= P')%nat -> owns s' P' C frames i ls buf o lg T -> Q tt s') -> wp hw Q s.
Proof.
  intros HO HQ. apply (wp_act _ s P C frames); [apply HO|apply HO|].
  intros s' P' HP He HB A. apply (HQ s' P' HP). by eapply owns_acted.
Qed.

Lemma wp_owned_load (Q : Z -> st -> Prop) s P ls buf o lg :
  owns s P C frames i ls buf o lg T ->
  (forall s' P', (P <= P')%nat -> owns s' P' C frames i ls buf o lg T -> Q ls s') ->
  wp (bd_load (Z.of_nat i)) Q s.
Proof.
  intros HO HQ. unfold bd_load. apply wp_bind, (wp_owned_hw _ _ _ _ _ _ _ HO).
  intros s' P' HP HO'. apply wp_bind. unfold wp, bd_at. rewrite Nat2Z.id.
  rewrite (o_bd _ _ _ _ _ _ _ _ _ _ HO'). by apply (HQ s' P').
Qed.

Lemma wp_owned_addr (Q : bufptr -> st -> Prop) s P ls buf o lg :
  owns s P C frames i ls buf o lg T ->
  (forall s' P', (P <= P')%nat -> owns s' P' C frames i ls buf o lg T -> Q (TxBuf (Z.of_nat i)) s') ->
  wp (bd_load_addr (Z.of_nat i)) Q s.
Proof.
  intros HO HQ. unfold bd_load_addr. apply wp_bind, (wp_owned_hw _ _ _ _ _ _ _ HO).
  intros s' P' HP HO'. apply wp_bind. unfold wp, bd_at. rewrite Nat2Z.id.
  rewrite (o_bd _ _ _ _ _ _ _ _ _ _ HO'). by apply (HQ s' P').
Qed.

Lemma wp_owned_save (Q : unit -> st -> Prop) s P ls buf o lg v :
  owns s P C frames i ls buf o lg T -> flag15 (u32 v) = false ->
  (forall s', owns s' P C frames i (u32 v) buf o lg T -> Q tt s') ->
  wp (bd_save (Z.of_nat i) v) Q s.
Proof.
  intros HO Hv HQ. unfold bd_save. apply wp_bind. unfold wp at 1, bd_at. rewrite Nat2Z.id.
  pose proof HO as [H1 H2 H3 H4 H5 H6 H7 H8 H9 H10]. rewrite H5. apply wp_modify, HQ.
  split; try done.
  - by apply rings_bd_put.
  - cbn. rewrite Nat2Z.id. by rewrite list_lookup_insert_eq by (by eapply lookup_lt_Some).
Qed.

Lemma wp_owned_orin (Q : unit -> st -> Prop) s P ls buf o lg v :
  owns s P C frames i ls buf o lg T -> flag15 v = false ->
  (forall s' P', (P <= P')%nat -> owns s' P' C frames i (u32 (Z.lor ls v)) buf o lg T -> Q tt s') ->
  wp (bd_orin (Z.of_nat i) v) Q s.
Proof.
  intros HO Hv HQ. unfold bd_orin. apply wp_bind, (wp_owned_load _ _ _ _ _ _ _ HO).
  intros s1 P1 HP HO1. apply (wp_owned_save _ _ _ _ _ _ _ _ HO1).
  - by rewrite flag15_lor, (o_flag _ _ _ _ _ _ _ _ _ _ HO1), Hv.
  - intros s2 HO2. by apply (HQ s2 P1).
Qed.

Lemma wp_owned_andin (Q : unit -> st -> Prop) s P ls buf o lg v :
  owns s P C frames i ls buf o lg T ->
  (forall s' P', (P <= P')%nat -> owns s' P' C frames i (u32 (Z.land ls v)) buf o lg T -> Q tt s') ->
  wp (bd_andin (Z.of_nat i) v) Q s.
Proof.
  intros HO HQ. unfold bd_andin. apply wp_bind, (wp_owned_load _ _ _ _ _ _ _ HO).
  intros s1 P1 HP HO1. apply (wp_owned_save _ _ _ _ _ _ _ _ HO1).
  - by rewrite flag15_land, (o_flag _ _ _ _ _ _ _ _ _ _ HO1).
  - intros s2 HO2. by apply (HQ s2 P1).
Qed.

Lemma wp_owned_cep (Q : unit -> st -> Prop) s P ls buf o lg f :
  owns s P C frames i ls buf o lg T ->
  (forall s', owns s' P C frames i ls buf (set_cep (f (cep o)) o) lg T -> Q tt s') ->
  wp (cep_set f) Q s.
Proof.
  intros [H1 H2 H3 H4 H5 H6 H7 H8 H9 H10] HQ. apply wp_modify, HQ. split; try done. cbn. by rewrite H8.
Qed.

Lemma wp_owned_the_cep (Q : oeth_private -> st -> Prop) s P ls buf o lg :
  owns s P C frames i ls buf o lg T -> Q (cep o) s -> wp the_cep Q s.
Proof. intros HO HQ. unfold wp, the_cep, gets. by rewrite (o_oi _ _ _ _ _ _ _ _ _ _ HO). Qed.

Lemma wp_owned_regandin (Q : unit -> st -> Prop) s P ls buf o lg r v :
  owns s P C frames i ls buf o lg T ->
  (forall s' P', (P <= P')%nat -> owns s' P' C frames i ls buf o lg T -> Q tt s') ->
  wp (OETH_REGANDIN r v) Q s.
Proof.
  intros HO HQ. unfold OETH_REGANDIN, OETH_REGLOAD.
  apply wp_bind, wp_bind, (wp_owned_hw _ _ _ _ _ _ _ HO). intros s1 P1 HP HO1.
  unfold wp at 1, gets. cbn beta iota. apply wp_modify, (HQ _ P1 HP).
  destruct HO1 as [H1 H2 H3 H4 H5 H6 H7 H8 H9 H10]. split; try done. by apply rings_regs.
Qed.

(** The pieces end up one after the other at the start of the buffer. *)
Lemma copy_pieces_spec pieces ec (Q : Z -> st -> Prop) s P ls pre rest o lg :
  owns s P C frames i ls (pre ++ rest) o lg T -> length (pre ++ rest) = buf_size ->
  ec = Z.of_nat (length pre) -> (length (concat pieces) <= length rest)%nat ->
  (forall s' rest', owns s' P C frames i ls (pre ++ concat pieces ++ rest') o lg T ->
     Q (ec + Z.of_nat (length (concat pieces))) s') ->
  wp (copy_pieces (TxBuf (Z.of_nat i)) ec pieces) Q s.
Proof.
  revert ec s pre rest. induction pieces as [|d pieces IH]; intros ec s pre rest HO Hsz Hec Hlen HQ;
    cbn [copy_pieces concat] in *.
  - apply wp_ret. specialize (HQ s rest HO). cbn in HQ. by rewrite Z.add_0_r in HQ.
  - rewrite length_app in Hlen. apply wp_bind. unfold wp at 1, copy_in. cbn [buffer_at].
    rewrite Nat2Z.id, (o_buf _ _ _ _ _ _ _ _ _ _ HO).
    rewrite (proj2 (Z.leb_le _ _)) by (rewrite length_app; lia).
    assert (take (Z.to_nat ec) (pre ++ rest) ++ d ++ drop (Z.to_nat ec + length d) (pre ++ rest)
            = (pre ++ d) ++ drop (length d) rest) as ->.
    { rewrite take_app_exact by lia. rewrite drop_app_ge by lia. rewrite <- app_assoc.
      do 3 f_equal. lia. }
    assert (length ((pre ++ d) ++ drop (length d) rest) = buf_size) as Hsz'.
    { rewrite <- Hsz, !length_app, length_drop. lia. }
    eapply (IH (ec + Z.of_nat (length d)) _ (pre ++ d)).
    + destruct HO as [H1 H2 H3 H4 H5 H6 H7 H8 H9 H10]. split; try done.
      * by apply rings_txbuff.
      * cbn. rewrite Nat2Z.id. by rewrite list_lookup_insert_eq by (by eapply lookup_lt_Some).
    + done.
    + rewrite length_app. lia.
    + rewrite length_drop. lia.
    + intros s' rest' HO'. rewrite <- app_assoc in HO'.
      specialize (HQ s' rest'). rewrite <- app_assoc in HQ. specialize (HQ HO').
      rewrite length_app in HQ. by rewrite Nat2Z.inj_add, Z.add_assoc in HQ.
Qed.

End Owned.

(** ** The whole operation *)

Lemma send_word_flag status len :
  flag15 status = false -> flag15 (u32 (Z.lor (Z.land status 65535) (Z.shiftl len 16))) = false.
Proof.
  intros H. rewrite flag15_lor, Z.land_spec, H. cbn [andb orb]. by apply Z.shiftl_spec_low.
Qed.

Lemma txn_bound : (TXN <= 128)%nat /\ Z.of_nat TXN = OETH_TXBD_NUM.
Proof.
  pose proof txn_pos. pose proof rxn_pos. pose proof bds_fit as H1. unfold OETH_TOTAL_BD in H1. lia.
Qed.

Lemma keys_ok_send keys acc L P key f :
  keys_ok keys acc L P -> (L <= length acc < L + TXN)%nat -> key <> 0 ->
  keys_ok (<[slot TXN (length acc) := key]> keys) (acc ++ [(key, f, false)]) L P.
Proof.
  intros [H1 H2 H3 H4 H5 H6 H7] HL Hkey. set (N := length acc) in *.
  pose proof (slot_lt TXN N TXN_pos) as Hs.
  assert (forall c e, (acc ++ [(key, f, false)]) !! c = Some e ->
    acc !! c = Some e \/ (c = N /\ e = (key, f, false))) as Hcase.
  { intros c e. rewrite lookup_app_Some. intros [?|[Hge Hn]]; [by left|right].
    apply list_lookup_singleton_Some in Hn as [Hc <-]. fold N in Hge, Hc. split; [lia|done]. }
  split; rewrite ?length_app, ?length_insert; cbn [length]; fold N; try lia.
  - intros c e [Hc|[-> ->]]%Hcase HcL; [by eapply H3|lia].
  - intros c e [Hc|[-> ->]]%Hcase HcL.
    + pose proof (lookup_lt_Some _ _ _ Hc) as Hlt. fold N in Hlt.
      rewrite list_lookup_insert_ne; [by apply H4|]. intros E. apply (slot_inj TXN L) in E; lia.
    + by rewrite list_lookup_insert_eq by lia.
  - intros c e [Hc|[-> ->]]%Hcase Hr; [by eapply H5|done].
  - intros c e [Hc|[-> ->]]%Hcase; [by eapply H6|done].
  - intros i Hi Hfree. rewrite list_lookup_insert_ne; [|apply Hfree; lia].
    apply H7; [done|]. intros c Hc. apply Hfree. lia.
Qed.

(** The pointers after a frame was added. *)
Definition sent_cep (c : oeth_private) : oeth_private :=
  let next := u32 (tx_next c + 1) in
  let c := set_tx_next (if next >=? OETH_TXBD_NUM then 0 else next) c in
  if tx_next c =? tx_last c then set_tx_full 1 c else c.

Lemma wp_advance_next (m : M st unit) (Q : unit -> st -> Prop) s P C frames i ls buf o lg T :
  owns s P C frames i ls buf o lg T ->
  (forall s', owns s' P C frames i ls buf (set_cep (sent_cep (cep o)) o) lg T -> wp m Q s') ->
  wp (cep_set (fun c => set_tx_next (u32 (tx_next c + 1)) c);;
      c ← the_cep;
      when (tx_next c >=? OETH_TXBD_NUM) (cep_set (set_tx_next 0));;
      c ← the_cep;
      when (tx_next c =? tx_last c) (cep_set (set_tx_full 1));; m) Q s.
Proof.
  intros HO HQ. apply wp_bind, (wp_owned_cep _ _ _ _ _ _ _ _ _ _ _ _ HO). intros s1 HO1.
  apply wp_bind, (wp_owned_the_cep _ _ _ _ _ _ _ _ _ _ _ HO1). cbn [cep set_cep tx_next set_tx_next].
  set (next := u32 (tx_next (cep o) + 1)) in *. apply wp_bind.
  assert (forall s2 v, v = (if next >=? OETH_TXBD_NUM then 0 else next) ->
    owns s2 P C frames i ls buf (set_cep (set_tx_next v (cep o)) o) lg T ->
    wp (c ← the_cep; when (tx_next c =? tx_last c) (cep_set (set_tx_full 1));; m) Q s2) as Hrest.
  { intros s2 v Hv HO2. apply wp_bind, (wp_owned_the_cep _ _ _ _ _ _ _ _ _ _ _ HO2).
    cbn [cep set_cep tx_next set_tx_next tx_last]. apply wp_bind, wp_when; intros Heq.
    - apply (wp_owned_cep _ _ _ _ _ _ _ _ _ _ _ _ HO2). intros s3 HO3. apply HQ.
      unfold sent_cep. fold next. rewrite <- Hv. cbn [tx_next set_tx_next tx_last]. by rewrite Heq.
    - apply HQ. unfold sent_cep. fold next. rewrite <- Hv. cbn [tx_next set_tx_next tx_last].
      by rewrite Heq. }
  apply wp_when; intros Hge.
  - apply (wp_owned_cep _ _ _ _ _ _ _ _ _ _ _ _ HO1). intros s2 HO2.
    apply (Hrest s2 0); [by rewrite Hge|done].
  - apply (Hrest s1 next); [by rewrite Hge|done].
Qed.

(** The last store, and the restart of the transmitter of a ring of one. *)
Lemma wp_hand_over (Q : unit -> st -> Prop) s P C frames ls buf o lg T f :
  owns s P C frames (slot TXN (length frames)) ls buf o lg T ->
  (length frames < P + TXN)%nat ->
  f = take (Z.to_nat (Z.shiftr (u32 (Z.lor ls (flags [OETH_TX_BD_READY; OETH_TX_BD_IRQ; OETH_TX_BD_CRC]))) 16))
        buf ->
  (forall s' P', (P <= P')%nat -> Forall respects (env s') ->
     rings (dev s') P' C (frames ++ [f]) -> oi s' = o ->
     log s' = lg -> take C (heard (dev s')) = T -> Q tt s') ->
  wp (bd_orin (Z.of_nat (slot TXN (length frames)))
        (flags [OETH_TX_BD_READY; OETH_TX_BD_IRQ; OETH_TX_BD_CRC]);;
      when (OETH_TXBD_NUM =? 1) (OETH_REGORIN moder OETH_MODER_TXEN)) Q s.
Proof.
  intros HO Hroom Hf HQ. set (w := flags _) in *. unfold bd_orin.
  apply wp_bind, wp_bind, (wp_owned_load _ _ _ _ _ _ _ _ _ _ _ HO). intros s1 P1 HP1 HO1.
  unfold bd_save. apply wp_bind. unfold wp at 1, bd_at. rewrite Nat2Z.id.
  pose proof HO1 as [H1 H2 H3 H4 H5 H6 H7 H8 H9 H10]. rewrite H5. apply wp_modify.
  set (s2 := upd_dev _ s1).
  assert (rings (dev s2) P1 C (frames ++ [f])) as HB2.
  { eapply rings_hand_over; [done|lia|done|done| |done]. by rewrite flag15_lor, orb_true_r. }
  apply wp_when; intros _.
  - unfold OETH_REGORIN, OETH_REGLOAD. apply wp_bind, wp_bind, (wp_act _ s2 P1 C (frames ++ [f])); [done..|].
    intros s3 P3 HP3 He3 HB3 A. unfold wp at 1, gets. cbn beta iota. apply wp_modify.
    apply (HQ _ P3); [lia|done|by apply rings_regs| | |]; cbn.
    + by rewrite (a_oi _ _ _ _ _ A).
    + by rewrite (a_log _ _ _ _ _ A).
    + by rewrite (acted_taken _ _ _ _ _ A HB2).
  - by apply (HQ s2 P1).
Qed.

Lemma send_frame_spec (Q : unit -> st -> Prop) s P C frames ls buf o lg T pieces total_len :
  owns s P C frames (slot TXN (length frames)) ls buf o lg T ->
  length buf = buf_size -> (length frames < P + TXN)%nat ->
  total_len = Z.of_nat (length (concat pieces)) -> total_len <= OETH_TX_BUFF_SIZE ->
  (forall s' P', (P <= P')%nat -> Forall respects (env s') ->
     rings (dev s') P' C (frames ++ [concat pieces]) -> oi s' = set_cep (sent_cep (cep o)) o ->
     log s' = lg -> take C (heard (dev s')) = T -> Q tt s') ->
  wp (send_frame (Z.of_nat (slot TXN (length frames))) pieces total_len) Q s.
Proof.
  intros HO Hsz Hroom Htot Hmax HQ. set (i := slot TXN (length frames)) in *.
  unfold send_frame. pose proof buf_size_ge as Hbig. change OETH_TX_BUFF_SIZE with OETH_MAX_FRAME_SIZE in Hmax.
  apply wp_bind, (wp_owned_addr _ _ _ _ _ _ _ _ _ _ _ HO). intros s1 P1 HP1 HO1.
  apply wp_bind, (copy_pieces_spec _ _ _ _ pieces 0 _ _ _ _ [] buf _ _ HO1); [done|done|lia|].
  intros s2 rest HO2. cbn [app] in HO2. rewrite Z.add_0_l, <- Htot, Z.eqb_refl. cbn [negb when].
  apply wp_bind, wp_ret, wp_bind, (wp_owned_load _ _ _ _ _ _ _ _ _ _ _ HO2). intros s3 P3 HP3 HO3.
  apply wp_bind, (wp_owned_save _ _ _ _ _ _ _ _ _ _ _ _ HO3).
  { apply send_word_flag, HO3. }
  intros s4 HO4. apply (wp_advance_next _ _ _ _ _ _ _ _ _ _ _ _ HO4). intros s5 HO5.
  assert (forall s6 P6, (P3 <= P6)%nat ->
    owns s6 P6 C frames i (u32 (Z.lor (Z.land ls 65535) (Z.shiftl total_len 16)))
      (concat pieces ++ rest) (set_cep (sent_cep (cep o)) o) lg T ->
    wp (bd_orin (Z.of_nat i) (flags [OETH_TX_BD_READY; OETH_TX_BD_IRQ; OETH_TX_BD_CRC]);;
        when (OETH_TXBD_NUM =? 1) (OETH_REGORIN moder OETH_MODER_TXEN)) Q s6) as Hlast.
  { intros s6 P6 HP6 HO6. eapply (wp_hand_over _ _ _ _ _ _ _ _ _ _ (concat pieces) HO6); [lia| |].
    - assert (OETH_MAX_FRAME_SIZE = 1520) as Emax by done.
      rewrite tx_word_length by (done || lia). by rewrite take_app_exact by lia.
    - intros s7 P7 HP7. apply HQ. lia. }
  apply wp_bind, wp_when; intros _; [|by apply (Hlast s5 P3)].
  apply (wp_owned_regandin _ _ _ _ _ _ _ _ _ _ _ _ _ HO5). intros s6 P6 HP6. by apply Hlast.
Qed.

(** The pointers [sent_cep] computes are those of the longer queue. *)
Lemma sent_cep_ok c L N :
  tx_last c = Z.of_nat (slot TXN L) -> tx_next c = Z.of_nat (slot TXN N) -> tx_full c = 0 ->
  (L <= N < L + TXN)%nat ->
  tx_next (sent_cep c) = Z.of_nat (slot TXN (S N)) /\
  tx_full (sent_cep c) = (if decide (S N = L + TXN)%nat then 1 else 0) /\
  tx_last (sent_cep c) = tx_last c /\ rx_cur (sent_cep c) = rx_cur c /\
  tx_bd_base (sent_cep c) = tx_bd_base c /\ rx_bd_base (sent_cep c) = rx_bd_base c /\
  tx_keys (sent_cep c) = tx_keys c.
Proof.
  intros Hl Hn Hf HN. destruct txn_bound as [Hb Htx]. pose proof TXN_pos as Hp.
  pose proof (wrap_next TXN N ltac:(lia)) as Hw. rewrite Htx in Hw.
  unfold sent_cep. rewrite Hn, Hw.
  cbn [tx_next set_tx_next tx_last]. rewrite Hl.
  assert (slot TXN (S N) = slot TXN L <-> S N = L + TXN)%nat as Hiff.
  { rewrite <- (slot_wrap TXN L) by done. split; [|congruence].
    intros E. apply (slot_inj TXN (S L)) in E; lia. }
  destruct (Z.eqb_spec (Z.of_nat (slot TXN (S N))) (Z.of_nat (slot TXN L))) as [E|E].
  - rewrite decide_True by (apply Hiff; lia). by cbn.
  - rewrite decide_False by (intros E2%Hiff; lia). by cbn.
Qed.

(** The invariant with the frame added. *)
Lemma drv_send s s' acc L P P' C G key f o :
  drv s acc L L P C G -> (length acc < L + TXN)%nat -> key <> 0 -> (P <= P')%nat ->
  o = set_cep (set_tx_keys (<[slot TXN (length acc) := key]> (tx_keys (cep (oi s)))) (cep (oi s))) (oi s) ->
  Forall respects (env s') -> rings (dev s') P' C (frames_of acc ++ [f]) ->
  oi s' = set_cep (sent_cep (cep o)) o -> log s' = log s ->
  take C (heard (dev s')) = take C (heard (dev s)) ->
  drv s' (acc ++ [(key, f, false)]) L L P' C G.
Proof.
  intros D Hroom Hkey HP -> He HB Hoi Hlg Hta. pose proof (d_P_range _ _ _ _ _ _ _ D) as HPN.
  destruct D as [H1 H2 H3 H4 H5 H6 H7 H8 H9 H10 H11 H12]. rewrite decide_False in H6 by lia.
  set (c0 := set_tx_keys _ _) in Hoi.
  destruct (sent_cep_ok c0 L (length acc)) as (E1 & E2 & E3 & E4 & E5 & E6 & E7); try done; [lia|].
  split; rewrite ?Hoi, ?Hlg, ?Hta, ?length_app; cbn [length cep set_cep];
    rewrite ?E1, ?E2, ?E3, ?E4, ?E5, ?E6, ?E7, ?Nat.add_1_r; try done.
  - by rewrite !frames_of_fst, map_app, map_app, <- frames_of_fst.
  - lia.
  - cbn. apply (keys_ok_mono _ _ _ P); [lia|]. apply keys_ok_send; [done|lia|done].
  - rewrite H10. unfold reported. rewrite list_basics.list.filter_app.
    rewrite filter_cons_False by done. cbn. by rewrite app_nil_r.
Qed.

(** A frame the ring has room for is added to the queue. *)
Lemma wp_openeth_send (Q : unit -> st -> Prop) s acc L P C G pieces key :
  drv s acc L L P C G -> (length acc < L + TXN)%nat -> key <> 0 -> is_u32 key ->
  Z.of_nat (length (concat pieces)) <= OETH_TX_BUFF_SIZE ->
  (forall s' P', (P <= P')%nat -> drv s' (acc ++ [(key, concat pieces, false)]) L L P' C G -> Q tt s') ->
  wp (openeth_send pieces (Z.of_nat (length (concat pieces))) key) Q s.
Proof.
  intros D Hroom Hkey Hk32 Hmax HQ. pose proof TXN_pos as Hn. destruct txn_bound as [Hb Htx].
  pose proof (d_P_range _ _ _ _ _ _ _ D) as HPN. destruct (d_order _ _ _ _ _ _ _ D) as [HLP HLN].
  pose proof (slot_lt TXN (length acc) Hn) as Hi. set (i := slot TXN (length acc)) in *.
  set (o := set_cep (set_tx_keys (<[i := key]> (tx_keys (cep (oi s)))) (cep (oi s))) (oi s)).
  assert (exists ls buf, length buf = buf_size /\ owns (set_oi o s) P C (frames_of acc) i ls buf o
            (log s) (take C (heard (dev s)))) as (ls & buf & Hsz & HO).
  { destruct (d_rings _ _ _ _ _ _ _ D) as [HT HR].
    destruct (tx_bds _ _ _ HT i Hi) as ([ls ad] & Hbd & Had & Hfl). cbn in Had. subst ad.
    destruct (tx_bufs _ _ _ HT i Hi) as (buf & Hbuf & Hsz).
    assert (free TXN P (length (frames_of acc)) i) as Hfree.
    { rewrite frames_length. apply free_next. lia. }
    exists ls, buf. split; [done|]. split; try done; [apply D|by apply Hfl]. }
  unfold openeth_send, the_cep. apply wp_bind. unfold wp at 1, gets. cbn beta iota.
  pose proof (d_keys _ _ _ _ _ _ _ D) as KO. destruct (d_base _ _ _ _ _ _ _ D) as [Htb Hrb].
  pose proof (d_next _ _ _ _ _ _ _ D) as Hnext. pose proof (d_full _ _ _ _ _ _ _ D) as Hfull.
  rewrite decide_False in Hfull by lia. fold i in Hnext. rewrite (k_length _ _ _ _ KO), Hnext, Htb, Z.add_0_l.
  rewrite (proj2 (Z.leb_gt _ _)) by lia.
  apply wp_bind, wp_modify. cbn beta. unfold upd_cep. rewrite Hnext, Nat2Z.id, u32_id by done. fold o.
  apply wp_bind, (wp_owned_load _ _ _ _ _ _ _ _ _ _ _ HO). intros s1 P1 HP1 HO1.
  rewrite ready_flag', (o_flag _ _ _ _ _ _ _ _ _ _ HO1), Hfull. cbn [ctrue Z.eqb negb].
  apply wp_bind, (wp_owned_andin _ _ _ _ _ _ _ _ _ _ _ _ HO1). intros s2 P2 HP2 HO2.
  assert (forall s3 P3 ls3, (P <= P3)%nat ->
    owns s3 P3 C (frames_of acc) i ls3 buf o (log s) (take C (heard (dev s))) ->
    wp (if Z.of_nat (length (concat pieces)) >? OETH_TX_BUFF_SIZE
        then diag_printf "openeth: tx frame too long!."
        else send_frame (Z.of_nat i) pieces (Z.of_nat (length (concat pieces)))) Q s3) as Hrest.
  { intros s3 P3 ls3 HP3 HO3. destruct (Z.gtb_spec (Z.of_nat (length (concat pieces))) OETH_TX_BUFF_SIZE); [lia|].
    unfold i in HO3 |- *. rewrite <- (frames_length acc) in HO3 |- *.
    apply (send_frame_spec _ _ _ _ _ _ _ _ _ _ _ _ HO3); [done|rewrite frames_length; lia|done|done|].
    intros s4 P4 HP4 He HB Hoi Hlg Hta. apply (HQ s4 P4); [lia|].
    eapply (drv_send s); try done. lia. }
  apply wp_bind. destruct (_ <=? _); [eapply (wp_owned_orin _ _ _ _ _ _ _ _ _ _ _ _ HO2); [done|]
    |eapply (wp_owned_andin _ _ _ _ _ _ _ _ _ _ _ _ HO2)]; intros s3 P3 HP3 HO3; (eapply Hrest; [|done]); lia.
Qed.

End Send.
