(* ===== verification/OethRx.v ===== *)
(** * Reception

    What [openeth_rxready] does to the invariant of the driver: it takes every
    frame out of the ring, in order, and passes the bytes up, until the first
    frame with an error; the rest of the call drops what it takes. *)

From stdpp Require Import relations functions.
From S2P Require Import Prelude.
From S2P Require Import Ring.
From S2P Require Import Oeth.
From S2P Require Import OethFacts.
From S2P Require Import OethDriver.

Section Rx.
Context {conf : OethConfig} {conf_ok : OethConfigOk}.

Abbreviation TXN := (Z.to_nat OETH_TXBD_NUM).
Abbreviation RXN := (Z.to_nat OETH_RXBD_NUM).

(** The stack takes every frame: it offers buffers that have room for it. *)
Definition room (sg : list (bool * Z)) : Z := foldr (fun b n => b.2 + n) 0 sg.

Definition usable (sg : list (bool * Z)) : Prop := Forall (fun b => b.1 = false /\ 0 < b.2) sg.

Lemma room_nonneg sg : usable sg -> 0 <= room sg.
Proof. induction 1 as [|[n l] sg [_ H] _ IH]; cbn in *; [done|]. fold (room sg). lia. Qed.

Class StackTakes := stack_takes : forall h len, 64 <= len <= OETH_RX_BUFF_SIZE ->
  exists sg, eth_drv_recv h len = Some sg /\ usable sg /\ len <= room sg.

(** ** Scattering a frame *)

Lemma scatter_out_spec sg p off pkt_len (Q : list (list Z) * option Z -> st -> Prop) s buf :
  buffer_at p (dev s) = Some buf -> usable sg -> 0 <= pkt_len <= room sg -> 0 <= off ->
  off + pkt_len <= Z.of_nat (length buf) ->
  (forall chunks, concat chunks = take (Z.to_nat pkt_len) (drop (Z.to_nat off) buf) ->
     Q (chunks, Some 0) s) ->
  wp (scatter_out p off pkt_len sg) Q s.
Proof.
  intros Hbuf. revert off pkt_len Q.
  induction sg as [|[null len] sg IH]; intros off pkt_len Q Hus Hroom Hoff Hlen HQ; cbn [scatter_out].
  - cbn in Hroom. assert (pkt_len = 0) as -> by lia. apply wp_ret, (HQ []). done.
  - apply Forall_cons_1 in Hus as [[Hn Hl] Hus]. cbn in Hn, Hl, Hroom. fold (room sg) in Hroom.
    subst null.
    rewrite (proj2 (Z.leb_gt len 0)) by lia. cbn [orb].
    assert ((if len >? pkt_len then pkt_len else len) = Z.min len pkt_len) as ->.
    { destruct (Z.gtb_spec len pkt_len); lia. }
    set (k := Z.min len pkt_len). apply wp_bind. unfold wp at 1, copy_from. rewrite Hbuf.
    rewrite (proj2 (Z.leb_le 0 k)), (proj2 (Z.leb_le (off + k) _)) by lia. cbn [andb].
    pose proof (room_nonneg _ Hus). apply wp_bind, IH; [done|lia|lia|lia|]. intros chunks Hch. apply wp_ret, HQ. cbn [concat fst].
    rewrite Hch. replace (Z.to_nat pkt_len) with (Z.to_nat k + Z.to_nat (pkt_len - k))%nat by lia.
    rewrite <- take_take_drop, drop_drop. do 3 f_equal. lia.
Qed.

Lemma packetLength_word ls d : rx_word ls d -> packetLength ls = Z.of_nat (length d).
Proof.
  intros (H1 & H2 & H3 & H4). unfold packetLength. rewrite s32_id; [done|].
  unfold is_u32 in H1. rewrite Z.shiftr_div_pow2 in H3 by lia.
  change OETH_RX_BUFF_SIZE with 1520 in H4. change (2 ^ 16) with 65536 in H3.
  pose proof (Z.div_mod ls 65536 ltac:(lia)). pose proof (Z.mod_pos_bound ls 65536 ltac:(lia)). lia.
Qed.

(** ** The descriptor at the driver's position *)

Lemma wp_rx_at (Q : oeth_bd -> st -> Prop) s acc L P C G :
  drv s acc L L P C G ->
  (forall bd, bds (dev s) !! (TXN + slot RXN C)%nat = Some bd ->
     addr bd = RxBuf (Z.of_nat (slot RXN C)) ->
     flag15 (len_status bd) = negb (C <? length (heard (dev s)))%nat -> Q bd s) ->
  wp (bd_at (rx_bd_base (cep (oi s)) + rx_cur (cep (oi s)))) Q s.
Proof.
  intros D HQ. pose proof RXN_pos as Hm. pose proof txn_pos as Hn.
  destruct (d_base _ _ _ _ _ _ _ D) as [_ Hb]. rewrite Hb, (d_cur _ _ _ _ _ _ _ D).
  destruct (d_rings _ _ _ _ _ _ _ D) as [_ HR]. pose proof (slot_lt RXN C Hm) as Hs.
  destruct (rx_bds _ _ HR _ Hs) as (bd & Hbd & Had & Hfl). unfold wp, bd_at.
  replace (Z.to_nat (OETH_TXBD_NUM + Z.of_nat (slot RXN C))) with (TXN + slot RXN C)%nat by lia.
  rewrite Hbd. apply HQ; try done.
  pose proof (rx_range _ _ HR) as Hr. destruct (Nat.ltb_spec C (length (heard (dev s)))) as [Hlt|Hge]; cbn [negb].
  - destruct (lookup_lt_is_Some_2 _ _ Hlt) as [[ls d] Hh].
    destruct (rx_queue _ _ HR C ls d ltac:(lia) Hh) as (bd' & buf & Hbd' & Hls & Hw & _).
    rewrite Hbd in Hbd'. injection Hbd' as <-. rewrite Hls. apply Hw.
  - apply Hfl. intros c Hc. lia.
Qed.

(** The frame that is next in the ring. *)
Lemma rx_next s acc L P C G bd :
  drv s acc L L P C G -> (C < length (heard (dev s)))%nat ->
  bds (dev s) !! (TXN + slot RXN C)%nat = Some bd ->
  exists d buf, heard (dev s) !! C = Some (len_status bd, d) /\ rx_word (len_status bd) d /\
    rxbuff (dev s) !! slot RXN C = Some buf /\ take (length d) buf = d /\ length buf = buf_size.
Proof.
  intros D Hlt Hbd. destruct (d_rings _ _ _ _ _ _ _ D) as [_ HR].
  destruct (lookup_lt_is_Some_2 _ _ Hlt) as [[ls d] Hh].
  destruct (rx_queue _ _ HR C ls d ltac:(lia) Hh) as (bd' & buf & Hbd' & Hls & Hw & Hbuf & Htk).
  rewrite Hbd in Hbd'. injection Hbd' as <-. rewrite Hls.
  destruct (rx_bufs _ _ HR _ (slot_lt RXN C RXN_pos)) as (buf' & Hbuf' & Hsz).
  rewrite Hbuf in Hbuf'. injection Hbuf' as <-. eauto 10.
Qed.

Lemma wp_rx_load (Q : Z -> st -> Prop) s acc L P C G :
  drv s acc L L P C G ->
  (forall s' P' bd, (P <= P')%nat -> drv s' acc L L P' C G -> acted s s' P C (frames_of acc) ->
     bds (dev s') !! (TXN + slot RXN C)%nat = Some bd ->
     flag15 (len_status bd) = negb (C <? length (heard (dev s')))%nat -> Q (len_status bd) s') ->
  wp (bd_load (rx_bd_base (cep (oi s)) + rx_cur (cep (oi s)))) Q s.
Proof.
  intros D HQ. unfold bd_load. apply wp_bind, (wp_hw _ _ _ _ _ _ _ _ D). intros s' P' HP D' A.
  rewrite <- (a_oi _ _ _ _ _ A). apply wp_bind, (wp_rx_at _ _ _ _ _ _ _ D').
  intros bd Hbd _ Hfl. by apply (HQ s' P' bd).
Qed.

Lemma wp_rx_addr (Q : bufptr -> st -> Prop) s acc L P C G :
  drv s acc L L P C G ->
  (forall s' P', (P <= P')%nat -> drv s' acc L L P' C G -> acted s s' P C (frames_of acc) ->
     Q (RxBuf (Z.of_nat (slot RXN C))) s') ->
  wp (bd_load_addr (rx_bd_base (cep (oi s)) + rx_cur (cep (oi s)))) Q s.
Proof.
  intros D HQ. unfold bd_load_addr. apply wp_bind, (wp_hw _ _ _ _ _ _ _ _ D). intros s' P' HP D' A.
  rewrite <- (a_oi _ _ _ _ _ A). apply wp_bind, (wp_rx_at _ _ _ _ _ _ _ D').
  intros bd Hbd Had _. apply wp_ret. rewrite Had. by apply (HQ s' P').
Qed.

(** A frame that is in the ring stays there. *)
Lemma acted_heard s s' P C frames f :
  acted s s' P C frames -> heard (dev s) !! C = Some f -> heard (dev s') !! C = Some f.
Proof.
  intros A. destruct (leaves_heard _ _ _ _ _ (a_leaves _ _ _ _ _ A)) as [k ->].
  intros H. by apply lookup_app_l_Some.
Qed.

(** [openeth_recv] hands the bytes of the frame to the stack. *)
Lemma wp_openeth_recv (Q : list (list Z) -> st -> Prop) s acc L P C G ls d sg :
  drv s acc L L P C G -> heard (dev s) !! C = Some (ls, d) ->
  usable sg -> Z.of_nat (length d) <= room sg ->
  (forall s' P' chunks, (P <= P')%nat -> drv s' acc L L P' C G -> heard (dev s') !! C = Some (ls, d) ->
     (length (env s') <= length (env s))%nat -> quiet s s' ->
     cep (oi s') = set_stats (stats (cep (oi s'))) (cep (oi s)) -> concat chunks = d -> Q chunks s') ->
  wp (openeth_recv sg) Q s.
Proof.
  intros D Hh Hus Hroom HQ. unfold openeth_recv, the_cep. apply wp_bind. unfold wp at 1, gets. cbn beta iota.
  apply wp_bind, (wp_rx_load _ _ _ _ _ _ _ D). intros s1 P1 bd HP1 D1 A1 Hbd Hfl.
  pose proof (acted_heard _ _ _ _ _ _ A1 Hh) as Hh1.
  destruct (rx_next _ _ _ _ _ _ _ D1 ltac:(by eapply lookup_lt_Some) Hbd) as (d' & _ & Hh1' & Hw & _).
  rewrite Hh1 in Hh1'. injection Hh1' as -> <-. rewrite (packetLength_word _ _ Hw).
  rewrite <- (a_oi _ _ _ _ _ A1). apply wp_bind, (wp_rx_addr _ _ _ _ _ _ _ D1). intros s2 P2 HP2 D2 A2.
  pose proof (acted_heard _ _ _ _ _ _ A2 Hh1) as Hh2.
  destruct (d_rings _ _ _ _ _ _ _ D2) as [_ HR].
  destruct (rx_queue _ _ HR C _ d ltac:(lia) Hh2) as (bd2 & buf & _ & _ & _ & Hbuf & Htk).
  destruct (rx_bufs _ _ HR _ (slot_lt RXN C RXN_pos)) as (buf' & Hbuf' & Hsz).
  rewrite Hbuf in Hbuf'. injection Hbuf' as <-. pose proof buf_size_ge as Hge.
  destruct Hw as (_ & _ & _ & Hmax). change OETH_RX_BUFF_SIZE with OETH_MAX_FRAME_SIZE in Hmax.
  apply wp_bind, (scatter_out_spec _ _ _ _ _ _ buf); [by cbn; rewrite Nat2Z.id|done|lia|lia|lia|].
  intros chunks Hch. cbn [fst snd when Z.ltb Z.compare]. apply wp_bind, wp_ret, wp_bind.
  apply wp_minor; [apply _|]. intros _ s3 Hm. apply wp_ret.
  apply (HQ s3 P2); [lia|by eapply drv_minor|by rewrite (m_dev _ _ Hm)| | | |].
  - rewrite (m_env _ _ Hm), (a_env _ _ _ _ _ A2), (a_env _ _ _ _ _ A1).
    destruct (env s) as [|? [|? ?]]; cbn; lia.
  - intros E. rewrite (m_dev _ _ Hm), (m_env _ _ Hm).
    apply (quiet_trans s s1 s2); [by eapply acted_quiet..|done].
  - rewrite <- (a_oi _ _ _ _ _ A1), <- (a_oi _ _ _ _ _ A2).
    rewrite <- (m_cep _ _ Hm (stats (cep (oi s3)))). by destruct (cep (oi s3)).
  - rewrite Hch. cbn [Z.to_nat drop]. by rewrite Nat2Z.id, drop_0.
Qed.

(** ** One turn of the loop *)

Lemma wp_rx_check (Q : bool -> st -> Prop) s bad ls d :
  rx_word ls d ->
  (forall s', minor s s' -> Q (bad || rx_bad (ls, d)) s') -> wp (rx_check bad ls) Q s.
Proof.
  intros Hw HQ. unfold rx_check. rewrite (packetLength_word _ _ Hw). unfold rx_bad in HQ. cbn [fst snd] in HQ.
  do 5 (apply wp_bind, wp_minor; [apply _|]; intros [] ? ?).
  do 2 (apply wp_bind, wp_minor; [apply _|]; intros [] ? ?). apply wp_ret.
  match goal with |- Q ?b ?s' =>
    replace b with (bad || rx_bad (ls, d)); [apply HQ; repeat (etrans; [done|]); done|] end.
  unfold rx_bad. cbn [fst snd]. repeat destruct (ctrue _); destruct bad, (_ <? 64); done.
Qed.

(** The descriptor goes back to the controller. *)
Lemma rings_rx_free b P C frames bd ls :
  rings b P C frames -> (C < length (heard b))%nat ->
  bds b !! (TXN + slot RXN C)%nat = Some bd -> flag15 ls = true ->
  rings (bd_put (Z.of_nat (TXN + slot RXN C)) (set_len_status ls bd) b) P (S C) frames.
Proof.
  intros [HT HR] Hlt Hbd Hls. pose proof (lookup_lt_Some _ _ _ Hbd) as Hlen.
  pose proof (slot_lt RXN C RXN_pos) as Hs. split.
  { apply (tx_board_ext b); try done. intros j Hj. cbn. rewrite Nat2Z.id.
    by rewrite list_lookup_insert_ne by lia. }
  destruct (rx_bds _ _ HR _ Hs) as (bd' & Hbd' & Had & _). rewrite Hbd in Hbd'. injection Hbd' as <-.
  destruct HR as [H1 H2 H3 H4 H5]. split; cbn; rewrite ?Nat2Z.id; try done; [lia| |].
  - intros j Hj. destruct (decide (j = slot RXN C)) as [->|Hne].
    + rewrite list_lookup_insert_eq by done. eauto.
    + rewrite list_lookup_insert_ne by lia. destruct (H4 j Hj) as (bd2 & Q1 & Q2 & Q3).
      exists bd2. split_and!; try done. intros Hfree. apply Q3. intros c Hc.
      destruct (decide (c = C)) as [->|]; [congruence|]. apply Hfree. lia.
  - intros c ls' d Hc Hh. pose proof (lookup_lt_Some _ _ _ Hh).
    rewrite list_lookup_insert_ne; [by apply H5; [lia|]|].
    intros E. assert (slot RXN C = slot RXN c) as E2 by lia. apply (slot_inj RXN C) in E2; lia.
Qed.

(** What [stack_recv] adds to the log. *)
Lemma wp_stack_recv {takes : StackTakes} (Q : unit -> st -> Prop) s acc L P C G ls d :
  drv s acc L L P C G -> heard (dev s) !! C = Some (ls, d) ->
  64 <= Z.of_nat (length d) <= OETH_RX_BUFF_SIZE ->
  (forall s1 s2 P', (P <= P')%nat -> drv s1 acc L L P' C G -> heard (dev s1) !! C = Some (ls, d) ->
     (length (env s1) <= length (env s))%nat -> quiet s s1 ->
     cep (oi s1) = set_stats (stats (cep (oi s1))) (cep (oi s)) ->
     (exists chunks, concat chunks = d /\ s2 = set_log (log s1 ++ [Recv (Z.of_nat (length d)) chunks]) s1) ->
     Q tt s2) ->
  wp (stack_recv (Z.of_nat (length d))) Q s.
Proof.
  intros D Hh Hlen HQ. unfold stack_recv. apply wp_bind. unfold wp at 1, gets. cbn beta iota.
  destruct (stack_takes (log s) _ Hlen) as (sg & -> & Hus & Hroom).
  apply wp_bind, (wp_openeth_recv _ _ _ _ _ _ _ _ _ _ D Hh Hus Hroom).
  intros s1 P1 chunks HP1 D1 Hh1 He Hq Hcep Hch. apply wp_modify. eapply (HQ s1 _ P1); try done. eauto.
Qed.

(** The descriptor is given back and the position advances. *)
Lemma wp_rx_release (m : M st unit) (Q : unit -> st -> Prop) s acc L P C G fs lg bdp f :
  drv (set_log lg s) acc L L P C (G ++ [fs]) -> heard (dev s) !! C = Some f ->
  recvs (log s) = recvs lg ++ (if existsb rx_bad fs || rx_bad f then [] else [f.2]) ->
  txdones (log s) = txdones lg ->
  bdp = rx_bd_base (cep (oi s)) + rx_cur (cep (oi s)) ->
  (forall s', drv s' acc L L P (S C) (G ++ [fs ++ [f]]) -> env s' = env s ->
     heard (dev s') = heard (dev s) -> wire (dev s') = wire (dev s) -> wp m Q s') ->
  wp (cep_set (fun c => set_rx_cur (u32 (rx_cur c + 1)) c);;
      c ← the_cep;
      when (rx_cur c >=? OETH_RXBD_NUM) (cep_set (set_rx_cur 0));;
      c ← the_cep;
      bd_save bdp (flags [OETH_RX_BD_EMPTY; OETH_RX_BD_IRQ;
                          if rx_cur c =? 0 then OETH_RX_BD_WRAP else 0]);; m) Q s.
Proof.
  intros D Hh Hrecv Hdone Hbdp HQ. pose proof RXN_pos as Hm. pose proof txn_pos as Hn.
  destruct (d_base _ _ _ _ _ _ _ D) as [Hb0 Hb]. pose proof (d_cur _ _ _ _ _ _ _ D) as Hcur. cbn in Hb0, Hb, Hcur.
  pose proof (wrap_next RXN C) as Hnext. pose proof bds_fit as Hfit. unfold OETH_TOTAL_BD in Hfit.
  specialize (Hnext ltac:(lia)). rewrite Z2Nat.id in Hnext by (pose proof rxn_pos; lia).
  set (c1 := set_rx_cur (Z.of_nat (slot RXN (S C))) (cep (oi s))).
  assert (forall s1, dev s1 = dev s -> env s1 = env s -> log s1 = log s -> cep (oi s1) = c1 ->
    wp (c ← the_cep;
        bd_save bdp
          (flags [OETH_RX_BD_EMPTY; OETH_RX_BD_IRQ; if rx_cur c =? 0 then OETH_RX_BD_WRAP else 0]);; m) Q s1)
    as Hrest.
  { intros s1 Ed Ee El Ec. apply wp_bind. unfold wp at 1, the_cep, gets. cbn beta iota.
    apply wp_bind. unfold bd_save. apply wp_bind, wp_Ret.
    destruct (d_rings _ _ _ _ _ _ _ D) as [HT HR]. cbn in HT, HR.
    destruct (rx_bds _ _ HR _ (slot_lt RXN C Hm)) as (bd & Hbd & _).
    exists bd, s1. unfold bd_at. rewrite Hbdp, Hb, Hcur, Ed.
    replace (Z.to_nat (OETH_TXBD_NUM + Z.of_nat (slot RXN C))) with (TXN + slot RXN C)%nat by lia.
    rewrite Hbd. split; [done|]. apply wp_modify.
    replace (OETH_TXBD_NUM + Z.of_nat (slot RXN C)) with (Z.of_nat (TXN + slot RXN C)) by lia.
    set (ls := u32 _). assert (flag15 ls = true) as Hls.
    { subst ls. destruct (_ =? 0); vm_compute; done. }
    apply HQ; [|done|cbn; by rewrite Ed..].
    destruct D as [H1 H2 H3 H4 H5 H6 H7 H8 H9 H10 H11 H12]. cbn in H1, H2, H4, H5, H6, H9, H10, H11, H12.
    split; cbn; rewrite ?Ed, ?Ee, ?El, ?Ec; cbn; try done.
    - apply rings_rx_free; [done|by eapply lookup_lt_Some|done|done].
    - by rewrite Hdone.
    - rewrite concat_app in H11 |- *. cbn in H11 |- *. rewrite app_nil_r in H11 |- *.
      by rewrite (take_S_r _ _ _ Hh), H11, app_assoc.
    - rewrite map_app, concat_app in H12 |- *. cbn in H12 |- *. rewrite app_nil_r in H12 |- *.
      by rewrite Hrecv, H12, good_prefix_snoc, app_assoc. }
  apply wp_bind, wp_modify, wp_bind. unfold wp at 1, the_cep, gets. cbn beta iota.
  cbn [cep oi upd_cep set_oi set_cep rx_cur set_rx_cur].
  rewrite Hcur. apply wp_bind, wp_when; intros Hge; rewrite Hge in Hnext.
  - apply wp_modify, Hrest; try done. cbn. unfold c1, set_rx_cur. cbn. by rewrite <- Hnext.
  - apply Hrest; try done. cbn. unfold c1, set_rx_cur. cbn. by rewrite <- Hnext, Hcur.
Qed.

(** The turns that are left: the controller can add frames only at the loads
    that are left. *)
Definition turns (s : st) (C : nat) : nat :=
  match env s with [] => length (heard (dev s)) - C | e => length e + RXN end.

Lemma turns_bound s acc L P C G :
  drv s acc L L P C G -> (turns s C <= length (env s) + RXN)%nat.
Proof.
  intros D. destruct (d_rings _ _ _ _ _ _ _ D) as [_ HR]. pose proof (rx_range _ _ HR).
  unfold turns. destruct (env s); cbn; lia.
Qed.

(** When no loads are left the controller is still. *)
Definition calm (s s' : st) : Prop :=
  env s = [] -> env s' = [] /\ wire (dev s') = wire (dev s) /\ heard (dev s') = heard (dev s).

Lemma calm_trans s1 s2 s3 : calm s1 s2 -> calm s2 s3 -> calm s1 s3.
Proof.
  intros H1 H2 E. destruct (H1 E) as (E2 & W & H). destruct (H2 E2) as (? & ? & ?).
  split_and!; congruence.
Qed.

Lemma quiet_calm s s' : quiet s s' -> calm s s'.
Proof. intros H E. by destruct (H E) as [-> ->]. Qed.

Lemma turns_decrease s s' acc L P C G :
  drv s' acc L L P (S C) G -> calm s s' -> (length (env s') <= length (tail (env s)))%nat ->
  (turns s' (S C) < turns s C)%nat.
Proof.
  intros D Hc He. pose proof (turns_bound _ _ _ _ _ _ D) as Hb.
  destruct (d_rings _ _ _ _ _ _ _ D) as [_ HR]. pose proof (rx_range _ _ HR) as Hr.
  unfold turns at 2. destruct (env s) as [|f e] eqn:E; cbn in He |- *; [|lia].
  destruct (Hc E) as (E' & _ & Eh). unfold turns. rewrite E', Eh in *. lia.
Qed.

(** One turn with a frame in the ring. *)
Lemma wp_rx_turn {takes : StackTakes} (k : bool -> M st unit) (Q : unit -> st -> Prop)
    s acc L P C G fs bad ls d bdp :
  drv s acc L L P C (G ++ [fs]) -> heard (dev s) !! C = Some (ls, d) -> rx_word ls d ->
  bad = existsb rx_bad fs -> bdp = rx_bd_base (cep (oi s)) + rx_cur (cep (oi s)) ->
  (forall s' P', (P <= P')%nat -> drv s' acc L L P' (S C) (G ++ [fs ++ [(ls, d)]]) ->
     (length (env s') <= length (env s))%nat -> calm s s' ->
     wp (k (existsb rx_bad (fs ++ [(ls, d)]))) Q s') ->
  wp (bad ← rx_check bad ls;
      unless bad (stack_recv (packetLength ls));;
      cep_set (fun c => set_rx_cur (u32 (rx_cur c + 1)) c);;
      c ← the_cep;
      when (rx_cur c >=? OETH_RXBD_NUM) (cep_set (set_rx_cur 0));;
      c ← the_cep;
      bd_save bdp (flags [OETH_RX_BD_EMPTY; OETH_RX_BD_IRQ;
                          if rx_cur c =? 0 then OETH_RX_BD_WRAP else 0]);; k bad) Q s.
Proof.
  intros D Hh Hw -> -> HQ. apply wp_bind, (wp_rx_check _ _ _ _ _ Hw). intros s1 Hm.
  rewrite existsb_app in HQ. cbn [existsb] in HQ. rewrite orb_false_r in HQ.
  pose proof (drv_minor _ _ _ _ _ _ _ _ Hm D) as D1.
  rewrite <- (m_dev _ _ Hm) in Hh. rewrite <- (m_env _ _ Hm) in HQ.
  rewrite <- (minor_field rx_bd_base _ _ Hm), <- (minor_field rx_cur _ _ Hm) by done.
  assert (forall s', calm s1 s' -> calm s s') as Hcalm.
  { intros s' Hs' E. rewrite <- (m_dev _ _ Hm). apply Hs'. by rewrite (m_env _ _ Hm). }
  destruct (existsb rx_bad fs || rx_bad (ls, d)) eqn:Hbad; cbn [unless].
  - apply wp_bind, wp_ret, (wp_rx_release _ _ s1 acc L P C G fs (log s1) _ (ls, d)); try done.
    + by destruct s1.
    + by rewrite Hbad, app_nil_r.
    + intros s2 D2 He Eh Ew. apply (HQ s2 P); [lia|done|by rewrite He|].
      apply Hcalm. intros E. by rewrite He, E.
  - rewrite (packetLength_word _ _ Hw).
    assert (64 <= Z.of_nat (length d) <= OETH_RX_BUFF_SIZE) as Hlen.
    { split; [|apply Hw]. apply orb_false_iff in Hbad as [_ Hbad]. unfold rx_bad in Hbad. cbn [fst snd] in Hbad.
      repeat (apply orb_false_iff in Hbad as [Hbad ?]). lia. }
    apply wp_bind, (wp_stack_recv _ _ _ _ _ _ _ _ _ D1 Hh Hlen).
    intros s2 s3 P2 HP2 D2 Hh2 He2 Hq2 Hcep (chunks & Hch & ->).
    apply (wp_rx_release _ _ _ acc L P2 C G fs (log s2) _ (ls, d)); cbn [log set_log dev oi].
    + cbn. by destruct s2.
    + done.
    + rewrite recvs_app, Hbad. cbn. by rewrite Hch.
    + rewrite txdones_app. cbn. by rewrite app_nil_r.
    + rewrite Hcep. done.
    + intros s4 D4 He4 Eh Ew. cbn in He4, Eh, Ew. apply (HQ s4 P2); [done|done|by rewrite He4|].
      apply Hcalm. eapply calm_trans; [by apply quiet_calm|]. intros E. by rewrite He4, E.
Qed.

(** The loop empties the ring. *)
Lemma rxready_loop_spec {takes : StackTakes} fuel bad (Q : unit -> st -> Prop) s acc L P C G fs :
  drv s acc L L P C (G ++ [fs]) -> bad = existsb rx_bad fs -> (turns s C < fuel)%nat ->
  (forall s' P' fs', (P <= P')%nat -> drv s' acc L L P' (length (heard (dev s'))) (G ++ [fs']) ->
     calm s s' -> Q tt s') ->
  wp (rxready_loop fuel bad) Q s.
Proof.
  revert bad s P C fs. induction fuel as [|fuel IH]; intros bad s P C fs D Hbad Hfuel HQ; [lia|].
  cbn [rxready_loop]. unfold the_cep at 1. apply wp_bind. unfold wp at 1, gets. cbn beta iota.
  apply wp_bind, (wp_rx_load _ _ _ _ _ _ _ D). intros s1 P1 bd HP1 D1 A Hbd Hfl.
  pose proof (quiet_calm _ _ (acted_quiet _ _ _ _ _ A)) as Hcalm1.
  rewrite empty_flag, Hfl. destruct (Nat.ltb_spec C (length (heard (dev s1)))) as [Hlt|Hge]; cbn [negb].
  - destruct (rx_next _ _ _ _ _ _ _ D1 Hlt Hbd) as (d & _ & Hh & Hw & _).
    eapply (wp_rx_turn _ _ s1 acc L P1 C G fs); try done; [by rewrite (a_oi _ _ _ _ _ A)|].
    intros s2 P2 HP2 D2 He2 Hc2. assert (calm s s2) as Hcalm2 by (by eapply calm_trans).
    apply (IH _ s2 P2 _ _ D2); [done| |].
    + enough (turns s2 (S C) < turns s C)%nat by lia.
      eapply turns_decrease; [done|done|]. by rewrite <- (a_env _ _ _ _ _ A).
    + intros s3 P3 fs3 HP3 D3 Hc3. apply (HQ s3 P3 fs3); [lia|done|by eapply calm_trans].
  - destruct (d_rings _ _ _ _ _ _ _ D1) as [_ HR]. pose proof (rx_range _ _ HR).
    assert (C = length (heard (dev s1))) as HC by lia.
    apply wp_ret, (HQ s1 P1 fs); [done|by rewrite <- HC|done].
Qed.

Lemma drv_open_group s acc L P C G : drv s acc L L P C G -> drv s acc L L P C (G ++ [[]]).
Proof.
  intros [H1 H2 H3 H4 H5 H6 H7 H8 H9 H10 H11 H12]. split; try done.
  - by rewrite concat_app, app_nil_r.
  - by rewrite map_app, concat_app, app_nil_r.
Qed.

Lemma wp_openeth_rxready {takes : StackTakes} (Q : unit -> st -> Prop) s acc L P C G :
  drv s acc L L P C G ->
  (forall s' P' fs, (P <= P')%nat -> drv s' acc L L P' (length (heard (dev s'))) (G ++ [fs]) ->
     calm s s' -> Q tt s') ->
  wp openeth_rxready Q s.
Proof.
  intros D HQ. unfold openeth_rxready. apply wp_bind. unfold wp at 1, gets. cbn beta iota.
  eapply (rxready_loop_spec _ _ _ _ _ _ _ _ _ [] (drv_open_group _ _ _ _ _ _ D)); [done| |done].
  pose proof (turns_bound _ _ _ _ _ _ D). lia.
Qed.

End Rx.
