(* ===== verification/OethInit.v ===== *)
(** * Initialisation of the Ethernet driver, and its clients

    [openeth_device_init] followed by [openeth_start] on a board out of reset
    establishes the invariant.  [run] is any sequence of calls of the network
    stack, with anything the controller may do between and during them; the
    stack sends a frame only when [openeth_can_send] allows it. *)

From stdpp Require Import relations functions.
From S2P Require Import Prelude.
From S2P Require Import Ring.
From S2P Require Import Oeth.
From S2P Require Import OethFacts.
From S2P Require Import OethDriver.
From S2P Require Import OethSend.
From S2P Require Import OethRx.

(** The rule for loops. *)
Lemma wp_for_range n a body (Inv : nat -> st -> Prop) (Q : unit -> st -> Prop) s :
  Inv 0%nat s ->
  (forall j s, (j < n)%nat -> Inv j s -> wp (body (a + Z.of_nat j)) (fun _ s' => Inv (S j) s') s) ->
  (forall s', Inv n s' -> Q tt s') -> wp (for_range n a body) Q s.
Proof.
  revert a Inv s. induction n as [|n IH]; intros a Inv s H0 Hstep HQ; cbn [for_range].
  - apply wp_ret, HQ, H0.
  - apply wp_bind. eapply wp_mono.
    { specialize (Hstep 0%nat s ltac:(lia) H0). rewrite Z.add_0_r in Hstep. exact Hstep. }
    intros ? s1 H1. cbn beta in H1.
    apply (IH (a + 1) (fun j => Inv (S j)) s1 H1); [|done]. intros j s2 Hj H2.
    replace (a + 1 + Z.of_nat j) with (a + Z.of_nat (S j)) by lia. apply Hstep; [lia|done].
Qed.

Section Init.
Context {conf : OethConfig} {conf_ok : OethConfigOk}.

Abbreviation TXN := (Z.to_nat OETH_TXBD_NUM).
Abbreviation RXN := (Z.to_nat OETH_RXBD_NUM).

(** A board out of reset: the controller is at the start of both rings. *)
Record fresh_board (b : board) : Prop := {
  f_bds : length (bds b) = Z.to_nat OETH_TOTAL_BD;
  f_tx : length (txbuff b) = TXN /\ Forall (fun buf => length buf = buf_size) (txbuff b);
  f_rx : length (rxbuff b) = RXN /\ Forall (fun buf => length buf = buf_size) (rxbuff b);
  f_pos : tx_pos b = 0%nat /\ rx_pos b = 0%nat;
  f_seen : wire b = [] /\ heard b = [];
}.

Record fresh (s : st) : Prop := {
  f_board : fresh_board (dev s);
  f_env : env s = [];
  f_log : log s = [];
  f_keys : tx_keys (cep (oi s)) = replicate TXN 0;
  f_inactive : active (oi s) = false;
}.

(** ** The descriptors while they are set up *)

Record setup (s : st) (o : oeth_info) (lg : list event) (desc : nat -> oeth_bd -> Prop) : Prop := {
  s_board : fresh_board (dev s);
  s_env : env s = [];
  s_oi : oi s = o;
  s_log : log s = lg;
  s_desc : forall i bd, bds (dev s) !! i = Some bd -> desc i bd;
}.

Lemma wp_setup_reg (Q : unit -> st -> Prop) s o lg desc r v :
  setup s o lg desc -> (forall s', setup s' o lg desc -> Q tt s') -> wp (OETH_REGSAVE r v) Q s.
Proof.
  intros [[] ? ? ? ?] HQ. apply wp_modify, HQ. by split.
Qed.

Lemma wp_setup_regor (Q : unit -> st -> Prop) s o lg desc r v :
  setup s o lg desc -> (forall s', setup s' o lg desc -> Q tt s') -> wp (OETH_REGORIN r v) Q s.
Proof.
  intros HS HQ. unfold OETH_REGORIN, OETH_REGLOAD. apply wp_bind, wp_bind. unfold wp at 1, hw.
  rewrite (s_env _ _ _ _ HS). unfold wp at 1, gets. cbn beta iota. by eapply wp_setup_reg.
Qed.

Lemma wp_setup_oi (Q : unit -> st -> Prop) s o lg desc f :
  setup s o lg desc -> (forall s', setup s' (f o) lg desc -> Q tt s') ->
  wp (modify (fun s => set_oi (f (oi s)) s)) Q s.
Proof. intros [? ? ? ? ?] HQ. apply wp_modify, HQ. split; try done. cbn. by f_equal. Qed.

Lemma wp_setup_cep (Q : unit -> st -> Prop) s o lg desc f :
  setup s o lg desc -> (forall s', setup s' (set_cep (f (cep o)) o) lg desc -> Q tt s') ->
  wp (cep_set f) Q s.
Proof. intros [? ? <- ? ?] HQ. apply wp_modify, HQ. by split. Qed.

Lemma wp_setup_emit (Q : unit -> st -> Prop) s o lg desc e :
  setup s o lg desc -> (forall s', setup s' o (lg ++ [e]) desc -> Q tt s') -> wp (emit e) Q s.
Proof. intros [? ? ? <- ?] HQ. apply wp_modify, HQ. by split. Qed.

Lemma wp_setup_the_cep (Q : oeth_private -> st -> Prop) s o lg desc :
  setup s o lg desc -> Q (cep o) s -> wp the_cep Q s.
Proof. intros HS HQ. unfold wp, the_cep, gets. by rewrite (s_oi _ _ _ _ HS). Qed.

(** A store to descriptor [i], as a function of what it held. *)
Lemma setup_store s o lg (desc desc' : nat -> oeth_bd -> Prop) i bd bd' :
  setup s o lg desc -> bds (dev s) !! i = Some bd -> (desc i bd -> desc' i bd') ->
  (forall j b, j <> i -> desc j b -> desc' j b) ->
  setup (upd_dev (bd_put (Z.of_nat i) bd') s) o lg desc'.
Proof.
  intros [[H1 H2 H3 H4 H5] ? ? ? Hd] Hbd Hi Hj. pose proof (lookup_lt_Some _ _ _ Hbd) as Hlt.
  split; try done.
  - split; try done. cbn. by rewrite length_insert.
  - intros j b. cbn. rewrite Nat2Z.id. destruct (decide (j = i)) as [->|Hne].
    + rewrite list_lookup_insert_eq by done. intros [= <-]. auto.
    + rewrite list_lookup_insert_ne by done. auto.
Qed.

Lemma setup_lookup s o lg desc i :
  setup s o lg desc -> (i < TXN + RXN)%nat -> exists bd, bds (dev s) !! i = Some bd.
Proof.
  intros HS Hi. apply lookup_lt_is_Some_2. rewrite (f_bds _ (s_board _ _ _ _ HS)).
  pose proof bds_fit. pose proof txn_pos. pose proof rxn_pos. lia.
Qed.

Lemma wp_setup_save (Q : unit -> st -> Prop) s o lg desc desc' i v :
  setup s o lg desc -> (i < TXN + RXN)%nat ->
  (forall bd, desc i bd -> desc' i (set_len_status (u32 v) bd)) ->
  (forall j b, j <> i -> desc j b -> desc' j b) ->
  (forall s', setup s' o lg desc' -> Q tt s') -> wp (bd_save (Z.of_nat i) v) Q s.
Proof.
  intros HS Hi H1 H2 HQ. destruct (setup_lookup _ _ _ _ _ HS Hi) as [bd Hbd].
  unfold bd_save. apply wp_bind. unfold wp at 1, bd_at. rewrite Nat2Z.id, Hbd.
  apply wp_modify, HQ. eapply setup_store; eauto.
Qed.

Lemma wp_setup_addr (Q : unit -> st -> Prop) s o lg desc desc' i p :
  setup s o lg desc -> (i < TXN + RXN)%nat ->
  (forall bd, desc i bd -> desc' i (set_addr p bd)) ->
  (forall j b, j <> i -> desc j b -> desc' j b) ->
  (forall s', setup s' o lg desc' -> Q tt s') -> wp (bd_save_addr (Z.of_nat i) p) Q s.
Proof.
  intros HS Hi H1 H2 HQ. destruct (setup_lookup _ _ _ _ _ HS Hi) as [bd Hbd].
  unfold bd_save_addr. apply wp_bind. unfold wp at 1, bd_at. rewrite Nat2Z.id, Hbd.
  apply wp_modify, HQ. eapply setup_store; eauto.
Qed.

Lemma wp_setup_orin (Q : unit -> st -> Prop) s o lg desc desc' i v :
  setup s o lg desc -> (i < TXN + RXN)%nat ->
  (forall bd, desc i bd -> desc' i (set_len_status (u32 (Z.lor (len_status bd) v)) bd)) ->
  (forall j b, j <> i -> desc j b -> desc' j b) ->
  (forall s', setup s' o lg desc' -> Q tt s') -> wp (bd_orin (Z.of_nat i) v) Q s.
Proof.
  intros HS Hi H1 H2 HQ. destruct (setup_lookup _ _ _ _ _ HS Hi) as [bd Hbd].
  unfold bd_orin, bd_load. apply wp_bind, wp_bind. unfold wp at 1, hw. rewrite (s_env _ _ _ _ HS).
  apply wp_bind. unfold wp at 1, bd_at. rewrite Nat2Z.id, Hbd. apply wp_ret.
  unfold bd_save. apply wp_bind. unfold wp at 1, bd_at. rewrite Nat2Z.id, Hbd.
  apply wp_modify, HQ. eapply setup_store; eauto.
Qed.

(** A transmit descriptor is not ready, a receive descriptor is empty. *)
Definition tx_ready_to_use (i : nat) (bd : oeth_bd) : Prop :=
  addr bd = TxBuf (Z.of_nat i) /\ flag15 (len_status bd) = false.

Definition rx_ready_to_use (i : nat) (bd : oeth_bd) : Prop :=
  addr bd = RxBuf (Z.of_nat i) /\ flag15 (len_status bd) = true.

(** The first [m] transmit and the first [n] receive descriptors are set up. *)
Definition described (m n : nat) (i : nat) (bd : oeth_bd) : Prop :=
  ((i < m)%nat -> (i < TXN)%nat -> tx_ready_to_use i bd) /\
  (forall j, i = (TXN + j)%nat -> (j < n)%nat -> rx_ready_to_use j bd).

Lemma wp_init_tx (Q : unit -> st -> Prop) s o lg :
  setup s o lg (fun _ _ => True) -> (forall s', setup s' o lg (described TXN 0) -> Q tt s') ->
  wp (for_range TXN 0 (fun i =>
        bd_save (0 + i) (flags [OETH_TX_BD_PAD; OETH_TX_BD_CRC; OETH_TX_BD_IRQ]);;
        bd_save_addr (0 + i) (TxBuf i))) Q s.
Proof.
  intros HS HQ. apply (wp_for_range _ _ _ (fun j s => setup s o lg (described j 0))); [| |done].
  { destruct HS as [? ? ? ? _]. split; try done. intros i bd _. split; [lia|]. intros j _. lia. }
  intros j s1 Hj HS1. rewrite !Z.add_0_l. apply wp_bind.
  apply (wp_setup_save _ _ _ _ _ (fun i bd => described j 0 i bd /\ (i = j -> flag15 (len_status bd) = false))
           _ _ HS1); [lia| | |].
  - intros bd [H1 H2]. split; [|done]. split; [lia|]. intros k _. lia.
  - intros i bd Hne H. split; [done|congruence].
  - intros s2 HS2. apply (wp_setup_addr _ _ _ _ _ (described (S j) 0) _ _ HS2); [lia| | |done].
    + intros bd [[H1 H2] H3]. split; [|intros k _; lia]. intros _ _. split; [done|]. by apply H3.
    + intros i bd Hne [[H1 H2] _]. split; [|done]. intros Hi. apply H1. lia.
Qed.

Lemma wp_init_rx (Q : unit -> st -> Prop) s o lg :
  setup s o lg (described TXN 0) -> (forall s', setup s' o lg (described TXN RXN) -> Q tt s') ->
  wp (for_range RXN 0 (fun i =>
        bd_save (OETH_TXBD_NUM + i) (Z.lor OETH_RX_BD_EMPTY OETH_RX_BD_IRQ);;
        bd_save_addr (OETH_TXBD_NUM + i) (RxBuf i))) Q s.
Proof.
  intros HS HQ. pose proof txn_pos as Hn.
  apply (wp_for_range _ _ _ (fun j s => setup s o lg (described TXN j))); [done| |done].
  intros j s3 Hj HS3. rewrite !Z.add_0_l.
  replace (OETH_TXBD_NUM + Z.of_nat j) with (Z.of_nat (TXN + j)) by lia. apply wp_bind.
  apply (wp_setup_save _ _ _ _ _ (fun i bd => described TXN j i bd /\
           (i = (TXN + j)%nat -> flag15 (len_status bd) = true)) _ _ HS3); [lia| | |].
  - intros bd [H1 H2]. split; [|done]. split; [lia|]. intros k Hk Hkj. lia.
  - intros i bd Hne H. split; [done|congruence].
  - intros s4 HS4. apply (wp_setup_addr _ _ _ _ _ (described TXN (S j)) _ _ HS4); [lia| | |done].
    + intros bd [[H1 H2] H3]. split; [lia|]. intros k Hk Hkj. assert (k = j) as -> by lia.
      split; [done|]. by apply H3.
    + intros i bd Hne [[H1 H2] _]. split; [done|]. intros k Hk Hkj. apply H2; [done|]. lia.
Qed.

Lemma described_orin m n i v bd :
  flag15 v = false -> described m n i bd ->
  described m n i (set_len_status (u32 (Z.lor (len_status bd) v)) bd).
Proof.
  intros Hv [H1 H2]. split.
  - intros Hm Hn. destruct (H1 Hm Hn) as [Ha Hf]. split; [done|]. cbn [len_status set_len_status].
    by rewrite flag15_lor, Hf, Hv.
  - intros k Hk Hkn. destruct (H2 k Hk Hkn) as [Ha Hf]. split; [done|]. cbn [len_status set_len_status].
    by rewrite flag15_lor, Hf.
Qed.

Lemma wp_init_bds (Q : unit -> st -> Prop) s o lg c :
  setup s o lg (fun _ _ => True) -> tx_bd_base c = 0 -> rx_bd_base c = OETH_TXBD_NUM ->
  (forall s', setup s' o lg (described TXN RXN) -> Q tt s') -> wp (init_bds c) Q s.
Proof.
  intros HS Ht Hr HQ. unfold init_bds. rewrite Ht, Hr.
  pose proof txn_pos as Hn. pose proof rxn_pos as Hm. apply wp_bind, (wp_init_tx _ _ _ _ HS). intros s1 HS1.
  apply wp_bind. replace (0 + (OETH_TXBD_NUM - 1)) with (Z.of_nat (TXN - 1)) by lia.
  apply (wp_setup_orin _ _ _ _ _ (described TXN 0) _ _ HS1); [lia|by intros bd; apply described_orin|done|].
  intros s2 HS2. apply wp_bind, (wp_init_rx _ _ _ _ HS2). intros s3 HS3.
  replace (OETH_TXBD_NUM + (OETH_RXBD_NUM - 1)) with (Z.of_nat (TXN + (RXN - 1))) by lia.
  apply (wp_setup_orin _ _ _ _ _ (described TXN RXN) _ _ HS3); [lia|by intros bd; apply described_orin|done|done].
Qed.

(** ** The address *)

(** Not all bytes are 0xff, and not all are 0. *)
Definition mac_set (mac : list Z) : bool :=
  existsb (fun m => negb (m =? 255)) mac && existsb (fun m => negb (m =? 0)) mac.

Lemma copy_mac_spec mac : copy_mac mac = (mac, existsb (fun m => negb (m =? 255)) mac).
Proof. induction mac as [|m mac IH]; cbn; [done|]. by rewrite IH. Qed.

Lemma first_nonzero_ge i mac : i <= first_nonzero i mac.
Proof.
  revert i. induction mac as [|m mac IH]; intros i; cbn; [lia|].
  destruct (m =? 0); cbn; [|lia]. specialize (IH (i + 1)). lia.
Qed.

Lemma first_nonzero_spec i mac :
  negb (first_nonzero i mac =? i + Z.of_nat (length mac)) = existsb (fun m => negb (m =? 0)) mac.
Proof.
  revert i. induction mac as [|m mac IH]; intros i; cbn [first_nonzero existsb length].
  - by rewrite Z.add_0_r, Z.eqb_refl.
  - destruct (m =? 0); cbn [negb orb].
    + rewrite <- (IH (i + 1)). do 2 f_equal. lia.
    + destruct (Z.eqb_spec i (i + Z.of_nat (S (length mac)))); [lia|done].
Qed.

Lemma got_mac mac :
  length mac = 6%nat ->
  existsb (fun m => negb (m =? 255)) mac && negb (first_nonzero 0 mac =? 6) = mac_set mac.
Proof.
  intros Hl. unfold mac_set. f_equal. rewrite <- (first_nonzero_spec 0). by rewrite Hl.
Qed.

(** ** From reset to a running interface *)

(** The structure after initialisation. *)
Definition ready_info (o : oeth_info) : Prop :=
  tx_bd_base (cep o) = 0 /\ rx_bd_base (cep o) = OETH_TXBD_NUM /\
  tx_keys (cep o) = replicate TXN 0 /\ active o = false.

Lemma wp_setup_mac (Q : unit -> st -> Prop) s o lg desc mac :
  setup s o lg desc -> (forall s', setup s' o lg desc -> Q tt s') -> wp (modify (set_macaddr mac)) Q s.
Proof. intros [? ? ? ? ?] HQ. apply wp_modify, HQ. by split. Qed.

Lemma fresh_setup s : fresh s -> setup s (oi s) [] (fun _ _ => True).
Proof. intros [? ? ? ? ?]. by split. Qed.

Lemma wp_setup_gets (Q : oeth_info -> st -> Prop) s o lg desc :
  setup s o lg desc -> Q o s -> wp (gets oi) Q s.
Proof. intros HS HQ. unfold wp, gets. by rewrite (s_oi _ _ _ _ HS). Qed.

Ltac setup_next :=
  try (let t' := fresh "t" in let HS' := fresh "HS" in intros t' HS';
       cbn in HS';
       try match goal with
       | HS : setup _ _ _ _ |- _ => tryif constr_eq HS HS' then fail else clear HS
       end); cbn beta.

Ltac setup_step :=
  match goal with
  | |- wp (mbind _ _) _ _ => apply wp_bind
  | HS : setup ?u _ _ _ |- wp (OETH_REGSAVE _ _) _ ?u => apply (wp_setup_reg _ _ _ _ _ _ _ HS)
  | HS : setup ?u _ _ _ |- wp (OETH_REGORIN _ _) _ ?u => apply (wp_setup_regor _ _ _ _ _ _ _ HS)
  | HS : setup ?u _ _ _ |- wp (modify (set_macaddr _)) _ ?u => apply (wp_setup_mac _ _ _ _ _ _ HS)
  | HS : setup ?u _ _ _ |- wp (cep_set _) _ ?u => apply (wp_setup_cep _ _ _ _ _ _ HS)
  | HS : setup ?u _ _ _ |- wp (emit _) _ ?u => apply (wp_setup_emit _ _ _ _ _ _ HS)
  | HS : setup ?u _ _ _ |- wp (modify (fun x => set_oi (?f (oi x)) x)) _ ?u =>
      apply (wp_setup_oi _ _ _ _ _ f HS)
  | HS : setup ?u _ _ _ |- wp the_cep _ ?u => apply (wp_setup_the_cep _ _ _ _ _ HS)
  | HS : setup ?u _ _ _ |- wp (gets oi) _ ?u => apply (wp_setup_gets _ _ _ _ _ HS)
  end; setup_next.

Lemma wp_device_init (Q : bool -> st -> Prop) s mac idx base irq :
  fresh s -> length mac = 6%nat -> mac_set mac = true ->
  (forall s' o, setup s' o [StackInit mac] (described TXN RXN) -> ready_info o -> Q true s') ->
  wp (openeth_device_init mac idx base irq) Q s.
Proof.
  intros Hf Hl Hmac HQ. unfold openeth_device_init. rewrite copy_mac_spec, (got_mac _ Hl), Hmac.
  pose proof (fresh_setup _ Hf) as HS. cbn [negb]. unfold reset_rings, init_regs.
  repeat setup_step.
  match goal with HS : setup ?u _ _ _ |- _ => apply (wp_init_bds _ _ _ _ _ HS); [done..|]; clear HS end.
  setup_next. repeat setup_step.
  apply wp_ret. eapply HQ; [done|].
  split; [done|]. split; [done|]. split; [|apply Hf]. cbn. apply Hf.
Qed.

Lemma drv_start s o lg :
  setup s o lg (described TXN RXN) -> txdones lg = [] -> recvs lg = [] ->
  tx_bd_base (cep o) = 0 -> rx_bd_base (cep o) = OETH_TXBD_NUM -> tx_keys (cep o) = replicate TXN 0 ->
  rx_cur (cep o) = 0 -> tx_next (cep o) = 0 -> tx_last (cep o) = 0 -> tx_full (cep o) = 0 ->
  drv s [] 0 0 0 0 [].
Proof.
  intros HS Ht Hrc Hb1 Hb2 Hk Hcur Hnx Hla Hfu. pose proof TXN_pos as Hn. pose proof RXN_pos as Hm.
  destruct HS as [[F1 [F2 F3] [F4 F5] [F6 F7] [F8 F9]] Henv <- <- Hd].
  assert (slot TXN 0 = 0%nat /\ slot RXN 0 = 0%nat) as [Z1 Z2] by (split; apply Nat.mod_small; lia).
  assert (forall i, (i < TXN + RXN)%nat -> exists bd, bds (dev s) !! i = Some bd) as Hlook.
  { intros i Hi. apply lookup_lt_is_Some_2. rewrite F1. pose proof bds_fit. lia. }
  split; try done; rewrite ?Z1, ?Z2; cbn [length]; try done.
  - by rewrite Henv.
  - split; split; rewrite ?F6, ?F7, ?F8, ?F9, ?Z1, ?Z2; cbn [length frames_of map]; try done; try lia.
    + intros i Hi. destruct (lookup_lt_is_Some_2 (txbuff (dev s)) i ltac:(lia)) as [buf Hbuf].
      exists buf. split; [done|]. by eapply Forall_lookup_1 in F3.
    + intros i Hi. destruct (Hlook i ltac:(lia)) as [bd Hbd]. exists bd. split; [done|].
      destruct (proj1 (Hd i bd Hbd) Hi Hi). done.
    + intros i Hi. destruct (lookup_lt_is_Some_2 (rxbuff (dev s)) i ltac:(lia)) as [buf Hbuf].
      exists buf. split; [done|]. by eapply Forall_lookup_1 in F5.
    + intros i Hi. destruct (Hlook (TXN + i)%nat ltac:(lia)) as [bd Hbd]. exists bd. split; [done|].
      destruct (proj2 (Hd _ bd Hbd) i eq_refl Hi). done.
  - by rewrite Z1.
  - rewrite decide_False by lia. done.
  - lia.
  - rewrite Hk. split; cbn [length]; try done; try lia.
    + apply length_replicate.
    + intros i Hi _. by apply lookup_replicate_2.
  - by rewrite Ht.
Qed.

Lemma wp_openeth_start (Q : unit -> st -> Prop) s o lg :
  setup s o lg (described TXN RXN) -> ready_info o -> txdones lg = [] -> recvs lg = [] ->
  (forall s', drv s' [] 0 0 0 0 [] -> Q tt s') -> wp openeth_start Q s.
Proof.
  intros HS (Ht & Hr & Hk & Ha) Hdone Hrecv HQ. unfold openeth_start. apply wp_bind.
  unfold wp at 1, gets. cbn beta iota. rewrite (s_oi _ _ _ _ HS), Ha. cbn [when].
  apply wp_bind, wp_ret. unfold reset_rings. repeat setup_step.
  pose proof txn_pos as Hn.
  apply (wp_for_range _ _ _ (fun _ u => exists o', setup u o' (((((lg ++ [IrqCreate (irq (cep o))])
    ++ [IrqAttach]) ++ [IrqAck (irq (cep o))]) ++ [IrqUnmask (irq (cep o))])) (described TXN RXN) /\
    o' = set_cep (set_tx_full 0 (set_tx_last 0 (set_tx_next 0 (set_rx_cur 0 (cep o))))) (set_active true o))).
  { eexists. split; [done|done]. }
  { intros j u Hj (o' & HS' & Ho'). rewrite Z.add_0_l, Hr.
    replace (OETH_TXBD_NUM + Z.of_nat j) with (Z.of_nat (TXN + j)) by lia.
    eapply (wp_setup_orin _ _ _ _ _ (described TXN RXN) _ _ HS'); [lia| |done|eauto].
    intros bd [H1 H2]. split; [lia|]. intros k Hk' Hkn. destruct (H2 k Hk' Hkn) as [Had Hf].
    split; [done|]. cbn [len_status set_len_status]. by rewrite flag15_lor, Hf. }
  intros u (o' & HS' & Ho'). apply (wp_setup_regor _ _ _ _ _ _ _ HS'). intros u' HS2. apply HQ.
  rewrite Ho' in HS2.
  eapply (drv_start _ _ _ HS2); try done; rewrite ?txdones_app, ?recvs_app, ?Hdone, ?Hrecv; done.
Qed.

(** Initialisation, then the stack brings the interface up. *)
Definition boot (mac : list Z) (idx base irq : Z) : M st bool :=
  r ← openeth_device_init mac idx base irq;
  when r openeth_start;;
  mret r.

Lemma wp_boot (Q : bool -> st -> Prop) s mac idx base irq :
  fresh s -> length mac = 6%nat -> mac_set mac = true ->
  (forall s', drv s' [] 0 0 0 0 [] -> Q true s') -> wp (boot mac idx base irq) Q s.
Proof.
  intros Hf Hl Hm HQ. unfold boot. apply wp_bind, wp_device_init; [done..|]. intros s1 o HS Ho.
  cbn [when]. apply wp_bind, (wp_openeth_start _ _ _ _ HS Ho); [done..|]. intros s2 D. by apply wp_ret, HQ.
Qed.

End Init.
