(* ===== verification/OethProps.v ===== *)
(** * The Ethernet driver: theorems

    From reset on, for every sequence of calls of the network stack and every
    behaviour of the controller between and during them: the frames go out in
    order, each key is reported once and only after its frame is on the wire,
    and received frames are passed up in order. *)

From stdpp Require Import relations functions.
From S2P Require Import Prelude.
From S2P Require Import Ring.
From S2P Require Import Oeth.
From S2P Require Import OethFacts.
From S2P Require Import OethDriver.
From S2P Require Import OethSend.
From S2P Require Import OethRx.
From S2P Require Import OethInit.

(** * A controller and a stack for the Ethernet driver

    A configuration with two descriptors in each ring, a stack that offers two
    buffers, and a controller that sends and stores frames: the hypotheses of
    the theorems hold of them. *)

#[global] Instance sim_conf : OethConfig := {
  OETH_TXBD_NUM := 2;
  OETH_RXBD_NUM := 2;
  HAL_DCACHE_LINE_SIZE := 32;
  eth_drv_recv _ _ := Some [(false, 100); (false, 1500)];
}.

#[global] Instance sim_conf_ok : OethConfigOk.
Proof. by split. Qed.

#[global] Instance sim_takes : StackTakes.
Proof.
  intros h len Hlen. exists [(false, 100); (false, 1500)]. split; [done|]. split.
  - by repeat constructor.
  - change OETH_RX_BUFF_SIZE with 1520 in Hlen. cbn. lia.
Qed.

(** Sends the frame at its position, if it is ready. *)
Definition ctrl_send (b : board) : board :=
  match bds b !! tx_pos b with
  | Some bd =>
      if flag15 (len_status bd) then
        match buffer_at (addr bd) b with
        | Some buf => sent bd buf (u32 (Z.land (len_status bd) (Z.lnot OETH_TX_BD_READY))) b
        | None => b
        end
      else b
  | None => b
  end.

(** Stores a frame with status bits [flags], if its descriptor is empty. *)
Definition ctrl_store (fl : Z) (d : list Z) (b : board) : board :=
  let ls := Z.lor (Z.shiftl (Z.of_nat (length d)) 16) fl in
  match bds b !! (Z.to_nat OETH_TXBD_NUM + rx_pos b)%nat with
  | Some bd =>
      if flag15 (len_status bd) && (Z.of_nat (length d) <=? OETH_RX_BUFF_SIZE)
         && (0 <=? fl) && (fl <? 32768) then
        match buffer_at (addr bd) b with
        | Some buf => stored bd buf ls d b
        | None => b
        end
      else b
  | None => b
  end.

Lemma ctrl_send_respects : respects ctrl_send.
Proof.
  intros b. unfold ctrl_send. destruct (bds b !! tx_pos b) as [bd|] eqn:Hbd; [|done].
  destruct (flag15 (len_status bd)) eqn:Hfl; [|done].
  destruct (buffer_at (addr bd) b) as [buf|] eqn:Hbuf; [|done].
  apply rtc_once, hw_sent; try done.
  - rewrite flag15_land. by rewrite Hfl.
  - apply u32_range.
Qed.

Lemma ctrl_store_respects fl d : respects (ctrl_store fl d).
Proof.
  intros b. unfold ctrl_store. destruct (_ !! _) as [bd|] eqn:Hbd; [|done].
  destruct (_ && _) eqn:Hc; [|done]. rewrite !andb_true_iff in Hc. destruct Hc as [[[Hfl Hd] Hf0] Hf1].
  destruct (buffer_at (addr bd) b) as [buf|] eqn:Hbuf; [|done]. change OETH_RX_BUFF_SIZE with 1520 in Hd.
  apply rtc_once, hw_stored; try done. rewrite lor_shift_add by lia.
  set (n := Z.of_nat (length d)) in *. change (2 ^ 16) with 65536. split_and!.
  - unfold is_u32. lia.
  - replace (n * 65536 + fl) with (Z.lor (Z.shiftl n 16) fl) by (by rewrite lor_shift_add by lia).
    rewrite Z.lor_spec, Z.shiftl_spec_low, (small_bits fl 15) by lia. done.
  - rewrite Z.shiftr_div_pow2 by lia. change (2 ^ 16) with 65536.
    rewrite Z.div_add_l, Z.div_small by lia. lia.
  - change OETH_RX_BUFF_SIZE with 1520. lia.
Qed.

(** The board and the driver before initialisation. *)
Definition sim_stats : net_device_stats := mkStats 0 0 0 0 0 0 0 0 0 0 0 0 0 0 0 0 0 0 0 0 0 0 0.

Definition sim_info : oeth_info :=
  mkInfo (mkPriv 0 0 0 0 0 0 0 0 [0; 0] sim_stats) false false false false (replicate 6 0) 0.

Definition sim_board : board :=
  mkBoard (fun _ => 0) (replicate 128 (mkBd 0 NoBuf)) (replicate 2 (replicate 1536 0))
    (replicate 2 (replicate 1536 0)) 0 0 [] [].

Definition sim_st : st := mkSt sim_info (replicate 6 0) sim_board [] [].

Lemma sim_fresh : fresh sim_st.
Proof. split; try done. split; try done; (split; [done|]); by repeat constructor. Qed.

Definition sim_mac : list Z := [0; 17; 34; 51; 68; 85].

(** * The theorems *)

(** ** Sequences of calls *)

(** The list of functions of a call is what the controller does at its loads;
    [Idle] is what it does between calls. *)
Inductive call :=
| Send (pieces : list (list Z)) (key : Z) (e : list (board -> board))
| Deliver (e : list (board -> board))
| Poll (e : list (board -> board))
| Idle (f : board -> board).

Section Run.
Context {conf : OethConfig}.

(** The result is the frames the driver accepted, with their keys. *)
Definition exec (c : call) : M st (list (Z * list Z)) :=
  match c with
  | Send pieces key e =>
      modify (set_env e);;
      b ← openeth_can_send;
      if ctrue b then
        openeth_send pieces (Z.of_nat (length (concat pieces))) key;;
        mret [(key, concat pieces)]
      else mret []
  | Deliver e => modify (set_env e);; openeth_deliver;; mret []
  | Poll e => modify (set_env e);; openeth_poll;; mret []
  | Idle f => modify (set_env [f]);; hw;; mret []
  end.

Fixpoint run (calls : list call) : M st (list (Z * list Z)) :=
  match calls with
  | [] => mret []
  | c :: calls' => a ← exec c; a' ← run calls'; mret (a ++ a')
  end.

(** The stack's part: keys are not zero, frames fit, and the controller behaves. *)
Definition call_ok (c : call) : Prop :=
  match c with
  | Send pieces key e =>
      key <> 0 /\ is_u32 key /\ Z.of_nat (length (concat pieces)) <= OETH_TX_BUFF_SIZE /\
      Forall respects e
  | Deliver e | Poll e => Forall respects e
  | Idle f => respects f
  end.

Definition delivers (c : call) : nat := match c with Deliver _ | Poll _ => 1 | _ => 0 end.

Context {conf_ok : OethConfigOk} {takes : StackTakes}.

(** The invariant between calls. *)
Definition between (s : st) (accepted : list (Z * list Z)) (n : nat) : Prop :=
  exists acc L P C G, drv s acc L L P C G /\ map fst acc = accepted /\ length G = n.

#[local] Instance Minor_ack v : Minor (emit (IrqAck v)).
Proof.
  intros s. apply wp_modify. split; try done; cbn; rewrite ?txdones_app, ?recvs_app; apply app_nil_r.
Qed.

#[local] Instance Minor_mask v : Minor (emit (IrqMask v)).
Proof.
  intros s. apply wp_modify. split; try done; cbn; rewrite ?txdones_app, ?recvs_app; apply app_nil_r.
Qed.

#[local] Instance Minor_unmask v : Minor (emit (IrqUnmask v)).
Proof.
  intros s. apply wp_modify. split; try done; cbn; rewrite ?txdones_app, ?recvs_app; apply app_nil_r.
Qed.

(** One delivery: every frame in the receive ring is taken, every frame that was
    on the wire is reported. *)
Lemma wp_openeth_deliver (Q : unit -> st -> Prop) s acc L P C G :
  drv s acc L L P C G ->
  (forall s' acc' L' P' C' fs, drv s' acc' L' L' P' C' (G ++ [fs]) -> map fst acc' = map fst acc ->
     (env s = [] -> C' = length (heard (dev s')) /\
        (forall c e, (c < P')%nat -> acc' !! c = Some e -> e.2 = true)) -> Q tt s') ->
  wp openeth_deliver Q s.
Proof.
  intros D HQ. unfold openeth_deliver. apply wp_bind, (wp_openeth_rxready _ _ _ _ _ _ _ D).
  intros s1 P1 fs HP1 D1 Hcalm. apply wp_bind, (wp_oeth_txdone _ _ _ _ _ _ _ D1).
  intros s2 acc2 L2 P2 HP2 D2 Hpr Hall Hq. unfold the_cep. apply wp_bind. unfold wp at 1, gets. cbn beta iota.
  apply wp_minor; [apply _|]. intros [] s3 Hm. pose proof (drv_minor _ _ _ _ _ _ _ _ Hm D2) as D3.
  eapply (HQ s3 acc2 L2 P2 _ fs); [done|by apply Hpr|]. intros E. destruct (Hcalm E) as (E1 & _ & _).
  destruct (Hq E1) as [Ed _]. split; [by rewrite (m_dev _ _ Hm), Ed|].
  assert (P1 = P2) as <-.
  { rewrite (d_P_wire _ _ _ _ _ _ _ D1), (d_P_wire _ _ _ _ _ _ _ D2), Ed. done. }
  intros c e Hc. apply Hall. lia.
Qed.

Lemma wp_eth_isr (Q : Z -> st -> Prop) s acc L P C G :
  drv s acc L L P C G ->
  (forall v s' P', drv s' acc L L P' C G -> Q v s') -> wp eth_isr Q s.
Proof.
  intros D HQ. unfold eth_isr, OETH_REGLOAD. apply wp_bind, wp_bind, (wp_hw _ _ _ _ _ _ _ _ D).
  intros s1 P1 HP1 D1 _. unfold wp at 1, gets. cbn beta iota. apply wp_bind, wp_modify.
  set (s2 := upd_dev _ s1). assert (drv s2 acc L L P1 C G) as D2.
  { destruct D1 as [H1 H2 H3 H4 H5 H6 H7 H8 H9 H10 H11 H12]. split; try done. by apply rings_regs. }
  unfold the_cep. apply wp_bind. unfold wp at 1, gets. cbn beta iota.
  apply wp_minor; [apply _|]. intros v s3 Hm. apply (HQ v s3 P1). by eapply drv_minor.
Qed.

Lemma exec_between c s accepted n :
  call_ok c -> between s accepted n ->
  wp (exec c) (fun new s' => between s' (accepted ++ new) (n + delivers c)) s.
Proof.
  intros Hok (acc & L & P & C & G & D & <- & <-).
  destruct c as [pieces key e|e|e|f]; cbn [exec delivers]; apply wp_bind, wp_modify.
  - destruct Hok as (Hk & Hk32 & Hlen & He). pose proof (drv_env _ _ _ _ _ _ _ e D He) as D0.
    set (s0 := set_env e s) in *. unfold openeth_can_send, the_cep. apply wp_bind, wp_bind.
    unfold wp at 1, gets. cbn beta iota. apply wp_ret. rewrite (d_full _ _ _ _ _ _ _ D0).
    destruct (d_order _ _ _ _ _ _ _ D0) as [_ HN].
    case_decide as Hfull; cbn [ctrue Z.eqb negb].
    + apply wp_ret. rewrite app_nil_r, Nat.add_0_r. exists acc, L, P, C, G. done.
    + apply wp_bind, (wp_openeth_send _ _ _ _ _ _ _ _ _ D0); [lia|done..|]. intros s' P' HP' D'.
      apply wp_ret. eexists _, L, P', C, G. split; [done|]. split; [by rewrite map_app|lia].
  - pose proof (drv_env _ _ _ _ _ _ _ e D Hok) as D0. apply wp_bind, (wp_openeth_deliver _ _ _ _ _ _ _ D0).
    intros s' acc' L' P' C' fs D' Hfst _. apply wp_ret. rewrite app_nil_r.
    eexists acc', L', P', C', _. split; [done|]. split; [done|]. by rewrite length_app.
  - pose proof (drv_env _ _ _ _ _ _ _ e D Hok) as D0. apply wp_bind. unfold openeth_poll.
    apply wp_bind, (wp_eth_isr _ _ _ _ _ _ _ D0). intros v s1 P1 D1.
    apply (wp_openeth_deliver _ _ _ _ _ _ _ D1).
    intros s' acc' L' P' C' fs D' Hfst _. apply wp_ret. rewrite app_nil_r.
    eexists acc', L', P', C', _. split; [done|]. split; [done|]. by rewrite length_app.
  - pose proof (drv_env _ _ _ _ _ _ _ [f] D ltac:(by apply Forall_singleton)) as D0.
    apply wp_bind, (wp_hw _ _ _ _ _ _ _ _ D0). intros s' P' HP' D' _. apply wp_ret.
    rewrite app_nil_r, Nat.add_0_r. exists acc, L, P', C, G. done.
Qed.

Lemma run_between calls s accepted n :
  Forall call_ok calls -> between s accepted n ->
  wp (run calls) (fun new s' => between s' (accepted ++ new) (n + sum_list (map delivers calls))) s.
Proof.
  intros Hok. revert s accepted n. induction Hok as [|c calls Hc _ IH]; intros s accepted n HB; cbn [run].
  - apply wp_ret. cbn. by rewrite app_nil_r, Nat.add_0_r.
  - apply wp_bind. eapply wp_mono; [by apply exec_between|]. intros a s1 H1. cbn beta in H1.
    apply wp_bind. eapply wp_mono; [by apply IH|]. intros a' s2 H2. cbn beta in H2. apply wp_ret.
    cbn. by rewrite app_assoc, Nat.add_assoc.
Qed.

(** The keys of the frames that are not on the wire are not reported. *)
Lemma between_reported s acc L P C G :
  drv s acc L L P C G ->
  exists pending, txdones (log s) ++ pending ≡ₚ map fst (map fst acc) /\
    map fst (drop P (map fst acc)) ⊆+ pending.
Proof.
  intros D. exists (map (fun e => e.1.1) (filter (fun e => e.2 <> true) acc)). split.
  - rewrite (d_done _ _ _ _ _ _ _ D), map_map. unfold reported. rewrite <- map_app.
    by rewrite filter_app_complement.
  - rewrite <- (take_drop P acc) at 2. rewrite list_basics.list.filter_app, map_app.
    rewrite !skipn_map, map_map.
    apply submseteq_inserts_l. rewrite list_filter_all; [done|].
    intros e He. apply list_elem_of_lookup in He as [c Hc]. rewrite lookup_drop in Hc.
    intros Hr. pose proof (k_sent _ _ _ _ (d_keys _ _ _ _ _ _ _ D) _ _ Hc Hr). lia.
Qed.

(** The frames on the wire are the first frames accepted. *)
Lemma between_wire s acc L P C G :
  drv s acc L L P C G ->
  P = length (wire (dev s)) /\ wire (dev s) = take P (map snd (map fst acc)).
Proof.
  intros D. split; [by eapply d_P_wire|]. destruct (d_rings _ _ _ _ _ _ _ D) as [HT _].
  by rewrite (tx_wire _ _ _ HT), frames_of_fst.
Qed.

(** C12: frames go out in the order of the calls, unchanged, and every key is
    reported at most once and only when its frame is on the wire. *)
Theorem tx_in_order_once mac idx base irq calls s :
  fresh s -> length mac = 6%nat -> mac_set mac = true -> Forall call_ok calls ->
  wp (boot mac idx base irq;; run calls) (fun accepted s' =>
    wire (dev s') `prefix_of` map snd accepted /\
    exists pending, txdones (log s') ++ pending ≡ₚ map fst accepted /\
      map fst (drop (length (wire (dev s'))) accepted) ⊆+ pending) s.
Proof.
  intros Hf Hl Hm Hok. apply wp_bind, wp_boot; [done..|]. intros s1 D1.
  assert (between s1 [] 0) as HB by (exists [], 0%nat, 0%nat, 0%nat, []; done).
  eapply wp_mono; [apply (run_between calls s1 [] 0 Hok HB)|].
  intros accepted s2 (acc & L & P & C & G & D & Hacc & _). cbn in Hacc. subst accepted.
  destruct (between_wire _ _ _ _ _ _ D) as [HP Hw]. rewrite <- HP. split.
  - rewrite Hw. apply prefix_take.
  - by eapply between_reported.
Qed.

(** C14: after a delivery during which the controller is still, every frame on the
    wire has been reported, once, and no other key. *)
Theorem tx_all_reported mac idx base irq calls s :
  fresh s -> length mac = 6%nat -> mac_set mac = true -> Forall call_ok calls ->
  wp (boot mac idx base irq;; accepted ← run calls; _ ← exec (Deliver []); mret accepted)
    (fun accepted s' =>
       txdones (log s') ≡ₚ map fst (take (length (wire (dev s'))) accepted)) s.
Proof.
  intros Hf Hl Hm Hok. apply wp_bind, wp_boot; [done..|]. intros s1 D1.
  assert (between s1 [] 0) as HB by (exists [], 0%nat, 0%nat, 0%nat, []; done).
  apply wp_bind. eapply wp_mono; [apply (run_between calls s1 [] 0 Hok HB)|].
  intros accepted s2 (acc & L & P & C & G & D & Hacc & _). cbn in Hacc. subst accepted.
  cbn [exec]. apply wp_bind, wp_bind, wp_modify.
  pose proof (drv_env _ _ _ _ _ _ _ [] D (Forall_nil_2 _)) as D0.
  apply wp_bind, (wp_openeth_deliver _ _ _ _ _ _ _ D0).
  intros s3 acc3 L3 P3 C3 fs D3 Hfst Hq. destruct (Hq eq_refl) as [_ Hall]. apply wp_ret, wp_ret.
  rewrite <- Hfst, (d_done _ _ _ _ _ _ _ D3), <- (d_P_wire _ _ _ _ _ _ _ D3). unfold reported.
  rewrite <- (take_drop P3 acc3) at 1. rewrite list_basics.list.filter_app, map_app.
  rewrite (list_filter_all _ (take P3 acc3)), (list_filter_none _ (drop P3 acc3)).
  - cbn. rewrite app_nil_r, !firstn_map, map_map. done.
  - intros e [c Hc]%list_elem_of_lookup Hr. rewrite lookup_drop in Hc.
    pose proof (k_sent _ _ _ _ (d_keys _ _ _ _ _ _ _ D3) _ _ Hc Hr). lia.
  - intros e [c Hc]%list_elem_of_lookup. apply lookup_take_Some in Hc as [Hc Hlt]. by apply (Hall c).
Qed.

(** C13: frames are received in order and unchanged; a call passes up the frames
    before the first bad one it finds, so when none is bad none is lost. *)
Theorem rx_in_order mac idx base irq calls s :
  fresh s -> length mac = 6%nat -> mac_set mac = true -> Forall call_ok calls ->
  wp (boot mac idx base irq;; _ ← run calls; exec (Deliver [])) (fun _ s' =>
    exists groups, heard (dev s') = concat groups /\
      length groups = S (sum_list (map delivers calls)) /\
      recvs (log s') = concat (map good_prefix groups) /\
      (Forall (fun f => rx_bad f = false) (heard (dev s')) ->
         recvs (log s') = map snd (heard (dev s')))) s.
Proof.
  intros Hf Hl Hm Hok. apply wp_bind, wp_boot; [done..|]. intros s1 D1.
  assert (between s1 [] 0) as HB by (exists [], 0%nat, 0%nat, 0%nat, []; done).
  apply wp_bind. eapply wp_mono; [apply (run_between calls s1 [] 0 Hok HB)|].
  intros accepted s2 (acc & L & P & C & G & D & Hacc & HG). cbn [exec]. apply wp_bind, wp_modify.
  pose proof (drv_env _ _ _ _ _ _ _ [] D (Forall_nil_2 _)) as D0.
  apply wp_bind, (wp_openeth_deliver _ _ _ _ _ _ _ D0).
  intros s3 acc3 L3 P3 C3 fs D3 Hfst Hq. destruct (Hq eq_refl) as [HC _]. apply wp_ret.
  exists (G ++ [fs]). pose proof (d_taken _ _ _ _ _ _ _ D3) as Ht. rewrite HC, take_ge in Ht by lia.
  pose proof (d_recv _ _ _ _ _ _ _ D3) as Hr. split_and!; try done.
  - rewrite length_app, HG. cbn. lia.
  - rewrite Hr, Ht. generalize (G ++ [fs]). intros gs Hall. rewrite concat_map.
    induction gs as [|g gs IH]; [done|]. cbn in Hall |- *. apply Forall_app in Hall as [Hg Hgs].
    by rewrite (good_prefix_all _ Hg), IH.
Qed.

End Run.

(** ** The address *)

(** The controller does not write the address registers. *)
Definition same_mac (b b' : board) : Prop :=
  regs b' mac_addr0 = regs b mac_addr0 /\ regs b' mac_addr1 = regs b mac_addr1.

Section Address.
Context {conf : OethConfig}.

Lemma hw_step_mac b b' : hw_step b b' -> same_mac b b'.
Proof.
  destruct 1 as [b bd buf ls|b bd buf ls d|b r v Hr]; [done| |].
  - unfold stored. by destruct (addr bd).
  - unfold same_mac. cbn. unfold insert, fn_insert. by destruct Hr as [->|[->| ->]].
Qed.

Lemma rtc_mac b b' : rtc hw_step b b' -> same_mac b b'.
Proof.
  induction 1 as [|b1 b2 b3 Hs _ [IH1 IH2]]; [done|].
  destruct (hw_step_mac _ _ Hs) as [E1 E2]. split; congruence.
Qed.

Lemma wp_load_mac (Q : Z -> st -> Prop) s r :
  r = mac_addr0 \/ r = mac_addr1 -> Forall respects (env s) ->
  (forall s', Forall respects (env s') -> same_mac (dev s) (dev s') -> oi s' = oi s ->
     Q (regs (dev s) r) s') ->
  wp (OETH_REGLOAD r) Q s.
Proof.
  intros Hr He HQ. unfold OETH_REGLOAD. apply wp_bind. unfold wp at 1, hw.
  destruct (env s) as [|f e] eqn:E.
  - unfold wp, gets. apply HQ; [by rewrite E|done..].
  - apply Forall_cons_1 in He as [Hf He]. pose proof (rtc_mac _ _ (Hf (dev s))) as Hm.
    unfold wp, gets. cbn. replace (regs (f (dev s)) r) with (regs (dev s) r).
    + by apply HQ.
    + destruct Hm as [E0 E1]. by destruct Hr as [->| ->].
Qed.

Lemma mac_lo_sum (a : Z -> Z) :
  (forall i, is_byte (a i)) -> mac_lo a = ((a 2 * 256 + a 3) * 256 + a 4) * 256 + a 5.
Proof.
  intros Ha. pose proof (Ha 2). pose proof (Ha 3). pose proof (Ha 4). pose proof (Ha 5). unfold is_byte in *.
  unfold mac_lo. change 24 with (8 + 16). rewrite <- (Z.shiftl_shiftl (a 2) 8 16), <- Z.shiftl_lor by lia.
  rewrite (lor_shift_add (a 2) (a 3) 8) by lia. change 16 with (8 + 8).
  rewrite <- Z.shiftl_shiftl, <- Z.shiftl_lor by lia.
  rewrite (lor_shift_add _ (a 4) 8), (lor_shift_add _ (a 5) 8) by lia. reflexivity.
Qed.

Lemma byte_field z k : 0 <= k -> Z.land (Z.shiftr z k) 255 = z / 2 ^ k mod 256.
Proof. intros Hk. by rewrite land_255, Z.shiftr_div_pow2. Qed.

(** An address that is set is the one that is read back, whatever the
    controller does meanwhile. *)
Theorem mac_ioctl_roundtrip mac s :
  length mac = 6%nat -> bytes_ok mac -> Forall respects (env s) ->
  wp (r1 ← openeth_ioctl (ETH_DRV_SET_MAC_ADDRESS mac 6);
      r2 ← openeth_ioctl ETH_DRV_GET_MAC_ADDRESS; mret (r1, r2))
    (fun r s' => r = ((1, []), (0, mac)) /\ dev_addr (oi s') = mac) s.
Proof.
  intros Hl Hb He. destruct mac as [|a0 [|a1 [|a2 [|a3 [|a4 [|a5 [|]]]]]]]; try discriminate Hl. clear Hl.
  set (mac := [a0; a1; a2; a3; a4; a5]) in *. set (a := fun i => nth (Z.to_nat i) mac 0).
  assert (forall i, is_byte (a i)) as Ha.
  { intros i. unfold a. destruct (nth_in_or_default (Z.to_nat i) mac 0) as [Hin| ->]; [|done].
    rewrite List.Forall_forall in Hb. by apply Hb. }
  apply wp_bind. cbn [openeth_ioctl negb Z.eqb]. unfold eth_set_mac_address. cbn [length Nat.ltb Nat.leb].
  apply wp_bind, wp_bind, wp_modify, wp_bind, wp_modify, wp_bind, wp_modify, wp_ret, wp_ret. fold a.
  set (s1 := upd_dev _ _). apply wp_bind. cbn [openeth_ioctl]. unfold eth_get_mac_address.
  apply wp_bind, (wp_load_mac _ s1); [by right|done|]. intros s2 He2 Hm2 Ho2.
  apply wp_bind, (wp_load_mac _ s2); [by left|done|]. intros s3 He3 Hm3 Ho3. apply wp_ret, wp_ret.
  split; [|by rewrite Ho3, Ho2]. rewrite (proj1 Hm2), !byte_field by lia.
  assert (is_byte a0 /\ is_byte a1 /\ is_byte a2 /\ is_byte a3 /\ is_byte a4 /\ is_byte a5) as HB.
  { split_and!; [apply (Ha 0)|apply (Ha 1)|apply (Ha 2)|apply (Ha 3)|apply (Ha 4)|apply (Ha 5)]. }
  unfold is_byte in HB.
  assert (regs (dev s1) mac_addr1 = a0 * 256 + a1) as ->.
  { transitivity (u32 (mac_hi a)); [done|]. change (mac_hi a) with (Z.lor (Z.shiftl a0 8) a1).
    rewrite lor_shift_add by lia. apply u32_id. unfold is_u32. lia. }
  assert (regs (dev s1) mac_addr0 = ((a2 * 256 + a3) * 256 + a4) * 256 + a5) as ->.
  { transitivity (u32 (mac_lo a)); [done|]. rewrite (mac_lo_sum _ Ha). apply (u32_id _).
    change (is_u32 (((a2 * 256 + a3) * 256 + a4) * 256 + a5)). unfold is_u32. lia. }
  clear - HB. change (2 ^ 24) with 16777216. change (2 ^ 16) with 65536. change (2 ^ 8) with 256.
  change (2 ^ 0) with 1. unfold mac. repeat f_equal; Z.to_euclidean_division_equations; lia.
Qed.

End Address.

(** ** Initialisation *)

(** C15: without an address in flash the device stays untouched and the call
    fails; with one it is programmed and passed to the stack. *)
Theorem init_checks_mac {conf : OethConfig} {conf_ok : OethConfigOk} mac idx base irq s :
  fresh s -> length mac = 6%nat ->
  wp (openeth_device_init mac idx base irq) (fun r s' =>
    r = mac_set mac /\
    if r then log s' = [StackInit mac] else dev s' = dev s /\ (forall a, StackInit a ∉ log s')) s.
Proof.
  intros Hf Hl. destruct (mac_set mac) eqn:Hm.
  - apply wp_device_init; [done..|]. intros s' o HS _. split; [done|apply HS].
  - unfold openeth_device_init. rewrite copy_mac_spec, (got_mac _ Hl), Hm. cbn [negb].
    apply wp_bind, wp_modify, wp_bind, wp_modify, wp_bind, wp_modify, wp_ret. split; [done|]. split; [done|].
    cbn. rewrite (f_log _ Hf). intros a. cbn. by intros [=]%list_elem_of_singleton.
Qed.

(** ** The theorems on a concrete system *)

Definition demo_frame : list Z := replicate 64 5.

(** Two frames are sent and two received; the controller acts in between and
    during the second delivery. *)
Definition demo_calls : list call :=
  [Send [[1; 2; 3]; [4]] 7 []; Send [[9]] 8 [ctrl_send]; Deliver [];
   Idle (ctrl_store 0 demo_frame); Send [[10]] 9 []; Poll [ctrl_send; ctrl_store 2 demo_frame; ctrl_send]].

Lemma demo_calls_ok : Forall call_ok demo_calls.
Proof.
  repeat apply Forall_cons_2; repeat apply Forall_nil_2; cbn; split_and?; try done;
    repeat apply Forall_cons_2; repeat apply Forall_nil_2; auto using ctrl_send_respects, ctrl_store_respects.
Qed.

(** What the system did. *)
Example demo_run :
  match (boot sim_mac 0 4096 5;; run demo_calls) sim_st with
  | Ret (accepted, s') =>
      map fst accepted = [7; 8; 9] /\ wire (dev s') = [[1; 2; 3; 4]; [9]; [10]] /\
      txdones (log s') = [7; 9; 8] /\ recvs (log s') = [demo_frame]
  | _ => False
  end.
Proof. vm_compute. done. Qed.

(** A good frame behind a bad one is dropped when one call finds both. *)
Example bad_frame_drops_next :
  match (boot sim_mac 0 4096 5;;
         run [Idle (ctrl_store 2 demo_frame); Idle (ctrl_store 0 demo_frame); Deliver []]) sim_st with
  | Ret (_, s') =>
      map rx_bad (heard (dev s')) = [true; false] /\ recvs (log s') = [] /\ rx_cur (cep (oi s')) = 0
  | _ => False
  end.
Proof. vm_compute. done. Qed.

(** A call of [openeth_send] on a full ring replaces a key that is still to be
    reported: key 1 is lost and key 3 reported for a frame that was not sent. *)
Example send_when_full_loses_key :
  match (boot sim_mac 0 4096 5;; run [Send [[1]] 1 []; Send [[2]] 2 []];;
         openeth_send [[3]] 1 3;; run [Idle ctrl_send; Idle ctrl_send; Deliver []]) sim_st with
  | Ret (_, s') => txdones (log s') = [3; 2] /\ wire (dev s') = [[1]; [2]]
  | _ => False
  end.
Proof. vm_compute. done. Qed.

Lemma tx_in_order_once_witness :
  Forall call_ok demo_calls /\
  wp (boot sim_mac 0 4096 5;; run demo_calls) (fun accepted s' =>
    wire (dev s') `prefix_of` map snd accepted /\
    exists pending, txdones (log s') ++ pending ≡ₚ map fst accepted /\
      map fst (drop (length (wire (dev s'))) accepted) ⊆+ pending) sim_st.
Proof.
  split; [exact demo_calls_ok|].
  apply (tx_in_order_once sim_mac 0 4096 5 demo_calls sim_st);
    [exact sim_fresh|reflexivity|reflexivity|exact demo_calls_ok].
Defined.

Lemma tx_all_reported_witness :
  Forall call_ok demo_calls /\
  wp (boot sim_mac 0 4096 5;; accepted ← run demo_calls; _ ← exec (Deliver []); mret accepted)
    (fun accepted s' =>
       txdones (log s') ≡ₚ map fst (take (length (wire (dev s'))) accepted)) sim_st.
Proof.
  split; [exact demo_calls_ok|].
  apply (tx_all_reported sim_mac 0 4096 5 demo_calls sim_st);
    [exact sim_fresh|reflexivity|reflexivity|exact demo_calls_ok].
Defined.

Lemma rx_in_order_witness :
  Forall call_ok demo_calls /\
  wp (boot sim_mac 0 4096 5;; _ ← run demo_calls; exec (Deliver [])) (fun _ s' =>
    exists groups, heard (dev s') = concat groups /\
      length groups = S (sum_list (map delivers demo_calls)) /\
      recvs (log s') = concat (map good_prefix groups) /\
      (Forall (fun f => rx_bad f = false) (heard (dev s')) ->
         recvs (log s') = map snd (heard (dev s')))) sim_st.
Proof.
  split; [exact demo_calls_ok|].
  apply (rx_in_order sim_mac 0 4096 5 demo_calls sim_st);
    [exact sim_fresh|reflexivity|reflexivity|exact demo_calls_ok].
Defined.

Lemma mac_ioctl_roundtrip_witness :
  Forall respects (env (set_env [ctrl_send] sim_st)) /\
  wp (r1 ← openeth_ioctl (ETH_DRV_SET_MAC_ADDRESS sim_mac 6);
      r2 ← openeth_ioctl ETH_DRV_GET_MAC_ADDRESS; mret (r1, r2))
    (fun r s' => r = ((1, []), (0, sim_mac)) /\ dev_addr (oi s') = sim_mac)
    (set_env [ctrl_send] sim_st).
Proof.
  assert (Forall respects (env (set_env [ctrl_send] sim_st))) as He.
  { apply Forall_singleton, ctrl_send_respects. }
  split; [exact He|]. apply (mac_ioctl_roundtrip sim_mac); [reflexivity| |exact He].
  repeat constructor; lia.
Defined.

Lemma init_checks_mac_witness :
  wp (openeth_device_init (replicate 6 255) 0 4096 5) (fun r s' =>
    r = mac_set (replicate 6 255) /\
    if r then log s' = [StackInit (replicate 6 255)]
    else dev s' = dev sim_st /\ (forall a, StackInit a ∉ log s')) sim_st.
Proof. apply (init_checks_mac (replicate 6 255) 0 4096 5 sim_st); [exact sim_fresh|reflexivity]. Defined.
