(* ===== verification/Sgdma.v ===== *)
(** * The scatter-gather DMA driver
    (packages/devs/dma/sopc/altera_avalon_sgdma, altera_avalon_sgdma.c and .h)

    The driver works on controllers, which it reaches by their base address, and
    on descriptors in memory.  It is written for any state that has them: the
    class [HasDma] gives access to them, what the hardware does before each bus
    access, and the kernel's interrupt calls.  Bit 31 of an address selects the
    access that bypasses the cache and is not part of the memory address
    ([phys]).  The stores that fill a descriptor are a list, so that what the
    controller can see between two of them can be stated. *)

From S2P Require Import Prelude.

(** ** Constants *)

Definition ALTERA_AVALON_SGDMA_DESCRIPTOR_SIZE : Z := 32.
Definition ALTERA_AVALON_SGDMA_STATUS_ERROR_MSK : Z := 1.
Definition ALTERA_AVALON_SGDMA_STATUS_CHAIN_COMPLETED_MSK : Z := 8.
Definition ALTERA_AVALON_SGDMA_STATUS_BUSY_MSK : Z := 16.
Definition ALTERA_AVALON_SGDMA_CONTROL_IE_GLOBAL_MSK : Z := 16.
Definition ALTERA_AVALON_SGDMA_CONTROL_RUN_MSK : Z := 32.
Definition ALTERA_AVALON_SGDMA_CONTROL_STOP_DMA_ER_MSK : Z := 64.
Definition ALTERA_AVALON_SGDMA_CONTROL_SOFTWARERESET_MSK : Z := 65536.
Definition ALTERA_AVALON_SGDMA_CONTROL_PARK_MSK : Z := 131072.
Definition ALTERA_AVALON_SGDMA_CONTROL_CLEAR_INTERRUPT_MSK : Z := 2147483648.
Definition ALTERA_AVALON_SGDMA_DESCRIPTOR_CONTROL_GENERATE_EOP_MSK : Z := 1.
Definition ALTERA_AVALON_SGDMA_DESCRIPTOR_CONTROL_READ_FIXED_ADDRESS_MSK : Z := 2.
Definition ALTERA_AVALON_SGDMA_DESCRIPTOR_CONTROL_WRITE_FIXED_ADDRESS_MSK : Z := 4.
Definition ALTERA_AVALON_SGDMA_DESCRIPTOR_CONTROL_OWNED_BY_HW_MSK : Z := 128.
Definition ALTERA_AVALON_SGDMA_DESCRIPTOR_STATUS_E_CRC_MSK : Z := 1.
Definition ALTERA_AVALON_SGDMA_DESCRIPTOR_STATUS_E_PARITY_MSK : Z := 2.
Definition ALTERA_AVALON_SGDMA_DESCRIPTOR_STATUS_E_OVERFLOW_MSK : Z := 4.
Definition ALTERA_AVALON_SGDMA_DESCRIPTOR_STATUS_E_SYNC_MSK : Z := 8.
Definition ALTERA_AVALON_SGDMA_DESCRIPTOR_STATUS_E_UEOP_MSK : Z := 16.
Definition ALTERA_AVALON_SGDMA_DESCRIPTOR_STATUS_E_MEOP_MSK : Z := 32.
Definition ALTERA_AVALON_SGDMA_DESCRIPTOR_STATUS_E_MSOP_MSK : Z := 64.

Definition ISR_HANDLED : Z := 1.

(** ** Data *)

(** The registers of a controller. *)
Record sgdma_regs := mkSgRegs {
  sg_status : Z;
  sg_control : Z;
  sg_next : Z  (* next descriptor pointer *)
}.

Definition set_sg_status (v : Z) (s : sgdma_regs) : sgdma_regs :=
  mkSgRegs v (sg_control s) (sg_next s).

Definition set_sg_control (v : Z) (s : sgdma_regs) : sgdma_regs :=
  mkSgRegs (sg_status s) v (sg_next s).

Definition set_sg_next (v : Z) (s : sgdma_regs) : sgdma_regs :=
  mkSgRegs (sg_status s) (sg_control s) v.

(** A descriptor, 32 bytes of memory. *)
Record alt_sgdma_descriptor := mkDesc {
  read_addr : Z;
  read_addr_pad : Z;
  write_addr : Z;
  write_addr_pad : Z;
  next : Z;
  next_pad : Z;
  bytes_to_transfer : Z;  (* 16 bits *)
  read_burst : Z;  (* 8 bits *)
  write_burst : Z;  (* 8 bits *)
  actual_bytes_transferred : Z;  (* 16 bits *)
  status : Z;  (* 8 bits *)
  control : Z  (* 8 bits *)
}.

Definition set_read_addr (v : Z) (s : alt_sgdma_descriptor) : alt_sgdma_descriptor :=
  mkDesc v (read_addr_pad s) (write_addr s) (write_addr_pad s) (next s) (next_pad s)
    (bytes_to_transfer s) (read_burst s) (write_burst s) (actual_bytes_transferred s) (status
    s) (control s).

Definition set_read_addr_pad (v : Z) (s : alt_sgdma_descriptor) : alt_sgdma_descriptor :=
  mkDesc (read_addr s) v (write_addr s) (write_addr_pad s) (next s) (next_pad s)
    (bytes_to_transfer s) (read_burst s) (write_burst s) (actual_bytes_transferred s) (status
    s) (control s).

Definition set_write_addr (v : Z) (s : alt_sgdma_descriptor) : alt_sgdma_descriptor :=
  mkDesc (read_addr s) (read_addr_pad s) v (write_addr_pad s) (next s) (next_pad s)
    (bytes_to_transfer s) (read_burst s) (write_burst s) (actual_bytes_transferred s) (status
    s) (control s).

Definition set_write_addr_pad (v : Z) (s : alt_sgdma_descriptor) : alt_sgdma_descriptor :=
  mkDesc (read_addr s) (read_addr_pad s) (write_addr s) v (next s) (next_pad s)
    (bytes_to_transfer s) (read_burst s) (write_burst s) (actual_bytes_transferred s) (status
    s) (control s).

Definition set_next (v : Z) (s : alt_sgdma_descriptor) : alt_sgdma_descriptor :=
  mkDesc (read_addr s) (read_addr_pad s) (write_addr s) (write_addr_pad s) v (next_pad s)
    (bytes_to_transfer s) (read_burst s) (write_burst s) (actual_bytes_transferred s) (status
    s) (control s).

Definition set_next_pad (v : Z) (s : alt_sgdma_descriptor) : alt_sgdma_descriptor :=
  mkDesc (read_addr s) (read_addr_pad s) (write_addr s) (write_addr_pad s) (next s) v
    (bytes_to_transfer s) (read_burst s) (write_burst s) (actual_bytes_transferred s) (status
    s) (control s).

Definition set_bytes_to_transfer (v : Z) (s : alt_sgdma_descriptor) : alt_sgdma_descriptor :=
  mkDesc (read_addr s) (read_addr_pad s) (write_addr s) (write_addr_pad s) (next s) (next_pad
    s) v (read_burst s) (write_burst s) (actual_bytes_transferred s) (status s) (control s).

Definition set_read_burst (v : Z) (s : alt_sgdma_descriptor) : alt_sgdma_descriptor :=
  mkDesc (read_addr s) (read_addr_pad s) (write_addr s) (write_addr_pad s) (next s) (next_pad
    s) (bytes_to_transfer s) v (write_burst s) (actual_bytes_transferred s) (status s)
    (control s).

Definition set_write_burst (v : Z) (s : alt_sgdma_descriptor) : alt_sgdma_descriptor :=
  mkDesc (read_addr s) (read_addr_pad s) (write_addr s) (write_addr_pad s) (next s) (next_pad
    s) (bytes_to_transfer s) (read_burst s) v (actual_bytes_transferred s) (status s) (control
    s).

Definition set_actual_bytes_transferred (v : Z) (s : alt_sgdma_descriptor) : alt_sgdma_descriptor :=
  mkDesc (read_addr s) (read_addr_pad s) (write_addr s) (write_addr_pad s) (next s) (next_pad
    s) (bytes_to_transfer s) (read_burst s) (write_burst s) v (status s) (control s).

Definition set_status (v : Z) (s : alt_sgdma_descriptor) : alt_sgdma_descriptor :=
  mkDesc (read_addr s) (read_addr_pad s) (write_addr s) (write_addr_pad s) (next s) (next_pad
    s) (bytes_to_transfer s) (read_burst s) (write_burst s) (actual_bytes_transferred s) v
    (control s).

Definition set_control (v : Z) (s : alt_sgdma_descriptor) : alt_sgdma_descriptor :=
  mkDesc (read_addr s) (read_addr_pad s) (write_addr s) (write_addr_pad s) (next s) (next_pad
    s) (bytes_to_transfer s) (read_burst s) (write_burst s) (actual_bytes_transferred s)
    (status s) v.

(** The controllers and the descriptors in memory. *)
Record dma := mkDma {
  ctl : gmap Z sgdma_regs;  (* by base address *)
  descs : gmap Z alt_sgdma_descriptor  (* by physical address *)
}.

Definition set_ctl (v : gmap Z sgdma_regs) (s : dma) : dma :=
  mkDma v (descs s).

Definition set_descs (v : gmap Z alt_sgdma_descriptor) (s : dma) : dma :=
  mkDma (ctl s) v.

(** Routines that a structure can point to. *)
Inductive routine := SgdmaIrq | TseRxdIsr | EthDrvDsr | Callback (n : Z).

(** The device structure; its reserved fields that no code uses are left out. *)
Record alt_sgdma_dev := mkSgDev {
  base : Z;  (* base address of SGDMA *)
  irq : Z;  (* interrupt number *)
  isr : option routine;
  dsr : option routine;
  descriptor_base : Z;  (* reserved *)
  callback : option routine;  (* callback routine pointer *)
  callback_context : Z;
  chain_control : Z  (* value ORed into the control register *)
}.

Definition set_base (v : Z) (s : alt_sgdma_dev) : alt_sgdma_dev :=
  mkSgDev v (irq s) (isr s) (dsr s) (descriptor_base s) (callback s) (callback_context s)
    (chain_control s).

Definition set_irq (v : Z) (s : alt_sgdma_dev) : alt_sgdma_dev :=
  mkSgDev (base s) v (isr s) (dsr s) (descriptor_base s) (callback s) (callback_context s)
    (chain_control s).

Definition set_isr (v : option routine) (s : alt_sgdma_dev) : alt_sgdma_dev :=
  mkSgDev (base s) (irq s) v (dsr s) (descriptor_base s) (callback s) (callback_context s)
    (chain_control s).

Definition set_dsr (v : option routine) (s : alt_sgdma_dev) : alt_sgdma_dev :=
  mkSgDev (base s) (irq s) (isr s) v (descriptor_base s) (callback s) (callback_context s)
    (chain_control s).

Definition set_descriptor_base (v : Z) (s : alt_sgdma_dev) : alt_sgdma_dev :=
  mkSgDev (base s) (irq s) (isr s) (dsr s) v (callback s) (callback_context s) (chain_control
    s).

Definition set_callback (v : option routine) (s : alt_sgdma_dev) : alt_sgdma_dev :=
  mkSgDev (base s) (irq s) (isr s) (dsr s) (descriptor_base s) v (callback_context s)
    (chain_control s).

Definition set_callback_context (v : Z) (s : alt_sgdma_dev) : alt_sgdma_dev :=
  mkSgDev (base s) (irq s) (isr s) (dsr s) (descriptor_base s) (callback s) v (chain_control
    s).

Definition set_chain_control (v : Z) (s : alt_sgdma_dev) : alt_sgdma_dev :=
  mkSgDev (base s) (irq s) (isr s) (dsr s) (descriptor_base s) (callback s) (callback_context
    s) v.

(** Calls of the kernel's interrupt services and of callbacks. *)
Inductive irq_op :=
| IntCreate (v : Z) (isr : routine) (dsr : option routine)
| IntAttach | IntAck (v : Z) | IntMask (v : Z) | IntUnmask (v : Z)
| CallBack (f : routine) (context : Z).

(** The error numbers of the C library. *)
Class Errno := { EBUSY : Z; EIO : Z; EINPROGRESS : Z }.

(** ** What the driver needs of its surroundings *)

Class HasDma (S : Type) := {
  dma_of : S -> dma;
  put_dma : dma -> S -> S;
  bus_cycle : M S unit;          (* the hardware acts before an access *)
  irq_call : irq_op -> M S unit;
}.

(** The memory address behind a pointer. *)
Definition phys (a : Z) : Z := a mod 2147483648.

Section Driver.
Context {S : Type} {has : HasDma S} {errno : Errno}.

(** ** Registers *)

Definition sg_regs_at (b : Z) : M S sgdma_regs := fun s =>
  match ctl (dma_of s) !! b with Some r => Ret (r, s) | None => UB end.

Definition sg_regs_put (b : Z) (r : sgdma_regs) : M S unit :=
  modify (fun s => put_dma (set_ctl (<[b := r]> (ctl (dma_of s))) (dma_of s)) s).

Definition sg_read (f : sgdma_regs -> Z) (b : Z) : M S Z :=
  bus_cycle;; r ← sg_regs_at b; mret (f r).

Definition IORD_STATUS : Z -> M S Z := sg_read sg_status.

Definition IORD_CONTROL : Z -> M S Z := sg_read sg_control.

(** Ones clear the status bits; BUSY is not a bit that software clears. *)
Definition clear_status (v : Z) (r : sgdma_regs) : sgdma_regs :=
  set_sg_status (Z.land (sg_status r)
    (Z.lnot (Z.land v (Z.lnot ALTERA_AVALON_SGDMA_STATUS_BUSY_MSK)))) r.

Definition IOWR_STATUS (b v : Z) : M S unit :=
  bus_cycle;; r ← sg_regs_at b; sg_regs_put b (clear_status v r).

Definition IOWR_CONTROL (b v : Z) : M S unit :=
  bus_cycle;; r ← sg_regs_at b; sg_regs_put b (set_sg_control (u32 v) r).

Definition IOWR_NEXT_DESC_POINTER (b v : Z) : M S unit :=
  bus_cycle;; r ← sg_regs_at b; sg_regs_put b (set_sg_next (u32 v) r).

(** ** Descriptors *)

Definition desc_at (a : Z) : M S alt_sgdma_descriptor := fun s =>
  match descs (dma_of s) !! phys a with Some d => Ret (d, s) | None => UB end.

(** A volatile load of a field. *)
Definition desc_load (f : alt_sgdma_descriptor -> Z) (a : Z) : M S Z :=
  bus_cycle;; d ← desc_at a; mret (f d).

(** A store: the address and the change of the descriptor there. *)
Definition store : Type := Z * (alt_sgdma_descriptor -> alt_sgdma_descriptor).

Definition desc_store (w : store) : M S unit :=
  d ← desc_at w.1;
  modify (fun s => put_dma (set_descs (<[phys w.1 := w.2 d]> (descs (dma_of s))) (dma_of s)) s).

Fixpoint desc_stores (l : list store) : M S unit :=
  match l with
  | [] => mret tt
  | w :: l' => desc_store w;; desc_stores l'
  end.

(** The control byte of a descriptor that is ready to run. *)
Definition ready_control (generate_eop read_fixed write_fixed_or_sop atlantic_channel : Z) : Z :=
  Z.lor (Z.lor (Z.lor (Z.lor
    ALTERA_AVALON_SGDMA_DESCRIPTOR_CONTROL_OWNED_BY_HW_MSK
    (if ctrue generate_eop then ALTERA_AVALON_SGDMA_DESCRIPTOR_CONTROL_GENERATE_EOP_MSK else 0))
    (if ctrue read_fixed then ALTERA_AVALON_SGDMA_DESCRIPTOR_CONTROL_READ_FIXED_ADDRESS_MSK else 0))
    (if ctrue write_fixed_or_sop
     then ALTERA_AVALON_SGDMA_DESCRIPTOR_CONTROL_WRITE_FIXED_ADDRESS_MSK else 0))
    (if ctrue atlantic_channel then Z.shiftl (Z.land atlantic_channel 15) 3 else 0).

(** The stores of [alt_avalon_sgdma_construct_descriptor], in order. *)
Definition construct_stores (desc next read_addr write_addr length_or_eop generate_eop read_fixed
    write_fixed_or_sop atlantic_channel : Z) : list store :=
  [(next, fun d => set_control (Z.land (control d)
      (Z.lnot ALTERA_AVALON_SGDMA_DESCRIPTOR_CONTROL_OWNED_BY_HW_MSK)) d);
   (desc, set_read_addr (u32 read_addr));
   (desc, set_write_addr (u32 write_addr));
   (desc, set_next (u32 next));
   (desc, set_read_addr_pad 0);
   (desc, set_write_addr_pad 0);
   (desc, set_next_pad 0);
   (desc, set_bytes_to_transfer (u16 length_or_eop));
   (desc, set_actual_bytes_transferred 0);
   (desc, set_status 0);
   (desc, set_read_burst 0);
   (desc, set_write_burst 0);
   (desc, set_control (u8 (ready_control generate_eop read_fixed write_fixed_or_sop
                             atlantic_channel)))].

Definition alt_avalon_sgdma_construct_descriptor (desc next read_addr write_addr length_or_eop
    generate_eop read_fixed write_fixed_or_sop atlantic_channel : Z) : M S unit :=
  desc_stores (construct_stores desc next read_addr write_addr length_or_eop generate_eop
                 read_fixed write_fixed_or_sop atlantic_channel).

Definition alt_avalon_sgdma_construct_mem_to_mem_desc (desc next read_addr write_addr length
    read_fixed write_fixed : Z) : M S unit :=
  alt_avalon_sgdma_construct_descriptor desc next read_addr write_addr length 0 read_fixed
    write_fixed 0.

Definition alt_avalon_sgdma_construct_stream_to_mem_desc (desc next write_addr length_or_eop
    write_fixed : Z) : M S unit :=
  alt_avalon_sgdma_construct_descriptor desc next 0 write_addr length_or_eop 0 0 write_fixed 0.

Definition alt_avalon_sgdma_construct_mem_to_stream_desc (desc next read_addr length read_fixed
    generate_sop generate_eop atlantic_channel : Z) : M S unit :=
  alt_avalon_sgdma_construct_descriptor desc next read_addr 0 length generate_eop read_fixed
    generate_sop atlantic_channel.

(** The errors of a descriptor take precedence. *)
Definition error_mask : Z :=
  foldr Z.lor 0
    [ALTERA_AVALON_SGDMA_DESCRIPTOR_STATUS_E_CRC_MSK;
     ALTERA_AVALON_SGDMA_DESCRIPTOR_STATUS_E_PARITY_MSK;
     ALTERA_AVALON_SGDMA_DESCRIPTOR_STATUS_E_OVERFLOW_MSK;
     ALTERA_AVALON_SGDMA_DESCRIPTOR_STATUS_E_SYNC_MSK;
     ALTERA_AVALON_SGDMA_DESCRIPTOR_STATUS_E_UEOP_MSK;
     ALTERA_AVALON_SGDMA_DESCRIPTOR_STATUS_E_MEOP_MSK;
     ALTERA_AVALON_SGDMA_DESCRIPTOR_STATUS_E_MSOP_MSK].

Definition alt_avalon_sgdma_check_descriptor_status (desc : Z) : M S Z :=
  st ← desc_load status desc;
  if ctrue (Z.land st error_mask) then mret (- EIO)
  else
    c ← desc_load control desc;
    if ctrue (Z.land c ALTERA_AVALON_SGDMA_DESCRIPTOR_CONTROL_OWNED_BY_HW_MSK)
    then mret (- EINPROGRESS)
    else mret 0.

Definition alt_avalon_sgdma_descpt_bytes_xfered (desc : Z) : M S Z :=
  d ← desc_at desc; mret (actual_bytes_transferred d).

(** ** Transfers *)

Definition busy (status : Z) : bool :=
  ctrue (Z.land status ALTERA_AVALON_SGDMA_STATUS_BUSY_MSK).

Definition alt_avalon_sgdma_do_async_transfer (dev : alt_sgdma_dev) (desc : Z) : M S Z :=
  st ← IORD_STATUS (base dev);
  if busy st then mret (- EBUSY)
  else
    IOWR_STATUS (base dev) 255;;
    IOWR_NEXT_DESC_POINTER (base dev) desc;;
    match isr dev with
    | Some _ =>
        control ← IORD_CONTROL (base dev);
        IOWR_CONTROL (base dev)
          (Z.lor control (Z.lor (chain_control dev)
             (Z.lor ALTERA_AVALON_SGDMA_CONTROL_RUN_MSK
                ALTERA_AVALON_SGDMA_CONTROL_STOP_DMA_ER_MSK)))
    | None =>
        control ← IORD_CONTROL (base dev);
        IOWR_CONTROL (base dev)
          (Z.land (Z.lor control (Z.lor ALTERA_AVALON_SGDMA_CONTROL_RUN_MSK
                                    ALTERA_AVALON_SGDMA_CONTROL_STOP_DMA_ER_MSK))
             (Z.lnot ALTERA_AVALON_SGDMA_CONTROL_IE_GLOBAL_MSK))
    end;;
    mret 0.

(** [while (status & BUSY);] *)
Fixpoint wait_idle (fuel : nat) (b : Z) : M S unit :=
  match fuel with
  | O => no_fuel
  | Datatypes.S k => st ← IORD_STATUS b; if busy st then wait_idle k b else mret tt
  end.

Definition alt_avalon_sgdma_do_sync_transfer (fuel : nat) (dev : alt_sgdma_dev) (desc : Z) : M S Z :=
  wait_idle fuel (base dev);;
  IOWR_STATUS (base dev) 255;;
  IOWR_NEXT_DESC_POINTER (base dev) desc;;
  control ← IORD_CONTROL (base dev);
  IOWR_CONTROL (base dev)
    (Z.lor (Z.lor ALTERA_AVALON_SGDMA_CONTROL_RUN_MSK
              ALTERA_AVALON_SGDMA_CONTROL_STOP_DMA_ER_MSK) control);;
  wait_idle fuel (base dev);;
  control ← IORD_CONTROL (base dev);
  IOWR_CONTROL (base dev) (Z.land control (Z.lnot ALTERA_AVALON_SGDMA_CONTROL_RUN_MSK));;
  status ← IORD_STATUS (base dev);
  IOWR_STATUS (base dev) 255;;
  mret (u8 status).

(** ** The rest of the interface *)

Definition alt_avalon_sgdma_register_callback (f : option routine) (control context : Z)
    (dev : alt_sgdma_dev) : alt_sgdma_dev :=
  set_chain_control control (set_callback_context context (set_callback f dev)).

Definition alt_avalon_sgdma_start (dev : alt_sgdma_dev) : M S unit :=
  control ← IORD_CONTROL (base dev);
  IOWR_CONTROL (base dev) (Z.lor control ALTERA_AVALON_SGDMA_CONTROL_RUN_MSK).

Definition alt_avalon_sgdma_stop (dev : alt_sgdma_dev) : M S unit :=
  control ← IORD_CONTROL (base dev);
  IOWR_CONTROL (base dev) (Z.land control (Z.lnot ALTERA_AVALON_SGDMA_CONTROL_RUN_MSK)).

Definition alt_avalon_sgdma_park (dev : alt_sgdma_dev) : M S unit :=
  control ← IORD_CONTROL (base dev);
  IOWR_CONTROL (base dev) (Z.lor control ALTERA_AVALON_SGDMA_CONTROL_PARK_MSK).

Definition alt_avalon_sgdma_status (dev : alt_sgdma_dev) : M S Z :=
  status ← IORD_STATUS (base dev);
  IOWR_STATUS (base dev) 255;;
  mret status.

Definition alt_avalon_sgdma_get_control (dev : alt_sgdma_dev) : M S Z := IORD_CONTROL (base dev).

Definition alt_avalon_sgdma_set_control (dev : alt_sgdma_dev) (val : Z) : M S unit :=
  IOWR_CONTROL (base dev) val.

(** The search of the list is commented out: the pointer returned was never set. *)
Definition alt_avalon_sgdma_open (name : list Z) : M S alt_sgdma_dev := undef.

Definition alt_avalon_sgdma_irq (vector : Z) (dev : alt_sgdma_dev) : M S Z :=
  irq_call (IntAck vector);;
  control ← IORD_CONTROL (base dev);
  IOWR_CONTROL (base dev) (Z.lor control ALTERA_AVALON_SGDMA_CONTROL_CLEAR_INTERRUPT_MSK);;
  match callback dev with
  | Some f => irq_call (CallBack f (callback_context dev))
  | None => mret tt
  end;;
  mret ISR_HANDLED.

Definition alt_avalon_sgdma_init (dev : alt_sgdma_dev) : M S unit :=
  IOWR_CONTROL (base dev) ALTERA_AVALON_SGDMA_CONTROL_SOFTWARERESET_MSK;;
  IOWR_CONTROL (base dev) 0;;
  IOWR_STATUS (base dev) 255;;
  irq_call (IntCreate (irq dev) SgdmaIrq None);;
  irq_call IntAttach;;
  irq_call (IntAck (irq dev));;
  irq_call (IntUnmask (irq dev)).

Definition alt_avalon_sgdma_reset (dev : alt_sgdma_dev) : M S unit :=
  IOWR_CONTROL (base dev) (Z.lor ALTERA_AVALON_SGDMA_CONTROL_SOFTWARERESET_MSK
                             ALTERA_AVALON_SGDMA_CONTROL_CLEAR_INTERRUPT_MSK);;
  IOWR_CONTROL (base dev) 0;;
  IOWR_STATUS (base dev) 255.

Definition alt_avalon_sgdma_init2 (dev : alt_sgdma_dev) : M S unit :=
  IOWR_CONTROL (base dev) (Z.lor ALTERA_AVALON_SGDMA_CONTROL_SOFTWARERESET_MSK
                             ALTERA_AVALON_SGDMA_CONTROL_CLEAR_INTERRUPT_MSK);;
  IOWR_CONTROL (base dev) 0;;
  IOWR_STATUS (base dev) 255;;
  match isr dev with
  | Some f =>
      irq_call (IntCreate (irq dev) f (dsr dev));;
      irq_call IntAttach;;
      irq_call (IntAck (irq dev))
  | None => mret tt
  end.

End Driver.
