(* ===== verification/SgdmaFacts.v ===== *)
(** * What the scatter-gather DMA driver guarantees

    The theorems hold in every state that has the controllers and descriptors
    ([DmaState]) and for every hardware that does what the controller's manual
    says of a controller that is not running ([DmaBus]): it does not start by
    itself and leaves its descriptor pointer alone. *)

From stdpp Require Import relations.
From S2P Require Import Prelude.
From S2P Require Import Sgdma.

(** ** Bits *)

(** A descriptor the controller may process. *)
Definition owned (d : alt_sgdma_descriptor) : bool := Z.testbit (control d) 7.

Definition running (r : sgdma_regs) : bool := Z.testbit (sg_control r) 5.

Lemma busy_testbit v : busy v = Z.testbit v 4.
Proof. unfold busy. by rewrite <- (ctrue_land_pow2 v 4). Qed.

Lemma owned_mask v :
  ctrue (Z.land v ALTERA_AVALON_SGDMA_DESCRIPTOR_CONTROL_OWNED_BY_HW_MSK) = Z.testbit v 7.
Proof. by rewrite <- (ctrue_land_pow2 v 7). Qed.

Lemma disown_bit v :
  Z.testbit (Z.land v (Z.lnot ALTERA_AVALON_SGDMA_DESCRIPTOR_CONTROL_OWNED_BY_HW_MSK)) 7 = false.
Proof. rewrite Z.land_spec. apply andb_false_r. Qed.

Lemma ready_control_owned a b c d : Z.testbit (u8 (ready_control a b c d)) 7 = true.
Proof. rewrite uwrap_testbit by lia. unfold ready_control. by rewrite !Z.lor_spec. Qed.

(** Clearing the status bits leaves BUSY as it is. *)
Lemma clear_status_busy v r : busy (sg_status (clear_status v r)) = busy (sg_status r).
Proof.
  rewrite !busy_testbit. unfold clear_status. cbn [set_sg_status sg_status].
  rewrite Z.land_spec, Z.lnot_spec, Z.land_spec, Z.lnot_spec by lia.
  change (Z.testbit ALTERA_AVALON_SGDMA_STATUS_BUSY_MSK 4) with true.
  by rewrite andb_false_r, andb_true_r.
Qed.

(** ** The interface *)

(** The laws of a component of the state. *)
Class DmaState (S : Type) {has : HasDma S} := {
  dma_of_put d (s : S) : dma_of (put_dma d s) = d;
  put_put d d' (s : S) : put_dma d (put_dma d' s) = put_dma d s;
  put_dma_of (s : S) : put_dma (dma_of s) s = s;
}.

(** What the hardware may do to a controller between two accesses. *)
Definition regs_rely (r r' : sgdma_regs) : Prop :=
  running r = false ->
  running r' = false /\ sg_next r' = sg_next r /\
  (busy (sg_status r) = false -> busy (sg_status r') = false).

Class DmaBus (S : Type) {has : HasDma S} := {
  bus_rely (s : S) b r : ctl (dma_of s) !! b = Some r ->
    wp bus_cycle (fun _ s' => exists r', ctl (dma_of s') !! b = Some r' /\ regs_rely r r') s;
}.

Lemma surjective_dma d : mkDma (ctl d) (descs d) = d.
Proof. by destruct d. Qed.

(** ** Descriptors *)

Section Descriptors.
Context {S : Type} {has : HasDma S} {dstate : DmaState S}.

(** The descriptors after a list of stores. *)
Fixpoint apply_stores (l : list store) (m : gmap Z alt_sgdma_descriptor) : gmap Z alt_sgdma_descriptor :=
  match l with
  | [] => m
  | w :: l' => apply_stores l' (alter w.2 (phys w.1) m)
  end.

Lemma wp_desc_store w (Q : unit -> S -> Prop) s :
  is_Some (descs (dma_of s) !! phys w.1) ->
  Q tt (put_dma (set_descs (alter w.2 (phys w.1) (descs (dma_of s))) (dma_of s)) s) ->
  wp (desc_store w) Q s.
Proof.
  intros [d Hd] HQ. unfold desc_store, desc_at. apply wp_bind. unfold wp at 1. rewrite Hd.
  apply wp_modify. enough (<[phys w.1 := w.2 d]> (descs (dma_of s)) =
    alter w.2 (phys w.1) (descs (dma_of s))) as -> by done.
  apply map_eq. intros i. destruct (decide (i = phys w.1)) as [->|Hi].
  - by rewrite lookup_insert_eq, lookup_alter_eq, Hd.
  - by rewrite lookup_insert_ne, lookup_alter_ne.
Qed.

Lemma wp_desc_stores l (Q : unit -> S -> Prop) s :
  Forall (fun w => is_Some (descs (dma_of s) !! phys w.1)) l ->
  Q tt (put_dma (set_descs (apply_stores l (descs (dma_of s))) (dma_of s)) s) ->
  wp (desc_stores l) Q s.
Proof.
  revert s. induction l as [|w l IH]; intros s Hl HQ.
  - apply wp_ret. cbn [apply_stores] in HQ. unfold set_descs in HQ.
    by rewrite surjective_dma, put_dma_of in HQ.
  - apply Forall_cons_1 in Hl as [Hw Hl]. cbn [desc_stores]. apply wp_bind, wp_desc_store; [done|].
    apply IH; rewrite dma_of_put.
    + eapply Forall_impl; [|exact Hl]. intros w' Hw'. cbn [set_descs descs]. by rewrite lookup_alter_is_Some.
    + by rewrite put_put.
Qed.

(** Stores at one address do not touch the others, and work as one change there. *)
Lemma apply_stores_other l m p :
  Forall (fun w => phys w.1 <> p) l -> apply_stores l m !! p = m !! p.
Proof.
  revert m. induction l as [|w l IH]; intros m Hl; [done|].
  apply Forall_cons_1 in Hl as [Hw Hl]. cbn [apply_stores]. rewrite IH by done.
  by apply lookup_alter_ne.
Qed.

Lemma apply_stores_at l m p d :
  Forall (fun w => phys w.1 = p) l -> m !! p = Some d ->
  apply_stores l m !! p = Some (fold_left (fun d w => w.2 d) l d).
Proof.
  revert m d. induction l as [|w l IH]; intros m d Hl Hm; [done|].
  apply Forall_cons_1 in Hl as [Hw Hl]. cbn [apply_stores fold_left]. apply IH; [done|].
  by rewrite Hw, lookup_alter_eq, Hm.
Qed.

(** The descriptor a construction leaves. *)
Definition constructed (next read_addr write_addr length_or_eop generate_eop read_fixed
    write_fixed_or_sop atlantic_channel : Z) : alt_sgdma_descriptor :=
  mkDesc (u32 read_addr) 0 (u32 write_addr) 0 (u32 next) 0 (u16 length_or_eop) 0 0 0 0
    (u8 (ready_control generate_eop read_fixed write_fixed_or_sop atlantic_channel)).

(** The stores to the descriptor itself: until the last one it is not owned. *)
Lemma own_stores desc next ra wa len eop rf wf ch k d :
  owned d = false ->
  let d' := fold_left (fun d w => w.2 d)
              (take k (drop 1 (construct_stores desc next ra wa len eop rf wf ch))) d in
  if decide (k < 12)%nat then owned d' = false else d' = constructed next ra wa len eop rf wf ch.
Proof.
  intros Hd. cbn zeta. destruct (decide (k < 12)%nat) as [Hk|Hk].
  - do 12 (destruct k as [|k]; [exact Hd|]). lia.
  - by do 12 (destruct k as [|k]; [exfalso; lia|]); rewrite take_ge by (cbn; lia).
Qed.

Lemma construct_stores_split desc next ra wa len eop rf wf ch k :
  take (Datatypes.S k) (construct_stores desc next ra wa len eop rf wf ch) =
  (next, fun d => set_control (Z.land (control d)
     (Z.lnot ALTERA_AVALON_SGDMA_DESCRIPTOR_CONTROL_OWNED_BY_HW_MSK)) d)
    :: take k (drop 1 (construct_stores desc next ra wa len eop rf wf ch)).
Proof. done. Qed.

(** At no point of the construction of a descriptor does the controller see
    it half made: after any number of the stores of
    [alt_avalon_sgdma_construct_descriptor], in the order of the source, the
    descriptor is not owned by the hardware, unless all of them are done, and then
    it holds exactly the arguments; from the first store on the next descriptor
    is not owned, so that the controller stops there; no other descriptor and no
    controller changes. *)
Theorem construct_hides_partial desc next ra wa len eop rf wf ch k (s : S) d dn :
  phys desc <> phys next ->
  descs (dma_of s) !! phys desc = Some d -> owned d = false ->
  descs (dma_of s) !! phys next = Some dn ->
  wp (desc_stores (take (Datatypes.S k) (construct_stores desc next ra wa len eop rf wf ch)))
    (fun _ s' =>
      (exists d', descs (dma_of s') !! phys desc = Some d' /\
        if decide (k < 12)%nat then owned d' = false
        else d' = constructed next ra wa len eop rf wf ch /\ owned d' = true) /\
      (exists dn', descs (dma_of s') !! phys next = Some dn' /\ owned dn' = false) /\
      (forall p, p <> phys desc -> p <> phys next ->
         descs (dma_of s') !! p = descs (dma_of s) !! p) /\
      ctl (dma_of s') = ctl (dma_of s)) s.
Proof.
  intros Hne Hd Hown Hn. rewrite construct_stores_split.
  pose proof (own_stores desc next ra wa len eop rf wf ch k d Hown) as Hk. cbn zeta in Hk.
  set (l := take k _) in *.
  assert (Forall (fun w : store => w.1 = desc) l) as Hl.
  { apply Forall_take. by repeat constructor. }
  apply wp_desc_stores.
  - constructor; [by exists dn|]. eapply Forall_impl; [|exact Hl]. cbn beta. intros w ->. by exists d.
  - rewrite dma_of_put. cbn [apply_stores set_descs descs ctl]. split; [|split; [|split; [|done]]].
    + eexists. split; [apply apply_stores_at|].
      * eapply Forall_impl; [|exact Hl]. cbn beta. by intros w ->.
      * cbn [fst]. rewrite lookup_alter_ne by done. exact Hd.
      * cbn beta. destruct (decide (k < 12)%nat); [done|]. rewrite Hk. split; [done|].
        apply ready_control_owned.
    + rewrite apply_stores_other by (eapply Forall_impl; [|exact Hl]; cbn beta; by intros w ->).
      cbn [fst]. rewrite lookup_alter_eq, Hn. eexists. split; [done|]. apply disown_bit.
    + intros p Hp Hp'. rewrite apply_stores_other by (eapply Forall_impl; [|exact Hl]; cbn beta; by intros w ->).
      by apply lookup_alter_ne.
Qed.

(** The construction as a whole. *)
Lemma construct_apply desc next ra wa len eop rf wf ch m d dn :
  phys desc <> phys next -> m !! phys desc = Some d -> m !! phys next = Some dn ->
  apply_stores (construct_stores desc next ra wa len eop rf wf ch) m =
  <[phys desc := constructed next ra wa len eop rf wf ch]>
    (<[phys next := set_control (Z.land (control dn)
        (Z.lnot ALTERA_AVALON_SGDMA_DESCRIPTOR_CONTROL_OWNED_BY_HW_MSK)) dn]> m).
Proof.
  intros Hne Hd Hn. set (l := construct_stores desc next ra wa len eop rf wf ch).
  assert (Forall (fun w : store => w.1 = desc) (drop 1 l)) as Hl by (by repeat constructor).
  change (apply_stores l m) with (apply_stores (drop 1 l) (alter (fun d => set_control (Z.land (control d)
     (Z.lnot ALTERA_AVALON_SGDMA_DESCRIPTOR_CONTROL_OWNED_BY_HW_MSK)) d) (phys next) m)).
  apply map_eq. intros p. destruct (decide (p = phys desc)) as [->|Hp].
  - rewrite lookup_insert_eq, (apply_stores_at _ _ _ d); [done|..].
    + eapply Forall_impl; [|exact Hl]. cbn beta. by intros w ->.
    + by rewrite lookup_alter_ne.
  - rewrite lookup_insert_ne by done.
    rewrite apply_stores_other by (eapply Forall_impl; [|exact Hl]; cbn beta; by intros w ->).
    destruct (decide (p = phys next)) as [->|Hpn].
    + by rewrite lookup_alter_eq, lookup_insert_eq, Hn.
    + by rewrite lookup_alter_ne, lookup_insert_ne.
Qed.

Lemma wp_construct desc next ra wa len eop rf wf ch (Q : unit -> S -> Prop) s d dn :
  phys desc <> phys next ->
  descs (dma_of s) !! phys desc = Some d -> descs (dma_of s) !! phys next = Some dn ->
  Q tt (put_dma (set_descs
    (<[phys desc := constructed next ra wa len eop rf wf ch]>
      (<[phys next := set_control (Z.land (control dn)
          (Z.lnot ALTERA_AVALON_SGDMA_DESCRIPTOR_CONTROL_OWNED_BY_HW_MSK)) dn]> (descs (dma_of s))))
    (dma_of s)) s) ->
  wp (alt_avalon_sgdma_construct_descriptor desc next ra wa len eop rf wf ch) Q s.
Proof.
  intros Hne Hd Hn HQ. apply wp_desc_stores; [|by erewrite construct_apply].
  repeat constructor; cbn [fst]; eauto.
Qed.

End Descriptors.

(** ** Transfers *)

(** A controller that is not running and was seen idle. *)
Definition idle (r : sgdma_regs) : Prop := running r = false /\ busy (sg_status r) = false.

Lemma idle_rely r r' : regs_rely r r' -> idle r -> idle r' /\ sg_next r' = sg_next r.
Proof. intros Hrel [Hr Hb]. destruct (Hrel Hr) as (Hr' & Hn & Hb'). split; [split|]; auto. Qed.

Lemma idle_clear v r : idle r -> idle (clear_status v r).
Proof. intros [Hr Hb]. split; [done|]. by rewrite clear_status_busy. Qed.

(** The control word that starts a transfer. *)
Definition start_word (dev : alt_sgdma_dev) (c : Z) : Prop :=
  Z.testbit c 5 = true /\ Z.testbit c 6 = true /\
  match isr dev with
  | None => Z.testbit c 4 = false
  | Some _ => forall i, 0 <= i < 32 -> Z.testbit (chain_control dev) i = true -> Z.testbit c i = true
  end.

Lemma start_word_isr dev c f :
  isr dev = Some f ->
  start_word dev (u32 (Z.lor c (Z.lor (chain_control dev)
    (Z.lor ALTERA_AVALON_SGDMA_CONTROL_RUN_MSK ALTERA_AVALON_SGDMA_CONTROL_STOP_DMA_ER_MSK)))).
Proof.
  intros Hf. unfold start_word. rewrite Hf, !uwrap_testbit, !Z.lor_spec by lia.
  repeat split; [by rewrite !orb_true_r..|]. intros i Hi Hc.
  by rewrite uwrap_testbit, !Z.lor_spec, Hc, orb_true_r by lia.
Qed.

Lemma start_word_no_isr dev c :
  isr dev = None ->
  start_word dev (u32 (Z.land (Z.lor c (Z.lor ALTERA_AVALON_SGDMA_CONTROL_RUN_MSK
    ALTERA_AVALON_SGDMA_CONTROL_STOP_DMA_ER_MSK)) (Z.lnot ALTERA_AVALON_SGDMA_CONTROL_IE_GLOBAL_MSK))).
Proof.
  intros Hf. unfold start_word. rewrite Hf, !uwrap_testbit, !Z.land_spec, !Z.lor_spec by lia.
  repeat split; [by rewrite orb_true_r..|]. apply andb_false_r.
Qed.

Definition put_regs {S} {has : HasDma S} (b : Z) (r : sgdma_regs) (s : S) : S :=
  put_dma (set_ctl (<[b := r]> (ctl (dma_of s))) (dma_of s)) s.

(** Accesses to a controller under an invariant [J] that ties its registers to
    the state: the hardware keeps it while the controller does not run, and so do
    writes that do not start it. *)
Section Accesses.
Context {S : Type} {has : HasDma S} {errno : Errno}.
Variables (J : sgdma_regs -> S -> Prop) (b : Z).
Hypothesis J_regs : forall r s, J r s -> ctl (dma_of s) !! b = Some r.
Hypothesis J_bus : forall r s, J r s -> running r = false ->
  wp bus_cycle (fun _ s' => exists r', J r' s' /\ regs_rely r r') s.
Hypothesis J_put : forall r r' s, J r s -> idle r' -> J r' (put_regs b r' s).

Lemma wp_regs_at (Q : sgdma_regs -> S -> Prop) s r : J r s -> Q r s -> wp (sg_regs_at b) Q s.
Proof. intros Hr%J_regs HQ. unfold sg_regs_at, wp. by rewrite Hr. Qed.

Lemma wp_sg_read f (Q : Z -> S -> Prop) s r :
  J r s -> running r = false ->
  (forall s' r', J r' s' -> regs_rely r r' -> Q (f r') s') -> wp (sg_read f b) Q s.
Proof.
  intros Hr Hrun HQ. apply wp_bind. eapply wp_mono; [by eapply J_bus|].
  intros [] s' (r' & Hr' & Hrel). apply wp_bind, (wp_regs_at _ _ r'); [done|]. by apply wp_ret, HQ.
Qed.

(** The register writes: the hardware acts, then the registers change. *)
Lemma wp_sg_write (g : sgdma_regs -> sgdma_regs) (Q : unit -> S -> Prop) s r :
  J r s -> running r = false ->
  (forall s' r', J r' s' -> regs_rely r r' -> Q tt (put_regs b (g r') s')) ->
  wp (bus_cycle;; r ← sg_regs_at b; sg_regs_put b (g r)) Q s.
Proof.
  intros Hr Hrun HQ. apply wp_bind. eapply wp_mono; [by eapply J_bus|].
  intros [] s' (r' & Hr' & Hrel). apply wp_bind, (wp_regs_at _ _ r'); [done|].
  apply wp_modify. by eapply HQ.
Qed.

(** The state after the controller was started at [desc]. *)
Definition started (dev : alt_sgdma_dev) (desc : Z) (s' : S) : Prop :=
  exists r c s, J r s /\ idle r /\ sg_next r = u32 desc /\ start_word dev c /\
    s' = put_regs b (set_sg_control c r) s.

Lemma wp_start_transfer dev desc (Q : unit -> S -> Prop) s r :
  J r s -> idle r -> sg_next r = u32 desc ->
  (forall s', started dev desc s' -> Q tt s') ->
  wp match isr dev with
    | Some _ =>
        control ← IORD_CONTROL b;
        IOWR_CONTROL b
          (Z.lor control (Z.lor (chain_control dev)
             (Z.lor ALTERA_AVALON_SGDMA_CONTROL_RUN_MSK
                ALTERA_AVALON_SGDMA_CONTROL_STOP_DMA_ER_MSK)))
    | None =>
        control ← IORD_CONTROL b;
        IOWR_CONTROL b
          (Z.land (Z.lor control (Z.lor ALTERA_AVALON_SGDMA_CONTROL_RUN_MSK
                                    ALTERA_AVALON_SGDMA_CONTROL_STOP_DMA_ER_MSK))
             (Z.lnot ALTERA_AVALON_SGDMA_CONTROL_IE_GLOBAL_MSK))
    end Q s.
Proof.
  intros Hr Hi Hn HQ. destruct (isr dev) eqn:Hisr; apply wp_bind, (wp_sg_read _ _ _ r);
    try done; try apply Hi;
    intros s1 r1 Hr1 Hrel1; destruct (idle_rely _ _ Hrel1 Hi) as [Hi1 Hn1];
    apply (wp_sg_write (set_sg_control _) _ _ r1); try done; try apply Hi1;
    intros s2 r2 Hr2 Hrel2; destruct (idle_rely _ _ Hrel2 Hi1) as [Hi2 Hn2];
    apply HQ; exists r2; eexists _, s2; (split; [done|]); (split; [done|]); (split; [congruence|]);
    (split; [|reflexivity]).
  - by eapply start_word_isr.
  - by apply start_word_no_isr.
Qed.

Lemma wp_async_transfer dev desc (Q : Z -> S -> Prop) s r :
  base dev = b -> J r s -> running r = false ->
  (forall s' r', busy (sg_status r) <> false -> J r' s' -> running r' = false ->
     sg_next r' = sg_next r -> Q (- EBUSY) s') ->
  (forall s', started dev desc s' -> Q 0 s') ->
  wp (alt_avalon_sgdma_do_async_transfer dev desc) Q s.
Proof.
  intros Hb Hr Hrun HQ1 HQ2. unfold alt_avalon_sgdma_do_async_transfer.
  apply wp_bind. rewrite Hb. apply (wp_sg_read _ _ _ r); [done..|]. intros s1 r1 Hr1 Hrel1.
  destruct (Hrel1 Hrun) as (Hrun1 & Hn1 & Hb1). wp_if.
  { apply wp_ret. apply (HQ1 s1 r1); try done. intros Hbf. specialize (Hb1 Hbf). congruence. }
  assert (idle r1) as Hi1 by done.
  apply wp_bind, (wp_sg_write (clear_status 255) _ _ r1); [done..|]. intros s2 r2 Hr2 Hrel2.
  destruct (idle_rely _ _ Hrel2 Hi1) as [Hi2 _]. apply (idle_clear 255) in Hi2.
  apply wp_bind, (wp_sg_write (set_sg_next _) _ _ (clear_status 255 r2)); [by eapply J_put|apply Hi2|].
  intros s3 r3 Hr3 Hrel3. destruct (idle_rely _ _ Hrel3 Hi2) as [Hi3 _].
  apply wp_bind. apply (wp_start_transfer _ desc _ _ (set_sg_next (u32 desc) r3));
    [by eapply J_put|done|done|].
  intros s4 H4. by apply wp_ret, HQ2.
Qed.

End Accesses.

Section Transfers.
Context {S : Type} {has : HasDma S} {dstate : DmaState S} {dbus : DmaBus S} {errno : Errno}.

(** A transfer is started on a controller that is not running: when the
    controller is busy the routine reports -EBUSY and neither starts it nor moves
    its descriptor pointer; when it is not busy it is pointed at the descriptor
    and told to run and to stop on errors, with the interrupts of the device
    enabled when it has an interrupt routine and all interrupts off when it has
    none. *)
Theorem async_transfer_starts dev desc (s : S) r :
  ctl (dma_of s) !! base dev = Some r -> running r = false ->
  wp (alt_avalon_sgdma_do_async_transfer dev desc) (fun v s' =>
    exists r', ctl (dma_of s') !! base dev = Some r' /\
      (v = - EBUSY /\ busy (sg_status r) = true /\ running r' = false /\ sg_next r' = sg_next r \/
       v = 0 /\ sg_next r' = u32 desc /\ start_word dev (sg_control r'))) s.
Proof.
  intros Hr Hrun.
  apply (wp_async_transfer (fun r s => ctl (dma_of s) !! base dev = Some r) (base dev)) with r; try done.
  - intros r1 s1 H1 _. by apply bus_rely.
  - intros r1 r2 s1 _ _. unfold put_regs. rewrite dma_of_put. apply lookup_insert_eq.
  - intros s' r' Hb H' Hrun' Hn'. exists r'. split; [done|]. left.
    destruct (busy (sg_status r)); [done|congruence].
  - intros s' (r1 & c & s1 & _ & _ & Hn & Hw & ->). exists (set_sg_control c r1). split.
    + unfold put_regs. rewrite dma_of_put. apply lookup_insert_eq.
    + by right.
Qed.

End Transfers.

(** ** A machine of controllers that go_idle at once *)

Definition go_idle (r : sgdma_regs) : sgdma_regs :=
  set_sg_status (Z.land (sg_status r) (Z.lnot ALTERA_AVALON_SGDMA_STATUS_BUSY_MSK)) r.

#[local] Instance prompt_dma : HasDma dma := {
  dma_of d := d;
  put_dma d _ := d;
  bus_cycle := modify (fun d => set_ctl (go_idle <$> ctl d) d);
  irq_call _ := mret tt;
}.

#[local] Instance prompt_state : DmaState dma.
Proof. by constructor. Qed.

Lemma go_idle_idle r : busy (sg_status (go_idle r)) = false.
Proof.
  rewrite busy_testbit. unfold go_idle. cbn [sg_status set_sg_status].
  rewrite Z.land_spec. apply andb_false_r.
Qed.

#[local] Instance prompt_bus : DmaBus dma.
Proof.
  constructor. intros d b r Hr. apply wp_modify. cbn [dma_of prompt_dma ctl set_ctl]. cbn in Hr.
  rewrite lookup_fmap, Hr. exists (go_idle r). split; [done|]. intros Hrun.
  split; [done|]. split; [done|]. intros _. apply go_idle_idle.
Qed.

#[local] Instance newlib_errno : Errno := { EBUSY := 16; EIO := 5; EINPROGRESS := 119 }.

Definition blank_desc : alt_sgdma_descriptor := mkDesc 7 7 7 7 7 7 7 7 7 7 7 0.

Definition prompt_start : dma := mkDma {[ 64 := mkSgRegs 16 0 0 ]} {[ 0 := blank_desc; 32 := blank_desc ]}.

Lemma construct_hides_partial_witness :
  wp (desc_stores (take 8 (construct_stores 0 32 4096 0 100 1 0 1 0))) (fun _ (s' : dma) =>
    exists d', descs s' !! 0 = Some d' /\ owned d' = false) prompt_start.
Proof.
  eapply wp_mono.
  - apply (construct_hides_partial 0 32 4096 0 100 1 0 1 0 7 prompt_start blank_desc blank_desc);
      [by vm_compute | reflexivity..].
  - intros a s' [(d' & Hd & Ho) _]. exists d'. by split.
Defined.

Lemma async_transfer_starts_witness :
  wp (alt_avalon_sgdma_do_async_transfer (mkSgDev 64 1 None None 0 None 0 0) 32) (fun v (s' : dma) =>
    exists r', ctl s' !! 64 = Some r' /\
      (v = - EBUSY /\ running r' = false \/ v = 0 /\ sg_next r' = 32)) prompt_start.
Proof.
  eapply wp_mono.
  - apply (async_transfer_starts (mkSgDev 64 1 None None 0 None 0 0) 32 prompt_start (mkSgRegs 16 0 0));
      reflexivity.
  - intros v s' (r' & Hr & [(Hv & _ & Hrun & _)|(Hv & Hn & _)]); exists r'; (split; [done|]).
    + by left.
    + by right.
Defined.
