(* ===== verification/Tse.v ===== *)
(** * The triple-speed Ethernet driver
    (packages/devs/eth/sopc/altera_avalon_tse, if_tse.c, nios2_tse.h and
    triple_speed_ethernet_regs.h)

    The driver uses two scatter-gather DMA controllers ([Sgdma]): one reads the
    transmit buffer into the MAC, one stores received frames in a chain of
    buffers.  Hardware and driver share the registers, the descriptors and the
    buffers; the field [env] of the state lists what the hardware does before
    each of the coming accesses of the driver, as arbitrary functions.  The
    network stack is outside the repository: what it is told is the trace [log],
    and the buffers it offers for a frame are a function of that trace.  The
    cache operations, which have no effect on values here, are left out. *)

From stdpp Require Import functions.
From S2P Require Import Prelude.
From S2P Require Import Sgdma.

(** ** Constants *)

Definition ALTERA_TSE_MAC_MAX_FRAME_LENGTH : Z := 1518.
Definition ALTERA_TSE_DUPLEX_MODE_DEFAULT : Z := 1.
Definition ALTERA_TSE_MAC_SPEED_DEFAULT : Z := 0.
Definition ALTERA_AUTONEG_TIMEOUT_THRESHOLD : Z := 7000000.
Definition ALTERA_NOMDIO_TIMEOUT_THRESHOLD : Z := 1000000.
Definition ALTERA_DISGIGA_TIMEOUT_THRESHOLD : Z := 5000000.
Definition NTL848PHY_ID : Z := 536894608.
Definition NTLPHY_ID : Z := 536894586.
Definition MVLPHY_ID : Z := 321.
Definition BUFFER_SIZE : Z := 1528 + 16 + 8.

Definition ALTERA_TSEMAC_CMD_TX_ENA_MSK : Z := 1.
Definition ALTERA_TSEMAC_CMD_RX_ENA_MSK : Z := 2.
Definition ALTERA_TSEMAC_CMD_ETH_SPEED_MSK : Z := 8.
Definition ALTERA_TSEMAC_CMD_HD_ENA_MSK : Z := 1024.
Definition ALTERA_TSEMAC_CMD_SW_RESET_MSK : Z := 8192.
Definition ALTERA_TSEMAC_CMD_RX_ERR_DISC_MSK : Z := 67108864.
Definition ALTERA_TSEMAC_TX_CMD_STAT_TXSHIFT16_MSK : Z := 262144.

Definition PCS_CTL_an_enable : Z := 4096.
Definition PCS_CTL_sw_reset : Z := 32768.
Definition PCS_CTL_rx_slpbk : Z := 16384.
Definition PCS_ST_an_done : Z := 32.

Definition ISR_CALL_DSR : Z := 2.

(** ** Data *)

(** The registers of [np_tse_mac] that the driver uses; [MDIO] is a register of
    [mdio1] by its number. *)
Inductive tse_reg :=
| CMD_CONFIG | MAC_0 | MAC_1 | FRM_LENGTH | RX_SECTION_EMPTY | RX_SECTION_FULL
| TX_SECTION_EMPTY | TX_SECTION_FULL | RX_ALMOST_EMPTY | RX_ALMOST_FULL | TX_ALMOST_EMPTY
| TX_ALMOST_FULL | MDIO_ADDR1 | TX_CMD_STAT | SMAC (i j : Z) | HASH_TABLE (i : Z) | MDIO (r : Z).

#[global] Instance tse_reg_eq_dec : EqDecision tse_reg.
Proof. solve_decision. Defined.

Abbreviation mdio_CONTROL := (MDIO 0).
Abbreviation mdio_STATUS := (MDIO 1).
Abbreviation mdio_PHY_ID1 := (MDIO 2).
Abbreviation mdio_PHY_ID2 := (MDIO 3).
Abbreviation mdio_reg10 := (MDIO 16).
Abbreviation mdio_reg11 := (MDIO 17).
Abbreviation mdio_reg14 := (MDIO 20).
Abbreviation mdio_reg1b := (MDIO 27).

(** The structure [tse_priv_data]; fields no code uses are left out. *)
Record tse_priv_data := mkTse {
  rx_buffer : Z;  (* address of the receive buffers *)
  tx_buffer : Z;  (* address of the transmit buffers *)
  txbusy : Z;  (* a packet has been sent *)
  txkey : Z;  (* used to ack when packet sent *)
  enaddr : list Z;  (* controller ESA (MAC address) *)
  config_enaddr : option (list Z);  (* the routine that sets it, by the address it sets *)
  within_send : Z;
  tx_sgdma : alt_sgdma_dev;
  rx_sgdma : alt_sgdma_dev;
  rx_current_index : Z;
  bytesReceived : Z;  (* 32 bits, signed *)
  speed : Z
}.

Definition set_rx_buffer (v : Z) (s : tse_priv_data) : tse_priv_data :=
  mkTse v (tx_buffer s) (txbusy s) (txkey s) (enaddr s) (config_enaddr s) (within_send s)
    (tx_sgdma s) (rx_sgdma s) (rx_current_index s) (bytesReceived s) (speed s).

Definition set_tx_buffer (v : Z) (s : tse_priv_data) : tse_priv_data :=
  mkTse (rx_buffer s) v (txbusy s) (txkey s) (enaddr s) (config_enaddr s) (within_send s)
    (tx_sgdma s) (rx_sgdma s) (rx_current_index s) (bytesReceived s) (speed s).

Definition set_txbusy (v : Z) (s : tse_priv_data) : tse_priv_data :=
  mkTse (rx_buffer s) (tx_buffer s) v (txkey s) (enaddr s) (config_enaddr s) (within_send s)
    (tx_sgdma s) (rx_sgdma s) (rx_current_index s) (bytesReceived s) (speed s).

Definition set_txkey (v : Z) (s : tse_priv_data) : tse_priv_data :=
  mkTse (rx_buffer s) (tx_buffer s) (txbusy s) v (enaddr s) (config_enaddr s) (within_send s)
    (tx_sgdma s) (rx_sgdma s) (rx_current_index s) (bytesReceived s) (speed s).

Definition set_enaddr (v : list Z) (s : tse_priv_data) : tse_priv_data :=
  mkTse (rx_buffer s) (tx_buffer s) (txbusy s) (txkey s) v (config_enaddr s) (within_send s)
    (tx_sgdma s) (rx_sgdma s) (rx_current_index s) (bytesReceived s) (speed s).

Definition set_config_enaddr (v : option (list Z)) (s : tse_priv_data) : tse_priv_data :=
  mkTse (rx_buffer s) (tx_buffer s) (txbusy s) (txkey s) (enaddr s) v (within_send s)
    (tx_sgdma s) (rx_sgdma s) (rx_current_index s) (bytesReceived s) (speed s).

Definition set_within_send (v : Z) (s : tse_priv_data) : tse_priv_data :=
  mkTse (rx_buffer s) (tx_buffer s) (txbusy s) (txkey s) (enaddr s) (config_enaddr s) v
    (tx_sgdma s) (rx_sgdma s) (rx_current_index s) (bytesReceived s) (speed s).

Definition set_tx_sgdma (v : alt_sgdma_dev) (s : tse_priv_data) : tse_priv_data :=
  mkTse (rx_buffer s) (tx_buffer s) (txbusy s) (txkey s) (enaddr s) (config_enaddr s)
    (within_send s) v (rx_sgdma s) (rx_current_index s) (bytesReceived s) (speed s).

Definition set_rx_sgdma (v : alt_sgdma_dev) (s : tse_priv_data) : tse_priv_data :=
  mkTse (rx_buffer s) (tx_buffer s) (txbusy s) (txkey s) (enaddr s) (config_enaddr s)
    (within_send s) (tx_sgdma s) v (rx_current_index s) (bytesReceived s) (speed s).

Definition set_rx_current_index (v : Z) (s : tse_priv_data) : tse_priv_data :=
  mkTse (rx_buffer s) (tx_buffer s) (txbusy s) (txkey s) (enaddr s) (config_enaddr s)
    (within_send s) (tx_sgdma s) (rx_sgdma s) v (bytesReceived s) (speed s).

Definition set_bytesReceived (v : Z) (s : tse_priv_data) : tse_priv_data :=
  mkTse (rx_buffer s) (tx_buffer s) (txbusy s) (txkey s) (enaddr s) (config_enaddr s)
    (within_send s) (tx_sgdma s) (rx_sgdma s) (rx_current_index s) v (speed s).

Definition set_speed (v : Z) (s : tse_priv_data) : tse_priv_data :=
  mkTse (rx_buffer s) (tx_buffer s) (txbusy s) (txkey s) (enaddr s) (config_enaddr s)
    (within_send s) (tx_sgdma s) (rx_sgdma s) (rx_current_index s) (bytesReceived s) v.

(** What the driver shares with the hardware.  The last two fields are not used by
    the driver. *)
Record board := mkBoard {
  sg : dma;  (* the DMA controllers and the descriptors *)
  mac : tse_reg -> Z;  (* the registers of the MAC and the PHY *)
  txmem : list Z;  (* the transmit buffers *)
  rxmem : list Z;  (* the receive buffers *)
  wire : list (list Z);  (* what the transmit controller has read *)
  heard : list (list Z)  (* what the receive controller has stored *)
}.

Definition set_sg (v : dma) (s : board) : board :=
  mkBoard v (mac s) (txmem s) (rxmem s) (wire s) (heard s).

Definition set_mac (v : tse_reg -> Z) (s : board) : board :=
  mkBoard (sg s) v (txmem s) (rxmem s) (wire s) (heard s).

Definition set_txmem (v : list Z) (s : board) : board :=
  mkBoard (sg s) (mac s) v (rxmem s) (wire s) (heard s).

Definition set_rxmem (v : list Z) (s : board) : board :=
  mkBoard (sg s) (mac s) (txmem s) v (wire s) (heard s).

Definition set_wire (v : list (list Z)) (s : board) : board :=
  mkBoard (sg s) (mac s) (txmem s) (rxmem s) v (heard s).

Definition set_heard (v : list (list Z)) (s : board) : board :=
  mkBoard (sg s) (mac s) (txmem s) (rxmem s) (wire s) v.

(** Calls out of the driver. *)
Inductive event :=
| Irq (o : irq_op)
| StackInit (addr : list Z)                    (* init *)
| TxDone (key : Z)                             (* tx_done, with status 0 *)
| Recv (total_len : Z) (chunks : list (list Z)) (* recv, what its buffers got *)
| NotRecv (total_len : Z)                      (* recv, no buffers *)
| Usleep (us : Z)
| Diag (message : string).

(** The state of the driver. *)
Record st := mkSt {
  cpd : tse_priv_data;
  bd : board;
  env : list (board -> board);  (* what the hardware does at the coming accesses *)
  log : list event  (* calls out of the driver, newest last *)
}.

Definition set_cpd (v : tse_priv_data) (s : st) : st :=
  mkSt v (bd s) (env s) (log s).

Definition set_bd (v : board) (s : st) : st :=
  mkSt (cpd s) v (env s) (log s).

Definition set_env (v : list (board -> board)) (s : st) : st :=
  mkSt (cpd s) (bd s) v (log s).

Definition set_log (v : list event) (s : st) : st :=
  mkSt (cpd s) (bd s) (env s) v.

Definition upd_cpd (f : tse_priv_data -> tse_priv_data) (s : st) : st := set_cpd (f (cpd s)) s.

Definition upd_bd (f : board -> board) (s : st) : st := set_bd (f (bd s)) s.

Definition emit (e : event) : M st unit := modify (fun s => set_log (log s ++ [e]) s).

(** The hardware acts before an access. *)
Definition hw : M st unit := fun s =>
  match env s with
  | [] => Ret (tt, s)
  | f :: e => Ret (tt, set_env e (upd_bd f s))
  end.

#[global] Instance tse_has_dma : HasDma st := {
  dma_of s := sg (bd s);
  put_dma d := upd_bd (set_sg d);
  bus_cycle := hw;
  irq_call o := emit (Irq o);
}.

(** The system the driver is built for: addresses and sizes from system.h and
    the configuration, and the stack's choice of buffers for a frame (is it a
    null pointer, its length). *)
Class TseConfig := {
  SGDMA_RX_BASE : Z;
  SGDMA_RX_IRQ : Z;
  SGDMA_TX_BASE : Z;
  SGDMA_TX_IRQ : Z;
  DESCRIPTOR_MEMORY_BASE : Z;
  RX_BUFFER : Z;
  TX_BUFFER : Z;
  BUFFER_NO : Z;
  TSE_MAC_TRANSMIT_FIFO_DEPTH : Z;
  TSE_MAC_RECEIVE_FIFO_DEPTH : Z;
  TSE_MAC_USE_MDIO : Z;
  TSE_MAC_ENABLE_MACLITE : Z;
  TSE_MAC_MACLITE_GIGE : Z;
  eth_drv_recv : list event -> Z -> option (list (bool * Z));
}.

Definition IORD (r : tse_reg) : M st Z := hw;; gets (fun s => mac (bd s) r).

Definition IOWR (r : tse_reg) (v : Z) : M st unit :=
  hw;; modify (upd_bd (fun b => set_mac (<[r := u32 v]> (mac b)) b)).

(** Memory: [None] is an access outside the buffers. *)
Definition put_bytes (off : Z) (d : list Z) (mem : list Z) : option (list Z) :=
  if (0 <=? off) && (off + Z.of_nat (length d) <=? Z.of_nat (length mem))
  then Some (take (Z.to_nat off) mem ++ d ++ drop (Z.to_nat off + length d) mem)
  else None.

Definition get_bytes (off n : Z) (mem : list Z) : option (list Z) :=
  if (0 <=? off) && (0 <=? n) && (off + n <=? Z.of_nat (length mem))
  then Some (take (Z.to_nat n) (drop (Z.to_nat off) mem))
  else None.

(** A loop [for (i = a; i < a + n; i++)]. *)
Fixpoint for_range (n : nat) (a : Z) (body : Z -> M st unit) : M st unit :=
  match n with
  | O => mret tt
  | S k => body a;; for_range k (a + 1) body
  end.

Section Driver.
Context {conf : TseConfig} {errno : Errno}.

Definition the_cpd : M st tse_priv_data := gets cpd.

Definition cpd_set (f : tse_priv_data -> tse_priv_data) : M st unit := modify (upd_cpd f).

(** A pointer to the [i]-th descriptor after [a]. *)
Definition desc_plus (a i : Z) : Z := a + i * ALTERA_AVALON_SGDMA_DESCRIPTOR_SIZE.

(** ** Interrupts *)

Definition tse_rxd_isr : M st Z :=
  c ← the_cpd;
  _ ← alt_avalon_sgdma_get_control (rx_sgdma c);
  alt_avalon_sgdma_set_control (rx_sgdma c) ALTERA_AVALON_SGDMA_CONTROL_CLEAR_INTERRUPT_MSK;;
  alt_avalon_sgdma_set_control (rx_sgdma c) 0;;
  emit (Irq (IntMask (irq (rx_sgdma c))));;
  emit (Irq (IntAck (irq (rx_sgdma c))));;
  mret (Z.lor ISR_HANDLED ISR_CALL_DSR).

(** ** Transmission *)

Definition tse_TxDone : M st unit :=
  c ← the_cpd;
  stat ← alt_avalon_sgdma_check_descriptor_status (descriptor_base (tx_sgdma c));
  when ((Z.land stat ALTERA_AVALON_SGDMA_STATUS_BUSY_MSK =? 0) && negb (0 =? txkey c))
    (emit (TxDone (txkey c));; cpd_set (set_txkey 0)).

Definition tse_can_send : M st Z :=
  c ← the_cpd;
  stat ← alt_avalon_sgdma_check_descriptor_status (descriptor_base (tx_sgdma c));
  mret (if Z.land stat ALTERA_AVALON_SGDMA_STATUS_BUSY_MSK =? 0 then 1 else 0).

(** The pieces are copied one after the other, behind two bytes of padding; a
    null buffer or an empty one is skipped. *)
Fixpoint copy_pieces (len : Z) (sg_list : list (option (list Z))) : M st Z :=
  match sg_list with
  | [] => mret len
  | None :: rest => copy_pieces len rest
  | Some [] :: rest => copy_pieces len rest
  | Some d :: rest =>
      s ← get;
      match put_bytes (tx_buffer (cpd s) - TX_BUFFER + 2 + len) d (txmem (bd s)) with
      | None => undef
      | Some mem =>
          modify (upd_bd (set_txmem mem));;
          copy_pieces (len + Z.of_nat (length d)) rest
      end
  end.

Definition tse_send (sg_list : list (option (list Z))) (total_len key : Z) : M st unit :=
  cpd_set (set_txbusy 1);;
  cpd_set (set_within_send 1);;
  c ← the_cpd;
  let desc_base := descriptor_base (tx_sgdma c) in
  len ← copy_pieces 0 sg_list;
  alt_avalon_sgdma_construct_mem_to_stream_desc desc_base (desc_plus desc_base 1) (tx_buffer c)
    (len + 2) 0 1 1 0;;
  cpd_set (set_txkey (u32 key));;
  IOWR_CONTROL (base (tx_sgdma c)) 0;;
  IOWR_STATUS (base (tx_sgdma c)) 255;;
  _ ← alt_avalon_sgdma_do_async_transfer (tx_sgdma c) desc_base;
  IOWR TX_CMD_STAT ALTERA_TSEMAC_TX_CMD_STAT_TXSHIFT16_MSK;;
  cpd_set (set_within_send 0);;
  tse_TxDone.

(** These two are empty. *)
Definition tse_TxEvent : M st unit := mret tt.

Definition tse_RxEvent : M st unit := mret tt.

(** ** Reception *)

Fixpoint scatter_out (off : Z) (sg_list : list (bool * Z)) : M st (list (list Z)) :=
  match sg_list with
  | [] => mret []
  | (null, len) :: rest =>
      if null || (len <=? 0) then mret []
      else
        s ← get;
        match get_bytes off len (rxmem (bd s)) with
        | None => undef
        | Some d => r ← scatter_out (off + len) rest; mret (d :: r)
        end
  end.

Definition tse_recv (sg_list : list (bool * Z)) : M st (list (list Z)) :=
  c ← the_cpd;
  let desc_base := descriptor_base (rx_sgdma c) in
  chunks ← scatter_out (rx_buffer c - RX_BUFFER + rx_current_index c * BUFFER_SIZE + 2) sg_list;
  desc_store (desc_plus desc_base (rx_current_index c), fun d =>
    set_control (Z.lor (control d) ALTERA_AVALON_SGDMA_DESCRIPTOR_CONTROL_OWNED_BY_HW_MSK) d);;
  mret chunks.

(** The call up the stack, which asks for the frame. *)
Definition stack_recv (n : Z) : M st unit :=
  h ← gets log;
  match eth_drv_recv h n with
  | None => emit (NotRecv n)
  | Some sg_list => chunks ← tse_recv sg_list; emit (Recv n chunks)
  end.

(** The finished descriptors, up to the first that is not. *)
Fixpoint deliver_loop (n : nat) (desc_base : Z) : M st unit :=
  match n with
  | O => mret tt
  | S k =>
      c ← the_cpd;
      let desc := desc_plus desc_base (rx_current_index c) in
      ctl ← desc_load control desc;
      if ctl =? 0 then
        n ← alt_avalon_sgdma_descpt_bytes_xfered desc;
        cpd_set (set_bytesReceived (s32 (n - 2)));;
        c ← the_cpd;
        when (0 <? bytesReceived c) (stack_recv (bytesReceived c));;
        desc_store (desc, set_status 0);;
        desc_store (desc, set_actual_bytes_transferred 0);;
        cpd_set (fun c => set_rx_current_index (rx_current_index c + 1) c);;
        deliver_loop k desc_base
      else cpd_set (set_rx_current_index 0)
  end.

(** The chain of receive descriptors. *)
Definition build_chain (desc_base rxb : Z) : M st unit :=
  for_range (Z.to_nat (BUFFER_NO - 1)) 0 (fun i =>
    alt_avalon_sgdma_construct_stream_to_mem_desc (desc_plus desc_base i)
      (desc_plus (desc_plus desc_base i) 1) (rxb + i * BUFFER_SIZE) 0 0).

Definition tse_deliver : M st unit :=
  c ← the_cpd;
  let desc_base := descriptor_base (rx_sgdma c) in
  _ ← IORD_STATUS (base (rx_sgdma c));
  tse_TxDone;;
  cpd_set (set_rx_current_index 0);;
  deliver_loop (Z.to_nat BUFFER_NO) desc_base;;
  IOWR_CONTROL (base (rx_sgdma c)) (Z.lor ALTERA_AVALON_SGDMA_CONTROL_SOFTWARERESET_MSK
                                      ALTERA_AVALON_SGDMA_CONTROL_CLEAR_INTERRUPT_MSK);;
  IOWR_CONTROL (base (rx_sgdma c)) 0;;
  IOWR_STATUS (base (rx_sgdma c)) 255;;
  build_chain desc_base (rx_buffer c);;
  cpd_set (fun c => set_rx_sgdma (set_chain_control 26 (rx_sgdma c)) c);;
  c ← the_cpd;
  stat ← IORD_STATUS (base (rx_sgdma c));
  when (ctrue (Z.land stat ALTERA_AVALON_SGDMA_STATUS_CHAIN_COMPLETED_MSK) || negb (busy stat))
    (_ ← alt_avalon_sgdma_do_async_transfer (rx_sgdma c) desc_base; mret tt);;
  emit (Irq (IntUnmask (irq (rx_sgdma c)))).

Definition tse_int_vector : M st Z := c ← the_cpd; mret (irq (rx_sgdma c)).

Definition tse_poll : M st unit := mret tt.

(** ** The PHY *)

(** [cyg_uint16 dat = IORD(..)]. *)
Definition IORD16 (r : tse_reg) : M st Z := v ← IORD r; mret (u16 v).

Definition phy_reset : M st unit :=
  dat ← IORD16 mdio_CONTROL;
  IOWR mdio_CONTROL (Z.lor dat PCS_CTL_sw_reset).

Definition marvell_cfg_gmii : M st Z :=
  dat ← IORD16 mdio_reg1b;
  IOWR mdio_reg1b (Z.lor (Z.land dat 65520) 15);;
  dat ← IORD16 mdio_reg14;
  IOWR mdio_reg14 (u16 (Z.land dat (Z.lnot 130)));;
  phy_reset;;
  mret 1.

Definition marvell_cfg_sgmii : M st Z :=
  dat ← IORD16 mdio_reg1b;
  IOWR mdio_reg1b (Z.lor (Z.land dat 65520) 4);;
  dat ← IORD16 mdio_reg14;
  IOWR mdio_reg14 (u16 (Z.land dat (Z.lnot 130)));;
  phy_reset;;
  mret 1.

Definition marvell_cfg_rgmii : M st Z :=
  dat ← IORD16 mdio_reg1b;
  IOWR mdio_reg1b (Z.lor (Z.land dat 65520) 11);;
  dat ← IORD16 mdio_reg14;
  IOWR mdio_reg14 (Z.lor (u16 (Z.land dat (Z.lnot 130))) 130);;
  phy_reset;;
  mret 1.

(** Looks for an address whose two identifiers differ; the identifiers last read. *)
Fixpoint find_phy (n : nat) (phyadd phyid phyid2 : Z) : M st (Z * Z) :=
  match n with
  | O => mret (phyid, phyid2)
  | S k =>
      IOWR MDIO_ADDR1 phyadd;;
      phyid ← IORD mdio_PHY_ID1;
      phyid2 ← IORD mdio_PHY_ID2;
      if negb (phyid =? phyid2) then mret (phyid, phyid2)
      else find_phy k (phyadd + 1) phyid phyid2
  end.

Definition an_done : M st bool := v ← IORD mdio_STATUS; mret (ctrue (Z.land v PCS_ST_an_done)).

(** Waits for autonegotiation; the counter [dat] bounds it. *)
Fixpoint wait_autoneg (fuel : nat) (dat : Z) : M st unit :=
  match fuel with
  | O => no_fuel
  | S k =>
      d ← an_done;
      if (d : bool) then mret tt
      else if dat >? ALTERA_AUTONEG_TIMEOUT_THRESHOLD then mret tt
      else wait_autoneg k (dat + 1)
  end.

Definition is_ntl (phyid phyid2 : Z) : bool :=
  (phyid =? Z.shiftr NTLPHY_ID 16) && (phyid2 =? Z.land NTLPHY_ID 65535).

Definition is_ntl848 (phyid phyid2 : Z) : bool :=
  (phyid =? Z.shiftr NTL848PHY_ID 16) && (phyid2 =? Z.land NTL848PHY_ID 65535).

(** Is the PHY one of those the code knows?  A Marvell PHY without a link is set
    to automatic crossover. *)
Definition detect_phy (phyid phyid2 : Z) : M st bool :=
  if is_ntl phyid phyid2 then mret true
  else if phyid =? MVLPHY_ID then
    d ← an_done;
    unless d (IOWR mdio_reg10 120);;
    mret true
  else mret (is_ntl848 phyid phyid2).

(** Reset and autonegotiation of a known PHY. *)
Definition bring_up_phy : M st unit :=
  c ← IORD mdio_CONTROL;
  d ← (if ctrue (Z.land c PCS_CTL_rx_slpbk) then mret true else d ← an_done; mret (negb d));
  when d (IOWR mdio_CONTROL (Z.lor PCS_CTL_an_enable PCS_CTL_sw_reset));;
  when ((1 =? TSE_MAC_ENABLE_MACLITE) && (0 =? TSE_MAC_MACLITE_GIGE))
    (dat ← IORD (MDIO 9);
     IOWR (MDIO 9) (Z.land dat 64767);;
     dat ← IORD mdio_CONTROL;
     IOWR mdio_CONTROL (Z.lor dat 512);;
     emit (Usleep ALTERA_DISGIGA_TIMEOUT_THRESHOLD));;
  d ← an_done;
  unless d (wait_autoneg (Z.to_nat (ALTERA_AUTONEG_TIMEOUT_THRESHOLD + 3)) 0).

(** The speed and the duplex mode a known PHY has settled on. *)
Definition read_link (phyid phyid2 : Z) : M st (Z * Z) :=
  if is_ntl phyid phyid2 then
    dat ← IORD mdio_reg11;
    mret (if Z.land (Z.shiftr dat 3) 3 =? 2 then 1 else 0, Z.land (Z.shiftr dat 1) 1)
  else if phyid =? MVLPHY_ID then
    dat ← IORD mdio_reg11;
    mret (if Z.land (Z.shiftr dat 14) 3 =? 2 then 1 else 0, Z.land (Z.shiftr dat 13) 1)
  else if is_ntl848 phyid phyid2 then
    dat ← IORD mdio_reg10;
    mret (0, Z.land (Z.shiftr dat 2) 1)
  else mret (ALTERA_TSE_MAC_SPEED_DEFAULT, ALTERA_TSE_DUPLEX_MODE_DEFAULT).

Definition speed_word (is1000 duplex : Z) : Z :=
  Z.lor (Z.shiftl (Z.land is1000 1) 1) (Z.land duplex 1).

Definition getPHYSpeed : M st Z :=
  if 0 =? TSE_MAC_USE_MDIO then
    emit (Usleep ALTERA_NOMDIO_TIMEOUT_THRESHOLD);;
    mret (speed_word ALTERA_TSE_MAC_SPEED_DEFAULT ALTERA_TSE_DUPLEX_MODE_DEFAULT)
  else
    ids ← find_phy 255 0 0 0;
    isKnown ← detect_phy ids.1 ids.2;
    r ← (if (isKnown : bool) then bring_up_phy;; read_link ids.1 ids.2
         else mret (ALTERA_TSE_MAC_SPEED_DEFAULT, ALTERA_TSE_DUPLEX_MODE_DEFAULT));
    mret (speed_word r.1 r.2).

(** ** Initialisation *)

(** The words of the address. *)
Definition mac_word0 (a : list Z) : Z :=
  let e i := nth i a 0 in
  Z.lor (Z.lor (Z.lor (e 0%nat) (Z.shiftl (e 1%nat) 8)) (Z.shiftl (e 2%nat) 16)) (Z.shiftl (e 3%nat) 24).

Definition mac_word1 (a : list Z) : Z :=
  let e i := nth i a 0 in Z.lor (e 4%nat) (Z.land (Z.shiftl (e 5%nat) 8) 65535).

(** The [i]-th word of the descriptor memory is set to zero. *)
Definition clear_word (i : Z) : M st unit :=
  hw;;
  desc_store (desc_plus DESCRIPTOR_MEMORY_BASE (i / 8), fun d =>
    let w := i mod 8 in
    if w =? 0 then set_read_addr 0 d
    else if w =? 1 then set_read_addr_pad 0 d
    else if w =? 2 then set_write_addr 0 d
    else if w =? 3 then set_write_addr_pad 0 d
    else if w =? 4 then set_next 0 d
    else if w =? 5 then set_next_pad 0 d
    else if w =? 6 then set_bytes_to_transfer 0 (set_read_burst 0 (set_write_burst 0 d))
    else set_actual_bytes_transferred 0 (set_status 0 (set_control 0 d))).

(** The two controllers. *)
Definition init_devs (c : tse_priv_data) : tse_priv_data :=
  let rx := set_chain_control 0 (set_dsr (Some EthDrvDsr) (set_isr (Some TseRxdIsr)
    (set_descriptor_base DESCRIPTOR_MEMORY_BASE
      (set_irq SGDMA_RX_IRQ (set_base SGDMA_RX_BASE (rx_sgdma c)))))) in
  let tx := set_chain_control 0 (set_dsr None (set_isr None
    (set_descriptor_base (desc_plus DESCRIPTOR_MEMORY_BASE BUFFER_NO)
      (set_irq SGDMA_TX_IRQ (set_base SGDMA_TX_BASE (tx_sgdma c)))))) in
  set_txkey 0 (set_tx_sgdma tx (set_rx_sgdma rx c)).

Definition write_addresses (a : list Z) : M st unit :=
  IOWR MAC_0 (mac_word0 a);;
  IOWR MAC_1 (mac_word1 a);;
  for_range 4 0 (fun i => IOWR (SMAC i 0) (mac_word0 a);; IOWR (SMAC i 1) (mac_word1 a)).

(** Waits until the MAC has left its reset; [false] is the timeout. *)
Fixpoint wait_reset (fuel : nat) (i : Z) : M st bool :=
  match fuel with
  | O => no_fuel
  | S k =>
      v ← IORD CMD_CONFIG;
      if ctrue (Z.land v ALTERA_TSEMAC_CMD_SW_RESET_MSK) then
        if i >? 10000 then mret false else wait_reset k (i + 1)
      else mret true
  end.

Definition init_mac_regs : M st unit :=
  IOWR FRM_LENGTH ALTERA_TSE_MAC_MAX_FRAME_LENGTH;;
  IOWR RX_ALMOST_EMPTY 8;;
  IOWR RX_ALMOST_FULL 8;;
  IOWR TX_ALMOST_EMPTY 8;;
  IOWR TX_ALMOST_FULL 3;;
  IOWR TX_SECTION_EMPTY (TSE_MAC_TRANSMIT_FIFO_DEPTH - 16);;
  IOWR TX_SECTION_FULL 0;;
  IOWR RX_SECTION_EMPTY (TSE_MAC_RECEIVE_FIFO_DEPTH - 16);;
  IOWR RX_SECTION_FULL 0;;
  IOWR TX_CMD_STAT ALTERA_TSEMAC_TX_CMD_STAT_TXSHIFT16_MSK.

Definition tse_init : M st bool :=
  cpd_set (set_within_send 0);;
  cpd_set (set_txbusy 0);;
  cpd_set (set_rx_buffer RX_BUFFER);;
  cpd_set (set_tx_buffer TX_BUFFER);;
  cpd_set init_devs;;
  for_range 256 0 clear_word;;
  c ← the_cpd;
  alt_avalon_sgdma_init2 (rx_sgdma c);;
  alt_avalon_sgdma_init2 (tx_sgdma c);;
  _ ← marvell_cfg_sgmii;
  result ← getPHYSpeed;
  emit (Diag "[triple_speed_ethernet_init] Speed is %s\t Duplex is %s\n");;
  cpd_set (set_speed result);;
  c ← the_cpd;
  match config_enaddr c with Some a => cpd_set (set_enaddr a) | None => mret tt end;;
  c ← the_cpd;
  write_addresses (enaddr c);;
  IOWR CMD_CONFIG
    (Z.lor (Z.lor (Z.lor ALTERA_TSEMAC_CMD_SW_RESET_MSK ALTERA_TSEMAC_CMD_TX_ENA_MSK)
              ALTERA_TSEMAC_CMD_RX_ENA_MSK) ALTERA_TSEMAC_CMD_ETH_SPEED_MSK);;
  ok ← wait_reset (Z.to_nat 10003) 0;
  if negb ok then mret false
  else
    dat ← IORD CMD_CONFIG;
    if negb (Z.land dat 3 =? 0) then mret false
    else
      init_mac_regs;;
      emit (StackInit (enaddr c));;
      mret true.

(** ** Starting, stopping, requests *)

Definition tse_stop : M st unit :=
  c ← the_cpd;
  emit (Irq (IntMask (irq (rx_sgdma c))));;
  emit (Irq (IntMask (irq (tx_sgdma c))));;
  cpd_set (set_txkey 0);;
  state ← IORD CMD_CONFIG;
  IOWR CMD_CONFIG
    (Z.land state (Z.lnot (Z.lor ALTERA_TSEMAC_CMD_RX_ENA_MSK ALTERA_TSEMAC_CMD_TX_ENA_MSK))).

(** The command word for a speed. *)
Definition start_config (dat speed : Z) : Z :=
  let dat := Z.lor dat (Z.lor (Z.lor ALTERA_TSEMAC_CMD_TX_ENA_MSK ALTERA_TSEMAC_CMD_RX_ENA_MSK)
                          ALTERA_TSEMAC_CMD_RX_ERR_DISC_MSK) in
  let dat := if ctrue (Z.land (Z.shiftr speed 1) 1) then Z.lor dat ALTERA_TSEMAC_CMD_ETH_SPEED_MSK
             else Z.land dat (Z.lnot ALTERA_TSEMAC_CMD_ETH_SPEED_MSK) in
  if ctrue (Z.land speed 1) then Z.land dat (Z.lnot ALTERA_TSEMAC_CMD_HD_ENA_MSK)
  else Z.lor dat ALTERA_TSEMAC_CMD_HD_ENA_MSK.

Definition tse_start : M st unit :=
  c ← the_cpd;
  let desc_base := descriptor_base (rx_sgdma c) + 2147483648 in
  dat ← IORD CMD_CONFIG;
  IOWR CMD_CONFIG (start_config dat (speed c));;
  build_chain desc_base (rx_buffer c);;
  cpd_set (fun c => set_rx_sgdma (set_chain_control 26 (rx_sgdma c)) c);;
  c ← the_cpd;
  emit (Irq (IntUnmask (irq (rx_sgdma c))));;
  _ ← alt_avalon_sgdma_do_async_transfer (rx_sgdma c) desc_base;
  mret tt.

(** The parity of the bits of an octet. *)
Fixpoint xor_bits (n : nat) (bitshift octet xor_bit : Z) : Z :=
  match n with
  | O => xor_bit
  | S k => xor_bits k (bitshift + 1) octet (Z.lxor xor_bit (Z.land (Z.shiftr octet bitshift) 1))
  end.

(** The hash of an address, from octet [mac_octet] down to 0. *)
Fixpoint hash_octets (n : nat) (a : list Z) (hash : Z) : Z :=
  match n with
  | O => hash
  | S mac_octet =>
      hash_octets mac_octet a
        (Z.lor (Z.shiftl hash 1) (xor_bits 8 0 (s8 (nth mac_octet a 0)) 0))
  end.

Definition hash_of (a : list Z) : Z := hash_octets 6 a 0.

Fixpoint tse_set_hash_table (addrs : list (list Z)) : M st unit :=
  match addrs with
  | [] => mret tt
  | a :: rest =>
      when (ctrue (Z.land (nth 0 a 0) 1)) (IOWR (HASH_TABLE (hash_of a)) 1);;
      tse_set_hash_table rest
  end.

(** The requests of [tse_control], with their data. *)
Inductive request :=
| ETH_DRV_SET_MAC_ADDRESS (data : list Z)
| ETH_DRV_SET_MC_LIST (addrs : list (list Z))
| ETH_DRV_SET_MC_ALL
| ETH_DRV_OTHER.

Definition tse_control (key : request) : M st Z :=
  match key with
  | ETH_DRV_SET_MAC_ADDRESS data =>
      if (length data <? 6)%nat then undef
      else
        cpd_set (set_enaddr (take 6 data));;
        c ← the_cpd;
        IOWR MAC_0 (mac_word0 (enaddr c));;
        IOWR MAC_1 (mac_word1 (enaddr c));;
        mret 0
  | ETH_DRV_SET_MC_LIST addrs =>
      for_range 64 0 (fun i => IOWR (HASH_TABLE i) 0);;
      tse_set_hash_table addrs;;
      mret 0
  | ETH_DRV_SET_MC_ALL =>
      for_range 64 0 (fun i => IOWR (HASH_TABLE i) 1);;
      mret 0
  | ETH_DRV_OTHER => mret 1
  end.

End Driver.
