(* ===== verification/TsePhy.v ===== *)
(** * Initialisation of the triple-speed Ethernet driver

    Every loop of the initialisation ends, whatever the PHY and the MAC answer;
    what the stack is told. *)

From stdpp Require Import functions.
From S2P Require Import Prelude.
From S2P Require Import Sgdma.
From S2P Require Import SgdmaFacts.
From S2P Require Import Tse.

(** * The multicast filter and the link speed of the triple-speed Ethernet driver *)

(** ** The hash of an address *)

(** The parity of an octet. *)
Definition parity (z : Z) : bool :=
  foldr (fun i b => xorb (Z.testbit z (Z.of_nat i)) b) false (seq 0 8).

(** A group address. *)
Definition group (a : list Z) : bool := Z.testbit (nth 0 a 0) 0.

Lemma s8_testbit z i : 0 <= i < 8 -> Z.testbit (s8 z) i = Z.testbit z i.
Proof.
  intros Hi. unfold swrap. change (2 ^ (8 - 1)) with 128.
  assert ((z + 128) mod 2 ^ 8 - 128 = z mod 2 ^ 8 + 2 ^ 8 * (if z mod 256 <? 128 then 0 else -1)) as ->.
  { change (2 ^ 8) with 256. destruct (Z.ltb_spec (z mod 256) 128); Z.to_euclidean_division_equations; lia. }
  rewrite <- (Z.mod_pow2_bits_low (_ + _) 8 i) by lia.
  rewrite Z.mul_comm, Z.mod_add, Zmod_mod by lia. apply Z.mod_pow2_bits_low; lia.
Qed.

Lemma land_1_b2z z : Z.land z 1 = Z.b2z (Z.testbit z 0).
Proof.
  change 1 with (Z.ones 1). rewrite Z.land_ones by lia. change (2 ^ 1) with 2.
  by rewrite <- Z.bit0_mod.
Qed.

Lemma lxor_b2z a b : Z.lxor (Z.b2z a) (Z.b2z b) = Z.b2z (xorb a b).
Proof. by destruct a, b. Qed.

Lemma xor_bits_spec n k z acc :
  0 <= k ->
  xor_bits n k z (Z.b2z acc) =
  Z.b2z (foldl (fun b i => xorb b (Z.testbit z i)) acc (seqZ k (Z.of_nat n))).
Proof.
  revert k acc. induction n as [|n IH]; intros k acc Hk; [done|].
  cbn [xor_bits]. rewrite seqZ_cons by lia. cbn [foldl].
  rewrite land_1_b2z, Z.shiftr_spec, Z.add_0_l, lxor_b2z, IH by lia.
  by replace (Z.pred (Z.of_nat (S n))) with (Z.of_nat n) by lia.
Qed.

Lemma xor_bits_parity z : xor_bits 8 0 (s8 z) 0 = Z.b2z (parity z).
Proof.
  change 0 with (Z.b2z false) at 2. rewrite xor_bits_spec by lia. f_equal.
  change (seqZ 0 (Z.of_nat 8)) with [0; 1; 2; 3; 4; 5; 6; 7]. cbn [foldl].
  rewrite !s8_testbit by lia. unfold parity. cbn [foldr seq].
  repeat (destruct (Z.testbit z _)); reflexivity.
Qed.

Lemma hash_octets_bits n a h i :
  0 <= i ->
  Z.testbit (hash_octets n a h) i =
  if decide (i < Z.of_nat n) then parity (nth (Z.to_nat i) a 0) else Z.testbit h (i - Z.of_nat n).
Proof.
  revert h i. induction n as [|n IH]; intros h i Hi; cbn [hash_octets].
  { rewrite decide_False by lia. f_equal. lia. }
  rewrite IH, xor_bits_parity by done. destruct (decide (i < Z.of_nat n)) as [Hin|Hin].
  { by rewrite decide_True by lia. }
  rewrite Z.lor_spec. destruct (decide (i < Z.of_nat (S n))) as [Heq|Hlt].
  - replace i with (Z.of_nat n) by lia. rewrite Nat2Z.id, Z.sub_diag, Z.shiftl_spec_low by lia.
    by destruct (parity _).
  - rewrite Z.shiftl_spec by lia. replace (i - Z.of_nat n - 1) with (i - Z.of_nat (S n)) by lia.
    assert (Z.testbit (Z.b2z (parity (nth n a 0))) (i - Z.of_nat n) = false) as ->.
    { apply (small_bits _ 1); [lia| |lia]. by destruct (parity _). }
    apply orb_false_r.
Qed.

Lemma hash_of_bits a i :
  0 <= i -> Z.testbit (hash_of a) i = (i <? 6) && parity (nth (Z.to_nat i) a 0).
Proof.
  intros Hi. unfold hash_of. rewrite hash_octets_bits by done.
  change (Z.of_nat 6) with 6. destruct (Z.ltb_spec i 6).
  - by rewrite decide_True by lia.
  - rewrite decide_False by lia. by rewrite Z.bits_0.
Qed.

(** A number all of whose bits from [k] on are clear is below [2 ^ k]. *)
Lemma low_bits_range z k :
  0 <= k -> (forall i, k <= i -> Z.testbit z i = false) -> 0 <= z < 2 ^ k.
Proof.
  intros Hk Hz. assert (z = z mod 2 ^ k) as ->.
  - apply Z.bits_inj'. intros i Hi. destruct (Z.lt_ge_cases i k) as [Hlt|Hge].
    + by rewrite Z.mod_pow2_bits_low by lia.
    + rewrite Z.mod_pow2_bits_high by lia. by apply Hz.
  - apply Z.mod_pos_bound, Z.pow_pos_nonneg; lia.
Qed.

Lemma hash_of_range a : 0 <= hash_of a < 64.
Proof.
  apply (low_bits_range _ 6); [lia|]. intros i Hi. rewrite hash_of_bits by lia.
  by destruct (Z.ltb_spec i 6); [lia|].
Qed.

(** The loops that hash a multicast address compute the bits the MAC uses:
    bit i is the parity of octet i of the address, for the six octets, whatever
    the sign the octets take in a char; so the index is within the table of 64
    entries. *)
Theorem hash_is_parity a i :
  0 <= hash_of a < 64 /\
  (0 <= i -> Z.testbit (hash_of a) i = (i <? 6) && parity (nth (Z.to_nat i) a 0)).
Proof.
  split; [apply hash_of_range|apply hash_of_bits].
Qed.

Lemma hash_is_parity_witness :
  0 <= 3 /\ Z.testbit (hash_of [1; 0; 94; 7; 0; 1]) 3 = (3 <? 6) && parity 7.
Proof. split; [lia|]. apply (hash_is_parity [1; 0; 94; 7; 0; 1] 3). lia. Defined.

(** ** The table of the MAC *)

Definition table (s : st) (i : Z) : Z := mac (bd s) (HASH_TABLE i).

(** The hardware does not write its hash table. *)
Definition keeps_table (f : board -> board) : Prop :=
  forall b i, mac (f b) (HASH_TABLE i) = mac b (HASH_TABLE i).

Lemma wp_write_table h v (Q : unit -> st -> Prop) s :
  Forall keeps_table (env s) ->
  (forall s', Forall keeps_table (env s') ->
     (forall i, table s' i = if decide (i = h) then u32 v else table s i) -> Q tt s') ->
  wp (IOWR (HASH_TABLE h) v) Q s.
Proof.
  intros He HQ. apply wp_bind. unfold hw, wp at 1. destruct (env s) as [|f e] eqn:E.
  - apply wp_modify, HQ; [by cbn; rewrite E|]. intros i. unfold table. cbn.
    case_decide as Hi; [subst i; by rewrite fn_lookup_insert|]. by rewrite fn_lookup_insert_ne by congruence.
  - apply Forall_cons_1 in He as [Hf He]. apply wp_modify, HQ; [done|]. intros i. unfold table. cbn.
    case_decide as Hi; [subst i; by rewrite fn_lookup_insert|].
    by rewrite fn_lookup_insert_ne, Hf by congruence.
Qed.

Lemma wp_fill_table n a v (Q : unit -> st -> Prop) s :
  Forall keeps_table (env s) ->
  (forall s', Forall keeps_table (env s') ->
     (forall i, table s' i = if decide (a <= i < a + Z.of_nat n) then u32 v else table s i) -> Q tt s') ->
  wp (for_range n a (fun i => IOWR (HASH_TABLE i) v)) Q s.
Proof.
  revert a s. induction n as [|n IH]; intros a s He HQ.
  - apply wp_ret, HQ; [done|]. intros i. by rewrite decide_False by lia.
  - cbn [for_range]. apply wp_bind, wp_write_table; [done|]. intros s1 He1 H1.
    apply IH; [done|]. intros s2 He2 H2. apply HQ; [done|]. intros i. rewrite H2, H1.
    repeat case_decide; try done; lia.
Qed.

Definition accepted (addrs : list (list Z)) (i : Z) : bool :=
  existsb (fun a => group a && (hash_of a =? i)) addrs.

Lemma wp_set_hash_table addrs (Q : unit -> st -> Prop) s :
  Forall keeps_table (env s) ->
  (forall s', Forall keeps_table (env s') ->
     (forall i, table s' i = if accepted addrs i then 1 else table s i) -> Q tt s') ->
  wp (tse_set_hash_table addrs) Q s.
Proof.
  revert s. induction addrs as [|a addrs IH]; intros s He HQ; cbn [tse_set_hash_table].
  { apply wp_ret. by apply HQ. }
  assert (ctrue (Z.land (nth 0 a 0) 1) = group a) as ->.
  { rewrite land_1_b2z. unfold group. by destruct (Z.testbit _ 0). }
  apply wp_bind. apply wp_when; intros Hg.
  - apply wp_write_table; [done|]. intros s1 He1 H1. apply IH; [done|]. intros s2 He2 H2.
    apply HQ; [done|]. intros i. rewrite H2, H1. cbn [accepted existsb]. rewrite Hg. fold (accepted addrs i).
    destruct (decide (i = hash_of a)) as [->|Hne].
    + rewrite Z.eqb_refl. by destruct (accepted addrs _).
    + by destruct (Z.eqb_spec (hash_of a) i); [congruence|].
  - apply IH; [done|]. intros s2 He2 H2. apply HQ; [done|]. intros i. rewrite H2.
    cbn [accepted existsb]. by rewrite Hg.
Qed.

(** A request for a list of multicast addresses leaves in the MAC exactly the
    filter of that list, whatever was in the table and whatever the hardware does
    meanwhile (it does not write the table): an entry is 1 when some group address
    of the list hashes to it and 0 otherwise; addresses of the list that are not
    group addresses change nothing.  A request for all multicast frames opens
    every entry. *)
Theorem multicast_filter {conf : TseConfig} addrs s :
  Forall keeps_table (env s) ->
  wp (tse_control (ETH_DRV_SET_MC_LIST addrs)) (fun v s' =>
    v = 0 /\ forall i, 0 <= i < 64 ->
      (table s' i = 1 <-> exists a, a ∈ addrs /\ group a = true /\ hash_of a = i) /\
      (table s' i = 0 \/ table s' i = 1)) s /\
  wp (tse_control ETH_DRV_SET_MC_ALL) (fun v s' =>
    v = 0 /\ forall i, 0 <= i < 64 -> table s' i = 1) s.
Proof.
  intros He. split; apply wp_bind, wp_fill_table; try done; intros s1 He1 H1.
  - apply wp_bind, wp_set_hash_table; [done|]. intros s2 He2 H2. apply wp_ret. split; [done|].
    intros i Hi. rewrite H2, H1, decide_True by lia. change (u32 0) with 0.
    destruct (accepted addrs i) eqn:E.
    + split; [|auto]. split; [|done]. intros _. apply existsb_exists in E as (a & Ha & Hb).
      apply andb_true_iff in Hb as [Hg Hh%Z.eqb_eq]. exists a. by rewrite list_elem_of_In.
    + split; [|auto]. split; [done|]. intros (a & Ha & Hg & Hh). exfalso.
      enough (accepted addrs i = true) by congruence. apply existsb_exists. exists a.
      split; [by apply list_elem_of_In|]. by rewrite Hg, Hh, Z.eqb_refl.
  - apply wp_ret. split; [done|]. intros i Hi. by rewrite H1, decide_True by lia.
Qed.

(** * The theorems *)

(** The calls that register the interface with the stack. *)
Definition inits (l : list event) : list (list Z) :=
  omap (fun e => match e with StackInit a => Some a | _ => None end) l.

Lemma inits_snoc l e :
  inits (l ++ [e]) = inits l ++ match e with StackInit a => [a] | _ => [] end.
Proof. unfold inits. rewrite omap_app. by destruct e. Qed.

Lemma insert_keeps {A} (m : gmap Z A) i x j : is_Some (m !! j) -> is_Some (<[i := x]> m !! j).
Proof. intros H. rewrite lookup_insert_is_Some. destruct (decide (i = j)); auto. Qed.

(** The two controllers and the memory of 32 descriptors exist. *)
Record devices {conf : TseConfig} (b : board) : Prop := {
  dev_rx : is_Some (ctl (sg b) !! SGDMA_RX_BASE);
  dev_tx : is_Some (ctl (sg b) !! SGDMA_TX_BASE);
  dev_mem : forall i, 0 <= i < 32 ->
    is_Some (descs (sg b) !! phys (desc_plus DESCRIPTOR_MEMORY_BASE i));
}.

(** The hardware answers as it likes; its devices do not vanish. *)
Definition keeps_devices {conf : TseConfig} (f : board -> board) : Prop :=
  forall b, devices b -> devices (f b).

Section Init.
Context {conf : TseConfig} {errno : Errno}.
Variable hardware : (board -> board) -> Prop.
Hypothesis hardware_devices : forall f, hardware f -> keeps_devices f.

Definition ready (s : st) : Prop := Forall hardware (env s) /\ devices (bd s).

(** Steps that only work on the hardware. *)
Record plain (s s' : st) : Prop := {
  p_ready : ready s -> ready s';
  p_cpd : cpd s' = cpd s;
  p_log : inits (log s') = inits (log s);
}.

#[local] Instance plain_preorder : PreOrder plain.
Proof.
  split; [by intros s; split|]. intros s1 s2 s3 [A1 A2 A3] [B1 B2 B3]. split; [auto|congruence..].
Qed.

Class Plain {A} (m : M st A) :=
  plain_wp : forall s, ready s -> wp m (fun _ s' => plain s s') s.

#[local] Instance Plain_ret {A} (a : A) : Plain (mret a : M st A).
Proof. intros s _. by apply wp_ret. Qed.

#[local] Instance Plain_bind {A B} (m : M st A) (f : A -> M st B) :
  Plain m -> (forall a, Plain (f a)) -> Plain (m ≫= f).
Proof.
  intros Hm Hf s Hs. apply wp_bind. eapply wp_mono; [by apply Hm|]. intros a s' H1. cbn beta in H1.
  eapply wp_mono; [apply Hf; by apply (p_ready _ _ H1)|]. intros b s'' H2. by etrans.
Qed.

#[local] Instance Plain_when b (m : M st unit) : Plain m -> Plain (when b m).
Proof. intros Hm. destruct b; [apply Hm|apply Plain_ret]. Qed.

#[local] Instance Plain_unless b (m : M st unit) : Plain m -> Plain (unless b m).
Proof. intros Hm. destruct b; [apply Plain_ret|apply Hm]. Qed.

#[local] Instance Plain_if {A} (b : bool) (m m' : M st A) : Plain m -> Plain m' -> Plain (if b then m else m').
Proof. by destruct b. Qed.

#[local] Instance Plain_gets {A} (f : st -> A) : Plain (gets f).
Proof. intros s _. by apply (wp_eq _ _ _ (f s) s). Qed.

#[local] Instance Plain_for_range n a (body : Z -> M st unit) :
  (forall i, Plain (body i)) -> Plain (for_range n a body).
Proof. intros Hb. revert a. induction n as [|n IH]; intros a; cbn [for_range]; apply _. Qed.

#[local] Instance Plain_hw : Plain hw.
Proof.
  intros s [He Hd]. unfold hw, wp. destruct (env s) as [|f e] eqn:E; [done|].
  split; [|done..]. intros _. apply Forall_cons_1 in He as [Hf He]. split; [done|]. by apply hardware_devices.
Qed.

#[local] Instance Plain_IORD r : Plain (IORD r).
Proof. unfold IORD. apply _. Qed.

#[local] Instance Plain_IOWR r v : Plain (IOWR r v).
Proof.
  unfold IOWR. apply Plain_bind; [apply _|]. intros _ s Hs. apply wp_modify. split; [|done..].
  intros [He [D1 D2 D3]]. by repeat split.
Qed.

#[local] Instance Plain_emit e :
  TCEq (match e with StackInit a => false | _ => true end) true -> Plain (emit e).
Proof.
  intros He s _. apply wp_modify. split; [done..|]. cbn [log set_log]. rewrite inits_snoc.
  destruct e; try apply app_nil_r. by apply TCEq_eq in He.
Qed.

Lemma wp_plain {A} (m : M st A) `{!Plain m} (Q : A -> st -> Prop) s :
  ready s -> (forall a s', plain s s' -> ready s' -> Q a s') -> wp m Q s.
Proof.
  intros Hs HQ. eapply wp_mono; [by apply Plain0|]. intros a s' H. cbn beta in H.
  apply HQ; [done|]. by apply (p_ready _ _ H).
Qed.

(** ** The PHY *)

#[local] Instance Plain_sgmii : Plain marvell_cfg_sgmii.
Proof. unfold marvell_cfg_sgmii, phy_reset, IORD16. apply _. Qed.

#[local] Instance Plain_find_phy n a i j : Plain (find_phy n a i j).
Proof. revert a i j. induction n as [|n IH]; intros a i j; cbn [find_phy]; apply _. Qed.

#[local] Instance Plain_an_done : Plain an_done.
Proof. unfold an_done. apply _. Qed.

#[local] Instance Plain_detect i j : Plain (detect_phy i j).
Proof. unfold detect_phy. apply _. Qed.

(** The wait for autonegotiation ends, with a counter that bounds it. *)
Lemma Plain_wait_autoneg fuel dat :
  ALTERA_AUTONEG_TIMEOUT_THRESHOLD + 1 - dat < Z.of_nat fuel -> 0 <= dat ->
  dat <= ALTERA_AUTONEG_TIMEOUT_THRESHOLD + 1 -> Plain (wait_autoneg fuel dat).
Proof.
  unfold ALTERA_AUTONEG_TIMEOUT_THRESHOLD.
  revert dat. induction fuel as [|fuel IH]; intros dat Hf Hd Hm; [lia|]. cbn [wait_autoneg].
  apply Plain_bind; [apply _|]. intros d. destruct d; [apply _|].
  unfold ALTERA_AUTONEG_TIMEOUT_THRESHOLD. destruct (Z.gtb_spec dat 7000000); [apply _|]. apply IH; lia.
Qed.

#[local] Instance Plain_bring_up : Plain bring_up_phy.
Proof.
  assert (Plain (wait_autoneg (Z.to_nat (ALTERA_AUTONEG_TIMEOUT_THRESHOLD + 3)) 0)) as Hw.
  { apply Plain_wait_autoneg; unfold ALTERA_AUTONEG_TIMEOUT_THRESHOLD; lia. }
  unfold bring_up_phy. revert Hw. generalize (Z.to_nat (ALTERA_AUTONEG_TIMEOUT_THRESHOLD + 3)).
  intros fuel Hw. apply _.
Qed.

#[local] Instance Plain_read_link i j : Plain (read_link i j).
Proof. unfold read_link. apply _. Qed.

Lemma speed_word_range a b : 0 <= speed_word a b <= 3.
Proof. unfold speed_word. rewrite !land_1_b2z. by destruct (Z.testbit a 0), (Z.testbit b 0). Qed.

Lemma wp_getPHYSpeed (Q : Z -> st -> Prop) s :
  ready s -> (forall v s', 0 <= v <= 3 -> plain s s' -> ready s' -> Q v s') -> wp getPHYSpeed Q s.
Proof.
  intros Hs HQ. unfold getPHYSpeed. wp_if.
  - apply wp_bind, wp_plain; [apply _|done|]. intros _ s1 H1 R1.
    apply wp_ret, HQ; [apply speed_word_range|done..].
  - apply wp_bind, wp_plain; [apply _|done|]. intros ids s1 H1 R1.
    apply wp_bind, wp_plain; [apply _|done|]. intros known s2 H2 R2.
    apply wp_bind, wp_plain; [apply _|done|]. intros r s3 H3 R3.
    apply wp_ret, HQ; [apply speed_word_range| |done]. by do 2 (etrans; [done|]).
Qed.

(** ** Stores and registers *)

Lemma Plain_for_range_in n a (body : Z -> M st unit) :
  (forall i, a <= i < a + Z.of_nat n -> Plain (body i)) -> Plain (for_range n a body).
Proof.
  revert a. induction n as [|n IH]; intros a Hb; cbn [for_range]; [apply _|].
  apply Plain_bind; [apply Hb; lia|]. intros _. apply IH. intros i Hi. apply Hb. lia.
Qed.

Lemma Plain_desc_store w : 
  (exists i, 0 <= i < 32 /\ w.1 = desc_plus DESCRIPTOR_MEMORY_BASE i) -> Plain (desc_store w).
Proof.
  intros (i & Hi & Hw) s [He Hd]. destruct w as [a g]. cbn in Hw. subst a.
  apply wp_bind. unfold desc_at, wp at 1. destruct (dev_mem _ Hd i Hi) as [d E].
  cbn [dma_of tse_has_dma fst]. rewrite E. apply wp_modify. split; [|done..].
  intros [_ [D1 D2 D3]]. split; [done|]. split; [done..|]. intros j Hj. cbn.
  by apply insert_keeps, D3.
Qed.

#[local] Instance Plain_clear_memory : Plain (for_range 256 0 clear_word).
Proof.
  apply Plain_for_range_in. intros i Hi. unfold clear_word. apply Plain_bind; [apply _|]. intros _.
  apply Plain_desc_store. exists (i / 8). split; [|done]. Z.to_euclidean_division_equations; lia.
Qed.

Definition ours (b : Z) : Prop := b = SGDMA_RX_BASE \/ b = SGDMA_TX_BASE.

Lemma Plain_sg_write b (g : sgdma_regs -> sgdma_regs) :
  ours b -> Plain (bus_cycle;; r ← sg_regs_at b; sg_regs_put b (g r)).
Proof.
  intros Hb. apply Plain_bind; [apply Plain_hw|]. intros _ s [He Hd]. apply wp_bind.
  assert (is_Some (ctl (sg (bd s)) !! b)) as [r Hr] by (destruct Hb as [-> | ->]; apply Hd).
  unfold sg_regs_at, wp at 1. cbn [dma_of tse_has_dma]. rewrite Hr. apply wp_modify.
  split; [|done..]. intros [_ [D1 D2 D3]]. split; [done|].
  split; [by apply insert_keeps..|done].
Qed.

Lemma Plain_init2 dev : ours (base dev) -> Plain (alt_avalon_sgdma_init2 dev).
Proof.
  intros Hb. unfold alt_avalon_sgdma_init2.
  apply Plain_bind; [by apply Plain_sg_write|]. intros _.
  apply Plain_bind; [by apply Plain_sg_write|]. intros _.
  apply Plain_bind; [by apply Plain_sg_write|]. intros _.
  destruct (isr dev); cbn [irq_call tse_has_dma]; apply _.
Qed.

Lemma Plain_wait_reset fuel i :
  10001 - i < Z.of_nat fuel -> 0 <= i -> i <= 10001 -> Plain (wait_reset fuel i).
Proof.
  revert i. induction fuel as [|fuel IH]; intros i Hf Hi Hm; [lia|]. cbn [wait_reset].
  apply Plain_bind; [apply _|]. intros v. destruct (ctrue _); [|apply _].
  destruct (Z.gtb_spec i 10000); [apply _|]. apply IH; lia.
Qed.

#[local] Instance Plain_addresses a : Plain (write_addresses a).
Proof. unfold write_addresses. apply _. Qed.

#[local] Instance Plain_mac_regs : Plain init_mac_regs.
Proof. unfold init_mac_regs. apply _. Qed.

(** ** The whole initialisation *)

(** Up to the reset of the MAC. *)
Definition reset_mac : M st unit :=
  IOWR CMD_CONFIG
    (Z.lor (Z.lor (Z.lor ALTERA_TSEMAC_CMD_SW_RESET_MSK ALTERA_TSEMAC_CMD_TX_ENA_MSK)
              ALTERA_TSEMAC_CMD_RX_ENA_MSK) ALTERA_TSEMAC_CMD_ETH_SPEED_MSK).

(** What the driver knows when it resets the MAC. *)
Record configured (s s' : st) : Prop := {
  cf_ready : ready s';
  cf_inits : inits (log s') = inits (log s);
  cf_addr : enaddr (cpd s') = default (enaddr (cpd s)) (config_enaddr (cpd s));
  cf_speed : 0 <= speed (cpd s') <= 3;
}.

Lemma wp_tse_init (Q : bool -> st -> Prop) s :
  ready s ->
  (forall s', configured s s' ->
    wp (reset_mac;;
        ok ← wait_reset (Z.to_nat 10003) 0;
        if negb ok then mret false
        else
          dat ← IORD CMD_CONFIG;
          if negb (Z.land dat 3 =? 0) then mret false
          else init_mac_regs;; emit (StackInit (enaddr (cpd s')));; mret true) Q s') ->
  wp tse_init Q s.
Proof.
  intros Hs HQ. unfold tse_init.
  do 5 (apply wp_bind, wp_modify). set (s1 := upd_cpd init_devs _).
  assert (ready s1) as R1 by exact Hs.
  apply wp_bind, wp_plain; [apply _|done|]. intros _ s2 H2 R2.
  apply wp_bind, (wp_eq _ _ _ (cpd s2) s2); [done|].
  assert (ours (base (rx_sgdma (cpd s2))) /\ ours (base (tx_sgdma (cpd s2)))) as [Ho1 Ho2].
  { rewrite (p_cpd _ _ H2). by split; [left|right]. }
  apply wp_bind, wp_plain; [by apply Plain_init2|done|]. intros _ s3 H3 R3.
  apply wp_bind, wp_plain; [by apply Plain_init2|done|]. intros _ s4 H4 R4.
  apply wp_bind, wp_plain; [apply _|done|]. intros _ s5 H5 R5.
  apply wp_bind, wp_getPHYSpeed; [done|]. intros v s6 Hv H6 R6.
  apply wp_bind, wp_plain; [apply _|done|]. intros _ s7 H7 R7.
  apply wp_bind, wp_modify. set (s8 := upd_cpd (set_speed v) s7).
  apply wp_bind, (wp_eq _ _ _ (cpd s8) s8); [done|].
  assert (plain s1 s7) as H17 by (do 6 (etrans; [eassumption|]); reflexivity).
  pose proof (p_cpd _ _ H17) as Hc. pose proof (p_log _ _ H17) as Hl.
  assert (config_enaddr (cpd s8) = config_enaddr (cpd s)) as Ec by (cbn; by rewrite Hc).
  assert (enaddr (cpd s8) = enaddr (cpd s)) as Ee by (cbn; by rewrite Hc).
  rewrite Ec. apply wp_bind.
  eapply (wp_mono _ (fun _ s9 => configured s s9)).
  { destruct (config_enaddr (cpd s)) as [a|] eqn:Ea.
    - apply wp_modify. by split; rewrite ?Ea.
    - apply wp_ret. by split; rewrite ?Ea. }
  intros _ s9 H9. cbn beta in H9. apply wp_bind, (wp_eq _ _ _ (cpd s9) s9); [done|].
  apply wp_bind, wp_plain; [apply _|apply H9|]. intros _ s10 H10 R10.
  rewrite <- (p_cpd _ _ H10). apply HQ. destruct H9 as [K1 K2 K3 K4], H10 as [L1 L2 L3].
  split; rewrite ?L2, ?L3; auto.
Qed.

(** C17: The initialisation ends whatever the PHY and the MAC answer, within the
    bounds of its waits (7,000,002 reads for autonegotiation, 10,002 for the
    reset); it registers the interface with the stack once, with the configured
    address, when it reports success, and not at all when it reports a failure;
    the speed it notes is one of the four codes. *)
Theorem init_outcome s :
  ready s ->
  wp tse_init (fun ok s' =>
    inits (log s') = inits (log s) ++ (if ok then [enaddr (cpd s')] else []) /\
    enaddr (cpd s') = default (enaddr (cpd s)) (config_enaddr (cpd s)) /\
    0 <= speed (cpd s') <= 3) s.
Proof.
  intros Hs. apply wp_tse_init; [done|]. intros s1 [R1 Hl Ha Hv].
  apply wp_bind, wp_plain; [apply Plain_IOWR|done|]. intros _ s2 H2 R2.
  apply wp_bind, wp_plain; [apply Plain_wait_reset; lia|done|]. intros ok s3 H3 R3.
  assert (plain s1 s3) as H13 by (by etrans).
  assert (forall s', plain s3 s' -> inits (log s') = inits (log s) ++ [] /\
    enaddr (cpd s') = default (enaddr (cpd s)) (config_enaddr (cpd s)) /\ 0 <= speed (cpd s') <= 3) as Hfail.
  { intros s' H'. assert (plain s1 s') as [_ Ec El] by (by etrans). rewrite app_nil_r, El, Ec. done. }
  destruct ok; cbn [negb]; [|by apply wp_ret, Hfail].
  apply wp_bind, wp_plain; [apply _|done|]. intros dat s4 H4 R4.
  wp_if; [by apply wp_ret, Hfail|].
  apply wp_bind, wp_plain; [apply _|done|]. intros _ s5 H5 R5.
  apply wp_bind, wp_modify, wp_ret. cbn [log set_log cpd]. rewrite inits_snoc.
  assert (plain s1 s5) as [_ Ec El] by (do 2 (etrans; [eassumption|]); done).
  rewrite El, Ec, Hl. done.
Qed.

End Init.

(** ** A MAC that does not leave its reset *)

Section Stuck.
Context {conf : TseConfig} {errno : Errno}.

Definition in_reset (b : board) : Prop := Z.testbit (mac b CMD_CONFIG) 13 = true.

Definition stuck (f : board -> board) : Prop :=
  keeps_devices f /\ forall b, in_reset b -> in_reset (f b).

Lemma wp_hw_stuck (Q : unit -> st -> Prop) s :
  Forall stuck (env s) ->
  (forall s', Forall stuck (env s') -> cpd s' = cpd s -> log s' = log s ->
     (in_reset (bd s) -> in_reset (bd s')) -> Q tt s') ->
  wp hw Q s.
Proof.
  intros He HQ. unfold hw, wp. destruct (env s) as [|f e] eqn:E; [by apply HQ; rewrite ?E|].
  apply Forall_cons_1 in He as [Hf He]. apply HQ; try done. apply Hf.
Qed.

Lemma reset_flag v : ctrue (Z.land v ALTERA_TSEMAC_CMD_SW_RESET_MSK) = Z.testbit v 13.
Proof. by rewrite <- (ctrue_land_pow2 v 13). Qed.

Lemma wp_wait_stuck fuel i (Q : bool -> st -> Prop) s :
  10001 - i < Z.of_nat fuel -> 0 <= i <= 10001 -> Forall stuck (env s) -> in_reset (bd s) ->
  (forall s', log s' = log s -> Q false s') -> wp (wait_reset fuel i) Q s.
Proof.
  revert i s. induction fuel as [|fuel IH]; intros i s Hf Hi He Hr HQ; [lia|]. cbn [wait_reset].
  apply wp_bind, wp_bind, wp_hw_stuck; [done|]. intros s1 He1 _ Hl1 Hr1.
  apply (wp_eq _ _ _ (mac (bd s1) CMD_CONFIG) s1); [done|]. cbn beta.
  rewrite reset_flag, (Hr1 Hr). destruct (Z.gtb_spec i 10000).
  - by apply wp_ret, HQ.
  - apply IH; try done; try lia; [by apply Hr1|]. intros s' H'. apply HQ. congruence.
Qed.

(** A MAC that never reports the end of its reset is given up after 10,002
    reads: the initialisation fails and the interface is not registered. *)
Theorem init_stuck_reset s :
  ready stuck s ->
  wp tse_init (fun ok s' => ok = false /\ inits (log s') = inits (log s)) s.
Proof.
  intros Hs. apply (wp_tse_init stuck); [by intros f []|done|]. intros s1 [[He1 _] Hl _ _].
  apply wp_bind, wp_bind, wp_hw_stuck; [done|]. intros s2 He2 _ Hl2 _.
  apply wp_modify. apply wp_bind, wp_wait_stuck; try done; try lia.
  intros s3 Hl3. cbn [negb]. apply wp_ret. split; [done|]. rewrite Hl3. cbn. by rewrite Hl2.
Qed.

End Stuck.
