(* ===== verification/TseRely.v ===== *)
(** * The triple-speed Ethernet hardware and the invariant of its driver

    The theorems on sending and receiving hold for every behaviour of the
    hardware that [respects] the relation [hw_step]: the transmit controller
    processes an owned descriptor only while it runs, reads the bytes the
    descriptor names onto the wire, gives the descriptor back and is idle again;
    the receive controller changes nothing while it does not run.  Everything
    else (registers of the MAC, the order and the moments of the steps, status
    bits, errors) is free.  The write-back of a descriptor and the end of the
    chain are one step here. *)

From stdpp Require Import relations functions.
From S2P Require Import Prelude.
From S2P Require Import Sgdma.
From S2P Require Import SgdmaFacts.
From S2P Require Import Tse.

(** ** Layout *)

(** What the build has to provide: controllers at two addresses, a descriptor
    memory of 1 KiB in the lower half of the address space that holds the chain
    and the two transmit descriptors, and buffers with 32-bit addresses. *)
Class TseConfigOk {conf : TseConfig} := {
  cfg_bases : SGDMA_RX_BASE <> SGDMA_TX_BASE;
  cfg_bufs : 1 <= BUFFER_NO <= 30;
  cfg_descs : 0 <= DESCRIPTOR_MEMORY_BASE <= 2147483648 - 1024;
  cfg_tx_buffer : is_u32 TX_BUFFER;
}.

(** The error numbers the driver masks with the BUSY bit have that bit set. *)
Class ErrnoOk {errno : Errno} := {
  eio_bit : Z.testbit (- EIO) 4 = true;
  einprogress_bit : Z.testbit (- EINPROGRESS) 4 = true;
}.

(** Where the [i]-th descriptor of the memory is. *)
Definition slot_at {conf : TseConfig} (i : Z) : Z := desc_plus DESCRIPTOR_MEMORY_BASE i.

(** A sent frame, as handed over: the key and the bytes. *)
Abbreviation entry := (Z * list Z)%type.

Section Rely.
Context {conf : TseConfig}.

(** The two transmit descriptors. *)
Definition TXD : Z := slot_at BUFFER_NO.
Definition TXN : Z := desc_plus TXD 1.

(** ** The transmit side *)

Record tx_same (b b' : board) : Prop := {
  ts_ctl : ctl (sg b') !! SGDMA_TX_BASE = ctl (sg b) !! SGDMA_TX_BASE;
  ts_d : descs (sg b') !! phys TXD = descs (sg b) !! phys TXD;
  ts_n : descs (sg b') !! phys TXN = descs (sg b) !! phys TXN;
  ts_mem : txmem b' = txmem b;
  ts_wire : wire b' = wire b;
}.

(** The controller is about to work on an owned descriptor. *)
Definition at_work (b : board) (r : sgdma_regs) (d : alt_sgdma_descriptor) : Prop :=
  running r = true /\ descs (sg b) !! phys (sg_next r) = Some d /\ owned d = true.

Definition with_regs (c : Z) (r : sgdma_regs) (b : board) : board :=
  set_sg (set_ctl (<[c := r]> (ctl (sg b))) (sg b)) b.

Definition with_desc (a : Z) (d : alt_sgdma_descriptor) (b : board) : board :=
  set_sg (set_descs (<[phys a := d]> (descs (sg b))) (sg b)) b.

Inductive tx_step (b : board) : board -> Prop :=
| tx_other b' : tx_same b b' -> tx_step b b'
| tx_status b' r v :
    ctl (sg b) !! SGDMA_TX_BASE = Some r ->
    (busy v = true -> busy (sg_status r) = true \/ exists d, at_work b r d) ->
    tx_same (with_regs SGDMA_TX_BASE (set_sg_status v r) b) b' ->
    tx_step b b'
| tx_done b' r d bytes v c e n :
    ctl (sg b) !! SGDMA_TX_BASE = Some r ->
    at_work b r d ->
    get_bytes (read_addr d - TX_BUFFER) (bytes_to_transfer d) (txmem b) = Some bytes ->
    busy v = false -> Z.testbit c 7 = false ->
    tx_same
      (set_wire (wire b ++ [bytes])
        (with_desc (sg_next r) (set_control c (set_status e (set_actual_bytes_transferred n d)))
          (with_regs SGDMA_TX_BASE (set_sg_next (next d) (set_sg_status v r)) b))) b' ->
    tx_step b b'.

(** ** The receive side *)

(** The registers of the receive controller, the receive descriptors and the
    receive buffers. *)
Record rx_is (r : sgdma_regs) (ds : list alt_sgdma_descriptor) (mem : list Z) (b : board) : Prop := {
  xi_ctl : ctl (sg b) !! SGDMA_RX_BASE = Some r;
  xi_descs : forall i, 0 <= i < BUFFER_NO ->
    descs (sg b) !! phys (slot_at i) = ds !! Z.to_nat i;
  xi_len : Z.of_nat (length ds) = BUFFER_NO;
  xi_mem : rxmem b = mem;
  xi_size : Z.of_nat (length mem) = BUFFER_NO * BUFFER_SIZE;
  xi_bytes : Forall (fun d => 0 <= actual_bytes_transferred d <= BUFFER_SIZE) ds;
}.

(** The receive side exists, stores no more than fits in a buffer, and rests while
    the controller does not run. *)
Definition rx_step (b b' : board) : Prop :=
  forall r ds mem, rx_is r ds mem b ->
  exists r' ds' mem', rx_is r' ds' mem' b' /\ regs_rely r r' /\
    (running r = false -> ds' = ds /\ mem' = mem).

Definition hw_step (b b' : board) : Prop := tx_step b b' /\ rx_step b b'.

Definition respects (f : board -> board) : Prop := forall b, rtc hw_step b (f b).

(** ** Invariants of the board *)

(** The frames behind the padding. *)
Definition payloads (w : list (list Z)) : list (list Z) := map (drop 2) w.

(** The transmit descriptor is free; it is filled but the controller does not run
    on it; the controller runs on it. *)
Inductive mode := Free | Armed | Pending.

#[global] Instance mode_eq_dec : EqDecision mode.
Proof. solve_decision. Defined.

Definition owned_in (m : mode) : bool := match m with Free => false | _ => true end.

(** All accepted frames are on the wire, or all but the last, which is what the
    descriptor names. *)
Definition carries (acc : list entry) (m : mode) (d : alt_sgdma_descriptor) (b : board) : Prop :=
  match m with
  | Free => payloads (wire b) = map snd acc
  | _ => phys (next d) = phys TXN /\
         exists f, get_bytes (read_addr d - TX_BUFFER) (bytes_to_transfer d) (txmem b) = Some f /\
           payloads (wire b) ++ [drop 2 f] = map snd acc
  end.

Definition engine (m : mode) (r : sgdma_regs) : Prop :=
  match m with
  | Pending => running r = true /\ phys (sg_next r) = phys TXD
  | _ => busy (sg_status r) = false /\ (running r = true -> phys (sg_next r) = phys TXN)
  end.

Record tx_board (acc : list entry) (m : mode) (r : sgdma_regs) (b : board) : Prop := {
  tb_ctl : ctl (sg b) !! SGDMA_TX_BASE = Some r;
  tb_n : exists n, descs (sg b) !! phys TXN = Some n /\ owned n = false;
  tb_d : exists d, descs (sg b) !! phys TXD = Some d /\ owned d = owned_in m /\ carries acc m d b;
  tb_engine : engine m r;
  tb_size : Z.of_nat (length (txmem b)) = BUFFER_NO * BUFFER_SIZE;
}.

Lemma tx_board_same acc m r b b' : tx_same b b' -> tx_board acc m r b -> tx_board acc m r b'.
Proof.
  intros [S1 S2 S3 S4 S5] [H1 H2 H3 H4 H5]. split; rewrite ?S1, ?S2, ?S3, ?S4; try done.
  unfold carries in *. by rewrite S4, S5.
Qed.

End Rely.

Section Closure.
Context {conf : TseConfig} {conf_ok : TseConfigOk}.

Lemma slot_phys i : 0 <= i < 32 -> phys (slot_at i) = DESCRIPTOR_MEMORY_BASE + i * 32.
Proof.
  intros Hi. pose proof cfg_descs. unfold phys, slot_at, desc_plus, ALTERA_AVALON_SGDMA_DESCRIPTOR_SIZE.
  apply Z.mod_small. lia.
Qed.

Lemma TXN_slot : TXN = slot_at (BUFFER_NO + 1).
Proof. unfold TXN, TXD, slot_at, desc_plus, ALTERA_AVALON_SGDMA_DESCRIPTOR_SIZE. lia. Qed.

Lemma TXN_TXD : phys TXN <> phys TXD.
Proof. pose proof cfg_bufs. rewrite TXN_slot. unfold TXD. rewrite !slot_phys by lia. lia. Qed.

Lemma not_at_work acc m r b d : m <> Pending -> tx_board acc m r b -> ~ at_work b r d.
Proof.
  intros Hm [_ (n & Hn & Ho) _ He _] (Hrun & Hd & Hown).
  assert (phys (sg_next r) = phys TXN) as E by (destruct m; [by apply He..|done]).
  rewrite E, Hn in Hd. congruence.
Qed.

Lemma tx_board_status acc m r b v :
  tx_board acc m r b -> (busy v = true -> busy (sg_status r) = true \/ exists d, at_work b r d) ->
  tx_board acc m (set_sg_status v r) (with_regs SGDMA_TX_BASE (set_sg_status v r) b) /\
  regs_rely r (set_sg_status v r).
Proof.
  intros HB Hv.
  assert (m <> Pending -> busy v = false) as Hq.
  { intros Hm. destruct (busy v) eqn:E; [|done]. exfalso. destruct (Hv eq_refl) as [E'|[d Hd]].
    - pose proof (tb_engine _ _ _ _ HB) as He. destruct m; [destruct He; congruence..|done].
    - by apply (not_at_work acc m r b d). }
  destruct HB as [H1 H2 H3 H4 H5]. split.
  - split; cbn; [apply lookup_insert_eq|done|done| |done].
    destruct m; cbn in *; [split; [by apply Hq|apply H4]..|done].
  - intros Hrun. repeat split; try done. intros _. apply Hq. intros ->. destruct H4 as [H4 _]. congruence.
Qed.

Lemma tx_board_done acc r b d bytes v c e n :
  tx_board acc Pending r b -> at_work b r d ->
  get_bytes (read_addr d - TX_BUFFER) (bytes_to_transfer d) (txmem b) = Some bytes ->
  busy v = false -> Z.testbit c 7 = false ->
  tx_board acc Free (set_sg_next (next d) (set_sg_status v r))
    (set_wire (wire b ++ [bytes])
      (with_desc (sg_next r) (set_control c (set_status e (set_actual_bytes_transferred n d)))
        (with_regs SGDMA_TX_BASE (set_sg_next (next d) (set_sg_status v r)) b))).
Proof.
  intros [H1 (dn & Hn & Hno) (d0 & Hd0 & Ho & Hnx & f & Hf & Hacc) [Hrun Hnext] Hsz] (_ & Hd & Hown) Hg Hv Hc.
  rewrite Hnext, Hd0 in Hd. injection Hd as ->. rewrite Hg in Hf. injection Hf as ->.
  split; cbn.
  - apply lookup_insert_eq.
  - exists dn. rewrite Hnext, lookup_insert_ne by (symmetry; apply TXN_TXD). done.
  - eexists. rewrite Hnext, lookup_insert_eq. split; [done|]. split; [exact Hc|].
    unfold payloads in *. by rewrite map_app.
  - done.
  - done.
Qed.

(** The controller's steps keep the invariant; at most a pending frame goes out. *)
Lemma tx_board_step acc m r b b' :
  tx_board acc m r b -> tx_step b b' ->
  exists m' r', tx_board acc m' r' b' /\ regs_rely r r' /\ (m' = m \/ m = Pending /\ m' = Free).
Proof.
  intros HB Hs. destruct Hs as [b' Hb'|b' r0 v Hr Hv Hb'|b' r0 d bytes v c e n Hr Hw Hg Hv Hc Hb'];
    try (rewrite (tb_ctl _ _ _ _ HB) in Hr; injection Hr as <-).
  - exists m, r. split; [by eapply tx_board_same|]. split; [by intros ?|by left].
  - destruct (tx_board_status _ _ _ _ v HB Hv) as [H1 H2]. exists m, (set_sg_status v r).
    split; [by eapply tx_board_same|]. auto.
  - destruct (decide (m = Pending)) as [->|Hm]; [|by destruct (not_at_work acc m r b d)].
    eexists Free, _. split; [eapply tx_board_same; [exact Hb'|by eapply tx_board_done]|].
    split; [|by right]. intros Hrun. by rewrite (proj1 Hw) in Hrun.
Qed.

(** Receive descriptors are elsewhere. *)
Lemma slot_TX i : 0 <= i < BUFFER_NO -> phys (slot_at i) <> phys TXD /\ phys (slot_at i) <> phys TXN.
Proof.
  intros Hi. pose proof cfg_bufs. rewrite TXN_slot. unfold TXD. rewrite !slot_phys by lia. lia.
Qed.

Lemma slot_at_inj i j : 0 <= i < 32 -> 0 <= j < 32 -> phys (slot_at i) = phys (slot_at j) -> i = j.
Proof. intros Hi Hj. rewrite !slot_phys by lia. lia. Qed.

(** The receive side does not see a change elsewhere. *)
Lemma rx_is_same r ds mem b b' :
  ctl (sg b') !! SGDMA_RX_BASE = ctl (sg b) !! SGDMA_RX_BASE ->
  (forall i, 0 <= i < BUFFER_NO -> descs (sg b') !! phys (slot_at i) = descs (sg b) !! phys (slot_at i)) ->
  rxmem b' = rxmem b -> rx_is r ds mem b -> rx_is r ds mem b'.
Proof.
  intros Hc Hd Hm [X1 X2 X3 X4 X5 X6]. split; try done; try congruence.
  intros i Hi. rewrite Hd by done. by apply X2.
Qed.

End Closure.

(** * The state of the triple-speed Ethernet driver between its accesses

    The invariant [drv], what the hardware may have done to it at an access, and
    the accesses of the driver under it. *)

#[global] Instance tse_dma_state : DmaState st.
Proof. split; [done..|]. by intros [? [] ? ?]. Qed.

Lemma phys_u32 a : phys (u32 a) = phys a.
Proof. unfold phys, uwrap. change (2 ^ 32) with (2147483648 * 2). Z.to_euclidean_division_equations; lia. Qed.

(** ** What the stack was told *)

Definition tse_dones (l : list event) : list Z :=
  omap (fun e => match e with TxDone k => Some k | _ => None end) l.

(** Received frames: their length, and their bytes if the stack had buffers. *)
Definition tse_recvs (l : list event) : list (Z * option (list Z)) :=
  omap (fun e => match e with
    | Recv n chunks => Some (n, Some (concat chunks))
    | NotRecv n => Some (n, None)
    | _ => None
    end) l.

Lemma tse_dones_app l l' : tse_dones (l ++ l') = tse_dones l ++ tse_dones l'.
Proof. apply omap_app. Qed.

Lemma tse_recvs_app l l' : tse_recvs (l ++ l') = tse_recvs l ++ tse_recvs l'.
Proof. apply omap_app. Qed.

(** ** What the driver knows of the board *)

Record view := mkView {
  v_mode : mode;          (* of the transmit descriptor *)
  v_tx : sgdma_regs;      (* the transmit controller *)
  v_rx : sgdma_regs;      (* the receive controller *)
  v_descs : list alt_sgdma_descriptor;  (* the receive descriptors *)
  v_mem : list Z;         (* the receive buffers *)
}.

(** What may have changed when the hardware has acted. *)
Record view_rely (v v' : view) : Prop := {
  vr_mode : v_mode v' = v_mode v \/ v_mode v = Pending /\ v_mode v' = Free;
  vr_tx : regs_rely (v_tx v) (v_tx v');
  vr_rx : regs_rely (v_rx v) (v_rx v');
  vr_halted : running (v_rx v) = false -> v_descs v' = v_descs v /\ v_mem v' = v_mem v;
}.

Lemma regs_rely_trans r1 r2 r3 : regs_rely r1 r2 -> regs_rely r2 r3 -> regs_rely r1 r3.
Proof.
  intros H1 H2 Hr. destruct (H1 Hr) as (A1 & A2 & A3), (H2 A1) as (B1 & B2 & B3).
  split; [done|]. split; [congruence|]. auto.
Qed.

#[global] Instance view_rely_preorder : PreOrder view_rely.
Proof.
  split.
  - intros v. split; [by left|by intros ?..|done].
  - intros v1 v2 v3 [A1 A2 A3 A4] [B1 B2 B3 B4]. split.
    + destruct A1 as [A1|[A1 A1']], B1 as [B1|[B1 B1']]; rewrite ?B1, ?B1', ?A1, ?A1' in *; auto; congruence.
    + by eapply regs_rely_trans.
    + by eapply regs_rely_trans.
    + intros Hr. destruct (A3 Hr) as [Hr' _], (A4 Hr) as [<- <-]. by apply B4.
Qed.

(** The keys: those reported belong to accepted frames, in order, none twice; the
    key kept for the next report is that of the last frame, which is not reported
    before it is on the wire. *)
Definition keys_ok (k : Z) (dones : list Z) (acc : list entry) (m : mode) : Prop :=
  exists old last, acc = old ++ last /\ dones `sublist_of` map fst old /\
    (k <> 0 -> exists f, last = [(k, f)]) /\ (m <> Free -> exists e, last = [e]).

Section Driver.
Context {conf : TseConfig}.

Record cpd_ok (c : tse_priv_data) : Prop := {
  co_tx_base : base (tx_sgdma c) = SGDMA_TX_BASE;
  co_tx_isr : isr (tx_sgdma c) = None;
  co_tx_desc : descriptor_base (tx_sgdma c) = TXD;
  co_tx_buf : tx_buffer c = TX_BUFFER;
  co_rx_base : base (rx_sgdma c) = SGDMA_RX_BASE;
  co_rx_desc : descriptor_base (rx_sgdma c) = DESCRIPTOR_MEMORY_BASE;
  co_rx_buf : rx_buffer c = RX_BUFFER;
}.

Definition board_ok (acc : list entry) (v : view) (b : board) : Prop :=
  tx_board acc (v_mode v) (v_tx v) b /\ rx_is (v_rx v) (v_descs v) (v_mem v) b.

Record drv (acc : list entry) (v : view) (s : st) : Prop := {
  d_cpd : cpd_ok (cpd s);
  d_env : Forall respects (env s);
  d_board : board_ok acc v (bd s);
  d_keys : keys_ok (txkey (cpd s)) (tse_dones (log s)) acc (v_mode v);
}.

Context {conf_ok : TseConfigOk}.

Lemma board_ok_rtc acc v b b' :
  rtc hw_step b b' -> board_ok acc v b -> exists v', board_ok acc v' b' /\ view_rely v v'.
Proof.
  intros Hr. revert v. induction Hr as [b|b b1 b' [Ht Hx] _ IH]; intros v [HT HX]; [by exists v|].
  destruct (tx_board_step _ _ _ _ _ HT Ht) as (m1 & r1 & HT1 & Hr1 & Hm1).
  destruct (Hx _ _ _ HX) as (x1 & ds1 & mem1 & HX1 & Hr2 & Hh).
  destruct (IH (mkView m1 r1 x1 ds1 mem1)) as (v' & Hv' & Hrel); [done|].
  exists v'. split; [done|]. etrans; [|exact Hrel]. by split.
Qed.

Lemma wp_tse_hw (Q : unit -> st -> Prop) acc v s :
  drv acc v s ->
  (forall s' v', drv acc v' s' -> view_rely v v' -> cpd s' = cpd s -> log s' = log s -> Q tt s') ->
  wp hw Q s.
Proof.
  intros [H1 H2 H3 H4] HQ. unfold hw, wp. destruct (env s) as [|f e] eqn:E.
  { by apply (HQ s v); [split; rewrite ?E|..]. }
  apply Forall_cons_1 in H2 as [Hf He]. destruct (board_ok_rtc _ _ _ _ (Hf (bd s)) H3) as (v' & Hb & Hv).
  apply (HQ _ v'); try done. split; try done. cbn.
  destruct H4 as (old & last & Ha & Hd & Hk & Hm). exists old, last. repeat split; try done.
  intros Hne. apply Hm. destruct (vr_mode _ _ Hv) as [E'|[_ E']]; congruence.
Qed.

(** ** Changes that leave the board alone *)

Lemma drv_local acc v s s' :
  drv acc v s -> cpd_ok (cpd s') -> txkey (cpd s') = txkey (cpd s) -> env s' = env s -> bd s' = bd s ->
  tse_dones (log s') = tse_dones (log s) -> drv acc v s'.
Proof. intros [H1 H2 H3 H4] Hc Hk He Hb Hl. split; rewrite ?Hk, ?He, ?Hb, ?Hl; done. Qed.

Lemma drv_cpd acc v s f :
  (forall c, cpd_ok c -> cpd_ok (f c)) -> (forall c, txkey (f c) = txkey c) ->
  drv acc v s -> drv acc v (upd_cpd f s).
Proof. intros Hf Hk H. eapply drv_local; [exact H|..]; try done; [apply Hf, H|apply Hk]. Qed.

Lemma drv_emit acc v s e :
  match e with TxDone _ => False | _ => True end ->
  drv acc v s -> drv acc v (set_log (log s ++ [e]) s).
Proof.
  intros He H. eapply drv_local; [exact H|apply H|done..|]. cbn. rewrite tse_dones_app.
  destruct e; try done; apply app_nil_r.
Qed.

(** A change of the board that only the receive side sees. *)
Lemma drv_board acc v v' s b :
  drv acc v s -> board_ok acc v' b -> v_mode v' = v_mode v -> drv acc v' (set_bd b s).
Proof. intros [H1 H2 H3 H4] Hb Hm. split; try done. by rewrite Hm. Qed.

(** ** Registers of the MAC *)

Lemma wp_tse_IOWR r x (Q : unit -> st -> Prop) acc v s :
  drv acc v s ->
  (forall s' v', drv acc v' s' -> view_rely v v' -> cpd s' = cpd s -> log s' = log s -> Q tt s') ->
  wp (IOWR r x) Q s.
Proof.
  intros H HQ. apply wp_bind, (wp_tse_hw _ acc v); [done|]. intros s1 v1 H1 Hv Hc Hl.
  apply wp_modify, (HQ _ v1); try done. apply (drv_board _ v1); [done| |done].
  destruct (d_board _ _ _ H1) as [HT [X1 X2 X3 X4 X5 X6]]. split; [|by split].
  by eapply tx_board_same; [|exact HT].
Qed.

End Driver.
