(* ===== verification/TseTx.v ===== *)
(** * Sending through the triple-speed Ethernet driver *)

From stdpp Require Import relations functions.
From S2P Require Import Prelude.
From S2P Require Import Sgdma.
From S2P Require Import SgdmaFacts.
From S2P Require Import Tse.
From S2P Require Import TseRely.

Section Tx.
Context {conf : TseConfig} {errno : Errno} {conf_ok : TseConfigOk} {errno_ok : ErrnoOk}.

(** ** The status of the transmit descriptor *)

Lemma wp_tse_tx_load f (Q : Z -> st -> Prop) acc v s :
  drv acc v s ->
  (forall s' v' d, drv acc v' s' -> view_rely v v' -> cpd s' = cpd s -> log s' = log s ->
     owned d = owned_in (v_mode v') -> Q (f d) s') ->
  wp (desc_load f TXD) Q s.
Proof.
  intros H HQ. apply wp_bind. apply (wp_tse_hw _ acc v); [done|]. intros s1 v1 H1 Hv Hc Hl.
  destruct (tb_d _ _ _ _ (proj1 (d_board _ _ _ H1))) as (d & Hd & Ho & _).
  apply wp_bind. unfold desc_at, wp at 1. cbn [dma_of tse_has_dma]. rewrite Hd.
  by apply wp_ret, (HQ s1 v1).
Qed.

Lemma wp_tx_check (Q : Z -> st -> Prop) acc v s :
  drv acc v s ->
  (forall s' v' x, drv acc v' s' -> view_rely v v' -> cpd s' = cpd s -> log s' = log s ->
     x = - EIO \/ x = - EINPROGRESS \/ x = 0 /\ v_mode v' = Free -> Q x s') ->
  wp (alt_avalon_sgdma_check_descriptor_status TXD) Q s.
Proof.
  intros H HQ. apply wp_bind, (wp_tse_tx_load _ _ acc v); [done|]. intros s1 v1 d1 H1 Hv1 Hc1 Hl1 _.
  wp_if; [by apply wp_ret, (HQ s1 v1); auto|].
  apply wp_bind, (wp_tse_tx_load _ _ acc v1); [done|]. intros s2 v2 d2 H2 Hv2 Hc2 Hl2 Ho.
  assert (view_rely v v2) by (by etrans). rewrite owned_mask. fold (owned d2). rewrite Ho.
  wp_if; apply wp_ret, (HQ s2 v2); try done; try congruence; auto.
  right. right. split; [done|]. by destruct (v_mode v2).
Qed.

(** The mask leaves something of the two errors and nothing of 0. *)
Lemma busy_mask_errno x (P : Prop) :
  x = - EIO \/ x = - EINPROGRESS \/ x = 0 /\ P ->
  (Z.land x ALTERA_AVALON_SGDMA_STATUS_BUSY_MSK =? 0) = true -> P.
Proof.
  intros Hx Hm. assert (Z.testbit x 4 = false) as Hb.
  { rewrite <- (ctrue_land_pow2 x 4) by lia. unfold ctrue.
    change (2 ^ 4) with ALTERA_AVALON_SGDMA_STATUS_BUSY_MSK. by rewrite Hm. }
  destruct Hx as [->|[->|[_ ?]]]; [by rewrite eio_bit in Hb|by rewrite einprogress_bit in Hb|done].
Qed.

Lemma wp_tse_can_send (Q : Z -> st -> Prop) acc v s :
  drv acc v s ->
  (forall s' v' x, drv acc v' s' -> view_rely v v' -> cpd s' = cpd s -> log s' = log s ->
     (x = 1 -> v_mode v' = Free) -> Q x s') ->
  wp tse_can_send Q s.
Proof.
  intros H HQ. unfold tse_can_send. apply wp_bind, (wp_eq _ _ _ (cpd s) s); [done|].
  rewrite (co_tx_desc _ (d_cpd _ _ _ H)). apply wp_bind, (wp_tx_check _ acc v); [done|].
  intros s1 v1 x H1 Hv Hc Hl Hx. apply wp_ret, (HQ s1 v1); try done. intros E.
  destruct (Z.land x _ =? 0) eqn:Em; [|done]. by eapply busy_mask_errno.
Qed.

(** ** Reporting a sent frame *)

Lemma keys_ok_report k dones acc :
  k <> 0 -> keys_ok k dones acc Free -> keys_ok 0 (dones ++ [k]) acc Free.
Proof.
  intros Hk (old & last & -> & Hd & Hl & _). destruct (Hl Hk) as [f ->].
  exists (old ++ [(k, f)]), []. rewrite app_nil_r, map_app. repeat split; try done.
  by apply sublist_app.
Qed.

Lemma wp_tse_TxDone (Q : unit -> st -> Prop) acc v s :
  drv acc v s ->
  (forall s' v', drv acc v' s' -> view_rely v v' ->
     (cpd s' = cpd s \/ cpd s' = set_txkey 0 (cpd s)) ->
     tse_recvs (log s') = tse_recvs (log s) -> Q tt s') ->
  wp tse_TxDone Q s.
Proof.
  intros H HQ. unfold tse_TxDone. apply wp_bind, (wp_eq _ _ _ (cpd s) s); [done|].
  rewrite (co_tx_desc _ (d_cpd _ _ _ H)). apply wp_bind, (wp_tx_check _ acc v); [done|].
  intros s1 v1 x H1 Hv Hc Hl Hx. apply wp_when.
  - intros [Em Hk%negb_true_iff]%andb_true_iff. apply Z.eqb_neq in Hk.
    assert (v_mode v1 = Free) as Hf by (by eapply busy_mask_errno).
    apply wp_bind, wp_modify, wp_modify, (HQ _ v1); try done.
    + destruct H1 as [C1 C2 C3 C4]. split; cbn; try done.
      * by destruct C1.
      * rewrite Hf in *. rewrite tse_dones_app. cbn. rewrite <- Hc in Hk |- *. apply keys_ok_report; auto.
    + right. cbn. by rewrite Hc.
    + cbn. rewrite tse_recvs_app, Hl. apply app_nil_r.
  - intros _. apply (HQ _ v1); try done; [by left|by rewrite Hl].
Qed.

(** ** Copying the pieces *)

(** What the pieces hold. *)
Definition flat (pieces : list (option (list Z))) : list Z := concat (omap id pieces).

Lemma put_bytes_app pre d rest :
  (length d <= length rest)%nat ->
  put_bytes (Z.of_nat (length pre)) d (pre ++ rest) = Some (pre ++ d ++ drop (length d) rest).
Proof.
  intros Hd. unfold put_bytes. rewrite length_app.
  destruct (Z.leb_spec 0 (Z.of_nat (length pre))); [|lia].
  destruct (Z.leb_spec (Z.of_nat (length pre) + Z.of_nat (length d))
              (Z.of_nat (length pre + length rest))); [|lia].
  cbn [andb]. rewrite Nat2Z.id, take_app_exact, drop_app_ge by lia.
  by replace (length pre + length d - length pre)%nat with (length d) by lia.
Qed.

Lemma wp_copy_pieces pieces len (Q : Z -> st -> Prop) s pre rest :
  tx_buffer (cpd s) = TX_BUFFER -> txmem (bd s) = pre ++ rest -> Z.of_nat (length pre) = 2 + len ->
  (length (flat pieces) <= length rest)%nat ->
  Q (len + Z.of_nat (length (flat pieces)))
    (upd_bd (set_txmem (pre ++ flat pieces ++ drop (length (flat pieces)) rest)) s) ->
  wp (copy_pieces len pieces) Q s.
Proof.
  revert len s pre rest. induction pieces as [|[d|] pieces IH]; intros len s pre rest Hb Hm Hp Hl HQ.
  - apply wp_ret. cbn in HQ. rewrite drop_0, <- Hm, Z.add_0_r in HQ.
    by destruct s as [c [] e l].
  - unfold flat in *. cbn [omap list_omap id concat] in *. rewrite length_app in Hl.
    destruct d as [|x d]; cbn [copy_pieces].
    { eapply IH; [done..|]. exact HQ. }
    apply wp_bind, wp_get. rewrite Hb, Hm.
    replace (TX_BUFFER - TX_BUFFER + 2 + len) with (Z.of_nat (length pre)) by lia.
    rewrite put_bytes_app by lia. apply wp_bind, wp_modify.
    eapply (IH _ _ (pre ++ x :: d) (drop (length (x :: d)) rest)); cbn [upd_bd bd set_bd txmem set_txmem cpd]; try done.
    + by rewrite <- app_assoc.
    + rewrite length_app. lia.
    + rewrite length_drop. lia.
    + rewrite drop_drop, <- !app_assoc. rewrite length_app, <- !app_assoc in HQ.
      replace (len + Z.of_nat (length (x :: d)) + Z.of_nat (length (concat (omap id pieces))))
        with (len + Z.of_nat (length (x :: d) + length (concat (omap id pieces)))) by lia. exact HQ.
  - cbn [copy_pieces]. eapply IH; done.
Qed.

(** ** Handing a frame over *)

Definition frame_desc (n : nat) : alt_sgdma_descriptor :=
  constructed TXN TX_BUFFER 0 (Z.of_nat n + 2) 1 0 1 0.

(** The two transmit descriptors after the construction. *)
Definition armed_board (n : nat) (dn : alt_sgdma_descriptor) (b : board) : board :=
  set_sg (set_descs
    (<[phys TXD := frame_desc n]>
      (<[phys TXN := set_control (Z.land (control dn)
          (Z.lnot ALTERA_AVALON_SGDMA_DESCRIPTOR_CONTROL_OWNED_BY_HW_MSK)) dn]> (descs (sg b))))
    (sg b)) b.

Definition in_mode (m : mode) (v : view) : view := mkView m (v_tx v) (v_rx v) (v_descs v) (v_mem v).

Definition with_tx (r : sgdma_regs) (v : view) : view :=
  mkView (v_mode v) r (v_rx v) (v_descs v) (v_mem v).

Lemma frame_bytes pre f tail :
  length pre = 2%nat -> Z.of_nat (length f) + 2 < 65536 ->
  get_bytes (read_addr (frame_desc (length f)) - TX_BUFFER)
    (bytes_to_transfer (frame_desc (length f))) (pre ++ f ++ tail) = Some (pre ++ f).
Proof.
  intros Hp Hf. cbn [frame_desc constructed read_addr bytes_to_transfer].
  rewrite u32_id by apply cfg_tx_buffer. rewrite (uwrap_id 16), Z.sub_diag by lia.
  unfold get_bytes. rewrite !length_app, Hp. cbn [Z.to_nat drop].
  destruct (Z.leb_spec 0 (Z.of_nat (length f) + 2)); [|lia].
  destruct (Z.leb_spec (0 + (Z.of_nat (length f) + 2)) (Z.of_nat (2 + (length f + length tail)))); [|lia].
  cbn [Z.leb andb]. f_equal. rewrite app_assoc. apply take_app_exact. rewrite length_app. lia.
Qed.

Lemma drv_armed acc v s key pre f tail dn :
  drv acc v s -> v_mode v = Free -> txmem (bd s) = pre ++ f ++ tail -> length pre = 2%nat ->
  Z.of_nat (length f) + 2 < 65536 ->
  drv (acc ++ [(u32 key, f)]) (in_mode Armed v)
    (upd_cpd (set_txkey (u32 key)) (upd_bd (armed_board (length f) dn) s)).
Proof.
  intros [C1 C2 [[T1 T2 (d & Hd & Ho & Hw) T4 T5] HX] (old & last & Ha & Hs & _ & _)] Hf Hm Hp Hl.
  rewrite Hf in *. split; [by destruct C1|done|split|].
  - split; cbn.
    + done.
    + eexists. rewrite lookup_insert_ne, lookup_insert_eq by (symmetry; apply TXN_TXD).
      split; [done|]. apply disown_bit.
    + exists (frame_desc (length f)). rewrite lookup_insert_eq. split; [done|].
      split; [apply ready_control_owned|]. split; [apply phys_u32|]. exists (pre ++ f).
      rewrite Hm, frame_bytes by done. split; [done|].
      change (payloads (wire (bd s)) = map snd acc) in Hw.
      change (payloads (wire (bd s)) ++ [drop 2 (pre ++ f)] = map snd (acc ++ [(u32 key, f)])).
      by rewrite Hw, map_app, drop_app_exact.
    + exact T4.
    + exact T5.
  - eapply rx_is_same; [..|exact HX]; try done. intros i Hi. destruct (slot_TX i Hi). cbn.
    by rewrite !lookup_insert_ne.
  - exists acc, [(u32 key, f)]. repeat split; try done; [|by intros _; exists f|by eauto].
    cbn. etrans; [exact Hs|]. rewrite Ha, map_app. apply sublist_inserts_r. done.
Qed.

(** A write to the registers of the transmit controller. *)
Lemma drv_tx_regs acc v s m' r' :
  drv acc v s -> engine m' r' -> owned_in m' = owned_in (v_mode v) ->
  drv acc (with_tx r' (in_mode m' v)) (put_regs SGDMA_TX_BASE r' s).
Proof.
  intros [C1 C2 [[T1 T2 (d & Hd & Ho & Hw) T4 T5] HX] C4] He Hm. split; [done|done|split|].
  - split; cbn; [apply lookup_insert_eq|done| |done|done]. exists d. split; [done|]. split; [by etrans; [exact Ho|]|].
    unfold carries in *. destruct m', (v_mode v); done.
  - eapply rx_is_same; [..|exact HX]; try done. cbn. apply lookup_insert_ne.
    intros E. by apply cfg_bases.
  - destruct C4 as (old & last & ? & ? & ? & Hl). exists old, last. repeat split; try done. cbn.
    intros Hne. apply Hl. destruct m', (v_mode v); done.
Qed.

Lemma wp_tx_write (g : sgdma_regs -> sgdma_regs) (Q : unit -> st -> Prop) acc v s :
  drv acc v s -> v_mode v = Armed -> (forall r, engine Armed r -> engine Armed (g r)) ->
  (forall s' v' r, drv acc v' s' -> v_mode v' = Armed -> v_tx v' = g r -> regs_rely (v_tx v) r ->
     cpd s' = cpd s -> log s' = log s -> Q tt s') ->
  wp (bus_cycle;; r ← sg_regs_at SGDMA_TX_BASE; sg_regs_put SGDMA_TX_BASE (g r)) Q s.
Proof.
  intros H Hm Hg HQ. apply wp_bind, (wp_tse_hw _ acc v); [done|]. intros s1 v1 H1 Hv Hc Hl.
  assert (v_mode v1 = Armed) as Hm1 by (destruct (vr_mode _ _ Hv) as [?|[? ?]]; congruence).
  destruct (d_board _ _ _ H1) as [[T1 T2 T3 T4 T5] _].
  apply wp_bind. unfold sg_regs_at, wp at 1. cbn [dma_of tse_has_dma]. rewrite T1.
  apply wp_modify. rewrite Hm1 in T4.
  eapply (HQ _ (with_tx (g (v_tx v1)) (in_mode Armed v1)) (v_tx v1)); try done; [|apply Hv].
  apply (drv_tx_regs _ _ _ _ _ H1); [by apply Hg|by rewrite Hm1].
Qed.

Lemma engine_idle r : idle r -> engine Armed r.
Proof. intros [H1 H2]. split; congruence. Qed.

(** The start of the transfer. *)
Lemma wp_tx_start (Q : Z -> st -> Prop) acc v s :
  drv acc v s -> v_mode v = Armed -> running (v_tx v) = false ->
  (forall s' v' x, drv acc v' s' -> cpd s' = cpd s -> log s' = log s -> Q x s') ->
  wp (alt_avalon_sgdma_do_async_transfer (tx_sgdma (cpd s)) TXD) Q s.
Proof.
  intros H Hm Hrun HQ. pose proof (d_cpd _ _ _ H) as Hcpd.
  apply (wp_async_transfer (fun r s' => exists v', drv acc v' s' /\ v_mode v' = Armed /\ v_tx v' = r /\
    cpd s' = cpd s /\ log s' = log s) SGDMA_TX_BASE) with (v_tx v).
  - intros r s1 (v1 & H1 & _ & <- & _). apply (d_board _ _ _ H1).
  - intros r s1 (v1 & H1 & Hm1 & <- & Hc1 & Hl1) _. apply (wp_tse_hw _ acc v1); [done|].
    intros s2 v2 H2 Hv Hc2 Hl2. exists (v_tx v2). split; [|by apply Hv]. exists v2.
    split; [done|]. split; [|split; [done|split; congruence]].
    destruct (vr_mode _ _ Hv) as [?|[? ?]]; congruence.
  - intros r r' s1 (v1 & H1 & Hm1 & _ & Hc1 & Hl1) Hi. exists (with_tx r' (in_mode Armed v1)).
    split; [|done]. apply drv_tx_regs; [done|by apply engine_idle|by rewrite Hm1].
  - apply Hcpd.
  - by exists v.
  - done.
  - intros s' r' Hb. pose proof (tb_engine _ _ _ _ (proj1 (d_board _ _ _ H))) as He.
    rewrite Hm in He. by destruct He.
  - intros s' (r & c & s1 & (v1 & H1 & Hm1 & <- & Hc1 & Hl1) & Hi & Hn & (Hw & _) & ->).
    apply (HQ _ (with_tx (set_sg_control c (v_tx v1)) (in_mode Pending v1))); try done.
    apply drv_tx_regs; [done| |by rewrite Hm1]. split; [exact Hw|]. cbn. by rewrite Hn, phys_u32.
Qed.

Lemma drv_txmem acc v s mem :
  v_mode v = Free -> length mem = length (txmem (bd s)) ->
  drv acc v s -> drv acc v (upd_bd (set_txmem mem) s).
Proof.
  intros Hm Hl H. apply (drv_board _ v); [done| |done]. destruct (d_board _ _ _ H) as [[T1 T2 T3 T4 T5] HX].
  split; [|by eapply rx_is_same; [..|exact HX]]. rewrite Hm in *. split; try done. cbn. by rewrite Hl.
Qed.

(** The construction of the descriptor and the note of the key. *)
Lemma wp_arm key pre f tail (k : M st unit) (Q : unit -> st -> Prop) acc v s :
  drv acc v s -> v_mode v = Free -> txmem (bd s) = pre ++ f ++ tail -> length pre = 2%nat ->
  Z.of_nat (length f) + 2 < 65536 ->
  (forall s' v', drv (acc ++ [(u32 key, f)]) v' s' -> v_mode v' = Armed ->
     tx_sgdma (cpd s') = tx_sgdma (cpd s) -> log s' = log s -> wp k Q s') ->
  wp (alt_avalon_sgdma_construct_mem_to_stream_desc TXD TXN TX_BUFFER
        (Z.of_nat (length f) + 2) 0 1 1 0;;
      cpd_set (set_txkey (u32 key));; k) Q s.
Proof.
  intros H Hm Hmem Hp Hl HQ. destruct (d_board _ _ _ H) as [[_ (dn & Hn & _) (d & Hd & _) _ _] _].
  apply wp_bind, (wp_construct _ _ _ _ _ _ _ _ _ _ _ d dn).
  - intros E. by apply TXN_TXD.
  - exact Hd.
  - exact Hn.
  - apply wp_bind, wp_modify, (HQ _ (in_mode Armed v)); try done.
    by apply (drv_armed acc v s key pre f tail dn).
Qed.

(** [tse_send], when the stack sends as it is allowed to. *)
Lemma wp_tse_send pieces total key (Q : unit -> st -> Prop) acc v s :
  drv acc v s -> v_mode v = Free ->
  Z.of_nat (length (flat pieces)) + 2 <= BUFFER_SIZE ->
  (forall s' v', drv (acc ++ [(u32 key, flat pieces)]) v' s' ->
     tse_recvs (log s') = tse_recvs (log s) -> Q tt s') ->
  wp (tse_send pieces total key) Q s.
Proof.
  intros H Hm Hlen HQ.
  assert (2 + length (flat pieces) <= length (txmem (bd s)))%nat as Hmem.
  { pose proof (tb_size _ _ _ _ (proj1 (d_board _ _ _ H))). pose proof cfg_bufs. unfold BUFFER_SIZE in *. lia. }
  unfold tse_send. do 2 (apply wp_bind, wp_modify).
  set (s1 := upd_cpd (set_within_send 1) _).
  assert (drv acc v s1) as H1 by (by repeat (apply drv_cpd; [by intros c []|done|])).
  apply wp_bind, (wp_eq _ _ _ (cpd s1) s1); [done|]. pose proof (d_cpd _ _ _ H1) as Hcpd.
  apply wp_bind, (wp_copy_pieces _ _ _ _ (take 2 (txmem (bd s))) (drop 2 (txmem (bd s)))).
  { apply Hcpd. }
  { by rewrite take_drop. }
  { rewrite length_take. lia. }
  { rewrite length_drop. lia. }
  set (f := flat pieces) in *. set (s2 := upd_bd _ s1).
  assert (drv acc v s2) as H2.
  { apply drv_txmem; try done. rewrite !length_app, !length_drop, length_take.
    change (txmem (bd s1)) with (txmem (bd s)). lia. }
  rewrite (co_tx_desc _ Hcpd), (co_tx_buf _ Hcpd), (co_tx_base _ Hcpd), Z.add_0_l.
  apply (wp_arm _ (take 2 (txmem (bd s))) _ (drop (length f) (drop 2 (txmem (bd s)))) _ _ acc v); try done.
  { rewrite length_take. lia. }
  { unfold BUFFER_SIZE in Hlen. lia. }
  intros s3 v3 H3 Hm3 Ht3 Hl3. change (tx_sgdma (cpd s2)) with (tx_sgdma (cpd s1)) in Ht3.
  set (acc' := acc ++ _) in *.
  apply wp_bind, (wp_tx_write (set_sg_control (u32 0)) _ acc' v3); [done|done|by intros r [He1 He2]; split|].
  intros s4 v4 r4 H4 Hm4 Hr4 _ Hc4 Hl4.
  apply wp_bind, (wp_tx_write (clear_status 255) _ acc' v4); [done|done| |].
  { intros r [He1 He2]. split; [by rewrite clear_status_busy|done]. }
  intros s5 v5 r5 H5 Hm5 Hr5 Hv5 Hc5 Hl5.
  assert (running (v_tx v5) = false) as Hrun.
  { rewrite Hr5. rewrite Hr4 in Hv5. by destruct (Hv5 eq_refl). }
  rewrite <- Ht3, <- Hc4, <- Hc5.
  apply wp_bind, (wp_tx_start _ acc' v5); [done..|]. intros s6 v6 x H6 Hc6 Hl6.
  apply wp_bind, (wp_tse_IOWR _ _ _ acc' v6); [done|]. intros s7 v7 H7 _ Hc7 Hl7.
  apply wp_bind, wp_modify.
  apply (wp_tse_TxDone _ acc' v7); [by apply drv_cpd; [by intros c []|..]|].
  intros s8 v8 H8 _ _ Hl8. apply (HQ s8 v8); [done|]. rewrite Hl8. cbn [log upd_cpd set_cpd].
  by rewrite Hl7, Hl6, Hl5, Hl4, Hl3.
Qed.

End Tx.
