(* ===== verification/TseRx.v ===== *)
(** * Receiving through the triple-speed Ethernet driver *)

From stdpp Require Import relations functions.
From S2P Require Import Prelude.
From S2P Require Import Sgdma.
From S2P Require Import SgdmaFacts.
From S2P Require Import Tse.
From S2P Require Import TseRely.
From S2P Require Import TseTx.

(** The stack either has no buffers or offers buffers of the length it was told. *)
Class TseStackTakes {conf : TseConfig} := {
  tse_takes h n bufs : 0 < n -> eth_drv_recv h n = Some bufs ->
    Forall (fun b => b.1 = false /\ 0 < b.2) bufs /\ foldr Z.add 0 (map snd bufs) = n;
}.

(** The frame in the [i]-th buffer, behind its padding. *)
Definition frame_in (mem : list Z) (i : nat) (k : Z) : list Z :=
  take (Z.to_nat (k - 2)) (drop (i * Z.to_nat BUFFER_SIZE + 2) mem).

(** The frames the driver finds: those of the finished descriptors up to the first
    unfinished one, without the empty ones. *)
Fixpoint found (i : nat) (ds : list alt_sgdma_descriptor) (mem : list Z) : list (list Z) :=
  match ds with
  | [] => []
  | d :: ds' =>
      if control d =? 0 then
        (if 2 <? actual_bytes_transferred d then [frame_in mem i (actual_bytes_transferred d)] else [])
          ++ found (S i) ds' mem
      else []
  end.

(** What the stack sees of a frame: its length, and all of it or nothing. *)
Definition given (f : list Z) (x : Z * option (list Z)) : Prop :=
  x.1 = Z.of_nat (length f) /\ (x.2 = None \/ x.2 = Some f).

(** ** The receive side while the controller does not run *)

(** Buffers and the descriptors from the [k]-th on are untouched. *)
Record rx_keep (k : nat) (v v' : view) : Prop := {
  rk_regs : regs_rely (v_rx v) (v_rx v');
  rk_mem : v_mem v' = v_mem v;
  rk_descs : drop k (v_descs v') = drop k (v_descs v);
}.

#[global] Instance rx_keep_preorder k : PreOrder (rx_keep k).
Proof.
  split; [by intros v; split|]. intros v1 v2 v3 [A1 A2 A3] [B1 B2 B3].
  split; [by eapply regs_rely_trans|congruence..].
Qed.

Lemma rx_keep_rely k v v' : view_rely v v' -> running (v_rx v) = false -> rx_keep k v v'.
Proof. intros [_ _ H3 H4] Hr. destruct (H4 Hr) as [Hd Hm]. by split; [|done|rewrite Hd]. Qed.

Lemma rx_keep_mono k j v v' : (k <= j)%nat -> rx_keep k v v' -> rx_keep j v v'.
Proof.
  intros Hk [H1 H2 H3]. split; [done..|]. replace j with (k + (j - k))%nat by lia.
  by rewrite <- !drop_drop, H3.
Qed.

Lemma rx_keep_halted k v v' : rx_keep k v v' -> running (v_rx v) = false -> running (v_rx v') = false.
Proof. intros [H _ _] Hr. by destruct (H Hr). Qed.

Section Rx.
Context {conf : TseConfig} {errno : Errno} {conf_ok : TseConfigOk} {errno_ok : ErrnoOk}.

Definition with_rx (r : sgdma_regs) (v : view) : view :=
  mkView (v_mode v) (v_tx v) r (v_descs v) (v_mem v).

Definition with_descs (ds : list alt_sgdma_descriptor) (v : view) : view :=
  mkView (v_mode v) (v_tx v) (v_rx v) ds (v_mem v).

Lemma drv_rx_regs acc v s r : drv acc v s -> drv acc (with_rx r v) (put_regs SGDMA_RX_BASE r s).
Proof.
  intros H. apply (drv_board _ v); [done| |done]. destruct (d_board _ _ _ H) as [HT [X1 X2 X3 X4 X5 X6]].
  split.
  - eapply tx_board_same; [|exact HT]. split; try done. cbn. apply lookup_insert_ne, cfg_bases.
  - split; try done. cbn. apply lookup_insert_eq.
Qed.

Definition bytes_in (d : alt_sgdma_descriptor) : Prop := 0 <= actual_bytes_transferred d <= BUFFER_SIZE.

(** A change of some receive descriptors. *)
Lemma drv_rx_descs acc v s m ds :
  drv acc v s ->
  (forall i, 0 <= i < BUFFER_NO -> m !! phys (slot_at i) = ds !! Z.to_nat i) ->
  (forall p, (forall i, 0 <= i < BUFFER_NO -> p <> phys (slot_at i)) -> m !! p = descs (sg (bd s)) !! p) ->
  length ds = length (v_descs v) -> Forall bytes_in ds ->
  drv acc (with_descs ds v) (put_dma (set_descs m (dma_of s)) s).
Proof.
  intros H Hin Hout Hlen Hds. apply (drv_board _ v); [done| |done].
  destruct (d_board _ _ _ H) as [HT [X1 X2 X3 X4 X5 X6]]. split.
  - eapply tx_board_same; [|exact HT]. split; try done; cbn; apply Hout; intros i Hi;
      destruct (slot_TX i Hi); congruence.
  - split; try done. cbn. congruence.
Qed.

(** The descriptors behind a pointer to the [i]-th one. *)
Lemma rx_desc acc v s i :
  drv acc v s -> 0 <= i < BUFFER_NO ->
  exists d, v_descs v !! Z.to_nat i = Some d /\ descs (sg (bd s)) !! phys (slot_at i) = Some d /\
    bytes_in d.
Proof.
  intros H Hi. destruct (d_board _ _ _ H) as [_ [X1 X2 X3 X4 X5 X6]].
  destruct (lookup_lt_is_Some_2 (v_descs v) (Z.to_nat i) ltac:(lia)) as [d Hd]. exists d.
  split; [done|]. split; [by rewrite X2|]. by eapply Forall_lookup_1 in X6.
Qed.

Lemma wp_tse_rx_load f i (Q : Z -> st -> Prop) acc v s :
  drv acc v s -> 0 <= i < BUFFER_NO ->
  (forall s' v' d, drv acc v' s' -> view_rely v v' -> cpd s' = cpd s -> log s' = log s ->
     v_descs v' !! Z.to_nat i = Some d -> Q (f d) s') ->
  wp (desc_load f (slot_at i)) Q s.
Proof.
  intros H Hi HQ. apply wp_bind, (wp_tse_hw _ acc v); [done|]. intros s1 v1 H1 Hv Hc Hl.
  destruct (rx_desc _ _ _ i H1 Hi) as (d & Hd & Hp & _).
  apply wp_bind. unfold desc_at, wp at 1. cbn [dma_of tse_has_dma]. rewrite Hp.
  by apply wp_ret, (HQ s1 v1).
Qed.

Lemma wp_rx_store i g (Q : unit -> st -> Prop) acc v s :
  drv acc v s -> 0 <= i < BUFFER_NO -> (forall d, bytes_in d -> bytes_in (g d)) ->
  (forall s' v', drv acc v' s' -> rx_keep (S (Z.to_nat i)) v v' -> cpd s' = cpd s -> log s' = log s ->
     Q tt s') ->
  wp (desc_store (slot_at i, g)) Q s.
Proof.
  intros H Hi Hg HQ. destruct (rx_desc _ _ _ i H Hi) as (d & Hd & Hp & Hb).
  apply wp_bind. unfold desc_at, wp at 1. cbn [dma_of tse_has_dma fst]. rewrite Hp.
  apply wp_modify. pose proof cfg_bufs as Hno.
  apply (HQ _ (with_descs (<[Z.to_nat i := g d]> (v_descs v)) v)); try done.
  - destruct (d_board _ _ _ H) as [_ [X1 X2 X3 X4 X5 X6]]. apply drv_rx_descs; cbn [fst snd]; try done.
    + intros j Hj. destruct (decide (j = i)) as [->|Hne].
      * by rewrite lookup_insert_eq, list_lookup_insert_eq by lia.
      * rewrite lookup_insert_ne by (intros E; apply Hne; symmetry; apply slot_at_inj; [lia..|done]).
        rewrite list_lookup_insert_ne by lia. by apply X2.
    + intros p Hpo. by rewrite lookup_insert_ne by (intros E; by apply (Hpo i)).
    + by rewrite length_insert.
    + by apply Forall_insert; [|apply Hg].
  - split; try done. cbn. by rewrite drop_insert_lt by lia.
Qed.

(** ** A frame goes up *)

Lemma get_bytes_Some off n mem :
  0 <= off -> 0 <= n -> off + n <= Z.of_nat (length mem) ->
  get_bytes off n mem = Some (take (Z.to_nat n) (drop (Z.to_nat off) mem)).
Proof.
  intros H1 H2 H3. unfold get_bytes. destruct (Z.leb_spec 0 off); [|lia]. destruct (Z.leb_spec 0 n); [|lia].
  by destruct (Z.leb_spec (off + n) (Z.of_nat (length mem))); [|lia].
Qed.

Lemma wp_scatter bufs off (Q : list (list Z) -> st -> Prop) s :
  Forall (fun b => b.1 = false /\ 0 < b.2) bufs -> 0 <= off ->
  off + foldr Z.add 0 (map snd bufs) <= Z.of_nat (length (rxmem (bd s))) ->
  (forall chunks, concat chunks = take (Z.to_nat (foldr Z.add 0 (map snd bufs)))
                                    (drop (Z.to_nat off) (rxmem (bd s))) -> Q chunks s) ->
  wp (scatter_out off bufs) Q s.
Proof.
  revert off Q. induction bufs as [|[null len] bufs IH]; intros off Q Hb Ho Hl HQ.
  { by apply wp_ret, HQ. }
  apply Forall_cons_1 in Hb as [[Hn Hp] Hb]. cbn [fst snd] in Hn, Hp. subst null.
  cbn [map snd foldr] in *.
  assert (0 <= foldr Z.add 0 (map snd bufs)) as Hs.
  { clear -Hb. induction Hb as [|b bufs [_ H] _ IH]; cbn; lia. }
  cbn [scatter_out orb]. destruct (Z.leb_spec len 0); [lia|].
  apply wp_bind, wp_get. rewrite get_bytes_Some by lia.
  apply wp_bind, IH; [done|lia|lia|]. intros chunks Hc. apply wp_ret, HQ. cbn [concat]. rewrite Hc.
  rewrite !Z2Nat.inj_add by lia. by rewrite <- drop_drop, take_take_drop.
Qed.

Context {stack_ok : TseStackTakes}.

Lemma wp_tse_stack_recv k (Q : unit -> st -> Prop) acc v s :
  drv acc v s -> 0 <= rx_current_index (cpd s) < BUFFER_NO -> 2 < k <= BUFFER_SIZE ->
  (forall s' v' x, drv acc v' s' -> rx_keep (S (Z.to_nat (rx_current_index (cpd s)))) v v' ->
     cpd s' = cpd s -> tse_recvs (log s') = tse_recvs (log s) ++ [x] ->
     given (frame_in (v_mem v) (Z.to_nat (rx_current_index (cpd s))) k) x -> Q tt s') ->
  wp (stack_recv (k - 2)) Q s.
Proof.
  intros H Hi Hk HQ. set (i := rx_current_index (cpd s)) in *.
  destruct (d_board _ _ _ H) as [_ [X1 X2 X3 X4 X5 X6]]. pose proof (d_cpd _ _ _ H) as Hcpd.
  assert (i * BUFFER_SIZE + k <= Z.of_nat (length (v_mem v))) as Hin by (rewrite X5; unfold BUFFER_SIZE in *; nia).
  set (f := frame_in (v_mem v) (Z.to_nat i) k).
  assert (length f = Z.to_nat (k - 2)) as Hf.
  { unfold f, frame_in. rewrite length_take, length_drop.
    change (Z.to_nat BUFFER_SIZE) with 1552%nat. unfold BUFFER_SIZE in *. lia. }
  apply wp_bind, (wp_eq _ _ _ (log s) s); [done|].
  destruct (eth_drv_recv (log s) (k - 2)) as [bufs|] eqn:E.
  - destruct (tse_takes (log s) (k - 2) bufs ltac:(lia) E) as [Hb Hsum].
    apply wp_bind, wp_bind, (wp_eq _ _ _ (cpd s) s); [done|].
    rewrite (co_rx_buf _ Hcpd), (co_rx_desc _ Hcpd). fold i.
    apply wp_bind, wp_scatter; [done|unfold BUFFER_SIZE; lia|rewrite Hsum, X4; lia|].
    rewrite Hsum, X4. intros chunks Hch. cbn zeta.
    apply wp_bind, (wp_rx_store _ _ _ acc v); [done|done|done|].
    intros s1 v1 H1 Hv Hc Hl. apply wp_ret. apply wp_modify.
    apply (HQ _ v1 (k - 2, Some (concat chunks))); try done.
    + by apply drv_emit.
    + cbn [log set_log]. by rewrite tse_recvs_app, Hl.
    + fold f. split; cbn [fst snd]; [rewrite Hf; lia|]. right. f_equal. rewrite Hch. unfold f, frame_in.
      do 2 f_equal. change (Z.to_nat BUFFER_SIZE) with 1552%nat. unfold BUFFER_SIZE. lia.
  - apply wp_modify, (HQ _ v (k - 2, None)); try done.
    + by apply drv_emit.
    + cbn [log set_log]. by rewrite tse_recvs_app.
    + fold f. split; [cbn [fst]; lia|by left].
Qed.

(** ** The finished descriptors *)

(** One of them: its frame goes up if it is not empty, its fields are cleared. *)
Lemma wp_deliver_one i d (k : M st unit) (Q : unit -> st -> Prop) acc v s :
  drv acc v s -> running (v_rx v) = false -> rx_current_index (cpd s) = i -> 0 <= i < BUFFER_NO ->
  v_descs v !! Z.to_nat i = Some d ->
  (forall s' v' new, drv acc v' s' -> rx_keep (S (Z.to_nat i)) v v' ->
     rx_current_index (cpd s') = i + 1 ->
     tse_recvs (log s') = tse_recvs (log s) ++ new ->
     Forall2 given (if 2 <? actual_bytes_transferred d
                    then [frame_in (v_mem v) (Z.to_nat i) (actual_bytes_transferred d)] else []) new ->
     wp k Q s') ->
  wp (n ← alt_avalon_sgdma_descpt_bytes_xfered (slot_at i);
      cpd_set (set_bytesReceived (s32 (n - 2)));;
      c ← the_cpd;
      when (0 <? bytesReceived c) (stack_recv (bytesReceived c));;
      desc_store (slot_at i, set_status 0);;
      desc_store (slot_at i, set_actual_bytes_transferred 0);;
      cpd_set (fun c => set_rx_current_index (rx_current_index c + 1) c);;
      k) Q s.
Proof.
  intros H Hrun Hi Hin Hd HQ. destruct (rx_desc _ _ _ i H Hin) as (d' & Hd' & Hp & Hb).
  rewrite Hd in Hd'. injection Hd' as <-. set (n := actual_bytes_transferred d) in *.
  apply wp_bind, wp_bind. unfold desc_at, wp at 1. cbn [dma_of tse_has_dma]. rewrite Hp.
  apply wp_ret. fold n. apply wp_bind, wp_modify. unfold bytes_in, BUFFER_SIZE in Hb. fold n in Hb.
  rewrite s32_id by lia. set (s1 := upd_cpd _ s).
  assert (drv acc v s1) as H1 by (by apply drv_cpd; [by intros c []|..]).
  apply wp_bind, (wp_eq _ _ _ (cpd s1) s1); [done|]. change (bytesReceived (cpd s1)) with (n - 2).
  apply wp_bind. eapply (wp_mono _ (fun _ s2 => exists v2 new, drv acc v2 s2 /\ rx_keep (S (Z.to_nat i)) v v2 /\
    rx_current_index (cpd s2) = i /\ tse_recvs (log s2) = tse_recvs (log s) ++ new /\
    Forall2 given (if 2 <? n then [frame_in (v_mem v) (Z.to_nat i) n] else []) new)).
  { apply wp_when; intros Hpos.
    - apply (wp_tse_stack_recv n _ acc v); [done|cbn; lia|unfold BUFFER_SIZE; lia|].
      intros s2 v2 x H2 Hv Hc Hl Hg. exists v2, [x]. change (rx_current_index (cpd s1)) with (rx_current_index (cpd s)) in *.
      rewrite Hi in *. split; [done|]. split; [done|]. split; [by rewrite Hc|]. split; [done|].
      destruct (Z.ltb_spec 2 n); [|lia]. constructor; [done|constructor].
    - exists v, []. rewrite app_nil_r. destruct (Z.ltb_spec 2 n); [lia|]. done. }
  intros [] s2 (v2 & new & H2 & Hv2 & Hi2 & Hl2 & Hg).
  apply wp_bind, (wp_rx_store _ _ _ acc v2); [done|done|done|]. intros s3 v3 H3 Hv3 Hc3 Hl3.
  apply wp_bind, (wp_rx_store _ _ _ acc v3); [done|done|by unfold bytes_in, BUFFER_SIZE; cbn; lia|].
  intros s4 v4 H4 Hv4 Hc4 Hl4. apply wp_bind, wp_modify, (HQ _ v4 new); try done.
  - by apply drv_cpd; [by intros c []|..].
  - by do 2 (etrans; [eassumption|]).
  - cbn. by rewrite Hc4, Hc3, Hi2.
  - cbn [log upd_cpd set_cpd]. by rewrite Hl4, Hl3.
Qed.

Lemma wp_deliver_loop n (Q : unit -> st -> Prop) acc v s :
  drv acc v s -> running (v_rx v) = false -> 0 <= rx_current_index (cpd s) ->
  rx_current_index (cpd s) + Z.of_nat n = BUFFER_NO ->
  (forall s' v' new, drv acc v' s' -> rx_keep (Z.to_nat BUFFER_NO) v v' ->
     tse_recvs (log s') = tse_recvs (log s) ++ new ->
     Forall2 given (found (Z.to_nat (rx_current_index (cpd s)))
       (drop (Z.to_nat (rx_current_index (cpd s))) (v_descs v)) (v_mem v)) new -> Q tt s') ->
  wp (deliver_loop n DESCRIPTOR_MEMORY_BASE) Q s.
Proof.
  revert v s. induction n as [|n IH]; intros v s H Hrun Hpos Hn HQ.
  { apply wp_ret, (HQ s v []); try done; [by rewrite app_nil_r|].
    destruct (d_board _ _ _ H) as [_ [X1 X2 X3 X4 X5 X6]]. rewrite drop_ge by lia. constructor. }
  cbn [deliver_loop]. apply wp_bind, (wp_eq _ _ _ (cpd s) s); [done|]. cbn zeta.
  set (i := rx_current_index (cpd s)) in *. change (desc_plus DESCRIPTOR_MEMORY_BASE i) with (slot_at i).
  apply wp_bind, (wp_tse_rx_load _ _ _ acc v); [done|lia|]. intros s1 v1 d H1 Hv1 Hc1 Hl1 Hd.
  destruct (vr_halted _ _ Hv1 Hrun) as [Ed Em].
  assert (running (v_rx v1) = false) as Hrun1 by (by destruct (vr_rx _ _ Hv1 Hrun)).
  rewrite <- Ed, <- Em in HQ. erewrite drop_S in HQ by exact Hd. cbn [found] in HQ.
  destruct (control d =? 0) eqn:Ec.
  - eapply wp_deliver_one with (v := v1) (i := i); [done|done|by rewrite Hc1|lia|done|].
    intros s2 v2 new H2 Hv2 Hi2 Hl2 Hg2.
    apply (IH v2); [done|by eapply rx_keep_halted|lia|lia|].
    intros s3 v3 new3 H3 Hv3 Hl3 Hg3. apply (HQ s3 v3 (new ++ new3)); try done.
    + etrans; [by apply rx_keep_rely|]. etrans; [|exact Hv3]. eapply rx_keep_mono; [|exact Hv2]. lia.
    + by rewrite Hl3, Hl2, Hl1, app_assoc.
    + apply Forall2_app; [done|]. rewrite Hi2 in Hg3. replace (Z.to_nat (i + 1)) with (S (Z.to_nat i)) in Hg3 by lia.
      by rewrite (rk_descs _ _ _ Hv2), (rk_mem _ _ _ Hv2) in Hg3.
  - apply wp_modify, (HQ _ v1 []); try done.
    + by apply drv_cpd; [by intros c []|..].
    + by apply rx_keep_rely.
    + cbn [log upd_cpd set_cpd]. by rewrite app_nil_r, Hl1.
Qed.

(** ** The chain of descriptors *)

(** The [j]-th descriptor of the chain, ready to receive into the [j]-th buffer. *)
Definition chain_desc (desc_base : Z) (j : Z) : alt_sgdma_descriptor :=
  constructed (desc_plus (desc_plus desc_base j) 1) 0 (RX_BUFFER + j * BUFFER_SIZE) 0 0 0 0 0.

(** All but the last descriptor are ready and linked; the last one ends the chain. *)
Definition chained (desc_base : Z) (ds : list alt_sgdma_descriptor) : Prop :=
  (forall j, 0 <= j < BUFFER_NO - 1 -> ds !! Z.to_nat j = Some (chain_desc desc_base j)) /\
  (1 < BUFFER_NO -> exists d, ds !! Z.to_nat (BUFFER_NO - 1) = Some d /\ owned d = false).

(** A pointer to the descriptors, cached or not. *)
Definition points (desc_base : Z) : Prop := forall i, phys (desc_plus desc_base i) = phys (slot_at i).

Lemma desc_plus_plus b i j : desc_plus (desc_plus b i) j = desc_plus b (i + j).
Proof. unfold desc_plus. lia. Qed.

Lemma wp_chain_one desc_base j (Q : unit -> st -> Prop) acc v s :
  points desc_base -> drv acc v s -> 0 <= j < BUFFER_NO - 1 ->
  (forall s' dn, drv acc (with_descs (<[Z.to_nat j := chain_desc desc_base j]>
       (<[Z.to_nat (j + 1) := dn]> (v_descs v))) v) s' -> owned dn = false ->
     cpd s' = cpd s -> log s' = log s -> Q tt s') ->
  wp (alt_avalon_sgdma_construct_stream_to_mem_desc (desc_plus desc_base j)
        (desc_plus (desc_plus desc_base j) 1) (RX_BUFFER + j * BUFFER_SIZE) 0 0) Q s.
Proof.
  intros Hpt H Hj HQ. pose proof cfg_bufs as Hno.
  destruct (rx_desc _ _ _ j H ltac:(lia)) as (d & Hd & Hp & _).
  destruct (rx_desc _ _ _ (j + 1) H ltac:(lia)) as (dn & Hdn & Hpn & Hbn).
  assert (phys (desc_plus (desc_plus desc_base j) 1) = phys (slot_at (j + 1))) as En
    by (by rewrite desc_plus_plus).
  assert (phys (slot_at j) <> phys (slot_at (j + 1))) as Hne.
  { intros E. apply slot_at_inj in E; lia. }
  apply (wp_construct _ _ _ _ _ _ _ _ _ _ _ d dn); rewrite ?Hpt, ?En; [done..|].
  destruct (d_board _ _ _ H) as [_ [X1 X2 X3 X4 X5 X6]].
  eapply (HQ _ (set_control (Z.land (control dn)
    (Z.lnot ALTERA_AVALON_SGDMA_DESCRIPTOR_CONTROL_OWNED_BY_HW_MSK)) dn)); [|apply disown_bit|done..].
  apply drv_rx_descs; try done.
  - intros k Hk. destruct (decide (k = j)) as [->|Hkj].
    { rewrite lookup_insert_eq, list_lookup_insert_eq; [done|]. rewrite length_insert. lia. }
    rewrite lookup_insert_ne by (intros E; apply slot_at_inj in E; lia).
    rewrite list_lookup_insert_ne by lia. destruct (decide (k = j + 1)) as [->|Hkn].
    { by rewrite lookup_insert_eq, list_lookup_insert_eq by lia. }
    rewrite lookup_insert_ne by (intros E; apply slot_at_inj in E; lia).
    rewrite list_lookup_insert_ne by lia. by apply X2.
  - intros p Hpo. rewrite !lookup_insert_ne; [done|..].
    + intros <-. apply (Hpo (j + 1)); [lia|done].
    + intros <-. apply (Hpo j); [lia|done].
  - by rewrite !length_insert.
  - apply Forall_insert; [by apply Forall_insert|]. unfold bytes_in, BUFFER_SIZE. cbn. lia.
Qed.

Lemma wp_chain_from n a desc_base (Q : unit -> st -> Prop) acc v s :
  points desc_base -> drv acc v s -> 0 <= a -> a + Z.of_nat n < BUFFER_NO ->
  (forall s' ds, drv acc (with_descs ds v) s' -> cpd s' = cpd s -> log s' = log s ->
     (forall j, 0 <= j -> j < a \/ n = 0%nat -> ds !! Z.to_nat j = v_descs v !! Z.to_nat j) ->
     (forall j, a <= j < a + Z.of_nat n -> ds !! Z.to_nat j = Some (chain_desc desc_base j)) ->
     (n <> 0%nat -> exists d, ds !! Z.to_nat (a + Z.of_nat n) = Some d /\ owned d = false) -> Q tt s') ->
  wp (for_range n a (fun i =>
        alt_avalon_sgdma_construct_stream_to_mem_desc (desc_plus desc_base i)
          (desc_plus (desc_plus desc_base i) 1) (RX_BUFFER + i * BUFFER_SIZE) 0 0)) Q s.
Proof.
  intros Hpt. revert a v s. induction n as [|n IH]; intros a v s H Ha Hn HQ; cbn [for_range].
  { apply wp_ret, (HQ s (v_descs v)); try done; [by destruct v|]. intros j Hj. lia. }
  apply wp_bind, (wp_chain_one _ _ _ acc v); [done|done|lia|]. intros s1 dn H1 Ho Hc1 Hl1.
  destruct (d_board _ _ _ H) as [_ [X1 X2 X3 X4 X5 X6]]. pose proof cfg_bufs as Hno.
  eapply IH; [exact H1|lia|lia|]. cbn [v_descs with_descs]. intros s2 ds H2 Hc2 Hl2 Hlow Hin Hend.
  apply (HQ s2 ds); [done|congruence|congruence|..].
  - intros j Hj [Hja|]; [|done]. rewrite Hlow by lia. by rewrite !list_lookup_insert_ne by lia.
  - intros j Hj. destruct (decide (j = a)) as [->|Hne]; [|apply Hin; lia].
    rewrite Hlow by lia. rewrite list_lookup_insert_eq; [done|]. rewrite length_insert. lia.
  - intros _. replace (a + Z.of_nat (S n)) with (a + 1 + Z.of_nat n) by lia.
    destruct (decide (n = 0%nat)) as [->|Hn0]; [|by apply Hend].
    exists dn. split; [|done]. rewrite Z.add_0_r, Hlow by auto with lia.
    rewrite list_lookup_insert_ne, list_lookup_insert_eq by lia. done.
Qed.

Lemma wp_build_chain desc_base (Q : unit -> st -> Prop) acc v s :
  points desc_base -> drv acc v s ->
  (forall s' ds, drv acc (with_descs ds v) s' -> cpd s' = cpd s -> log s' = log s ->
     chained desc_base ds -> Q tt s') ->
  wp (build_chain desc_base RX_BUFFER) Q s.
Proof.
  intros Hpt H HQ. pose proof cfg_bufs. apply (wp_chain_from _ _ _ _ acc v); [done|done|lia|lia|].
  intros s' ds H' Hc Hl _ Hin Hend. apply (HQ s' ds); try done. rewrite Z2Nat.id in * by lia. split.
  - intros j Hj. apply Hin. lia.
  - intros Hno. apply Hend. lia.
Qed.

(** ** The registers of the receive controller *)

Lemma wp_rx_read f (Q : Z -> st -> Prop) acc v s :
  drv acc v s ->
  (forall s' v', drv acc v' s' -> view_rely v v' -> cpd s' = cpd s -> log s' = log s -> Q (f (v_rx v')) s') ->
  wp (sg_read f SGDMA_RX_BASE) Q s.
Proof.
  intros H HQ. apply wp_bind, (wp_tse_hw _ acc v); [done|]. intros s1 v1 H1 Hv Hc Hl.
  apply wp_bind. unfold sg_regs_at, wp at 1. cbn [dma_of tse_has_dma].
  rewrite (xi_ctl _ _ _ _ (proj2 (d_board _ _ _ H1))). by apply wp_ret, (HQ s1 v1).
Qed.

Lemma wp_rx_write (g : sgdma_regs -> sgdma_regs) (Q : unit -> st -> Prop) acc v s :
  drv acc v s ->
  (forall s' v1, drv acc (with_rx (g (v_rx v1)) v1) s' -> view_rely v v1 ->
     cpd s' = cpd s -> log s' = log s -> Q tt s') ->
  wp (bus_cycle;; r ← sg_regs_at SGDMA_RX_BASE; sg_regs_put SGDMA_RX_BASE (g r)) Q s.
Proof.
  intros H HQ. apply wp_bind, (wp_tse_hw _ acc v); [done|]. intros s1 v1 H1 Hv Hc Hl.
  apply wp_bind. unfold sg_regs_at, wp at 1. cbn [dma_of tse_has_dma].
  rewrite (xi_ctl _ _ _ _ (proj2 (d_board _ _ _ H1))).
  apply wp_modify, (HQ _ v1); try done. by apply drv_rx_regs.
Qed.

(** After the interrupt routine the receive controller does not run. *)
Lemma wp_tse_rxd_isr (Q : Z -> st -> Prop) acc v s :
  drv acc v s ->
  (forall s' v' x, drv acc v' s' -> running (v_rx v') = false ->
     tse_recvs (log s') = tse_recvs (log s) -> Q x s') ->
  wp tse_rxd_isr Q s.
Proof.
  intros H HQ. unfold tse_rxd_isr. apply wp_bind, (wp_eq _ _ _ (cpd s) s); [done|].
  pose proof (d_cpd _ _ _ H) as Hcpd. unfold alt_avalon_sgdma_get_control, alt_avalon_sgdma_set_control.
  rewrite (co_rx_base _ Hcpd).
  apply wp_bind, (wp_rx_read _ _ acc v); [done|]. intros s1 v1 H1 _ Hc1 Hl1.
  apply wp_bind, (wp_rx_write (set_sg_control _) _ acc v1); [done|]. intros s2 v2 H2 _ Hc2 Hl2.
  apply wp_bind. eapply (wp_rx_write (set_sg_control _)); [exact H2|]. intros s3 v3 H3 _ Hc3 Hl3.
  apply wp_bind, wp_modify, wp_bind, wp_modify, wp_ret. eapply HQ.
  - do 2 (apply drv_emit; [done|]). exact H3.
  - done.
  - cbn [log set_log]. rewrite !tse_recvs_app, Hl3, Hl2, Hl1. cbn. by rewrite !app_nil_r.
Qed.

(** The start of the receive controller on the chain. *)
Definition receiving (desc_base : Z) (c : tse_priv_data) (v : view) : Prop :=
  running (v_rx v) = true /\ phys (sg_next (v_rx v)) = phys (slot_at 0) /\
  start_word (rx_sgdma c) (sg_control (v_rx v)) /\ chained desc_base (v_descs v).

Lemma wp_rx_start desc_base (Q : Z -> st -> Prop) acc v s :
  points desc_base -> drv acc v s -> running (v_rx v) = false -> chained desc_base (v_descs v) ->
  (forall s' v' x, drv acc v' s' -> cpd s' = cpd s -> log s' = log s ->
     (busy (sg_status (v_rx v)) = false -> receiving desc_base (cpd s) v') -> Q x s') ->
  wp (alt_avalon_sgdma_do_async_transfer (rx_sgdma (cpd s)) desc_base) Q s.
Proof.
  intros Hpt H Hrun Hch HQ.
  apply (wp_async_transfer (fun r s' => exists v', drv acc v' s' /\ v_rx v' = r /\
    v_descs v' = v_descs v /\ cpd s' = cpd s /\ log s' = log s) SGDMA_RX_BASE) with (v_rx v).
  - intros r s1 (v1 & H1 & <- & _). apply (d_board _ _ _ H1).
  - intros r s1 (v1 & H1 & <- & Hd1 & Hc1 & Hl1) Hr1. apply (wp_tse_hw _ acc v1); [done|].
    intros s2 v2 H2 Hv Hc2 Hl2. exists (v_rx v2). split; [|by apply Hv]. exists v2.
    destruct (vr_halted _ _ Hv Hr1). split; [done|]. split; [done|]. split; [|split]; congruence.
  - intros r r' s1 (v1 & H1 & _ & Hd1 & Hc1 & Hl1) _. exists (with_rx r' v1).
    split; [by apply drv_rx_regs|done].
  - apply (d_cpd _ _ _ H).
  - by exists v.
  - done.
  - intros s' r' Hb (v' & H' & _ & _ & Hc & Hl) _ _. by apply (HQ s' v').
  - intros s' (r & c & s1 & (v1 & H1 & <- & Hd1 & Hc1 & Hl1) & Hi & Hn & Hw & ->).
    apply (HQ _ (with_rx (set_sg_control c (v_rx v1)) v1)); try done; [by apply drv_rx_regs|].
    intros _. split; [apply Hw|]. split; [|split; [done|by cbn; rewrite Hd1]].
    cbn. rewrite Hn, phys_u32. specialize (Hpt 0). by rewrite <- Hpt; unfold desc_plus; rewrite Z.mul_0_l, Z.add_0_r.
Qed.

(** ** The whole of [tse_deliver] *)

(** Its second half: reset, new chain, start. *)
Definition rearm (c : tse_priv_data) (desc_base : Z) : M st unit :=
  IOWR_CONTROL (base (rx_sgdma c)) (Z.lor ALTERA_AVALON_SGDMA_CONTROL_SOFTWARERESET_MSK
                                      ALTERA_AVALON_SGDMA_CONTROL_CLEAR_INTERRUPT_MSK);;
  IOWR_CONTROL (base (rx_sgdma c)) 0;;
  IOWR_STATUS (base (rx_sgdma c)) 255;;
  build_chain desc_base (rx_buffer c);;
  cpd_set (fun c => set_rx_sgdma (set_chain_control 26 (rx_sgdma c)) c);;
  c ← the_cpd;
  stat ← IORD_STATUS (base (rx_sgdma c));
  when (ctrue (Z.land stat ALTERA_AVALON_SGDMA_STATUS_CHAIN_COMPLETED_MSK) || negb (busy stat))
    (_ ← alt_avalon_sgdma_do_async_transfer (rx_sgdma c) desc_base; mret tt);;
  emit (Irq (IntUnmask (irq (rx_sgdma c)))).

Lemma chain_control_ok c : cpd_ok c -> cpd_ok (set_rx_sgdma (set_chain_control 26 (rx_sgdma c)) c).
Proof. by intros []. Qed.

Lemma wp_rearm c (Q : unit -> st -> Prop) acc v s :
  points DESCRIPTOR_MEMORY_BASE -> cpd_ok c -> drv acc v s -> running (v_rx v) = false ->
  (forall s' v', drv acc v' s' -> tse_recvs (log s') = tse_recvs (log s) ->
     (busy (sg_status (v_rx v)) = false -> receiving DESCRIPTOR_MEMORY_BASE (cpd s') v') -> Q tt s') ->
  wp (rearm c DESCRIPTOR_MEMORY_BASE) Q s.
Proof.
  intros Hpt Hcpd H Hrun HQ. unfold rearm. rewrite (co_rx_base _ Hcpd), (co_rx_buf _ Hcpd).
  apply wp_bind, (wp_rx_write (set_sg_control _) _ acc v); [done|]. intros s1 v1 H1 Hv1 _ Hl1.
  apply wp_bind. eapply (wp_rx_write (set_sg_control _)); [exact H1|]. intros s2 v2 H2 Hv2 _ Hl2.
  apply wp_bind. eapply (wp_rx_write (clear_status 255)); [exact H2|]. intros s3 v3 H3 Hv3 _ Hl3.
  assert (running (v_rx v3) = false /\ (busy (sg_status (v_rx v)) = false -> busy (sg_status (v_rx v3)) = false))
    as [Hr3 Hb3].
  { destruct (vr_rx _ _ Hv1 Hrun) as (_ & _ & B1). destruct (vr_rx _ _ Hv2 eq_refl) as (_ & _ & B2).
    destruct (vr_rx _ _ Hv3 eq_refl) as (R3 & _ & B3). split; [done|]. cbn in *. auto. }
  apply wp_bind, (wp_build_chain _ _ _ _ _ Hpt H3). intros s4 ds H4 _ Hl4 Hch.
  apply wp_bind, wp_modify. set (s5 := upd_cpd _ s4).
  assert (drv acc (with_descs ds (with_rx (clear_status 255 (v_rx v3)) v3)) s5) as H5
    by (apply drv_cpd; [apply chain_control_ok|done|done]).
  apply wp_bind, (wp_eq _ _ _ (cpd s5) s5); [done|].
  rewrite (co_rx_base _ (d_cpd _ _ _ H5)).
  apply wp_bind. eapply (wp_rx_read sg_status); [exact H5|]. intros s6 v6 H6 Hv6 Hc6 Hl6.
  assert (running (v_rx v6) = false /\ (busy (sg_status (v_rx v)) = false -> busy (sg_status (v_rx v6)) = false))
    as [Hr6 Hb6].
  { destruct (vr_rx _ _ Hv6 Hr3) as (R6 & _ & B6). split; [done|]. intros E. apply B6.
    change (busy (sg_status (clear_status 255 (v_rx v3))) = false). rewrite clear_status_busy. auto. }
  destruct (vr_halted _ _ Hv6 Hr3) as [Ed _]. cbn in Ed. rewrite <- Hc6.
  apply wp_bind. eapply (wp_mono _ (fun _ s7 => exists v7, drv acc v7 s7 /\ cpd s7 = cpd s6 /\ log s7 = log s6 /\
    (busy (sg_status (v_rx v)) = false -> receiving DESCRIPTOR_MEMORY_BASE (cpd s6) v7))).
  { apply wp_when; intros Ew.
    - apply wp_bind, (wp_rx_start _ _ acc v6 _ Hpt H6 Hr6); [by rewrite Ed|].
      intros s7 v7 x H7 Hc7 Hl7 Hrecv. apply wp_ret. exists v7.
      split; [done|]. split; [done|]. split; [done|]. intros E. by apply Hrecv, Hb6.
    - exists v6. split; [done|]. split; [done|]. split; [done|]. intros E. exfalso.
      rewrite (Hb6 E) in Ew. by rewrite orb_true_r in Ew. }
  intros [] s7 (v7 & H7 & Hc7 & Hl7 & Hrecv). apply wp_modify, (HQ _ v7).
  - by apply drv_emit.
  - cbn [log set_log]. rewrite tse_recvs_app, Hl7, Hl6. cbn. by rewrite app_nil_r, Hl4, Hl3, Hl2, Hl1.
  - cbn [cpd set_log]. by rewrite Hc7.
Qed.

Lemma wp_tse_deliver (Q : unit -> st -> Prop) acc v s :
  drv acc v s -> running (v_rx v) = false ->
  (forall s' v' new, drv acc v' s' -> tse_recvs (log s') = tse_recvs (log s) ++ new ->
     Forall2 given (found 0 (v_descs v) (v_mem v)) new ->
     (busy (sg_status (v_rx v)) = false -> receiving DESCRIPTOR_MEMORY_BASE (cpd s') v') -> Q tt s') ->
  wp tse_deliver Q s.
Proof.
  intros H Hrun HQ. unfold tse_deliver. apply wp_bind, (wp_eq _ _ _ (cpd s) s); [done|].
  pose proof (d_cpd _ _ _ H) as Hcpd. cbn zeta. rewrite (co_rx_desc _ Hcpd), (co_rx_base _ Hcpd).
  apply wp_bind, (wp_rx_read _ _ acc v); [done|]. intros s1 v1 H1 Hv1 Hc1 Hl1.
  apply wp_bind, (wp_tse_TxDone _ acc v1); [done|]. intros s2 v2 H2 Hv2 Hc2 Hl2.
  apply wp_bind, wp_modify. set (s3 := upd_cpd _ s2).
  assert (drv acc v2 s3) as H3 by (by apply drv_cpd; [by intros c []|..]).
  assert (view_rely v v2) as Hv by (by etrans). destruct (vr_halted _ _ Hv Hrun) as [Ed Em].
  destruct (vr_rx _ _ Hv Hrun) as (Hr2 & _ & Hb2). pose proof cfg_bufs.
  apply wp_bind, (wp_deliver_loop _ _ acc v2); [done|done|cbn; lia|cbn; lia|].
  intros s4 v4 new H4 Hv4 Hl4 Hg. destruct (rk_regs _ _ _ Hv4 Hr2) as (Hr4 & _ & Hb4).
  rewrite <- (co_rx_base _ Hcpd). apply (wp_rearm (cpd s) _ acc v4); [by intros i|done|done|done|].
  intros s5 v5 H5 Hl5 Hrecv. apply (HQ s5 v5 new); try done.
  - rewrite Hl5, Hl4. cbn [log upd_cpd set_cpd s3]. by rewrite Hl2, Hl1.
  - by rewrite <- Ed, <- Em.
  - auto.
Qed.

End Rx.
