(* ===== verification/TseProps.v ===== *)
(** * The triple-speed Ethernet driver: theorems

    For every sequence of calls of the stack and every behaviour of the hardware
    that respects [hw_step]: accepted frames go out in order and unchanged, keys
    are reported only for frames that are out; an interrupt passes up the frames
    of the finished descriptors, in order, and arms the chain again. *)

From stdpp Require Import relations functions.
From S2P Require Import Prelude.
From S2P Require Import Sgdma.
From S2P Require Import SgdmaFacts.
From S2P Require Import Tse.
From S2P Require Import TsePhy.
From S2P Require Import TseRely.
From S2P Require Import TseTx.
From S2P Require Import TseRx.

(** * A board with a triple-speed Ethernet controller

    A configuration, a start state and a transmit controller that does what
    [hw_step] allows: examples of the hypotheses of the theorems. *)

#[export] Instance sim_conf : TseConfig := {
  SGDMA_RX_BASE := 4096;
  SGDMA_RX_IRQ := 2;
  SGDMA_TX_BASE := 8192;
  SGDMA_TX_IRQ := 3;
  DESCRIPTOR_MEMORY_BASE := 16384;
  RX_BUFFER := 65536;
  TX_BUFFER := 131072;
  BUFFER_NO := 3;
  TSE_MAC_TRANSMIT_FIFO_DEPTH := 2048;
  TSE_MAC_RECEIVE_FIFO_DEPTH := 2048;
  TSE_MAC_USE_MDIO := 1;
  TSE_MAC_ENABLE_MACLITE := 0;
  TSE_MAC_MACLITE_GIGE := 0;
  eth_drv_recv _ n := Some [(false, n)];
}.

#[export] Instance sim_conf_ok : TseConfigOk.
Proof. by split; vm_compute. Qed.

#[export] Instance sim_errno : Errno := { EBUSY := 16; EIO := 5; EINPROGRESS := 236 }.

#[export] Instance sim_errno_ok : ErrnoOk.
Proof. by split. Qed.

#[export] Instance sim_stack : TseStackTakes.
Proof. split. intros h n bufs Hn [= <-]. split; [by repeat constructor|cbn; lia]. Qed.

Definition zero_desc : alt_sgdma_descriptor := mkDesc 0 0 0 0 0 0 0 0 0 0 0 0.

(** A received frame of three bytes in the first buffer; nothing in the second. *)
Definition done_desc : alt_sgdma_descriptor := mkDesc 0 0 0 0 0 0 0 0 0 5 128 0.
Definition open_desc : alt_sgdma_descriptor := mkDesc 0 0 0 0 0 0 0 0 0 0 0 128.

Definition sim_descs (ds : list alt_sgdma_descriptor) : gmap Z alt_sgdma_descriptor :=
  list_to_map (zip (map (fun i => 16384 + 32 * i) (seqZ 0 32)) (ds ++ replicate 32 zero_desc)).

Definition idle_regs : sgdma_regs := mkSgRegs 0 0 0.

Definition sim_board (ds : list alt_sgdma_descriptor) (rx : list Z) : board :=
  mkBoard (mkDma {[ 4096 := idle_regs; 8192 := idle_regs ]} (sim_descs ds)) (fun _ => 0)
    (replicate (Z.to_nat 4656) 0) (rx ++ replicate (Z.to_nat 4656 - length rx) 0) [] [].

Definition sim_cpd : tse_priv_data :=
  mkTse 65536 131072 0 0 [2; 0; 0; 0; 0; 1] None 0
    (mkSgDev 8192 3 None None (16384 + 96) None 0 0)
    (mkSgDev 4096 2 (Some TseRxdIsr) (Some EthDrvDsr) 16384 None 0 0) 0 0 1.

Definition sim_st (ds : list alt_sgdma_descriptor) (rx : list Z) (e : list (board -> board)) : st :=
  mkSt sim_cpd (sim_board ds rx) e [].

(** The transmit controller processes the descriptor it runs on. *)
Definition tx_go (b : board) : board :=
  match ctl (sg b) !! SGDMA_TX_BASE with
  | Some r =>
      if running r && (phys (sg_next r) =? phys TXD) then
        match descs (sg b) !! phys TXD with
        | Some d =>
            if owned d then
              match get_bytes (read_addr d - TX_BUFFER) (bytes_to_transfer d) (txmem b) with
              | Some bytes =>
                  set_wire (wire b ++ [bytes])
                    (with_desc (sg_next r)
                      (set_control 5 (set_status 0 (set_actual_bytes_transferred (bytes_to_transfer d) d)))
                      (with_regs SGDMA_TX_BASE (set_sg_next (next d) (set_sg_status 0 r)) b))
              | None => b
              end
            else b
        | None => b
        end
      else b
  | None => b
  end.

Lemma tx_go_respects : respects tx_go.
Proof.
  intros b. unfold tx_go.
  destruct (ctl (sg b) !! SGDMA_TX_BASE) as [r|] eqn:Er; [|done].
  destruct (running r && (phys (sg_next r) =? phys TXD)) eqn:Ec; [|done].
  apply andb_true_iff in Ec as [Hrun Hn%Z.eqb_eq].
  destruct (descs (sg b) !! phys TXD) as [d|] eqn:Ed; [|done].
  destruct (owned d) eqn:Eo; [|done].
  destruct (get_bytes _ _ _) as [bytes|] eqn:Eg; [|done].
  apply rtc_once. split.
  - eapply (tx_done b _ r d bytes 0 5 0 (bytes_to_transfer d)); try done.
    split; [done|]. split; [by rewrite Hn|done].
  - intros x ds mem Hx. exists x, ds, mem. split; [|done].
    eapply rx_is_same; [..|exact Hx]; unfold with_desc, with_regs; cbn [sg set_wire set_sg set_descs set_ctl ctl descs rxmem].
    + by rewrite lookup_insert_ne.
    + intros i Hi. destruct (slot_TX i Hi). by rewrite Hn, lookup_insert_ne.
    + done.
Qed.

(** The start state satisfies the invariant of the driver. *)
Lemma sim_drv e :
  Forall respects e ->
  drv [] (mkView Free idle_regs idle_regs [done_desc; open_desc; zero_desc]
            (rxmem (sim_board [] [0; 0; 7; 8; 9])))
    (sim_st [done_desc; open_desc] [0; 0; 7; 8; 9] e).
Proof.
  intros He. split; [by split|done|split|by exists [], []].
  - split; [done|exists zero_desc; done|exists zero_desc; done|done|by vm_compute].
  - split; [done| |done|done|by vm_compute|repeat constructor; by vm_compute].
    intros i Hi. cbn in Hi. assert (i = 0 \/ i = 1 \/ i = 2) as [-> | [-> | ->]] by lia; done.
Qed.

(** * The theorems *)

(** ** Sequences of calls *)

(** The list of functions of a call is what the hardware does at its accesses;
    [TseIdle] is what it does between calls. *)
Inductive tse_call :=
| TseSend (pieces : list (option (list Z))) (key : Z) (e : list (board -> board))
| TseInterrupt (e : list (board -> board))
| TseControl (r : request) (e : list (board -> board))
| TseStop (e : list (board -> board))
| TseIdle (f : board -> board).

Section Run.
Context {conf : TseConfig} {errno : Errno}.

(** The result is the frames the driver accepted, with their keys. *)
Definition tse_exec (c : tse_call) : M st (list entry) :=
  match c with
  | TseSend pieces key e =>
      modify (set_env e);;
      b ← tse_can_send;
      if b =? 1 then
        tse_send pieces (Z.of_nat (length (flat pieces))) key;;
        mret [(u32 key, flat pieces)]
      else mret []
  | TseInterrupt e => modify (set_env e);; _ ← tse_rxd_isr; tse_deliver;; mret []
  | TseControl r e => modify (set_env e);; _ ← tse_control r; mret []
  | TseStop e => modify (set_env e);; tse_stop;; mret []
  | TseIdle f => modify (set_env [f]);; hw;; mret []
  end.

Fixpoint tse_run (calls : list tse_call) : M st (list entry) :=
  match calls with
  | [] => mret []
  | c :: calls' => a ← tse_exec c; a' ← tse_run calls'; mret (a ++ a')
  end.

(** The stack's part: frames fit in a buffer, an address has six octets, and the
    hardware behaves. *)
Definition tse_call_ok (c : tse_call) : Prop :=
  match c with
  | TseSend pieces key e => Z.of_nat (length (flat pieces)) + 2 <= BUFFER_SIZE /\ Forall respects e
  | TseControl (ETH_DRV_SET_MAC_ADDRESS data) e => (6 <= length data)%nat /\ Forall respects e
  | TseControl _ e | TseInterrupt e | TseStop e => Forall respects e
  | TseIdle f => respects f
  end.

Context {conf_ok : TseConfigOk} {errno_ok : ErrnoOk} {stack_ok : TseStackTakes}.

Lemma drv_set_env acc v s e : Forall respects e -> drv acc v s -> drv acc v (set_env e s).
Proof. intros He [H1 H2 H3 H4]. by split. Qed.

(** Operations that have nothing to do with frames. *)
Class TseKeeps {A} (m : M st A) :=
  keeps_wp : forall acc v s, drv acc v s -> wp m (fun _ s' => exists v', drv acc v' s') s.

#[local] Instance TseKeeps_ret {A} (a : A) : TseKeeps (mret a : M st A).
Proof. intros acc v s H. apply wp_ret. by exists v. Qed.

#[local] Instance TseKeeps_bind {A B} (m : M st A) (f : A -> M st B) :
  TseKeeps m -> (forall a, TseKeeps (f a)) -> TseKeeps (m ≫= f).
Proof.
  intros Hm Hf acc v s H. apply wp_bind. eapply wp_mono; [by eapply Hm|]. intros a s' (v' & H').
  by eapply Hf.
Qed.

#[local] Instance TseKeeps_when b (m : M st unit) : TseKeeps m -> TseKeeps (when b m).
Proof. intros Hm. destruct b; [done|apply _]. Qed.

#[local] Instance TseKeeps_gets {A} (f : st -> A) : TseKeeps (gets f).
Proof. intros acc v s H. apply (wp_eq _ _ _ (f s) s); [done|by exists v]. Qed.

#[local] Instance TseKeeps_hw : TseKeeps hw.
Proof. intros acc v s H. apply (wp_tse_hw _ acc v); [done|]. intros s' v' H' _ _ _. by exists v'. Qed.

#[local] Instance TseKeeps_IOWR r x : TseKeeps (IOWR r x).
Proof. intros acc v s H. apply (wp_tse_IOWR _ _ _ acc v); [done|]. intros s' v' H' _ _ _. by exists v'. Qed.

#[local] Instance TseKeeps_for n a body : (forall i, TseKeeps (body i)) -> TseKeeps (for_range n a body).
Proof. intros Hb. revert a. induction n as [|n IH]; intros a; cbn [for_range]; apply _. Qed.

#[local] Instance TseKeeps_table l : TseKeeps (tse_set_hash_table l).
Proof. induction l as [|a l IH]; cbn [tse_set_hash_table]; apply _. Qed.

#[local] Instance TseKeeps_irq o : TseKeeps (emit (Irq o)).
Proof. intros acc v s H. apply wp_modify. exists v. by apply drv_emit. Qed.

Lemma keeps_control r : match r with ETH_DRV_SET_MAC_ADDRESS data => (6 <= length data)%nat | _ => True end ->
  TseKeeps (tse_control r).
Proof.
  intros Hr. destruct r as [data|l| |]; cbn [tse_control]; try apply _.
  destruct (Nat.ltb_spec (length data) 6); [lia|].
  apply TseKeeps_bind; [|intros []; unfold the_cpd; apply _].
  intros acc v s H1. apply wp_modify. exists v. by apply drv_cpd; [by intros c []|..].
Qed.

(** Stopping forgets the key of the last frame. *)
#[local] Instance TseKeeps_stop : TseKeeps tse_stop.
Proof.
  unfold tse_stop, the_cpd, IORD. apply TseKeeps_bind; [apply _|]. intros c.
  apply TseKeeps_bind; [apply _|]. intros _. apply TseKeeps_bind; [apply _|]. intros _.
  apply TseKeeps_bind; [|intros _; apply _].
  intros acc v s [H1 H2 H3 H4]. apply wp_modify. exists v. split; try done; [by destruct H1|].
  destruct H4 as (old & last & Ha & Hs & _ & Hm). by exists old, last.
Qed.

Lemma wp_tse_exec c (Q : list entry -> st -> Prop) acc v s :
  drv acc v s -> tse_call_ok c ->
  (forall a s' v', drv (acc ++ a) v' s' -> Q a s') -> wp (tse_exec c) Q s.
Proof.
  intros H Hc HQ.
  assert (forall A (m : M st A) e, TseKeeps m -> Forall respects e ->
    wp (modify (set_env e);; _ ← m; mret []) Q s) as Hkeep.
  { intros A m e Hm He. apply wp_bind, wp_modify, wp_bind.
    eapply wp_mono; [by eapply Hm, drv_set_env|]. intros a s1 (v1 & H1).
    apply wp_ret, (HQ [] s1 v1). by rewrite app_nil_r. }
  destruct c as [pieces key e|e|r e|e|f]; cbn [tse_exec tse_call_ok] in *.
  - destruct Hc as [Hl He]. apply wp_bind, wp_modify.
    apply wp_bind, (wp_tse_can_send _ acc v); [by apply drv_set_env|]. intros s1 v1 x H1 _ _ _ Hf.
    destruct (Z.eqb_spec x 1) as [E|E].
    + apply wp_bind, (wp_tse_send _ _ _ _ acc v1); [done|by apply Hf|done|]. intros s2 v2 H2 _.
      by apply wp_ret, (HQ _ s2 v2).
    + apply wp_ret, (HQ [] s1 v1). by rewrite app_nil_r.
  - apply wp_bind, wp_modify, wp_bind, (wp_tse_rxd_isr _ acc v); [by apply drv_set_env|].
    intros s1 v1 x H1 Hr _. apply wp_bind, (wp_tse_deliver _ acc v1); [done|done|].
    intros s2 v2 new H2 _ _ _. apply wp_ret, (HQ [] s2 v2). by rewrite app_nil_r.
  - apply Hkeep; [apply keeps_control|]; destruct r; tauto.
  - apply Hkeep; [apply _|done].
  - apply Hkeep; [apply _|]. by repeat constructor.
Qed.

Lemma wp_tse_run calls (Q : list entry -> st -> Prop) acc v s :
  drv acc v s -> Forall tse_call_ok calls ->
  (forall a s' v', drv (acc ++ a) v' s' -> Q a s') -> wp (tse_run calls) Q s.
Proof.
  intros H Hc. revert Q acc v s H. induction Hc as [|c calls Hc Hcs IH]; intros Q acc v s H HQ; cbn [tse_run].
  { apply wp_ret, (HQ [] s v). by rewrite app_nil_r. }
  apply wp_bind, (wp_tse_exec _ _ acc v); [done|done|]. intros a s1 v1 H1.
  apply wp_bind. eapply IH; [exact H1|]. intros a' s2 v2 H2. apply wp_ret, (HQ _ s2 v2).
  by rewrite app_assoc.
Qed.

(** What the invariant says of the wire and the reports. *)
Lemma drv_sent acc v s :
  drv acc v s ->
  (exists waiting, payloads (wire (bd s)) ++ waiting = map snd acc /\ (length waiting <= 1)%nat) /\
  tse_dones (log s) `sublist_of` map fst (take (length (wire (bd s))) acc).
Proof.
  intros [_ _ [[_ _ (d & _ & _ & Hc) _ _] _] (old & last & Ha & Hs & _ & Hl)].
  destruct (v_mode v) eqn:Em; cbn [carries] in Hc.
  { split; [exists []; by rewrite app_nil_r; split; [|cbn; lia]|].
    assert (length (wire (bd s)) = length acc) as E.
    { apply (f_equal length) in Hc. unfold payloads in Hc. by rewrite !length_map in Hc. }
    rewrite E, firstn_all, Ha, map_app. etrans; [exact Hs|]. by apply sublist_inserts_r. }
  all: destruct Hc as (_ & f & _ & Hc); (split; [exists [drop 2 f]; by split|]);
    destruct Hl as [e ->]; [done|];
    assert (length (wire (bd s)) = length old) as E
      by (apply (f_equal length) in Hc; unfold payloads in Hc; subst acc;
          rewrite !length_app, !length_map, length_app in Hc; cbn in Hc; lia);
    by rewrite E, Ha, take_app_exact.
Qed.

(** C16: For every sequence of calls (sending when the driver says it can,
    interrupts, requests, stops) and every behaviour of the hardware during and
    between them: the frames on the wire, behind their padding, are the accepted
    frames, in order, whole and each once, except that the last one may still be
    waiting; and the keys reported are keys of frames that are on the wire, in
    order, none twice. *)
Theorem tse_tx_in_order calls v s :
  drv [] v s -> Forall tse_call_ok calls ->
  wp (tse_run calls) (fun acc s' =>
    (exists waiting, payloads (wire (bd s')) ++ waiting = map snd acc /\ (length waiting <= 1)%nat) /\
    tse_dones (log s') `sublist_of` map fst (take (length (wire (bd s'))) acc)) s.
Proof.
  intros H Hc. apply (wp_tse_run _ _ [] v); [done|done|]. intros a s' v' H'. by eapply drv_sent.
Qed.

(** When the receive controller does not run, [tse_deliver] passes up exactly
    the frames of the finished descriptors, up to the first that is not finished,
    in order and with their bytes (or their length only, when the stack has no
    buffers), whatever the transmit side does meanwhile; and if the controller
    was not busy it leaves it running on a chain in which every descriptor but the
    last is ready for a buffer of its own and linked to the next. *)
Theorem tse_deliver_in_order acc v s :
  drv acc v s -> running (v_rx v) = false ->
  wp tse_deliver (fun _ s' => exists v' new, drv acc v' s' /\
    tse_recvs (log s') = tse_recvs (log s) ++ new /\
    Forall2 given (found 0 (v_descs v) (v_mem v)) new /\
    (busy (sg_status (v_rx v)) = false -> receiving DESCRIPTOR_MEMORY_BASE (cpd s') v')) s.
Proof.
  intros H Hr. apply (wp_tse_deliver _ acc v); [done|done|]. intros s' v' new H1 H2 H3 H4.
  by exists v', new.
Qed.

End Run.

(** ** Instances *)

(** Two frames; the controller sends the first between the calls and the second
    during the last read of the second call. *)
Definition tse_sim_calls : list tse_call :=
  [TseSend [Some [1; 2]; None; Some [3]] 11 []; TseIdle tx_go;
   TseSend [Some [4]] 12 (replicate 12 tx_go); TseInterrupt []].

Lemma tse_sim_calls_ok : Forall tse_call_ok tse_sim_calls.
Proof.
  apply Forall_cons; [split; [by vm_compute|constructor]|].
  apply Forall_cons; [apply tx_go_respects|].
  apply Forall_cons; [split; [by vm_compute|apply Forall_replicate, tx_go_respects]|].
  apply Forall_cons; [constructor|constructor].
Qed.

Lemma tse_tx_in_order_witness :
  wp (tse_run tse_sim_calls) (fun acc s' =>
    exists waiting, payloads (wire (bd s')) ++ waiting = map snd acc /\ (length waiting <= 1)%nat)
    (sim_st [done_desc; open_desc] [0; 0; 7; 8; 9] []).
Proof.
  eapply wp_mono.
  - eapply tse_tx_in_order; [by apply sim_drv|apply tse_sim_calls_ok].
  - by intros a s' [H _].
Defined.

Lemma tse_deliver_in_order_witness :
  wp tse_deliver (fun _ s' => exists x, tse_recvs (log s') = [x] /\ given [7; 8; 9] x)
    (sim_st [done_desc; open_desc] [0; 0; 7; 8; 9] [tx_go]).
Proof.
  eapply wp_mono.
  - eapply tse_deliver_in_order; [apply sim_drv; constructor; [apply tx_go_respects|constructor]|done].
  - intros [] s' (v' & new & _ & Hl & Hg & _). change (found 0 _ _) with [[7; 8; 9]] in Hg.
    inversion Hg as [|f x fs xs Hx Hxs]; subst. inversion Hxs; subst. by exists x.
Defined.

(** Both frames are on the wire, but the key of the first, sent after the driver
    had last looked, was overwritten and is never reported. *)
Example tse_key_lost :
  exists s', tse_run tse_sim_calls (sim_st [done_desc; open_desc] [0; 0; 7; 8; 9] []) =
      Ret ([(11, [1; 2; 3]); (12, [4])], s') /\
    payloads (wire (bd s')) = [[1; 2; 3]; [4]] /\ tse_dones (log s') = [12].
Proof. eexists. split; [by vm_compute|]. by split; vm_compute. Qed.

Lemma multicast_filter_witness :
  wp (tse_control (ETH_DRV_SET_MC_LIST [[1; 0; 94; 7; 0; 1]])) (fun v s' =>
    v = 0 /\ table s' (hash_of [1; 0; 94; 7; 0; 1]) = 1) (sim_st [] [] []).
Proof.
  destruct (multicast_filter [[1; 0; 94; 7; 0; 1]] (sim_st [] [] [])) as [H _]; [constructor|].
  eapply wp_mono; [exact H|]. intros v s' [Hv Ht]. split; [done|]. apply (Ht (hash_of [1; 0; 94; 7; 0; 1])); [by vm_compute|].
    eexists. split; [left|done].
Defined.

Lemma sim_devices ds rx :
  forallb (fun i => bool_decide (is_Some (sim_descs ds !! phys (slot_at i)))) (seqZ 0 32) = true ->
  devices (sim_board ds rx).
Proof.
  intros Hall. split; [by eexists..|]. intros i Hi. rewrite forallb_forall in Hall.
  apply (bool_decide_unpack _), (proj2 (Is_true_true _)), Hall, list_elem_of_In, elem_of_seqZ. lia.
Qed.

Lemma sim_ready hardware : ready hardware (sim_st [] [] []).
Proof. split; [constructor|]. apply sim_devices. by vm_compute. Qed.

Lemma init_outcome_witness :
  wp tse_init (fun ok s' => inits (log s') = (if ok then [enaddr (cpd s')] else [])) (sim_st [] [] []).
Proof.
  eapply wp_mono; [apply (init_outcome keeps_devices); [done|apply sim_ready]|].
  intros ok s' [H _]. exact H.
Defined.

Lemma init_stuck_reset_witness :
  wp tse_init (fun ok s' => ok = false /\ inits (log s') = []) (sim_st [] [] []).
Proof.
  eapply wp_mono; [apply init_stuck_reset, sim_ready|]. intros ok s' H. exact H.
Defined.
