(* ===== verification/Esa.v ===== *)
(** * The MAC addresses of the boards
    (devs/eth/sopc: altera_avalon_tse.inl and altera_avalon_lan91c111.inl)

    Two ways to find the station address: the text that a small monitor keeps at address
    0x60, and the last sector of the flash of Altera's boards.  The memory is a function
    from addresses to bytes. *)

From S2P Require Import Prelude.

Section Esa.
(** The memory, and the address of the configuration (six octets). *)
Variable mem : Z -> Z.
Variable CYGDAT_MAC_DEFAULT : list Z.

(** ** The text of the monitor *)

(** A digit is taken if the character is one; [digit] has no value before the first. *)
Definition in_range (lo hi c : Z) : bool := (c >=? lo) && (c <=? hi).

Definition high_digit (c : Z) (digit : option Z) : option Z :=
  let digit := if in_range 48 57 c then Some (c - 48) else digit in
  if in_range 97 102 c then Some (c - 97 + 10) else digit.

Definition low_digit (c digit : Z) : Z :=
  let digit := if in_range 48 57 c then u8 (Z.lor digit (c - 48)) else digit in
  if in_range 97 102 c then u8 (Z.lor digit (c - 97 + 10)) else digit.

(** The octets from [i] on. *)
Fixpoint genone_loop (n : nat) (i : Z) (digit : option Z) : outcome (list Z) :=
  match n with
  | O => Ret []
  | S k =>
      match high_digit (mem (0x60 + i * 3)) digit with
      | None => UB
      | Some digit =>
          let digit := u8 (Z.shiftl digit 4) in
          let digit := low_digit (mem (0x60 + i * 3 + 1)) digit in
          l ← genone_loop k (i + 1) (Some digit);
          Ret (digit :: l)
      end
  end.

Definition genone_tse_get_esa : outcome (list Z) :=
  if negb (s8 (mem 0x60) =? s8 0xff) then genone_loop 6 0 None else Ret CYGDAT_MAC_DEFAULT.

(** ** The last sector of the flash *)

(** The board is one of those with a programmed flash or not; [LAST_FLASH_SECTOR] is the
    address of the sector.  Words are little-endian. *)
Variable altera_board : bool.
Variable LAST_FLASH_SECTOR : Z.

Definition HAL_READ_UINT32 (a : Z) : Z :=
  mem a + 256 * mem (a + 1) + 65536 * mem (a + 2) + 16777216 * mem (a + 3).

Definition get_esa : list Z :=
  if altera_board then
    if negb (HAL_READ_UINT32 LAST_FLASH_SECTOR =? 0x5afe) then CYGDAT_MAC_DEFAULT
    else map (fun i => mem (LAST_FLASH_SECTOR + i)) [4; 5; 6; 7; 8; 9]
  else CYGDAT_MAC_DEFAULT.

Definition altera_avalon_tse_get_esa : list Z := get_esa.

Definition altera_avalon_lan91c111_get_esa : list Z := get_esa.

End Esa.

(** ** The text is read back *)

Definition lower_hex (d : Z) : Z := if d <? 10 then 48 + d else 87 + d.

(** An octet in text, with the character that follows. *)
Definition octet_text (b sep : Z) : list Z := [lower_hex (b / 16); lower_hex (b mod 16); sep].

(** The bytes [l] are in memory from [a] on. *)
Fixpoint stored_at (mem : Z -> Z) (a : Z) (l : list Z) : Prop :=
  match l with
  | [] => True
  | b :: l => mem a = b /\ stored_at mem (a + 1) l
  end.

Lemma high_digit_hex d digit : 0 <= d < 16 -> high_digit (lower_hex d) digit = Some d.
Proof.
  intros Hd. unfold high_digit, lower_hex, in_range. destruct (Z.ltb_spec d 10).
  - rewrite !Z.geb_leb. destruct (Z.leb_spec 48 (48 + d)), (Z.leb_spec (48 + d) 57), (Z.leb_spec 97 (48 + d)); try lia. cbn. f_equal. lia.
  - rewrite !Z.geb_leb. destruct (Z.leb_spec 97 (87 + d)), (Z.leb_spec (87 + d) 102); try lia. cbn. f_equal. lia.
Qed.

Lemma low_digit_hex h d : 0 <= h < 16 -> 0 <= d < 16 -> low_digit (lower_hex d) (u8 (Z.shiftl h 4)) = 16 * h + d.
Proof.
  intros Hh Hd. assert (u8 (Z.shiftl h 4) = Z.shiftl h 4) as E by (apply u8_id; unfold is_byte; rewrite Z.shiftl_mul_pow2 by lia; lia).
  assert (u8 (Z.lor (Z.shiftl h 4) d) = 16 * h + d) as E2.
  { rewrite (lor_shift_add h d 4) by lia. rewrite u8_id by (unfold is_byte; lia). lia. }
  rewrite E. unfold low_digit, lower_hex, in_range. rewrite !Z.geb_leb. destruct (Z.ltb_spec d 10).
  - destruct (Z.leb_spec 48 (48 + d)), (Z.leb_spec (48 + d) 57), (Z.leb_spec 97 (48 + d)); try lia. cbn [andb].
    replace (48 + d - 48) with d by lia. exact E2.
  - destruct (Z.leb_spec 48 (87 + d)), (Z.leb_spec (87 + d) 57), (Z.leb_spec 97 (87 + d)), (Z.leb_spec (87 + d) 102); try lia. cbn [andb].
    replace (87 + d - 97 + 10) with d by lia. exact E2.
Qed.

Lemma genone_loop_reads mem seps bs i digit :
  length seps = length bs -> bytes_ok bs -> stored_at mem (0x60 + i * 3) (concat (zip_with octet_text bs seps)) ->
  genone_loop mem (length bs) i digit = Ret bs.
Proof.
  induction bs as [|b bs IH] in seps, i, digit |- *; intros Hl Hb Hs; destruct seps as [|sep seps]; try done.
  apply Forall_cons_1 in Hb as [Hb Hbs]. unfold is_byte in Hb.
  cbn [zip_with concat octet_text app stored_at] in Hs. destruct Hs as (H1 & H2 & _ & Hs).
  assert (0 <= b / 16 < 16) by (split; [apply Z.div_pos; lia|apply Z.div_lt_upper_bound; lia]).
  pose proof (Z.mod_pos_bound b 16 ltac:(lia)). pose proof (Z.div_mod b 16 ltac:(lia)).
  cbn [length genone_loop]. rewrite H1, H2, high_digit_hex, low_digit_hex by lia. replace (16 * (b / 16) + b mod 16) with b by lia.
  rewrite (IH seps); [done|by injection Hl|done|]. by replace (0x60 + (i + 1) * 3) with (0x60 + i * 3 + 1 + 1 + 1) by lia.
Qed.

(** An address that is stored as text, two lower-case digits for each octet and any
    character between them, is read back, whatever else is in memory. *)
Theorem genone_roundtrip mem default bs seps :
  length bs = 6%nat -> length seps = 6%nat -> bytes_ok bs -> stored_at mem 0x60 (concat (zip_with octet_text bs seps)) ->
  genone_tse_get_esa mem default = Ret bs.
Proof.
  intros Hb Hs Hok Hm. unfold genone_tse_get_esa.
  assert (mem 0x60 <> 0xff /\ 0 <= mem 0x60 < 128) as [Hne Hr].
  { destruct bs as [|b bs], seps as [|sep seps]; try done. apply Forall_cons_1 in Hok as [Hb0 _]. unfold is_byte in Hb0.
    cbn in Hm. destruct Hm as [-> _]. unfold lower_hex. pose proof (Z.div_lt_upper_bound b 16 16). pose proof (Z.div_pos b 16).
    destruct (Z.ltb_spec (b / 16) 10); lia. }
  rewrite s8_id by lia. change (s8 0xff) with (-1). rewrite (proj2 (Z.eqb_neq _ _)) by lia. cbn [negb].
  rewrite <- Hb. apply (genone_loop_reads mem seps); [congruence|done|done].
Qed.

Definition esa_text : list Z := concat (zip_with octet_text [0; 7; 237; 255; 1; 160] [58; 58; 58; 58; 58; 0]).

Definition esa_mem (a : Z) : Z := match esa_text !! Z.to_nat (a - 0x60) with Some b => b | None => 0 end.

Lemma genone_roundtrip_witness : genone_tse_get_esa esa_mem [] = Ret [0; 7; 237; 255; 1; 160].
Proof.
  apply (genone_roundtrip esa_mem [] [0; 7; 237; 255; 1; 160] [58; 58; 58; 58; 58; 0]).
  - reflexivity.
  - reflexivity.
  - repeat constructor; lia.
  - vm_compute. tauto.
Defined.

(** An octet in capitals is not read: the digits of the octet before it are used, and
    before the first there are none. *)
Example genone_capitals :
  let at_ l a := match (l : list Z) !! Z.to_nat (a - 0x60) with Some b => b | None => 0 end in
  genone_tse_get_esa (at_ [65; 66; 58]) [] = UB /\
  genone_tse_get_esa (at_ [48; 49; 58; 65; 66; 58; 48; 48; 58; 48; 48; 58; 48; 48; 58; 48; 48; 0]) [] = Ret [1; 16; 0; 0; 0; 0].
Proof. split; reflexivity. Qed.

(** The sector gives the address if it has the signature. *)
Lemma get_esa_sector mem default sector bs :
  length bs = 6%nat -> stored_at mem sector ([0xfe; 0x5a; 0; 0] ++ bs) -> get_esa mem default true sector = bs.
Proof.
  intros Hb Hs. do 7 (destruct bs as [|? bs]; try done). cbn in Hs. destruct Hs as (H0 & H1 & H2 & H3 & H4 & H5 & H6 & H7 & H8 & H9 & _).
  rewrite <- !Z.add_assoc in *. unfold get_esa, HAL_READ_UINT32.
  repeat match goal with H : mem (sector + (?x + ?z)) = ?b |- _ =>
    let y := eval compute in (x + z) in assert (mem (sector + y) = b) by exact H; clear H end.
  repeat match goal with H : mem _ = _ |- _ => rewrite H; clear H end. cbn.
  by repeat match goal with H : mem _ = _ |- _ => rewrite H; clear H end.
Qed.
