(* ===== verification/Cf.v ===== *)
(** * The CompactFlash driver
    (packages/devs/disk/sopc/altera_avalon_cf, altera_avalon_cf.c and
    altera_avalon_cf_priv.h)

    The card and its controller are hardware: the class [CfBus] has their
    register accesses and the passing of time.  The disk layer of eCos is outside
    the repository: what it is told is the trace [log], and what it answers is a
    function of that trace ([DiskLayer]).  A state is one interface, with its two
    channels, so the base addresses are left out. *)

From stdpp Require Import functions.
From S2P Require Import Prelude.

(** ** Constants *)

Definition IDE_REG_DATA : Z := 0.
Definition IDE_REG_COUNT : Z := 2.
Definition IDE_REG_LBALOW : Z := 3.
Definition IDE_REG_LBAMID : Z := 4.
Definition IDE_REG_LBAHI : Z := 5.
Definition IDE_REG_DEVICE : Z := 6.
Definition IDE_REG_STATUS : Z := 7.
Definition IDE_REG_COMMAND : Z := 7.

Definition IDE_STAT_BSY : Z := 128.
Definition IDE_STAT_DRQ : Z := 8.

Definition ALT_CF_NCHANNELS : nat := 2.

(** From the configuration; the number of words of a sector. *)
Definition SECTOR_SIZE : Z := 512.
Definition sector_words : nat := 256.

Definition ENOERR : Z := 0.

(** ** The hardware *)

Class CfBus (D : Type) := {
  read8 : Z -> D -> Z * D;
  read16 : Z -> D -> Z * D;
  write8 : Z -> Z -> D -> D;
  write16 : Z -> Z -> D -> D;
  delay_us : Z -> D -> D;
  ctl_status : D -> Z * D;     (* reading clears the interrupt *)
  ctl_control : Z -> D -> D;
  POWER_MSK : Z;
  RESET_MSK : Z;
  PRESENT_MSK : Z;
  IRQ_EN_MSK : Z;
}.

(** ** Data *)

(** What the disk layer is told of a card. *)
Record cyg_disk_identify_t := mkIdent {
  serial : list Z;  (* characters, with the final 0 *)
  firmware_rev : list Z;
  model_num : list Z;
  cylinders_num : Z;
  heads_num : Z;
  sectors_num : Z;
  lba_sectors_num : Z;
  phys_block_size : Z
}.

(** Calls out of the driver. *)
Inductive call :=
| DiskInit (tab : Z)
| DiskConnected (tab : Z) (ident : cyg_disk_identify_t)
| DiskDisconnected (tab : Z)
| DiskLookup (tab sub_tab : Z) (name : list Z)
| IntCreate (irq : Z) | IntAttach | IntMask (v : Z) | IntUnmask (v : Z).

(** The state of an interface. *)
Record alt_avalon_cf_interface_t := mkIface {
  irq : Z;
  init_done : Z;
  devs : list (option Z)  (* the device table entries, by channel *)
}.

Definition set_irq (v : Z) (s : alt_avalon_cf_interface_t) : alt_avalon_cf_interface_t :=
  mkIface v (init_done s) (devs s).

Definition set_init_done (v : Z) (s : alt_avalon_cf_interface_t) : alt_avalon_cf_interface_t :=
  mkIface (irq s) v (devs s).

Definition set_devs (v : list (option Z)) (s : alt_avalon_cf_interface_t) : alt_avalon_cf_interface_t :=
  mkIface (irq s) (init_done s) v.

(** The disk layer, and the table of devices: the channel number of an entry,
    whether its channel is initialised, its block size. *)
Class DiskLayer := {
  tab_chan : Z -> Z;
  chan_init : list call -> Z -> bool;
  block_size : list call -> Z -> Z;
  disk_init : list call -> Z -> bool;
  disk_connected : list call -> Z -> cyg_disk_identify_t -> Z;
  disk_lookup : list call -> Z -> Z -> list Z -> Z;
  EIO : Z;
  EINVAL : Z;
}.

(** The state of the driver of one interface. *)
Record st (D : Type) := mkSt {
  hws : D;  (* the card and its controller *)
  iface : alt_avalon_cf_interface_t;
  log : list call  (* calls out of the driver, newest last *)
}.

Arguments mkSt {D}.
Arguments hws {D}.
Arguments iface {D}.
Arguments log {D}.

Definition set_hws {D} (v : D) (s : st D) : st D :=
  mkSt v (iface s) (log s).

Definition set_iface {D} (v : alt_avalon_cf_interface_t) (s : st D) : st D :=
  mkSt (hws s) v (log s).

Definition set_log {D} (v : list call) (s : st D) : st D :=
  mkSt (hws s) (iface s) v.

(** ** Strings of the identity data *)

(** [id_strcpy]: the characters stored, from words in memory. *)
Fixpoint id_chars (n : nat) (src : list Z) : option (list Z) :=
  match n with
  | O => Some [0]
  | S k =>
      match src with
      | [] => None
      | w :: rest => r ← id_chars k rest; Some (s8 (Z.shiftr w 8) :: s8 (Z.land w 255) :: r)
      end
  end.

(** The loop [for (i = 0; i < size; i += 2)] runs once for every two, rounded up. *)
Definition id_strcpy (src : list Z) (size : Z) : option (list Z) :=
  id_chars (Z.to_nat ((size + 1) / 2)) src.

Section Driver.
Context {D : Type} {bus : CfBus D} {layer : DiskLayer}.

(** ** Accesses *)

Definition READ_UINT8 (r : Z) : M (st D) Z := fun s =>
  let '(v, d) := read8 r (hws s) in Ret (u8 v, set_hws d s).

Definition READ_UINT16 (r : Z) : M (st D) Z := fun s =>
  let '(v, d) := read16 r (hws s) in Ret (u16 v, set_hws d s).

Definition WRITE_UINT8 (r v : Z) : M (st D) unit :=
  modify (fun s => set_hws (write8 r (u8 v) (hws s)) s).

Definition WRITE_UINT16 (r v : Z) : M (st D) unit :=
  modify (fun s => set_hws (write16 r (u16 v) (hws s)) s).

Definition DELAY_US (us : Z) : M (st D) unit := modify (fun s => set_hws (delay_us us (hws s)) s).

Definition CTL_STATUS : M (st D) Z := fun s =>
  let '(v, d) := ctl_status (hws s) in Ret (v, set_hws d s).

Definition CTL_CONTROL (v : Z) : M (st D) unit :=
  modify (fun s => set_hws (ctl_control v (hws s)) s).

Definition emit (c : call) : M (st D) unit := modify (fun s => set_log (log s ++ [c]) s).

(** ** Waiting *)

(** The argument is the number of tries that are left. *)
Fixpoint idle_tries (tries : nat) : M (st D) bool :=
  match tries with
  | O => mret false
  | S k =>
      status ← READ_UINT8 IDE_REG_STATUS;
      if negb (ctrue (Z.land status IDE_STAT_BSY)) then mret true else idle_tries k
  end.

Definition wait_for_idle : M (st D) bool := idle_tries (Z.to_nat 1000000).

Fixpoint drq_tries (tries : nat) : M (st D) bool :=
  match tries with
  | O => mret false
  | S k =>
      status ← READ_UINT8 IDE_REG_STATUS;
      if negb (ctrue (Z.land status IDE_STAT_BSY)) then mret (ctrue (Z.land status IDE_STAT_DRQ))
      else drq_tries k
  end.

Definition wait_for_drq : M (st D) bool := DELAY_US 10;; drq_tries (Z.to_nat 1000000).

(** ** Identification *)

Definition ide_presence_detect (chan : Z) : M (st D) bool :=
  let sel := u16 (Z.lor (Z.shiftl chan 4) 160) in
  DELAY_US 50000;;
  WRITE_UINT16 IDE_REG_DEVICE sel;;
  DELAY_US 50000;;
  val ← READ_UINT16 IDE_REG_DEVICE;
  mret (Z.land val 255 =? sel).

(** [n] words of the data register. *)
Fixpoint read_words (n : nat) : M (st D) (list Z) :=
  match n with
  | O => mret []
  | S k => w ← READ_UINT16 IDE_REG_DATA; r ← read_words k; mret (w :: r)
  end.

Definition ide_ident (dev : Z) : M (st D) (option (list Z)) :=
  _ ← wait_for_drq;
  WRITE_UINT8 IDE_REG_DEVICE (Z.shiftl dev 4);;
  WRITE_UINT8 IDE_REG_COMMAND 236;;
  DELAY_US 50000;;
  ok ← wait_for_drq;
  if negb ok then mret None
  else buf ← read_words sector_words; mret (Some buf).

(** ** Sectors *)

(** The registers of a transfer of one sector, and the command. *)
Definition issue (dev start command : Z) : M (st D) unit :=
  WRITE_UINT8 IDE_REG_COUNT 1;;
  WRITE_UINT8 IDE_REG_LBALOW (Z.land start 255);;
  WRITE_UINT8 IDE_REG_LBAMID (Z.land (Z.shiftr start 8) 255);;
  WRITE_UINT8 IDE_REG_LBAHI (Z.land (Z.shiftr start 16) 255);;
  WRITE_UINT8 IDE_REG_DEVICE (Z.lor (Z.lor (Z.land (Z.shiftr start 24) 15) (Z.shiftl dev 4)) 64);;
  WRITE_UINT8 IDE_REG_COMMAND command.

(** The words of a sector, of which the first [len] bytes are kept. *)
Fixpoint read_data (n : nat) (c len : Z) : M (st D) (list Z) :=
  match n with
  | O => mret []
  | S k =>
      p ← READ_UINT16 IDE_REG_DATA;
      r ← read_data k (c + 2) len;
      mret ((if c <? len then [Z.land p 255] else []) ++
            (if c + 1 <? len then [Z.land (Z.shiftr p 8) 255] else []) ++ r)
  end.

(** The bytes stored in the buffer, or a failure. *)
Definition ide_read_sector (dev start len : Z) : M (st D) (option (list Z)) :=
  ok ← wait_for_idle;
  if negb ok then mret None
  else
    issue dev start 32;;
    ok ← wait_for_drq;
    if negb ok then mret None
    else d ← read_data sector_words 0 len; mret (Some d).

(** A byte of the buffer while there are some left to write, then 0. *)
Definition next_byte (c len : Z) (b : list Z) : option (Z * list Z) :=
  if c <? len then match b with x :: b' => Some (x, b') | [] => None end else Some (0, b).

Fixpoint write_data (n : nat) (c len : Z) (b : list Z) : M (st D) unit :=
  match n with
  | O => mret tt
  | S k =>
      match next_byte c len b with
      | None => undef
      | Some (lo, b) =>
          match next_byte (c + 1) len b with
          | None => undef
          | Some (hi, b) =>
              WRITE_UINT16 IDE_REG_DATA (Z.lor lo (Z.shiftl hi 8));;
              write_data k (c + 2) len b
          end
      end
  end.

Definition ide_write_sector (dev start : Z) (buf : list Z) (len : Z) : M (st D) bool :=
  ok ← wait_for_idle;
  if negb ok then mret false
  else
    issue dev start 48;;
    ok ← wait_for_drq;
    if negb ok then mret false
    else write_data sector_words 0 len buf;; mret true.

(** ** Insertion and removal *)

(** The words [i], [i+1], .. of the identity data. *)
Definition word (buf : list Z) (i : nat) : Z := nth i buf 0.

Definition identity (buf : list Z) : option cyg_disk_identify_t :=
  serial ← id_strcpy (take 10 (drop 10 buf)) 20;
  firmware_rev ← id_strcpy (take 4 (drop 23 buf)) 8;
  model_num ← id_strcpy (take 20 (drop 27 buf)) 40;
  Some (mkIdent serial firmware_rev model_num (word buf 1) (word buf 3) (word buf 6)
    (u32 (Z.lor (Z.shiftl (word buf 61) 16) (word buf 60))) SECTOR_SIZE).

Definition alt_avalon_cf_insert (tab : Z) : M (st D) bool :=
  present ← ide_presence_detect (tab_chan tab);
  if negb present then mret false
  else
    id_buf ← ide_ident (tab_chan tab);
    match id_buf with
    | None => mret false
    | Some id_buf =>
        match identity id_buf with
        | None => undef
        | Some ident =>
            emit (DiskInit tab);;
            h ← gets log;
            if negb (disk_init h tab) then mret false
            else
              emit (DiskConnected tab ident);;
              h ← gets log;
              mret (disk_connected h tab ident =? ENOERR)
        end
    end.

Definition alt_avalon_cf_reset : M (st D) unit :=
  CTL_CONTROL (Z.lor POWER_MSK RESET_MSK);;
  DELAY_US 5000;;
  CTL_CONTROL POWER_MSK;;
  DELAY_US 1000000.

Definition altera_avalon_cf_ISR (vector : Z) : M (st D) Z := emit (IntMask vector);; mret 2.

(** The channels of the interface, in order. *)
Fixpoint for_devs (l : list (option Z)) (body : Z -> M (st D) unit) : M (st D) unit :=
  match l with
  | [] => mret tt
  | Some tab :: rest => body tab;; for_devs rest body
  | None :: rest => for_devs rest body
  end.

Definition insert_or_disconnect (tab : Z) : M (st D) unit :=
  ok ← alt_avalon_cf_insert tab;
  unless ok (emit (DiskDisconnected tab)).

Definition altera_avalon_cf_DSR (vector : Z) : M (st D) unit :=
  status ← CTL_STATUS;
  (if ctrue (Z.land status PRESENT_MSK) then
     alt_avalon_cf_reset;;
     i ← gets iface;
     for_devs (take ALT_CF_NCHANNELS (devs i)) insert_or_disconnect
   else
     i ← gets iface;
     for_devs (take ALT_CF_NCHANNELS (devs i)) (fun tab => emit (DiskDisconnected tab)));;
  emit (IntUnmask vector).

Definition alt_avalon_cf_init (tab : Z) : M (st D) bool :=
  h ← gets log;
  if chan_init h tab then mret true
  else
    CTL_CONTROL POWER_MSK;;
    i ← gets iface;
    when (init_done i =? 0) alt_avalon_cf_reset;;
    i ← gets iface;
    if negb ((0 <=? tab_chan tab) && (tab_chan tab <? Z.of_nat (length (devs i)))) then undef
    else
      modify (fun s => set_iface (set_devs (<[Z.to_nat (tab_chan tab) := Some tab]> (devs (iface s)))
                                    (iface s)) s);;
      when (init_done i =? 0) (_ ← CTL_STATUS; mret tt);;
      rval ← alt_avalon_cf_insert tab;
      i ← gets iface;
      when (init_done i =? 0)
        (_ ← CTL_STATUS;
         emit (IntCreate (irq i));;
         emit IntAttach;;
         CTL_CONTROL (POWER_MSK + IRQ_EN_MSK);;
         emit (IntUnmask (irq i));;
         modify (fun s => set_iface (set_init_done 1 (iface s)) s));;
      mret rval.

Definition alt_avalon_cf_lookup (tab sub_tab : Z) (name : list Z) : M (st D) Z :=
  emit (DiskLookup tab sub_tab name);;
  h ← gets log;
  mret (disk_lookup h tab sub_tab name).

(** ** The functions of the disk layer's table *)

(** The caller's buffer and what it holds afterwards. *)
Definition alt_avalon_cf_read (tab : Z) (buf : list Z) (len block_num : Z) : M (st D) (Z * list Z) :=
  h ← gets log;
  r ← ide_read_sector (tab_chan tab) block_num (u32 (len * block_size h tab));
  match r with
  | None => mret (- EIO, buf)
  | Some d => if (length buf <? length d)%nat then undef
              else mret (ENOERR, d ++ drop (length d) buf)
  end.

Definition alt_avalon_cf_write (tab : Z) (buf : list Z) (len block_num : Z) : M (st D) Z :=
  h ← gets log;
  ok ← ide_write_sector (tab_chan tab) block_num buf (u32 (len * block_size h tab));
  mret (if (ok : bool) then ENOERR else - EIO).

Definition alt_avalon_cf_get_config (key : Z) : M (st D) Z := mret (- EINVAL).

Definition alt_avalon_cf_set_config (key : Z) : M (st D) Z := mret (- EINVAL).

End Driver.

(** * What the CompactFlash driver guarantees

    A card is seen through [view]: its phase, its registers, its error flag and
    its sectors.  The laws of [CfLaws] are what the ATA standard says of the
    commands the driver uses: a card may stay busy as long as it likes, may refuse
    a command, may deliver other data than the sector's with the error flag set,
    and may fail to store a sector after it has taken its data, which the error
    flag says as well. *)

(** ** Cards *)

Inductive phase :=
| Ready
| DataIn (ws : list Z)                    (* words still to be read *)
| DataOut (dev lba : Z) (ws : list Z).    (* words written so far *)

Record card := mkCard {
  c_phase : phase;
  c_regs : Z -> Z;
  c_err : bool;              (* ERR, bit 0 of the status, of the last command *)
  c_disk : Z * Z -> list Z;  (* the bytes of a sector, by device and address *)
}.

(** The words of a sector, low byte first. *)
Fixpoint words (bs : list Z) : list Z :=
  match bs with
  | lo :: hi :: rest => Z.lor lo (Z.shiftl hi 8) :: words rest
  | _ => []
  end.

Definition bytes_of (ws : list Z) : list Z :=
  concat (map (fun w => [Z.land w 255; Z.land (Z.shiftr w 8) 255]) ws).

Definition sel_dev (r : Z -> Z) : Z := Z.land (Z.shiftr (r IDE_REG_DEVICE) 4) 1.

Definition sel_lba (r : Z -> Z) : Z :=
  r IDE_REG_LBALOW + 256 * r IDE_REG_LBAMID + 65536 * r IDE_REG_LBAHI
    + 16777216 * Z.land (r IDE_REG_DEVICE) 15.

(** The end of a write of [bs] to sector [k]: the sector holds the bytes unless the
    card reports an error; it may hold anything then.  The others are kept. *)
Definition sector_written (k : Z * Z) (bs : list Z) (c c' : card) : Prop :=
  (forall j, j <> k -> c_disk c' j = c_disk c j) /\ (c_err c' = false -> c_disk c' k = bs).

(** The data the card has for sector [k]: a whole sector, and the right one unless
    the card reports an error. *)
Definition sector_offered (k : Z * Z) (ws : list Z) (c c' : card) : Prop :=
  length ws = sector_words /\ Forall (fun w => 0 <= w < 65536) ws /\
  (c_err c' = false -> ws = words (c_disk c k)).

(** One sector at the address of the registers. *)
Definition addressed (r : Z -> Z) : Prop := r IDE_REG_COUNT = 1 /\ Z.testbit (r IDE_REG_DEVICE) 6 = true.

Class CfLaws (D : Type) {bus : CfBus D} := {
  view : D -> card;
  sector_ok d k : length (c_disk (view d) k) = 512%nat /\ bytes_ok (c_disk (view d) k);
  delay_law us d : view (delay_us us d) = view d;
  status_law d : view (read8 IDE_REG_STATUS d).2 = view d /\
    (Z.testbit (read8 IDE_REG_STATUS d).1 7 = false ->
     (Z.testbit (read8 IDE_REG_STATUS d).1 3 = true -> c_phase (view d) <> Ready) /\
     Z.testbit (read8 IDE_REG_STATUS d).1 0 = c_err (view d));
  reg_law r v d : 2 <= r <= 6 -> c_phase (view d) = Ready ->
    view (write8 r v d) = mkCard Ready (<[r := v]> (c_regs (view d))) (c_err (view d)) (c_disk (view d));
  read_law d : c_phase (view d) = Ready -> addressed (c_regs (view d)) ->
    let d' := write8 IDE_REG_COMMAND 32 d in
    c_disk (view d') = c_disk (view d) /\
    (c_phase (view d') = Ready \/
     exists ws, c_phase (view d') = DataIn ws /\
       sector_offered (sel_dev (c_regs (view d)), sel_lba (c_regs (view d))) ws (view d) (view d'));
  write_law d : c_phase (view d) = Ready -> addressed (c_regs (view d)) ->
    let d' := write8 IDE_REG_COMMAND 48 d in
    c_disk (view d') = c_disk (view d) /\
    (c_phase (view d') = Ready \/
     c_phase (view d') = DataOut (sel_dev (c_regs (view d))) (sel_lba (c_regs (view d))) []);
  data_in_law d w ws : c_phase (view d) = DataIn (w :: ws) ->
    (read16 IDE_REG_DATA d).1 = w /\
    let d' := (read16 IDE_REG_DATA d).2 in
    c_disk (view d') = c_disk (view d) /\ c_err (view d') = c_err (view d) /\
    c_phase (view d') = (match ws with [] => Ready | _ => DataIn ws end);
  data_out_law d dev lba ws w : c_phase (view d) = DataOut dev lba ws ->
    let d' := write16 IDE_REG_DATA w d in
    if decide (length ws = 255%nat) then
      c_phase (view d') = Ready /\ sector_written (dev, lba) (bytes_of (ws ++ [w])) (view d) (view d')
    else
      c_phase (view d') = DataOut dev lba (ws ++ [w]) /\ c_disk (view d') = c_disk (view d);
}.

(** ** Words and bytes *)

Lemma byte_pair lo hi :
  is_byte lo -> is_byte hi ->
  Z.land (Z.lor lo (Z.shiftl hi 8)) 255 = lo /\ Z.land (Z.shiftr (Z.lor lo (Z.shiftl hi 8)) 8) 255 = hi /\
  0 <= Z.lor lo (Z.shiftl hi 8) < 65536.
Proof.
  intros Hl Hh. unfold is_byte in *. rewrite Z.lor_comm, lor_shift_add by lia. change (2 ^ 8) with 256.
  rewrite !land_255, Z.shiftr_div_pow2 by lia. change (2 ^ 8) with 256.
  repeat split; Z.to_euclidean_division_equations; lia.
Qed.

Lemma words_length n bs : length bs = (2 * n)%nat -> length (words bs) = n.
Proof.
  revert bs. induction n as [|n IH]; intros [|lo [|hi bs]] Hl; try (cbn in Hl; lia); [done|].
  cbn [words length] in *. f_equal. apply IH. lia.
Qed.

Lemma bytes_of_words n bs : length bs = (2 * n)%nat -> bytes_ok bs -> bytes_of (words bs) = bs.
Proof.
  revert bs. induction n as [|n IH]; intros [|lo [|hi bs]] Hl Hb; try (cbn in Hl; lia); [done|].
  cbn [words]. unfold bytes_of. cbn [map concat app].
  apply Forall_cons_1 in Hb as [Hlo Hb]. apply Forall_cons_1 in Hb as [Hhi Hb].
  destruct (byte_pair lo hi Hlo Hhi) as (-> & -> & _). do 2 f_equal.
  apply IH; [cbn in Hl; lia|done].
Qed.

Lemma length_words_bytes ws : length (bytes_of ws) = (2 * length ws)%nat.
Proof. induction ws as [|w ws IH]; [done|]. unfold bytes_of in *. cbn [map concat app length]. rewrite IH. lia. Qed.

Section Facts.
Context {D : Type} {bus : CfBus D} {layer : DiskLayer} {laws : CfLaws D}.

Abbreviation card_of s := (view (hws s)).

(** ** Waiting *)

Lemma wp_READ8 (Q : Z -> st D -> Prop) r s :
  Q (u8 (read8 r (hws s)).1) (set_hws (read8 r (hws s)).2 s) -> wp (READ_UINT8 r) Q s.
Proof. unfold wp, READ_UINT8. by destruct (read8 r (hws s)). Qed.

Lemma wp_READ16 (Q : Z -> st D -> Prop) r s :
  Q (u16 (read16 r (hws s)).1) (set_hws (read16 r (hws s)).2 s) -> wp (READ_UINT16 r) Q s.
Proof. unfold wp, READ_UINT16. by destruct (read16 r (hws s)). Qed.

(** The waits end, change nothing, and the second one succeeds only in a data phase. *)
Definition same_but_card (s s' : st D) : Prop := iface s' = iface s /\ log s' = log s.

Lemma wp_idle_tries n (Q : bool -> st D -> Prop) s :
  (forall b s', card_of s' = card_of s -> same_but_card s s' -> Q b s') -> wp (idle_tries n) Q s.
Proof.
  revert s. induction n as [|n IH]; intros s HQ; cbn [idle_tries].
  { by apply wp_ret, HQ. }
  apply wp_bind, wp_READ8. destruct (status_law (hws s)) as [Hv _]. wp_if.
  - apply wp_ret, HQ; done.
  - apply IH. intros b s' Hc [Hi Hl]. apply HQ; [|done]. by rewrite Hc.
Qed.

Lemma wp_drq_tries n (Q : bool -> st D -> Prop) s :
  (forall b s', card_of s' = card_of s -> same_but_card s s' ->
     (b = true -> c_phase (card_of s) <> Ready) -> Q b s') -> wp (drq_tries n) Q s.
Proof.
  revert s. induction n as [|n IH]; intros s HQ; cbn [drq_tries].
  { by apply wp_ret, HQ. }
  apply wp_bind, wp_READ8. destruct (status_law (hws s)) as [Hv Hd]. wp_if.
  - apply wp_ret, HQ; [done..|]. intros Hb. apply Hd.
    + rewrite (ctrue_land_pow2 _ 7), uwrap_testbit in Heqb by lia. by apply negb_true_iff.
    + by rewrite (ctrue_land_pow2 _ 3), uwrap_testbit in Hb by lia.
  - apply IH. intros b s' Hc [Hi Hl] Hb. cbn [hws set_hws] in *. rewrite Hv in *. by apply HQ.
Qed.

Lemma wp_wait_for_idle (Q : bool -> st D -> Prop) s :
  (forall b s', card_of s' = card_of s -> same_but_card s s' -> Q b s') -> wp wait_for_idle Q s.
Proof. apply wp_idle_tries. Qed.

Lemma wp_wait_for_drq (Q : bool -> st D -> Prop) s :
  (forall b s', card_of s' = card_of s -> same_but_card s s' ->
     (b = true -> c_phase (card_of s) <> Ready) -> Q b s') -> wp wait_for_drq Q s.
Proof.
  intros HQ. apply wp_bind, wp_modify. apply wp_drq_tries. cbn [hws set_hws]. rewrite delay_law.
  intros b s' Hc [Hi Hl]. by apply HQ.
Qed.

(** ** Addressing a sector *)

Lemma land_15 z : Z.land z 15 = z mod 16.
Proof. change 15 with (Z.ones 4). by rewrite Z.land_ones by lia. Qed.

(** The device register: four bits of the address, the device, the LBA flag. *)
Definition device_reg (dev start : Z) : Z :=
  Z.lor (Z.lor (Z.land (Z.shiftr start 24) 15) (Z.shiftl dev 4)) 64.

Lemma device_reg_bits dev start :
  dev = 0 \/ dev = 1 ->
  is_byte (device_reg dev start) /\ Z.land (Z.shiftr (device_reg dev start) 4) 1 = dev /\
  Z.land (device_reg dev start) 15 = Z.land (Z.shiftr start 24) 15 /\
  Z.testbit (device_reg dev start) 6 = true.
Proof.
  intros Hdev. unfold device_reg.
  assert (exists k : nat, (k < 16)%nat /\ Z.land (Z.shiftr start 24) 15 = Z.of_nat k) as (k & Hk & ->).
  { exists (Z.to_nat (Z.land (Z.shiftr start 24) 15)). rewrite land_15.
    pose proof (Z.mod_pos_bound (Z.shiftr start 24) 16 ltac:(lia)). lia. }
  unfold is_byte. destruct Hdev as [-> | ->]; do 16 (destruct k as [|k]; [by vm_compute|]); lia.
Qed.

(** The registers after [issue]. *)
Definition issued (dev start : Z) (r : Z -> Z) : Prop :=
  addressed r /\ sel_dev r = dev /\ sel_lba r = start mod 268435456.

Lemma issued_regs dev start r :
  dev = 0 \/ dev = 1 -> 0 <= start ->
  issued dev start
    (<[IDE_REG_DEVICE := u8 (device_reg dev start)]>
      (<[IDE_REG_LBAHI := u8 (Z.land (Z.shiftr start 16) 255)]>
        (<[IDE_REG_LBAMID := u8 (Z.land (Z.shiftr start 8) 255)]>
          (<[IDE_REG_LBALOW := u8 (Z.land start 255)]> (<[IDE_REG_COUNT := u8 1]> r))))).
Proof.
  intros Hdev Hs. destruct (device_reg_bits dev start Hdev) as (Hb & Hd & Hl & H6).
  rewrite (u8_id _ Hb), !(u8_id (Z.land _ 255)) by apply land_255_byte.
  split; [|split]; [split|..]; [reflexivity| | |].
  - exact H6.
  - exact Hd.
  - change (Z.land start 255 + 256 * Z.land (Z.shiftr start 8) 255
      + 65536 * Z.land (Z.shiftr start 16) 255 + 16777216 * Z.land (device_reg dev start) 15
      = start mod 268435456).
    rewrite Hl, !land_255, land_15, !Z.shiftr_div_pow2 by lia.
    change (2 ^ 8) with 256. change (2 ^ 16) with 65536. change (2 ^ 24) with 16777216.
    Z.to_euclidean_division_equations; lia.
Qed.

Lemma reg_law_in r v d rg e dk :
  bool_decide (2 <= r <= 6) = true -> view d = mkCard Ready rg e dk ->
  view (write8 r v d) = mkCard Ready (<[r := v]> rg) e dk.
Proof.
  intros Hr%bool_decide_eq_true Hd. rewrite reg_law; [by rewrite Hd|exact Hr|by rewrite Hd].
Qed.

Lemma wp_issue dev start command (Q : unit -> st D -> Prop) s :
  dev = 0 \/ dev = 1 -> 0 <= start -> c_phase (card_of s) = Ready ->
  (forall d, c_phase (view d) = Ready -> issued dev start (c_regs (view d)) ->
     c_disk (view d) = c_disk (card_of s) ->
     Q tt (set_hws (write8 IDE_REG_COMMAND (u8 command) d) s)) ->
  wp (issue dev start command) Q s.
Proof.
  intros Hdev Hs Hp HQ. unfold issue. do 5 (apply wp_bind, wp_modify). apply wp_modify.
  cbn [hws set_hws]. set (d := write8 IDE_REG_DEVICE _ _).
  enough (exists rg, view d = mkCard Ready rg (c_err (card_of s)) (c_disk (card_of s)) /\ issued dev start rg) as (rg & Hv & Hi)
    by (apply HQ; by rewrite Hv).
  eexists. split; [|by apply issued_regs].
  do 5 (apply reg_law_in; [reflexivity|]).
  transitivity (mkCard (c_phase (card_of s)) (c_regs (card_of s)) (c_err (card_of s)) (c_disk (card_of s)));
    [by destruct (card_of s)|by rewrite Hp].
Qed.

(** ** The data of a sector *)

Lemma words_bound bs : bytes_ok bs -> Forall (fun w => 0 <= w < 65536) (words bs).
Proof.
  revert bs. fix IH 1. intros [|lo [|hi bs]] Hb; [constructor..|].
  apply Forall_cons_1 in Hb as [Hlo Hb]. apply Forall_cons_1 in Hb as [Hhi Hb].
  constructor; [by apply byte_pair|by apply IH].
Qed.

Lemma wp_read_data ws c len (Q : list Z -> st D -> Prop) s :
  ws <> [] -> c_phase (card_of s) = DataIn ws -> Forall (fun w => 0 <= w < 65536) ws -> 0 <= c ->
  (forall s', c_phase (card_of s') = Ready -> c_disk (card_of s') = c_disk (card_of s) ->
     c_err (card_of s') = c_err (card_of s) ->
     same_but_card s s' -> Q (take (Z.to_nat (len - c)) (bytes_of ws)) s') ->
  wp (read_data (length ws) c len) Q s.
Proof.
  revert c Q s. induction ws as [|w ws IH]; intros c Q s Hne Hp Hw Hc HQ; [done|].
  apply Forall_cons_1 in Hw as [Hw Hws]. cbn [length read_data].
  apply wp_bind, wp_READ16. destruct (data_in_law _ _ _ Hp) as (Hv & Hd & He & Hp').
  rewrite Hv, (uwrap_id 16) by lia. set (s1 := set_hws _ s).
  assert (take (Z.to_nat (len - c)) (bytes_of (w :: ws)) =
    (if c <? len then [Z.land w 255] else []) ++
    (if c + 1 <? len then [Z.land (Z.shiftr w 8) 255] else []) ++
    take (Z.to_nat (len - (c + 2))) (bytes_of ws)) as Htake.
  { change (bytes_of (w :: ws)) with (Z.land w 255 :: Z.land (Z.shiftr w 8) 255 :: bytes_of ws).
    destruct (Z.ltb_spec c len), (Z.ltb_spec (c + 1) len); try lia.
    - replace (Z.to_nat (len - c)) with (S (S (Z.to_nat (len - (c + 2))))) by lia. done.
    - replace (len - c) with 1 by lia. replace (Z.to_nat (len - (c + 2))) with 0%nat by lia. done.
    - replace (Z.to_nat (len - c)) with 0%nat by lia. replace (Z.to_nat (len - (c + 2))) with 0%nat by lia. done. }
  setoid_rewrite Htake in HQ.
  apply wp_bind. destruct ws as [|w' ws].
  - apply wp_ret, wp_ret. change (bytes_of []) with (@nil Z) in HQ. setoid_rewrite take_nil in HQ.
    by apply HQ.
  - apply IH; [done|exact Hp'|done|lia|]. intros s' Hp2 Hd2 He2 [Hi Hl].
    apply wp_ret, HQ; [done|by etrans|by etrans|done].
Qed.

(** [n] bytes: those of a list, then zeros. *)
Fixpoint padded (n : nat) (bs : list Z) : list Z :=
  match n with
  | O => []
  | S k => match bs with x :: bs' => x :: padded k bs' | [] => 0 :: padded k [] end
  end.

Lemma padded_length n bs : length (padded n bs) = n.
Proof. revert bs. induction n as [|n IH]; intros [|x bs]; cbn; by rewrite ?IH. Qed.

Lemma padded_exact bs : padded (length bs) bs = bs.
Proof. induction bs as [|x bs IH]; cbn; by rewrite ?IH. Qed.

Lemma padded_bytes n bs : bytes_ok bs -> bytes_ok (padded n bs).
Proof.
  revert bs. induction n as [|n IH]; intros [|x bs] Hb; cbn; try done.
  - constructor; [done|by apply IH].
  - apply Forall_cons_1 in Hb as [Hx Hb]. constructor; [done|by apply IH].
Qed.

(** Two turns of the conditional reads. *)
Lemma next_two n c len buf :
  bytes_ok buf -> (Z.to_nat (len - c) <= length buf)%nat ->
  exists lo hi b1 b2, next_byte c len buf = Some (lo, b1) /\ next_byte (c + 1) len b1 = Some (hi, b2) /\
    is_byte lo /\ is_byte hi /\ bytes_ok b2 /\ (Z.to_nat (len - (c + 2)) <= length b2)%nat /\
    padded (2 * S n) (take (Z.to_nat (len - c)) buf) =
      lo :: hi :: padded (2 * n) (take (Z.to_nat (len - (c + 2))) b2).
Proof.
  intros Hb Hl. unfold next_byte. replace (2 * S n)%nat with (S (S (2 * n))) by lia.
  destruct (Z.ltb_spec c len), (Z.ltb_spec (c + 1) len); try lia.
  - replace (Z.to_nat (len - c)) with (S (S (Z.to_nat (len - (c + 2))))) in * by lia.
    destruct buf as [|lo [|hi b]]; cbn in Hl; try lia.
    apply Forall_cons_1 in Hb as [Hlo Hb]. apply Forall_cons_1 in Hb as [Hhi Hb].
    exists lo, hi, (hi :: b), b. do 5 (split; [done|]). split; [cbn in *; lia|done].
  - replace (Z.to_nat (len - c)) with 1%nat in * by lia. replace (Z.to_nat (len - (c + 2))) with 0%nat by lia.
    destruct buf as [|lo b]; cbn in Hl; [lia|]. apply Forall_cons_1 in Hb as [Hlo Hb].
    exists lo, 0, b, b. do 5 (split; [done|]). split; [cbn in *; lia|done].
  - replace (Z.to_nat (len - c)) with 0%nat in * by lia. replace (Z.to_nat (len - (c + 2))) with 0%nat by lia.
    exists 0, 0, buf, buf. do 5 (split; [done|]). split; [cbn in *; lia|done].
Qed.

Lemma wp_write_data n c len buf ws dev lba (Q : unit -> st D -> Prop) s :
  (n <> 0)%nat -> c_phase (card_of s) = DataOut dev lba ws -> (length ws + n = 256)%nat ->
  bytes_ok buf -> 0 <= c -> (Z.to_nat (len - c) <= length buf)%nat ->
  (forall s', c_phase (card_of s') = Ready ->
     sector_written (dev, lba) (bytes_of (ws ++ words (padded (2 * n) (take (Z.to_nat (len - c)) buf))))
       (card_of s) (card_of s') ->
     same_but_card s s' -> Q tt s') ->
  wp (write_data n c len buf) Q s.
Proof.
  revert c buf ws Q s. induction n as [|n IH]; intros c buf ws Q s Hn Hp Hl Hb Hc Hlen HQ; [done|].
  cbn [write_data]. destruct (next_two n c len buf Hb Hlen) as (lo & hi & b1 & b2 & -> & -> & Hlo & Hhi & Hb2 & Hl2 & Hpad).
  rewrite Hpad in HQ. cbn [words] in HQ. set (w := Z.lor lo (Z.shiftl hi 8)) in *.
  destruct (byte_pair lo hi Hlo Hhi) as (_ & _ & Hw). fold w in Hw.
  apply wp_bind, wp_modify. rewrite (uwrap_id 16) by lia.
  pose proof (data_out_law _ _ _ _ w Hp) as Hlaw. cbn zeta in Hlaw.
  destruct n as [|n].
  - rewrite decide_True in Hlaw by lia. destruct Hlaw as [Hp' Hd]. by apply wp_ret, HQ.
  - rewrite decide_False in Hlaw by lia. destruct Hlaw as [Hp' Hd].
    eapply (IH (c + 2) b2 (ws ++ [w])); [done|exact Hp'|rewrite length_app; cbn; lia|done|lia|done|].
    intros s' Hp2 Hd2 [Hi Hls]. apply HQ; [done| |done]. rewrite <- app_assoc in Hd2.
    unfold sector_written in *. cbn [hws set_hws] in Hd2. by rewrite Hd in Hd2.
Qed.

(** ** Whole sectors *)

(** The sector that an operation addresses: 28 bits of the number. *)
Definition key (dev start : Z) : Z * Z := (dev, start mod 268435456).

Lemma wp_ide_read_sector dev start len (Q : option (list Z) -> st D -> Prop) s :
  dev = 0 \/ dev = 1 -> 0 <= start -> c_phase (card_of s) = Ready ->
  (forall s', c_disk (card_of s') = c_disk (card_of s) -> same_but_card s s' ->
     Q None s' /\
     forall bs, c_phase (card_of s') = Ready -> length bs = 512%nat ->
       (c_err (card_of s') = false -> bs = c_disk (card_of s) (key dev start)) ->
       Q (Some (take (Z.to_nat len) bs)) s') ->
  wp (ide_read_sector dev start len) Q s.
Proof.
  intros Hdev Hs Hp HQ. unfold ide_read_sector.
  apply wp_bind, wp_wait_for_idle. intros b s1 Hc1 [Hi1 Hl1]. wp_if.
  { apply wp_ret, HQ; rewrite ?Hc1; done. }
  rewrite <- Hc1 in Hp. apply wp_bind, wp_issue; [done..|]. intros d Hpd (Ha & Hsd & Hsl) Hdd.
  destruct (read_law d Hpd Ha) as [Hdisk Hph]. set (s2 := set_hws _ s1).
  unfold sector_offered in Hph. rewrite Hsd, Hsl, Hdd, Hc1 in Hph. fold (key dev start) in Hph.
  assert (c_disk (card_of s2) = c_disk (card_of s)) as Hd2 by (etrans; [exact Hdisk|by rewrite Hdd, Hc1]).
  apply wp_bind, wp_wait_for_drq. intros b3 s3 Hc3 [Hi3 Hl3] Hb3.
  assert (same_but_card s s3) as [Hi Hl] by (split; [by rewrite Hi3|by rewrite Hl3]).
  rewrite <- Hc3 in Hd2. wp_if; [by apply wp_ret, HQ|].
  destruct b3; [|done]. destruct Hph as [Hph|(ws & Hph & Hlen & Hws & Herr)]; [by destruct (Hb3 eq_refl)|].
  change (c_phase (card_of s2) = DataIn ws) in Hph. change (c_err (card_of s2) = false -> ws = words (c_disk (card_of s) (key dev start))) in Herr.
  rewrite <- Hc3 in Hph, Herr. apply wp_bind. rewrite <- Hlen.
  eapply wp_read_data; [|exact Hph|done|done|]; [by intros ->|].
  intros s4 Hp4 Hd4 He4 [Hi4 Hl4]. apply wp_ret. rewrite Z.sub_0_r.
  apply HQ; [by rewrite Hd4|split; congruence|done|by rewrite length_words_bytes, Hlen|].
  intros He. rewrite He4 in He. rewrite (Herr He).
  destruct (sector_ok (hws s) (key dev start)) as [Hsec Hbytes]. by apply (bytes_of_words 256).
Qed.

Lemma wp_ide_write_sector dev start buf len (Q : bool -> st D -> Prop) s :
  dev = 0 \/ dev = 1 -> 0 <= start -> c_phase (card_of s) = Ready ->
  bytes_ok buf -> len <= Z.of_nat (length buf) ->
  (forall s', c_disk (card_of s') = c_disk (card_of s) -> same_but_card s s' -> Q false s') ->
  (forall s', c_phase (card_of s') = Ready ->
     sector_written (key dev start) (padded 512 (take (Z.to_nat len) buf)) (card_of s) (card_of s') ->
     same_but_card s s' -> Q true s') ->
  wp (ide_write_sector dev start buf len) Q s.
Proof.
  intros Hdev Hs Hp Hb Hlen HF HT. unfold ide_write_sector.
  apply wp_bind, wp_wait_for_idle. intros b s1 Hc1 [Hi1 Hl1]. wp_if.
  { apply wp_ret, HF; rewrite ?Hc1; done. }
  rewrite <- Hc1 in Hp. apply wp_bind, wp_issue; [done..|]. intros d Hpd (Ha & Hsd & Hsl) Hdd.
  destruct (write_law d Hpd Ha) as [Hdisk Hph]. set (s2 := set_hws _ s1).
  rewrite Hsd, Hsl in Hph. fold (key dev start) in Hph.
  assert (c_disk (card_of s2) = c_disk (card_of s)) as Hd2 by (etrans; [exact Hdisk|by rewrite Hdd, Hc1]).
  apply wp_bind, wp_wait_for_drq. intros b3 s3 Hc3 [Hi3 Hl3] Hb3.
  assert (same_but_card s s3) as [Hi Hl] by (split; [by rewrite Hi3|by rewrite Hl3]).
  rewrite <- Hc3 in Hd2. wp_if; [by apply wp_ret, HF|].
  destruct b3; [|done]. destruct Hph as [Hph|Hph]; [by destruct (Hb3 eq_refl)|].
  change (c_phase (card_of s2) = DataOut dev (start mod 268435456) []) in Hph. rewrite <- Hc3 in Hph.
  apply wp_bind. eapply wp_write_data; [|exact Hph|done|done|done|lia|]; [done|].
  intros s4 Hp4 Hd4 [Hi4 Hl4]. apply wp_ret, HT; [done| |split; congruence].
  unfold sector_written in *. rewrite Hd2 in Hd4. cbn [app] in Hd4. rewrite Z.sub_0_r in Hd4.
  change (2 * sector_words)%nat with 512%nat in Hd4. unfold key.
  rewrite (bytes_of_words 256) in Hd4; [done|by rewrite padded_length|by apply padded_bytes, Forall_take].
Qed.

End Facts.

(** ** Whatever the hardware does

    The lemmas below need no law: they hold for every card and controller. *)

Section AnyHardware.
Context {D : Type} {bus : CfBus D} {layer : DiskLayer}.

(** A computation that returns and touches only the hardware; the result satisfies [P]. *)
Definition hw_only {A} (P : A -> Prop) (m : M (st D) A) : Prop :=
  forall s, wp m (fun a s' => P a /\ same_but_card s s') s.

Lemma wp_hw_only {A} (P : A -> Prop) m (Q : A -> st D -> Prop) s :
  hw_only P m -> (forall a s', P a -> same_but_card s s' -> Q a s') -> wp m Q s.
Proof. intros Hm HQ. eapply wp_mono; [apply Hm|]. intros a s' [? ?]. by apply HQ. Qed.

Lemma hw_only_ret {A} (P : A -> Prop) a : P a -> hw_only P (mret a).
Proof. intros Ha s. by apply wp_ret. Qed.

Lemma hw_only_bind {A B} (P : A -> Prop) (R : B -> Prop) (m : M (st D) A) (f : A -> M (st D) B) :
  hw_only P m -> (forall a, P a -> hw_only R (f a)) -> hw_only R (m ≫= f).
Proof.
  intros Hm Hf s. apply wp_bind. eapply wp_hw_only; [exact Hm|]. intros a s1 Ha [Hi Hl].
  eapply wp_hw_only; [by apply Hf|]. intros b s2 Hb [Hi2 Hl2]. split; [done|]. split; congruence.
Qed.

Lemma hw_only_hws (f : D -> D) : hw_only (fun _ => True) (modify (fun s => set_hws (f (hws s)) s)).
Proof. intros s. by apply wp_modify. Qed.

Lemma hw_only_READ8 r : hw_only (fun _ => True) (READ_UINT8 r).
Proof. intros s. unfold wp, READ_UINT8. by destruct (read8 r (hws s)). Qed.

Lemma hw_only_READ16 r : hw_only (fun _ => True) (READ_UINT16 r).
Proof. intros s. unfold wp, READ_UINT16. by destruct (read16 r (hws s)). Qed.

Lemma hw_only_CTL_STATUS : hw_only (fun _ => True) CTL_STATUS.
Proof. intros s. unfold wp, CTL_STATUS. by destruct (ctl_status (hws s)). Qed.

#[local] Hint Resolve hw_only_hws hw_only_READ8 hw_only_READ16 hw_only_CTL_STATUS : core.

Lemma hw_only_drq : hw_only (fun _ => True) wait_for_drq.
Proof.
  eapply hw_only_bind; [apply hw_only_hws|]. intros _ _. generalize (Z.to_nat 1000000). intros n.
  induction n as [|n IH]; cbn [drq_tries]; [by apply hw_only_ret|].
  eapply hw_only_bind; [done|]. intros v _. destruct (negb _); [by apply hw_only_ret|done].
Qed.

Lemma hw_only_words n : hw_only (fun ws => length ws = n) (read_words n).
Proof.
  induction n as [|n IH]; cbn [read_words]; [by apply hw_only_ret|].
  eapply hw_only_bind; [done|]. intros w _. eapply hw_only_bind; [exact IH|]. intros r Hr.
  apply hw_only_ret. cbn. by rewrite Hr.
Qed.

Lemma hw_only_presence c : hw_only (fun _ => True) (ide_presence_detect c).
Proof.
  unfold ide_presence_detect, DELAY_US, WRITE_UINT16.
  do 4 (eapply hw_only_bind; [done|intros ? _]). by apply hw_only_ret.
Qed.

Lemma hw_only_ident c :
  hw_only (fun b => from_option (fun ws => length ws = sector_words) True b) (ide_ident c).
Proof.
  unfold ide_ident. eapply hw_only_bind; [apply hw_only_drq|intros _ _].
  unfold WRITE_UINT8, DELAY_US. do 3 (eapply hw_only_bind; [done|intros ? _]).
  eapply hw_only_bind; [apply hw_only_drq|intros ok _].
  destruct (negb ok); [by apply hw_only_ret|].
  eapply hw_only_bind; [apply hw_only_words|]. intros ws Hws. by apply hw_only_ret.
Qed.

Lemma hw_only_reset : hw_only (fun _ => True) alt_avalon_cf_reset.
Proof.
  unfold alt_avalon_cf_reset, CTL_CONTROL, DELAY_US.
  do 3 (eapply hw_only_bind; [done|intros ? _]). done.
Qed.

(** ** Insertion *)

Lemma id_chars_some n src : (n <= length src)%nat -> is_Some (id_chars n src).
Proof.
  revert src. induction n as [|n IH]; intros [|w src] Hl; cbn in *; try (by eexists); try lia.
  destruct (IH src ltac:(lia)) as [r ->]. by eexists.
Qed.

Lemma identity_some ws : length ws = sector_words -> is_Some (identity ws).
Proof.
  intros Hl. unfold identity, id_strcpy. unfold sector_words in Hl.
  change (Z.to_nat ((20 + 1) / 2)) with 10%nat. change (Z.to_nat ((8 + 1) / 2)) with 4%nat.
  change (Z.to_nat ((40 + 1) / 2)) with 20%nat.
  destruct (id_chars_some 10 (take 10 (drop 10 ws))) as [a ->]; [rewrite length_take, length_drop; lia|].
  destruct (id_chars_some 4 (take 4 (drop 23 ws))) as [b ->]; [rewrite length_take, length_drop; lia|].
  destruct (id_chars_some 20 (take 20 (drop 27 ws))) as [c ->]; [rewrite length_take, length_drop; lia|].
  by eexists.
Qed.

(** What the disk layer is told of an insertion, from history [h]. *)
Inductive insertion (h : list call) (tab : Z) : bool -> list call -> Prop :=
| NoCard : insertion h tab false []
| NotInitialised :
    disk_init (h ++ [DiskInit tab]) tab = false -> insertion h tab false [DiskInit tab]
| Announced ident :
    disk_init (h ++ [DiskInit tab]) tab = true ->
    insertion h tab
      (disk_connected ((h ++ [DiskInit tab]) ++ [DiskConnected tab ident]) tab ident =? ENOERR)
      [DiskInit tab; DiskConnected tab ident].

Lemma wp_insert tab (Q : bool -> st D -> Prop) s :
  (forall ok evs s', insertion (log s) tab ok evs -> iface s' = iface s -> log s' = log s ++ evs -> Q ok s') ->
  wp (alt_avalon_cf_insert tab) Q s.
Proof.
  intros HQ. unfold alt_avalon_cf_insert.
  apply wp_bind. eapply wp_hw_only; [apply hw_only_presence|]. intros b s1 _ [Hi1 Hl1]. wp_if.
  { apply wp_ret. eapply HQ; [by constructor|done|by rewrite app_nil_r]. }
  apply wp_bind. eapply wp_hw_only; [apply hw_only_ident|]. intros buf s2 Hbuf [Hi2 Hl2].
  destruct buf as [ws|].
  2: { apply wp_ret. eapply HQ; [by constructor|congruence|rewrite app_nil_r; congruence]. }
  destruct (identity_some ws Hbuf) as [ident ->].
  apply wp_bind, wp_modify, wp_bind, wp_gets. cbn [log set_log]. rewrite Hl2, Hl1.
  destruct (disk_init (log s ++ [DiskInit tab]) tab) eqn:Hdi; cbn [negb].
  2: { apply wp_ret. eapply HQ; [by apply NotInitialised|cbn; congruence|done]. }
  apply wp_bind, wp_modify, wp_bind, wp_gets, wp_ret. cbn [log set_log].
  eapply HQ; [by apply Announced|cbn; congruence|cbn; by rewrite <- app_assoc].
Qed.

End AnyHardware.
