(* ===== verification/CfProps.v ===== *)
(** * Theorems about the CompactFlash driver *)

From stdpp Require Import functions.
From S2P Require Import Prelude.
From S2P Require Import Cf.

(** * A CompactFlash card that satisfies the laws

    The card is idle whenever a command comes and has its data ready at once; it
    refuses a transfer beyond its [sim_size] sectors, and takes the data for its
    bad sectors without storing them; both set its error flag. *)

(** What a stored sector is: 512 bytes. *)
Definition sector (bs : list Z) : list Z := padded 512 (map u8 bs).

Definition sectors_ok (raw : Z * Z -> list Z) : Prop :=
  forall k, length (raw k) = 512%nat /\ bytes_ok (raw k).

Lemma sector_is_ok bs : length (sector bs) = 512%nat /\ bytes_ok (sector bs).
Proof.
  split; [apply padded_length|]. apply padded_bytes, Forall_map, Forall_true. intros z.
  unfold uwrap, is_byte. cbn. apply Z.mod_pos_bound. lia.
Qed.

Lemma insert_ok raw k bs : sectors_ok raw -> sectors_ok (<[k := sector bs]> raw).
Proof.
  intros Hok j. destruct (decide (k = j)) as [<-|Hne].
  - rewrite fn_lookup_insert. apply sector_is_ok.
  - rewrite fn_lookup_insert_ne by done. apply Hok.
Qed.

Record sim := mkSim {
  sim_phase : phase;
  sim_regs : Z -> Z;
  sim_err : bool;
  sim_raw : Z * Z -> list Z;
  sim_ok : sectors_ok sim_raw;
}.

Definition set_phase (p : phase) (d : sim) : sim := mkSim p (sim_regs d) (sim_err d) (sim_raw d) (sim_ok d).

Definition set_reg (r v : Z) (d : sim) : sim :=
  mkSim (sim_phase d) (<[r := v]> (sim_regs d)) (sim_err d) (sim_raw d) (sim_ok d).

Definition set_err (e : bool) (d : sim) : sim :=
  mkSim (sim_phase d) (sim_regs d) e (sim_raw d) (sim_ok d).

Definition sim_size : Z := 1000.

(** The sectors that cannot be written. *)
Definition sim_bad (lba : Z) : bool := lba =? 13.

Definition sim_command (v : Z) (d : sim) : sim :=
  let r := sim_regs d in
  if sim_size <=? sel_lba r then set_err true d
  else if v =? 32 then set_err false (set_phase (DataIn (words (sim_raw d (sel_dev r, sel_lba r)))) d)
  else if v =? 48 then set_err false (set_phase (DataOut (sel_dev r) (sel_lba r) []) d)
  else set_err true d.

Definition sim_write8 (r v : Z) (d : sim) : sim :=
  if r =? IDE_REG_COMMAND then sim_command v d else set_reg r v d.

(** Bit 3 of the status: the card is in a data phase; bit 0: the last command failed. *)
Definition sim_read8 (r : Z) (d : sim) : Z * sim :=
  (if r =? IDE_REG_STATUS then
     match sim_phase d, sim_err d with
     | Ready, false => 64 | Ready, true => 65 | _, false => 72 | _, true => 73
     end
   else sim_regs d r, d).

Definition sim_read16 (r : Z) (d : sim) : Z * sim :=
  match sim_phase d with
  | DataIn (w :: ws) =>
      if r =? IDE_REG_DATA then (w, set_phase (match ws with [] => Ready | _ => DataIn ws end) d)
      else (sim_regs d r, d)
  | _ => (sim_regs d r, d)
  end.

Definition sim_write16 (r v : Z) (d : sim) : sim :=
  match sim_phase d with
  | DataOut dev lba ws =>
      if decide (length ws = 255%nat)
      then if sim_bad lba then set_err true (set_phase Ready d)
      else mkSim Ready (sim_regs d) false (<[(dev, lba) := sector (bytes_of (ws ++ [v]))]> (sim_raw d))
             (insert_ok _ _ _ (sim_ok d))
      else set_phase (DataOut dev lba (ws ++ [v])) d
  | _ => set_reg r (u8 v) d
  end.

#[export] Instance sim_bus : CfBus sim := {
  read8 := sim_read8;
  read16 := sim_read16;
  write8 := sim_write8;
  write16 := sim_write16;
  delay_us := fun _ d => d;
  ctl_status := fun d => (1, d);
  ctl_control := fun _ d => d;
  POWER_MSK := 2;
  RESET_MSK := 4;
  PRESENT_MSK := 1;
  IRQ_EN_MSK := 8;
}.

Definition sim_view (d : sim) : card := mkCard (sim_phase d) (sim_regs d) (sim_err d) (sim_raw d).

Lemma bytes_of_u8 ws : map u8 (bytes_of ws) = bytes_of ws.
Proof.
  induction ws as [|w ws IH]; [done|]. unfold bytes_of in *. cbn [map concat app].
  rewrite IH. by rewrite !u8_id by apply land_255_byte.
Qed.

Lemma sector_exact ws : length ws = 256%nat -> sector (bytes_of ws) = bytes_of ws.
Proof.
  intros Hl. unfold sector. rewrite bytes_of_u8.
  replace 512%nat with (length (bytes_of ws)) by (rewrite length_words_bytes; lia). apply padded_exact.
Qed.

Lemma sim_words d k : length (words (sim_raw d k)) = sector_words /\ Forall (fun w => 0 <= w < 65536) (words (sim_raw d k)).
Proof. destruct (sim_ok d k). split; [by apply words_length|by apply words_bound]. Qed.

#[export] Instance sim_laws : CfLaws sim (bus := sim_bus).
Proof.
  refine {| view := sim_view |}.
  - intros d k. apply sim_ok.
  - done.
  - intros d. split; [done|]. cbn. by destruct (sim_phase d), (sim_err d).
  - intros r v d Hr Hp. unfold write8, sim_bus, sim_write8.
    destruct (Z.eqb_spec r IDE_REG_COMMAND) as [->|]; [unfold IDE_REG_COMMAND in Hr; lia|].
    unfold sim_view. cbn in *. by rewrite Hp.
  - intros d Hp _. cbn in Hp. cbn. unfold sim_write8, sim_command. cbn.
    destruct (sim_size <=? _); [by auto|]. split; [done|]. right.
    eexists. split; [done|]. destruct (sim_words d (sel_dev (sim_regs d), sel_lba (sim_regs d))). by split_and!.
  - intros d Hp _. cbn in Hp. cbn. unfold sim_write8, sim_command. cbn.
    destruct (sim_size <=? _); by auto.
  - intros d w ws Hp. cbn in Hp. cbn. unfold sim_read16. by rewrite Hp.
  - intros d dev lba ws w Hp. cbn in Hp. cbn. unfold sim_write16. rewrite Hp.
    destruct (decide (length ws = 255%nat)); [|done]. destruct (sim_bad lba); [by split|].
    split; [done|]. split; [intros j Hj; by apply fn_lookup_insert_ne|]. intros _.
    change ((<[(dev, lba) := sector (bytes_of (ws ++ [w]))]> (sim_raw d)) (dev, lba) = bytes_of (ws ++ [w])).
    rewrite fn_lookup_insert, sector_exact; [done|rewrite length_app; cbn; lia].
Defined.

(** A blank card, and a disk layer that accepts it. *)
Definition blank : sim := mkSim Ready (fun _ => 0) false (fun _ => sector []) (fun _ => sector_is_ok []).

#[export] Instance sim_layer : DiskLayer := {
  tab_chan := fun tab => tab;
  chan_init := fun _ _ => false;
  block_size := fun _ _ => 512;
  disk_init := fun _ _ => true;
  disk_connected := fun _ _ _ => 0;
  disk_lookup := fun _ _ _ _ => 0;
  EIO := 5;
  EINVAL := 22;
}.

Definition sim_st : st sim := mkSt blank (mkIface 3 0 [None; None]) [].

(** * The theorems *)

Section Transfers.
Context {D : Type} {bus : CfBus D} {layer : DiskLayer} {laws : CfLaws D}.

Abbreviation disk_of s := (c_disk (view (hws s))).
Abbreviation phase_of s := (c_phase (view (hws s))).
Abbreviation err_of s := (c_err (view (hws s))).

Definition valid_tab (tab : Z) : Prop := tab_chan tab = 0 \/ tab_chan tab = 1.

(** The bytes a transfer of [len] blocks asks for. *)
Definition asked (s : st D) (tab len : Z) : Z := u32 (len * block_size (log s) tab).

Lemma asked_nonneg s tab len : 0 <= asked s tab len.
Proof. unfold asked, uwrap. apply Z.mod_pos_bound. lia. Qed.

(** A write fills the sector, as far as the card can, or changes nothing. *)
Lemma wp_cf_write tab buf len block (Q : Z -> st D -> Prop) s :
  valid_tab tab -> phase_of s = Ready -> bytes_ok buf -> 0 <= block ->
  asked s tab len <= Z.of_nat (length buf) ->
  (forall s', same_but_card s s' -> disk_of s' = disk_of s -> Q (- EIO) s') ->
  (forall s', same_but_card s s' -> phase_of s' = Ready ->
     sector_written (key (tab_chan tab) block) (padded 512 (take (Z.to_nat (asked s tab len)) buf))
       (view (hws s)) (view (hws s')) ->
     Q ENOERR s') ->
  wp (alt_avalon_cf_write tab buf len block) Q s.
Proof.
  intros Ht Hp Hb Hblk Hlen HF HT. unfold alt_avalon_cf_write. apply wp_bind, wp_gets, wp_bind.
  apply wp_ide_write_sector; [done..| |].
  - intros s' Hd Hs. by apply wp_ret, HF.
  - intros s' Hp' Hd Hs. by apply wp_ret, HT.
Qed.

(** A write returns whatever the card does.  When it reports success and the card
    has not set its error flag, the sector of the block, counted modulo 2^28, holds
    the first 512 bytes of the request, filled up with zeros; with the flag set, which
    the driver does not look at, it may hold anything.  No other sector of either
    device has changed.  When the driver reports an error the disk is as before. *)
Theorem cf_write_exact tab buf len block s :
  valid_tab tab -> phase_of s = Ready -> bytes_ok buf -> 0 <= block ->
  asked s tab len <= Z.of_nat (length buf) ->
  wp (alt_avalon_cf_write tab buf len block) (fun r s' =>
    same_but_card s s' /\
    ((r = - EIO /\ disk_of s' = disk_of s) \/
     (r = ENOERR /\ phase_of s' = Ready /\
      sector_written (key (tab_chan tab) block) (padded 512 (take (Z.to_nat (asked s tab len)) buf))
        (view (hws s)) (view (hws s'))))) s.
Proof. intros. apply wp_cf_write; auto. Qed.

(** A read stores the data of the sector, as much as was asked for. *)
Lemma wp_cf_read tab buf len block (Q : Z * list Z -> st D -> Prop) s :
  valid_tab tab -> phase_of s = Ready -> 0 <= block -> asked s tab len <= Z.of_nat (length buf) ->
  (forall s', disk_of s' = disk_of s -> same_but_card s s' ->
    Q (- EIO, buf) s' /\
    forall bs, phase_of s' = Ready -> length bs = 512%nat ->
      (err_of s' = false -> bs = disk_of s (key (tab_chan tab) block)) ->
      let d := take (Z.to_nat (asked s tab len)) bs in Q (ENOERR, d ++ drop (length d) buf) s') ->
  wp (alt_avalon_cf_read tab buf len block) Q s.
Proof.
  intros Ht Hp Hblk Hlen HQ. unfold alt_avalon_cf_read. apply wp_bind, wp_gets, wp_bind.
  apply wp_ide_read_sector; [done..|]. intros s' Hd Hs. destruct (HQ s' Hd Hs) as [HF HT].
  split; [by apply wp_ret|]. intros bs Hp' Hbs Hg. fold (asked s tab len).
  pose proof (asked_nonneg s tab len).
  destruct (Nat.ltb_spec (length buf) (length (take (Z.to_nat (asked s tab len)) bs))) as [Hlt|_];
    [|by apply wp_ret, HT].
  rewrite length_take in Hlt. lia.
Qed.

(** A read returns whatever the card does, leaves the disk as it is and, when it
    reports success, has put a sector's data into the buffer: as many bytes as were
    asked for, at most a sector, and nothing beyond them.  They are the data of
    the block unless the card has set its error flag. *)
Theorem cf_read_exact tab buf len block s :
  valid_tab tab -> phase_of s = Ready -> 0 <= block -> asked s tab len <= Z.of_nat (length buf) ->
  wp (alt_avalon_cf_read tab buf len block) (fun r s' =>
    disk_of s' = disk_of s /\ same_but_card s s' /\
    (r = (- EIO, buf) \/
     exists n bs, n = Nat.min (Z.to_nat (asked s tab len)) 512 /\
       r = (ENOERR, take n bs ++ drop n buf) /\ length bs = 512%nat /\
       (err_of s' = false -> bs = disk_of s (key (tab_chan tab) block)))) s.
Proof.
  intros Ht Hp Hblk Hlen. apply wp_cf_read; [done..|]. intros s' Hd Hs. split; [auto|]. intros bs _ Hbs Hg.
  split; [done|]. split; [done|]. right. eexists _, bs. split; [done|]. split; [|done].
  rewrite length_take, Hbs. f_equal. f_equal.
  destruct (Nat.min_spec (Z.to_nat (asked s tab len)) 512) as [[? ->]|[Hle ->]]; [done|].
  by rewrite !take_ge by lia.
Qed.

(** The error flag of the card. *)
Definition card_error : M (st D) bool := gets (fun s => err_of s).

(** What a client sees of a write that is followed by a read of the same block or
    another one, and the card's error flag after each of the two. *)
Record outcome := mkOutcome {
  o_write : Z;      (* result of the write *)
  o_werr : bool;
  o_read : Z;       (* result of the read *)
  o_rerr : bool;
  o_data : list Z;  (* the buffer after it *)
}.

Definition write_then_read (tab block : Z) (data : list Z) (tab' block' : Z) (buf : list Z) :
    M (st D) (option outcome) :=
  w ← alt_avalon_cf_write tab data 1 block;
  ew ← card_error;
  if w =? ENOERR then
    r ← alt_avalon_cf_read tab' buf 1 block';
    er ← card_error;
    mret (Some (mkOutcome w ew r.1 er r.2))
  else mret None.

(** C18: for a write of a block and a read after it that the driver both reports as
    successful, on a card that may stay busy, refuse a command or fail with its
    error flag set: the block written gives the data back if the card
    flagged an error neither after the write nor after the read, and a block of
    another address or of the other device gives what it held before if it flagged
    none after the read, even if the write failed.  A read that is reported as
    failed leaves the buffer alone.  (The driver itself does not look at the flag, so its
    caller does not learn of such an error.)  The buffers are a block of 512 bytes, the
    addresses of 28 bits, and the card is between two commands at the start. *)
Theorem cf_write_read tab block data tab' block' buf s :
  valid_tab tab -> valid_tab tab' -> EIO <> 0 -> (forall h t, block_size h t = 512) ->
  0 <= block < 268435456 -> 0 <= block' < 268435456 ->
  phase_of s = Ready -> bytes_ok data -> length data = 512%nat -> length buf = 512%nat ->
  wp (write_then_read tab block data tab' block' buf) (fun r _ =>
    match r with
    | None => True
    | Some o =>
        (o_read o = - EIO /\ o_data o = buf) \/
        (o_read o = ENOERR /\
         (o_rerr o = false ->
          if decide ((tab_chan tab', block') = (tab_chan tab, block))
          then o_werr o = false -> o_data o = data
          else o_data o = disk_of s (tab_chan tab', block')))
    end) s.
Proof.
  intros Ht Ht' Heio Hbs Hb Hb' Hp Hdata Hl Hl'. unfold write_then_read.
  assert (forall s t, asked s t 1 = 512) as Hask by (intros s0 t; unfold asked; by rewrite Hbs).
  assert (forall c b, 0 <= b < 268435456 -> key c b = (c, b)) as Hkey
    by (intros c b Hcb; unfold key; by rewrite Z.mod_small).
  apply wp_bind, wp_cf_write; [done..|lia|rewrite Hask; lia| |].
  { intros s' _ _. apply wp_bind, wp_gets.
    rewrite (proj2 (Z.eqb_neq (- EIO) ENOERR)) by (unfold ENOERR; lia). by apply wp_ret. }
  intros s1 Hs1 Hp1 [Hothers Hthis]. rewrite Hask in Hthis. apply wp_bind, wp_gets. cbn [Z.eqb ENOERR].
  apply wp_bind, wp_cf_read; [done..|lia|rewrite Hask; lia|]. rewrite Hask. intros s2 Hd2 Hs2. split.
  { apply wp_bind, wp_gets, wp_ret. by left. }
  intros bs _ Hlb Hgood. apply wp_bind, wp_gets, wp_ret. right. cbn [fst snd o_read o_rerr o_werr o_data].
  split; [done|]. intros Her. rewrite take_ge, Hlb, drop_ge, app_nil_r, (Hgood Her), !Hkey by lia.
  rewrite !Hkey in Hthis, Hothers by lia. case_decide as Heq.
  - intros Hew. rewrite Heq, (Hthis Hew), take_ge by lia. rewrite <- Hl. apply padded_exact.
  - by apply Hothers.
Qed.

End Transfers.

(** ** Insertion, removal, initialisation

    The theorems below hold for every card and controller. *)

Section Devices.
Context {D : Type} {bus : CfBus D} {layer : DiskLayer}.

(** What the disk layer is told of the channels, in turn: an insertion that fails,
    at any stage, is a disconnection. *)
Definition reported (tab : Z) (ok : bool) (evs : list call) : list call :=
  evs ++ (if ok then [] else [DiskDisconnected tab]).

Inductive channels_told (h : list call) : list Z -> list call -> Prop :=
| told_nil : channels_told h [] []
| told_cons tab tabs ok evs rest :
    insertion h tab ok evs ->
    channels_told (h ++ reported tab ok evs) tabs rest ->
    channels_told h (tab :: tabs) (reported tab ok evs ++ rest).

Lemma wp_insert_all l (Q : unit -> st D -> Prop) s :
  (forall evs s', channels_told (log s) (omap id l) evs -> iface s' = iface s -> log s' = log s ++ evs -> Q tt s') ->
  wp (for_devs l insert_or_disconnect) Q s.
Proof.
  revert s. induction l as [|[tab|] l IH]; intros s HQ; cbn [for_devs].
  - apply wp_ret. eapply HQ; [constructor|done|by rewrite app_nil_r].
  - apply wp_bind, wp_bind, wp_insert. intros ok evs s1 Hins Hi Hl.
    set (here := reported tab ok evs).
    assert (forall s2, iface s2 = iface s1 -> log s2 = log s ++ here ->
              wp (for_devs l insert_or_disconnect) Q s2) as Hrest.
    { intros s2 Hi2 Hl2. apply IH. intros rest s3 Ht Hi3 Hl3. eapply (HQ (here ++ rest)).
      - change (omap id (Some tab :: l)) with (tab :: omap id l).
        apply told_cons; [done|]. fold here. by rewrite <- Hl2.
      - congruence.
      - by rewrite Hl3, Hl2, app_assoc. }
    subst here. unfold reported in *. destruct ok; cbn [unless].
    + apply wp_ret, Hrest; [done|by rewrite Hl, app_nil_r].
    + apply wp_modify, Hrest; [done|]. cbn. by rewrite Hl, app_assoc.
  - by apply IH.
Qed.

Lemma wp_disconnect_all l (Q : unit -> st D -> Prop) s :
  (forall s', iface s' = iface s -> log s' = log s ++ map DiskDisconnected (omap id l) -> Q tt s') ->
  wp (for_devs l (fun tab => emit (DiskDisconnected tab))) Q s.
Proof.
  revert s. induction l as [|[tab|] l IH]; intros s HQ; cbn [for_devs].
  - apply wp_ret, HQ; [done|by rewrite app_nil_r].
  - apply wp_bind, wp_modify, IH. intros s' Hi Hl. apply HQ; [done|]. rewrite Hl. cbn. by rewrite <- app_assoc.
  - by apply IH.
Qed.

(** The whole of the handler. *)
Lemma wp_DSR vector (s : st D) :
  let tabs := omap id (take ALT_CF_NCHANNELS (devs (iface s))) in
  wp (altera_avalon_cf_DSR vector) (fun _ s' =>
    iface s' = iface s /\
    exists evs, log s' = log s ++ evs ++ [IntUnmask vector] /\
      if ctrue (Z.land (ctl_status (hws s)).1 PRESENT_MSK)
      then channels_told (log s) tabs evs
      else evs = map DiskDisconnected tabs) s.
Proof.
  intros tabs. unfold altera_avalon_cf_DSR. apply wp_bind. unfold wp at 1, CTL_STATUS.
  destruct (ctl_status (hws s)) as [status d] eqn:Hst. cbn [fst].
  apply wp_bind. wp_if.
  - apply wp_bind. eapply wp_hw_only; [apply hw_only_reset|]. intros _ s1 _ [Hi1 Hl1].
    apply wp_bind, wp_gets, wp_insert_all. intros evs s2 Ht Hi2 Hl2. apply wp_modify.
    cbn [iface log set_log set_hws] in *. rewrite Hi1, Hl1 in *. split; [by rewrite Hi2|].
    exists evs. split; [by rewrite Hl2, <- app_assoc|done].
  - apply wp_bind, wp_gets, wp_disconnect_all. intros s1 Hi1 Hl1. apply wp_modify.
    cbn [iface log set_log set_hws] in *. split; [done|]. eexists. split; [by rewrite Hl1, <- app_assoc|done].
Qed.

(** The interrupt of the interface is created when [init_done] is set, and only then. *)
Definition is_creation (c : call) : bool :=
  match c with IntCreate _ | IntAttach => true | _ => false end.

Definition creations (h : list call) : list call := filter is_creation h.

Definition int_state (s : st D) : Prop :=
  length (devs (iface s)) = ALT_CF_NCHANNELS /\
  ((init_done (iface s) = 0 /\ creations (log s) = []) \/
   (init_done (iface s) = 1 /\ creations (log s) = [IntCreate (irq (iface s)); IntAttach])).

(** A history that says nothing of creations keeps the state. *)
Lemma int_state_app (s s' : st D) evs :
  int_state s -> irq (iface s') = irq (iface s) -> init_done (iface s') = init_done (iface s) ->
  length (devs (iface s')) = length (devs (iface s)) ->
  log s' = log s ++ evs -> creations evs = [] -> int_state s'.
Proof.
  intros [Hd Hs] Hirq Hi Hdl Hl Hc. unfold int_state, creations in *.
  rewrite Hirq, Hi, Hdl, Hl, list.filter_app, Hc, app_nil_r. done.
Qed.

Lemma insertion_creations h tab ok evs : insertion h tab ok evs -> creations evs = [].
Proof. by destruct 1. Qed.

Lemma told_creations h tabs evs : channels_told h tabs evs -> creations evs = [].
Proof.
  induction 1 as [|h tab tabs ok evs rest Hins Hrest IH]; [done|].
  apply insertion_creations in Hins. unfold creations, reported in *.
  rewrite !list.filter_app, IH, Hins. by destruct ok.
Qed.

(** The whole of [alt_avalon_cf_init]. *)
Lemma wp_init tab (Q : bool -> st D -> Prop) s :
  0 <= tab_chan tab < 2 -> int_state s ->
  (chan_init (log s) tab = true -> Q true s) ->
  (forall ok evs s', insertion (log s) tab ok evs -> chan_init (log s) tab = false ->
     irq (iface s') = irq (iface s) -> init_done (iface s') = 1 ->
     devs (iface s') = <[Z.to_nat (tab_chan tab) := Some tab]> (devs (iface s)) ->
     log s' = log s ++ evs ++ (if init_done (iface s) =? 0
       then [IntCreate (irq (iface s)); IntAttach; IntUnmask (irq (iface s))] else []) ->
     Q ok s') ->
  wp (alt_avalon_cf_init tab) Q s.
Proof.
  intros Ht [Hlen Hint] Hyes Hno. unfold alt_avalon_cf_init. apply wp_bind, wp_gets. wp_if.
  { by apply wp_ret, Hyes. }
  apply wp_bind. eapply wp_hw_only; [apply hw_only_hws|]. intros _ s1 _ [Hi1 Hl1].
  apply wp_bind, wp_gets, wp_bind.
  assert (forall b (m : M (st D) unit), hw_only (fun _ => True) m -> hw_only (fun _ => True) (when b m)) as Hwhen
    by (intros [] m Hm; [exact Hm|by apply hw_only_ret]).
  eapply wp_hw_only; [apply Hwhen, hw_only_reset|]. intros _ s2 _ [Hi2 Hl2].
  apply wp_bind, wp_gets. rewrite Hi2, Hi1.
  rewrite Hlen. rewrite (proj2 (Z.leb_le 0 (tab_chan tab))) by lia.
  rewrite (proj2 (Z.ltb_lt (tab_chan tab) (Z.of_nat ALT_CF_NCHANNELS))) by (unfold ALT_CF_NCHANNELS; lia). cbn [andb negb].
  apply wp_bind, wp_modify, wp_bind.
  eapply wp_hw_only; [apply Hwhen; eapply hw_only_bind; [apply hw_only_CTL_STATUS|]; by intros; apply hw_only_ret|].
  intros _ s3 _ [Hi3 Hl3]. cbn [iface log set_iface] in Hi3, Hl3. rewrite Hi2, Hi1 in Hi3.
  apply wp_bind, wp_insert. intros ok evs s4 Hins Hi4 Hl4. rewrite Hl3, Hl2, Hl1 in Hins, Hl4.
  rewrite Hi3 in Hi4. apply wp_bind, wp_gets. rewrite Hi4. cbn [init_done irq set_devs].
  apply wp_bind, wp_when; intros Hdone; rewrite Hdone in Hno.
  - apply wp_bind. eapply wp_hw_only; [apply hw_only_CTL_STATUS|]. intros ? s5 _ [Hi5 Hl5].
    do 5 (try apply wp_bind; apply wp_modify). cbn [iface log set_log set_hws set_iface] in *. apply wp_ret.
    eapply Hno; [done|done|..]; cbn [iface log set_log set_hws set_iface set_init_done irq init_done devs] in *;
      rewrite ?Hi5, ?Hi4; try done.
    by rewrite Hl5, Hl4, <- !app_assoc.
  - apply wp_ret. eapply Hno; [done|done| | | |by rewrite app_nil_r]; rewrite Hi4; cbn; try done.
    destruct Hint as [[H0 _]|[H1 _]]; [by rewrite H0 in Hdone|done].
Qed.

(** The calls into the driver of an interface, in any order. *)
Inductive entry := Init (tab : Z) | Isr (vector : Z) | Dsr (vector : Z).

Definition enter (e : entry) : M (st D) unit :=
  match e with
  | Init tab => _ ← alt_avalon_cf_init tab; mret tt
  | Isr v => _ ← altera_avalon_cf_ISR v; mret tt
  | Dsr v => altera_avalon_cf_DSR v
  end.

Fixpoint enter_all (l : list entry) : M (st D) unit :=
  match l with [] => mret tt | e :: rest => enter e;; enter_all rest end.

(** What an entry keeps; an initialisation that runs sets [init_done]. *)
Record entered (e : entry) (s s' : st D) : Prop := {
  entered_int : int_state s';
  entered_irq : irq (iface s') = irq (iface s);
  entered_mono : init_done (iface s) = 1 -> init_done (iface s') = 1;
  entered_done tab : e = Init tab -> chan_init (log s) tab = false -> init_done (iface s') = 1;
  entered_devs c tab : devs (iface s') !! c = Some (Some tab) ->
    devs (iface s) !! c = Some (Some tab) \/ e = Init tab;
}.

Definition entry_ok (e : entry) : Prop :=
  match e with Init tab => 0 <= tab_chan tab < 2 | _ => True end.

Lemma entered_quiet e (s s' : st D) evs :
  match e with Init _ => False | _ => True end ->
  int_state s -> iface s' = iface s -> log s' = log s ++ evs -> creations evs = [] -> entered e s s'.
Proof.
  intros He Hint Hi Hl Hc. split; rewrite ?Hi; auto; [|by destruct e].
  eapply int_state_app; [exact Hint|by rewrite Hi..|exact Hl|done].
Qed.

Lemma wp_enter_init tab s :
  0 <= tab_chan tab < 2 -> int_state s -> wp (alt_avalon_cf_init tab) (fun _ s' => entered (Init tab) s s') s.
Proof.
  intros Ht Hint. apply wp_init; [done..| |].
  { intros Hci. split; auto; intros t [= ->]; by rewrite Hci. }
  intros ok evs s' Hins _ Hirq Hdone Hdevs Hlog. apply insertion_creations in Hins.
  split; auto.
  - destruct Hint as [Hlen Hint]. split; [by rewrite Hdevs, length_insert|]. right. split; [done|].
    unfold creations in *. rewrite Hlog, !list.filter_app, Hins, Hirq.
    destruct Hint as [[-> ->]|[-> ->]]; done.
  - intros c t Hc. rewrite Hdevs in Hc. apply list_lookup_insert_Some in Hc as [(_ & Heq & _)|[_ Hc]]; [|auto].
    right. congruence.
Qed.

Lemma wp_enter e s : entry_ok e -> int_state s -> wp (enter e) (fun _ s' => entered e s s') s.
Proof.
  intros He Hint. destruct e as [tab|v|v]; cbn [enter].
  - apply wp_bind. eapply wp_mono; [by apply wp_enter_init|]. intros ? s' ?. by apply wp_ret.
  - do 2 apply wp_bind. apply wp_modify, wp_ret, wp_ret. by eapply (entered_quiet _ _ _ [IntMask v]).
  - eapply wp_mono; [apply wp_DSR|]. cbn beta. intros _ s' (Hi & evs & Hl & Hevs).
    eapply entered_quiet; [done..|exact Hl|]. unfold creations. rewrite list.filter_app.
    change (creations evs ++ [] = []). rewrite app_nil_r. destruct (ctrue _).
    + by eapply told_creations.
    + rewrite Hevs. generalize (omap id (take ALT_CF_NCHANNELS (devs (iface s)))). clear.
      intros tabs. induction tabs as [|tab tabs IH]; [done|exact IH].
Qed.

(** Whatever the hardware answers, the handler of a card interrupt returns with the
    interrupt unmasked last.  Without a card every registered channel, in order,
    is reported as disconnected, and nothing else; with one, every registered
    channel is initialised and announced, or reported as disconnected. *)
Theorem cf_DSR_reports vector (s : st D) :
  let tabs := omap id (take ALT_CF_NCHANNELS (devs (iface s))) in
  wp (altera_avalon_cf_DSR vector) (fun _ s' =>
    iface s' = iface s /\
    exists evs, log s' = log s ++ evs ++ [IntUnmask vector] /\
      if ctrue (Z.land (ctl_status (hws s)).1 PRESENT_MSK)
      then channels_told (log s) tabs evs
      else evs = map DiskDisconnected tabs) s.
Proof. apply wp_DSR. Qed.

(** Through any sequence of initialisations, interrupts and their handlers, on any
    hardware: every call returns; the interrupt of the interface is created and
    attached at most once, exactly when [init_done] is set, which the first
    initialisation of a channel does; and the table of channels holds only
    entries that were initialised. *)
Theorem cf_created_once l s :
  Forall entry_ok l -> int_state s ->
  wp (enter_all l) (fun _ s' =>
    int_state s' /\ irq (iface s') = irq (iface s) /\
    (init_done (iface s) = 1 \/ (exists tab, Init tab ∈ l /\ forall h, chan_init h tab = false) ->
     init_done (iface s') = 1) /\
    forall c tab, devs (iface s') !! c = Some (Some tab) ->
      devs (iface s) !! c = Some (Some tab) \/ Init tab ∈ l) s.
Proof.
  intros Hl. revert s. induction Hl as [|e l He Hl IH]; intros s Hint; cbn [enter_all].
  { apply wp_ret. split; [done|]. split; [done|]. split; [|auto].
    intros [?|(tab & Htab & _)]; [done|]. by apply elem_of_nil in Htab. }
  apply wp_bind. eapply wp_mono; [by apply wp_enter|]. intros _ s1 [Hi1 Hq1 Hm1 Hd1 Hv1].
  eapply wp_mono; [by apply IH|]. cbn beta. intros _ s2 (Hi2 & Hq2 & Hd2 & Hv2).
  split; [done|]. split; [congruence|]. split.
  - intros [H1|(tab & Htab & Hci)]; apply Hd2; [by auto|].
    apply elem_of_cons in Htab as [<-|Htab]; [left; by eapply Hd1|right; eauto].
  - intros c tab Hc. rewrite elem_of_cons. destruct (Hv2 c tab Hc) as [Hc1|?]; [|auto].
    destruct (Hv1 c tab Hc1) as [?| ->]; auto.
Qed.

End Devices.

(** ** Witnesses *)

Definition sample_block : list Z := map (fun n => Z.of_nat n mod 256) (seq 0 512).

Lemma sample_bytes : bytes_ok sample_block.
Proof.
  apply Forall_map, Forall_true. intros n. unfold is_byte. cbn. apply Z.mod_pos_bound. lia.
Qed.

Lemma cf_write_exact_witness :
  wp (alt_avalon_cf_write 1 sample_block 1 268435461) (fun r s' =>
    same_but_card sim_st s' /\
    ((r = - EIO /\ c_disk (view (hws s')) = c_disk (view (hws sim_st))) \/
     (r = ENOERR /\ c_phase (view (hws s')) = Ready /\
      sector_written (key (tab_chan 1) 268435461)
        (padded 512 (take (Z.to_nat (asked sim_st 1 1)) sample_block))
        (view (hws sim_st)) (view (hws s'))))) sim_st.
Proof.
  apply (cf_write_exact 1 sample_block 1 268435461 sim_st);
    [by right|reflexivity|apply sample_bytes|lia|by vm_compute].
Defined.

Lemma cf_read_exact_witness :
  wp (alt_avalon_cf_read 0 sample_block 1 7) (fun r s' =>
    c_disk (view (hws s')) = c_disk (view (hws sim_st)) /\ same_but_card sim_st s' /\
    (r = (- EIO, sample_block) \/
     exists n bs, n = Nat.min (Z.to_nat (asked sim_st 0 1)) 512 /\
       r = (ENOERR, take n bs ++ drop n sample_block) /\ length bs = 512%nat /\
       (c_err (view (hws s')) = false -> bs = c_disk (view (hws sim_st)) (key (tab_chan 0) 7)))) sim_st.
Proof.
  apply (cf_read_exact 0 sample_block 1 7 sim_st); [by left|reflexivity|lia|by vm_compute].
Defined.

Lemma cf_write_read_witness :
  wp (write_then_read 1 9 sample_block 1 9 (replicate 512 0)) (fun r _ =>
    match r with
    | None => True
    | Some o =>
        (o_read o = - EIO /\ o_data o = replicate 512 0) \/
        (o_read o = ENOERR /\
         (o_rerr o = false ->
          if decide ((tab_chan 1, 9) = (tab_chan 1, 9))
          then o_werr o = false -> o_data o = sample_block
          else o_data o = c_disk (view (hws sim_st)) (tab_chan 1, 9)))
    end) sim_st.
Proof.
  apply (cf_write_read 1 9 sample_block 1 9 (replicate 512 0) sim_st);
    [by right|by right|done|done|lia|lia|reflexivity|apply sample_bytes|reflexivity|reflexivity].
Defined.

(** What the two calls give on the card: the data of a good sector; of a bad one the old
    data, though both calls report success. *)
Definition given (block : Z) : option outcome :=
  match write_then_read 1 block sample_block 1 block (replicate 512 1) sim_st with
  | Ret (o, _) => o
  | _ => None
  end.

Example good_sector : given 9 = Some (mkOutcome ENOERR false ENOERR false sample_block).
Proof. by vm_compute. Qed.

Example bad_sector_unnoticed : given 13 = Some (mkOutcome ENOERR true ENOERR false (replicate 512 0)).
Proof. by vm_compute. Qed.

Example no_such_sector : given 1000 = None.
Proof. by vm_compute. Qed.

Lemma cf_created_once_witness :
  wp (enter_all [Init 1; Isr 3; Dsr 3; Init 0]) (fun _ s' =>
    int_state s' /\ irq (iface s') = irq (iface sim_st) /\
    (init_done (iface sim_st) = 1 \/
     (exists tab, Init tab ∈ [Init 1; Isr 3; Dsr 3; Init 0] /\ forall h, chan_init h tab = false) ->
     init_done (iface s') = 1) /\
    forall c tab, devs (iface s') !! c = Some (Some tab) ->
      devs (iface sim_st) !! c = Some (Some tab) \/ Init tab ∈ [Init 1; Isr 3; Dsr 3; Init 0]) sim_st.
Proof.
  apply (cf_created_once [Init 1; Isr 3; Dsr 3; Init 0] sim_st).
  - repeat constructor; cbn; lia.
  - split; [done|]. by left.
Defined.
