(* ===== verification/Serial.v ===== *)
(** * The serial layer above the UART drivers

    The eCos serial layer is outside the repository.  The drivers call it through
    callbacks, and a callback may call functions of the driver: it is a program
    [prog], a tree of such calls with the new state of the layer at its leaves.
    [SerialLayer] has the callbacks; [SerialLaws] says what the layer makes of the
    characters it is given. *)

From S2P Require Import Prelude.

(** What a callback does: calls of the driver's [putc], [stop_xmit] and [set_config]
    (with the key that throttles reception), then its end. *)
Inductive prog (U A : Type) :=
| Done (u : U) (a : A)
| Putc (c : Z) (k : bool -> prog U A)
| StopXmit (k : prog U A)
| Throttle (on : Z) (k : Z -> prog U A).

Arguments Done {U A}.
Arguments Putc {U A}.
Arguments StopXmit {U A}.
Arguments Throttle {U A}.

(** Every way the program can end satisfies [P]. *)
Fixpoint leaves {U A} (P : U -> A -> Prop) (p : prog U A) : Prop :=
  match p with
  | Done u a => P u a
  | Putc _ k => forall b, leaves P (k b)
  | StopXmit k => leaves P k
  | Throttle _ k => forall r, leaves P (k r)
  end.

(** The program sends nothing. *)
Fixpoint silent {U A} (p : prog U A) : Prop :=
  match p with
  | Done _ _ => True
  | Putc _ _ => False
  | StopXmit k => silent k
  | Throttle _ k => forall r, silent (k r)
  end.

(** A run of the program: the characters the driver takes, by the answers it gives,
    and the leaf where the run ends. *)
Inductive accepted {U A} : prog U A -> list Z -> U -> A -> Prop :=
| acc_done u a : accepted (Done u a) [] u a
| acc_putc c k (b : bool) l u a : accepted (k b) l u a -> accepted (Putc c k) ((if b then [c] else []) ++ l) u a
| acc_stop k l u a : accepted k l u a -> accepted (StopXmit k) l u a
| acc_throttle on k r l u a : accepted (k r) l u a -> accepted (Throttle on k) l u a.

Lemma accepted_leaf {U A} (P : U -> A -> Prop) (p : prog U A) l u a :
  accepted p l u a -> leaves P p -> P u a.
Proof. induction 1; cbn; auto. Qed.

Lemma accepted_silent {U A} (p : prog U A) l u a : accepted p l u a -> silent p -> l = [].
Proof. induction 1; cbn; auto. done. Qed.

Class SerialLayer (U : Type) := {
  serial_init : U -> U;
  (* whether there is space, and how much *)
  data_rcv_req : Z -> U -> prog U (bool * Z);
  (* the count, and what is in the space *)
  data_rcv_done : Z -> list Z -> U -> prog U unit;
  rcv_char : Z -> U -> prog U unit;
  xmt_char : U -> prog U unit;
  (* the characters, if the pointers were set *)
  data_xmt_req : Z -> U -> prog U (option (list Z));
  data_xmt_done : Z -> U -> prog U unit;
}.

(** The layer takes over what is reported as received, and offers space when it says so. *)
Class SerialLaws (U : Type) {layer : SerialLayer U} := {
  received : U -> list Z;
  rcv_req_law n u : 0 < n ->
    leaves (fun u' r => received u' = received u /\ (r.1 = true -> 0 < r.2 <= n)) (data_rcv_req n u);
  rcv_done_law bs u : leaves (fun u' _ => received u' = received u ++ bs) (data_rcv_done (Z.of_nat (length bs)) bs u);
  rcv_char_law c u : leaves (fun u' _ => received u' = received u ++ [c]) (rcv_char c u);
  xmt_char_law u : leaves (fun u' _ => received u' = received u) (xmt_char u);
  xmt_req_law n u : 0 <= n ->
    leaves (fun u' r => received u' = received u /\ forall cs, r = Some cs -> Z.of_nat (length cs) <= n)
      (data_xmt_req n u);
  (* sending is not its business: the characters are returned *)
  xmt_req_silent n u : silent (data_xmt_req n u);
  xmt_done_law n u : leaves (fun u' _ => received u' = received u) (data_xmt_done n u);
}.

(** A driver's calls to the interrupt system. *)
Inductive call :=
| IntCreate (irq : Z) | IntAttach | IntMask (v : Z) | IntUnmask (v : Z).

(** ** A layer with a buffer

    The input buffer has [rx_room] places left; the characters to send are a list. *)

Record buffers := mkBuffers {
  rx_data : list Z;
  rx_room : nat;
  tx_data : list Z;
}.

(** Sends characters while the driver takes them, then stops the transmission. *)
Fixpoint send_all (rx : list Z) (room : nat) (tx : list Z) : prog buffers unit :=
  match tx with
  | [] => StopXmit (Done (mkBuffers rx room []) tt)
  | c :: rest => Putc c (fun ok => if (ok : bool) then send_all rx room rest else Done (mkBuffers rx room tx) tt)
  end.

#[export] Instance buffer_layer : SerialLayer buffers := {
  serial_init b := b;
  data_rcv_req n b := Done b (bool_decide (0 < rx_room b)%nat, Z.min n (Z.of_nat (rx_room b)));
  data_rcv_done n bs b :=
    Done (mkBuffers (rx_data b ++ bs) (rx_room b - length bs) (tx_data b)) tt;
  rcv_char c b := Done (mkBuffers (rx_data b ++ [c]) (rx_room b - 1) (tx_data b)) tt;
  xmt_char b := send_all (rx_data b) (rx_room b) (tx_data b);
  data_xmt_req n b :=
    if tx_data b is [] then StopXmit (Done b None) else Done b (Some (take (Z.to_nat n) (tx_data b)));
  data_xmt_done n b := Done (mkBuffers (rx_data b) (rx_room b) (drop (Z.to_nat n) (tx_data b))) tt;
}.

Lemma send_all_leaves rx room tx : leaves (fun u' _ => rx_data u' = rx) (send_all rx room tx).
Proof. induction tx as [|c tx IH]; cbn; [done|]. by intros []. Qed.

#[export, refine] Instance buffer_laws : SerialLaws buffers := { received := rx_data }.
Proof.
  - intros n u Hn. cbn. split; [done|]. intros Hok%bool_decide_eq_true. lia.
  - done.
  - done.
  - intros u. apply send_all_leaves.
  - intros n u Hn. cbn. destruct (tx_data u) as [|c tx]; cbn; (split; [done|]); [done|].
    intros cs [= <-]. rewrite length_take. lia.
  - intros n u. cbn. by destruct (tx_data u).
  - done.
Defined.
