(* ===== verification/Uart.v ===== *)
(** * The UART driver
    (packages/devs/serial/sopc/altera_avalon_uart, altera_avalon_uart.c)

    The registers of the UART are the class [UartRegs]; their bits are defined by
    the vendor's header.  A state is one channel: the device, the serial layer,
    the configuration and the trace of calls to the interrupt system. *)

From S2P Require Import Prelude.
From S2P Require Import Serial.

Class UartRegs (D : Type) := {
  IORD_STATUS : D -> Z * D;
  IOWR_STATUS : Z -> D -> D;
  IORD_RXDATA : D -> Z * D;
  IOWR_TXDATA : Z -> D -> D;
  IORD_CONTROL : D -> Z * D;
  IOWR_CONTROL : Z -> D -> D;
  IOWR_DIVISOR : Z -> D -> D;
  DELAY_US : Z -> D -> D;
  (* the bits of the status and control registers *)
  PE_MSK : Z;
  FE_MSK : Z;
  TRDY_MSK : Z;
  RRDY_MSK : Z;
  DCTS_MSK : Z;
  CTS_MSK : Z;
  RTS_MSK : Z;
}.

(** Flags of the device. *)
Definition ALT_AVALON_UART_FB : Z := 1.
Definition ALT_AVALON_UART_FC : Z := 2.

(** Constants of eCos. *)
Definition ENOERR : Z := 0.

Class SerialConfig := {
  KEY_SERIAL_INFO : Z;
  sizeof_info : Z;
  CYGNUM_SERIAL_FLOW_RTSCTS_TX : Z;
  CYG_ISR_CALL_DSR : Z;
  EINVAL : Z;
}.

Record cyg_serial_info_t := mkInfo {
  baud : Z;
  stop : Z;
  parity : Z;
  word_length : Z;
  flags : Z
}.

(** The channel and its device. *)
Record chan (D U : Type) := mkChan {
  hw : D;
  layer : U;
  config : cyg_serial_info_t;
  out_len : Z;     (* the size of the output buffer *)
  irq : Z;
  freq : Z;        (* the clock of the device *)
  dev_flags : Z;   (* the hardware configuration *)
  calls : list call
}.

Arguments mkChan {D U}.
Arguments hw {D U}.
Arguments layer {D U}.
Arguments config {D U}.
Arguments out_len {D U}.
Arguments irq {D U}.
Arguments freq {D U}.
Arguments dev_flags {D U}.
Arguments calls {D U}.

Definition set_hw {D U} (v : D) (s : chan D U) : chan D U :=
  mkChan v (layer s) (config s) (out_len s) (irq s) (freq s) (dev_flags s) (calls s).

Definition set_layer {D U} (v : U) (s : chan D U) : chan D U :=
  mkChan (hw s) v (config s) (out_len s) (irq s) (freq s) (dev_flags s) (calls s).

Definition set_config {D U} (v : cyg_serial_info_t) (s : chan D U) : chan D U :=
  mkChan (hw s) (layer s) v (out_len s) (irq s) (freq s) (dev_flags s) (calls s).

Definition set_calls {D U} (v : list call) (s : chan D U) : chan D U :=
  mkChan (hw s) (layer s) (config s) (out_len s) (irq s) (freq s) (dev_flags s) v.

(** The table of baud rates. *)
Definition altera_avalon_uart_speed : list Z :=
  [50; 75; 110; 134; 150; 200; 300; 600; 1200; 1800; 2400; 3600; 4800; 7200; 9600;
   14400; 19200; 38400; 57600; 115200; 230400].

Section Driver.
Context {D U : Type} {regs : UartRegs D} {upper : SerialLayer U} {cfg : SerialConfig}.

Definition iord (f : D -> Z * D) : M (chan D U) Z := fun s =>
  let '(v, d) := f (hw s) in Ret (v, set_hw d s).

Definition iowr (f : D -> D) : M (chan D U) unit := modify (fun s => set_hw (f (hw s)) s).

Definition emit (c : call) : M (chan D U) unit := modify (fun s => set_calls (calls s ++ [c]) s).

Definition altera_avalon_uart_putc (c : Z) : M (chan D U) bool :=
  status ← iord IORD_STATUS;
  s ← get;
  if (Z.land (dev_flags s) ALT_AVALON_UART_FC =? 0)
     || (Z.land (flags (config s)) CYGNUM_SERIAL_FLOW_RTSCTS_TX =? 0)
     || ctrue (Z.land status CTS_MSK)
  then
    if ctrue (Z.land status TRDY_MSK) then iowr (IOWR_TXDATA c);; mret true
    else mret false
  else mret false.

(** The inner loop: until a character has been received. *)
Fixpoint poll_rrdy (fuel : nat) : M (chan D U) Z :=
  match fuel with
  | O => no_fuel
  | S k =>
      status ← iord IORD_STATUS;
      iowr (IOWR_STATUS 0);;
      if Z.land status RRDY_MSK =? 0 then poll_rrdy k else mret status
  end.

(** [polls] bounds each wait, [fuel] the characters that are received with errors. *)
Fixpoint altera_avalon_uart_getc (polls fuel : nat) : M (chan D U) Z :=
  match fuel with
  | O => no_fuel
  | S k =>
      status ← poll_rrdy polls;
      data ← iord IORD_RXDATA;
      if ctrue (Z.land status (Z.lor PE_MSK FE_MSK)) then altera_avalon_uart_getc polls k
      else mret (u8 data)
  end.

(** The new configuration is copied: when it is the channel's own this changes nothing. *)
Definition altera_avalon_uart_config_port (new_config : cyg_serial_info_t) : M (chan D U) bool :=
  s ← get;
  let old := config s in
  if negb (stop new_config =? stop old) || negb (parity new_config =? parity old)
     || negb (word_length new_config =? word_length old) then mret false
  else if ctrue (Z.land (dev_flags s) ALT_AVALON_UART_FB) && negb (baud new_config =? baud old) then mret false
  else if ((Z.land (dev_flags s) ALT_AVALON_UART_FC =? 0) && negb (flags new_config =? flags old))
     || negb (Z.land (flags new_config) (Z.lnot CYGNUM_SERIAL_FLOW_RTSCTS_TX)
              =? Z.land (flags old) (Z.lnot CYGNUM_SERIAL_FLOW_RTSCTS_TX)) then mret false
  else if baud new_config - 1 <? 0 then undef
  else
    match altera_avalon_uart_speed !! Z.to_nat (baud new_config - 1) with
    | None => undef
    | Some speed =>
        iowr (IOWR_DIVISOR (u32 (freq s / speed - 1)));;
        modify (set_config new_config);;
        mret true
    end.

(** The result and what the length pointer holds afterwards. *)
Definition altera_avalon_uart_set_config (key : Z) (xbuf : cyg_serial_info_t) (len : Z) : M (chan D U) (Z * Z) :=
  if key =? KEY_SERIAL_INFO then
    if len <? sizeof_info then mret (- EINVAL, len)
    else
      ok ← altera_avalon_uart_config_port xbuf;
      if negb ok then mret (- EINVAL, sizeof_info) else mret (ENOERR, sizeof_info)
  else mret (- EINVAL, len).

Definition altera_avalon_uart_stop_xmit : M (chan D U) unit :=
  ctrl ← iord IORD_CONTROL;
  iowr (IOWR_CONTROL (Z.land ctrl (u32 (Z.lnot (Z.lor TRDY_MSK DCTS_MSK))))).

(** A callback of the serial layer; the driver has no key that throttles reception. *)
Fixpoint callback {A} (p : prog U A) : M (chan D U) A :=
  match p with
  | Done u a => modify (set_layer u);; mret a
  | Putc c k => b ← altera_avalon_uart_putc c; callback (k b)
  | StopXmit k => altera_avalon_uart_stop_xmit;; callback k
  | Throttle _ k => callback (k (- EINVAL))
  end.

Definition call_layer {A} (f : U -> prog U A) : M (chan D U) A :=
  u ← gets layer; callback (f u).

Definition altera_avalon_uart_start_xmit : M (chan D U) unit :=
  call_layer xmt_char;;
  ctrl ← iord IORD_CONTROL;
  iowr (IOWR_CONTROL (Z.lor ctrl (Z.lor TRDY_MSK DCTS_MSK))).

Definition altera_avalon_uart_ISR (vector : Z) : M (chan D U) Z :=
  emit (IntMask vector);; mret CYG_ISR_CALL_DSR.

(** The drop loop: what is received is thrown away.  The result is [save_status]. *)
Fixpoint rx_drop (fuel : nat) (save : Z) : M (chan D U) Z :=
  match fuel with
  | O => no_fuel
  | S k =>
      status ← iord IORD_STATUS;
      iowr (IOWR_STATUS 0);;
      if Z.land status RRDY_MSK =? 0 then mret (Z.lor save status)
      else _ ← iord IORD_RXDATA; rx_drop k (Z.lor save status)
  end.

(** The loop that fills the space.  The results: whether it ended with [goto xmit],
    [space_avail], what was stored and [save_status]. *)
Fixpoint rx_fill (fuel : nat) (space_avail : Z) (stored : list Z) (save : Z) :
    M (chan D U) (bool * Z * list Z * Z) :=
  match fuel with
  | O => no_fuel
  | S k =>
      if negb (space_avail >? 0) then mret (false, space_avail, stored, save)
      else
        status ← iord IORD_STATUS;
        iowr (IOWR_STATUS 0);;
        if ctrue (Z.land status RRDY_MSK) then
          data ← iord IORD_RXDATA;
          if negb (ctrue (Z.land status (Z.lor PE_MSK FE_MSK))) then
            rx_fill k (space_avail - 1) (stored ++ [u8 data]) (Z.lor save status)
          else rx_fill k space_avail stored (Z.lor save status)
        else mret (true, space_avail, stored, Z.lor save status)
  end.

Fixpoint rx_loop (fuel : nat) (save : Z) : M (chan D U) Z :=
  match fuel with
  | O => no_fuel
  | S k =>
      r ← call_layer (data_rcv_req 4096);
      let '(canReceive, num) := (r : bool * Z) in
      if negb canReceive then rx_drop fuel save
      else
        r ← rx_fill (S fuel) num [] save;
        let '(xmit, space_avail, stored, save) := (r : bool * Z * list Z * Z) in
        call_layer (data_rcv_done (num - space_avail) stored);;
        if xmit then mret save else rx_loop k save
  end.

(** [fuel] bounds the characters that arrive while the handler runs. *)
Definition altera_avalon_uart_DSR (fuel : nat) (vector : Z) : M (chan D U) unit :=
  save_status ← rx_loop fuel 0;
  when (ctrue (Z.land save_status (Z.lor TRDY_MSK DCTS_MSK))) (call_layer xmt_char);;
  emit (IntUnmask vector).

Definition altera_avalon_uart_init : M (chan D U) bool :=
  modify (fun s => set_layer (serial_init (layer s)) s);;
  s ← get;
  when (negb (out_len s =? 0))
    (emit (IntCreate (irq s));;
     emit IntAttach;;
     iowr (IOWR_CONTROL (Z.lor (Z.lor RTS_MSK RRDY_MSK) DCTS_MSK));;
     emit (IntUnmask (irq s)));;
  mret true.

Definition altera_avalon_uart_lookup : M (chan D U) Z := mret ENOERR.

End Driver.
