(* ===== verification/JtagUart.v ===== *)
(** * The JTAG UART driver
    (packages/devs/serial/sopc/altera_avalon_jtag_uart, altera_avalon_jtag_uart.c)

    As for the UART ([Uart]), the registers are a class with the bits of the
    vendor's header, and a state is one channel. *)

From S2P Require Import Prelude.
From S2P Require Import Serial.

Class JtagRegs (D : Type) := {
  IORD_DATA : D -> Z * D;
  IOWR_DATA : Z -> D -> D;
  IORD_CONTROL : D -> Z * D;
  IOWR_CONTROL : Z -> D -> D;
  DELAY_US : Z -> D -> D;
  RVALID_MSK : Z;
  DATA_MSK : Z;
  DATA_OFST : Z;
  RAVAIL_MSK : Z;
  RAVAIL_OFST : Z;
  WSPACE_MSK : Z;
  WSPACE_OFST : Z;
  WE_MSK : Z;
  RE_MSK : Z;
  WI_MSK : Z;
  RI_MSK : Z;
}.

Definition ENOERR : Z := 0.

(** Of eCos, and of the configuration: whether the serial layer has flow control
    by hardware, and whether the name of a device is that of the debug or console channel. *)
Class JtagConfig := {
  KEY_RX_THROTTLE : Z;
  CYG_ISR_CALL_DSR : Z;
  EINVAL : Z;
  EPERM : Z;
  flow_control_hw : bool;
  is_debug_dev : list Z -> bool;
  is_console_dev : list Z -> bool;
}.

Record chan (D U : Type) := mkChan {
  hw : D;
  layer : U;
  out_len : Z;  (* the size of the output buffer *)
  irq : Z;
  calls : list call
}.

Arguments mkChan {D U}.
Arguments hw {D U}.
Arguments layer {D U}.
Arguments out_len {D U}.
Arguments irq {D U}.
Arguments calls {D U}.

Definition set_hw {D U} (v : D) (s : chan D U) : chan D U :=
  mkChan v (layer s) (out_len s) (irq s) (calls s).

Definition set_layer {D U} (v : U) (s : chan D U) : chan D U :=
  mkChan (hw s) v (out_len s) (irq s) (calls s).

Definition set_calls {D U} (v : list call) (s : chan D U) : chan D U :=
  mkChan (hw s) (layer s) (out_len s) (irq s) v.

(** A field of a register. *)
Definition field (mask ofst v : Z) : Z := Z.shiftr (Z.land v mask) ofst.

Section Driver.
Context {D U : Type} {regs : JtagRegs D} {upper : SerialLayer U} {cfg : JtagConfig}.

Definition iord (f : D -> Z * D) : M (chan D U) Z := fun s =>
  let '(v, d) := f (hw s) in Ret (v, set_hw d s).

Definition iowr (f : D -> D) : M (chan D U) unit := modify (fun s => set_hw (f (hw s)) s).

Definition emit (c : call) : M (chan D U) unit := modify (fun s => set_calls (calls s ++ [c]) s).

(** The bits of the control register that are changed by reading and writing it. *)
Definition control_set (m : Z) : M (chan D U) unit :=
  control ← iord IORD_CONTROL; iowr (IOWR_CONTROL (Z.lor control m)).

Definition control_clear (m : Z) : M (chan D U) unit :=
  control ← iord IORD_CONTROL; iowr (IOWR_CONTROL (Z.land control (u32 (Z.lnot m)))).

Definition altera_avalon_jtag_uart_putc (c : Z) : M (chan D U) bool :=
  control ← iord IORD_CONTROL;
  if ctrue (Z.land control WSPACE_MSK) then iowr (IOWR_DATA c);; mret true
  else mret false.

Fixpoint altera_avalon_jtag_uart_getc (fuel : nat) : M (chan D U) Z :=
  match fuel with
  | O => no_fuel
  | S k =>
      data ← iord IORD_DATA;
      if Z.land data RVALID_MSK =? 0 then altera_avalon_jtag_uart_getc k
      else mret (u8 (field DATA_MSK DATA_OFST data))
  end.

Definition altera_avalon_jtag_uart_start_xmit : M (chan D U) unit := control_set WE_MSK.

Definition altera_avalon_jtag_uart_stop_xmit : M (chan D U) unit := control_clear WE_MSK.

(** [xbuf] is the first byte of the argument. *)
Definition altera_avalon_jtag_uart_set_config (key xbuf len : Z) : M (chan D U) Z :=
  if key =? KEY_RX_THROTTLE then
    if negb (len =? 4) then mret (- EINVAL)
    else if xbuf =? 1 then control_clear RE_MSK;; mret ENOERR
    else if xbuf =? 0 then control_set RE_MSK;; mret ENOERR
    else mret (- EINVAL)
  else mret (- EINVAL).

Fixpoint callback {A} (p : prog U A) : M (chan D U) A :=
  match p with
  | Done u a => modify (set_layer u);; mret a
  | Putc c k => b ← altera_avalon_jtag_uart_putc c; callback (k b)
  | StopXmit k => altera_avalon_jtag_uart_stop_xmit;; callback k
  | Throttle on k => r ← altera_avalon_jtag_uart_set_config KEY_RX_THROTTLE on 4; callback (k r)
  end.

Definition call_layer {A} (f : U -> prog U A) : M (chan D U) A :=
  u ← gets layer; callback (f u).

Definition altera_avalon_jtag_uart_ISR (vector : Z) : M (chan D U) Z :=
  emit (IntMask vector);; mret CYG_ISR_CALL_DSR.

Fixpoint write_fifo (cs : list Z) : M (chan D U) unit :=
  match cs with
  | [] => mret tt
  | c :: rest => iowr (IOWR_DATA c);; write_fifo rest
  end.

(** [n] more characters, each passed up. *)
Fixpoint pass_up (n : nat) : M (chan D U) unit :=
  match n with
  | O => mret tt
  | S k =>
      data ← iord IORD_DATA;
      call_layer (rcv_char (u8 (field DATA_MSK DATA_OFST data)));;
      pass_up k
  end.

(** [n] more characters, stored in the space of the layer. *)
Fixpoint store_up (n : nat) : M (chan D U) (list Z) :=
  match n with
  | O => mret []
  | S k => data ← iord IORD_DATA; r ← store_up k; mret (u8 data :: r)
  end.

(** The write interrupt: the reply of the layer is not looked at. *)
Definition dsr_write (control : Z) : M (chan D U) unit :=
  r ← call_layer (data_xmt_req (field WSPACE_MSK WSPACE_OFST control));
  match r with
  | None => undef
  | Some cs =>
      write_fifo cs;;
      call_layer (data_xmt_done (Z.of_nat (length cs)))
  end.

Definition dsr_read : M (chan D U) unit :=
  data ← iord IORD_DATA;
  call_layer (rcv_char (u8 (field DATA_MSK DATA_OFST data)));;
  let chars_avail := field RAVAIL_MSK RAVAIL_OFST data in
  when (ctrue chars_avail)
    (if flow_control_hw then
       r ← call_layer (data_rcv_req chars_avail);
       let '(ok, chars_avail) := (r : bool * Z) in
       stored ← (if ok then store_up (Z.to_nat chars_avail) else mret []);
       call_layer (data_rcv_done chars_avail stored)
     else pass_up (Z.to_nat chars_avail)).

Definition altera_avalon_jtag_uart_DSR (vector : Z) : M (chan D U) unit :=
  control ← iord IORD_CONTROL;
  when (ctrue (Z.land control WI_MSK)) (dsr_write control);;
  when (ctrue (Z.land control RI_MSK)) dsr_read;;
  emit (IntUnmask vector).

Definition altera_avalon_jtag_uart_init : M (chan D U) bool :=
  modify (fun s => set_layer (serial_init (layer s)) s);;
  s ← get;
  when (negb (out_len s =? 0)) (emit (IntCreate (irq s));; emit IntAttach);;
  mret true.

(** [name] is the name of the entry. *)
Definition altera_avalon_jtag_uart_lookup (name : list Z) : M (chan D U) Z :=
  if negb (is_debug_dev name) && negb (is_console_dev name) then
    modify (fun s => set_layer (serial_init (layer s)) s);;
    iowr (IOWR_CONTROL RE_MSK);;
    s ← get;
    emit (IntUnmask (irq s));;
    mret ENOERR
  else mret (- EPERM).

End Driver.
