(* ===== verification/Diag.v ===== *)
(** * Polled character channels for the debugger and the console
    (packages/hal/sopc: altera_avalon_uart_comm.c, altera_avalon_jtag_uart_comm.c)

    Both drivers have the same functions above their [putc] and [getc_nonblock].
    They are defined here for any port that has these two (class [DiagPort]), and
    proved against what such a port promises ([DiagLaws]). *)

From S2P Require Import Prelude.

(** Calls to the interrupt system, and delays. *)
Inductive hal_call :=
| SetLevel (irq level : Z) | Mask (irq : Z) | Unmask (irq : Z) | Acknowledge (irq : Z) | Delay (us : Z).

(** A channel, with the static variable of its driver. *)
Record comm (D : Type) := mkComm {
  hw : D;
  irq : Z;
  irq_state : Z;
  hal : list hal_call
}.

Arguments mkComm {D}.
Arguments hw {D}.
Arguments irq {D}.
Arguments irq_state {D}.
Arguments hal {D}.

Definition set_hw {D} (v : D) (s : comm D) : comm D := mkComm v (irq s) (irq_state s) (hal s).

Definition set_irq_state {D} (v : Z) (s : comm D) : comm D := mkComm (hw s) (irq s) v (hal s).

Definition set_hal {D} (v : list hal_call) (s : comm D) : comm D := mkComm (hw s) (irq s) (irq_state s) v.

(** A port: [putc] waits at most so many polls; [getc_nonblock] returns its result
    and what it stores at [ch], if anything. *)
Class DiagPort (D : Type) := {
  port_putc : nat -> Z -> M (comm D) unit;
  port_getc_nonblock : M (comm D) (bool * option Z);
  port_delay : Z -> D -> D;
}.

Section Driver.
Context {D : Type} {port : DiagPort D}.

Definition emit (c : hal_call) : M (comm D) unit := modify (fun s => set_hal (hal s ++ [c]) s).

Definition HAL_DELAY_US (us : Z) : M (comm D) unit :=
  modify (fun s => set_hw (port_delay us (hw s)) s);; emit (Delay us).

(** [ch] is what the local variable holds; [fuel] bounds the calls. *)
Fixpoint diag_getc_loop (fuel : nat) (ch : option Z) : M (comm D) Z :=
  match fuel with
  | O => no_fuel
  | S k =>
      r ← port_getc_nonblock;
      let ch' := if r.2 is Some c then Some c else ch in
      if negb (r.1 : bool) then diag_getc_loop k ch'
      else match ch' with Some c => mret c | None => undef end
  end.

Definition diag_getc (fuel : nat) : M (comm D) Z := diag_getc_loop fuel None.

Fixpoint diag_write_loop (polls : nat) (n : nat) (buf : list Z) : M (comm D) unit :=
  match n with
  | O => mret tt
  | S k =>
      match buf with
      | [] => undef
      | c :: rest => port_putc polls c;; diag_write_loop polls k rest
      end
  end.

Definition diag_write (polls : nat) (buf : list Z) (len : Z) : M (comm D) unit :=
  diag_write_loop polls (Z.to_nat len) buf.

(** What is stored in the buffer. *)
Fixpoint diag_read_loop (fuel : nat) (n : nat) : M (comm D) (list Z) :=
  match n with
  | O => mret []
  | S k => c ← diag_getc fuel; r ← diag_read_loop fuel k; mret (c :: r)
  end.

Definition diag_read (fuel : nat) (len : Z) : M (comm D) (list Z) :=
  diag_read_loop fuel (Z.to_nat len).

(** The result and what was last stored at [ch]. *)
Fixpoint timeout_loop (delay_count : nat) (ch : option Z) : M (comm D) (bool * option Z) :=
  r ← port_getc_nonblock;
  let ch' := if r.2 is Some c then Some c else ch in
  if (r.1 : bool) then mret (true, ch')
  else
    match delay_count with
    | O => mret (false, ch')
    | S k => HAL_DELAY_US 10;; timeout_loop k ch'
    end.

Definition diag_getc_timeout (ch : option Z) : M (comm D) (bool * option Z) := timeout_loop 10 ch.

End Driver.

(** ** Installation

    The devices of the system come from a generated file: they are a list.  The
    names of the debug and console devices are configured.  The calls of the
    virtual vector table are a trace. *)

Record instance := mkInstance { i_name : list Z; i_base : Z; i_irq : Z }.

(** The entries of a communication table that are set. *)
Inductive comm_entry :=
| ChData (chan : nat) | WriteEntry | ReadEntry | PutcEntry | GetcEntry | ControlEntry | DbgIsrEntry
| GetcTimeoutEntry.

Inductive init_call := MaskIrq (irq : Z) | SetConsoleComm (id : Z) | SetEntry (e : comm_entry).

Definition table_entries (chan : nat) : list init_call :=
  map SetEntry [ChData chan; WriteEntry; ReadEntry; PutcEntry; GetcEntry; ControlEntry; DbgIsrEntry; GetcTimeoutEntry].

Section Init.
(** Whether the macro masks the interrupt (the UART's does), and the two names. *)
Variable masks : bool.
Variables debug_dev console_dev : list Z.

(** A channel of the driver: the device it is connected to. *)
Definition chans := list (option (Z * Z)).

Definition connect (chan : nat) (i : instance) (x : chans * list init_call) : chans * list init_call :=
  (<[chan := Some (i_base i, i_irq i)]> x.1,
   x.2 ++ (if masks then [MaskIrq (i_irq i)] else []) ++ [SetConsoleComm (Z.of_nat chan)] ++ table_entries chan).

(** The macro for one device. *)
Definition install_instance (i : instance) (x : chans * list init_call) : chans * list init_call :=
  let x := if bool_decide (debug_dev = i_name i) then connect 0 i x else x in
  if bool_decide (console_dev = i_name i) then connect 1 i x else x.

(** [cur] is the console that was current; it is restored. *)
Definition diag_init (devices : list instance) (cur : Z) (c : chans) : chans * list init_call :=
  let x := fold_left (fun x i => install_instance i x) devices (c, []) in
  (x.1, x.2 ++ [SetConsoleComm cur]).

(** A channel is connected to the last device of its name, if there is one. *)
Definition named (n : list Z) (devices : list instance) : option (Z * Z) :=
  fold_left (fun r i => if bool_decide (n = i_name i) then Some (i_base i, i_irq i) else r) devices None.

Theorem diag_init_connects devices cur :
  (diag_init devices cur [None; None]).1 = [named debug_dev devices; named console_dev devices].
Proof.
  enough (forall a b t, (fold_left (fun x i => install_instance i x) devices ([a; b], t)).1 =
    [fold_left (fun r i => if bool_decide (debug_dev = i_name i) then Some (i_base i, i_irq i) else r) devices a;
     fold_left (fun r i => if bool_decide (console_dev = i_name i) then Some (i_base i, i_irq i) else r) devices b])
    as H by apply H.
  induction devices as [|i l IH]; intros a b t; [done|]. cbn [fold_left]. unfold install_instance at 2, connect.
  case_bool_decide; case_bool_decide; cbn [fst snd]; apply IH.
Qed.
End Init.

(** ** What a port promises

    [c_taken]: the characters that were read, with a flag for errors.  [c_due
    d k n]: [k] good characters are found by the next [n] calls of [getc_nonblock]. *)

Class DiagLaws (D : Type) {port : DiagPort D} := {
  c_taken : D -> list (Z * bool);
  c_sent : D -> list Z;
  c_latency : nat;
  c_due : D -> nat -> nat -> Prop;
  putc_law polls c s : (c_latency < polls)%nat ->
    wp (port_putc polls c) (fun _ s' => exists d', s' = set_hw d' s /\
      c_sent d' = c_sent (hw s) ++ [c] /\ c_taken d' = c_taken (hw s)) s;
  nonblock_law s :
    wp port_getc_nonblock (fun r s' => exists d' got, s' = set_hw d' s /\
      c_sent d' = c_sent (hw s) /\ c_taken d' = c_taken (hw s) ++ got /\
      ((r = (false, None) /\ got = []) \/ exists c e, r = (negb e, Some c) /\ got = [(c, e)]) /\
      forall k n, c_due (hw s) (S k) n -> exists m, (m < n)%nat /\ c_due d' (if r.1 then k else S k) m) s;
  delay_law us d : c_sent (port_delay us d) = c_sent d /\ c_taken (port_delay us d) = c_taken d;
}.

Definition all_errors (l : list (Z * bool)) : Prop := Forall (fun c => c.2 = true) l.

(** The characters without errors. *)
Definition usable (l : list (Z * bool)) : list Z := map fst (filter (fun c => c.2 = false) l).

(** The last one is not an error. *)
Definition ends_good (l : list (Z * bool)) : Prop := forall l' c, l <> l' ++ [(c, true)].

Lemma usable_app l1 l2 : usable (l1 ++ l2) = usable l1 ++ usable l2.
Proof. unfold usable. by rewrite list.filter_app, map_app. Qed.

Lemma usable_errors l : all_errors l -> usable l = [].
Proof. induction 1 as [|[c e] l He _ IH]; [done|]. cbn in He. subst. unfold usable in *. by rewrite filter_cons_False. Qed.

Section Facts.
Context {D : Type} {port : DiagPort D} {laws : DiagLaws D}.

(** Reading skips the characters with errors. *)
Lemma wp_diag_getc_loop fuel k n ch (Q : Z -> comm D -> Prop) s :
  c_due (hw s) (S k) n -> (n < fuel)%nat ->
  (forall c bad d' m, all_errors bad -> c_sent d' = c_sent (hw s) ->
     c_taken d' = c_taken (hw s) ++ bad ++ [(c, false)] -> (m < n)%nat -> c_due d' k m -> Q c (set_hw d' s)) ->
  wp (diag_getc_loop fuel ch) Q s.
Proof.
  revert n ch s. induction fuel as [|f IH]; intros n ch s Hdue Hf HQ; [lia|]. cbn [diag_getc_loop].
  apply wp_bind. eapply wp_mono; [apply nonblock_law|]. cbn beta.
  intros r s1 (d1 & got & -> & Hs & Ht & Hr & Hnext). destruct (Hnext k n Hdue) as (m & Hm & Hdue').
  destruct Hr as [[-> ->]|(c & e & -> & ->)]; cbn [fst snd negb] in *.
  - eapply (IH m); [exact Hdue'|lia|]. intros c bad d' m' Hb Hs' Ht' Hm' Hd'. cbn [hw set_hw] in *.
    apply (HQ c bad d' m'); [done|congruence| |lia|done]. by rewrite Ht', Ht, app_nil_r.
  - destruct e; cbn [negb] in *.
    + eapply (IH m); [exact Hdue'|lia|]. intros c' bad d' m' Hb Hs' Ht' Hm' Hd'. cbn [hw set_hw] in *.
      apply (HQ c' ((c, true) :: bad) d' m'); [by constructor|congruence| |lia|done].
      by rewrite Ht', Ht, <- app_assoc.
    + apply wp_ret, (HQ c [] d1 m); [by apply Forall_nil|done|done|lia|done].
Qed.

Lemma wp_diag_write_loop polls n buf (Q : unit -> comm D -> Prop) s :
  (c_latency < polls)%nat -> (n <= length buf)%nat ->
  (forall d', c_sent d' = c_sent (hw s) ++ take n buf -> c_taken d' = c_taken (hw s) -> Q tt (set_hw d' s)) ->
  wp (diag_write_loop polls n buf) Q s.
Proof.
  intros Hp. revert buf s. induction n as [|n IH]; intros buf s Hl HQ; cbn [diag_write_loop].
  { apply wp_ret. destruct s as [d ? ? ?]. apply (HQ d); [by rewrite app_nil_r|done]. }
  destruct buf as [|c buf]; [cbn in Hl; lia|].
  apply wp_bind. eapply wp_mono; [by apply putc_law|]. cbn beta. intros ? s1 (d1 & -> & Hs & Ht).
  apply IH; [cbn in Hl; lia|]. intros d' Hs' Ht'. cbn [hw set_hw] in *.
  apply (HQ d'); [by rewrite Hs', Hs, <- app_assoc|congruence].
Qed.

Lemma wp_diag_read_loop fuel n bound (Q : list Z -> comm D -> Prop) s :
  c_due (hw s) n bound -> (bound < fuel)%nat ->
  (forall cs got d', length cs = n -> usable got = cs -> c_sent d' = c_sent (hw s) ->
     c_taken d' = c_taken (hw s) ++ got -> ends_good got -> Q cs (set_hw d' s)) ->
  wp (diag_read_loop fuel n) Q s.
Proof.
  revert bound Q s. induction n as [|n IH]; intros bound Q s Hdue Hf HQ; cbn [diag_read_loop].
  { apply wp_ret. destruct s as [d ? ? ?]. apply (HQ [] [] d); rewrite ?app_nil_r; try done. by intros []. }
  apply wp_bind. eapply wp_diag_getc_loop; [exact Hdue|done|]. intros c bad d1 m Hbad Hs Ht Hm Hd1.
  apply wp_bind. eapply IH; [exact Hd1|lia|]. intros cs got d' Hlen Hgot Hs' Ht' Hend. cbn [hw set_hw] in *.
  apply wp_ret, (HQ (c :: cs) ((bad ++ [(c, false)]) ++ got) d'); [cbn; lia| |congruence| |].
  - rewrite !usable_app, usable_errors, Hgot by done. done.
  - by rewrite Ht', Ht, <- app_assoc.
  - intros l' c' Heq. destruct got as [|g got _] using rev_ind.
    + rewrite app_nil_r in Heq. apply app_inj_tail in Heq as [_ [=]].
    + rewrite app_assoc in Heq. apply app_inj_tail in Heq as [_ ->]. by eapply Hend.
Qed.

Lemma wp_timeout_loop n ch (Q : bool * option Z -> comm D -> Prop) s :
  (forall res ch' k got d', (k <= n)%nat ->
     c_sent d' = c_sent (hw s) -> c_taken d' = c_taken (hw s) ++ got ->
     (if (res : bool) then exists bad c, all_errors bad /\ got = bad ++ [(c, false)] /\ ch' = Some c
      else k = n /\ all_errors got) ->
     Q (res, ch') (mkComm d' (irq s) (irq_state s) (hal s ++ replicate k (Delay 10)))) ->
  wp (timeout_loop n ch) Q s.
Proof.
  revert ch s. induction n as [|n IH]; intros ch s HQ; cbn [timeout_loop].
  all: apply wp_bind; eapply wp_mono; [apply nonblock_law|]; cbn beta;
       intros r s1 (d1 & got & -> & Hs & Ht & Hr & _).
  all: assert (r.1 = true -> exists c, r = (true, Some c) /\ got = [(c, false)]) as Hgood
         by (intros Hr1; destruct Hr as [[-> _]|(c & [] & -> & ->)]; try done; by exists c).
  all: assert (r.1 = false -> all_errors got) as Hbad
         by (intros Hr1; destruct Hr as [[_ ->]|(c & [] & -> & ->)]; try done; by repeat constructor).
  all: destruct (r.1) eqn:Hr1.
  1,3: destruct (Hgood eq_refl) as (c & -> & ->); cbn [snd]; apply wp_ret;
       pose proof (HQ true (Some c) 0%nat [(c, false)] d1) as H; cbn [replicate] in H; rewrite app_nil_r in H;
       apply H; [lia|done|done|exists [], c; split; [by apply Forall_nil|done]].
  - apply wp_ret. pose proof (HQ false (if r.2 is Some c then Some c else ch) 0%nat got d1) as H.
    cbn [replicate] in H. rewrite app_nil_r in H. apply H; [lia|done|done|by split; [|apply Hbad]].
  - apply wp_bind, wp_bind, wp_modify, wp_modify. apply IH. cbn [hw irq irq_state hal set_hal set_hw].
    destruct (delay_law 10 d1) as [Hds Hdt].
    intros res ch' k got' d' Hk Hs' Ht' Hres. rewrite <- app_assoc.
    change ([Delay 10] ++ replicate k (Delay 10)) with (replicate (S k) (Delay 10)).
    apply (HQ res ch' (S k) (got ++ got') d'); [lia|congruence|by rewrite Ht', Hdt, Ht, app_assoc|].
    destruct res.
    + destruct Hres as (bad & c & Hb & -> & ->). exists (got ++ bad), c.
      split; [by apply Forall_app; split; [apply Hbad|]|]. by rewrite app_assoc.
    + destruct Hres as [-> Hb]. split; [done|]. apply Forall_app. split; [by apply Hbad|done].
Qed.

End Facts.
