(* ===== verification/UartFacts.v ===== *)
(** * What the UART driver guarantees

    [UartLaws] looks at a UART through what has been taken from its receiver and
    what has been given to its transmitter.  What arrives, and whether it
    overruns the receiver before it is read, is up to the line; [loads] bounds
    what still arrives. *)

From S2P Require Import Prelude.
From S2P Require Import Serial.
From S2P Require Import Uart.

Definition has_error {D} {regs : UartRegs D} (status : Z) : bool := ctrue (Z.land status (Z.lor PE_MSK FE_MSK)).

Class UartLaws (D : Type) {regs : UartRegs D} := {
  taken : D -> list (Z * bool);   (* characters read, with their error flags *)
  sent : D -> list Z;             (* characters the transmitter took *)
  pending : D -> option bool;     (* the error flag of the character that was found ready *)
  tx_ready : D -> Prop;           (* the transmitter was found ready *)
  loads : D -> nat;               (* characters that can still be found ready *)
  status_law d : let '(v, d') := IORD_STATUS d in
    taken d' = taken d /\ sent d' = sent d /\ (loads d' <= loads d)%nat /\
    (Z.land v RRDY_MSK <> 0 -> pending d' = Some (has_error v) /\ (0 < loads d')%nat) /\
    (Z.land v TRDY_MSK <> 0 -> tx_ready d');
  clear_law d : let d' := IOWR_STATUS 0 d in
    taken d' = taken d /\ sent d' = sent d /\ (loads d' <= loads d)%nat /\
    pending d' = pending d /\ (0 < loads d -> 0 < loads d')%nat;
  rx_law d e : pending d = Some e -> (0 < loads d)%nat ->
    let '(v, d') := IORD_RXDATA d in
    taken d' = taken d ++ [(u8 v, e)] /\ sent d' = sent d /\ (loads d' < loads d)%nat;
  tx_law c d : tx_ready d -> let d' := IOWR_TXDATA c d in
    taken d' = taken d /\ sent d' = sent d ++ [c] /\ (loads d' <= loads d)%nat;
  control_law d : let '(_, d') := IORD_CONTROL d in
    taken d' = taken d /\ sent d' = sent d /\ (loads d' <= loads d)%nat;
  set_control_law v d : let d' := IOWR_CONTROL v d in
    taken d' = taken d /\ sent d' = sent d /\ (loads d' <= loads d)%nat;
}.

(** A UART whose transmitter is ready after a while, and a line: [due d k n] says that
    [k] good characters are found by [n] readings of the status. *)
Class UartTiming (D : Type) {regs : UartRegs D} := {
  tx_wait : D -> nat;
  tx_latency : nat;
  tx_wait_bound d : (tx_wait d <= tx_latency)%nat;
  tx_wait_law d : let '(v, d') := IORD_STATUS d in Z.land v TRDY_MSK = 0 -> (tx_wait d' < tx_wait d)%nat;
  due : D -> nat -> nat -> Prop;
  due_law d k n : due d (S k) n ->
    let '(v, d1) := IORD_STATUS d in
    let d2 := IOWR_STATUS 0 d1 in
    exists m, (m < n)%nat /\
      if decide (Z.land v RRDY_MSK = 0) then due d2 (S k) m
      else due (IORD_RXDATA d2).2 (if has_error v then S k else k) m;
}.

(** What a receiver's part in an access is: [got] was taken, nothing sent. *)
Record gave {D} {regs : UartRegs D} {laws : UartLaws D} (d d' : D) (got : list (Z * bool)) : Prop := {
  gave_taken : taken d' = taken d ++ got;
  gave_sent : sent d' = sent d;
  gave_loads : (loads d' + length got <= loads d)%nat;
}.

(** The status is read and its errors cleared; a character that is ready is read. *)
Lemma poll_law {D} {regs : UartRegs D} {laws : UartLaws D} (d : D) :
  let '(v, d1) := IORD_STATUS d in
  let d2 := IOWR_STATUS 0 d1 in
  gave d d2 [] /\
  (Z.land v RRDY_MSK <> 0 -> let '(w, d3) := IORD_RXDATA d2 in gave d d3 [(u8 w, has_error v)]).
Proof.
  pose proof (status_law d) as Hst. destruct (IORD_STATUS d) as [v d1].
  destruct Hst as (Ht & Hs & Hl & Hr & _). destruct (clear_law d1) as (Ht1 & Hs1 & Hl1 & Hp1 & Hpos).
  split; [split; [rewrite app_nil_r; congruence|congruence|cbn; lia]|]. intros Hrdy.
  destruct (Hr Hrdy) as [Hp Hpos1]. pose proof (rx_law (IOWR_STATUS 0 d1) (has_error v)) as Hrx.
  destruct (IORD_RXDATA (IOWR_STATUS 0 d1)) as [w d2].
  destruct Hrx as (Ht2 & Hs2 & Hl2); [by rewrite Hp1|by apply Hpos|]. split; [congruence|congruence|cbn; lia].
Qed.

(** The characters without errors. *)
Definition good (l : list (Z * bool)) : list Z := map fst (filter (fun c => c.2 = false) l).

Lemma good_app l1 l2 : good (l1 ++ l2) = good l1 ++ good l2.
Proof. unfold good. by rewrite list.filter_app, map_app. Qed.

Lemma good_cons c (e : bool) l : good ((c, e) :: l) = if e then good l else c :: good l.
Proof. by destruct e. Qed.

Section Facts.
Context {D U : Type} {regs : UartRegs D} {upper : SerialLayer U} {cfg : SerialConfig}
  {laws : UartLaws D} {ulaws : SerialLaws U}.

Abbreviation taken_of s := (taken (hw s)).
Abbreviation sent_of s := (sent (hw s)).
Abbreviation loads_of s := (loads (hw s)).

(** Only the hardware and the layer change. *)
Definition same_dev (s s' : chan D U) : Prop :=
  config s' = config s /\ out_len s' = out_len s /\ irq s' = irq s /\ freq s' = freq s /\
  dev_flags s' = dev_flags s /\ calls s' = calls s.

Lemma same_dev_refl (s : chan D U) : same_dev s s.
Proof. by repeat split. Qed.

Lemma same_dev_trans (s1 s2 s3 : chan D U) : same_dev s1 s2 -> same_dev s2 s3 -> same_dev s1 s3.
Proof. intros (? & ? & ? & ? & ? & ?) (? & ? & ? & ? & ? & ?). split_and!; congruence. Qed.

Lemma wp_uart_iord f (Q : Z -> chan D U -> Prop) s : Q (f (hw s)).1 (set_hw (f (hw s)).2 s) -> wp (iord f) Q s.
Proof. unfold wp, iord. by destruct (f (hw s)). Qed.

(** The driver's part of an access that does not receive. *)
Record quiet (s s' : chan D U) (out : list Z) : Prop := {
  quiet_dev : same_dev s s';
  quiet_taken : taken_of s' = taken_of s;
  quiet_sent : sent_of s' = sent_of s ++ out;
  quiet_loads : (loads_of s' <= loads_of s)%nat;
}.

Lemma uart_quiet_trans s1 s2 s3 o1 o2 : quiet s1 s2 o1 -> quiet s2 s3 o2 -> quiet s1 s3 (o1 ++ o2).
Proof.
  intros [H1 H2 H3 H4] [G1 G2 G3 G4]. split; [by eapply same_dev_trans|congruence| |lia].
  by rewrite G3, H3, app_assoc.
Qed.

(** ** Sending *)

(** A character is accepted exactly when it has been given to a transmitter that is ready. *)
Lemma wp_uart_putc c (Q : bool -> chan D U -> Prop) s :
  (forall (b : bool) s', layer s' = layer s -> quiet s s' (if b then [c] else []) -> Q b s') ->
  wp (altera_avalon_uart_putc c) Q s.
Proof.
  intros HQ. apply wp_bind, wp_uart_iord. pose proof (status_law (hw s)) as Hst.
  destruct (IORD_STATUS (hw s)) as [v d']. destruct Hst as (Ht & Hs & Hl & _ & Hr). cbn [fst snd].
  assert (quiet s (set_hw d' s) []) as Hq by (split; rewrite ?app_nil_r; done).
  apply wp_bind, wp_get. wp_if; [|by apply wp_ret, HQ]. wp_if; [|by apply wp_ret, HQ].
  unfold ctrue in Heqb0. apply negb_true_iff, Z.eqb_neq in Heqb0.
  destruct (tx_law c d' (Hr Heqb0)) as (Ht2 & Hs2 & Hl2).
  apply wp_bind, wp_modify, wp_ret, HQ; [done|]. cbn [hw set_hw].
  split; [by repeat split|cbn; congruence|cbn; congruence|cbn; lia].
Qed.

Lemma wp_uart_control (f : Z -> Z) (Q : unit -> chan D U -> Prop) s :
  (forall s', layer s' = layer s -> quiet s s' [] -> Q tt s') ->
  wp (ctrl ← iord IORD_CONTROL; iowr (IOWR_CONTROL (f ctrl))) Q s.
Proof.
  intros HQ. apply wp_bind, wp_uart_iord. pose proof (control_law (hw s)) as Hc.
  destruct (IORD_CONTROL (hw s)) as [v d']. destruct Hc as (Ht & Hs & Hl). cbn [fst snd].
  destruct (set_control_law (f v) d') as (Ht2 & Hs2 & Hl2). apply wp_modify, HQ; [done|].
  split; [by repeat split|cbn; congruence|cbn; rewrite app_nil_r; congruence|cbn; lia].
Qed.

Lemma wp_uart_callback {A} (p : prog U A) (Q : A -> chan D U -> Prop) s :
  (forall l a s', accepted p l (layer s') a -> quiet s s' l -> Q a s') -> wp (callback p) Q s.
Proof.
  revert s. induction p as [u a|c k IH|k IH|on k IH]; intros s HQ; cbn [callback].
  - apply wp_bind, wp_modify, wp_ret. apply (HQ []); [constructor|]. by split; rewrite ?app_nil_r.
  - apply wp_bind, wp_uart_putc. intros b s1 _ Hq1. apply IH. intros l a s2 Ha Hq2.
    eapply HQ; [by constructor|]. by eapply uart_quiet_trans.
  - apply wp_bind. apply (wp_uart_control (fun v => Z.land v _)). intros s1 _ Hq1. apply IH. intros l a s2 Ha Hq2.
    eapply HQ; [by constructor|]. by apply (uart_quiet_trans _ _ _ [] l Hq1).
  - apply IH. intros l a s2 Ha Hq2. eapply HQ; [by econstructor|done].
Qed.

(** ** Receiving *)

(** The driver has taken [got], given nothing to the layer, and sent nothing. *)
Record took (s s' : chan D U) (got : list (Z * bool)) : Prop := {
  took_dev : same_dev s s';
  took_layer : layer s' = layer s;
  took_taken : taken_of s' = taken_of s ++ got;
  took_sent : sent_of s' = sent_of s;
  took_loads : (loads_of s' + length got <= loads_of s)%nat;
}.

Lemma took_trans s1 s2 s3 g1 g2 : took s1 s2 g1 -> took s2 s3 g2 -> took s1 s3 (g1 ++ g2).
Proof.
  intros [H1 H2 H3 H4 H5] [G1 G2 G3 G4 G5].
  split; [by eapply same_dev_trans|congruence|by rewrite G3, H3, app_assoc|congruence|].
  rewrite length_app. lia.
Qed.

Lemma wp_poll {A} (m : Z -> M (chan D U) A) (Q : A -> chan D U -> Prop) s :
  (forall status s1, took s s1 [] ->
     (Z.land status RRDY_MSK <> 0 -> forall (m' : Z -> M (chan D U) A),
        (forall v s2, took s s2 [(u8 v, has_error status)] -> wp (m' v) Q s2) ->
        wp (v ← iord IORD_RXDATA; m' v) Q s1) ->
     wp (m status) Q s1) ->
  wp (status ← iord IORD_STATUS; iowr (IOWR_STATUS 0);; m status) Q s.
Proof.
  intros HQ. apply wp_bind, wp_uart_iord. pose proof (poll_law (hw s)) as Hpoll.
  destruct (IORD_STATUS (hw s)) as [v d1]. destruct Hpoll as [[Ht Hs Hl] Hr]. cbn [fst snd].
  apply wp_bind, wp_modify, HQ; [by split|]. cbn [hw set_hw]. intros Hrdy m' Hm'. specialize (Hr Hrdy).
  apply wp_bind, wp_uart_iord. cbn [hw set_hw]. destruct (IORD_RXDATA (IOWR_STATUS 0 d1)) as [w d2].
  destruct Hr as [Ht2 Hs2 Hl2]. apply Hm'. by split.
Qed.

Lemma wp_rx_drop fuel save (Q : Z -> chan D U -> Prop) s :
  (loads_of s < fuel)%nat ->
  (forall save' got s', took s s' got -> Q save' s') -> wp (rx_drop fuel save) Q s.
Proof.
  revert save s. induction fuel as [|k IH]; intros save s Hf HQ; [lia|]. cbn [rx_drop].
  apply wp_poll. intros status s1 Ht Hrx. destruct (Z.eqb_spec (Z.land status RRDY_MSK) 0) as [E|E].
  { by eapply wp_ret, HQ. }
  apply Hrx; [done|]. intros v s2 Ht2. apply IH; [destruct Ht2; cbn in *; lia|].
  intros save' got s3 Ht3. eapply HQ. by eapply took_trans.
Qed.

Lemma wp_rx_fill fuel space stored save (Q : bool * Z * list Z * Z -> chan D U -> Prop) s :
  (S (loads_of s) < fuel)%nat -> 0 <= space ->
  (forall xmit more save' got s', took s s' got -> (length more <= Z.to_nat space)%nat -> more = good got ->
     (xmit = false -> got = [] -> space = 0) ->
     Q (xmit, space - Z.of_nat (length more), stored ++ more, save') s') ->
  wp (rx_fill fuel space stored save) Q s.
Proof.
  revert space stored save s. induction fuel as [|k IH]; intros space stored save s Hf Hsp HQ; [lia|].
  cbn [rx_fill]. destruct (Z.gtb_spec space 0) as [Hpos|Hz]; cbn [negb].
  2: { apply wp_ret. pose proof (HQ false [] save [] s) as H. cbn in H. rewrite Z.sub_0_r, app_nil_r in H.
       apply H; [|lia|done|lia]. split; rewrite ?app_nil_r; try done. cbn. lia. }
  apply wp_poll. intros status s1 Ht Hrx. unfold ctrue at 1.
  destruct (Z.eqb_spec (Z.land status RRDY_MSK) 0) as [E|E]; cbn [negb].
  { apply wp_ret. pose proof (HQ true [] (Z.lor save status) [] s1 Ht) as H. cbn in H.
    rewrite Z.sub_0_r, app_nil_r in H. apply H; [lia|done|done]. }
  apply Hrx; [done|]. intros v s2 Ht2. fold (has_error status).
  assert (S (loads_of s2) < k)%nat by (destruct Ht2; cbn in *; lia).
  destruct (has_error status) eqn:He; cbn [negb].
  - apply IH; [done|lia|]. intros xmit more save' got s3 Ht3 Hlen Hmore _.
    eapply HQ; [by eapply took_trans|done|by rewrite Hmore|done].
  - apply IH; [done|lia|]. intros xmit more save' got s3 Ht3 Hlen Hmore _. rewrite <- app_assoc.
    replace (space - 1 - Z.of_nat (length more)) with (space - Z.of_nat (length ([u8 v] ++ more)))
      by (rewrite length_app; cbn; lia).
    eapply HQ; [by eapply took_trans|cbn; lia|by rewrite Hmore|done].
Qed.

(** The layer refuses characters in this state. *)
Definition refuses (u : U) : Prop := exists l u' num, accepted (data_rcv_req 4096 u) l u' (false, num).

(** What the receive half of the handler does. *)
Record handled (s s' : chan D U) : Prop := {
  handled_dev : same_dev s s';
  handled_rx : exists kept dropped,
    taken_of s' = taken_of s ++ kept ++ dropped /\
    received (layer s') = received (layer s) ++ good kept /\
    (dropped = [] \/ exists u, received u = received (layer s') /\ refuses u);
}.

Lemma wp_rx_loop fuel save (Q : Z -> chan D U -> Prop) s :
  (S (loads_of s) < fuel)%nat ->
  (forall save' s', handled s s' -> Q save' s') -> wp (rx_loop fuel save) Q s.
Proof.
  revert save s. induction fuel as [|k IH]; intros save s Hf HQ; [lia|]. cbn [rx_loop].
  apply wp_bind. unfold call_layer at 1. apply wp_bind. apply (wp_eq _ _ _ _ _ eq_refl).
  apply wp_uart_callback. intros l [ok num] s1 Hacc [Hd1 Ht1 Hs1 Hl1].
  destruct (accepted_leaf _ _ _ _ _ Hacc (rcv_req_law 4096 (layer s) ltac:(lia))) as [Hrec Hnum]. cbn [fst snd] in Hnum.
  destruct ok; cbn [negb].
  2: { apply wp_rx_drop; [lia|]. intros save' got s2 [Hd2 Hly Ht2 Hs2 Hl2]. apply HQ.
       split; [by eapply same_dev_trans|]. exists [], got. rewrite Ht2, Ht1, Hly. split; [done|].
       split; [by rewrite Hrec, app_nil_r|]. right. exists (layer s). split; [by rewrite Hrec|].
       by exists l, (layer s1), num. }
  specialize (Hnum eq_refl). apply wp_bind, wp_rx_fill; [lia|lia|].
  intros xmit more save' got s2 [Hd2 Hly Ht2 Hs2 Hl2] Hlen -> Hgot. cbn [app].
  replace (num - (num - Z.of_nat (length (good got)))) with (Z.of_nat (length (good got))) by lia.
  apply wp_bind. unfold call_layer at 1. apply wp_bind. apply (wp_eq _ _ _ _ _ eq_refl).
  apply wp_uart_callback. intros l3 [] s3 Hacc3 [Hd3 Ht3 Hs3 Hl3].
  pose proof (accepted_leaf _ _ _ _ _ Hacc3 (rcv_done_law (good got) (layer s2))) as Hrec3.
  assert (handled s s3) as [Hd Hh].
  { split; [eapply same_dev_trans, same_dev_trans; [exact Hd1|exact Hd2|exact Hd3]|].
    exists got, []. split; [by rewrite Ht3, Ht2, Ht1, app_nil_r|]. split; [|by left].
    by rewrite Hrec3, Hly, Hrec. }
  destruct xmit; [apply wp_ret, HQ; by split|].
  assert (0 < length got)%nat by (destruct got; [|cbn; lia]; specialize (Hgot eq_refl eq_refl); lia).
  apply IH; [lia|]. intros save4 s4 [Hd4 (kept & dropped & Ht4 & Hr4 & Hdrop)]. apply HQ.
  split; [by eapply same_dev_trans|]. exists (got ++ kept), dropped.
  split; [by rewrite Ht4, Ht3, Ht2, Ht1, <- !app_assoc|]. split; [|done].
  by rewrite Hr4, Hrec3, Hly, Hrec, good_app, app_assoc.
Qed.

(** ** Waiting for a character *)

Section Waiting.
Context {timing : UartTiming D}.

Definition all_bad (l : list (Z * bool)) : Prop := Forall (fun c => c.2 = true) l.

(** The wait ends with a character that is ready, and time has passed. *)
Lemma wp_poll_rrdy polls n (Q : Z -> chan D U -> Prop) s :
  due (hw s) 1 n -> (n < polls)%nat ->
  (forall status s', took s s' [] ->
     let '(w, d3) := IORD_RXDATA (hw s') in
     gave (hw s) d3 [(u8 w, has_error status)] ->
     (has_error status = false \/ exists m, (m < n)%nat /\ due d3 1 m) -> Q status s') ->
  wp (poll_rrdy polls) Q s.
Proof.
  revert n s. induction polls as [|k IH]; intros n s Hdue Hp HQ; [lia|]. cbn [poll_rrdy].
  apply wp_bind, wp_uart_iord. pose proof (poll_law (hw s)) as Hpoll. pose proof (due_law _ _ _ Hdue) as Hd.
  destruct (IORD_STATUS (hw s)) as [v d1]. destruct Hpoll as [Hg Hr]. cbn [fst snd].
  destruct Hd as (m & Hm & Hd). apply wp_bind, wp_modify. cbn [hw set_hw].
  assert (took s (set_hw (IOWR_STATUS 0 d1) (set_hw d1 s)) []) as Ht by (by destruct Hg; split).
  destruct (Z.eqb_spec (Z.land v RRDY_MSK) 0) as [E|E].
  - rewrite decide_True in Hd by done. eapply IH; [exact Hd|lia|]. intros status s' Ht'. specialize (HQ status s').
    destruct (IORD_RXDATA (hw s')) as [w d3]. intros [G1 G2 G3] He.
    apply HQ; [by eapply (took_trans _ _ _ [] []); [exact Ht|]| |].
    + destruct Hg as [Hg1 Hg2 Hg3]. cbn [hw set_hw] in *. rewrite app_nil_r in Hg1. cbn in Hg3.
      split; [congruence|congruence|cbn in *; lia].
    + destruct He as [He|(m' & Hm' & He)]; [by left|right]. exists m'. split; [lia|done].
  - rewrite decide_False in Hd by done. apply wp_ret. specialize (HQ v _ Ht). cbn [hw set_hw] in HQ.
    specialize (Hr E). destruct (IORD_RXDATA (IOWR_STATUS 0 d1)) as [w d3]. apply HQ; [done|].
    destruct (has_error v); [right; by exists m|by left].
Qed.

(** The blocking read skips the characters with errors. *)
Lemma wp_getc polls fuel n (Q : Z -> chan D U -> Prop) s :
  due (hw s) 1 n -> (n < polls)%nat -> (n < fuel)%nat ->
  (forall c bad s', all_bad bad -> took s s' (bad ++ [(c, false)]) -> Q c s') ->
  wp (altera_avalon_uart_getc polls fuel) Q s.
Proof.
  revert n s. induction fuel as [|k IH]; intros n s Hdue Hp Hf HQ; [lia|]. cbn [altera_avalon_uart_getc].
  apply wp_bind. eapply wp_poll_rrdy; [exact Hdue|done|]. intros status s1 Ht1.
  destruct (IORD_RXDATA (hw s1)) as [w d3] eqn:Erx. intros [G1 G2 G3] Hnext.
  apply wp_bind, wp_uart_iord. rewrite Erx. cbn [fst snd].
  assert (took s (set_hw d3 s1) [(u8 w, has_error status)]) as Htook by (destruct Ht1; by split).
  fold (has_error status). destruct (has_error status) eqn:He.
  - destruct Hnext as [?|(m & Hm & Hdue')]; [done|].
    eapply (IH m); [exact Hdue'|lia|lia|]. intros c bad s' Hbad Ht'.
    apply (HQ c ((u8 w, true) :: bad)); [by constructor|]. by apply (took_trans _ _ _ _ _ Htook Ht').
  - apply wp_ret. by apply (HQ (u8 w) []); [constructor|].
Qed.

End Waiting.

End Facts.

(** * The UART as a channel of the debugger
    (packages/hal/sopc/altera_avalon_uart_comm, altera_avalon_uart_comm.c)

    [putc], [getc_nonblock], [control] and the interrupt routine; the rest is
    [Diag].  That the UART is a port as [Diag] wants it follows from the laws
    above. *)

From S2P Require Import Diag.


(** The commands of [control], and what the rest of the HAL decides. *)
Inductive comm_control := IRQ_ENABLE | IRQ_DISABLE | DBG_ISR_VECTOR | OtherCommand.

Class CommConfig := {
  CYG_ISR_HANDLED : Z;
  cyg_hal_is_break : Z -> bool;
}.

Section Driver.
Context {D : Type} {regs : UartRegs D} {cfg : CommConfig}.

Definition comm_iord (f : D -> Z * D) : M (comm D) Z := fun s =>
  let '(v, d) := f (Diag.hw s) in Ret (v, Diag.set_hw d s).

Definition comm_iowr (f : D -> D) : M (comm D) unit := modify (fun s => Diag.set_hw (f (Diag.hw s)) s).

(** The wait of [putc]. *)
Fixpoint wait_trdy (polls : nat) : M (comm D) unit :=
  match polls with
  | O => no_fuel
  | S k =>
      status ← comm_iord IORD_STATUS;
      if Z.land status TRDY_MSK =? 0 then wait_trdy k else mret tt
  end.

Definition altera_avalon_uart_diag_putc (polls : nat) (ch : Z) : M (comm D) unit :=
  wait_trdy polls;; comm_iowr (IOWR_TXDATA ch).

(** The result, and what is stored at [ch]. *)
Definition altera_avalon_uart_diag_getc_nonblock : M (comm D) (bool * option Z) :=
  status ← comm_iord IORD_STATUS;
  comm_iowr (IOWR_STATUS 0);;
  if ctrue (Z.land status RRDY_MSK) then
    data ← comm_iord IORD_RXDATA;
    if negb (ctrue (Z.land status (Z.lor PE_MSK FE_MSK))) then mret (true, Some (u8 data))
    else mret (false, Some (u8 data))
  else mret (false, None).

#[export] Instance uart_port : DiagPort D := {
  port_putc := altera_avalon_uart_diag_putc;
  port_getc_nonblock := altera_avalon_uart_diag_getc_nonblock;
  port_delay := DELAY_US;
}.

Definition altera_avalon_uart_diag_getc : nat -> M (comm D) Z := diag_getc.

Definition altera_avalon_uart_diag_write : nat -> list Z -> Z -> M (comm D) unit := diag_write.

Definition altera_avalon_uart_diag_read : nat -> Z -> M (comm D) (list Z) := diag_read.

Definition altera_avalon_uart_diag_getc_timeout : option Z -> M (comm D) (bool * option Z) := diag_getc_timeout.

Definition altera_avalon_uart_diag_control (func : comm_control) : M (comm D) Z :=
  chan ← get;
  match func with
  | IRQ_ENABLE =>
      modify (Diag.set_irq_state 1);;
      ctrl ← comm_iord IORD_CONTROL;
      comm_iowr (IOWR_CONTROL (Z.lor ctrl RRDY_MSK));;
      emit (SetLevel (Diag.irq chan) 1);;
      emit (Unmask (Diag.irq chan));;
      mret 0
  | IRQ_DISABLE =>
      ret ← gets irq_state;
      modify (Diag.set_irq_state 0);;
      ctrl ← comm_iord IORD_CONTROL;
      comm_iowr (IOWR_CONTROL (Z.land ctrl (u32 (Z.lnot RRDY_MSK))));;
      emit (Mask (Diag.irq chan));;
      mret ret
  | DBG_ISR_VECTOR => mret (s32 (Diag.irq chan))
  | OtherCommand => mret 0
  end.

(** The result, and what is stored at [__ctrlc]. *)
Definition altera_avalon_uart_diag_isr : M (comm D) (Z * Z) :=
  chan ← get;
  emit (Acknowledge (Diag.irq chan));;
  status ← comm_iord IORD_STATUS;
  comm_iowr (IOWR_STATUS 0);;
  if ctrue (Z.land status RRDY_MSK) then
    data ← comm_iord IORD_RXDATA;
    if negb (ctrue (Z.land status (Z.lor PE_MSK FE_MSK))) then
      mret (CYG_ISR_HANDLED, if cyg_hal_is_break (u8 data) then 1 else 0)
    else mret (0, 0)
  else mret (0, 0).

End Driver.

(** The channels of the driver, connected to their devices. *)
Definition altera_avalon_uart_diag_init : list Z -> list Z -> list instance -> Z -> chans -> chans * list init_call :=
  diag_init true.

(** ** The UART is a port *)

Section Laws.
Context {D : Type} {regs : UartRegs D} {cfg : CommConfig} {laws : UartLaws D} {timing : UartTiming D}.

(** The delays of the HAL do not touch the UART. *)
Class DelayLaw : Prop := {
  uart_delay_law us d : sent (DELAY_US us d) = sent d /\ taken (DELAY_US us d) = taken d;
}.

Lemma wp_uart_comm_iord f (Q : Z -> comm D -> Prop) s :
  Q (f (Diag.hw s)).1 (Diag.set_hw (f (Diag.hw s)).2 s) -> wp (comm_iord f) Q s.
Proof. unfold wp, comm_iord. by destruct (f (Diag.hw s)). Qed.

Lemma wp_uart_wait_trdy polls (Q : unit -> comm D -> Prop) s :
  (tx_wait (Diag.hw s) < polls)%nat ->
  (forall d', tx_ready d' -> sent d' = sent (Diag.hw s) -> taken d' = taken (Diag.hw s) -> Q tt (Diag.set_hw d' s)) ->
  wp (wait_trdy polls) Q s.
Proof.
  revert s. induction polls as [|k IH]; intros s Hp HQ; [lia|]. cbn [wait_trdy].
  apply wp_bind, wp_uart_comm_iord. pose proof (status_law (Diag.hw s)) as Hst.
  pose proof (tx_wait_law (Diag.hw s)) as Hw. destruct (IORD_STATUS (Diag.hw s)) as [v d1]. cbn [fst snd].
  destruct Hst as (Ht & Hs & _ & _ & Hr). destruct (Z.eqb_spec (Z.land v TRDY_MSK) 0) as [E|E].
  - apply IH; [cbn; specialize (Hw E); lia|]. intros d' Hrdy Hs' Ht'. cbn in *. apply HQ; congruence.
  - apply wp_ret, HQ; auto.
Qed.

Context {delays : DelayLaw}.

#[export, refine] Instance uart_diag : DiagLaws D := {
  c_taken := taken;
  c_sent := sent;
  c_latency := tx_latency;
  c_due := due;
}.
Proof.
  - intros polls c s Hp. apply wp_bind, wp_uart_wait_trdy; [pose proof (tx_wait_bound (Diag.hw s)); lia|].
    intros d' Hrdy Hs Ht. apply wp_modify. destruct (tx_law c d' Hrdy) as (Ht2 & Hs2 & _).
    eexists. split; [done|]. cbn. split; congruence.
  - intros s. apply wp_bind, wp_uart_comm_iord. pose proof (poll_law (Diag.hw s)) as Hpoll.
    pose proof (due_law (Diag.hw s)) as Hdue.
    destruct (IORD_STATUS (Diag.hw s)) as [v d1]. destruct Hpoll as [[Ht Hs _] Hr]. cbn [fst snd].
    apply wp_bind, wp_modify. cbn [Diag.hw Diag.set_hw]. unfold ctrue at 1.
    destruct (Z.eqb_spec (Z.land v RRDY_MSK) 0) as [E|E]; cbn [negb].
    + apply wp_ret. exists (IOWR_STATUS 0 d1), []. split; [done|]. split; [done|]. split; [done|].
      split; [by left|]. intros k n Hn. destruct (Hdue k n Hn) as (m & Hm & Hd).
      rewrite decide_True in Hd by done. by exists m.
    + apply wp_bind, wp_uart_comm_iord. specialize (Hr E). cbn [Diag.hw Diag.set_hw]. fold (has_error v).
      assert (forall k n, due (Diag.hw s) (S k) n -> exists m, (m < n)%nat /\
        due (IORD_RXDATA (IOWR_STATUS 0 d1)).2 (if has_error v then S k else k) m) as Hnext.
      { intros k n Hn. destruct (Hdue k n Hn) as (m & Hm & Hd). rewrite decide_False in Hd by done. by exists m. }
      destruct (IORD_RXDATA (IOWR_STATUS 0 d1)) as [w d3]. destruct Hr as [Ht3 Hs3 _]. cbn [fst snd] in *.
      destruct (has_error v) eqn:He; cbn [negb]; apply wp_ret; exists d3; eexists;
        (split; [done|]); (split; [done|]); (split; [exact Ht3|]); (split; [right|exact Hnext]).
      * by exists (u8 w), true.
      * by exists (u8 w), false.
  - intros us d. apply uart_delay_law.
Defined.

End Laws.
