(* ===== verification/JtagFacts.v ===== *)
(** * What the JTAG UART driver guarantees

    [JtagLaws] looks at the device through its receive FIFO, the room of its
    transmit FIFO, and the characters that have gone through each. *)

From S2P Require Import Prelude.
From S2P Require Import Serial.
From S2P Require Import JtagUart.

Class JtagLaws (D : Type) {regs : JtagRegs D} := {
  fifo : D -> list Z;     (* characters that wait to be read *)
  room : D -> Z;          (* characters that can be written *)
  taken : D -> list Z;
  sent : D -> list Z;
  fifo_bytes d : bytes_ok (fifo d);
  room_nonneg d : 0 <= room d;
  data_law d : let '(v, d') := IORD_DATA d in
    sent d' = sent d /\ room d <= room d' /\
    match fifo d with
    | [] => Z.land v RVALID_MSK = 0 /\ taken d' = taken d
    | c :: rest =>
        Z.land v RVALID_MSK <> 0 /\ field DATA_MSK DATA_OFST v = c /\ u8 v = c /\
        field RAVAIL_MSK RAVAIL_OFST v = Z.of_nat (length rest) /\
        taken d' = taken d ++ [c] /\ rest `prefix_of` fifo d'
    end;
  write_law c d : 0 < room d -> let d' := IOWR_DATA c d in
    sent d' = sent d ++ [c] /\ room d - 1 <= room d' /\ taken d' = taken d /\ fifo d `prefix_of` fifo d';
  control_law d : let '(v, d') := IORD_CONTROL d in
    sent d' = sent d /\ room d <= room d' /\ taken d' = taken d /\ fifo d `prefix_of` fifo d' /\
    (field WSPACE_MSK WSPACE_OFST v <= room d' /\ 0 <= field WSPACE_MSK WSPACE_OFST v) /\
    (Z.land v WSPACE_MSK <> 0 -> 0 < room d') /\
    (Z.land v RI_MSK <> 0 -> fifo d' <> []);
  set_control_law v d : let d' := IOWR_CONTROL v d in
    sent d' = sent d /\ room d <= room d' /\ taken d' = taken d /\ fifo d `prefix_of` fifo d';
}.

Section Facts.
Context {D U : Type} {regs : JtagRegs D} {upper : SerialLayer U} {cfg : JtagConfig}
  {laws : JtagLaws D} {ulaws : SerialLaws U}.

(** The driver's part in a step that takes nothing: [out] is sent, using no more room. *)
Record step (s s' : chan D U) (out : list Z) : Prop := {
  step_irq : irq s' = irq s;
  step_len : out_len s' = out_len s;
  step_calls : calls s' = calls s;
  step_taken : taken (hw s') = taken (hw s);
  step_sent : sent (hw s') = sent (hw s) ++ out;
  step_room : room (hw s) - Z.of_nat (length out) <= room (hw s');
  step_fifo : fifo (hw s) `prefix_of` fifo (hw s');
}.

Lemma step_layer u (s : chan D U) : step s (set_layer u s) [].
Proof. split; cbn; rewrite ?app_nil_r; try done. lia. Qed.

Lemma step_refl s : step s s [].
Proof. split; cbn; rewrite ?app_nil_r; try done. lia. Qed.

Lemma step_trans s1 s2 s3 o1 o2 : step s1 s2 o1 -> step s2 s3 o2 -> step s1 s3 (o1 ++ o2).
Proof.
  intros [A1 A2 A3 A4 A5 A6 A7] [B1 B2 B3 B4 B5 B6 B7].
  split; try congruence; [by rewrite B5, A5, app_assoc|rewrite length_app; lia|by etrans].
Qed.

Lemma wp_jtag_iord f (Q : Z -> chan D U -> Prop) s : Q (f (hw s)).1 (set_hw (f (hw s)).2 s) -> wp (iord f) Q s.
Proof. unfold wp, iord. by destruct (f (hw s)). Qed.

(** The control register is read. *)
Lemma wp_jtag_control (Q : Z -> chan D U -> Prop) s :
  (forall v s', v = (IORD_CONTROL (hw s)).1 -> layer s' = layer s -> step s s' [] ->
     0 <= field WSPACE_MSK WSPACE_OFST v <= room (hw s') ->
     (Z.land v WSPACE_MSK <> 0 -> 0 < room (hw s')) ->
     (Z.land v RI_MSK <> 0 -> fifo (hw s') <> []) -> Q v s') ->
  wp (iord IORD_CONTROL) Q s.
Proof.
  intros HQ. apply wp_jtag_iord. pose proof (control_law (hw s)) as Hc.
  destruct (IORD_CONTROL (hw s)) as [v d']. destruct Hc as (Hs & Hr & Ht & Hf & [Hw Hw0] & Hp & Hi).
  apply HQ; [done|done| |cbn; lia|done|done]. split; cbn; rewrite ?app_nil_r; try done. lia.
Qed.

Lemma wp_rmw (f : Z -> Z) (Q : unit -> chan D U -> Prop) s :
  (forall s', layer s' = layer s -> step s s' [] -> Q tt s') ->
  wp (control ← iord IORD_CONTROL; iowr (IOWR_CONTROL (f control))) Q s.
Proof.
  intros HQ. apply wp_bind, wp_jtag_control. intros v s1 _ Hl1 Hst1 _ _ _. apply wp_modify.
  destruct (set_control_law (f v) (hw s1)) as (Hs & Hr & Ht & Hf). apply HQ; [done|].
  apply (step_trans _ _ _ [] [] Hst1). split; cbn; rewrite ?app_nil_r; try done. lia.
Qed.

Lemma wp_write c (Q : unit -> chan D U -> Prop) s :
  0 < room (hw s) -> (forall s', layer s' = layer s -> step s s' [c] -> Q tt s') ->
  wp (iowr (IOWR_DATA c)) Q s.
Proof.
  intros Hroom HQ. apply wp_modify. destruct (write_law c (hw s) Hroom) as (Hs & Hr & Ht & Hf).
  apply HQ; [done|]. by split.
Qed.

Lemma wp_jtag_putc c (Q : bool -> chan D U -> Prop) s :
  (forall (b : bool) s', layer s' = layer s -> step s s' (if b then [c] else []) -> Q b s') ->
  wp (altera_avalon_jtag_uart_putc c) Q s.
Proof.
  intros HQ. apply wp_bind, wp_jtag_control. intros v s1 _ Hl1 Hst1 _ Hw _. wp_if; [|by apply wp_ret, HQ].
  unfold ctrue in Heqb. apply negb_true_iff, Z.eqb_neq in Heqb.
  apply wp_bind, wp_write; [by apply Hw|]. intros s2 Hl2 Hst2. apply wp_ret, HQ; [congruence|].
  by apply (step_trans _ _ _ [] [c] Hst1).
Qed.

Lemma wp_set_config key x len (Q : Z -> chan D U -> Prop) s :
  (forall r s', layer s' = layer s -> step s s' [] -> Q r s') ->
  wp (altera_avalon_jtag_uart_set_config key x len) Q s.
Proof.
  intros HQ. unfold altera_avalon_jtag_uart_set_config.
  pose proof (fun r => HQ r s eq_refl (step_refl s)) as Hsame.
  wp_if; [|by apply wp_ret]. wp_if; [by apply wp_ret|]. wp_if.
  { apply wp_bind, (wp_rmw (fun v => Z.land v _)). intros s1 Hl Hs. by apply wp_ret, HQ. }
  wp_if; [|by apply wp_ret].
  apply wp_bind, (wp_rmw (fun v => Z.lor v _)). intros s1 Hl Hs. by apply wp_ret, HQ.
Qed.

Lemma wp_jtag_callback {A} (p : prog U A) (Q : A -> chan D U -> Prop) s :
  (forall l a s', accepted p l (layer s') a -> step s s' l -> Q a s') -> wp (callback p) Q s.
Proof.
  revert s. induction p as [u a|c k IH|k IH|on k IH]; intros s HQ; cbn [callback].
  - apply wp_bind, wp_modify, wp_ret, (HQ []); [constructor|apply step_layer].
  - apply wp_bind, wp_jtag_putc. intros b s1 _ Hst1. apply IH. intros l a s2 Ha Hst2.
    eapply HQ; [by constructor|by eapply step_trans].
  - apply wp_bind, (wp_rmw (fun v => Z.land v _)). intros s1 _ Hst1. apply IH. intros l a s2 Ha Hst2.
    eapply HQ; [by constructor|by apply (step_trans _ _ _ [] l Hst1)].
  - apply wp_bind, wp_set_config. intros r s1 _ Hst1. apply IH. intros l a s2 Ha Hst2.
    eapply HQ; [by econstructor|by apply (step_trans _ _ _ [] l Hst1)].
Qed.

Lemma wp_call_layer {A} (f : U -> prog U A) (Q : A -> chan D U -> Prop) s :
  (forall l a s', accepted (f (layer s)) l (layer s') a -> step s s' l -> Q a s') -> wp (call_layer f) Q s.
Proof. intros HQ. apply wp_bind. apply (wp_eq _ _ _ _ _ eq_refl). by apply wp_jtag_callback. Qed.

(** ** The two halves of the handler *)

Lemma wp_write_fifo cs (Q : unit -> chan D U -> Prop) s :
  Z.of_nat (length cs) <= room (hw s) ->
  (forall s', layer s' = layer s -> step s s' cs -> Q tt s') -> wp (write_fifo cs) Q s.
Proof.
  revert s. induction cs as [|c cs IH]; intros s Hroom HQ; cbn [write_fifo].
  { apply wp_ret, HQ; [done|apply step_refl]. }
  cbn in Hroom. apply wp_bind, wp_write; [lia|]. intros s1 Hl1 Hst1.
  apply IH; [destruct Hst1; cbn in *; lia|]. intros s2 Hl2 Hst2. apply HQ; [congruence|].
  by apply (step_trans _ _ _ [c] cs Hst1).
Qed.

(** A character that waits is read and passed up. *)
Definition read_up (s s' : chan D U) (got : list Z) : Prop :=
  calls s' = calls s /\ sent (hw s) `prefix_of` sent (hw s') /\ taken (hw s') = taken (hw s) ++ got /\
  received (layer s') = received (layer s) ++ got.

Lemma wp_pass_up n (Q : unit -> chan D U -> Prop) s :
  (n <= length (fifo (hw s)))%nat ->
  (forall s', read_up s s' (take n (fifo (hw s))) -> Q tt s') -> wp (pass_up n) Q s.
Proof.
  revert s. induction n as [|n IH]; intros s Hn HQ; cbn [pass_up].
  { apply wp_ret, HQ. rewrite take_0. split_and!; by rewrite ?app_nil_r. }
  apply wp_bind, wp_jtag_iord. pose proof (data_law (hw s)) as Hd. pose proof (fifo_bytes (hw s)) as Hb.
  destruct (IORD_DATA (hw s)) as [v d1]. destruct (fifo (hw s)) as [|c rest] eqn:Ef; [cbn in Hn; lia|].
  destruct Hd as (Hs & _ & _ & Hc & _ & _ & Ht & Hpre). cbn [fst snd]. rewrite Hc.
  apply Forall_cons_1 in Hb as [Hb _]. rewrite (u8_id c) by done.
  apply wp_bind, wp_call_layer. intros out [] s2 Hacc [S1 S2 S3 S4 S5 S6 S7].
  pose proof (accepted_leaf _ _ _ _ _ Hacc (rcv_char_law c _)) as Hr. cbn [hw layer irq calls set_hw] in *.
  assert (rest `prefix_of` fifo (hw s2)) as [more Hmore] by (by etrans).
  apply IH; [rewrite Hmore, length_app; cbn in Hn; lia|].
  intros s3 (R1 & R2 & R3 & R4). apply HQ. cbn [take].
  assert (take n (fifo (hw s2)) = take n rest) as Htake by (rewrite Hmore, take_app_le; [done|cbn in Hn; lia]).
  rewrite Htake in *. split_and!; try congruence.
  - etrans; [|exact R2]. rewrite S5, Hs. by eexists.
  - by rewrite R3, S4, Ht, <- app_assoc.
  - by rewrite R4, Hr, <- app_assoc.
Qed.

(** The layer does not answer the request for what there is room for: it leaves the
    pointers unset, having nothing to send or being held back by flow control. *)
Definition unanswered (control : Z) (u : U) : Prop :=
  exists u', accepted (data_xmt_req (field WSPACE_MSK WSPACE_OFST control) u) [] u' None.

(** The write half: without an answer it uses the unset pointers; with one, the
    characters of the layer fit and are sent before it is told. *)
Lemma dsr_write_cases control (Q : unit -> chan D U -> Prop) s :
  0 <= field WSPACE_MSK WSPACE_OFST control <= room (hw s) ->
  (forall cs out u1 l s', accepted (data_xmt_req (field WSPACE_MSK WSPACE_OFST control) (layer s)) [] u1 (Some cs) ->
     accepted (data_xmt_done (Z.of_nat (length cs)) u1) l (layer s') tt ->
     received (layer s') = received (layer s) -> out = cs ++ l -> step s s' out -> Q tt s') ->
  (unanswered control (layer s) /\ dsr_write control s = UB) \/ wp (dsr_write control) Q s.
Proof.
  intros Hsp HQ.
  assert (wp (call_layer (data_xmt_req (field WSPACE_MSK WSPACE_OFST control))) (fun r s1 => exists l,
    accepted (data_xmt_req (field WSPACE_MSK WSPACE_OFST control) (layer s)) l (layer s1) r /\ step s s1 l) s)
    as (r & s1 & E & l & Hacc & Hst1)%wp_Ret by (apply wp_call_layer; eauto).
  pose proof (accepted_silent _ _ _ _ Hacc (xmt_req_silent _ _)) as ->.
  destruct (accepted_leaf _ _ _ _ _ Hacc (xmt_req_law _ _ (proj1 Hsp))) as [Hrec Hlen].
  destruct r as [cs|].
  2: { left. split; [by eexists|]. unfold dsr_write. mred. by rewrite E. }
  right. apply wp_bind, (wp_eq _ _ _ _ _ E). specialize (Hlen cs eq_refl).
  apply wp_bind, wp_write_fifo; [destruct Hst1; cbn in *; lia|]. intros s2 Hl2 Hst2.
  apply wp_call_layer. intros l3 [] s3 Hacc3 Hst3. rewrite Hl2 in Hacc3.
  pose proof (accepted_leaf _ _ _ _ _ Hacc3 (xmt_done_law _ _)) as Hrec3. cbn beta in Hrec3.
  eapply HQ; [exact Hacc|exact Hacc3|congruence|done|].
  rewrite <- (app_nil_l (cs ++ l3)). eapply step_trans; [exact Hst1|]. by eapply step_trans.
Qed.

(** The read half: everything that waits when the first character is read. *)
Lemma wp_dsr_read (Q : unit -> chan D U -> Prop) s :
  flow_control_hw = false -> fifo (hw s) <> [] ->
  (forall s', read_up s s' (fifo (hw s)) -> Q tt s') -> wp dsr_read Q s.
Proof.
  intros Hfc Hne HQ. apply wp_bind, wp_jtag_iord. pose proof (data_law (hw s)) as Hd.
  pose proof (fifo_bytes (hw s)) as Hb. destruct (IORD_DATA (hw s)) as [v d1].
  destruct (fifo (hw s)) as [|c rest] eqn:Ef; [done|].
  destruct Hd as (Hs & _ & _ & Hc & _ & Hav & Ht & Hpre). cbn [fst snd]. rewrite Hc, Hav, Hfc.
  apply Forall_cons_1 in Hb as [Hb _]. rewrite (u8_id c) by done.
  apply wp_bind, wp_call_layer. intros out [] s2 Hacc [S1 S2 S3 S4 S5 S6 S7].
  pose proof (accepted_leaf _ _ _ _ _ Hacc (rcv_char_law c _)) as Hr. cbn [hw layer irq calls set_hw] in *.
  assert (rest `prefix_of` fifo (hw s2)) as [more Hmore] by (by etrans).
  apply wp_when; intros Hrest.
  - rewrite Nat2Z.id. apply wp_pass_up; [rewrite Hmore, length_app; lia|].
    rewrite Hmore, take_app_length. intros s3 (R1 & R2 & R3 & R4). apply HQ.
    split_and!; try congruence; [etrans; [|exact R2]; rewrite S5, Hs; by eexists|by rewrite R3, S4, Ht, <- app_assoc|by rewrite R4, Hr, <- app_assoc].
  - assert (rest = []) as -> by (destruct rest; [done|by cbn in Hrest]). apply HQ.
    split_and!; try congruence. rewrite S5, Hs. by eexists.
Qed.

End Facts.

(** * The JTAG UART as a channel of the debugger
    (packages/hal/sopc/altera_avalon_jtag_uart_comm, altera_avalon_jtag_uart_comm.c)

    [putc], [getc_nonblock], [control] and the interrupt routine; the rest is
    [Diag], whose promises follow from the laws above. *)

From S2P Require Import Diag.


Section Driver.
Context {D : Type} {regs : JtagRegs D}.

Definition comm_iord (f : D -> Z * D) : M (comm D) Z := fun s =>
  let '(v, d) := f (Diag.hw s) in Ret (v, Diag.set_hw d s).

Definition comm_iowr (f : D -> D) : M (comm D) unit := modify (fun s => Diag.set_hw (f (Diag.hw s)) s).

(** The wait of [putc]. *)
Fixpoint wait_wspace (polls : nat) : M (comm D) unit :=
  match polls with
  | O => no_fuel
  | S k =>
      control ← comm_iord IORD_CONTROL;
      if Z.land control WSPACE_MSK =? 0 then wait_wspace k else mret tt
  end.

Definition altera_avalon_jtag_uart_diag_putc (polls : nat) (ch : Z) : M (comm D) unit :=
  wait_wspace polls;; comm_iowr (IOWR_DATA ch).

Definition altera_avalon_jtag_uart_diag_getc_nonblock : M (comm D) (bool * option Z) :=
  data ← comm_iord IORD_DATA;
  if ctrue (Z.land data RVALID_MSK) then mret (true, Some (u8 (field DATA_MSK DATA_OFST data)))
  else mret (false, None).

#[export] Instance jtag_port : DiagPort D := {
  port_putc := altera_avalon_jtag_uart_diag_putc;
  port_getc_nonblock := altera_avalon_jtag_uart_diag_getc_nonblock;
  port_delay := DELAY_US;
}.

Definition altera_avalon_jtag_uart_diag_getc : nat -> M (comm D) Z := diag_getc.

Definition altera_avalon_jtag_uart_diag_write : nat -> list Z -> Z -> M (comm D) unit := diag_write.

Definition altera_avalon_jtag_uart_diag_read : nat -> Z -> M (comm D) (list Z) := diag_read.

Definition altera_avalon_jtag_uart_diag_getc_timeout : option Z -> M (comm D) (bool * option Z) := diag_getc_timeout.

(** No command is supported. *)
Definition altera_avalon_jtag_uart_diag_control : M (comm D) Z := mret 1.

Definition altera_avalon_jtag_uart_diag_isr : M (comm D) Z := mret 0.

End Driver.

(** The channels of the driver, connected to their devices; only the address is kept. *)
Definition altera_avalon_jtag_uart_diag_init : list Z -> list Z -> list instance -> Z -> chans -> chans * list init_call :=
  diag_init false.

(** ** The JTAG UART is a port *)

(** The host empties the transmit FIFO after a while; [due d k n] says that [k]
    characters are found by [n] readings. *)
Class JtagTiming (D : Type) {regs : JtagRegs D} {laws : JtagLaws D} := {
  tx_wait : D -> nat;
  tx_latency : nat;
  tx_wait_bound d : (tx_wait d <= tx_latency)%nat;
  tx_wait_law d : let '(v, d') := IORD_CONTROL d in Z.land v WSPACE_MSK = 0 -> (tx_wait d' < tx_wait d)%nat;
  due : D -> nat -> nat -> Prop;
  due_law d k n : due d (S k) n -> exists m, (m < n)%nat /\
    match fifo d with [] => due (IORD_DATA d).2 (S k) m | _ => due (IORD_DATA d).2 k m end;
  jtag_delay_law us d : sent (DELAY_US us d) = sent d /\ taken (DELAY_US us d) = taken d;
}.

Section Laws.
Context {D : Type} {regs : JtagRegs D} {laws : JtagLaws D} {timing : JtagTiming D}.

Lemma wp_jtag_comm_iord f (Q : Z -> comm D -> Prop) s :
  Q (f (Diag.hw s)).1 (Diag.set_hw (f (Diag.hw s)).2 s) -> wp (comm_iord f) Q s.
Proof. unfold wp, comm_iord. by destruct (f (Diag.hw s)). Qed.

Lemma wp_wait_wspace polls (Q : unit -> comm D -> Prop) s :
  (tx_wait (Diag.hw s) < polls)%nat ->
  (forall d', 0 < room d' -> sent d' = sent (Diag.hw s) -> taken d' = taken (Diag.hw s) -> Q tt (Diag.set_hw d' s)) ->
  wp (wait_wspace polls) Q s.
Proof.
  revert s. induction polls as [|k IH]; intros s Hp HQ; [lia|]. cbn [wait_wspace].
  apply wp_bind, wp_jtag_comm_iord. pose proof (control_law (Diag.hw s)) as Hc.
  pose proof (tx_wait_law (Diag.hw s)) as Hw. destruct (IORD_CONTROL (Diag.hw s)) as [v d1]. cbn [fst snd].
  destruct Hc as (Hs & _ & Ht & _ & _ & Hr & _). destruct (Z.eqb_spec (Z.land v WSPACE_MSK) 0) as [E|E].
  - apply IH; [cbn; specialize (Hw E); lia|]. intros d' Hrdy Hs' Ht'. cbn in *. apply HQ; congruence.
  - apply wp_ret, HQ; auto.
Qed.

#[export, refine] Instance jtag_diag : DiagLaws D := {
  c_taken d := map (fun c => (c, false)) (taken d);
  c_sent := sent;
  c_latency := tx_latency;
  c_due := due;
}.
Proof.
  - intros polls c s Hp. apply wp_bind, wp_wait_wspace; [pose proof (tx_wait_bound (Diag.hw s)); lia|].
    intros d' Hrdy Hs Ht. apply wp_modify. destruct (write_law c d' Hrdy) as (Hs2 & _ & Ht2 & _).
    eexists. split; [done|]. cbn. split; congruence.
  - intros s. apply wp_bind, wp_jtag_comm_iord. pose proof (data_law (Diag.hw s)) as Hd.
    pose proof (due_law (Diag.hw s)) as Hdue. pose proof (fifo_bytes (Diag.hw s)) as Hb.
    destruct (IORD_DATA (Diag.hw s)) as [v d1]. destruct Hd as (Hs & _ & Hd). cbn [fst snd] in *.
    destruct (fifo (Diag.hw s)) as [|c rest].
    + destruct Hd as [Hv Ht]. rewrite Hv. apply wp_ret. exists d1, []. split; [done|]. split; [done|].
      split; [by rewrite Ht, app_nil_r|]. split; [by left|exact Hdue].
    + destruct Hd as (Hv & Hc & _ & _ & Ht & _). apply Forall_cons_1 in Hb as [Hb _].
      unfold ctrue. rewrite (proj2 (Z.eqb_neq _ _) Hv), Hc, (u8_id c) by done. cbn [negb]. apply wp_ret.
      exists d1, [(c, false)]. split; [done|]. split; [done|]. split; [by rewrite Ht, map_app|].
      split; [right; by exists c, false|exact Hdue].
  - intros us d. destruct (jtag_delay_law us d) as [Hs Ht]. cbn. by rewrite Hs, Ht.
Defined.

End Laws.
