(* ===== verification/UartProps.v ===== *)
(** * Theorems about the UART driver, and a UART on which they run *)

From S2P Require Import Prelude.
From S2P Require Import Serial.
From S2P Require Import Uart.
From S2P Require Import UartFacts.

(** * A UART that satisfies the laws *)

(** [line]: the characters to come, with their errors; [busy]: readings of the
    status until the transmitter is ready. *)
Record usim := mkUsim {
  line : list (Z * bool);
  seen : option bool;
  log_taken : list (Z * bool);
  log_sent : list Z;
  busy : nat;
  control : Z;
  divisor : Z;
}.

Definition usim_status (d : usim) : Z :=
  (match line d with [] => 0 | (_, e) :: _ => if e then 129 else 128 end) + (if decide (busy d = 0%nat) then 64 else 0).

#[export] Instance usim_regs : UartRegs usim := {
  IORD_STATUS d :=
    (usim_status d,
     mkUsim (line d) (match line d with [] => None | (_, e) :: _ => Some e end) (log_taken d) (log_sent d)
       (pred (Nat.min (busy d) 2)) (control d) (divisor d));
  IOWR_STATUS _ d := d;
  IORD_RXDATA d :=
    match line d, seen d with
    | (c, _) :: rest, Some e =>
        (c, mkUsim rest None (log_taken d ++ [(u8 c, e)]) (log_sent d) (busy d) (control d) (divisor d))
    | _, _ => (0, d)
    end;
  IOWR_TXDATA c d :=
    mkUsim (line d) (seen d) (log_taken d)
      (if decide (busy d = 0%nat) then log_sent d ++ [c] else log_sent d) 2 (control d) (divisor d);
  IORD_CONTROL d := (control d, d);
  IOWR_CONTROL v d := mkUsim (line d) (seen d) (log_taken d) (log_sent d) (busy d) v (divisor d);
  IOWR_DIVISOR v d := mkUsim (line d) (seen d) (log_taken d) (log_sent d) (busy d) (control d) v;
  DELAY_US _ d := d;
  PE_MSK := 1;
  FE_MSK := 2;
  TRDY_MSK := 64;
  RRDY_MSK := 128;
  DCTS_MSK := 1024;
  CTS_MSK := 2048;
  RTS_MSK := 2048;
}.

#[export, refine] Instance usim_laws : UartLaws usim := {
  taken := log_taken;
  sent := log_sent;
  pending := seen;
  tx_ready d := busy d = 0%nat;
  loads d := length (line d);
}.
Proof.
  - intros d. cbn. split; [done|]. split; [done|]. split; [lia|]. unfold usim_status.
    destruct (line d) as [|[c []] rest], (decide (busy d = 0%nat)) as [-> |]; cbn; (split; intros ?); try done;
      by (split; [|lia]).
  - done.
  - intros d e Hp Hl. cbn in *. destruct (line d) as [|[c e'] rest]; [cbn in Hl; lia|]. rewrite Hp. cbn.
    split; [done|]. split; [done|lia].
  - intros c d Hr. cbn in *. by rewrite decide_True.
  - done.
  - done.
Defined.

#[export, refine] Instance usim_timing : UartTiming usim := {
  tx_wait d := Nat.min (busy d) 2;
  tx_latency := 2;
  due d k n := (k <= length (good (take n (line d))))%nat;
}.
Proof.
  - intros d. lia.
  - intros d. cbn. unfold usim_status. destruct (decide (busy d = 0%nat)) as [E|E].
    + destruct (line d) as [|[c []] rest]; cbn; done.
    + intros _. lia.
  - intros d k n Hn. cbn in *. unfold usim_status. destruct n as [|n]; [by inversion Hn|]. exists n. split; [lia|].
    destruct (line d) as [|[c e] rest] eqn:Hline; [by inversion Hn|]. cbn [take] in Hn.
    rewrite good_cons in Hn. destruct e, (decide (busy d = 0%nat));
      (rewrite decide_False by done);
      match goal with |- context [has_error ?v] =>
        let b := eval vm_compute in (has_error v) in change (has_error v) with b end; cbn in *; lia.
Defined.

#[export] Instance usim_delay : DelayLaw (D := usim).
Proof. by split. Qed.

Definition uart_line (l : list (Z * bool)) : usim := mkUsim l None [] [] 0 0 0.

(** * The theorems *)

Section Claims.
Context {D U : Type} {regs : UartRegs D} {upper : SerialLayer U} {cfg : SerialConfig}
  {laws : UartLaws D} {ulaws : SerialLaws U}.

(** C20: the handler of the UART interrupt returns, whatever arrives while it runs: with
    fuel for two more turns than characters can arrive.  The characters it took
    from the receiver, in order, are those it passed to the serial layer, less
    the ones with parity or framing errors, followed by those it threw away; it
    throws characters away only when the layer refuses them.  The interrupt is
    unmasked last, and nothing of the channel but the hardware and the layer changes. *)
Theorem uart_DSR_receives fuel vector (s : chan D U) :
  (S (loads (hw s)) < fuel)%nat ->
  wp (altera_avalon_uart_DSR fuel vector) (fun _ s' =>
    exists kept dropped,
      taken (hw s') = taken (hw s) ++ kept ++ dropped /\
      received (layer s') = received (layer s) ++ good kept /\
      (dropped = [] \/ exists u, received u = received (layer s') /\ refuses u) /\
      config s' = config s /\ calls s' = calls s ++ [IntUnmask vector]) s.
Proof.
  intros Hf. unfold altera_avalon_uart_DSR. apply wp_bind, wp_rx_loop; [done|].
  intros save s1 [(Hcfg & _ & _ & _ & _ & Hcalls) (kept & dropped & Ht & Hr & Hdrop)].
  apply wp_bind, wp_when; intros _.
  - apply wp_bind. apply (wp_eq _ _ _ _ _ eq_refl). apply wp_uart_callback.
    intros l [] s2 Hacc [(Hcfg2 & _ & _ & _ & _ & Hcalls2) Ht2 _ _].
    pose proof (accepted_leaf _ _ _ _ _ Hacc (xmt_char_law (layer s1))) as Hr2. cbn beta in Hr2.
    apply wp_modify. exists kept, dropped. cbn [hw layer config calls set_calls].
    rewrite Ht2, Hr2, Hcfg2, Hcalls2, Hcalls. auto.
  - apply wp_modify. exists kept, dropped. cbn [hw layer config calls set_calls]. rewrite Hcalls. auto.
Qed.

(** A transmission is faithful: the characters for which the driver answers the
    layer's transmit routine that it has taken them are, in order, exactly those
    given to the transmitter, each when the transmitter was ready; nothing is
    received meanwhile. *)
Theorem uart_start_sends (s : chan D U) :
  wp altera_avalon_uart_start_xmit (fun _ s' =>
    exists l, accepted (xmt_char (layer s)) l (layer s') tt /\
      sent (hw s') = sent (hw s) ++ l /\ taken (hw s') = taken (hw s)) s.
Proof.
  unfold altera_avalon_uart_start_xmit. apply wp_bind, wp_bind. apply (wp_eq _ _ _ _ _ eq_refl).
  apply wp_uart_callback. intros l [] s1 Hacc [_ Ht1 Hs1 _].
  apply (wp_uart_control (fun v => Z.lor v _)). intros s2 Hly [_ Ht2 Hs2 _].
  exists l. rewrite Hly, Ht2, Hs2, Hs1, app_nil_r. auto.
Qed.

(** What may be changed: the baud rate unless the hardware fixes it, and with flow
    control the transmit flag. *)
Definition allowed (s : chan D U) (new : cyg_serial_info_t) : Prop :=
  stop new = stop (config s) /\ parity new = parity (config s) /\ word_length new = word_length (config s) /\
  (Z.land (dev_flags s) ALT_AVALON_UART_FB <> 0 -> baud new = baud (config s)) /\
  (Z.land (dev_flags s) ALT_AVALON_UART_FC = 0 -> flags new = flags (config s)) /\
  Z.land (flags new) (Z.lnot CYGNUM_SERIAL_FLOW_RTSCTS_TX) =
    Z.land (flags (config s)) (Z.lnot CYGNUM_SERIAL_FLOW_RTSCTS_TX).

#[global] Instance allowed_dec s new : Decision (allowed s new).
Proof. unfold allowed. apply _. Defined.

(** A rate of the table, and the divisor for it. *)
Definition speed_of (new : cyg_serial_info_t) : Z := nth (Z.to_nat (baud new - 1)) altera_avalon_uart_speed 0.

Lemma speed_lookup new : 1 <= baud new <= 21 ->
  altera_avalon_uart_speed !! Z.to_nat (baud new - 1) = Some (speed_of new) /\ 50 <= speed_of new <= 230400.
Proof.
  intros Hb. unfold speed_of. assert (Z.to_nat (baud new - 1) < 21)%nat as Hk by lia.
  generalize dependent (Z.to_nat (baud new - 1)). intros k Hk.
  do 21 (destruct k as [|k]; [cbn; split; [done|lia]|]). lia.
Qed.

Lemma wp_config_port new (Q : bool -> chan D U -> Prop) s :
  1 <= baud new <= 21 ->
  (~ allowed s new -> Q false s) ->
  (allowed s new ->
   Q true (set_config new (set_hw (IOWR_DIVISOR (u32 (freq s / speed_of new - 1)) (hw s)) s))) ->
  wp (altera_avalon_uart_config_port new) Q s.
Proof.
  intros Hb HF HT. destruct (speed_lookup new Hb) as [Hlook _].
  unfold altera_avalon_uart_config_port. apply wp_bind, wp_get. cbv zeta.
  destruct (Z.eqb_spec (stop new) (stop (config s))) as [E1|E1];
    [|apply wp_ret, HF; by intros (? & _)]. cbn [negb orb].
  destruct (Z.eqb_spec (parity new) (parity (config s))) as [E2|E2];
    [|apply wp_ret, HF; by intros (_ & ? & _)]. cbn [negb orb].
  destruct (Z.eqb_spec (word_length new) (word_length (config s))) as [E3|E3];
    [|apply wp_ret, HF; by intros (_ & _ & ? & _)]. cbn [negb].
  unfold ctrue. destruct (Z.eqb_spec (Z.land (dev_flags s) ALT_AVALON_UART_FB) 0) as [E4|E4],
    (Z.eqb_spec (baud new) (baud (config s))) as [E5|E5]; cbn [negb andb].
  all: try (apply wp_ret, HF; intros (_ & _ & _ & H & _); by destruct E5; apply H).
  all: destruct (Z.eqb_spec (Z.land (flags new) (Z.lnot CYGNUM_SERIAL_FLOW_RTSCTS_TX))
      (Z.land (flags (config s)) (Z.lnot CYGNUM_SERIAL_FLOW_RTSCTS_TX))) as [E6|E6];
    rewrite ?orb_true_r, ?orb_false_r;
    [|apply wp_ret, HF; by intros (_ & _ & _ & _ & _ & ?)].
  all: destruct (Z.eqb_spec (Z.land (dev_flags s) ALT_AVALON_UART_FC) 0) as [E7|E7],
      (Z.eqb_spec (flags new) (flags (config s))) as [E8|E8]; cbn [negb andb orb];
    try (apply wp_ret, HF; intros (_ & _ & _ & _ & H & _); by destruct E8; apply H).
  all: rewrite (proj2 (Z.ltb_ge _ _)), Hlook by lia; apply wp_bind, wp_modify, wp_bind, wp_modify, wp_ret, HT;
    by split_and!.
Qed.

(** A request to configure the channel with a rate of the table is granted exactly
    when it has the right key and length and changes only what the hardware can
    change; the channel then has the new configuration, and the divisor is the
    largest whose rate is not below the one asked for; otherwise the request
    fails and nothing changes. *)
Theorem uart_set_config_exact key new len s :
  1 <= baud new <= 21 -> speed_of new <= freq s < 4294967296 ->
  wp (altera_avalon_uart_set_config key new len) (fun r s' =>
    if decide (key = KEY_SERIAL_INFO /\ sizeof_info <= len /\ allowed s new) then
      r = (ENOERR, sizeof_info) /\
      exists div, s' = set_config new (set_hw (IOWR_DIVISOR div (hw s)) s) /\
        speed_of new * (div + 1) <= freq s < speed_of new * (div + 2)
    else r.1 = - EINVAL /\ s' = s) s.
Proof.
  intros Hb Hfreq. unfold altera_avalon_uart_set_config. destruct (Z.eqb_spec key KEY_SERIAL_INFO) as [->|Hk].
  2: { apply wp_ret. rewrite decide_False; [done|tauto]. }
  destruct (Z.ltb_spec len sizeof_info) as [Hl|Hl].
  { apply wp_ret. rewrite decide_False; [done|lia]. }
  apply wp_bind, wp_config_port; [done| |]; intros Ha; apply wp_ret.
  { rewrite decide_False; [done|tauto]. }
  rewrite decide_True by done. split; [done|]. eexists. split; [done|].
  destruct (speed_lookup new Hb) as [_ Hsp].
  assert (1 <= freq s / speed_of new <= freq s) as Hdiv.
  { split; [by apply Z.div_le_lower_bound; lia|apply Z.div_le_upper_bound; nia]. }
  rewrite (uwrap_id 32) by lia. pose proof (Z.mul_div_le (freq s) (speed_of new)).
  pose proof (Z.mul_succ_div_gt (freq s) (speed_of new)). lia.
Qed.

(** A rate outside the table is looked up outside the array. *)
Theorem uart_config_bad_rate new len s :
  baud new < 1 \/ 21 < baud new -> sizeof_info <= len -> allowed s new ->
  altera_avalon_uart_set_config KEY_SERIAL_INFO new len s = UB.
Proof.
  intros Hb Hl (E1 & E2 & E3 & E4 & E5 & E6).
  unfold altera_avalon_uart_set_config, altera_avalon_uart_config_port.
  rewrite Z.eqb_refl, (proj2 (Z.ltb_ge len _)) by lia. mred.
  rewrite E1, E2, E3, E6, !Z.eqb_refl. cbn [negb orb]. rewrite orb_false_r.
  assert (ctrue (Z.land (dev_flags s) ALT_AVALON_UART_FB) && negb (baud new =? baud (config s)) = false) as ->.
  { unfold ctrue. destruct (Z.eqb_spec (Z.land (dev_flags s) ALT_AVALON_UART_FB) 0); [done|].
    by rewrite E4, Z.eqb_refl by done. }
  assert ((Z.land (dev_flags s) ALT_AVALON_UART_FC =? 0) && negb (flags new =? flags (config s)) = false) as ->.
  { destruct (Z.eqb_spec (Z.land (dev_flags s) ALT_AVALON_UART_FC) 0); [|done].
    by rewrite E5, Z.eqb_refl by done. }
  destruct (Z.ltb_spec (baud new - 1) 0); [done|].
  by rewrite lookup_ge_None_2 by (cbn; lia).
Qed.

End Claims.

(** ** Runs *)

#[export] Instance serial_config : SerialConfig := {
  KEY_SERIAL_INFO := 1;
  sizeof_info := 20;
  CYGNUM_SERIAL_FLOW_RTSCTS_TX := 8;
  CYG_ISR_CALL_DSR := 2;
  EINVAL := 22;
}.

Definition uart_st (l : list (Z * bool)) (room : nat) (tx : list Z) : chan usim buffers :=
  mkChan (uart_line l) (mkBuffers [] room tx) (mkInfo 15 1 0 8 0) 64 4 50000000 0 [].

(** Four characters, one of them bad, and a buffer for two of them. *)
Definition uart_busy : chan usim buffers := uart_st [(65, false); (66, true); (67, false); (68, false)] 2 [33].

Lemma uart_DSR_receives_witness :
  exists s', altera_avalon_uart_DSR 7 4 uart_busy = Ret (tt, s') /\
    rx_data (layer s') = [65; 67] /\ log_sent (hw s') = [33].
Proof.
  assert (S (loads (hw uart_busy)) < 7)%nat as Hloads by (vm_compute; lia).
  pose proof (uart_DSR_receives 7 4 uart_busy Hloads) as H.
  apply (proj1 (wp_Ret _ _ _)) in H as ([] & s' & E & _). exists s'. vm_compute in E. injection E as <-.
  split; [vm_compute; reflexivity|done].
Defined.

(** 115200 baud from 50 MHz. *)
Lemma uart_set_config_exact_witness :
  exists s', altera_avalon_uart_set_config 1 (mkInfo 20 1 0 8 0) 20 (uart_st [] 0 []) = Ret ((0, 20), s') /\
    divisor (hw s') = 433.
Proof.
  assert (1 <= baud (mkInfo 20 1 0 8 0) <= 21 /\
    speed_of (mkInfo 20 1 0 8 0) <= freq (uart_st [] 0 []) < 4294967296) as [Hb Hf]
    by (split; split; by vm_compute).
  pose proof (uart_set_config_exact 1 (mkInfo 20 1 0 8 0) 20 (uart_st [] 0 []) Hb Hf) as H.
  apply (proj1 (wp_Ret _ _ _)) in H as (r & s' & E & _). exists s'. vm_compute in E. injection E as <- <-.
  split; [vm_compute; reflexivity|done].
Defined.
