(* ===== verification/JtagProps.v ===== *)
(** * Theorems about the JTAG UART driver *)

From S2P Require Import Prelude.
From S2P Require Import Serial.
From S2P Require Import JtagUart.
From S2P Require Import JtagFacts.

(** * A JTAG UART that satisfies the laws *)

(** The two FIFOs, what went through them, and the bits of the control register.  When
    the transmit FIFO is full, reading the control register lets the host empty it. *)
Record jsim := mkJsim {
  rx_fifo : list Z;
  tx_room : nat;
  log_taken : list Z;
  log_sent : list Z;
  ctrl : Z;
}.

Definition tx_size : nat := 64.

Definition jsim_data (d : jsim) : Z :=
  match rx_fifo d with
  | [] => 0
  | c :: rest => u8 c + 32768 + 65536 * Z.of_nat (length rest)
  end.

Definition jsim_control (d : jsim) : Z :=
  65536 * Z.of_nat (tx_room d) + (match rx_fifo d with [] => 512 | _ => 768 end) + Z.land (ctrl d) 3.

#[export] Instance jsim_regs : JtagRegs jsim := {
  IORD_DATA d :=
    (jsim_data d,
     match rx_fifo d with
     | [] => d
     | c :: rest => mkJsim rest (tx_room d) (log_taken d ++ [u8 c]) (log_sent d) (ctrl d)
     end);
  IOWR_DATA c d :=
    if decide (tx_room d = 0%nat) then d
    else mkJsim (rx_fifo d) (pred (tx_room d)) (log_taken d) (log_sent d ++ [c]) (ctrl d);
  IORD_CONTROL d :=
    (jsim_control d,
     if decide (tx_room d = 0%nat) then mkJsim (rx_fifo d) tx_size (log_taken d) (log_sent d) (ctrl d) else d);
  IOWR_CONTROL v d := mkJsim (rx_fifo d) (tx_room d) (log_taken d) (log_sent d) v;
  DELAY_US _ d := d;
  RVALID_MSK := 32768;
  DATA_MSK := 255;
  DATA_OFST := 0;
  RAVAIL_MSK := Z.lnot 65535;
  RAVAIL_OFST := 16;
  WSPACE_MSK := Z.lnot 65535;
  WSPACE_OFST := 16;
  WE_MSK := 2;
  RE_MSK := 1;
  WI_MSK := 512;
  RI_MSK := 256;
}.

(** The upper half of a register. *)
Lemma field_high v : field (Z.lnot 65535) 16 v = v / 65536.
Proof.
  unfold field. change 65535 with (Z.ones 16). rewrite <- Z.ldiff_land, Z.ldiff_ones_r by lia.
  rewrite Z.shiftr_shiftl_l by lia. change (16 - 16) with 0. rewrite Z.shiftl_0_r, Z.shiftr_div_pow2 by lia.
  done.
Qed.

Lemma high_zero v : 0 <= v -> Z.land v (Z.lnot 65535) <> 0 -> 0 < v / 65536.
Proof.
  intros Hv Hne. rewrite <- field_high. unfold field. pose proof (Z.div_pos v 65536 Hv).
  rewrite <- field_high in H. unfold field in H. specialize (H ltac:(lia)).
  destruct (Z.eq_dec (Z.shiftr (Z.land v (Z.lnot 65535)) 16) 0) as [E|E]; [|lia]. destruct Hne.
  change 65535 with (Z.ones 16) in *. rewrite <- Z.ldiff_land, Z.ldiff_ones_r in * by lia.
  rewrite Z.shiftr_shiftl_l in E by lia. change (16 - 16) with 0 in E. rewrite Z.shiftl_0_r in E. by rewrite E.
Qed.

(** A bit of the lower half. *)
Lemma land_bit v n : 0 <= n -> Z.land v (2 ^ n) = if Z.testbit v n then 2 ^ n else 0.
Proof.
  intros Hn. apply Z.bits_inj'. intros k Hk. rewrite Z.land_spec, Z.pow2_bits_eqb by lia.
  destruct (Z.eqb_spec n k) as [->|Hne].
  - rewrite andb_true_r. destruct (Z.testbit v k) eqn:E; [by rewrite Z.pow2_bits_true|by rewrite Z.bits_0].
  - rewrite andb_false_r. destruct (Z.testbit v n); [by rewrite Z.pow2_bits_false|by rewrite Z.bits_0].
Qed.

Lemma land_3 v : 0 <= Z.land v 3 < 4.
Proof. change 3 with (Z.ones 2). rewrite Z.land_ones by lia. apply Z.mod_pos_bound. lia. Qed.

Lemma ri_bit (d : jsim) : Z.land (jsim_control d) 256 <> 0 -> rx_fifo d <> [].
Proof.
  intros Hri Hnil. destruct Hri. unfold jsim_control. rewrite Hnil. change 256 with (2 ^ 8).
  rewrite land_bit by lia. pose proof (land_3 (ctrl d)).
  assert (Z.testbit (65536 * Z.of_nat (tx_room d) + 512 + Z.land (ctrl d) 3) 8 = false) as ->; [|done].
  rewrite Z.testbit_false by lia. change (2 ^ 8) with 256.
  replace (65536 * Z.of_nat (tx_room d) + 512 + Z.land (ctrl d) 3)
    with (Z.land (ctrl d) 3 + (256 * Z.of_nat (tx_room d) + 2) * 256) by lia.
  rewrite Z.div_add, Z.div_small by lia. rewrite Z.add_0_l.
  replace (256 * Z.of_nat (tx_room d) + 2) with (0 + (128 * Z.of_nat (tx_room d) + 1) * 2) by lia.
  by rewrite Z.mod_add by lia.
Qed.

#[export, refine] Instance jsim_laws : JtagLaws jsim := {
  fifo d := map u8 (rx_fifo d);
  room d := Z.of_nat (tx_room d);
  taken := log_taken;
  sent := log_sent;
}.
Proof.
  - intros d. apply Forall_map, Forall_true. intros c. apply u8_byte.
  - intros d. lia.
  - intros d. cbn. unfold jsim_data. destruct (rx_fifo d) as [|c rest]; cbn [map].
    + done.
    + pose proof (u8_byte c) as Hc. unfold is_byte in Hc.
      set (v := u8 c + 32768 + 65536 * Z.of_nat (length rest)).
      split; [done|]. split; [done|].
      assert (Z.land v 255 = u8 c) as Hlow.
      { rewrite land_255. subst v. replace (u8 c + 32768 + 65536 * Z.of_nat (length rest))
          with (u8 c + (128 + 256 * Z.of_nat (length rest)) * 256) by lia.
        rewrite Z.mod_add by lia. by apply Z.mod_small. }
      split_and!.
      * change 32768 with (2 ^ 15). rewrite land_bit by lia.
        assert (Z.testbit v 15 = true) as ->; [|done].
        rewrite Z.testbit_true by lia. change (2 ^ 15) with 32768. subst v.
        replace (u8 c + 32768 + 65536 * Z.of_nat (length rest))
          with (u8 c + (1 + 2 * Z.of_nat (length rest)) * 32768) by lia.
        rewrite Z.div_add, Z.div_small by lia. rewrite Z.add_0_l.
        replace (1 + 2 * Z.of_nat (length rest)) with (1 + Z.of_nat (length rest) * 2) by lia.
        by rewrite Z.mod_add by lia.
      * unfold field. by rewrite Hlow, Z.shiftr_0_r.
      * unfold uwrap at 1. change (2 ^ 8) with 256. by rewrite <- land_255.
      * rewrite field_high. subst v. rewrite length_map.
        replace (u8 c + 32768 + 65536 * Z.of_nat (length rest))
          with ((u8 c + 32768) + Z.of_nat (length rest) * 65536) by lia.
        rewrite Z.div_add, Z.div_small by lia. done.
      * done.
      * done.
  - intros c d Hr. cbn in *. rewrite decide_False by lia. cbn. split_and!; try done. lia.
  - intros d. cbn. rewrite field_high.
    assert (jsim_control d / 65536 = Z.of_nat (tx_room d)) as Hroom.
    { unfold jsim_control. pose proof (land_3 (ctrl d)).
      replace (65536 * Z.of_nat (tx_room d) + (match rx_fifo d with [] => 512 | _ => 768 end) + Z.land (ctrl d) 3)
        with ((match rx_fifo d with [] => 512 | _ => 768 end) + Z.land (ctrl d) 3 + Z.of_nat (tx_room d) * 65536) by lia.
      rewrite Z.div_add, Z.div_small by (try lia; destruct (rx_fifo d); lia). done. }
    rewrite Hroom. assert (0 <= jsim_control d) as Hpos.
    { unfold jsim_control. pose proof (land_3 (ctrl d)). destruct (rx_fifo d); lia. }
    destruct (decide (tx_room d = 0%nat)) as [E|E]; cbn; split_and!; try done; try lia.
    all: intros Hri; apply ri_bit in Hri; by destruct (rx_fifo d).
  - intros v d. cbn. done.
Defined.

#[export, refine] Instance jsim_timing : JtagTiming jsim := {
  tx_wait d := if decide (tx_room d = 0%nat) then 1%nat else 0%nat;
  tx_latency := 1;
  due d k n := (k <= Nat.min n (length (rx_fifo d)))%nat;
}.
Proof.
  - intros d. destruct (decide _); lia.
  - intros d. cbn. destruct (decide (tx_room d = 0%nat)) as [E|E]; cbn; [intros _; exact (Nat.lt_0_succ 0)|].
    intros Hz. exfalso. assert (jsim_control d / 65536 = 0) as Hq.
    { rewrite <- field_high. unfold field. by rewrite Hz. }
    unfold jsim_control in Hq. pose proof (land_3 (ctrl d)).
    destruct (rx_fifo d); Z.to_euclidean_division_equations; lia.
  - intros d k n Hn. exists (pred n). cbn in *. destruct (rx_fifo d) as [|c rest]; cbn in *; lia.
  - done.
Defined.

Definition jtag_fifo (l : list Z) : jsim := mkJsim l 64 [] [] 3.

(** * The theorems *)

Section Claims.
Context {D U : Type} {regs : JtagRegs D} {upper : SerialLayer U} {cfg : JtagConfig}
  {laws : JtagLaws D} {ulaws : SerialLaws U}.

(** What the write half has sent: the characters of the layer, which it was told of, and
    what the layer sent by itself. *)
Definition wrote (v : Z) (u u' : U) (out : list Z) : Prop :=
  exists cs u1 l, accepted (data_xmt_req (field WSPACE_MSK WSPACE_OFST v) u) [] u1 (Some cs) /\
    accepted (data_xmt_done (Z.of_nat (length cs)) u1) l u' tt /\ out = cs ++ l.

(** What the handler has done on control value [v]. *)
Definition moved (v vector : Z) (s s' : chan D U) : Prop :=
  calls s' = calls s ++ [IntUnmask vector] /\
  (exists out u', sent (hw s) ++ out `prefix_of` sent (hw s') /\
     if ctrue (Z.land v WI_MSK) then wrote v (layer s) u' out else out = [] /\ u' = layer s) /\
  exists got, taken (hw s') = taken (hw s) ++ got /\ received (layer s') = received (layer s) ++ got /\
    if ctrue (Z.land v RI_MSK) then got <> [] /\ fifo (hw s) `prefix_of` got else got = [].

(** The read half and the end of the handler, after the write half. *)
Lemma wp_dsr_rest v vector (s s2 : chan D U) out u' :
  flow_control_hw = false ->
  calls s2 = calls s -> sent (hw s2) = sent (hw s) ++ out ->
  taken (hw s2) = taken (hw s) -> received (layer s2) = received (layer s) -> fifo (hw s) `prefix_of` fifo (hw s2) ->
  (Z.land v RI_MSK <> 0 -> fifo (hw s2) <> []) ->
  (if ctrue (Z.land v WI_MSK) then wrote v (layer s) u' out else out = [] /\ u' = layer s) ->
  wp (when (ctrue (Z.land v RI_MSK)) dsr_read;; emit (IntUnmask vector)) (fun _ s' => moved v vector s s') s2.
Proof.
  intros Hfc Hc Hs Ht Hr Hf Hne Hout. unfold moved. apply wp_bind, wp_when; intros Hb; rewrite ?Hb.
  - unfold ctrue in Hb. apply negb_true_iff, Z.eqb_neq in Hb.
    apply wp_dsr_read; [done|by apply Hne|]. intros s3 (R1 & R2 & R3 & R4). apply wp_modify. cbn.
    split; [congruence|]. split; [exists out, u'; split; [by rewrite <- Hs|done]|].
    exists (fifo (hw s2)). split_and!; [congruence|congruence|by apply Hne|done].
  - apply wp_modify. cbn. split; [congruence|]. split; [exists out, u'; split; [by rewrite Hs|done]|].
    exists []. by rewrite !app_nil_r.
Qed.

(** C21: without flow control by hardware (a configuration of the driver), the handler of the
    JTAG UART interrupt returns for every device and every serial layer, except on a
    write interrupt that the layer leaves unanswered, having nothing to send: the
    handler then uses the count and the pointer that the layer has not set, which is
    undefined.  When it returns: on a write interrupt the characters of the layer,
    which fit into the FIFO, have been sent in order and the layer was told how
    many; on a read interrupt every character that was waiting has been taken and passed
    up in order, and without one none has; the interrupt was unmasked last. *)
Theorem jtag_DSR_moves vector (s : chan D U) :
  flow_control_hw = false ->
  let v := (IORD_CONTROL (hw s)).1 in
  (ctrue (Z.land v WI_MSK) = true /\ unanswered v (layer s) /\ altera_avalon_jtag_uart_DSR vector s = UB) \/
  wp (altera_avalon_jtag_uart_DSR vector) (fun _ s' => moved v vector s s') s.
Proof.
  intros Hfc v.
  assert (wp (iord IORD_CONTROL) (fun v' s1 => v' = v /\ layer s1 = layer s /\ step s s1 [] /\
    0 <= field WSPACE_MSK WSPACE_OFST v' <= room (hw s1) /\ (Z.land v' RI_MSK <> 0 -> fifo (hw s1) <> [])) s)
    as (v' & s1 & E & -> & Hl1 & Hst1 & Hsp & Hri)%wp_Ret by (apply wp_jtag_control; auto 10).
  destruct Hst1 as [A1 A2 A3 A4 A5 A6 A7]. rewrite app_nil_r in A5.
  unfold altera_avalon_jtag_uart_DSR. destruct (ctrue (Z.land v WI_MSK)) eqn:Hw.
  - destruct (dsr_write_cases v (fun _ s2 => exists cs out u1 l,
      accepted (data_xmt_req (field WSPACE_MSK WSPACE_OFST v) (layer s)) [] u1 (Some cs) /\
      accepted (data_xmt_done (Z.of_nat (length cs)) u1) l (layer s2) tt /\
      received (layer s2) = received (layer s1) /\ out = cs ++ l /\ step s1 s2 out) s1 Hsp) as [[Hun Hub]|Hwp].
    { rewrite Hl1. eauto 12. }
    + left. rewrite <- Hl1. split_and!; [done|done|]. mred. rewrite E. rewrite Hw. cbn [when]. by rewrite Hub.
    + right. apply wp_bind, (wp_eq _ _ _ _ _ E). rewrite Hw. cbn [when]. apply wp_bind.
      eapply wp_mono; [exact Hwp|]. cbn beta. intros _ s2 (cs & out & u1 & l & Ha1 & Ha2 & Hr2 & Hout & [B1 B2 B3 B4 B5 B6 B7]).
      apply (wp_dsr_rest v vector s s2 out (layer s2)); try congruence; [by etrans| |].
      * intros Hb. specialize (Hri Hb). destruct B7 as [k Hk]. rewrite Hk. by destruct (fifo (hw s1)).
      * rewrite Hw. by exists cs, u1, l.
  - right. apply wp_bind, (wp_eq _ _ _ _ _ E). rewrite Hw. cbn [when]. apply wp_bind, wp_ret.
    apply (wp_dsr_rest v vector s s1 [] (layer s)); rewrite ?app_nil_r; try congruence; try done. by rewrite Hw.
Qed.

(** A character is accepted exactly when it has been given to a FIFO with room;
    a character that is read is the one that has waited longest. *)
Theorem jtag_putc_sends c (s : chan D U) :
  wp (altera_avalon_jtag_uart_putc c) (fun b s' =>
    layer s' = layer s /\ taken (hw s') = taken (hw s) /\
    sent (hw s') = sent (hw s) ++ (if b then [c] else [])) s.
Proof. apply wp_jtag_putc. intros b s' Hl [_ _ _ Ht Hs _ _]. done. Qed.

(** The layer that leaves the pointers unset makes the handler use them all the same. *)
Theorem jtag_DSR_unanswered vector (s : chan D U) u' :
  Z.land (IORD_CONTROL (hw s)).1 WI_MSK <> 0 ->
  (forall n, data_xmt_req n (layer s) = StopXmit (Done u' None)) ->
  altera_avalon_jtag_uart_DSR vector s = UB.
Proof.
  intros Hw Hreq. unfold altera_avalon_jtag_uart_DSR, iord. mred.
  destruct (IORD_CONTROL (hw s)) as [v d1]. cbn [fst] in Hw. unfold ctrue.
  rewrite (proj2 (Z.eqb_neq _ _) Hw). cbn [negb].
  unfold dsr_write, call_layer, gets. mred. cbn [layer set_hw]. rewrite Hreq. cbn [callback].
  unfold altera_avalon_jtag_uart_stop_xmit, control_clear, iord, iowr. mred.
  by destruct (IORD_CONTROL _).
Qed.

End Claims.

(** ** A run: a full buffer to send, two characters waiting *)

#[export] Instance jtag_config : JtagConfig := {
  KEY_RX_THROTTLE := 1;
  CYG_ISR_CALL_DSR := 2;
  EINVAL := 22;
  EPERM := 1;
  flow_control_hw := false;
  is_debug_dev _ := false;
  is_console_dev _ := false;
}.

Definition jtag_st (tx : list Z) : chan jsim buffers := mkChan (jtag_fifo [65; 66]) (mkBuffers [] 8 tx) 64 5 [].

Lemma jtag_DSR_moves_witness :
  exists s', altera_avalon_jtag_uart_DSR 5 (jtag_st [72; 105]) = Ret (tt, s') /\
    rx_data (layer s') = [65; 66] /\ tx_data (layer s') = [] /\ log_sent (hw s') = [72; 105].
Proof.
  destruct (jtag_DSR_moves (cfg := jtag_config) 5 (jtag_st [72; 105]) eq_refl) as [(_ & _ & Hub)|H].
  { exfalso. vm_compute in Hub. discriminate Hub. }
  destruct (proj1 (wp_Ret _ _ _) H) as ([] & s' & E & _). exists s'. split; [exact E|].
  vm_compute in E. injection E as <-. done.
Defined.

(** With nothing to send, the buffers leave the request of the write interrupt
    unanswered. *)
Example jtag_DSR_nothing_to_send : altera_avalon_jtag_uart_DSR 5 (jtag_st []) = UB.
Proof. by vm_compute. Qed.
