(* ===== verification/CommProps.v ===== *)
(** * Theorems about the channels of the debugger *)

From S2P Require Import Prelude.
From S2P Require Import Uart.
From S2P Require Import UartFacts.
From S2P Require Import Diag.
From S2P Require Import UartProps.

Section Ports.
Context {D : Type} {port : DiagPort D} {laws : DiagLaws D}.

(** On any port, what is written is sent, in order. *)
Theorem diag_write_sends polls buf len (s : comm D) :
  (c_latency < polls)%nat -> (Z.to_nat len <= length buf)%nat ->
  wp (diag_write polls buf len) (fun _ s' =>
    c_sent (hw s') = c_sent (hw s) ++ take (Z.to_nat len) buf /\ c_taken (hw s') = c_taken (hw s)) s.
Proof. intros Hp Hl. by apply wp_diag_write_loop. Qed.

(** On any port and any line that brings enough characters, a block read returns
    with the next characters that arrive without errors, in order, as many as
    were asked for; it takes none beyond them and sends nothing. *)
Theorem diag_read_exact fuel n bound (s : comm D) :
  c_due (hw s) (Z.to_nat n) bound -> (bound < fuel)%nat ->
  wp (diag_read fuel n) (fun cs s' =>
    exists got, length cs = Z.to_nat n /\ usable got = cs /\ ends_good got /\
      c_taken (hw s') = c_taken (hw s) ++ got /\ c_sent (hw s') = c_sent (hw s) /\ hal s' = hal s) s.
Proof.
  intros Hdue Hf. eapply wp_diag_read_loop; [exact Hdue|done|]. intros cs got d' Hlen Hgot Hs Ht Hend.
  by exists got.
Qed.

(** On any port, the read with a timeout returns after at most ten delays of 10
    microseconds, sending nothing: true, with the first character that came
    without errors, or false, after exactly ten delays in which no such character
    came. *)
Theorem diag_timeout_bounded ch (s : comm D) :
  wp (diag_getc_timeout ch) (fun r s' =>
    exists k got, (k <= 10)%nat /\ hal s' = hal s ++ replicate k (Delay 10) /\
      c_sent (hw s') = c_sent (hw s) /\ c_taken (hw s') = c_taken (hw s) ++ got /\
      if r.1 then exists bad c, all_errors bad /\ got = bad ++ [(c, false)] /\ r.2 = Some c
      else k = 10%nat /\ all_errors got) s.
Proof.
  apply wp_timeout_loop. intros res ch' k got d' Hk Hs Ht Hres. exists k, got. cbn in *. by destruct res.
Qed.

End Ports.

(** ** The UART's own functions *)

Section Control.
Context {D : Type} {regs : UartRegs D} {cfg : CommConfig}.

Fixpoint run_control (l : list comm_control) : M (comm D) (list Z) :=
  match l with
  | [] => mret []
  | f :: rest => r ← altera_avalon_uart_diag_control f; rs ← run_control rest; mret (r :: rs)
  end.

(** What the commands answer, by whether interrupts are enabled. *)
Fixpoint control_spec (irq : Z) (on : bool) (l : list comm_control) : list Z * bool :=
  match l with
  | [] => ([], on)
  | IRQ_ENABLE :: rest => let r := control_spec irq true rest in (0 :: r.1, r.2)
  | IRQ_DISABLE :: rest => let r := control_spec irq false rest in ((if on then 1 else 0) :: r.1, r.2)
  | DBG_ISR_VECTOR :: rest => let r := control_spec irq on rest in (s32 irq :: r.1, r.2)
  | OtherCommand :: rest => let r := control_spec irq on rest in (0 :: r.1, r.2)
  end.

(** In any sequence of commands, a disable answers whether the channel was enabled. *)
Theorem uart_control_answers l (on : bool) (s : comm D) :
  Diag.irq_state s = (if on then 1 else 0) ->
  wp (run_control l) (fun rs s' =>
    rs = (control_spec (Diag.irq s) on l).1 /\
    Diag.irq_state s' = if (control_spec (Diag.irq s) on l).2 then 1 else 0) s.
Proof.
  revert on s. induction l as [|f l IH]; intros on s Hon; cbn [run_control]; [by apply wp_ret|].
  apply wp_bind. destruct f; cbn [control_spec fst snd].
  - apply wp_bind, wp_get, wp_bind, wp_modify, wp_bind, wp_uart_comm_iord.
    do 3 (apply wp_bind, wp_modify). apply wp_ret, wp_bind.
    eapply wp_mono; [by apply (IH true)|]. cbn. intros rs s' [-> Hst]. by apply wp_ret.
  - apply wp_bind, wp_get, wp_bind. apply (wp_eq _ _ _ _ _ eq_refl).
    apply wp_bind, wp_modify, wp_bind, wp_uart_comm_iord.
    do 2 (apply wp_bind, wp_modify). apply wp_ret, wp_bind.
    eapply wp_mono; [by apply (IH false)|]. cbn. intros rs s' [-> Hst]. apply wp_ret. by rewrite Hon.
  - apply wp_bind, wp_get, wp_ret, wp_bind. eapply wp_mono; [by apply (IH on)|].
    intros rs s' [-> Hst]. by apply wp_ret.
  - apply wp_bind, wp_get, wp_ret, wp_bind. eapply wp_mono; [by apply (IH on)|].
    intros rs s' [-> Hst]. by apply wp_ret.
Qed.

(** The interrupt routine reports a break only for a character that arrived without
    errors, and leaves no character waiting that it saw. *)
Theorem uart_isr_reports {laws : UartLaws D} (s : comm D) :
  wp altera_avalon_uart_diag_isr (fun r s' =>
    hal s' = hal s ++ [Acknowledge (Diag.irq s)] /\
    exists got, taken (Diag.hw s') = taken (Diag.hw s) ++ got /\
      r = (match good got with [] => 0 | _ => CYG_ISR_HANDLED end,
           if existsb cyg_hal_is_break (good got) then 1 else 0)) s.
Proof.
  apply wp_bind, wp_get, wp_bind, wp_modify, wp_bind, wp_uart_comm_iord. cbn [Diag.hw set_hal].
  pose proof (poll_law (Diag.hw s)) as Hpoll. destruct (IORD_STATUS (Diag.hw s)) as [v d1].
  destruct Hpoll as [[Ht _ _] Hr]. cbn [fst snd]. apply wp_bind, wp_modify. cbn [Diag.hw Diag.set_hw].
  unfold ctrue at 1. destruct (Z.eqb_spec (Z.land v RRDY_MSK) 0) as [E|E]; cbn [negb].
  { apply wp_ret. split; [done|]. exists []. split; [exact Ht|done]. }
  specialize (Hr E). apply wp_bind, wp_uart_comm_iord. cbn [Diag.hw Diag.set_hw]. fold (has_error v).
  destruct (IORD_RXDATA (IOWR_STATUS 0 d1)) as [w d3]. destruct Hr as [Ht3 _ _]. cbn [fst snd].
  destruct (has_error v); cbn [negb]; apply wp_ret; (split; [done|]); eexists; (split; [exact Ht3|]);
    rewrite good_cons; cbn; [done|]. by destruct (cyg_hal_is_break _).
Qed.

End Control.

(** ** Runs *)

#[export] Instance comm_config : CommConfig := { CYG_ISR_HANDLED := 1; cyg_hal_is_break c := c =? 3 }.

Definition comm_st (l : list (Z * bool)) : comm usim := mkComm (uart_line l) 4 0 [].

(** An answer with a framing error in it. *)
Lemma diag_read_exact_witness :
  exists s', diag_read 9 2 (comm_st [(65, false); (0, true); (66, false); (67, false)]) = Ret ([65; 66], s') /\
    line (hw s') = [(67, false)].
Proof.
  assert (c_due (hw (comm_st [(65, false); (0, true); (66, false); (67, false)])) (Z.to_nat 2) 3) as Hdue
    by (vm_compute; lia).
  pose proof (diag_read_exact 9 2 3 _ Hdue ltac:(lia)) as H.
  apply wp_Ret in H as (cs & s' & E & _). exists s'. vm_compute in E. injection E as <- <-.
  split; [vm_compute; reflexivity|done].
Defined.
