(* ===== verification/Hal.v ===== *)
(** * The C code of the Nios II architecture layer
    (packages/hal/nios2/arch, hal_misc.c)

    The bit searches of the interrupt controller, the delay loop, the copying of
    the data sections, the calls of the static constructors. *)

From stdpp Require Import functions.
From S2P Require Import Prelude.

(** * The system clock
    (packages/hal/sopc/altera_avalon_timer, altera_avalon_timer.c)

    The registers of the timer are a class; its counter runs down from the period. *)

Class TimerRegs (D : Type) := {
  IOWR_CONTROL : Z -> D -> D;
  IOWR_STATUS : Z -> D -> D;
  IOWR_SNAPL : Z -> D -> D;
  IORD_SNAPL : D -> Z * D;
  IORD_SNAPH : D -> Z * D;
  CONTROL_ITO_MSK : Z;
  CONTROL_CONT_MSK : Z;
  CONTROL_START_MSK : Z;
  RTC_PERIOD : Z;
}.

Section Driver.
Context {D : Type} {regs : TimerRegs D}.

Definition iord (f : D -> Z * D) : M D Z := fun d => Ret (f d).

Definition hal_clock_initialize (period : Z) : M D unit :=
  modify (IOWR_CONTROL (Z.lor (Z.lor CONTROL_ITO_MSK CONTROL_CONT_MSK) CONTROL_START_MSK)).

Definition hal_clock_reset (vector period : Z) : M D unit := modify (IOWR_STATUS 0).

Definition hal_clock_read : M D Z :=
  modify (IOWR_SNAPL 0);;
  lower ← iord IORD_SNAPL;
  upper ← iord IORD_SNAPH;
  mret (u32 (RTC_PERIOD - Z.lor (u32 (Z.shiftl upper 16)) lower)).

End Driver.

(** The manual: a write to the snapshot register stores the counter, whose halves are
    then read, however far the counter runs meanwhile. *)
Class TimerLaws (D : Type) {regs : TimerRegs D} := {
  counter : D -> Z;
  snapshot : D -> Z;
  counter_range d : 0 <= counter d < 4294967296;
  snap_law d : snapshot (IOWR_SNAPL 0 d) = counter d;
  snapl_law d : (IORD_SNAPL d).1 = snapshot d mod 65536 /\ snapshot (IORD_SNAPL d).2 = snapshot d;
  snaph_law d : (IORD_SNAPH d).1 = snapshot d / 65536;
}.

(** The clock reads the time that has passed of the period when it was called. *)
Theorem clock_read_elapsed {D} {regs : TimerRegs D} {laws : TimerLaws D} (d : D) :
  wp hal_clock_read (fun r _ => r = u32 (RTC_PERIOD - counter d)) d.
Proof.
  unfold wp, hal_clock_read, iord. mred.
  destruct (snapl_law (IOWR_SNAPL 0 d)) as [Hl Hs]. destruct (IORD_SNAPL (IOWR_SNAPL 0 d)) as [l d1].
  pose proof (snaph_law d1) as Hh. destruct (IORD_SNAPH d1) as [h d2]. cbn [fst snd] in *. subst l h.
  rewrite Hs, snap_law. pose proof (counter_range d) as Hc. f_equal. f_equal.
  assert (0 <= counter d / 65536 < 65536) as Hd by (Z.to_euclidean_division_equations; lia).
  rewrite (uwrap_id 32) by (rewrite Z.shiftl_mul_pow2 by lia; change (2 ^ 16) with 65536; change (2 ^ 32) with 4294967296; lia).
  rewrite lor_shift_add by (change (2 ^ 16) with 65536; pose proof (Z.mod_pos_bound (counter d) 65536); lia).
  change (2 ^ 16) with 65536. pose proof (Z.div_mod (counter d) 65536). lia.
Qed.

(** * The theorems *)

(** ** Searching bits *)

Definition tab : list Z :=
  [-1; 0; 1; 12; 2; 6; 0; 13; 3; 0; 7; 0; 0; 0; 0; 14; 10;
   4; 0; 0; 8; 0; 0; 25; 0; 0; 0; 0; 0; 21; 27; 15; 31; 11;
   5; 0; 0; 0; 0; 0; 9; 0; 0; 24; 0; 0; 20; 26; 30; 0; 0; 0;
   0; 23; 0; 19; 29; 0; 22; 18; 28; 17; 16; 0].

(** [None]: the table is read outside. *)
Definition hal_lsbit_index (mask : Z) : option Z :=
  let n := mask in
  let n := Z.land n (u32 (Z.lnot (u32 (n - 1)))) in
  let n := u32 (u32 (Z.shiftl n 16) - n) in
  let n := u32 (u32 (Z.shiftl n 6) + n) in
  let n := u32 (u32 (Z.shiftl n 4) + n) in
  t ← tab !! Z.to_nat (Z.shiftr n 26); Some (u32 t).

(** Phase 1 of the search for the highest bit. *)
Definition msbit_smear (x : Z) : Z :=
  let x := Z.lor x (Z.shiftr x 16) in
  let x := Z.lor x (Z.shiftr x 8) in
  let x := Z.lor x (Z.shiftr x 4) in
  let x := Z.lor x (Z.shiftr x 2) in
  Z.lor x (Z.shiftr x 1).

(** Phase 2: the number of bits, less one. *)
Definition msbit_count (x : Z) : Z :=
  let w := u32 (Z.land x 1431655765 + Z.land (Z.shiftr x 1) 1431655765) in
  let w := u32 (Z.land w 858993459 + Z.land (Z.shiftr w 2) 858993459) in
  let w := u32 (w + Z.shiftr w 4) in
  let w := u32 (Z.land w 983055 + Z.land (Z.shiftr w 8) 983055) in
  u32 (Z.land (u32 (w + Z.shiftr w 16)) 255 - 1).

Definition hal_msbit_index (mask : Z) : Z := msbit_count (msbit_smear mask).

(** ** The delay *)

Definition INT_MAX : Z := 2147483647.

(** The frequency of the processor, and whether it is the "tiny" core. *)
Class Cpu := { ALT_CPU_FREQ : Z; is_tiny : bool }.

(** A countdown that ends when the register is zero, [bne], or not positive, [bgt]:
    how often the loop runs. *)
Definition bne_turns (r : Z) : Z := if r =? 0 then 4294967296 else r.

Definition bgt_turns (r : Z) : Z := if r >? 0 then r else 1.

Section Delay.
Context {cpu : Cpu}.

Definition cycles_per_loop : Z := if is_tiny then 9 else 3.

(** Turns for a microsecond.  The divisor makes all the arithmetic unsigned. *)
Definition per_us : Z := ALT_CPU_FREQ / (cycles_per_loop * 1000000).

(** The big loops: what is left of [us], and the turns of the loops. *)
Fixpoint big (n : nat) (us : Z) : Z * Z :=
  match n with
  | O => (us, 0)
  | S k => let r := big k (s32 (us - INT_MAX / per_us)) in (r.1, bne_turns INT_MAX + r.2)
  end.

(** The turns of the delay loops; [None]: a division by zero. *)
Definition hal_delay_us (us : Z) : option Z :=
  if per_us =? 0 then None
  else if INT_MAX / per_us =? 0 then None
  else
    let big_loops := s32 (u32 us / (INT_MAX / per_us)) in
    if ctrue big_loops then
      let r := big (Z.to_nat big_loops) us in
      Some (r.2 + bne_turns (u32 (r.1 * per_us)))
    else Some (bgt_turns (s32 (us * per_us))).
End Delay.

(** ** The data sections *)

(** The addresses of the linker's symbols. *)
Record layout := mkLayout {
  ram_data_start : Z;
  ram_data_end : Z;
  rom_data_start : Z;
  ram_exc_start : Z;
  ram_exc_end : Z;
  rom_exc_start : Z;
}.

(** [while (p != end) *p++ = *q++], on memory as a function. *)
Fixpoint copy_loop (fuel : nat) (p q stop : Z) (m : Z -> Z) : option (Z -> Z) :=
  if p =? stop then Some m
  else
    match fuel with
    | O => None
    | S k => copy_loop k (u32 (p + 1)) (u32 (q + 1)) stop (<[p := m q]> m)
    end.

Definition hal_copy_data (fuel : nat) (l : layout) (m : Z -> Z) : option (Z -> Z) :=
  m ← copy_loop fuel (ram_data_start l) (rom_data_start l) (ram_data_end l) m;
  if ram_exc_start l =? rom_exc_start l then Some m
  else copy_loop fuel (ram_exc_start l) (rom_exc_start l) (ram_exc_end l) m.

(** ** Static constructors

    A constructor runs on the state of the program and may set the flag that stops
    the calls; [p] is the index of the next one, below 0 at the end. *)

Section Constructors.
Context {S : Type} (ctors : list (S -> bool * S)).

(** The index is static when the flag is configured, so that the next call goes on
    from it; without it the flag is not looked at, and every call starts anew. *)
Variable stop_on_flag : bool.

Fixpoint invoke_loop (fuel : nat) (p : Z) (s : S) : Z * S :=
  match fuel with
  | O => (p, s)
  | Datatypes.S k =>
      if p >=? 0 then
        match ctors !! Z.to_nat p with
        | None => (p, s)
        | Some c =>
            let '(stop, s) := c s in
            if stop && stop_on_flag then (p - 1, s) else invoke_loop k (p - 1) s
        end
      else (p, s)
  end.

(** The initial value of the index. *)
Definition ctor_start : Z := Z.of_nat (length ctors) - 1.

Definition cyg_hal_invoke_constructors (x : Z * S) : Z * S :=
  invoke_loop (Datatypes.S (length ctors)) (if stop_on_flag then x.1 else ctor_start) x.2.
End Constructors.

(** * Theorems about the architecture layer *)

(** ** Bits *)

(** Every positive number is a power of two times an odd number. *)
Lemma lowest_form n : 0 < n -> exists k q, 0 <= k /\ 0 <= q /\ n = 2 ^ k * (2 * q + 1).
Proof.
  intros Hn. assert (exists m : nat, (Z.to_nat n <= m)%nat) as [m Hm] by eauto. revert n Hn Hm.
  induction m as [|m IH]; intros n Hn Hm; [lia|].
  destruct (Z.Even_or_Odd n) as [[q ->]|[q ->]].
  - destruct (IH q) as (k & q' & Hk & Hq & Heq); [lia|lia|]. exists (k + 1), q'.
    rewrite Z.pow_add_r, Z.pow_1_r by lia. split_and!; [lia|done|]. rewrite Heq at 1. lia.
  - exists 0, q. rewrite Z.pow_0_r. split_and!; lia.
Qed.

(** The bit trick isolates the lowest bit. *)
Lemma land_lowest n : 0 < n < 4294967296 ->
  exists k, 0 <= k < 32 /\ Z.land n (u32 (Z.lnot (u32 (n - 1)))) = 2 ^ k /\
    Z.testbit n k = true /\ forall j, 0 <= j < k -> Z.testbit n j = false.
Proof.
  intros Hn. destruct (lowest_form n) as (k & q & Hk & Hq & Heq); [lia|]. exists k.
  assert (n = Z.lor (Z.shiftl q (k + 1)) (2 ^ k) /\ n - 1 = Z.lor (Z.shiftl q (k + 1)) (Z.ones k)) as [Hbits Hbits1].
  { rewrite Z.ones_equiv. pose proof (Z.pow_pos_nonneg 2 k).
    rewrite !lor_shift_add by (rewrite ?Z.pow_add_r by lia; lia). rewrite Z.pow_add_r, Z.pow_1_r by lia. nia. }
  assert (forall j, 0 <= j -> Z.testbit n j = (k =? j) || Z.testbit q (j - (k + 1))) as Hn_bits.
  { intros j Hj. rewrite Hbits, Z.lor_spec, Z.shiftl_spec, Z.pow2_bits_eqb by lia. apply orb_comm. }
  assert (forall j, 0 <= j < k -> Z.testbit n j = false) as Hlow.
  { intros j Hj. rewrite Hn_bits by lia. rewrite Z.testbit_neg_r by lia.
    rewrite (proj2 (Z.eqb_neq k j)) by lia. done. }
  assert (Z.testbit n k = true) as Hkb by (rewrite Hn_bits, Z.eqb_refl by lia; done).
  assert (k < 32) as Hk32.
  { apply Z.nle_gt. intros Hge. by rewrite (small_bits n 32) in Hkb by lia. }
  split_and!; [lia|lia| |done|done].
  apply Z.bits_inj'. intros j Hj. rewrite Z.land_spec, Z.pow2_bits_eqb by lia.
  destruct (Z.lt_ge_cases j 32) as [Hlt|Hge].
  2: { rewrite (small_bits n 32), (proj2 (Z.eqb_neq k j)) by lia. done. }
  rewrite uwrap_testbit, Z.lnot_spec, uwrap_testbit, Hn_bits, Hbits1, Z.lor_spec, Z.shiftl_spec by lia.
  rewrite Z.testbit_ones_nonneg by lia.
  destruct (Z.eqb_spec k j) as [<-|Hne]; cbn [orb].
  - rewrite Z.testbit_neg_r, (proj2 (Z.ltb_ge k k)) by lia. done.
  - destruct (Z.testbit q (j - (k + 1))); [done|]. done.
Qed.

(** The multiplication by shifts and the table turn a power of two into its index. *)
Lemma lsbit_table : forallb (fun k =>
  let n := 2 ^ Z.of_nat k in
  let n := u32 (u32 (Z.shiftl n 16) - n) in
  let n := u32 (u32 (Z.shiftl n 6) + n) in
  let n := u32 (u32 (Z.shiftl n 4) + n) in
  bool_decide (tab !! Z.to_nat (Z.shiftr n 26) = Some (Z.of_nat k))) (seq 0 32) = true.
Proof. by vm_compute. Qed.

Lemma lsbit_lowest mask : 0 < mask < 4294967296 ->
  exists r, hal_lsbit_index mask = Some r /\ 0 <= r < 32 /\ Z.testbit mask r = true /\ forall j, 0 <= j < r -> Z.testbit mask j = false.
Proof.
  intros Hm. destruct (land_lowest mask) as (k & Hk & Hland & Hbit & Hlow); [lia|]. exists k.
  split; [|done]. unfold hal_lsbit_index. rewrite Hland.
  pose proof (proj1 (forallb_forall _ _) lsbit_table (Z.to_nat k)) as Ht.
  cbn beta zeta in Ht. rewrite Z2Nat.id in Ht by lia.
  specialize (Ht ltac:(apply in_seq; lia)). apply bool_decide_eq_true in Ht. cbv zeta. rewrite Ht.
  cbn. f_equal. apply u32_id. unfold is_u32. lia.
Qed.

(** C22: for every 32-bit mask the search for the lowest bit stays in its table and
    returns the index of the lowest bit that is set; for an empty mask it
    returns the largest 32-bit number. *)
Theorem lsbit_index_spec mask : 0 <= mask < 4294967296 ->
  exists r, hal_lsbit_index mask = Some r /\
    if decide (mask = 0) then r = 4294967295
    else 0 <= r < 32 /\ Z.testbit mask r = true /\ forall j, 0 <= j < r -> Z.testbit mask j = false.
Proof.
  intros Hm. case_decide as H0; [subst; by eexists|]. apply lsbit_lowest. lia.
Qed.

Lemma lsbit_index_spec_witness : exists r, hal_lsbit_index 3221229568 = Some r /\ 0 <= r < 32 /\
  Z.testbit 3221229568 r = true /\ forall j, 0 <= j < r -> Z.testbit 3221229568 j = false.
Proof. exact (lsbit_index_spec 3221229568 ltac:(lia)). Defined.

(** A word whose bit [i] is set when a bit [i + d] of [x] is, for a multiple [d] of [g] below 32. *)
Definition smeared (g : Z) (x y : Z) : Prop :=
  forall i, 0 <= i -> Z.testbit y i = true <-> exists d, 0 <= d < 32 /\ (g | d) /\ Z.testbit x (i + d) = true.

Lemma smear_step g x y : 0 < g -> (2 * g | 32) -> smeared (2 * g) x y -> smeared g x (Z.lor y (Z.shiftr y g)).
Proof.
  intros Hg [c Hc] Hy i Hi. rewrite Z.lor_spec, Z.shiftr_spec, orb_true_iff, (Hy i), (Hy (i + g)) by lia. split.
  - intros [(d & Hd & [a Ha] & Hb)|(d & Hd & [a Ha] & Hb)].
    + exists d. split; [done|]. split; [exists (2 * a); lia|done].
    + assert (a < c) by (apply (Z.mul_lt_mono_pos_r (2 * g)); lia).
      assert (2 * g * (a + 1) <= 2 * g * c) by (apply Z.mul_le_mono_nonneg_l; lia).
      exists (d + g). split; [lia|]. split; [exists (2 * a + 1); lia|]. by replace (i + (d + g)) with (i + g + d) by lia.
  - intros (d & Hd & [a Ha] & Hb). destruct (Z.Even_or_Odd a) as [[b ->]|[b ->]].
    + left. exists d. split; [done|]. split; [exists b; lia|done].
    + assert (0 <= b) by nia. right. exists (d - g). split; [nia|]. split; [exists b; lia|]. by replace (i + g + (d - g)) with (i + d) by lia.
Qed.

Lemma smear_ones k x : 0 <= k < 32 -> 2 ^ k <= x < 2 ^ (k + 1) -> msbit_smear x = Z.ones (k + 1).
Proof.
  intros Hk Hx.
  assert (smeared 1 x (msbit_smear x)) as Hs.
  { unfold msbit_smear. cbv zeta.
    apply (smear_step 1); [lia|by exists 16|]. apply (smear_step 2); [lia|by exists 8|].
    apply (smear_step 4); [lia|by exists 4|]. apply (smear_step 8); [lia|by exists 2|].
    apply (smear_step 16); [lia|by exists 1|]. intros i Hi. split.
    - intros Hb. exists 0. rewrite Z.add_0_r. split; [lia|]. split; [by exists 0|done].
    - intros (d & Hd & [a Ha] & Hb). by replace (i + d) with i in Hb by lia. }
  assert (Z.testbit x k = true) as Hbit.
  { rewrite <- (Z.log2_unique x k) by lia. apply Z.bit_log2. pose proof (Z.pow_pos_nonneg 2 k). lia. }
  apply Z.bits_inj'. intros i Hi. rewrite Z.testbit_ones_nonneg by lia. specialize (Hs i Hi).
  destruct (Z.ltb_spec i (k + 1)) as [Hlt|Hge].
  - apply Hs. exists (k - i). split; [lia|]. split; [by exists (k - i); lia|]. by replace (i + (k - i)) with k by lia.
  - apply not_true_iff_false. rewrite Hs. intros (d & Hd & _ & Hb).
    rewrite (small_bits x (k + 1)) in Hb by (pose proof (Z.pow_pos_nonneg 2 k); lia). done.
Qed.

Lemma msbit_table :
  forallb (fun k => msbit_count (Z.ones (Z.of_nat k + 1)) =? Z.of_nat k) (seq 0 32) = true.
Proof. by vm_compute. Qed.

(** For every 32-bit mask the search for the highest bit returns the index of the
    highest bit that is set, its binary logarithm; for an empty mask it returns the
    largest 32-bit number. *)
Theorem msbit_index_spec mask : 0 <= mask < 4294967296 ->
  hal_msbit_index mask = if decide (mask = 0) then 4294967295 else Z.log2 mask.
Proof.
  intros Hm. case_decide as H0; [by subst|]. unfold hal_msbit_index.
  pose proof (Z.log2_spec mask) as Hl. rewrite <- Z.add_1_r in Hl.
  assert (0 <= Z.log2 mask < 32) as Hk.
  { split; [apply Z.log2_nonneg|]. apply Z.log2_lt_pow2; [lia|]. change (2 ^ 32) with 4294967296. lia. }
  rewrite (smear_ones (Z.log2 mask)) by (try done; lia).
  pose proof (proj1 (forallb_forall _ _) msbit_table (Z.to_nat (Z.log2 mask))) as Ht.
  cbn beta in Ht. rewrite Z2Nat.id in Ht by lia. apply Z.eqb_eq, Ht, in_seq. lia.
Qed.

Lemma msbit_index_spec_witness : hal_msbit_index 20480 = 14.
Proof. exact (msbit_index_spec 20480 ltac:(lia)). Defined.

(** ** The delay *)

Section Delay.
Context {cpu : Cpu}.

(** For every delay and every processor whose frequency allows the computation, the
    loops turn at least as often as the delay asks for; and, unless a delay is an
    exact multiple of the longest single loop, at most one microsecond's turns
    more for each such loop (a zero delay takes one turn).  For an exact multiple
    the last loop starts at zero and turns 2^32 times. *)
Theorem delay_bounds us :
  1 <= per_us <= 65535 -> 0 <= us <= INT_MAX ->
  let q := INT_MAX / per_us in
  exists t, hal_delay_us us = Some t /\ us * per_us <= t /\
    if decide (0 < us /\ us mod q = 0) then t = us / q * INT_MAX + 4294967296
    else t <= Z.max 1 ((us + us / q) * per_us).
Proof.
  intros Hk Hus q. unfold INT_MAX in Hus.
  assert (32768 <= q /\ q * per_us <= 2147483647 < (q + 1) * per_us) as (Hq & Hqk1 & Hqk2).
  { subst q. unfold INT_MAX. split; [apply Z.div_le_lower_bound; lia|].
    pose proof (Z.mul_div_le 2147483647 per_us). pose proof (Z.mul_succ_div_gt 2147483647 per_us). lia. }
  unfold hal_delay_us. rewrite (proj2 (Z.eqb_neq per_us 0)) by lia. fold q.
  rewrite (proj2 (Z.eqb_neq q 0)) by lia. rewrite (uwrap_id 32 us) by lia.
  pose proof (Z.div_mod us q) as Hdm. pose proof (Z.mod_pos_bound us q) as Hmod.
  assert (0 <= us / q <= us) as Hbig by (split; [apply Z.div_pos; lia|apply Z.div_le_upper_bound; nia]).
  rewrite s32_id by lia. unfold ctrue. destruct (Z.eqb_spec (us / q) 0) as [E|E]; cbn [negb].
  - assert (us < q) as Hlt by (rewrite E in Hdm; lia). rewrite s32_id by nia. eexists. split; [done|].
    unfold bgt_turns. rewrite (Z.mod_small us q) by lia. rewrite E.
    destruct (Z.gtb_spec (us * per_us) 0); (split; [lia|]).
    + rewrite decide_False by lia. lia.
    + rewrite decide_False by lia. lia.
  - assert (forall n : nat, Z.of_nat n <= us / q -> big n us = (us - Z.of_nat n * q, Z.of_nat n * INT_MAX)) as Hbigs.
    { assert (forall (n : nat) u, 0 <= u <= 2147483647 -> Z.of_nat n * q <= u ->
        big n u = (u - Z.of_nat n * q, Z.of_nat n * INT_MAX)) as H.
      { induction n as [|n IH]; intros u Hu Hn; [cbn; f_equal; lia|]. cbn [big]. fold q.
        rewrite s32_id by nia. rewrite IH by nia. cbn [fst snd]. unfold bne_turns, INT_MAX.
        rewrite (proj2 (Z.eqb_neq 2147483647 0)) by lia. f_equal; lia. }
      intros n Hn. apply H; [lia|]. nia. }
    rewrite Hbigs by lia. rewrite Z2Nat.id by lia. cbn [fst snd].
    replace (us - us / q * q) with (us mod q) by lia. rewrite u32_id by (unfold is_u32; nia).
    unfold bne_turns, INT_MAX. eexists. split; [done|].
    destruct (Z.eqb_spec (us mod q * per_us) 0) as [E0|E0].
    + assert (us mod q = 0) as Hz by nia. rewrite decide_True by lia. split; [nia|done].
    + rewrite decide_False by nia. split; [nia|]. apply Z.le_trans with ((us + us / q) * per_us); [nia|lia].
Qed.

End Delay.

(** A fast core at 50 MHz: 16 turns a microsecond. *)
Definition fast50 : Cpu := {| ALT_CPU_FREQ := 50000000; is_tiny := false |}.

Lemma delay_bounds_witness : exists t, hal_delay_us (cpu := fast50) 500000000 = Some t /\
  8000000000 <= t <= 8000000048.
Proof.
  assert (per_us (cpu := fast50) = 16) as Hk by (vm_compute; reflexivity).
  pose proof (delay_bounds (cpu := fast50) 500000000) as H. rewrite Hk in H.
  destruct H as (t & Ht & Hlo & Hhi); [lia|vm_compute; split; discriminate|].
  exists t. split; [exact Ht|]. rewrite decide_False in Hhi.
  - split; [lia|]. change (INT_MAX / 16) with 134217727 in Hhi. change (500000000 / 134217727) with 3 in Hhi. lia.
  - intros [_ Hz]. vm_compute in Hz. discriminate Hz.
Defined.

(** ** The data sections *)

Definition apart (p n q k : Z) : Prop := p + n <= q \/ q + k <= p.

Lemma copy_loop_copies fuel n p q m :
  (n <= fuel)%nat -> 0 <= p -> 0 <= q -> p + Z.of_nat n < 4294967296 -> q + Z.of_nat n < 4294967296 ->
  apart p (Z.of_nat n) q (Z.of_nat n) ->
  exists m', copy_loop fuel p q (p + Z.of_nat n) m = Some m' /\
    forall a, m' a = if decide (p <= a < p + Z.of_nat n) then m (q + (a - p)) else m a.
Proof.
  revert n p q m. induction fuel as [|f IH]; intros n p q m Hf Hp Hq Hpn Hqn Hap; cbn [copy_loop].
  - destruct n as [|n]; [|lia]. rewrite Z.add_0_r, Z.eqb_refl. exists m. split; [done|]. intros a.
    by rewrite decide_False by lia.
  - destruct n as [|n].
    { rewrite Z.add_0_r, Z.eqb_refl. exists m. split; [done|]. intros a. by rewrite decide_False by lia. }
    rewrite (proj2 (Z.eqb_neq _ _)) by lia. rewrite !u32_id by (unfold is_u32; lia).
    destruct (IH n (p + 1) (q + 1) (<[p := m q]> m)) as (m' & Heq & Hm'); [lia..|unfold apart in *; lia|].
    exists m'. split; [rewrite <- Heq; f_equal; lia|]. intros a. rewrite Hm'. unfold apart in Hap.
    destruct (decide (p + 1 <= a < p + 1 + Z.of_nat n)) as [H1|H1].
    + rewrite decide_True by lia. rewrite fn_lookup_insert_ne by lia. f_equal. lia.
    + destruct (decide (a = p)) as [->|Hne].
      * rewrite fn_lookup_insert, decide_True by lia. f_equal. lia.
      * rewrite fn_lookup_insert_ne, decide_False by lia. done.
Qed.

(** The linker's layout: the sections end after they start, below the end of memory, and
    what is copied is not overwritten. *)
Record layout_ok (l : layout) (dn en : nat) : Prop := {
  lo_data : ram_data_end l = ram_data_start l + Z.of_nat dn;
  lo_exc : ram_exc_end l = ram_exc_start l + Z.of_nat en;
  lo_pos : 0 <= ram_data_start l /\ 0 <= rom_data_start l /\ 0 <= ram_exc_start l /\ 0 <= rom_exc_start l;
  lo_top : ram_data_end l < 4294967296 /\ rom_data_start l + Z.of_nat dn < 4294967296 /\
    ram_exc_end l < 4294967296 /\ rom_exc_start l + Z.of_nat en < 4294967296;
  lo_dd : apart (ram_data_start l) (Z.of_nat dn) (rom_data_start l) (Z.of_nat dn);
  lo_de : apart (ram_data_start l) (Z.of_nat dn) (rom_exc_start l) (Z.of_nat en);
  lo_ee : ram_exc_start l = rom_exc_start l \/ apart (ram_exc_start l) (Z.of_nat en) (rom_exc_start l) (Z.of_nat en);
  lo_rr : apart (ram_data_start l) (Z.of_nat dn) (ram_exc_start l) (Z.of_nat en);
}.

(** The copy of a section that runs in place is left out; otherwise both sections have the
    bytes of the image, and nothing else in memory changes. *)
Theorem copy_data_copies fuel l dn en m :
  layout_ok l dn en -> (dn <= fuel)%nat -> (en <= fuel)%nat ->
  exists m', hal_copy_data fuel l m = Some m' /\
    forall a, m' a =
      if decide (ram_data_start l <= a < ram_data_end l) then m (rom_data_start l + (a - ram_data_start l))
      else if decide (ram_exc_start l <= a < ram_exc_end l) then m (rom_exc_start l + (a - ram_exc_start l))
      else m a.
Proof.
  intros [Hd He (P1 & P2 & P3 & P4) (T1 & T2 & T3 & T4) Hdd Hde Hee Hrr] Hf1 Hf2. unfold hal_copy_data.
  rewrite Hd in *. rewrite He in *. unfold apart in *.
  destruct (copy_loop_copies fuel dn (ram_data_start l) (rom_data_start l) m) as (m1 & -> & Hm1); [unfold apart; lia..|].
  cbn [mbind option_bind]. destruct (Z.eqb_spec (ram_exc_start l) (rom_exc_start l)) as [Heq|Hne].
  - exists m1. split; [done|]. intros a. rewrite Hm1. case_decide; [done|]. case_decide; [|done]. f_equal. lia.
  - destruct (copy_loop_copies fuel en (ram_exc_start l) (rom_exc_start l) m1) as (m2 & -> & Hm2); [unfold apart; lia..|].
    exists m2. split; [done|]. intros a. rewrite Hm2, !Hm1.
    repeat case_decide; try done; lia.
Qed.

(** ** Constructors *)

Section Constructors.
Context {S : Type} (ctors : list (S -> bool * S)).

(** The constructors from index [p + 1] on have run, the last one first. *)
Definition after (p : Z) (s0 : S) : S :=
  fold_left (fun s c => (c s).2) (reverse (drop (Z.to_nat (p + 1)) ctors)) s0.

Lemma after_step p c s0 :
  0 <= p -> ctors !! Z.to_nat p = Some c -> after (p - 1) s0 = (c (after p s0)).2.
Proof.
  intros Hp Hc. unfold after. replace (p - 1 + 1) with p by lia.
  rewrite (drop_S _ _ _ Hc), reverse_cons, fold_left_app. cbn. do 3 f_equal.
  by replace (Z.to_nat (p + 1)) with (Datatypes.S (Z.to_nat p)) by lia.
Qed.

Lemma invoke_loop_after flag fuel p s0 :
  -1 <= p < Z.of_nat (length ctors) -> (Z.to_nat (p + 1) < fuel)%nat ->
  exists p', invoke_loop ctors flag fuel p (after p s0) = (p', after p' s0) /\
    -1 <= p' < Z.of_nat (length ctors) /\ (p < 0 -> p' = p) /\ (0 <= p -> p' < p) /\ (flag = false -> p' = -1).
Proof.
  revert p. induction fuel as [|f IH]; intros p Hp Hf; [lia|]. cbn [invoke_loop].
  destruct (Z.geb_spec p 0) as [Hge|Hlt]; [|exists p; split; [done|]; lia].
  destruct (lookup_lt_is_Some_2 ctors (Z.to_nat p)) as [c Hc]; [lia|]. rewrite Hc.
  pose proof (after_step p c s0 Hge Hc) as Hstep. destruct (c (after p s0)) as [stop s'] eqn:Ec.
  cbn [snd] in Hstep. subst s'. destruct (stop && flag) eqn:Hstop.
  - exists (p - 1). split; [done|]. apply andb_true_iff in Hstop as [_ ->]. split_and!; (lia || done).
  - destruct (IH (p - 1)) as (p' & Heq & Hr & H1 & H2 & H3); [lia|lia|]. exists p'. split; [done|].
    assert (p' < p) by (destruct (Z.lt_ge_cases (p - 1) 0); [rewrite H1 by lia; lia|lia]).
    split_and!; [lia|lia|lia|lia|exact H3].
Qed.

(** With the stop flag configured, whatever the constructors do with it, calls of the
    function one after the other run every constructor exactly once, the last
    one first; as many calls as there are constructors are enough. *)
Theorem constructors_run_once n s0 :
  (length ctors <= n)%nat ->
  Nat.iter n (cyg_hal_invoke_constructors ctors true) (ctor_start ctors, s0) =
    (-1, fold_left (fun s c => (c s).2) (reverse ctors) s0).
Proof.
  intros Hn.
  assert (forall k, exists p, Nat.iter k (cyg_hal_invoke_constructors ctors true) (ctor_start ctors, s0) = (p, after p s0)
    /\ -1 <= p < Z.of_nat (length ctors) /\ p <= Z.max (-1) (ctor_start ctors - Z.of_nat k)) as H.
  { induction k as [|k IH].
    - exists (ctor_start ctors). unfold ctor_start, after. split; [|lia].
      by rewrite drop_ge by lia.
    - destruct IH as (p & Heq & Hp & Hk). cbn [Nat.iter nat_rect]. unfold Nat.iter in Heq. rewrite Heq.
      destruct (invoke_loop_after true (Datatypes.S (length ctors)) p s0) as (p' & Heq' & Hp' & H1 & H2 & _); [lia|lia|].
      exists p'. split; [exact Heq'|]. split; [done|]. destruct (Z.lt_ge_cases p 0); [rewrite H1 by lia; lia|lia]. }
  destruct (H n) as (p & -> & Hp & Hk). assert (p = -1) as -> by (unfold ctor_start in Hk; lia). done.
Qed.

(** Without it a single call runs them all. *)
Theorem constructors_run_all x s0 :
  cyg_hal_invoke_constructors ctors false (x, s0) = (-1, fold_left (fun s c => (c s).2) (reverse ctors) s0).
Proof.
  destruct (invoke_loop_after false (Datatypes.S (length ctors)) (ctor_start ctors) s0)
    as (p' & Heq & _ & _ & _ & Hp); [unfold ctor_start; lia..|]. rewrite (Hp eq_refl) in Heq.
  assert (after (ctor_start ctors) s0 = s0) as Hstart by (unfold after, ctor_start; by rewrite drop_ge by lia).
  rewrite Hstart in Heq. exact Heq.
Qed.

End Constructors.

(** Three constructors that record that they ran; the second one stops the calls. *)
Definition three : list (list Z -> bool * list Z) :=
  [fun s => (false, s ++ [1]); fun s => (true, s ++ [2]); fun s => (false, s ++ [3])].

Lemma constructors_run_once_witness :
  Nat.iter 3 (cyg_hal_invoke_constructors three true) (ctor_start three, []) = (-1, [3; 2; 1]).
Proof. exact (constructors_run_once three 3 [] ltac:(cbn; lia)). Defined.
