(* ===== verification/Cache.v ===== *)
(** * The caches (packages/hal/nios2/arch, hal_cache.h)

    The macros that flush and invalidate the caches, as loops of the processor's
    cache instructions.  The processor is a class of operations; a second class states
    what the processor reference promises of them, and a direct-mapped cache that
    keeps the promises follows at the end. *)

From stdpp Require Import functions.
From S2P Require Import Prelude.

(** The dimensions of the caches are generated for each system.  [ld], [st] and
    [fetch] are the accesses of loads, stores and of the execution of code, by words. *)
Class CacheHw (D : Type) := {
  NIOS2_DCACHE_SIZE : Z;
  NIOS2_DCACHE_LINE_SIZE : Z;
  NIOS2_ICACHE_SIZE : Z;
  NIOS2_ICACHE_LINE_SIZE : Z;
  ld : Z -> D -> Z * D;
  st : Z -> Z -> D -> D;
  fetch : Z -> D -> Z * D;
  initda : Z -> D -> D;
  flushda : Z -> D -> D;
  initd : Z -> D -> D;
  flushd : Z -> D -> D;
  initi : Z -> D -> D;
  flushi : Z -> D -> D;
  flushp : D -> D;
}.

(** ** The macros *)

Section Macros.
Context {D : Type} {hw : CacheHw D}.

(** [for (i = start; i < end; i += line) op (i)]; the result is the last [i]. *)
Fixpoint op_loop (fuel : nat) (op : Z -> D -> D) (line stop i : Z) : M D Z :=
  if i <? stop then
    match fuel with
    | O => no_fuel
    | S k => modify (op i);; op_loop k op line stop (u32 (i + line))
    end
  else mret i.

Definition HAL_DCACHE_OPERATION (fuel : nat) (base asize : Z) (op : Z -> D -> D) : M D unit :=
  let start := Z.land base (u32 (Z.lnot (NIOS2_DCACHE_LINE_SIZE - 1))) in
  let size := u32 (u32 (asize + base) - start) in
  let size := if size >? NIOS2_DCACHE_SIZE then NIOS2_DCACHE_SIZE else size in
  let stop := u32 (start + size) in
  op_loop fuel op NIOS2_DCACHE_LINE_SIZE stop start;;
  mret tt.

Definition HAL_DCACHE_INVALIDATE (fuel : nat) (base asize : Z) : M D unit :=
  HAL_DCACHE_OPERATION fuel base asize initda.

Definition HAL_DCACHE_FLUSH (fuel : nat) (base asize : Z) : M D unit :=
  if NIOS2_DCACHE_SIZE =? 0 then mret tt else HAL_DCACHE_OPERATION fuel base asize flushda.

Definition HAL_DCACHE_INVALIDATE_ALL (fuel : nat) : M D unit :=
  if NIOS2_DCACHE_SIZE =? 0 then mret tt else HAL_DCACHE_OPERATION fuel 0 NIOS2_DCACHE_SIZE initd.

Definition HAL_DCACHE_SYNC (fuel : nat) : M D unit :=
  if NIOS2_DCACHE_SIZE =? 0 then mret tt else HAL_DCACHE_OPERATION fuel 0 NIOS2_DCACHE_SIZE flushd.

Definition HAL_DCACHE_STORE (fuel : nat) (base asize : Z) : M D unit := HAL_DCACHE_FLUSH fuel base asize.

(** The two loops over the instruction cache differ in the instruction only. *)
Definition icache_operation (fuel : nat) (base asize : Z) (op : Z -> D -> D) : M D unit :=
  if NIOS2_ICACHE_SIZE >? 0 then
    let start := base in
    let size := asize in
    let size := if size >? NIOS2_ICACHE_SIZE then NIOS2_ICACHE_SIZE else size in
    let stop := u32 (start + size) in
    i ← op_loop fuel op NIOS2_ICACHE_LINE_SIZE stop start;
    when (ctrue (Z.land start (NIOS2_ICACHE_LINE_SIZE - 1))) (modify (op i));;
    modify flushp
  else mret tt.

Definition HAL_ICACHE_INVALIDATE (fuel : nat) (base asize : Z) : M D unit :=
  icache_operation fuel base asize initi.

Definition HAL_ICACHE_FLUSH (fuel : nat) (base asize : Z) : M D unit :=
  icache_operation fuel base asize flushi.

Definition HAL_ICACHE_INVALIDATE_ALL (fuel : nat) : M D unit :=
  HAL_ICACHE_INVALIDATE fuel 0 NIOS2_ICACHE_SIZE.

Definition HAL_ICACHE_SYNC (fuel : nat) : M D unit := HAL_ICACHE_INVALIDATE_ALL fuel.

End Macros.

(** ** What the processor promises

    [view] is what loads see, [iview] what execution sees.  Lines have numbers.
    [dirty] says that the data cache holds a line whose memory may be old, [cached]
    that the instruction cache may hold a copy of a line.  [flushda] works on the line
    of its address only; [flushd], [initi] and [flushi] on all lines with its index. *)

Definition dline `{CacheHw D} (a : Z) : Z := a / NIOS2_DCACHE_LINE_SIZE.

Definition iline `{CacheHw D} (a : Z) : Z := a / NIOS2_ICACHE_LINE_SIZE.

Definition dsets `{CacheHw D} : Z := NIOS2_DCACHE_SIZE / NIOS2_DCACHE_LINE_SIZE.

Definition isets `{CacheHw D} : Z := NIOS2_ICACHE_SIZE / NIOS2_ICACHE_LINE_SIZE.

Class CacheLaws (D : Type) {hw : CacheHw D} := {
  dlog : Z;
  dsetlog : Z;
  ilog : Z;
  isetlog : Z;
  dims : 2 <= dlog /\ 2 <= ilog /\ 0 <= dsetlog /\ 0 <= isetlog /\ dlog + dsetlog <= 30 /\ ilog + isetlog <= 30;
  dline_size : NIOS2_DCACHE_LINE_SIZE = 2 ^ dlog;
  dcache_size : NIOS2_DCACHE_SIZE = 2 ^ (dlog + dsetlog);
  iline_size : NIOS2_ICACHE_LINE_SIZE = 2 ^ ilog;
  icache_size : NIOS2_ICACHE_SIZE = 2 ^ (ilog + isetlog);
  view : D -> Z -> Z;
  iview : D -> Z -> Z;
  dirty : D -> Z -> Prop;
  cached : D -> Z -> Prop;
  coherent d a : ~ cached d (iline a) -> ~ dirty d (dline a) -> iview d a = view d a;
  ld_law a d : exists d', ld a d = (view d a, d') /\ view d' = view d /\
    (forall l, dirty d' l -> dirty d l) /\ (forall l, cached d' l -> cached d l);
  st_law a v d : view (st a v d) = <[a := v]> (view d) /\
    (forall l, dirty (st a v d) l -> dirty d l \/ l = dline a) /\ (forall l, cached (st a v d) l -> cached d l);
  fetch_law a d : exists d', fetch a d = (iview d a, d') /\ view d' = view d /\
    (forall l, dirty d' l -> dirty d l) /\ (forall l, cached d' l -> cached d l \/ l = iline a);
  flushda_law a d : view (flushda a d) = view d /\
    (forall l, dirty (flushda a d) l <-> dirty d l /\ l <> dline a) /\ (forall l, cached (flushda a d) l <-> cached d l);
  flushd_law a d : view (flushd a d) = view d /\
    (forall l, dirty (flushd a d) l <-> dirty d l /\ l mod dsets <> dline a mod dsets) /\
    (forall l, cached (flushd a d) l <-> cached d l);
  initi_law a d : view (initi a d) = view d /\ (forall l, dirty (initi a d) l <-> dirty d l) /\
    (forall l, cached (initi a d) l <-> cached d l /\ l mod isets <> iline a mod isets);
  flushi_law a d : view (flushi a d) = view d /\ (forall l, dirty (flushi a d) l <-> dirty d l) /\
    (forall l, cached (flushi a d) l <-> cached d l /\ l mod isets <> iline a mod isets);
  flushp_law d : view (flushp d) = view d /\ (forall l, dirty (flushp d) l <-> dirty d l) /\
    (forall l, cached (flushp d) l <-> cached d l);
}.

(** ** The loops *)

Section Facts.
Context {D : Type} {hw : CacheHw D}.

Lemma wp_op_loop (I : nat -> D -> Prop) (n : nat) fuel op line stop start (Q : Z -> D -> Prop) d :
  0 < line -> 0 <= start -> start + Z.of_nat n * line < 4294967296 ->
  stop <= start + Z.of_nat n * line -> (n <> O -> start + (Z.of_nat n - 1) * line < stop) ->
  (n <= fuel)%nat -> I O d ->
  (forall k d, (k < n)%nat -> I k d -> I (S k) (op (start + Z.of_nat k * line) d)) ->
  (forall d', I n d' -> Q (start + Z.of_nat n * line) d') ->
  wp (op_loop fuel op line stop start) Q d.
Proof.
  revert I fuel start d. induction n as [|n IH]; intros I fuel start d Hline Hs Htop Hstop Hlast Hf H0 Hstep HQ.
  - specialize (HQ d H0). rewrite Z.add_0_r in *.
    destruct fuel; cbn [op_loop]; rewrite (proj2 (Z.ltb_ge _ _)) by lia; exact HQ.
  - destruct fuel as [|f]; [lia|]. cbn [op_loop]. rewrite (proj2 (Z.ltb_lt _ _)) by lia.
    wp_step. rewrite u32_id by (unfold is_u32; lia).
    specialize (Hstep O) as Hstep0. rewrite Z.add_0_r in Hstep0.
    apply (IH (fun k => I (S k))); [lia..| | |].
    + apply Hstep0; [lia|done].
    + intros k d' Hk HI. replace (start + line + Z.of_nat k * line) with (start + Z.of_nat (S k) * line) by lia.
      apply Hstep; [lia|done].
    + intros d' HI. replace (start + line + Z.of_nat n * line) with (start + Z.of_nat (S n) * line) by lia. by apply HQ.
Qed.

(** The number of turns for a range. *)
Definition turns (line size : Z) : nat := Z.to_nat ((size + line - 1) / line).

Lemma turns_spec line size : 0 < line -> 0 <= size ->
  let n := Z.of_nat (turns line size) in size <= n * line < size + line.
Proof.
  intros Hl Hs. unfold turns. rewrite Z2Nat.id by (apply Z.div_pos; lia).
  pose proof (Z.mul_div_le (size + line - 1) line Hl). pose proof (Z.mul_succ_div_gt (size + line - 1) line Hl). lia.
Qed.

Context {laws : CacheLaws D}.

Lemma sizes_pos : 4 <= NIOS2_DCACHE_LINE_SIZE /\ 4 <= NIOS2_ICACHE_LINE_SIZE /\
  0 < dsets /\ 0 < isets /\ NIOS2_DCACHE_SIZE = dsets * NIOS2_DCACHE_LINE_SIZE /\
  NIOS2_ICACHE_SIZE = isets * NIOS2_ICACHE_LINE_SIZE /\
  NIOS2_DCACHE_SIZE <= 1073741824 /\ NIOS2_ICACHE_SIZE <= 1073741824 /\
  NIOS2_DCACHE_LINE_SIZE <= NIOS2_DCACHE_SIZE /\ NIOS2_ICACHE_LINE_SIZE <= NIOS2_ICACHE_SIZE.
Proof.
  destruct dims as (D1 & D2 & D3 & D4 & D5 & D6).
  assert (forall k s, 2 <= k -> 0 <= s -> k + s <= 30 -> 4 <= 2 ^ k /\ 0 < 2 ^ s /\ 2 ^ (k + s) <= 1073741824) as Hpow.
  { intros k s Hk Hs Hks. split_and!; [apply (Z.pow_le_mono_r 2 2); lia|apply Z.pow_pos_nonneg; lia|
      apply (Z.pow_le_mono_r 2 _ 30); lia]. }
  unfold dsets, isets. rewrite dline_size, dcache_size, iline_size, icache_size.
  destruct (Hpow dlog dsetlog) as (A1 & A2 & A3); [lia..|]. destruct (Hpow ilog isetlog) as (B1 & B2 & B3); [lia..|].
  rewrite !Z.pow_add_r in * by lia. rewrite !(Z.mul_comm (2 ^ dlog)), !(Z.mul_comm (2 ^ ilog)), !Z.div_mul in * by lia.
  split_and!; try lia; nia.
Qed.

Lemma mask_line base : is_u32 base ->
  Z.land base (u32 (Z.lnot (NIOS2_DCACHE_LINE_SIZE - 1))) = dline base * NIOS2_DCACHE_LINE_SIZE.
Proof.
  intros Hb. destruct dims as (D1 & _ & D3 & _ & D5 & _). unfold dline. rewrite dline_size.
  replace (2 ^ dlog - 1) with (Z.ones dlog) by (rewrite Z.ones_equiv; lia).
  rewrite <- Z.shiftr_div_pow2, <- Z.shiftl_mul_pow2 by lia. apply Z.bits_inj'. intros j Hj.
  rewrite Z.land_spec, Z.shiftl_spec by lia.
  destruct (Z.lt_ge_cases j dlog) as [Hlt|Hge].
  - rewrite (Z.testbit_neg_r _ (j - dlog)) by lia.
    rewrite uwrap_testbit, Z.lnot_spec, Z.testbit_ones_nonneg, (proj2 (Z.ltb_lt j dlog)) by lia. apply andb_false_r.
  - rewrite Z.shiftr_spec by lia. replace (j - dlog + dlog) with j by lia.
    destruct (Z.lt_ge_cases j 32) as [H32|H32].
    + rewrite uwrap_testbit, Z.lnot_spec, Z.testbit_ones_nonneg, (proj2 (Z.ltb_ge j dlog)) by lia. apply andb_true_r.
    + unfold is_u32 in Hb. rewrite (small_bits base 32) by lia. done.
Qed.

(** The operation runs over the lines of the range, at most as many as the cache has. *)
Lemma wp_dcache_operation (I : nat -> D -> Prop) fuel base asize op (Q : unit -> D -> Prop) d :
  is_u32 base -> 0 <= asize -> base + asize + NIOS2_DCACHE_LINE_SIZE <= 4294967296 ->
  let n := turns NIOS2_DCACHE_LINE_SIZE (Z.min (asize + base mod NIOS2_DCACHE_LINE_SIZE) NIOS2_DCACHE_SIZE) in
  (n <= fuel)%nat -> I O d ->
  (forall k d, (k < n)%nat -> I k d -> I (S k) (op ((dline base + Z.of_nat k) * NIOS2_DCACHE_LINE_SIZE) d)) ->
  (forall d', I n d' -> Q tt d') ->
  wp (HAL_DCACHE_OPERATION fuel base asize op) Q d.
Proof.
  intros Hb Ha Htop n Hf H0 Hstep HQ. pose proof sizes_pos as (S1 & _ & S3 & _ & S5 & _).
  unfold HAL_DCACHE_OPERATION. rewrite mask_line by done. unfold dline in *.
  pose proof (Z.div_mod base NIOS2_DCACHE_LINE_SIZE) as Hdm.
  pose proof (Z.mod_pos_bound base NIOS2_DCACHE_LINE_SIZE) as Hmod. unfold is_u32 in Hb.
  assert (0 <= base / NIOS2_DCACHE_LINE_SIZE) as Hq by (apply Z.div_pos; lia).
  rewrite (u32_id (asize + base)) by (unfold is_u32; lia).
  rewrite (u32_id (asize + base - _)) by (unfold is_u32; nia).
  replace (asize + base - base / NIOS2_DCACHE_LINE_SIZE * NIOS2_DCACHE_LINE_SIZE)
    with (asize + base mod NIOS2_DCACHE_LINE_SIZE) by lia.
  set (size := if asize + base mod NIOS2_DCACHE_LINE_SIZE >? NIOS2_DCACHE_SIZE then _ else _).
  assert (size = Z.min (asize + base mod NIOS2_DCACHE_LINE_SIZE) NIOS2_DCACHE_SIZE) as Hsize.
  { subst size. destruct (Z.gtb_spec (asize + base mod NIOS2_DCACHE_LINE_SIZE) NIOS2_DCACHE_SIZE); lia. }
  assert (turns NIOS2_DCACHE_LINE_SIZE size = n) as Hn by (subst n; by rewrite <- Hsize).
  destruct (turns_spec NIOS2_DCACHE_LINE_SIZE size) as [Hn1 Hn2]; [lia|lia|].
  rewrite Hn in Hn1, Hn2. cbv zeta. clearbody n size. rewrite u32_id by (unfold is_u32; lia).
  apply wp_bind. apply (wp_op_loop I n); [lia..|lia|done|done| |].
  - intros k d' Hk HI. replace (base / NIOS2_DCACHE_LINE_SIZE * NIOS2_DCACHE_LINE_SIZE + Z.of_nat k * NIOS2_DCACHE_LINE_SIZE)
      with ((base / NIOS2_DCACHE_LINE_SIZE + Z.of_nat k) * NIOS2_DCACHE_LINE_SIZE) by lia. by apply Hstep.
  - intros d' HI. by apply HQ.
Qed.

Lemma dline_mult l : dline (l * NIOS2_DCACHE_LINE_SIZE) = l.
Proof. pose proof sizes_pos. unfold dline. apply Z.div_mul. lia. Qed.

(** A flush of an address range writes back, of the lines of the data cache, exactly
    those of the range from its start up to the size of the cache: a longer range
    keeps its further lines dirty, since the instruction of the macro works
    on the line of an address and not on an index.  What loads see does not change. *)
Theorem dcache_flush_exact fuel base asize d :
  is_u32 base -> 0 <= asize -> base + asize + NIOS2_DCACHE_LINE_SIZE <= 4294967296 ->
  NIOS2_DCACHE_SIZE / NIOS2_DCACHE_LINE_SIZE <= Z.of_nat fuel ->
  wp (HAL_DCACHE_FLUSH fuel base asize) (fun _ d' =>
    view d' = view d /\ (forall l, cached d' l <-> cached d l) /\
    forall l, dirty d' l <-> dirty d l /\
      ~ (dline base <= l /\ l * NIOS2_DCACHE_LINE_SIZE <
           dline base * NIOS2_DCACHE_LINE_SIZE + Z.min (asize + base mod NIOS2_DCACHE_LINE_SIZE) NIOS2_DCACHE_SIZE)) d.
Proof.
  intros Hb Ha Htop Hf. pose proof sizes_pos as (S1 & _ & S3 & _ & S5 & _). fold dsets in Hf.
  pose proof (Z.mod_pos_bound base NIOS2_DCACHE_LINE_SIZE) as Hmod.
  unfold HAL_DCACHE_FLUSH. rewrite (proj2 (Z.eqb_neq _ _)) by nia.
  set (size := Z.min _ NIOS2_DCACHE_SIZE).
  destruct (turns_spec NIOS2_DCACHE_LINE_SIZE size) as [Hn1 Hn2]; [lia|lia|].
  apply (wp_dcache_operation (fun k d' => view d' = view d /\ (forall l, cached d' l <-> cached d l) /\
    forall l, dirty d' l <-> dirty d l /\ ~ (dline base <= l < dline base + Z.of_nat k))); [done..| | | |].
  - fold size. enough (Z.of_nat (turns NIOS2_DCACHE_LINE_SIZE size) <= dsets) by lia. nia.
  - split_and!; [done|done|]. intros l. rewrite Z.add_0_r. split; [|by intros []]. split; [done|lia].
  - intros k d' Hk (Hv & Hc & Hd).
    destruct (flushda_law ((dline base + Z.of_nat k) * NIOS2_DCACHE_LINE_SIZE) d') as (Hv' & Hd' & Hc').
    rewrite dline_mult in Hd'. split_and!; [congruence|by intros l; rewrite Hc'|].
    intros l. rewrite Hd', Hd. split; [intros [[? ?] ?]; split; [done|lia]|].
    intros [? ?]. split; [split; [done|lia]|lia].
  - fold size. intros d' (Hv & Hc & Hd). split_and!; [done|done|]. intros l. rewrite Hd.
    split; (intros [? Hl]; split; [done|]); intros Hr; apply Hl; nia.
Qed.

(** [flushd] works by index, so that the whole cache is written back. *)
Theorem dcache_sync_cleans fuel d :
  dsets <= Z.of_nat fuel ->
  wp (HAL_DCACHE_SYNC fuel) (fun _ d' =>
    view d' = view d /\ (forall l, cached d' l <-> cached d l) /\ forall l, ~ dirty d' l) d.
Proof.
  intros Hf. pose proof sizes_pos as (S1 & _ & S3 & _ & S5 & _ & S7 & _ & S9 & _).
  unfold HAL_DCACHE_SYNC. rewrite (proj2 (Z.eqb_neq _ _)) by nia.
  assert (turns NIOS2_DCACHE_LINE_SIZE (Z.min (NIOS2_DCACHE_SIZE + 0 mod NIOS2_DCACHE_LINE_SIZE) NIOS2_DCACHE_SIZE) = Z.to_nat dsets) as Hn.
  { rewrite Z.mod_0_l, Z.add_0_r, Z.min_id by lia.
    destruct (turns_spec NIOS2_DCACHE_LINE_SIZE NIOS2_DCACHE_SIZE) as [Hn1 Hn2]; [lia|lia|].
    enough (Z.of_nat (turns NIOS2_DCACHE_LINE_SIZE NIOS2_DCACHE_SIZE) = dsets) by lia. nia. }
  apply (wp_dcache_operation (fun k d' => view d' = view d /\ (forall l, cached d' l <-> cached d l) /\
    forall l, dirty d' l -> ~ (l mod dsets < Z.of_nat k))); [done|lia|lia|rewrite Hn; lia| | |].
  - split_and!; [done|done|]. intros l _. pose proof (Z.mod_pos_bound l dsets). lia.
  - intros k d' Hk (Hv & Hc & Hd). rewrite Hn in Hk.
    change (dline 0) with (0 / NIOS2_DCACHE_LINE_SIZE). rewrite Z.div_0_l, Z.add_0_l by lia.
    destruct (flushd_law (Z.of_nat k * NIOS2_DCACHE_LINE_SIZE) d') as (Hv' & Hd' & Hc').
    rewrite dline_mult, (Z.mod_small (Z.of_nat k)) in Hd' by lia.
    split_and!; [congruence|by intros l; rewrite Hc'|]. intros l Hl. apply Hd' in Hl as [Hl Hne].
    specialize (Hd l Hl). lia.
  - rewrite Hn. intros d' (Hv & Hc & Hd). split_and!; [done|done|]. intros l Hl. apply (Hd l Hl).
    rewrite Z2Nat.id by lia. apply Z.mod_pos_bound. lia.
Qed.

(** From line [l0] on, the lines of [k] indices have left the instruction cache. *)
Definition emptied (d : D) (l0 : Z) (k : nat) (d' : D) : Prop :=
  view d' = view d /\ (forall l, dirty d' l <-> dirty d l) /\
  forall l, cached d' l -> cached d l /\ forall j, 0 <= j < Z.of_nat k -> l mod isets <> (l0 + j) mod isets.

Definition by_index (op : Z -> D -> D) : Prop := forall a d,
  view (op a d) = view d /\ (forall l, dirty (op a d) l <-> dirty d l) /\
  (forall l, cached (op a d) l <-> cached d l /\ l mod isets <> iline a mod isets).

Lemma emptied_0 d l0 : emptied d l0 0 d.
Proof. split_and!; [done|done|]. intros l Hl. split; [done|lia]. Qed.

Lemma emptied_step op d l0 k d' a :
  by_index op -> iline a = l0 + Z.of_nat k -> emptied d l0 k d' -> emptied d l0 (S k) (op a d').
Proof.
  intros Hop Hia (Hv & Hd & Hc). destruct (Hop a d') as (Hv' & Hd' & Hc').
  split_and!; [congruence|by intros l; rewrite Hd'|]. intros l Hl. apply Hc' in Hl as [Hl Hne].
  destruct (Hc l Hl) as [Hl' Hj]. split; [done|]. intros j Hr.
  destruct (decide (j = Z.of_nat k)) as [->|]; [by rewrite <- Hia|]. apply Hj. lia.
Qed.

Lemma emptied_flushp d l0 k d' : emptied d l0 k d' -> emptied d l0 k (flushp d').
Proof.
  intros (Hv & Hd & Hc). destruct (flushp_law d') as (Hv' & Hd' & Hc').
  split_and!; [congruence|by intros l; rewrite Hd'|]. intros l Hl. by apply Hc, Hc'.
Qed.

(** As many indices as there are sets: nothing is left. *)
Lemma emptied_all d l0 k d' l : isets <= Z.of_nat k -> emptied d l0 k d' -> ~ cached d' l.
Proof.
  intros Hk (_ & _ & Hc) Hl. pose proof sizes_pos as (_ & _ & _ & S4 & _).
  destruct (Hc l Hl) as [_ Hj]. pose proof (Z.mod_pos_bound (l - l0) isets S4).
  apply (Hj ((l - l0) mod isets)); [lia|].
  rewrite Zplus_mod_idemp_r. f_equal. lia.
Qed.

(** After the operation on a range, as many indices are empty as the range has lines. *)
Lemma wp_icache_operation fuel base asize op d :
  by_index op -> is_u32 base -> 0 <= asize -> base + asize + NIOS2_ICACHE_LINE_SIZE <= 4294967296 ->
  isets <= Z.of_nat fuel ->
  wp (icache_operation fuel base asize op) (fun _ d' => exists k,
    emptied d (iline base) k d' /\
    Z.min asize NIOS2_ICACHE_SIZE + base mod NIOS2_ICACHE_LINE_SIZE <= Z.of_nat k * NIOS2_ICACHE_LINE_SIZE) d.
Proof.
  intros Hop Hb Ha Htop Hf. pose proof sizes_pos as (_ & S2 & _ & S4 & _ & S6 & _ & S8 & _ & S10). unfold is_u32 in Hb.
  unfold icache_operation. destruct (Z.gtb_spec NIOS2_ICACHE_SIZE 0) as [_|]; [|nia].
  set (size := if asize >? NIOS2_ICACHE_SIZE then _ else _).
  assert (size = Z.min asize NIOS2_ICACHE_SIZE) as Hsize.
  { subst size. destruct (Z.gtb_spec asize NIOS2_ICACHE_SIZE); lia. }
  cbv zeta. rewrite u32_id by (unfold is_u32; lia). clearbody size.
  destruct (turns_spec NIOS2_ICACHE_LINE_SIZE size) as [Hn1 Hn2]; [lia|lia|].
  set (n := turns NIOS2_ICACHE_LINE_SIZE size) in *.
  assert (forall k, iline (base + k * NIOS2_ICACHE_LINE_SIZE) = iline base + k) as Hil
    by (intros k; unfold iline; apply Z.div_add; lia).
  apply wp_bind. apply (wp_op_loop (emptied d (iline base)) n); [lia..|nia|apply emptied_0| |].
  - intros k d' _. apply emptied_step; [done|apply Hil].
  - intros d' Hd'.
    assert (ctrue (Z.land base (NIOS2_ICACHE_LINE_SIZE - 1)) = negb (base mod NIOS2_ICACHE_LINE_SIZE =? 0)) as Ht.
    { destruct dims as (_ & D2 & _). rewrite iline_size.
      replace (2 ^ ilog - 1) with (Z.ones ilog) by (rewrite Z.ones_equiv; lia). by rewrite Z.land_ones by lia. }
    pose proof (Z.mod_pos_bound base NIOS2_ICACHE_LINE_SIZE).
    apply wp_bind, wp_when; rewrite Ht; destruct (Z.eqb_spec (base mod NIOS2_ICACHE_LINE_SIZE) 0) as [E|E]; try done;
      intros _; repeat apply wp_modify.
    + exists (S n). split; [|lia]. apply emptied_flushp, emptied_step; [done|apply Hil|done].
    + exists n. split; [by apply emptied_flushp|lia].
Qed.

(** However long the range is and wherever it starts, none of its lines is left in the
    instruction cache. *)
Theorem icache_invalidate_range fuel base asize d :
  is_u32 base -> 0 <= asize -> base + asize + NIOS2_ICACHE_LINE_SIZE <= 4294967296 -> isets <= Z.of_nat fuel ->
  wp (HAL_ICACHE_INVALIDATE fuel base asize) (fun _ d' =>
    view d' = view d /\ (forall l, dirty d' l <-> dirty d l) /\
    forall l, cached d' l -> cached d l /\ ~ (iline base <= l /\ l * NIOS2_ICACHE_LINE_SIZE < base + asize)) d.
Proof.
  intros Hb Ha Htop Hf. pose proof sizes_pos as (_ & S2 & _ & S4 & _ & S6 & _).
  eapply wp_mono; [apply wp_icache_operation; [exact initi_law|done..]|].
  intros _ d' (k & Hk & Hlen). pose proof Hk as (Hv & Hd & Hc). split_and!; [done|done|].
  intros l Hl. destruct (Hc l Hl) as [Hl' Hj]. split; [done|]. intros [Hlo Hhi].
  destruct (Z.lt_ge_cases (Z.of_nat k) isets) as [Hlt|Hge]; [|by eapply emptied_all].
  apply (Hj (l - iline base)); [|by replace (iline base + (l - iline base)) with l by lia].
  pose proof (Z.div_mod base NIOS2_ICACHE_LINE_SIZE) as Hdm. specialize (Hdm ltac:(lia)). unfold iline in *.
  set (q := base / NIOS2_ICACHE_LINE_SIZE) in *. split; [lia|].
  enough (l * NIOS2_ICACHE_LINE_SIZE < (q + Z.of_nat k) * NIOS2_ICACHE_LINE_SIZE) by nia.
  assert (Z.of_nat k * NIOS2_ICACHE_LINE_SIZE < NIOS2_ICACHE_SIZE) by (rewrite S6; apply Z.mul_lt_mono_pos_r; lia).
  pose proof (Z.mod_pos_bound base NIOS2_ICACHE_LINE_SIZE). lia.
Qed.

Theorem icache_sync_empties fuel d :
  isets <= Z.of_nat fuel ->
  wp (HAL_ICACHE_SYNC fuel) (fun _ d' =>
    view d' = view d /\ (forall l, dirty d' l <-> dirty d l) /\ forall l, ~ cached d' l) d.
Proof.
  intros Hf. pose proof sizes_pos as (_ & S2 & _ & S4 & _ & S6 & _ & S8 & _ & S10).
  eapply wp_mono; [apply wp_icache_operation; [exact initi_law|done|lia|lia|done]|].
  intros _ d' (k & Hk & Hlen). pose proof Hk as (Hv & Hd & _). split_and!; [done|done|].
  intros l. eapply emptied_all; [|exact Hk]. rewrite Z.mod_0_l in Hlen by lia. nia.
Qed.

End Facts.

(** * A processor with direct-mapped caches

    A write-back data cache of 512 bytes and an instruction cache of 4096 bytes, with
    lines of 32 bytes; the promises of [CacheLaws] hold of it. *)

(** [s_old]: what memory has where a line is dirty; [s_copy]: what the instruction
    cache has where a line is cached. *)
Record sim := mkSim {
  s_view : Z -> Z;
  s_old : Z -> Z;
  s_dirty : list Z;
  s_copy : Z -> Z;
  s_cached : list Z;
}.

Definition line_of (a : Z) : Z := a / 32.

Definition main_memory (s : sim) (a : Z) : Z :=
  if bool_decide (line_of a ∈ s_dirty s) then s_old s a else s_view s a.

Definition executed (s : sim) (a : Z) : Z :=
  if bool_decide (line_of a ∈ s_cached s) then s_copy s a else main_memory s a.

(** The line leaves no other line of its index in the cache. *)
Definition evict (sets l : Z) (ls : list Z) : list Z := filter (fun x => x mod sets <> l mod sets) ls.

Definition sim_store (a v : Z) (s : sim) : sim :=
  let l := line_of a in
  let s := if bool_decide (l ∈ s_dirty s) then s
           else mkSim (s_view s) (fun x => if line_of x =? l then s_view s x else s_old s x)
                  (l :: evict 16 l (s_dirty s)) (s_copy s) (s_cached s) in
  mkSim (<[a := v]> (s_view s)) (s_old s) (s_dirty s) (s_copy s) (s_cached s).

Definition sim_fetch (a : Z) (s : sim) : Z * sim :=
  let l := line_of a in
  (executed s a,
   if bool_decide (l ∈ s_cached s) then s
   else mkSim (s_view s) (s_old s) (s_dirty s)
          (fun x => if line_of x =? l then main_memory s x else s_copy s x) (l :: evict 128 l (s_cached s))).

Definition set_dirty (v : list Z) (s : sim) : sim := mkSim (s_view s) (s_old s) v (s_copy s) (s_cached s).

Definition set_cached (v : list Z) (s : sim) : sim := mkSim (s_view s) (s_old s) (s_dirty s) (s_copy s) v.

#[export] Instance sim_hw : CacheHw sim := {
  NIOS2_DCACHE_SIZE := 512;
  NIOS2_DCACHE_LINE_SIZE := 32;
  NIOS2_ICACHE_SIZE := 4096;
  NIOS2_ICACHE_LINE_SIZE := 32;
  ld a s := (s_view s a, s);
  st := sim_store;
  fetch := sim_fetch;
  initda a s := mkSim (fun x => if line_of x =? line_of a then main_memory s x else s_view s x) (s_old s)
                  (filter (fun l => l <> line_of a) (s_dirty s)) (s_copy s) (s_cached s);
  flushda a s := set_dirty (filter (fun l => l <> line_of a) (s_dirty s)) s;
  initd a s := mkSim (fun x => if line_of x mod 16 =? line_of a mod 16 then main_memory s x else s_view s x) (s_old s)
                 (evict 16 (line_of a) (s_dirty s)) (s_copy s) (s_cached s);
  flushd a s := set_dirty (evict 16 (line_of a) (s_dirty s)) s;
  initi a s := set_cached (evict 128 (line_of a) (s_cached s)) s;
  flushi a s := set_cached (evict 128 (line_of a) (s_cached s)) s;
  flushp s := s;
}.

Lemma elem_evict sets l ls x : x ∈ evict sets l ls <-> x ∈ ls /\ x mod sets <> l mod sets.
Proof. unfold evict. rewrite list_elem_of_filter. tauto. Qed.

#[export, refine] Instance sim_laws : CacheLaws sim := {
  dlog := 5;
  dsetlog := 4;
  ilog := 5;
  isetlog := 7;
  view := s_view;
  iview := executed;
  dirty s l := l ∈ s_dirty s;
  cached s l := l ∈ s_cached s;
}.
Proof.
  - lia.
  - done.
  - done.
  - done.
  - done.
  - intros s a Hc Hd. unfold executed, main_memory. by rewrite !bool_decide_eq_false_2.
  - intros a s. by exists s.
  - intros a v s. cbn. unfold sim_store. case_bool_decide; cbn.
    + split_and!; [done|by left|done].
    + split_and!; [done| |done]. intros l. rewrite elem_of_cons, elem_evict. intros [->|[]]; [by right|by left].
  - intros a s. eexists. split; [reflexivity|]. case_bool_decide; cbn.
    + split_and!; [done|done|by left].
    + split_and!; [done|done|]. intros l. rewrite elem_of_cons, elem_evict. intros [->|[]]; [by right|by left].
  - intros a s. cbn. split_and!; [done| |done]. intros l. rewrite list_elem_of_filter. apply and_comm.
  - intros a s. cbn. split_and!; [done| |done]. intros l. apply elem_evict.
  - intros a s. cbn. split_and!; [done|done|]. intros l. apply elem_evict.
  - intros a s. cbn. split_and!; [done|done|]. intros l. apply elem_evict.
  - intros s. done.
Defined.

(** Memory that holds its addresses, with one dirty line and one cached line in it. *)
Definition one_dirty : sim :=
  mkSim (fun a => if a =? 4096 then 7 else a) (fun a => a) [128] (fun a => a) [128].

(** 1024 bytes from address 4000: the flush covers the first 512, and so line 128. *)
Lemma dcache_flush_exact_witness :
  wp (HAL_DCACHE_FLUSH 16 4000 1024) (fun _ d' =>
    view d' = view one_dirty /\ (forall l, cached d' l <-> cached one_dirty l) /\
    forall l, dirty d' l <-> dirty one_dirty l /\
      ~ (dline 4000 <= l /\ l * NIOS2_DCACHE_LINE_SIZE <
           dline 4000 * NIOS2_DCACHE_LINE_SIZE + Z.min (1024 + 4000 mod NIOS2_DCACHE_LINE_SIZE) NIOS2_DCACHE_SIZE)) one_dirty.
Proof.
  apply (dcache_flush_exact 16 4000 1024 one_dirty); vm_compute; (discriminate || by split).
Defined.
