(* ===== verification/Stub.v ===== *)
(** * The debugger stub (packages/hal/nios2/arch: nios2-stub.c, nios2_opcode.h, plf_stub.h)

    Single steps by a breakpoint on the next instruction, and the breakpoint that a
    debug channel installs to stop a running program.  The list of breakpoints and
    the breakpoint instruction belong to the generic stub of eCos: a class of
    operations.  Memory is that of the processor with its caches. *)

From stdpp Require Import functions.
From S2P Require Import Prelude.
From S2P Require Import Cache.

(** ** Instructions *)

(** The bit-field of [n] bits from bit [lo] on. *)
Definition bits (w lo n : Z) : Z := Z.land (Z.shiftr w lo) (Z.ones n).

Definition IType_op (w : Z) : Z := bits w 0 6.

Definition IType_imm (w : Z) : Z := bits w 6 16.

Definition IType_b (w : Z) : Z := bits w 22 5.

Definition IType_a (w : Z) : Z := bits w 27 5.

Definition RType_op (w : Z) : Z := bits w 0 6.

Definition RType_opx (w : Z) : Z := bits w 11 6.

Definition RType_a (w : Z) : Z := bits w 27 5.

Definition JType_imm (w : Z) : Z := bits w 6 26.

Definition OP_BEQ : Z := 38.

Definition OP_BGE : Z := 14.

Definition OP_BGEU : Z := 46.

Definition OP_BLT : Z := 22.

Definition OP_BLTU : Z := 54.

Definition OP_BNE : Z := 30.

Definition OP_BR : Z := 6.

Definition OP_CALL : Z := 0.

Definition OP_RTYPE : Z := 58.

Definition OPX_ERET : Z := 1.

Definition OPX_RET : Z := 5.

Definition OPX_BRET : Z := 9.

Definition OPX_JMP : Z := 13.

Definition OPX_CALLR : Z := 29.

Definition OPX_TRAP : Z := 45.

Definition OPX_BREAK : Z := 52.

Definition BREAK_INSTR : Z := 5988410.

Definition NOP_INSTR : Z := 100410.

(** Registers, by the numbers of the debugger. *)
Definition REG_EA : Z := 29.

Definition REG_BA : Z := 30.

Definition REG_RA : Z := 31.

Definition REG_PC : Z := 32.

(** ** The stub *)

(** Of the generic stub; [breakinst] is the address of the label [_breakinst]. *)
Class GenericStub (D B : Type) := {
  install_breakpoint_list : B -> D -> B * D;
  clear_breakpoint_list : B -> D -> B * D;
  break_opcode : Z;
  breakinst : Z;
  SIGINT : Z;
  SIGTRAP : Z;
}.

Record stub (D B : Type) := mkStub {
  hw : D;
  list_state : B;
  regs : Z -> Z;
  async_targetAddr : Z;
  async_savedInstr : Z;
  step_targetAddr : Z;
  step_savedInstr : Z;
}.

Arguments mkStub {D B}.
Arguments hw {D B}.
Arguments list_state {D B}.
Arguments regs {D B}.
Arguments async_targetAddr {D B}.
Arguments async_savedInstr {D B}.
Arguments step_targetAddr {D B}.
Arguments step_savedInstr {D B}.

Section Stub.
Context {D B : Type} {cache : CacheHw D} {generic : GenericStub D B} (fuel : nat).

Definition set_hw (v : D) (s : stub D B) : stub D B :=
  mkStub v (list_state s) (regs s) (async_targetAddr s) (async_savedInstr s) (step_targetAddr s) (step_savedInstr s).

Definition set_list (x : B * D) (s : stub D B) : stub D B :=
  mkStub x.2 x.1 (regs s) (async_targetAddr s) (async_savedInstr s) (step_targetAddr s) (step_savedInstr s).

Definition set_regs (v : Z -> Z) (s : stub D B) : stub D B :=
  mkStub (hw s) (list_state s) v (async_targetAddr s) (async_savedInstr s) (step_targetAddr s) (step_savedInstr s).

Definition set_async (t i : Z) (s : stub D B) : stub D B :=
  mkStub (hw s) (list_state s) (regs s) t i (step_targetAddr s) (step_savedInstr s).

Definition set_step (t i : Z) (s : stub D B) : stub D B :=
  mkStub (hw s) (list_state s) (regs s) (async_targetAddr s) (async_savedInstr s) t i.

Definition lift {A} (m : M D A) : M (stub D B) A := fun s =>
  match m (hw s) with Ret (a, d) => Ret (a, set_hw d s) | UB => UB | NoFuel => NoFuel end.

(** Accesses to words, which must be aligned. *)
Definition load (a : Z) : M (stub D B) Z :=
  if a mod 4 =? 0 then lift (fun d => Ret (ld a d)) else undef.

Definition store (a v : Z) : M (stub D B) unit :=
  if a mod 4 =? 0 then lift (modify (st a v)) else undef.

Definition get_register (r : Z) : M (stub D B) Z := gets (fun s => regs s r).

Definition put_register (r v : Z) : M (stub D B) unit := modify (fun s => set_regs (<[r := v]> (regs s)) s).

Definition install_async_breakpoint (epc : Z) : M (stub D B) unit :=
  modify (fun s => set_async epc (async_savedInstr s) s);;
  w ← load epc;
  modify (fun s => set_async (async_targetAddr s) w s);;
  b ← load breakinst;
  store epc b;;
  lift (HAL_DCACHE_SYNC fuel);;
  lift (HAL_ICACHE_SYNC fuel).

Definition __computeSignal (trap_number : Z) : M (stub D B) Z :=
  t ← gets async_targetAddr;
  if ctrue t then
    i ← gets async_savedInstr;
    store t i;;
    lift (HAL_DCACHE_SYNC fuel);;
    lift (HAL_ICACHE_SYNC fuel);;
    modify (fun s => set_async 0 (async_savedInstr s) s);;
    mret SIGINT
  else mret SIGTRAP.

Definition __get_trap_number : M (stub D B) Z := mret 0.

Definition set_pc (pc : Z) : M (stub D B) unit := put_register REG_PC pc.

Definition set_target (t : Z) : M (stub D B) unit := modify (fun s => set_step t (step_savedInstr s) s).

(** The branch target with the signed 16-bit offset. *)
Definition branch_target (word : Z) : M (stub D B) unit :=
  let offset := swrap 16 (IType_imm word) in
  pc ← get_register REG_PC;
  set_target (u32 (pc + offset + 4)).

(** The jumps through a register. *)
Definition step_rtype (word : Z) : M (stub D B) unit :=
  let opx := RType_opx word in
  if opx =? OPX_ERET then t ← get_register REG_EA; set_target t
  else if opx =? OPX_RET then t ← get_register REG_RA; set_target t
  else if (opx =? OPX_JMP) || (opx =? OPX_CALLR) then t ← get_register (RType_a word); set_target t
  else mret tt.

Definition __single_step : M (stub D B) unit :=
  pc ← get_register REG_PC;
  set_target (u32 (pc + 4));;
  word ← load pc;
  let branch_if (cond : Z -> Z -> bool) : M (stub D B) unit :=
    x ← get_register (IType_a word);
    y ← get_register (IType_b word);
    when (cond x y) (branch_target word) in
  let op := RType_op word in
  if op =? OP_BEQ then branch_if (fun x y => x =? y)
  else if op =? OP_BGE then branch_if (fun x y => s32 x >=? s32 y)
  else if op =? OP_BGEU then branch_if (fun x y => x >=? y)
  else if op =? OP_BLT then branch_if (fun x y => s32 x <? s32 y)
  else if op =? OP_BLTU then branch_if (fun x y => x <? y)
  else if op =? OP_BNE then branch_if (fun x y => negb (x =? y))
  else if op =? OP_BR then branch_target word
  else if op =? OP_CALL then
    let offset := u32 (JType_imm word * 4) in
    pc ← get_register REG_PC;
    set_target (Z.lor (Z.land pc 4026531840) offset)
  else if op =? OP_RTYPE then
    step_rtype word
  else mret tt.

Definition __clear_single_step : M (stub D B) unit :=
  t ← gets step_targetAddr;
  i ← gets step_savedInstr;
  when (ctrue t) (store t i;; modify (fun s => set_step 0 (step_savedInstr s) s));;
  modify (fun s => set_step (step_targetAddr s) NOP_INSTR s).

Definition __install_breakpoints : M (stub D B) unit :=
  t ← gets step_targetAddr;
  when (ctrue t) (i ← load t; modify (fun s => set_step (step_targetAddr s) i s);; store t break_opcode);;
  lift (HAL_ICACHE_SYNC fuel);;
  modify (fun s => set_list (install_breakpoint_list (list_state s) (hw s)) s);;
  lift (HAL_DCACHE_SYNC fuel).

Definition __clear_breakpoints : M (stub D B) unit :=
  modify (fun s => set_list (clear_breakpoint_list (list_state s) (hw s)) s).

Definition __is_breakpoint_function : M (stub D B) bool :=
  pc ← get_register REG_PC; mret (pc =? breakinst).

Definition __skipinst : M (stub D B) unit :=
  pc ← get_register REG_PC; put_register REG_PC (u32 (pc + 4)).

End Stub.
