(* ===== verification/StubProps.v ===== *)
(** * Theorems about the debugger stub *)

From stdpp Require Import functions.
From S2P Require Import Prelude.
From S2P Require Import Cache.
From S2P Require Import Stub.

(** ** The instruction set

    The flow of control of the Nios II instruction set, written from its reference:
    an instruction is taken apart by division, and the address of the next one to
    be executed follows from the registers. *)

Inductive cond := Eq | Ne | Ge | Lt | GeU | LtU.

Inductive instr :=
| Branch (c : cond) (a b : Z) (offset : Z)
| Br (offset : Z)
| Call (target : Z)
| Jmpi (target : Z)
| Jump (a : Z)       (* jmp, callr *)
| Ret_ | Eret | Bret
| Exception          (* trap, break *)
| Straight.

(** A signed 16-bit number. *)
Definition sign16 (z : Z) : Z := if z <? 32768 then z else z - 65536.

Definition decode (w : Z) : instr :=
  let op := w mod 64 in
  let imm := sign16 (w / 64 mod 65536) in
  let imm26 := w / 64 in
  let a := w / 134217728 in
  let b := w / 4194304 mod 32 in
  let opx := w / 2048 mod 64 in
  match op with
  | 38 => Branch Eq a b imm
  | 30 => Branch Ne a b imm
  | 14 => Branch Ge a b imm
  | 22 => Branch Lt a b imm
  | 46 => Branch GeU a b imm
  | 54 => Branch LtU a b imm
  | 6 => Br imm
  | 0 => Call imm26
  | 1 => Jmpi imm26
  | 58 =>
      match opx with
      | 1 => Eret
      | 5 => Ret_
      | 9 => Bret
      | 13 | 29 => Jump a
      | 45 | 52 => Exception
      | _ => Straight
      end
  | _ => Straight
  end.

Definition signed (x : Z) : Z := if x <? 2147483648 then x else x - 4294967296.

Definition holds (c : cond) (x y : Z) : bool :=
  match c with
  | Eq => x =? y
  | Ne => negb (x =? y)
  | Ge => signed y <=? signed x
  | Lt => signed x <? signed y
  | GeU => y <=? x
  | LtU => x <? y
  end.

(** [None]: the instruction raises an exception. *)
Definition next_pc (i : instr) (r : Z -> Z) (pc : Z) : option Z :=
  let seq := (pc + 4) mod 4294967296 in
  match i with
  | Branch c a b off => Some (if holds c (r a) (r b) then (pc + 4 + off) mod 4294967296 else seq)
  | Br off => Some ((pc + 4 + off) mod 4294967296)
  | Call t | Jmpi t => Some (pc / 268435456 * 268435456 + t * 4)
  | Jump a => Some (r a)
  | Ret_ => Some (r REG_RA)
  | Eret => Some (r REG_EA)
  | Bret => Some (r REG_BA)
  | Exception => None
  | Straight => Some seq
  end.

(** Where the stub stops a step of the instruction: at the next one to be executed, except
    that it takes [jmpi] and [bret], which it does not know, for instructions that go
    on to the following word, as it does those that raise an exception. *)
Definition stops_at (i : instr) (r : Z -> Z) (pc t : Z) : Prop :=
  match i with
  | Jmpi _ | Bret | Exception => t = (pc + 4) mod 4294967296
  | _ => next_pc i r pc = Some t
  end.

Lemma stops_at_unique i r pc t1 t2 : stops_at i r pc t1 -> stops_at i r pc t2 -> t1 = t2.
Proof. destruct i; cbn; congruence. Qed.

(** ** Fields *)

Lemma bits_div w lo n : 0 <= lo -> 0 <= n -> bits w lo n = w / 2 ^ lo mod 2 ^ n.
Proof. intros. unfold bits. by rewrite Z.land_ones, Z.shiftr_div_pow2 by lia. Qed.

Lemma swrap16_sign z : 0 <= z < 65536 -> swrap 16 z = sign16 z.
Proof.
  intros Hz. unfold swrap, sign16. change (2 ^ (16 - 1)) with 32768. change (2 ^ 16) with 65536.
  destruct (Z.ltb_spec z 32768); [rewrite Z.mod_small by lia; lia|].
  replace (z + 32768) with (z - 32768 + 1 * 65536) by lia. rewrite Z_mod_plus_full, Z.mod_small by lia. lia.
Qed.

Lemma s32_signed z : is_u32 z -> s32 z = signed z.
Proof.
  unfold is_u32. intros Hz. unfold swrap, signed. change (2 ^ (32 - 1)) with 2147483648. change (2 ^ 32) with 4294967296.
  destruct (Z.ltb_spec z 2147483648); [rewrite Z.mod_small by lia; lia|].
  replace (z + 2147483648) with (z - 2147483648 + 1 * 4294967296) by lia. rewrite Z_mod_plus_full, Z.mod_small by lia. lia.
Qed.

Lemma call_target pc t : is_u32 pc -> 0 <= t < 67108864 ->
  Z.lor (Z.land pc 4026531840) (u32 (t * 4)) = pc / 268435456 * 268435456 + t * 4.
Proof.
  unfold is_u32. intros Hpc Ht. rewrite u32_id by (unfold is_u32; lia).
  replace (Z.land pc 4026531840) with (Z.shiftl (pc / 2 ^ 28) 28).
  { rewrite lor_shift_add by (change (2 ^ 28) with 268435456; lia). done. }
  change 4026531840 with (Z.shiftl (Z.ones 4) 28). rewrite <- Z.shiftr_div_pow2 by lia.
  apply Z.bits_inj'. intros j Hj. rewrite Z.land_spec, !Z.shiftl_spec by lia.
  destruct (Z.lt_ge_cases j 28) as [Hlt|Hge].
  - rewrite !(Z.testbit_neg_r _ (j - 28)) by lia. by rewrite andb_false_r.
  - rewrite Z.testbit_ones_nonneg, Z.shiftr_spec by lia. replace (j - 28 + 28) with j by lia.
    destruct (Z.ltb_spec (j - 28) 4); [by rewrite andb_true_r|]. rewrite (small_bits pc 32) by lia. done.
Qed.

(** An opcode that changes the flow has its own case, whatever the other fields are. *)
Lemma decode_straight w :
  w mod 64 <> 38 -> w mod 64 <> 30 -> w mod 64 <> 14 -> w mod 64 <> 22 -> w mod 64 <> 46 -> w mod 64 <> 54 ->
  w mod 64 <> 6 -> w mod 64 <> 0 -> w mod 64 <> 58 ->
  decode w = if w mod 64 =? 1 then Jmpi (w / 64) else Straight.
Proof.
  unfold decode. intros. repeat match goal with |- context [match ?x with _ => _ end] => is_var x; destruct x | |- context [match w mod 64 with _ => _ end] => destruct (w mod 64) end; done.
Qed.

Lemma decode_rtype w :
  w mod 64 = 58 -> w / 2048 mod 64 <> 1 -> w / 2048 mod 64 <> 5 -> w / 2048 mod 64 <> 13 -> w / 2048 mod 64 <> 29 ->
  decode w = Straight \/ decode w = Bret \/ decode w = Exception.
Proof.
  intros E. unfold decode. rewrite E. intros.
  repeat match goal with |- context [match ?x with _ => _ end] => is_var x; destruct x | |- context [match w / 2048 mod 64 with _ => _ end] => destruct (w / 2048 mod 64) end; by auto.
Qed.

(** The code of the breakpoint instruction in the table of instructions is not that of
    [trap], which is the one the architecture layer defines. *)
Example break_instr_is_not_trap :
  (RType_op BREAK_INSTR, RType_opx BREAK_INSTR, decode BREAK_INSTR) = (OP_RTYPE, 44, Straight) /\
  (RType_op 3893306, RType_opx 3893306, decode 3893306) = (OP_RTYPE, OPX_TRAP, Exception).
Proof. split; reflexivity. Qed.

(** ** Single steps *)

Section Step.
Context {D B : Type} {cache : CacheHw D} {generic : GenericStub D B} {laws : CacheLaws D}.

(** The caches have changed, but not what loads see, and no line has come in. *)
Definition seen (d d' : D) : Prop :=
  view d' = view d /\ (forall l, dirty d' l -> dirty d l) /\ (forall l, cached d' l -> cached d l).

Lemma wp_load a (Q : Z -> stub D B -> Prop) s :
  a mod 4 = 0 -> (forall d', seen (hw s) d' -> Q (view (hw s) a) (set_hw d' s)) -> wp (load a) Q s.
Proof.
  intros Ha HQ. unfold load. rewrite (proj2 (Z.eqb_eq _ _)) by done.
  destruct (ld_law a (hw s)) as (d' & Heq & Hs). unfold wp, lift. rewrite Heq. by apply HQ.
Qed.

Lemma wp_store a v (Q : unit -> stub D B -> Prop) s :
  a mod 4 = 0 -> Q tt (set_hw (st a v (hw s)) s) -> wp (store a v) Q s.
Proof. intros Ha HQ. unfold store. by rewrite (proj2 (Z.eqb_eq _ _)) by done. Qed.

Lemma wp_lift {A} (m : M D A) (Q : A -> stub D B -> Prop) s :
  wp m (fun a d => Q a (set_hw d s)) (hw s) -> wp (lift m) Q s.
Proof. unfold wp, lift. by destruct (m (hw s)) as [[a d]| |]. Qed.

(** The state once the next instruction is known. *)
Definition aimed (s : stub D B) (d' : D) (t : Z) : stub D B := set_step t (step_savedInstr s) (set_hw d' s).

Lemma wp_branch_always w (Q : unit -> stub D B -> Prop) s d' t0 :
  is_u32 w ->
  Q tt (aimed s d' ((regs s REG_PC + 4 + sign16 (w / 64 mod 65536)) mod 4294967296)) ->
  wp (branch_target w) Q (aimed s d' t0).
Proof.
  intros Hw HQ. unfold branch_target, get_register. apply wp_bind, (wp_eq _ _ _ _ _ eq_refl). cbv zeta.
  change (regs (aimed s d' t0)) with (regs s). apply wp_modify.
  unfold IType_imm. rewrite bits_div, swrap16_sign by (try lia; apply Z.mod_pos_bound; lia).
  change (2 ^ 6) with 64. change (2 ^ 16) with 65536. unfold uwrap. change (2 ^ 32) with 4294967296.
  replace (regs s REG_PC + sign16 (w / 64 mod 65536) + 4) with (regs s REG_PC + 4 + sign16 (w / 64 mod 65536)) by lia.
  exact HQ.
Qed.

Lemma wp_branch_if (f : Z -> Z -> bool) w (Q : unit -> stub D B -> Prop) s d' t0 :
  is_u32 w -> t0 = (regs s REG_PC + 4) mod 4294967296 ->
  Q tt (aimed s d' (if f (regs s (w / 134217728)) (regs s (w / 4194304 mod 32))
                    then (regs s REG_PC + 4 + sign16 (w / 64 mod 65536)) mod 4294967296 else t0)) ->
  wp (x ← get_register (IType_a w); y ← get_register (IType_b w); when (f x y) (branch_target w)) Q (aimed s d' t0).
Proof.
  unfold is_u32. intros Hw Ht0 HQ. unfold get_register.
  apply wp_bind, (wp_eq _ _ _ _ _ eq_refl), wp_bind, (wp_eq _ _ _ _ _ eq_refl).
  unfold IType_a, IType_b. rewrite !bits_div by lia.
  change (2 ^ 27) with 134217728. change (2 ^ 22) with 4194304. change (2 ^ 5) with 32.
  rewrite (Z.mod_small (w / 134217728) 32) by (split; [apply Z.div_pos; lia|apply Z.div_lt_upper_bound; lia]).
  change (regs (aimed s d' t0)) with (regs s).
  destruct (f _ _); cbn [when]; [|exact HQ].
  by apply wp_branch_always.
Qed.

(** What the stub aims at, for the instruction word at the program counter. *)
Definition aim (w : Z) (r : Z -> Z) (t : Z) : Prop := stops_at (decode w) r (r REG_PC) t.

Lemma aim_branch w r t0 c (f : Z -> Z -> bool) :
  t0 = (r REG_PC + 4) mod 4294967296 ->
  decode w = Branch c (w / 134217728) (w / 4194304 mod 32) (sign16 (w / 64 mod 65536)) ->
  (forall a b, f (r a) (r b) = holds c (r a) (r b)) ->
  aim w r (if f (r (w / 134217728)) (r (w / 4194304 mod 32))
           then (r REG_PC + 4 + sign16 (w / 64 mod 65536)) mod 4294967296 else t0).
Proof.
  intros -> Hd Hf. unfold aim. rewrite Hd, Hf. cbn [stops_at next_pc]. by destruct (holds _ _ _).
Qed.

Lemma aim_straight w r :
  decode w = Straight \/ decode w = Bret \/ decode w = Exception \/ decode w = Jmpi (w / 64) ->
  aim w r ((r REG_PC + 4) mod 4294967296).
Proof. unfold aim. intros [->|[->|[->| ->]]]; done. Qed.

Lemma wp_aim_register r (Q : unit -> stub D B -> Prop) s d' t0 :
  Q tt (aimed s d' (regs s r)) -> wp (t ← get_register r; set_target t) Q (aimed s d' t0).
Proof. done. Qed.

Lemma wp_step_rtype w (Q : unit -> stub D B -> Prop) s d' t0 :
  is_u32 w -> w mod 64 = 58 -> t0 = (regs s REG_PC + 4) mod 4294967296 ->
  (forall t, aim w (regs s) t -> Q tt (aimed s d' t)) -> wp (step_rtype w) Q (aimed s d' t0).
Proof.
  intros Hw E Ht0 HQ. unfold step_rtype. cbv zeta.
  unfold RType_opx, OPX_ERET, OPX_RET, OPX_JMP, OPX_CALLR. rewrite bits_div by lia.
  change (2 ^ 11) with 2048. change (2 ^ 6) with 64.
  destruct (Z.eqb_spec (w / 2048 mod 64) 1) as [E1|M1].
  { apply wp_aim_register, HQ. unfold aim, decode. rewrite E, E1. done. }
  destruct (Z.eqb_spec (w / 2048 mod 64) 5) as [E1|M2].
  { apply wp_aim_register, HQ. unfold aim, decode. rewrite E, E1. done. }
  unfold is_u32 in Hw.
  assert (RType_a w = w / 134217728) as Ha.
  { unfold RType_a. rewrite bits_div by lia. change (2 ^ 27) with 134217728.
    apply Z.mod_small. split; [apply Z.div_pos; lia|apply Z.div_lt_upper_bound; lia]. }
  destruct (Z.eqb_spec (w / 2048 mod 64) 13) as [E1|M3].
  { apply wp_aim_register, HQ. rewrite Ha. unfold aim, decode. rewrite E, E1. done. }
  destruct (Z.eqb_spec (w / 2048 mod 64) 29) as [E1|M4].
  { apply wp_aim_register, HQ. rewrite Ha. unfold aim, decode. rewrite E, E1. done. }
  apply HQ. rewrite Ht0. apply aim_straight. destruct (decode_rtype w) as [|[|]]; auto.
Qed.

(** For every instruction word and all register contents, a single step aims its
    breakpoint at the instruction the processor executes next, by the reference of
    the instruction set: branches taken or not, signed and unsigned, calls, jumps and
    returns.  The exceptions are [jmpi] and [bret], for which it aims at the following
    word.  Memory and registers are as before. *)
Theorem single_step_next (s : stub D B) :
  (forall r, is_u32 (regs s r)) -> regs s REG_PC mod 4 = 0 -> is_u32 (view (hw s) (regs s REG_PC)) ->
  wp __single_step (fun _ s' => exists d' t,
    s' = aimed s d' t /\ seen (hw s) d' /\ aim (view (hw s) (regs s REG_PC)) (regs s) t) s.
Proof.
  intros Hr Hal Hw. unfold __single_step. apply wp_bind, (wp_eq _ _ _ _ _ eq_refl).
  apply wp_bind, wp_modify, wp_bind, wp_load; [done|]. intros d' Hd'.
  change (hw (set_step ?t ?i s)) with (hw s) in *. set (w := view (hw s) (regs s REG_PC)) in *.
  assert (exists t0, t0 = (regs s REG_PC + 4) mod 4294967296) as [t0 Ht0] by eauto.
  change (u32 (regs s REG_PC + 4)) with ((regs s REG_PC + 4) mod 4294967296). rewrite <- Ht0.
  change (set_hw d' (set_step t0 (step_savedInstr s) s)) with (aimed s d' t0).
  unfold RType_op. rewrite bits_div by lia. change (w / 2 ^ 0) with (w / 1). rewrite Z.div_1_r. change (2 ^ 6) with 64.
  cbv zeta.
  assert (forall t, aim w (regs s) t -> exists d'0 t1, aimed s d' t = aimed s d'0 t1 /\ seen (hw s) d'0 /\ aim w (regs s) t1) as Hdone
    by eauto.
  assert (forall r, s32 (regs s r) = signed (regs s r)) as Hsigned by (intros r; by apply s32_signed).
  unfold OP_BEQ, OP_BGE, OP_BGEU, OP_BLT, OP_BLTU, OP_BNE, OP_BR, OP_CALL, OP_RTYPE.
  destruct (Z.eqb_spec (w mod 64) 38) as [E|N1].
  { apply wp_branch_if; [done..|]. apply Hdone, (aim_branch w _ _ Eq); [done|unfold decode; by rewrite E|done]. }
  destruct (Z.eqb_spec (w mod 64) 14) as [E|N2].
  { apply wp_branch_if; [done..|]. apply Hdone, (aim_branch w _ _ Ge (fun x y => s32 x >=? s32 y)); [done|unfold decode; by rewrite E|].
    intros a b. by rewrite !Hsigned, Z.geb_leb. }
  destruct (Z.eqb_spec (w mod 64) 46) as [E|N3].
  { apply wp_branch_if; [done..|]. apply Hdone, (aim_branch w _ _ GeU Z.geb); [done|unfold decode; by rewrite E|].
    intros a b. by rewrite Z.geb_leb. }
  destruct (Z.eqb_spec (w mod 64) 22) as [E|N4].
  { apply wp_branch_if; [done..|]. apply Hdone, (aim_branch w _ _ Lt (fun x y => s32 x <? s32 y)); [done|unfold decode; by rewrite E|].
    intros a b. by rewrite !Hsigned. }
  destruct (Z.eqb_spec (w mod 64) 54) as [E|N5].
  { apply wp_branch_if; [done..|]. apply Hdone, (aim_branch w _ _ LtU); [done|unfold decode; by rewrite E|done]. }
  destruct (Z.eqb_spec (w mod 64) 30) as [E|N6].
  { apply wp_branch_if; [done..|]. apply Hdone, (aim_branch w _ _ Ne (fun x y => negb (x =? y))); [done|unfold decode; by rewrite E|done]. }
  destruct (Z.eqb_spec (w mod 64) 6) as [E|N7].
  { eapply (wp_branch_always w); [done..|]. apply Hdone. unfold aim, decode. rewrite E. done. }
  destruct (Z.eqb_spec (w mod 64) 0) as [E|N8].
  { apply wp_bind, (wp_eq _ _ _ _ _ eq_refl), wp_modify. apply Hdone. unfold JType_imm. rewrite bits_div by lia.
    change (2 ^ 6) with 64. change (2 ^ 26) with 67108864. unfold is_u32 in Hw.
    rewrite Z.mod_small by (split; [apply Z.div_pos; lia|apply Z.div_lt_upper_bound; lia]).
    change (regs (aimed s d' t0)) with (regs s).
    rewrite call_target; [|apply Hr|split; [apply Z.div_pos; lia|apply Z.div_lt_upper_bound; lia]].
    unfold aim, decode. rewrite E. done. }
  destruct (Z.eqb_spec (w mod 64) 58) as [E|N9].
  2: { apply Hdone. rewrite Ht0. apply aim_straight. rewrite decode_straight by done. case_match; auto. }
  by apply wp_step_rtype.
Qed.
End Step.

(** * Theorems about the breakpoints of the debugger stub

    What the processor executes once breakpoints are installed, and what is left
    of them after they are cleared, through both caches. *)

(** ** The list of breakpoints

    The generic stub writes the breakpoint instruction at the addresses of its list,
    keeping the words, and puts them back; it leaves the caches to its caller. *)
Class GenericLaws (D B : Type) {cache : CacheHw D} {laws : CacheLaws D} {generic : GenericStub D B} := {
  listed : B -> list Z;
  saved : B -> Z -> option Z;
  install_law b d a :
    view (install_breakpoint_list b d).2 a = (if bool_decide (a ∈ listed b) then break_opcode else view d a) /\
    saved (install_breakpoint_list b d).1 a = (if bool_decide (a ∈ listed b) then Some (view d a) else None);
  install_cached b d l : cached (install_breakpoint_list b d).2 l -> cached d l;
  clear_law b d a : view (clear_breakpoint_list b d).2 a = default (view d a) (saved b a);
}.

Section Breakpoints.
Context {D B : Type} {cache : CacheHw D} {generic : GenericStub D B} {laws : CacheLaws D} {glaws : GenericLaws D B}.
Context (fuel : nat) (Hdsets : dsets <= Z.of_nat fuel) (Hisets : isets <= Z.of_nat fuel).

Implicit Types s : stub D B.

(** Nothing is cached: the processor executes what loads see. *)
Definition synced (d : D) : Prop := (forall l, ~ dirty d l) /\ (forall l, ~ cached d l).

Lemma synced_coherent d a : synced d -> iview d a = view d a.
Proof. intros [Hd Hc]. apply coherent; [apply Hc|apply Hd]. Qed.

Lemma wp_dsync (Q : unit -> stub D B -> Prop) s :
  (forall d', view d' = view (hw s) -> (forall l, cached d' l -> cached (hw s) l) -> (forall l, ~ dirty d' l) -> Q tt (set_hw d' s)) ->
  wp (lift (HAL_DCACHE_SYNC fuel)) Q s.
Proof.
  intros HQ. apply wp_lift. eapply wp_mono; [by apply dcache_sync_cleans|].
  intros [] d' (Hv & Hc & Hd). apply HQ; [done| |done]. intros l. by rewrite Hc.
Qed.

Lemma wp_isync (Q : unit -> stub D B -> Prop) s :
  (forall d', view d' = view (hw s) -> (forall l, dirty d' l -> dirty (hw s) l) -> (forall l, ~ cached d' l) -> Q tt (set_hw d' s)) ->
  wp (lift (HAL_ICACHE_SYNC fuel)) Q s.
Proof.
  intros HQ. apply wp_lift. eapply wp_mono; [by apply icache_sync_empties|].
  intros [] d' (Hv & Hd & Hc). apply HQ; [done| |done]. intros l. by rewrite Hd.
Qed.

(** Both, as the stub does after a write, and what follows. *)
Lemma wp_sync {A} (m : unit -> M (stub D B) A) (Q : A -> stub D B -> Prop) s :
  (forall d', view d' = view (hw s) -> synced d' -> wp (m tt) Q (set_hw d' s)) ->
  wp (lift (HAL_DCACHE_SYNC fuel);; lift (HAL_ICACHE_SYNC fuel) ≫= m) Q s.
Proof.
  intros HQ. apply wp_bind, wp_dsync. intros d1 Hv1 _ Hd1. apply wp_bind, wp_isync. intros d2 Hv2 Hd2 Hc2.
  change (set_hw d2 (set_hw d1 s)) with (set_hw d2 s). cbn [hw set_hw] in *.
  apply HQ; [congruence|]. split; [|done]. intros l Hl. by apply (Hd1 l), Hd2.
Qed.

Lemma wp_sync_end (Q : unit -> stub D B -> Prop) s :
  (forall d', view d' = view (hw s) -> synced d' -> Q tt (set_hw d' s)) ->
  wp (lift (HAL_DCACHE_SYNC fuel);; lift (HAL_ICACHE_SYNC fuel)) Q s.
Proof.
  intros HQ. pose proof (wp_sync (fun _ => mret tt) Q s HQ) as H.
  unfold wp, mbind, M_bind in *. destruct (lift (HAL_DCACHE_SYNC fuel) s) as [[[] s1]| |]; [|done..].
  by destruct (lift (HAL_ICACHE_SYNC fuel) s1) as [[[] s2]| |].
Qed.

(** ** Stepping *)

(** The addresses where the stub puts breakpoints: the target of a step, 0 for none, and
    those of the list. *)
Definition planted (t : Z) (b : B) (a : Z) : Prop := (t <> 0 /\ a = t) \/ a ∈ listed b.

#[export] Instance planted_dec t b a : Decision (planted t b a).
Proof. unfold planted. apply _. Defined.

(** [s2] is a state in which the stub finds its own data as [s1] left it. *)
Definition same_step s1 s2 : Prop :=
  list_state s2 = list_state s1 /\ step_targetAddr s2 = step_targetAddr s1 /\ step_savedInstr s2 = step_savedInstr s1.

(** What clearing the breakpoints does to memory: the words of [m] come back where they
    were planted. *)
Definition cleared (t : Z) (b : B) (m : Z -> Z) s1 : Prop := forall s2, same_step s1 s2 ->
  wp (__clear_breakpoints;; __clear_single_step) (fun _ s3 =>
    step_targetAddr s3 = 0 /\ regs s3 = regs s2 /\
    forall a, view (hw s3) a = if decide (planted t b a) then m a else view (hw s2) a) s2.

Lemma wp_clear s s1 d1 i t :
  t = step_targetAddr s -> t mod 4 = 0 ->
  (t <> 0 -> i = view (hw s) t) ->
  (forall a, view d1 a = if decide (t <> 0 /\ a = t) then break_opcode else view (hw s) a) ->
  list_state s1 = (install_breakpoint_list (list_state s) d1).1 -> step_targetAddr s1 = t -> step_savedInstr s1 = i ->
  cleared (step_targetAddr s) (list_state s) (view (hw s)) s1.
Proof.
  intros -> Hal Hi Hv Hl Htt Hii s2 (Hl2 & Ht2 & Hi2). rewrite Hl in Hl2. rewrite Htt in Ht2. rewrite Hii in Hi2.
  unfold __clear_breakpoints, __clear_single_step.
  apply wp_bind, wp_modify, wp_bind, (wp_eq _ _ _ _ _ eq_refl), wp_bind, (wp_eq _ _ _ _ _ eq_refl).
  cbn [set_list step_targetAddr step_savedInstr]. rewrite Ht2, Hi2.
  set (d2 := (clear_breakpoint_list (list_state s2) (hw s2)).2).
  assert (forall a, view d2 a = if bool_decide (a ∈ listed (list_state s)) then view d1 a else view (hw s2) a) as Hd2.
  { intros a. subst d2. rewrite clear_law, Hl2. destruct (install_law (list_state s) d1 a) as [_ ->]. by case_bool_decide. }
  apply wp_bind, wp_when; intros Hc; unfold ctrue in Hc.
  - assert (step_targetAddr s <> 0) as Hnz by (intros E; by rewrite E in Hc).
    apply wp_bind, wp_store; [done|]. apply wp_modify, wp_modify. cbn. split_and!; [done|done|].
    intros a. fold d2. destruct (st_law (step_targetAddr s) i d2) as (-> & _).
    destruct (decide (a = step_targetAddr s)) as [->|Hne].
    + rewrite fn_lookup_insert, decide_True by (unfold planted; tauto). by apply Hi.
    + rewrite fn_lookup_insert_ne, Hd2, Hv by done. rewrite (decide_False (P := _ /\ a = _)) by tauto.
      case_bool_decide; [by rewrite decide_True by (unfold planted; tauto)|by rewrite decide_False by (unfold planted; tauto)].
  - assert (step_targetAddr s = 0) as Hz by (apply negb_false_iff, Z.eqb_eq in Hc; done).
    apply wp_modify. cbn. split_and!; [congruence|done|]. intros a. fold d2. rewrite Hd2, Hv, (decide_False (P := _ /\ a = _)) by tauto.
    case_bool_decide; [by rewrite decide_True by (unfold planted; tauto)|by rewrite decide_False by (unfold planted; tauto)].
Qed.

(** Installing the breakpoints, with a step aimed or without: the processor will execute
    the breakpoint instruction exactly at the planted addresses, and clearing them,
    whatever has happened to memory and registers meanwhile, gives the words back. *)
Theorem install_plants s :
  step_targetAddr s mod 4 = 0 ->
  wp (__install_breakpoints fuel) (fun _ s1 =>
    regs s1 = regs s /\ step_targetAddr s1 = step_targetAddr s /\
    (forall a, iview (hw s1) a = if decide (planted (step_targetAddr s) (list_state s) a) then break_opcode else view (hw s) a) /\
    cleared (step_targetAddr s) (list_state s) (view (hw s)) s1) s.
Proof.
  intros Hal. unfold __install_breakpoints. apply wp_bind, (wp_eq _ _ _ _ _ eq_refl).
  apply wp_bind.
  assert (forall s0 d1 i, s0 = set_step (step_targetAddr s) i (set_hw d1 s) ->
    (step_targetAddr s <> 0 -> i = view (hw s) (step_targetAddr s)) ->
    (forall a, view d1 a = if decide (step_targetAddr s <> 0 /\ a = step_targetAddr s) then break_opcode else view (hw s) a) ->
    wp (lift (HAL_ICACHE_SYNC fuel);; modify (fun s => set_list (install_breakpoint_list (list_state s) (hw s)) s);;
        lift (HAL_DCACHE_SYNC fuel)) (fun _ s1 => regs s1 = regs s /\ step_targetAddr s1 = step_targetAddr s /\
      (forall a, iview (hw s1) a = if decide (planted (step_targetAddr s) (list_state s) a) then break_opcode else view (hw s) a) /\
      cleared (step_targetAddr s) (list_state s) (view (hw s)) s1) s0) as Hrest.
  { intros s0 d1 i -> Hi Hv. apply wp_bind, wp_isync. intros d2 Hv2 _ Hc2. apply wp_bind, wp_modify, wp_dsync.
    cbn [set_list set_hw set_step list_state hw]. intros d3 Hv3 Hc3 Hd3. cbn [hw regs step_targetAddr set_hw set_step].
    split; [done|]. split; [done|]. split.
    - intros a. rewrite synced_coherent, Hv3.
      + destruct (install_law (list_state s) d2 a) as [-> _]. rewrite Hv2. cbn [hw set_hw set_step]. rewrite Hv. unfold planted.
        repeat (case_bool_decide || case_decide); tauto.
      + split; [done|]. intros l Hl. by eapply (Hc2 l), install_cached, Hc3.
    - eapply (wp_clear s _ d2 i); try done. intros a. rewrite Hv2. apply Hv. }
  apply wp_when; intros Hc.
  - assert (step_targetAddr s <> 0) as Hnz by (intros E; by rewrite E in Hc).
    apply wp_bind, wp_load; [done|]. intros d' (Hv' & _ & _). apply wp_bind, wp_modify, wp_store; [done|].
    eapply (Hrest _ (st (step_targetAddr s) break_opcode d')); [reflexivity|done|]. intros a. destruct (st_law (step_targetAddr s) break_opcode d') as (-> & _).
    rewrite Hv'. destruct (decide (a = step_targetAddr s)) as [->|Hne].
    + by rewrite fn_lookup_insert, decide_True by done.
    + rewrite fn_lookup_insert_ne by done. by rewrite decide_False by tauto.
  - assert (step_targetAddr s = 0) as Hz by (apply negb_false_iff, Z.eqb_eq in Hc; done).
    apply (Hrest s (hw s) (step_savedInstr s)); [by destruct s|done|]. intros a. by rewrite decide_False by tauto.
Qed.

(** C23: a single step of any instruction, as the stub carries it out.  It stops at [t]: the
    instruction that the processor executes next by the reference of the instruction
    set, for branches taken or not, calls, jumps, returns and everything else that goes
    on in sequence; but the following word for [jmpi] and [bret], which the stub does
    not know and whose target is elsewhere, and for those that raise an
    exception.  With [t] aligned: after the step is aimed and the breakpoints are
    installed, the processor executes the program's words but the breakpoint
    instruction at [t] and at the listed addresses, with caches in whatever state at
    the start; and after they are cleared these addresses hold their words again,
    whatever else has changed meanwhile. *)
Theorem single_step_cycle s t :
  (forall r, is_u32 (regs s r)) -> regs s REG_PC mod 4 = 0 -> is_u32 (view (hw s) (regs s REG_PC)) ->
  stops_at (decode (view (hw s) (regs s REG_PC))) (regs s) (regs s REG_PC) t ->
  t mod 4 = 0 ->
  wp (__single_step;; __install_breakpoints fuel) (fun _ s1 =>
    regs s1 = regs s /\
    (forall a, iview (hw s1) a = if decide (planted t (list_state s) a) then break_opcode else view (hw s) a) /\
    cleared t (list_state s) (view (hw s)) s1) s.
Proof.
  intros Hr Hal Hw Ht Ht4. apply wp_bind. eapply wp_mono; [by apply single_step_next|].
  intros _ s' (d' & t' & -> & (Hv & _ & _) & Haim). rewrite (stops_at_unique _ _ _ _ _ Haim Ht) in *.
  eapply wp_mono; [by apply install_plants|].
  intros _ s1 (Hreg & _ & Hi & Hc). cbn [hw aimed set_step set_hw regs step_targetAddr list_state] in *. rewrite Hv in *.
  by split_and!.
Qed.

(** ** The breakpoint of a debug channel *)

Lemma wp_install_async epc (Q : unit -> stub D B -> Prop) s :
  epc mod 4 = 0 -> breakinst mod 4 = 0 ->
  (forall d', view d' = <[epc := view (hw s) breakinst]> (view (hw s)) -> synced d' ->
     Q tt (set_async epc (view (hw s) epc) (set_hw d' s))) ->
  wp (install_async_breakpoint fuel epc) Q s.
Proof.
  intros Hal Hb HQ. unfold install_async_breakpoint. apply wp_bind, wp_modify, wp_bind, wp_load; [done|].
  intros d1 (Hv1 & _ & _). apply wp_bind, wp_modify, wp_bind, wp_load; [done|]. intros d2 (Hv2 & _ & _).
  apply wp_bind, wp_store; [done|]. apply wp_sync_end. intros d3 Hv3 Hs3. cbn in Hv1, Hv2, Hv3.
  apply HQ; [|done]. rewrite Hv3. destruct (st_law epc (view d1 breakinst) d2) as (-> & _). by rewrite Hv2, Hv1.
Qed.

Lemma wp_computeSignal trap (Q : Z -> stub D B -> Prop) s :
  async_targetAddr s <> 0 -> async_targetAddr s mod 4 = 0 ->
  (forall d', view d' = <[async_targetAddr s := async_savedInstr s]> (view (hw s)) -> synced d' ->
     Q SIGINT (set_async 0 (async_savedInstr s) (set_hw d' s))) ->
  wp (__computeSignal fuel trap) Q s.
Proof.
  intros Hnz Hal HQ. unfold __computeSignal. apply wp_bind, (wp_eq _ _ _ _ _ eq_refl).
  unfold ctrue. rewrite (proj2 (Z.eqb_neq _ 0)) by done. cbn [negb].
  apply wp_bind, (wp_eq _ _ _ _ _ eq_refl), wp_bind, wp_store; [done|].
  apply (wp_sync (fun _ => modify (fun s0 => set_async 0 (async_savedInstr s0) s0);; mret SIGINT)).
  intros d4 Hv4 Hs4. apply wp_bind, wp_modify, wp_ret. apply HQ; [|done]. rewrite Hv4. cbn.
  by destruct (st_law (async_targetAddr s) (async_savedInstr s) (hw s)) as (-> & _).
Qed.

(** Installed at [epc]: the processor executes the instruction of [_breakinst] there.
    When the trap is taken the word is put back and the signal is that of an
    interrupt; later traps are breakpoints. *)
Theorem async_breakpoint_cycle trap epc s :
  epc <> 0 -> epc mod 4 = 0 -> breakinst mod 4 = 0 ->
  wp (install_async_breakpoint fuel epc) (fun _ s1 =>
    (forall a, iview (hw s1) a = if decide (a = epc) then view (hw s) breakinst else view (hw s) a) /\
    forall s2, async_targetAddr s2 = async_targetAddr s1 -> async_savedInstr s2 = async_savedInstr s1 ->
      wp (__computeSignal fuel trap) (fun r s3 =>
        r = SIGINT /\ wp (__computeSignal fuel trap) (fun r _ => r = SIGTRAP) s3 /\
        forall a, iview (hw s3) a = if decide (a = epc) then view (hw s) epc else view (hw s2) a) s2) s.
Proof.
  intros Hnz Hal Hb. apply wp_install_async; [done..|]. intros d1 Hv1 Hs1. cbn. split.
  - intros a. rewrite synced_coherent, Hv1 by done.
    case_decide as E; [subst; by rewrite fn_lookup_insert|by rewrite fn_lookup_insert_ne by done].
  - intros s2 Ht Hi. apply wp_computeSignal; rewrite ?Ht; [done..|]. intros d2 Hv2 Hs2. cbn.
    split_and!; [done|done|]. intros a. rewrite synced_coherent, Hv2, Hi by done.
    case_decide as E; [subst; by rewrite fn_lookup_insert|by rewrite fn_lookup_insert_ne by done].
Qed.

(** A second one before the first trap is taken: the word at the first address is lost,
    whether the second address is another one or the same. *)
Theorem async_twice_lost trap epc1 epc2 s :
  epc2 <> 0 -> epc1 mod 4 = 0 -> epc2 mod 4 = 0 -> breakinst mod 4 = 0 ->
  epc1 <> breakinst -> epc2 <> breakinst ->
  wp (install_async_breakpoint fuel epc1;; install_async_breakpoint fuel epc2;; __computeSignal fuel trap)
    (fun r s3 => r = SIGINT /\ async_targetAddr s3 = 0 /\ view (hw s3) epc1 = view (hw s) breakinst) s.
Proof.
  intros Hnz H1 H2 Hb Hn1 Hn2. apply wp_bind, wp_install_async; [done..|]. intros d1 Hv1 _.
  apply wp_bind, wp_install_async; [done..|]. intros d2 Hv2 _. apply wp_computeSignal; [done..|].
  intros d3 Hv3 _. cbn in *. split_and!; [done|done|]. rewrite Hv3, Hv2, Hv1.
  destruct (decide (epc1 = epc2)) as [->|Hne].
  - by rewrite !fn_lookup_insert.
  - rewrite !(fn_lookup_insert_ne _ _ epc1) by done. by rewrite fn_lookup_insert.
Qed.

End Breakpoints.

(** ** A list of breakpoints, and a step *)

Module List_.

(** The addresses, and the words kept while they are installed. *)
Definition t : Type := list Z * list (Z * Z).

#[export] Instance list_stub : GenericStub sim t := {
  install_breakpoint_list b d :=
    ((b.1, map (fun a => (a, s_view d a)) b.1), fold_right (fun a d => sim_store a 3893306 d) d b.1);
  clear_breakpoint_list b d := (b, fold_right (fun p d => sim_store p.1 p.2 d) d b.2);
  break_opcode := 3893306;
  breakinst := 8192;
  SIGINT := 2;
  SIGTRAP := 5;
}.

Lemma view_store a v d : s_view (sim_store a v d) = <[a := v]> (s_view d).
Proof. unfold sim_store. by case_bool_decide. Qed.

#[export, refine] Instance list_laws : GenericLaws sim t := {
  listed b := b.1;
  saved b a := fold_right (fun p r => if a =? p.1 then Some p.2 else r) None b.2;
}.
Proof.
  - intros [l w] d a. cbn. clear w. split.
    + induction l as [|x l IH]; [done|]. cbn [fold_right]. rewrite view_store. destruct (decide (x = a)) as [->|Hne].
      * rewrite fn_lookup_insert. rewrite bool_decide_eq_true_2; [done|]. rewrite elem_of_cons. by left.
      * rewrite fn_lookup_insert_ne, IH by done. by rewrite (bool_decide_ext _ (a ∈ x :: l)) by (rewrite elem_of_cons; intuition congruence).
    + induction l as [|x l IH]; [done|]. cbn. destruct (Z.eqb_spec a x) as [->|Hne].
      * rewrite bool_decide_eq_true_2; [done|]. rewrite elem_of_cons. by left.
      * rewrite IH. by rewrite (bool_decide_ext _ (a ∈ x :: l)) by (rewrite elem_of_cons; intuition congruence).
  - intros [l w] d x. cbn. clear w. induction l as [|y l IH]; [done|]. cbn. intros Hx. apply IH.
    unfold sim_store in Hx. by case_bool_decide.
  - intros [l w] d a. cbn. induction w as [|p w IH]; [done|]. cbn [fold_right snd]. rewrite view_store.
    destruct (Z.eqb_spec a p.1) as [->|Hne]; [by rewrite fn_lookup_insert|]. by rewrite fn_lookup_insert_ne by done.
Defined.

End List_.

Import List_.

(** At address 4096 there is [w], and the registers are 5. *)
Definition at_instr (w : Z) : stub sim List_.t :=
  mkStub (mkSim (fun a => if a =? 4096 then w else 0) (fun a => a) [3] (fun a => a) [128]) ([4200], [])
    (fun r => if r =? REG_PC then 4096 else 5) 0 0 0 0.

(** [beq r1, r2, 8]. *)
Definition at_branch : stub sim List_.t := at_instr 142606886.

Lemma single_step_cycle_witness :
  wp (__single_step;; __install_breakpoints 128) (fun _ s1 =>
    regs s1 = regs at_branch /\
    (forall a, iview (hw s1) a = if decide (planted 4108 (list_state at_branch) a) then break_opcode (D := sim) (B := List_.t) else view (hw at_branch) a) /\
    cleared 4108 (list_state at_branch) (view (hw at_branch)) s1) at_branch.
Proof.
  apply (single_step_cycle 128).
  1, 2: vm_compute; discriminate.
  - intros r. cbn. destruct (r =? REG_PC); split; lia.
  - reflexivity.
  - vm_compute. split; [discriminate|reflexivity].
  - reflexivity.
  - reflexivity.
Defined.

(** [jmpi 8192] goes on at 8192, and the stub stops at 4100. *)
Example jmpi_missed :
  let s := at_instr (64 * 2048 + 1) in
  next_pc (decode (view (hw s) 4096)) (regs s) 4096 = Some 8192 /\
  match __single_step s with Ret (_, s') => step_targetAddr s' = 4100 | _ => False end.
Proof. by vm_compute. Qed.
