(* ===== verification/Arch.v ===== *)
(** * Registers, contexts and interrupts (packages/hal/nios2/arch: hal_arch.h, hal_intr.h, hal_intr.c)

    The macros that move registers between a saved context and the array of the debugger,
    that make the first context of a thread, and that keep the tables and the
    registers of the interrupts. *)

From stdpp Require Import list.
From stdpp Require Import list functions.
From S2P Require Import Prelude.

(** ** Saved registers *)

Record HAL_SavedRegisters := mkRegs {
  pc : Z;
  fp : Z;
  d_high : list Z;  (* 8 *)
  status : Z;
  reg_arg0 : Z;
  estatus : Z;
  ea : Z;
  et : Z;
  gp : Z;
  d_low : list Z;   (* 15 *)
  ra : Z;
  sp : Z;
  ipending : Z;
  ienable : Z;
}.

(** Its size in bytes. *)
Definition sizeof_SavedRegisters : Z := 4 * (2 + 8 + 6 + 15 + 4).

(** The lengths of the arrays. *)
Definition regs_ok (r : HAL_SavedRegisters) : Prop := length (d_high r) = 8%nat /\ length (d_low r) = 15%nat.

(** [for (i = a; i < b; i++)], as the indices [seq a (b - a)]. *)
Definition HAL_GET_GDB_REGISTERS (v : list Z) (r : HAL_SavedRegisters) : list Z :=
  let v := <[0%nat := 0]> v in
  let v := fold_left (fun v i => <[i := d_low r !!! (i - 1)%nat]> v) (seq 1 15) v in
  let v := fold_left (fun v i => <[i := d_high r !!! (i - 16)%nat]> v) (seq 16 8) v in
  let v := <[24%nat := et r]> v in
  let v := <[25%nat := 2989]> v in
  let v := <[26%nat := gp r]> v in
  let v := <[27%nat := sp r]> v in
  let v := <[28%nat := fp r]> v in
  let v := <[29%nat := ea r]> v in
  let v := <[30%nat := 2989]> v in
  let v := <[31%nat := ra r]> v in
  let v := <[32%nat := pc r]> v in
  let v := <[33%nat := status r]> v in
  let v := <[34%nat := estatus r]> v in
  let v := <[35%nat := 2989]> v in
  let v := <[36%nat := ienable r]> v in
  <[37%nat := ipending r]> v.

Definition HAL_SET_GDB_REGISTERS (r : HAL_SavedRegisters) (v : list Z) : HAL_SavedRegisters :=
  let low := fold_left (fun l i => <[(i - 1)%nat := v !!! i]> l) (seq 1 15) (d_low r) in
  let high := fold_left (fun l i => <[(i - 16)%nat := v !!! i]> l) (seq 16 8) (d_high r) in
  mkRegs (v !!! 32%nat) (v !!! 28%nat) high (status r) (v !!! 4%nat) (estatus r) (ea r) (et r)
    (v !!! 26%nat) low (v !!! 31%nat) (v !!! 27%nat) (ipending r) (ienable r).

(** ** The first context of a thread

    The result: the new stack pointer, which is the address of the registers, and the
    registers; [old] is what the stack held there, [gp0] the global pointer. *)
Definition HAL_THREAD_INIT_CONTEXT (sparg thread entry gp0 : Z) (old : HAL_SavedRegisters) : Z * HAL_SavedRegisters :=
  let sp := u32 (sparg - 56) in
  let sp := Z.land sp 4294967280 in
  let regs := Z.land (u32 (sp - sizeof_SavedRegisters)) 4294967280 in
  (regs, mkRegs entry sp (d_high old) 1 thread (estatus old) (ea old) (et old) gp0
           (<[3%nat := thread]> (d_low old)) (ra old) sp (ipending old) (ienable old)).

(** ** Interrupts *)

Definition CYGNUM_HAL_ISR_COUNT : Z := 32.

Definition CYGNUM_HAL_VSR_COUNT : Z := 2.

(** The tables hold addresses; [s_status] and [s_ienable] are control registers. *)
Record intr := mkIntr {
  hal_interrupt_handlers : list Z;
  hal_interrupt_data : list Z;
  hal_interrupt_objects : list Z;
  hal_vsr_table : list Z;
  s_status : Z;
  s_ienable : Z;
}.

Definition set_tables (h d o : list Z) (s : intr) : intr := mkIntr h d o (hal_vsr_table s) (s_status s) (s_ienable s).

Definition set_vsr (v : list Z) (s : intr) : intr :=
  mkIntr (hal_interrupt_handlers s) (hal_interrupt_data s) (hal_interrupt_objects s) v (s_status s) (s_ienable s).

Definition set_status (v : Z) (s : intr) : intr :=
  mkIntr (hal_interrupt_handlers s) (hal_interrupt_data s) (hal_interrupt_objects s) (hal_vsr_table s) v (s_ienable s).

Definition set_ienable (v : Z) (s : intr) : intr :=
  mkIntr (hal_interrupt_handlers s) (hal_interrupt_data s) (hal_interrupt_objects s) (hal_vsr_table s) (s_status s) v.

Section Interrupts.
(** The address of the default routine. *)
Variable HAL_DEFAULT_ISR : Z.

(** All handlers are the default one, and the rest is zero; [vsr] and the control
    registers are what the start-up code left. *)
Definition hal_intr_tables (vsr : list Z) (st en : Z) : intr :=
  mkIntr (replicate 32 HAL_DEFAULT_ISR) (replicate 32 0) (replicate 32 0) vsr st en.

(** An entry of a table, which must be one. *)
Definition entry (f : intr -> list Z) (v : Z) : M intr Z :=
  s ← get;
  if (0 <=? v) && (v <? Z.of_nat (length (f s))) then mret (f s !!! Z.to_nat v) else undef.

Definition HAL_INTERRUPT_IN_USE (vector : Z) : M intr Z :=
  h ← entry hal_interrupt_handlers vector;
  mret (if h =? HAL_DEFAULT_ISR then 0 else 1).

(** The three tables at one index. *)
Definition put_entries (v h d o : Z) (s : intr) : intr :=
  set_tables (<[Z.to_nat v := h]> (hal_interrupt_handlers s)) (<[Z.to_nat v := d]> (hal_interrupt_data s))
    (<[Z.to_nat v := o]> (hal_interrupt_objects s)) s.

Definition HAL_INTERRUPT_ATTACH (vector isr data object : Z) : M intr unit :=
  h ← entry hal_interrupt_handlers vector;
  when (h =? HAL_DEFAULT_ISR) (modify (put_entries vector isr data object)).

Definition HAL_INTERRUPT_DETACH (vector isr : Z) : M intr unit :=
  h ← entry hal_interrupt_handlers vector;
  when (h =? isr) (modify (put_entries vector HAL_DEFAULT_ISR 0 0)).

Definition HAL_VSR_GET (vector : Z) : M intr Z := entry hal_vsr_table vector.

(** The result is the old one, for the caller who asks for it. *)
Definition HAL_VSR_SET (vector vsr : Z) : M intr Z :=
  old ← entry hal_vsr_table vector;
  modify (fun s => set_vsr (<[Z.to_nat vector := vsr]> (hal_vsr_table s)) s);;
  mret old.

(** The routines of eCos for the interrupt and the breakpoint vector, and for the others. *)
Definition HAL_VSR_SET_TO_ECOS_HANDLER (interrupt_vsr break_vsr exception_vsr vector : Z) : M intr Z :=
  HAL_VSR_SET vector (if vector =? 1 then interrupt_vsr else if vector =? 0 then break_vsr else exception_vsr).

(** [monitor]: a ROM monitor keeps the vector of exceptions. *)
Definition hal_platform_init (monitor : bool) (software_exception_handler interrupt_handler : Z) : M intr unit :=
  unless monitor (HAL_VSR_SET 0 software_exception_handler;; mret tt);;
  HAL_VSR_SET 1 interrupt_handler;;
  mret tt.

Definition HAL_DISABLE_INTERRUPTS : M intr Z :=
  old ← gets s_status; modify (set_status 0);; mret old.

Definition HAL_ENABLE_INTERRUPTS : M intr unit := modify (set_status 1).

Definition HAL_RESTORE_INTERRUPTS (old : Z) : M intr unit := modify (set_status old).

Definition HAL_QUERY_INTERRUPTS : M intr Z := gets s_status.

Definition HAL_INTERRUPT_MASK (vector : Z) : M intr unit :=
  a ← gets s_ienable;
  modify (set_ienable (Z.land a (u32 (Z.lnot (Z.shiftl 1 vector))))).

Definition HAL_INTERRUPT_UNMASK (vector : Z) : M intr unit :=
  a ← gets s_ienable;
  modify (set_ienable (Z.lor a (u32 (Z.shiftl 1 vector)))).

End Interrupts.

(** * Theorems about registers, contexts and interrupts *)

(** ** The debugger's registers *)

(** Takes a list apart whose length is known. *)
Ltac explode l H :=
  lazymatch type of H with
  | length l = O => destruct l; [clear H|discriminate H]
  | length l = S _ => let x := fresh "x" in let l' := fresh "l" in
      destruct l as [|x l']; [discriminate H|cbn [length] in H; apply eq_add_S in H; explode l' H]
  end.

(** The registers the debugger can change. *)
Definition writable (i : nat) : bool :=
  bool_decide (1 <= i <= 23)%nat || bool_decide (i ∈ [26; 27; 28; 31; 32]%nat).

(** The saved context with the first argument register repeated where it belongs. *)
Definition with_arg0 (r : HAL_SavedRegisters) : HAL_SavedRegisters :=
  mkRegs (pc r) (fp r) (d_high r) (status r) (d_low r !!! 3%nat) (estatus r) (ea r) (et r) (gp r) (d_low r) (ra r) (sp r)
    (ipending r) (ienable r).

(** Reading the registers for the debugger and writing them back unchanged gives the
    saved context back, with its copy of the first argument brought in line; and
    after the debugger's values are written they are what is read again, for the general
    registers but the exception temporaries, for the return address, the stack, frame and
    global pointers and the program counter, while register 0 reads 0 and
    the others keep their values. *)
Theorem gdb_registers_roundtrip r v a :
  regs_ok r -> length v = 38%nat -> length a = 38%nat ->
  HAL_SET_GDB_REGISTERS r (HAL_GET_GDB_REGISTERS v r) = with_arg0 r /\
  forall i, (i < 38)%nat ->
    HAL_GET_GDB_REGISTERS v (HAL_SET_GDB_REGISTERS r a) !!! i =
      if writable i then a !!! i else HAL_GET_GDB_REGISTERS v r !!! i.
Proof.
  intros [Hh Hl] Hv Ha. destruct r as [? ? dh ? ? ? ? ? ? dl ? ? ? ?]. cbn in Hh, Hl.
  explode dh Hh. explode dl Hl. explode v Hv. explode a Ha. split; [reflexivity|].
  intros i Hi. do 38 (destruct i as [|i]; [reflexivity|]). lia.
Qed.

(** ** Contexts *)

Lemma land_16 x : is_u32 x -> Z.land x 4294967280 = x - x mod 16.
Proof.
  intros Hx. unfold is_u32 in Hx. rewrite (Z.div_mod x 16) at 2 by lia.
  replace (16 * (x / 16) + x mod 16 - x mod 16) with (x / 2 ^ 4 * 2 ^ 4) by (change (2 ^ 4) with 16; lia).
  rewrite <- Z.shiftr_div_pow2, <- Z.shiftl_mul_pow2 by lia. apply Z.bits_inj'. intros j Hj.
  change 4294967280 with (Z.shiftl (Z.ones 28) 4). rewrite Z.land_spec, !Z.shiftl_spec by lia.
  destruct (Z.lt_ge_cases j 4) as [Hlt|Hge].
  - rewrite !(Z.testbit_neg_r _ (j - 4)) by lia. apply andb_false_r.
  - rewrite Z.testbit_ones_nonneg, Z.shiftr_spec by lia. replace (j - 4 + 4) with j by lia.
    destruct (Z.ltb_spec (j - 4) 28); [apply andb_true_r|]. rewrite (small_bits x 32) by lia. done.
Qed.

(** The first context of a thread: its frame is aligned to 16 bytes and lies below
    the initial stack pointer of the thread, which is aligned and at least 56 bytes below
    the top of the stack; at most 226 bytes are used.  The thread starts at its entry
    point with interrupts on, and finds its argument in register 4 and in the copy. *)
Theorem init_context_frame sparg thread start gp0 old :
  is_u32 sparg -> 226 <= sparg -> regs_ok old ->
  let '(regs, r) := HAL_THREAD_INIT_CONTEXT sparg thread start gp0 old in
  regs mod 16 = 0 /\ sp r mod 16 = 0 /\ regs + sizeof_SavedRegisters <= sp r <= sparg - 56 /\ sparg - 226 <= regs /\
  regs_ok r /\ pc r = start /\ status r = 1 /\ fp r = sp r /\ gp r = gp0 /\
  d_low r !!! 3%nat = thread /\ with_arg0 r = r.
Proof.
  intros Hs Hlo [Hh Hl]. unfold is_u32 in Hs. unfold HAL_THREAD_INIT_CONTEXT, sizeof_SavedRegisters.
  change (4 * (2 + 8 + 6 + 15 + 4)) with 140. cbv zeta.
  rewrite (u32_id (sparg - 56)) by (unfold is_u32; lia). rewrite (land_16 (sparg - 56)) by (unfold is_u32; lia).
  pose proof (Z.mod_pos_bound (sparg - 56) 16). set (top := sparg - 56 - (sparg - 56) mod 16).
  assert (top mod 16 = 0) as Ht.
  { subst top. rewrite Zminus_mod, Z.mod_mod, Z.sub_diag by lia. done. }
  rewrite (u32_id (top - 140)), (land_16 (top - 140)) by (unfold is_u32; lia).
  pose proof (Z.mod_pos_bound (top - 140) 16). cbn [sp pc status fp gp d_low].
  split_and!; try done; try lia.
  - rewrite Zminus_mod, Z.mod_mod, Z.sub_diag by lia. done.
  - split; cbn [d_low d_high]; [done|by rewrite length_insert].
  - apply list_lookup_total_insert_eq. lia.
  - unfold with_arg0. cbn [sp pc status fp gp d_low]. by rewrite list_lookup_total_insert_eq by lia.
Qed.

(** ** Control registers *)

Lemma shiftl_1_bit v i : 0 <= v < 32 -> 0 <= i < 32 -> Z.testbit (u32 (Z.shiftl 1 v)) i = (i =? v).
Proof.
  intros Hv Hi. rewrite uwrap_testbit by lia. rewrite Z.shiftl_1_l, Z.pow2_bits_eqb by lia. apply Z.eqb_sym.
Qed.

(** Masking an interrupt clears its bit and unmasking sets it; the others stay. *)
Theorem mask_bits vector s : 0 <= vector < 32 ->
  wp (HAL_INTERRUPT_MASK vector) (fun _ s' => exists e, s' = set_ienable e s /\
    forall i, 0 <= i < 32 -> Z.testbit e i = Z.testbit (s_ienable s) i && negb (i =? vector)) s /\
  wp (HAL_INTERRUPT_UNMASK vector) (fun _ s' => exists e, s' = set_ienable e s /\
    forall i, 0 <= i < 32 -> Z.testbit e i = Z.testbit (s_ienable s) i || (i =? vector)) s.
Proof.
  intros Hv. split; eexists; (split; [reflexivity|]); intros i Hi.
  - rewrite Z.land_spec, uwrap_testbit, Z.lnot_spec, Z.shiftl_1_l, Z.pow2_bits_eqb, (Z.eqb_sym vector) by lia. done.
  - by rewrite Z.lor_spec, shiftl_1_bit.
Qed.

(** A section with interrupts disabled, around code that leaves them disabled or on, ends
    with the state it began with. *)
Theorem disable_restore {A} (m : M intr A) (Q : intr -> Prop) s :
  wp m (fun _ s' => Q (set_status (s_status s) s')) (set_status 0 s) ->
  wp (old ← HAL_DISABLE_INTERRUPTS; m;; HAL_RESTORE_INTERRUPTS old) (fun _ s' => Q s') s.
Proof. intros H. apply wp_bind, (wp_eq _ _ _ _ _ eq_refl), wp_bind. eapply wp_mono; [exact H|]. done. Qed.

(** ** The interrupt tables as a map

    Specification: a vector has a handler with its data and object, or is free.  An
    attachment succeeds on a free vector only; only the routine that is attached can
    be detached. *)

Inductive table_op :=
| Attach (v isr data object : Z)
| Detach (v isr : Z)
| InUse (v : Z).

Abbreviation table := (Z -> option (Z * Z * Z)).

Definition op_vector (o : table_op) : Z := match o with Attach v _ _ _ => v | Detach v _ => v | InUse v => v end.

(** The new map, and the answer of a question. *)
Definition table_step (o : table_op) (t : table) : table * list Z :=
  match o with
  | Attach v isr d ob => (match t v with None => <[v := Some (isr, d, ob)]> t | Some _ => t end, [])
  | Detach v isr =>
      (match t v with Some (h, _, _) => if h =? isr then <[v := None]> t else t | None => t end, [])
  | InUse v => (t, [match t v with None => 0 | Some _ => 1 end])
  end.

Fixpoint table_run (l : list table_op) (t : table) : table * list Z :=
  match l with
  | [] => (t, [])
  | o :: l => let '(t, a) := table_step o t in let '(t, b) := table_run l t in (t, a ++ b)
  end.

Section Tables.
Variable dflt : Z.

Definition run_op (o : table_op) : M intr (list Z) :=
  match o with
  | Attach v isr d ob => HAL_INTERRUPT_ATTACH dflt v isr d ob;; mret []
  | Detach v isr => HAL_INTERRUPT_DETACH dflt v isr;; mret []
  | InUse v => x ← HAL_INTERRUPT_IN_USE dflt v; mret [x]
  end.

Fixpoint run_ops (l : list table_op) : M intr (list Z) :=
  match l with
  | [] => mret []
  | o :: l => a ← run_op o; b ← run_ops l; mret (a ++ b)
  end.

(** No caller attaches the default routine. *)
Definition op_ok (o : table_op) : Prop :=
  0 <= op_vector o < 32 /\ match o with Attach _ isr _ _ => isr <> dflt | _ => True end.

(** The tables stand for the map: a free vector has the default routine and no data. *)
Definition stands (s : intr) (t : table) : Prop :=
  length (hal_interrupt_handlers s) = 32%nat /\ length (hal_interrupt_data s) = 32%nat /\
  length (hal_interrupt_objects s) = 32%nat /\
  forall v, 0 <= v < 32 ->
    match t v with
    | None => hal_interrupt_handlers s !!! Z.to_nat v = dflt /\ hal_interrupt_data s !!! Z.to_nat v = 0 /\
        hal_interrupt_objects s !!! Z.to_nat v = 0
    | Some (h, d, o) => h <> dflt /\ hal_interrupt_handlers s !!! Z.to_nat v = h /\
        hal_interrupt_data s !!! Z.to_nat v = d /\ hal_interrupt_objects s !!! Z.to_nat v = o
    end.

Lemma wp_entry v (Q : Z -> intr -> Prop) s t :
  stands s t -> 0 <= v < 32 -> Q (hal_interrupt_handlers s !!! Z.to_nat v) s -> wp (entry hal_interrupt_handlers v) Q s.
Proof.
  intros (Hl & _) Hv HQ. unfold entry. apply wp_bind, wp_get.
  rewrite Hl, (proj2 (Z.leb_le _ _)), (proj2 (Z.ltb_lt _ _)) by lia. done.
Qed.

Lemma stands_put s t v x h d o :
  stands s t -> 0 <= v < 32 ->
  match x with None => h = dflt /\ d = 0 /\ o = 0 | Some y => y = (h, d, o) /\ h <> dflt end ->
  stands (put_entries v h d o s) (<[v := x]> t).
Proof.
  intros (L1 & L2 & L3 & Ht) Hv Hx. unfold stands, put_entries. cbn. rewrite !length_insert. split_and!; [done..|].
  intros w Hw. destruct (decide (v = w)) as [->|Hne].
  - rewrite fn_lookup_insert, !list_lookup_total_insert_eq by lia. destruct x as [[[h' d'] o']|]; [|done].
    by destruct Hx as [[= -> -> ->] ?].
  - rewrite fn_lookup_insert_ne, !list_lookup_total_insert_ne by lia. by apply Ht.
Qed.

Lemma run_op_step o s t : op_ok o -> stands s t ->
  wp (run_op o) (fun a s' => stands s' (table_step o t).1 /\ a = (table_step o t).2 /\
    s_status s' = s_status s /\ s_ienable s' = s_ienable s /\ hal_vsr_table s' = hal_vsr_table s) s.
Proof.
  intros [Hv Hok] Hs. pose proof Hs as (_ & _ & _ & Ht). specialize (Ht _ Hv).
  destruct o as [v isr d ob|v isr|v]; cbn [op_vector run_op table_step] in *.
  - unfold HAL_INTERRUPT_ATTACH. apply wp_bind, wp_bind, (wp_entry v _ s t); [done..|].
    destruct (t v) as [[[h d'] o']|].
    + destruct Ht as (Hne & -> & _). rewrite (proj2 (Z.eqb_neq _ _)) by done. done.
    + destruct Ht as (-> & _). rewrite Z.eqb_refl. apply wp_modify, wp_ret. split_and!; [|done..].
      by apply stands_put.
  - unfold HAL_INTERRUPT_DETACH. apply wp_bind, wp_bind, (wp_entry v _ s t); [done..|].
    destruct (t v) as [[[h d'] o']|] eqn:Et.
    + destruct Ht as (Hne & -> & _). destruct (Z.eqb_spec h isr) as [->|]; [|done].
      apply wp_modify, wp_ret. split_and!; [|done..]. by apply stands_put.
    + destruct Ht as (-> & Hd & Ho). destruct (Z.eqb_spec dflt isr) as [<-|]; [|done].
      apply wp_modify, wp_ret. split_and!; [|done..]. destruct (stands_put s t v None dflt 0 0) as (A1 & A2 & A3 & A4); [done..|].
      split_and!; [done..|]. cbn [fst]. intros w Hw. specialize (A4 w Hw). destruct (decide (v = w)) as [->|Hne].
      * rewrite fn_lookup_insert in A4. by rewrite Et.
      * by rewrite fn_lookup_insert_ne in A4.
  - unfold HAL_INTERRUPT_IN_USE. apply wp_bind, wp_bind, (wp_entry v _ s t); [done..|].
    destruct (t v) as [[[h d'] o']|].
    + destruct Ht as (Hne & -> & _). rewrite (proj2 (Z.eqb_neq _ _)) by done. done.
    + destruct Ht as (-> & _). rewrite Z.eqb_refl. done.
Qed.

(** C24: from the initial tables on, for every sequence of attachments, detachments and
    questions about vectors of the table, the answers and the handlers, with
    their data and objects, are those of the map: nobody's handler is replaced or removed
    by somebody else.  The tables have no other effect. *)
Theorem interrupt_tables_refine l vsr st en :
  Forall op_ok l ->
  wp (run_ops l) (fun a s => a = (table_run l (fun _ => None)).2 /\ stands s (table_run l (fun _ => None)).1 /\
    s_status s = st /\ s_ienable s = en /\ hal_vsr_table s = vsr) (hal_intr_tables dflt vsr st en).
Proof.
  intros Hl.
  enough (forall s t, stands s t -> s_status s = st /\ s_ienable s = en /\ hal_vsr_table s = vsr ->
    wp (run_ops l) (fun a s => a = (table_run l t).2 /\ stands s (table_run l t).1 /\
      s_status s = st /\ s_ienable s = en /\ hal_vsr_table s = vsr) s) as H.
  { apply H; [|done]. split_and!; [done..|]. intros v Hv. cbn [hal_intr_tables hal_interrupt_handlers hal_interrupt_data hal_interrupt_objects].
    by rewrite !lookup_total_replicate_2 by lia. }
  induction Hl as [|o l Ho Hl IH]; intros s t Hs Hrest; [done|]. cbn [run_ops table_run].
  apply wp_bind. eapply wp_mono; [by apply run_op_step|]. intros a s' (Hs' & -> & E1 & E2 & E3).
  destruct (table_step o t) as [t' a']. cbn [fst snd] in *. apply wp_bind. eapply wp_mono.
  - apply (IH s' t'); [done|]. destruct Hrest as (<- & <- & <-). by rewrite E1, E2, E3.
  - intros b s'' (-> & Hs'' & Hr). destruct (table_run l t') as [t'' b']. cbn [fst snd] in *. split; [done|]. split; [done|exact Hr].
Qed.

End Tables.

(** The vectors after the start-up code. *)
Theorem platform_init_vectors monitor e i a b s :
  hal_vsr_table s = [a; b] ->
  wp (hal_platform_init monitor e i) (fun _ s' => s' = set_vsr [if monitor then a else e; i] s) s.
Proof. intros H. destruct s. cbn in H. subst. by destruct monitor. Qed.

(** ** Concrete instances *)

Lemma gdb_registers_roundtrip_witness :
  let r := mkRegs 256 28 (map Z.of_nat (seq 16 8)) 1 4 0 29 24 26 (map Z.of_nat (seq 1 15)) 31 27 0 0 in
  let a := map (fun i => 100 + Z.of_nat i) (seq 0 38) in
  let v := replicate 38 0 in
  HAL_SET_GDB_REGISTERS r (HAL_GET_GDB_REGISTERS v r) = with_arg0 r /\
  forall i, (i < 38)%nat ->
    HAL_GET_GDB_REGISTERS v (HAL_SET_GDB_REGISTERS r a) !!! i =
      if writable i then a !!! i else HAL_GET_GDB_REGISTERS v r !!! i.
Proof. intros r a v. apply (gdb_registers_roundtrip r v a); [split|..]; reflexivity. Defined.

(** A routine takes vector 3, another one is refused, and the wrong one cannot detach it. *)
Definition contest : list table_op := [Attach 3 400 1 2; Attach 3 500 5 6; InUse 3; Detach 3 500; InUse 3; Detach 3 400; InUse 3].

Lemma interrupt_tables_refine_witness :
  wp (run_ops 9 contest) (fun a s => a = (table_run contest (fun _ => None)).2 /\
    stands 9 s (table_run contest (fun _ => None)).1 /\
    s_status s = 0 /\ s_ienable s = 0 /\ hal_vsr_table s = [0; 0]) (hal_intr_tables 9 [0; 0] 0 0).
Proof.
  apply (interrupt_tables_refine 9 contest [0; 0] 0 0). unfold contest.
  repeat (apply List.Forall_cons; [split; [cbn; lia|done]|]). apply List.Forall_nil.
Defined.

Example contest_answers : (table_run contest (fun _ => None)).2 = [1; 1; 0].
Proof. reflexivity. Qed.

Lemma init_context_frame_witness :
  let old := mkRegs 0 0 (replicate 8 0) 0 0 0 0 0 0 (replicate 15 0) 0 0 0 0 in
  let '(regs, r) := HAL_THREAD_INIT_CONTEXT 2097159 77 4096 8192 old in
  regs mod 16 = 0 /\ sp r mod 16 = 0 /\ regs + sizeof_SavedRegisters <= sp r <= 2097159 - 56 /\ 2097159 - 226 <= regs /\
  regs_ok r /\ pc r = 4096 /\ status r = 1 /\ fp r = sp r /\ gp r = 8192 /\ d_low r !!! 3%nat = 77 /\ with_arg0 r = r.
Proof. intros old. apply (init_context_frame 2097159 77 4096 8192 old); [unfold is_u32; lia|lia|split; reflexivity]. Defined.
