(* ===== verification/Ocm.v ===== *)
(** * The driver of the OpenCores Ethernet controller for the InterNiche stack
    (eth_ocm/HAL: ins_eth_ocm.c and the headers of inc)

    A second driver of the same controller.  The stack hands it packets and gives it
    buffers; the driver keeps a ring of transmit descriptors, with a queue of the
    packets that own them and a queue of those that wait, and a ring of receive
    descriptors, each with a packet whose buffer it fills.

    As in [Oeth], the controller runs while the driver runs: [env] lists what it
    does before each of the coming loads.  The queues, the pool of packets and the
    interrupt registration belong to the stack and the system library: queues are
    lists, the answers of [pk_alloc] are given as functions of the packets the driver
    holds, other calls are a trace. *)

From stdpp Require Import functions.
From S2P Require Import Prelude.

(** ** Constants *)

Definition ETH_OCM_MODER : Z := 0.
Definition ETH_OCM_INT_SOURCE : Z := 1.
Definition ETH_OCM_INT_MASK : Z := 2.
Definition ETH_OCM_IPGT : Z := 3.
Definition ETH_OCM_IPGR1 : Z := 4.
Definition ETH_OCM_IPGR2 : Z := 5.
Definition ETH_OCM_PACKETLEN : Z := 6.
Definition ETH_OCM_COLLCONF : Z := 7.
Definition ETH_OCM_TX_BD_NUM : Z := 8.
Definition ETH_OCM_CTRLMODER : Z := 9.
Definition ETH_OCM_MIIMODER : Z := 10.
Definition ETH_OCM_MIICOMMAND : Z := 11.
Definition ETH_OCM_MIIADDRESS : Z := 12.
Definition ETH_OCM_MIITX_DATA : Z := 13.
Definition ETH_OCM_MIIRX_DATA : Z := 14.
Definition ETH_OCM_MIISTATUS : Z := 15.
Definition ETH_OCM_MAC_ADDR0 : Z := 16.
Definition ETH_OCM_MAC_ADDR1 : Z := 17.
Definition ETH_OCM_DESC_START : Z := 256.
Definition ETH_OCM_DESC_END : Z := 511.

Definition ETH_OCM_MODER_PAD_MSK : Z := 32768.
Definition ETH_OCM_MODER_CRCEN_MSK : Z := 8192.
Definition ETH_OCM_MODER_FULLD_MSK : Z := 1024.
Definition ETH_OCM_MODER_TXEN_MSK : Z := 2.
Definition ETH_OCM_MODER_RXEN_MSK : Z := 1.

Definition ETH_OCM_INT_MASK_BUSY_MSK : Z := 16.
Definition ETH_OCM_INT_MASK_RXE_MSK : Z := 8.
Definition ETH_OCM_INT_MASK_RXB_MSK : Z := 4.
Definition ETH_OCM_INT_MASK_TXE_MSK : Z := 2.
Definition ETH_OCM_INT_MASK_TXB_MSK : Z := 1.

Definition ETH_OCM_TXDESC_LEN_OFST : Z := 16.
Definition ETH_OCM_TXDESC_READY_MSK : Z := 32768.
Definition ETH_OCM_TXDESC_IRQ_MSK : Z := 16384.
Definition ETH_OCM_TXDESC_WRAP_MSK : Z := 8192.
Definition ETH_OCM_TXDESC_PAD_MSK : Z := 4096.
Definition ETH_OCM_TXDESC_CRC_MSK : Z := 2048.
Definition ETH_OCM_TXDESC_UR_MSK : Z := 256.
Definition ETH_OCM_TXDESC_RL_MSK : Z := 8.
Definition ETH_OCM_TXDESC_LC_MSK : Z := 4.
Definition ETH_OCM_TXDESC_CS_MSK : Z := 1.

Definition ETH_OCM_RXDESC_LEN_MSK : Z := 4294901760.
Definition ETH_OCM_RXDESC_LEN_OFST : Z := 16.
Definition ETH_OCM_RXDESC_EMPTY_MSK : Z := 32768.
Definition ETH_OCM_RXDESC_IRQ_MSK : Z := 16384.
Definition ETH_OCM_RXDESC_WRAP_MSK : Z := 8192.
Definition ETH_OCM_RXDESC_OR_MSK : Z := 64.
Definition ETH_OCM_RXDESC_IS_MSK : Z := 32.
Definition ETH_OCM_RXDESC_DN_MSK : Z := 16.
Definition ETH_OCM_RXDESC_TL_MSK : Z := 8.
Definition ETH_OCM_RXDESC_SF_MSK : Z := 4.
Definition ETH_OCM_RXDESC_CRC_MSK : Z := 2.
Definition ETH_OCM_RXDESC_LC_MSK : Z := 1.

(** The constants of a set of flags. *)
Definition flags (l : list Z) : Z := foldr Z.lor 0 l.

Definition ETH_OCM_RXDESC_ERROR_MSK : Z :=
  flags [ETH_OCM_RXDESC_OR_MSK; ETH_OCM_RXDESC_IS_MSK; ETH_OCM_RXDESC_DN_MSK; ETH_OCM_RXDESC_TL_MSK;
         ETH_OCM_RXDESC_SF_MSK; ETH_OCM_RXDESC_CRC_MSK; ETH_OCM_RXDESC_LC_MSK].

Definition tx_errors : Z :=
  flags [ETH_OCM_TXDESC_UR_MSK; ETH_OCM_TXDESC_RL_MSK; ETH_OCM_TXDESC_LC_MSK; ETH_OCM_TXDESC_CS_MSK].

Definition ETH_OCM_STATUS_DOWN : Z := 2.
Definition ETH_OCM_STATUS_UP : Z := 1.
Definition ETH_OCM_MIN_MTU : Z := 4.
Definition ETH_OCM_MAX_MTU : Z := 1518.
Definition ETH_OCM_FULL_DUPLEX_IPGT : Z := 21.
Definition ETH_OCM_HALF_DUPLEX_IPGT : Z := 18.
Definition ETH_OCM_TRANSMIT_TIMEOUT : Z := 1000000.

(** The return values of the stack and the error codes of the library are theirs, and so
    are the size and the offset of the Ethernet header in a buffer.  The numbers of
    descriptors and the two flags are configuration: synchronous transmission, and the
    macro the interrupt mask looks at. *)
Class OcmConfig := {
  ETH_OCM_TX_DESC_COUNT : Z;
  ETH_OCM_RX_DESC_COUNT : Z;
  ETH_OCM_SYNC_TX : bool;
  ETH_OCM_TX_SYNC : bool;
  ALT_CPU_FREQ : Z;
  ETHHDR_BIAS : Z;
  ETHHDR_SIZE : Z;
  alt_remap_cached : Z -> Z;
  EFBIG : Z;
  EBUSY : Z;
  EIO : Z;
  ETIMEDOUT : Z;
  SUCCESS : Z;
  ENP_RESOURCE : Z;
  ENP_NOBUFFER : Z;
  SEND_DROPPED : Z;
}.

(** ** State *)

(** A packet of the stack. *)
Record PACKET := mkPacket {
  nb_buff : Z;  (* the buffer, which tells packets apart *)
  nb_prot : Z;  (* where the data begins *)
  nb_plen : Z;  (* its length *)
  nb_tstamp : Z;
  p_type : Z  (* of the Ethernet header *)
}.

Definition set_nb_buff (v : Z) (s : PACKET) : PACKET :=
  mkPacket v (nb_prot s) (nb_plen s) (nb_tstamp s) (p_type s).

Definition set_nb_prot (v : Z) (s : PACKET) : PACKET :=
  mkPacket (nb_buff s) v (nb_plen s) (nb_tstamp s) (p_type s).

Definition set_nb_plen (v : Z) (s : PACKET) : PACKET :=
  mkPacket (nb_buff s) (nb_prot s) v (nb_tstamp s) (p_type s).

Definition set_nb_tstamp (v : Z) (s : PACKET) : PACKET :=
  mkPacket (nb_buff s) (nb_prot s) (nb_plen s) v (p_type s).

Definition set_p_type (v : Z) (s : PACKET) : PACKET :=
  mkPacket (nb_buff s) (nb_prot s) (nb_plen s) (nb_tstamp s) v.

(** The counters of the interface, 32 bits wide. *)
Record mib := mkMib {
  ifAdminStatus : Z;
  ifOperStatus : Z;
  ifInOctets : Z;
  ifInDiscards : Z;
  ifOutOctets : Z;
  ifOutUcastPkts : Z;
  ifOutDiscards : Z
}.

Definition set_ifAdminStatus (v : Z) (s : mib) : mib :=
  mkMib v (ifOperStatus s) (ifInOctets s) (ifInDiscards s) (ifOutOctets s) (ifOutUcastPkts s)
    (ifOutDiscards s).

Definition set_ifOperStatus (v : Z) (s : mib) : mib :=
  mkMib (ifAdminStatus s) v (ifInOctets s) (ifInDiscards s) (ifOutOctets s) (ifOutUcastPkts s)
    (ifOutDiscards s).

Definition set_ifInOctets (v : Z) (s : mib) : mib :=
  mkMib (ifAdminStatus s) (ifOperStatus s) v (ifInDiscards s) (ifOutOctets s) (ifOutUcastPkts
    s) (ifOutDiscards s).

Definition set_ifInDiscards (v : Z) (s : mib) : mib :=
  mkMib (ifAdminStatus s) (ifOperStatus s) (ifInOctets s) v (ifOutOctets s) (ifOutUcastPkts s)
    (ifOutDiscards s).

Definition set_ifOutOctets (v : Z) (s : mib) : mib :=
  mkMib (ifAdminStatus s) (ifOperStatus s) (ifInOctets s) (ifInDiscards s) v (ifOutUcastPkts
    s) (ifOutDiscards s).

Definition set_ifOutUcastPkts (v : Z) (s : mib) : mib :=
  mkMib (ifAdminStatus s) (ifOperStatus s) (ifInOctets s) (ifInDiscards s) (ifOutOctets s) v
    (ifOutDiscards s).

Definition set_ifOutDiscards (v : Z) (s : mib) : mib :=
  mkMib (ifAdminStatus s) (ifOperStatus s) (ifInOctets s) (ifInDiscards s) (ifOutOctets s)
    (ifOutUcastPkts s) v.

(** The run-time data of the driver. *)
Record eth_ocm_info := mkInfo {
  mac_addr : list Z;
  sem : Z;
  cur_tx_desc : Z;  (* the oldest descriptor in use *)
  cur_rx_desc : Z;
  rx_pkts : list PACKET;
  tosend : list PACKET;  (* packets to be sent *)
  sending : list PACKET;  (* packets being sent *)
  next_tx_desc : Z;  (* the next one for a transfer *)
  next_tx_desc_rdy : Z  (* whether it can be used *)
}.

Definition set_mac_addr (v : list Z) (s : eth_ocm_info) : eth_ocm_info :=
  mkInfo v (sem s) (cur_tx_desc s) (cur_rx_desc s) (rx_pkts s) (tosend s) (sending s)
    (next_tx_desc s) (next_tx_desc_rdy s).

Definition set_sem (v : Z) (s : eth_ocm_info) : eth_ocm_info :=
  mkInfo (mac_addr s) v (cur_tx_desc s) (cur_rx_desc s) (rx_pkts s) (tosend s) (sending s)
    (next_tx_desc s) (next_tx_desc_rdy s).

Definition set_cur_tx_desc (v : Z) (s : eth_ocm_info) : eth_ocm_info :=
  mkInfo (mac_addr s) (sem s) v (cur_rx_desc s) (rx_pkts s) (tosend s) (sending s)
    (next_tx_desc s) (next_tx_desc_rdy s).

Definition set_cur_rx_desc (v : Z) (s : eth_ocm_info) : eth_ocm_info :=
  mkInfo (mac_addr s) (sem s) (cur_tx_desc s) v (rx_pkts s) (tosend s) (sending s)
    (next_tx_desc s) (next_tx_desc_rdy s).

Definition set_rx_pkts (v : list PACKET) (s : eth_ocm_info) : eth_ocm_info :=
  mkInfo (mac_addr s) (sem s) (cur_tx_desc s) (cur_rx_desc s) v (tosend s) (sending s)
    (next_tx_desc s) (next_tx_desc_rdy s).

Definition set_tosend (v : list PACKET) (s : eth_ocm_info) : eth_ocm_info :=
  mkInfo (mac_addr s) (sem s) (cur_tx_desc s) (cur_rx_desc s) (rx_pkts s) v (sending s)
    (next_tx_desc s) (next_tx_desc_rdy s).

Definition set_sending (v : list PACKET) (s : eth_ocm_info) : eth_ocm_info :=
  mkInfo (mac_addr s) (sem s) (cur_tx_desc s) (cur_rx_desc s) (rx_pkts s) (tosend s) v
    (next_tx_desc s) (next_tx_desc_rdy s).

Definition set_next_tx_desc (v : Z) (s : eth_ocm_info) : eth_ocm_info :=
  mkInfo (mac_addr s) (sem s) (cur_tx_desc s) (cur_rx_desc s) (rx_pkts s) (tosend s) (sending
    s) v (next_tx_desc_rdy s).

Definition set_next_tx_desc_rdy (v : Z) (s : eth_ocm_info) : eth_ocm_info :=
  mkInfo (mac_addr s) (sem s) (cur_tx_desc s) (cur_rx_desc s) (rx_pkts s) (tosend s) (sending
    s) (next_tx_desc s) v.

(** What the driver shares with the controller; the last five fields are the controller's. *)
Record board := mkBoard {
  regs : Z -> Z;  (* by the number of the word *)
  bds : list (Z * Z);  (* the descriptors: control word and pointer *)
  tx_pos : nat;  (* the transmit descriptor the controller reads next *)
  rx_pos : nat;  (* the receive descriptor it fills next *)
  wire : list (Z * Z);  (* the frames it has sent: address and length *)
  heard : list (Z * list Z);  (* the frames it has stored, with their control words *)
  mem : Z -> list Z  (* what is stored at an address *)
}.

Definition set_regs (v : Z -> Z) (s : board) : board :=
  mkBoard v (bds s) (tx_pos s) (rx_pos s) (wire s) (heard s) (mem s).

Definition set_bds (v : list (Z * Z)) (s : board) : board :=
  mkBoard (regs s) v (tx_pos s) (rx_pos s) (wire s) (heard s) (mem s).

Definition set_tx_pos (v : nat) (s : board) : board :=
  mkBoard (regs s) (bds s) v (rx_pos s) (wire s) (heard s) (mem s).

Definition set_rx_pos (v : nat) (s : board) : board :=
  mkBoard (regs s) (bds s) (tx_pos s) v (wire s) (heard s) (mem s).

Definition set_wire (v : list (Z * Z)) (s : board) : board :=
  mkBoard (regs s) (bds s) (tx_pos s) (rx_pos s) v (heard s) (mem s).

Definition set_heard (v : list (Z * list Z)) (s : board) : board :=
  mkBoard (regs s) (bds s) (tx_pos s) (rx_pos s) (wire s) v (mem s).

Definition set_mem (v : Z -> list Z) (s : board) : board :=
  mkBoard (regs s) (bds s) (tx_pos s) (rx_pos s) (wire s) (heard s) v.

(** Calls out of the driver. *)
Inductive event :=
| Free (p : PACKET)          (* pk_free *)
| Recv (p : PACKET) (d : list Z)  (* putq to the received queue, with what the buffer holds *)
| NoPacket                    (* pk_alloc had none to give *)
| SignalPktDemux
| IrqRegister | IrqUnregister
| FreeInfo.                  (* the two blocks of prep *)

(** The state of the driver. *)
Record st := mkSt {
  inf : eth_ocm_info;
  m : mib;
  rcvdq : list PACKET;  (* packets received, for the stack *)
  pool : list (list PACKET -> option PACKET);  (* what the coming calls of [pk_alloc] give *)
  cticks : Z;  (* the clock of the stack *)
  dev : board;
  env : list (board -> board);  (* what the controller does at the coming loads *)
  log : list event  (* calls out of the driver, newest last *)
}.

Definition set_inf (v : eth_ocm_info) (s : st) : st :=
  mkSt v (m s) (rcvdq s) (pool s) (cticks s) (dev s) (env s) (log s).

Definition set_m (v : mib) (s : st) : st :=
  mkSt (inf s) v (rcvdq s) (pool s) (cticks s) (dev s) (env s) (log s).

Definition set_rcvdq (v : list PACKET) (s : st) : st :=
  mkSt (inf s) (m s) v (pool s) (cticks s) (dev s) (env s) (log s).

Definition set_pool (v : list (list PACKET -> option PACKET)) (s : st) : st :=
  mkSt (inf s) (m s) (rcvdq s) v (cticks s) (dev s) (env s) (log s).

Definition set_cticks (v : Z) (s : st) : st :=
  mkSt (inf s) (m s) (rcvdq s) (pool s) v (dev s) (env s) (log s).

Definition set_dev (v : board) (s : st) : st :=
  mkSt (inf s) (m s) (rcvdq s) (pool s) (cticks s) v (env s) (log s).

Definition set_env (v : list (board -> board)) (s : st) : st :=
  mkSt (inf s) (m s) (rcvdq s) (pool s) (cticks s) (dev s) v (log s).

Definition set_log (v : list event) (s : st) : st :=
  mkSt (inf s) (m s) (rcvdq s) (pool s) (cticks s) (dev s) (env s) v.

Definition upd_dev (f : board -> board) (s : st) : st := set_dev (f (dev s)) s.

Definition upd_inf (f : eth_ocm_info -> eth_ocm_info) (s : st) : st := set_inf (f (inf s)) s.

Definition upd_m (f : mib -> mib) (s : st) : st := set_m (f (m s)) s.

Section Driver.
Context {cfg : OcmConfig}.

(** ** The registers *)

(** The controller acts before a load. *)
Definition hw : M st unit := fun s =>
  match env s with
  | [] => Ret (tt, s)
  | f :: e => Ret (tt, set_env e (upd_dev f s))
  end.

(** Ones written to the interrupt source register clear its bits. *)
Definition reg_write (r v : Z) (b : board) : board :=
  let v' := if r =? ETH_OCM_INT_SOURCE then Z.land (regs b r) (Z.lnot v) else u32 v in
  set_regs (<[r := v']> (regs b)) b.

Definition rd (r : Z) : M st Z := hw;; gets (fun s => regs (dev s) r).

Definition wr (r v : Z) : M st unit := modify (upd_dev (reg_write r v)).

(** A descriptor, by its index; outside of the descriptor memory there is none. *)
Definition bd_at (i : nat) : M st (Z * Z) := fun s =>
  match bds (dev s) !! i with Some bd => Ret (bd, s) | None => UB end.

Definition bd_put (i : nat) (bd : Z * Z) (b : board) : board := set_bds (<[i := bd]> (bds b)) b.

Definition rd_ctrl (i : nat) : M st Z := hw;; bd ← bd_at i; mret bd.1.

Definition wr_ctrl (i : nat) (v : Z) : M st unit :=
  bd ← bd_at i; modify (upd_dev (bd_put i (u32 v, bd.2))).

Definition wr_ptr (i : nat) (v : Z) : M st unit :=
  bd ← bd_at i; modify (upd_dev (bd_put i (bd.1, u32 v))).

(** [txdescs[i]] and [rxdescs[i]] of the registers. *)
Definition txdesc (i : Z) : nat := Z.to_nat i.

Definition rxdesc (i : Z) : nat := Z.to_nat (ETH_OCM_TX_DESC_COUNT + i).

(** Word [i] of the address space, as [IOWR] writes it. *)
Definition IOWR (i v : Z) : M st unit :=
  if i <? ETH_OCM_DESC_START then wr i v
  else if i mod 2 =? 0 then wr_ctrl (Z.to_nat ((i - ETH_OCM_DESC_START) / 2)) v
  else wr_ptr (Z.to_nat ((i - ETH_OCM_DESC_START) / 2)) v.

Definition emit (e : event) : M st unit := modify (fun s => set_log (log s ++ [e]) s).

Definition info_of {A} (f : eth_ocm_info -> A) : M st A := gets (fun s => f (inf s)).

Definition upd (f : eth_ocm_info -> eth_ocm_info) : M st unit := modify (upd_inf f).

Definition bump (get : mib -> Z) (set : Z -> mib -> mib) (n : Z) : M st unit :=
  modify (upd_m (fun x => set (u32 (get x + n)) x)).

(** ** The stack's queues and packets *)

Definition getq (get : eth_ocm_info -> list PACKET) (set : list PACKET -> eth_ocm_info -> eth_ocm_info) : M st PACKET := fun s =>
  match get (inf s) with
  | p :: l => Ret (p, upd_inf (set l) s)
  | [] => UB
  end.

Definition putq (get : eth_ocm_info -> list PACKET) (set : list PACKET -> eth_ocm_info -> eth_ocm_info) (p : PACKET) : M st unit :=
  upd (fun i => set (get i ++ [p]) i).

Definition pk_free (p : PACKET) : M st unit := emit (Free p).

(** The stack may give again what the driver no longer holds. *)
Definition pk_alloc : M st (option PACKET) := fun s =>
  let '(x, l) := match pool s with [] => (None, []) | f :: l => (f (rx_pkts (inf s)), l) end in
  let s := set_pool l s in
  Ret (x, match x with None => set_log (log s ++ [NoPacket]) s | Some _ => s end).

(** The address given to the controller for a pointer. *)
Definition buf_ptr (p : Z) : Z := u32 (alt_remap_cached p + ETHHDR_BIAS).

(** ** Transmission *)

(** The checks of a packet; a later one overwrites the result of an earlier one. *)
Definition check_len (len : Z) (result : Z) : Z :=
  let result := if len <? ETH_OCM_MIN_MTU then -1 else result in
  if len >? ETH_OCM_MAX_MTU then - EFBIG else result.

Definition eth_ocm_low_send (data data_bytes : Z) : M st Z :=
  let len := u32 (data_bytes - ETHHDR_BIAS) in
  s ← info_of sem;
  if ctrue s then mret ENP_RESOURCE
  else
    upd (set_sem 1);;
    let buf := buf_ptr data in
    let result := check_len len SUCCESS in
    next ← info_of next_tx_desc;
    c ← rd_ctrl (txdesc next);
    let result := if ctrue (Z.land c ETH_OCM_TXDESC_READY_MSK) then - EBUSY else result in
    result ←
      (if result =? SUCCESS then
         wr_ptr (txdesc next) buf;;
         let w := flags [Z.shiftl len ETH_OCM_TXDESC_LEN_OFST; ETH_OCM_TXDESC_READY_MSK; ETH_OCM_TXDESC_IRQ_MSK;
                         ETH_OCM_TXDESC_PAD_MSK; ETH_OCM_TXDESC_CRC_MSK] in
         let w := if next =? ETH_OCM_TX_DESC_COUNT - 1 then Z.lor w ETH_OCM_TXDESC_WRAP_MSK else w in
         wr_ctrl (txdesc next) w;;
         mret SUCCESS
       else mret result);
    upd (set_sem 0);;
    mret result.

(** A position of a ring after another one, in 8 bits. *)
Definition advance (count i : Z) : Z :=
  let i := u8 (i + 1) in if i =? count then 0 else i.

(** What is counted for a finished descriptor. *)
Definition tx_account (result : Z) (p : PACKET) : M st unit :=
  if ctrue (Z.land result tx_errors) then bump ifOutDiscards set_ifOutDiscards 1
  else
    bump ifOutOctets set_ifOutOctets (nb_plen p);;
    bump ifOutUcastPkts set_ifOutUcastPkts 1.

(** The finished descriptors. *)
Fixpoint tx_finish (fuel : nat) : M st unit :=
  q ← info_of sending;
  cur ← info_of cur_tx_desc;
  next ← info_of next_tx_desc;
  rdy ← info_of next_tx_desc_rdy;
  if (0 <? Z.of_nat (length q)) && (negb (cur =? next) || negb (ctrue rdy)) then
    c ← rd_ctrl (txdesc cur);
    if ctrue (Z.land c ETH_OCM_TXDESC_READY_MSK) then mret tt
    else
      match fuel with
      | O => no_fuel
      | S k =>
          p ← getq sending set_sending;
          result ← rd_ctrl (txdesc cur);
          tx_account result p;;
          pk_free p;;
          upd (set_cur_tx_desc (advance ETH_OCM_TX_DESC_COUNT cur));;
          upd (set_next_tx_desc_rdy 1);;
          tx_finish k
      end
  else mret tt.

(** The packets that wait. *)
Fixpoint tx_start (fuel : nat) : M st unit :=
  rdy ← info_of next_tx_desc_rdy;
  q ← info_of tosend;
  if ctrue rdy && (0 <? Z.of_nat (length q)) then
    next ← info_of next_tx_desc;
    c ← rd_ctrl (txdesc next);
    if ctrue (Z.land c ETH_OCM_TXDESC_READY_MSK) then mret tt
    else
      match fuel with
      | O => no_fuel
      | S k =>
          p ← getq tosend set_tosend;
          result ← eth_ocm_low_send (nb_prot p) (nb_plen p);
          (if negb (result =? SUCCESS) then
             bump ifOutDiscards set_ifOutDiscards 1;;
             pk_free p
           else
             upd (fun i => set_next_tx_desc (advance ETH_OCM_TX_DESC_COUNT (next_tx_desc i)) i);;
             next ← info_of next_tx_desc;
             cur ← info_of cur_tx_desc;
             when (next =? cur) (upd (set_next_tx_desc_rdy 0));;
             putq sending set_sending p);;
          tx_start k
      end
  else mret tt.

Definition eth_ocm_tx_isr (fuel : nat) : M st unit := tx_finish fuel;; tx_start fuel.

(** Interrupts are off while it runs. *)
Definition eth_ocm_pkt_send (fuel : nat) (p : PACKET) : M st Z :=
  putq tosend set_tosend p;;
  eth_ocm_tx_isr fuel;;
  mret SUCCESS.

(** Waiting for a synchronous transmission; [i] counts the loads. *)
Fixpoint poll_sent (fuel : nat) (i : Z) : M st (Z * Z) :=
  match fuel with
  | O => no_fuel
  | S k =>
      result ← rd_ctrl (txdesc 0);
      let i := i + 1 in
      if ctrue (Z.land result ETH_OCM_TXDESC_READY_MSK) && (i <? ETH_OCM_TRANSMIT_TIMEOUT) then poll_sent k i
      else mret (result, i)
  end.

Definition eth_ocm_raw_send (fuel : nat) (data data_bytes : Z) : M st Z :=
  let len := u32 (data_bytes - ETHHDR_BIAS) in
  s ← info_of sem;
  if ctrue s then mret ENP_RESOURCE
  else
    upd (set_sem 1);;
    let buf := buf_ptr data in
    let result := check_len len 0 in
    c ← rd_ctrl (txdesc 0);
    let result := if ctrue (Z.land c ETH_OCM_TXDESC_READY_MSK) then - EBUSY else result in
    result ←
      (if result =? 0 then
         wr_ptr (txdesc 0) buf;;
         wr_ctrl (txdesc 0) (flags [Z.shiftl len ETH_OCM_TXDESC_LEN_OFST; ETH_OCM_TXDESC_READY_MSK;
                                    ETH_OCM_TXDESC_WRAP_MSK; ETH_OCM_TXDESC_PAD_MSK; ETH_OCM_TXDESC_CRC_MSK]);;
         r ← poll_sent fuel 0;
         mret (if r.2 <? ETH_OCM_TRANSMIT_TIMEOUT then (if ctrue (Z.land r.1 tx_errors) then - EIO else 0)
               else - ETIMEDOUT)
       else mret result);
    result ←
      (if result =? 0 then
         bump ifOutOctets set_ifOutOctets data_bytes;;
         bump ifOutUcastPkts set_ifOutUcastPkts 1;;
         mret SUCCESS
       else
         bump ifOutDiscards set_ifOutDiscards 1;;
         mret SEND_DROPPED);
    upd (set_sem 0);;
    mret result.

(** ** Reception *)

(** A descriptor for the receiver: its word, and the buffer of its packet. *)
Definition rx_give (cur : Z) : M st unit :=
  pkts ← info_of rx_pkts;
  match pkts !! Z.to_nat cur with
  | None => undef
  | Some p =>
      wr_ptr (rxdesc cur) (buf_ptr (nb_buff p));;
      let stat := Z.lor ETH_OCM_RXDESC_EMPTY_MSK ETH_OCM_RXDESC_IRQ_MSK in
      let stat := if cur =? ETH_OCM_RX_DESC_COUNT - 1 then Z.lor stat ETH_OCM_RXDESC_WRAP_MSK else stat in
      wr_ctrl (rxdesc cur) stat
  end.

(** The type of the frame in a buffer, the two bytes as they are loaded. *)
Definition e_type (p : PACKET) : M st Z := fun s =>
  let d := mem (dev s) (buf_ptr (nb_buff p)) in
  match d !! 12%nat, d !! 13%nat with Some a, Some b => Ret (a + 256 * b, s) | _, _ => UB end.

(** The frame of one descriptor. *)
Definition rx_frame (cur stat : Z) : M st unit :=
  let pklen := Z.shiftr (s32 (Z.land stat ETH_OCM_RXDESC_LEN_MSK)) ETH_OCM_RXDESC_LEN_OFST in
  bump ifInOctets set_ifInOctets (u32 pklen);;
  pkts ← info_of rx_pkts;
  match pkts !! Z.to_nat cur with
  | None => undef
  | Some p =>
      t ← gets cticks;
      ty ← e_type p;
      let p := mkPacket (nb_buff p) (u32 (nb_buff p + ETHHDR_SIZE)) (u32 (pklen - (14 + 4))) t ty in
      upd (fun i => set_rx_pkts (<[Z.to_nat cur := p]> (rx_pkts i)) i);;
      if ctrue (Z.land stat ETH_OCM_RXDESC_ERROR_MSK) then bump ifInDiscards set_ifInDiscards 1
      else
        n ← pk_alloc;
        match n with
        | None => bump ifInDiscards set_ifInDiscards 1
        | Some q =>
            modify (fun s => set_rcvdq (rcvdq s ++ [p]) s);;
            modify (fun s => set_log (log s ++ [Recv p (mem (dev s) (buf_ptr (nb_buff p)))]) s);;
            upd (fun i => set_rx_pkts (<[Z.to_nat cur := q]> (rx_pkts i)) i)
        end
  end.

Fixpoint rx_loop (fuel : nat) (cur stat : Z) : M st Z :=
  if ctrue (Z.land stat ETH_OCM_RXDESC_EMPTY_MSK) then mret cur
  else
    match fuel with
    | O => no_fuel
    | S k =>
        rx_frame cur stat;;
        rx_give cur;;
        let cur := advance ETH_OCM_RX_DESC_COUNT cur in
        stat ← rd_ctrl (rxdesc cur);
        rx_loop k cur stat
    end.

Definition eth_ocm_rx_isr (fuel : nat) : M st Z :=
  cur ← info_of cur_rx_desc;
  stat ← rd_ctrl (rxdesc cur);
  cur ← rx_loop fuel cur stat;
  upd (set_cur_rx_desc cur);;
  mret SUCCESS.

(** ** The interrupt *)

Fixpoint isr_loop (fuel : nat) (result : Z) : M st unit :=
  if ctrue result then
    match fuel with
    | O => no_fuel
    | S k =>
        wr ETH_OCM_INT_SOURCE result;;
        when (ctrue (Z.land result (Z.lor ETH_OCM_INT_MASK_RXB_MSK ETH_OCM_INT_MASK_RXE_MSK)))
          (eth_ocm_rx_isr fuel;;
           q ← gets rcvdq;
           when (0 <? Z.of_nat (length q)) (emit SignalPktDemux));;
        when (ctrue (Z.land result ETH_OCM_INT_MASK_BUSY_MSK)) (bump ifInDiscards set_ifInDiscards 1);;
        when (negb ETH_OCM_SYNC_TX && ctrue (Z.land result (Z.lor ETH_OCM_INT_MASK_TXE_MSK ETH_OCM_INT_MASK_TXB_MSK)))
          (eth_ocm_tx_isr fuel);;
        result ← rd ETH_OCM_INT_SOURCE;
        isr_loop k result
    end
  else mret tt.

Definition eth_ocm_isr (fuel : nat) : M st unit :=
  result ← rd ETH_OCM_INT_SOURCE;
  isr_loop fuel result.

(** ** Starting and stopping *)

Definition ETH_OCM_DEFAULT_INTERRUPT_MASK : Z :=
  if ETH_OCM_TX_SYNC then flags [ETH_OCM_INT_MASK_BUSY_MSK; ETH_OCM_INT_MASK_RXE_MSK; ETH_OCM_INT_MASK_RXB_MSK]
  else flags [ETH_OCM_INT_MASK_BUSY_MSK; ETH_OCM_INT_MASK_TXE_MSK; ETH_OCM_INT_MASK_TXB_MSK;
              ETH_OCM_INT_MASK_RXE_MSK; ETH_OCM_INT_MASK_RXB_MSK].

(** [for (temp = i; temp < ETH_OCM_DESC_END; temp++)] *)
Fixpoint clear_descs (n : nat) (i : Z) : M st unit :=
  match n with
  | O => mret tt
  | S k => IOWR i 0;; clear_descs k (i + 1)
  end.

(** The packets for the descriptors from [i] on. *)
Fixpoint read_init_loop (n : nat) (i : Z) : M st Z :=
  match n with
  | O => mret SUCCESS
  | S k =>
      p ← pk_alloc;
      match p with
      | None => mret ENP_NOBUFFER
      | Some p =>
          upd (fun x => set_rx_pkts (<[Z.to_nat i := p]> (rx_pkts x)) x);;
          c ← rd_ctrl (rxdesc i);
          if ctrue (Z.land c ETH_OCM_RXDESC_EMPTY_MSK) then rd_ctrl (rxdesc i);; mret ENP_RESOURCE
          else rx_give i;; read_init_loop k (i + 1)
      end
  end.

Definition eth_ocm_read_init : M st Z := read_init_loop (Z.to_nat ETH_OCM_RX_DESC_COUNT) 0.

(** An octet of the address. *)
Definition octet (i : nat) : M st Z :=
  a ← info_of mac_addr;
  match a !! i with Some x => mret x | None => undef end.

Definition set_mac_regs : M st unit :=
  a5 ← octet 5; a4 ← octet 4; a3 ← octet 3; a2 ← octet 2;
  wr ETH_OCM_MAC_ADDR0 (flags [a5; Z.shiftl a4 8; Z.shiftl a3 16; Z.shiftl a2 24]);;
  a1 ← octet 1; a0 ← octet 0;
  wr ETH_OCM_MAC_ADDR1 (Z.lor a1 (Z.shiftl a0 8)).

(** The blocks are allocated; [junk] is what the array of packets holds, and [mac] what
    the application gives as the address.  The result is the next index. *)
Definition eth_ocm_prep (index : Z) (junk : list PACKET) (mac : list Z) : M st Z :=
  upd (set_sem 0);;
  upd (set_rx_pkts junk);;
  modify (upd_m (set_ifAdminStatus ETH_OCM_STATUS_DOWN));;
  modify (upd_m (set_ifOperStatus ETH_OCM_STATUS_DOWN));;
  upd (set_mac_addr mac);;
  mret (index + 1).

(** [eth_ocm_phy_init] is that of the PHY, which a project may replace. *)
Definition eth_ocm_init (eth_ocm_phy_init : M st Z) : M st Z :=
  clear_descs (Z.to_nat (ETH_OCM_DESC_END - ETH_OCM_DESC_START)) ETH_OCM_DESC_START;;
  wr ETH_OCM_MODER 0;;
  wr ETH_OCM_TX_BD_NUM ETH_OCM_TX_DESC_COUNT;;
  upd (set_cur_tx_desc 0);;
  upd (set_cur_rx_desc 0);;
  unless ETH_OCM_SYNC_TX
    (upd (set_next_tx_desc 0);;
     upd (set_next_tx_desc_rdy 1);;
     upd (set_tosend []);;
     upd (set_sending []));;
  let temp := Z.land (ALT_CPU_FREQ / 1000000 + 2) 4294967294 in
  wr ETH_OCM_MIIMODER temp;;
  wr ETH_OCM_MIICOMMAND 0;;
  duplex ← eth_ocm_phy_init;
  let duplex := if ctrue duplex then ETH_OCM_MODER_FULLD_MSK else duplex in
  wr ETH_OCM_INT_MASK ETH_OCM_DEFAULT_INTERRUPT_MASK;;
  wr ETH_OCM_INT_SOURCE 4294967295;;
  wr ETH_OCM_IPGT (if ctrue duplex then ETH_OCM_FULL_DUPLEX_IPGT else ETH_OCM_HALF_DUPLEX_IPGT);;
  wr ETH_OCM_IPGR2 12;;
  wr ETH_OCM_IPGR2 18;;
  wr ETH_OCM_PACKETLEN 4195840;;
  wr ETH_OCM_COLLCONF 983103;;
  wr ETH_OCM_CTRLMODER 0;;
  set_mac_regs;;
  wr ETH_OCM_MODER (flags [ETH_OCM_MODER_PAD_MSK; ETH_OCM_MODER_CRCEN_MSK; ETH_OCM_MODER_RXEN_MSK;
                           ETH_OCM_MODER_TXEN_MSK; duplex]);;
  modify (upd_m (set_ifAdminStatus ETH_OCM_STATUS_UP));;
  modify (upd_m (set_ifOperStatus ETH_OCM_STATUS_UP));;
  emit IrqRegister;;
  eth_ocm_read_init;;
  mret SUCCESS.

(** [err]: the answer of the interrupt registration. *)
Definition eth_ocm_close (err : Z) : M st Z :=
  modify (upd_m (set_ifAdminStatus ETH_OCM_STATUS_DOWN));;
  emit IrqUnregister;;
  if ctrue err then mret err
  else
    wr ETH_OCM_MODER 0;;
    modify (upd_m (set_ifOperStatus ETH_OCM_STATUS_DOWN));;
    emit FreeInfo;;
    mret SUCCESS.

End Driver.
