(* ===== verification/OcmFacts.v ===== *)
(** * The rings of the InterNiche driver and the controller

    As for the other driver of this controller, [hw_step] is what a controller may do
    between two loads of the driver.  [txb] and [rxb] read the descriptors as two
    queues and are stable under its steps. *)

From stdpp Require Import relations functions.
From S2P Require Import Prelude.
From S2P Require Import Ring.
From S2P Require Import Ocm.

Lemma flag_msk c : ctrue (Z.land c 32768) = flag15 c.
Proof. by rewrite <- (ctrue_land_pow2 c 15). Qed.

Section Rings.
Context {cfg : OcmConfig}.

Abbreviation TXN := (Z.to_nat ETH_OCM_TX_DESC_COUNT).
Abbreviation RXN := (Z.to_nat ETH_OCM_RX_DESC_COUNT).

(** The configuration: [#error] in ins_eth_ocm.h rejects others; a success is not an
    error code. *)
Class OcmConfigOk := {
  txn_pos : 1 <= ETH_OCM_TX_DESC_COUNT;
  rxn_pos : 1 <= ETH_OCM_RX_DESC_COUNT;
  bds_fit : ETH_OCM_TX_DESC_COUNT + ETH_OCM_RX_DESC_COUNT <= 128;
  success_not : SUCCESS <> -1 /\ SUCCESS <> - EFBIG /\ SUCCESS <> - EBUSY;
}.

(** ** The controller *)

(** The word of a descriptor that a frame was stored in; the driver has set the
    limits of a frame to 64 and 1536 bytes. *)
Definition rx_word (w : Z) (d : list Z) : Prop :=
  is_u32 w /\ flag15 w = false /\ Z.shiftr w 16 = Z.of_nat (length d) /\ (64 <= length d <= 1536)%nat.

Definition sent (w p w' : Z) (b : board) : board :=
  mkBoard (regs b) (<[tx_pos b := (w', p)]> (bds b)) ((tx_pos b + 1) mod TXN) (rx_pos b)
    (wire b ++ [(p, Z.shiftr w 16)]) (heard b) (mem b).

Definition stored (p w' : Z) (d : list Z) (b : board) : board :=
  mkBoard (regs b) (<[(TXN + rx_pos b)%nat := (w', p)]> (bds b)) (tx_pos b) ((rx_pos b + 1) mod RXN)
    (wire b) (heard b ++ [(w', d)]) (<[p := d]> (mem b)).

Inductive hw_step : board -> board -> Prop :=
| hw_sent b w p w' :
    bds b !! tx_pos b = Some (w, p) -> flag15 w = true -> flag15 w' = false ->
    hw_step b (sent w p w' b)
| hw_stored b w p w' d :
    bds b !! (TXN + rx_pos b)%nat = Some (w, p) -> flag15 w = true -> rx_word w' d ->
    hw_step b (stored p w' d b)
| hw_reg b r v :
    r = ETH_OCM_INT_SOURCE \/ r = ETH_OCM_MIISTATUS \/ r = ETH_OCM_MIIRX_DATA ->
    hw_step b (set_regs (<[r := v]> (regs b)) b).

(** A function that describes the controller between two loads. *)
Definition behaves (f : board -> board) : Prop := forall b, rtc hw_step b (f b).

(** ** Packets and frames *)

Definition frame (p : PACKET) : Z * Z := (buf_ptr (nb_prot p), u32 (nb_plen p - ETHHDR_BIAS)).

(** A packet whose length the driver takes. *)
Definition good (p : PACKET) : Prop := ETH_OCM_MIN_MTU <= (frame p).2 <= ETH_OCM_MAX_MTU.

#[global] Instance good_dec p : Decision (good p).
Proof. unfold good. apply _. Defined.

Definition bptr (p : PACKET) : Z := buf_ptr (nb_buff p).

(** ** Transmission *)

(** The frames [acc] were accepted; the controller has sent the first [G] of them. *)
Record txb (acc : list PACKET) (G : nat) (b : board) : Prop := {
  tx_len : length (bds b) = 128%nat;
  tx_at : tx_pos b = slot TXN G;
  tx_wire : wire b = map frame (take G acc);
  tx_le : (G <= length acc <= G + TXN)%nat;
  tx_pending : forall j p, (G <= j)%nat -> acc !! j = Some p ->
    exists w, bds b !! slot TXN j = Some (w, (frame p).1) /\ flag15 w = true /\ Z.shiftr w 16 = (frame p).2;
  tx_idle : forall j, (length acc <= j < G + TXN)%nat -> exists bd, bds b !! slot TXN j = Some bd /\ flag15 bd.1 = false;
}.

(** ** Reception *)

(** The driver has taken the first [R] of the frames that the controller has stored;
    [pk] are the packets of the descriptors. *)
Record rxb (pk : list PACKET) (R : nat) (b : board) : Prop := {
  rx_len : length (bds b) = 128%nat;
  rx_at : rx_pos b = slot RXN (length (heard b));
  rx_le : (R <= length (heard b) <= R + RXN)%nat;
  rx_count : length pk = RXN;
  rx_bufs : forall i p, pk !! i = Some p -> exists w, bds b !! (TXN + i)%nat = Some (w, bptr p);
  rx_distinct : NoDup (map bptr pk);
  rx_full : forall j w d, (R <= j)%nat -> heard b !! j = Some (w, d) ->
    rx_word w d /\ exists p, pk !! slot RXN j = Some p /\ bds b !! (TXN + slot RXN j)%nat = Some (w, bptr p) /\ mem b (bptr p) = d;
  rx_empty : forall j, (length (heard b) <= j < R + RXN)%nat ->
    exists bd, bds b !! (TXN + slot RXN j)%nat = Some bd /\ flag15 bd.1 = true;
}.

Context {ok : OcmConfigOk}.

Lemma ocm_TXN_pos : (0 < TXN)%nat.
Proof. destruct ok. lia. Qed.

Lemma ocm_RXN_pos : (0 < RXN)%nat.
Proof. destruct ok. lia. Qed.

Lemma bds_room : (TXN + RXN <= 128)%nat.
Proof. destruct ok. lia. Qed.

(** What happens elsewhere does not matter. *)
Lemma txb_other acc G b b' :
  txb acc G b -> length (bds b') = 128%nat -> (forall i, (i < TXN)%nat -> bds b' !! i = bds b !! i) ->
  tx_pos b' = tx_pos b -> wire b' = wire b -> txb acc G b'.
Proof.
  intros [H1 H2 H3 H4 H5 H6] Hlen Hbd Hp Hw. split; [done|congruence|congruence|done| |].
  - intros j p Hj Hlk. destruct (H5 j p Hj Hlk) as (w & Hb & Hrest). exists w. by rewrite Hbd by apply slot_lt, ocm_TXN_pos.
  - intros j Hj. destruct (H6 j Hj) as (bd & Hb & Hfl). exists bd. by rewrite Hbd by apply slot_lt, ocm_TXN_pos.
Qed.

Lemma rxb_other pk R b b' :
  rxb pk R b -> length (bds b') = 128%nat -> (forall i, (i < RXN)%nat -> bds b' !! (TXN + i)%nat = bds b !! (TXN + i)%nat) ->
  rx_pos b' = rx_pos b -> heard b' = heard b -> mem b' = mem b -> rxb pk R b'.
Proof.
  intros [H1 H2 H3 H4 H5 H6 H7 H8] Hlen Hbd Hp Hh Hm. split; [done|congruence|congruence|done| |done| |].
  - intros i p Hi. rewrite Hbd by (rewrite <- H4; by eapply lookup_lt_Some). by apply H5.
  - rewrite Hh, Hm. intros j w d Hj Hlk. rewrite Hbd by apply slot_lt, ocm_RXN_pos. by apply H7.
  - rewrite Hh. intros j Hj. rewrite Hbd by apply slot_lt, ocm_RXN_pos. by apply H8.
Qed.

Lemma txb_sent acc G b w p w' :
  txb acc G b -> bds b !! tx_pos b = Some (w, p) -> flag15 w = true -> flag15 w' = false ->
  txb acc (S G) (sent w p w' b).
Proof.
  intros [H1 H2 H3 H4 H5 H6] Hbd Hfl Hfl'. pose proof ocm_TXN_pos as Hn. pose proof bds_room as Hroom.
  assert (G < length acc)%nat as HG.
  { apply Nat.nle_gt. intros Hge. destruct (H6 G) as (bd & Hb & Hf); [lia|]. rewrite H2, Hb in Hbd.
    injection Hbd as ->. cbn [fst] in Hf. congruence. }
  destruct (lookup_lt_is_Some_2 acc G HG) as [q Hq]. destruct (H5 G q) as (w0 & Hb & _ & Hlen); [lia|done|].
  rewrite H2, Hb in Hbd. injection Hbd as -> <-.
  split; cbn [bds tx_pos wire sent].
  - by rewrite length_insert.
  - by rewrite slot_succ, H2.
  - rewrite H3, (take_S_r _ _ _ Hq), map_app. cbn [map]. rewrite Hlen. reflexivity.
  - lia.
  - intros j p Hj Hlk. pose proof (lookup_lt_Some _ _ _ Hlk). rewrite list_lookup_insert_ne; [apply H5; [lia|done]|].
    rewrite H2. intros E. apply (slot_inj TXN G) in E; lia.
  - intros j Hj. destruct (decide (slot TXN j = slot TXN G)) as [E|E].
    + rewrite E, H2, list_lookup_insert_eq by (pose proof (slot_lt TXN G Hn); lia). eexists. by split.
    + rewrite H2, list_lookup_insert_ne by done. apply H6. destruct (decide (j = G + TXN)%nat) as [->|]; [|lia].
      by rewrite slot_wrap in E.
Qed.

Lemma rxb_stored pk R b w p w' d :
  rxb pk R b -> bds b !! (TXN + rx_pos b)%nat = Some (w, p) -> flag15 w = true -> rx_word w' d ->
  rxb pk R (stored p w' d b).
Proof.
  intros [H1 H2 H3 H4 H5 H6 H7 H8] Hbd Hfl Hw. pose proof ocm_RXN_pos as Hn. pose proof bds_room as Hroom.
  set (H := length (heard b)) in *. pose proof (slot_lt RXN H Hn) as HsH.
  assert (H < R + RXN)%nat as HH.
  { apply Nat.nle_gt. intros Hge. assert (H = R + RXN)%nat as E by lia.
    destruct (lookup_lt_is_Some_2 (heard b) R) as [[w0 d0] Hlk]; [fold H; lia|].
    destruct (H7 R w0 d0) as ((_ & Hf & _) & q & _ & Hb & _); [lia|done|].
    rewrite H2, E, slot_wrap, Hb in Hbd by done. injection Hbd as -> _. congruence. }
  destruct (lookup_lt_is_Some_2 pk (slot RXN H)) as [q Hq]; [lia|]. destruct (H5 _ _ Hq) as [w1 Hb1].
  rewrite H2, Hb1 in Hbd. injection Hbd as -> <-.
  assert (forall i q', pk !! i = Some q' -> i <> slot RXN H -> bptr q' <> bptr q) as Hdist.
  { intros i q' Hi Hne E. apply Hne. eapply NoDup_lookup; [exact H6| |].
    - change (map bptr pk) with (bptr <$> pk). rewrite list_lookup_fmap, Hi. reflexivity.
    - change (map bptr pk) with (bptr <$> pk). rewrite list_lookup_fmap, Hq. cbn. by rewrite E. }
  split; cbn [bds rx_pos heard mem stored]; rewrite ?length_app, ?length_insert; cbn [length]; fold H.
  - done.
  - rewrite H2, (Nat.add_1_r H). by rewrite slot_succ by done.
  - lia.
  - done.
  - intros i p' Hi. destruct (decide (i = slot RXN H)) as [->|Hne].
    + rewrite H2, list_lookup_insert_eq by lia. rewrite Hq in Hi. injection Hi as ->. by eexists.
    + rewrite H2, list_lookup_insert_ne by lia. by apply H5.
  - done.
  - intros j w2 d2 Hj Hlk. apply lookup_app_Some in Hlk as [Hlk|[Hge Hlk]].
    + destruct (H7 j w2 d2 Hj Hlk) as (Hw2 & q2 & Hq2 & Hb2 & Hm2). pose proof (lookup_lt_Some _ _ _ Hlk) as Hlt. fold H in Hlt.
      assert (slot RXN j <> slot RXN H) as Hne by (intros E; apply (slot_inj RXN R) in E; lia).
      split; [done|]. exists q2. split; [done|]. split; [by rewrite H2, list_lookup_insert_ne by lia|].
      rewrite fn_lookup_insert_ne; [done|]. intros E. by apply (Hdist _ _ Hq2 Hne).
    + apply list_lookup_singleton_Some in Hlk as [Hj0 [= <- <-]]. fold H in Hge, Hj0.
      assert (j = H) as -> by lia. split; [done|]. exists q. split; [done|]. rewrite H2.
      rewrite list_lookup_insert_eq by lia. by rewrite fn_lookup_insert.
  - intros j Hj. rewrite H2, list_lookup_insert_ne; [apply H8; lia|].
    intros E. assert (slot RXN H = slot RXN j) as E' by lia. apply (slot_inj RXN H) in E'; lia.
Qed.

(** Both rings together. *)
Record rings (acc : list PACKET) (G : nat) (pk : list PACKET) (R : nat) (b : board) : Prop := {
  r_tx : txb acc G b;
  r_rx : rxb pk R b;
}.

Lemma rings_step acc G pk R b b' :
  rings acc G pk R b -> hw_step b b' ->
  exists G', (G <= G')%nat /\ rings acc G' pk R b' /\ heard b `prefix_of` heard b'.
Proof.
  intros [HT HR] Hstep. pose proof ocm_TXN_pos. pose proof ocm_RXN_pos. pose proof bds_room.
  pose proof (tx_at _ _ _ HT) as Htp. pose proof (rx_at _ _ _ HR) as Hrp.
  pose proof (slot_lt TXN G). pose proof (slot_lt RXN (length (heard b))).
  destruct Hstep as [b w p w' Hb Hf Hf'|b w p w' d Hb Hf Hw|b r v Hr].
  - exists (S G). split; [lia|]. split; [|done]. split; [by apply txb_sent|].
    apply (rxb_other _ _ b); [done|cbn; rewrite length_insert; apply HT| |done..].
    intros i Hi. cbn. rewrite list_lookup_insert_ne by lia. done.
  - exists G. split; [lia|]. split; [|by apply prefix_app_r]. split; [|by apply (rxb_stored _ _ _ w)].
    apply (txb_other _ _ b); [done|cbn; rewrite length_insert; apply HT| |done..].
    intros i Hi. cbn. rewrite list_lookup_insert_ne by lia. done.
  - exists G. split; [lia|]. split; [|done]. split.
    + apply (txb_other _ _ b); [done|apply HT|done..].
    + apply (rxb_other _ _ b); [done|apply HT|done..].
Qed.

Lemma rings_behaves f acc G pk R b :
  behaves f -> rings acc G pk R b ->
  exists G', (G <= G')%nat /\ rings acc G' pk R (f b) /\ heard b `prefix_of` heard (f b).
Proof.
  intros Hf. specialize (Hf b). induction Hf as [b|b b' b'' Hs _ IH] in G |- *; intros Hr; [by exists G|].
  destruct (rings_step _ _ _ _ _ _ Hr Hs) as (G1 & H1 & Hr1 & Hp1). destruct (IH _ Hr1) as (G2 & H2 & Hr2 & Hp2).
  exists G2. split; [lia|]. split; [done|by etrans].
Qed.

End Rings.

(** * The state of the InterNiche driver

    The invariant that ties the rings to the queues of the driver and to what it has
    given back to the stack, and the steps of the code on it. *)

(** ** What the stack has been given *)

Definition freed (l : list event) : list PACKET :=
  omap (fun e => match e with Free p => Some p | _ => None end) l.

Definition received (l : list event) : list (PACKET * list Z) :=
  omap (fun e => match e with Recv p d => Some (p, d) | _ => None end) l.

(** What came of the frames that were to be passed up: a packet in the queue of the stack, or
    nothing, because the stack was asked for a packet for a new buffer and had none. *)
Definition upped (l : list event) : list (option (PACKET * list Z)) :=
  omap (fun e => match e with Recv p d => Some (Some (p, d)) | NoPacket => Some None | _ => None end) l.

Lemma freed_app l1 l2 : freed (l1 ++ l2) = freed l1 ++ freed l2.
Proof. apply omap_app. Qed.

Lemma upped_app l1 l2 : upped (l1 ++ l2) = upped l1 ++ upped l2.
Proof. apply omap_app. Qed.

Lemma received_upped l : received l = omap id (upped l).
Proof.
  unfold received, upped. induction l as [|e l IH]; [done|].
  destruct e; cbn [omap list_omap id]; by rewrite IH.
Qed.

(** ** Words *)

Lemma word_length len f : 0 <= len < 65536 -> 0 <= f < 65536 ->
  Z.shiftr (u32 (Z.lor (Z.shiftl len 16) f)) 16 = len.
Proof.
  intros Hl Hf. rewrite (lor_shift_add len f 16) by (try lia; exact Hf). change (2 ^ 16) with 65536.
  rewrite u32_id by (unfold is_u32; lia). rewrite Z.shiftr_div_pow2 by lia. change (2 ^ 16) with 65536.
  rewrite Z.div_add_l, Z.div_small by lia. lia.
Qed.

Lemma word_flag x f : Z.testbit f 15 = true -> flag15 (u32 (Z.lor x f)) = true.
Proof. intros Hf. rewrite uwrap_testbit, Z.lor_spec, Hf by lia. apply orb_true_r. Qed.

(** The next position, as the code computes it. *)
Lemma advance_slot n c : (0 < n <= 128)%nat -> advance (Z.of_nat n) (Z.of_nat (slot n c)) = Z.of_nat (slot n (S c)).
Proof.
  intros Hn. pose proof (slot_lt n c ltac:(lia)). unfold advance. rewrite slot_succ by lia.
  rewrite u8_id by (unfold is_byte; lia). rewrite Nat2Z.inj_mod, Nat2Z.inj_add. change (Z.of_nat 1) with 1.
  destruct (Z.eqb_spec (Z.of_nat (slot n c) + 1) (Z.of_nat n)) as [->|].
  - by rewrite Z_mod_same_full.
  - by rewrite Z.mod_small by lia.
Qed.

Section Driver.
Context {cfg : OcmConfig} {ok : OcmConfigOk}.

Abbreviation TXN := (Z.to_nat ETH_OCM_TX_DESC_COUNT).
Abbreviation RXN := (Z.to_nat ETH_OCM_RX_DESC_COUNT).

(** ** Loads *)

(** What a load changes: the controller has done what it was going to do. *)
Record loaded (s : st) (b : board) (e : list (board -> board)) (s' : st) : Prop := {
  l_state : s' = set_env e (set_dev b s);
  l_env : e = tail (env s);
  l_heard : heard (dev s) `prefix_of` heard b;
  l_still : env s = [] -> b = dev s;
}.

Lemma wp_ocm_hw acc G pk R (Q : unit -> st -> Prop) s :
  rings acc G pk R (dev s) -> Forall behaves (env s) ->
  (forall b e G' s', loaded s b e s' -> (G <= G')%nat -> rings acc G' pk R b -> Forall behaves e -> Q tt s') ->
  wp hw Q s.
Proof.
  intros Hr He HQ. unfold wp, hw. destruct (env s) as [|f e] eqn:E.
  - apply (HQ (dev s) [] G); [|done|done|done]. split; [by destruct s; cbn in *; subst|by rewrite E|done|done].
  - apply Forall_cons_1 in He as [Hf He]. destruct (rings_behaves f _ _ _ _ _ Hf Hr) as (G' & HG & Hr' & Hp).
    apply (HQ (f (dev s)) e G'); [|done|done|done]. split; [done|by rewrite E|done|]. by rewrite E.
Qed.

Lemma wp_rd_ctrl i acc G pk R (Q : Z -> st -> Prop) s :
  (i < 128)%nat -> rings acc G pk R (dev s) -> Forall behaves (env s) ->
  (forall b e G' bd s', loaded s b e s' -> (G <= G')%nat -> rings acc G' pk R b -> Forall behaves e ->
     bds b !! i = Some bd -> Q bd.1 s') ->
  wp (rd_ctrl i) Q s.
Proof.
  intros Hi Hr He HQ. unfold rd_ctrl. apply wp_bind, (wp_ocm_hw acc G pk R); [done..|].
  intros b e G' s' Hl HG Hr' He'. destruct (lookup_lt_is_Some_2 (bds b) i) as [bd Hbd]; [by rewrite (tx_len _ _ _ (r_tx _ _ _ _ _ Hr'))|].
  unfold bd_at. apply wp_bind. apply (wp_eq _ _ _ bd s'); [|by eapply HQ].
  rewrite (l_state _ _ _ _ Hl). cbn [dev set_env set_dev]. by rewrite Hbd.
Qed.

(** ** The invariant *)

Definition no_error (h : Z * list Z) : Prop := Z.land h.1 ETH_OCM_RXDESC_ERROR_MSK = 0.

#[global] Instance no_error_dec h : Decision (no_error h).
Proof. unfold no_error. apply _. Defined.

(** The packet and the contents of its buffer that a stored frame becomes. *)
Definition describes (h : Z * list Z) (r : PACKET * list Z) : Prop :=
  r.2 = h.2 /\ nb_prot r.1 = u32 (nb_buff r.1 + ETHHDR_SIZE) /\ nb_plen r.1 = Z.of_nat (length h.2) - 18 /\
  exists a b, h.2 !! 12%nat = Some a /\ h.2 !! 13%nat = Some b /\ p_type r.1 = a + 256 * b.

(** A frame and what came of it. *)
Definition came_up (h : Z * list Z) (o : option (PACKET * list Z)) : Prop :=
  match o with Some r => describes h r | None => True end.

(** Of the frames [hs], each one without errors has been passed up, in order, or there was no
    packet for a new buffer when its turn came. *)
Definition passed (hs : list (Z * list Z)) (l : list event) : Prop :=
  Forall2 came_up (filter no_error hs) (upped l).

(** The stack does not give a packet that the driver holds. *)
Definition gives_fresh (f : list PACKET -> option PACKET) : Prop :=
  forall held p, f held = Some p -> bptr p ∉ map bptr held.

(** [given]: the packets the stack has handed over; [taken]: those that no longer wait.
    Of the good ones among them the driver has finished the first [C]. *)
Record inv (given taken : list PACKET) (C G R : nat) (s : st) : Prop := {
  i_rings : rings (filter good taken) G (rx_pkts (inf s)) R (dev s);
  i_given : given = taken ++ tosend (inf s);
  i_sending : sending (inf s) = drop C (filter good taken);
  i_order : (C <= G)%nat;
  i_room : (length (filter good taken) <= C + TXN)%nat;
  i_cur : cur_tx_desc (inf s) = Z.of_nat (slot TXN C);
  i_next : next_tx_desc (inf s) = Z.of_nat (slot TXN (length (filter good taken)));
  i_rdy : ctrue (next_tx_desc_rdy (inf s)) = bool_decide (length (filter good taken) < C + TXN)%nat;
  i_sem : sem (inf s) = 0;
  i_good : filter good (freed (log s)) = take C (filter good taken);
  i_bad : filter (fun p => ~ good p) (freed (log s)) = filter (fun p => ~ good p) taken;
  i_rx : cur_rx_desc (inf s) = Z.of_nat (slot RXN R);
  i_passed : passed (take R (heard (dev s))) (log s);
  i_env : Forall behaves (env s);
  i_pool : Forall gives_fresh (pool s);
}.

(** The controller has gone on and nothing has been undone. *)
Record later (s s' : st) : Prop := {
  la_env : (length (env s') <= length (env s))%nat;
  la_heard : heard (dev s) `prefix_of` heard (dev s');
  la_still : env s = [] -> regs (dev s') = regs (dev s);
  la_log : log s `prefix_of` log s';
}.

#[global] Instance later_preorder : PreOrder later.
Proof.
  split; [by intros s; split|]. intros s1 s2 s3 [A1 A2 A3 A4] [B1 B2 B3 B4]. split; [lia|by etrans| |by etrans].
  intros E. rewrite B3, A3; [done|done|]. apply length_zero_iff_nil. rewrite E in A1. cbn in A1. lia.
Qed.

Lemma loaded_later s b e s' : loaded s b e s' -> later s s'.
Proof.
  intros [-> -> Hh Hs]. split; cbn; [destruct (env s); cbn; lia|done| |done].
  intros E. by rewrite Hs.
Qed.

(** A frame stays taken. *)
Lemma take_prefix_heard {A} (l l' : list A) n : l `prefix_of` l' -> (n <= length l)%nat -> take n l' = take n l.
Proof. intros [k ->] Hn. by rewrite take_app_le. Qed.

(** No packet waits while a descriptor is free. *)
Definition no_idle (s : st) : Prop := tosend (inf s) = [] \/ ctrue (next_tx_desc_rdy (inf s)) = false.

(** Reception leaves transmission alone. *)
Definition tx_same (s s' : st) : Prop :=
  tosend (inf s') = tosend (inf s) /\ next_tx_desc_rdy (inf s') = next_tx_desc_rdy (inf s).

#[global] Instance tx_same_preorder : PreOrder tx_same.
Proof. unfold tx_same. split; [done|]. intros s1 s2 s3 [A1 A2] [B1 B2]. split; congruence. Qed.

Lemma no_idle_same s s' : no_idle s -> tx_same s s' -> no_idle s'.
Proof. intros H [E1 E2]. unfold no_idle. by rewrite E1, E2. Qed.

(** The invariant after a load. *)
Lemma inv_loaded given taken C G G' R s b e s' :
  inv given taken C G R s -> loaded s b e s' -> (G <= G')%nat ->
  rings (filter good taken) G' (rx_pkts (inf s)) R b -> Forall behaves e -> inv given taken C G' R s'.
Proof.
  intros [] [-> -> Hh Hs] HG Hr He. split; cbn; try done; [lia|].
  rewrite (take_prefix_heard _ _ _ Hh); [done|]. apply i_rings0.
Qed.

Lemma slot_tx c : txdesc (Z.of_nat (slot TXN c)) = slot TXN c.
Proof. unfold txdesc. lia. Qed.

Lemma slot_rx c : rxdesc (Z.of_nat (slot RXN c)) = (TXN + slot RXN c)%nat.
Proof. unfold rxdesc. destruct ok. lia. Qed.

Lemma slot_tx_lt c : (slot TXN c < 128)%nat.
Proof. pose proof (slot_lt TXN c ocm_TXN_pos). pose proof bds_room. lia. Qed.

Lemma slot_rx_lt c : (TXN + slot RXN c < 128)%nat.
Proof. pose proof (slot_lt RXN c ocm_RXN_pos). pose proof bds_room. lia. Qed.

Lemma advance_tx c : advance ETH_OCM_TX_DESC_COUNT (Z.of_nat (slot TXN c)) = Z.of_nat (slot TXN (S c)).
Proof.
  pose proof ocm_TXN_pos. pose proof ocm_RXN_pos. pose proof bds_room.
  replace ETH_OCM_TX_DESC_COUNT with (Z.of_nat TXN) at 1 by lia. apply advance_slot. lia.
Qed.

Lemma advance_rx c : advance ETH_OCM_RX_DESC_COUNT (Z.of_nat (slot RXN c)) = Z.of_nat (slot RXN (S c)).
Proof.
  pose proof ocm_TXN_pos. pose proof ocm_RXN_pos. pose proof bds_room.
  replace ETH_OCM_RX_DESC_COUNT with (Z.of_nat RXN) at 1 by lia. apply advance_slot. lia.
Qed.

End Driver.
