(* ===== verification/OcmTx.v ===== *)
(** * Transmission in the InterNiche driver

    What the two loops of [eth_ocm_tx_isr] and [eth_ocm_low_send] do to the
    invariant of the driver. *)

From stdpp Require Import relations functions.
From S2P Require Import Prelude.
From S2P Require Import Ring.
From S2P Require Import Ocm.
From S2P Require Import OcmFacts.

Section Tx.
Context {cfg : OcmConfig} {ok : OcmConfigOk}.

Abbreviation TXN := (Z.to_nat ETH_OCM_TX_DESC_COUNT).
Abbreviation RXN := (Z.to_nat ETH_OCM_RX_DESC_COUNT).

Lemma wp_info_of {A} (f : eth_ocm_info -> A) (Q : A -> st -> Prop) s : Q (f (inf s)) s -> wp (info_of f) Q s.
Proof. done. Qed.

Lemma wp_upd f (Q : unit -> st -> Prop) s : Q tt (upd_inf f s) -> wp (upd f) Q s.
Proof. done. Qed.

Lemma wp_bump get set n (Q : unit -> st -> Prop) s : (forall c, Q tt (set_m c s)) -> wp (bump get set n) Q s.
Proof. intros HQ. apply HQ. Qed.

Lemma wp_account result p (Q : unit -> st -> Prop) s : (forall c, Q tt (set_m c s)) -> wp (tx_account result p) Q s.
Proof.
  intros HQ. unfold tx_account. destruct (ctrue _); [by apply wp_bump|].
  apply wp_bind, wp_bump. intros c. apply wp_bump. intros c'. apply (HQ c').
Qed.

(** ** Finished descriptors *)

Lemma rings_le acc G pk R b : rings acc G pk R b -> (G <= length acc <= G + TXN)%nat.
Proof. intros [HT _]. apply HT. Qed.

(** The descriptor of the oldest packet is not ready: its frame has been sent. *)
Lemma finished_sent acc G pk R b C bd :
  rings acc G pk R b -> (C < length acc)%nat -> bds b !! slot TXN C = Some bd -> flag15 bd.1 = false -> (C < G)%nat.
Proof.
  intros [HT _] HC Hb Hf. apply Nat.nle_gt. intros Hge. destruct (lookup_lt_is_Some_2 acc C HC) as [p Hp].
  destruct (tx_pending _ _ _ HT C p Hge Hp) as (w & Hb' & Hf' & _). rewrite Hb in Hb'. injection Hb' as ->.
  cbn [fst] in Hf. congruence.
Qed.

(** The state after the packet [p], the oldest, has been given back. *)
Definition gave_back (p : PACKET) (C : nat) (c : mib) (s : st) : st :=
  upd_inf (fun i => set_next_tx_desc_rdy 1 (set_cur_tx_desc (Z.of_nat (slot TXN (S C))) (set_sending (tail (sending i)) i)))
    (set_log (log s ++ [Free p]) (set_m c s)).

Lemma inv_gave_back given taken C G R p c s :
  inv given taken C G R s -> filter good taken !! C = Some p -> (C < G)%nat -> inv given taken (S C) G R (gave_back p C c s).
Proof.
  intros [Irings Igiven Isend Iord Iroom Icur Inext Irdy Isem Igood Ibad Irx Ipass Ienv Ipool] Hp HC. pose proof (lookup_lt_Some _ _ _ Hp) as Hlt.
  assert (good p) as Hgood by (by apply list_elem_of_lookup_2, list_elem_of_filter in Hp as [? _]).
  split; cbn; try done; try lia.
  - rewrite Isend. by rewrite (drop_S _ _ _ Hp).
  - rewrite bool_decide_eq_true_2; [done|lia].
  - rewrite freed_app, list.filter_app, Igood. change (freed [Free p]) with [p]. rewrite filter_cons_True by done. by rewrite (take_S_r _ _ _ Hp).
  - rewrite freed_app, list.filter_app, Ibad. change (freed [Free p]) with [p]. rewrite filter_cons_False by (intros H; by apply H). by rewrite app_nil_r.
  - unfold passed in *. by rewrite upped_app, app_nil_r.
Qed.

Lemma wp_tx_finish fuel given taken C G R (Q : unit -> st -> Prop) s :
  inv given taken C G R s -> (length (sending (inf s)) <= fuel)%nat ->
  (forall C' G' s', inv given taken C' G' R s' -> later s s' -> (C <= C')%nat -> tosend (inf s') = tosend (inf s) -> Q tt s') ->
  wp (tx_finish fuel) Q s.
Proof.
  revert C G s. induction fuel as [|f IH]; intros C G s Hi Hf HQ; cbn [tx_finish];
    apply wp_bind, wp_info_of, wp_bind, wp_info_of, wp_bind, wp_info_of, wp_bind, wp_info_of.
  - destruct (sending (inf s)) as [|q l]; [|cbn in Hf; lia]. cbn. by apply (HQ C G).
  - destruct ((0 <? _) && _) eqn:Hcond; [|by apply (HQ C G)].
    apply andb_true_iff in Hcond as [Hlen _]. apply Z.ltb_lt in Hlen.
    pose proof (i_sending _ _ _ _ _ _ Hi) as Hs. rewrite Hs, length_drop in Hlen.
    rewrite (i_cur _ _ _ _ _ _ Hi), slot_tx.
    apply wp_bind, (wp_rd_ctrl _ (filter good taken) G (rx_pkts (inf s)) R);
      [apply slot_tx_lt|apply Hi|apply Hi|]. intros b e G1 bd s1 Hl HG1 Hr1 He1 Hbd.
    pose proof (inv_loaded _ _ _ _ _ _ _ _ _ _ Hi Hl HG1 Hr1 He1) as Hi1.
    pose proof (loaded_later _ _ _ _ Hl) as Hla. pose proof (l_state _ _ _ _ Hl) as Hst.
    rewrite flag_msk. destruct (flag15 bd.1) eqn:Hfl; [apply (HQ C G1); [done|done|lia|by rewrite Hst]|].
    assert (C < G1)%nat as HC by (eapply finished_sent; [exact Hr1|lia|exact Hbd|done]).
    destruct (lookup_lt_is_Some_2 (filter good taken) C) as [p Hp]; [lia|].
    assert (sending (inf s1) = p :: drop (S C) (filter good taken)) as Hs1
      by (rewrite (i_sending _ _ _ _ _ _ Hi1); by apply drop_S).
    apply wp_bind. unfold getq. apply (wp_eq _ _ _ p (upd_inf (set_sending (drop (S C) (filter good taken))) s1)); [by rewrite Hs1|].
    apply wp_bind, (wp_rd_ctrl _ (filter good taken) G1 (rx_pkts (inf s)) R); [apply slot_tx_lt| | |].
    { rewrite Hst. exact Hr1. }
    { apply Hi1. }
    intros b2 e2 G2 bd2 s2 Hl2 HG2 Hr2 He2 _. apply wp_bind, wp_account. intros c.
    apply wp_bind, wp_modify, wp_bind, wp_upd, wp_bind, wp_upd.
    rewrite advance_tx.
    assert (loaded s1 b2 e2 (set_env e2 (set_dev b2 s1))) as Hl2'.
    { destruct Hl2 as [_ H2 H3 H4]. by split. }
    assert (inv given taken C G2 R (set_env e2 (set_dev b2 s1))) as Hi2.
    { eapply inv_loaded; [exact Hi1|exact Hl2'|done| |done]. rewrite Hst. exact Hr2. }
    pose proof (inv_gave_back _ _ _ _ _ p c _ Hi2 Hp ltac:(lia)) as Hi3.
    assert (forall s3, s3 = gave_back p C c (set_env e2 (set_dev b2 s1)) -> later s s3) as Hla3.
    { intros s3 ->. transitivity s1; [done|]. transitivity (set_env e2 (set_dev b2 s1)); [by eapply loaded_later|].
      split; cbn; [done|done|done|by apply prefix_app_r]. }
    match goal with |- wp _ _ ?s3 => assert (s3 = gave_back p C c (set_env e2 (set_dev b2 s1))) as -> end.
    { rewrite (l_state _ _ _ _ Hl2). unfold gave_back, upd_inf. cbn. rewrite Hs1. reflexivity. }
    eapply IH; [exact Hi3| |].
    + cbn. rewrite Hs1. cbn. rewrite length_drop. rewrite Hs, length_drop in Hf. lia.
    + intros C' G' s' Hi' Hla' HC' Hts. eapply HQ; [exact Hi'| |lia|by rewrite Hts, Hst].
      etrans; [by apply Hla3|done].
Qed.

(** ** A transfer *)

Lemma check_len_good p : if decide (good p) then check_len (frame p).2 SUCCESS = SUCCESS else check_len (frame p).2 SUCCESS <> SUCCESS.
Proof.
  destruct success_not as (S1 & S2 & _). unfold good, check_len, ETH_OCM_MIN_MTU, ETH_OCM_MAX_MTU.
  case_decide as H; destruct (Z.ltb_spec (frame p).2 4), (Z.gtb_spec (frame p).2 1518); try lia; congruence.
Qed.

(** A frame is written to the next descriptor. *)
Lemma rings_accept acc G pk R b p w :
  rings acc G pk R b -> (length acc < G + TXN)%nat -> flag15 w = true -> Z.shiftr w 16 = (frame p).2 ->
  rings (acc ++ [p]) G pk R (bd_put (slot TXN (length acc)) (w, (frame p).1) b).
Proof.
  intros [HT HR] Hroom Hf Hlen. pose proof ocm_TXN_pos as Hn. pose proof bds_room as Hbr. pose proof (slot_lt TXN (length acc) ocm_TXN_pos) as Hsl.
  destruct HT as [H1 H2 H3 H4 H5 H6]. split.
  - split; cbn [bds tx_pos wire bd_put set_bds].
    + by rewrite length_insert.
    + done.
    + rewrite H3, take_app_le by lia. done.
    + rewrite length_app. cbn. lia.
    + intros j q Hj Hq. apply lookup_app_Some in Hq as [Hq|[Hge Hq]].
      * pose proof (lookup_lt_Some _ _ _ Hq). rewrite list_lookup_insert_ne; [by apply H5|].
        intros E. apply (slot_inj TXN G) in E; lia.
      * apply list_lookup_singleton_Some in Hq as [Hj0 <-]. assert (j = length acc) as -> by lia.
        rewrite list_lookup_insert_eq by lia. exists w. by split.
    + rewrite length_app. cbn [length]. intros j Hj. rewrite list_lookup_insert_ne; [apply H6; lia|].
      intros E. apply (slot_inj TXN (length acc)) in E; lia.
  - apply (rxb_other _ _ b); [done|by cbn; rewrite length_insert| |done..].
    intros i Hi. cbn. by rewrite list_lookup_insert_ne by lia.
Qed.

(** The outcome of a transfer: a good packet is in the ring, the state of the driver is
    as before. *)
Definition sent_or_refused (p : PACKET) (acc : list PACKET) (G : nat) (pk : list PACKET) (R : nat) (s : st)
    (Q : Z -> st -> Prop) : Prop :=
  forall b e G' s0, loaded s b e s0 -> (G <= G')%nat -> Forall behaves e ->
    if decide (good p) then
      forall b', rings (acc ++ [p]) G' pk R b' -> heard b' = heard b -> regs b' = regs b -> Q SUCCESS (set_env e (set_dev b' s))
    else rings acc G' pk R b -> forall r, r <> SUCCESS -> Q r (set_env e (set_dev b s)).

Lemma wp_wr_ptr i v bd (Q : unit -> st -> Prop) s :
  bds (dev s) !! i = Some bd -> Q tt (upd_dev (bd_put i (bd.1, u32 v)) s) -> wp (wr_ptr i v) Q s.
Proof. intros Hb HQ. unfold wr_ptr, bd_at. apply wp_bind. by apply (wp_eq _ _ _ bd s); [rewrite Hb|]. Qed.

Lemma wp_wr_ctrl i v bd (Q : unit -> st -> Prop) s :
  bds (dev s) !! i = Some bd -> Q tt (upd_dev (bd_put i (u32 v, bd.2)) s) -> wp (wr_ctrl i v) Q s.
Proof. intros Hb HQ. unfold wr_ctrl, bd_at. apply wp_bind. by apply (wp_eq _ _ _ bd s); [rewrite Hb|]. Qed.

(** The word of a transfer. *)
Lemma tx_word len wrap :
  0 <= len < 65536 ->
  let w := flags [Z.shiftl len 16; 32768; 16384; 4096; 2048] in
  let w := if (wrap : bool) then Z.lor w 8192 else w in
  flag15 (u32 w) = true /\ Z.shiftr (u32 w) 16 = len.
Proof.
  intros Hl. cbv zeta.
  assert (flags [Z.shiftl len 16; 32768; 16384; 4096; 2048] = Z.lor (Z.shiftl len 16) 55296) as -> by reflexivity.
  destruct wrap.
  - rewrite <- Z.lor_assoc. change (Z.lor 55296 8192) with 63488. split; [by apply word_flag|by apply word_length].
  - split; [by apply word_flag|by apply word_length].
Qed.

Lemma wp_low_send p acc G pk R (Q : Z -> st -> Prop) s :
  rings acc G pk R (dev s) -> Forall behaves (env s) -> sem (inf s) = 0 ->
  next_tx_desc (inf s) = Z.of_nat (slot TXN (length acc)) -> (length acc < G + TXN)%nat ->
  sent_or_refused p acc G pk R s Q -> wp (eth_ocm_low_send (nb_prot p) (nb_plen p)) Q s.
Proof.
  intros Hr He Hsem Hnext Hroom HQ. unfold eth_ocm_low_send. cbv zeta.
  change (u32 (nb_plen p - ETHHDR_BIAS)) with (frame p).2. change (buf_ptr (nb_prot p)) with (frame p).1.
  apply wp_bind, wp_info_of. rewrite Hsem. cbn [ctrue Z.eqb negb].
  apply wp_bind, wp_upd, wp_bind, wp_info_of. cbn [inf upd_inf set_inf next_tx_desc set_sem]. rewrite Hnext, slot_tx.
  apply wp_bind, (wp_rd_ctrl _ acc G pk R); [apply slot_tx_lt|done|done|].
  intros b e G' bd s1 Hl HG Hr1 He1 Hbd. rewrite (l_state _ _ _ _ Hl).
  destruct (tx_idle _ _ _ (r_tx _ _ _ _ _ Hr1) (length acc)) as (bd' & Hbd' & Hf); [pose proof (rings_le _ _ _ _ _ Hr1); lia|].
  rewrite Hbd in Hbd'. injection Hbd' as <-. rewrite flag_msk, Hf.
  assert (forall b', set_inf (set_sem 0 (set_sem 1 (inf s))) (set_env e (set_dev b' s)) = set_env e (set_dev b' s)) as Hset.
  { intros b'. destruct s as [i ? ? ? ? ? ? ?], i. cbn in *. by rewrite Hsem. }
  assert (loaded s b e (set_env e (set_dev b s))) as Hl0 by (destruct Hl as [_ L2 L3 L4]; by split).
  specialize (HQ b e G' _ Hl0 HG He1). pose proof (check_len_good p) as Hc. case_decide as Hgood.
  - rewrite Hc, Z.eqb_refl. apply wp_bind, wp_bind, (wp_wr_ptr _ _ bd); [done|].
    assert (0 <= (frame p).2 < 65536) as Hlen by (unfold good, ETH_OCM_MIN_MTU, ETH_OCM_MAX_MTU in Hgood; lia).
    destruct (tx_word _ (Z.of_nat (slot TXN (length acc)) =? ETH_OCM_TX_DESC_COUNT - 1) Hlen) as [Hw1 Hw2].
    set (w := u32 _) in Hw1, Hw2.
    apply wp_bind, (wp_wr_ctrl _ _ (bd.1, u32 (frame p).1)).
    { cbn. rewrite list_lookup_insert_eq; [done|]. by eapply lookup_lt_Some. }
    apply wp_ret, wp_bind, wp_upd, wp_ret. fold w.
    match goal with |- Q _ ?s2 => replace s2 with (set_env e (set_dev (bd_put (slot TXN (length acc)) (w, (frame p).1) b) s)) end.
    + apply HQ; [apply rings_accept; [done|lia|done|done]|done|done].
    + assert (u32 (frame p).1 = (frame p).1) as Hp by apply u32_id, u32_range.
      rewrite <- Hset, Hp. 
      match goal with |- context [u32 (if ?c then ?a else ?d)] => change (u32 (if c then a else d)) with w end. clearbody w.
      unfold upd_dev, upd_inf, bd_put, set_bds. cbn [dev set_env set_dev set_inf inf bds regs tx_pos rx_pos wire heard mem snd fst].
      by rewrite list_insert_insert_eq.
  - rewrite (proj2 (Z.eqb_neq _ _) Hc). apply wp_bind, wp_ret, wp_bind, wp_upd, wp_ret.
    match goal with |- Q _ ?s2 => change s2 with (set_inf (set_sem 0 (set_sem 1 (inf s))) (set_env e (set_dev b s))) end.
    rewrite Hset. by apply HQ.
Qed.

(** ** The packets that wait *)

(** The states after a waiting packet [p] has been taken. *)
Definition started (p : PACKET) (n : nat) (full : bool) (rest : list PACKET) (s : st) : st :=
  upd_inf (fun i => set_sending (sending i ++ [p])
    ((if full then set_next_tx_desc_rdy 0 else id) (set_next_tx_desc (Z.of_nat (slot TXN n)) (set_tosend rest i)))) s.

Definition refused (p : PACKET) (c : mib) (rest : list PACKET) (s : st) : st :=
  set_log (log s ++ [Free p]) (set_m c (upd_inf (set_tosend rest) s)).

Lemma slot_full C n : (C < n <= C + TXN)%nat ->
  (Z.of_nat (slot TXN n) =? Z.of_nat (slot TXN C)) = bool_decide (n = C + TXN)%nat.
Proof.
  intros Hn. pose proof ocm_TXN_pos. destruct (decide (n = C + TXN)%nat) as [->|Hne].
  - rewrite slot_wrap by done. rewrite Z.eqb_refl. symmetry. by apply bool_decide_eq_true_2.
  - rewrite bool_decide_eq_false_2 by done. apply Z.eqb_neq. intros E.
    assert (slot TXN n = slot TXN C) as E' by lia. apply (slot_inj TXN C) in E'; lia.
Qed.

Lemma passed_free hs l p : passed hs l -> passed hs (l ++ [Free p]).
Proof. unfold passed. by rewrite upped_app, app_nil_r. Qed.

Lemma started_fields p n full rest s :
  let i := inf (started p n full rest s) in
  rx_pkts i = rx_pkts (inf s) /\ tosend i = rest /\ sending i = sending (inf s) ++ [p] /\
  cur_tx_desc i = cur_tx_desc (inf s) /\ next_tx_desc i = Z.of_nat (slot TXN n) /\
  next_tx_desc_rdy i = (if full then 0 else next_tx_desc_rdy (inf s)) /\ sem i = sem (inf s) /\
  cur_rx_desc i = cur_rx_desc (inf s).
Proof. by destruct full. Qed.

Lemma inv_started given taken C G G' R p rest s b' :
  inv given taken C G R s -> tosend (inf s) = p :: rest -> good p -> (length (filter good taken) < C + TXN)%nat ->
  (G <= G')%nat -> rings (filter good taken ++ [p]) G' (rx_pkts (inf s)) R b' -> heard (dev s) `prefix_of` heard b' ->
  inv given (taken ++ [p]) C G' R
    (started p (S (length (filter good taken))) (bool_decide (S (length (filter good taken)) = C + TXN)%nat) rest (set_dev b' s)).
Proof.
  intros [Irings Igiven Isend Iord Iroom Icur Inext Irdy Isem Igood Ibad Irx Ipass Ienv Ipool] Hts Hg Hroom HG Hr Hh.
  pose proof (rings_le _ _ _ _ _ Irings) as Hle.
  assert (filter good (taken ++ [p]) = filter good taken ++ [p]) as Hf
    by (rewrite list.filter_app; by rewrite (filter_cons_True _ p)).
  set (full := bool_decide (S (length (filter good taken)) = C + TXN)%nat).
  destruct (started_fields p (S (length (filter good taken))) full rest (set_dev b' s)) as (F1 & F2 & F3 & F4 & F5 & F6 & F7 & F8).
  split; rewrite ?F1, ?F2, ?F3, ?F4, ?F5, ?F6, ?F7, ?F8, ?Hf; cbn [inf set_dev].
  - exact Hr.
  - by rewrite Igiven, Hts, <- app_assoc.
  - rewrite Isend, drop_app_le by lia. done.
  - lia.
  - rewrite length_app. cbn [length]. lia.
  - done.
  - rewrite length_app. cbn [length]. by rewrite Nat.add_1_r.
  - rewrite length_app. cbn [length]. subst full. destruct (decide (S (length (filter good taken)) = C + TXN)%nat) as [E|E].
    + rewrite bool_decide_eq_true_2 by done. rewrite bool_decide_eq_false_2 by lia. done.
    + rewrite bool_decide_eq_false_2 by done. rewrite Irdy. rewrite !bool_decide_eq_true_2 by lia. done.
  - done.
  - cbn [log started upd_inf set_inf set_dev]. rewrite Igood, take_app_le by lia. done.
  - cbn [log started upd_inf set_inf set_dev]. rewrite Ibad, list.filter_app, (filter_cons_False _ p) by (intros H; by apply H). by rewrite app_nil_r.
  - done.
  - cbn [log dev started upd_inf set_inf set_dev]. rewrite (take_prefix_heard _ _ _ Hh); [done|apply Irings].
  - done.
  - done.
Qed.

Lemma inv_refused given taken C G R p rest s c :
  inv given taken C G R s -> tosend (inf s) = p :: rest -> ~ good p ->
  inv given (taken ++ [p]) C G R (refused p c rest s).
Proof.
  intros [Irings Igiven Isend Iord Iroom Icur Inext Irdy Isem Igood Ibad Irx Ipass Ienv Ipool] Hts Hg.
  assert (filter good (taken ++ [p]) = filter good taken) as Hf
    by (rewrite list.filter_app, (filter_cons_False _ p) by done; by rewrite app_nil_r).
  split; rewrite ?Hf; cbn; try done.
  - by rewrite Igiven, Hts, <- app_assoc.
  - rewrite freed_app, list.filter_app. change (freed [Free p]) with [p]. rewrite (filter_cons_False _ p) by done.
    by rewrite app_nil_r.
  - rewrite freed_app, !list.filter_app, Ibad. done.
  - by apply passed_free.
Qed.

Lemma later_set_dev s b e b' s' :
  loaded s b e (set_env e (set_dev b s)) -> heard b' = heard b -> regs b' = regs b ->
  env s' = e -> dev s' = b' -> log s `prefix_of` log s' -> later s s'.
Proof.
  intros Hl Hh Hr He Hd Hlog. destruct (loaded_later _ _ _ _ Hl) as [L1 L2 L3 L4]. cbn in *.
  split; rewrite ?He, ?Hd, ?Hh, ?Hr; done.
Qed.

Lemma wp_ocm_tx_start fuel given taken C G R (Q : unit -> st -> Prop) s :
  inv given taken C G R s -> (length (tosend (inf s)) <= fuel)%nat ->
  (forall taken' G' s', inv given taken' C G' R s' -> later s s' -> no_idle s' -> Q tt s') ->
  wp (tx_start fuel) Q s.
Proof.
  revert taken G s. induction fuel as [|f IH]; intros taken G s Hi Hf HQ; cbn [tx_start];
    apply wp_bind, wp_info_of, wp_bind, wp_info_of.
  - destruct (tosend (inf s)) as [|q l] eqn:Hts; [|cbn in Hf; lia]. cbn. rewrite andb_false_r. apply (HQ taken G); [done|done|by left].
  - destruct (ctrue _ && _) eqn:Hcond.
    2: { apply (HQ taken G); [done|done|]. apply andb_false_iff in Hcond as [Hc|Hc]; [by right|left].
         destruct (tosend (inf s)); [done|]. apply Z.ltb_ge in Hc. cbn in Hc. lia. }
    apply andb_true_iff in Hcond as [Hrdy Hlen]. apply Z.ltb_lt in Hlen.
    rewrite (i_rdy _ _ _ _ _ _ Hi) in Hrdy. apply bool_decide_eq_true_1 in Hrdy.
    destruct (tosend (inf s)) as [|p rest] eqn:Hts; [cbn in Hlen; lia|].
    apply wp_bind, wp_info_of. rewrite (i_next _ _ _ _ _ _ Hi), slot_tx.
    apply wp_bind, (wp_rd_ctrl _ (filter good taken) G (rx_pkts (inf s)) R); [apply slot_tx_lt|apply Hi|apply Hi|].
    intros b e G1 bd s1 Hl HG1 Hr1 He1 Hbd.
    pose proof (inv_loaded _ _ _ _ _ _ _ _ _ _ Hi Hl HG1 Hr1 He1) as Hi1. pose proof (loaded_later _ _ _ _ Hl) as Hla.
    assert (tosend (inf s1) = p :: rest) as Hts1 by (by rewrite (l_state _ _ _ _ Hl)).
    pose proof (i_order _ _ _ _ _ _ Hi1) as HCG.
    destruct (tx_idle _ _ _ (r_tx _ _ _ _ _ Hr1) (length (filter good taken))) as (bd' & Hbd' & Hfl); [pose proof (rings_le _ _ _ _ _ Hr1); lia|].
    rewrite Hbd in Hbd'. injection Hbd' as <-. rewrite flag_msk, Hfl.
    apply wp_bind. unfold getq. apply (wp_eq _ _ _ p (upd_inf (set_tosend rest) s1)); [by rewrite Hts1|].
    apply wp_bind, (wp_low_send p (filter good taken) G1 (rx_pkts (inf s1)) R); [apply Hi1|apply Hi1|apply Hi1|apply Hi1|lia|].
    intros b2 e2 G2 s2 Hl2 HG2 He2.
    assert (loaded s1 b2 e2 (set_env e2 (set_dev b2 s1))) as Hl2' by (destruct Hl2 as [_ L2 L3 L4]; by split).
    pose proof (rings_le _ _ _ _ _ Hr1) as Hle. case_decide as Hgood.
    + intros b3 Hr3 Hh3 Hg3. rewrite Z.eqb_refl. cbn [negb].
      assert (inv given taken C G1 R (set_env e2 s1)) as Hi2 by (destruct Hi1; by split).
      pose proof (inv_started _ _ _ _ G2 _ p rest _ b3 Hi2 Hts1 Hgood Hrdy HG2 Hr3) as Hi3.
      cbn [dev set_env] in Hi3. rewrite Hh3 in Hi3. specialize (Hi3 (l_heard _ _ _ _ Hl2')).
      assert (forall s3, s3 = started p (S (length (filter good taken))) (bool_decide (S (length (filter good taken)) = C + TXN)%nat) rest (set_dev b3 (set_env e2 s1)) ->
        wp (tx_start f) Q s3) as Hrest.
      { intros s3 ->. eapply IH; [exact Hi3| |].
        - destruct (started_fields p (S (length (filter good taken))) (bool_decide (S (length (filter good taken)) = C + TXN)%nat) rest (set_dev b3 (set_env e2 s1))) as (_ & -> & _). cbn in Hf. lia.
        - intros taken' G' s' Hi' Hla' Hni. apply (HQ taken' G'); [done| |done]. etrans; [exact Hla|]. etrans; [|exact Hla'].
          eapply (later_set_dev s1 b2 e2 b3); done. }
      apply wp_bind, wp_bind, wp_upd, wp_bind, wp_info_of, wp_bind, wp_info_of, wp_bind, wp_when;
        cbn [inf upd_inf set_inf set_env set_dev next_tx_desc cur_tx_desc set_next_tx_desc set_tosend];
        rewrite (i_next _ _ _ _ _ _ Hi1), (i_cur _ _ _ _ _ _ Hi1), advance_tx, slot_full by lia; intros Hfull;
        rewrite Hfull in Hrest; [apply wp_upd|]; apply wp_upd; apply Hrest; unfold started, upd_inf; cbn;
        rewrite (i_next _ _ _ _ _ _ Hi1), advance_tx; reflexivity.
    + intros Hr3 r Hne. rewrite (proj2 (Z.eqb_neq _ _)) by done. cbn [negb].
      assert (inv given taken C G2 R (set_env e2 (set_dev b2 s1))) as Hi2 by (by eapply inv_loaded).
      apply wp_bind, wp_bind, wp_bump. intros c. apply wp_modify. eapply IH; [by apply (inv_refused _ _ _ _ _ p rest _ c Hi2)|cbn in Hf |- *; lia|].
      intros taken' G' s' Hi' Hla' Hni. apply (HQ taken' G'); [done| |done]. etrans; [exact Hla|]. etrans; [|exact Hla'].
      eapply (later_set_dev s1 b2 e2 b2); try done. cbn. by apply prefix_app_r.
Qed.

(** The handler takes finished frames and starts waiting ones. *)
Lemma wp_tx_isr fuel given taken C G R (Q : unit -> st -> Prop) s :
  inv given taken C G R s -> (TXN <= fuel)%nat -> (length (tosend (inf s)) <= fuel)%nat ->
  (forall taken' C' G' s', inv given taken' C' G' R s' -> later s s' -> no_idle s' -> Q tt s') ->
  wp (eth_ocm_tx_isr fuel) Q s.
Proof.
  intros Hi Hf1 Hf2 HQ. unfold eth_ocm_tx_isr. apply wp_bind. eapply wp_tx_finish; [exact Hi| |].
  - rewrite (i_sending _ _ _ _ _ _ Hi), length_drop. pose proof (i_room _ _ _ _ _ _ Hi). lia.
  - intros C' G' s' Hi' Hla HC Hts. eapply wp_ocm_tx_start; [exact Hi'|by rewrite Hts|].
    intros taken' G'' s'' Hi'' Hla' Hni. eapply HQ; [exact Hi''|by etrans|done].
Qed.

Lemma wp_pkt_send fuel given taken C G R p (Q : Z -> st -> Prop) s :
  inv given taken C G R s -> (TXN <= fuel)%nat -> (length (tosend (inf s)) < fuel)%nat ->
  (forall taken' C' G' s', inv (given ++ [p]) taken' C' G' R s' -> later s s' -> no_idle s' -> Q SUCCESS s') ->
  wp (eth_ocm_pkt_send fuel p) Q s.
Proof.
  intros Hi Hf1 Hf2 HQ. unfold eth_ocm_pkt_send. apply wp_bind, wp_upd, wp_bind.
  eapply (wp_tx_isr fuel (given ++ [p]) taken C G R).
  - destruct Hi as [I1 I2 I3 I4 I5 I6 I7 I8 I9 I10 I11 I12 I13 I14 I15]. split; try done. cbn. by rewrite I2, <- app_assoc.
  - done.
  - cbn. rewrite length_app. cbn. lia.
  - intros taken' C' G' s' Hi' Hla Hni. apply wp_ret. eapply HQ; [exact Hi'| |done].
    destruct Hla. by split.
Qed.

End Tx.
