(* ===== verification/OcmPhy.v ===== *)
(** * The PHY of the InterNiche driver (eth_ocm/HAL: eth_ocm_phy.c)

    The registers of the PHY are read and written through the MII registers of the
    controller, each access waiting until the interface is idle. *)

From stdpp Require Import functions.
From stdpp Require Import relations functions.
From S2P Require Import Prelude.
From S2P Require Import Ocm.
From S2P Require Import OcmFacts.
From S2P Require Import OcmTx.

Definition ETH_OCM_MIICOMMAND_WCTRLDATA_MSK : Z := 4.
Definition ETH_OCM_MIICOMMAND_RSTAT_MSK : Z := 2.
Definition ETH_OCM_MIIADDRESS_RGAD_MSK : Z := 7936.
Definition ETH_OCM_MIIADDRESS_RGAD_OFST : Z := 8.
Definition ETH_OCM_MIIADDRESS_FIAD_MSK : Z := 31.
Definition ETH_OCM_MIISTATUS_BUSY_MSK : Z := 2.

Definition ETH_OCM_PHY_ADDR_CONTROL : Z := 0.
Definition ETH_OCM_PHY_ADDR_STATUS : Z := 1.
Definition ETH_OCM_PHY_ADDR_PHY_ID1 : Z := 2.
Definition ETH_OCM_PHY_ADDR_PHY_ID2 : Z := 3.
Definition ETH_OCM_PHY_ADDR_ADV : Z := 4.

Definition ETH_OCM_PHYID_LXT972A : Z := 0x1378E2.
Definition ETH_OCM_PHYID_MVL : Z := 0x141.
Definition ETH_OCM_PHYID_DP83848C : Z := 0x20005C90.
Definition ETH_OCM_PHYID_VCS8641 : Z := 0x70431.

Definition ETH_OCM_PHY_TIMEOUT_THRESHOLD : Z := 100000.
Definition PCS_CTL_an_restart : Z := 512.
Definition PCS_ST_an_done : Z := 32.

Section Phy.
Context {cfg : OcmConfig}.

(** ** The registers of the PHY *)

Definition eth_ocm_set_phy_addr (phyad reg : Z) : M st unit :=
  let phyad := Z.land phyad ETH_OCM_MIIADDRESS_FIAD_MSK in
  let reg := Z.shiftl reg ETH_OCM_MIIADDRESS_RGAD_OFST in
  let reg := Z.land reg ETH_OCM_MIIADDRESS_RGAD_MSK in
  wr ETH_OCM_MIIADDRESS (Z.lor phyad reg).

(** At most [n] loads. *)
Fixpoint wait_loop (n : nat) (temp : Z) : M st Z :=
  if ctrue temp then
    match n with
    | O => mret temp
    | S k => temp ← rd ETH_OCM_MIISTATUS; wait_loop k (Z.land temp ETH_OCM_MIISTATUS_BUSY_MSK)
    end
  else mret temp.

Definition eth_ocm_wait : M st Z := wait_loop (Z.to_nat 1000) 1.

Definition eth_ocm_write_phy_reg (phyad reg data : Z) : M st unit :=
  eth_ocm_set_phy_addr phyad reg;;
  wr ETH_OCM_MIITX_DATA data;;
  wr ETH_OCM_MIICOMMAND ETH_OCM_MIICOMMAND_WCTRLDATA_MSK;;
  eth_ocm_wait;;
  mret tt.

Definition eth_ocm_read_phy_reg (phyad reg : Z) : M st Z :=
  eth_ocm_set_phy_addr phyad reg;;
  wr ETH_OCM_MIICOMMAND ETH_OCM_MIICOMMAND_RSTAT_MSK;;
  eth_ocm_wait;;
  result ← rd ETH_OCM_MIIRX_DATA;
  mret (s32 result).

(** ** Detection *)

(** The address and the two parts of the identity of the PHY; the loop variable is [dat],
    and [n] rounds are left after this one. *)
Fixpoint detect (n : nat) (dat : Z) : M st (Z * Z * Z) :=
  phyid ← eth_ocm_read_phy_reg dat ETH_OCM_PHY_ADDR_PHY_ID1;
  phyid2 ← eth_ocm_read_phy_reg dat ETH_OCM_PHY_ADDR_PHY_ID2;
  if negb (phyid =? phyid2) && negb (phyid2 =? 0xffff) then mret (dat, phyid, phyid2)
  else
    match n with
    | O => mret (0, phyid, phyid2)
    | S k => detect k (dat + 1)
    end.

Definition is_id (id phyid phyid2 : Z) : bool :=
  (phyid =? Z.shiftr id 16) && (phyid2 =? Z.land id 0xFFFF).

(** ** Setting up *)

(** 1000BASE-T is disabled and the autonegotiation restarted. *)
Definition renegotiate (phyadd : Z) : M st unit :=
  dat ← eth_ocm_read_phy_reg phyadd 9;
  eth_ocm_write_phy_reg phyadd 9 (Z.land dat 0xFCFF);;
  dat ← eth_ocm_read_phy_reg phyadd ETH_OCM_PHY_ADDR_CONTROL;
  eth_ocm_write_phy_reg phyadd ETH_OCM_PHY_ADDR_CONTROL (Z.lor dat PCS_CTL_an_restart).

(** Bits of a register are replaced. *)
Definition patch (phyadd reg clear set : Z) : M st unit :=
  dat ← eth_ocm_read_phy_reg phyadd reg;
  eth_ocm_write_phy_reg phyadd reg (Z.lor (Z.land dat (Z.lnot clear)) set).

Definition vcs_script (phyadd : Z) : M st unit :=
  eth_ocm_write_phy_reg phyadd 31 0x52B5;;
  eth_ocm_write_phy_reg phyadd 16 0xAF8A;;
  eth_ocm_write_phy_reg phyadd 18 0;;
  patch phyadd 17 0xC 8;;
  eth_ocm_write_phy_reg phyadd 16 0x8F8A;;
  eth_ocm_write_phy_reg phyadd 16 0xAF86;;
  patch phyadd 18 0xC 8;;
  eth_ocm_write_phy_reg phyadd 17 0;;
  eth_ocm_write_phy_reg phyadd 16 0x8F86;;
  eth_ocm_write_phy_reg phyadd 16 0xAF82;;
  eth_ocm_write_phy_reg phyadd 18 0;;
  patch phyadd 17 0x180 0x100;;
  eth_ocm_write_phy_reg phyadd 16 0x8F82;;
  eth_ocm_write_phy_reg phyadd 31 0.

Definition an_done (phyadd : Z) : M st bool :=
  r ← eth_ocm_read_phy_reg phyadd ETH_OCM_PHY_ADDR_STATUS;
  mret (ctrue (Z.land r PCS_ST_an_done)).

(** Waiting for the autonegotiation. *)
Fixpoint an_loop (fuel : nat) (phyadd dat : Z) : M st unit :=
  match fuel with
  | O => no_fuel
  | S k =>
      d ← an_done phyadd;
      if (d : bool) then mret tt
      else if dat >? ETH_OCM_PHY_TIMEOUT_THRESHOLD then mret tt
      else an_loop k phyadd (dat + 1)
  end.

(** What each vendor needs first. *)
Definition phy_setup (phyadd phyid phyid2 : Z) : M st unit :=
  when (is_id ETH_OCM_PHYID_LXT972A phyid phyid2) (eth_ocm_read_phy_reg phyadd ETH_OCM_PHY_ADDR_ADV;; mret tt);;
  when (phyid =? ETH_OCM_PHYID_MVL) (renegotiate phyadd);;
  when (is_id ETH_OCM_PHYID_DP83848C phyid phyid2) (eth_ocm_read_phy_reg phyadd ETH_OCM_PHY_ADDR_ADV;; mret tt);;
  when (is_id ETH_OCM_PHYID_VCS8641 phyid phyid2) (vcs_script phyadd;; renegotiate phyadd).

Definition phy_found (phyid phyid2 : Z) : bool :=
  is_id ETH_OCM_PHYID_LXT972A phyid phyid2 || (phyid =? ETH_OCM_PHYID_MVL) ||
  is_id ETH_OCM_PHYID_DP83848C phyid phyid2 || is_id ETH_OCM_PHYID_VCS8641 phyid phyid2.

(** A bit of a register, if the PHY is the right one. *)
Definition duplex_of (b : bool) (phyadd reg bit duplex : Z) : M st Z :=
  if b then dat ← eth_ocm_read_phy_reg phyadd reg; mret (Z.land (Z.shiftr dat bit) 1) else mret duplex.

Definition phy_duplex (phyadd phyid phyid2 : Z) : M st Z :=
  duplex ← duplex_of (is_id ETH_OCM_PHYID_LXT972A phyid phyid2) phyadd 0x11 9 1;
  when (phyid =? ETH_OCM_PHYID_MVL) (eth_ocm_read_phy_reg phyadd 0x11;; mret tt);;
  duplex ← duplex_of (phyid =? ETH_OCM_PHYID_MVL) phyadd 0x11 13 duplex;
  duplex ← duplex_of (is_id ETH_OCM_PHYID_DP83848C phyid phyid2) phyadd 0x10 2 duplex;
  duplex_of ((phyid =? Z.shiftr ETH_OCM_PHYID_VCS8641 16) && (phyid2 =? Z.land ETH_OCM_PHYID_DP83848C 0xFFFF))
    phyadd 0x1C 5 duplex.

Definition eth_ocm_phy_init (fuel : nat) : M st Z :=
  eth_ocm_read_phy_reg 0 ETH_OCM_PHY_ADDR_PHY_ID1;;
  '(phyadd, phyid, phyid2) ← detect 254 0;
  phy_setup phyadd phyid phyid2;;
  if negb (phy_found phyid phyid2) then mret 0
  else
    d ← an_done phyadd;
    unless (d : bool) (an_loop fuel phyadd 0);;
    phy_duplex phyadd phyid phyid2.

End Phy.

(** * The PHY of the InterNiche driver: what its routines keep, and what they find *)

Section Facts.
Context {cfg : OcmConfig}.

(** ** Code that only uses registers *)

Section Calm.
(** A property of the board that the controller's steps and the registers leave alone. *)
Variable P : board -> Prop.
Hypothesis P_step : forall b b', P b -> hw_step b b' -> P b'.
Hypothesis P_regs : forall b f, P b -> P (set_regs f b).

Record same (s s' : st) : Prop := {
  sm_state : s' = set_env (env s') (set_dev (dev s') s);
  sm_board : P (dev s');
  sm_env : Forall behaves (env s');
  sm_le : (length (env s') <= length (env s))%nat;
}.

Definition calm {A} (m : M st A) (Q : A -> Prop) : Prop :=
  forall s0 s, same s0 s -> wp m (fun a s' => Q a /\ same s0 s') s.

Lemma calm_ret {A} (a : A) (Q : A -> Prop) : Q a -> calm (mret a) Q.
Proof. intros HQ s0 s H. by apply wp_ret. Qed.

Lemma calm_bind {A B} (m : M st A) (f : A -> M st B) Q1 Q2 :
  calm m Q1 -> (forall a, Q1 a -> calm (f a) Q2) -> calm (m ≫= f) Q2.
Proof. intros Hm Hf s0 s H. apply wp_bind. eapply wp_mono; [by apply Hm|]. intros a s' [HQ H']. by apply Hf. Qed.

Lemma calm_when b m : calm m (fun _ => True) -> calm (when b m) (fun _ => True).
Proof. destruct b; [done|]. intros _. by apply calm_ret. Qed.

Lemma calm_behaves f b : behaves f -> P b -> P (f b).
Proof. intros Hf. specialize (Hf b). induction Hf; eauto. Qed.

Lemma calm_rd r : calm (rd r) (fun _ => True).
Proof.
  intros s0 s [H1 H2 H3 H4]. unfold rd, hw. apply wp_bind. unfold wp at 1. destruct (env s) as [|f e] eqn:E.
  - apply (wp_eq _ _ _ _ _ eq_refl). split; [done|]. by split; rewrite ?E.
  - apply Forall_cons_1 in H3 as [Hf He]. apply (wp_eq _ _ _ _ _ eq_refl). split; [done|].
    split; [by rewrite H1|by apply calm_behaves|done|cbn in *; lia].
Qed.

Lemma calm_wr r v : calm (wr r v) (fun _ => True).
Proof.
  intros s0 s [H1 H2 H3 H4]. apply wp_modify. split; [done|]. split; [by rewrite H1|by apply P_regs|done|done].
Qed.

(** ** Every routine *)

Lemma calm_addr phyad reg : calm (eth_ocm_set_phy_addr phyad reg) (fun _ => True).
Proof. apply calm_wr. Qed.

Lemma calm_wait_loop n t : calm (wait_loop n t) (fun _ => True).
Proof.
  induction n as [|k IH] in t |- *; cbn [wait_loop]; (destruct (ctrue t); [|by apply calm_ret]); [by apply calm_ret|].
  eapply calm_bind; [apply calm_rd|]. intros a _. apply IH.
Qed.

Lemma calm_write phyad reg data : calm (eth_ocm_write_phy_reg phyad reg data) (fun _ => True).
Proof.
  do 3 (eapply calm_bind; [apply calm_wr|intros _ _]). eapply calm_bind; [apply calm_wait_loop|]. intros _ _. by apply calm_ret.
Qed.

Lemma calm_read phyad reg : calm (eth_ocm_read_phy_reg phyad reg) (fun _ => True).
Proof.
  do 2 (eapply calm_bind; [apply calm_wr|intros _ _]). eapply calm_bind; [apply calm_wait_loop|]. intros _ _.
  eapply calm_bind; [apply calm_rd|]. intros a _. by apply calm_ret.
Qed.

Ltac calm_steps := repeat lazymatch goal with
  | |- calm (eth_ocm_read_phy_reg _ _) _ => apply calm_read
  | |- calm (eth_ocm_write_phy_reg _ _ _) _ => apply calm_write
  | |- calm (when _ _) _ => apply calm_when
  | |- calm (mbind _ _) _ => eapply calm_bind; [|intros ? ?]
  | |- calm (mret _) _ => by apply calm_ret
  | |- calm (renegotiate _) _ => unfold renegotiate
  | |- calm (patch _ _ _ _) _ => unfold patch
  | |- calm (vcs_script _) _ => unfold vcs_script
  end.

Lemma calm_detect n dat : calm (detect n dat) (fun _ => True).
Proof. induction n as [|k IH] in dat |- *; cbn [detect]; calm_steps; destruct (_ && _); calm_steps. apply IH. Qed.

Lemma calm_setup phyadd phyid phyid2 : calm (phy_setup phyadd phyid phyid2) (fun _ => True).
Proof. unfold phy_setup. calm_steps. Qed.

Lemma calm_done phyadd : calm (an_done phyadd) (fun _ => True).
Proof. unfold an_done. calm_steps. Qed.

(** The wait for the autonegotiation is bounded. *)
Lemma calm_an_loop fuel phyadd dat :
  0 <= dat -> (Z.to_nat (ETH_OCM_PHY_TIMEOUT_THRESHOLD + 1 - dat) < fuel)%nat -> calm (an_loop fuel phyadd dat) (fun _ => True).
Proof.
  induction fuel as [|k IH] in dat |- *; intros Hd Hf; [lia|]. cbn [an_loop]. eapply calm_bind; [apply calm_done|].
  intros [] _; [by apply calm_ret|]. destruct (Z.gtb_spec dat ETH_OCM_PHY_TIMEOUT_THRESHOLD); [by apply calm_ret|].
  apply IH; lia.
Qed.

Lemma low_bit x : Z.land x 1 = 0 \/ Z.land x 1 = 1.
Proof. assert (Z.land x 1 = x mod 2 ^ 1) as -> by (apply (Z.land_ones x 1); lia). pose proof (Z.mod_pos_bound x (2 ^ 1) ltac:(lia)). change (2 ^ 1) with 2 in *. lia. Qed.

Lemma calm_duplex_of b phyadd reg bit d (Q := fun d => d = 0 \/ d = 1) : Q d -> calm (duplex_of b phyadd reg bit d) Q.
Proof.
  intros Hd. unfold duplex_of. destruct b; [|by apply calm_ret]. eapply calm_bind; [apply calm_read|]. intros a _.
  apply calm_ret, low_bit.
Qed.

Lemma calm_phy_init fuel :
  (Z.to_nat (ETH_OCM_PHY_TIMEOUT_THRESHOLD + 1) < fuel)%nat -> calm (eth_ocm_phy_init fuel) (fun d => d = 0 \/ d = 1).
Proof.
  intros Hf. unfold eth_ocm_phy_init. eapply calm_bind; [apply calm_read|intros _ _].
  eapply calm_bind; [apply calm_detect|]. intros [[phyadd phyid] phyid2] _.
  eapply calm_bind; [apply calm_setup|intros _ _]. destruct (negb _); [apply calm_ret; by left|].
  eapply calm_bind; [apply calm_done|]. intros d _. eapply (calm_bind _ _ (fun _ => True)).
  { destruct d; [by apply calm_ret|]. apply calm_an_loop; [lia|]. by rewrite Z.sub_0_r. }
  intros _ _. unfold phy_duplex. eapply calm_bind; [apply calm_duplex_of; by right|]. intros d1 H1.
  eapply calm_bind; [apply calm_when; calm_steps|intros _ _]. eapply calm_bind; [by apply calm_duplex_of|]. intros d2 H2.
  eapply calm_bind; [by apply calm_duplex_of|]. intros d3 H3. by apply calm_duplex_of.
Qed.

End Calm.

(** ** A PHY that answers *)

Section Answers.
(** The registers of the PHYs on the bus, by address and number. *)
Variable phy : Z -> Z -> Z.
Hypothesis phy_16 : forall a r, 0 <= phy a r < 65536.

(** The interface is idle and has the register whose address was written. *)
Definition answers (b : board) : board :=
  let a := regs b ETH_OCM_MIIADDRESS in
  set_regs (<[ETH_OCM_MIIRX_DATA := phy (Z.land a 31) (Z.land (Z.shiftr a 8) 31)]> (<[ETH_OCM_MIISTATUS := 0]> (regs b))) b.

(** It will do so at the next [k] loads. *)
Definition answering (k : nat) (s : st) : Prop := exists l, env s = replicate k answers ++ l.

Lemma answering_le k k' s : answering k s -> (k' <= k)%nat -> answering k' s.
Proof.
  intros [l Hl] Hk. exists (replicate (k - k') answers ++ l). rewrite app_assoc, <- replicate_add.
  by replace (k' + (k - k'))%nat with k by lia.
Qed.

Lemma wp_rd_answer k r (Q : Z -> st -> Prop) s :
  answering (S k) s ->
  (forall s', answering k s' -> dev s' = answers (dev s) -> Q (regs (answers (dev s)) r) s') -> wp (rd r) Q s.
Proof.
  intros [l Hl] HQ. unfold rd, hw. apply wp_bind. unfold wp at 1. rewrite Hl. cbn [replicate app].
  apply (wp_eq _ _ _ (regs (answers (dev s)) r) (set_env (replicate k answers ++ l) (upd_dev answers s))); [done|].
  apply HQ; [by exists l|done].
Qed.

Lemma wp_wr_answer k r v (Q : unit -> st -> Prop) s :
  answering k s -> (forall s', answering k s' -> dev s' = reg_write r v (dev s) -> Q tt s') -> wp (wr r v) Q s.
Proof. intros H HQ. apply wp_modify. by apply HQ. Qed.

(** One load is enough for the wait. *)
Lemma wp_wait_answer k (Q : Z -> st -> Prop) s :
  answering (S k) s -> (forall s', answering k s' -> dev s' = answers (dev s) -> Q 0 s') -> wp eth_ocm_wait Q s.
Proof.
  intros H HQ. unfold eth_ocm_wait. change (Z.to_nat 1000) with (S 999). cbn [wait_loop ctrue].
  change (ctrue 1) with true. cbv iota. apply wp_bind, (wp_rd_answer k); [done|]. intros s' H' Hd.
  assert (regs (answers (dev s)) ETH_OCM_MIISTATUS = 0) as -> by done. apply wp_ret. by apply HQ.
Qed.

Definition addr_ok (p r : Z) : bool :=
  let w := u32 (Z.lor p (Z.land (Z.shiftl r 8) 7936)) in (Z.land w 31 =? p) && (Z.land (Z.shiftr w 8) 31 =? r).

Lemma addr_table : forallb (fun p => forallb (addr_ok p) (seqZ 0 32)) (seqZ 0 32) = true.
Proof. by vm_compute. Qed.

Lemma addr_word phyad reg (w := u32 (Z.lor (Z.land phyad 31) (Z.land (Z.shiftl reg 8) 7936))) :
  0 <= reg < 32 -> Z.land w 31 = Z.land phyad 31 /\ Z.land (Z.shiftr w 8) 31 = reg.
Proof.
  intros Hr. assert (0 <= Z.land phyad 31 < 32) as Hp.
  { assert (Z.land phyad 31 = phyad mod 2 ^ 5) as -> by (apply (Z.land_ones phyad 5); lia). apply Z.mod_pos_bound. lia. }
  pose proof addr_table as H. rewrite forallb_forall in H. specialize (H (Z.land phyad 31)).
  rewrite forallb_forall in H. specialize (H ltac:(apply list_elem_of_In, elem_of_seqZ; lia) reg ltac:(apply list_elem_of_In, elem_of_seqZ; lia)).
  apply andb_true_iff in H as [H1%Z.eqb_eq H2%Z.eqb_eq]. by split.
Qed.

Lemma wp_read_answer k phyad reg (Q : Z -> st -> Prop) s :
  0 <= reg < 32 -> answering (S (S k)) s -> (forall s', answering k s' -> Q (phy (Z.land phyad 31) reg) s') ->
  wp (eth_ocm_read_phy_reg phyad reg) Q s.
Proof.
  intros Hr H HQ. destruct (addr_word phyad reg Hr) as [W1 W2]. unfold eth_ocm_read_phy_reg, eth_ocm_set_phy_addr.
  apply wp_bind, (wp_wr_answer (S (S k))); [done|]. intros s1 H1 D1.
  apply wp_bind, (wp_wr_answer (S (S k))); [done|]. intros s2 H2 D2.
  apply wp_bind, (wp_wait_answer (S k)); [done|]. intros s3 H3 D3.
  apply wp_bind, (wp_rd_answer k); [done|]. intros s4 H4 D4. apply wp_ret.
  assert (regs (dev s3) ETH_OCM_MIIADDRESS = u32 (Z.lor (Z.land phyad 31) (Z.land (Z.shiftl reg 8) 7936))) as E.
  { rewrite D3, D2, D1. unfold answers, reg_write. cbn [regs set_regs]. by rewrite !fn_lookup_insert_ne, fn_lookup_insert by done. }
  assert (regs (answers (dev s3)) ETH_OCM_MIIRX_DATA = phy (Z.land phyad 31) reg) as ->.
  { unfold answers at 1. cbn [regs set_regs]. by rewrite E, W1, W2, fn_lookup_insert. }
  rewrite s32_id by (pose proof (phy_16 (Z.land phyad 31) reg); lia). by apply HQ.
Qed.

Lemma wp_write_answer k phyad reg v (Q : unit -> st -> Prop) s :
  answering (S k) s -> (forall s', answering k s' -> Q tt s') -> wp (eth_ocm_write_phy_reg phyad reg v) Q s.
Proof.
  intros H HQ. unfold eth_ocm_write_phy_reg, eth_ocm_set_phy_addr.
  do 3 (apply wp_bind, (wp_wr_answer (S k)); [done|]; clear H; intros ? H _).
  apply wp_bind, (wp_wait_answer k); [done|]. intros s4 H4 _. by apply wp_ret, HQ.
Qed.

(** ** Detection *)

(** At an address without a PHY both parts of the identity read the same. *)
Definition absent (b : Z) : Prop := phy b 2 = phy b 3 \/ phy b 3 = 65535.

Lemma low5 a : 0 <= a < 32 -> Z.land a 31 = a.
Proof.
  intros Ha. assert (Z.land a 31 = a mod 2 ^ 5) as -> by (apply (Z.land_ones a 5); lia). by apply Z.mod_small.
Qed.

Lemma wp_detect k n dat a (Q : Z * Z * Z -> st -> Prop) s :
  0 <= dat <= a -> a < 32 -> a - dat <= Z.of_nat n -> (forall b, dat <= b < a -> absent b) -> ~ absent a ->
  answering (k + 4 * Z.to_nat (a - dat + 1)) s ->
  (forall s', answering k s' -> Q (a, phy a 2, phy a 3) s') -> wp (detect n dat) Q s.
Proof.
  induction n as [|n IH] in dat, s |- *; intros Hd Ha Hn Hb Hna H HQ; cbn [detect];
    replace (k + 4 * Z.to_nat (a - dat + 1))%nat with (S (S (S (S (k + 4 * Z.to_nat (a - (dat + 1) + 1))))))%nat in H by lia;
    (apply wp_bind; eapply wp_read_answer; [done|exact H|]); intros s1 H1;
    (apply wp_bind; eapply wp_read_answer; [done|exact H1|]); intros s2 H2;
    rewrite low5 by lia; unfold ETH_OCM_PHY_ADDR_PHY_ID1, ETH_OCM_PHY_ADDR_PHY_ID2;
    destruct (decide (dat = a)) as [->|Hne].
  1, 3: unfold absent in Hna; rewrite (proj2 (Z.eqb_neq _ _)) by tauto; rewrite (proj2 (Z.eqb_neq (phy a 3) _)) by tauto;
    apply wp_ret, HQ; eapply answering_le; [exact H2|lia].
  - lia.
  - replace (negb _ && negb _) with false.
    + apply IH; try done; [lia|lia|]. intros b Hb'. apply Hb. lia.
    + symmetry. destruct (Hb dat ltac:(lia)) as [-> | ->]; [by rewrite Z.eqb_refl|apply andb_false_r].
Qed.

(** ** The result *)

Definition bit (v i : Z) : Z := Z.land (Z.shiftr v i) 1.

(** What the vendor's register says; the last vendor's is never looked at. *)
Definition duplex_spec (a : Z) : Z :=
  if is_id ETH_OCM_PHYID_LXT972A (phy a 2) (phy a 3) then bit (phy a 0x11) 9
  else if phy a 2 =? ETH_OCM_PHYID_MVL then bit (phy a 0x11) 13
  else if is_id ETH_OCM_PHYID_DP83848C (phy a 2) (phy a 3) then bit (phy a 0x10) 2
  else if is_id ETH_OCM_PHYID_VCS8641 (phy a 2) (phy a 3) then 1
  else 0.

(** The vendors exclude each other. *)
Inductive vendor : bool -> bool -> bool -> bool -> Prop :=
| v_lxt : vendor true false false false
| v_mvl : vendor false true false false
| v_dp : vendor false false true false
| v_vcs : vendor false false false true
| v_none : vendor false false false false.

Lemma vendors i1 i2 :
  vendor (is_id ETH_OCM_PHYID_LXT972A i1 i2) (i1 =? ETH_OCM_PHYID_MVL) (is_id ETH_OCM_PHYID_DP83848C i1 i2)
    (is_id ETH_OCM_PHYID_VCS8641 i1 i2) /\
  (i1 =? Z.shiftr ETH_OCM_PHYID_VCS8641 16) && (i2 =? Z.land ETH_OCM_PHYID_DP83848C 0xFFFF) = false \/
  i1 = 7 /\ i2 = 23696.
Proof.
  unfold is_id. change (Z.shiftr ETH_OCM_PHYID_LXT972A 16) with 19. change (Z.shiftr ETH_OCM_PHYID_DP83848C 16) with 8192.
  change (Z.shiftr ETH_OCM_PHYID_VCS8641 16) with 7. change (Z.land ETH_OCM_PHYID_DP83848C 65535) with 23696.
  change ETH_OCM_PHYID_MVL with 321.
  destruct (Z.eqb_spec i1 7) as [->|H7].
  - destruct (Z.eqb_spec i2 23696) as [->|H]; [by right|]. left. cbn. split; [|done]. destruct (i2 =? _); constructor.
  - left. split; [|done]. destruct (Z.eqb_spec i1 19) as [->|]; [cbn; destruct (i2 =? _); constructor|].
    destruct (Z.eqb_spec i1 321) as [->|]; [constructor|].
    destruct (Z.eqb_spec i1 8192) as [->|]; [cbn; destruct (i2 =? _); constructor|constructor].
Qed.

Ltac answer := repeat lazymatch goal with
  | H : answering _ ?s |- wp (mbind _ _) _ ?s => apply wp_bind
  | H : answering _ ?s |- wp (eth_ocm_read_phy_reg _ _) _ ?s => eapply wp_read_answer; [done|exact H|]; clear H; intros ? H
  | H : answering _ ?s |- wp (eth_ocm_write_phy_reg _ _ _) _ ?s => eapply wp_write_answer; [exact H|]; clear H; intros ? H
  | |- wp (mret _) _ _ => apply wp_ret
  end.

Lemma wp_renegotiate k a (Q : unit -> st -> Prop) s :
  answering (6 + k) s -> (forall s', answering k s' -> Q tt s') -> wp (renegotiate a) Q s.
Proof. intros H HQ. unfold renegotiate. answer. by apply HQ. Qed.

Lemma wp_patch k a r c v (Q : unit -> st -> Prop) s :
  0 <= r < 32 -> answering (3 + k) s -> (forall s', answering k s' -> Q tt s') -> wp (patch a r c v) Q s.
Proof. intros Hr H HQ. unfold patch. apply wp_bind. eapply wp_read_answer; [done|exact H|]. clear H. intros ? H. answer. by apply HQ. Qed.

Lemma wp_vcs_script k a (Q : unit -> st -> Prop) s :
  answering (20 + k) s -> (forall s', answering k s' -> Q tt s') -> wp (vcs_script a) Q s.
Proof.
  intros H HQ. unfold vcs_script. answer.
  eapply wp_patch; [lia|exact H|]. clear H. intros ? H. answer.
  eapply wp_patch; [lia|exact H|]. clear H. intros ? H. answer.
  eapply wp_patch; [lia|exact H|]. clear H. intros ? H. answer. by apply HQ.
Qed.

Lemma wp_setup k a (Q : unit -> st -> Prop) s :
  answering (26 + k) s -> (forall s', answering k s' -> Q tt s') -> wp (phy_setup a (phy a 2) (phy a 3)) Q s.
Proof.
  intros H HQ. unfold phy_setup.
  assert (forall n s', answering (n + k) s' -> Q tt s') as HQ' by (intros n s' H'; apply HQ; eapply answering_le; [exact H'|lia]).
  destruct (vendors (phy a 2) (phy a 3)) as [[Hv _]|[-> ->]].
  - destruct Hv; cbn [when]; answer.
    + by apply (HQ' 24%nat).
    + eapply (wp_renegotiate (20 + k)); [exact H|]. intros s' H'. answer. by apply (HQ' 20%nat).
    + by apply (HQ' 24%nat).
    + eapply (wp_vcs_script (6 + k)); [exact H|]. intros s' H'. eapply wp_renegotiate; [exact H'|]. by apply (HQ' 0%nat).
    + by apply (HQ' 26%nat).
  - cbn. by apply (HQ' 26%nat).
Qed.

Lemma wp_duplex k a (Q : Z -> st -> Prop) s :
  0 <= a < 32 -> answering (8 + k) s -> phy_found (phy a 2) (phy a 3) = true ->
  (forall s', Q (duplex_spec a) s') -> wp (phy_duplex a (phy a 2) (phy a 3)) Q s.
Proof.
  intros Ha H Hf HQ. unfold phy_duplex, duplex_of. unfold duplex_spec in HQ. unfold phy_found in Hf.
  destruct (vendors (phy a 2) (phy a 3)) as [[Hv Hl]|[E1 E2]]; [|by rewrite E1, E2 in Hf].
  rewrite Hl. destruct Hv; try done; cbn [when]; answer; rewrite ?low5 by done; apply HQ.
Qed.

(** The duplex of the first PHY on the bus, when its autonegotiation is done. *)
Lemma wp_phy_init fuel a (Q : Z -> st -> Prop) s :
  0 <= a < 32 -> (forall b, 0 <= b < a -> absent b) -> ~ absent a -> ctrue (Z.land (phy a 1) PCS_ST_an_done) = true ->
  answering (42 + 4 * Z.to_nat a) s -> (forall s', Q (duplex_spec a) s') -> wp (eth_ocm_phy_init fuel) Q s.
Proof.
  intros Ha Hb Hna Hd H HQ. unfold eth_ocm_phy_init.
  replace (42 + 4 * Z.to_nat a)%nat with (S (S (36 + 4 * Z.to_nat (a - 0 + 1))))%nat in H by lia.
  apply wp_bind. eapply wp_read_answer; [done|exact H|]. clear H. intros s1 H.
  apply wp_bind, (wp_detect 36 254 0 a); [lia|lia|lia|intros b Hb'; apply Hb; lia|done|done|]. intros s2 H2. cbv beta iota.
  apply wp_bind, (wp_setup 10); [done|]. intros s3 H3. destruct (phy_found _ _) eqn:Hf; cbn [negb].
  - unfold an_done. apply wp_bind, wp_bind. eapply wp_read_answer; [done|exact H3|]. intros s4 H4. apply wp_ret.
    rewrite low5 by done. unfold ETH_OCM_PHY_ADDR_STATUS. rewrite Hd. cbn [unless]. apply wp_bind, wp_ret.
    apply (wp_duplex 0); [done|done|done|done].
  - apply wp_ret. unfold duplex_spec in HQ. unfold phy_found in Hf. rewrite !orb_false_iff in Hf. destruct Hf as [[[E1 E2] E3] E4].
    rewrite E1, E2, E3, E4 in HQ. apply HQ.
Qed.

End Answers.

End Facts.
