(* ===== verification/OcmRx.v ===== *)
(** * Reception in the InterNiche driver *)

From stdpp Require Import relations functions.
From S2P Require Import Prelude.
From S2P Require Import Ring.
From S2P Require Import Ocm.
From S2P Require Import OcmFacts.
From S2P Require Import OcmTx.

Lemma NoDup_insert {A} (l : list A) i x y :
  NoDup l -> l !! i = Some y -> x ∉ l \/ x = y -> NoDup (<[i := x]> l).
Proof.
  intros Hl Hi [Hx| ->]; [|by rewrite list_insert_id]. apply NoDup_alt. intros j k z Hj Hk.
  assert (forall j, <[i := x]> l !! j = Some z -> (j = i /\ z = x) \/ (j <> i /\ l !! j = Some z)) as H.
  { intros m Hm. apply list_lookup_insert_Some in Hm as [(<- & <- & _)|[? ?]]; auto. }
  destruct (H j Hj) as [[-> ->]|[Hji Hj']], (H k Hk) as [[-> Ez]|[Hki Hk']]; subst; try done.
  - exfalso. apply Hx. by eapply list_elem_of_lookup_2.
  - exfalso. apply Hx. by eapply list_elem_of_lookup_2.
  - by eapply NoDup_lookup.
Qed.

(** The length that the code takes from a descriptor's word. *)
Lemma word_pklen w n : is_u32 w -> Z.shiftr w 16 = n -> 0 <= n < 32768 ->
  Z.shiftr (s32 (Z.land w 4294901760)) 16 = n.
Proof.
  intros Hw Hn Hr. change 4294901760 with (Z.shiftl (Z.ones 16) 16).
  assert (Z.land w (Z.shiftl (Z.ones 16) 16) = Z.shiftl n 16) as ->.
  { subst n. apply Z.bits_inj'. intros j Hj. rewrite Z.land_spec, !Z.shiftl_spec by lia.
    destruct (Z.lt_ge_cases j 16) as [Hlt|Hge].
    - rewrite !(Z.testbit_neg_r _ (j - 16)) by lia. apply andb_false_r.
    - rewrite Z.shiftr_spec, Z.testbit_ones_nonneg by lia. replace (j - 16 + 16) with j by lia.
      destruct (Z.ltb_spec (j - 16) 16); [apply andb_true_r|]. unfold is_u32 in Hw. by rewrite (small_bits w 32) by lia. }
  rewrite s32_id, Z.shiftr_shiftl_l by (rewrite ?Z.shiftl_mul_pow2 by lia; change (2 ^ 16) with 65536; lia).
  apply Z.shiftl_0_r.
Qed.

Section Rx.
Context {cfg : OcmConfig} {ok : OcmConfigOk}.

Abbreviation TXN := (Z.to_nat ETH_OCM_TX_DESC_COUNT).
Abbreviation RXN := (Z.to_nat ETH_OCM_RX_DESC_COUNT).

(** A descriptor that is not empty holds the next frame. *)
Lemma ready_heard acc G pk R b bd :
  rings acc G pk R b -> bds b !! (TXN + slot RXN R)%nat = Some bd -> flag15 bd.1 = false ->
  exists d p, heard b !! R = Some (bd.1, d) /\ rx_word bd.1 d /\ pk !! slot RXN R = Some p /\ bd.2 = bptr p /\ mem b (bptr p) = d.
Proof.
  intros [_ HR] Hb Hf. pose proof (rx_le _ _ _ HR) as Hle. pose proof ocm_RXN_pos.
  assert (R < length (heard b))%nat as Hlt.
  { apply Nat.nle_gt. intros Hge. destruct (rx_empty _ _ _ HR R) as (bd' & Hb' & Hf'); [lia|].
    rewrite Hb in Hb'. injection Hb' as ->. congruence. }
  destruct (lookup_lt_is_Some_2 _ _ Hlt) as [[w d] Hlk]. destruct (rx_full _ _ _ HR R w d) as (Hw & p & Hp & Hb' & Hm); [lia|done|].
  rewrite Hb in Hb'. injection Hb' as ->. by exists d, p.
Qed.

(** The driver takes the frame and gives a buffer, the old one or a new one. *)
Lemma rings_refill acc G pk R b w' x p :
  rings acc G pk R b -> (R < length (heard b))%nat -> flag15 w' = true -> pk !! slot RXN R = Some p ->
  bptr x ∉ map bptr pk \/ bptr x = bptr p ->
  rings acc G (<[slot RXN R := x]> pk) (S R) (bd_put (TXN + slot RXN R) (w', bptr x) b).
Proof.
  intros [HT HR] Hlt Hf Hp Hx. pose proof ocm_RXN_pos as Hn. pose proof bds_room as Hbr. pose proof (slot_lt RXN R Hn) as Hsl.
  pose proof (tx_len _ _ _ HT) as Hlen. destruct HR as [H1 H2 H3 H4 H5 H6 H7 H8]. split.
  - apply (txb_other _ _ b); [done|by cbn; rewrite length_insert| |done..].
    intros i Hi. cbn. by rewrite list_lookup_insert_ne by lia.
  - split; cbn [bds rx_pos heard mem bd_put set_bds]; rewrite ?length_insert.
    + done.
    + done.
    + lia.
    + done.
    + intros i q Hi. apply list_lookup_insert_Some in Hi as [(<- & <- & _)|[Hne Hi]].
      * rewrite list_lookup_insert_eq by lia. by eexists.
      * rewrite list_lookup_insert_ne by lia. by apply H5.
    + change (map bptr ?l) with (bptr <$> l) in *. rewrite list_fmap_insert. eapply NoDup_insert; [done| |exact Hx].
      by rewrite list_lookup_fmap, Hp.
    + intros j w d Hj Hlk. destruct (H7 j w d ltac:(lia) Hlk) as (Hw & q & Hq & Hb & Hm).
      assert (slot RXN R <> slot RXN j) as Hne.
      { intros E. pose proof (lookup_lt_Some _ _ _ Hlk). apply (slot_inj RXN R) in E; lia. }
      split; [done|]. exists q. rewrite !list_lookup_insert_ne by lia. done.
    + intros j Hj. destruct (decide (j = R + RXN)%nat) as [->|Hne].
      * rewrite slot_wrap, list_lookup_insert_eq by lia. eexists. by split.
      * rewrite list_lookup_insert_ne; [apply H8; lia|]. intros E.
        assert (slot RXN R = slot RXN j) as E' by lia. apply (slot_inj RXN R) in E'; lia.
Qed.

(** ** What is passed up *)

Lemma passed_error hs h l : passed hs l -> ~ no_error h -> passed (hs ++ [h]) l.
Proof. intros Hp Hh. unfold passed. by rewrite list.filter_app, (filter_cons_False _ h), app_nil_r. Qed.

Lemma passed_more hs h l e o :
  passed hs l -> no_error h -> upped [e] = [o] -> came_up h o -> passed (hs ++ [h]) (l ++ [e]).
Proof.
  intros Hp Hh He Ho. unfold passed. rewrite upped_app, list.filter_app, (filter_cons_True _ h), He by done.
  apply Forall2_app; [done|]. by repeat constructor.
Qed.

Lemma passed_dropped hs h l : passed hs l -> no_error h -> passed (hs ++ [h]) (l ++ [NoPacket]).
Proof. intros Hp Hh. by apply (passed_more _ _ _ _ None). Qed.

Lemma passed_kept hs h l r : passed hs l -> no_error h -> describes h r -> passed (hs ++ [h]) (l ++ [Recv r.1 r.2]).
Proof. intros Hp Hh Hd. apply (passed_more _ _ _ _ (Some r)); [done|done|by destruct r|done]. Qed.

Lemma error_flag h : ctrue (Z.land h.1 ETH_OCM_RXDESC_ERROR_MSK) = bool_decide (~ no_error h).
Proof.
  unfold ctrue, no_error. destruct (Z.eqb_spec (Z.land h.1 ETH_OCM_RXDESC_ERROR_MSK) 0) as [E|E].
  - symmetry. apply bool_decide_eq_false_2. intros H. by apply H.
  - symmetry. by apply bool_decide_eq_true_2.
Qed.

(** ** One frame *)

(** The driver is at the descriptor of frame [R]; the code keeps that in a variable. *)
Definition at_ (R : nat) (s : st) : st := upd_inf (set_cur_rx_desc (Z.of_nat (slot RXN R))) s.

(** The state when the packet [x] has been put into the descriptor. *)
Definition refilled (R : nat) (x : PACKET) (w' : Z) (s : st) : st :=
  upd_dev (bd_put (TXN + slot RXN R) (w', bptr x))
    (upd_inf (fun i => set_rx_pkts (<[slot RXN R := x]> (rx_pkts i)) i) s).

Lemma inv_refilled given taken C G R s s0 x p h w' :
  inv given taken C G R (at_ R s) -> heard (dev s) !! R = Some h ->
  rx_pkts (inf s) !! slot RXN R = Some p -> bptr x ∉ map bptr (rx_pkts (inf s)) \/ bptr x = bptr p ->
  flag15 w' = true ->
  dev s0 = dev s -> env s0 = env s -> Forall gives_fresh (pool s0) -> inf s0 = inf s ->
  freed (log s0) = freed (log s) -> passed (take R (heard (dev s)) ++ [h]) (log s0) ->
  inv given taken C G (S R) (at_ (S R) (refilled R x w' s0)).
Proof.
  intros [Irings Igiven Isend Iord Iroom Icur Inext Irdy Isem Igood Ibad Irx Ipass Ienv Ipool] Hh Hp Hx Hf Hd He Hpool Hinf Hfr Hps.
  pose proof (lookup_lt_Some _ _ _ Hh) as Hlt.
  split; cbn [inf log dev env pool at_ refilled upd_inf upd_dev set_inf set_dev set_cur_rx_desc set_rx_pkts rx_pkts
    tosend sending cur_tx_desc next_tx_desc next_tx_desc_rdy sem cur_rx_desc]; rewrite ?Hd, ?He, ?Hinf, ?Hfr; try done.
  - by apply (rings_refill _ _ _ _ _ _ _ p).
  - cbn. by rewrite (take_S_r _ _ _ Hh).
Qed.

Lemma give_word (last : bool) : flag15 (u32 (if last then Z.lor (Z.lor 32768 16384) 8192 else Z.lor 32768 16384)) = true.
Proof. by destruct last. Qed.

Lemma wp_rx_give R x bd (Q : unit -> st -> Prop) s :
  rx_pkts (inf s) !! slot RXN R = Some x -> bds (dev s) !! (TXN + slot RXN R)%nat = Some bd ->
  (forall w', flag15 w' = true -> Q tt (upd_dev (bd_put (TXN + slot RXN R) (w', bptr x)) s)) ->
  wp (rx_give (Z.of_nat (slot RXN R))) Q s.
Proof.
  intros Hx Hb HQ. unfold rx_give. apply wp_bind, wp_info_of. rewrite Nat2Z.id, Hx, slot_rx.
  apply wp_bind, (wp_wr_ptr _ _ bd); [done|]. cbv zeta.
  apply (wp_wr_ctrl _ _ (bd.1, u32 (buf_ptr (nb_buff x)))).
  { cbn. rewrite list_lookup_insert_eq; [done|]. by eapply lookup_lt_Some. }
  match goal with |- Q _ ?s2 => assert (exists w', flag15 w' = true /\ s2 = upd_dev (bd_put (TXN + slot RXN R) (w', bptr x)) s) as (w' & Hw' & ->) end.
  { eexists. split; [apply (give_word (Z.of_nat (slot RXN R) =? ETH_OCM_RX_DESC_COUNT - 1))|].
    unfold upd_dev, bd_put, set_bds. cbn [dev set_dev bds regs tx_pos rx_pos wire heard mem snd].
    rewrite list_insert_insert_eq. unfold bptr. by rewrite (u32_id (buf_ptr _)) by apply u32_range. }
  by apply HQ.
Qed.

(** The packet as the code fills it in. *)
Definition filled (p : PACKET) (w t : Z) (d : list Z) (a b : Z) : PACKET :=
  mkPacket (nb_buff p) (u32 (nb_buff p + ETHHDR_SIZE)) (u32 (Z.of_nat (length d) - 18)) t (a + 256 * b).

Lemma filled_describes p w t d a b :
  d !! 12%nat = Some a -> d !! 13%nat = Some b -> (64 <= length d <= 1536)%nat ->
  describes (w, d) (filled p w t d a b, d).
Proof.
  intros Ha Hb Hl. split_and!; cbn; [done|done| |by exists a, b]. apply u32_id. unfold is_u32. lia.
Qed.

Lemma wp_pk_alloc (Q : option PACKET -> st -> Prop) s :
  Forall gives_fresh (pool s) ->
  (forall l, Forall gives_fresh l -> Q None (set_log (log s ++ [NoPacket]) (set_pool l s))) ->
  (forall q l, Forall gives_fresh l -> bptr q ∉ map bptr (rx_pkts (inf s)) -> Q (Some q) (set_pool l s)) ->
  wp pk_alloc Q s.
Proof.
  intros Hpool Hn Hs. unfold wp, pk_alloc. destruct (pool s) as [|f fs]; [by apply Hn|].
  apply Forall_cons_1 in Hpool as [Hf Hfs]. destruct (f _) as [q|] eqn:Eq; [|by apply Hn]. by apply Hs, (Hf _ _ Eq).
Qed.

Lemma wp_rx_one given taken C G R bd (Q : unit -> st -> Prop) s :
  inv given taken C G R (at_ R s) -> bds (dev s) !! (TXN + slot RXN R)%nat = Some bd -> flag15 bd.1 = false ->
  (forall s', inv given taken C G (S R) (at_ (S R) s') -> later s s' -> env s' = env s -> heard (dev s') = heard (dev s) -> tx_same s s' -> Q tt s') ->
  wp (rx_frame (Z.of_nat (slot RXN R)) bd.1) (fun _ s' => wp (rx_give (Z.of_nat (slot RXN R))) Q s') s.
Proof.
  intros Hi Hb Hf HQ. destruct (ready_heard _ _ _ _ _ _ (i_rings _ _ _ _ _ _ Hi) Hb Hf) as (d & p & Hh & Hw & Hp & Hptr & Hm).
  cbn in Hp. destruct Hw as (Hw1 & _ & Hw2 & Hw3). pose proof (i_passed _ _ _ _ _ _ Hi) as Hps. cbn in Hps, Hm, Hh.
  destruct (lookup_lt_is_Some_2 d 12) as [a Ha]; [lia|]. destruct (lookup_lt_is_Some_2 d 13) as [b Hb13]; [lia|].
  unfold rx_frame. change ETH_OCM_RXDESC_LEN_MSK with 4294901760. change ETH_OCM_RXDESC_LEN_OFST with 16.
  rewrite (word_pklen _ _ Hw1 Hw2) by lia. apply wp_bind, wp_bump. intros c.
  apply wp_bind, wp_info_of. cbn [inf set_m]. rewrite Nat2Z.id, Hp.
  apply wp_bind, (wp_eq _ _ _ _ _ eq_refl). apply wp_bind. unfold e_type at 1.
  apply (wp_eq _ _ _ (a + 256 * b) (set_m c s)).
  { cbn. change (buf_ptr (nb_buff p)) with (bptr p). by rewrite Hm, Ha, Hb13. }
  apply wp_bind, wp_upd.
  set (p' := filled p bd.1 (cticks s) d a b). change (mkPacket _ _ _ _ _) with p'.
  assert (bptr p' = bptr p) as Hbp by done.
  set (s1 := upd_inf _ (set_m c s)).
  assert (forall s2 x, (forall w', flag15 w' = true -> Q tt (upd_dev (bd_put (TXN + slot RXN R) (w', bptr x)) s2)) ->
    rx_pkts (inf s2) !! slot RXN R = Some x -> dev s2 = dev s -> wp (rx_give (Z.of_nat (slot RXN R))) Q s2) as Hgive.
  { intros s2 x HQ2 Hx Hd2. eapply wp_rx_give; [exact Hx|by rewrite Hd2|exact HQ2]. }
  pose proof (lookup_lt_Some _ _ _ Hp) as Hslot.
  assert (forall s0 x w', bptr x ∉ map bptr (rx_pkts (inf s)) \/ bptr x = bptr p -> flag15 w' = true ->
    dev s0 = dev s -> env s0 = env s -> Forall gives_fresh (pool s0) -> inf s0 = inf s -> log s `prefix_of` log s0 ->
    freed (log s0) = freed (log s) -> passed (take R (heard (dev s)) ++ [(bd.1, d)]) (log s0) ->
    Q tt (refilled R x w' s0)) as Hfin.
  { intros s0 x w' Hx Hw' E1 E2 E3 E4 E5 E6 E7. apply HQ.
    - by eapply (inv_refilled given taken C G R s s0 x p).
    - split; cbn; rewrite ?E1, ?E2; [done|done|done|done].
    - done.
    - cbn. by rewrite E1.
    - split; cbn; by rewrite E4. }
  change (ctrue _) with (ctrue (Z.land (bd.1, d).1 ETH_OCM_RXDESC_ERROR_MSK)). rewrite (error_flag (bd.1, d)). case_bool_decide as Herr.
  - apply wp_bump. intros c2. eapply (Hgive _ p'); [|cbn; by rewrite list_lookup_insert_eq|done].
    intros w' Hw'. apply (Hfin (set_m c2 s) p' w'); try done; [by right|apply Hi|by apply passed_error].
  - apply wp_bind, wp_pk_alloc; [apply Hi| |].
    + intros l Hl. apply wp_bump. intros c2. eapply (Hgive _ p'); [|cbn; by rewrite list_lookup_insert_eq|done].
      intros w' Hw'. apply (Hfin (set_m c2 (set_log (log s ++ [NoPacket]) (set_pool l s))) p' w'); try done.
      * by right.
      * by apply prefix_app_r.
      * cbn. by rewrite freed_app, app_nil_r.
      * by apply passed_dropped.
    + change (rx_pkts (inf s1)) with (<[slot RXN R := p']> (rx_pkts (inf s))). intros q l Hl Eq.
      apply wp_bind, wp_modify, wp_bind, wp_modify, wp_upd.
      eapply (Hgive _ q); [|cbn; rewrite list_lookup_insert_eq; [done|by rewrite length_insert]|done].
      intros w' Hw'.
      pose (s0 := set_log (log s ++ [Recv p' d]) (set_rcvdq (rcvdq s ++ [p']) (set_pool l (set_m c s)))).
      assert (Q tt (refilled R q w' s0)) as Hq.
      { apply Hfin; try done.
        - left. change (map bptr ?l) with (bptr <$> l) in *. rewrite list_fmap_insert, list_insert_id in Eq; [done|].
          by rewrite list_lookup_fmap, Hp.
        - by apply prefix_app_r.
        - cbn. by rewrite freed_app, app_nil_r.
        - apply (passed_kept _ (bd.1, d) _ (p', d)); [done|done|by apply filled_describes]. }
      unfold refilled, s0, upd_dev, upd_inf in Hq |- *. cbn in Hq |- *.
      rewrite list_insert_insert_eq. change (buf_ptr (nb_buff p)) with (bptr p). by rewrite Hm.
Qed.

(** ** The frames that are there *)

(** An empty descriptor: the driver has taken all frames. *)
Lemma empty_heard acc G pk R b bd :
  rings acc G pk R b -> bds b !! (TXN + slot RXN R)%nat = Some bd -> flag15 bd.1 = true -> R = length (heard b).
Proof.
  intros [_ HR] Hb Hf. pose proof (rx_le _ _ _ HR) as Hle. destruct (decide (R = length (heard b))) as [|Hne]; [done|].
  destruct (lookup_lt_is_Some_2 (heard b) R) as [[w d] Hlk]; [lia|]. destruct (rx_full _ _ _ HR R w d) as (Hw & p & _ & Hb' & _); [lia|done|].
  rewrite Hb in Hb'. injection Hb' as ->. destruct Hw as (_ & Hf' & _). cbn [fst] in Hf. congruence.
Qed.

(** A bound on the rounds of the loop. *)
Definition rounds (R : nat) (s : st) : nat :=
  match env s with [] => length (heard (dev s)) - R | _ => length (env s) + RXN end.

Lemma rounds_le acc G pk R s : rings acc G pk R (dev s) -> (rounds R s <= length (env s) + RXN)%nat.
Proof. intros [_ HR]. pose proof (rx_le _ _ _ HR). unfold rounds. destruct (env s); cbn; lia. Qed.

(** A load after a frame has been taken. *)
Lemma rounds_next acc G pk R s s' b e :
  (R < length (heard (dev s)))%nat -> loaded s b e s' -> rings acc G pk (S R) b -> (S (rounds (S R) s') <= rounds R s)%nat.
Proof.
  intros HR [-> -> Hh Hs] [_ Hr]. pose proof (rx_le _ _ _ Hr). unfold rounds. cbn [env set_env dev set_dev].
  destruct (env s) as [|f l]; cbn [tail].
  - rewrite Hs by done. lia.
  - destruct l; cbn [length]; lia.
Qed.

Lemma wp_ocm_rx_loop fuel given taken C G R bd (Q : Z -> st -> Prop) s :
  inv given taken C G R (at_ R s) -> bds (dev s) !! (TXN + slot RXN R)%nat = Some bd -> (rounds R s <= fuel)%nat ->
  (forall G' R' s', inv given taken C G' R' (at_ R' s') -> later s s' -> tx_same s s' -> R' = length (heard (dev s')) ->
     Q (Z.of_nat (slot RXN R')) s') ->
  wp (rx_loop fuel (Z.of_nat (slot RXN R)) bd.1) Q s.
Proof.
  induction fuel as [|f IH] in G, R, bd, s |- *; intros Hi Hb Hf HQ; cbn [rx_loop];
    change ETH_OCM_RXDESC_EMPTY_MSK with 32768; rewrite flag_msk;
    (destruct (flag15 bd.1) eqn:Hfl; [apply wp_ret, (HQ G R); [done|done|done|by apply (empty_heard _ _ _ _ _ _ (i_rings _ _ _ _ _ _ Hi) Hb Hfl)]|]);
    destruct (ready_heard _ _ _ _ _ _ (i_rings _ _ _ _ _ _ Hi) Hb Hfl) as (d & p & Hh & _);
    pose proof (lookup_lt_Some _ _ _ Hh) as Hlt; cbn in Hlt.
  - exfalso. unfold rounds in Hf. destruct (env s); cbn in Hf; lia.
  - apply wp_bind. eapply wp_mono; [apply (wp_rx_one given taken C G R bd (fun _ s' => wp
      (stat ← rd_ctrl (rxdesc (advance ETH_OCM_RX_DESC_COUNT (Z.of_nat (slot RXN R))));
       rx_loop f (advance ETH_OCM_RX_DESC_COUNT (Z.of_nat (slot RXN R))) stat) Q s')); [done..|]|by intros; apply wp_bind].
    intros s1 Hi1 Hla1 He1 Hh1 Hsame1. rewrite advance_rx, slot_rx.
    apply wp_bind, (wp_rd_ctrl _ (filter good taken) G (rx_pkts (inf s1)) (S R)); [apply slot_rx_lt|apply Hi1|apply Hi1|].
    intros b e G1 bd1 s2 Hl HG1 Hr1 He Hb1. pose proof (loaded_later _ _ _ _ Hl) as Hla2.
    apply (IH G1).
    + eapply (inv_loaded given taken C G G1 (S R) (at_ (S R) s1) b e); [done| |done|done|done].
      destruct Hl as [-> -> L3 L4]. by split.
    + by rewrite (l_state _ _ _ _ Hl).
    + assert (R < length (heard (dev s1)))%nat as Hlt1 by (rewrite Hh1; exact Hlt).
      pose proof (rounds_next _ _ _ _ _ _ _ _ Hlt1 Hl Hr1) as Hn.
      replace (rounds R s1) with (rounds R s) in Hn by (unfold rounds; by rewrite He1, Hh1). lia.
    + intros G' R' s' Hi' Hla' Hsame' HR'. apply (HQ G'); [done| | |done].
      * etrans; [exact Hla1|]. by etrans.
      * etrans; [exact Hsame1|]. rewrite <- Hsame'. by rewrite (l_state _ _ _ _ Hl).
Qed.

(** The handler of receptions: it stops when no stored frame is left. *)
Lemma wp_rx_isr fuel given taken C G R (Q : Z -> st -> Prop) s :
  inv given taken C G R s -> (length (env s) + RXN <= fuel)%nat ->
  (forall G' R' s', inv given taken C G' R' s' -> later s s' -> tx_same s s' -> R' = length (heard (dev s')) -> Q SUCCESS s') ->
  wp (eth_ocm_rx_isr fuel) Q s.
Proof.
  intros Hi Hf HQ. unfold eth_ocm_rx_isr. apply wp_bind, wp_info_of. rewrite (i_rx _ _ _ _ _ _ Hi), slot_rx.
  apply wp_bind, (wp_rd_ctrl _ (filter good taken) G (rx_pkts (inf s)) R); [apply slot_rx_lt|apply Hi|apply Hi|].
  intros b e G1 bd s1 Hl HG1 Hr1 He Hb. pose proof (inv_loaded _ _ _ _ _ _ _ _ _ _ Hi Hl HG1 Hr1 He) as Hi1.
  pose proof (loaded_later _ _ _ _ Hl) as Hla. apply wp_bind, (wp_ocm_rx_loop fuel given taken C G1 R).
  - destruct Hi1. by split.
  - by rewrite (l_state _ _ _ _ Hl).
  - pose proof (rounds_le _ _ _ _ _ (i_rings _ _ _ _ _ _ Hi1)). pose proof (la_env _ _ Hla). lia.
  - intros G' R' s' Hi' Hla' Hsame HR'. apply wp_bind, wp_upd, wp_ret. apply (HQ G' R'); [done| | |done].
    + etrans; [exact Hla|]. by destruct Hla'; split.
    + rewrite (l_state _ _ _ _ Hl) in Hsame. exact Hsame.
Qed.

End Rx.

(** * The interrupt of the InterNiche driver *)

Section Isr.
Context {cfg : OcmConfig} {ok : OcmConfigOk}.

Abbreviation TXN := (Z.to_nat ETH_OCM_TX_DESC_COUNT).
Abbreviation RXN := (Z.to_nat ETH_OCM_RX_DESC_COUNT).

(** ** Registers *)

Lemma ocm_rings_regs acc G pk R b f : rings acc G pk R b -> rings acc G pk R (set_regs f b).
Proof. intros [HT HR]. split; [destruct HT|destruct HR]; by split. Qed.

Lemma wp_rd r acc G pk R (Q : Z -> st -> Prop) s :
  rings acc G pk R (dev s) -> Forall behaves (env s) ->
  (forall b e G' s', loaded s b e s' -> (G <= G')%nat -> rings acc G' pk R b -> Forall behaves e -> Q (regs b r) s') ->
  wp (rd r) Q s.
Proof.
  intros Hr He HQ. unfold rd. apply wp_bind, (wp_ocm_hw acc G pk R); [done..|]. intros b e G' s' Hl HG Hr' He'.
  apply (wp_eq _ _ _ (regs b r) s'); [|by eapply HQ]. by rewrite (l_state _ _ _ _ Hl).
Qed.

(** The pending interrupts are cleared by a write of what was read. *)
Lemma ack_clears b : regs (reg_write ETH_OCM_INT_SOURCE (regs b ETH_OCM_INT_SOURCE) b) ETH_OCM_INT_SOURCE = 0.
Proof. cbn. by rewrite fn_lookup_insert, Z.land_lnot_diag. Qed.

Lemma inv_write given taken C G R r v s :
  inv given taken C G R s -> inv given taken C G R (upd_dev (reg_write r v) s).
Proof.
  intros [Irings Igiven Isend Iord Iroom Icur Inext Irdy Isem Igood Ibad Irx Ipass Ienv Ipool].
  split; try done. by apply ocm_rings_regs.
Qed.

Lemma inv_same given taken C G R s s' :
  inv given taken C G R s -> inf s' = inf s -> dev s' = dev s -> env s' = env s -> pool s' = pool s ->
  freed (log s') = freed (log s) -> passed (take R (heard (dev s))) (log s') -> inv given taken C G R s'.
Proof.
  intros [Irings Igiven Isend Iord Iroom Icur Inext Irdy Isem Igood Ibad Irx Ipass Ienv Ipool] H1 H2 H3 H4 H5 H6.
  split; rewrite ?H1, ?H2, ?H3, ?H4, ?H5; done.
Qed.

Lemma passed_signal hs l : passed hs l -> passed hs (l ++ [SignalPktDemux]).
Proof. unfold passed. by rewrite upped_app, app_nil_r. Qed.

(** ** One round *)

(** What every part of the handler keeps. *)
Definition kept given s (s' : st) : Prop := (exists taken C G R, inv given taken C G R s') /\ no_idle s' /\ later s s'.

Lemma wp_isr_rx given fuel s0 s (b : bool) (Q : unit -> st -> Prop) :
  kept given s0 s -> (length (env s0) + RXN <= fuel)%nat -> (forall s', kept given s0 s' -> Q tt s') ->
  wp (when b (eth_ocm_rx_isr fuel;; q ← gets rcvdq; when (0 <? Z.of_nat (length q)) (emit SignalPktDemux))) Q s.
Proof.
  intros [(taken & C & G & R & Hi) [Hni Hla]] Hf HQ. apply wp_when; intros _; [|by apply HQ; split; eauto].
  apply wp_bind. eapply wp_rx_isr; [exact Hi|pose proof (la_env _ _ Hla); lia|]. intros G' R' s' Hi' Hla' Hsame _.
  pose proof (no_idle_same _ _ Hni Hsame) as Hni'.
  apply wp_bind, (wp_eq _ _ _ _ _ eq_refl), wp_when; intros _; (try apply wp_modify); apply HQ; (split; [|split; [exact Hni'|]]).
  - exists taken, C, G', R'. apply (inv_same _ _ _ _ _ s'); try done; cbn; [by rewrite freed_app, app_nil_r|]. apply passed_signal, Hi'.
  - etrans; [exact Hla|]. etrans; [exact Hla'|]. split; cbn; [done|done|done|by apply prefix_app_r].
  - eauto 10.
  - by etrans.
Qed.

Lemma wp_isr_busy given s0 s (b : bool) (Q : unit -> st -> Prop) :
  kept given s0 s -> (forall s', kept given s0 s' -> Q tt s') ->
  wp (when b (bump ifInDiscards set_ifInDiscards 1)) Q s.
Proof.
  intros [(taken & C & G & R & Hi) [Hni Hla]] HQ. apply wp_when; intros _; [|by apply HQ; split; eauto].
  apply wp_bump. intros c. apply HQ. split; [|split; [exact Hni|]].
  - exists taken, C, G, R. by apply (inv_same _ _ _ _ _ s); try done; apply Hi.
  - etrans; [exact Hla|]. by split.
Qed.

Lemma wp_isr_tx given fuel s0 s (b : bool) (Q : unit -> st -> Prop) :
  kept given s0 s -> (TXN <= fuel)%nat -> (length given <= fuel)%nat -> (forall s', kept given s0 s' -> Q tt s') ->
  wp (when b (eth_ocm_tx_isr fuel)) Q s.
Proof.
  intros [(taken & C & G & R & Hi) [Hni Hla]] Hf1 Hf2 HQ. apply wp_when; intros _; [|by apply HQ; split; eauto].
  eapply wp_tx_isr; [exact Hi|done| |].
  - rewrite (i_given _ _ _ _ _ _ Hi), length_app in Hf2. lia.
  - intros taken' C' G' s' Hi' Hla' Hni'. apply HQ. split; [eauto 10|]. split; [done|by etrans].
Qed.

(** ** The loop *)

(** The loads are used up one by one; without loads the acknowledged interrupts stay
    away. *)
Definition isr_fuel (given : list PACKET) (s : st) : nat := length (env s) + TXN + RXN + length given.

Lemma wp_isr_loop fuel given taken C G R (Q : unit -> st -> Prop) s :
  inv given taken C G R s -> no_idle s -> (regs (dev s) ETH_OCM_INT_SOURCE <> 0 -> (isr_fuel given s < fuel)%nat) ->
  (forall taken' C' G' R' s', inv given taken' C' G' R' s' -> no_idle s' -> (length (env s') <= length (env s))%nat -> Q tt s') ->
  wp (isr_loop fuel (regs (dev s) ETH_OCM_INT_SOURCE)) Q s.
Proof.
  induction fuel as [|f IH] in taken, C, G, R, s |- *; intros Hi Hni Hf HQ; cbn [isr_loop]; unfold ctrue at 1;
    destruct (Z.eqb_spec (regs (dev s) ETH_OCM_INT_SOURCE) 0) as [E|E]; cbn [negb];
    try (by apply wp_ret; eapply HQ; [exact Hi|done|lia]); specialize (Hf E); [lia|].
  set (result := regs (dev s) ETH_OCM_INT_SOURCE) in *.
  set (s0 := upd_dev (reg_write ETH_OCM_INT_SOURCE result) s).
  apply wp_bind, wp_modify. fold s0.
  assert (kept given s0 s0) as Hk by (split; [exists taken, C, G, R; by apply inv_write|by split]).
  unfold isr_fuel in Hf.
  apply wp_bind, (wp_isr_rx given _ s0); [done|cbn; lia|]. intros s1 Hk1.
  apply wp_bind, (wp_isr_busy given s0); [done|]. intros s2 Hk2.
  apply wp_bind, (wp_isr_tx given _ s0); [done|lia|lia|]. intros s3 [(taken3 & C3 & G3 & R3 & Hi3) [Hni3 Hla3]].
  apply wp_bind, (wp_rd _ (filter good taken3) G3 (rx_pkts (inf s3)) R3); [apply Hi3|apply Hi3|].
  intros b e G4 s4 Hl HG Hr He. pose proof (inv_loaded _ _ _ _ _ _ _ _ _ _ Hi3 Hl HG Hr He) as Hi4.
  assert (length (env s4) <= pred (length (env s)))%nat as Hlen.
  { pose proof (la_env _ _ Hla3) as H3. cbn in H3. rewrite (l_state _ _ _ _ Hl). cbn. rewrite (l_env _ _ _ _ Hl).
    destruct (env s3); cbn in *; lia. }
  replace (regs b ETH_OCM_INT_SOURCE) with (regs (dev s4) ETH_OCM_INT_SOURCE) by (by rewrite (l_state _ _ _ _ Hl)).
  eapply IH; [exact Hi4|by rewrite (l_state _ _ _ _ Hl)| |intros; eapply HQ; [done|done|lia]].
  intros Hne. unfold isr_fuel. destruct (env s) as [|g l] eqn:Eenv; [|cbn in *; lia].
  exfalso. apply Hne. rewrite (l_state _ _ _ _ Hl). cbn.
  assert (env s3 = []) as E3.
  { apply length_zero_iff_nil. pose proof (la_env _ _ Hla3) as H3. cbn in H3. rewrite Eenv in H3. cbn in H3. lia. }
  rewrite (l_still _ _ _ _ Hl E3), (la_still _ _ Hla3 Eenv). apply ack_clears.
Qed.

Lemma wp_isr fuel given taken C G R (Q : unit -> st -> Prop) s :
  inv given taken C G R s -> no_idle s -> (isr_fuel given s < fuel)%nat ->
  (forall taken' C' G' R' s', inv given taken' C' G' R' s' -> no_idle s' -> (length (env s') <= length (env s))%nat -> Q tt s') ->
  wp (eth_ocm_isr fuel) Q s.
Proof.
  intros Hi Hni Hf HQ. unfold eth_ocm_isr.
  apply wp_bind, (wp_rd _ (filter good taken) G (rx_pkts (inf s)) R); [apply Hi|apply Hi|].
  intros b e G' s' Hl HG Hr He. pose proof (la_env _ _ (loaded_later _ _ _ _ Hl)) as Hlen.
  replace (regs b ETH_OCM_INT_SOURCE) with (regs (dev s') ETH_OCM_INT_SOURCE) by (by rewrite (l_state _ _ _ _ Hl)).
  eapply wp_isr_loop; [by eapply inv_loaded|by rewrite (l_state _ _ _ _ Hl)|unfold isr_fuel in *; lia|]. intros. eapply HQ; [done|done|lia].
Qed.

End Isr.
