(* ===== verification/OcmInit.v ===== *)
(** * Starting the InterNiche driver *)

From stdpp Require Import relations functions.
From S2P Require Import Prelude.
From S2P Require Import Ring.
From S2P Require Import Ocm.
From S2P Require Import OcmFacts.
From S2P Require Import OcmTx.
From S2P Require Import OcmPhy.
From S2P Require Import OcmRx.

Section Init.
Context {cfg : OcmConfig} {ok : OcmConfigOk}.

Abbreviation TXN := (Z.to_nat ETH_OCM_TX_DESC_COUNT).
Abbreviation RXN := (Z.to_nat ETH_OCM_RX_DESC_COUNT).

(** ** The rings before all receive descriptors have been given *)

(** The first [i] of them have; [pk] are their packets. *)
Record starting (pk : list PACKET) (i : nat) (b : board) : Prop := {
  st_len : length (bds b) = 128%nat;
  st_tx : tx_pos b = 0%nat;
  st_wire : wire b = [];
  st_idle : forall j, (j < TXN)%nat -> exists bd, bds b !! j = Some bd /\ flag15 bd.1 = false;
  st_rx : rx_pos b = slot RXN (length (heard b));
  st_le : (length (heard b) <= i <= RXN)%nat;
  st_full : forall j w d, heard b !! j = Some (w, d) ->
    rx_word w d /\ exists p, pk !! j = Some p /\ bds b !! (TXN + j)%nat = Some (w, bptr p) /\ mem b (bptr p) = d;
  st_empty : forall j, (length (heard b) <= j < i)%nat ->
    exists w p, pk !! j = Some p /\ bds b !! (TXN + j)%nat = Some (w, bptr p) /\ flag15 w = true;
  st_free : forall j, (i <= j < RXN)%nat -> exists bd, bds b !! (TXN + j)%nat = Some bd /\ flag15 bd.1 = false;
  st_distinct : NoDup (map bptr (take i pk));
}.

Lemma bptr_distinct pk i j k p q :
  NoDup (map bptr (take i pk)) -> (j < i)%nat -> (k < i)%nat -> pk !! j = Some p -> pk !! k = Some q -> bptr p = bptr q -> j = k.
Proof.
  intros Hn Hj Hk Hp Hq E. change (map bptr ?l) with (bptr <$> l) in Hn. eapply NoDup_lookup; [exact Hn| |].
  - rewrite list_lookup_fmap, lookup_take_lt, Hp by done. reflexivity.
  - rewrite list_lookup_fmap, lookup_take_lt, Hq by done. cbn. by rewrite E.
Qed.

Lemma slot_small n c : (c < n)%nat -> slot n c = c.
Proof. intros H. by apply Nat.mod_small. Qed.

Lemma starting_step pk i b b' : starting pk i b -> hw_step b b' -> starting pk i b'.
Proof.
  intros [S1 S2 S3 S4 S5 S6 S7 S8 S9 S10] Hstep. pose proof ocm_TXN_pos. pose proof ocm_RXN_pos. pose proof bds_room.
  destruct Hstep as [b w p w' Hb Hf Hf'|b w p w' d Hb Hf Hw|b r v Hr]; [| |by split].
  - exfalso. destruct (S4 0%nat) as (bd & Hb' & Hf2); [lia|]. rewrite S2, Hb' in Hb. injection Hb as ->. cbn [fst] in Hf2. congruence.
  - set (H' := length (heard b)) in *. assert (H' < i)%nat as Hi.
    { apply Nat.nle_gt. intros Hge. assert (exists bd, bds b !! (TXN + slot RXN H')%nat = Some bd /\ flag15 bd.1 = false) as (bd & Hb' & Hf').
      { destruct (decide (H' = RXN)) as [E|E]; [|rewrite slot_small by lia; apply S9; lia].
        destruct (lookup_lt_is_Some_2 (heard b) 0) as [[w0 d0] Hlk]; [fold H'; lia|].
        destruct (S7 _ _ _ Hlk) as ((_ & Hf0 & _) & q & _ & Hb0 & _). exists (w0, bptr q). split; [|done].
        rewrite E. replace (slot RXN RXN) with 0%nat; [done|]. symmetry. apply Nat.Div0.mod_same. }
      rewrite S5, Hb' in Hb. injection Hb as ->. cbn [fst] in Hf'. congruence. }
    rewrite S5, slot_small in Hb by lia. destruct (S8 H') as (w0 & q & Hq & Hb0 & _); [lia|]. rewrite Hb0 in Hb. injection Hb as -> <-.
    split; cbn [bds tx_pos rx_pos wire heard mem stored]; rewrite ?length_app, ?length_insert; cbn [length]; fold H';
      rewrite ?S5, ?(slot_small _ H') by lia; try done; try lia.
    + intros j Hj. rewrite list_lookup_insert_ne by lia. by apply S4.
    + intros j w2 d2 Hlk. apply lookup_app_Some in Hlk as [Hlk|[Hge Hlk]].
      * destruct (S7 _ _ _ Hlk) as (Hw2 & q2 & Hq2 & Hb2 & Hm2). pose proof (lookup_lt_Some _ _ _ Hlk) as Hlt. fold H' in Hlt.
        split; [done|]. exists q2. rewrite list_lookup_insert_ne, fn_lookup_insert_ne; [done| |lia].
        intros E. symmetry in E. pose proof (bptr_distinct _ _ _ _ _ _ S10 (ltac:(lia) : (j < i)%nat) Hi Hq2 Hq E). lia.
      * apply list_lookup_singleton_Some in Hlk as [Hj0 [= <- <-]]. fold H' in Hge, Hj0. assert (j = H') as -> by lia.
        split; [done|]. exists q. by rewrite list_lookup_insert_eq, fn_lookup_insert by lia.
    + intros j Hj. rewrite list_lookup_insert_ne by lia. apply S8. lia.
    + intros j Hj. rewrite list_lookup_insert_ne by lia. by apply S9.
Qed.

Lemma starting_regs pk i b f : starting pk i b -> starting pk i (set_regs f b).
Proof. intros []. by split. Qed.

(** Another packet for the next descriptor. *)
Lemma starting_pk pk i b q : starting pk i b -> (i < length pk)%nat -> starting (<[i := q]> pk) i b.
Proof.
  intros [S1 S2 S3 S4 S5 S6 S7 S8 S9 S10] Hi. split; try done.
  - intros j w d Hlk. destruct (S7 _ _ _ Hlk) as (Hw & p & Hp & Hr). pose proof (lookup_lt_Some _ _ _ Hlk).
    split; [done|]. exists p. by rewrite list_lookup_insert_ne by lia.
  - intros j Hj. destruct (S8 _ Hj) as (w & p & Hp & Hr). exists w, p. by rewrite list_lookup_insert_ne by lia.
  - by rewrite take_insert_ge by lia.
Qed.

(** The next descriptor is given. *)
Lemma starting_give pk i b q w :
  starting pk i b -> (i < RXN)%nat -> pk !! i = Some q -> bptr q ∉ map bptr (take i pk) -> flag15 w = true ->
  starting pk (S i) (bd_put (TXN + i) (w, bptr q) b).
Proof.
  intros [S1 S2 S3 S4 S5 S6 S7 S8 S9 S10] Hi Hq Hfresh Hw. pose proof bds_room.
  split; cbn [bds tx_pos rx_pos wire heard mem bd_put set_bds]; rewrite ?length_insert; try done; try lia.
  - intros j Hj. rewrite list_lookup_insert_ne by lia. by apply S4.
  - intros j w2 d Hlk. destruct (S7 _ _ _ Hlk) as (Hw2 & p & Hp & Hr). pose proof (lookup_lt_Some _ _ _ Hlk).
    split; [done|]. exists p. by rewrite list_lookup_insert_ne by lia.
  - intros j Hj. destruct (decide (j = i)) as [->|Hne].
    + exists w, q. by rewrite list_lookup_insert_eq by lia.
    + rewrite list_lookup_insert_ne by lia. apply S8. lia.
  - intros j Hj. rewrite list_lookup_insert_ne by lia. apply S9. lia.
  - rewrite (take_S_r _ _ _ Hq), map_app. apply list.NoDup_app. split_and!; [done| |apply NoDup_singleton].
    intros x Hx Hx'. apply list_elem_of_singleton in Hx' as ->. done.
Qed.

(** All have been given. *)
Lemma starting_rings pk b : starting pk RXN b -> length pk = RXN -> rings [] 0 pk 0 b.
Proof.
  intros [S1 S2 S3 S4 S5 S6 S7 S8 S9 S10] Hlen. pose proof ocm_TXN_pos. pose proof ocm_RXN_pos. split.
  - split; cbn [length take map]; try done; try lia.
    + rewrite S2. symmetry. by apply slot_small.
    + intros j Hj. rewrite slot_small by lia. apply S4. lia.
  - split; try done; try lia.
    + intros i p Hp. pose proof (lookup_lt_Some _ _ _ Hp). destruct (decide (i < length (heard b))%nat).
      * destruct (lookup_lt_is_Some_2 (heard b) i) as [[w d] Hlk]; [done|].
        destruct (S7 _ _ _ Hlk) as (_ & q & Hq & Hb & _). rewrite Hq in Hp. injection Hp as ->. by exists w.
      * destruct (S8 i) as (w & q & Hq & Hb & _); [lia|]. rewrite Hq in Hp. injection Hp as ->. by exists w.
    + by rewrite take_ge in S10 by lia.
    + intros j w d _ Hlk. pose proof (lookup_lt_Some _ _ _ Hlk). rewrite slot_small by lia. by apply S7.
    + intros j Hj. rewrite slot_small by lia. destruct (S8 j) as (w & q & _ & Hb & Hf); [lia|]. by exists (w, bptr q).
Qed.

(** ** Clearing the descriptors *)

(** The words below [j] are cleared where they are control words. *)
Definition cleared (j : Z) (l : list (Z * Z)) : Prop :=
  length l = 128%nat /\ forall k bd, l !! k = Some bd -> 2 * Z.of_nat k < j -> bd.1 = 0.

Lemma cleared_insert j l k bd :
  cleared j l -> (k < 128)%nat -> bd.1 = 0 -> 2 * Z.of_nat k = j \/ 2 * Z.of_nat k + 1 = j -> cleared (j + 1) (<[k := bd]> l).
Proof.
  intros [Hl Hc] Hk Hbd Hj. split; [by rewrite length_insert|]. intros k' bd' Hlk Hk'.
  destruct (decide (k' = k)) as [->|Hne].
  - rewrite list_lookup_insert_eq in Hlk by lia. by injection Hlk as <-.
  - rewrite list_lookup_insert_ne in Hlk by done. apply (Hc k'); [done|lia].
Qed.

(** A word of the descriptors is cleared. *)
Lemma wp_IOWR_clear j (Q : unit -> st -> Prop) s :
  0 <= j < 255 -> cleared j (bds (dev s)) ->
  (forall l, cleared (j + 1) l -> Q tt (upd_dev (set_bds l) s)) -> wp (IOWR (ETH_OCM_DESC_START + j) 0) Q s.
Proof.
  intros Hj Hc HQ. unfold IOWR. unfold ETH_OCM_DESC_START. rewrite (proj2 (Z.ltb_ge (256 + j) 256)) by lia.
  replace (256 + j - 256) with j by lia. replace ((256 + j) mod 2) with (j mod 2) by (rewrite <- (Z_mod_plus_full j 128 2); f_equal; lia).
  set (k := Z.to_nat (j / 2)). assert (k < 128)%nat as Hk by (subst k; pose proof (Z.div_lt_upper_bound j 2 128); lia).
  destruct (lookup_lt_is_Some_2 (bds (dev s)) k) as [bd Hbd]; [destruct Hc; lia|].
  pose proof (Z.div_mod j 2 ltac:(lia)) as Hdm. pose proof (Z.mod_pos_bound j 2 ltac:(lia)). pose proof (Z.div_pos j 2).
  destruct (Z.eqb_spec (j mod 2) 0) as [E|E].
  - apply (wp_wr_ctrl _ _ bd); [done|]. apply (HQ (<[k := (0, bd.2)]> (bds (dev s)))).
    apply cleared_insert; [done|done|done|subst k; lia].
  - apply (wp_wr_ptr _ _ bd); [done|]. apply (HQ (<[k := (bd.1, 0)]> (bds (dev s)))).
    apply cleared_insert; [done|done|apply (proj2 Hc k bd); [done|]|]; subst k; lia.
Qed.

Lemma upd_dev_twice f g s : upd_dev f (upd_dev g s) = upd_dev (fun b => f (g b)) s.
Proof. done. Qed.

Lemma wp_clear_descs n j (Q : unit -> st -> Prop) s :
  0 <= j -> j + Z.of_nat n = 255 -> cleared j (bds (dev s)) ->
  (forall l, cleared 255 l -> Q tt (upd_dev (set_bds l) s)) -> wp (clear_descs n (ETH_OCM_DESC_START + j)) Q s.
Proof.
  induction n as [|n IH] in j, s |- *; intros Hj Hn Hc HQ; cbn [clear_descs].
  - apply wp_ret. replace s with (upd_dev (set_bds (bds (dev s))) s) by (by destruct s as [? ? ? ? ? []]).
    apply HQ. by replace 255 with j by lia.
  - apply wp_bind, wp_IOWR_clear; [lia|done|]. intros l Hl.
    replace (ETH_OCM_DESC_START + j + 1) with (ETH_OCM_DESC_START + (j + 1)) by lia.
    apply IH; [lia|lia|done|]. intros l' Hl'. apply (HQ l' Hl').
Qed.

(** ** The first buffers *)

(** What does not change any more: the queues, and what the stack was given. *)
Record ready (s : st) : Prop := {
  rd_sem : sem (inf s) = 0;
  rd_cur_tx : cur_tx_desc (inf s) = 0;
  rd_cur_rx : cur_rx_desc (inf s) = 0;
  rd_next : next_tx_desc (inf s) = 0;
  rd_rdy : next_tx_desc_rdy (inf s) = 1;
  rd_tosend : tosend (inf s) = [];
  rd_sending : sending (inf s) = [];
  rd_freed : freed (log s) = [];
  rd_upped : upped (log s) = [];
  rd_env : Forall behaves (env s);
  rd_pool : Forall gives_fresh (pool s);
  rd_count : length (rx_pkts (inf s)) = RXN;
}.

Definition upto (i : nat) (s : st) : Prop := starting (rx_pkts (inf s)) i (dev s).

Lemma behaves_starting pk i f b : behaves f -> starting pk i b -> starting pk i (f b).
Proof. intros Hf. specialize (Hf b). induction Hf; eauto using starting_step. Qed.

Lemma wp_hw_starting i (Q : unit -> st -> Prop) s :
  ready s -> upto i s -> (forall s', ready s' -> upto i s' -> inf s' = inf s -> (length (env s') <= length (env s))%nat -> Q tt s') -> wp hw Q s.
Proof.
  intros [R1 R2 R3 R4 R5 R6 R7 R8 R9 R10 R11 R12] Hu HQ. unfold wp, hw. destruct (env s) as [|f e] eqn:E.
  - apply HQ; [|done|done|by rewrite E]. split; try done. by rewrite E.
  - apply Forall_cons_1 in R10 as [Hf He]. apply HQ; [by split|by apply behaves_starting|done|cbn; lia].
Qed.

Lemma wp_read_init n i (Q : Z -> st -> Prop) s :
  (i + n = RXN)%nat -> ready s -> upto i s ->
  (forall r s', NoPacket ∈ log s' \/ (ready s' /\ upto RXN s') -> (length (env s') <= length (env s))%nat -> Q r s') ->
  wp (read_init_loop n (Z.of_nat i)) Q s.
Proof.
  induction n as [|n IH] in i, s |- *; intros Hn HR Hu HQ; cbn [read_init_loop].
  - apply wp_ret, HQ; [right|done]. by replace RXN with i by lia.
  - apply wp_bind, wp_pk_alloc; [apply HR| |].
    + intros l Hl. apply wp_ret, HQ; [left|done]. cbn. apply elem_of_app. right. by left.
    + intros q l Hl Hfresh. apply wp_bind, wp_upd. rewrite Nat2Z.id.
      set (s1 := upd_inf _ _). pose proof (rd_count _ HR) as Hlen.
      assert (ready s1) as HR1 by (destruct HR; split; try done; cbn; by rewrite length_insert).
      assert (upto i s1) as Hu1 by (apply starting_pk; [exact Hu|cbn; lia]).
      assert (rxdesc (Z.of_nat i) = (TXN + i)%nat) as Hrx by (rewrite <- (slot_small RXN i) by lia; apply slot_rx).
      rewrite Hrx. unfold rd_ctrl. apply wp_bind, wp_bind, (wp_hw_starting i); [done|done|]. intros s2 HR2 Hu2 Hi2 He2.
      destruct (st_free _ _ _ Hu2 i) as (bd & Hb & Hf); [lia|]. apply wp_bind. unfold bd_at.
      apply (wp_eq _ _ _ bd s2); [by rewrite Hb|]. apply wp_ret. rewrite flag_msk, Hf.
      assert (rx_pkts (inf s2) !! i = Some q) as Hq by (rewrite Hi2; cbn; by rewrite list_lookup_insert_eq by lia).
      apply wp_bind. rewrite <- (slot_small RXN i) at 1 by lia.
      apply (wp_rx_give _ q bd); [by rewrite slot_small by lia|by rewrite slot_small by lia|]. intros w' Hw'.
      rewrite slot_small by lia. replace (Z.of_nat i + 1) with (Z.of_nat (S i)) by lia.
      apply IH; [lia|by destruct HR2; split| |intros r s' Hor Hle; apply HQ; [done|cbn in *; lia]].
      apply (starting_give (rx_pkts (inf s2))); [exact Hu2|lia|done| |done].
      rewrite Hi2. cbn. rewrite take_insert_ge by lia. intros Hin. apply Hfresh.
      rewrite <- (take_drop i (rx_pkts (inf s))), map_app. apply elem_of_app. by left.
Qed.

(** ** From nothing to running *)

Definition set_up (n : nat) (s : st) : Prop :=
  ready s /\ upto 0 s /\ length (mac_addr (inf s)) = 6%nat /\ (length (env s) <= n)%nat.

Lemma wp_wr_up n r v (Q : unit -> st -> Prop) s :
  set_up n s -> (forall s', set_up n s' -> Q tt s') -> wp (wr r v) Q s.
Proof.
  intros (HR & Hu & Hm & Hn) HQ. apply wp_modify, HQ. split; [by destruct HR|]. split_and!; [|done|done].
  apply (starting_regs _ _ _ _ Hu).
Qed.

Lemma wp_mac_up n (Q : unit -> st -> Prop) s :
  set_up n s -> (forall s', set_up n s' -> Q tt s') -> wp set_mac_regs Q s.
Proof.
  intros H HQ. unfold set_mac_regs.
  assert (forall i (Q : Z -> st -> Prop) s, set_up n s -> (i < 6)%nat -> (forall x, Q x s) -> wp (octet i) Q s) as Ho.
  { intros i Q' s' (_ & _ & Hm & _) Hi HQ'. unfold octet. apply wp_bind, wp_info_of.
    destruct (lookup_lt_is_Some_2 (mac_addr (inf s')) i) as [x ->]; [by rewrite Hm|]. by apply wp_ret. }
  do 4 (apply wp_bind, Ho; [done|lia|]; intros ?).
  apply wp_bind, (wp_wr_up n); [done|]. intros s1 H1.
  do 2 (apply wp_bind, Ho; [done|lia|]; intros ?). by apply (wp_wr_up n).
Qed.

Lemma wp_phy_up fuel n (Q : Z -> st -> Prop) s :
  (Z.to_nat (ETH_OCM_PHY_TIMEOUT_THRESHOLD + 1) < fuel)%nat ->
  set_up n s -> (forall d s', set_up n s' -> Q d s') -> wp (eth_ocm_phy_init fuel) Q s.
Proof.
  intros Hf (HR & Hu & Hm & Hn) HQ. set (P := starting (rx_pkts (inf s)) 0).
  assert (same P s s) as Hs by (split; [by destruct s|done|apply HR|done]).
  pose proof (calm_phy_init P (starting_step _ _) (fun b f H => starting_regs _ _ b f H) fuel Hf s s Hs) as H.
  eapply wp_mono; [exact H|]. intros d s' [_ [E Hb He Hl]]. apply HQ. destruct HR as [R1 R2 R3 R4 R5 R6 R7 R8 R9 R10 R11 R12].
  unfold set_up, upto. rewrite E. cbn [inf log pool dev env set_env set_dev]. split_and!; [|done|done|lia].
  by split.
Qed.

(** The board after a reset. *)
Record fresh (b : board) : Prop := {
  fr_len : length (bds b) = 128%nat;
  fr_tx : tx_pos b = 0%nat;
  fr_rx : rx_pos b = 0%nat;
  fr_wire : wire b = [];
  fr_heard : heard b = [];
}.

Lemma fresh_starting pk b l : fresh b -> cleared 255 l -> starting pk 0 (set_bds l b).
Proof.
  intros [F1 F2 F3 F4 F5] [Hl Hc]. pose proof ocm_RXN_pos. pose proof bds_room.
  assert (forall k, (k < 128)%nat -> exists bd, l !! k = Some bd /\ flag15 bd.1 = false) as Hz.
  { intros k Hk. destruct (lookup_lt_is_Some_2 l k) as [bd Hb]; [lia|]. exists bd. split; [done|].
    rewrite (Hc k bd Hb) by lia. apply Z.bits_0. }
  split; cbn; rewrite ?F5; cbn [length]; try done; try lia.
  - intros j Hj. apply Hz. lia.
  - rewrite F3. symmetry. by apply slot_small.
  - intros j Hj. apply Hz. lia.
  - constructor.
Qed.

(** The first part of [eth_ocm_init], before the PHY. *)
Lemma wp_set_up index junk mac (m1 : M st Z) (Q : Z -> st -> Prop) s :
  ETH_OCM_SYNC_TX = false -> fresh (dev s) -> Forall behaves (env s) -> Forall gives_fresh (pool s) ->
  freed (log s) = [] -> upped (log s) = [] -> length junk = RXN -> length mac = 6%nat ->
  (forall s', set_up (length (env s)) s' -> wp m1 Q s') ->
  wp (eth_ocm_prep index junk mac;;
      clear_descs (Z.to_nat (ETH_OCM_DESC_END - ETH_OCM_DESC_START)) ETH_OCM_DESC_START;;
      wr ETH_OCM_MODER 0;; wr ETH_OCM_TX_BD_NUM ETH_OCM_TX_DESC_COUNT;;
      upd (set_cur_tx_desc 0);; upd (set_cur_rx_desc 0);;
      unless ETH_OCM_SYNC_TX
        (upd (set_next_tx_desc 0);; upd (set_next_tx_desc_rdy 1);; upd (set_tosend []);; upd (set_sending []));;
      m1) Q s.
Proof.
  intros Hsync Hfr He Hpool Hf1 Hf2 Hjunk Hmac Hm1. unfold eth_ocm_prep. apply wp_bind.
  do 2 apply wp_bind, wp_upd. do 2 apply wp_bind, wp_modify. apply wp_bind, wp_upd, wp_ret.
  apply wp_bind. replace ETH_OCM_DESC_START with (ETH_OCM_DESC_START + 0) at 2 by lia.
  apply wp_clear_descs; [lia|done|split; [apply Hfr|lia]|]. intros l Hl.
  do 2 apply wp_bind, wp_modify. do 2 apply wp_bind, wp_upd. rewrite Hsync. cbn [unless].
  apply wp_bind. do 3 apply wp_bind, wp_upd. apply wp_upd, Hm1. split; [by split|]. split_and!; [|done|done].
  pose proof (fresh_starting junk _ _ Hfr Hl) as Hst.
  exact (starting_regs _ _ _ _ (starting_regs _ _ _ _ Hst)).
Qed.

Lemma ready_inv s : ready s -> upto RXN s -> inv [] [] 0 0 0 s.
Proof.
  intros [R1 R2 R3 R4 R5 R6 R7 R8 R9 R10 R11 R12] Hu. pose proof ocm_TXN_pos. pose proof ocm_RXN_pos.
  split; rewrite ?R1, ?R2, ?R3, ?R4, ?R5, ?R6, ?R7, ?R8; cbn [filter list_filter length]; try done.
  - by apply starting_rings.
  - lia.
  - by rewrite slot_small by lia.
  - by rewrite slot_small by lia.
  - rewrite bool_decide_eq_true_2 by lia. done.
  - by rewrite slot_small by lia.
  - unfold passed. by rewrite R9.
Qed.

Lemma up_modify n f s : set_up n s -> set_up n (upd_m f s).
Proof. intros (HR & Hu & Hm & Hn). split; [by destruct HR|]. by split_and!. Qed.

Lemma up_emit n s : set_up n s -> set_up n (set_log (log s ++ [IrqRegister]) s).
Proof.
  intros (HR & Hu & Hm & Hn). split; [|by split_and!]. destruct HR as [R1 R2 R3 R4 R5 R6 R7 R8 R9 R10 R11 R12].
  split; try done; cbn; [by rewrite freed_app, R8|by rewrite upped_app, R9].
Qed.

(** The driver starts: it succeeds in any case, and when the stack had a packet for
    every receive descriptor the rings are set up. *)
Lemma wp_start fuel index junk mac (Q : Z -> st -> Prop) s :
  ETH_OCM_SYNC_TX = false -> fresh (dev s) -> Forall behaves (env s) -> Forall gives_fresh (pool s) ->
  freed (log s) = [] -> upped (log s) = [] -> length junk = RXN -> length mac = 6%nat ->
  (Z.to_nat (ETH_OCM_PHY_TIMEOUT_THRESHOLD + 1) < fuel)%nat ->
  (forall s', NoPacket ∈ log s' \/ inv [] [] 0 0 0 s' /\ no_idle s' -> (length (env s') <= length (env s))%nat -> Q SUCCESS s') ->
  wp (eth_ocm_prep index junk mac;; eth_ocm_init (eth_ocm_phy_init fuel)) Q s.
Proof.
  intros Hsync Hfr He Hpool Hf1 Hf2 Hjunk Hmac Hfuel HQ. unfold eth_ocm_init.
  apply wp_set_up; [done..|]. set (n := length (env s)) in *. intros s1 H1.
  do 2 (apply wp_bind, (wp_wr_up n); [done|]; clear dependent s1; intros s1 H1).
  apply wp_bind, (wp_phy_up _ n); [done|done|]. clear dependent s1. intros d s1 H1.
  do 8 (apply wp_bind, (wp_wr_up n); [done|]; clear dependent s1; intros s1 H1).
  apply wp_bind, (wp_mac_up n); [done|]. clear dependent s1. intros s1 H1.
  apply wp_bind, (wp_wr_up n); [done|]. clear dependent s1. intros s1 H1.
  do 3 apply wp_bind, wp_modify. apply wp_bind. unfold eth_ocm_read_init.
  apply (up_modify n (set_ifAdminStatus ETH_OCM_STATUS_UP)), (up_modify n (set_ifOperStatus ETH_OCM_STATUS_UP)), up_emit in H1.
  destruct H1 as (HR & Hu & _ & Hn). apply (wp_read_init _ 0); [lia|exact HR|exact Hu|].
  intros r s2 H2 Hle. apply wp_ret, HQ; [|etrans; [exact Hle|exact Hn]].
  destruct H2 as [H2|[H2 H3]]; [by left|right]. split; [by apply ready_inv|left; by destruct H2].
Qed.

End Init.
