(* ===== verification/OcmProps.v ===== *)
(** * What the InterNiche driver promises

    The driver is prepared and started, and then called: packets are handed over, and
    the interrupt handler runs, with the controller acting at any load. *)

From stdpp Require Import relations functions.
From S2P Require Import Prelude.
From S2P Require Import Ring.
From S2P Require Import Ocm.
From S2P Require Import OcmFacts.
From S2P Require Import OcmTx.
From S2P Require Import OcmPhy.
From S2P Require Import OcmRx.
From S2P Require Import OcmInit.

(** ** The calls of the stack and of the interrupt *)

Inductive call := Send (p : PACKET) | Interrupt.

Definition sends (cs : list call) : list PACKET :=
  omap (fun c => match c with Send p => Some p | Interrupt => None end) cs.

Section Calls.
Context {cfg : OcmConfig}.

Definition do_call (fuel : nat) (c : call) : M st unit :=
  match c with
  | Send p => eth_ocm_pkt_send fuel p;; mret tt
  | Interrupt => eth_ocm_isr fuel
  end.

Fixpoint run (fuel : nat) (cs : list call) : M st unit :=
  match cs with
  | [] => mret tt
  | c :: cs => do_call fuel c;; run fuel cs
  end.

(** The start; [index], [junk] and [mac] as in [eth_ocm_prep]. *)
Definition start (fuel : nat) (index : Z) (junk : list PACKET) (mac : list Z) : M st Z :=
  eth_ocm_prep index junk mac;;
  eth_ocm_init (eth_ocm_phy_init fuel).

Context {ok : OcmConfigOk}.

Abbreviation TXN := (Z.to_nat ETH_OCM_TX_DESC_COUNT).
Abbreviation RXN := (Z.to_nat ETH_OCM_RX_DESC_COUNT).

Lemma sends_app c cs : sends (c :: cs) = sends [c] ++ sends cs.
Proof. by destruct c. Qed.

Lemma wp_call fuel c given taken C G R (Q : unit -> st -> Prop) s :
  inv given taken C G R s -> no_idle s -> (isr_fuel given s < fuel)%nat ->
  (forall taken' C' G' R' s', inv (given ++ sends [c]) taken' C' G' R' s' -> no_idle s' -> (length (env s') <= length (env s))%nat -> Q tt s') ->
  wp (do_call fuel c) Q s.
Proof.
  intros Hi Hni Hf HQ. unfold isr_fuel in Hf. destruct c as [p|]; cbn [do_call].
  - apply wp_bind. eapply wp_pkt_send; [exact Hi|lia| |].
    + rewrite (i_given _ _ _ _ _ _ Hi), length_app in Hf. lia.
    + intros taken' C' G' s' Hi' Hla Hni'. apply wp_ret. eapply HQ; [exact Hi'|done|by apply la_env].
  - cbn in HQ. rewrite app_nil_r in HQ. eapply wp_isr; [exact Hi|done|unfold isr_fuel; lia|done].
Qed.

Lemma wp_run fuel cs given taken C G R (Q : unit -> st -> Prop) s :
  inv given taken C G R s -> no_idle s -> (isr_fuel given s + length cs < fuel)%nat ->
  (forall taken' C' G' R' s', inv (given ++ sends cs) taken' C' G' R' s' -> no_idle s' -> (length (env s') <= length (env s))%nat -> Q tt s') ->
  wp (run fuel cs) Q s.
Proof.
  induction cs as [|c cs IH] in given, taken, C, G, R, s |- *; intros Hi Hni Hf HQ; cbn [run].
  - apply wp_ret. cbn in HQ. rewrite app_nil_r in HQ. by eapply HQ.
  - cbn [length] in Hf. apply wp_bind. eapply wp_call; [exact Hi|done|lia|]. intros taken' C' G' R' s' Hi' Hni' Hle.
    eapply IH; [exact Hi'|done| |].
    + unfold isr_fuel in *. rewrite length_app. destruct c; cbn [sends omap list_omap length]; lia.
    + intros t2 C2 G2 R2 s2 Hi2 Hni2 Hle2. rewrite <- app_assoc, <- sends_app in Hi2. eapply HQ; [exact Hi2|done|lia].
Qed.

(** ** The theorems *)

(** What the driver may assume of the board, the controller and the stack. *)
Record world (junk : list PACKET) (mac : list Z) (s : st) : Prop := {
  w_sync : ETH_OCM_SYNC_TX = false;
  w_fresh : fresh (dev s);
  w_env : Forall behaves (env s);
  w_pool : Forall gives_fresh (pool s);
  w_log : log s = [];
  w_junk : length junk = RXN;
  w_mac : length mac = 6%nat;
}.

(** Enough for a run of [cs]. *)
Definition enough (cs : list call) (s : st) (fuel : nat) : Prop :=
  (Z.to_nat (ETH_OCM_PHY_TIMEOUT_THRESHOLD + 1) < fuel)%nat /\
  (length (env s) + TXN + RXN + length cs < fuel)%nat.

Lemma wp_lifetime fuel index junk mac cs (Q : st -> Prop) s :
  world junk mac s -> enough cs s fuel ->
  (forall taken C G R s', inv (sends cs) taken C G R s' -> no_idle s' -> (length (env s') <= length (env s))%nat -> Q s') ->
  wp (start fuel index junk mac) (fun r s1 => r = SUCCESS /\ (NoPacket ∉ log s1 -> wp (run fuel cs) (fun _ s2 => Q s2) s1)) s.
Proof.
  intros [W1 W2 W3 W4 W5 W6 W7] [Hf1 Hf2] HQ. apply wp_start; try done; [by rewrite W5..|].
  intros s1 H1 Hle. split; [done|]. intros Hn. destruct H1 as [|[Hi Hni]]; [done|].
  eapply wp_run; [exact Hi|done|unfold isr_fuel; cbn [length]; lia|]. intros taken C G R s' Hi' Hni' Hle'. eapply HQ; [exact Hi'|done|lia].
Qed.

(** C25: the driver always starts, and when the stack had a packet for each receive
    descriptor, then whatever packets are handed over and whenever interrupts come: the
    frames on the wire are those of the packets with a good length, in the order they
    were handed over and each once, apart from those that are still on the way; such a
    packet is given back once, and only after its frame was sent, and packets wait only
    while all descriptors are in use; a packet with a bad length is given back once
    without a frame. *)
Theorem ocm_transmits fuel index junk mac cs s :
  world junk mac s -> enough cs s fuel ->
  wp (start fuel index junk mac) (fun r s1 => r = SUCCESS /\ (NoPacket ∉ log s1 ->
    wp (run fuel cs) (fun _ s2 => exists taken C G,
      sends cs = taken ++ tosend (inf s2) /\
      wire (dev s2) = map frame (take G (filter good taken)) /\
      filter good (freed (log s2)) = take C (filter good taken) /\ (C <= G)%nat /\
      sending (inf s2) = drop C (filter good taken) /\
      (tosend (inf s2) = [] \/ length (sending (inf s2)) = TXN) /\
      filter (fun p => ~ good p) (freed (log s2)) = filter (fun p => ~ good p) taken) s1)) s.
Proof.
  intros Hw Hf. apply wp_lifetime; [done|done|]. intros taken C G R s' Hi Hni _. exists taken, C, G.
  destruct Hi as [Irings Igiven Isend Iord Iroom Icur Inext Irdy Isem Igood Ibad Irx Ipass Ienv Ipool].
  split_and!; try done; [apply Irings|].
  destruct Hni as [Hni|Hni]; [by left|right]. rewrite Irdy in Hni. apply bool_decide_eq_false_1 in Hni. rewrite Isend, length_drop. lia.
Qed.

(** C26: when the stack had a packet for each receive descriptor at the start, then after any
    packets handed over and interrupts, followed by the receive handler: every frame
    that the controller has stored without errors, in order and each once, is in the
    queue of the stack as a packet whose buffer holds the frame, with its start, length
    and type filled in, except those for which the stack, asked for a packet for a new
    buffer, had none; each such refusal costs one frame, in its place. *)
Theorem ocm_receives fuel index junk mac cs s :
  world junk mac s -> enough cs s fuel ->
  wp (start fuel index junk mac) (fun r s1 => r = SUCCESS /\ (NoPacket ∉ log s1 ->
    wp (run fuel cs) (fun _ s2 => wp (eth_ocm_rx_isr fuel) (fun r s3 => r = SUCCESS /\
      Forall2 came_up (filter no_error (heard (dev s3))) (upped (log s3)) /\
      received (log s3) = omap id (upped (log s3))) s2) s1)) s.
Proof.
  intros Hw Hf. apply wp_lifetime; [done|done|]. intros taken C G R s' Hi _ Hle.
  eapply wp_rx_isr; [exact Hi|destruct Hf; lia|]. intros G' R' s2 Hi2 _ _ HR. split; [done|].
  pose proof (i_passed _ _ _ _ _ _ Hi2) as Hp. rewrite HR, firstn_all in Hp. split; [exact Hp|apply received_upped].
Qed.

(** The PHY that is found is the first on the bus; the duplex is that of its vendor's
    register once the autonegotiation is done, half duplex if the vendor is not known
    (and full duplex for the last vendor, whose register is not read). *)
Theorem phy_init_duplex (phy : Z -> Z -> Z) fuel a s :
  (forall a r, 0 <= phy a r < 65536) -> 0 <= a < 32 -> (forall b, 0 <= b < a -> absent phy b) -> ~ absent phy a ->
  ctrue (Z.land (phy a 1) PCS_ST_an_done) = true -> answering phy (42 + 4 * Z.to_nat a) s ->
  wp (eth_ocm_phy_init fuel) (fun d _ => d = duplex_spec phy a) s.
Proof. intros H16 Ha Hb Hna Hd Hs. by apply (wp_phy_init phy H16 fuel a). Qed.

End Calls.

(** * A run of the InterNiche driver

    A configuration, a controller that sends and stores, a PHY and a stack, for which
    the assumptions of the theorems hold. *)

(** ** The configuration *)

#[global] Instance sim_cfg : OcmConfig := {|
  ETH_OCM_TX_DESC_COUNT := 2; ETH_OCM_RX_DESC_COUNT := 2; ETH_OCM_SYNC_TX := false; ETH_OCM_TX_SYNC := false;
  ALT_CPU_FREQ := 50000000; ETHHDR_BIAS := 2; ETHHDR_SIZE := 16; alt_remap_cached := fun p => p;
  EFBIG := 27; EBUSY := 16; EIO := 5; ETIMEDOUT := 116; SUCCESS := 0; ENP_RESOURCE := -22; ENP_NOBUFFER := -21;
  SEND_DROPPED := -22 |}.

#[global] Instance sim_ok : OcmConfigOk.
Proof. split; cbn; lia. Qed.

(** ** The controller *)

Definition xmit (b : board) : board :=
  match bds b !! tx_pos b with
  | Some (w, p) => if flag15 w then sent w p 0 b else b
  | None => b
  end.

Definition recv (d : list Z) (b : board) : board :=
  match bds b !! (2 + rx_pos b)%nat with
  | Some (w, p) => if flag15 w then stored p (65536 * Z.of_nat (length d)) d b else b
  | None => b
  end.

Definition irq (v : Z) (b : board) : board := set_regs (<[ETH_OCM_INT_SOURCE := v]> (regs b)) b.

Lemma behaves_id : behaves (fun b => b).
Proof. by intros b. Qed.

Lemma behaves_comp f g : behaves f -> behaves g -> behaves (fun b => f (g b)).
Proof. intros Hf Hg b. etrans; [apply Hg|apply Hf]. Qed.

Lemma behaves_xmit : behaves xmit.
Proof.
  intros b. unfold xmit. destruct (bds b !! tx_pos b) as [[w p]|] eqn:E; [|done].
  destruct (flag15 w) eqn:F; [|done]. apply rtc_once. by apply hw_sent.
Qed.

(** A word with a length only. *)
Lemma length_word d : (64 <= length d <= 1536)%nat -> rx_word (65536 * Z.of_nat (length d)) d.
Proof.
  intros Hd. split_and!; [unfold is_u32; lia| | |lia..].
  - replace (65536 * Z.of_nat (length d)) with (Z.shiftl (Z.of_nat (length d)) 16) by (rewrite Z.shiftl_mul_pow2 by lia; lia).
    apply Z.shiftl_spec_low. lia.
  - rewrite Z.shiftr_div_pow2 by lia. change (2 ^ 16) with 65536. rewrite Z.mul_comm, Z.div_mul by lia. done.
Qed.

Lemma behaves_recv d : (64 <= length d <= 1536)%nat -> behaves (recv d).
Proof.
  intros Hd b. unfold recv. destruct (bds b !! (2 + rx_pos b)%nat) as [[w p]|] eqn:E; [|done].
  destruct (flag15 w) eqn:F; [|done]. apply rtc_once, (hw_stored b w); [done|done|by apply length_word].
Qed.

Lemma behaves_irq v : behaves (irq v).
Proof. intros b. apply rtc_once, hw_reg. by left. Qed.

Lemma behaves_answers phy : behaves (answers phy).
Proof.
  intros b. etrans.
  - apply rtc_once, (hw_reg b ETH_OCM_MIISTATUS 0). auto.
  - apply rtc_once.
    exact (hw_reg (set_regs (<[ETH_OCM_MIISTATUS := 0]> (regs b)) b) ETH_OCM_MIIRX_DATA
      (phy (Z.land (regs b ETH_OCM_MIIADDRESS) 31) (Z.land (Z.shiftr (regs b ETH_OCM_MIIADDRESS) 8) 31)) ltac:(auto)).
Qed.

(** ** The PHY: the first vendor's, at address 1, full duplex *)

Definition sim_phy (a r : Z) : Z :=
  if a =? 1 then
    if r =? 1 then 32 else if r =? 2 then 0x13 else if r =? 3 then 0x78E2 else if r =? 0x11 then 512 else 0
  else 65535.

(** ** The stack *)

Definition buffer (a : Z) : PACKET := mkPacket a 0 0 0 0.

Definition give (a : Z) (held : list PACKET) : option PACKET :=
  if decide (bptr (buffer a) ∈ map bptr held) then None else Some (buffer a).

Lemma give_fresh a : gives_fresh (give a).
Proof. intros held p. unfold give. case_decide; [done|]. by intros [= <-]. Qed.

Definition outgoing (a n : Z) : PACKET := mkPacket a a n 0 0.

Definition sim_frame : list Z := replicate 12 1 ++ [8; 0] ++ replicate 50 7.

(** ** The run *)

Definition sim_board : board := mkBoard (fun _ => 0) (replicate 128 (0, 0)) 0 0 [] [] (fun _ => []).

(** 16 loads for the PHY, two for the receive descriptors, eight for the packets; then
    both frames have been sent, one was stored, and there is an interrupt. *)
Definition sim_env : list (board -> board) :=
  replicate 16 (answers sim_phy) ++ replicate 10 (fun b => b) ++
  [fun b => irq 5 (recv sim_frame (xmit (xmit b)))].

Definition sim_start : st :=
  mkSt (mkInfo [] 0 0 0 [] [] [] 0 0) (mkMib 0 0 0 0 0 0 0) [] [give 4096; give 8192; give 12288] 77 sim_board sim_env [].

Definition sim_mac : list Z := [2; 0; 0; 0; 0; 1].
Definition sim_calls : list call := [Send (outgoing 100 62); Send (outgoing 300 9000); Send (outgoing 200 102); Interrupt].
Definition sim_fuel : nat := Z.to_nat 100100.

Definition sim_result : outcome (list (Z * Z) * list PACKET * list (PACKET * list Z) * bool) :=
  match (start sim_fuel 0 [buffer 0; buffer 0] sim_mac;; run sim_fuel sim_calls) sim_start with
  | Ret (_, s) => Ret (wire (dev s), freed (log s), received (log s), bool_decide (env s = []))
  | UB => UB
  | NoFuel => NoFuel
  end.

(** Both good packets were sent and given back, the other only given back; the stored
    frame was received. *)
Example sim_run :
  sim_result = Ret ([(102, 60); (202, 100)], [outgoing 300 9000; outgoing 100 62; outgoing 200 102],
    [(mkPacket 4096 4112 46 77 8, sim_frame)], true).
Proof. by vm_compute. Qed.

(** ** The assumptions hold *)

Lemma sim_world : world [buffer 0; buffer 0] sim_mac sim_start.
Proof.
  split; try done.
  - unfold sim_start, sim_env. cbn [env]. rewrite !Forall_app. split_and!.
    + apply Forall_replicate, behaves_answers.
    + apply Forall_replicate, behaves_id.
    + apply Forall_singleton, (behaves_comp (irq 5) (fun b => recv sim_frame (xmit (xmit b)))); [apply behaves_irq|].
      apply (behaves_comp (recv sim_frame)); [apply behaves_recv; cbn; lia|].
      apply behaves_comp; apply behaves_xmit.
  - repeat constructor; apply give_fresh.
Qed.

Lemma sim_enough : enough sim_calls sim_start sim_fuel.
Proof. unfold enough, sim_fuel, ETH_OCM_PHY_TIMEOUT_THRESHOLD. cbn -[Z.to_nat]. lia. Qed.

Lemma ocm_transmits_witness :
  wp (start sim_fuel 0 [buffer 0; buffer 0] sim_mac) (fun r s1 => r = SUCCESS /\ (NoPacket ∉ log s1 ->
    wp (run sim_fuel sim_calls) (fun _ s2 => exists taken C G,
      sends sim_calls = taken ++ tosend (inf s2) /\
      wire (dev s2) = map frame (take G (filter good taken)) /\
      filter good (freed (log s2)) = take C (filter good taken) /\ (C <= G)%nat /\
      sending (inf s2) = drop C (filter good taken) /\
      (tosend (inf s2) = [] \/ length (sending (inf s2)) = Z.to_nat ETH_OCM_TX_DESC_COUNT) /\
      filter (fun p => ~ good p) (freed (log s2)) = filter (fun p => ~ good p) taken) s1)) sim_start.
Proof. apply ocm_transmits; [apply sim_world|apply sim_enough]. Defined.

Lemma ocm_receives_witness :
  wp (start sim_fuel 0 [buffer 0; buffer 0] sim_mac) (fun r s1 => r = SUCCESS /\ (NoPacket ∉ log s1 ->
    wp (run sim_fuel sim_calls) (fun _ s2 => wp (eth_ocm_rx_isr sim_fuel) (fun r s3 => r = SUCCESS /\
      Forall2 came_up (filter no_error (heard (dev s3))) (upped (log s3)) /\
      received (log s3) = omap id (upped (log s3))) s2) s1)) sim_start.
Proof. apply ocm_receives; [apply sim_world|apply sim_enough]. Defined.

Definition sim_answering : st := set_env (replicate 46 (answers sim_phy)) sim_start.

Lemma sim_phy_16 a r : 0 <= sim_phy a r < 65536.
Proof. unfold sim_phy. repeat case_match; lia. Qed.

Lemma phy_init_duplex_witness : wp (eth_ocm_phy_init 1) (fun d _ => d = duplex_spec sim_phy 1) sim_answering /\ duplex_spec sim_phy 1 = 1.
Proof.
  split; [|reflexivity]. apply (phy_init_duplex sim_phy 1 1).
  - apply sim_phy_16.
  - lia.
  - intros b Hb. assert (b = 0) as -> by lia. by left.
  - unfold absent. cbn. lia.
  - reflexivity.
  - by exists [].
Defined.
