(* ===== verification/Clock.v ===== *)
(** * POSIX clocks: conversions between times and ticks, the real-time clock, sleeping
    (tools/gcc4libstdxx/ecos/compat/posix: time.cxx)

    The clock of the kernel counts ticks; its converters between ticks and other units are
    a class with their documented effect. *)

From S2P Require Import Prelude.

Definition CLOCK_REALTIME : Z := 0.

(** The converters of the kernel's clock: a second in nanoseconds and a nanosecond to
    ticks, a tick to nanoseconds.  Values are unsigned with 64 bits. *)
Class KClock := {
  tick_ns : Z;
  convert_sec : Z -> Z;
  convert_ns : Z -> Z;
  convert_ns_inverse : Z -> Z;
  tick_ns_pos : 0 < tick_ns <= 1000000000;
  convert_sec_spec : forall n, 0 <= n < 2 ^ 32 -> convert_sec n = n * 1000000000 / tick_ns;
  convert_ns_spec : forall n, 0 <= n < 2 ^ 32 -> convert_ns n = n / tick_ns;
  convert_inverse_spec : forall n, 0 <= n -> n * tick_ns < 2 ^ 64 -> convert_ns_inverse n = n * tick_ns;
}.

Abbreviation u64 := (uwrap 64).

Record timespec := mkTs { tv_sec : Z; tv_nsec : Z }.

Section Clock.
Context {kc : KClock}.

(** A null pointer is [None]. *)
Definition valid_timespec (tp : option timespec) : bool :=
  match tp with
  | None => false
  | Some t => negb ((tv_nsec t <? 0) || (tv_nsec t >? 1000000000))
  end.

Definition tickns : Z := convert_ns_inverse 1.

Definition cyg_timespec_to_ticks (tp : timespec) (roundup : bool) : Z :=
  if (tv_sec tp =? 0) && (tv_nsec tp =? 0) then 0
  else
    let ticks := convert_sec (u64 (tv_sec tp)) in
    if roundup then u64 (ticks + convert_ns (u64 (u64 (tv_nsec tp) + tickns - 1)))
    else u64 (ticks + convert_ns (u64 (tv_nsec tp))).

Definition cyg_ticks_to_timespec (ticks : Z) : timespec :=
  if ticks =? 0 then mkTs 0 0
  else
    let nsecs := convert_ns_inverse ticks in
    mkTs (s32 (nsecs / 1000000000)) (s32 (nsecs mod 1000000000)).

(** ** Lemmas *)

Lemma div_at_most a b : 0 <= a -> 0 < b -> a / b <= a.
Proof. intros Ha Hb. apply Z.div_le_upper_bound; [done|]. nia. Qed.

Lemma tickns_eq : tickns = tick_ns.
Proof. unfold tickns. pose proof tick_ns_pos. rewrite convert_inverse_spec; lia. Qed.

(** A time of day: what the fields of a valid time hold. *)
Definition is_time (t : timespec) : Prop := 0 <= tv_sec t < 2 ^ 31 /\ 0 <= tv_nsec t < 1000000000.

Definition nanoseconds (t : timespec) : Z := tv_sec t * 1000000000 + tv_nsec t.

Lemma floor_ticks t : is_time t ->
  cyg_timespec_to_ticks t false = tv_sec t * 1000000000 / tick_ns + tv_nsec t / tick_ns.
Proof.
  intros [Hs Hn]. pose proof tick_ns_pos as Hp. unfold cyg_timespec_to_ticks.
  destruct ((tv_sec t =? 0) && (tv_nsec t =? 0)) eqn:E.
  - apply andb_true_iff in E as [->%Z.eqb_eq ->%Z.eqb_eq]. by rewrite !Zdiv_0_l.
  - rewrite (uwrap_id 64 (tv_sec t)), (uwrap_id 64 (tv_nsec t)), convert_sec_spec, convert_ns_spec by lia.
    apply uwrap_id. pose proof (Z.div_pos (tv_sec t * 1000000000) tick_ns). pose proof (Z.div_pos (tv_nsec t) tick_ns).
    assert (tv_sec t * 1000000000 / tick_ns <= tv_sec t * 1000000000) by (apply div_at_most; lia).
    assert (tv_nsec t / tick_ns <= tv_nsec t) by (apply div_at_most; lia). lia.
Qed.

Lemma ceiling_ticks t : is_time t -> nanoseconds t <> 0 ->
  cyg_timespec_to_ticks t true = tv_sec t * 1000000000 / tick_ns + (tv_nsec t + tick_ns - 1) / tick_ns.
Proof.
  intros [Hs Hn] H0. pose proof tick_ns_pos as Hp. unfold cyg_timespec_to_ticks. rewrite tickns_eq.
  destruct ((tv_sec t =? 0) && (tv_nsec t =? 0)) eqn:E.
  - apply andb_true_iff in E as [E1%Z.eqb_eq E2%Z.eqb_eq]. unfold nanoseconds in H0. lia.
  - rewrite (uwrap_id 64 (tv_sec t)), (uwrap_id 64 (tv_nsec t)), (uwrap_id 64 (tv_nsec t + tick_ns - 1)), convert_sec_spec, convert_ns_spec by lia.
    apply uwrap_id. pose proof (Z.div_pos (tv_sec t * 1000000000) tick_ns). pose proof (Z.div_pos (tv_nsec t + tick_ns - 1) tick_ns).
    assert (tv_sec t * 1000000000 / tick_ns <= tv_sec t * 1000000000) by (apply div_at_most; lia).
    assert ((tv_nsec t + tick_ns - 1) / tick_ns <= tv_nsec t + tick_ns - 1) by (apply div_at_most; lia). lia.
Qed.

(** Rounding up is never short by more than the rest of the seconds in ticks, and not at
    all when a second is a whole number of ticks. *)
Lemma ceiling_enough t : is_time t -> (tick_ns | 1000000000) -> nanoseconds t <> 0 ->
  nanoseconds t <= cyg_timespec_to_ticks t true * tick_ns < nanoseconds t + tick_ns.
Proof.
  intros Ht [k Hk] H0. rewrite (ceiling_ticks t Ht H0). pose proof tick_ns_pos as Hp. unfold nanoseconds.
  assert (tv_sec t * 1000000000 = tv_sec t * k * tick_ns) as -> by (rewrite Hk; ring). rewrite Z.div_mul by lia.
  pose proof (Z.div_mod (tv_nsec t + tick_ns - 1) tick_ns) as Hdm. pose proof (Z.mod_pos_bound (tv_nsec t + tick_ns - 1) tick_ns) as Hmb.
  specialize (Hdm ltac:(lia)). specialize (Hmb ltac:(lia)). lia.
Qed.

Lemma ticks_to_timespec_eq n : 0 <= n -> n * tick_ns < 2 ^ 31 * 1000000000 ->
  cyg_ticks_to_timespec n = mkTs (n * tick_ns / 1000000000) (n * tick_ns mod 1000000000).
Proof.
  intros Hn Hb. pose proof tick_ns_pos as Hp. unfold cyg_ticks_to_timespec. destruct (Z.eqb_spec n 0) as [->|Hne]; [done|].
  rewrite convert_inverse_spec by lia. pose proof (Z.mod_pos_bound (n * tick_ns) 1000000000). pose proof (Z.div_pos (n * tick_ns) 1000000000).
  assert (n * tick_ns / 1000000000 < 2 ^ 31) by (apply Z.div_lt_upper_bound; lia). by rewrite !s32_id by lia.
Qed.

Lemma ticks_to_timespec_time n : 0 <= n -> n * tick_ns < 2 ^ 31 * 1000000000 ->
  is_time (cyg_ticks_to_timespec n) /\ nanoseconds (cyg_ticks_to_timespec n) = n * tick_ns.
Proof.
  intros Hn Hb. rewrite ticks_to_timespec_eq by done. pose proof tick_ns_pos as Hp. unfold is_time, nanoseconds. cbn.
  pose proof (Z.mod_pos_bound (n * tick_ns) 1000000000). pose proof (Z.div_mod (n * tick_ns) 1000000000 ltac:(lia)).
  pose proof (Z.div_pos (n * tick_ns) 1000000000). assert (n * tick_ns / 1000000000 < 2 ^ 31) by (apply Z.div_lt_upper_bound; lia). lia.
Qed.

(** When a second is a whole number of ticks a number of ticks comes back unchanged. *)
Lemma ticks_roundtrip n roundup : (tick_ns | 1000000000) -> 0 <= n -> n * tick_ns < 2 ^ 31 * 1000000000 ->
  cyg_timespec_to_ticks (cyg_ticks_to_timespec n) roundup = n.
Proof.
  intros Hd Hn Hb. destruct (ticks_to_timespec_time n Hn Hb) as [Ht Hns]. pose proof tick_ns_pos as Hp.
  destruct (Z.eq_dec n 0) as [->|Hne]; [by unfold cyg_ticks_to_timespec, cyg_timespec_to_ticks|].
  destruct roundup.
  - assert (nanoseconds (cyg_ticks_to_timespec n) <> 0) as H0 by (rewrite Hns; nia). pose proof (ceiling_enough _ Ht Hd H0). nia.
  - rewrite floor_ticks by done. unfold nanoseconds in Hns. destruct Hd as [k Hk].
    set (t := cyg_ticks_to_timespec n) in *. rewrite Hk, Z.mul_assoc, Z.div_mul by lia.
    assert (tv_nsec t = (n - tv_sec t * k) * tick_ns) as ->.
    { replace (tv_nsec t) with (n * tick_ns - tv_sec t * 1000000000) by lia. rewrite Hk. ring. }
    rewrite Z.div_mul by lia. lia.
Qed.

End Clock.
