(* ===== verification/Signal.v ===== *)
(** * POSIX signals
    (tools/gcc4libstdxx/ecos/compat/posix: signal.cxx, and the delivery of timer expirations
    of time.cxx)

    Signals are generated for the process or for a thread, with values that are queued in
    circular lists made from a pool, and delivered to the running thread by calling its
    handlers, which may call back.  The calls of all threads are taken in the order in which
    they hold the mutex; what the others do while a thread waits is an input.

    The kernel's clocks and alarms are classes.  Built without the [_exit] of the C library:
    a signal with the default action is recorded and the thread goes on. *)

From stdpp Require Import gmap.
From S2P Require Import Prelude.
From S2P Require Import Hal.
From S2P Require Import Clock.

(** An alarm of the kernel; [get_times] gives the trigger and the interval.  When it goes
    off, the kernel moves its trigger on by the interval, or disables it if that is 0, and
    calls its function. *)
Class KAlarm := {
  Cyg_Alarm : Type;
  alarm_new : Cyg_Alarm;
  alarm_initialize : Z -> Z -> Cyg_Alarm -> Cyg_Alarm;
  alarm_disable : Cyg_Alarm -> Cyg_Alarm;
  alarm_fire : Cyg_Alarm -> Cyg_Alarm;
  alarm_times : Cyg_Alarm -> Z * Z;
  alarm_enabled : Cyg_Alarm -> bool;
  alarm_new_spec : alarm_enabled alarm_new = false;
  alarm_initialize_spec : forall t i a,
    alarm_times (alarm_initialize t i a) = (t, i) /\ alarm_enabled (alarm_initialize t i a) = true;
  alarm_disable_spec : forall a, alarm_times (alarm_disable a) = alarm_times a /\ alarm_enabled (alarm_disable a) = false;
  alarm_fire_spec : forall a t i, alarm_times a = (t, i) ->
    alarm_times (alarm_fire a) = (if i =? 0 then t else u64 (t + i), i) /\ alarm_enabled (alarm_fire a) = negb (i =? 0);
}.

(** ** Constants *)

Definition SIG_DFL : Z := 1.
Definition SIG_IGN : Z := 2.
Definition SIGALRM : Z := 14.
Definition SA_SIGINFO : Z := 2.
Definition SIGEV_NONE : Z := 1.
Definition SIGEV_SIGNAL : Z := 2.
Definition SIGEV_THREAD : Z := 3.
Definition SIG_BLOCK : Z := 1.
Definition SIG_UNBLOCK : Z := 2.
Definition SIG_SETMASK : Z := 3.
Definition NSIG : nat := 32.

(** Codes of the C library, the sizes of the pool and of the tables. *)
Class PosixConfig := {
  SI_USER : Z; SI_QUEUE : Z; SI_TIMER : Z;
  EINVAL : Z; ESRCH : Z; EAGAIN : Z; EINTR : Z;
  SIGQUEUE_MAX : nat; POSIX_TIMER_MAX : nat; PTHREAD_THREADS_MAX : nat;
}.

(** ** Data *)

Record siginfo_t := mkSi { si_signo : Z; si_code : Z; si_value : Z }.

Record signal_info := mkInfo { next : option nat; si : siginfo_t }.

(** [sa_sigaction] is the same field. *)
Record sigaction_t := mkSa { sa_mask : Z; sa_flags : Z; sa_handler : Z }.

Record signal_state := mkSs { sa : sigaction_t; pending : option nat }.

Record sigevent := mkEv { sigev_notify : Z; sigev_signo : Z; sigev_value : Z }.

(** The signals of a thread. *)
Record pthread_info := mkPt { sigpending_set : Z; sigmask : Z }.

(** A handler that was called: the thread, the handler, the signal, what it gets with it,
    and the mask meanwhile. *)
Record call := mkCall { c_thread : Z; c_handler : Z; c_signo : Z; c_info : option siginfo_t; c_mask : Z }.

(** Calls that a handler or another thread makes. *)
Inductive op :=
| Kill (pid sig : Z)
| PthreadKill (threadid sig : Z)
| Sigaction (sig : Z) (act : sigaction_t)
| Sigqueue (pid sig value : Z)
| Sigmask (how : Z) (set : option Z).

(** What happens while a thread waits: a call of another thread, the alarm, a timer, time;
    then whether the wait ended well and whether the ASR of the thread ran. *)
Inductive other := By (thread : option Z) (o : op) | AlarmFires | TimerExpires (i : nat) | TimePasses (ticks : Z).

Record wake := mkWake { w_others : list other; w_asr : bool; w_result : bool }.

(** The application: what the handler at an address calls, if there is a function at this
    address; there is none at the null pointer and at the number of the default action. *)
Class App := {
  handler_ops : Z -> option (list op);
  no_function : handler_ops 0 = None /\ handler_ops SIG_DFL = None;
}.

Section Code.
Context {kc : KClock} {ka : KAlarm} {cfg : PosixConfig} {app : App}.

Record posix_timer := mkTimer {
  id : Z;
  alarm : Cyg_Alarm;
  armed : bool;
  t_pending : bool;
  overrun : Z;
  sigev : sigevent
}.

Record st := mkSt {
  sig_pending : Z;
  sigstate : list signal_state;
  siginfo : list signal_info;
  siginfo_next : option nat;
  threads : gmap Z pthread_info;
  self : option Z;  (* the running thread, if POSIX made it *)
  held : bool;  (* it holds the mutex of the signals *)
  sigalrm_alarm : Cyg_Alarm;
  sigalrm_armed : bool;
  sigalrm_pending : bool;
  timer_table : list posix_timer;
  timer_next : nat;
  timer_id_cookie : Z;
  now : Z;  (* the value of the clock *)
  errno : Z;
  calls : list call;  (* the handlers that were called, the last first *)
  wakes : list wake  (* how the coming waits end *)
}.

Definition set_sig_pending (v : Z) (s : st) : st := mkSt v (sigstate s) (siginfo s) (siginfo_next s) (threads s) (self s) (held s) (sigalrm_alarm s) (sigalrm_armed s) (sigalrm_pending s) (timer_table s) (timer_next s) (timer_id_cookie s) (now s) (errno s) (calls s) (wakes s).
Definition set_sigstate (v : list signal_state) (s : st) : st := mkSt (sig_pending s) v (siginfo s) (siginfo_next s) (threads s) (self s) (held s) (sigalrm_alarm s) (sigalrm_armed s) (sigalrm_pending s) (timer_table s) (timer_next s) (timer_id_cookie s) (now s) (errno s) (calls s) (wakes s).
Definition set_siginfo (v : list signal_info) (s : st) : st := mkSt (sig_pending s) (sigstate s) v (siginfo_next s) (threads s) (self s) (held s) (sigalrm_alarm s) (sigalrm_armed s) (sigalrm_pending s) (timer_table s) (timer_next s) (timer_id_cookie s) (now s) (errno s) (calls s) (wakes s).
Definition set_siginfo_next (v : option nat) (s : st) : st := mkSt (sig_pending s) (sigstate s) (siginfo s) v (threads s) (self s) (held s) (sigalrm_alarm s) (sigalrm_armed s) (sigalrm_pending s) (timer_table s) (timer_next s) (timer_id_cookie s) (now s) (errno s) (calls s) (wakes s).
Definition set_threads (v : gmap Z pthread_info) (s : st) : st := mkSt (sig_pending s) (sigstate s) (siginfo s) (siginfo_next s) v (self s) (held s) (sigalrm_alarm s) (sigalrm_armed s) (sigalrm_pending s) (timer_table s) (timer_next s) (timer_id_cookie s) (now s) (errno s) (calls s) (wakes s).
Definition set_self (v : option Z) (s : st) : st := mkSt (sig_pending s) (sigstate s) (siginfo s) (siginfo_next s) (threads s) v (held s) (sigalrm_alarm s) (sigalrm_armed s) (sigalrm_pending s) (timer_table s) (timer_next s) (timer_id_cookie s) (now s) (errno s) (calls s) (wakes s).
Definition set_held (v : bool) (s : st) : st := mkSt (sig_pending s) (sigstate s) (siginfo s) (siginfo_next s) (threads s) (self s) v (sigalrm_alarm s) (sigalrm_armed s) (sigalrm_pending s) (timer_table s) (timer_next s) (timer_id_cookie s) (now s) (errno s) (calls s) (wakes s).
Definition set_sigalrm_alarm (v : Cyg_Alarm) (s : st) : st := mkSt (sig_pending s) (sigstate s) (siginfo s) (siginfo_next s) (threads s) (self s) (held s) v (sigalrm_armed s) (sigalrm_pending s) (timer_table s) (timer_next s) (timer_id_cookie s) (now s) (errno s) (calls s) (wakes s).
Definition set_sigalrm_armed (v : bool) (s : st) : st := mkSt (sig_pending s) (sigstate s) (siginfo s) (siginfo_next s) (threads s) (self s) (held s) (sigalrm_alarm s) v (sigalrm_pending s) (timer_table s) (timer_next s) (timer_id_cookie s) (now s) (errno s) (calls s) (wakes s).
Definition set_sigalrm_pending (v : bool) (s : st) : st := mkSt (sig_pending s) (sigstate s) (siginfo s) (siginfo_next s) (threads s) (self s) (held s) (sigalrm_alarm s) (sigalrm_armed s) v (timer_table s) (timer_next s) (timer_id_cookie s) (now s) (errno s) (calls s) (wakes s).
Definition set_timer_table (v : list posix_timer) (s : st) : st := mkSt (sig_pending s) (sigstate s) (siginfo s) (siginfo_next s) (threads s) (self s) (held s) (sigalrm_alarm s) (sigalrm_armed s) (sigalrm_pending s) v (timer_next s) (timer_id_cookie s) (now s) (errno s) (calls s) (wakes s).
Definition set_timer_next (v : nat) (s : st) : st := mkSt (sig_pending s) (sigstate s) (siginfo s) (siginfo_next s) (threads s) (self s) (held s) (sigalrm_alarm s) (sigalrm_armed s) (sigalrm_pending s) (timer_table s) v (timer_id_cookie s) (now s) (errno s) (calls s) (wakes s).
Definition set_timer_id_cookie (v : Z) (s : st) : st := mkSt (sig_pending s) (sigstate s) (siginfo s) (siginfo_next s) (threads s) (self s) (held s) (sigalrm_alarm s) (sigalrm_armed s) (sigalrm_pending s) (timer_table s) (timer_next s) v (now s) (errno s) (calls s) (wakes s).
Definition set_now (v : Z) (s : st) : st := mkSt (sig_pending s) (sigstate s) (siginfo s) (siginfo_next s) (threads s) (self s) (held s) (sigalrm_alarm s) (sigalrm_armed s) (sigalrm_pending s) (timer_table s) (timer_next s) (timer_id_cookie s) v (errno s) (calls s) (wakes s).
Definition set_errno (v : Z) (s : st) : st := mkSt (sig_pending s) (sigstate s) (siginfo s) (siginfo_next s) (threads s) (self s) (held s) (sigalrm_alarm s) (sigalrm_armed s) (sigalrm_pending s) (timer_table s) (timer_next s) (timer_id_cookie s) (now s) v (calls s) (wakes s).
Definition set_calls (v : list call) (s : st) : st := mkSt (sig_pending s) (sigstate s) (siginfo s) (siginfo_next s) (threads s) (self s) (held s) (sigalrm_alarm s) (sigalrm_armed s) (sigalrm_pending s) (timer_table s) (timer_next s) (timer_id_cookie s) (now s) (errno s) v (wakes s).
Definition set_wakes (v : list wake) (s : st) : st := mkSt (sig_pending s) (sigstate s) (siginfo s) (siginfo_next s) (threads s) (self s) (held s) (sigalrm_alarm s) (sigalrm_armed s) (sigalrm_pending s) (timer_table s) (timer_next s) (timer_id_cookie s) (now s) (errno s) (calls s) v.

(** ** Access *)

(** A thread that locks the mutex again blocks itself: [UB]. *)
Definition lock : M st unit := fun s => if held s then UB else Ret (tt, set_held true s).

Definition unlock : M st unit := modify (set_held false).

Definition self_id : M st Z := fun s => match self s with Some t => Ret (t, s) | None => UB end.

Definition thread_at (t : Z) : M st pthread_info := fun s =>
  match threads s !! t with Some p => Ret (p, s) | None => UB end.

Definition upd_thread (t : Z) (f : pthread_info -> pthread_info) : M st unit :=
  p ← thread_at t; modify (fun s => set_threads (<[t := f p]> (threads s)) s).

Definition set_mask (m : Z) (p : pthread_info) : pthread_info := mkPt (sigpending_set p) m.

Definition set_pending_set (v : Z) (p : pthread_info) : pthread_info := mkPt v (sigmask p).

Definition state_at (sig : Z) : M st signal_state := fun s =>
  match sigstate s !! Z.to_nat sig with Some x => if sig <? 0 then UB else Ret (x, s) | None => UB end.

Definition upd_state (sig : Z) (f : signal_state -> signal_state) : M st unit :=
  x ← state_at sig; modify (fun s => set_sigstate (<[Z.to_nat sig := f x]> (sigstate s)) s).

Definition node_at (i : nat) : M st signal_info := fun s =>
  match siginfo s !! i with Some x => Ret (x, s) | None => UB end.

Definition put_node (i : nat) (x : signal_info) : M st unit :=
  node_at i;; modify (fun s => set_siginfo (<[i := x]> (siginfo s)) s).

(** A pointer that is followed. *)
Definition deref (p : option nat) : M st nat := match p with Some i => mret i | None => undef end.

(** [errno] and the result. *)
Definition signal_return (err : Z) : M st Z :=
  if err =? 0 then mret 0 else modify (set_errno err);; mret (-1).

(** ** Signal sets *)

Definition SIGNAL_VALID (sig : Z) : bool := (sig >? 0) && (sig <? 32).

Definition sigbit (sig : Z) : Z := u32 (Z.shiftl 1 sig).

Definition sigaddset (set signo : Z) : Z := if SIGNAL_VALID signo then Z.lor set (sigbit signo) else set.

Definition sigdelset (set signo : Z) : Z := if SIGNAL_VALID signo then Z.land set (Z.lnot (sigbit signo)) else set.

Definition sigismember (set signo : Z) : option bool :=
  if SIGNAL_VALID signo then Some (negb (Z.land set (sigbit signo) =? 0)) else None.

Definition sigemptyset : Z := 0.

Definition sigfillset : Z := u32 (Z.lnot 0).

(** ** The pool of queued signals *)

Definition pointer_eqb (p q : option nat) : bool := bool_decide (p = q).

(** A signal with its value goes behind those of its number; false: the pool is empty. *)
Definition enqueue (signo code value : Z) : M st bool :=
  free ← gets siginfo_next;
  match free with
  | None => mret false
  | Some i =>
      x ← node_at i;
      modify (set_siginfo_next (next x));;
      ss ← state_at signo;
      match pending ss with
      | None => put_node i (mkInfo (Some i) (mkSi signo code value))
      | Some t =>
          y ← node_at t;
          put_node i (mkInfo (next y) (mkSi signo code value));;
          y ← node_at t;
          put_node t (mkInfo (Some i) (si y))
      end;;
      upd_state signo (fun ss => mkSs (sa ss) (Some i));;
      mret true
  end.

(** The first queued signal of a number leaves its circular list. *)
Definition dequeue (signo : Z) : M st siginfo_t :=
  ss ← state_at signo;
  t ← deref (pending ss);
  y ← node_at t;
  i ← deref (next y);
  x ← node_at i;
  (if pointer_eqb (Some t) (Some i) then upd_state signo (fun ss => mkSs (sa ss) None)
   else y ← node_at t; put_node t (mkInfo (next x) (si y)));;
  free ← gets siginfo_next;
  x ← node_at i;
  put_node i (mkInfo free (si x));;
  modify (set_siginfo_next (Some i));;
  mret (si x).

(** All queued signals of a number. *)
Fixpoint discard (fuel : nat) (signo : Z) : M st unit :=
  ss ← state_at signo;
  match pending ss with
  | None => mret tt
  | Some _ => match fuel with O => no_fuel | S k => dequeue signo;; discard k signo end
  end.

(** The bit is cleared in both sets. *)
Definition clear_pending (signo : Z) : M st unit :=
  modify (fun s => set_sig_pending (Z.land (sig_pending s) (Z.lnot (sigbit signo))) s);;
  t ← self_id;
  upd_thread t (fun p => set_pending_set (Z.land (sigpending_set p) (Z.lnot (sigbit signo))) p).

(** ** Start *)

Fixpoint chain_free (i : nat) (n : nat) : M st unit :=
  match n with
  | O => mret tt
  | S k =>
      free ← gets siginfo_next;
      x ← node_at i;
      put_node i (mkInfo free (si x));;
      modify (set_siginfo_next (Some i));;
      chain_free (S i) k
  end.

Fixpoint default_actions (i : nat) (n : nat) : M st unit :=
  match n with
  | O => mret tt
  | S k =>
      upd_state (Z.of_nat i) (fun ss => mkSs (mkSa (sa_mask (sa ss)) (sa_flags (sa ss)) SIG_DFL) (pending ss));;
      default_actions (S i) k
  end.

Definition cyg_posix_signal_start : M st unit :=
  chain_free 0 SIGQUEUE_MAX;;
  default_actions 0 NSIG;;
  modify (set_sig_pending sigemptyset).

(** A thread gets the mask of its parent. *)
Definition cyg_posix_thread_siginit (thread : Z) (parent : option Z) : M st unit :=
  m ← match parent with None => mret sigemptyset | Some p => x ← thread_at p; mret (sigmask x) end;
  modify (fun s => set_threads (<[thread := mkPt sigemptyset m]> (threads s)) s).

(** ** Generating a signal *)

(** Whether the running thread has the mutex. *)
Definition locked_by_self : M st bool := gets (fun s => match self s with None => false | Some _ => held s end).

Definition cyg_sigqueue (sev : sigevent) (code : Z) (thread : option Z) : M st bool :=
  if sigev_notify sev =? SIGEV_NONE then mret true
  else if sigev_notify sev =? SIGEV_THREAD then mret true
  else
    locked ← locked_by_self;
    unless locked lock;;
    let signo := sigev_signo sev in
    ss ← state_at signo;
    room ← (if negb (Z.land (sa_flags (sa ss)) SA_SIGINFO =? 0) then enqueue signo code (sigev_value sev) else mret true);
    if negb room then unless locked unlock;; mret false
    else
      match thread with
      | Some t => upd_thread t (fun p => set_pending_set (sigaddset (sigpending_set p) signo) p)
      | None => modify (fun s => set_sig_pending (sigaddset (sig_pending s) signo) s)
      end;;
      unless locked unlock;;
      mret true.

Definition sigalrm_action : M st unit :=
  modify (fun s => set_sigalrm_armed false (set_sigalrm_pending true s)).

Definition check_sigalarm : M st unit :=
  p ← gets sigalrm_pending;
  when p (modify (set_sigalrm_pending false);; cyg_sigqueue (mkEv SIGEV_SIGNAL SIGALRM 0) SI_USER None;; mret tt).

(** ** Expirations of timers *)

Definition timer_at (i : nat) : M st posix_timer := fun s =>
  match timer_table s !! i with Some t => Ret (t, s) | None => UB end.

Definition put_timer (i : nat) (t : posix_timer) : M st unit :=
  timer_at i;; modify (fun s => set_timer_table (<[i := t]> (timer_table s)) s).

(** The function of the alarm of timer [i]. *)
Definition alarm_action (i : nat) : M st unit :=
  t ← timer_at i;
  if t_pending t then put_timer i (mkTimer (id t) (alarm t) (armed t) (t_pending t) (s32 (overrun t + 1)) (sigev t))
  else when (sigev_notify (sigev t) =? SIGEV_SIGNAL)
         (put_timer i (mkTimer (id t) (alarm t) (armed t) true (overrun t) (sigev t))).

(** The alarm of timer [i] goes off, if it is enabled. *)
Definition alarm_expires (i : nat) : M st unit :=
  t ← timer_at i;
  when (alarm_enabled (alarm t))
    (put_timer i (mkTimer (id t) (alarm_fire (alarm t)) (armed t) (t_pending t) (overrun t) (sigev t));;
     alarm_action i).

(** [n] timers from [i] on. *)
Fixpoint timer_asr_loop (i n : nat) : M st unit :=
  match n with
  | O => mret tt
  | S k =>
      t ← timer_at i;
      when (negb (id t =? 0) && t_pending t)
        (put_timer i (mkTimer (id t) (alarm t) (armed t) false (overrun t) (sigev t));;
         cyg_sigqueue (sigev t) SI_TIMER None;;
         t ← timer_at i;
         put_timer i (mkTimer (id t) (alarm t) (armed t) (t_pending t) 0 (sigev t)));;
      timer_asr_loop (S i) k
  end.

Definition cyg_posix_timer_asr : M st unit := timer_asr_loop 0 POSIX_TIMER_MAX.

(** ** Delivery *)

Definition self_info : M st pthread_info := t ← self_id; thread_at t.

(** The signals that can be delivered to the running thread. *)
Definition deliverable : M st Z :=
  p ← self_info;
  s ← get;
  mret (Z.land (Z.lor (sig_pending s) (sigpending_set p)) (Z.lnot (sigmask p))).

(** The lowest signal of a set, by the search of the HAL. *)
Definition lowest (todo : Z) : M st Z := match hal_lsbit_index todo with Some k => mret k | None => undef end.

(** What is queued for a signal, or the values of one that is not queued. *)
Definition take_info (signo : Z) : M st siginfo_t :=
  ss ← state_at signo;
  match pending ss with
  | Some _ => dequeue signo
  | None => mret (mkSi signo SI_USER 0)
  end.

(** The bits stay while more are queued. *)
Definition clear_if_empty (signo : Z) : M st unit :=
  ss ← state_at signo;
  when (match pending ss with None => true | Some _ => false end) (clear_pending signo).

Definition set_self_mask (m : Z) : M st unit := t ← self_id; upd_thread t (set_mask m).

(** Whether a thread has the id.  Its ten low bits index the table of threads, without a
    bound: what lies outside is read as a pointer.  [threads] stands for the table. *)
Definition pthread_info_id (threadid : Z) : M st bool := fun s =>
  if (Z.to_nat (Z.land threadid 1023) <? PTHREAD_THREADS_MAX)%nat
  then Ret (match threads s !! threadid with Some _ => true | None => false end, s)
  else UB.

(** *** The calls, for a way to deliver signals *)

Section Calls.
Variable cyg_deliver_signals : M st bool.

Definition kill (pid sig : Z) : M st Z :=
  if negb (SIGNAL_VALID sig) then signal_return EINVAL
  else if negb (pid =? 0) then signal_return ESRCH
  else
    cyg_sigqueue (mkEv SIGEV_SIGNAL sig 0) SI_USER None;;
    cyg_deliver_signals;;
    signal_return 0.

Definition pthread_kill (threadid sig : Z) : M st Z :=
  if negb (SIGNAL_VALID sig) then signal_return EINVAL
  else
    thread ← pthread_info_id threadid;
    if negb thread then signal_return ESRCH
    else
      cyg_sigqueue (mkEv SIGEV_SIGNAL sig 0) SI_USER (Some threadid);;
      cyg_deliver_signals;;
      signal_return 0.

(** With the action before. *)
Definition sigaction (sig : Z) (act : sigaction_t) : M st (Z * option sigaction_t) :=
  if negb (SIGNAL_VALID sig) then r ← signal_return EINVAL; mret (r, None)
  else
    lock;;
    ss ← state_at sig;
    upd_state sig (fun ss => mkSs act (pending ss));;
    when (sa_handler act =? SIG_IGN)
      (p ← self_info;
       s ← get;
       when (negb (Z.land (Z.lor (sig_pending s) (sigpending_set p)) (sigbit sig) =? 0))
         (clear_pending sig;; discard SIGQUEUE_MAX sig));;
    cyg_deliver_signals;;
    unlock;;
    r ← signal_return 0;
    mret (r, Some (sa ss)).

Definition sigqueue (pid sig value : Z) : M st Z :=
  if negb (SIGNAL_VALID sig) then signal_return EINVAL
  else
    cyg_sigqueue (mkEv SIGEV_SIGNAL sig value) SI_QUEUE None;;
    cyg_deliver_signals;;
    signal_return 0.

(** With the mask before. *)
Definition pthread_sigmask (how : Z) (set : option Z) : M st (Z * Z) :=
  p ← self_info;
  err ← match set with
        | None => mret 0
        | Some m =>
            if how =? SIG_BLOCK then set_self_mask (Z.lor (sigmask p) m);; mret 0
            else if how =? SIG_UNBLOCK then set_self_mask (Z.land (sigmask p) (Z.lnot m));; mret 0
            else if how =? SIG_SETMASK then set_self_mask m;; mret 0
            else mret EINVAL
        end;
  cyg_deliver_signals;;
  r ← signal_return err;
  mret (r, sigmask p).

Definition sigprocmask (how : Z) (set : option Z) : M st (Z * Z) := pthread_sigmask how set.

(** A handler of 0 is no handler: what failed calls give is -1. *)
Definition signal (sig handler : Z) : M st Z :=
  r ← sigaction sig (mkSa sigemptyset 0 handler);
  if r.1 <? 0 then mret (-1) else match r.2 with Some old => mret (sa_handler old) | None => undef end.

Definition raise (sig : Z) : M st Z := kill 0 sig.

(** The mask is restored; then the jump is taken with the value that is returned. *)
Definition siglongjmp (savemask : bool) (mask val : Z) : M st Z :=
  let val := if val =? 0 then 1 else val in
  when savemask (pthread_sigmask SIG_SETMASK (Some mask);; mret tt);;
  mret val.

Definition run_op (o : op) : M st unit :=
  match o with
  | Kill pid sig => kill pid sig;; mret tt
  | PthreadKill t sig => pthread_kill t sig;; mret tt
  | Sigaction sig act => sigaction sig act;; mret tt
  | Sigqueue pid sig v => sigqueue pid sig v;; mret tt
  | Sigmask how set => pthread_sigmask how set;; mret tt
  end.

Fixpoint run_ops (l : list op) : M st unit :=
  match l with [] => mret tt | o :: l => run_op o;; run_ops l end.

(** A call of the function at an address, which must be one. *)
Definition call_function (h : Z) : M st unit := match handler_ops h with Some l => run_ops l | None => undef end.

(** The handler of a signal is called: it is recorded and makes its calls. *)
Definition call_handler (signo : Z) (lsi : siginfo_t) : M st unit :=
  t ← self_id;
  p ← self_info;
  ss ← state_at signo;
  let h := sa_handler (sa ss) in
  let record i := modify (fun s => set_calls (mkCall t h signo i (sigmask p) :: calls s) s) in
  if negb (Z.land (sa_flags (sa ss)) SA_SIGINFO =? 0) then
    record (Some lsi);; call_function h
  else if h =? SIG_DFL then record None
  else record None;; call_function h.

(** The guards around the loop. *)
Definition deliver_with (loop : M st bool) : M st bool :=
  s ← get;
  match self s with
  | None => mret false
  | Some _ =>
      p ← self_info;
      todo ← deliverable;
      if (sig_pending s =? 0) && (sigpending_set p =? 0) then mret false
      else if todo =? 0 then mret false
      else
        locked ← locked_by_self;
        unless locked lock;;
        res ← loop;
        unless locked unlock;;
        mret res
  end.

End Calls.

(** The signal is taken and its mask is set; the mutex is free while its handler runs. *)
Definition begin_delivery (signo : Z) (a : sigaction_t) (oldmask : Z) : M st siginfo_t :=
  lsi ← take_info signo;
  clear_if_empty signo;;
  set_self_mask (Z.lor (Z.lor oldmask (sa_mask a)) (sigbit signo));;
  unlock;;
  mret lsi.

(** At most [fuel] signals one after the other, and as deep. *)
Fixpoint deliver_loop (fuel : nat) (res : bool) : M st bool :=
  todo ← deliverable;
  if todo =? 0 then mret res
  else
    match fuel with
    | O => no_fuel
    | S k =>
        signo ← lowest todo;
        ss ← state_at signo;
        if negb (sa_handler (sa ss) =? SIG_IGN) then
          p ← self_info;
          let oldmask := sigmask p in
          lsi ← begin_delivery signo (sa ss) oldmask;
          call_handler (deliver_with (deliver_loop k false)) signo lsi;;
          lock;;
          set_self_mask oldmask;;
          deliver_loop k true
        else deliver_loop k res
    end.

Definition cyg_deliver_signals (fuel : nat) : M st bool := deliver_with (deliver_loop fuel false).

Definition cyg_posix_signal_asr (fuel : nat) : M st unit := check_sigalarm;; cyg_deliver_signals fuel;; mret tt.

(** The ASR of a thread that is not to be cancelled. *)
Definition posix_asr (fuel : nat) : M st unit := cyg_posix_timer_asr;; cyg_posix_signal_asr fuel.

(** ** Masks and pending signals *)

Definition cyg_pthread_sigmask_set (set : option Z) : M st (option Z) :=
  s ← get;
  match self s with
  | None => mret None
  | Some t =>
      p ← thread_at t;
      match set with Some m => upd_thread t (set_mask m) | None => mret tt end;;
      mret (Some (sigmask p))
  end.

Definition cyg_posix_sigpending : M st bool :=
  s ← get;
  match self s with None => mret false | Some _ => todo ← deliverable; mret (negb (todo =? 0)) end.

Definition cyg_posix_deliver_signals (fuel : nat) (mask : option Z) : M st unit :=
  s ← get;
  match self s with
  | None => mret tt
  | Some _ =>
      p ← self_info;
      match mask with Some m => set_self_mask m | None => mret tt end;;
      cyg_deliver_signals fuel;;
      match mask with Some _ => set_self_mask (sigmask p) | None => mret tt end
  end.

(** The set, when there is one to store it in. *)
Definition sigpending (set : bool) : M st (Z * option Z) :=
  if negb set then r ← signal_return EINVAL; mret (r, None)
  else
    p ← self_info;
    s ← get;
    mret (0, Some (Z.lor (sigpending_set p) (sig_pending s))).

(** ** Waiting *)

Definition do_other (fuel : nat) (o : other) : M st unit :=
  match o with
  | By t o =>
      me ← gets self;
      modify (set_self t);;
      run_op (cyg_deliver_signals fuel) o;;
      modify (set_self me)
  | AlarmFires =>
      s ← get;
      when (alarm_enabled (sigalrm_alarm s)) (modify (set_sigalrm_alarm (alarm_fire (sigalrm_alarm s)));; sigalrm_action)
  | TimerExpires i => alarm_expires i
  | TimePasses n => modify (fun s => set_now (now s + n) s)
  end.

Fixpoint do_others (fuel : nat) (l : list other) : M st unit :=
  match l with [] => mret tt | o :: l => do_other fuel o;; do_others fuel l end.

(** A wait on the condition variable: the mutex is free meanwhile; a thread that nobody
    wakes does not return. *)
Definition sigwait_wait (fuel : nat) : M st bool := fun s =>
  match wakes s with
  | [] => NoFuel
  | w :: l =>
      (unlock;;
       do_others fuel (w_others w);;
       lock;;
       when (w_asr w) (posix_asr fuel);;
       mret (w_result w)) (set_wakes l s)
  end.

(** At most [n] waits. *)
Fixpoint suspend_loop (fuel n : nat) : M st unit :=
  r ← cyg_deliver_signals fuel;
  if r : bool then mret tt else match n with O => no_fuel | S k => sigwait_wait fuel;; suspend_loop fuel k end.

Definition sigsuspend (fuel n : nat) (set : Z) : M st Z :=
  p ← self_info;
  lock;;
  let old := sigmask p in
  set_self_mask set;;
  suspend_loop fuel n;;
  set_self_mask old;;
  unlock;;
  signal_return EINTR.

Definition pause (fuel : nat) : M st Z :=
  lock;;
  r ← cyg_deliver_signals fuel;
  when (negb r) (sigwait_wait fuel;; mret tt);;
  cyg_deliver_signals fuel;;
  unlock;;
  signal_return EINTR.

Definition accepted (set : Z) : M st Z :=
  p ← self_info;
  s ← get;
  mret (Z.land set (Z.lor (sig_pending s) (sigpending_set p))).

(** The set that can be accepted, 0 after an error.  [ticks]: when the wait ends, if ever. *)
Fixpoint accept_loop (fuel n : nat) (set : Z) (ticks : option Z) : M st Z :=
  todo ← accepted set;
  if negb (todo =? 0) then mret todo
  else
    match n with
    | O => no_fuel
    | S k =>
        r ← match ticks with Some 0 => mret false | _ => sigwait_wait fuel end;
        if negb r then mret 0
        else check_sigalarm;; cyg_posix_timer_asr;; accept_loop fuel k set ticks
    end.

(** The number of the signal, with what is stored in [info], which is not null. *)
Definition sigtimedwait (fuel n : nat) (set : Z) (timeout : option timespec) : M st (Z * option siginfo_t) :=
  s ← get;
  let ticks := match timeout with None => None | Some t => Some (u64 (cyg_timespec_to_ticks t false + now s)) end in
  self_info;;
  lock;;
  todo ← accept_loop fuel n set ticks;
  if todo =? 0 then
    unlock;;
    r ← signal_return EAGAIN;
    mret (r, None)
  else
    signo ← lowest todo;
    ss ← state_at signo;
    info ← (if negb (Z.land (sa_flags (sa ss)) SA_SIGINFO =? 0) then take_info signo else mret (mkSi signo SI_USER 0));
    clear_if_empty signo;;
    unlock;;
    mret (si_signo info, Some info).

(** With the signal that is stored. *)
Definition sigwait (fuel n : nat) (set : Z) : M st (Z * option Z) :=
  r ← sigtimedwait fuel n set None;
  if r.1 =? -1 then e ← gets errno; x ← signal_return e; mret (x, None)
  else mret (0, Some r.1).

Definition sigwaitinfo (fuel n : nat) (set : Z) : M st (Z * option siginfo_t) := sigtimedwait fuel n set None.

(** ** The alarm *)

Definition real_time (seconds : Z) : timespec := mkTs seconds 0.

(** The seconds that were left. *)
Definition posix_alarm (seconds : Z) : M st Z :=
  lock;;
  s ← get;
  res ← (if sigalrm_armed s then
           modify (fun s => set_sigalrm_alarm (alarm_disable (sigalrm_alarm s)) s);;
           s ← get;
           let trigger := u64 ((alarm_times (sigalrm_alarm s)).1 - now s) in
           let tv := cyg_ticks_to_timespec trigger in
           modify (set_sigalrm_armed false);;
           mret (tv_sec tv)
         else mret 0);
  when (negb (seconds =? 0))
    (s ← get;
     let trigger := u64 (cyg_timespec_to_ticks (real_time (s32 seconds)) false + now s) in
     modify (fun s => set_sigalrm_alarm (alarm_initialize trigger 0 (sigalrm_alarm s)) s);;
     modify (set_sigalrm_armed true));;
  unlock;;
  mret (u32 res).

End Code.
