(* ===== verification/SignalFacts.v ===== *)
(** * The queues of signals

    The pool and the circular lists in the array of nodes represent a queue of values for
    each signal and a number of free nodes; the two operations on them are those of queues. *)

From stdpp Require Import gmap.
From S2P Require Import Prelude.
From S2P Require Import Hal.
From S2P Require Import Clock.
From S2P Require Import Signal.

(** ** Lists in the array *)

Abbreviation nodes := (list signal_info).
Abbreviation entry := (nat * siginfo_t)%type.

(** The free list from [p]. *)
Fixpoint free_list (nd : nodes) (p : option nat) (l : list nat) : Prop :=
  match l with
  | [] => p = None
  | i :: l => p = Some i /\ exists x, nd !! i = Some x /\ free_list nd (next x) l
  end.

Definition first (l : list entry) : option nat := match l with [] => None | (i, _) :: _ => Some i end.

Fixpoint final (l : list entry) : option entry := match l with [] => None | x :: l => match final l with None => Some x | y => y end end.

Lemma final_snoc l x : final (l ++ [x]) = Some x.
Proof. induction l as [|y l IH]; cbn; [done|]. by rewrite IH. Qed.

(** A piece of a list of signals; the last node points to [q]. *)
Fixpoint seg (nd : nodes) (l : list entry) (q : nat) : Prop :=
  match l with
  | [] => True
  | (i, v) :: l => nd !! i = Some (mkInfo (Some (default q (first l))) v) /\ seg nd l q
  end.

(** A circular list by its last node. *)
Definition ring (nd : nodes) (p : option nat) (l : list entry) : Prop :=
  p = fst <$> final l /\ match l with [] => True | (h, _) :: _ => seg nd l h end.

Lemma free_list_frame nd nd' p l : (forall i, i ∈ l -> nd' !! i = nd !! i) -> free_list nd p l -> free_list nd' p l.
Proof.
  induction l as [|i l IH] in p |- *; intros Hf; [done|]. intros (-> & x & Hx & Hl). split; [done|]. exists x.
  rewrite Hf by (by left). split; [done|]. apply IH; [|done]. intros j Hj. apply Hf. by right.
Qed.

Lemma seg_frame nd nd' l q : (forall i, i ∈ l.*1 -> nd' !! i = nd !! i) -> seg nd l q -> seg nd' l q.
Proof.
  induction l as [|[i v] l IH]; intros Hf; [done|]. intros (Hi & Hl). split; [|apply IH; [|done]; intros j Hj; apply Hf; by right].
  rewrite Hf; [done|]. by left.
Qed.

Lemma ring_frame nd nd' p l : (forall i, i ∈ l.*1 -> nd' !! i = nd !! i) -> ring nd p l -> ring nd' p l.
Proof. intros Hf [Hp Hr]. split; [done|]. destruct l as [|[h v] l]; [done|]. by apply (seg_frame nd). Qed.

Lemma seg_app nd l l' q : seg nd (l ++ l') q <-> seg nd l (default q (first l')) /\ seg nd l' q.
Proof.
  induction l as [|[i v] l IH]; cbn [app seg]; [tauto|]. rewrite IH. destruct l as [|[j w] l]; cbn; tauto.
Qed.

(** The last node points to the first. *)
Lemma seg_last nd l t w q : seg nd (l ++ [(t, w)]) q -> nd !! t = Some (mkInfo (Some q) w).
Proof. rewrite seg_app. by intros (_ & H & _). Qed.

(** The link of the last node is set. *)
Lemma seg_relink nd l t w q q' : seg nd (l ++ [(t, w)]) q -> t ∉ l.*1 -> (t < length nd)%nat -> seg (<[t := mkInfo (Some q') w]> nd) (l ++ [(t, w)]) q'.
Proof.
  rewrite !seg_app. cbn. intros (Hl & _) Ht Hlt. split_and!; [|by rewrite list_lookup_insert_eq|done].
  apply (seg_frame nd); [|done]. intros i Hi. rewrite list_lookup_insert_ne; [done|]. by intros <-.
Qed.

Lemma ring_enqueue nd p l i v nd' :
  ring nd p l -> NoDup l.*1 -> i ∉ l.*1 -> (i < length nd)%nat ->
  nd' = match final l with
        | None => <[i := mkInfo (Some i) v]> nd
        | Some (t, w) => <[t := mkInfo (Some i) w]> (<[i := mkInfo (first l) v]> nd)
        end ->
  ring nd' (Some i) (l ++ [(i, v)]).
Proof.
  intros [Hp Hr] Hnd Hi Hlt ->. split; [by rewrite final_snoc|]. destruct l as [|[t w] l _] using rev_ind.
  - cbn. by rewrite list_lookup_insert_eq.
  - rewrite final_snoc. rewrite fmap_app in Hnd, Hi. cbn in Hnd, Hi. apply list.NoDup_app in Hnd as (_ & Hdis & _).
    assert (t ∉ l.*1) as Ht by (intros H; apply (Hdis t H); by left). assert (i ≠ t) as Hit by (intros ->; apply Hi, elem_of_app; right; by left).
    assert (i ∉ l.*1) as Hil by (intros H; apply Hi, elem_of_app; by left).
    assert (exists h hv l', l ++ [(t, w)] = (h, hv) :: l') as (h & hv & l' & El) by (destruct l as [|[h hv] l]; cbn; eauto).
    rewrite El in Hr |- *. cbn [app]. rewrite <- El in Hr. rewrite app_comm_cons, <- El. cbn [first].
    pose proof (seg_last _ _ _ _ _ Hr) as Hlast. pose proof (lookup_lt_Some _ _ _ Hlast) as Htl.
    rewrite seg_app. cbn [first from_option]. split.
    + apply (seg_relink _ l t w h); [|done|by rewrite length_insert]. apply (seg_frame nd); [|done].
      intros j Hj. rewrite fmap_app in Hj. apply elem_of_app in Hj as [Hj|Hj].
      * rewrite list_lookup_insert_ne; [done|]. by intros ->.
      * cbn in Hj. apply list_elem_of_singleton in Hj as ->. by rewrite list_lookup_insert_ne.
    + cbn. split; [|done]. rewrite list_lookup_insert_ne by done. rewrite list_lookup_insert_eq by done. by rewrite El.
Qed.

Lemma ring_dequeue nd p h v l :
  ring nd p ((h, v) :: l) -> NoDup (h :: l.*1) ->
  exists t w, p = Some t /\ nd !! t = Some (mkInfo (Some h) w) /\ nd !! h = Some (mkInfo (Some (default h (first l))) v) /\
    ((t = h <-> l = []) /\ (l <> [] -> ring (<[t := mkInfo (first l) w]> nd) p l)).
Proof.
  intros [Hp Hr] Hnd. apply list.NoDup_cons in Hnd as [Hh Hnd]. destruct l as [|[t w] l _] using rev_ind.
  - cbn in *. exists h, v. split_and!; try tauto; done.
  - exists t, w. rewrite app_comm_cons in Hr, Hp. rewrite final_snoc in Hp. pose proof (seg_last _ _ _ _ _ Hr) as Hlast.
    assert (h <> t) as Hht. { intros <-. apply Hh. rewrite fmap_app. apply elem_of_app. right. by left. }
    cbn [app seg] in Hr. destruct Hr as [Hhd Hr]. split_and!; [done|done|done| |].
    + split; [congruence|]. intros E. by apply app_eq_nil in E as [_ ?].
    + intros _. split; [by rewrite final_snoc|]. assert (exists k kv l', l ++ [(t, w)] = (k, kv) :: l') as (k & kv & l' & El) by (destruct l as [|[k kv] l]; cbn; eauto).
      rewrite El. rewrite <- El. cbn [first] in *.
      rewrite fmap_app in Hnd. apply list.NoDup_app in Hnd as (_ & Hdis & _).
      replace (first (l ++ [(t, w)])) with (Some k) by by rewrite El. apply (seg_relink nd l t w h); [done| |by eapply lookup_lt_Some].
      intros H. apply (Hdis t H). by left.
Qed.

(** ** The pool *)

Definition nodes_of (qs : list (list entry)) : list nat := concat (map (fmap fst) qs).

Lemma nodes_of_insert qs k l l' : qs !! k = Some l -> nodes_of (<[k := l']> qs) ++ l.*1 ≡ₚ nodes_of qs ++ l'.*1.
Proof.
  unfold nodes_of. induction qs as [|x qs IH] in k |- *; [done|]. destruct k as [|k]; cbn.
  - intros [= ->]. rewrite <- !app_assoc, !(Permutation_app_comm (concat _)), !app_assoc. by rewrite (Permutation_app_comm l'.*1).
  - intros H. rewrite <- !app_assoc. by rewrite (IH k H).
Qed.

Lemma nodes_of_elem qs k l i : qs !! k = Some l -> i ∈ l.*1 -> i ∈ nodes_of qs.
Proof.
  unfold nodes_of. induction qs as [|x qs IH] in k |- *; [done|]. destruct k as [|k]; cbn; intros H Hi; apply elem_of_app.
  - injection H as <-. by left.
  - right. by apply (IH k).
Qed.

Lemma nodes_of_disjoint qs k k' l l' i : NoDup (nodes_of qs) -> qs !! k = Some l -> qs !! k' = Some l' -> k <> k' -> i ∈ l.*1 -> i ∈ l'.*1 -> False.
Proof.
  unfold nodes_of. induction qs as [|x qs IH] in k, k' |- *; [done|]. cbn. intros (_ & Hdis & Hnd)%list.NoDup_app Hk Hk' Hne Hi Hi'.
  destruct k as [|k], k' as [|k']; cbn in *; [done|..].
  - injection Hk as ->. by eapply Hdis, nodes_of_elem.
  - injection Hk' as ->. by eapply Hdis, nodes_of_elem.
  - apply (IH k k'); try done. congruence.
Qed.

Lemma nodes_of_NoDup qs k l : NoDup (nodes_of qs) -> qs !! k = Some l -> NoDup l.*1.
Proof.
  unfold nodes_of. induction qs as [|x qs IH] in k |- *; [done|]. cbn. intros (Hx & _ & Hnd)%list.NoDup_app Hk.
  destruct k as [|k]; cbn in Hk; [by injection Hk as ->|by apply (IH k)].
Qed.

Section Pool.
Context {kc : KClock} {ka : KAlarm} {cfg : PosixConfig} {app : App}.

Record Pool (s : st) (qs : list (list entry)) (fr : list nat) : Prop := {
  po_free : free_list (siginfo s) (siginfo_next s) fr;
  po_states : length (sigstate s) = NSIG;
  po_queues : length qs = NSIG;
  po_ring : forall k ss l, sigstate s !! k = Some ss -> qs !! k = Some l -> ring (siginfo s) (pending ss) l;
  po_nodes : fr ++ nodes_of qs ≡ₚ seq 0 SIGQUEUE_MAX;
  po_size : length (siginfo s) = SIGQUEUE_MAX;
}.

(** The values queued for each signal, and the number of free nodes. *)
Definition queued (s : st) (Q : list (list siginfo_t)) (n : nat) : Prop :=
  exists qs fr, Pool s qs fr /\ Q = map (fmap snd) qs /\ n = length fr.

(** Only the pool has changed. *)
Definition pooled (s s' : st) : Prop :=
  exists nd f ss, s' = set_siginfo_next f (set_siginfo nd (set_sigstate ss s)) /\ map sa ss = map sa (sigstate s).

Lemma pool_lt s qs fr i : Pool s qs fr -> i ∈ fr \/ i ∈ nodes_of qs -> (i < length (siginfo s))%nat.
Proof.
  intros Hp Hi. rewrite (po_size _ _ _ Hp). assert (i ∈ fr ++ nodes_of qs) as H by by apply elem_of_app. rewrite (po_nodes _ _ _ Hp) in H.
  apply elem_of_seq in H. lia.
Qed.

Lemma pool_NoDup s qs fr : Pool s qs fr -> NoDup fr /\ (forall i, i ∈ fr -> i ∉ nodes_of qs) /\ NoDup (nodes_of qs).
Proof.
  intros Hp. apply list.NoDup_app. rewrite (po_nodes _ _ _ Hp). apply NoDup_ListNoDup, seq_NoDup.
Qed.

Lemma wp_state_at sig x (Q : signal_state -> st -> Prop) s : 0 <= sig -> sigstate s !! Z.to_nat sig = Some x -> Q x s -> wp (state_at sig) Q s.
Proof. intros H0 H HQ. apply (wp_eq _ _ _ x s); [|done]. unfold state_at. rewrite H. by destruct (Z.ltb_spec sig 0); [lia|]. Qed.

Lemma wp_upd_state sig f x (Q : unit -> st -> Prop) s : 0 <= sig -> sigstate s !! Z.to_nat sig = Some x ->
  Q tt (set_sigstate (<[Z.to_nat sig := f x]> (sigstate s)) s) -> wp (upd_state sig f) Q s.
Proof. intros H0 H HQ. unfold upd_state. by apply wp_bind, (wp_state_at _ x), wp_modify. Qed.

Lemma wp_node_at i x (Q : signal_info -> st -> Prop) s : siginfo s !! i = Some x -> Q x s -> wp (node_at i) Q s.
Proof. intros H HQ. apply (wp_eq _ _ _ x s); [unfold node_at; by rewrite H|done]. Qed.

Lemma wp_put_node i x y (Q : unit -> st -> Prop) s : siginfo s !! i = Some y -> Q tt (set_siginfo (<[i := x]> (siginfo s)) s) -> wp (put_node i x) Q s.
Proof. intros H HQ. unfold put_node. by apply wp_bind, (wp_node_at _ y), wp_modify. Qed.

Lemma map_sa_insert (ss : list signal_state) k x p : ss !! k = Some x -> map sa (<[k := mkSs (sa x) p]> ss) = map sa ss.
Proof. intros H. rewrite (list_fmap_insert sa). apply list_insert_id. by rewrite list_lookup_fmap, H. Qed.

Lemma pool_queue s qs fr k : Pool s qs fr -> (k < NSIG)%nat ->
  exists ss l, sigstate s !! k = Some ss /\ qs !! k = Some l /\ ring (siginfo s) (pending ss) l.
Proof.
  intros Hp Hk. destruct (lookup_lt_is_Some_2 (sigstate s) k) as [ss Hss]; [by rewrite (po_states _ _ _ Hp)|].
  destruct (lookup_lt_is_Some_2 qs k) as [l Hl]; [by rewrite (po_queues _ _ _ Hp)|]. exists ss, l. split_and!; try done. by eapply po_ring.
Qed.

(** The nodes after a value was queued. *)
Definition enqueued (nd : nodes) (l : list entry) (i : nat) (v : siginfo_t) : nodes :=
  match final l with
  | None => <[i := mkInfo (Some i) v]> nd
  | Some (t, w) => <[t := mkInfo (Some i) w]> (<[i := mkInfo (first l) v]> nd)
  end.

Lemma final_elem l t w : final l = Some (t, w) -> t ∈ l.*1.
Proof.
  destruct l as [|x l _] using rev_ind; [done|]. rewrite final_snoc. intros [= ->]. rewrite fmap_app. apply elem_of_app. right. by left.
Qed.

Lemma enqueued_other nd l i v j : j <> i -> j ∉ l.*1 -> enqueued nd l i v !! j = nd !! j.
Proof.
  intros Hi Hl. unfold enqueued. destruct (final l) as [[t w]|] eqn:E; rewrite ?list_lookup_insert_ne; try done.
  intros ->. by apply Hl, (final_elem _ _ w).
Qed.

Lemma enqueued_length nd l i v : length (enqueued nd l i v) = length nd.
Proof. unfold enqueued. destruct (final l) as [[t w]|]; by rewrite ?length_insert. Qed.

Lemma pool_enqueue s s' qs fr k ss l i x v :
  Pool s qs (i :: fr) -> sigstate s !! k = Some ss -> qs !! k = Some l -> siginfo s !! i = Some x ->
  siginfo s' = enqueued (siginfo s) l i v -> siginfo_next s' = next x -> sigstate s' = <[k := mkSs (sa ss) (Some i)]> (sigstate s) ->
  Pool s' (<[k := l ++ [(i, v)]]> qs) fr.
Proof.
  intros Hp Hss Hl Hx E1 E2 E3. destruct (pool_NoDup _ _ _ Hp) as (Hnf & Hdis & Hnq).
  assert (i ∉ nodes_of qs) as Hi by (apply Hdis; by left). pose proof (pool_lt _ _ _ i Hp ltac:(left; by left)) as Hlt.
  assert (forall k' l', qs !! k' = Some l' -> i ∉ l'.*1) as Hik by (intros k' l' Hl' H; by apply Hi, (nodes_of_elem qs k' l')).
  destruct Hp as [P1 P2 P3 P4 P5 P6]. destruct P1 as (P0 & y & Hy & P1). rewrite Hx in Hy. injection Hy as <-. split.
  - rewrite E1, E2. apply (free_list_frame (siginfo s)); [|done]. intros j Hj. apply list.NoDup_cons in Hnf as [Hni _].
    apply enqueued_other; [by intros ->|]. intros H. apply (Hdis j); [by right|]. by apply (nodes_of_elem qs k l).
  - by rewrite E3, length_insert.
  - by rewrite length_insert.
  - rewrite E1, E3. intros k' ss' l' Hss' Hl'. destruct (decide (k' = k)) as [->|Hne].
    + rewrite list_lookup_insert_eq in Hss' by by eapply lookup_lt_Some. injection Hss' as <-.
      rewrite list_lookup_insert_eq in Hl' by by eapply lookup_lt_Some. injection Hl' as <-.
      eapply ring_enqueue; [by eapply P4|by eapply nodes_of_NoDup|by eapply Hik|done|done].
    + rewrite list_lookup_insert_ne in Hss' by done. rewrite list_lookup_insert_ne in Hl' by done. apply (ring_frame (siginfo s)); [|by eapply P4].
      intros j Hj. apply enqueued_other; [intros ->; by eapply Hik|]. intros H. by eapply (nodes_of_disjoint qs k' k).
  - rewrite <- P5. assert (nodes_of (<[k := l ++ [(i, v)]]> qs) ≡ₚ nodes_of qs ++ [i]) as ->.
    { apply (Permutation_app_inv_r l.*1). rewrite (nodes_of_insert _ _ l) by done. rewrite fmap_app, <- app_assoc. apply Permutation_app_head.
      cbn. symmetry. apply Permutation_cons_append. }
    by rewrite app_assoc, <- Permutation_cons_append.
  - by rewrite E1, enqueued_length.
Qed.

Lemma wp_enqueue s Q n q signo code value (P : bool -> st -> Prop) :
  queued s Q n -> 0 <= signo < 32 -> Q !! Z.to_nat signo = Some q ->
  (n = 0%nat -> P false s) ->
  (forall m s', n = S m -> pooled s s' -> queued s' (<[Z.to_nat signo := q ++ [mkSi signo code value]]> Q) m -> P true s') ->
  wp (enqueue signo code value) P s.
Proof.
  intros (qs & fr & Hp & -> & ->) Hs HQ H0 H1. destruct (pool_queue _ _ _ (Z.to_nat signo) Hp) as (ss & l & Hss & Hl & Hr); [unfold NSIG; lia|].
  assert (q = l.*2) as -> by (rewrite list_lookup_fmap, Hl in HQ; by injection HQ). set (v := mkSi signo code value) in *. set (k := Z.to_nat signo) in *.
  unfold enqueue. apply wp_bind, wp_gets. destruct fr as [|i fr]; [rewrite (po_free _ _ _ Hp); by apply wp_ret, H0|].
  pose proof (po_free _ _ _ Hp) as Hf. destruct Hf as (-> & x & Hx & _). pose proof (lookup_lt_Some _ _ _ Hx) as Hlt.
  apply wp_bind, (wp_node_at _ x); [done|]. apply wp_bind, wp_modify. apply wp_bind, (wp_state_at _ ss); [lia|done|].
  destruct (pool_NoDup _ _ _ Hp) as (_ & Hdis & _). assert (i ∉ l.*1) as Hil.
  { intros H. apply (Hdis i); [by left|]. by apply (nodes_of_elem qs k l). }
  assert (forall s', siginfo s' = enqueued (siginfo s) l i v -> sigstate s' = sigstate s ->
    s' = set_siginfo_next (next x) (set_siginfo (enqueued (siginfo s) l i v) s) ->
    wp (upd_state signo (fun ss => mkSs (sa ss) (Some i));; mret true) P s') as Hend.
  { intros s' E1 E2 ->. apply wp_bind, (wp_upd_state _ _ ss); [lia|done|]. apply wp_ret. apply (H1 (length fr)); [done| |].
    - exists (enqueued (siginfo s) l i v), (next x), (<[k := mkSs (sa ss) (Some i)]> (sigstate s)). split; [done|]. by apply map_sa_insert.
    - eexists _, fr. split; [by eapply (pool_enqueue s _ qs fr k ss l i x v)|]. split; [|done]. by rewrite (list_fmap_insert (fmap snd)), fmap_app. }
  destruct Hr as [Hpd Hsg]. unfold enqueued in Hend. rewrite Hpd. destruct (final l) as [[t w]|] eqn:Ef; cbn [fmap option_fmap option_map fst].
  - assert (exists h, first l = Some h /\ siginfo s !! t = Some (mkInfo (Some h) w)) as (h & Eh & Ht).
    { destruct l as [|[t' w'] l' _] using rev_ind; [done|]. rewrite final_snoc in Ef. injection Ef as -> ->.
      destruct (l' ++ [(t, w)]) as [|[h hv] r] eqn:El; [by destruct l'|]. exists h. split; [done|]. rewrite <- El in Hsg. by eapply seg_last. }
    assert (i <> t) as Hit by (intros ->; by apply Hil, (final_elem _ _ w)).
    apply wp_bind, wp_bind, (wp_node_at _ (mkInfo (Some h) w)); [done|]. apply wp_bind, (wp_put_node _ _ x); [done|].
    apply wp_bind, (wp_node_at _ (mkInfo (Some h) w)); [cbn; by rewrite list_lookup_insert_ne|].
    apply (wp_put_node _ _ (mkInfo (Some h) w)); [cbn; by rewrite list_lookup_insert_ne|]. apply Hend; cbn; by rewrite ?Eh.
  - apply wp_bind, (wp_put_node _ _ x); [done|]. by apply Hend.
Qed.

Lemma pool_dequeue s s' qs fr k ss' h v l :
  Pool s qs fr -> qs !! k = Some ((h, v) :: l) ->
  siginfo s' !! h = Some (mkInfo (siginfo_next s) v) -> siginfo_next s' = Some h -> length (siginfo s') = length (siginfo s) ->
  (forall j, j <> h -> j ∉ l.*1 -> siginfo s' !! j = siginfo s !! j) ->
  sigstate s' = <[k := ss']> (sigstate s) -> ring (siginfo s') (pending ss') l ->
  Pool s' (<[k := l]> qs) (h :: fr).
Proof.
  intros Hp Hl Hh E2 Elen Hoth E3 Hr. destruct (pool_NoDup _ _ _ Hp) as (Hnf & Hdis & Hnq).
  assert (h ∈ nodes_of qs) as Hin by (eapply nodes_of_elem; [done|by left]).
  assert (forall j, j ∈ l.*1 -> j ∈ nodes_of qs) as Hlin by (intros j Hj; eapply nodes_of_elem; [done|by right]).
  destruct Hp as [P1 P2 P3 P4 P5 P6]. split.
  - rewrite E2. split; [done|]. eexists. split; [done|]. cbn. apply (free_list_frame (siginfo s)); [|done].
    intros j Hj. apply Hoth; [by intros ->; apply (Hdis h)|]. intros H. by apply (Hdis j), Hlin.
  - by rewrite E3, length_insert.
  - by rewrite length_insert.
  - rewrite E3. intros k' ss0 l' Hss0 Hl'. destruct (decide (k' = k)) as [->|Hne].
    + rewrite list_lookup_insert_eq in Hl' by by eapply lookup_lt_Some. injection Hl' as <-.
      rewrite list_lookup_insert_eq in Hss0; [by injection Hss0 as <-|]. rewrite P2, <- P3. by eapply lookup_lt_Some.
    + rewrite list_lookup_insert_ne in Hss0 by done. rewrite list_lookup_insert_ne in Hl' by done.
      apply (ring_frame (siginfo s)); [|by eapply P4]. intros j Hj. apply Hoth.
      * intros ->. eapply (nodes_of_disjoint qs k k'); [done..|by left|done].
      * intros H. eapply (nodes_of_disjoint qs k k'); [done..|by right|done].
  - rewrite <- P5. assert (nodes_of qs ≡ₚ h :: nodes_of (<[k := l]> qs)) as ->.
    { apply (Permutation_app_inv_r l.*1). rewrite <- (nodes_of_insert _ _ _ l Hl). cbn. symmetry. apply Permutation_middle. }
    apply Permutation_middle.
  - by rewrite Elen.
Qed.

Lemma queue_entries (qs : list (list entry)) k (v : siginfo_t) vs : map (fmap snd) qs !! k = Some (v :: vs) ->
  exists h l, qs !! k = Some ((h, v) :: l) /\ vs = l.*2.
Proof.
  rewrite (list_lookup_fmap (fmap snd) qs). destruct (qs !! k) as [[|[h v'] l]|]; try done. intros [= -> <-]. eauto.
Qed.

Lemma wp_dequeue s Q n v q signo (P : siginfo_t -> st -> Prop) :
  queued s Q n -> 0 <= signo < 32 -> Q !! Z.to_nat signo = Some (v :: q) ->
  (forall s', pooled s s' -> queued s' (<[Z.to_nat signo := q]> Q) (S n) -> P v s') ->
  wp (dequeue signo) P s.
Proof.
  intros (qs & fr & Hp & -> & ->) Hs HQ HP. destruct (queue_entries _ _ _ _ HQ) as (h & l & Hl & ->). set (k := Z.to_nat signo) in *.
  destruct (pool_queue _ _ _ k Hp) as (ss & l0 & Hss & Hl0 & Hr); [unfold NSIG; lia|]. assert (l0 = (h, v) :: l) as -> by congruence. clear Hl0.
  destruct (pool_NoDup _ _ _ Hp) as (_ & _ & Hnq). pose proof (nodes_of_NoDup _ _ _ Hnq Hl) as Hnd.
  destruct (ring_dequeue _ _ _ _ _ Hr Hnd) as (t & w & Hpd & Ht & Hh & Hth & Hr').
  assert (forall nd ss', nd !! h = Some (mkInfo (siginfo_next s) v) -> length nd = length (siginfo s) ->
    (forall j, j <> h -> j ∉ l.*1 -> nd !! j = siginfo s !! j) -> ring nd (pending ss') l -> sa ss' = sa ss ->
    P v (set_siginfo_next (Some h) (set_siginfo nd (set_sigstate (<[k := ss']> (sigstate s)) s)))) as Hend.
  { intros nd ss' Hndh Hlen Hoth Hring Hsa. apply HP.
    - exists nd, (Some h), (<[k := ss']> (sigstate s)). split; [done|]. destruct ss' as [a p]. cbn in Hsa. subst a. by apply map_sa_insert.
    - exists (<[k := l]> qs), (h :: fr). split; [by eapply (pool_dequeue s _ qs fr k ss' h v l)|]. split; [|done]. by rewrite (list_fmap_insert (fmap snd)). }
  unfold dequeue. apply wp_bind, (wp_state_at _ ss); [lia|done|]. rewrite Hpd. apply wp_bind, wp_ret, wp_bind, (wp_node_at _ _ _ _ Ht).
  apply wp_bind, wp_ret, wp_bind, (wp_node_at _ _ _ _ Hh), wp_bind. unfold pointer_eqb. case_bool_decide as E.
  - injection E as ->. assert (l = []) as -> by by apply Hth. apply (wp_upd_state _ _ ss); [lia|done|].
    eapply wp_bind, wp_gets, wp_bind, wp_node_at; [exact Hh|]. eapply wp_bind, wp_put_node; [exact Hh|]. apply wp_bind, wp_modify, wp_ret.
    apply (Hend (<[h := mkInfo (siginfo_next s) v]> (siginfo s)) (mkSs (sa ss) None)); [by apply list_lookup_insert_eq; eapply lookup_lt_Some|by rewrite length_insert| |done|done].
    intros j Hj _. by rewrite list_lookup_insert_ne.
  - assert (t <> h) as Hne by congruence. apply wp_bind, (wp_node_at _ _ _ _ Ht), (wp_put_node _ _ _ _ _ Ht).
    set (nd1 := <[t := mkInfo (Some (default h (first l))) w]> (siginfo s)).
    assert (nd1 !! h = Some (mkInfo (Some (default h (first l))) v)) as Hh1 by (unfold nd1; by rewrite list_lookup_insert_ne).
    eapply wp_bind, wp_gets, wp_bind, wp_node_at; [exact Hh1|]. eapply wp_bind, wp_put_node; [exact Hh1|]. apply wp_bind, wp_modify, wp_ret.
    assert (l <> []) as Hl0 by (intros ->; by apply Hne, Hth). specialize (Hr' Hl0).
    assert (first l = Some (default h (first l))) as Ef by (by destruct l as [|[? ?] ?]). rewrite Ef in Hr'. fold nd1 in Hr'.
    assert (h ∉ l.*1) as Hhl by (by apply list.NoDup_cons in Hnd as [? _]).
    assert (t ∈ l.*1) as Htl.
    { destruct Hr' as [Hp' _]. rewrite Hpd in Hp'. destruct (final l) as [[t' w']|] eqn:Efl; [|done]. injection Hp' as <-. by apply final_elem in Efl. }
    cut (P v (set_siginfo_next (Some h) (set_siginfo (<[h := mkInfo (siginfo_next s) v]> nd1) (set_sigstate (<[k := ss]> (sigstate s)) s)))).
    { by rewrite (list_insert_id (sigstate s)). }
    apply Hend; try done.
    + apply list_lookup_insert_eq. by eapply lookup_lt_Some.
    + unfold nd1. by rewrite !length_insert.
    + intros j Hj Hjl. unfold nd1. rewrite !list_lookup_insert_ne; [done|congruence|done].
    + apply (ring_frame nd1); [|done]. intros j Hj. rewrite list_lookup_insert_ne; [done|]. by intros ->.
Qed.

(** ** The view of a state *)

Record view := mkView {
  v_pend : Z;
  v_acts : list sigaction_t;
  v_queues : list (list siginfo_t);
  v_free : nat;
  v_threads : gmap Z pthread_info;
  v_calls : list call
}.

Definition v_set_pend (x : Z) (v : view) : view := mkView x (v_acts v) (v_queues v) (v_free v) (v_threads v) (v_calls v).
Definition v_set_acts (x : list sigaction_t) (v : view) : view := mkView (v_pend v) x (v_queues v) (v_free v) (v_threads v) (v_calls v).
Definition v_set_queue (k : nat) (q : list siginfo_t) (n : nat) (v : view) : view :=
  mkView (v_pend v) (v_acts v) (<[k := q]> (v_queues v)) n (v_threads v) (v_calls v).
Definition v_set_threads (x : gmap Z pthread_info) (v : view) : view := mkView (v_pend v) (v_acts v) (v_queues v) (v_free v) x (v_calls v).
Definition v_set_calls (x : list call) (v : view) : view := mkView (v_pend v) (v_acts v) (v_queues v) (v_free v) (v_threads v) x.

Record represents (s : st) (v : view) : Prop := {
  re_pend : sig_pending s = v_pend v;
  re_acts : map sa (sigstate s) = v_acts v;
  re_queues : queued s (v_queues v) (v_free v);
  re_threads : threads s = v_threads v;
  re_calls : calls s = v_calls v;
}.

(** What signals do not touch; [errno] is apart. *)
Definition rest (s : st) : _ :=
  (self s, (sigalrm_alarm s, sigalrm_armed s, sigalrm_pending s), (timer_table s, timer_next s, timer_id_cookie s), now s, wakes s).

Lemma rest_self s s' : rest s' = rest s -> self s' = self s.
Proof. unfold rest. congruence. Qed.

Lemma queued_same s s' Q n : queued s Q n -> siginfo s' = siginfo s -> siginfo_next s' = siginfo_next s -> sigstate s' = sigstate s -> queued s' Q n.
Proof.
  intros (qs & fr & [P1 P2 P3 P4 P5 P6] & H) E1 E2 E3. exists qs, fr. split; [|done]. by split; rewrite ?E1, ?E2, ?E3.
Qed.

(** New actions. *)
Lemma queued_acts s s' Q n k a ss : queued s Q n -> sigstate s !! k = Some ss -> siginfo s' = siginfo s -> siginfo_next s' = siginfo_next s ->
  sigstate s' = <[k := mkSs a (pending ss)]> (sigstate s) -> queued s' Q n.
Proof.
  intros (qs & fr & [P1 P2 P3 P4 P5 P6] & H) Hss E1 E2 E3. exists qs, fr. split; [|done]. split; rewrite ?E1, ?E2, ?E3, ?length_insert; try done.
  intros j x l Hx Hl. apply list_lookup_insert_Some in Hx as [(<- & <- & _)|[_ Hx]]; [by apply (P4 k ss)|by apply (P4 j)].
Qed.

Lemma represents_state s v sig : represents s v -> 0 <= sig < 32 ->
  exists ss q, sigstate s !! Z.to_nat sig = Some ss /\ v_acts v !! Z.to_nat sig = Some (sa ss) /\
    v_queues v !! Z.to_nat sig = Some q /\ (pending ss = None <-> q = []).
Proof.
  intros [_ Ha (qs & fr & Hp & HQ & _) _ _] Hs. destruct (pool_queue _ _ _ (Z.to_nat sig) Hp) as (ss & l & Hss & Hl & [Hpd _]); [unfold NSIG; lia|].
  exists ss, l.*2. split_and!; [done| | |].
  - by rewrite <- Ha, (list_lookup_fmap sa), Hss.
  - by rewrite HQ, (list_lookup_fmap (fmap snd)), Hl.
  - rewrite Hpd. destruct l as [|x l _] using rev_ind; [done|]. rewrite final_snoc, fmap_app. split; [done|]. intros E. by apply app_eq_nil in E as [_ ?].
Qed.

Lemma represents_pooled s s' v k q n : represents s v -> pooled s s' -> queued s' (<[k := q]> (v_queues v)) n ->
  represents s' (v_set_queue k q n v) /\ rest s' = rest s /\ held s' = held s /\ errno s' = errno s.
Proof. intros [R1 R2 R3 R4 R5] (nd & f & ss & -> & E) Hq. split; [|done]. split; cbn; try done. by rewrite E. Qed.

(** What the first queued signal of a number is, or the values of one that is not queued. *)
Definition first_info (sig : Z) (q : list siginfo_t) : siginfo_t := match q with [] => mkSi sig SI_USER 0 | x :: _ => x end.

Definition v_take (sig : Z) (v : view) : view :=
  match v_queues v !! Z.to_nat sig with Some (_ :: q) => v_set_queue (Z.to_nat sig) q (S (v_free v)) v | _ => v end.

Lemma wp_take_info s v sig q (P : siginfo_t -> st -> Prop) :
  represents s v -> 0 <= sig < 32 -> v_queues v !! Z.to_nat sig = Some q ->
  (forall s', represents s' (v_take sig v) -> rest s' = rest s -> held s' = held s -> errno s' = errno s -> P (first_info sig q) s') ->
  wp (take_info sig) P s.
Proof.
  intros Hr Hs Hq HP. destruct (represents_state s v sig Hr Hs) as (ss & q' & Hss & _ & Hq' & Hpd). assert (q' = q) as -> by congruence.
  unfold take_info. apply wp_bind, (wp_state_at _ ss); [lia|done|]. unfold v_take in HP. rewrite Hq in HP. destruct q as [|x q]; cbn in HP.
  - rewrite (proj2 Hpd) by done. apply wp_ret. by apply HP.
  - destruct (pending ss); [|discriminate (proj1 Hpd eq_refl)]. eapply wp_dequeue; [apply Hr|done|done|].
    intros s' Hpl Hqd. destruct (represents_pooled _ _ _ _ _ _ Hr Hpl Hqd) as (H1 & H2 & H3 & H4). by apply HP.
Qed.

(** The bits of a signal are cleared for the process and for thread [t]. *)
Definition clear_bit (set sig : Z) : Z := Z.land set (Z.lnot (sigbit sig)).

Definition v_clear (t sig : Z) (v : view) : view :=
  v_set_threads (alter (fun p => set_pending_set (clear_bit (sigpending_set p) sig) p) t (v_threads v))
    (v_set_pend (clear_bit (v_pend v) sig) v).

Lemma wp_self_id s t (P : Z -> st -> Prop) : self s = Some t -> P t s -> wp self_id P s.
Proof. intros H HP. apply (wp_eq _ _ _ t s); [unfold self_id; by rewrite H|done]. Qed.

Lemma wp_thread_at s t p (P : pthread_info -> st -> Prop) : threads s !! t = Some p -> P p s -> wp (thread_at t) P s.
Proof. intros H HP. apply (wp_eq _ _ _ p s); [unfold thread_at; by rewrite H|done]. Qed.

Lemma wp_upd_thread s t f p (P : unit -> st -> Prop) : threads s !! t = Some p ->
  P tt (set_threads (<[t := f p]> (threads s)) s) -> wp (upd_thread t f) P s.
Proof. intros H HP. unfold upd_thread. by apply wp_bind, (wp_thread_at _ _ p), wp_modify. Qed.

Lemma wp_self_info s t p (P : pthread_info -> st -> Prop) : self s = Some t -> threads s !! t = Some p -> P p s -> wp self_info P s.
Proof. intros H1 H2 HP. unfold self_info. by apply wp_bind, (wp_self_id _ t), (wp_thread_at _ _ p). Qed.

Lemma represents_threads s v x : represents s v -> represents (set_threads x s) (v_set_threads x v).
Proof. intros [R1 R2 R3 R4 R5]. split; cbn; try done. by apply (queued_same s). Qed.

Lemma represents_pend s v x : represents s v -> represents (set_sig_pending x s) (v_set_pend x v).
Proof. intros [R1 R2 R3 R4 R5]. split; cbn; try done. by apply (queued_same s). Qed.

Lemma represents_same s s' v : represents s v -> sig_pending s' = sig_pending s -> sigstate s' = sigstate s -> siginfo s' = siginfo s ->
  siginfo_next s' = siginfo_next s -> threads s' = threads s -> calls s' = calls s -> represents s' v.
Proof. intros [R1 R2 R3 R4 R5] E1 E2 E3 E4 E5 E6. split; rewrite ?E1, ?E2, ?E5, ?E6; try done. by apply (queued_same s). Qed.

Lemma alter_insert_eq (m : gmap Z pthread_info) t p f : m !! t = Some p -> alter f t m = <[t := f p]> m.
Proof. intros H. apply map_eq. intros x. destruct (decide (x = t)) as [->|Hx]; [by rewrite lookup_alter_eq, H, lookup_insert_eq|by rewrite lookup_alter_ne, lookup_insert_ne]. Qed.

Lemma wp_clear_pending s v t sig (P : unit -> st -> Prop) :
  represents s v -> self s = Some t -> is_Some (v_threads v !! t) ->
  (forall s', represents s' (v_clear t sig v) -> rest s' = rest s -> held s' = held s -> errno s' = errno s -> P tt s') ->
  wp (clear_pending sig) P s.
Proof.
  intros Hr Ht [p Hp] HP. unfold clear_pending. apply wp_bind, wp_modify, wp_bind, (wp_self_id _ t); [done|].
  rewrite <- (re_threads _ _ Hr) in Hp. apply (wp_upd_thread _ _ _ p); [done|]. apply HP; try done.
  unfold v_clear. rewrite <- (re_threads _ _ Hr), (alter_insert_eq _ _ p), <- (re_pend _ _ Hr) by done. by apply represents_threads, represents_pend.
Qed.

Definition v_clear_if_empty (t sig : Z) (v : view) : view :=
  match v_queues v !! Z.to_nat sig with Some (_ :: _) => v | _ => v_clear t sig v end.

Lemma wp_clear_if_empty s v t sig (P : unit -> st -> Prop) :
  represents s v -> 0 <= sig < 32 -> self s = Some t -> is_Some (v_threads v !! t) ->
  (forall s', represents s' (v_clear_if_empty t sig v) -> rest s' = rest s -> held s' = held s -> errno s' = errno s -> P tt s') ->
  wp (clear_if_empty sig) P s.
Proof.
  intros Hr Hs Ht Hp HP. destruct (represents_state s v sig Hr Hs) as (ss & q & Hss & _ & Hq & Hpd).
  unfold clear_if_empty. apply wp_bind, (wp_state_at _ ss); [lia|done|]. unfold v_clear_if_empty in HP. rewrite Hq in HP.
  destruct q as [|x q]; [rewrite (proj2 Hpd) by done|destruct (pending ss); [|discriminate (proj1 Hpd eq_refl)]]; apply wp_when; try done; intros _.
  - by eapply wp_clear_pending.
  - by apply HP.
Qed.

End Pool.
