(* ===== verification/SignalProps.v ===== *)
(** * Delivery of signals *)

From stdpp Require Import gmap.
From S2P Require Import Prelude.
From S2P Require Import Hal.
From S2P Require Import Clock.
From S2P Require Import Signal.
From S2P Require Import SignalFacts.

Section Props.
Context {kc : KClock} {ka : KAlarm} {cfg : PosixConfig} {app : App}.

(** ** One turn of the delivery loop *)

Definition todo_of (v : view) (p : pthread_info) : Z := Z.land (Z.lor (v_pend v) (sigpending_set p)) (Z.lnot (sigmask p)).

(** The pending sets are 32-bit words. *)
Definition pend_ok (v : view) : Prop := 0 <= v_pend v < 2 ^ 32 /\ forall t p, v_threads v !! t = Some p -> 0 <= sigpending_set p < 2 ^ 32.

Lemma land_u32 a b : 0 <= a < 2 ^ 32 -> 0 <= Z.land a b < 2 ^ 32.
Proof.
  intros Ha. assert (Z.land a b = uwrap 32 (Z.land a b)) as ->; [|apply uwrap_range; lia].
  apply Z.bits_inj'. intros i Hi. unfold uwrap. rewrite <- Z.land_ones, !Z.land_spec, Z.testbit_ones_nonneg by lia.
  destruct (Z.ltb_spec i 32); [by rewrite andb_true_r|]. by rewrite (small_bits a 32) by lia.
Qed.

Lemma lor_u32 a b : 0 <= a < 2 ^ 32 -> 0 <= b < 2 ^ 32 -> 0 <= Z.lor a b < 2 ^ 32.
Proof.
  intros Ha Hb. assert (Z.lor a b = uwrap 32 (Z.lor a b)) as ->; [|apply uwrap_range; lia].
  apply Z.bits_inj'. intros i Hi. unfold uwrap. rewrite <- Z.land_ones, Z.land_spec, !Z.lor_spec, Z.testbit_ones_nonneg by lia.
  destruct (Z.ltb_spec i 32); [by rewrite andb_true_r|]. by rewrite (small_bits a 32), (small_bits b 32) by lia.
Qed.

Lemma todo_range v t p : pend_ok v -> v_threads v !! t = Some p -> 0 <= todo_of v p < 2 ^ 32.
Proof. intros [H1 H2] Hp. apply land_u32, lor_u32; [done|by apply (H2 t)]. Qed.

Definition v_mask (t m : Z) (v : view) : view := v_set_threads (alter (set_mask m) t (v_threads v)) v.

Lemma represents_mask s v t m p : represents s v -> threads s !! t = Some p ->
  represents (set_threads (<[t := set_mask m p]> (threads s)) s) (v_mask t m v).
Proof. intros Hr Hp. unfold v_mask. rewrite <- (re_threads _ _ Hr), (alter_insert_eq _ _ p) by done. by apply represents_threads. Qed.

Lemma wp_set_self_mask s v t m p (P : unit -> st -> Prop) : represents s v -> self s = Some t -> v_threads v !! t = Some p ->
  (forall s', represents s' (v_mask t m v) -> rest s' = rest s -> held s' = held s -> errno s' = errno s -> P tt s') -> wp (set_self_mask m) P s.
Proof.
  intros Hr Ht Hp HP. unfold set_self_mask. apply wp_bind, (wp_self_id _ t); [done|]. rewrite <- (re_threads _ _ Hr) in Hp.
  apply (wp_upd_thread _ _ _ p); [done|]. apply HP; try done. by apply (represents_mask _ _ _ _ p).
Qed.

Lemma deliverable_eq s v t p : represents s v -> self s = Some t -> v_threads v !! t = Some p -> deliverable s = Ret (todo_of v p, s).
Proof.
  intros Hr Ht Hp. unfold deliverable, self_info, self_id, thread_at, get, mbind, M_bind, mret, M_ret, todo_of. cbn.
  rewrite Ht, (re_threads _ _ Hr), Hp. by rewrite (re_pend _ _ Hr).
Qed.

(** The threads that are there stay. *)
Lemma take_threads sig v : v_threads (v_take sig v) = v_threads v.
Proof. unfold v_take. by destruct (v_queues v !! Z.to_nat sig) as [[|? ?]|]. Qed.

Lemma clear_if_empty_thread t sig v p : v_threads v !! t = Some p ->
  exists p', v_threads (v_clear_if_empty t sig v) !! t = Some p' /\ sigmask p' = sigmask p.
Proof.
  intros Hp. unfold v_clear_if_empty, v_clear. destruct (v_queues v !! Z.to_nat sig) as [[|? ?]|]; cbn; rewrite ?lookup_alter_eq, ?Hp; cbn; eauto.
Qed.

(** What the handler of [sig] finds. *)
Definition v_enter (t sig : Z) (a : sigaction_t) (p : pthread_info) (v : view) : view :=
  v_mask t (Z.lor (Z.lor (sigmask p) (sa_mask a)) (sigbit sig)) (v_clear_if_empty t sig (v_take sig v)).

Lemma wp_begin_delivery s v t p k a q :
  represents s v -> self s = Some t -> v_threads v !! t = Some p -> 0 <= k < 32 -> v_queues v !! Z.to_nat k = Some q ->
  wp (begin_delivery k a (sigmask p)) (fun x s1 => x = first_info k q /\ represents s1 (v_enter t k a p v) /\
    rest s1 = rest s /\ held s1 = false /\ errno s1 = errno s) s.
Proof.
  intros Hr Ht Hp Hk Hq. unfold begin_delivery. apply wp_bind. eapply wp_take_info; [done..|]. intros s1 R1 F1 G1 H1.
  assert (self s1 = Some t) as T1 by (unfold rest in F1; congruence).
  apply wp_bind. eapply wp_clear_if_empty; [done|done|done|by rewrite take_threads|]. intros s2 R2 F2 G2 H2.
  assert (self s2 = Some t) as T2 by (unfold rest in F2; congruence).
  destruct (clear_if_empty_thread t k (v_take k v) p) as (p2 & Hp2 & _); [by rewrite take_threads|].
  apply wp_bind. eapply wp_set_self_mask; [done..|]. intros s3 R3 F3 G3 H3. unfold unlock. apply wp_bind, wp_modify, wp_ret.
  split_and!; [done| |unfold rest in *; cbn; congruence|done|cbn; congruence]. by apply (represents_same s3).
Qed.

Lemma deliver_turn s v t p n res k a q :
  represents s v -> self s = Some t -> v_threads v !! t = Some p -> held s = true -> todo_of v p <> 0 ->
  hal_lsbit_index (todo_of v p) = Some k -> 0 <= k < 32 -> v_acts v !! Z.to_nat k = Some a -> v_queues v !! Z.to_nat k = Some q ->
  sa_handler a <> SIG_IGN ->
  exists s1, represents s1 (v_enter t k a p v) /\ rest s1 = rest s /\ held s1 = false /\ errno s1 = errno s /\
    deliver_loop (S n) res s =
      (call_handler (deliver_with (deliver_loop n false)) k (first_info k q);; lock;; set_self_mask (sigmask p);; deliver_loop n true) s1.
Proof.
  intros Hr Ht Hp Hh H0 Hk Hkr Ha Hq Hign.
  destruct (represents_state s v k Hr Hkr) as (ss & q' & Hss & Ha' & _). assert (sa ss = a) as Ea by congruence.
  destruct (proj1 (wp_Ret _ _ _) (wp_begin_delivery s v t p k a q Hr Ht Hp Hkr Hq)) as (x & s1 & E1 & -> & R1 & F1 & G1 & H1).
  exists s1. split_and!; try done. unfold deliver_loop; fold deliver_loop.
  rewrite (bind_Ret _ _ _ _ _ (deliverable_eq s v t p Hr Ht Hp)). destruct (Z.eqb_spec (todo_of v p) 0); [done|].
  rewrite (bind_Ret _ _ s k s) by (unfold lowest; by rewrite Hk).
  rewrite (bind_Ret _ _ s ss s) by (unfold state_at; rewrite Hss; by destruct (Z.ltb_spec k 0); [lia|]). rewrite Ea.
  destruct (Z.eqb_spec (sa_handler a) SIG_IGN); [done|]. cbn [negb].
  rewrite (bind_Ret _ _ s p s). 2: { unfold self_info, self_id, thread_at, mbind, M_bind. by rewrite Ht, (re_threads _ _ Hr), Hp. }
  by rewrite (bind_Ret _ _ _ _ _ E1).
Qed.

(** ** Handlers that make no calls *)

Definition siginfo_flag (a : sigaction_t) : bool := negb (Z.land (sa_flags a) SA_SIGINFO =? 0).

(** The default action, which is not a function. *)
Definition by_default (a : sigaction_t) : Prop := siginfo_flag a = false /\ sa_handler a = SIG_DFL.

(** An action whose handler returns without calling back. *)
Definition quiet (a : sigaction_t) : Prop := sa_handler a <> SIG_IGN /\ (by_default a \/ handler_ops (sa_handler a) = Some []).

(** The call of a handler that a thread with the signals [p] records. *)
Definition call_of (t : Z) (k : nat) (a : sigaction_t) (p : pthread_info) (i : siginfo_t) : call :=
  mkCall t (sa_handler a) (Z.of_nat k) (if siginfo_flag a then Some i else None)
    (Z.lor (Z.lor (sigmask p) (sa_mask a)) (sigbit (Z.of_nat k))).

Lemma enter_thread t sig a p v : v_threads v !! t = Some p ->
  exists p', v_threads (v_enter t sig a p v) !! t = Some p' /\ sigmask p' = Z.lor (Z.lor (sigmask p) (sa_mask a)) (sigbit sig).
Proof.
  intros Hp. destruct (clear_if_empty_thread t sig (v_take sig v) p) as (p' & Hp' & _); [by rewrite take_threads|].
  unfold v_enter, v_mask. cbn. rewrite lookup_alter_eq, Hp'. cbn. by eexists.
Qed.

Lemma clear_if_empty_acts t sig v : v_acts (v_clear_if_empty t sig v) = v_acts v /\ v_queues (v_clear_if_empty t sig v) = v_queues v /\
  v_free (v_clear_if_empty t sig v) = v_free v /\ v_calls (v_clear_if_empty t sig v) = v_calls v.
Proof. unfold v_clear_if_empty. by destruct (v_queues v !! Z.to_nat sig) as [[|? ?]|]. Qed.

Lemma take_acts sig v : v_acts (v_take sig v) = v_acts v /\ v_calls (v_take sig v) = v_calls v /\ v_pend (v_take sig v) = v_pend v.
Proof. unfold v_take. by destruct (v_queues v !! Z.to_nat sig) as [[|? ?]|]. Qed.

Lemma enter_acts t sig a p v : v_acts (v_enter t sig a p v) = v_acts v /\ v_calls (v_enter t sig a p v) = v_calls v.
Proof.
  unfold v_enter. cbn. destruct (clear_if_empty_acts t sig (v_take sig v)) as (-> & _ & _ & ->). destruct (take_acts sig v) as (-> & -> & _). done.
Qed.

Lemma wp_call_quiet s v t k a p i D (P : unit -> st -> Prop) :
  represents s (v_enter t (Z.of_nat k) a p v) -> self s = Some t -> v_threads v !! t = Some p -> (k < 32)%nat -> v_acts v !! k = Some a -> quiet a ->
  (forall s', represents s' (v_set_calls (call_of t k a p i :: v_calls v) (v_enter t (Z.of_nat k) a p v)) -> rest s' = rest s -> held s' = held s -> errno s' = errno s -> P tt s') ->
  wp (call_handler D (Z.of_nat k) i) P s.
Proof.
  intros Hr Ht Hp Hk Ha (Hign & Hq) HP. destruct (enter_thread t (Z.of_nat k) a p v Hp) as (p' & Hp' & Hm).
  destruct (represents_state s _ (Z.of_nat k) Hr ltac:(lia)) as (ss & q & Hss & Ha' & _ & _).
  destruct (enter_acts t (Z.of_nat k) a p v) as [Eacts Ecalls]. rewrite Eacts, Nat2Z.id, Ha in Ha'. injection Ha' as Ea.
  assert (forall x, x = (if siginfo_flag a then Some i else None) ->
    P tt (set_calls (mkCall t (sa_handler a) (Z.of_nat k) x (sigmask p') :: calls s) s)) as Hend.
  { intros x ->. apply HP; try done. destruct Hr as [R1 R2 R3 R4 R5]. split; cbn in *; try done; [by apply (queued_same s)|]. unfold call_of. by rewrite R5, Hm, Ecalls. }
  unfold call_handler. apply wp_bind, (wp_self_id _ t); [done|]. apply wp_bind, (wp_self_info _ t p'); [done|by rewrite (re_threads _ _ Hr)|].
  apply wp_bind, (wp_state_at _ ss); [lia|done|]. rewrite <- Ea. fold (siginfo_flag a). destruct (siginfo_flag a) eqn:Hf.
  - destruct Hq as [[Hd _]|Hops]; [congruence|]. apply wp_bind, wp_modify. unfold call_function. rewrite Hops. apply wp_ret. by apply Hend.
  - destruct (Z.eqb_spec (sa_handler a) SIG_DFL); [apply wp_modify; by apply Hend|]. destruct Hq as [[_ Hd]|Hops]; [done|].
    apply wp_bind, wp_modify. unfold call_function. rewrite Hops. apply wp_ret. by apply Hend.
Qed.

(** The view after one delivery, when [c] says that no more is queued. *)
Definition v_after (t : Z) (k : nat) (a : sigaction_t) (p : pthread_info) (q : list siginfo_t) (v : view) : view :=
  let c := match q with _ :: _ :: _ => false | _ => true end in
  mkView (if c then clear_bit (v_pend v) (Z.of_nat k) else v_pend v) (v_acts v) (<[k := tail q]> (v_queues v))
    (match q with [] => v_free v | _ => S (v_free v) end)
    (<[t := mkPt (if c then clear_bit (sigpending_set p) (Z.of_nat k) else sigpending_set p) (sigmask p)]> (v_threads v))
    (call_of t k a p (first_info (Z.of_nat k) q) :: v_calls v).

Lemma v_after_eq t k a p q v : v_threads v !! t = Some p -> v_queues v !! k = Some q ->
  v_mask t (sigmask p) (v_set_calls (call_of t k a p (first_info (Z.of_nat k) q) :: v_calls v) (v_enter t (Z.of_nat k) a p v)) = v_after t k a p q v.
Proof.
  intros Hp Hq. pose proof (lookup_lt_Some _ _ _ Hq) as Hlt.
  unfold v_after, v_mask, v_enter, v_clear_if_empty, v_take, v_mask, v_set_calls. rewrite Nat2Z.id, Hq.
  destruct q as [|x [|y q]]; cbn; rewrite ?Hq; cbn; rewrite ?list_lookup_insert_eq by done; unfold v_clear, v_set_threads, v_set_pend, v_set_queue; cbn; f_equal; try (by rewrite list_insert_id);
    try (apply map_eq; intros z; destruct (decide (z = t)) as [->|Hz];
      [rewrite ?lookup_alter_eq, Hp, lookup_insert_eq; by destruct p|by rewrite ?lookup_alter_ne, lookup_insert_ne]).
Qed.

(** *** All deliveries *)

Lemma sigbit_eq k : 0 <= k < 32 -> sigbit k = 2 ^ k.
Proof.
  intros Hk. unfold sigbit. rewrite Z.shiftl_1_l. apply u32_id. split; [lia|]. change 4294967296 with (2 ^ 32). apply Z.pow_lt_mono_r; lia.
Qed.

Lemma clear_bit_spec x k j : 0 <= k < 32 -> 0 <= j -> Z.testbit (clear_bit x k) j = Z.testbit x j && negb (j =? k).
Proof.
  intros Hk Hj. unfold clear_bit. rewrite sigbit_eq, Z.land_spec, Z.lnot_spec, Z.pow2_bits_eqb by lia. by rewrite (Z.eqb_sym k j).
Qed.

Definition items (k : nat) (q : list siginfo_t) : list siginfo_t := match q with [] => [mkSi (Z.of_nat k) SI_USER 0] | _ => q end.

(** The calls for signal [k]: one for each queued value, one for a signal without. *)
Definition calls_of (v : view) (t : Z) (p : pthread_info) (k : nat) : list call :=
  match v_acts v !! k, v_queues v !! k with
  | Some a, Some q => if Z.testbit (todo_of v p) (Z.of_nat k) then map (call_of t k a p) (items k q) else []
  | _, _ => []
  end.

(** In the order of the numbers. *)
Definition deliveries (v : view) (t : Z) (p : pthread_info) : list call := concat (map (calls_of v t p) (seq 0 32)).

(** The queues of the signals in [D] are empty. *)
Definition emptied (D : Z) (Q : list (list siginfo_t)) : list (list siginfo_t) := imap (fun k q => if Z.testbit D (Z.of_nat k) then [] else q) Q.

(** The view when everything was delivered. *)
Definition v_delivered (v : view) (t : Z) (p : pthread_info) : view :=
  let D := todo_of v p in
  let Q := emptied D (v_queues v) in
  mkView (Z.land (v_pend v) (Z.lnot D)) (v_acts v) Q (SIGQUEUE_MAX - length (concat Q))
    (<[t := mkPt (Z.land (sigpending_set p) (Z.lnot D)) (sigmask p)]> (v_threads v))
    (rev (deliveries v t p) ++ v_calls v).

Lemma queued_free s Q n : queued s Q n -> n = (SIGQUEUE_MAX - length (concat Q))%nat.
Proof.
  intros (qs & fr & Hp & -> & ->). pose proof (Permutation_length (po_nodes _ _ _ Hp)) as E. rewrite length_app, length_seq in E.
  assert (length (concat (map (fmap snd) qs)) = length (nodes_of qs)) as ->; [|lia].
  unfold nodes_of. clear. induction qs as [|l qs IH]; cbn; [done|]. by rewrite !length_app, IH, !length_fmap.
Qed.

Lemma todo_after v t k a p q :
  (k < 32)%nat -> let c := match q with _ :: _ :: _ => false | _ => true end in
  let p2 := mkPt (if c then clear_bit (sigpending_set p) (Z.of_nat k) else sigpending_set p) (sigmask p) in
  todo_of (v_after t k a p q v) p2 = if c then clear_bit (todo_of v p) (Z.of_nat k) else todo_of v p.
Proof.
  intros Hk c p2. unfold todo_of, v_after, p2. fold c. cbn. destruct c; [|done]. apply Z.bits_inj'. intros j Hj.
  rewrite clear_bit_spec, !Z.land_spec, !Z.lor_spec, !clear_bit_spec by lia.
  by destruct (Z.testbit (v_pend v) j), (Z.testbit (sigpending_set p) j), (Z.testbit (Z.lnot (sigmask p)) j), (j =? Z.of_nat k).
Qed.

Lemma emptied_lookup D Q j : emptied D Q !! j = (fun q => if Z.testbit D (Z.of_nat j) then [] else q) <$> Q !! j.
Proof. unfold emptied. by rewrite list_lookup_imap. Qed.

Section After.
Context (v : view) (t : Z) (p : pthread_info) (k : nat) (a : sigaction_t) (q : list siginfo_t).
Context (Hk : (k < 32)%nat) (Ha : v_acts v !! k = Some a) (Hq : v_queues v !! k = Some q).
Context (Hbit : Z.testbit (todo_of v p) (Z.of_nat k) = true) (Hlow : forall j, 0 <= j < Z.of_nat k -> Z.testbit (todo_of v p) j = false).

Let c := match q with _ :: _ :: _ => false | _ => true end.
Let p2 := mkPt (if c then clear_bit (sigpending_set p) (Z.of_nat k) else sigpending_set p) (sigmask p).
Let v2 := v_after t k a p q v.

Lemma todo_v2 : todo_of v2 p2 = if c then clear_bit (todo_of v p) (Z.of_nat k) else todo_of v p.
Proof. by apply todo_after. Qed.

Lemma todo_v2_other j : 0 <= j -> j <> Z.of_nat k -> Z.testbit (todo_of v2 p2) j = Z.testbit (todo_of v p) j.
Proof.
  intros Hj Hne. rewrite todo_v2. destruct c; [|done]. rewrite clear_bit_spec by lia. destruct (Z.eqb_spec j (Z.of_nat k)); [done|]. by rewrite andb_true_r.
Qed.

Lemma todo_v2_same : Z.testbit (todo_of v2 p2) (Z.of_nat k) = negb c.
Proof. rewrite todo_v2. destruct c; [|done]. rewrite clear_bit_spec by lia. by rewrite Z.eqb_refl, andb_false_r. Qed.

Lemma calls_other j : j <> k -> calls_of v2 t p2 j = calls_of v t p j.
Proof.
  intros Hj. unfold calls_of. rewrite todo_v2_other by lia. unfold v2, v_after. cbn. by rewrite list_lookup_insert_ne by done.
Qed.

Lemma calls_same : calls_of v t p k = call_of t k a p (first_info (Z.of_nat k) q) :: calls_of v2 t p2 k.
Proof.
  unfold calls_of. rewrite todo_v2_same, Ha, Hq, Hbit. unfold v2, v_after. cbn. rewrite Ha, list_lookup_insert_eq by by eapply lookup_lt_Some.
  unfold c. destruct q as [|x [|y r]]; done.
Qed.

Lemma deliveries_step : deliveries v t p = call_of t k a p (first_info (Z.of_nat k) q) :: deliveries v2 t p2.
Proof.
  unfold deliveries. replace 32%nat with (k + S (31 - k))%nat by lia. rewrite seq_app, !map_app, !concat_app. cbn [seq map concat].
  assert (forall w pw, (forall j, 0 <= j < Z.of_nat k -> Z.testbit (todo_of w pw) j = false) -> concat (map (calls_of w t pw) (seq 0 k)) = []) as Hpre.
  { intros w pw Hw. assert (forall m n, (n + m <= k)%nat -> concat (map (calls_of w t pw) (seq n m)) = []) as H; [|by apply H].
    induction m as [|m IH]; intros n Hn; [done|]. cbn. rewrite IH by lia. unfold calls_of.
    rewrite Hw by lia. by destruct (v_acts w !! n), (v_queues w !! n). }
  rewrite !Hpre; [|intros j Hj; rewrite todo_v2_other by lia; by apply Hlow|done]. cbn. rewrite calls_same. cbn. do 2 f_equal. f_equal.
  apply map_ext_in. intros j Hj%in_seq. symmetry. apply calls_other. lia.
Qed.

Lemma delivered_step : v_delivered v2 t p2 = v_delivered v t p.
Proof.
  unfold v_delivered. assert (emptied (todo_of v2 p2) (v_queues v2) = emptied (todo_of v p) (v_queues v)) as ->.
  { apply list_eq. intros j. rewrite !emptied_lookup. unfold v2 at 2, v_after. cbn. destruct (decide (j = k)) as [->|Hj].
    - rewrite list_lookup_insert_eq, Hq, todo_v2_same, Hbit by by eapply lookup_lt_Some. cbn. unfold c. by destruct q as [|x [|y r]].
    - rewrite list_lookup_insert_ne by done. by rewrite todo_v2_other by lia. }
  assert (forall x y, y = (if c then clear_bit x (Z.of_nat k) else x) -> Z.land y (Z.lnot (todo_of v2 p2)) = Z.land x (Z.lnot (todo_of v p))) as Hland.
  { intros x y ->. apply Z.bits_inj'. intros j Hj. rewrite !Z.land_spec, !Z.lnot_spec by done. destruct (Z.eq_dec j (Z.of_nat k)) as [->|Hne].
    - rewrite todo_v2_same, Hbit, andb_false_r. destruct c; cbn; [|by rewrite andb_false_r]. rewrite clear_bit_spec by lia. by rewrite Z.eqb_refl, andb_false_r.
    - rewrite todo_v2_other by lia. f_equal. destruct c; [|done]. rewrite clear_bit_spec by lia. destruct (Z.eqb_spec j (Z.of_nat k)); [done|]. by rewrite andb_true_r. }
  f_equal.
  - by apply Hland.
  - cbn. rewrite insert_insert_eq. f_equal. f_equal. by apply Hland.
  - rewrite deliveries_step. cbn. by rewrite <- app_assoc.
Qed.
End After.

Lemma clear_bit_u32 x k : 0 <= x < 2 ^ 32 -> 0 <= clear_bit x k < 2 ^ 32.
Proof. apply land_u32. Qed.

Lemma pend_ok_after t k a p q v : pend_ok v -> v_threads v !! t = Some p -> pend_ok (v_after t k a p q v).
Proof.
  intros [H1 H2] Hp. unfold v_after. split; cbn.
  - destruct q as [|? [|? ?]]; try done; by apply clear_bit_u32.
  - intros x y Hy. apply lookup_insert_Some in Hy as [[<- <-]|[_ Hy]]; [|by apply (H2 x)]. cbn. pose proof (H2 t p Hp).
    destruct q as [|? [|? ?]]; try done; by apply clear_bit_u32.
Qed.

Lemma emptied_none Q : emptied 0 Q = Q.
Proof. apply list_eq. intros j. rewrite emptied_lookup, Z.testbit_0_l. by destruct (Q !! j). Qed.

Lemma delivered_none s v t p : represents s v -> v_threads v !! t = Some p -> todo_of v p = 0 -> v_delivered v t p = v.
Proof.
  intros Hr Hp H0. unfold v_delivered. rewrite H0, emptied_none. assert (deliveries v t p = []) as ->.
  { unfold deliveries. assert (forall m n, concat (map (calls_of v t p) (seq n m)) = []) as H; [|by apply H].
    induction m as [|m IH]; intros n; [done|]. cbn. rewrite IH. unfold calls_of. rewrite H0, Z.testbit_0_l. by destruct (v_acts v !! n), (v_queues v !! n). }
  pose proof (queued_free _ _ _ (re_queues _ _ Hr)) as Hf. rewrite <- Hf, (insert_id _ t); [|by rewrite Z.land_m1_r, Hp; destruct p].
  rewrite Z.land_m1_r. by destruct v.
Qed.

(** Every action that is called is quiet. *)
Definition quiet_for (v : view) (D : Z) : Prop := forall k a, v_acts v !! k = Some a -> Z.testbit D (Z.of_nat k) = true -> quiet a.

Lemma wp_sig_lock (P : unit -> st -> Prop) s : held s = false -> P tt (set_held true s) -> wp lock P s.
Proof. intros H HP. apply (wp_eq _ _ _ tt (set_held true s)); [unfold lock; by rewrite H|done]. Qed.

Lemma represents_held s v b : represents s v -> represents (set_held b s) v.
Proof. intros H. by apply (represents_same s). Qed.

Lemma wp_conv {A} (m m' : M st A) (P : A -> st -> Prop) s s' : m s = m' s' -> wp m' P s' -> wp m P s.
Proof. unfold wp. by intros ->. Qed.

Lemma deliver_loop_quiet n s v t p res :
  represents s v -> self s = Some t -> v_threads v !! t = Some p -> held s = true -> pend_ok v -> quiet_for v (todo_of v p) ->
  (length (deliveries v t p) <= n)%nat ->
  wp (deliver_loop n res) (fun r s' => r = (res || negb (todo_of v p =? 0)) /\ represents s' (v_delivered v t p) /\
    rest s' = rest s /\ held s' = true /\ errno s' = errno s) s.
Proof.
  induction n as [|n IH] in s, v, p, res |- *; intros Hr Ht Hp Hh Hok Hqt Hn.
  all: destruct (Z.eqb_spec (todo_of v p) 0) as [H0|H0].
  1, 3: (unfold deliver_loop; apply wp_bind, (wp_eq _ _ _ _ _ (deliverable_eq s v t p Hr Ht Hp)); rewrite H0; apply wp_ret;
    rewrite orb_false_r, (delivered_none s) by done; by split_and!).
  all: pose proof (todo_range v t p Hok Hp) as Hrange; destruct (lsbit_lowest (todo_of v p)) as (kz & Hkz & Hkr & Hbit & Hlow); [lia|];
    destruct (represents_state s v kz Hr Hkr) as (ss & q & _ & Ha & Hq & _);
    assert (exists k, kz = Z.of_nat k) as [k ->] by (exists (Z.to_nat kz); lia); rewrite Nat2Z.id in Ha, Hq;
    assert (k < 32)%nat as Hk32 by lia.
  - rewrite (deliveries_step v t p k (sa ss) q) in Hn by assumption. cbn [length] in Hn. lia.
  - pose proof (Hqt k _ Ha Hbit) as Hquiet. pose proof (proj1 Hquiet) as Hign.
    destruct (deliver_turn s v t p n res (Z.of_nat k) (sa ss) q) as (s1 & R1 & F1 & G1 & E1 & Eq); rewrite ?Nat2Z.id; try done.
    apply (wp_conv _ _ _ _ _ Eq). clear Eq. assert (self s1 = Some t) as T1 by (unfold rest in F1; congruence).
    apply wp_bind. eapply (wp_call_quiet s1 v t k (sa ss) p); [done|done|done|lia|done|done|]. intros s2 R2 F2 G2 E2.
    apply wp_bind, wp_sig_lock; [congruence|]. assert (self (set_held true s2) = Some t) as T2 by (unfold rest in F2; cbn; congruence).
    destruct (enter_thread t (Z.of_nat k) (sa ss) p v Hp) as (p' & Hp' & _).
    apply wp_bind. eapply (wp_set_self_mask _ _ t _ p'); [by apply represents_held|done|done|]. intros s3 R3 F3 G3 E3.
    rewrite (v_after_eq t k (sa ss) p q v) in R3 by done.
    eapply wp_mono; [eapply (IH s3 (v_after t k (sa ss) p q v) _ true)|].
    + done.
    + by rewrite (rest_self _ _ F3).
    + unfold v_after. cbn. by rewrite lookup_insert_eq.
    + by rewrite G3.
    + by apply pend_ok_after.
    + intros j b Hj Hb. apply (Hqt j b); [done|]. destruct (decide (j = k)) as [->|Hne]; [done|].
      rewrite <- (todo_v2_other v t p k (sa ss) q Hk32 (Z.of_nat j)) by lia. exact Hb.
    + rewrite (deliveries_step v t p k (sa ss) q) in Hn by assumption. cbn [length] in Hn. lia.
    + intros r s' (-> & R4 & F4 & G4 & E4). rewrite (delivered_step v t p k (sa ss) q) in R4 by assumption.
      split_and!; [by rewrite orb_true_r|done|unfold rest in *; cbn in *; congruence|done|cbn in *; congruence].
Qed.

Lemma set_held_same s : set_held (held s) s = s.
Proof. by destruct s. Qed.

(** What the guards do around the loop. *)
Lemma deliver_with_eq s v t p (loop : M st bool) :
  represents s v -> self s = Some t -> v_threads v !! t = Some p ->
  deliver_with loop s =
    if todo_of v p =? 0 then Ret (false, s)
    else match loop (set_held true s) with Ret (r, s') => Ret (r, if held s then s' else set_held false s') | UB => UB | NoFuel => NoFuel end.
Proof.
  intros Hr Ht Hp. unfold deliver_with. rewrite (bind_Ret _ _ s s s) by done. rewrite Ht.
  rewrite (bind_Ret _ _ s p s). 2: { unfold self_info, self_id, thread_at, mbind, M_bind. by rewrite Ht, (re_threads _ _ Hr), Hp. }
  rewrite (bind_Ret _ _ _ _ _ (deliverable_eq s v t p Hr Ht Hp)).
  destruct ((sig_pending s =? 0) && (sigpending_set p =? 0)) eqn:E.
  { apply andb_true_iff in E as [E1%Z.eqb_eq E2%Z.eqb_eq]. unfold todo_of. by rewrite <- (re_pend _ _ Hr), E1, E2. }
  destruct (Z.eqb_spec (todo_of v p) 0) as [E0|E0]; [done|].
  rewrite (bind_Ret _ _ s (held s) s) by (unfold locked_by_self, gets; by rewrite Ht).
  assert (forall u, (unless u lock) s = if u then Ret (tt, s) else lock s) as Eu by by intros [].
  destruct (held s) eqn:Hh; cbn [unless].
  - rewrite (bind_Ret _ _ s tt s) by done. replace (set_held true s) with s by (rewrite <- Hh; symmetry; apply set_held_same).
    unfold mbind, M_bind. by destruct (loop s) as [[r s']| |].
  - rewrite (bind_Ret _ _ s tt (set_held true s)) by (unfold lock; by rewrite Hh). unfold mbind, M_bind. by destruct (loop (set_held true s)) as [[r s']| |].
Qed.

Lemma wp_deliver_with s v t p (loop : M st bool) (P : bool -> st -> Prop) :
  represents s v -> self s = Some t -> v_threads v !! t = Some p ->
  (todo_of v p = 0 -> P false s) ->
  (todo_of v p <> 0 -> wp loop (fun r s' => held s' = true /\ P r (set_held (held s) s')) (set_held true s)) ->
  wp (deliver_with loop) P s.
Proof.
  intros Hr Ht Hp H0 H1. unfold wp. rewrite (deliver_with_eq s v t p) by done. destruct (Z.eqb_spec (todo_of v p) 0) as [E0|E0]; [by apply H0|].
  specialize (H1 E0). unfold wp in H1. destruct (loop (set_held true s)) as [[r s']| |]; try done. destruct H1 as [Hs HP].
  destruct (held s); [|done]. by rewrite <- Hs, set_held_same in HP.
Qed.

(** Everything that can be delivered is delivered, in order. *)
Lemma wp_deliver_quiet fuel s v t p :
  represents s v -> self s = Some t -> v_threads v !! t = Some p -> pend_ok v -> quiet_for v (todo_of v p) ->
  (length (deliveries v t p) <= fuel)%nat ->
  wp (cyg_deliver_signals fuel) (fun r s' => r = negb (todo_of v p =? 0) /\ represents s' (v_delivered v t p) /\
    rest s' = rest s /\ held s' = held s /\ errno s' = errno s) s.
Proof.
  intros Hr Ht Hp Hok Hq Hn. apply (wp_deliver_with s v t p _ _ Hr Ht Hp).
  - intros E0. rewrite (delivered_none s) by done. rewrite E0. by split_and!.
  - intros E0. eapply wp_mono; [by eapply (deliver_loop_quiet fuel (set_held true s) v t p); try apply represents_held|].
    intros r s' (-> & R1 & F1 & G1 & E1). split; [done|]. split_and!; [done|by apply represents_held|done|done|done].
Qed.

(** ** Generating signals *)

Definition v_mark (sig : Z) (thread : option Z) (v : view) : view :=
  match thread with
  | None => v_set_pend (sigaddset (v_pend v) sig) v
  | Some t => v_set_threads (alter (fun p => set_pending_set (sigaddset (sigpending_set p) sig) p) t (v_threads v)) v
  end.

(** A signal with a value is lost when no node is free. *)
Definition v_generate (a : sigaction_t) (sig code value : Z) (thread : option Z) (v : view) : bool * view :=
  if siginfo_flag a then
    match v_free v, v_queues v !! Z.to_nat sig with
    | S n, Some q => (true, v_mark sig thread (v_set_queue (Z.to_nat sig) (q ++ [mkSi sig code value]) n v))
    | _, _ => (false, v)
    end
  else (true, v_mark sig thread v).

Lemma wp_mark s v sig thread (P : unit -> st -> Prop) :
  represents s v -> match thread with Some t => is_Some (v_threads v !! t) | None => True end ->
  (forall s', represents s' (v_mark sig thread v) -> rest s' = rest s -> held s' = held s -> errno s' = errno s -> P tt s') ->
  wp (match thread with
      | Some t => upd_thread t (fun p => set_pending_set (sigaddset (sigpending_set p) sig) p)
      | None => modify (fun s => set_sig_pending (sigaddset (sig_pending s) sig) s)
      end) P s.
Proof.
  intros Hr Ht HP. destruct thread as [t|]; cbn in *.
  - destruct Ht as [p Hp]. rewrite <- (re_threads _ _ Hr) in Hp. apply (wp_upd_thread _ _ _ p); [done|]. apply HP; try done.
    rewrite <- (re_threads _ _ Hr), (alter_insert_eq _ _ p) by done. by apply represents_threads.
  - apply wp_modify. apply HP; try done. rewrite (re_pend _ _ Hr). by apply represents_pend.
Qed.

Lemma wp_cyg_sigqueue s v sig code value thread a (P : bool -> st -> Prop) :
  represents s v -> 0 <= sig < 32 -> v_acts v !! Z.to_nat sig = Some a ->
  (self s <> None \/ held s = false) -> match thread with Some t => is_Some (v_threads v !! t) | None => True end ->
  (forall s', represents s' (v_generate a sig code value thread v).2 -> rest s' = rest s -> held s' = held s -> errno s' = errno s ->
     P (v_generate a sig code value thread v).1 s') ->
  wp (cyg_sigqueue (mkEv SIGEV_SIGNAL sig value) code thread) P s.
Proof.
  intros Hr Hs Ha Hl Ht HP. unfold cyg_sigqueue. cbn [sigev_notify sigev_signo sigev_value].
  destruct (Z.eqb_spec SIGEV_SIGNAL SIGEV_NONE) as [E|_]; [done|]. destruct (Z.eqb_spec SIGEV_SIGNAL SIGEV_THREAD) as [E|_]; [done|].
  apply wp_bind, wp_gets. set (l := match self s with None => false | Some _ => held s end).
  assert (wp (unless l lock) (fun _ s1 => s1 = set_held true s) s) as Hlock.
  { unfold l. destruct (self s) as [me|] eqn:Hme; [|destruct Hl as [|Hl]; [done|]; by apply wp_sig_lock].
    destruct (held s) eqn:Hh; [|by apply wp_sig_lock]. apply wp_ret. rewrite <- Hh. by rewrite set_held_same. }
  apply wp_bind. eapply wp_mono; [exact Hlock|]. intros ? s1 ->. clear Hlock.
  assert (forall r s', held s' = true -> rest s' = rest s -> errno s' = errno s -> represents s' (v_generate a sig code value thread v).2 -> r = (v_generate a sig code value thread v).1 ->
    wp (unless l unlock;; mret r) P s') as Hend.
  { intros r s' Hh' Hr' He' R' ->. apply wp_bind. assert (rest (set_held (held s) s') = rest s) by done.
    assert (l = held s \/ l = false /\ held s = false) as [El|[El Eh]].
    { unfold l. destruct (self s); [by left|]. destruct Hl as [|Hl]; [done|]. rewrite Hl. by right. }
    - rewrite El. destruct (held s) eqn:Hh; unfold unless, unlock; [apply wp_ret, wp_ret|apply wp_modify, wp_ret]; apply HP; try done; by apply represents_held.
    - rewrite El. unfold unless, unlock. apply wp_modify, wp_ret. apply HP; try done; by apply represents_held. }
  destruct (represents_state s v sig Hr Hs) as (ss & q & Hss & Ha' & Hq & _). assert (sa ss = a) as Ea by congruence.
  apply wp_bind, (wp_state_at _ ss); [lia|done|]. rewrite Ea. fold (siginfo_flag a). apply wp_bind. unfold v_generate in Hend.
  destruct (siginfo_flag a) eqn:Hf.
  - rewrite Hq in Hend. eapply wp_enqueue; [apply (represents_held _ _ true Hr)|done|done| |].
    + intros E. rewrite E in Hend. cbn [negb]. by apply Hend; try apply represents_held.
    + intros m s2 E Hpl Hqd. rewrite E in Hend. cbn [negb]. destruct (represents_pooled _ _ _ _ _ _ (represents_held _ _ true Hr) Hpl Hqd) as (R2 & F2 & G2 & E2).
      apply wp_bind. eapply wp_mark; [exact R2|by destruct thread|]. intros s3 R3 F3 G3 E3. apply Hend; try done; [by rewrite G3, G2|by rewrite F3, F2|by rewrite E3, E2].
  - apply wp_ret. cbn [negb]. apply wp_bind. eapply wp_mark; [apply (represents_held _ _ true Hr)|done|]. intros s3 R3 F3 G3 E3. by apply Hend.
Qed.

(** ** A blocked signal with values *)

Lemma sigaddset_spec set sig j : 0 < sig < 32 -> 0 <= j -> Z.testbit (sigaddset set sig) j = Z.testbit set j || (j =? sig).
Proof.
  intros Hs Hj. unfold sigaddset, SIGNAL_VALID. destruct (Z.gtb_spec sig 0); [|lia]. destruct (Z.ltb_spec sig 32); [|lia]. cbn [andb].
  rewrite Z.lor_spec, sigbit_eq, Z.pow2_bits_eqb, (Z.eqb_sym sig j) by lia. done.
Qed.

(** The mark of a masked signal delivers nothing. *)
Lemma todo_marked v p sig : 0 < sig < 32 -> Z.testbit (sigmask p) sig = true -> todo_of (v_mark sig None v) p = todo_of v p.
Proof.
  intros Hs Hm. apply Z.bits_inj'. intros j Hj. unfold todo_of. cbn. rewrite !Z.land_spec, !Z.lor_spec, sigaddset_spec, Z.lnot_spec by lia.
  destruct (Z.eqb_spec j sig) as [->|Hne]; [by rewrite Hm, !andb_false_r|]. by rewrite orb_false_r.
Qed.

Lemma wp_signal_return_0 (P : Z -> st -> Prop) s : P 0 s -> wp (signal_return 0) P s.
Proof. done. Qed.

Lemma deliver_nothing fuel s v t p : represents s v -> self s = Some t -> v_threads v !! t = Some p -> todo_of v p = 0 -> cyg_deliver_signals fuel s = Ret (false, s).
Proof.
  intros Hr Ht Hp H0. assert (wp (cyg_deliver_signals fuel) (fun r s' => r = false /\ s' = s) s) as H by (by apply (wp_deliver_with s v t p)).
  apply wp_Ret in H as (r & s' & E & -> & ->). done.
Qed.

(** The values are queued, at most as many as nodes are free. *)
Definition v_queue_values (sig : Z) (xs : list Z) (v : view) : view :=
  foldl (fun v x => match v_acts v !! Z.to_nat sig with Some a => (v_generate a sig SI_QUEUE x None v).2 | None => v end) v xs.

Lemma queue_values_cons sig x xs v a : v_acts v !! Z.to_nat sig = Some a ->
  v_queue_values sig (x :: xs) v = v_queue_values sig xs (v_generate a sig SI_QUEUE x None v).2.
Proof. intros Ha. unfold v_queue_values. cbn [foldl]. by rewrite Ha. Qed.

Lemma run_sigqueue fuel s v t p sig a xs (P : unit -> st -> Prop) :
  represents s v -> self s = Some t -> v_threads v !! t = Some p -> 0 < sig < 32 -> v_acts v !! Z.to_nat sig = Some a -> siginfo_flag a = true ->
  todo_of v p = 0 -> Z.testbit (sigmask p) sig = true ->
  (forall s', represents s' (v_queue_values sig xs v) -> rest s' = rest s -> held s' = held s -> errno s' = errno s -> P tt s') ->
  wp (run_ops (cyg_deliver_signals fuel) (map (Sigqueue 0 sig) xs)) P s.
Proof.
  intros Hr Ht Hp Hs Ha Hf H0 Hm. induction xs as [|x xs IH] in s, v, Hr, Ht, Hp, Ha, H0 |- *; intros HP; cbn [map run_ops].
  - by apply wp_ret, HP.
  - apply wp_bind. cbn [run_op]. apply wp_bind. unfold sigqueue, SIGNAL_VALID. destruct (Z.gtb_spec sig 0); [|lia]. destruct (Z.ltb_spec sig 32); [|lia]. cbn [andb negb].
    apply wp_bind. eapply (wp_cyg_sigqueue s v sig SI_QUEUE x None a); [done|lia|done|by left; rewrite Ht|done|]. intros s1 R1 F1 G1 E1.
    set (v1 := (v_generate a sig SI_QUEUE x None v).2) in *.
    assert (v_threads v1 !! t = Some p /\ v_acts v1 = v_acts v /\ todo_of v1 p = 0) as (Hp1 & Ha1 & Htd1).
    { unfold v1, v_generate. rewrite Hf. destruct (v_free v) as [|m]; [done|]. destruct (v_queues v !! Z.to_nat sig); [|done].
      split_and!; [done|done|]. cbn [snd]. by rewrite todo_marked. }
    apply wp_bind, (wp_eq _ _ _ false s1); [by apply (deliver_nothing fuel s1 v1 t p); [|rewrite (rest_self _ _ F1)|..]|]. apply wp_signal_return_0, wp_ret.
    apply (IH s1 v1); [done|by rewrite (rest_self _ _ F1)|done|by rewrite Ha1|done|]. intros s2 R2 F2 G2 E2.
    apply HP; [|congruence..]. by rewrite (queue_values_cons _ _ _ _ a).
Qed.

Lemma queue_values_fields sig xs v a q :
  v_acts v !! Z.to_nat sig = Some a -> siginfo_flag a = true -> v_queues v !! Z.to_nat sig = Some q -> (length xs <= v_free v)%nat -> xs <> [] ->
  v_queue_values sig xs v = v_mark sig None (v_set_queue (Z.to_nat sig) (q ++ map (fun x => mkSi sig SI_QUEUE x) xs) (v_free v - length xs) v).
Proof.
  intros Ha Hf Hq. induction xs as [|x xs IH] in v, q, Ha, Hq |- *; intros Hlen Hne; [done|]. rewrite (queue_values_cons _ _ _ _ a) by done.
  cbn in Hlen. pose proof (lookup_lt_Some _ _ _ Hq) as Hlt. destruct (v_free v) as [|m] eqn:Em; [lia|].
  set (v1 := v_mark sig None (v_set_queue (Z.to_nat sig) (q ++ [mkSi sig SI_QUEUE x]) m v)).
  assert ((v_generate a sig SI_QUEUE x None v).2 = v1) as -> by (unfold v_generate; by rewrite Hf, Hq, Em).
  destruct xs as [|y ys]; [unfold v1; cbn; by rewrite Nat.sub_0_r|].
  rewrite (IH v1 (q ++ [mkSi sig SI_QUEUE x])); [|done|unfold v1; cbn; by rewrite list_lookup_insert_eq|unfold v1; cbn in *; lia|done].
  unfold v1, v_mark, v_set_queue, v_set_pend. cbn. rewrite list_insert_insert_eq, <- app_assoc. f_equal. unfold sigaddset. destruct (SIGNAL_VALID sig); [|done].
  by rewrite <- Z.lor_assoc, Z.lor_diag.
Qed.

(** *** Unblocking *)

Lemma deliveries_single v t p k :
  (k < 32)%nat -> (forall j, (j < 32)%nat -> j <> k -> Z.testbit (todo_of v p) (Z.of_nat j) = false) -> deliveries v t p = calls_of v t p k.
Proof.
  intros Hk H. assert (forall m n, (n + m <= 32)%nat -> (forall j, (n <= j < n + m)%nat -> j <> k) -> concat (map (calls_of v t p) (seq n m)) = []) as Hz.
  { induction m as [|m IH]; intros n Hn Hj; [done|]. cbn [seq map concat]. rewrite IH; [|lia|intros j ?; apply Hj; lia].
    unfold calls_of. rewrite (H n) by (try lia; apply Hj; lia). by destruct (v_acts v !! n), (v_queues v !! n). }
  unfold deliveries. replace 32%nat with (k + S (31 - k))%nat by lia. rewrite seq_app, map_app, concat_app. cbn [seq map concat].
  rewrite !Hz by (try lia; intros; lia). by rewrite app_nil_r.
Qed.

Lemma run_ops_app D l l' (P : unit -> st -> Prop) s : wp (run_ops D l) (fun _ s' => wp (run_ops D l') P s') s -> wp (run_ops D (l ++ l')) P s.
Proof.
  induction l as [|o l IH] in s |- *; cbn [run_ops Datatypes.app]; [done|]. intros H. apply wp_bind. unfold wp in *.
  unfold mbind, M_bind in H. destruct (run_op D o s) as [[u s1]| |]; try done. by apply IH.
Qed.

Lemma wp_unblock fuel s v t p m (P : unit -> st -> Prop) :
  represents s v -> self s = Some t -> v_threads v !! t = Some p -> pend_ok v ->
  let p' := set_mask (Z.land (sigmask p) (Z.lnot m)) p in
  let v' := v_mask t (Z.land (sigmask p) (Z.lnot m)) v in
  quiet_for v (todo_of v p') -> (length (deliveries v' t p') <= fuel)%nat ->
  (forall s', represents s' (v_delivered v' t p') -> rest s' = rest s -> held s' = held s -> P tt s') ->
  wp (run_ops (cyg_deliver_signals fuel) [Sigmask SIG_UNBLOCK (Some m)]) P s.
Proof.
  intros Hr Ht Hp Hok p' v' Hq Hn HP. cbn [run_ops run_op]. apply wp_bind, wp_bind. unfold pthread_sigmask.
  apply wp_bind, (wp_self_info _ t p); [done|by rewrite (re_threads _ _ Hr)|].
  destruct (Z.eqb_spec SIG_UNBLOCK SIG_BLOCK) as [E|_]; [done|]. rewrite Z.eqb_refl.
  apply wp_bind, wp_bind. eapply wp_set_self_mask; [done..|]. intros s1 R1 F1 G1 E1. apply wp_ret.
  assert (v_threads v' !! t = Some p') as Hp' by (unfold v', v_mask; cbn; by rewrite lookup_alter_eq, Hp).
  apply wp_bind. eapply wp_mono; [apply (wp_deliver_quiet fuel s1 v' t p' R1)|].
  - by rewrite (rest_self _ _ F1).
  - done.
  - destruct Hok as [H1 H2]. split; [done|]. intros x y Hy. unfold v', v_mask in Hy. cbn in Hy. destruct (decide (x = t)) as [->|Hx].
    + rewrite lookup_alter_eq, Hp in Hy. injection Hy as <-. cbn. by apply (H2 t).
    + rewrite lookup_alter_ne in Hy by done. by apply (H2 x).
  - done.
  - done.
  - intros r s2 (_ & R2 & F2 & G2 & E2). apply wp_bind, wp_signal_return_0, wp_ret, wp_ret, wp_ret. apply HP; [done|congruence..].
Qed.

(** What [values_in_order] leaves. *)
Definition v_queued (v : view) (sig : Z) (xs : list Z) : view :=
  v_mark sig None (v_set_queue (Z.to_nat sig) (map (fun x => mkSi sig SI_QUEUE x) xs) (v_free v - length xs) v).

Definition v_unblocked (v : view) (t : Z) (p : pthread_info) (sig : Z) (xs : list Z) : view :=
  v_delivered (v_mask t (clear_bit (sigmask p) sig) (v_queued v sig xs)) t (set_mask (clear_bit (sigmask p) sig) p).

(** Only the signal that is unblocked can be delivered. *)
Lemma todo_unblocked v p sig xs j : 0 < sig < 32 -> 0 <= j -> todo_of v p = 0 -> Z.testbit (sigmask p) sig = true ->
  Z.testbit (todo_of (v_queued v sig xs) (set_mask (clear_bit (sigmask p) sig) p)) j = (j =? sig).
Proof.
  intros Hs Hj H0 Hm. unfold todo_of, v_queued. cbn. rewrite Z.land_spec, Z.lor_spec, sigaddset_spec, Z.lnot_spec, clear_bit_spec by lia.
  destruct (Z.eqb_spec j sig) as [->|Hne]; [by rewrite orb_true_r, andb_false_r|]. rewrite orb_false_r, andb_true_r.
  rewrite <- Z.lor_spec, <- Z.lnot_spec, <- Z.land_spec by done. unfold todo_of in H0. by rewrite H0, Z.testbit_0_l.
Qed.

Lemma pend_ok_mark v sig q n : pend_ok v -> 0 < sig < 32 -> pend_ok (v_mark sig None (v_set_queue (Z.to_nat sig) q n v)).
Proof.
  intros [H1 H2] Hs. split; [|done]. cbn. unfold sigaddset. destruct (SIGNAL_VALID sig); [|done]. apply lor_u32; [done|].
  rewrite sigbit_eq by lia. split; [lia|]. apply Z.pow_lt_mono_r; lia.
Qed.

Lemma unblocked_deliveries v t p sig a xs :
  0 < sig < 32 -> v_acts v !! Z.to_nat sig = Some a -> quiet a -> siginfo_flag a = true -> todo_of v p = 0 -> Z.testbit (sigmask p) sig = true ->
  v_queues v !! Z.to_nat sig = Some [] -> xs <> [] ->
  deliveries (v_mask t (clear_bit (sigmask p) sig) (v_queued v sig xs)) t (set_mask (clear_bit (sigmask p) sig) p) =
    map (fun x => mkCall t (sa_handler a) sig (Some (mkSi sig SI_QUEUE x)) (Z.lor (Z.lor (clear_bit (sigmask p) sig) (sa_mask a)) (sigbit sig))) xs /\
  quiet_for (v_queued v sig xs) (todo_of (v_queued v sig xs) (set_mask (clear_bit (sigmask p) sig) p)).
Proof.
  intros Hs Ha Hqa Hf H0 Hm Hq Hne. pose proof (lookup_lt_Some _ _ _ Hq) as Hlt.
  assert (forall j, 0 <= j -> Z.testbit (todo_of (v_mask t (clear_bit (sigmask p) sig) (v_queued v sig xs)) (set_mask (clear_bit (sigmask p) sig) p)) j = (j =? sig)) as Htd.
  { intros j Hj. change (todo_of (v_mask _ _ ?w)) with (todo_of w). by apply todo_unblocked. }
  split.
  - rewrite (deliveries_single _ _ _ (Z.to_nat sig)) by (try lia; intros j Hj Hjs; rewrite Htd by lia; apply Z.eqb_neq; lia).
    unfold calls_of. rewrite Htd, Z2Nat.id, Z.eqb_refl by lia. cbn. rewrite Ha, list_lookup_insert_eq by done.
    destruct xs as [|x xs]; [done|]. cbn [map items]. rewrite map_map. unfold call_of. rewrite Hf, Z2Nat.id by lia. done.
  - intros k b Hb Hbit. rewrite (todo_unblocked v p sig xs) in Hbit by (done || lia). apply Z.eqb_eq in Hbit. cbn in Hb.
    assert (k = Z.to_nat sig) as -> by lia. congruence.
Qed.

Lemma unblocked_queues v t p sig xs : 0 < sig < 32 -> todo_of v p = 0 -> Z.testbit (sigmask p) sig = true -> v_queues v !! Z.to_nat sig = Some [] ->
  v_queues (v_unblocked v t p sig xs) = v_queues v.
Proof.
  intros Hs H0 Hm Hq. pose proof (lookup_lt_Some _ _ _ Hq) as Hlt. unfold v_unblocked, v_delivered. cbn [v_queues]. apply list_eq. intros j. rewrite emptied_lookup.
  change (todo_of (v_mask _ _ ?w)) with (todo_of w). rewrite todo_unblocked by (done || lia). cbn. destruct (decide (j = Z.to_nat sig)) as [->|Hj].
  - rewrite list_lookup_insert_eq by done. cbn. by rewrite Z2Nat.id, Z.eqb_refl, Hq by lia.
  - rewrite list_lookup_insert_ne by done. destruct (Z.eqb_spec (Z.of_nat j) sig); [lia|]. by destruct (v_queues v !! j).
Qed.

(** ** The state after the start *)

Definition v_start (th : gmap Z pthread_info) (cs : list call) : view :=
  mkView 0 (replicate NSIG (mkSa 0 0 SIG_DFL)) (replicate NSIG []) SIGQUEUE_MAX th cs.

Lemma wp_chain_free n i s (P : unit -> st -> Prop) :
  free_list (siginfo s) (siginfo_next s) (rev (seq 0 i)) -> (i + n)%nat = length (siginfo s) ->
  (forall nd f, free_list nd f (rev (seq 0 (i + n))) -> length nd = length (siginfo s) -> P tt (set_siginfo_next f (set_siginfo nd s))) ->
  wp (chain_free i n) P s.
Proof.
  induction n as [|n IH] in i, s |- *; intros Hf Hlen HP; cbn [chain_free].
  - apply wp_ret. specialize (HP (siginfo s) (siginfo_next s)). rewrite Nat.add_0_r in HP. assert (set_siginfo_next (siginfo_next s) (set_siginfo (siginfo s) s) = s) as E by by destruct s.
    rewrite E in HP. by apply HP.
  - destruct (lookup_lt_is_Some_2 (siginfo s) i) as [x Hx]; [lia|]. apply wp_bind, wp_gets, wp_bind, (wp_node_at _ x); [done|].
    apply wp_bind, (wp_put_node _ _ x); [done|]. apply wp_bind, wp_modify, IH.
    + rewrite seq_S, rev_app_distr. cbn. split; [done|]. eexists. split; [apply list_lookup_insert_eq; lia|]. cbn. apply (free_list_frame (siginfo s)); [|done].
      intros j Hj%list_elem_of_In%in_rev%in_seq. rewrite list_lookup_insert_ne; [done|lia].
    + cbn. rewrite length_insert. lia.
    + intros nd f H1 H2. cbn in H2. rewrite length_insert in H2. apply (HP nd f); [|done]. by rewrite <- Nat.add_succ_comm.
Qed.

Definition dfl (x : signal_state) : signal_state := mkSs (mkSa (sa_mask (sa x)) (sa_flags (sa x)) SIG_DFL) (pending x).

Lemma wp_default_actions n i s (P : unit -> st -> Prop) : (i + n)%nat = length (sigstate s) ->
  P tt (set_sigstate (take i (sigstate s) ++ map dfl (drop i (sigstate s))) s) -> wp (default_actions i n) P s.
Proof.
  induction n as [|n IH] in i, s |- *; intros Hlen HP; cbn [default_actions].
  - apply wp_ret. rewrite drop_ge, take_ge, app_nil_r in HP by lia. by destruct s.
  - destruct (lookup_lt_is_Some_2 (sigstate s) i) as [x Hx]; [lia|]. apply wp_bind, (wp_upd_state _ _ x); [lia|by rewrite Nat2Z.id|]. rewrite Nat2Z.id. apply IH.
    + cbn. rewrite length_insert. lia.
    + unfold set_sigstate in HP |- *. cbn. rewrite drop_insert_lt by lia. rewrite (take_S_r _ i (dfl x)) by (apply list_lookup_insert_eq; lia).
      rewrite take_insert_ge by lia. rewrite (drop_S _ x) in HP by done. cbn [map] in HP. by rewrite <- app_assoc.
Qed.

(** From the zeroed globals. *)
Lemma start_represents s :
  length (siginfo s) = SIGQUEUE_MAX -> siginfo_next s = None -> sigstate s = replicate NSIG (mkSs (mkSa 0 0 0) None) ->
  exists s', cyg_posix_signal_start s = Ret (tt, s') /\ represents s' (v_start (threads s) (calls s)) /\ rest s' = rest s /\ held s' = held s.
Proof.
  intros Hlen Hn Hss. assert (wp cyg_posix_signal_start (fun _ s' => represents s' (v_start (threads s) (calls s)) /\ rest s' = rest s /\ held s' = held s) s) as H.
  { unfold cyg_posix_signal_start. apply wp_bind, wp_chain_free; [by rewrite Hn|done|]. intros nd f Hf Hl.
    apply wp_bind, wp_default_actions; [by cbn; rewrite Hss, length_replicate|]. apply wp_modify. cbn. rewrite Hss, drop_0. cbn [take Datatypes.app].
    split; [|done]. split; cbn; try done. exists (replicate NSIG []), (rev (seq 0 SIGQUEUE_MAX)). split_and!; [|done|by rewrite length_rev, length_seq].
    split; [done|done|done| |by rewrite <- Permutation_rev; cbn; rewrite app_nil_r|exact (eq_trans Hl Hlen)].
    intros k x l Hx Hk. cbn in Hx. apply lookup_replicate in Hk as [-> _]. split; [|done]. cbn.
    change (map dfl (replicate NSIG (mkSs (mkSa 0 0 0) None)) !! k = Some x) in Hx. rewrite (list_lookup_fmap dfl) in Hx.
    destruct (replicate NSIG (mkSs (mkSa 0 0 0) None) !! k) eqn:E; [|done]. apply lookup_replicate in E as [-> _]. by injection Hx as <-. }
  apply wp_Ret in H as ([] & s' & E & H). by exists s'.
Qed.

(** C35: Delivery is exact and ends: when the handlers of the signals that are pending for a
    thread and not masked return without calling back, the call delivers them all - in the
    order of their numbers, for each signal one call for every value that is queued, first
    in first out, or one call with default values - each with the mask of the thread, that
    of the action and the signal itself blocked; it tells whether there was one, clears the
    pending bits of exactly these signals in both sets, frees the nodes of their queues and
    restores the mask, whether the mutex was held or not. *)
Theorem signals_delivered fuel s v t p :
  represents s v -> self s = Some t -> v_threads v !! t = Some p -> pend_ok v -> quiet_for v (todo_of v p) ->
  (length (deliveries v t p) <= fuel)%nat ->
  exists s', cyg_deliver_signals fuel s = Ret (negb (todo_of v p =? 0), s') /\ represents s' (v_delivered v t p) /\ held s' = held s /\ rest s' = rest s.
Proof.
  intros Hr Ht Hp Hok Hq Hn. destruct (proj1 (wp_Ret _ _ _) (wp_deliver_quiet fuel s v t p Hr Ht Hp Hok Hq Hn)) as (r & s' & E & -> & R1 & F1 & G1 & _).
  by exists s'.
Qed.

(** A thread that blocks a signal, gets it from [sigqueue] with a number of values for
    which there is room, and unblocks it, has its handler called once for each value, in the
    order in which they were queued, and nothing remains pending or queued. *)
Theorem values_in_order fuel s v t p sig a xs :
  represents s v -> self s = Some t -> v_threads v !! t = Some p -> pend_ok v ->
  0 < sig < 32 -> v_acts v !! Z.to_nat sig = Some a -> quiet a -> siginfo_flag a = true ->
  todo_of v p = 0 -> Z.testbit (sigmask p) sig = true -> v_queues v !! Z.to_nat sig = Some [] ->
  xs <> [] -> (length xs <= v_free v)%nat -> (length xs <= fuel)%nat ->
  exists s', run_ops (cyg_deliver_signals fuel) (map (Sigqueue 0 sig) xs ++ [Sigmask SIG_UNBLOCK (Some (sigbit sig))]) s = Ret (tt, s') /\
    calls s' = rev (map (fun x => mkCall t (sa_handler a) sig (Some (mkSi sig SI_QUEUE x))
      (Z.lor (Z.lor (clear_bit (sigmask p) sig) (sa_mask a)) (sigbit sig))) xs) ++ calls s /\
    queued s' (v_queues v) (v_free v) /\ Z.testbit (sig_pending s') sig = false /\
    sigmask <$> threads s' !! t = Some (clear_bit (sigmask p) sig).
Proof.
  intros Hr Ht Hp Hok Hs Ha Hqa Hf H0 Hm Hq Hne Hfree Hfuel. pose proof (lookup_lt_Some _ _ _ Hq) as Hlt.
  assert (exists u s', run_ops (cyg_deliver_signals fuel) (map (Sigqueue 0 sig) xs ++ [Sigmask SIG_UNBLOCK (Some (sigbit sig))]) s = Ret (u, s') /\
    represents s' (v_unblocked v t p sig xs)) as ([] & s' & E & R1).
  { apply (wp_Ret _ (fun _ s' => represents s' (v_unblocked v t p sig xs))), run_ops_app.
    eapply run_sigqueue; [done..|]. intros s1 R1 F1 G1 E1. rewrite (queue_values_fields sig xs v a []) in R1 by done.
    destruct (unblocked_deliveries v t p sig a xs) as (Hd & Hqt); try done.
    eapply wp_unblock; [exact R1|by rewrite (rest_self _ _ F1)|done|by apply pend_ok_mark|exact Hqt| |].
    - change (length (deliveries (v_mask t (clear_bit (sigmask p) sig) (v_queued v sig xs)) t (set_mask (clear_bit (sigmask p) sig) p)) <= fuel)%nat.
      by rewrite Hd, length_map.
    - intros s2 R2 _ _. exact R2. }
  exists s'. split; [done|]. destruct (unblocked_deliveries v t p sig a xs) as (Hd & _); try done. split_and!.
  - rewrite (re_calls _ _ R1). unfold v_unblocked, v_delivered. cbn [v_calls]. rewrite Hd. by rewrite (re_calls _ _ Hr).
  - pose proof (re_queues _ _ R1) as HQ. assert (v_queues (v_unblocked v t p sig xs) = v_queues v) as EQ by by apply unblocked_queues.
    rewrite (queued_free _ _ _ (re_queues _ _ Hr)). rewrite EQ in HQ. by rewrite <- (queued_free _ _ _ HQ).
  - rewrite (re_pend _ _ R1). unfold v_unblocked, v_delivered. cbn [v_pend]. change (todo_of (v_mask _ _ ?w)) with (todo_of w).
    rewrite Z.land_spec, Z.lnot_spec, (todo_unblocked v p sig xs sig), Z.eqb_refl by (done || lia). by rewrite andb_false_r.
  - rewrite (re_threads _ _ R1). cbn. by rewrite lookup_insert_eq.
Qed.

End Props.

(** ** A small system

    A tick of 10 ms, four nodes, two timers; no handler calls back. *)

Module Demo.

Lemma demo_tick : 0 < 10000000 <= 1000000000.
Proof. lia. Qed.

Definition clock : KClock := {|
  tick_ns := 10000000; convert_sec n := n * 1000000000 / 10000000; convert_ns n := n / 10000000; convert_ns_inverse n := n * 10000000;
  tick_ns_pos := demo_tick; convert_sec_spec _ _ := eq_refl; convert_ns_spec _ _ := eq_refl; convert_inverse_spec _ _ _ := eq_refl |}.

Definition fire (a : Z * Z * bool) : Z * Z * bool :=
  let '(t, i, _) := a in ((if i =? 0 then t else u64 (t + i), i), negb (i =? 0)).

Lemma fire_spec a t i : a.1 = (t, i) -> (fire a).1 = (if i =? 0 then t else u64 (t + i), i) /\ (fire a).2 = negb (i =? 0).
Proof. destruct a as [[t' i'] b]. by intros [= -> ->]. Qed.

Definition alarms : KAlarm := {|
  Cyg_Alarm := Z * Z * bool; alarm_new := (0, 0, false); alarm_initialize t i _ := (t, i, true); alarm_disable a := (a.1, false);
  alarm_fire := fire;
  alarm_times a := a.1; alarm_enabled a := a.2; alarm_new_spec := eq_refl;
  alarm_initialize_spec _ _ _ := conj eq_refl eq_refl; alarm_disable_spec _ := conj eq_refl eq_refl;
  alarm_fire_spec := fire_spec |}.

Definition sizes : PosixConfig := {|
  SI_USER := 1; SI_QUEUE := 2; SI_TIMER := 3; EINVAL := 22; ESRCH := 3; EAGAIN := 11; EINTR := 4; SIGQUEUE_MAX := 4; POSIX_TIMER_MAX := 2; PTHREAD_THREADS_MAX := 64 |}.

Definition silent : App := {| handler_ops h := if h <=? 2 then None else Some []; no_function := conj eq_refl eq_refl |}.

#[local] Existing Instances clock alarms sizes silent.

(** Thread 1 runs and blocks signal 10. *)
Definition boot : st :=
  mkSt 0 (replicate NSIG (mkSs (mkSa 0 0 0) None)) (replicate 4 (mkInfo None (mkSi 0 0 0))) None {[1 := mkPt 0 1024]} (Some 1) false
    alarm_new false false [] 0 1024 0 0 [] [].

Definition started : st := match cyg_posix_signal_start boot with Ret (_, s) => s | _ => boot end.

(** The handlers of signals 10, which has values, and 12. *)
Definition catches : st :=
  match (upd_state 10 (fun x => mkSs (mkSa 0 SA_SIGINFO 256) (pending x));; upd_state 12 (fun x => mkSs (mkSa 0 0 300) (pending x))) started with
  | Ret (_, s) => s | _ => boot end.

Definition v_catches : view :=
  v_set_acts (<[12%nat := mkSa 0 0 300]> (<[10%nat := mkSa 0 SA_SIGINFO 256]> (replicate NSIG (mkSa 0 0 SIG_DFL)))) (v_start {[1 := mkPt 0 1024]} []).

Lemma started_represents : represents started (v_start {[1 := mkPt 0 1024]} []).
Proof.
  destruct (start_represents boot) as (s' & E & R & _); [done..|]. unfold started. by rewrite E.
Qed.

Lemma upd_represents s v sig act : represents s v -> 0 <= sig < 32 ->
  exists s', upd_state sig (fun x => mkSs act (pending x)) s = Ret (tt, s') /\ represents s' (v_set_acts (<[Z.to_nat sig := act]> (v_acts v)) v).
Proof.
  intros Hr Hs. destruct (represents_state s v sig Hr Hs) as (ss & q & Hss & _).
  assert (wp (upd_state sig (fun x => mkSs act (pending x))) (fun _ s' => represents s' (v_set_acts (<[Z.to_nat sig := act]> (v_acts v)) v)) s) as H.
  { apply (wp_upd_state _ _ ss); [lia|done|]. destruct Hr as [R1 R2 R3 R4 R5]. split; cbn; try done; [|by eapply queued_acts]. rewrite <- R2. apply (list_fmap_insert sa). }
  destruct (proj1 (wp_Ret _ _ _) H) as ([] & s' & E & R). by exists s'.
Qed.

Lemma catches_represents : represents catches v_catches.
Proof.
  destruct (upd_represents _ _ 10 (mkSa 0 SA_SIGINFO 256) started_represents ltac:(lia)) as (s1 & E1 & R1).
  destruct (upd_represents _ _ 12 (mkSa 0 0 300) R1 ltac:(lia)) as (s2 & E2 & R2).
  unfold catches, mbind, M_bind. by rewrite E1, E2.
Qed.

Lemma catches_ok : pend_ok v_catches.
Proof. split; [done|]. intros t p Hp. cbn in Hp. apply lookup_singleton_Some in Hp as [_ <-]. cbn. lia. Qed.

(** Signal 10 is queued with 5 and 6, then unblocked. *)
Lemma values_in_order_witness :
  exists s', run_ops (cyg_deliver_signals 2) [Sigqueue 0 10 5; Sigqueue 0 10 6; Sigmask SIG_UNBLOCK (Some 1024)] catches = Ret (tt, s') /\
    calls s' = [mkCall 1 256 10 (Some (mkSi 10 2 6)) 1024; mkCall 1 256 10 (Some (mkSi 10 2 5)) 1024] /\
    queued s' (replicate NSIG []) 4 /\ Z.testbit (sig_pending s') 10 = false /\ sigmask <$> threads s' !! 1 = Some 0.
Proof.
  destruct (values_in_order 2 catches v_catches 1 (mkPt 0 1024) 10 (mkSa 0 SA_SIGINFO 256) [5; 6] catches_represents)
    as (s' & E & H1 & H2 & H3 & H4); [reflexivity|reflexivity|exact catches_ok|lia|reflexivity| |reflexivity..|discriminate|cbn; lia|cbn; lia|].
  { split; [discriminate|]. by right. }
  exists s'. split_and!; [exact E|rewrite H1; vm_compute; reflexivity|exact H2|exact H3|exact H4].
Defined.

(** The two values are queued and signal 12 is pending for the thread; nothing is masked. *)
Definition waiting : st :=
  match run_ops (cyg_deliver_signals 0) [Sigqueue 0 10 5; Sigqueue 0 10 6] catches with
  | Ret (_, s) => set_threads {[1 := mkPt 4096 0]} s | _ => boot end.

Definition v_waiting : view := v_set_threads {[1 := mkPt 4096 0]} (v_queue_values 10 [5; 6] v_catches).

Lemma waiting_represents : represents waiting v_waiting.
Proof.
  assert (wp (run_ops (cyg_deliver_signals 0) (map (Sigqueue 0 10) [5; 6])) (fun _ s' => represents s' (v_queue_values 10 [5; 6] v_catches)) catches) as H.
  { apply (run_sigqueue 0 catches v_catches 1 (mkPt 0 1024) 10 (mkSa 0 SA_SIGINFO 256) [5; 6]); [exact catches_represents|reflexivity|reflexivity|lia|reflexivity..|].
    intros s' R _ _ _. exact R. }
  destruct (proj1 (wp_Ret _ _ _) H) as ([] & s' & E & R). unfold waiting. cbn [map] in E. rewrite E. by apply represents_threads.
Qed.

Lemma signals_delivered_witness :
  exists s', cyg_deliver_signals 3 waiting = Ret (true, s') /\
    calls s' = [mkCall 1 300 12 None 4096; mkCall 1 256 10 (Some (mkSi 10 2 6)) 1024; mkCall 1 256 10 (Some (mkSi 10 2 5)) 1024] /\
    sig_pending s' = 0 /\ threads s' !! 1 = Some (mkPt 0 0).
Proof.
  destruct (signals_delivered 3 waiting v_waiting 1 (mkPt 4096 0) waiting_represents) as (s' & E & [R1 R2 R3 R4 R5] & H1 & H2); [reflexivity|reflexivity| | | |].
  - split; [done|]. intros t p Hp. cbn in Hp. apply lookup_singleton_Some in Hp as [_ <-]. cbn. lia.
  - replace (todo_of v_waiting (mkPt 4096 0)) with 5120 by (vm_compute; reflexivity).
    intros k a Ha Hb. do 32 (destruct k as [|k]; [first [discriminate Hb|vm_compute in Ha; injection Ha as <-; split; [discriminate|first [by right|by left]]]|]). done.
  - vm_compute. lia.
  - exists s'. split_and!; [exact E|rewrite R5; vm_compute; reflexivity|rewrite R1; vm_compute; reflexivity|rewrite R4; vm_compute; reflexivity].
Defined.

End Demo.
