(* ===== verification/SignalSafe.v ===== *)
(** * Signals whose handlers call back

    Whatever the handlers call, at any depth: the structures stay well formed, no thread
    blocks itself on the mutex, masks are restored.  Waiting for a signal; signals that are
    ignored. *)

From stdpp Require Import gmap.
From S2P Require Import Prelude.
From S2P Require Import Hal.
From S2P Require Import Clock.
From S2P Require Import Signal.
From S2P Require Import SignalFacts.
From S2P Require Import SignalProps.

Section Safe.
Context {kc : KClock} {ka : KAlarm} {cfg : PosixConfig} {ap : App}.

(** An action that can be taken: the signal is ignored, the default action, or a function. *)
Definition act_ok (a : sigaction_t) : Prop := sa_handler a = SIG_IGN \/ by_default a \/ is_Some (handler_ops (sa_handler a)).

(** Actions that are installed can be taken; the ids of threads index their table. *)
Definition op_ok (o : op) : Prop :=
  match o with
  | Sigaction _ act => act_ok act
  | PthreadKill threadid _ => (Z.to_nat (Z.land threadid 1023) < PTHREAD_THREADS_MAX)%nat
  | _ => True
  end.

(** A state in which thread [t] runs. *)
Definition ok (s : st) (t : Z) : Prop :=
  self s = Some t /\ exists v, represents s v /\ pend_ok v /\ Forall act_ok (v_acts v) /\ is_Some (v_threads v !! t).

Definition mask_of (s : st) (t : Z) : option Z := sigmask <$> threads s !! t.

Lemma ok_same s s' t : ok s t -> self s' = self s -> sig_pending s' = sig_pending s -> sigstate s' = sigstate s -> siginfo s' = siginfo s ->
  siginfo_next s' = siginfo_next s -> threads s' = threads s -> ok s' t.
Proof.
  intros (Ht & v & Hr & Hp & Ha & Hs) E0 E1 E2 E3 E4 E5. split; [congruence|].
  exists (v_set_calls (calls s') v). split_and!; try done. destruct Hr as [R1 R2 R3 R4 R5]. split; cbn; rewrite ?E1, ?E2, ?E5; try done. by apply (queued_same s).
Qed.

Lemma ok_held s t b : ok s t -> ok (set_held b s) t.
Proof. intros H. by apply (ok_same s). Qed.

Lemma mark_ok v sig thread : pend_ok v -> 0 < sig < 32 -> pend_ok (v_mark sig thread v).
Proof.
  intros [H1 H2] Hs. assert (forall x, 0 <= x < 2 ^ 32 -> 0 <= sigaddset x sig < 2 ^ 32) as Hadd.
  { intros x Hx. unfold sigaddset. destruct (SIGNAL_VALID sig); [|done]. apply lor_u32; [done|]. rewrite sigbit_eq by lia. split; [lia|]. apply Z.pow_lt_mono_r; lia. }
  destruct thread as [u|]; split; cbn; try done; [|by apply Hadd]. intros x p Hp. destruct (decide (x = u)) as [->|Hne].
  - rewrite lookup_alter_eq in Hp. destruct (v_threads v !! u) eqn:E; [|done]. injection Hp as <-. cbn. by apply Hadd, (H2 u).
  - rewrite lookup_alter_ne in Hp by done. by apply (H2 x).
Qed.

Lemma mark_threads v sig thread t : is_Some (v_threads v !! t) -> is_Some (v_threads (v_mark sig thread v) !! t).
Proof.
  intros [p Hp]. destruct thread as [u|]; cbn; [|by rewrite Hp]. destruct (decide (t = u)) as [->|Hne]; [by rewrite lookup_alter_eq, Hp|by rewrite lookup_alter_ne, Hp].
Qed.

Lemma wp_generate_ok s t sig code value thread : ok s t -> 0 < sig < 32 ->
  match thread with Some u => is_Some (threads s !! u) | None => True end ->
  wp (cyg_sigqueue (mkEv SIGEV_SIGNAL sig value) code thread) (fun _ s' => ok s' t /\ held s' = held s) s.
Proof.
  intros (Ht & v & Hr & Hp & Ha & Hs) Hsig Hth. destruct (represents_state s v sig Hr ltac:(lia)) as (ss & q & _ & Hact & _).
  rewrite (re_threads _ _ Hr) in Hth.
  eapply (wp_cyg_sigqueue s v sig code value thread (sa ss)); [done|lia|done|left; by rewrite Ht|done|]. intros s' R1 F1 G1 E1. split; [|done].
  split; [by rewrite (rest_self _ _ F1)|]. eexists. split; [exact R1|]. unfold v_generate. destruct (siginfo_flag (sa ss)).
  - destruct (v_free v); [done|]. destruct (v_queues v !! Z.to_nat sig); [|done]. split_and!; [by apply mark_ok|by destruct thread|by apply mark_threads].
  - split_and!; [by apply mark_ok|by destruct thread|by apply mark_threads].
Qed.

(** A way to deliver signals that is safe. *)
Definition deliver_ok (D : M st bool) : Prop := forall s t, ok s t -> wlp D (fun _ s' => ok s' t /\ held s' = held s) s.

Lemma wlp_signal_return e s t (P : Z -> st -> Prop) : ok s t -> (forall r s', ok s' t -> held s' = held s -> P r s') -> wlp (signal_return e) P s.
Proof.
  intros Hok HP. unfold signal_return. destruct (e =? 0); [apply wlp_ret; by apply HP|]. apply wlp_bind, wlp_ret. apply HP; [by apply (ok_same s)|done].
Qed.

(** The end of most calls. *)
Lemma wlp_deliver_return D e s t : deliver_ok D -> ok s t -> held s = false ->
  wlp (D;; signal_return e) (fun _ s' => ok s' t /\ held s' = false) s.
Proof.
  intros HD Hok Hh. apply wlp_bind. eapply wlp_mono; [by apply (HD s t)|]. intros _ s' [Hok' Hh'].
  eapply wlp_signal_return; [done|]. intros r s'' H1 H2. split; [done|congruence].
Qed.

Lemma wlp_signal_error e s t : ok s t -> held s = false -> wlp (signal_return e) (fun _ s' => ok s' t /\ held s' = false) s.
Proof. intros Hok Hh. eapply wlp_signal_return; [done|]. intros r s'' H1 H2. split; [done|congruence]. Qed.

Lemma wlp_get (P : st -> st -> Prop) s : P s s -> wlp get P s.
Proof. done. Qed.

Lemma valid_range sig : SIGNAL_VALID sig = true -> 0 < sig < 32.
Proof. unfold SIGNAL_VALID. intros [H1%Z.gtb_lt H2%Z.ltb_lt]%andb_true_iff. lia. Qed.

Lemma wlp_kill D pid sig s t : deliver_ok D -> ok s t -> held s = false -> wlp (kill D pid sig) (fun _ s' => ok s' t /\ held s' = false) s.
Proof.
  intros HD Hok Hh. unfold kill. destruct (SIGNAL_VALID sig) eqn:Hv; cbn [negb]; [|by apply wlp_signal_error]. apply valid_range in Hv.
  destruct (negb (pid =? 0)); [by apply wlp_signal_error|]. apply wlp_bind, wlp_wp. eapply wp_mono; [by apply (wp_generate_ok s t)|].
  intros _ s' [H1 H2]. apply wlp_deliver_return; [done|done|congruence].
Qed.

Lemma wlp_pthread_kill D id sig s t : deliver_ok D -> ok s t -> held s = false -> op_ok (PthreadKill id sig) ->
  wlp (pthread_kill D id sig) (fun _ s' => ok s' t /\ held s' = false) s.
Proof.
  intros HD Hok Hh Hid%Nat.ltb_lt. unfold pthread_kill. destruct (SIGNAL_VALID sig) eqn:Hv; cbn [negb]; [|by apply wlp_signal_error]. apply valid_range in Hv.
  apply wlp_bind. unfold wlp at 1, pthread_info_id. rewrite Hid. clear Hid. destruct (threads s !! id) eqn:Hid; cbn [negb]; [|by apply wlp_signal_error].
  apply wlp_bind, wlp_wp. eapply wp_mono; [apply (wp_generate_ok s t); [done|done|by rewrite Hid]|].
  intros _ s' [H1 H2]. apply wlp_deliver_return; [done|done|congruence].
Qed.

Lemma wlp_sigqueue D pid sig value s t : deliver_ok D -> ok s t -> held s = false -> wlp (sigqueue D pid sig value) (fun _ s' => ok s' t /\ held s' = false) s.
Proof.
  intros HD Hok Hh. unfold sigqueue. destruct (SIGNAL_VALID sig) eqn:Hv; cbn [negb]; [|by apply wlp_signal_error]. apply valid_range in Hv.
  apply wlp_bind, wlp_wp. eapply wp_mono; [by apply (wp_generate_ok s t)|]. intros _ s' [H1 H2]. apply wlp_deliver_return; [done|done|congruence].
Qed.

Lemma mask_ok v t m u : pend_ok v -> pend_ok (v_mask t m v) /\ (is_Some (v_threads v !! u) -> is_Some (v_threads (v_mask t m v) !! u)).
Proof.
  intros [H1 H2]. split; [split; [done|]|]; unfold v_mask; cbn.
  - intros x y Hy. destruct (decide (x = t)) as [->|Hx].
    + rewrite lookup_alter_eq in Hy. destruct (v_threads v !! t) eqn:E; [|done]. injection Hy as <-. cbn. by apply (H2 t).
    + rewrite lookup_alter_ne in Hy by done. by apply (H2 x).
  - destruct (decide (u = t)) as [->|Hx]; [rewrite lookup_alter_eq; by destruct (v_threads v !! t)|by rewrite lookup_alter_ne].
Qed.

Lemma ok_mask s t m (P : unit -> st -> Prop) : ok s t -> (forall s', ok s' t -> held s' = held s -> mask_of s' t = Some m -> P tt s') -> wp (set_self_mask m) P s.
Proof.
  intros (Ht & v & Hr & Hp & Ha & [p Hpt]) HP. destruct (mask_ok v t m t Hp) as [H1 H2]. eapply wp_set_self_mask; [done..|]. intros s' R1 F1 G1 E1. apply HP; [|done|].
  - split; [by rewrite (rest_self _ _ F1)|]. exists (v_mask t m v). split_and!; [done|done|done|apply H2; by exists p].
  - unfold mask_of. rewrite (re_threads _ _ R1). unfold v_mask. cbn. by rewrite lookup_alter_eq, Hpt.
Qed.

Lemma wlp_sigmask D how set s t : deliver_ok D -> ok s t -> held s = false -> wlp (pthread_sigmask D how set) (fun _ s' => ok s' t /\ held s' = false) s.
Proof.
  intros HD Hok Hh. unfold pthread_sigmask. pose proof Hok as (Ht & v & Hr & _ & _ & [p Hp]). apply wlp_bind, wlp_wp, (wp_self_info _ t p); [done|by rewrite (re_threads _ _ Hr)|].
  assert (forall e s', ok s' t -> held s' = false ->
    wlp (D;; r ← signal_return e; mret (r, sigmask p)) (fun _ s' => ok s' t /\ held s' = false) s') as Hend.
  { intros e s' Hok' Hh'. apply wlp_bind. eapply wlp_mono; [by apply (HD s' t)|]. intros _ s2 [H1 H2]. apply wlp_bind.
    eapply wlp_signal_return; [done|]. intros r s3 H3 H4. apply wlp_ret. split; [done|congruence]. }
  assert (forall m, wlp (set_self_mask m;; mret 0) (fun e s' => wlp (D;; r ← signal_return e; mret (r, sigmask p)) (fun _ s' => ok s' t /\ held s' = false) s') s) as Hset.
  { intros m. apply wlp_bind, wlp_wp. eapply ok_mask; [done|]. intros s' H1 H2 _. apply wlp_ret, Hend; [done|congruence]. }
  apply wlp_bind. destruct set as [m|]; [|by apply wlp_ret, Hend].
  destruct (how =? SIG_BLOCK); [apply Hset|]. destruct (how =? SIG_UNBLOCK); [apply Hset|]. destruct (how =? SIG_SETMASK); [apply Hset|]. by apply wlp_ret, Hend.
Qed.

(** *** Changing actions *)

Lemma queue_length s Q n k q : queued s Q n -> Q !! k = Some q -> (length q <= SIGQUEUE_MAX)%nat.
Proof.
  intros (qs & fr & Hp & -> & _) Hq. pose proof (Permutation_length (po_nodes _ _ _ Hp)) as E. rewrite length_app, length_seq in E.
  rewrite (list_lookup_fmap (fmap snd)) in Hq. destruct (qs !! k) as [l|] eqn:Hl; [|done]. injection Hq as <-. rewrite length_fmap.
  assert (length l <= length (nodes_of qs))%nat; [|lia]. clear -Hl. unfold nodes_of. induction qs as [|x qs IH] in k, Hl |- *; [done|].
  destruct k as [|k]; cbn in *; rewrite length_app; [injection Hl as ->; rewrite length_fmap; lia|]. specialize (IH k Hl). lia.
Qed.

Lemma wp_discard n s v sig q (P : unit -> st -> Prop) : represents s v -> 0 <= sig < 32 -> v_queues v !! Z.to_nat sig = Some q -> (length q <= n)%nat ->
  (forall s' m, represents s' (v_set_queue (Z.to_nat sig) [] m v) -> rest s' = rest s -> held s' = held s -> P tt s') -> wp (discard n sig) P s.
Proof.
  intros Hr Hs Hq Hn HP. induction q as [|x q IH] in n, s, v, Hr, Hq, Hn, HP |- *;
    destruct (represents_state s v sig Hr Hs) as (ss & q' & Hss & _ & Hq' & Hpd); rewrite Hq in Hq'; injection Hq' as <-.
  - unfold discard. assert (P tt s) as Hend.
    { apply (HP s (v_free v)); [|done|done]. unfold v_set_queue. rewrite list_insert_id by done. by destruct v. }
    destruct n; (apply wp_bind, (wp_state_at _ ss); [lia|done|]; rewrite (proj2 Hpd) by done; by apply wp_ret).
  - destruct n as [|n]; [cbn in Hn; lia|]. unfold discard; fold discard. apply wp_bind, (wp_state_at _ ss); [lia|done|].
    destruct (pending ss); [|discriminate (proj1 Hpd eq_refl)]. apply wp_bind. eapply wp_dequeue; [apply Hr|lia|done|]. intros s1 Hpl Hqd.
    destruct (represents_pooled _ _ _ _ _ _ Hr Hpl Hqd) as (R1 & F1 & G1 & _). pose proof (lookup_lt_Some _ _ _ Hq) as Hlt.
    eapply (IH n s1 _ R1); [cbn; by apply list_lookup_insert_eq|cbn in Hn; lia|]. intros s2 m R2 F2 G2. apply (HP s2 m); [|congruence|congruence].
    unfold v_set_queue in *. cbn in R2. by rewrite list_insert_insert_eq in R2.
Qed.

Lemma represents_action s v sig ss act : represents s v -> sigstate s !! Z.to_nat sig = Some ss ->
  represents (set_sigstate (<[Z.to_nat sig := mkSs act (pending ss)]> (sigstate s)) s) (v_set_acts (<[Z.to_nat sig := act]> (v_acts v)) v).
Proof.
  intros [R1 R2 R3 R4 R5] Hss. split; cbn; try done; [|by eapply queued_acts]. rewrite <- R2. apply (list_fmap_insert sa).
Qed.

Lemma clear_ok v t u sig : pend_ok v -> pend_ok (v_clear t sig v) /\ (is_Some (v_threads v !! u) -> is_Some (v_threads (v_clear t sig v) !! u)).
Proof.
  intros [H1 H2]. split; [split; cbn; [by apply clear_bit_u32|]|]; intros.
  - destruct (decide (t0 = t)) as [->|Hx].
    + rewrite lookup_alter_eq in H. destruct (v_threads v !! t) eqn:E; [|done]. injection H as <-. cbn. by apply clear_bit_u32, (H2 t).
    + rewrite lookup_alter_ne in H by done. by apply (H2 t0).
  - cbn. destruct (decide (u = t)) as [->|Hx]; [rewrite lookup_alter_eq; by destruct (v_threads v !! t)|by rewrite lookup_alter_ne].
Qed.

Lemma Forall_insert_act (l : list sigaction_t) k a : Forall act_ok l -> act_ok a -> Forall act_ok (<[k := a]> l).
Proof. intros H Ha. by apply Forall_insert. Qed.

Lemma wlp_sigaction D sig act s t : deliver_ok D -> ok s t -> held s = false -> act_ok act ->
  wlp (sigaction D sig act) (fun _ s' => ok s' t /\ held s' = false) s.
Proof.
  intros HD Hok Hh Hact. unfold sigaction. destruct (SIGNAL_VALID sig) eqn:Hv; cbn [negb].
  2: { apply wlp_bind. eapply wlp_signal_return; [done|]. intros r s' H1 H2. apply wlp_ret. split; [done|congruence]. }
  apply valid_range in Hv. apply wlp_bind, wlp_wp, wp_sig_lock; [done|].
  assert (ok (set_held true s) t) as Hok1 by by apply ok_held. destruct Hok1 as (Ht & v & Hr & Hp & Ha & [p Hpt]). revert Ht Hr. generalize (set_held true s) (eq_refl : held (set_held true s) = true).
  clear s Hok Hh. intros s Hh Ht Hr. destruct (represents_state s v sig Hr ltac:(lia)) as (ss & q & Hss & _ & Hq & _).
  apply wlp_bind, wlp_wp, (wp_state_at _ ss); [lia|done|]. apply wlp_bind, wlp_wp, (wp_upd_state _ _ ss); [lia|done|].
  pose proof (represents_action s v sig ss act Hr Hss) as R1. set (s1 := set_sigstate _ s) in *.
  assert (forall s', ok s' t -> held s' = true -> wlp (D;; unlock;; r ← signal_return 0; mret (r, Some (sa ss))) (fun _ s' => ok s' t /\ held s' = false) s') as Hend.
  { intros s' Hok' Hh'. apply wlp_bind. eapply wlp_mono; [by apply (HD s' t)|]. intros _ s2 [H1 H2]. unfold unlock. apply wlp_bind, wlp_wp, wp_modify.
    apply wlp_bind. eapply wlp_signal_return; [by apply ok_held|]. intros r s3 H3 H4. apply wlp_ret. by split. }
  assert (ok s1 t) as Hok1.
  { split; [done|]. eexists. split; [exact R1|]. split_and!; [done|by apply Forall_insert_act|by exists p]. }
  apply wlp_bind, wlp_wp. apply (wp_mono _ (fun _ s' => ok s' t /\ held s' = true)); [|intros _ s' [H1 H2]; by apply Hend].
  apply wp_when; intros _; [|done]. apply wp_bind, (wp_self_info _ t p); [done|by rewrite (re_threads _ _ R1)|]. apply wp_bind, wp_get, wp_when; intros _; [|done].
  apply wp_bind. eapply wp_clear_pending; [exact R1|done|by exists p|]. intros s2 R2 F2 G2 _.
  assert (self s2 = Some t) as T2 by (by rewrite (rest_self _ _ F2)).
  eapply wp_discard; [exact R2|lia|exact Hq|by eapply queue_length; [apply Hr|]|]. intros s3 m R3 F3 G3. split; [|by rewrite G3, G2].
  split; [by rewrite (rest_self _ _ F3)|]. eexists. split; [exact R3|].
  destruct (clear_ok (v_set_acts (<[Z.to_nat sig := act]> (v_acts v)) v) t t sig Hp) as [C1 C2].
  split_and!; [exact C1|by apply Forall_insert_act|apply C2; by exists p].
Qed.

(** *** The calls of a handler, and the handler *)

Lemma wlp_run_op D o s t : deliver_ok D -> op_ok o -> ok s t -> held s = false -> wlp (run_op D o) (fun _ s' => ok s' t /\ held s' = false) s.
Proof.
  intros HD Ho Hok Hh. destruct o; cbn [run_op]; apply wlp_bind;
    (eapply wlp_mono; [|intros ? s' H; apply wlp_ret; exact H]).
  - by apply wlp_kill.
  - by apply wlp_pthread_kill.
  - by apply wlp_sigaction.
  - by apply wlp_sigqueue.
  - by apply wlp_sigmask.
Qed.

Lemma wlp_run_ops D l s t : deliver_ok D -> Forall op_ok l -> ok s t -> held s = false -> wlp (run_ops D l) (fun _ s' => ok s' t /\ held s' = false) s.
Proof.
  intros HD. induction l as [|o l IH] in s |- *; intros Hl Hok Hh; cbn [run_ops]; [by apply wlp_ret|]. apply list.Forall_cons in Hl as [Ho Hl].
  apply wlp_bind. eapply wlp_mono; [by apply wlp_run_op|]. intros _ s' [H1 H2]. by apply IH.
Qed.

Hypothesis handlers_ok : forall h l, handler_ops h = Some l -> Forall op_ok l.

Lemma wlp_call_handler D sig i s t : deliver_ok D -> 0 <= sig < 32 -> ok s t -> held s = false ->
  (forall ss, sigstate s !! Z.to_nat sig = Some ss -> sa_handler (sa ss) <> SIG_IGN) ->
  wlp (call_handler D sig i) (fun _ s' => ok s' t /\ held s' = false) s.
Proof.
  intros HD Hs Hok Hh Hign. pose proof Hok as (Ht & v & Hr & _ & Ha & [p Hp]). destruct (represents_state s v sig Hr Hs) as (ss & q & Hss & Hact & _).
  unfold call_handler. apply wlp_bind, wlp_wp, (wp_self_id _ t); [done|]. apply wlp_bind, wlp_wp, (wp_self_info _ t p); [done|by rewrite (re_threads _ _ Hr)|].
  apply wlp_bind, wlp_wp, (wp_state_at _ ss); [lia|done|]. assert (act_ok (sa ss)) as Hok1 by (by eapply Forall_lookup_1).
  assert (forall c, ok (set_calls c s) t) as Hc by (intros c; by apply (ok_same s)).
  assert (forall c, ~ by_default (sa ss) -> wlp (modify (fun s => set_calls (c :: calls s) s);; call_function D (sa_handler (sa ss))) (fun _ s' => ok s' t /\ held s' = false) s) as Hrec.
  { intros c Hd. destruct Hok1 as [E|[E|[l E]]]; [by destruct (Hign ss Hss)|done|]. unfold call_function. rewrite E.
    apply wlp_bind, wlp_wp, wp_modify, wlp_run_ops; [done|by apply (handlers_ok _ _ E)|apply Hc|done]. }
  fold (siginfo_flag (sa ss)). destruct (siginfo_flag (sa ss)) eqn:Hf; [|destruct (Z.eqb_spec (sa_handler (sa ss)) SIG_DFL) as [E|E]].
  - apply Hrec. intros [? _]. congruence.
  - apply wlp_wp, wp_modify. split; [apply Hc|done].
  - apply Hrec. by intros [_ ?].
Qed.

(** *** Delivery *)

Lemma enter_ok v t sig a p : pend_ok v -> pend_ok (v_enter t sig a p v).
Proof.
  intros H. unfold v_enter. apply (mask_ok _ t _ t). assert (pend_ok (v_take sig v)) as Ht.
  { destruct H as [H1 H2]. split; [by destruct (take_acts sig v) as (_ & _ & ->)|by rewrite take_threads]. }
  unfold v_clear_if_empty. destruct (v_queues (v_take sig v) !! Z.to_nat sig) as [[|? ?]|]; [by apply (clear_ok _ t t)|done|by apply (clear_ok _ t t)].
Qed.

Lemma wlp_conv {A} (m m' : M st A) (P : A -> st -> Prop) s s' : m s = m' s' -> wlp m' P s' -> wlp m P s.
Proof. unfold wlp. by intros ->. Qed.

(** Nothing can be delivered to thread [t]. *)
Definition drained (s : st) (t : Z) : Prop :=
  exists p, threads s !! t = Some p /\ Z.land (Z.lor (sig_pending s) (sigpending_set p)) (Z.lnot (sigmask p)) = 0.

Lemma drained_todo s v t p : represents s v -> v_threads v !! t = Some p -> todo_of v p = 0 -> drained s t.
Proof. intros Hr Hp H0. exists p. by rewrite (re_threads _ _ Hr), (re_pend _ _ Hr). Qed.

Lemma wlp_deliver_with loop s t : ok s t ->
  (forall s, ok s t -> held s = true -> wlp loop (fun _ s' => ok s' t /\ held s' = true /\ mask_of s' t = mask_of s t /\ drained s' t) s) ->
  wlp (deliver_with loop) (fun _ s' => ok s' t /\ held s' = held s /\ mask_of s' t = mask_of s t /\ drained s' t) s.
Proof.
  intros Hok Hl. pose proof Hok as (Ht & v & Hr & Hp & _ & [p Hpt]). unfold wlp at 1. rewrite (deliver_with_eq s v t p) by done.
  destruct (Z.eqb_spec (todo_of v p) 0) as [E|E]; [split_and!; try done; by eapply drained_todo|].
  specialize (Hl _ (ok_held s t true Hok) eq_refl). unfold wlp in Hl. destruct (loop (set_held true s)) as [[r s']| |]; try done.
  destruct Hl as (H1 & H2 & H3 & H4). destruct (held s) eqn:Hh; [done|]. by split_and!; [apply ok_held|..].
Qed.

Lemma wlp_deliver_loop n res s t : ok s t -> held s = true ->
  wlp (deliver_loop n res) (fun _ s' => ok s' t /\ held s' = true /\ mask_of s' t = mask_of s t /\ drained s' t) s.
Proof.
  induction n as [|n IH] in s, t, res |- *; intros Hok Hh; pose proof Hok as (Ht & v & Hr & Hp & Ha & [p Hpt]).
  all: unfold deliver_loop; fold deliver_loop.
  1: unfold wlp; rewrite (bind_Ret _ _ _ _ _ (deliverable_eq s v t p Hr Ht Hpt)); destruct (Z.eqb_spec (todo_of v p) 0) as [E|E]; [|done];
    split_and!; try done; by eapply drained_todo.
  destruct (Z.eqb_spec (todo_of v p) 0) as [E|E].
  { unfold wlp. rewrite (bind_Ret _ _ _ _ _ (deliverable_eq s v t p Hr Ht Hpt)), E. split_and!; try done; by eapply drained_todo. }
  destruct (lsbit_lowest (todo_of v p)) as (k & Hk & Hkr & _); [pose proof (todo_range v t p Hp Hpt); lia|].
  destruct (represents_state s v k Hr Hkr) as (ss & q & Hss & Hact & Hq & _).
  destruct (decide (sa_handler (sa ss) = SIG_IGN)) as [Hi|Hi].
  - apply (wlp_conv _ (deliver_loop n res) _ _ s); [|by apply IH].
    rewrite (bind_Ret _ _ _ _ _ (deliverable_eq s v t p Hr Ht Hpt)). destruct (Z.eqb_spec (todo_of v p) 0); [done|].
    rewrite (bind_Ret _ _ s k s) by (unfold lowest; by rewrite Hk).
    rewrite (bind_Ret _ _ s ss s) by (unfold state_at; rewrite Hss; by destruct (Z.ltb_spec k 0); [lia|]). by rewrite Hi.
  - destruct (deliver_turn s v t p n res k (sa ss) q) as (s1 & R1 & F1 & G1 & E1 & Eq); try done. apply (wlp_conv _ _ _ _ _ Eq). clear Eq.
    assert (ok s1 t) as Hok1.
    { split; [by rewrite (rest_self _ _ F1)|]. eexists. split; [exact R1|]. destruct (enter_acts t k (sa ss) p v) as [-> _].
      destruct (enter_thread t k (sa ss) p v Hpt) as (p' & -> & _). split_and!; [by apply enter_ok|done|done]. }
    apply wlp_bind. eapply wlp_mono; [apply (wlp_call_handler _ k _ s1 t); [|done|done|done|]|].
    { intros s2 u Hok2. eapply wlp_mono; [apply wlp_deliver_with; [done|]; intros; by apply IH|]. intros _ s3 (H1 & H2 & _). by split. }
    { intros ss' Hss'. destruct (represents_state s1 _ k R1 Hkr) as (x & ? & Hx & Hax & _). destruct (enter_acts t k (sa ss) p v) as [E2 _]. rewrite E2 in Hax. congruence. }
    intros _ s2 [Hok2 Hh2]. apply wlp_bind, wlp_wp, wp_sig_lock; [done|]. apply wlp_bind, wlp_wp. eapply ok_mask; [by apply ok_held|].
    intros s3 Hok3 Hh3 Hm3. eapply wlp_mono; [by apply IH|]. intros _ s4 (H1 & H2 & H3 & H4). split_and!; [done|done| |done].
    rewrite H3, Hm3. unfold mask_of. by rewrite (re_threads _ _ Hr), Hpt.
Qed.

Lemma deliver_signals_ok n : deliver_ok (cyg_deliver_signals n).
Proof.
  intros s t Hok. eapply wlp_mono; [apply wlp_deliver_with; [done|]; intros; by apply wlp_deliver_loop|]. intros _ s' (H1 & H2 & _). by split.
Qed.

(** C36: Handlers that call back are safe: a program of [kill], [pthread_kill], [sigqueue],
    [sigaction] and [pthread_sigmask] calls, whose handlers make such calls in turn, to any
    depth, never leaves an array, follows a null pointer or locks the mutex that the thread
    holds; a program that ends leaves the mutex free and the structures well formed: the free
    list and the circular queues share the nodes of the pool, the pending sets are 32-bit
    words, the actions can be taken.  This needs of the program and of its handlers what the
    code does not check: the ids given to [pthread_kill], existing or not, index the table
    of threads with their ten low bits, and each action that is installed has a function, or
    is [SIG_IGN], or is [SIG_DFL] without [SA_SIGINFO].  [null_handler]
    and [id_outside] below show that both are needed. *)
Theorem signals_safe n l s t : Forall op_ok l -> ok s t -> held s = false ->
  match run_ops (cyg_deliver_signals n) l s with
  | Ret (_, s') => ok s' t /\ held s' = false
  | NoFuel => True
  | UB => False
  end.
Proof. intros Hl Hok Hh. exact (wlp_run_ops _ l s t (deliver_signals_ok n) Hl Hok Hh). Qed.

(** A delivery that ends, whatever the handlers called, has restored the mask of the
    thread and the mutex, and there is no signal left that could be delivered. *)
Theorem delivery_drains n s t : ok s t ->
  match cyg_deliver_signals n s with
  | Ret (_, s') => ok s' t /\ held s' = held s /\ mask_of s' t = mask_of s t /\ drained s' t
  | NoFuel => True
  | UB => False
  end.
Proof.
  intros Hok. assert (wlp (cyg_deliver_signals n) (fun _ s' => ok s' t /\ held s' = held s /\ mask_of s' t = mask_of s t /\ drained s' t) s) as H; [|exact H].
  apply wlp_deliver_with; [done|]. intros. by apply wlp_deliver_loop.
Qed.

End Safe.

Section Wait.
Context {kc : KClock} {ka : KAlarm} {cfg : PosixConfig} {ap : App}.

(** ** Ignored signals *)

Lemma ignored_loop n res s v t p k a :
  represents s v -> self s = Some t -> v_threads v !! t = Some p -> todo_of v p <> 0 -> hal_lsbit_index (todo_of v p) = Some k -> 0 <= k < 32 ->
  v_acts v !! Z.to_nat k = Some a -> sa_handler a = SIG_IGN -> deliver_loop n res s = NoFuel.
Proof.
  intros Hr Ht Hp H0 Hk Hkr Ha Hi. destruct (represents_state s v k Hr Hkr) as (ss & q & Hss & Hact & _). assert (sa ss = a) as Ea by congruence.
  induction n as [|n IH]; unfold deliver_loop; fold deliver_loop; rewrite (bind_Ret _ _ _ _ _ (deliverable_eq s v t p Hr Ht Hp));
    (destruct (Z.eqb_spec (todo_of v p) 0); [done|]); [done|].
  rewrite (bind_Ret _ _ s k s) by (unfold lowest; by rewrite Hk).
  rewrite (bind_Ret _ _ s ss s) by (unfold state_at; rewrite Hss; by destruct (Z.ltb_spec k 0); [lia|]). by rewrite Ea, Hi.
Qed.

(** C37: A thread that ignores a signal and does not mask it never returns from sending it:
    no fuel is enough. *)
Theorem ignored_signal_hangs fuel s v t p sig a :
  represents s v -> self s = Some t -> v_threads v !! t = Some p -> pend_ok v -> held s = false -> 0 < sig < 32 ->
  v_acts v !! Z.to_nat sig = Some a -> sa_handler a = SIG_IGN -> siginfo_flag a = false -> todo_of v p = 0 -> Z.testbit (sigmask p) sig = false ->
  kill (cyg_deliver_signals fuel) 0 sig s = NoFuel.
Proof.
  intros Hr Ht Hp Hok Hh Hs Ha Hi Hf H0 Hm. unfold kill, SIGNAL_VALID. destruct (Z.gtb_spec sig 0); [|lia]. destruct (Z.ltb_spec sig 32); [|lia]. cbn [andb negb Z.eqb].
  set (v1 := v_mark sig None v). assert (wp (cyg_sigqueue (mkEv SIGEV_SIGNAL sig 0) SI_USER None) (fun _ s' => represents s' v1 /\ rest s' = rest s) s) as W.
  { eapply (wp_cyg_sigqueue s v sig SI_USER 0 None a); [done|lia|done|left; by rewrite Ht|done|]. unfold v_generate. rewrite Hf. intros s' R1 F1 _ _. done. }
  destruct (proj1 (wp_Ret _ _ _) W) as (b & s1 & E & R1 & F1). rewrite (bind_Ret _ _ _ _ _ E). assert (self s1 = Some t) as T1 by by rewrite (rest_self _ _ F1).
  assert (forall j, 0 <= j -> Z.testbit (todo_of v1 p) j = (j =? sig)) as Hb.
  { intros j Hj. unfold todo_of, v1. cbn. rewrite Z.land_spec, Z.lor_spec, sigaddset_spec, Z.lnot_spec by lia.
    destruct (Z.eqb_spec j sig) as [->|Hne]; [by rewrite orb_true_r, Hm|]. rewrite orb_false_r, <- Z.lor_spec, <- Z.lnot_spec, <- Z.land_spec by done.
    unfold todo_of in H0. by rewrite H0, Z.testbit_0_l. }
  assert (todo_of v1 p <> 0) as Hne by (intros E0; specialize (Hb sig ltac:(lia)); by rewrite E0, Z.testbit_0_l, Z.eqb_refl in Hb).
  destruct (lsbit_lowest (todo_of v1 p)) as (k & Hk & Hkr & Hkb & _).
  { pose proof (todo_range v1 t p (mark_ok v sig None Hok Hs) Hp). lia. }
  rewrite Hb in Hkb by lia. apply Z.eqb_eq in Hkb as ->.
  unfold mbind at 1, M_bind at 1. unfold cyg_deliver_signals. rewrite (deliver_with_eq s1 v1 t p) by done. destruct (Z.eqb_spec (todo_of v1 p) 0); [done|].
  by rewrite (ignored_loop fuel false (set_held true s1) v1 t p sig a) by (try apply represents_held; done || lia).
Qed.

(** ** Accepting a signal *)

Definition acceptable (v : view) (p : pthread_info) (set : Z) : Z := Z.land set (Z.lor (v_pend v) (sigpending_set p)).

(** What is accepted for signal [k], and what is left. *)
Definition accept_info (k : Z) (a : sigaction_t) (q : list siginfo_t) : siginfo_t := if siginfo_flag a then first_info k q else mkSi k SI_USER 0.

Definition v_accept (t k : Z) (a : sigaction_t) (v : view) : view := v_clear_if_empty t k (if siginfo_flag a then v_take k v else v).

Lemma accepted_eq s v t p set : represents s v -> self s = Some t -> v_threads v !! t = Some p -> accepted set s = Ret (acceptable v p set, s).
Proof.
  intros Hr Ht Hp. unfold accepted, self_info, self_id, thread_at, get, mbind, M_bind, mret, M_ret, acceptable. cbn.
  rewrite Ht, (re_threads _ _ Hr), Hp. by rewrite (re_pend _ _ Hr).
Qed.

(** The end of [sigtimedwait], once signals of the set are pending. *)
Definition accept_end (todo : Z) : M st (Z * option siginfo_t) :=
  signo ← lowest todo;
  ss ← state_at signo;
  info ← (if negb (Z.land (sa_flags (sa ss)) SA_SIGINFO =? 0) then take_info signo else mret (mkSi signo SI_USER 0));
  clear_if_empty signo;;
  unlock;;
  mret (si_signo info, Some info).

Lemma wp_accept_end s v t p todo k a q : represents s v -> self s = Some t -> v_threads v !! t = Some p -> hal_lsbit_index todo = Some k -> 0 <= k < 32 ->
  v_acts v !! Z.to_nat k = Some a -> v_queues v !! Z.to_nat k = Some q ->
  wp (accept_end todo) (fun r s' => r = (si_signo (accept_info k a q), Some (accept_info k a q)) /\ represents s' (v_accept t k a v) /\ rest s' = rest s /\ held s' = false) s.
Proof.
  intros Hr Ht Hp Hk Hkr Ha Hq. destruct (represents_state s v k Hr Hkr) as (ss & q' & Hss & Hact & _). assert (sa ss = a) as Ea by congruence.
  unfold accept_end. apply wp_bind, (wp_eq _ _ _ k s); [unfold lowest; by rewrite Hk|]. apply wp_bind, (wp_state_at _ ss); [lia|done|]. rewrite Ea. fold (siginfo_flag a).
  assert (forall s1 v1, represents s1 v1 -> rest s1 = rest s -> v_threads v1 = v_threads v ->
    forall i, wp (clear_if_empty k;; unlock;; mret (si_signo i, Some i)) (fun r s' => r = (si_signo i, Some i) /\ represents s' (v_clear_if_empty t k v1) /\ rest s' = rest s /\ held s' = false) s1) as Hend.
  { intros s1 v1 R1 F1 Eth i. apply wp_bind. eapply wp_clear_if_empty; [done|done|by rewrite (rest_self _ _ F1)|by rewrite Eth, Hp|].
    intros s2 R2 F2 G2 E2. apply wp_bind, wp_modify, wp_ret. split_and!; [done|by apply represents_held|by rewrite <- F1, <- F2|done]. }
  apply wp_bind. unfold accept_info, v_accept. destruct (siginfo_flag a).
  - eapply wp_take_info; [done..|]. intros s1 R1 F1 G1 E1. by apply Hend; [..|apply take_threads].
  - apply wp_ret. by apply Hend.
Qed.

Lemma accept_loop_pending fuel n s v t p set ticks : represents s v -> self s = Some t -> v_threads v !! t = Some p -> acceptable v p set <> 0 ->
  accept_loop fuel n set ticks s = Ret (acceptable v p set, s).
Proof.
  intros Hr Ht Hp H0. destruct n; unfold accept_loop; fold accept_loop; rewrite (bind_Ret _ _ _ _ _ (accepted_eq s v t p set Hr Ht Hp));
    by destruct (Z.eqb_spec (acceptable v p set) 0).
Qed.

Lemma sigtimedwait_pending fuel n s v t p set timeout :
  represents s v -> self s = Some t -> v_threads v !! t = Some p -> held s = false -> acceptable v p set <> 0 ->
  sigtimedwait fuel n set timeout s = accept_end (acceptable v p set) (set_held true s).
Proof.
  intros Hr Ht Hp Hh H0. unfold sigtimedwait. rewrite (bind_Ret _ _ s s s) by done.
  rewrite (bind_Ret _ _ s p s). 2: { unfold self_info, self_id, thread_at, mbind, M_bind. by rewrite Ht, (re_threads _ _ Hr), Hp. }
  rewrite (bind_Ret _ _ s tt (set_held true s)) by (unfold lock; by rewrite Hh).
  rewrite (bind_Ret _ _ _ (acceptable v p set) (set_held true s)).
  - by destruct (Z.eqb_spec (acceptable v p set) 0).
  - by apply (accept_loop_pending _ _ _ v t p); [apply represents_held|..].
Qed.

(** C38: A wait for signals accepts one that is pending at once: the lowest of the set, masked
    or not, with the value that was queued first when its action takes values, default
    values otherwise; this one value leaves the queue, and only when none is left its bits
    are cleared; no handler is called and nothing else changes. *)
Theorem sigtimedwait_accepts fuel n s v t p set timeout :
  represents s v -> self s = Some t -> v_threads v !! t = Some p -> pend_ok v -> held s = false -> acceptable v p set <> 0 ->
  exists k a q s', 0 <= k < 32 /\ Z.testbit (acceptable v p set) k = true /\ (forall j, 0 <= j < k -> Z.testbit (acceptable v p set) j = false) /\
    v_acts v !! Z.to_nat k = Some a /\ v_queues v !! Z.to_nat k = Some q /\
    sigtimedwait fuel n set timeout s = Ret ((si_signo (accept_info k a q), Some (accept_info k a q)), s') /\
    represents s' (v_accept t k a v) /\ calls s' = calls s /\ rest s' = rest s /\ held s' = false.
Proof.
  intros Hr Ht Hp [Hok1 Hok2] Hh H0. destruct (lsbit_lowest (acceptable v p set)) as (k & Hk & Hkr & Hb & Hlow).
  { assert (0 <= acceptable v p set < 2 ^ 32); [|lia]. unfold acceptable. rewrite Z.land_comm. apply land_u32, lor_u32; [done|by apply (Hok2 t)]. }
  destruct (represents_state s v k Hr Hkr) as (ss & q & _ & Ha & Hq & _).
  pose proof (wp_accept_end (set_held true s) v t p _ k (sa ss) q (represents_held _ _ true Hr) Ht Hp Hk Hkr Ha Hq) as W.
  destruct (proj1 (wp_Ret _ _ _) W) as (r & s' & E & -> & R1 & F1 & G1). exists k, (sa ss), q, s'. rewrite (sigtimedwait_pending _ _ s v t p) by done.
  split_and!; [apply Hkr|apply Hkr|exact Hb|exact Hlow|exact Ha|exact Hq|exact E|exact R1| |exact F1|exact G1]. rewrite (re_calls _ _ R1), (re_calls _ _ Hr). unfold v_accept. destruct (clear_if_empty_acts t k (if siginfo_flag (sa ss) then v_take k v else v)) as (_ & _ & _ & ->).
  destruct (siginfo_flag (sa ss)); [|done]. by destruct (take_acts k v) as (_ & -> & _).
Qed.

End Wait.

(** ** The small system, with handlers that call back *)

Module SafeDemo.

(** The handler at 256 raises signal 12 and blocks signal 1; the one at 300 installs an action. *)
Definition busy : App := {| handler_ops h :=
  if h =? 256 then Some [Kill 0 12; Sigmask SIG_BLOCK (Some 2)] else if h =? 300 then Some [Sigaction 10 (mkSa 0 SA_SIGINFO 256)] else None;
  no_function := conj eq_refl eq_refl |}.

#[local] Existing Instances Demo.clock Demo.alarms Demo.sizes busy.

Lemma busy_ok h l : handler_ops h = Some l -> Forall op_ok l.
Proof.
  cbn. destruct (h =? 256); [intros [= <-]; by repeat constructor|]. destruct (h =? 300); [|done]. intros [= <-]. apply Forall_singleton. right. right. by eexists.
Qed.

Lemma catches_safe : ok Demo.catches 1.
Proof.
  split; [done|]. exists Demo.v_catches. split_and!; [exact Demo.catches_represents|exact Demo.catches_ok| |by eexists].
  repeat apply list.Forall_insert; try (right; right; by eexists). apply Forall_replicate. right. by left.
Qed.

Definition program : list op := [Sigqueue 0 10 5; Sigmask SIG_UNBLOCK (Some 1024); Kill 0 33; PthreadKill 2 10].

(** The program ends; signal 12 was handled inside the handler of signal 10. *)
Lemma program_runs :
  match run_ops (cyg_deliver_signals 3) program Demo.catches with Ret (_, s') => map (fun c => (c_signo c, c_mask c)) (calls s') | _ => [] end =
  [(12, 5120); (10, 1024)].
Proof. vm_compute. reflexivity. Qed.

Lemma signals_safe_witness :
  match run_ops (cyg_deliver_signals 3) program Demo.catches with
  | Ret (_, s') => ok s' 1 /\ held s' = false
  | NoFuel => True
  | UB => False
  end.
Proof. apply (signals_safe busy_ok 3 program Demo.catches 1); [repeat constructor; by apply Nat.ltb_lt|exact catches_safe|reflexivity]. Defined.

(** A null handler is called; an id whose ten low bits are 65 is read outside a table of 64. *)
Example null_handler : match run_ops (cyg_deliver_signals 3) [Sigaction 12 (mkSa 0 0 0); Kill 0 12] Demo.catches with UB => true | _ => false end = true.
Proof. vm_compute. reflexivity. Qed.

Example id_outside : match run_ops (cyg_deliver_signals 3) [PthreadKill 65 10] Demo.catches with UB => true | _ => false end = true.
Proof. vm_compute. reflexivity. Qed.

Lemma delivery_drains_witness :
  match cyg_deliver_signals 3 Demo.catches with
  | Ret (_, s') => ok s' 1 /\ held s' = false /\ mask_of s' 1 = Some 1024 /\ drained s' 1
  | NoFuel => True
  | UB => False
  end.
Proof. exact (delivery_drains busy_ok 3 Demo.catches 1 catches_safe). Defined.

(** Signal 12 is ignored. *)
Definition ignores : st := match upd_state 12 (fun x => mkSs (mkSa 0 0 SIG_IGN) (pending x)) Demo.started with Ret (_, s) => s | _ => Demo.boot end.

Lemma ignored_signal_hangs_witness : kill (cyg_deliver_signals 1000) 0 12 ignores = NoFuel.
Proof.
  destruct (Demo.upd_represents _ _ 12 (mkSa 0 0 SIG_IGN) Demo.started_represents ltac:(lia)) as (s1 & E & R). assert (s1 = ignores) as -> by (unfold ignores; by rewrite E).
  apply (ignored_signal_hangs 1000 ignores _ 1 (mkPt 0 1024) 12 (mkSa 0 0 SIG_IGN) R); try reflexivity; [|lia].
  split; [done|]. intros t p Hp. cbn in Hp. apply lookup_singleton_Some in Hp as [_ <-]. cbn. lia.
Defined.

(** Signal 10 is accepted with its first value, signal 12 stays pending. *)
Lemma sigtimedwait_accepts_witness :
  exists s', sigtimedwait 0 0 5120 None Demo.waiting = Ret ((10, Some (mkSi 10 2 5)), s') /\ calls s' = [] /\ held s' = false.
Proof.
  destruct (sigtimedwait_accepts 0 0 Demo.waiting Demo.v_waiting 1 (mkPt 4096 0) 5120 None Demo.waiting_represents)
    as (k & a & q & s' & _ & _ & _ & _ & _ & E & _ & H1 & _ & H2); [reflexivity|reflexivity| |reflexivity|vm_compute; discriminate|].
  - split; [done|]. intros t p Hp. cbn in Hp. apply lookup_singleton_Some in Hp as [_ <-]. cbn. lia.
  - assert (match sigtimedwait 0 0 5120 None Demo.waiting with Ret (r, _) => Some r | _ => None end = Some (10, Some (mkSi 10 2 5))) as E' by (vm_compute; reflexivity).
    exists s'. rewrite H1, H2. split_and!; [|vm_compute; reflexivity|reflexivity].
    revert E E'. generalize (si_signo (accept_info k a q), Some (accept_info k a q)). intros r E E'. rewrite E in E' |- *. by injection E' as ->.
Defined.

End SafeDemo.
