(* ===== verification/Timers.v ===== *)
(** * POSIX clocks and timers
    (tools/gcc4libstdxx/ecos/compat/posix: time.cxx)

    The clock calls, the table of timers and sleeping.  Every call on the table takes the
    mutex of the timers and gives it back; nothing in between waits, so that the calls of
    all threads are a sequence, and the mutex is left out.  When an alarm goes off is an
    input. *)

From stdpp Require Import gmap.
From S2P Require Import Prelude.
From S2P Require Import Hal.
From S2P Require Import Clock.
From S2P Require Import Signal.
From S2P Require Import SignalFacts.
From S2P Require Import SignalProps.
From S2P Require Import SignalSafe.

Section Code.
Context {kc : KClock} {ka : KAlarm} {cfg : PosixConfig} {ap : App}.

(** ** The clock *)

Definition clock_settime (clock_id : Z) (tp : option timespec) : M st Z :=
  if negb (clock_id =? CLOCK_REALTIME) then signal_return EINVAL
  else if negb (valid_timespec tp) then signal_return EINVAL
  else match tp with
       | Some t => modify (set_now (cyg_timespec_to_ticks t false));; signal_return 0
       | None => undef
       end.

(** [tp]: whether there is a place for the time. *)
Definition clock_gettime (clock_id : Z) (tp : bool) : M st (Z * option timespec) :=
  if negb (clock_id =? CLOCK_REALTIME) then r ← signal_return EINVAL; mret (r, None)
  else if negb tp then r ← signal_return EINVAL; mret (r, None)
  else ticks ← gets now; r ← signal_return 0; mret (r, Some (cyg_ticks_to_timespec ticks)).

Definition clock_getres (clock_id : Z) (tp : bool) : M st (Z * option timespec) :=
  if negb (clock_id =? CLOCK_REALTIME) then r ← signal_return EINVAL; mret (r, None)
  else if negb tp then r ← signal_return EINVAL; mret (r, None)
  else r ← signal_return 0; mret (r, Some (cyg_ticks_to_timespec 1)).

(** ** Timers *)

Definition TIMER_ABSTIME : Z := 1.
Definition TIMER_ID_COOKIE_INC : Z := 1024.
Definition TIMER_ID_COOKIE_MASK : Z := TIMER_ID_COOKIE_INC - 1.

Record itimerspec := mkIts { it_interval : timespec; it_value : timespec }.

Definition set_id (v : Z) (t : posix_timer) : posix_timer := mkTimer v (alarm t) (armed t) (t_pending t) (overrun t) (sigev t).
Definition set_alarm (v : Cyg_Alarm) (t : posix_timer) : posix_timer := mkTimer (id t) v (armed t) (t_pending t) (overrun t) (sigev t).
Definition set_armed (v : bool) (t : posix_timer) : posix_timer := mkTimer (id t) (alarm t) v (t_pending t) (overrun t) (sigev t).
Definition set_overrun (v : Z) (t : posix_timer) : posix_timer := mkTimer (id t) (alarm t) (armed t) (t_pending t) v (sigev t).
Definition set_sigev (v : sigevent) (t : posix_timer) : posix_timer := mkTimer (id t) (alarm t) (armed t) (t_pending t) (overrun t) v.

Definition upd_timer (i : nat) (f : posix_timer -> posix_timer) : M st unit := t ← timer_at i; put_timer i (f t).

(** An unused entry, from [next] around the table. *)
Fixpoint find_unused (fuel next : nat) : M st (option nat) :=
  t ← timer_at next;
  if id t =? 0 then mret (Some next)
  else
    let next := if (POSIX_TIMER_MAX <=? S next)%nat then O else S next in
    start ← gets timer_next;
    if (next =? start)%nat then mret None
    else match fuel with O => no_fuel | S k => find_unused k next end.

(** The id is never zero. *)
Fixpoint make_id (fuel i : nat) : M st unit :=
  t ← timer_at i;
  if negb (id t =? 0) then mret tt
  else
    match fuel with
    | O => no_fuel
    | S k =>
        modify (fun s => set_timer_id_cookie (s32 (timer_id_cookie s + TIMER_ID_COOKIE_INC)) s);;
        cookie ← gets timer_id_cookie;
        upd_timer i (set_id (s32 (Z.of_nat i + cookie)));;
        make_id k i
    end.

(** With the id that is stored. *)
Definition timer_create (clock_id : Z) (evp : option sigevent) : M st (Z * option Z) :=
  if negb (clock_id =? CLOCK_REALTIME) then r ← signal_return EINVAL; mret (r, None)
  else
    start ← gets timer_next;
    next ← find_unused POSIX_TIMER_MAX start;
    match next with
    | None => r ← signal_return EAGAIN; mret (r, None)
    | Some i =>
        modify (set_timer_next i);;
        make_id 2 i;;
        t ← timer_at i;
        upd_timer i (set_sigev (match evp with None => mkEv SIGEV_SIGNAL SIGALRM (id t) | Some e => e end));;
        upd_timer i (set_alarm alarm_new);;
        upd_timer i (set_armed false);;
        upd_timer i (set_overrun 0);;
        r ← signal_return 0;
        mret (r, Some (id t))
    end.

(** The entry of an id. *)
Definition entry_of (timerid : Z) : nat := Z.to_nat (Z.land timerid TIMER_ID_COOKIE_MASK).

Definition timer_delete (timerid : Z) : M st Z :=
  let i := entry_of timerid in
  t ← timer_at i;
  if id t =? timerid then
    upd_timer i (fun t => set_alarm (alarm_disable (alarm t)) t);;
    upd_timer i (set_id 0);;
    signal_return 0
  else signal_return EINVAL.

(** The times of an alarm as they are reported. *)
Definition report (t : posix_timer) (s : st) : itimerspec :=
  let trigger := if armed t then u64 ((alarm_times (alarm t)).1 - now s) else 0 in
  mkIts (cyg_ticks_to_timespec (alarm_times (alarm t)).2) (cyg_ticks_to_timespec trigger).

(** With the times before, when [ovalue] says that they are wanted. *)
Definition timer_settime (timerid flags : Z) (value : option itimerspec) (ovalue : bool) : M st (Z * option itimerspec) :=
  match value with
  | None => r ← signal_return EINVAL; mret (r, None)
  | Some value =>
      let trigger := cyg_timespec_to_ticks (it_value value) true in
      let interval := cyg_timespec_to_ticks (it_interval value) true in
      let i := entry_of timerid in
      t ← timer_at i;
      if id t =? timerid then
        upd_timer i (fun t => set_alarm (alarm_disable (alarm t)) t);;
        t ← timer_at i;
        s ← get;
        let old := if ovalue then Some (report t s) else None in
        (if trigger =? 0 then upd_timer i (set_armed false)
         else
           let trigger := if Z.land flags TIMER_ABSTIME =? 0 then u64 (trigger + now s) else trigger in
           upd_timer i (fun t => set_alarm (alarm_initialize trigger interval (alarm t)) t);;
           upd_timer i (set_armed true));;
        r ← signal_return 0;
        mret (r, old)
      else r ← signal_return EINVAL; mret (r, None)
  end.

Definition timer_gettime (timerid : Z) (value : bool) : M st (Z * option itimerspec) :=
  if negb value then r ← signal_return EINVAL; mret (r, None)
  else
    t ← timer_at (entry_of timerid);
    s ← get;
    if id t =? timerid then r ← signal_return 0; mret (r, Some (report t s))
    else r ← signal_return EINVAL; mret (r, None).

Definition timer_getoverrun (timerid : Z) : M st Z :=
  t ← timer_at (entry_of timerid);
  mret (if id t =? timerid then overrun t else 0).

(** ** Sleeping *)

(** The thread sleeps until it is woken; what happens meanwhile is an input. *)
Definition delay (fuel : nat) : M st unit := fun s =>
  match wakes s with
  | [] => NoFuel
  | w :: l => (do_others fuel (w_others w);; when (w_asr w) (posix_asr fuel)) (set_wakes l s)
  end.

(** [rmtp]: whether there is a place for the time that is left. *)
Definition nanosleep (fuel : nat) (rqtp : option timespec) (rmtp : bool) : M st (Z * option timespec) :=
  if negb (valid_timespec rqtp) then r ← signal_return EINVAL; mret (r, None)
  else
    match rqtp with
    | None => undef
    | Some t =>
        if (tv_sec t =? 0) && (tv_nsec t =? 0) then r ← signal_return 0; mret (r, None)
        else
          let ticks := cyg_timespec_to_ticks t true in
          before ← gets now;
          delay fuel;;
          after ← gets now;
          if rmtp && (u64 (before + ticks) >? after) then
            r ← signal_return EINTR;
            mret (r, Some (cyg_ticks_to_timespec (u64 (ticks - u64 (after - before)))))
          else r ← signal_return 0; mret (r, None)
    end.

(** The seconds that were left; the time that is left is stored over the time asked for. *)
Definition sleep (fuel : nat) (seconds : Z) : M st Z :=
  let timeout := mkTs (s32 seconds) 0 in
  r ← nanosleep fuel (Some timeout) true;
  if negb (r.1 =? 0) then mret (u32 (tv_sec (match r.2 with Some t => t | None => timeout end)))
  else signal_return 0.

(** [numerator] nanoseconds for [denominator] ticks, as it is configured. *)
Definition gettimeofday (numerator denominator : Z) : M st (Z * Z) :=
  let ticks_per_second := 1000000000 ÷ (numerator ÷ denominator) in
  cur_time ← gets now;
  let tix := s32 (cur_time mod ticks_per_second) in
  mret (s32 (cur_time / ticks_per_second), s32 (tix * 1000000) ÷ ticks_per_second).

End Code.

(** ** The table as a map from ids *)

Section Table.
Context {kc : KClock} {ka : KAlarm} {cfg : PosixConfig} {ap : App}.

(** A timer without the structures of its implementation: when it expires, or expired the
    last time, if it is armed, whether it runs, the ticks between expirations, what it
    sends, the overruns, and whether an expiration waits to be sent. *)
Record vtimer := mkV { v_deadline : option Z; v_running : bool; v_interval : Z; v_event : sigevent; v_overrun : Z; v_expired : bool }.

Definition view_timer (t : posix_timer) : vtimer :=
  mkV (if armed t then Some (alarm_times (alarm t)).1 else None) (alarm_enabled (alarm t)) (alarm_times (alarm t)).2 (sigev t) (overrun t) (t_pending t).

Definition used (t : posix_timer) : Prop := id t <> 0.
#[global] Instance used_dec t : Decision (used t) := decide (id t <> 0).

Definition row_of (t : posix_timer) : option (Z * vtimer) := if decide (used t) then Some (id t, view_timer t) else None.

(** The timers that exist. *)
Definition book (s : st) : gmap Z vtimer := slots_map (row_of <$> timer_table s).

Record timers_wf (s : st) : Prop := {
  tw_size : length (timer_table s) = POSIX_TIMER_MAX;
  tw_max : (0 < POSIX_TIMER_MAX <= 1024)%nat;
  tw_next : (timer_next s < POSIX_TIMER_MAX)%nat;
  tw_cookie : timer_id_cookie s mod 1024 = 0 /\ - 2 ^ 31 <= timer_id_cookie s < 2 ^ 31;
  tw_entry : forall i t, timer_table s !! i = Some t -> used t -> entry_of (id t) = i /\ (alarm_enabled (alarm t) = true -> armed t = true);
}.

(** What the calls are, what they answer. *)
Inductive tcall :=
| Create (clock_id : Z) (evp : option sigevent)
| Delete (x : Z)
| Settime (x flags : Z) (value : option itimerspec) (ovalue : bool)
| Gettime (x : Z) (value : bool)
| Getoverrun (x : Z)
| Expires (x : Z)
| Passes (n : Z).

Inductive treply := Made (x : Z) | Finished | Times (t : option itimerspec) | Count (n : Z) | Error (e : Z).

(** An error is a result other than 0 with its number in [errno]. *)
Definition reply (r : Z) (y : treply) : M st treply := if r =? 0 then mret y else e ← gets errno; mret (Error e).

(** The alarm of a timer goes off. *)
Definition expires (x : Z) : M st unit := t ← timer_at (entry_of x); when (id t =? x) (alarm_expires (entry_of x)).

Definition run_tcall (c : tcall) : M st treply :=
  match c with
  | Create k e => r ← timer_create k e; reply r.1 (match r.2 with Some x => Made x | None => Finished end)
  | Delete x => r ← timer_delete x; reply r Finished
  | Settime x f v o => r ← timer_settime x f v o; reply r.1 (Times r.2)
  | Gettime x v => r ← timer_gettime x v; reply r.1 (Times r.2)
  | Getoverrun x => n ← timer_getoverrun x; mret (Count n)
  | Expires x => expires x;; mret Finished
  | Passes n => modify (fun s => set_now (now s + n) s);; mret Finished
  end.

Fixpoint run_tcalls (l : list tcall) : M st (list treply) :=
  match l with [] => mret [] | c :: l => y ← run_tcall c; ys ← run_tcalls l; mret (y :: ys) end.

(** *** The specification *)

Definition v_new (x : Z) (evp : option sigevent) (b : bool) : vtimer :=
  mkV None false (alarm_times alarm_new).2 (match evp with None => mkEv SIGEV_SIGNAL SIGALRM x | Some e => e end) 0 b.

Definition v_settime (flags : Z) (value : itimerspec) (now : Z) (v : vtimer) : vtimer :=
  let trigger := cyg_timespec_to_ticks (it_value value) true in
  if trigger =? 0 then mkV None false (v_interval v) (v_event v) (v_overrun v) (v_expired v)
  else mkV (Some (if Z.land flags TIMER_ABSTIME =? 0 then u64 (trigger + now) else trigger)) true
         (cyg_timespec_to_ticks (it_interval value) true) (v_event v) (v_overrun v) (v_expired v).

Definition v_report (v : vtimer) (now : Z) : itimerspec :=
  mkIts (cyg_ticks_to_timespec (v_interval v)) (cyg_ticks_to_timespec (match v_deadline v with Some d => u64 (d - now) | None => 0 end)).

(** A timer that runs expires: with an interval it runs on, to its next deadline. *)
Definition v_expire (v : vtimer) : vtimer :=
  if v_running v then
    let periodic := negb (v_interval v =? 0) in
    let deadline := (fun d => if periodic then u64 (d + v_interval v) else d) <$> v_deadline v in
    if v_expired v then mkV deadline periodic (v_interval v) (v_event v) (s32 (v_overrun v + 1)) true
    else mkV deadline periodic (v_interval v) (v_event v) (v_overrun v) (sigev_notify (v_event v) =? SIGEV_SIGNAL)
  else v.

Inductive tstep : gmap Z vtimer * Z -> tcall -> treply -> gmap Z vtimer * Z -> Prop :=
| t_create m n e x b : x <> 0 -> m !! x = None -> (size m < POSIX_TIMER_MAX)%nat -> tstep (m, n) (Create CLOCK_REALTIME e) (Made x) (<[x := v_new x e b]> m, n)
| t_create_full m n e : size m = POSIX_TIMER_MAX -> tstep (m, n) (Create CLOCK_REALTIME e) (Error EAGAIN) (m, n)
| t_create_clock m n k e : k <> CLOCK_REALTIME -> tstep (m, n) (Create k e) (Error EINVAL) (m, n)
| t_delete m n x v : m !! x = Some v -> tstep (m, n) (Delete x) Finished (delete x m, n)
| t_settime m n x f value o v : m !! x = Some v ->
    tstep (m, n) (Settime x f (Some value) o) (Times (if o then Some (v_report v n) else None)) (<[x := v_settime f value n v]> m, n)
| t_settime_null m n x f o : tstep (m, n) (Settime x f None o) (Error EINVAL) (m, n)
| t_gettime m n x v : m !! x = Some v -> tstep (m, n) (Gettime x true) (Times (Some (v_report v n))) (m, n)
| t_gettime_null m n x : tstep (m, n) (Gettime x false) (Error EINVAL) (m, n)
| t_overrun m n x : tstep (m, n) (Getoverrun x) (Count (match m !! x with Some v => v_overrun v | None => 0 end)) (m, n)
| t_no_timer m n c x : m !! x = None -> c = Delete x \/ (exists f v o, c = Settime x f (Some v) o) \/ c = Gettime x true ->
    tstep (m, n) c (Error EINVAL) (m, n)
| t_expires m n x : tstep (m, n) (Expires x) Finished (alter v_expire x m, n)
| t_passes m n d : tstep (m, n) (Passes d) Finished (m, n + d).

Inductive tsteps : gmap Z vtimer * Z -> list tcall -> list treply -> gmap Z vtimer * Z -> Prop :=
| ts_nil w : tsteps w [] [] w
| ts_cons w w' w'' c l y ys : tstep w c y w' -> tsteps w' l ys w'' -> tsteps w (c :: l) (y :: ys) w''.

(** The ids that a client uses are not 0, and their ten low bits index the table. *)
Definition call_ok (c : tcall) : Prop :=
  match c with
  | Delete x | Settime x _ _ _ | Gettime x _ | Getoverrun x | Expires x => x <> 0 /\ (entry_of x < POSIX_TIMER_MAX)%nat
  | _ => True
  end.

(** *** The map *)

Lemma row_used t : used t -> row_of t = Some (id t, view_timer t).
Proof. intros H. unfold row_of. by rewrite decide_True. Qed.

Lemma row_unused t : id t = 0 -> row_of t = None.
Proof. intros H. unfold row_of. rewrite decide_False; [done|]. by intros []. Qed.

Lemma rows_ok s : timers_wf s -> slots_ok entry_of (row_of <$> timer_table s).
Proof.
  intros Hw i k v Hi. rewrite list_lookup_fmap in Hi. destruct (timer_table s !! i) as [t|] eqn:Ht; [|done]. injection Hi as Hi. unfold row_of in Hi.
  case_decide as Hu; [|done]. injection Hi as <- <-. by destruct (tw_entry _ Hw i t Ht Hu).
Qed.

Lemma book_entry s x i t : timers_wf s -> timer_table s !! i = Some t -> entry_of x = i -> x <> 0 -> book s !! x = if id t =? x then Some (view_timer t) else None.
Proof.
  intros Hw Hi Hx H0. unfold book. rewrite (slots_lookup entry_of) by by apply rows_ok. rewrite list_lookup_fmap, Hx, Hi. cbn. unfold row_of.
  case_decide as Hu; [done|]. destruct (Z.eqb_spec (id t) x) as [E|]; [|done]. destruct Hu. unfold used. congruence.
Qed.

(** One entry is changed. *)
Definition put (i : nat) (t : posix_timer) (s : st) : st := set_timer_table (<[i := t]> (timer_table s)) s.

Lemma put_same s i t : timer_table s !! i = Some t -> put i t s = s.
Proof. intros H. unfold put. rewrite list_insert_id by done. by destruct s. Qed.

Lemma put_put s i t t' : put i t' (put i t s) = put i t' s.
Proof. unfold put, set_timer_table. cbn. by rewrite list_insert_insert_eq. Qed.

Lemma put_wf s i t : timers_wf s -> (i < POSIX_TIMER_MAX)%nat -> (used t -> entry_of (id t) = i /\ (alarm_enabled (alarm t) = true -> armed t = true)) -> timers_wf (put i t s).
Proof.
  intros [W1 W2 W3 W4 W5] Hi Ht. split; try done; [unfold put; cbn; by rewrite length_insert|]. intros j u Hj Hu. unfold put in Hj. cbn in Hj.
  apply list_lookup_insert_Some in Hj as [(<- & <- & _)|[_ Hj]]; [by apply Ht|by apply W5].
Qed.

Lemma book_put s i t t' : timers_wf s -> timer_table s !! i = Some t -> timers_wf (put i t' s) -> book (put i t' s) = row_add (row_of t') (row_del (row_of t) (book s)).
Proof.
  intros Hw Hi Hw'. unfold book. pose proof (rows_ok _ Hw') as Hok. unfold put in *. cbn in *. rewrite (list_fmap_insert row_of) in *.
  apply (slots_put entry_of); [by apply rows_ok|by rewrite list_lookup_fmap, Hi|done].
Qed.

(** A timer that exists is changed, made in an unused entry, deleted. *)
Lemma book_update s i t t' : timers_wf s -> timer_table s !! i = Some t -> timers_wf (put i t' s) -> used t -> id t' = id t ->
  book (put i t' s) = <[id t := view_timer t']> (book s).
Proof.
  intros Hw Hi Hw' Hu Hid. rewrite (book_put s i t t') by done. rewrite (row_used t Hu), row_used by (unfold used in *; congruence). cbn. rewrite Hid. apply insert_delete_eq.
Qed.

Lemma book_create s i t t' : timers_wf s -> timer_table s !! i = Some t -> timers_wf (put i t' s) -> id t = 0 -> used t' ->
  book (put i t' s) = <[id t' := view_timer t']> (book s) /\ book s !! id t' = None.
Proof.
  intros Hw Hi Hw' Hu Hu'. rewrite (book_put s i t t') by done. rewrite (row_unused t Hu), (row_used t' Hu'). split; [done|].
  rewrite (book_entry s (id t') i t); [|done|done| |done]; [by destruct (Z.eqb_spec (id t) (id t')); [unfold used in Hu'; congruence|]|].
  apply (tw_entry _ Hw' i); [|done]. unfold put. cbn. apply list_lookup_insert_eq. by eapply lookup_lt_Some.
Qed.

Lemma book_delete s i t t' : timers_wf s -> timer_table s !! i = Some t -> timers_wf (put i t' s) -> used t -> id t' = 0 ->
  book (put i t' s) = delete (id t) (book s).
Proof. intros Hw Hi Hw' Hu Hid. rewrite (book_put s i t t') by done. by rewrite (row_used t Hu), (row_unused t' Hid). Qed.

(** *** The operations *)

Lemma wp_timer_at s i t (P : posix_timer -> st -> Prop) : timer_table s !! i = Some t -> P t s -> wp (timer_at i) P s.
Proof. intros H HP. apply (wp_eq _ _ _ t s); [unfold timer_at; by rewrite H|done]. Qed.

Lemma wp_upd_timer s i f t (P : unit -> st -> Prop) : timer_table s !! i = Some t -> P tt (put i (f t) s) -> wp (upd_timer i f) P s.
Proof. intros H HP. unfold upd_timer, put_timer. by apply wp_bind, (wp_timer_at _ _ t), wp_bind, (wp_timer_at _ _ t), wp_modify. Qed.

Lemma put_at s i t : (i < length (timer_table s))%nat -> timer_table (put i t s) !! i = Some t.
Proof. intros H. unfold put. cbn. by apply list_lookup_insert_eq. Qed.

(** Changes of one entry in a row. *)
Lemma wp_upd_put s i f t (P : unit -> st -> Prop) : (i < length (timer_table s))%nat -> P tt (put i (f t) s) -> wp (upd_timer i f) P (put i t s).
Proof. intros H HP. apply (wp_upd_timer _ _ _ t); [by apply put_at|]. by rewrite put_put. Qed.

Lemma wp_at_put s i t (P : posix_timer -> st -> Prop) : (i < length (timer_table s))%nat -> P t (put i t s) -> wp (timer_at i) P (put i t s).
Proof. intros H HP. apply (wp_timer_at _ _ t); [by apply put_at|done]. Qed.

Lemma wp_put_timer s i t t' (P : unit -> st -> Prop) : timer_table s !! i = Some t -> P tt (put i t' s) -> wp (put_timer i t') P s.
Proof. intros H HP. by apply wp_bind, (wp_timer_at _ _ t), wp_modify. Qed.

Lemma wp_put_put s i t t' (P : unit -> st -> Prop) : (i < length (timer_table s))%nat -> P tt (put i t' s) -> wp (put_timer i t') P (put i t s).
Proof. intros H HP. apply (wp_put_timer _ _ t); [by apply put_at|]. by rewrite put_put. Qed.

Lemma wp_return_0 (P : Z -> st -> Prop) s : P 0 s -> wp (signal_return 0) P s.
Proof. done. Qed.

Lemma wp_find_unused fuel j s : timers_wf s -> (j < POSIX_TIMER_MAX)%nat -> (POSIX_TIMER_MAX <= fuel + j + 1)%nat ->
  (forall k t, (k < j)%nat -> timer_table s !! ((timer_next s + k) mod POSIX_TIMER_MAX)%nat = Some t -> used t) ->
  wp (find_unused fuel ((timer_next s + j) mod POSIX_TIMER_MAX)) (fun r s' => s' = s /\
    match r with
    | Some i => exists t, timer_table s !! i = Some t /\ id t = 0
    | None => forall t, t ∈ timer_table s -> used t
    end) s.
Proof.
  intros Hw. pose proof (tw_next _ Hw) as Hnext. pose proof (tw_size _ Hw) as Hsize.
  induction fuel as [|fuel IH] in j |- *; intros Hj Hfuel Hvis; set (cur := ((timer_next s + j) mod POSIX_TIMER_MAX)%nat);
    assert (cur < POSIX_TIMER_MAX)%nat as Hcur by (apply Nat.mod_upper_bound; lia);
    (destruct (lookup_lt_is_Some_2 (timer_table s) cur) as [t Ht]; [by rewrite Hsize|]); cbn [find_unused];
    apply wp_bind, (wp_timer_at _ _ t); try done; (destruct (Z.eqb_spec (id t) 0) as [E|E]; [apply wp_ret; split; [done|by exists t]|]);
    apply wp_bind, wp_gets; unfold cur; rewrite wrap_step, wrap_back by lia.
  all: assert (forall k u, (k < S j)%nat -> timer_table s !! ((timer_next s + k) mod POSIX_TIMER_MAX)%nat = Some u -> used u) as Hvis'
    by (intros k u Hk Hku; destruct (decide (k = j)) as [->|Hne]; [fold cur in Hku; congruence|apply (Hvis k u); [lia|done]]).
  all: destruct (Nat.eqb_spec (S j) POSIX_TIMER_MAX) as [Ej|Ej]; [|try lia].
  3: { apply IH; [lia|lia|done]. }
  all: apply wp_ret; split; [done|]; intros u [i Hi]%list_elem_of_lookup;
    assert (i < POSIX_TIMER_MAX)%nat as Hil by (rewrite <- Hsize; by eapply lookup_lt_Some); revert u Hi;
    apply (wrap_all (fun i => forall u, timer_table s !! i = Some u -> used u) (timer_next s) POSIX_TIMER_MAX Hnext); [|done];
    intros k Hk u; apply Hvis'; lia.
Qed.

Definition cookie_ok (c : Z) : Prop := c mod 1024 = 0 /\ - 2 ^ 31 <= c < 2 ^ 31.

Lemma next_cookie c : cookie_ok c -> cookie_ok (s32 (c + TIMER_ID_COOKIE_INC)) /\ (s32 (c + TIMER_ID_COOKIE_INC) = 0 -> s32 (0 + TIMER_ID_COOKIE_INC) <> 0).
Proof.
  intros [H1 H2]. split; [|done]. unfold cookie_ok, TIMER_ID_COOKIE_INC. apply Z.mod_divide in H1 as [q ->]; [|done].
  destruct (decide (q * 1024 + 1024 < 2 ^ 31)) as [H|H].
  - rewrite s32_id by lia. split; [|lia]. replace (q * 1024 + 1024) with ((q + 1) * 1024) by lia. by apply Z.mod_mul.
  - assert (q * 1024 + 1024 = 2 ^ 31) as -> by lia. by vm_compute.
Qed.

(** An id tells its entry. *)
Lemma id_entry i c : cookie_ok c -> (i < 1024)%nat -> s32 (Z.of_nat i + c) = Z.of_nat i + c /\ entry_of (Z.of_nat i + c) = i.
Proof.
  intros [H1 H2] Hi. assert (c <= 2 ^ 31 - 1024) as Hc by (apply Z.mod_divide in H1 as [q ->]; [lia|done]). split; [apply s32_id; lia|].
  unfold entry_of. change TIMER_ID_COOKIE_MASK with (Z.ones 10). rewrite Z.land_ones by done. change (2 ^ 10) with 1024.
  rewrite <- Z.add_mod_idemp_r, H1, Z.add_0_r, Z.mod_small by lia. lia.
Qed.

Lemma wp_make_id s i t : timers_wf s -> timer_table s !! i = Some t -> id t = 0 ->
  wp (make_id 2 i) (fun _ s' => exists c x, cookie_ok c /\ x <> 0 /\ entry_of x = i /\ s' = put i (set_id x t) (set_timer_id_cookie c s)) s.
Proof.
  intros Hw Hi H0. pose proof (lookup_lt_Some _ _ _ Hi) as Hlt. rewrite (tw_size _ Hw) in Hlt. pose proof (tw_max _ Hw) as Hmax. destruct (next_cookie _ (tw_cookie _ Hw)) as [Hc Hnz].
  set (c := s32 (timer_id_cookie s + TIMER_ID_COOKIE_INC)) in *. destruct (id_entry i c Hc ltac:(lia)) as [Eid Een].
  unfold make_id; fold make_id. apply wp_bind, (wp_timer_at _ _ t); [done|]. rewrite H0. cbn [Z.eqb negb]. apply wp_bind, wp_modify, wp_bind, wp_gets. cbn. fold c.
  apply wp_bind, (wp_upd_timer _ _ _ t); [done|]. rewrite Eid. assert (forall x c', (i < length (timer_table (set_timer_id_cookie c' s)))%nat /\
    timer_table (put i (set_id x t) (set_timer_id_cookie c' s)) !! i = Some (set_id x t)) as Hat.
  { intros x c'. rewrite (tw_size _ Hw : length (timer_table (set_timer_id_cookie c' s)) = _). split; [done|]. apply put_at. by rewrite (tw_size _ Hw : length (timer_table (set_timer_id_cookie c' s)) = _). }
  eapply wp_bind, wp_timer_at; [apply Hat|]. cbn [id set_id]. destruct (Z.eqb_spec (Z.of_nat i + c) 0) as [E|E]; cbn [negb].
  2: { apply wp_ret. by exists c, (Z.of_nat i + c). }
  assert (i = 0%nat /\ c = 0) as [-> Ec]. { destruct Hc as [[q ->]%Z.mod_divide ?]; [|done]. lia. }
  apply wp_bind, wp_modify, wp_bind, wp_gets. eapply wp_bind, wp_upd_timer; [apply Hat|]. eapply wp_bind, wp_timer_at; [apply put_at; cbn; by rewrite length_insert, (tw_size _ Hw)|].
  cbn. rewrite Ec. change (s32 (0 + s32 (0 + TIMER_ID_COOKIE_INC))) with 1024. cbn. apply wp_ret. exists 1024, 1024. split_and!; try done.
  unfold put, set_timer_table, set_timer_id_cookie. cbn. by rewrite list_insert_insert_eq.
Qed.

(** *** Each call is a step of the specification *)

Lemma wf_same s s' : timers_wf s -> timer_table s' = timer_table s -> timer_next s' = timer_next s -> timer_id_cookie s' = timer_id_cookie s -> timers_wf s'.
Proof. intros [W1 W2 W3 W4 W5] E1 E2 E3. by split; rewrite ?E1, ?E2, ?E3. Qed.

Hypothesis einval : EINVAL <> 0.
Hypothesis eagain : EAGAIN <> 0.

(** A call that refines the specification. *)
Definition refines_at (c : tcall) (s : st) : treply -> st -> Prop :=
  fun y s' => timers_wf s' /\ tstep (book s, now s) c y (book s', now s').

Lemma wp_error {A} (e : Z) (f : Z -> A) (P : A -> st -> Prop) s : e <> 0 -> P (f (-1)) (set_errno e s) -> wp (r ← signal_return e; mret (f r)) P s.
Proof. intros He HP. unfold signal_return. destruct (Z.eqb_spec e 0); [done|]. by apply wp_bind, wp_bind, wp_modify, wp_ret, wp_ret. Qed.

Lemma wp_reply_error (r : Z) y (P : treply -> st -> Prop) s : r <> 0 -> P (Error (errno s)) s -> wp (reply r y) P s.
Proof. intros Hr HP. unfold reply. destruct (Z.eqb_spec r 0); [done|]. by apply wp_bind, wp_gets, wp_ret. Qed.

Lemma error_step c e s : timers_wf s -> tstep (book s, now s) c (Error e) (book s, now s) -> refines_at c s (Error (errno (set_errno e s))) (set_errno e s).
Proof. intros Hw Hs. split; [by apply (wf_same s)|done]. Qed.

Lemma not_full s i t : timers_wf s -> timer_table s !! i = Some t -> id t = 0 -> (size (book s) < POSIX_TIMER_MAX)%nat.
Proof.
  intros Hw Hi H0. rewrite <- (tw_size _ Hw), <- (length_fmap row_of). apply (slots_not_full entry_of _ i); [by apply rows_ok|].
  rewrite list_lookup_fmap, Hi. cbn. by rewrite row_unused.
Qed.

Lemma all_used s : timers_wf s -> (forall t, t ∈ timer_table s -> used t) -> size (book s) = POSIX_TIMER_MAX.
Proof.
  intros Hw H. rewrite <- (tw_size _ Hw), <- (length_fmap row_of). apply (slots_full entry_of); [by apply rows_ok|].
  intros x (t & -> & Ht)%list_elem_of_fmap. by rewrite row_used by by apply H.
Qed.

Lemma create_refines k e s : timers_wf s -> wp (run_tcall (Create k e)) (refines_at (Create k e) s) s.
Proof.
  intros Hw. cbn [run_tcall]. apply wp_bind. unfold timer_create. destruct (Z.eqb_spec k CLOCK_REALTIME) as [->|Hk]; cbn [negb].
  2: { apply (wp_error _ (fun r => (r, None))); [done|]. apply wp_reply_error; [done|]. apply error_step; [done|by constructor]. }
  apply wp_bind, wp_gets, wp_bind. pose proof (tw_next _ Hw) as Hnext. pose proof (tw_max _ Hw) as Hmax.
  pose proof (wp_find_unused POSIX_TIMER_MAX 0 s Hw ltac:(lia) ltac:(lia) ltac:(intros; lia)) as H.
  rewrite Nat.add_0_r, Nat.mod_small in H by done. eapply wp_mono; [exact H|]. clear H. intros [i|] s' [-> H].
  2: { apply (wp_error _ (fun r => (r, None))); [done|]. apply wp_reply_error; [done|]. apply error_step; [done|]. apply t_create_full. by apply all_used. }
  destruct H as (t & Hi & H0). pose proof (lookup_lt_Some _ _ _ Hi) as Hlt. assert (i < POSIX_TIMER_MAX)%nat as Hlt' by by rewrite <- (tw_size _ Hw).
  apply wp_bind, wp_modify, wp_bind. set (s1 := set_timer_next i s). assert (timers_wf s1) as Hw1.
  { destruct Hw as [W1 W2 W3 W4 W5]. by split. }
  eapply wp_mono; [by apply (wp_make_id s1 i t)|]. intros _ s' (c & x & Hc & Hx & Hxi & ->). set (s2 := set_timer_id_cookie c s1).
  assert (timers_wf s2) as Hw2. { destruct Hw1 as [W1 W2 W3 W4 W5]. by split. }
  assert (i < length (timer_table s2))%nat as Hlt2 by done.
  apply wp_bind, wp_at_put; [done|]. cbn [id set_id]. do 4 (apply wp_bind, wp_upd_put; [done|]).
  apply wp_bind, wp_return_0, wp_ret, wp_ret.
  set (t' := set_overrun 0 _). assert (timers_wf (put i t' s2)) as Hw3.
  { apply put_wf; [done|done|]. intros _. split; [done|]. unfold t'. cbn. by rewrite alarm_new_spec. }
  assert (view_timer t' = v_new x e (t_pending t)) as Ev by (unfold view_timer, t'; cbn; by rewrite alarm_new_spec).
  split; [done|]. destruct (book_create s2 i t t' Hw2 Hi Hw3 H0 Hx) as [E1 E2]. rewrite E1, Ev. apply (t_create _ _ e x (t_pending t)); [done|exact E2|by eapply (not_full s)].
Qed.

Lemma at_entry s x : timers_wf s -> (entry_of x < POSIX_TIMER_MAX)%nat -> exists t, timer_table s !! entry_of x = Some t.
Proof. intros Hw Hx. apply lookup_lt_is_Some_2. by rewrite (tw_size _ Hw). Qed.

Lemma wp_from_put {A} (m : M st A) (P : A -> st -> Prop) s i t : timer_table s !! i = Some t -> wp m P (put i t s) -> wp m P s.
Proof. intros H. by rewrite put_same. Qed.

(** A call on an id finds the timer in the map or nothing. *)
Lemma find_timer s x : timers_wf s -> x <> 0 -> (entry_of x < POSIX_TIMER_MAX)%nat ->
  exists t, timer_table s !! entry_of x = Some t /\
    ((id t = x /\ used t /\ book s !! x = Some (view_timer t)) \/ (id t <> x /\ book s !! x = None)).
Proof.
  intros Hw H0 Hx. destruct (at_entry s x Hw Hx) as [t Ht]. exists t. split; [done|]. rewrite (book_entry s x _ t) by done.
  destruct (Z.eqb_spec (id t) x) as [E|E]; [left|by right]. split_and!; [done|unfold used; congruence|done].
Qed.

Lemma delete_refines x s : timers_wf s -> call_ok (Delete x) -> wp (run_tcall (Delete x)) (refines_at (Delete x) s) s.
Proof.
  intros Hw [H0 Hx]. destruct (find_timer s x Hw H0 Hx) as (t & Ht & Hf). pose proof (lookup_lt_Some _ _ _ Ht) as Hlt.
  cbn [run_tcall]. unfold timer_delete. apply wp_bind, wp_bind, (wp_timer_at _ _ t); [done|]. destruct Hf as [(E & Hu & Hb)|[E Hb]].
  - rewrite (proj2 (Z.eqb_eq _ _) E). apply (wp_from_put _ _ _ _ _ Ht). do 2 (apply wp_bind, wp_upd_put; [done|]). apply wp_return_0, wp_ret.
    set (t' := set_id 0 _). assert (timers_wf (put (entry_of x) t' s)) as Hw' by (apply put_wf; [done|done|]; by intros []).
    split; [done|]. rewrite (book_delete s _ t t') by done. rewrite E. by eapply t_delete.
  - rewrite (proj2 (Z.eqb_neq _ _) E). unfold signal_return. rewrite (proj2 (Z.eqb_neq _ _) einval). apply wp_bind, wp_modify, wp_ret, wp_reply_error; [done|].
    apply error_step; [done|]. apply (t_no_timer _ _ _ x); [done|by left].
Qed.

Lemma report_eq t s : report t s = v_report (view_timer t) (now s).
Proof. unfold report, v_report, view_timer. cbn. by destruct (armed t). Qed.

Lemma gettime_refines x v s : timers_wf s -> call_ok (Gettime x v) -> wp (run_tcall (Gettime x v)) (refines_at (Gettime x v) s) s.
Proof.
  intros Hw [H0 Hx]. destruct (find_timer s x Hw H0 Hx) as (t & Ht & Hf). cbn [run_tcall]. apply wp_bind. unfold timer_gettime. destruct v; cbn [negb].
  - apply wp_bind, (wp_timer_at _ _ t); [done|]. apply wp_bind, wp_get. destruct Hf as [(E & Hu & Hb)|[E Hb]].
    + rewrite (proj2 (Z.eqb_eq _ _) E). apply wp_bind, wp_return_0, wp_ret, wp_ret. split; [done|]. cbn [snd]. rewrite report_eq. by constructor.
    + rewrite (proj2 (Z.eqb_neq _ _) E). apply (wp_error _ (fun r => (r, None))); [done|]. apply wp_reply_error; [done|]. apply error_step; [done|].
      apply (t_no_timer _ _ _ x); [done|by right; right].
  - apply (wp_error _ (fun r => (r, None))); [done|]. apply wp_reply_error; [done|]. apply error_step; [done|]. constructor.
Qed.

Lemma settime_refines x f v o s : timers_wf s -> call_ok (Settime x f v o) -> wp (run_tcall (Settime x f v o)) (refines_at (Settime x f v o) s) s.
Proof.
  intros Hw [H0 Hx]. destruct (find_timer s x Hw H0 Hx) as (t & Ht & Hf). pose proof (lookup_lt_Some _ _ _ Ht) as Hlt. cbn [run_tcall]. apply wp_bind. unfold timer_settime. destruct v as [value|].
  2: { apply (wp_error _ (fun r => (r, None))); [done|]. apply wp_reply_error; [done|]. apply error_step; [done|]. constructor. }
  apply wp_bind, (wp_timer_at _ _ t); [done|]. destruct Hf as [(E & Hu & Hb)|[E Hb]].
  2: { rewrite (proj2 (Z.eqb_neq _ _) E). apply (wp_error _ (fun r => (r, None))); [done|]. apply wp_reply_error; [done|]. apply error_step; [done|].
    apply (t_no_timer _ _ _ x); [done|]. right. left. eauto. }
  rewrite (proj2 (Z.eqb_eq _ _) E). apply (wp_from_put _ _ _ _ _ Ht). apply wp_bind, wp_upd_put; [done|]. apply wp_bind, wp_at_put; [done|]. apply wp_bind, wp_get.
  set (t1 := set_alarm _ t). assert (forall s', report t1 s' = v_report (view_timer t) (now s')) as Ev.
  { intros s'. rewrite report_eq. unfold v_report, view_timer, t1. cbn. by destruct (alarm_disable_spec (alarm t)) as [-> _]. }
  assert (forall t', timers_wf (put (entry_of x) t' s) -> id t' = id t -> view_timer t' = v_settime f value (now s) (view_timer t) ->
    wp (r ← signal_return 0; mret (r, if o then Some (report t1 (put (entry_of x) t1 s)) else None))
      (fun r s' => wp (reply r.1 (Times r.2)) (refines_at (Settime x f (Some value) o) s) s') (put (entry_of x) t' s)) as Hend.
  { intros t' Hw' Hid Hv. apply wp_bind, wp_return_0, wp_ret, wp_ret. split; [done|]. cbn [snd]. rewrite (book_update s _ t t') by done. rewrite Hv, E.
    replace (if o then Some (report t1 (put (entry_of x) t1 s)) else None) with (if o then Some (v_report (view_timer t) (now s)) else None)
      by (destruct o; [|done]; by rewrite Ev).
    by constructor. }
  assert (timers_wf (put (entry_of x) (set_armed false t1) s)) as Hw0.
  { apply put_wf; [done|done|]. intros _. split; [by cbn; rewrite E|]. unfold t1. cbn. by destruct (alarm_disable_spec (alarm t)) as [_ ->]. }
  apply wp_bind. unfold v_settime in Hend. destruct (Z.eqb_spec (cyg_timespec_to_ticks (it_value value) true) 0) as [Ez|Ez].
  - apply wp_upd_put; [done|]. apply Hend; [done|done|]. unfold view_timer, t1. cbn. by destruct (alarm_disable_spec (alarm t)) as [-> ->].
  - apply wp_bind, wp_upd_put; [done|]. apply wp_upd_put; [done|]. set (tr := if Z.land f TIMER_ABSTIME =? 0 then _ else _) in *.
    change (u64 (cyg_timespec_to_ticks (it_value value) true + now (put (entry_of x) t1 s))) with (u64 (cyg_timespec_to_ticks (it_value value) true + now s)).
    set (iv := cyg_timespec_to_ticks (it_interval value) true) in *. apply Hend; [|done|].
    + apply put_wf; [done|done|]. intros _. split; [by cbn; rewrite E|done].
    + unfold view_timer. cbn. fold tr. by destruct (alarm_initialize_spec tr iv (alarm_disable (alarm t))) as [-> ->].
Qed.

Lemma overrun_refines x s : timers_wf s -> call_ok (Getoverrun x) -> wp (run_tcall (Getoverrun x)) (refines_at (Getoverrun x) s) s.
Proof.
  intros Hw [H0 Hx]. destruct (find_timer s x Hw H0 Hx) as (t & Ht & Hf). cbn [run_tcall]. unfold timer_getoverrun.
  apply wp_bind, wp_bind, (wp_timer_at _ _ t); [done|]. apply wp_ret, wp_ret. split; [done|].
  replace (if id t =? x then overrun t else 0) with (match book s !! x with Some v => v_overrun v | None => 0 end); [by constructor|].
  destruct Hf as [(E & _ & ->)|[E ->]]; [by rewrite (proj2 (Z.eqb_eq _ _) E)|by rewrite (proj2 (Z.eqb_neq _ _) E)].
Qed.

Lemma expires_refines x s : timers_wf s -> call_ok (Expires x) -> wp (run_tcall (Expires x)) (refines_at (Expires x) s) s.
Proof.
  intros Hw [H0 Hx]. destruct (find_timer s x Hw H0 Hx) as (t & Ht & Hf). pose proof (lookup_lt_Some _ _ _ Ht) as Hlt. cbn [run_tcall]. unfold expires.
  apply wp_bind, wp_bind, (wp_timer_at _ _ t); [done|].
  assert (forall m, m = alter v_expire x (book s) -> forall s', timers_wf s' -> book s' = m -> now s' = now s -> refines_at (Expires x) s Finished s') as Hend.
  { intros m -> s' Hw' E1 E2. split; [done|]. rewrite E1, E2. constructor. }
  assert (alter v_expire x (book s) = match book s !! x with Some v => <[x := v_expire v]> (book s) | None => book s end) as Ealt.
  { apply map_eq. intros y. destruct (decide (y = x)) as [->|Hy].
    - rewrite lookup_alter_eq. destruct (book s !! x) eqn:Hb; [by rewrite lookup_insert_eq|by rewrite Hb].
    - rewrite lookup_alter_ne by done. destruct (book s !! x); [by rewrite lookup_insert_ne|done]. }
  destruct Hf as [(E & Hu & Hb)|[E Hb]]; rewrite Hb in Ealt.
  2: { rewrite (proj2 (Z.eqb_neq _ _) E). apply wp_ret. by apply (Hend _ eq_refl). }
  rewrite (proj2 (Z.eqb_eq _ _) E). destruct (tw_entry _ Hw _ t Ht Hu) as [_ Hen].
  assert (forall t', id t' = id t -> armed t' = armed t -> (alarm_enabled (alarm t') = true -> alarm_enabled (alarm t) = true) ->
    view_timer t' = v_expire (view_timer t) -> refines_at (Expires x) s Finished (put (entry_of x) t' s)) as Hput.
  { intros t' E1 E2 E3 E4. assert (timers_wf (put (entry_of x) t' s)) as Hw' by (apply put_wf; [done|done|]; intros _; rewrite E1, E2, E; auto).
    apply (Hend _ eq_refl); [done| |done]. rewrite Ealt, (book_update s _ t t') by done. by rewrite E4, E. }
  unfold alarm_expires. apply wp_when; [|done]. intros _. apply wp_bind, (wp_timer_at _ _ t); [done|]. apply wp_when; intros Hrun.
  2: { apply wp_ret. rewrite <- (put_same s (entry_of x) t) at 2 by done. apply Hput; try done. unfold v_expire, view_timer. cbn. by rewrite Hrun. }
  destruct (alarm_times (alarm t)) as [d iv] eqn:Et. destruct (alarm_fire_spec _ _ _ Et) as [Ef1 Ef2]. unfold alarm_action.
  apply wp_bind, (wp_put_timer _ _ t); [done|]. set (t1 := mkTimer _ (alarm_fire _) _ _ _ _). apply wp_bind, wp_at_put; [done|].
  assert (forall p n, view_timer (mkTimer (id t) (alarm_fire (alarm t)) (armed t) p n (sigev t)) =
    mkV ((fun d => if negb (iv =? 0) then u64 (d + iv) else d) <$> (if armed t then Some d else None)) (negb (iv =? 0)) iv (sigev t) n p) as Hview.
  { intros p n. unfold view_timer. cbn. rewrite Ef1, Ef2. cbn. by destruct (armed t), (iv =? 0). }
  assert (forall p n, mkV ((fun d => if negb (iv =? 0) then u64 (d + iv) else d) <$> (if armed t then Some d else None)) (negb (iv =? 0)) iv (sigev t) n p = v_expire (view_timer t) ->
    refines_at (Expires x) s Finished (put (entry_of x) (mkTimer (id t) (alarm_fire (alarm t)) (armed t) p n (sigev t)) s)) as Hfin.
  { intros p n Hv. apply Hput; [done..|by rewrite Hview]. }
  unfold v_expire, view_timer in Hfin. cbn in Hfin. rewrite Et, Hrun in Hfin. cbn in Hfin. cbn [t_pending t1]. destruct (t_pending t).
  - apply wp_put_put; [done|]. by apply wp_ret, Hfin.
  - apply wp_when; intros Hn; cbn [sigev t1] in Hn.
    + apply wp_put_put; [done|]. apply wp_ret, Hfin. by rewrite Hn.
    + apply wp_ret, Hfin. by rewrite Hn.
Qed.

Lemma tcall_refines c s : timers_wf s -> call_ok c -> wp (run_tcall c) (refines_at c s) s.
Proof.
  intros Hw Hc. destruct c; [by apply create_refines|by apply delete_refines|by apply settime_refines|by apply gettime_refines|by apply overrun_refines|by apply expires_refines|].
  apply wp_bind, wp_modify, wp_ret. split; [by apply (wf_same s)|constructor].
Qed.

Lemma tcalls_refine l s : timers_wf s -> Forall call_ok l ->
  wp (run_tcalls l) (fun ys s' => timers_wf s' /\ tsteps (book s, now s) l ys (book s', now s')) s.
Proof.
  intros Hw Hl. induction l as [|c l IH] in s, Hw, Hl |- *; cbn [run_tcalls]; [apply wp_ret; split; [done|constructor]|].
  apply list.Forall_cons in Hl as [Hc Hl]. apply wp_bind. eapply wp_mono; [by apply tcall_refines|]. intros y s1 [Hw1 H1].
  apply wp_bind. eapply wp_mono; [by apply IH|]. intros ys s2 [Hw2 H2]. apply wp_ret. split; [done|]. by econstructor.
Qed.

(** *** Rounding *)

Lemma round_up t : is_time t -> tv_sec t < 2 ^ 31 - 2 -> (tick_ns | 1000000000) ->
  let n := cyg_timespec_to_ticks t true in
  0 <= n < 2 ^ 64 /\ nanoseconds t <= nanoseconds (cyg_ticks_to_timespec n) < nanoseconds t + tick_ns /\ (n = 0 -> nanoseconds t = 0).
Proof.
  intros Ht Hs Hd n. pose proof tick_ns_pos as Hp. destruct (decide (nanoseconds t = 0)) as [E|E].
  - assert (n = 0) as ->.
    { unfold n, cyg_timespec_to_ticks. destruct Ht as [H1 H2]. unfold nanoseconds in E. rewrite (proj2 (Z.eqb_eq (tv_sec t) 0)) by lia.
      by rewrite (proj2 (Z.eqb_eq (tv_nsec t) 0)) by lia. }
    rewrite E. unfold cyg_ticks_to_timespec, nanoseconds. cbn. lia.
  - pose proof (ceiling_enough t Ht Hd E) as Hc. fold n in Hc. destruct Ht as [H1 H2]. assert (0 <= nanoseconds t < 2 ^ 31 * 1000000000 - 1000000000) as Hn by (unfold nanoseconds; lia).
    assert (0 < n) by nia. assert (n * tick_ns < 2 ^ 31 * 1000000000) by lia. assert (n <= n * tick_ns) by nia.
    destruct (ticks_to_timespec_time n) as [_ ->]; [lia|lia|]. lia.
Qed.

Lemma steps_cons_inv w c l ys w' : tsteps w (c :: l) ys w' -> exists y ys' w1, ys = y :: ys' /\ tstep w c y w1 /\ tsteps w1 l ys' w'.
Proof. inversion 1; subst. eauto 10. Qed.

Lemma settime_inv m n x f value o v y w : m !! x = Some v -> tstep (m, n) (Settime x f (Some value) o) y w ->
  y = Times (if o then Some (v_report v n) else None) /\ w = (<[x := v_settime f value n v]> m, n).
Proof.
  intros Hx Hs. inversion Hs as [| | | |? ? ? ? ? ? v' Hv'| | | | |? ? ? x' Hn Hc| |]; subst.
  - assert (v' = v) as -> by congruence. done.
  - destruct Hc as [[=]|[(? & ? & ? & [= <- _ _ _])|[=]]]. congruence.
Qed.

Lemma gettime_inv m n x v y w : m !! x = Some v -> tstep (m, n) (Gettime x true) y w -> y = Times (Some (v_report v n)) /\ w = (m, n).
Proof.
  intros Hx Hs. inversion Hs as [| | | | | |? ? ? v' Hv'| | |? ? ? x' Hn Hc| |]; subst.
  - assert (v' = v) as -> by congruence. done.
  - destruct Hc as [[=]|[(? & ? & ? & [=])|[= <-]]]. congruence.
Qed.

(** *** The theorems *)

(** C39: Timers are a map from ids: from any well-formed table every sequence of creations,
    deletions, settings, questions, expirations and passing time, whose ids are not 0 and
    index the table with their ten low bits (the code does not check this), returns, with
    the results and errors of the specification, in which a new timer gets an id that no
    other has as long as fewer than the maximum exist, each call acts on the timer of its id
    alone, a deleted timer is gone, a timer with an interval that expires runs on to its next
    deadline while one without stops, the times that are reported count from now to the
    deadline, for a timer that has stopped the wrapped difference to the one that passed, and
    expirations that find one unsent are counted.  When alarms go off is an input. *)
Theorem timers_refine l s : timers_wf s -> Forall call_ok l ->
  exists ys s', run_tcalls l s = Ret (ys, s') /\ timers_wf s' /\ tsteps (book s, now s) l ys (book s', now s').
Proof.
  intros Hw Hl. destruct (proj1 (wp_Ret _ _ _) (tcalls_refine l s Hw Hl)) as (ys & s' & E & H). by exists ys, s'.
Qed.

(** C40: A timer that is set to a time from now reports it, rounded up to less than one tick
    more: never short; likewise its interval, whose 0 stays 0. *)
Theorem timer_never_short x value o s v :
  timers_wf s -> x <> 0 -> (entry_of x < POSIX_TIMER_MAX)%nat -> book s !! x = Some v -> (tick_ns | 1000000000) ->
  is_time (it_value value) -> tv_sec (it_value value) < 2 ^ 31 - 2 -> is_time (it_interval value) -> tv_sec (it_interval value) < 2 ^ 31 - 2 ->
  nanoseconds (it_value value) <> 0 ->
  exists old got s', run_tcalls [Settime x 0 (Some value) o; Gettime x true] s = Ret ([Times old; Times (Some got)], s') /\
    nanoseconds (it_value value) <= nanoseconds (it_value got) < nanoseconds (it_value value) + tick_ns /\
    nanoseconds (it_interval value) <= nanoseconds (it_interval got) < nanoseconds (it_interval value) + tick_ns.
Proof.
  intros Hw H0 Hx Hb Hd Hv1 Hv2 Hi1 Hi2 Hne. destruct (round_up _ Hv1 Hv2 Hd) as (Hn & Hr & Hz). destruct (round_up _ Hi1 Hi2 Hd) as (_ & Hri & _).
  assert (Forall call_ok [Settime x 0 (Some value) o; Gettime x true]) as Hok by by repeat constructor.
  destruct (proj1 (wp_Ret _ _ _) (tcalls_refine _ s Hw Hok)) as (ys & s' & E & _ & Hs).
  destruct (steps_cons_inv _ _ _ _ _ Hs) as (y1 & ys1 & w1 & -> & H1 & Hs1). destruct (steps_cons_inv _ _ _ _ _ Hs1) as (y2 & ys2 & w2 & -> & H2 & Hs2).
  inversion Hs2; subst ys2. destruct (settime_inv _ _ _ _ _ _ _ _ _ Hb H1) as [-> ->].
  destruct (gettime_inv _ _ _ _ _ _ (lookup_insert_eq _ _ _) H2) as [-> _].
  eexists _, _, s'. split; [exact E|]. unfold v_report, v_settime. rewrite (proj2 (Z.eqb_neq _ 0)) by tauto. cbn. split; [|exact Hri].
  replace (u64 _) with (cyg_timespec_to_ticks (it_value value) true); [exact Hr|]. change (Z.land 0 TIMER_ABSTIME =? 0) with true. cbv iota. unfold uwrap. rewrite Zminus_mod_idemp_l, Z.add_simpl_r. symmetry. by apply Z.mod_small.
Qed.

End Table.

(** ** Expirations become signals *)

Section Expire.
Context {kc : KClock} {ka : KAlarm} {cfg : PosixConfig} {ap : App}.

(** An expiration waits to be sent. *)
Definition due (t : posix_timer) : bool := negb (id t =? 0) && t_pending t.

Lemma wp_asr_app i n m s (P : unit -> st -> Prop) :
  wp (timer_asr_loop i n) (fun _ s' => wp (timer_asr_loop (i + n) m) P s') s -> wp (timer_asr_loop i (n + m)) P s.
Proof.
  induction n as [|n IH] in i, s |- *; cbn [Nat.add timer_asr_loop]; [rewrite Nat.add_0_r; by intros H|]. intros H.
  unfold wp in *. unfold mbind, M_bind in *. destruct (timer_at i s) as [[t s1]| |]; try done.
  destruct (when _ _ s1) as [[u s2]| |]; try done. apply IH. by rewrite Nat.add_succ_comm.
Qed.

Lemma wp_asr_none i n s (P : unit -> st -> Prop) :
  (i + n <= length (timer_table s))%nat -> (forall j t, (i <= j < i + n)%nat -> timer_table s !! j = Some t -> due t = false) -> P tt s -> wp (timer_asr_loop i n) P s.
Proof.
  induction n as [|n IH] in i |- *; intros Hlen Hdue HP; cbn [timer_asr_loop]; [by apply wp_ret|].
  destruct (lookup_lt_is_Some_2 (timer_table s) i) as [t Ht]; [lia|]. apply wp_bind, (wp_timer_at _ _ t); [done|].
  fold (due t). rewrite (Hdue i t) by (lia || done). apply wp_bind, wp_ret, IH; [lia| |done]. intros j u Hj. apply Hdue. lia.
Qed.

(** The timer after its expiration was sent. *)
Definition sent (t : posix_timer) : posix_timer := mkTimer (id t) (alarm t) (armed t) false 0 (sigev t).

Lemma put_represents s v i t : represents s v -> represents (put i t s) v.
Proof. intros H. by apply (represents_same s). Qed.

(** One timer is due. *)
Lemma wp_timer_asr s v i t a (P : unit -> st -> Prop) :
  represents s v -> self s <> None -> length (timer_table s) = POSIX_TIMER_MAX -> timer_table s !! i = Some t -> due t = true ->
  (forall j u, j <> i -> timer_table s !! j = Some u -> due u = false) ->
  sigev_notify (sigev t) = SIGEV_SIGNAL -> 0 < sigev_signo (sigev t) < 32 -> v_acts v !! Z.to_nat (sigev_signo (sigev t)) = Some a ->
  (forall s', represents s' (v_generate a (sigev_signo (sigev t)) SI_TIMER (sigev_value (sigev t)) None v).2 -> rest s' = rest (put i (sent t) s) -> held s' = held s -> P tt s') ->
  wp cyg_posix_timer_asr P s.
Proof.
  intros Hr Hme Hlen Ht Hd Hoth Hn Hsig Ha HP. pose proof (lookup_lt_Some _ _ _ Ht) as Hi. unfold cyg_posix_timer_asr.
  replace POSIX_TIMER_MAX with (i + S (POSIX_TIMER_MAX - i - 1))%nat by lia. apply wp_asr_app, wp_asr_none; [lia|intros j u Hj; apply Hoth; lia|].
  cbn [Nat.add timer_asr_loop]. apply wp_bind, (wp_timer_at _ _ t); [done|]. fold (due t). rewrite Hd. unfold when at 1, put_timer.
  apply wp_bind, wp_bind, wp_bind, (wp_timer_at _ _ t); [done|]. apply wp_modify, wp_bind.
  set (t1 := mkTimer (id t) (alarm t) (armed t) false (overrun t) (sigev t)). change (set_timer_table (<[i := t1]> (timer_table s)) s) with (put i t1 s).
  destruct (sigev t) as [nt sg vl] eqn:Eev. cbn in Hn, Hsig, Ha, HP |- *. subst nt.
  eapply (wp_cyg_sigqueue _ v sg SI_TIMER vl None a); [by apply put_represents|lia|done|by left|done|]. intros s1 R1 F1 G1 _.
  assert (timer_table s1 = timer_table (put i t1 s)) as Etab by (unfold rest in F1; congruence).
  assert (timer_table s1 !! i = Some t1) as Ht1 by (rewrite Etab; by apply put_at).
  apply wp_bind, (wp_timer_at _ _ t1); [done|]. apply wp_bind, (wp_timer_at _ _ t1); [done|]. apply wp_modify.
  match goal with |- wp _ _ ?x => assert (x = put i (sent t) s1) as -> by (unfold put, sent; by rewrite Eev) end.
  assert (timer_table (put i (sent t) s1) = timer_table (put i (sent t) s)) as Etab2.
  { unfold put. cbn. rewrite Etab. unfold put. cbn. by rewrite list_insert_insert_eq. }
  apply wp_asr_none.
  - rewrite Etab2. unfold put. cbn. rewrite length_insert. lia.
  - intros j u Hj Hu. rewrite Etab2 in Hu. unfold put in Hu. cbn in Hu. rewrite list_lookup_insert_ne in Hu by lia. apply (Hoth j); [lia|done].
  - apply HP; [by apply put_represents| |exact G1]. unfold rest in *. rewrite Etab2. unfold put in *. cbn in *. congruence.
Qed.

(** The timer when its alarm has gone off. *)
Definition expired (t : posix_timer) : posix_timer := mkTimer (id t) (alarm_fire (alarm t)) (armed t) true (overrun t) (sigev t).

Lemma wp_wait_expiry fuel s v i t d ws (P : bool -> st -> Prop) :
  represents s v -> held s = true -> wakes s = mkWake [TimePasses d; TimerExpires i] false true :: ws ->
  timer_table s !! i = Some t -> alarm_enabled (alarm t) = true -> t_pending t = false -> sigev_notify (sigev t) = SIGEV_SIGNAL ->
  (forall s', represents s' v -> rest s' = rest (put i (expired t) (set_wakes ws (set_now (now s + d) s))) -> held s' = true -> P true s') ->
  wp (sigwait_wait fuel) P s.
Proof.
  intros Hr Hh Hw Ht Hen Hp Hn HP. unfold wp, sigwait_wait. rewrite Hw. cbn [w_others w_asr w_result do_others do_other].
  assert (wp (unlock;; (modify (fun s => set_now (now s + d) s);; alarm_expires i;; mret tt);; lock;; when false (posix_asr fuel);; mret true) P (set_wakes ws s)) as H; [|exact H].
  unfold unlock. apply wp_bind, wp_modify, wp_bind, wp_bind, wp_modify, wp_bind. unfold alarm_expires. apply wp_bind, (wp_timer_at _ _ t); [done|]. rewrite Hen.
  apply wp_when; intros E; [clear E|done]. apply wp_bind, (wp_put_timer _ _ t); [done|]. pose proof (lookup_lt_Some _ _ _ Ht) as Hi. unfold alarm_action.
  apply wp_bind, wp_at_put; [done|]. cbn [t_pending sigev id alarm armed overrun]. rewrite Hp. apply wp_when; intros E; [|rewrite Hn, Z.eqb_refl in E; done].
  apply wp_put_put; [done|]. apply wp_ret.
  apply wp_bind, wp_sig_lock; [done|]. apply wp_bind, wp_ret, wp_ret. apply HP; [|done|done]. by apply (represents_same s).
Qed.

Lemma acceptable_marked v p set sig : 0 < sig < 32 -> Z.testbit set sig = true -> acceptable v p set = 0 ->
  forall j, 0 <= j -> Z.testbit (acceptable (v_mark sig None v) p set) j = (j =? sig).
Proof.
  intros Hs Hb H0 j Hj. unfold acceptable. cbn. rewrite Z.land_spec, Z.lor_spec, sigaddset_spec by lia.
  destruct (Z.eqb_spec j sig) as [->|Hne]; [by rewrite Hb, orb_true_r|]. rewrite orb_false_r, <- Z.lor_spec, <- Z.land_spec.
  unfold acceptable in H0. by rewrite H0, Z.testbit_0_l.
Qed.

(** A timer wakes a thread that waits for its signal: when the alarm of a timer expires
    while a thread waits in [sigwaitinfo] for a set with the signal of the timer, which
    takes values, the wait returns this signal with the code of timers and the value given
    when the timer was made; the node that carried it is free again, no handler is called,
    and the timer is ready for its next expiration, to which its alarm was moved on if it has
    an interval. *)
Theorem timer_wakes_waiter fuel n s v t p set i tm a m d ws :
  let sig := sigev_signo (sigev tm) in
  let info := mkSi sig SI_TIMER (sigev_value (sigev tm)) in
  represents s v -> self s = Some t -> v_threads v !! t = Some p -> pend_ok v -> held s = false -> acceptable v p set = 0 ->
  wakes s = mkWake [TimePasses d; TimerExpires i] false true :: ws -> sigalrm_pending s = false ->
  length (timer_table s) = POSIX_TIMER_MAX -> timer_table s !! i = Some tm -> id tm <> 0 -> alarm_enabled (alarm tm) = true ->
  (forall j u, timer_table s !! j = Some u -> due u = false) -> sigev_notify (sigev tm) = SIGEV_SIGNAL ->
  0 < sig < 32 -> Z.testbit set sig = true ->
  v_acts v !! Z.to_nat sig = Some a -> siginfo_flag a = true -> v_queues v !! Z.to_nat sig = Some [] -> v_free v = S m ->
  exists s', sigwaitinfo fuel (S n) set s = Ret ((sig, Some info), s') /\ calls s' = calls s /\ held s' = false /\
    queued s' (v_queues v) (v_free v) /\ wakes s' = ws /\ now s' = now s + d /\ timer_table s' !! i = Some (sent (expired tm)).
Proof.
  intros sig info Hr Ht Hp [Hok1 Hok2] Hh H0 Hw Hal Hlen Htm Hid Hen Hdue Hn Hs Hb Ha Hf Hq Hm.
  pose proof (lookup_lt_Some _ _ _ Htm) as Hi. assert (t_pending tm = false) as Hpd.
  { specialize (Hdue i tm Htm). unfold due in Hdue. by rewrite (proj2 (Z.eqb_neq _ _) Hid) in Hdue. }
  set (v1 := v_mark sig None (v_set_queue (Z.to_nat sig) [info] m v)).
  assert ((v_generate a sig SI_TIMER (sigev_value (sigev tm)) None v).2 = v1) as Ev1 by (unfold v_generate; by rewrite Hf, Hm, Hq).
  assert (wp (sigwaitinfo fuel (S n) set) (fun r s' => r = (sig, Some info) /\ represents s' (v_accept t sig a v1) /\
    rest s' = rest (put i (sent (expired tm)) (set_wakes ws (set_now (now s + d) s))) /\ held s' = false) s) as W.
  { unfold sigwaitinfo, sigtimedwait. apply wp_bind, wp_get, wp_bind, (wp_self_info _ t p); [done|by rewrite (re_threads _ _ Hr)|].
    apply wp_bind, wp_sig_lock; [done|]. apply wp_bind. unfold accept_loop; fold accept_loop.
    apply wp_bind, (wp_eq _ _ _ _ _ (accepted_eq (set_held true s) v t p set (represents_held _ _ _ Hr) Ht Hp)). rewrite H0. cbn [Z.eqb negb].
    apply wp_bind. eapply (wp_wait_expiry fuel _ v i tm d ws); [by apply represents_held|done|exact Hw|exact Htm|done|done|done|]. intros s1 R1 F1 G1. cbn [negb].
    assert (self s1 = Some t /\ sigalrm_pending s1 = false /\ timer_table s1 = <[i := expired tm]> (timer_table s)) as (T1 & A1 & B1).
    { unfold rest, put in F1. cbn in F1. split_and!; congruence. }
    apply wp_bind. unfold check_sigalarm. apply wp_bind, wp_gets, wp_when; [rewrite A1; done|]. intros _.
    apply wp_bind. eapply (wp_timer_asr s1 v i (expired tm) a); [done|by rewrite T1|by rewrite B1, length_insert|rewrite B1; by apply list_lookup_insert_eq| | |done|done|done|].
    - unfold due. cbn. by rewrite (proj2 (Z.eqb_neq _ _) Hid).
    - intros j u Hj Hu. rewrite B1, list_lookup_insert_ne in Hu by done. by apply (Hdue j).
    - cbn [sigev expired]. fold sig. rewrite Ev1. intros s2 R2 F2 G2. assert (self s2 = Some t) as T2 by (unfold rest, put in F2; cbn in F2; congruence).
      assert (forall j, 0 <= j -> Z.testbit (acceptable v1 p set) j = (j =? sig)) as Hbits by by apply (acceptable_marked (v_set_queue (Z.to_nat sig) [info] m v)).
      assert (acceptable v1 p set <> 0) as Hne by (intros E; specialize (Hbits sig ltac:(lia)); by rewrite E, Z.testbit_0_l, Z.eqb_refl in Hbits).
      apply (wp_eq _ _ _ _ _ (accept_loop_pending fuel n s2 v1 t p set None R2 T2 Hp Hne)). rewrite (proj2 (Z.eqb_neq _ _) Hne).
      destruct (lsbit_lowest (acceptable v1 p set)) as (k & Hk & Hkr & Hkb & _).
      { assert (0 <= acceptable v1 p set < 2 ^ 32); [|lia]. unfold acceptable. rewrite Z.land_comm. apply land_u32, lor_u32; [|by apply (Hok2 t)].
        by destruct (mark_ok v sig None (conj Hok1 Hok2) Hs). }
      rewrite Hbits in Hkb by lia. apply Z.eqb_eq in Hkb as ->.
      eapply wp_mono; [apply (wp_accept_end s2 v1 t p _ sig a [info] R2 T2 Hp Hk); [lia|done|]|].
      + cbn. apply list_lookup_insert_eq. by eapply lookup_lt_Some.
      + intros r s' (-> & R3 & F3 & G3). unfold accept_info. rewrite Hf. cbn [first_info]. split_and!; [done|exact R3| |done].
        rewrite F3, F2. unfold rest, put in *. cbn in *. rewrite B1, list_insert_insert_eq. congruence. }
  destruct (proj1 (wp_Ret _ _ _) W) as (r & s' & E & -> & R3 & F3 & G3). exists s'. split; [exact E|].
  assert (v_calls (v_accept t sig a v1) = v_calls v /\ v_queues (v_accept t sig a v1) = v_queues v) as [Ec Eq].
  { unfold v_accept. rewrite Hf. destruct (clear_if_empty_acts t sig (v_take sig v1)) as (_ & Eq & _ & ->). rewrite Eq. pose proof (lookup_lt_Some _ _ _ Hq) as Hlt.
    unfold v_take, v1. cbn. rewrite list_lookup_insert_eq by done. cbn. by rewrite list_insert_insert_eq, list_insert_id. }
  split_and!; [by rewrite (re_calls _ _ R3), Ec, (re_calls _ _ Hr)|done| | | |].
  - pose proof (re_queues _ _ R3) as HQ. rewrite Eq in HQ. by rewrite (queued_free _ _ _ (re_queues _ _ Hr)), <- (queued_free _ _ _ HQ).
  - unfold rest, put in F3. cbn in F3. congruence.
  - unfold rest, put in F3. cbn in F3. congruence.
  - assert (timer_table s' = <[i := sent (expired tm)]> (timer_table s)) as -> by (unfold rest, put in F3; cbn in F3; congruence). by apply list_lookup_insert_eq.
Qed.

End Expire.

(** ** The small system with two timers *)

Module TimersDemo.

#[local] Existing Instances Demo.clock Demo.alarms Demo.sizes Demo.silent.

Definition blank : posix_timer := mkTimer 0 alarm_new false false 0 (mkEv 0 0 0).

(** The zeroed table. *)
Definition no_timers : st := set_timer_table [blank; blank] Demo.started.

(** One timer, for signal 10 with the value 77. *)
Definition one : posix_timer := mkTimer 2048 (100, 0, true) true false 0 (mkEv SIGEV_SIGNAL 10 77).

Definition one_timer : st := set_timer_table [one; blank] Demo.catches.

Lemma demo_wf t s : id t = 0 \/ (entry_of (id t) = 0%nat /\ (alarm_enabled (alarm t) = true -> armed t = true)) -> timer_table s = [t; blank] -> timer_next s = 0%nat -> timer_id_cookie s = 1024 ->
  timers_wf s.
Proof.
  intros Ht E1 E2 E3. split; rewrite ?E1, ?E2, ?E3; try done; [cbn; lia|cbn; lia|]. intros [|[|i]] u [= <-] Hu; [by destruct Ht|done].
Qed.

Lemma demo_einval : EINVAL <> 0.
Proof. done. Qed.

Lemma demo_eagain : EAGAIN <> 0.
Proof. done. Qed.

Definition timer_calls : list tcall :=
  [Create 0 None; Create 0 (Some (mkEv SIGEV_SIGNAL 10 77)); Create 0 None;
   Settime 3073 0 (Some (mkIts (mkTs 1 0) (mkTs 1 5))) false; Gettime 3073 true; Passes 101; Expires 3073; Gettime 3073 true;
   Passes 100; Expires 3073; Getoverrun 3073; Delete 2048; Getoverrun 2048].

Lemma timers_refine_witness :
  exists ys s', run_tcalls timer_calls no_timers = Ret (ys, s') /\
    ys = [Made 2048; Made 3073; Error 11; Times None; Times (Some (mkIts (mkTs 1 0) (mkTs 1 10000000))); Finished; Finished;
          Times (Some (mkIts (mkTs 1 0) (mkTs 1 0))); Finished; Finished; Count 1; Finished; Count 0] /\
    timers_wf s' /\ tsteps (∅, 0) timer_calls ys (book s', now s').
Proof.
  destruct (timers_refine demo_einval demo_eagain timer_calls no_timers) as (ys & s' & E & Hw & Hs).
  - apply (demo_wf blank); [by left|reflexivity..].
  - repeat (apply list.Forall_cons; split); try exact I; try (split; [discriminate|vm_compute; lia]). by apply list.Forall_nil.
  - assert (match run_tcalls timer_calls no_timers with Ret (l, _) => Some l | _ => None end = Some
      [Made 2048; Made 3073; Error 11; Times None; Times (Some (mkIts (mkTs 1 0) (mkTs 1 10000000))); Finished; Finished;
       Times (Some (mkIts (mkTs 1 0) (mkTs 1 0))); Finished; Finished; Count 1; Finished; Count 0]) as E' by (vm_compute; reflexivity).
    exists ys, s'. split_and!; [exact E| |exact Hw|exact Hs]. rewrite E in E'. by injection E'.
Defined.

(** 1 s and 5 ns are reported as 1.01 s, with a tick of 10 ms. *)
Lemma timer_never_short_witness :
  exists old got s', run_tcalls [Settime 2048 0 (Some (mkIts (mkTs 0 0) (mkTs 1 5))) true; Gettime 2048 true] one_timer = Ret ([Times old; Times (Some got)], s') /\
    1000000005 <= nanoseconds (it_value got) < 1010000005.
Proof.
  destruct (timer_never_short demo_einval demo_eagain 2048 (mkIts (mkTs 0 0) (mkTs 1 5)) true one_timer (view_timer one)) as (old & got & s' & E & H & _).
  - apply (demo_wf one); [right; by split|reflexivity|vm_compute; reflexivity..].
  - done.
  - vm_compute; lia.
  - vm_compute. reflexivity.
  - by exists 100.
  - split; cbn; lia.
  - cbn. lia.
  - split; cbn; lia.
  - cbn. lia.
  - discriminate.
  - exists old, got, s'. split; [exact E|exact H].
Defined.

Definition waits : st := set_wakes [mkWake [TimePasses 5; TimerExpires 0] false true] one_timer.

Lemma timer_wakes_waiter_witness :
  exists s', sigwaitinfo 0 1 1024 waits = Ret ((10, Some (mkSi 10 3 77)), s') /\ calls s' = [] /\ held s' = false /\ now s' = 5.
Proof.
  assert (represents waits Demo.v_catches) as R by (by apply (represents_same Demo.catches); [exact Demo.catches_represents|..]).
  destruct (timer_wakes_waiter 0 0 waits Demo.v_catches 1 (mkPt 0 1024) 1024 0 one (mkSa 0 SA_SIGINFO 256) 3 5 [] R) as (s' & E & H1 & H2 & _ & _ & H3 & _);
    [reflexivity|reflexivity|exact Demo.catches_ok|reflexivity|reflexivity|reflexivity|vm_compute; reflexivity|reflexivity|reflexivity|discriminate|reflexivity| |reflexivity|cbn; lia|reflexivity..|].
  - by intros [|[|j]] u [= <-].
  - exists s'. split_and!; [exact E|rewrite H1; vm_compute; reflexivity|exact H2|rewrite H3; vm_compute; reflexivity].
Defined.

End TimersDemo.
