(* ===== verification/Pthread.v ===== *)
(** * POSIX threads
    (tools/gcc4libstdxx/ecos/compat/posix: pthread.cxx)

    The table of threads, creation, exit, joining and reaping, keys with their data and
    destructors, cleanup handlers and cancellation.  The threads of the kernel are a class;
    the blocks that [malloc] gives, and what other threads do while one waits for a thread,
    are inputs.  The routines of the application are programs of calls. *)

From stdpp Require Import gmap.
From S2P Require Import Prelude.
From S2P Require Import Hal.

(** A thread of the kernel.  [remaining]: none while it runs; once it has called [exit],
    how often the reaper must yield to it at its own priority until it has ended. *)
Class KThread := {
  Cyg_Thread : Type;
  thread_new : Z -> Z -> Z -> Cyg_Thread;
  thread_timeslice : bool -> Cyg_Thread -> Cyg_Thread;
  thread_priority : Z -> Cyg_Thread -> Cyg_Thread;
  thread_asr : Cyg_Thread -> Cyg_Thread;
  thread_release : Cyg_Thread -> Cyg_Thread;
  thread_resume : Cyg_Thread -> Cyg_Thread;
  thread_exit : Cyg_Thread -> Cyg_Thread;
  thread_yield : Cyg_Thread -> Cyg_Thread;
  current_priority : Z;  (* of the thread that runs *)
  remaining : Cyg_Thread -> option nat;
  remaining_new : forall p b s, remaining (thread_new p b s) = None;
  remaining_same : forall t, (forall b, remaining (thread_timeslice b t) = remaining t) /\ (forall p, remaining (thread_priority p t) = remaining t) /\
    remaining (thread_asr t) = remaining t /\ remaining (thread_release t) = remaining t /\ remaining (thread_resume t) = remaining t;
  remaining_exit : forall t, is_Some (remaining (thread_exit t));
  remaining_yield : forall t n, remaining t = Some (S n) -> remaining (thread_yield t) = Some n;
}.

(** The configuration and the error numbers. *)
Class PthreadConfig := {
  THREADS_MAX : nat;
  PTHREAD_KEYS_MAX : nat;
  DESTRUCTOR_ITERATIONS : nat;
  STACK_MIN : Z;
  sizeof_pthread_info : Z;
  CYG_THREAD_MIN_PRIORITY : Z;
  SCHED_FIFO : Z; SCHED_RR : Z; SCHED_OTHER : Z;
  PTHREAD_CANCELED : Z;
  EINVAL : Z; ESRCH : Z; EAGAIN : Z; ENOMEM : Z; EDEADLK : Z; ENOTSUP : Z;
}.

Definition PTHREAD_STATE_FREE : Z := 0.
Definition PTHREAD_STATE_DETACHED : Z := 1.
Definition PTHREAD_STATE_RUNNING : Z := 2.
Definition PTHREAD_STATE_JOIN : Z := 3.
Definition PTHREAD_STATE_EXITED : Z := 4.
Definition PTHREAD_CREATE_JOINABLE : Z := 1.
Definition PTHREAD_CREATE_DETACHED : Z := 2.
Definition PTHREAD_SCOPE_SYSTEM : Z := 1.
Definition PTHREAD_SCOPE_PROCESS : Z := 2.
Definition PTHREAD_INHERIT_SCHED : Z := 1.
Definition PTHREAD_EXPLICIT_SCHED : Z := 2.
Definition PTHREAD_CANCEL_ENABLE : Z := 1.
Definition PTHREAD_CANCEL_DISABLE : Z := 2.
Definition PTHREAD_CANCEL_ASYNCHRONOUS : Z := 1.
Definition PTHREAD_CANCEL_DEFERRED : Z := 2.
Definition THREAD_ID_COOKIE_INC : Z := 1024.
Definition THREAD_ID_COOKIE_MASK : Z := THREAD_ID_COOKIE_INC - 1.
Definition KEY_MAP_TYPE_SIZE : Z := 32.

Record pthread_attr_t := mkAttr {
  detachstate : Z; scope : Z; inheritsched : Z; schedpolicy : Z; sched_priority : Z;
  stackaddr_valid : bool; stackaddr : Z; stacksize_valid : bool; stacksize : Z
}.

(** A buffer of a cleanup handler, in the frame of the function that pushed it. *)
Record cleanup_buffer := mkBuf { prev : option Z; routine : Z; arg : Z }.

(** Calls that cleanup handlers and destructors make. *)
Inductive rop := SetSpecific (key pointer : Z) | KeyCreate (destructor : Z) | KeyDelete (key : Z) | CleanupPush (buffer routine arg : Z).

(** What the routine at an address does with its argument. *)
Class Routines := { routine_ops : Z -> Z -> list rop }.

Section Code.
Context {kt : KThread} {cfg : PthreadConfig} {rt : Routines}.

Record pthread_info := mkInfo {
  state : Z; cancelstate : Z; canceltype : Z; cancelpending : bool; freestack : bool;
  id : Z;
  thread : Cyg_Thread;
  attr : pthread_attr_t;
  retval : Z;
  start_routine : Z; start_arg : Z;
  stackmem : Z;
  cancelbuffer : option Z;
  sigmask : Z;
  thread_data : option (list Z)
}.

(** A call of another thread while one waits. *)
Inductive act :=
| Create (a : option pthread_attr_t) (start_routine arg : Z)
| Exit (retval : Z)
| Detach (thread : Z)
| Cancel (thread : Z)
| Setcancelstate (state : Z)
| Setcanceltype (type : Z).

(** The structures of threads and the buffers are found by their addresses. *)
Record st := mkSt {
  infos : gmap Z pthread_info;
  buffers : gmap Z cleanup_buffer;
  thread_table : list (option Z);
  pthread_count : Z;
  pthreads_exited : Z;
  pthreads_tobejoined : Z;
  thread_key : list Z;
  key_destructor : list Z;
  thread_info_next : nat;
  thread_id_cookie : Z;
  self : option Z;  (* the running thread, if POSIX made it *)
  held : bool;  (* it holds the mutex *)
  blocks : list Z;  (* what malloc will give *)
  freed : list Z;
  called : list (Z * Z);  (* the routines that were called with their arguments, the last first *)
  wakes : list (list (Z * act) * bool)  (* what other threads do in the coming waits, and their results *)
}.

Definition set_state (v : Z) (p : pthread_info) : pthread_info := mkInfo v (cancelstate p) (canceltype p) (cancelpending p) (freestack p) (id p) (thread p) (attr p) (retval p) (start_routine p) (start_arg p) (stackmem p) (cancelbuffer p) (sigmask p) (thread_data p).
Definition set_cancelstate (v : Z) (p : pthread_info) : pthread_info := mkInfo (state p) v (canceltype p) (cancelpending p) (freestack p) (id p) (thread p) (attr p) (retval p) (start_routine p) (start_arg p) (stackmem p) (cancelbuffer p) (sigmask p) (thread_data p).
Definition set_canceltype (v : Z) (p : pthread_info) : pthread_info := mkInfo (state p) (cancelstate p) v (cancelpending p) (freestack p) (id p) (thread p) (attr p) (retval p) (start_routine p) (start_arg p) (stackmem p) (cancelbuffer p) (sigmask p) (thread_data p).
Definition set_cancelpending (v : bool) (p : pthread_info) : pthread_info := mkInfo (state p) (cancelstate p) (canceltype p) v (freestack p) (id p) (thread p) (attr p) (retval p) (start_routine p) (start_arg p) (stackmem p) (cancelbuffer p) (sigmask p) (thread_data p).
Definition set_thread (v : Cyg_Thread) (p : pthread_info) : pthread_info := mkInfo (state p) (cancelstate p) (canceltype p) (cancelpending p) (freestack p) (id p) v (attr p) (retval p) (start_routine p) (start_arg p) (stackmem p) (cancelbuffer p) (sigmask p) (thread_data p).
Definition set_retval (v : Z) (p : pthread_info) : pthread_info := mkInfo (state p) (cancelstate p) (canceltype p) (cancelpending p) (freestack p) (id p) (thread p) (attr p) v (start_routine p) (start_arg p) (stackmem p) (cancelbuffer p) (sigmask p) (thread_data p).
Definition set_cancelbuffer (v : option Z) (p : pthread_info) : pthread_info := mkInfo (state p) (cancelstate p) (canceltype p) (cancelpending p) (freestack p) (id p) (thread p) (attr p) (retval p) (start_routine p) (start_arg p) (stackmem p) v (sigmask p) (thread_data p).
Definition set_sigmask (v : Z) (p : pthread_info) : pthread_info := mkInfo (state p) (cancelstate p) (canceltype p) (cancelpending p) (freestack p) (id p) (thread p) (attr p) (retval p) (start_routine p) (start_arg p) (stackmem p) (cancelbuffer p) v (thread_data p).
Definition set_thread_data (v : option (list Z)) (p : pthread_info) : pthread_info := mkInfo (state p) (cancelstate p) (canceltype p) (cancelpending p) (freestack p) (id p) (thread p) (attr p) (retval p) (start_routine p) (start_arg p) (stackmem p) (cancelbuffer p) (sigmask p) v.
Definition set_attr (v : pthread_attr_t) (p : pthread_info) : pthread_info := mkInfo (state p) (cancelstate p) (canceltype p) (cancelpending p) (freestack p) (id p) (thread p) v (retval p) (start_routine p) (start_arg p) (stackmem p) (cancelbuffer p) (sigmask p) (thread_data p).

Definition set_infos (v : gmap Z pthread_info) (s : st) : st := mkSt v (buffers s) (thread_table s) (pthread_count s) (pthreads_exited s) (pthreads_tobejoined s) (thread_key s) (key_destructor s) (thread_info_next s) (thread_id_cookie s) (self s) (held s) (blocks s) (freed s) (called s) (wakes s).
Definition set_buffers (v : gmap Z cleanup_buffer) (s : st) : st := mkSt (infos s) v (thread_table s) (pthread_count s) (pthreads_exited s) (pthreads_tobejoined s) (thread_key s) (key_destructor s) (thread_info_next s) (thread_id_cookie s) (self s) (held s) (blocks s) (freed s) (called s) (wakes s).
Definition set_thread_table (v : list (option Z)) (s : st) : st := mkSt (infos s) (buffers s) v (pthread_count s) (pthreads_exited s) (pthreads_tobejoined s) (thread_key s) (key_destructor s) (thread_info_next s) (thread_id_cookie s) (self s) (held s) (blocks s) (freed s) (called s) (wakes s).
Definition set_pthread_count (v : Z) (s : st) : st := mkSt (infos s) (buffers s) (thread_table s) v (pthreads_exited s) (pthreads_tobejoined s) (thread_key s) (key_destructor s) (thread_info_next s) (thread_id_cookie s) (self s) (held s) (blocks s) (freed s) (called s) (wakes s).
Definition set_pthreads_exited (v : Z) (s : st) : st := mkSt (infos s) (buffers s) (thread_table s) (pthread_count s) v (pthreads_tobejoined s) (thread_key s) (key_destructor s) (thread_info_next s) (thread_id_cookie s) (self s) (held s) (blocks s) (freed s) (called s) (wakes s).
Definition set_pthreads_tobejoined (v : Z) (s : st) : st := mkSt (infos s) (buffers s) (thread_table s) (pthread_count s) (pthreads_exited s) v (thread_key s) (key_destructor s) (thread_info_next s) (thread_id_cookie s) (self s) (held s) (blocks s) (freed s) (called s) (wakes s).
Definition set_thread_key (v : list Z) (s : st) : st := mkSt (infos s) (buffers s) (thread_table s) (pthread_count s) (pthreads_exited s) (pthreads_tobejoined s) v (key_destructor s) (thread_info_next s) (thread_id_cookie s) (self s) (held s) (blocks s) (freed s) (called s) (wakes s).
Definition set_key_destructor (v : list Z) (s : st) : st := mkSt (infos s) (buffers s) (thread_table s) (pthread_count s) (pthreads_exited s) (pthreads_tobejoined s) (thread_key s) v (thread_info_next s) (thread_id_cookie s) (self s) (held s) (blocks s) (freed s) (called s) (wakes s).
Definition set_thread_info_next (v : nat) (s : st) : st := mkSt (infos s) (buffers s) (thread_table s) (pthread_count s) (pthreads_exited s) (pthreads_tobejoined s) (thread_key s) (key_destructor s) v (thread_id_cookie s) (self s) (held s) (blocks s) (freed s) (called s) (wakes s).
Definition set_thread_id_cookie (v : Z) (s : st) : st := mkSt (infos s) (buffers s) (thread_table s) (pthread_count s) (pthreads_exited s) (pthreads_tobejoined s) (thread_key s) (key_destructor s) (thread_info_next s) v (self s) (held s) (blocks s) (freed s) (called s) (wakes s).
Definition set_self (v : option Z) (s : st) : st := mkSt (infos s) (buffers s) (thread_table s) (pthread_count s) (pthreads_exited s) (pthreads_tobejoined s) (thread_key s) (key_destructor s) (thread_info_next s) (thread_id_cookie s) v (held s) (blocks s) (freed s) (called s) (wakes s).
Definition set_held (v : bool) (s : st) : st := mkSt (infos s) (buffers s) (thread_table s) (pthread_count s) (pthreads_exited s) (pthreads_tobejoined s) (thread_key s) (key_destructor s) (thread_info_next s) (thread_id_cookie s) (self s) v (blocks s) (freed s) (called s) (wakes s).
Definition set_blocks (v : list Z) (s : st) : st := mkSt (infos s) (buffers s) (thread_table s) (pthread_count s) (pthreads_exited s) (pthreads_tobejoined s) (thread_key s) (key_destructor s) (thread_info_next s) (thread_id_cookie s) (self s) (held s) v (freed s) (called s) (wakes s).
Definition set_freed (v : list Z) (s : st) : st := mkSt (infos s) (buffers s) (thread_table s) (pthread_count s) (pthreads_exited s) (pthreads_tobejoined s) (thread_key s) (key_destructor s) (thread_info_next s) (thread_id_cookie s) (self s) (held s) (blocks s) v (called s) (wakes s).
Definition set_called (v : list (Z * Z)) (s : st) : st := mkSt (infos s) (buffers s) (thread_table s) (pthread_count s) (pthreads_exited s) (pthreads_tobejoined s) (thread_key s) (key_destructor s) (thread_info_next s) (thread_id_cookie s) (self s) (held s) (blocks s) (freed s) v (wakes s).
Definition set_wakes (v : list (list (Z * act) * bool)) (s : st) : st := mkSt (infos s) (buffers s) (thread_table s) (pthread_count s) (pthreads_exited s) (pthreads_tobejoined s) (thread_key s) (key_destructor s) (thread_info_next s) (thread_id_cookie s) (self s) (held s) (blocks s) (freed s) (called s) v.

(** ** Access *)

(** A thread that locks the mutex again blocks itself: [UB]. *)
Definition lock : M st unit := fun s => if held s then UB else Ret (tt, set_held true s).

Definition unlock : M st unit := modify (set_held false).

Definition info_at (a : Z) : M st pthread_info := fun s => match infos s !! a with Some p => Ret (p, s) | None => UB end.

Definition upd_info (a : Z) (f : pthread_info -> pthread_info) : M st unit :=
  p ← info_at a; modify (fun s => set_infos (<[a := f p]> (infos s)) s).

Definition upd_thread (a : Z) (f : Cyg_Thread -> Cyg_Thread) : M st unit := upd_info a (fun p => set_thread (f (thread p)) p).

(** [pthread_self_info]: null for a thread that POSIX did not make. *)
Definition pthread_self_info : M st (option Z) := gets self.

Definition self_ptr : M st Z := a ← pthread_self_info; match a with Some a => mret a | None => undef end.

Definition slot (i : nat) : M st (option Z) := fun s => match thread_table s !! i with Some x => Ret (x, s) | None => UB end.

Definition set_slot (i : nat) (v : option Z) : M st unit := slot i;; modify (fun s => set_thread_table (<[i := v]> (thread_table s)) s).

Definition pthread_info_id (id0 : Z) : M st (option Z) :=
  info ← slot (Z.to_nat (Z.land id0 THREAD_ID_COOKIE_MASK));
  match info with
  | None => mret None
  | Some a =>
      p ← info_at a;
      if (state p =? PTHREAD_STATE_FREE) || (state p =? PTHREAD_STATE_EXITED) then mret None
      else if negb (id p =? id0) then mret None
      else mret (Some a)
  end.

(** Any block that is not in use, or 0. *)
Definition pthread_malloc (size : Z) : M st Z := fun s =>
  match blocks s with
  | [] => Ret (0, s)
  | b :: l => Ret (match infos s !! b with Some _ => 0 | None => b end, set_blocks l s)
  end.

Definition pthread_free (m : Z) : M st unit := modify (fun s => set_freed (m :: freed s) s).

Definition checkforcancel : M st bool :=
  a ← pthread_self_info;
  match a with
  | None => mret false
  | Some a => p ← info_at a; mret (cancelpending p && (cancelstate p =? PTHREAD_CANCEL_ENABLE))
  end.

(** ** Reaping *)

(** The reaper yields to the thread until it has ended. *)
Fixpoint yield_until (n : nat) (a : Z) : M st unit :=
  p ← info_at a;
  match remaining (thread p) with
  | Some O => mret tt
  | _ => match n with O => no_fuel | S k => upd_thread a (fun t => thread_yield (thread_priority current_priority t));; yield_until k a end
  end.

(** The structure lies in the stack: both are gone. *)
Definition reap_one (i : nat) (a : Z) : M st unit :=
  p ← info_at a;
  yield_until (default O (remaining (thread p))) a;;
  when (freestack p) (pthread_free (stackmem p));;
  modify (fun s => set_infos (delete a (infos s)) s);;
  set_slot i None;;
  modify (fun s => set_pthread_count (pthread_count s - 1) s);;
  modify (fun s => set_pthreads_exited (pthreads_exited s - 1) s).

Fixpoint reap_loop (i n : nat) : M st unit :=
  e ← gets pthreads_exited;
  if e =? 0 then mret tt
  else
    match n with
    | O => mret tt
    | S k =>
        t ← slot i;
        match t with
        | None => mret tt
        | Some a => p ← info_at a; when (state p =? PTHREAD_STATE_EXITED) (reap_one i a)
        end;;
        reap_loop (S i) k
    end.

Definition pthread_reap : M st unit := reap_loop 0 THREADS_MAX.

(** A thread that can take a signal of the mask is released; [count] threads are in the table. *)
Fixpoint release_loop (mask : Z) (i n : nat) (count : Z) : M st unit :=
  if count <=? 0 then mret tt
  else
    match n with
    | O => mret tt
    | S k =>
        t ← slot i;
        match t with
        | None => release_loop mask (S i) k count
        | Some a =>
            p ← info_at a;
            if (state p <=? PTHREAD_STATE_RUNNING) && negb (Z.land mask (Z.lnot (sigmask p)) =? 0) then
              upd_thread a thread_asr;; upd_thread a thread_release
            else release_loop mask (S i) k (if state p =? PTHREAD_STATE_FREE then count else count - 1)
        end
    end.

Definition cyg_posix_pthread_release_thread (mask : Z) : M st unit :=
  count ← gets pthread_count; release_loop mask 0 THREADS_MAX count.

(** ** Attributes *)

(** A null pointer is [None]; what the call leaves in the attributes and what it reads. *)
Definition default_attr : pthread_attr_t :=
  mkAttr PTHREAD_CREATE_JOINABLE PTHREAD_SCOPE_SYSTEM PTHREAD_INHERIT_SCHED SCHED_OTHER 0 false 0 false 0.

Definition pthread_attr_init (a : option pthread_attr_t) : Z * option pthread_attr_t :=
  match a with None => (EINVAL, None) | Some _ => (0, Some default_attr) end.

Definition pthread_attr_destroy (a : option pthread_attr_t) : Z * option pthread_attr_t :=
  match a with None => (EINVAL, None) | Some a => (0, Some a) end.

Definition pthread_attr_setdetachstate (a : option pthread_attr_t) (v : Z) : Z * option pthread_attr_t :=
  match a with
  | None => (EINVAL, None)
  | Some a =>
      if (v =? PTHREAD_CREATE_JOINABLE) || (v =? PTHREAD_CREATE_DETACHED) then
        (0, Some (mkAttr v (scope a) (inheritsched a) (schedpolicy a) (sched_priority a) (stackaddr_valid a) (stackaddr a) (stacksize_valid a) (stacksize a)))
      else (EINVAL, Some a)
  end.

Definition pthread_attr_setscope (a : option pthread_attr_t) (v : Z) : Z * option pthread_attr_t :=
  match a with
  | None => (EINVAL, None)
  | Some a =>
      if (v =? PTHREAD_SCOPE_SYSTEM) || (v =? PTHREAD_SCOPE_PROCESS) then
        if v =? PTHREAD_SCOPE_PROCESS then (ENOTSUP, Some a)
        else (0, Some (mkAttr (detachstate a) v (inheritsched a) (schedpolicy a) (sched_priority a) (stackaddr_valid a) (stackaddr a) (stacksize_valid a) (stacksize a)))
      else (EINVAL, Some a)
  end.

Definition pthread_attr_setinheritsched (a : option pthread_attr_t) (v : Z) : Z * option pthread_attr_t :=
  match a with
  | None => (EINVAL, None)
  | Some a =>
      if (v =? PTHREAD_INHERIT_SCHED) || (v =? PTHREAD_EXPLICIT_SCHED) then
        (0, Some (mkAttr (detachstate a) (scope a) v (schedpolicy a) (sched_priority a) (stackaddr_valid a) (stackaddr a) (stacksize_valid a) (stacksize a)))
      else (EINVAL, Some a)
  end.

Definition pthread_attr_setschedpolicy (a : option pthread_attr_t) (v : Z) : Z * option pthread_attr_t :=
  match a with
  | None => (EINVAL, None)
  | Some a =>
      if (v =? SCHED_OTHER) || (v =? SCHED_FIFO) || (v =? SCHED_RR) then
        (0, Some (mkAttr (detachstate a) (scope a) (inheritsched a) v (sched_priority a) (stackaddr_valid a) (stackaddr a) (stacksize_valid a) (stacksize a)))
      else (EINVAL, Some a)
  end.

Definition pthread_attr_setschedparam (a : option pthread_attr_t) (param : option Z) : Z * option pthread_attr_t :=
  match a, param with
  | Some a, Some v => (0, Some (mkAttr (detachstate a) (scope a) (inheritsched a) (schedpolicy a) v (stackaddr_valid a) (stackaddr a) (stacksize_valid a) (stacksize a)))
  | _, _ => (EINVAL, a)
  end.

Definition pthread_attr_setstackaddr (a : option pthread_attr_t) (v : Z) : Z * option pthread_attr_t :=
  match a with
  | None => (EINVAL, None)
  | Some a => (0, Some (mkAttr (detachstate a) (scope a) (inheritsched a) (schedpolicy a) (sched_priority a) true v (stacksize_valid a) (stacksize a)))
  end.

Definition pthread_attr_setstacksize (a : option pthread_attr_t) (v : Z) : Z * option pthread_attr_t :=
  match a with
  | None => (EINVAL, None)
  | Some a =>
      if v <? STACK_MIN then (EINVAL, Some a)
      else (0, Some (mkAttr (detachstate a) (scope a) (inheritsched a) (schedpolicy a) (sched_priority a) (stackaddr_valid a) (stackaddr a) true v))
  end.

(** What a question stores where it is asked to. *)
Definition ask {A} (f : pthread_attr_t -> A) (a : option pthread_attr_t) (wanted : bool) : Z * option A :=
  match a with None => (EINVAL, None) | Some a => (0, if wanted then Some (f a) else None) end.

Definition pthread_attr_getdetachstate : option pthread_attr_t -> bool -> Z * option Z := ask detachstate.
Definition pthread_attr_getscope : option pthread_attr_t -> bool -> Z * option Z := ask scope.
Definition pthread_attr_getinheritsched : option pthread_attr_t -> bool -> Z * option Z := ask inheritsched.
Definition pthread_attr_getschedpolicy : option pthread_attr_t -> bool -> Z * option Z := ask schedpolicy.
Definition pthread_attr_getschedparam : option pthread_attr_t -> bool -> Z * option Z := ask sched_priority.

Definition pthread_attr_getstackaddr (a : option pthread_attr_t) (wanted : bool) : Z * option Z :=
  match a with
  | None => (EINVAL, None)
  | Some a => if wanted then if stackaddr_valid a then (0, Some (stackaddr a)) else (EINVAL, None) else (0, None)
  end.

Definition pthread_attr_getstacksize (a : option pthread_attr_t) (wanted : bool) : Z * option Z :=
  match a with
  | None => (EINVAL, None)
  | Some a => if negb (stacksize_valid a) then (EINVAL, None) else (0, if wanted then Some (stacksize a) else None)
  end.

(** ** Creation *)

Definition PTHREAD_ECOS_PRIORITY (pri : Z) : Z := CYG_THREAD_MIN_PRIORITY - pri.

(** An entry without a thread, from [next] around the table. *)
Fixpoint find_slot (fuel next : nat) : M st (option nat) :=
  t ← slot next;
  match t with
  | None => mret (Some next)
  | Some _ =>
      let next := if (THREADS_MAX <=? S next)%nat then O else S next in
      start ← gets thread_info_next;
      if (next =? start)%nat then mret None
      else match fuel with O => no_fuel | S k => find_slot k next end
  end.

(** The attributes that are used. *)
Definition use_attr (a : option pthread_attr_t) : M st pthread_attr_t :=
  let u := match a with None => default_attr | Some a => a end in
  if inheritsched u =? PTHREAD_INHERIT_SCHED then
    me ← self_ptr;
    p ← info_at me;
    mret (mkAttr (detachstate u) (scope u) (inheritsched u) (schedpolicy (attr p)) (sched_priority (attr p))
            (stackaddr_valid u) (stackaddr u) (stacksize_valid u) (stacksize u))
  else mret u.

(** The thread in entry [i], its structure at the base of its stack. *)
Definition make_thread (i : nat) (u : pthread_attr_t) (routine arg stackmem stacksize : Z) (freestack : bool) : M st Z :=
  set_slot i (Some stackmem);;
  modify (set_thread_info_next i);;
  modify (fun s => set_thread_id_cookie (u32 (thread_id_cookie s + THREAD_ID_COOKIE_INC)) s);;
  cookie ← gets thread_id_cookie;
  me ← pthread_self_info;
  mask ← match me with None => mret 0 | Some m => p ← info_at m; mret (sigmask p) end;
  let nid := u32 (Z.of_nat i + cookie) in
  let t := thread_timeslice (negb (schedpolicy u =? SCHED_FIFO))
             (thread_new (PTHREAD_ECOS_PRIORITY (sched_priority u)) (stackmem + sizeof_pthread_info) (stacksize - sizeof_pthread_info)) in
  modify (fun s => set_infos (<[stackmem := mkInfo
    (if detachstate u =? PTHREAD_CREATE_JOINABLE then PTHREAD_STATE_RUNNING else PTHREAD_STATE_DETACHED)
    PTHREAD_CANCEL_ENABLE PTHREAD_CANCEL_DEFERRED false freestack nid t u 0 routine arg stackmem None mask None]> (infos s)) s);;
  modify (fun s => set_pthread_count (pthread_count s + 1) s);;
  mret nid.

(** [thread]: whether there is a place for the id, which comes with the result. *)
Definition pthread_create (thread : bool) (a : option pthread_attr_t) (routine arg : Z) : M st (Z * option Z) :=
  if negb thread then mret (EINVAL, None)
  else if routine =? 0 then mret (EINVAL, None)
  else
    u ← use_attr a;
    let stacksize := if stacksize_valid u then stacksize u else STACK_MIN in
    stackmem ← (if stackaddr_valid u then mret (u32 (stackaddr u - stacksize)) else pthread_malloc stacksize);
    let freestack := negb (stackaddr_valid u) in
    if freestack && (stackmem =? 0) then mret (EAGAIN, None)
    else
      lock;;
      pthread_reap;;
      start ← gets thread_info_next;
      next ← find_slot THREADS_MAX start;
      match next with
      | None => unlock;; when freestack (pthread_free stackmem);; mret (ENOMEM, None)
      | Some i =>
          nid ← make_thread i u routine arg stackmem stacksize freestack;
          unlock;;
          upd_thread stackmem thread_resume;;
          mret (0, Some nid)
      end.

Definition pthread_self : M st Z := a ← self_ptr; p ← info_at a; mret (id p).

Definition pthread_equal (thread1 thread2 : Z) : bool := thread1 =? thread2.

(** ** Cancellation state *)

(** With the state before. *)
Definition pthread_setcancelstate (v : Z) : M st (Z * option Z) :=
  if negb (v =? PTHREAD_CANCEL_ENABLE) && negb (v =? PTHREAD_CANCEL_DISABLE) then mret (EINVAL, None)
  else
    lock;;
    a ← self_ptr;
    p ← info_at a;
    upd_info a (set_cancelstate v);;
    unlock;;
    mret (0, Some (cancelstate p)).

Definition pthread_setcanceltype (v : Z) : M st (Z * option Z) :=
  if negb (v =? PTHREAD_CANCEL_ASYNCHRONOUS) && negb (v =? PTHREAD_CANCEL_DEFERRED) then mret (EINVAL, None)
  else
    lock;;
    a ← self_ptr;
    p ← info_at a;
    upd_info a (set_canceltype v);;
    unlock;;
    mret (0, Some (canceltype p)).

Definition pthread_cancel (thread : Z) : M st Z :=
  lock;;
  th ← pthread_info_id thread;
  match th with
  | None => unlock;; mret ESRCH
  | Some a =>
      upd_info a (set_cancelpending true);;
      p ← info_at a;
      when (cancelstate p =? PTHREAD_CANCEL_ENABLE)
        (if canceltype p =? PTHREAD_CANCEL_ASYNCHRONOUS then upd_thread a thread_asr;; upd_thread a thread_release
         else when (canceltype p =? PTHREAD_CANCEL_DEFERRED) (upd_thread a thread_release));;
      unlock;;
      mret 0
  end.

(** ** Keys *)

(** The word of a key and whether its bit says that it is free. *)
Definition key_word (key : Z) : nat := Z.to_nat (u32 key / KEY_MAP_TYPE_SIZE).

Definition key_bit (key : Z) : Z := u32 (Z.shiftl 1 (u32 key mod KEY_MAP_TYPE_SIZE)).

Definition word_at (i : nat) : M st Z := fun s => match thread_key s !! i with Some w => Ret (w, s) | None => UB end.

Definition set_word (i : nat) (w : Z) : M st unit := word_at i;; modify (fun s => set_thread_key (<[i := w]> (thread_key s)) s).

Definition key_free (key : Z) : M st bool := w ← word_at (key_word key); mret (negb (Z.land w (key_bit key) =? 0)).

Definition destructor_at (k : nat) : M st Z := fun s => match key_destructor s !! k with Some d => Ret (d, s) | None => UB end.

Definition set_destructor (k : nat) (d : Z) : M st unit := destructor_at k;; modify (fun s => set_key_destructor (<[k := d]> (key_destructor s)) s).

(** A value in the data of a thread. *)
Definition data_at (l : list Z) (k : nat) : M st Z := match l !! k with Some v => mret v | None => undef end.

(** From word [i] on: the lowest bit of the first word with one. *)
Fixpoint find_key (i n : nat) (destructor : Z) : M st (option Z) :=
  match n with
  | O => mret None
  | S m =>
      w ← word_at i;
      if w =? 0 then find_key (S i) m destructor
      else
        match hal_lsbit_index w with
        | None => undef
        | Some k =>
            set_word i (Z.land w (Z.lnot (Z.shiftl 1 k)));;
            let k := k + Z.of_nat i * KEY_MAP_TYPE_SIZE in
            set_destructor (Z.to_nat k) destructor;;
            mret (Some k)
        end
  end.

(** The value of a key is cleared in all threads. *)
Fixpoint clear_key (k : nat) (i n : nat) : M st unit :=
  match n with
  | O => mret tt
  | S m =>
      t ← slot i;
      match t with
      | None => mret tt
      | Some a =>
          p ← info_at a;
          match thread_data p with
          | None => mret tt
          | Some l => data_at l k;; upd_info a (set_thread_data (Some (<[k := 0]> l)))
          end
      end;;
      clear_key k (S i) m
  end.

Definition pthread_key_create (destructor : Z) : M st (Z * option Z) :=
  lock;;
  k ← find_key 0 (PTHREAD_KEYS_MAX / 32) destructor;
  match k with Some k => clear_key (Z.to_nat k) 0 THREADS_MAX | None => mret tt end;;
  unlock;;
  mret (match k with None => (EAGAIN, None) | Some k => (0, Some k) end).

Definition pthread_key_delete (key : Z) : M st Z :=
  lock;;
  w ← word_at (key_word key);
  set_word (key_word key) (Z.lor w (key_bit key));;
  unlock;;
  mret 0.

Definition pthread_setspecific (key pointer : Z) : M st Z :=
  free ← key_free key;
  if free : bool then mret EINVAL
  else
    a ← self_ptr;
    p ← info_at a;
    when (match thread_data p with None => true | Some _ => false end) (upd_info a (set_thread_data (Some (replicate PTHREAD_KEYS_MAX 0))));;
    p ← info_at a;
    match thread_data p with
    | None => undef
    | Some l => data_at l (Z.to_nat (u32 key));; upd_info a (set_thread_data (Some (<[Z.to_nat (u32 key) := pointer]> l)))
    end;;
    mret 0.

Definition pthread_getspecific (key : Z) : M st Z :=
  free ← key_free key;
  if free : bool then mret 0
  else
    a ← self_ptr;
    p ← info_at a;
    match thread_data p with None => mret 0 | Some l => data_at l (Z.to_nat (u32 key)) end.

(** ** Cleanup handlers *)

Definition buffer_at (b : Z) : M st cleanup_buffer := fun s => match buffers s !! b with Some x => Ret (x, s) | None => UB end.

Definition pthread_cleanup_push_inner (buffer routine arg : Z) : M st unit :=
  a ← self_ptr;
  p ← info_at a;
  modify (fun s => set_buffers (<[buffer := mkBuf (cancelbuffer p) routine arg]> (buffers s)) s);;
  upd_info a (set_cancelbuffer (Some buffer)).

(** ** Routines of the application *)

Definition run_rop (o : rop) : M st unit :=
  match o with
  | SetSpecific k v => pthread_setspecific k v;; mret tt
  | KeyCreate d => pthread_key_create d;; mret tt
  | KeyDelete k => pthread_key_delete k;; mret tt
  | CleanupPush b r a => pthread_cleanup_push_inner b r a
  end.

Fixpoint run_rops (l : list rop) : M st unit := match l with [] => mret tt | o :: l => run_rop o;; run_rops l end.

(** A routine is called with its argument. *)
Definition call_routine (r a : Z) : M st unit := modify (fun s => set_called ((r, a) :: called s) s);; run_rops (routine_ops r a).

Definition pthread_cleanup_pop_inner (buffer : Z) (execute : bool) : M st unit :=
  a ← self_ptr;
  p ← info_at a;
  execute ← (if bool_decide (cancelbuffer p = Some buffer) then
               x ← buffer_at buffer; upd_info a (set_cancelbuffer (prev x));; mret execute
             else mret false);
  when execute (x ← buffer_at buffer; call_routine (routine x) (arg x)).

(** With the value of the control afterwards. *)
Definition pthread_once (once_control : option Z) (init_routine : Z) : M st (Z * option Z) :=
  match once_control with
  | None => mret (EINVAL, None)
  | Some old =>
      if init_routine =? 0 then mret (EINVAL, Some old)
      else
        lock;;
        unlock;;
        when (old =? 0) (call_routine init_routine 0);;
        mret (0, Some 1)
  end.

(** ** Exit *)

(** Each buffer is taken off before its handler is called. *)
Fixpoint cleanup_loop (fuel : nat) (a : Z) : M st unit :=
  p ← info_at a;
  match cancelbuffer p with
  | None => mret tt
  | Some b =>
      match fuel with
      | O => no_fuel
      | S k => x ← buffer_at b; upd_info a (set_cancelbuffer (prev x));; call_routine (routine x) (arg x);; cleanup_loop k a
      end
  end.

(** The destructors of [n] keys from [key] on; whether one was called. *)
Fixpoint key_pass (a : Z) (key n : nat) (destructors_called : bool) : M st bool :=
  match n with
  | O => mret destructors_called
  | S m =>
      free ← key_free (Z.of_nat key);
      if free : bool then key_pass a (S key) m destructors_called
      else
        d ← destructor_at key;
        if d =? 0 then key_pass a (S key) m destructors_called
        else
          p ← info_at a;
          match thread_data p with
          | None => undef
          | Some l =>
              v ← data_at l key;
              if v =? 0 then key_pass a (S key) m destructors_called
              else
                upd_info a (set_thread_data (Some (<[key := 0]> l)));;
                call_routine d v;;
                key_pass a (S key) m true
          end
  end.

(** [n] passes, at most, are left. *)
Fixpoint passes (n : nat) (a : Z) (destructor_iterations : nat) : M st unit :=
  match n with
  | O => mret tt
  | S m =>
      c ← key_pass a 0 PTHREAD_KEYS_MAX false;
      if c && (S destructor_iterations <=? DESTRUCTOR_ITERATIONS)%nat then passes m a (S destructor_iterations) else mret tt
  end.

Definition run_destructors (a : Z) : M st unit :=
  p ← info_at a;
  match thread_data p with None => mret tt | Some _ => passes (S DESTRUCTOR_ITERATIONS) a 0 end.

(** The thread and its kernel thread have ended, or the whole program. *)
Definition leave (a : Z) (v : Z) : M st bool :=
  lock;;
  upd_info a (set_retval v);;
  p ← info_at a;
  (if state p =? PTHREAD_STATE_DETACHED then
     upd_info a (set_state PTHREAD_STATE_EXITED);; modify (fun s => set_pthreads_exited (pthreads_exited s + 1) s)
   else
     upd_info a (set_state PTHREAD_STATE_JOIN);; modify (fun s => set_pthreads_tobejoined (pthreads_tobejoined s + 1) s));;
  s ← get;
  let call_exit := pthreads_exited s + pthreads_tobejoined s =? pthread_count s in
  unlock;;
  when (negb call_exit) (upd_thread a thread_exit);;
  mret call_exit.

(** Whether the program ends; the call does not return. *)
Definition pthread_exit (fuel : nat) (v : Z) : M st bool :=
  a ← self_ptr;
  pthread_setcancelstate PTHREAD_CANCEL_DISABLE;;
  cleanup_loop fuel a;;
  run_destructors a;;
  leave a v.

(** [None]: the thread goes on. *)
Definition pthread_testcancel (fuel : nat) : M st (option bool) :=
  c ← checkforcancel;
  if c : bool then r ← pthread_exit fuel PTHREAD_CANCELED; mret (Some r) else mret None.

(** The thread's function has returned. *)
Definition pthread_entry (fuel : nat) (result : Z) : M st bool := pthread_exit fuel result.

(** ** Joining *)

Definition pthread_detach (thread : Z) : M st Z :=
  lock;;
  d ← pthread_info_id thread;
  ret ← match d with
        | None => mret ESRCH
        | Some a =>
            p ← info_at a;
            if state p =? PTHREAD_STATE_DETACHED then mret EINVAL
            else upd_info a (set_state PTHREAD_STATE_DETACHED);; mret 0
        end;
  pthread_reap;;
  unlock;;
  mret ret.

(** What becomes of a caller that may end. *)
Inductive fate := Returns (err : Z) (value : option Z) | Ends (program : bool).

Definition run_act (fuel : nat) (o : act) : M st fate :=
  match o with
  | Create a r x => v ← pthread_create true a r x; mret (Returns v.1 v.2)
  | Exit v => b ← pthread_exit fuel v; mret (Ends b)
  | Detach t => e ← pthread_detach t; mret (Returns e None)
  | Cancel t => e ← pthread_cancel t; mret (Returns e None)
  | Setcancelstate v => r ← pthread_setcancelstate v; mret (Returns r.1 r.2)
  | Setcanceltype v => r ← pthread_setcanceltype v; mret (Returns r.1 r.2)
  end.

(** A call of the thread with an id; a thread that has ended makes none. *)
Definition by_thread {A} (t : Z) (m : M st A) : M st (option A) :=
  a ← pthread_info_id t;
  match a with
  | None => mret None
  | Some a =>
      p ← info_at a;
      match remaining (thread p) with
      | Some _ => mret None
      | None => me ← gets self; modify (set_self (Some a));; r ← m; modify (set_self me);; mret (Some r)
      end
  end.

Fixpoint run_acts (fuel : nat) (l : list (Z * act)) : M st unit :=
  match l with [] => mret tt | (t, o) :: l => by_thread t (run_act fuel o);; run_acts fuel l end.

(** A wait for the condition of a thread: the mutex is free meanwhile; a thread that nobody
    wakes does not return. *)
Definition joiner_wait (fuel : nat) : M st bool := fun s =>
  match wakes s with
  | [] => NoFuel
  | (l, r) :: w => (unlock;; run_acts fuel l;; lock;; mret r) (set_wakes w s)
  end.

(** Whether the wait was given up; [n]: the waits that are known. *)
Fixpoint join_loop (fuel n : nat) (a : Z) : M st bool :=
  p ← info_at a;
  if negb (state p =? PTHREAD_STATE_RUNNING) then mret false
  else
    match n with
    | O => no_fuel
    | S k =>
        r ← joiner_wait fuel;
        c ← (if negb r then checkforcancel else mret false);
        if c : bool then mret true else join_loop fuel k a
    end.

(** The error of joining the thread at [a]. *)
Definition join_error (fuel : nat) (a : Z) : M st Z :=
  p ← info_at a;
  if state p =? PTHREAD_STATE_RUNNING then
    w ← gets wakes;
    given_up ← join_loop fuel (length w) a;
    p ← info_at a;
    mret (if state p =? PTHREAD_STATE_JOIN then if given_up : bool then EAGAIN else 0 else EINVAL)
  else if state p =? PTHREAD_STATE_JOIN then mret 0
  else mret EINVAL.

(** Joining the thread at [a], and its value. *)
Definition join_at (fuel : nat) (a : Z) (thread_return : bool) : M st (Z * option Z) :=
  err ← join_error fuel a;
  if err =? 0 then
    p ← info_at a;
    upd_info a (set_state PTHREAD_STATE_EXITED);;
    modify (fun s => set_pthreads_exited (pthreads_exited s + 1) s);;
    modify (fun s => set_pthreads_tobejoined (pthreads_tobejoined s - 1) s);;
    pthread_reap;;
    mret (0, if thread_return then Some (retval p) else None)
  else mret (err, None).

Definition pthread_join (fuel : nat) (thread : Z) (thread_return : bool) : M st fate :=
  c ← pthread_testcancel fuel;
  match c with
  | Some b => mret (Ends b)
  | None =>
      lock;;
      pthread_reap;;
      me ← pthread_self_info;
      joinee ← pthread_info_id thread;
      r ← match joinee with
          | None => mret (ESRCH, None)
          | Some a => if bool_decide (Some a = me) then mret (EDEADLK, None) else join_at fuel a thread_return
          end;
      unlock;;
      c ← pthread_testcancel fuel;
      match c with Some b => mret (Ends b) | None => mret (Returns r.1 r.2) end
  end.

(** ** Scheduling *)

Definition pthread_setschedparam (thread_id policy : Z) (param : option Z) : M st Z :=
  if negb (policy =? SCHED_OTHER) && negb (policy =? SCHED_FIFO) && negb (policy =? SCHED_RR) then mret EINVAL
  else
    match param with
    | None => mret EINVAL
    | Some pri =>
        lock;;
        t ← pthread_info_id thread_id;
        match t with
        | None => unlock;; mret ESRCH
        | Some a =>
            upd_info a (fun p => set_attr (mkAttr (detachstate (attr p)) (scope (attr p)) (inheritsched (attr p)) policy pri
              (stackaddr_valid (attr p)) (stackaddr (attr p)) (stacksize_valid (attr p)) (stacksize (attr p))) p);;
            upd_thread a (thread_timeslice (negb (policy =? SCHED_FIFO)));;
            upd_thread a (thread_priority (PTHREAD_ECOS_PRIORITY pri));;
            unlock;;
            mret 0
        end
    end.

(** With the policy and the priority. *)
Definition pthread_getschedparam (thread_id : Z) : M st (Z * option (Z * Z)) :=
  lock;;
  t ← pthread_info_id thread_id;
  match t with
  | None => unlock;; mret (ESRCH, None)
  | Some a => p ← info_at a; unlock;; mret (0, Some (schedpolicy (attr p), sched_priority (attr p)))
  end.

(** ** Start *)

Definition all_keys_free : list Z := replicate (PTHREAD_KEYS_MAX / 32) (u32 (Z.lnot 0)).

(** [main_stack]: the end of the stack of the main thread, of [size] bytes; [call_main]: its
    function. *)
Definition main_attr (priority main_stack size : Z) : option pthread_attr_t :=
  (pthread_attr_setschedparam (pthread_attr_setschedpolicy (pthread_attr_setstacksize (pthread_attr_setstackaddr
    (pthread_attr_setinheritsched (pthread_attr_init (Some default_attr)).2 PTHREAD_EXPLICIT_SCHED).2 main_stack).2 size).2 SCHED_RR).2 (Some priority)).2.

Definition cyg_posix_pthread_start (priority main_stack size call_main : Z) : M st unit :=
  modify (set_thread_key all_keys_free);;
  pthread_create true (main_attr priority main_stack size) call_main 0;;
  mret tt.

End Code.
