(* ===== verification/PthreadFacts.v ===== *)
(** * The table of threads as a map from ids

    The invariant of the structures, what a state says of its threads, and what the calls
    that do not change it leave alone. *)

From stdpp Require Import gmap.
From S2P Require Import Prelude.
From S2P Require Import Hal.
From S2P Require Import Pthread.

Section Facts.
Context {kt : KThread} {cfg : PthreadConfig} {rt : Routines}.

(** ** What a state says of its threads *)

(** [Lost]: the thread was detached after it had ended, and its place is never used again. *)
Inductive tstatus := Running (detached : bool) | Ended (retval : Z) | Lost.

Record vthread := mkVT { v_status : tstatus; v_pending : bool; v_cancelstate : Z; v_canceltype : Z }.

Definition status_of (p : pthread_info) : tstatus :=
  if state p =? PTHREAD_STATE_JOIN then Ended (retval p)
  else match remaining (thread p) with None => Running (state p =? PTHREAD_STATE_DETACHED) | Some _ => Lost end.

Definition view_thread (p : pthread_info) : vthread := mkVT (status_of p) (cancelpending p) (cancelstate p) (canceltype p).

Definition index_of (x : Z) : nat := Z.to_nat (Z.land x THREAD_ID_COOKIE_MASK).

Definition vrow (x : option pthread_info) : option (Z * vthread) :=
  match x with Some p => if state p =? PTHREAD_STATE_EXITED then None else Some (id p, view_thread p) | None => None end.

Definition rows_of (m : gmap Z pthread_info) (l : list (option Z)) : list (option pthread_info) :=
  (fun x : option Z => match x with Some a => m !! a | None => None end) <$> l.

Definition rows (s : st) : list (option pthread_info) := rows_of (infos s) (thread_table s).

(** The threads that have not ended, and those that wait to be joined. *)
Definition threads (s : st) : gmap Z vthread := slots_map (vrow <$> rows s).

(** ** Counting *)

Fixpoint cnt (f : option pthread_info -> bool) (l : list (option pthread_info)) : Z := match l with [] => 0 | x :: l => Z.b2z (f x) + cnt f l end.

Lemma cnt_put f l i x y : l !! i = Some x -> cnt f (<[i := y]> l) = cnt f l - Z.b2z (f x) + Z.b2z (f y).
Proof.
  induction l as [|z l IH] in i |- *; [done|]. destruct i as [|i]; [intros [= ->]; cbn; lia|]. intros H. specialize (IH i H).
  change (Z.b2z (f z) + cnt f (<[i := y]> l) = Z.b2z (f z) + cnt f l - Z.b2z (f x) + Z.b2z (f y)). lia.
Qed.

Lemma cnt_nonneg f l : 0 <= cnt f l.
Proof. induction l as [|x l IH]; cbn; [lia|]. destruct (f x); cbn; lia. Qed.

Lemma cnt_0 f l : cnt f l = 0 <-> forall i x, l !! i = Some x -> f x = false.
Proof.
  induction l as [|x l IH]; cbn; [done|]. pose proof (cnt_nonneg f l). split.
  - intros E. destruct (f x) eqn:Hx; cbn in E; [lia|]. intros [|i] y; cbn; [by intros [= <-]|]. apply IH. lia.
  - intros Hall. rewrite (Hall 0%nat x eq_refl). cbn. apply IH. intros i y. apply (Hall (S i)).
Qed.

Lemma cnt_pos f l i x : l !! i = Some x -> f x = true -> 0 < cnt f l.
Proof.
  intros Hi Hx. pose proof (cnt_nonneg f l). destruct (Z.eq_dec (cnt f l) 0) as [E|]; [|lia]. pose proof (proj1 (cnt_0 f l) E i x Hi). congruence.
Qed.

Lemma cnt_ext f g l l' : (forall i x, l !! i = Some x -> exists y, l' !! i = Some y /\ f x = g y) -> length l = length l' -> cnt f l = cnt g l'.
Proof.
  induction l as [|x l IH] in l' |- *; destruct l' as [|y l']; cbn; try done. intros H Hl. destruct (H 0%nat x eq_refl) as (z & [= <-] & ->).
  f_equal. apply IH; [|lia]. intros i u Hu. apply (H (S i) u Hu).
Qed.

Definition is_present (x : option pthread_info) : bool := match x with Some _ => true | None => false end.

Definition is_exited (x : option pthread_info) : bool := match x with Some p => state p =? PTHREAD_STATE_EXITED | None => false end.

(** Ended, and not on the way to be reaped. *)
Definition is_waiting (x : option pthread_info) : bool :=
  match x with
  | Some p => (state p =? PTHREAD_STATE_JOIN) || ((state p <=? PTHREAD_STATE_RUNNING) && (match remaining (thread p) with Some _ => true | None => false end))
  | None => false
  end.

Definition is_live (x : option pthread_info) : bool :=
  match x with Some p => (state p <=? PTHREAD_STATE_RUNNING) && (match remaining (thread p) with Some _ => false | None => true end) | None => false end.

(** ** The invariant *)

(** A list of cleanup buffers. *)
Fixpoint chain (b : gmap Z cleanup_buffer) (p : option Z) (l : list Z) : Prop :=
  match l with
  | [] => p = None
  | x :: l => p = Some x /\ exists c, b !! x = Some c /\ chain b (prev c) l
  end.

Record row_ok (i : nat) (p : pthread_info) : Prop := {
  ro_id : index_of (id p) = i;
  ro_state : PTHREAD_STATE_DETACHED <= state p <= PTHREAD_STATE_EXITED;
  ro_running : state p = PTHREAD_STATE_RUNNING -> remaining (thread p) = None;
  ro_ended : PTHREAD_STATE_JOIN <= state p -> is_Some (remaining (thread p));
}.

(** [n]: no thread has pushed more cleanup handlers. *)
Record Core (n : nat) (m : gmap Z pthread_info) (b : gmap Z cleanup_buffer) (tab : list (option Z)) (next : nat) (cookie : Z) (keys dtors : list Z) : Prop := {
  co_size : length tab = THREADS_MAX;
  co_max : (0 < THREADS_MAX <= 1024)%nat;
  co_next : (next < THREADS_MAX)%nat;
  co_cookie : cookie mod 1024 = 0 /\ 0 <= cookie < 2 ^ 32;
  co_slot : forall i a, tab !! i = Some (Some a) -> exists p, m !! a = Some p /\ row_ok i p;
  co_dom : forall a p, m !! a = Some p -> exists i, tab !! i = Some (Some a);
  co_keys : (PTHREAD_KEYS_MAX mod 32 = 0)%nat /\ length keys = (PTHREAD_KEYS_MAX / 32)%nat /\ length dtors = PTHREAD_KEYS_MAX /\ Forall is_u32 keys;
  co_data : forall a p l, m !! a = Some p -> thread_data p = Some l -> length l = PTHREAD_KEYS_MAX;
  co_chain : forall a p, m !! a = Some p -> exists l, chain b (cancelbuffer p) l /\ (length l <= n)%nat;
}.

Definition core (n : nat) (s : st) : Prop :=
  Core n (infos s) (buffers s) (thread_table s) (thread_info_next s) (thread_id_cookie s) (thread_key s) (key_destructor s).

Record Counts (count exited tobejoined : Z) (l : list (option pthread_info)) : Prop := {
  cn_count : count = cnt is_present l;
  cn_exited : exited = cnt is_exited l;
  cn_waiting : tobejoined = cnt is_waiting l;
}.

Definition counts (s : st) : Prop := Counts (pthread_count s) (pthreads_exited s) (pthreads_tobejoined s) (rows s).

Definition wf (n : nat) (s : st) : Prop := core n s /\ counts s.

(** *** Rows *)

Lemma rows_at s i a p : thread_table s !! i = Some (Some a) -> infos s !! a = Some p -> rows s !! i = Some (Some p).
Proof. intros H1 H2. unfold rows, rows_of. rewrite list_lookup_fmap, H1. cbn. by rewrite H2. Qed.

Lemma rows_length s : length (rows s) = length (thread_table s).
Proof. unfold rows, rows_of. by rewrite length_fmap. Qed.

Lemma rows_inv n s i x : core n s -> rows s !! i = Some x ->
  match x with
  | None => thread_table s !! i = Some None
  | Some p => exists a, thread_table s !! i = Some (Some a) /\ infos s !! a = Some p /\ row_ok i p
  end.
Proof.
  intros Hc Hi. unfold rows, rows_of in Hi. rewrite list_lookup_fmap in Hi. destruct (thread_table s !! i) as [[a|]|] eqn:E; [| |done].
  - cbn in Hi. destruct (co_slot _ _ _ _ _ _ _ _ Hc i a E) as (p & Hp & Hok). rewrite Hp in Hi. injection Hi as <-. by exists a.
  - cbn in Hi. by injection Hi as <-.
Qed.

(** Each thread is in one entry. *)
Lemma thread_slot_inj n s i j a : core n s -> thread_table s !! i = Some (Some a) -> thread_table s !! j = Some (Some a) -> i = j.
Proof.
  intros Hc Hi Hj. destruct (co_slot _ _ _ _ _ _ _ _ Hc i a Hi) as (p & Hp & Ho). destruct (co_slot _ _ _ _ _ _ _ _ Hc j a Hj) as (q & Hq & Ho').
  assert (p = q) as <- by congruence. by rewrite <- (ro_id _ _ Ho), (ro_id _ _ Ho').
Qed.

Lemma threads_ok n s : core n s -> slots_ok index_of (vrow <$> rows s).
Proof.
  intros Hc i k v Hi. rewrite list_lookup_fmap in Hi. destruct (rows s !! i) as [x|] eqn:E; [|done]. injection Hi as Hi.
  pose proof (rows_inv n s i x Hc E) as H. destruct x as [p|]; [|done]. destruct H as (a & _ & _ & Ho). cbn in Hi.
  destruct (state p =? PTHREAD_STATE_EXITED); [done|]. injection Hi as <- <-. apply Ho.
Qed.

(** The structure of one thread is changed. *)
Definition put (a : Z) (p : pthread_info) (s : st) : st := set_infos (<[a := p]> (infos s)) s.

Lemma info_put_same s a p : infos s !! a = Some p -> put a p s = s.
Proof. intros H. unfold put. rewrite insert_id by done. by destruct s. Qed.

Lemma info_put_put s a p q : put a q (put a p s) = put a q s.
Proof. unfold put, set_infos. cbn. by rewrite insert_insert_eq. Qed.

Lemma rows_put n s i a p : core n s -> thread_table s !! i = Some (Some a) -> rows (put a p s) = <[i := Some p]> (rows s).
Proof.
  intros Hc Hi. pose proof (lookup_lt_Some _ _ _ Hi) as Hlt. apply list_eq. intros j. unfold rows, rows_of, put. cbn. rewrite list_lookup_fmap.
  destruct (decide (j = i)) as [->|Hj].
  - rewrite list_lookup_insert_eq by by rewrite length_fmap. rewrite Hi. cbn. by rewrite lookup_insert_eq.
  - rewrite list_lookup_insert_ne, list_lookup_fmap by done. destruct (thread_table s !! j) as [[b|]|] eqn:E; [|done..]. cbn.
    rewrite lookup_insert_ne; [done|]. intros ->. apply Hj. by eapply thread_slot_inj.
Qed.

Lemma core_put n s i a p q : core n s -> thread_table s !! i = Some (Some a) -> infos s !! a = Some p -> row_ok i q ->
  (forall l, thread_data q = Some l -> length l = PTHREAD_KEYS_MAX) -> (exists l, chain (buffers s) (cancelbuffer q) l /\ (length l <= n)%nat) -> core n (put a q s).
Proof.
  intros Hc Hi Hp Ho Hd Hch. pose proof Hc as [C1 C2 C3 C4 C5 C6 C7 C8 C9]. split; try done; cbn.
  - intros j b Hj. destruct (decide (b = a)) as [->|Hb].
    + rewrite lookup_insert_eq. exists q. split; [done|]. by replace j with i by by eapply thread_slot_inj.
    + rewrite lookup_insert_ne by done. by apply C5.
  - intros b r Hb. apply lookup_insert_Some in Hb as [[<- <-]|[_ Hb]]; [by exists i|by eapply C6].
  - intros b r l Hb. apply lookup_insert_Some in Hb as [[<- <-]|[_ Hb]]; [apply Hd|by eapply C8].
  - intros b r Hb. apply lookup_insert_Some in Hb as [[<- <-]|[_ Hb]]; [done|by eapply C9].
Qed.

Lemma threads_put n s i a p q : core n s -> core n (put a q s) -> thread_table s !! i = Some (Some a) -> infos s !! a = Some p ->
  threads (put a q s) = row_add (vrow (Some q)) (row_del (vrow (Some p)) (threads s)).
Proof.
  intros Hc Hc' Hi Hp. pose proof (threads_ok _ _ Hc') as Hok. unfold threads. rewrite (rows_put n s i a q Hc Hi) in *. rewrite (list_fmap_insert vrow) in *.
  apply (slots_put index_of); [by eapply threads_ok|by rewrite list_lookup_fmap, (rows_at s i a p)|done].
Qed.

(** ** Basic operations *)

Lemma wp_plock (P : unit -> st -> Prop) s : held s = false -> P tt (set_held true s) -> wp lock P s.
Proof. intros H HP. apply (wp_eq _ _ _ tt (set_held true s)); [unfold lock; by rewrite H|done]. Qed.

Lemma wp_info_at a p (P : pthread_info -> st -> Prop) s : infos s !! a = Some p -> P p s -> wp (info_at a) P s.
Proof. intros H HP. apply (wp_eq _ _ _ p s); [unfold info_at; by rewrite H|done]. Qed.

Lemma wp_upd_info a f p (P : unit -> st -> Prop) s : infos s !! a = Some p -> P tt (put a (f p) s) -> wp (upd_info a f) P s.
Proof. intros H HP. unfold upd_info. by apply wp_bind, (wp_info_at _ p), wp_modify. Qed.

Lemma info_put_at s a p : infos (put a p s) !! a = Some p.
Proof. unfold put. cbn. apply lookup_insert_eq. Qed.

(** Changes of one structure in a row. *)
Lemma wp_upd_info_put a f p (P : unit -> st -> Prop) s : P tt (put a (f p) s) -> wp (upd_info a f) P (put a p s).
Proof. intros HP. apply (wp_upd_info _ _ p); [apply info_put_at|]. by rewrite info_put_put. Qed.

Lemma wp_info_at_put a p (P : pthread_info -> st -> Prop) s : P p (put a p s) -> wp (info_at a) P (put a p s).
Proof. intros HP. apply (wp_info_at _ p); [apply info_put_at|done]. Qed.

Lemma wp_slot i x (P : option Z -> st -> Prop) s : thread_table s !! i = Some x -> P x s -> wp (slot i) P s.
Proof. intros H HP. apply (wp_eq _ _ _ x s); [unfold slot; by rewrite H|done]. Qed.

Lemma wp_self_ptr a (P : Z -> st -> Prop) s : self s = Some a -> P a s -> wp self_ptr P s.
Proof. intros H HP. unfold self_ptr, pthread_self_info. apply wp_bind, wp_gets. rewrite H. by apply wp_ret. Qed.

Lemma slot_at n s i : core n s -> (i < THREADS_MAX)%nat -> exists x, thread_table s !! i = Some x.
Proof. intros Hc Hi. apply lookup_lt_is_Some_2. by rewrite (co_size _ _ _ _ _ _ _ _ Hc). Qed.

(** An id is that of a thread of the map, which has a structure, or of none. *)
Lemma wp_info_id n x (P : option Z -> st -> Prop) s : core n s -> (index_of x < THREADS_MAX)%nat ->
  (threads s !! x = None -> P None s) ->
  (forall i a p, thread_table s !! i = Some (Some a) -> infos s !! a = Some p -> row_ok i p -> id p = x -> state p <> PTHREAD_STATE_EXITED ->
    threads s !! x = Some (view_thread p) -> P (Some a) s) ->
  wp (pthread_info_id x) P s.
Proof.
  intros Hc Hx H0 H1. destruct (slot_at n s _ Hc Hx) as [y Hy]. unfold pthread_info_id. fold (index_of x). apply wp_bind, (wp_slot _ y); [done|].
  assert (threads s !! x = match vrow (match y with Some a => infos s !! a | None => None end) with Some (k, v) => if k =? x then Some v else None | None => None end) as Et.
  { unfold threads. rewrite (slots_lookup index_of) by by eapply threads_ok. rewrite list_lookup_fmap. unfold rows, rows_of. rewrite list_lookup_fmap, Hy. done. }
  destruct y as [a|]; [|apply wp_ret; by apply H0]. destruct (co_slot _ _ _ _ _ _ _ _ Hc _ a Hy) as (p & Hp & Ho). rewrite Hp in Et.
  apply wp_bind, (wp_info_at _ p); [done|]. cbn [vrow] in Et. destruct (Z.eqb_spec (state p) PTHREAD_STATE_FREE) as [E|_]; [pose proof (ro_state _ _ Ho); unfold PTHREAD_STATE_FREE, PTHREAD_STATE_DETACHED in *; lia|].
  cbn [orb]. destruct (Z.eqb_spec (state p) PTHREAD_STATE_EXITED) as [E|E]; [apply wp_ret; by apply H0|].
  destruct (Z.eqb_spec (id p) x) as [Eid|Eid]; cbn [negb]; apply wp_ret; [|by apply H0]. by eapply (H1 _ a p).
Qed.

(** ** Data and keys *)

(** What is left when the data of a thread are forgotten. *)
Definition erase (p : pthread_info) : pthread_info := set_thread_data None p.

(** What routines that only use keys leave alone. *)
Definition rest (s : st) : _ :=
  ((erase <$> infos s), buffers s, thread_table s, (pthread_count s, pthreads_exited s, pthreads_tobejoined s),
   (thread_info_next s, thread_id_cookie s), (self s, held s, blocks s, freed s, wakes s)).

Lemma rest_rows s s' : rest s' = rest s -> vrow <$> rows s' = vrow <$> rows s /\ (forall f, (forall p, f (Some (erase p)) = f (Some p)) -> cnt f (rows s') = cnt f (rows s)).
Proof.
  intros H. unfold rest in H. assert (erase <$> infos s' = erase <$> infos s) as Hm by congruence. assert (thread_table s' = thread_table s) as Ht by congruence.
  assert (forall a, erase <$> infos s' !! a = erase <$> infos s !! a) as Ha by (intros a; by rewrite <- !lookup_fmap, Hm).
  assert (forall p, vrow (Some (erase p)) = vrow (Some p)) as Hv by by intros [].
  unfold rows, rows_of. rewrite Ht. split.
  - rewrite <- !list_fmap_compose. apply list_fmap_ext. intros i x Hx. cbn. destruct x as [a|]; [|done]. specialize (Ha a).
    destruct (infos s' !! a) as [p|], (infos s !! a) as [q|]; try done. apply (inj Some) in Ha. by rewrite <- (Hv p), <- (Hv q), Ha.
  - intros f Hf. apply cnt_ext; [|by rewrite !length_fmap]. intros i x Hx. rewrite list_lookup_fmap in Hx. rewrite list_lookup_fmap.
    destruct (thread_table s !! i) as [[a|]|]; [| |done]; cbn in *; [|injection Hx as <-; by eexists]. injection Hx as <-. eexists. split; [done|]. specialize (Ha a).
    destruct (infos s' !! a) as [p|], (infos s !! a) as [q|]; try done. apply (inj Some) in Ha. by rewrite <- (Hf p), <- (Hf q), Ha.
Qed.

Lemma rest_inv s s' : rest s' = rest s ->
  self s' = self s /\ held s' = held s /\ buffers s' = buffers s /\ thread_table s' = thread_table s /\
  (pthread_count s' = pthread_count s /\ pthreads_exited s' = pthreads_exited s /\ pthreads_tobejoined s' = pthreads_tobejoined s) /\
  wakes s' = wakes s /\ erase <$> infos s' = erase <$> infos s.
Proof. unfold rest. intros H. split_and!; congruence. Qed.

Lemma rest_threads s s' : rest s' = rest s -> threads s' = threads s.
Proof. intros H. unfold threads. by destruct (rest_rows _ _ H) as [-> _]. Qed.

Lemma rest_counts s s' : rest s' = rest s -> counts s -> counts s'.
Proof.
  intros H [C1 C2 C3]. destruct (rest_rows _ _ H) as [_ Hc]. unfold rest in H.
  split; [rewrite (Hc is_present)|rewrite (Hc is_exited)|rewrite (Hc is_waiting)]; try (by intros []); congruence.
Qed.

Lemma rest_info s s' a p : rest s' = rest s -> infos s !! a = Some p -> exists p', infos s' !! a = Some p' /\ erase p' = erase p.
Proof.
  intros H Hp. unfold rest in H. assert (erase <$> infos s' = erase <$> infos s) as Hm by congruence.
  assert (erase <$> infos s' !! a = erase <$> infos s !! a) as Ha by by rewrite <- !lookup_fmap, Hm. rewrite Hp in Ha. destruct (infos s' !! a) as [q|]; [|done]. apply (inj Some) in Ha. by exists q.
Qed.

Lemma rest_put s a p q : infos s !! a = Some p -> erase q = erase p -> rest (put a q s) = rest s.
Proof.
  intros Hp He. unfold rest, put. cbn. assert (erase <$> <[a := q]> (infos s) = erase <$> infos s) as ->; [|done].
  rewrite fmap_insert. apply insert_id. by rewrite lookup_fmap, Hp, He.
Qed.

(** A state in which only data, keys and the trace of calls have changed. *)
Definition kept (n : nat) (s s' : st) : Prop := core n s' /\ rest s' = rest s.

Lemma kept_refl n s : core n s -> kept n s s.
Proof. by split. Qed.

Lemma kept_chain n s s1 s2 : kept n s s1 -> kept n s1 s2 -> kept n s s2.
Proof. intros [_ E1] [H2 E2]. split; [done|congruence]. Qed.

Lemma kept_self n s s' : kept n s s' -> self s' = self s /\ held s' = held s.
Proof. intros [_ E]. unfold rest in E. split; congruence. Qed.

Definition key_ok (key : Z) : Prop := 0 <= key < Z.of_nat PTHREAD_KEYS_MAX.

Lemma keys_words n s : core n s -> (PTHREAD_KEYS_MAX = 32 * length (thread_key s))%nat.
Proof. intros Hc. destruct (co_keys _ _ _ _ _ _ _ _ Hc) as (H & -> & _). by apply Nat.Div0.div_exact. Qed.

Lemma key_word_lt n s key : core n s -> key_ok key -> key < 2 ^ 32 -> (key_word key < length (thread_key s))%nat.
Proof.
  intros Hc [H1 H2] H3. pose proof (keys_words n s Hc) as E. unfold key_word, KEY_MAP_TYPE_SIZE. rewrite (uwrap_id 32) by lia.
  assert (key / 32 < Z.of_nat (length (thread_key s))) by (apply Z.div_lt_upper_bound; lia). pose proof (Z.div_pos key 32). lia.
Qed.

(** Keys are [int]s. *)
Definition keys_int : Prop := Z.of_nat PTHREAD_KEYS_MAX < 2 ^ 31.
Context (kint : keys_int).

Lemma key_u32 key : key_ok key -> u32 key = key.
Proof. intros [H1 H2]. apply uwrap_id. unfold keys_int in kint. lia. Qed.

(** The bit of a key in its word says that it is free. *)
Definition is_free (s : st) (key : Z) : bool := match thread_key s !! key_word key with Some w => negb (Z.land w (key_bit key) =? 0) | None => false end.

Lemma wp_key_free n s key (P : bool -> st -> Prop) : core n s -> key_ok key -> P (is_free s key) s -> wp (key_free key) P s.
Proof.
  intros Hc Hk HP. destruct (lookup_lt_is_Some_2 (thread_key s) (key_word key)) as [w Hw]; [apply (key_word_lt n); [done|done|destruct Hk; unfold keys_int in kint; lia]|].
  unfold key_free. apply wp_bind, (wp_eq _ _ _ w s); [unfold word_at; by rewrite Hw|]. apply wp_ret. unfold is_free in HP. by rewrite Hw in HP.
Qed.

Lemma core_keys n s i w : core n s -> is_u32 w -> core n (set_thread_key (<[i := w]> (thread_key s)) s).
Proof.
  intros [C1 C2 C3 C4 C5 C6 (K1 & K2 & K3 & K4) C8 C9] Hw. split; try done. cbn. split_and!; [done|by rewrite length_insert|done|by apply Forall_insert].
Qed.

Lemma wp_set_word n s i w x (P : unit -> st -> Prop) : core n s -> thread_key s !! i = Some x -> P tt (set_thread_key (<[i := w]> (thread_key s)) s) -> wp (set_word i w) P s.
Proof. intros Hc Hi HP. unfold set_word. apply wp_bind, (wp_eq _ _ _ x s); [unfold word_at; by rewrite Hi|]. by apply wp_modify. Qed.

Lemma info_slot n s a p : core n s -> infos s !! a = Some p -> exists i, thread_table s !! i = Some (Some a) /\ row_ok i p.
Proof.
  intros Hc Hp. destruct (co_dom _ _ _ _ _ _ _ _ Hc a p Hp) as [i Hi]. destruct (co_slot _ _ _ _ _ _ _ _ Hc i a Hi) as (q & Hq & Ho). exists i. split; [done|congruence].
Qed.

(** New data for a thread. *)
Lemma kept_data n s a p l : core n s -> infos s !! a = Some p -> length l = PTHREAD_KEYS_MAX -> kept n s (put a (set_thread_data (Some l) p) s).
Proof.
  intros Hc Hp Hl. destruct (info_slot n s a p Hc Hp) as (i & Hi & Ho). split; [|by apply (rest_put s a p)].
  apply (core_put n s i a p); [done|done|done| | |].
  - by destruct Ho as [O1 O2 O3 O4].
  - cbn. by intros ? [= <-].
  - by apply (co_chain _ _ _ _ _ _ _ _ Hc a p).
Qed.

Lemma data_lookup (l : list Z) key : length l = PTHREAD_KEYS_MAX -> key_ok key -> exists v, l !! Z.to_nat key = Some v.
Proof. intros Hl [H1 H2]. apply lookup_lt_is_Some_2. lia. Qed.

Lemma wp_data_at (l : list Z) k v (P : Z -> st -> Prop) s : l !! k = Some v -> P v s -> wp (data_at l k) P s.
Proof. intros H HP. apply (wp_eq _ _ _ v s); [unfold data_at; by rewrite H|done]. Qed.

(** The data of a thread: all null when there is none yet. *)
Definition data_of (p : pthread_info) : list Z := default (replicate PTHREAD_KEYS_MAX 0) (thread_data p).

Lemma wp_setspecific n s a p key v (P : Z -> st -> Prop) : core n s -> self s = Some a -> infos s !! a = Some p -> key_ok key ->
  (is_free s key = true -> P EINVAL s) ->
  (is_free s key = false -> P 0 (put a (set_thread_data (Some (<[Z.to_nat key := v]> (data_of p))) p) s)) ->
  wp (pthread_setspecific key v) P s.
Proof.
  intros Hc Ha Hp Hk H0 H1. unfold pthread_setspecific. apply wp_bind. apply (wp_key_free n); [done|done|]. destruct (is_free s key); [by apply wp_ret, H0|].
  apply wp_bind, (wp_self_ptr a); [done|]. apply wp_bind, (wp_info_at _ p); [done|]. rewrite key_u32 by done.
  assert (length (data_of p) = PTHREAD_KEYS_MAX) as Hl.
  { unfold data_of. destruct (thread_data p) eqn:E; cbn; [by eapply (co_data _ _ _ _ _ _ _ _ Hc)|apply length_replicate]. }
  destruct (data_lookup _ key Hl Hk) as [x Hx]. apply wp_bind.
  assert (forall q, thread_data q = Some (data_of p) -> set_thread_data (Some (<[Z.to_nat key := v]> (data_of p))) q = set_thread_data (Some (<[Z.to_nat key := v]> (data_of p))) p ->
    wp (p ← info_at a; match thread_data p with None => undef | Some l => data_at l (Z.to_nat key);; upd_info a (set_thread_data (Some (<[Z.to_nat key := v]> l))) end;; mret 0) P (put a q s)) as Hend.
  { intros q Hq Eq. apply wp_bind, wp_info_at_put. rewrite Hq. apply wp_bind, wp_bind, (wp_data_at _ _ x); [done|]. apply wp_upd_info_put. rewrite Eq. by apply wp_ret, H1. }
  unfold data_of in Hend. destruct (thread_data p) as [l|] eqn:E.
  - apply wp_ret. rewrite <- (info_put_same s a p) by done. by apply Hend.
  - apply (wp_upd_info _ _ p); [done|]. by apply Hend.
Qed.

Lemma key_split i b : 0 <= b < 32 -> key_ok (b + Z.of_nat i * 32) -> key_word (b + Z.of_nat i * 32) = i /\ key_bit (b + Z.of_nat i * 32) = 2 ^ b.
Proof.
  intros Hb Hk. unfold key_word, key_bit, KEY_MAP_TYPE_SIZE. rewrite key_u32 by done. rewrite Z.div_add, Z.div_small, Z.mod_add, Z.mod_small by lia.
  split; [lia|]. rewrite Z.shiftl_1_l. apply uwrap_id. split; [lia|]. apply Z.pow_lt_mono_r; lia.
Qed.

Lemma land_pow2 w b : 0 <= b -> negb (Z.land w (2 ^ b) =? 0) = Z.testbit w b.
Proof.
  intros Hb. destruct (Z.testbit w b) eqn:E.
  - apply negb_true_iff, Z.eqb_neq. intros H. apply (f_equal (fun x => Z.testbit x b)) in H. by rewrite Z.land_spec, Z.pow2_bits_true, E, Z.testbit_0_l in H by lia.
  - apply negb_false_iff, Z.eqb_eq. apply Z.bits_inj'. intros j Hj. rewrite Z.land_spec, Z.testbit_0_l, Z.pow2_bits_eqb by lia.
    destruct (Z.eqb_spec b j) as [->|]; [by rewrite E|by rewrite andb_false_r].
Qed.

Lemma is_free_bit s i b w : thread_key s !! i = Some w -> 0 <= b < 32 -> key_ok (b + Z.of_nat i * 32) -> is_free s (b + Z.of_nat i * 32) = Z.testbit w b.
Proof. intros Hi Hb Hk. destruct (key_split i b Hb Hk) as [E1 E2]. unfold is_free. rewrite E1, E2, Hi. apply land_pow2. lia. Qed.

(** Every key is a bit of a word. *)
Lemma key_bits n s key : core n s -> key_ok key -> exists i b w, key = b + Z.of_nat i * 32 /\ 0 <= b < 32 /\ thread_key s !! i = Some w /\ is_u32 w.
Proof.
  intros Hc [H1 H2]. pose proof (keys_words n s Hc) as E. exists (Z.to_nat (key / 32)), (key mod 32).
  assert (key / 32 < Z.of_nat (length (thread_key s))) by (apply Z.div_lt_upper_bound; lia). pose proof (Z.div_pos key 32). pose proof (Z.mod_pos_bound key 32).
  destruct (lookup_lt_is_Some_2 (thread_key s) (Z.to_nat (key / 32))) as [w Hw]; [lia|]. exists w. split_and!; [|lia|lia|done|].
  - pose proof (Z.div_mod key 32). lia.
  - destruct (co_keys _ _ _ _ _ _ _ _ Hc) as (_ & _ & _ & Hall). by eapply Forall_lookup_1.
Qed.

Lemma u32_bits w j : is_u32 w -> 32 <= j -> Z.testbit w j = false.
Proof. intros Hw Hj. unfold is_u32 in Hw. apply (small_bits w 32); [lia|lia|lia]. Qed.

Lemma u32_land w x : is_u32 w -> is_u32 (Z.land w x).
Proof.
  intros Hw. unfold is_u32 in *. assert (Z.land w x = uwrap 32 (Z.land w x)) as ->; [|apply uwrap_range; lia].
  apply Z.bits_inj'. intros j Hj. unfold uwrap. rewrite <- Z.land_ones, !Z.land_spec, Z.testbit_ones_nonneg by lia.
  destruct (Z.ltb_spec j 32); [by rewrite andb_true_r|]. by rewrite (u32_bits w j) by done.
Qed.

Lemma u32_set w b : is_u32 w -> 0 <= b < 32 -> is_u32 (Z.lor w (2 ^ b)).
Proof.
  intros Hw Hb. unfold is_u32 in *. assert (Z.lor w (2 ^ b) = uwrap 32 (Z.lor w (2 ^ b))) as ->; [|apply uwrap_range; lia].
  apply Z.bits_inj'. intros j Hj. unfold uwrap. rewrite <- Z.land_ones, Z.land_spec, !Z.lor_spec, Z.testbit_ones_nonneg by lia.
  destruct (Z.ltb_spec j 32); [by rewrite andb_true_r|]. rewrite (u32_bits w j), Z.pow2_bits_false by (done || lia). done.
Qed.

Lemma alter_at {A} (f : A -> A) (l : list A) i x : l !! i = Some x -> alter f i l = <[i := f x]> l.
Proof.
  intros Hx. apply list_eq. intros j. destruct (decide (j = i)) as [->|Hj].
  - rewrite list_lookup_alter_eq, Hx, list_lookup_insert_eq by by eapply lookup_lt_Some. done.
  - by rewrite list_lookup_alter_ne, list_lookup_insert_ne by done.
Qed.

(** The lowest free key is taken. *)
Definition take_key (k : Z) (d : Z) (s : st) : st :=
  set_key_destructor (<[Z.to_nat k := d]> (key_destructor s))
    (set_thread_key (alter (fun w => Z.land w (Z.lnot (key_bit k))) (key_word k) (thread_key s)) s).

Lemma wp_find_key n s d (P : option Z -> st -> Prop) : core n s ->
  ((forall k, key_ok k -> is_free s k = false) -> P None s) ->
  (forall k, key_ok k -> is_free s k = true -> (forall j, 0 <= j < k -> is_free s j = false) -> P (Some k) (take_key k d s)) ->
  wp (find_key 0 (PTHREAD_KEYS_MAX / 32) d) P s.
Proof.
  intros Hc H0 H1. pose proof (keys_words n s Hc) as Elen. destruct (co_keys _ _ _ _ _ _ _ _ Hc) as (_ & Hl & Hd & Hall). rewrite <- Hl.
  assert (forall m i, (i + m = length (thread_key s))%nat -> (forall j w, (j < i)%nat -> thread_key s !! j = Some w -> w = 0) -> wp (find_key i m d) P s) as Hgo;
    [|apply Hgo; [done|lia]].
  assert (forall i j, (forall j w, (j < i)%nat -> thread_key s !! j = Some w -> w = 0) -> 0 <= j < Z.of_nat i * 32 -> key_ok j -> is_free s j = false) as Hzero.
  { intros i j Hw Hj Hk. destruct (key_bits n s j Hc Hk) as (i' & b & w & -> & Hb & Hi' & _). rewrite (is_free_bit s i' b w) by done.
    rewrite (Hw i' w) by (done || lia). apply Z.testbit_0_l. }
  induction m as [|m IH]; intros i Hi Hw; cbn [find_key].
  - apply wp_ret, H0. intros k Hk. apply (Hzero i k Hw); [destruct Hk; lia|done].
  - destruct (lookup_lt_is_Some_2 (thread_key s) i) as [w Hwi]; [lia|]. apply wp_bind, (wp_eq _ _ _ w s); [unfold word_at; by rewrite Hwi|].
    destruct (Z.eqb_spec w 0) as [->|Hne].
    { apply IH; [lia|]. intros j x Hj Hx. destruct (decide (j = i)) as [->|]; [congruence|apply (Hw j); [lia|done]]. }
    assert (is_u32 w) as Hu by (by eapply Forall_lookup_1). destruct (lsbit_lowest w) as (b & Hb & Hbr & Hbit & Hlow); [unfold is_u32 in Hu; lia|]. rewrite Hb.
    assert (key_ok (b + Z.of_nat i * 32)) as Hk by (split; lia). destruct (key_split i b Hbr Hk) as [Ew Eb].
    apply wp_bind, (wp_set_word n _ _ _ w); [done|done|]. destruct (lookup_lt_is_Some_2 (key_destructor s) (Z.to_nat (b + Z.of_nat i * KEY_MAP_TYPE_SIZE))) as [x Hx].
    { rewrite Hd. unfold KEY_MAP_TYPE_SIZE. lia. }
    unfold set_destructor. apply wp_bind, wp_bind, (wp_eq _ _ _ x (set_thread_key (<[i := Z.land w (Z.lnot (Z.shiftl 1 b))]> (thread_key s)) s)); [unfold destructor_at; cbn; by rewrite Hx|].
    apply wp_modify, wp_ret. assert (set_key_destructor (<[Z.to_nat (b + Z.of_nat i * KEY_MAP_TYPE_SIZE) := d]> (key_destructor s)) (set_thread_key (<[i := Z.land w (Z.lnot (Z.shiftl 1 b))]> (thread_key s)) s)
      = take_key (b + Z.of_nat i * 32) d s) as E.
    { unfold take_key. rewrite Ew, Eb, Z.shiftl_1_l. by rewrite (alter_at _ _ _ w Hwi). }
    cbn [key_destructor set_thread_key] in *. rewrite E. apply H1; [done|by rewrite (is_free_bit s i b w)|]. intros j Hj.
    assert (key_ok j) as Hkj by (destruct Hk; split; lia). destruct (decide (j < Z.of_nat i * 32)) as [Hlt|Hge]; [apply (Hzero i j Hw); [lia|done]|].
    replace j with ((j - Z.of_nat i * 32) + Z.of_nat i * 32) by lia. rewrite (is_free_bit s i _ w); [apply Hlow; lia|done|lia|]. by replace (j - Z.of_nat i * 32 + Z.of_nat i * 32) with j by lia.
Qed.

Lemma take_kept n s k d : core n s -> key_ok k -> kept n s (take_key k d s).
Proof.
  intros [C1 C2 C3 C4 C5 C6 (K1 & K2 & K3 & K4) C8 C9] Hk. split; [|done]. unfold take_key. split; try done. cbn. split_and!; [done|by rewrite length_alter|by rewrite length_insert|].
  apply Forall_alter; [done|]. intros w _ Hw. by apply u32_land.
Qed.

Lemma take_free n s k d j : core n s -> key_ok k -> key_ok j -> is_free (take_key k d s) j = is_free s j && negb (j =? k).
Proof.
  intros Hc Hk Hj. destruct (key_bits n s k Hc Hk) as (ik & bk & wk & -> & Hbk & Hik & Huk). destruct (key_bits n s j Hc Hj) as (ij & bj & wj & -> & Hbj & Hij & Huj).
  destruct (key_split ik bk Hbk Hk) as [Ek1 Ek2]. rewrite (is_free_bit s ij bj wj) by done.
  assert (thread_key (take_key (bk + Z.of_nat ik * 32) d s) !! ij = Some (if decide (ij = ik) then Z.land wj (Z.lnot (2 ^ bk)) else wj)) as Hl.
  { unfold take_key. cbn. rewrite Ek1, Ek2. case_decide as E; [subst; rewrite list_lookup_alter_eq; by rewrite Hij|by rewrite list_lookup_alter_ne by congruence]. }
  rewrite (is_free_bit _ ij bj _ Hl Hbj Hj). case_decide as E.
  - subst ik. rewrite Z.land_spec, Z.lnot_spec, Z.pow2_bits_eqb by lia. f_equal. f_equal. destruct (Z.eqb_spec bk bj), (Z.eqb_spec (bj + Z.of_nat ij * 32) (bk + Z.of_nat ij * 32)); lia.
  - destruct (Z.eqb_spec (bj + Z.of_nat ij * 32) (bk + Z.of_nat ik * 32)); [lia|]. by rewrite andb_true_r.
Qed.

(** The value of a key is null in a thread. *)
Definition clr (k : nat) (p : pthread_info) : pthread_info := set_thread_data (insert k 0 <$> thread_data p) p.

Lemma clr_clr k p : clr k (clr k p) = clr k p.
Proof. unfold clr. destruct p as [? ? ? ? ? ? ? ? ? ? ? ? ? ? [l|]]; [|done]. unfold set_thread_data. cbn. by rewrite list_insert_insert_eq. Qed.

Lemma clr_none k p : thread_data p = None -> clr k p = p.
Proof. destruct p. cbn. intros ->. done. Qed.

Lemma clr_kept n s k a p : core n s -> infos s !! a = Some p -> kept n s (put a (clr k p) s).
Proof.
  intros Hc Hp. destruct (thread_data p) as [l|] eqn:E; [|by rewrite clr_none, info_put_same by done]. unfold clr. rewrite E. apply (kept_data n); [done|done|].
  rewrite length_insert. by eapply (co_data _ _ _ _ _ _ _ _ Hc).
Qed.

Lemma wp_clear_key n s k (P : unit -> st -> Prop) : core n s -> (k < PTHREAD_KEYS_MAX)%nat -> P tt (set_infos (clr k <$> infos s) s) -> wp (clear_key k 0 THREADS_MAX) P s.
Proof.
  intros Hc Hk HP. assert (forall m i s1, (i + m = THREADS_MAX)%nat -> core n s1 -> thread_table s1 = thread_table s ->
    (forall a p, infos s !! a = Some p -> infos s1 !! a = Some p \/ infos s1 !! a = Some (clr k p)) ->
    (forall j a, (j < i)%nat -> thread_table s !! j = Some (Some a) -> infos s1 !! a = clr k <$> infos s !! a) -> (forall a, infos s !! a = None -> infos s1 !! a = None) ->
    s1 = set_infos (infos s1) s -> wp (clear_key k i m) P s1) as Hgo.
  2: { apply (Hgo THREADS_MAX 0%nat s); try done; [auto|lia|by destruct s]. }
  induction m as [|m IH]; intros i s1 Hi Hc1 Ht Hor Hdone Hnone Es; cbn [clear_key].
  - apply wp_ret. assert (infos s1 = clr k <$> infos s) as E; [|rewrite Es, E; exact HP].
    apply map_eq. intros a. rewrite lookup_fmap. destruct (infos s !! a) as [p|] eqn:Hp; [|by rewrite Hnone].
    destruct (info_slot n s a p Hc Hp) as (j & Hj & _). rewrite (Hdone j a), Hp; [done| |done]. pose proof (lookup_lt_Some _ _ _ Hj). rewrite (co_size _ _ _ _ _ _ _ _ Hc) in *. lia.
  - destruct (slot_at n s1 i Hc1) as [x Hx]; [lia|]. apply wp_bind, (wp_slot _ x); [done|].
    assert (forall s2, kept n s1 s2 -> thread_table s2 = thread_table s1 -> s2 = set_infos (infos s2) s1 ->
      (forall a, infos s2 !! a = (if decide (x = Some a) then clr k <$> infos s1 !! a else infos s1 !! a)) -> wp (clear_key k (S i) m) P s2) as Hend.
    { intros s2 [Hc2 _] Ht2 Es2 Hl2. assert (forall a p, infos s !! a = Some p -> clr k <$> infos s1 !! a = Some (clr k p)) as Hclr.
      { intros a p Hp. destruct (Hor a p Hp) as [->| ->]; [done|]. cbn. by rewrite clr_clr. }
      apply IH; [lia|done|by rewrite Ht2| | | |].
      - intros a p Hp. rewrite Hl2. case_decide as E; [right; by apply Hclr|by apply Hor].
      - intros j a Hj Hja. rewrite Hl2. destruct (infos s !! a) as [p|] eqn:Hp; [|by case_decide; rewrite Hnone].
        case_decide as E; [by apply Hclr|]. destruct (decide (j = i)) as [->|Hne]; [rewrite Ht in Hx; congruence|]. rewrite (Hdone j a); [by rewrite Hp|lia|done].
      - intros a Ha. rewrite Hl2. by case_decide; rewrite Hnone.
      - rewrite Es2, Es. done. }
    apply wp_bind. destruct x as [a|]; [|apply wp_ret, Hend; [by apply kept_refl|done|by destruct s1|]; intros a; by rewrite decide_False].
    destruct (co_slot _ _ _ _ _ _ _ _ Hc1 i a Hx) as (p & Hp & Ho). apply wp_bind, (wp_info_at _ p); [done|].
    assert (wp (clear_key k (S i) m) P (put a (clr k p) s1)) as Hput.
    { apply Hend; [by apply clr_kept|done|done|]. intros b. unfold put. cbn. case_decide as E.
      - injection E as <-. by rewrite lookup_insert_eq, Hp.
      - rewrite lookup_insert_ne; [done|congruence]. }
    destruct (thread_data p) as [l|] eqn:E.
    + destruct (lookup_lt_is_Some_2 l k) as [v Hv]; [by rewrite (co_data _ _ _ _ _ _ _ _ Hc1 a p l Hp E)|]. apply wp_bind, (wp_data_at _ _ v); [done|].
      apply (wp_upd_info _ _ p); [done|]. unfold clr in Hput. by rewrite E in Hput.
    + apply wp_ret. by rewrite clr_none, info_put_same in Hput.
Qed.

Lemma clr_all_kept n s k : core n s -> kept n s (set_infos (clr k <$> infos s) s).
Proof.
  intros [C1 C2 C3 C4 C5 C6 C7 C8 C9]. split.
  - split; try done; cbn.
    + intros i a Hi. destruct (C5 i a Hi) as (p & Hp & [O1 O2 O3 O4]). exists (clr k p). split; [by rewrite lookup_fmap, Hp|]. by split.
    + intros a p Hp. rewrite lookup_fmap in Hp. destruct (infos s !! a) as [q|] eqn:Hq; [|done]. by eapply C6.
    + intros a p l Hp Hl. rewrite lookup_fmap in Hp. destruct (infos s !! a) as [q|] eqn:Hq; [|done]. injection Hp as <-. cbn in Hl.
      destruct (thread_data q) as [l'|] eqn:E; [|done]. injection Hl as <-. rewrite length_insert. by eapply C8.
    + intros a p Hp. rewrite lookup_fmap in Hp. destruct (infos s !! a) as [q|] eqn:Hq; [|done]. injection Hp as <-. by apply (C9 a q).
  - unfold rest. cbn. rewrite <- map_fmap_compose. done.
Qed.

(** The state after a key was created, and after one was deleted. *)
Definition with_key (k d : Z) (s : st) : st := set_infos (clr (Z.to_nat k) <$> infos s) (take_key k d s).

Definition without_key (k : Z) (s : st) : st := set_thread_key (alter (fun w => Z.lor w (key_bit k)) (key_word k) (thread_key s)) s.

Lemma held_twice s : held s = false -> set_held false (set_held true s) = s.
Proof. destruct s. cbn. by intros ->. Qed.

Lemma wp_key_create n s d (P : Z * option Z -> st -> Prop) : core n s -> held s = false ->
  ((forall k, key_ok k -> is_free s k = false) -> P (EAGAIN, None) s) ->
  (forall k, key_ok k -> is_free s k = true -> (forall j, 0 <= j < k -> is_free s j = false) -> P (0, Some k) (with_key k d s)) ->
  wp (pthread_key_create d) P s.
Proof.
  intros Hc Hh H0 H1. unfold pthread_key_create. apply wp_bind, wp_plock; [done|]. apply wp_bind. apply (wp_find_key n); [done|..].
  - intros Hall. apply wp_bind, wp_ret, wp_bind, wp_modify, wp_ret. rewrite held_twice by done. by apply H0.
  - intros k Hk Hf Hlow. apply wp_bind. destruct (take_kept n (set_held true s) k d Hc Hk) as [Hc1 _].
    apply (wp_clear_key n); [done|destruct Hk; lia|]. apply wp_bind, wp_modify, wp_ret.
    assert (set_held false (set_infos (clr (Z.to_nat k) <$> infos (take_key k d (set_held true s))) (take_key k d (set_held true s))) = with_key k d s) as ->.
    { unfold with_key, take_key. destruct s. cbn in *. by rewrite Hh. }
    by apply H1.
Qed.

Lemma with_key_kept n s k d : core n s -> key_ok k -> kept n s (with_key k d s).
Proof.
  intros Hc Hk. pose proof (take_kept n s k d Hc Hk) as Ht. apply (kept_chain n s (take_key k d s)); [done|].
  destruct Ht as [Ht _]. exact (clr_all_kept n (take_key k d s) (Z.to_nat k) Ht).
Qed.

Lemma held_key v s : held s = false -> set_held false (set_thread_key v (set_held true s)) = set_thread_key v s.
Proof. destruct s. cbn. by intros ->. Qed.

Lemma wp_key_delete n s k (P : Z -> st -> Prop) : core n s -> held s = false -> key_ok k -> P 0 (without_key k s) -> wp (pthread_key_delete k) P s.
Proof.
  intros Hc Hh Hk HP. destruct (lookup_lt_is_Some_2 (thread_key s) (key_word k)) as [w Hw].
  { apply (key_word_lt n); [done|done|]. destruct Hk. unfold keys_int in kint. lia. }
  unfold pthread_key_delete. apply wp_bind, wp_plock; [done|]. apply wp_bind, (wp_eq _ _ _ w (set_held true s)); [unfold word_at; cbn; by rewrite Hw|].
  apply wp_bind, (wp_set_word n _ _ _ w); [exact Hc|done|]. apply wp_bind, wp_modify, wp_ret.
  unfold without_key in HP. rewrite (alter_at _ _ _ w Hw) in HP. rewrite held_key by done. exact HP.
Qed.

Lemma without_key_kept n s k : core n s -> key_ok k -> kept n s (without_key k s).
Proof.
  intros [C1 C2 C3 C4 C5 C6 (K1 & K2 & K3 & K4) C8 C9] Hk. split; [|done]. unfold without_key. split; try done. cbn. split_and!; [done|by rewrite length_alter|done|].
  apply Forall_alter; [done|]. intros w _ Hw. unfold key_bit. rewrite (key_u32 k) by done. unfold KEY_MAP_TYPE_SIZE. rewrite Z.shiftl_1_l.
  pose proof (Z.mod_pos_bound k 32). rewrite uwrap_id; [apply u32_set; [done|lia]|]. split; [lia|]. apply Z.pow_lt_mono_r; lia.
Qed.

(** *** Routines that only use keys *)

Definition rop_ok (o : rop) : Prop :=
  match o with SetSpecific k _ => key_ok k | KeyCreate _ => True | KeyDelete k => key_ok k | CleanupPush _ _ _ => False end.

(** A thread that has data keeps some. *)
Definition has_data (a : Z) (s : st) : Prop := exists p, infos s !! a = Some p /\ is_Some (thread_data p).

Lemma has_data_put a q s : is_Some (thread_data q) -> has_data a (put a q s).
Proof. intros H. exists q. split; [apply info_put_at|done]. Qed.

Lemma has_data_key a k d s : has_data a s -> has_data a (with_key k d s).
Proof.
  intros (p & Hp & l & Hl). exists (clr (Z.to_nat k) p). split; [|unfold clr; rewrite Hl; by eexists].
  unfold with_key, take_key. cbn. by rewrite lookup_fmap, Hp.
Qed.

Lemma wp_run_rop n s a o (P : unit -> st -> Prop) : core n s -> held s = false -> self s = Some a -> is_Some (infos s !! a) -> rop_ok o ->
  (forall s', kept n s s' -> called s' = called s -> (has_data a s -> has_data a s') -> P tt s') -> wp (run_rop o) P s.
Proof.
  intros Hc Hh Ha [p Hp] Ho HP. assert (P tt s) as Hsame by (apply HP; [by apply kept_refl|done|done]). destruct o as [k v|d|k|]; cbn [run_rop]; [| | |done].
  - apply wp_bind. apply (wp_setspecific n s a p); [done..|intros _; by apply wp_ret|]. intros _. apply wp_ret, HP; [|done|intros _; by apply has_data_put; eexists].
    apply kept_data; [done|done|]. rewrite length_insert. unfold data_of. destruct (thread_data p) eqn:E; cbn; [by eapply (co_data _ _ _ _ _ _ _ _ Hc)|apply length_replicate].
  - apply wp_bind. apply (wp_key_create n s); [done|done|intros _; by apply wp_ret|]. intros k Hk _ _. apply wp_ret, HP; [by apply with_key_kept|done|by apply has_data_key].
  - apply wp_bind. apply (wp_key_delete n s); [done|done|done|]. apply wp_ret, HP; [by apply without_key_kept|done|done].
Qed.

Lemma kept_has n s s' a : kept n s s' -> is_Some (infos s !! a) -> is_Some (infos s' !! a).
Proof. intros [_ E] [p Hp]. destruct (rest_info s s' a p E Hp) as (q & -> & _). by eexists. Qed.

Lemma wp_run_rops n s a l (P : unit -> st -> Prop) : core n s -> held s = false -> self s = Some a -> is_Some (infos s !! a) -> Forall rop_ok l ->
  (forall s', kept n s s' -> called s' = called s -> (has_data a s -> has_data a s') -> P tt s') -> wp (run_rops l) P s.
Proof.
  intros Hc Hh Ha Hp Hl HP. induction l as [|o l IH] in s, Hc, Hh, Ha, Hp, Hl, HP |- *; cbn [run_rops]; [apply wp_ret, HP; [by apply kept_refl|done|done]|].
  apply list.Forall_cons in Hl as [Ho Hl]. apply wp_bind. eapply (wp_run_rop n s a); [done..|]. intros s1 Hk1 Ec1 Hd1. destruct (kept_self _ _ _ Hk1) as [E1 E2].
  apply IH; [apply Hk1|congruence|congruence|by eapply kept_has|done|]. intros s2 Hk2 Ec2 Hd2. apply HP; [by eapply kept_chain|congruence|by auto].
Qed.

Context (routines_ok : forall r x, Forall rop_ok (routine_ops r x)).

Lemma wp_call_routine n s a r x (P : unit -> st -> Prop) : core n s -> held s = false -> self s = Some a -> is_Some (infos s !! a) ->
  (forall s', kept n s s' -> called s' = (r, x) :: called s -> (has_data a s -> has_data a s') -> P tt s') -> wp (call_routine r x) P s.
Proof.
  intros Hc Hh Ha Hp HP. unfold call_routine. apply wp_bind, wp_modify. eapply (wp_run_rops n _ a); [exact Hc|exact Hh|exact Ha|exact Hp|apply routines_ok|].
  intros s' Hk Ec Hd. apply HP; [|exact Ec|exact Hd]. apply (kept_chain n s (set_called ((r, x) :: called s) s)); [|exact Hk]. by split.
Qed.

(** ** Ending a thread *)

Lemma rest_put_both s s' a p q : rest s' = rest s -> erase q = erase p -> rest (put a q s') = rest (put a p s).
Proof. intros H He. unfold rest, put in *. cbn. rewrite !fmap_insert, He. congruence. Qed.

Lemma chain_buffers b l p p' : chain b p l -> p = p' -> chain b p' l.
Proof. by intros ? <-. Qed.

(** The handlers of a list of buffers. *)
Fixpoint handlers (b : gmap Z cleanup_buffer) (l : list Z) : list (Z * Z) :=
  match l with [] => [] | x :: l => match b !! x with Some c => (routine c, arg c) :: handlers b l | None => [] end end.

Lemma core_buffer n s a p c : core n s -> infos s !! a = Some p -> (exists l, chain (buffers s) c l /\ (length l <= n)%nat) -> core n (put a (set_cancelbuffer c p) s).
Proof.
  intros Hc Hp Hl. destruct (info_slot n s a p Hc Hp) as (i & Hi & Ho). apply (core_put n s i a p); [done|done|done| | |done].
  - by destruct Ho.
  - intros l. exact (co_data _ _ _ _ _ _ _ _ Hc a p l Hp).
Qed.

Lemma wp_cleanup n fuel s a p l (P : unit -> st -> Prop) : core n s -> held s = false -> self s = Some a -> infos s !! a = Some p ->
  chain (buffers s) (cancelbuffer p) l -> (length l <= n)%nat -> (length l <= fuel)%nat ->
  (forall s', kept n (put a (set_cancelbuffer None p) s) s' -> called s' = rev (handlers (buffers s) l) ++ called s -> P tt s') ->
  wp (cleanup_loop fuel a) P s.
Proof.
  intros Hc Hh Ha Hp Hch Hn Hf HP. induction l as [|x l IH] in fuel, s, p, Hc, Hh, Ha, Hp, Hch, Hn, Hf, HP |- *.
  - cbn in Hch. assert (P tt s) as Hend.
    { apply HP; [|done]. assert (put a (set_cancelbuffer None p) s = s) as ->; [|by apply kept_refl]. rewrite <- Hch. replace (set_cancelbuffer (cancelbuffer p) p) with p by by destruct p. by apply info_put_same. }
    destruct fuel; cbn [cleanup_loop]; (apply wp_bind, (wp_info_at _ p); [done|]; rewrite Hch; by apply wp_ret).
  - destruct Hch as (Hx & c & Hb & Hch). destruct fuel as [|fuel]; [cbn in Hf; lia|]. cbn [cleanup_loop length] in *. apply wp_bind, (wp_info_at _ p); [done|]. rewrite Hx.
    apply wp_bind, (wp_eq _ _ _ c s); [unfold buffer_at; by rewrite Hb|]. apply wp_bind, (wp_upd_info _ _ p); [done|].
    set (s1 := put a (set_cancelbuffer (prev c) p) s). assert (core n s1) as Hc1 by (apply core_buffer; [done|done|exists l; split; [done|lia]]).
    apply wp_bind. eapply (wp_call_routine n s1 a); [done|done|done|eexists; apply info_put_at|]. intros s2 [Hc2 E2] Ec2 _.
    destruct (rest_info s1 s2 a _ E2 (info_put_at _ _ _)) as (p2 & Hp2 & He2). assert (cancelbuffer p2 = prev c) as Hcb by exact (f_equal cancelbuffer He2).
    destruct (rest_inv _ _ E2) as (T2 & H2 & B2 & _). change (self s2 = self s) in T2. change (held s2 = held s) in H2. change (buffers s2 = buffers s) in B2.
    apply (IH fuel s2 p2); [done|congruence|congruence|done|by rewrite B2, Hcb|lia|lia|]. intros s3 [Hc3 E3] Ec3. apply HP.
    + split; [done|]. rewrite E3. etransitivity; [apply (rest_put_both s1 s2 a (set_cancelbuffer None p)); [done|]|].
      * exact (f_equal (set_cancelbuffer None) He2).
      * unfold s1. by rewrite info_put_put.
    + rewrite Ec3, Ec2, B2. cbn [handlers]. rewrite Hb. cbn [rev]. by rewrite <- app_assoc.
Qed.

End Facts.
