(* ===== verification/PthreadCalls.v ===== *)
(** * The calls of the POSIX threads

    What each call does to the map of threads: reaping, creation, detaching, cancelling,
    ending, and the destructors of the data of a thread. *)

From stdpp Require Import gmap.
From S2P Require Import Prelude.
From S2P Require Import Hal.
From S2P Require Import Pthread.
From S2P Require Import PthreadFacts.

Section Calls.
Context {kt : KThread} {cfg : PthreadConfig} {rt : Routines}.

(** ** One thread changes *)

Lemma counts_put n s i a p q f : core n s -> thread_table s !! i = Some (Some a) -> infos s !! a = Some p ->
  cnt f (rows (put a q s)) = cnt f (rows s) - Z.b2z (f (Some p)) + Z.b2z (f (Some q)).
Proof. intros Hc Hi Hp. rewrite (rows_put n s i a q) by done. apply cnt_put. by apply (rows_at s i a p). Qed.

Lemma view_put n s i a p q : core n s -> core n (put a q s) -> thread_table s !! i = Some (Some a) -> infos s !! a = Some p -> state p <> PTHREAD_STATE_EXITED ->
  id q = id p -> threads (put a q s) = if state q =? PTHREAD_STATE_EXITED then delete (id p) (threads s) else <[id p := view_thread q]> (threads s).
Proof.
  intros Hc Hc' Hi Hp Hs He. rewrite (threads_put n s i a p q) by done. cbn [vrow]. rewrite (proj2 (Z.eqb_neq _ _) Hs). destruct (Z.eqb_spec (state q) PTHREAD_STATE_EXITED); cbn; [done|].
  by rewrite He, insert_delete_eq.
Qed.

(** A thread of the map, with its structure. *)
Definition thread_at (s : st) (t i a : _) (p : pthread_info) : Prop :=
  thread_table s !! i = Some (Some a) /\ infos s !! a = Some p /\ row_ok i p /\ id p = t /\ state p <> PTHREAD_STATE_EXITED.

Lemma thread_at_view n s t i a p : core n s -> thread_at s t i a p -> threads s !! t = Some (view_thread p).
Proof.
  intros Hc (Hi & Hp & Ho & <- & Hs). unfold threads. rewrite (slots_lookup index_of) by by eapply threads_ok.
  rewrite list_lookup_fmap, (ro_id _ _ Ho), (rows_at s i a p) by done. cbn. rewrite (proj2 (Z.eqb_neq _ _) Hs). by rewrite Z.eqb_refl.
Qed.

Lemma at_thread n s t v : core n s -> threads s !! t = Some v -> exists i a p, thread_at s t i a p /\ v = view_thread p.
Proof.
  intros Hc Ht. unfold threads in Ht. rewrite (slots_lookup index_of) in Ht by by eapply threads_ok. rewrite list_lookup_fmap in Ht.
  destruct (rows s !! index_of t) as [x|] eqn:E; [|done]. pose proof (rows_inv n s _ x Hc E) as Hx. destruct x as [p|]; [|done]. destruct Hx as (a & Hi & Hp & Ho).
  cbn in Ht. destruct (Z.eqb_spec (state p) PTHREAD_STATE_EXITED); [done|]. destruct (Z.eqb_spec (id p) t); [|done]. injection Ht as <-. by exists (index_of t), a, p.
Qed.

(** The thread that runs. *)
Definition runs (s : st) (a : Z) (p : pthread_info) : Prop := self s = Some a /\ infos s !! a = Some p /\ remaining (thread p) = None.

Lemma runs_at n s a p : core n s -> runs s a p -> exists i, thread_at s (id p) i a p /\ PTHREAD_STATE_DETACHED <= state p <= PTHREAD_STATE_RUNNING /\
  status_of p = Running (state p =? PTHREAD_STATE_DETACHED).
Proof.
  intros Hc (Ha & Hp & Hr). destruct (info_slot n s a p Hc Hp) as (i & Hi & Ho). assert (state p <= PTHREAD_STATE_RUNNING) as Hs.
  { destruct (Z.le_gt_cases (state p) PTHREAD_STATE_RUNNING); [done|]. destruct (ro_ended _ _ Ho) as [x Hx]; [unfold PTHREAD_STATE_RUNNING, PTHREAD_STATE_JOIN in *; lia|congruence]. }
  pose proof (ro_state _ _ Ho). exists i. unfold thread_at, status_of, PTHREAD_STATE_RUNNING, PTHREAD_STATE_EXITED, PTHREAD_STATE_JOIN, PTHREAD_STATE_DETACHED in *.
  split_and!; try done; try lia. rewrite Hr. by rewrite (proj2 (Z.eqb_neq (state p) 3)) by lia.
Qed.

(** *** The number of threads *)

Lemma b2z_live n s i x : core n s -> rows s !! i = Some x -> Z.b2z (is_present x) = Z.b2z (is_live x) + Z.b2z (is_exited x) + Z.b2z (is_waiting x).
Proof.
  intros Hc Hi. pose proof (rows_inv n s i x Hc Hi) as H. destruct x as [p|]; [|done]. destruct H as (a & _ & _ & [_ O1 O2 O3]). cbn.
  unfold PTHREAD_STATE_DETACHED, PTHREAD_STATE_EXITED, PTHREAD_STATE_RUNNING, PTHREAD_STATE_JOIN in *.
  destruct (remaining (thread p)); destruct (Z.leb_spec (state p) 2), (Z.eqb_spec (state p) 4), (Z.eqb_spec (state p) 3); cbn; lia.
Qed.

Lemma cnt_live n s : core n s -> cnt is_present (rows s) = cnt is_live (rows s) + cnt is_exited (rows s) + cnt is_waiting (rows s).
Proof.
  intros Hc. pose proof (b2z_live n s) as H. specialize (fun i x => H i x Hc). clear Hc. induction (rows s) as [|x l IH]; cbn; [done|].
  pose proof (H 0%nat x eq_refl). rewrite IH; [lia|]. intros i y. apply (H (S i)).
Qed.

Definition running (v : vthread) : bool := match v_status v with Running _ => true | _ => false end.

Lemma live_running n s : core n s -> cnt is_live (rows s) = 0 <-> map_Forall (fun _ v => running v = false) (threads s).
Proof.
  intros Hc. rewrite cnt_0. split.
  - intros H t v Ht. destruct (at_thread n s t v Hc Ht) as (i & a & p & (Hi & Hp & Ho & _ & Hs) & ->). specialize (H i (Some p) (rows_at _ _ _ _ Hi Hp)).
    unfold running, view_thread, status_of. cbn in *. destruct Ho as [_ O1 O2 O3]. unfold PTHREAD_STATE_DETACHED, PTHREAD_STATE_EXITED, PTHREAD_STATE_RUNNING, PTHREAD_STATE_JOIN in *.
    destruct (Z.eqb_spec (state p) 3); [done|]. destruct (remaining (thread p)); [done|]. destruct (Z.leb_spec (state p) 2); [done|lia].
  - intros H i x Hi. pose proof (rows_inv n s i x Hc Hi) as Hx. destruct x as [p|]; [|done]. destruct Hx as (a & Hi' & Hp & Ho). cbn.
    destruct (Z.leb_spec (state p) PTHREAD_STATE_RUNNING) as [Hs|]; [|done]. destruct (remaining (thread p)) eqn:Er; [done|]. exfalso.
    assert (thread_at s (id p) i a p) as Hat by (unfold thread_at, PTHREAD_STATE_RUNNING, PTHREAD_STATE_EXITED in *; split_and!; try done; lia).
    specialize (H _ _ (thread_at_view n s _ i a p Hc Hat)). unfold running, view_thread, status_of in H. cbn in H. rewrite Er in H.
    unfold PTHREAD_STATE_RUNNING, PTHREAD_STATE_JOIN in *. by rewrite (proj2 (Z.eqb_neq (state p) 3)) in H by lia.
Qed.

(** ** Reaping *)

(** What reaping leaves alone. *)
Definition frame (s : st) : _ :=
  (self s, held s, blocks s, wakes s, called s, buffers s, (thread_key s, key_destructor s), (thread_info_next s, thread_id_cookie s)).

Lemma frame_inv s s' : frame s' = frame s ->
  self s' = self s /\ held s' = held s /\ blocks s' = blocks s /\ wakes s' = wakes s /\ called s' = called s /\ buffers s' = buffers s /\
  (thread_key s' = thread_key s /\ key_destructor s' = key_destructor s) /\ thread_info_next s' = thread_info_next s /\ thread_id_cookie s' = thread_id_cookie s.
Proof. unfold frame. intros H. split_and!; congruence. Qed.

Lemma remaining_more p t m : remaining t = Some (S m) -> remaining (thread_yield (thread_priority p t)) = Some m.
Proof. intros H. apply remaining_yield. destruct (remaining_same t) as (_ & E & _). by rewrite E. Qed.

Lemma wp_yield_until m s a p (P : unit -> st -> Prop) : infos s !! a = Some p -> remaining (thread p) = Some m -> (forall t, P tt (put a (set_thread t p) s)) -> wp (yield_until m a) P s.
Proof.
  intros Hp Hr HP. assert (forall t, remaining t = Some m -> wp (yield_until m a) P (put a (set_thread t p) s)) as Hgo.
  2: { replace s with (put a (set_thread (thread p) p) s); [by apply Hgo|]. apply info_put_same. rewrite Hp. f_equal. by destruct p. }
  clear Hr. induction m as [|m IH]; intros t Ht; cbn [yield_until]; apply wp_bind, wp_info_at_put; cbn [thread set_thread]; rewrite Ht.
  - by apply wp_ret.
  - apply wp_bind. unfold upd_thread. apply wp_upd_info_put. cbn [thread set_thread]. apply IH. by apply remaining_more.
Qed.

Lemma rows_clear n s s' i a : core n s -> thread_table s !! i = Some (Some a) -> infos s' = delete a (infos s) -> thread_table s' = <[i := None]> (thread_table s) -> rows s' = <[i := None]> (rows s).
Proof.
  intros Hc Hi E1 E2. pose proof (lookup_lt_Some _ _ _ Hi) as Hlt. apply list_eq. intros j. unfold rows, rows_of. rewrite E1, E2, list_lookup_fmap. destruct (decide (j = i)) as [->|Hj].
  - by rewrite !list_lookup_insert_eq by (by rewrite ?length_fmap).
  - rewrite !list_lookup_insert_ne, list_lookup_fmap by done. destruct (thread_table s !! j) as [[b|]|] eqn:E; [|done..]. cbn.
    rewrite lookup_delete_ne; [done|]. intros ->. apply Hj. by eapply thread_slot_inj.
Qed.

Lemma core_clear n s s' i a : core n s -> thread_table s !! i = Some (Some a) -> infos s' = delete a (infos s) -> thread_table s' = <[i := None]> (thread_table s) ->
  frame s' = frame s -> core n s'.
Proof.
  intros Hc Hi E1 E2 Ef. destruct (frame_inv _ _ Ef) as (_ & _ & _ & _ & _ & Eb & [Ek Ed] & En & Ec). pose proof Hc as [C1 C2 C3 C4 C5 C6 C7 C8 C9].
  unfold core. rewrite E1, E2, Eb, Ek, Ed, En, Ec. split; try done.
  - by rewrite length_insert.
  - intros j b Hj. apply list_lookup_insert_Some in Hj as [(_ & [=] & _)|[Hne Hj]]. rewrite lookup_delete_ne; [by apply C5|]. intros ->. by eapply Hne, thread_slot_inj.
  - intros b r Hb. apply lookup_delete_Some in Hb as [Hne Hb]. destruct (C6 b r Hb) as [j Hj]. exists j. rewrite list_lookup_insert_ne; [done|]. intros ->. congruence.
  - intros b r l Hb. apply lookup_delete_Some in Hb as [_ Hb]. by eapply C8.
  - intros b r Hb. apply lookup_delete_Some in Hb as [_ Hb]. by eapply C9.
Qed.

Lemma wp_reap_one n s i a p (P : unit -> st -> Prop) : wf n s -> thread_table s !! i = Some (Some a) -> infos s !! a = Some p -> state p = PTHREAD_STATE_EXITED ->
  (forall s', wf n s' -> threads s' = threads s -> infos s' = delete a (infos s) -> thread_table s' = <[i := None]> (thread_table s) -> frame s' = frame s -> P tt s') ->
  wp (reap_one i a) P s.
Proof.
  intros [Hc [N1 N2 N3]] Hi Hp Hs HP. destruct (info_slot n s a p Hc Hp) as (j & Hj & Ho). assert (j = i) as -> by by eapply thread_slot_inj.
  destruct (ro_ended _ _ Ho) as [m Hm]; [rewrite Hs; done|]. unfold reap_one. apply wp_bind, (wp_info_at _ p); [done|]. rewrite Hm. cbn [default].
  apply wp_bind, (wp_yield_until m s a p); [done|done|]. intros t.
  assert (forall s1, infos s1 = <[a := set_thread t p]> (infos s) -> thread_table s1 = thread_table s -> frame s1 = frame s ->
    (pthread_count s1, pthreads_exited s1, pthreads_tobejoined s1) = (pthread_count s, pthreads_exited s, pthreads_tobejoined s) ->
    wp (modify (fun s => set_infos (delete a (infos s)) s);; set_slot i None;; modify (fun s => set_pthread_count (pthread_count s - 1) s);;
        modify (fun s => set_pthreads_exited (pthreads_exited s - 1) s)) P s1) as Hrest.
  { intros s1 E1 E2 Ef En. apply wp_bind, wp_modify. unfold set_slot. apply wp_bind, wp_bind. apply (wp_slot _ (Some a)); [cbn; by rewrite E2|].
    apply wp_modify, wp_bind, wp_modify, wp_modify. cbn.
    match goal with |- P tt ?s' => set (s2 := s') end. assert (infos s2 = delete a (infos s)) as F1 by (unfold s2; cbn; by rewrite E1, delete_insert_eq).
    assert (thread_table s2 = <[i := None]> (thread_table s)) as F2 by (unfold s2; cbn; by rewrite E2). assert (frame s2 = frame s) as F3 by exact Ef.
    pose proof (core_clear n s s2 i a Hc Hi F1 F2 F3) as Hc2. pose proof (rows_clear n s s2 i a Hc Hi F1 F2) as Hr. pose proof (rows_at s i a p Hi Hp) as Hip.
    assert (is_waiting (Some p) = false) as Hw by (cbn; by rewrite Hs).
    apply HP; [split; [done|]| |done..].
    - split; unfold s2 at 1; cbn [pthread_count pthreads_exited pthreads_tobejoined set_pthread_count set_pthreads_exited set_thread_table set_infos]; rewrite Hr, (cnt_put _ _ i (Some p)) by done; rewrite ?Hw; cbn; rewrite ?Hs; cbn;
        injection En as Ex1 Ex2 Ex3; rewrite ?Ex1, ?Ex2, ?Ex3, ?N1, ?N2, ?N3; lia.
    - assert (vrow (Some p) = None) as Hv by (cbn; by rewrite Hs). pose proof (threads_ok n s2 Hc2) as Hok. unfold threads. rewrite Hr, (list_fmap_insert vrow) in Hok |- *.
      change (vrow None) with (@None (Z * vthread)) in Hok |- *. rewrite (slots_put index_of _ i (vrow (Some p))); [by rewrite Hv|by eapply threads_ok|by rewrite list_lookup_fmap, Hip|done]. }
  apply wp_bind. destruct (freestack p); cbn [when]; [apply wp_modify|apply wp_ret]; by apply Hrest.
Qed.

Record reaped (n : nat) (s s' : st) : Prop := {
  rp_wf : wf n s';
  rp_threads : threads s' = threads s;
  rp_frame : frame s' = frame s;
  rp_keep : forall a p, infos s !! a = Some p -> state p <> PTHREAD_STATE_EXITED -> infos s' !! a = Some p;
  rp_sub : forall a p, infos s' !! a = Some p -> infos s !! a = Some p;
  rp_none : forall a p, infos s' !! a = Some p -> state p <> PTHREAD_STATE_EXITED;
}.

Lemma wp_reap n s (P : unit -> st -> Prop) : wf n s -> (forall s', reaped n s s' -> P tt s') -> wp pthread_reap P s.
Proof.
  intros Hw HP. unfold pthread_reap. assert (forall m i s1, (i + m = THREADS_MAX)%nat -> wf n s1 -> threads s1 = threads s -> frame s1 = frame s ->
    (forall a p, infos s !! a = Some p -> state p <> PTHREAD_STATE_EXITED -> infos s1 !! a = Some p) ->
    (forall a p, infos s1 !! a = Some p -> infos s !! a = Some p) -> (forall j a p, (j < i)%nat -> thread_table s1 !! j = Some (Some a) -> infos s1 !! a = Some p -> state p <> PTHREAD_STATE_EXITED) ->
    wp (reap_loop i m) P s1) as Hgo.
  2: { apply (Hgo THREADS_MAX 0%nat s); try done. lia. }
  induction m as [|m IH]; intros i s1 Hi Hw1 Et Ef Hkeep Hsub Hdone; cbn [reap_loop]; apply wp_bind, wp_gets; destruct (Z.eqb_spec (pthreads_exited s1) 0) as [E0|E0].
  1, 3: apply wp_ret, HP; split; try done; intros a p Hp Hs; destruct Hw1 as [Hc1 [_ N2 _]]; rewrite N2 in E0; destruct (info_slot n s1 a p Hc1 Hp) as (j & Hj & _);
    pose proof (proj1 (cnt_0 _ _) E0 j _ (rows_at s1 j a p Hj Hp)) as H; cbn in H; rewrite Hs in H; done.
  - apply wp_ret, HP. split; try done. intros a p Hp. destruct (info_slot n s1 a p (proj1 Hw1) Hp) as (j & Hj & _). apply (Hdone j a p); [|done|done].
    pose proof (lookup_lt_Some _ _ _ Hj). rewrite (co_size _ _ _ _ _ _ _ _ (proj1 Hw1)) in *. lia.
  - destruct (slot_at n s1 i (proj1 Hw1)) as [x Hx]; [lia|]. apply wp_bind, (wp_slot _ x); [done|]. apply wp_bind. destruct x as [a|].
    2: { apply wp_ret. apply IH; try done; [lia|]. intros j b q Hj. destruct (decide (j = i)) as [->|]; [congruence|apply Hdone; lia]. }
    destruct (co_slot _ _ _ _ _ _ _ _ (proj1 Hw1) i a Hx) as (p & Hp & Ho). apply wp_bind, (wp_info_at _ p); [done|]. destruct (Z.eqb_spec (state p) PTHREAD_STATE_EXITED) as [Hs|Hs]; cbn [when].
    + apply (wp_reap_one n s1 i a p); [done..|]. intros s2 Hw2 Et2 E1 E2 Ef2. apply IH; [lia|done|congruence|congruence| | |].
      * intros b q Hq Hqs. rewrite E1, lookup_delete_ne; [by apply Hkeep|]. intros ->. rewrite (Hkeep b q Hq Hqs) in Hp. congruence.
      * intros b q Hq. rewrite E1 in Hq. apply lookup_delete_Some in Hq as [_ Hq]. by apply Hsub.
      * intros j b q Hj Hjb Hq. rewrite E2 in Hjb. apply list_lookup_insert_Some in Hjb as [(_ & [=] & _)|[Hne Hjb]]. rewrite E1 in Hq. apply lookup_delete_Some in Hq as [_ Hq].
        apply (Hdone j b); [lia|done|done].
    + apply wp_ret. apply IH; try done; [lia|]. intros j b q Hj Hjb Hq. destruct (decide (j = i)) as [->|]; [congruence|apply (Hdone j b); [lia|done|done]].
Qed.

Lemma reaped_runs n s s' a p : core n s -> reaped n s s' -> runs s a p -> runs s' a p.
Proof.
  intros Hc Hr Hrun. destruct (runs_at n s a p Hc Hrun) as (i & (_ & _ & _ & _ & Hs) & _). destruct Hrun as (Ha & Hp & Hrem).
  destruct (frame_inv _ _ (rp_frame _ _ _ Hr)) as (Es & _). split_and!; [congruence|by apply (rp_keep _ _ _ Hr)|done].
Qed.

(** ** What the calls promise *)

(** A call as a step on the map of threads, with its result. *)
Definition set_status (x : tstatus) (v : vthread) : vthread := mkVT x (v_pending v) (v_cancelstate v) (v_canceltype v).

Definition detaches (a : option pthread_attr_t) : bool := negb (detachstate (default default_attr a) =? PTHREAD_CREATE_JOINABLE).

(** A thread that had ended is lost. *)
Definition vdetach (m : gmap Z vthread) (x : Z) : Z * gmap Z vthread :=
  match m !! x with
  | None => (ESRCH, m)
  | Some v =>
      match v_status v with
      | Running false => (0, <[x := set_status (Running true) v]> m)
      | Ended _ => (0, <[x := set_status Lost v]> m)
      | _ => (EINVAL, m)
      end
  end.

Definition vcancel (m : gmap Z vthread) (x : Z) : Z * gmap Z vthread :=
  match m !! x with
  | None => (ESRCH, m)
  | Some v => (0, <[x := mkVT (v_status v) true (v_cancelstate v) (v_canceltype v)]> m)
  end.

Definition vexit (m : gmap Z vthread) (t v : Z) : gmap Z vthread :=
  match m !! t with
  | Some w =>
      match v_status w with
      | Running false => <[t := mkVT (Ended v) (v_pending w) PTHREAD_CANCEL_DISABLE (v_canceltype w)]> m
      | Running true => delete t m
      | _ => m
      end
  | None => m
  end.

(** No thread runs. *)
Definition all_ended (m : gmap Z vthread) : bool := bool_decide (map_Forall (fun _ v => running v = false) m).

Inductive vact (m : gmap Z vthread) (t : Z) : act -> fate -> gmap Z vthread -> Prop :=
| va_create_null a x : vact m t (Create a 0 x) (Returns EINVAL None) m
| va_create_stack a r x : r <> 0 -> stackaddr_valid (default default_attr a) = false -> vact m t (Create a r x) (Returns EAGAIN None) m
| va_create_full a r x : r <> 0 -> size m = THREADS_MAX -> vact m t (Create a r x) (Returns ENOMEM None) m
| va_create a r x nid : r <> 0 -> (size m < THREADS_MAX)%nat -> m !! nid = None ->
    vact m t (Create a r x) (Returns 0 (Some nid)) (<[nid := mkVT (Running (detaches a)) false PTHREAD_CANCEL_ENABLE PTHREAD_CANCEL_DEFERRED]> m)
| va_exit v : vact m t (Exit v) (Ends (all_ended (vexit m t v))) (vexit m t v)
| va_detach x : vact m t (Detach x) (Returns (vdetach m x).1 None) (vdetach m x).2
| va_cancel x : vact m t (Cancel x) (Returns (vcancel m x).1 None) (vcancel m x).2
| va_setcancelstate v w : (v = PTHREAD_CANCEL_ENABLE \/ v = PTHREAD_CANCEL_DISABLE) -> m !! t = Some w ->
    vact m t (Setcancelstate v) (Returns 0 (Some (v_cancelstate w))) (<[t := mkVT (v_status w) (v_pending w) v (v_canceltype w)]> m)
| va_setcancelstate_bad v : v <> PTHREAD_CANCEL_ENABLE -> v <> PTHREAD_CANCEL_DISABLE -> vact m t (Setcancelstate v) (Returns EINVAL None) m
| va_setcanceltype v w : (v = PTHREAD_CANCEL_ASYNCHRONOUS \/ v = PTHREAD_CANCEL_DEFERRED) -> m !! t = Some w ->
    vact m t (Setcanceltype v) (Returns 0 (Some (v_canceltype w))) (<[t := mkVT (v_status w) (v_pending w) (v_cancelstate w) v]> m)
| va_setcanceltype_bad v : v <> PTHREAD_CANCEL_ASYNCHRONOUS -> v <> PTHREAD_CANCEL_DEFERRED -> vact m t (Setcanceltype v) (Returns EINVAL None) m.

(** The structure of a thread stays where it is. *)
Record pres (s s' : st) : Prop := {
  pr_self : self s' = self s;
  pr_held : held s' = held s;
  pr_wakes : wakes s' = wakes s;
  pr_at : forall x i a p, thread_at s x i a p -> threads s' !! x = None \/ exists p', thread_at s' x i a p';
}.

Lemma pres_refl s : pres s s.
Proof. split; [done..|]. intros x i a p H. right. by exists p. Qed.

(** A change of one thread. *)
Lemma pres_put n s i a p q : core n s -> core n (put a q s) -> thread_table s !! i = Some (Some a) -> infos s !! a = Some p -> id q = id p -> pres s (put a q s).
Proof.
  intros Hc Hc' Hi Hp He. split; [done..|]. intros x j b r (Hj & Hr & Ho & Hx & Hs). destruct (decide (b = a)) as [->|Hb].
  - assert (r = p) as -> by congruence. assert (j = i) as -> by by eapply thread_slot_inj. destruct (decide (state q = PTHREAD_STATE_EXITED)) as [E|E].
    + left. rewrite (view_put n s i a p q) by done. rewrite E, Hx. apply lookup_delete_eq.
    + right. exists q. split_and!; [done|apply info_put_at| |congruence|done]. destruct (co_slot _ _ _ _ _ _ _ _ Hc' i a Hj) as (q' & Hq' & Ho'). rewrite info_put_at in Hq'. by injection Hq' as <-.
  - right. exists r. split_and!; try done. unfold put. cbn. by rewrite lookup_insert_ne.
Qed.

Lemma pres_reaped n s s' : wf n s -> reaped n s s' -> pres s s'.
Proof.
  intros [Hc _] Hr. destruct (frame_inv _ _ (rp_frame _ _ _ Hr)) as (E1 & E2 & _ & E3 & _). split; [done..|]. intros x i a p (Hi & Hp & Ho & Hx & Hs). right. exists p.
  pose proof (rp_keep _ _ _ Hr a p Hp Hs) as Hp'. destruct (info_slot n s' a p (proj1 (rp_wf _ _ _ Hr)) Hp') as (j & Hj & Ho').
  assert (j = i) as -> by (by rewrite <- (ro_id _ _ Ho), <- (ro_id _ _ Ho')). by split_and!.
Qed.

(** ** Creation *)

Lemma wp_find_slot n s (P : option nat -> st -> Prop) : core n s -> ((forall i x, thread_table s !! i = Some x -> x <> None) -> P None s) ->
  (forall i, thread_table s !! i = Some None -> P (Some i) s) -> wp (find_slot THREADS_MAX (thread_info_next s)) P s.
Proof.
  intros Hc H0 H1. pose proof (co_next _ _ _ _ _ _ _ _ Hc) as Hnext. pose proof (co_size _ _ _ _ _ _ _ _ Hc) as Hsize.
  assert (forall fuel j, (j < THREADS_MAX)%nat -> (THREADS_MAX <= j + fuel)%nat -> (forall k, (k < j)%nat -> thread_table s !! ((thread_info_next s + k) mod THREADS_MAX)%nat <> Some None) ->
    wp (find_slot fuel ((thread_info_next s + j) mod THREADS_MAX)%nat) P s) as Hgo.
  2: { specialize (Hgo THREADS_MAX 0%nat). rewrite Nat.add_0_r, Nat.mod_small in Hgo by done. apply Hgo; [lia|lia|]. intros k Hk. lia. }
  induction fuel as [|fuel IH]; intros j Hj Hfuel Hvis; set (cur := ((thread_info_next s + j) mod THREADS_MAX)%nat);
    (assert (cur < THREADS_MAX)%nat as Hcur by (apply Nat.mod_upper_bound; lia)); destruct (slot_at n s cur Hc Hcur) as [x Hx]; cbn [find_slot];
    apply wp_bind, (wp_slot _ x); try done; [lia|]. destruct x as [a|]; [|by apply wp_ret, H1].
  apply wp_bind, wp_gets. unfold cur. rewrite wrap_step, wrap_back by lia.
  assert (forall k, (k < S j)%nat -> thread_table s !! ((thread_info_next s + k) mod THREADS_MAX)%nat <> Some None) as Hvis'.
  { intros k Hk. destruct (decide (k = j)) as [->|Hne]; [fold cur; congruence|apply Hvis; lia]. }
  destruct (Nat.eqb_spec (S j) THREADS_MAX) as [Ej|Ej]; [|apply IH; [lia|lia|done]].
  apply wp_ret, H0. intros i y Hi. assert (i < THREADS_MAX)%nat as Hil by (rewrite <- Hsize; by eapply lookup_lt_Some).
  assert (thread_table s !! i <> Some None) as Hne; [|congruence]. clear Hi. revert i Hil.
  apply (wrap_all (fun i => thread_table s !! i <> Some None) (thread_info_next s)); [done|]. intros k Hk. apply Hvis'. lia.
Qed.

Definition cookie_ok (c : Z) : Prop := c mod 1024 = 0 /\ 0 <= c < 2 ^ 32.

Lemma next_id_cookie c : cookie_ok c -> cookie_ok (u32 (c + THREAD_ID_COOKIE_INC)).
Proof.
  intros [H1 H2]. unfold THREAD_ID_COOKIE_INC. apply Z.mod_divide in H1 as [q ->]; [|done]. destruct (decide (q * 1024 + 1024 < 2 ^ 32)) as [H|H].
  - rewrite (uwrap_id 32) by lia. split; [|lia]. replace (q * 1024 + 1024) with ((q + 1) * 1024) by lia. by apply Z.mod_mul.
  - assert (q * 1024 + 1024 = 2 ^ 32) as -> by lia. by vm_compute.
Qed.

Lemma index_new i c : cookie_ok c -> (i < 1024)%nat -> index_of (u32 (Z.of_nat i + c)) = i.
Proof.
  intros [H1 H2] Hi. assert (c <= 2 ^ 32 - 1024) as Hc by (apply Z.mod_divide in H1 as [q ->]; [lia|done]). rewrite (uwrap_id 32) by lia.
  unfold index_of. change THREAD_ID_COOKIE_MASK with (Z.ones 10). rewrite Z.land_ones by done. change (2 ^ 10) with 1024.
  rewrite <- Z.add_mod_idemp_r, H1, Z.add_0_r, Z.mod_small by lia. lia.
Qed.

(** The running thread, if POSIX made it, has a structure. *)
Definition self_fine (s : st) : Prop := match self s with None => True | Some a => exists p, runs s a p end.

(** What creation adds. *)
Record created (n : nat) (s s' : st) (nid : Z) (detached : bool) : Prop := {
  cr_wf : wf n s';
  cr_threads : threads s' = <[nid := mkVT (Running detached) false PTHREAD_CANCEL_ENABLE PTHREAD_CANCEL_DEFERRED]> (threads s);
  cr_fresh : threads s !! nid = None;
  cr_room : (size (threads s) < THREADS_MAX)%nat;
  cr_self : self s' = self s /\ held s' = held s /\ wakes s' = wakes s;
  cr_keep : forall x i a p, thread_at s x i a p -> thread_at s' x i a p;
}.

(** A thread in a free entry. *)
Lemma core_new n s s' i b q : core n s -> thread_table s !! i = Some None -> infos s !! b = None -> row_ok i q -> thread_data q = None -> cancelbuffer q = None ->
  infos s' = <[b := q]> (infos s) -> thread_table s' = <[i := Some b]> (thread_table s) -> thread_info_next s' = i -> cookie_ok (thread_id_cookie s') ->
  buffers s' = buffers s -> thread_key s' = thread_key s -> key_destructor s' = key_destructor s -> core n s'.
Proof.
  intros Hc Hi Hb Ho Hd Hcb E1 E2 E3 E4 E5 E6 E7. pose proof Hc as [C1 C2 C3 C4 C5 C6 C7 C8 C9]. pose proof (lookup_lt_Some _ _ _ Hi) as Hlt.
  unfold core. rewrite E1, E2, E3, E5, E6, E7. split; try done.
  - by rewrite length_insert.
  - by rewrite <- C1.
  - intros j a Hj. apply list_lookup_insert_Some in Hj as [(<- & [= <-] & _)|[Hne Hj]]; [exists q; by rewrite lookup_insert_eq|].
    destruct (C5 j a Hj) as (p & Hp & Hok). exists p. rewrite lookup_insert_ne; [done|]. intros ->. congruence.
  - intros a p Ha. apply lookup_insert_Some in Ha as [[<- _]|[_ Ha]]; [exists i; by rewrite list_lookup_insert_eq|]. destruct (C6 a p Ha) as [j Hj]. exists j.
    rewrite list_lookup_insert_ne; [done|]. intros ->. congruence.
  - intros a p l Ha. apply lookup_insert_Some in Ha as [[_ <-]|[_ Ha]]; [congruence|by eapply C8].
  - intros a p Ha. apply lookup_insert_Some in Ha as [[_ <-]|[_ Ha]]; [exists []; split; [done|cbn; lia]|by eapply C9].
Qed.

Lemma rows_new n s s' i b q : core n s -> thread_table s !! i = Some None -> infos s !! b = None ->
  infos s' = <[b := q]> (infos s) -> thread_table s' = <[i := Some b]> (thread_table s) -> rows s' = <[i := Some q]> (rows s).
Proof.
  intros Hc Hi Hb E1 E2. pose proof (lookup_lt_Some _ _ _ Hi) as Hlt. apply list_eq. intros j. unfold rows, rows_of. rewrite E1, E2, list_lookup_fmap. destruct (decide (j = i)) as [->|Hj].
  - rewrite !list_lookup_insert_eq by (by rewrite ?length_fmap). cbn. by rewrite lookup_insert_eq.
  - rewrite !list_lookup_insert_ne, list_lookup_fmap by done. destruct (thread_table s !! j) as [[a|]|] eqn:E; [|done..]. cbn.
    rewrite lookup_insert_ne; [done|]. intros ->. destruct (co_slot _ _ _ _ _ _ _ _ Hc j a E) as (p & Hp & _). congruence.
Qed.

Lemma created_new n s s' i b q : wf n s -> thread_table s !! i = Some None -> infos s !! b = None -> core n s' -> row_ok i q ->
  state q <= PTHREAD_STATE_RUNNING -> remaining (thread q) = None -> cancelpending q = false -> cancelstate q = PTHREAD_CANCEL_ENABLE -> canceltype q = PTHREAD_CANCEL_DEFERRED ->
  infos s' = <[b := q]> (infos s) -> thread_table s' = <[i := Some b]> (thread_table s) ->
  (pthread_count s', pthreads_exited s', pthreads_tobejoined s') = (pthread_count s + 1, pthreads_exited s, pthreads_tobejoined s) ->
  self s' = self s /\ held s' = held s /\ wakes s' = wakes s -> created n s s' (id q) (state q =? PTHREAD_STATE_DETACHED).
Proof.
  intros [Hc [N1 N2 N3]] Hi Hb Hc' Ho Hs Hr E1 E2 E3 F1 F2 F3 F4. pose proof (rows_new n s s' i b q Hc Hi Hb F1 F2) as Er.
  assert (rows s !! i = Some None) as Hrow by (unfold rows, rows_of; by rewrite list_lookup_fmap, Hi). pose proof (threads_ok n s Hc) as Hok.
  assert ((vrow <$> rows s) !! i = Some None) as Hv by by rewrite list_lookup_fmap, Hrow.
  assert (state q <> PTHREAD_STATE_EXITED /\ state q <> PTHREAD_STATE_JOIN) as [Hx Hj] by (unfold PTHREAD_STATE_RUNNING, PTHREAD_STATE_EXITED, PTHREAD_STATE_JOIN in *; lia).
  split; [split; [done|]| | | |done|].
  - pose proof (fun f => cnt_put f (rows s) i None (Some q) Hrow) as Hcnt. injection F3 as G1 G2 G3.
    split; rewrite Er, Hcnt; cbn [is_present is_exited is_waiting]; rewrite ?(proj2 (Z.eqb_neq _ _) Hx), ?(proj2 (Z.eqb_neq _ _) Hj), ?Hr, ?andb_false_r; cbn; lia.
  - pose proof (threads_ok n s' Hc') as Hok'. unfold threads. rewrite Er, (list_fmap_insert vrow) in Hok' |- *.
    rewrite (slots_put index_of _ i None) by done. cbn [vrow row_del]. rewrite (proj2 (Z.eqb_neq _ _) Hx). cbn [row_add]. unfold view_thread, status_of. by rewrite (proj2 (Z.eqb_neq _ _) Hj), Hr, E1, E2, E3.
  - apply (slots_fresh index_of _ i (id q) None); [done|done|by apply Ho|done].
  - pose proof (slots_not_full index_of _ i Hok Hv) as H. rewrite length_fmap, rows_length, (co_size _ _ _ _ _ _ _ _ Hc) in H. exact H.
  - intros x j a p (Hj' & Hp & Hok'' & Hx' & Hs'). split_and!; try done.
    + rewrite F2, list_lookup_insert_ne; [done|]. intros ->. congruence.
    + rewrite F1, lookup_insert_ne; [done|]. intros ->. congruence.
Qed.

Lemma wp_make_thread n s i u r x b size fs (P : Z -> st -> Prop) : wf n s -> self_fine s -> thread_table s !! i = Some None -> infos s !! b = None ->
  (forall s' nid, created n s s' nid (negb (detachstate u =? PTHREAD_CREATE_JOINABLE)) -> (exists q, thread_at s' nid i b q) -> P nid s') ->
  wp (make_thread i u r x b size fs) P s.
Proof.
  intros Hw Hf Hi Hb HP. pose proof (proj1 Hw) as Hc. pose proof (next_id_cookie _ (co_cookie _ _ _ _ _ _ _ _ Hc)) as Hck. set (c := u32 (thread_id_cookie s + THREAD_ID_COOKIE_INC)) in *.
  assert (i < 1024)%nat as Hlt by (pose proof (lookup_lt_Some _ _ _ Hi); pose proof (co_max _ _ _ _ _ _ _ _ Hc); rewrite (co_size _ _ _ _ _ _ _ _ Hc) in *; lia).
  unfold make_thread, set_slot. apply wp_bind, wp_bind, (wp_slot _ None); [done|]. apply wp_modify, wp_bind, wp_modify, wp_bind, wp_modify, wp_bind, wp_gets. cbn [thread_id_cookie set_thread_id_cookie set_thread_info_next set_thread_table].
  fold c. unfold pthread_self_info. apply wp_bind, wp_gets. cbn [self set_thread_id_cookie set_thread_info_next set_thread_table].
  match goal with |- wp _ _ ?s' => set (s1 := s') end.
  assert (forall mask, wp (modify (fun s => set_infos (<[b := mkInfo (if detachstate u =? PTHREAD_CREATE_JOINABLE then PTHREAD_STATE_RUNNING else PTHREAD_STATE_DETACHED)
      PTHREAD_CANCEL_ENABLE PTHREAD_CANCEL_DEFERRED false fs (u32 (Z.of_nat i + c)) (thread_timeslice (negb (schedpolicy u =? SCHED_FIFO))
             (thread_new (PTHREAD_ECOS_PRIORITY (sched_priority u)) (b + sizeof_pthread_info) (size - sizeof_pthread_info))) u 0 r x b None mask None]> (infos s)) s);;
    modify (fun s => set_pthread_count (pthread_count s + 1) s);; mret (u32 (Z.of_nat i + c))) P s1) as Hend.
  { intros mask. apply wp_bind, wp_modify, wp_bind, wp_modify, wp_ret. match goal with |- P _ (set_pthread_count _ (set_infos (<[b := ?q0]> _) _)) => set (q := q0) end.
    match goal with |- P _ ?s' => set (s2 := s') end. change (u32 (Z.of_nat i + c)) with (id q).
    assert (remaining (thread q) = None) as Hr. { unfold q. cbn. rewrite (proj1 (remaining_same _)). apply remaining_new. }
    assert (row_ok i q) as Ho.
    { split; cbn; [by apply index_new| |done|]; destruct (detachstate u =? PTHREAD_CREATE_JOINABLE); unfold PTHREAD_STATE_DETACHED, PTHREAD_STATE_RUNNING, PTHREAD_STATE_EXITED, PTHREAD_STATE_JOIN; lia. }
    assert (core n s2) as Hc2 by (apply (core_new n s s2 i b q); done). pose proof (lookup_lt_Some _ _ _ Hi) as Hil. apply HP.
    - replace (negb (detachstate u =? PTHREAD_CREATE_JOINABLE)) with (state q =? PTHREAD_STATE_DETACHED) by (unfold q; cbn; by destruct (detachstate u =? PTHREAD_CREATE_JOINABLE)).
      apply (created_new n s s2 i b q); try done. unfold q. cbn. destruct (detachstate u =? PTHREAD_CREATE_JOINABLE); done.
    - exists q. split_and!; [unfold s2, s1; cbn; by apply list_lookup_insert_eq|unfold s2; cbn; apply lookup_insert_eq|done|done|].
      unfold q. cbn. by destruct (detachstate u =? PTHREAD_CREATE_JOINABLE). }
  apply wp_bind. destruct (self s) as [m|] eqn:Es; [|by apply wp_ret]. unfold self_fine in Hf. rewrite Es in Hf. destruct Hf as (p & _ & Hp & _).
  apply wp_bind, (wp_info_at _ p); [done|]. by apply wp_ret.
Qed.

(** A change that the map does not show. *)
Lemma core_put_same n s i a p q : core n s -> thread_table s !! i = Some (Some a) -> infos s !! a = Some p -> id q = id p -> state q = state p -> remaining (thread q) = remaining (thread p) ->
  thread_data q = thread_data p -> cancelbuffer q = cancelbuffer p -> core n (put a q s) /\ row_ok i q.
Proof.
  intros Hc Hi Hp E1 E2 E3 E4 E5. destruct (co_slot _ _ _ _ _ _ _ _ Hc i a Hi) as (p' & Hp' & [O1 O2 O3 O4]). assert (p' = p) as -> by congruence.
  assert (row_ok i q) as Ho by (split; rewrite ?E1, ?E2, ?E3; done). split; [|done]. apply (core_put n s i a p); [done..| |].
  - intros l. rewrite E4. by eapply (co_data _ _ _ _ _ _ _ _ Hc).
  - rewrite E5. by eapply (co_chain _ _ _ _ _ _ _ _ Hc).
Qed.

Lemma wf_put_same n s i a p q : wf n s -> thread_table s !! i = Some (Some a) -> infos s !! a = Some p -> id q = id p -> state q = state p -> remaining (thread q) = remaining (thread p) ->
  thread_data q = thread_data p -> cancelbuffer q = cancelbuffer p -> wf n (put a q s).
Proof.
  intros [Hc [N1 N2 N3]] Hi Hp E1 E2 E3 E4 E5. destruct (core_put_same n s i a p q Hc Hi Hp E1 E2 E3 E4 E5) as [Hc' _]. split; [done|].
  split; rewrite (counts_put n s i a p q) by done; cbn [is_present is_exited is_waiting]; rewrite ?E2, ?E3; rewrite ?N1, ?N2, ?N3; cbn; lia.
Qed.

Lemma reaped_at n s s' x i a p : wf n s -> reaped n s s' -> thread_at s x i a p -> thread_at s' x i a p.
Proof.
  intros [Hc _] Hr (Hi & Hp & Ho & Hx & Hs). pose proof (rp_keep _ _ _ Hr a p Hp Hs) as Hp'.
  destruct (info_slot n s' a p (proj1 (rp_wf _ _ _ Hr)) Hp') as (j & Hj & Ho'). assert (j = i) as -> by (by rewrite <- (ro_id _ _ Ho), <- (ro_id _ _ Ho')). by split_and!.
Qed.

(** A full table, once it has been reaped, is full of threads of the map. *)
Lemma reaped_full n s' : core n s' -> (forall a p, infos s' !! a = Some p -> state p <> PTHREAD_STATE_EXITED) -> (forall i x, thread_table s' !! i = Some x -> x <> None) ->
  size (threads s') = THREADS_MAX.
Proof.
  intros Hc Hn Hfull. unfold threads. rewrite (slots_full index_of).
  - by rewrite length_fmap, rows_length, (co_size _ _ _ _ _ _ _ _ Hc).
  - by eapply threads_ok.
  - intros y [i Hi]%list_elem_of_lookup. rewrite list_lookup_fmap in Hi. destruct (rows s' !! i) as [x|] eqn:E; [|done]. injection Hi as <-.
    pose proof (rows_inv n s' i x Hc E) as Hx. destruct x as [p|]; [|by destruct (Hfull i None Hx)]. destruct Hx as (a & _ & Hp & _). cbn. by rewrite (proj2 (Z.eqb_neq _ _) (Hn a p Hp)).
Qed.

(** What creation needs: a stack that is not in use, and a POSIX thread to inherit from. *)
Definition stack_of (u : pthread_attr_t) : Z := u32 (stackaddr u - (if stacksize_valid u then stacksize u else STACK_MIN)).

Record can_create (s : st) (a : option pthread_attr_t) : Prop := {
  cc_self : self_fine s;
  cc_inherit : inheritsched (default default_attr a) = PTHREAD_INHERIT_SCHED -> is_Some (self s);
  cc_stack : stackaddr_valid (default default_attr a) = true -> infos s !! stack_of (default default_attr a) = None;
}.

Lemma wp_use_attr s a (P : pthread_attr_t -> st -> Prop) : can_create s a ->
  (forall u, detachstate u = detachstate (default default_attr a) -> stackaddr_valid u = stackaddr_valid (default default_attr a) -> stack_of u = stack_of (default default_attr a) -> P u s) ->
  wp (use_attr a) P s.
Proof.
  intros [Hf Hi _] HP. unfold use_attr. replace (match a with None => default_attr | Some a => a end) with (default default_attr a) by by destruct a.
  destruct (Z.eqb_spec (inheritsched (default default_attr a)) PTHREAD_INHERIT_SCHED) as [E|E]; [|by apply wp_ret, HP].
  destruct (Hi E) as [me Hme]. unfold self_fine in Hf. rewrite Hme in Hf. destruct Hf as (p & _ & Hp & _).
  apply wp_bind, (wp_self_ptr me); [done|]. apply wp_bind, (wp_info_at _ p); [done|]. by apply wp_ret, HP.
Qed.

Definition steps (n : nat) (s : st) (t : Z) (o : act) (r : fate) (s' : st) : Prop :=
  (r <> Ends true -> wf n s') /\ vact (threads s) t o r (threads s') /\ pres s s'.

(** A state with the same threads. *)
Lemma same_threads n s s1 : wf n s -> infos s1 = infos s -> thread_table s1 = thread_table s -> frame s1 = frame (set_blocks (blocks s1) s) ->
  (pthread_count s1, pthreads_exited s1, pthreads_tobejoined s1) = (pthread_count s, pthreads_exited s, pthreads_tobejoined s) ->
  wf n s1 /\ threads s1 = threads s /\ self s1 = self s /\ held s1 = held s /\ wakes s1 = wakes s /\ (self_fine s -> self_fine s1) /\ (forall x i a p, thread_at s x i a p -> thread_at s1 x i a p).
Proof.
  intros Hw E1 E2 Ef En. destruct (frame_inv _ _ Ef) as (F1 & F2 & _ & F3 & _ & F4 & [F5 F6] & F7 & F8). cbn in F1, F2, F3, F4, F5, F6, F7, F8. destruct Hw as [Hc [N1 N2 N3]].
    assert (rows s1 = rows s) as Er by (unfold rows; by rewrite E1, E2). split_and!; try done.
    - split; [unfold core; by rewrite E1, E2, F4, F5, F6, F7, F8|]. injection En as G1 G2 G3. split; rewrite Er; congruence.
    - unfold threads. by rewrite Er.
    - unfold self_fine, runs. by rewrite F1, E1.
    - intros y i c p. unfold thread_at. by rewrite E1, E2.
Qed.

(** The place of the new thread, and the thread in it. *)
Lemma wp_place n s s1 t a r x u b size (fs : bool) : wf n s -> held s = false -> can_create s a -> r <> 0 -> detachstate u = detachstate (default default_attr a) ->
  infos s1 = infos s -> thread_table s1 = thread_table s -> frame s1 = frame (set_blocks (blocks s1) s) ->
    (pthread_count s1, pthreads_exited s1, pthreads_tobejoined s1) = (pthread_count s, pthreads_exited s, pthreads_tobejoined s) -> infos s !! b = None ->
    wp (lock;; pthread_reap;; start ← gets thread_info_next; next ← find_slot THREADS_MAX start;
      match next with
      | None => unlock;; when fs (pthread_free b);; mret (ENOMEM, None)
      | Some i => nid ← make_thread i u r x b size fs; unlock;; upd_thread b thread_resume;; mret (0, Some nid)
      end) (fun v s' => steps n s t (Create a r x) (Returns v.1 v.2) s') s1.
Proof.
  intros Hw Hh Hcc Hr Hd E1 E2 Ef En Hb. destruct (same_threads n s s1 Hw E1 E2 Ef En) as (Hw1 & Et1 & Es1 & Eh1 & Ek1 & Hf1 & Hat1). specialize (Hf1 (cc_self _ _ Hcc)).
    apply wp_bind, wp_plock; [congruence|]. apply wp_bind, (wp_reap n); [exact Hw1|]. intros s2 Hrp. pose proof (proj1 (rp_wf _ _ _ Hrp)) as Hc2.
    destruct (frame_inv _ _ (rp_frame _ _ _ Hrp)) as (Es2 & Eh2 & _ & Ek2 & _). cbn in Es2, Eh2, Ek2.
    assert (threads s2 = threads s) as Et2 by (rewrite (rp_threads _ _ _ Hrp); exact Et1).
    assert (forall y i c p, thread_at s y i c p -> thread_at s2 y i c p) as Hat2 by (intros y i c p H; apply (reaped_at n (set_held true s1)); [exact Hw1|done|by apply Hat1]).
    apply wp_bind, wp_gets, wp_bind, (wp_find_slot n); [done| |].
    - intros Hfull. pose proof (reaped_full n s2 Hc2 (rp_none _ _ _ Hrp) Hfull) as Hsize. rewrite Et2 in Hsize. apply wp_bind, wp_modify, wp_bind.
      assert (forall s3, wf n s3 -> threads s3 = threads s2 -> self s3 = self s2 -> held s3 = false -> wakes s3 = wakes s2 -> (forall y i c p, thread_at s2 y i c p -> thread_at s3 y i c p) ->
        steps n s t (Create a r x) (Returns ENOMEM None) s3) as Hend.
      { intros s3 Hw3 Et3 Es3 Eh3 Ek3 Hat3. split; [done|]. split; [rewrite Et3, Et2; by constructor|]. split; [congruence|congruence|congruence|]. intros y i c p H. right. exists p. by apply Hat3, Hat2. }
      destruct fs; cbn [when]; [apply wp_modify, wp_ret|apply wp_ret, wp_ret]; apply Hend; try done; exact (rp_wf _ _ _ Hrp).
    - intros i Hi. apply wp_bind, (wp_make_thread n); [exact (rp_wf _ _ _ Hrp)| |done| |].
      + unfold self_fine in *. rewrite Es2. destruct (self s1) as [me|] eqn:Eme; [|done]. destruct Hf1 as (p & Hrun). exists p. by apply (reaped_runs n (set_held true s1)); [exact (proj1 Hw1)| |].
      + destruct (infos s2 !! b) as [p|] eqn:E; [|done]. apply (rp_sub _ _ _ Hrp) in E. cbn in E. rewrite E1 in E. congruence.
      + intros s3 nid [D1 D2 D3 D4 (D5 & D6 & D7) D8] (q & Hq). apply wp_bind, wp_modify, wp_bind. set (s4 := set_held false s3). pose proof Hq as (Hqi & Hqp & Hqo & Hqx & Hqs).
        apply (wp_upd_info _ _ q); [done|]. apply wp_ret. set (q' := set_thread (thread_resume (thread q)) q).
        assert (remaining (thread q') = remaining (thread q)) as Hrq by (unfold q'; cbn; apply remaining_same).
        assert (wf n (put b q' s4)) as Hw5 by (by apply (wf_put_same n s4 i b q)). pose proof (pres_put n s4 i b q q' (proj1 D1) (proj1 Hw5) Hqi Hqp eq_refl) as Hpr.
        assert (threads (put b q' s4) = threads s3) as Et5.
        { rewrite (view_put n s4 i b q q' (proj1 D1) (proj1 Hw5) Hqi Hqp Hqs eq_refl). rewrite (proj2 (Z.eqb_neq (state q') _) Hqs). rewrite Hqx. apply insert_id.
          etransitivity; [exact (thread_at_view n s4 nid i b q (proj1 D1) Hq)|]. unfold view_thread, status_of. rewrite Hrq. done. }
        split; [done|]. split.
        * cbn [fst snd]. rewrite Et5, D2, Et2, Hd. rewrite Et2 in D3, D4. by apply va_create.
        * split; [cbn; congruence|cbn; congruence|cbn; congruence|]. intros y j c p H. apply (pr_at _ _ Hpr y j c p). by apply D8, Hat2.
Qed.

Lemma wp_thread_create n s t a r x : wf n s -> held s = false -> can_create s a -> wp (pthread_create true a r x) (fun v s' => steps n s t (Create a r x) (Returns v.1 v.2) s') s.
Proof.
  intros Hw Hh Hcc. unfold pthread_create. cbn [negb]. destruct (Z.eqb_spec r 0) as [->|Hr]; [apply wp_ret; split; [done|split; [constructor|apply pres_refl]]|].
  apply wp_bind, wp_use_attr; [done|]. intros u Hd Hv Hst.
  set (size := if stacksize_valid u then stacksize u else STACK_MIN).
  apply wp_bind. destruct (stackaddr_valid u) eqn:Ev.
  - apply wp_ret. cbn [negb andb]. apply (wp_place n s s t a r x u _ size false); [done..|by destruct s|done|]. unfold size. fold (stack_of u). rewrite Hst. apply (cc_stack _ _ Hcc). congruence.
  - cbn [negb andb]. unfold pthread_malloc. apply (wp_eq _ _ _ (match blocks s with [] => 0 | b :: _ => match infos s !! b with Some _ => 0 | None => b end end) (match blocks s with [] => s | _ :: l => set_blocks l s end)).
    { by destruct (blocks s). }
    set (b := match blocks s with [] => 0 | b :: _ => match infos s !! b with Some _ => 0 | None => b end end). set (s1 := match blocks s with [] => s | _ :: l => set_blocks l s end).
    assert (infos s1 = infos s /\ thread_table s1 = thread_table s /\ frame s1 = frame (set_blocks (blocks s1) s) /\
      (pthread_count s1, pthreads_exited s1, pthreads_tobejoined s1) = (pthread_count s, pthreads_exited s, pthreads_tobejoined s)) as (E1 & E2 & Ef & En).
    { unfold s1. destruct (blocks s) as [|b0 l] eqn:E; [|done]. split_and!; try done. }
    destruct (Z.eqb_spec b 0) as [E0|E0].
    + destruct (same_threads n s s1 Hw E1 E2 Ef En) as (Hw1 & Et1 & Es1 & Eh1 & Ek1 & _ & Hat1). apply wp_ret. split; [done|]. split; [rewrite Et1; apply va_create_stack; [done|congruence]|].
      split; [done..|]. intros y i c p H. right. exists p. by apply Hat1.
    + apply (wp_place n s s1 t a r x u b size true); [done..|]. unfold b in *. destruct (blocks s) as [|b0 l]; [done|]. by destruct (infos s !! b0) eqn:E.
Qed.

(** ** Detaching and cancelling *)

Lemma wp_reap_unlock {A} n s (v : A) (P : A -> st -> Prop) : wf n s ->
  (forall s', wf n s' -> threads s' = threads s -> self s' = self s -> held s' = false -> wakes s' = wakes s -> (forall x i a p, thread_at s x i a p -> thread_at s' x i a p) -> P v s') ->
  wp (pthread_reap;; unlock;; mret v) P s.
Proof.
  intros Hw HP. apply wp_bind, (wp_reap n); [done|]. intros s' Hr. apply wp_bind, wp_modify, wp_ret. destruct (frame_inv _ _ (rp_frame _ _ _ Hr)) as (E1 & _ & _ & E2 & _).
  apply HP; [exact (rp_wf _ _ _ Hr)|exact (rp_threads _ _ _ Hr)|done|done|done|]. intros x i a p H. by apply (reaped_at n s s' x i a p).
Qed.

Lemma detach_row i p : row_ok i p -> state p <> PTHREAD_STATE_DETACHED -> state p <> PTHREAD_STATE_EXITED ->
  row_ok i (set_state PTHREAD_STATE_DETACHED p) /\ is_exited (Some (set_state PTHREAD_STATE_DETACHED p)) = is_exited (Some p) /\
  is_waiting (Some (set_state PTHREAD_STATE_DETACHED p)) = is_waiting (Some p) /\
  match status_of p with Running false => status_of (set_state PTHREAD_STATE_DETACHED p) = Running true | Ended _ => status_of (set_state PTHREAD_STATE_DETACHED p) = Lost | _ => False end.
Proof.
  intros [O1 O2 O3 O4] H1 H2. unfold is_exited, is_waiting, status_of. cbn [state set_state thread retval].
  unfold PTHREAD_STATE_DETACHED, PTHREAD_STATE_EXITED, PTHREAD_STATE_RUNNING, PTHREAD_STATE_JOIN in *.
  assert (state p = 2 \/ state p = 3) as [E|E] by lia; rewrite E in *; cbn.
  - rewrite (O3 eq_refl). split_and!; first [done|lia|split; cbn; first [done|lia]].
  - destruct (O4 ltac:(lia)) as [m ->]. split_and!; first [done|lia|split; cbn; first [done|lia]].
Qed.

Lemma wp_thread_detach n s t x : wf n s -> held s = false -> (index_of x < THREADS_MAX)%nat -> wp (pthread_detach x) (fun e s' => steps n s t (Detach x) (Returns e None) s') s.
Proof.
  intros Hw Hh Hx. unfold pthread_detach. apply wp_bind, wp_plock; [done|]. set (s1 := set_held true s). pose proof (Hw : wf n s1) as Hw1.
  assert (forall e s2, wf n s2 -> (e, threads s2) = vdetach (threads s) x -> self s2 = self s -> wakes s2 = wakes s ->
    (forall y i a p, thread_at s y i a p -> threads s2 !! y = None \/ exists p', thread_at s2 y i a p') ->
    wp (pthread_reap;; unlock;; mret e) (fun e s' => steps n s t (Detach x) (Returns e None) s') s2) as Hend.
  { intros e s2 Hw2 Ev Es Ek Hat. apply (wp_reap_unlock n); [done|]. intros s3 Hw3 Et3 Es3 Eh3 Ek3 Hat3. split; [done|]. split.
    - rewrite Et3. replace e with (vdetach (threads s) x).1 by by rewrite <- Ev. replace (threads s2) with (vdetach (threads s) x).2 by by rewrite <- Ev. constructor.
    - split; [congruence|congruence|congruence|]. intros y i a p H. rewrite Et3. destruct (Hat y i a p H) as [Hn|[p' Hp']]; [by left|]. right. exists p'. by apply Hat3. }
  apply wp_bind. apply (wp_info_id n); [exact (proj1 Hw1)|done| |].
  - intros Hn. apply wp_bind, wp_ret, Hend; [done| |done|done|].
    + unfold vdetach. by rewrite (Hn : threads s !! x = None).
    + intros y i a p H. right. by exists p.
  - intros i a p Hi Hp Ho He Hs Hv. pose proof (Hv : threads s !! x = _) as Hv'. apply wp_bind, wp_bind, (wp_info_at _ p); [done|]. destruct (Z.eqb_spec (state p) PTHREAD_STATE_DETACHED) as [Ed|Ed].
    + apply wp_ret, Hend; [done| |done|done|].
      * unfold vdetach. rewrite Hv'. cbn. unfold status_of. rewrite Ed. cbn. by destruct (remaining (thread p)).
      * intros y j b q H. right. by exists q.
    + apply wp_bind, (wp_upd_info _ _ p); [done|]. apply wp_ret. set (q := set_state PTHREAD_STATE_DETACHED p). destruct (detach_row i p Ho Ed Hs) as (Hoq & Hex & Hwt & Hst).
      assert (core n (put a q s1)) as Hc2.
      { apply (core_put n s1 i a p); [exact (proj1 Hw1)|done..| |]; [intros l; exact (co_data _ _ _ _ _ _ _ _ (proj1 Hw) a p l Hp)|exact (co_chain _ _ _ _ _ _ _ _ (proj1 Hw) a p Hp)]. }
      pose proof (pres_put n s1 i a p q (proj1 Hw1) Hc2 Hi Hp eq_refl) as Hpr. apply Hend; [|rewrite (view_put n s1 i a p q) by first [done|exact (proj1 Hw1)]|done|done|exact (pr_at _ _ Hpr)].
      * split; [done|]. destruct Hw1 as [Hc1 [N1 N2 N3]]. split; rewrite (counts_put n s1 i a p q) by done; fold q in Hex, Hwt; rewrite ?Hex, ?Hwt; cbn in *; lia.
      * unfold vdetach. rewrite Hv', He. cbn [state q set_state v_status view_thread]. change (PTHREAD_STATE_DETACHED =? PTHREAD_STATE_EXITED) with false. cbn match.
        change (threads s1) with (threads s). unfold view_thread at 1. fold q in Hst. destruct (status_of p) as [[]|v|]; try done; by rewrite Hst.
Qed.

(** A change of one thread that keeps its state. *)
Lemma put_steps n s i a p q v : wf n s -> thread_at s v i a p -> id q = id p -> state q = state p -> retval q = retval p -> remaining (thread q) = remaining (thread p) ->
  thread_data q = thread_data p -> cancelbuffer q = cancelbuffer p ->
  wf n (put a q s) /\ threads (put a q s) = <[v := mkVT (status_of p) (cancelpending q) (cancelstate q) (canceltype q)]> (threads s) /\ pres s (put a q s).
Proof.
  intros Hw (Hi & Hp & Ho & Hx & Hs) E1 E2 E3 E4 E5 E6. pose proof (wf_put_same n s i a p q Hw Hi Hp E1 E2 E4 E5 E6) as Hw'. split; [done|]. split.
  - rewrite (view_put n s i a p q) by first [done|apply Hw|apply Hw']. rewrite E2, (proj2 (Z.eqb_neq _ _) Hs), Hx. unfold view_thread, status_of. by rewrite E2, E3, E4.
  - apply (pres_put n s i a p); [apply Hw|apply Hw'|done..].
Qed.

Lemma pres_same s s' u : pres s u -> self s' = self s -> held s' = held s -> wakes s' = wakes s -> infos s' = infos u -> thread_table s' = thread_table u -> pres s s'.
Proof.
  intros [P1 P2 P3 P4] E1 E2 E3 E4 E5. split; [done..|]. intros x i a p H. assert (threads s' = threads u) as Et by (unfold threads, rows; by rewrite E4, E5).
  rewrite Et. destruct (P4 x i a p H) as [|[p' Hp']]; [by left|right; exists p'; unfold thread_at in *; by rewrite E4, E5].
Qed.

Lemma wp_cancel n s t x : wf n s -> held s = false -> (index_of x < THREADS_MAX)%nat -> wp (pthread_cancel x) (fun e s' => steps n s t (Cancel x) (Returns e None) s') s.
Proof.
  intros Hw Hh Hx. unfold pthread_cancel. apply wp_bind, wp_plock; [done|]. set (s1 := set_held true s). pose proof (Hw : wf n s1) as Hw1.
  assert (forall e s2, wf n s2 -> (e, threads s2) = vcancel (threads s) x -> pres s1 s2 -> steps n s t (Cancel x) (Returns e None) (set_held false s2)) as Hend.
  { intros e s2 Hw2 Ev Hpr. split; [done|]. split.
    - change (threads (set_held false s2)) with (threads s2). replace e with (vcancel (threads s) x).1 by by rewrite <- Ev. replace (threads s2) with (vcancel (threads s) x).2 by by rewrite <- Ev. constructor.
    - destruct Hpr as [P1 P2 P3 P4]. split; [exact P1|cbn; congruence|exact P3|exact P4]. }
  apply wp_bind. apply (wp_info_id n); [exact (proj1 Hw1)|done| |].
  - intros Hn. apply wp_bind, wp_modify, wp_ret, Hend; [done| |apply pres_refl]. unfold vcancel. by rewrite (Hn : threads s !! x = None).
  - intros i a p Hi Hp Ho He Hs Hv. pose proof (Hv : threads s !! x = _) as Hv'. assert (thread_at s1 x i a p) as Hat by by split_and!.
    assert (forall t', remaining t' = remaining (thread p) -> steps n s t (Cancel x) (Returns 0 None) (set_held false (put a (set_thread t' (set_cancelpending true p)) s1))) as Hq.
    { intros t' Ht. destruct (put_steps n s1 i a p (set_thread t' (set_cancelpending true p)) x Hw1 Hat eq_refl eq_refl eq_refl Ht eq_refl eq_refl) as (H1 & H2 & H3).
      apply Hend; [done| |done]. rewrite H2. unfold vcancel. by rewrite Hv'. }
    destruct (remaining_same (thread p)) as (_ & _ & Ra & Rr & _). destruct (remaining_same (thread_asr (thread p))) as (_ & _ & _ & Rar & _).
    assert (steps n s t (Cancel x) (Returns 0 None) (set_held false (put a (set_cancelpending true p) s1))) as H0.
    { specialize (Hq (thread p) eq_refl). by replace (set_thread (thread p) (set_cancelpending true p)) with (set_cancelpending true p) in Hq by by destruct p. }
    apply wp_bind, (wp_upd_info _ _ p); [done|]. apply wp_bind, wp_info_at_put. apply wp_bind. unfold upd_thread.
    destruct (cancelstate (set_cancelpending true p) =? PTHREAD_CANCEL_ENABLE); cbn [when]; [|by apply wp_ret, wp_bind, wp_modify, wp_ret].
    destruct (canceltype (set_cancelpending true p) =? PTHREAD_CANCEL_ASYNCHRONOUS).
    + apply wp_bind, wp_upd_info_put, wp_upd_info_put, wp_bind, wp_modify, wp_ret. apply (Hq (thread_release (thread_asr (thread p)))). congruence.
    + destruct (canceltype (set_cancelpending true p) =? PTHREAD_CANCEL_DEFERRED); cbn [when].
      * apply wp_upd_info_put, wp_bind, wp_modify, wp_ret. by apply (Hq (thread_release (thread p))).
      * by apply wp_ret, wp_bind, wp_modify, wp_ret.
Qed.

Lemma held_put a q s : held s = false -> set_held false (put a q (set_held true s)) = put a q s.
Proof. destruct s. cbn. by intros ->. Qed.

Lemma wp_setcancelstate v s a p (P : Z * option Z -> st -> Prop) : held s = false -> self s = Some a -> infos s !! a = Some p -> (v = PTHREAD_CANCEL_ENABLE \/ v = PTHREAD_CANCEL_DISABLE) ->
  P (0, Some (cancelstate p)) (put a (set_cancelstate v p) s) -> wp (pthread_setcancelstate v) P s.
Proof.
  intros Hh Ha Hp Hv HP. unfold pthread_setcancelstate. assert (negb (v =? PTHREAD_CANCEL_ENABLE) && negb (v =? PTHREAD_CANCEL_DISABLE) = false) as -> by (by destruct Hv as [-> | ->]).
  apply wp_bind, wp_plock; [done|]. apply wp_bind, (wp_self_ptr a); [done|]. apply wp_bind, (wp_info_at _ p); [done|]. apply wp_bind, (wp_upd_info _ _ p); [done|].
  apply wp_bind, wp_modify, wp_ret. by rewrite held_put.
Qed.

Lemma wp_setcanceltype v s a p (P : Z * option Z -> st -> Prop) : held s = false -> self s = Some a -> infos s !! a = Some p -> (v = PTHREAD_CANCEL_ASYNCHRONOUS \/ v = PTHREAD_CANCEL_DEFERRED) ->
  P (0, Some (canceltype p)) (put a (set_canceltype v p) s) -> wp (pthread_setcanceltype v) P s.
Proof.
  intros Hh Ha Hp Hv HP. unfold pthread_setcanceltype. assert (negb (v =? PTHREAD_CANCEL_ASYNCHRONOUS) && negb (v =? PTHREAD_CANCEL_DEFERRED) = false) as -> by (by destruct Hv as [-> | ->]).
  apply wp_bind, wp_plock; [done|]. apply wp_bind, (wp_self_ptr a); [done|]. apply wp_bind, (wp_info_at _ p); [done|]. apply wp_bind, (wp_upd_info _ _ p); [done|].
  apply wp_bind, wp_modify, wp_ret. by rewrite held_put.
Qed.

Lemma set_steps n s a p v : wf n s -> held s = false -> runs s a p ->
  wp (pthread_setcancelstate v) (fun r s' => steps n s (id p) (Setcancelstate v) (Returns r.1 r.2) s') s /\
  wp (pthread_setcanceltype v) (fun r s' => steps n s (id p) (Setcanceltype v) (Returns r.1 r.2) s') s.
Proof.
  intros Hw Hh Hrun. destruct (runs_at n s a p (proj1 Hw) Hrun) as (i & Hat & _). pose proof (thread_at_view n s _ i a p (proj1 Hw) Hat) as Hv. destruct Hrun as (Ha & Hp & _). split.
  - destruct (decide (v = PTHREAD_CANCEL_ENABLE \/ v = PTHREAD_CANCEL_DISABLE)) as [E|E].
    + apply (wp_setcancelstate v s a p); [done..|]. destruct (put_steps n s i a p (set_cancelstate v p) _ Hw Hat eq_refl eq_refl eq_refl eq_refl eq_refl eq_refl) as (H1 & H2 & H3).
      split; [done|]. split; [|done]. rewrite H2. exact (va_setcancelstate _ _ v _ E Hv).
    + unfold pthread_setcancelstate. rewrite !(proj2 (Z.eqb_neq _ _)) by tauto. apply wp_ret. split; [done|]. split; [|apply pres_refl]. constructor; tauto.
  - destruct (decide (v = PTHREAD_CANCEL_ASYNCHRONOUS \/ v = PTHREAD_CANCEL_DEFERRED)) as [E|E].
    + apply (wp_setcanceltype v s a p); [done..|]. destruct (put_steps n s i a p (set_canceltype v p) _ Hw Hat eq_refl eq_refl eq_refl eq_refl eq_refl eq_refl) as (H1 & H2 & H3).
      split; [done|]. split; [|done]. rewrite H2. exact (va_setcanceltype _ _ v _ E Hv).
    + unfold pthread_setcanceltype. rewrite !(proj2 (Z.eqb_neq _ _)) by tauto. apply wp_ret. split; [done|]. split; [|apply pres_refl]. constructor; tauto.
Qed.

(** ** Ending *)

Context (kint : keys_int) (routines_ok : forall r x, Forall rop_ok (routine_ops r x)).

Lemma wp_destructor_at n s k (P : Z -> st -> Prop) : core n s -> (k < PTHREAD_KEYS_MAX)%nat -> (forall d, key_destructor s !! k = Some d -> P d s) -> wp (destructor_at k) P s.
Proof.
  intros Hc Hk HP. destruct (co_keys _ _ _ _ _ _ _ _ Hc) as (_ & _ & Hl & _). destruct (lookup_lt_is_Some_2 (key_destructor s) k) as [d Hd]; [lia|].
  apply (wp_eq _ _ _ d s); [unfold destructor_at; by rewrite Hd|by apply HP].
Qed.

(** Destructors that use keys: each pass ends, with at most one call for each key. *)
Lemma wp_key_pass n s a m key c (P : bool -> st -> Prop) : core n s -> held s = false -> self s = Some a -> has_data a s -> (key + m = PTHREAD_KEYS_MAX)%nat ->
  (forall s' c', kept n s s' -> has_data a s' -> (length (called s') <= length (called s) + m)%nat -> P c' s') -> wp (key_pass a key m c) P s.
Proof.
  induction m as [|m IH] in s, key, c, P |- *; intros Hc Hh Ha Hd Hk HP; cbn [key_pass]; [apply wp_ret, HP; [by apply kept_refl|done|lia]|].
  assert (wp (key_pass a (S key) m c) P s) as Hskip by (apply IH; [done..|lia|]; intros s' c' H1 H2 H3; apply HP; [done|done|lia]). assert (key_ok (Z.of_nat key)) as Hok by (split; lia).
  apply wp_bind, (wp_key_free kint n); [done|done|]. destruct (is_free s (Z.of_nat key)); [done|]. apply wp_bind, (wp_destructor_at n); [done|lia|]. intros d _. destruct (d =? 0); [done|].
  destruct Hd as (p & Hp & l & Hl). apply wp_bind, (wp_info_at _ p); [done|]. rewrite Hl. pose proof (co_data _ _ _ _ _ _ _ _ Hc a p l Hp Hl) as Hlen.
  destruct (lookup_lt_is_Some_2 l key) as [v Hv]; [lia|]. apply wp_bind, (wp_data_at _ _ v); [done|]. destruct (v =? 0); [done|].
  apply wp_bind, (wp_upd_info _ _ p); [done|]. set (s1 := put a (set_thread_data (Some (<[key := 0]> l)) p) s).
  assert (kept n s s1) as Hk1 by (apply kept_data; [done|done|by rewrite length_insert]). destruct (kept_self _ _ _ Hk1) as [E1 E2].
  apply wp_bind, (wp_call_routine kint routines_ok n s1 a); [apply Hk1|congruence|congruence|eexists; apply info_put_at|]. intros s2 Hk2 Ec2 Hd2. destruct (kept_self _ _ _ Hk2) as [E3 E4].
  apply IH; [apply Hk2|congruence|congruence|by apply Hd2, has_data_put; eexists|lia|]. intros s3 c' Hk3 Hd3 Hn3. apply HP; [by eapply kept_chain; [|eapply kept_chain]|done|].
  rewrite Ec2 in Hn3. cbn in Hn3. change (called s1) with (called s) in Hn3. lia.
Qed.

Lemma wp_passes n s a m k (P : unit -> st -> Prop) : core n s -> held s = false -> self s = Some a -> has_data a s ->
  (forall s', kept n s s' -> (length (called s') <= length (called s) + m * PTHREAD_KEYS_MAX)%nat -> P tt s') -> wp (passes m a k) P s.
Proof.
  induction m as [|m IH] in s, k, P |- *; intros Hc Hh Ha Hd HP; cbn [passes]; [apply wp_ret, HP; [by apply kept_refl|lia]|].
  apply wp_bind, (wp_key_pass n); [done..|]. intros s1 c Hk1 Hd1 Hn1. destruct (kept_self _ _ _ Hk1) as [E1 E2]. destruct (c && (S k <=? DESTRUCTOR_ITERATIONS)%nat); [|apply wp_ret, HP; [done|lia]].
  apply IH; [apply Hk1|congruence|congruence|done|]. intros s2 Hk2 Hn2. apply HP; [by eapply kept_chain|lia].
Qed.

Lemma wp_run_destructors n s a p (P : unit -> st -> Prop) : core n s -> held s = false -> self s = Some a -> infos s !! a = Some p ->
  (forall s', kept n s s' -> (length (called s') <= length (called s) + S DESTRUCTOR_ITERATIONS * PTHREAD_KEYS_MAX)%nat -> P tt s') -> wp (run_destructors a) P s.
Proof.
  intros Hc Hh Ha Hp HP. unfold run_destructors. apply wp_bind, (wp_info_at _ p); [done|]. destruct (thread_data p) as [l|] eqn:E; [|apply wp_ret, HP; [by apply kept_refl|lia]].
  apply (wp_passes n); [done..| |done]. exists p. split; [done|by eexists].
Qed.

(** *** The state of the thread *)

Definition ended_state (detached : bool) : Z := if detached then PTHREAD_STATE_EXITED else PTHREAD_STATE_JOIN.

Lemma leave_row i v p t : row_ok i p -> is_Some (remaining t) -> row_ok i (set_thread t (set_state (ended_state (state p =? PTHREAD_STATE_DETACHED)) (set_retval v p))).
Proof.
  intros [O1 O2 O3 O4] Ht. split; cbn; [done| | |done].
  all: unfold ended_state, PTHREAD_STATE_DETACHED, PTHREAD_STATE_EXITED, PTHREAD_STATE_RUNNING, PTHREAD_STATE_JOIN in *; destruct (state p =? 1); try lia; done.
Qed.

(** The state once the structure of the thread has become [q]. *)
Definition left_with (a : Z) (p q : pthread_info) (s : st) : st :=
  set_pthreads_tobejoined (pthreads_tobejoined s + Z.b2z (negb (state p =? PTHREAD_STATE_DETACHED)))
    (set_pthreads_exited (pthreads_exited s + Z.b2z (state p =? PTHREAD_STATE_DETACHED)) (put a q s)).

Lemma left_wf n s a p v i t : wf n s -> runs s a p -> thread_table s !! i = Some (Some a) -> is_Some (remaining t) ->
  wf n (left_with a p (set_thread t (set_state (ended_state (state p =? PTHREAD_STATE_DETACHED)) (set_retval v p))) s).
Proof.
  intros Hw Hrun Hi Ht. pose proof Hw as [Hc [N1 N2 N3]]. pose proof Hrun as (Ha & Hp & Hr). destruct (runs_at n s a p Hc Hrun) as (j & (_ & _ & Ho & _) & Hs & _).
  assert (j = i) as -> by (destruct (info_slot n s a p Hc Hp) as (k & Hk & Ho'); rewrite <- (ro_id _ _ Ho), (ro_id _ _ Ho'); by eapply thread_slot_inj).
  set (q := set_thread t _). pose proof (leave_row i v p t Ho Ht) as Hoq. split.
  - apply (core_put n s i a p); [done..|exact (fun l => co_data _ _ _ _ _ _ _ _ Hc a p l Hp)|exact (co_chain _ _ _ _ _ _ _ _ Hc a p Hp)].
  - change (rows (left_with a p q s)) with (rows (put a q s)). split; change (rows (left_with a p q s)) with (rows (put a q s)); rewrite (counts_put n s i a p q) by done;
      unfold left_with, q, ended_state; cbn; rewrite ?N1, ?N2, ?N3, ?Hr; unfold PTHREAD_STATE_DETACHED, PTHREAD_STATE_EXITED, PTHREAD_STATE_RUNNING, PTHREAD_STATE_JOIN in *;
      destruct (Z.eqb_spec (state p) 1) as [E|E]; cbn; rewrite ?andb_false_r, ?orb_false_r;
      try (rewrite (proj2 (Z.eqb_neq (state p) 4)) by lia); try (rewrite (proj2 (Z.eqb_neq (state p) 3)) by lia); cbn; lia.
Qed.

Lemma threads_put_same n s i a q q' : core n s -> thread_table s !! i = Some (Some a) -> vrow (Some q) = vrow (Some q') -> threads (put a q s) = threads (put a q' s).
Proof. intros Hc Hi Hv. unfold threads. rewrite !(rows_put n s i a) by done. by rewrite !(list_fmap_insert vrow), Hv. Qed.

Lemma set_held_left a p q s : held s = false -> set_held false (left_with a p q (set_held true s)) = left_with a p q s.
Proof. destruct s. cbn. by intros ->. Qed.

(** The program ends when no thread runs any more. *)
Lemma wp_leave n s a p v (P : bool -> st -> Prop) : wf n s -> held s = false -> runs s a p ->
  (forall b s', let m := if state p =? PTHREAD_STATE_DETACHED then delete (id p) (threads s) else <[id p := mkVT (Ended v) (cancelpending p) (cancelstate p) (canceltype p)]> (threads s) in
    b = all_ended m -> threads s' = m -> (b = false -> wf n s' /\ pres s s') -> called s' = called s -> P b s') -> wp (leave a v) P s.
Proof.
  intros Hw Hh Hrun HP. pose proof (proj1 Hw) as Hc. destruct (runs_at n s a p Hc Hrun) as (i & Hat & Hs & Hst). pose proof Hrun as (Ha & Hp & Hr). pose proof Hat as (Hi & _ & Ho & _ & Hx).
  set (q := set_state (ended_state (state p =? PTHREAD_STATE_DETACHED)) (set_retval v p)). set (e := set_thread (thread_exit (thread p)) q).
  pose proof (left_wf n s a p v i _ Hw Hrun Hi (remaining_exit (thread p))) as Hwe. fold q in Hwe. fold e in Hwe.
  assert (core n (put a e s)) as Hce by exact (proj1 Hwe).
  set (m := if state p =? PTHREAD_STATE_DETACHED then delete (id p) (threads s) else <[id p := mkVT (Ended v) (cancelpending p) (cancelstate p) (canceltype p)]> (threads s)).
  assert (threads (put a e s) = m) as Em.
  { rewrite (view_put n s i a p e Hc Hce Hi Hp Hx eq_refl). unfold m, view_thread, status_of, e, q, ended_state. cbn [state set_thread set_state set_retval retval cancelpending cancelstate canceltype thread].
    by destruct (state p =? PTHREAD_STATE_DETACHED). }
  assert ((pthreads_exited (left_with a p e s) + pthreads_tobejoined (left_with a p e s) =? pthread_count s) = all_ended m) as Hb.
  { destruct Hwe as [Hc' [M1 M2 M3]]. pose proof (cnt_live n _ Hc') as Hlive. pose proof (live_running n _ Hc') as Hrunning. rewrite (Em : threads (left_with a p e s) = m) in Hrunning.
    change (pthread_count s) with (pthread_count (left_with a p e s)). unfold all_ended. rewrite M1, M2, M3, Hlive. case_bool_decide as Hd.
    - apply Z.eqb_eq. apply Hrunning in Hd. lia.
    - apply Z.eqb_neq. intros E. apply Hd, Hrunning. lia. }
  unfold leave. apply wp_bind, wp_plock; [done|]. apply wp_bind, (wp_upd_info _ _ p); [done|]. apply wp_bind, wp_info_at_put. change (state (set_retval v p)) with (state p).
  assert (forall Q : unit -> st -> Prop, Q tt (left_with a p q (set_held true s)) -> wp (if state p =? PTHREAD_STATE_DETACHED then upd_info a (set_state PTHREAD_STATE_EXITED);; modify (fun s => set_pthreads_exited (pthreads_exited s + 1) s)
     else upd_info a (set_state PTHREAD_STATE_JOIN);; modify (fun s => set_pthreads_tobejoined (pthreads_tobejoined s + 1) s)) Q (put a (set_retval v p) (set_held true s))) as Hst2.
  { intros Q HQ. unfold left_with, q, ended_state in HQ. destruct (state p =? PTHREAD_STATE_DETACHED); cbn [negb Z.b2z] in HQ; apply wp_bind, wp_upd_info_put, wp_modify;
      rewrite Z.add_0_r in HQ; exact HQ. }
  apply wp_bind, Hst2, wp_bind, wp_get, wp_bind, wp_modify. rewrite set_held_left by done.
  change (pthreads_exited (left_with a p q (set_held true s)) + pthreads_tobejoined (left_with a p q (set_held true s)) =? pthread_count (left_with a p q (set_held true s)))
    with (pthreads_exited (left_with a p e s) + pthreads_tobejoined (left_with a p e s) =? pthread_count s). rewrite Hb.
  apply wp_bind. destruct (all_ended m) eqn:Eb; cbn [negb when].
  - apply wp_ret, wp_ret, HP; [done| |done|done]. transitivity (threads (put a e s)); [|exact Em]. change (threads (left_with a p q s)) with (threads (put a q s)). apply (threads_put_same n s i); [done..|].
    unfold e, q, ended_state, vrow, view_thread, status_of. cbn. by destruct (state p =? PTHREAD_STATE_DETACHED).
  - unfold upd_thread. apply (wp_upd_info _ _ q); [apply info_put_at|].
    assert (put a (set_thread (thread_exit (thread q)) q) (left_with a p q s) = left_with a p e s) as -> by exact (f_equal (fun s' => set_pthreads_tobejoined _ (set_pthreads_exited _ s')) (info_put_put s a q e)).
    apply wp_ret, HP; [done|exact Em| |done]. intros _. split; [done|]. apply (pres_same s _ (put a e s)); [|done..]. apply (pres_put n s i a p e); done.
Qed.

(** *** The whole of ending *)

Lemma rest_pres n s s' : core n s -> kept n s s' -> pres s s'.
Proof.
  intros Hc [Hc' E]. destruct (rest_inv _ _ E) as (E1 & E2 & _ & E3 & _ & E4 & _). split; [done..|]. intros x i a p (Hi & Hp & [O1 O2 O3 O4] & Hx & Hs). right.
  destruct (rest_info s s' a p E Hp) as (p' & Hp' & He). exists p'. pose proof (f_equal id He : id p' = id p) as F1. pose proof (f_equal state He : state p' = state p) as F2.
  pose proof (f_equal thread He : thread p' = thread p) as F3. split_and!; [congruence|done| |congruence|congruence]. split; rewrite ?F1, ?F2, ?F3; done.
Qed.

Lemma pres_runs n s s' a p : pres s s' -> core n s -> runs s a p -> (exists p', infos s' !! a = Some p' /\ erase p' = erase p) -> exists p', runs s' a p' /\ erase p' = erase p.
Proof.
  intros [P1 _ _ _] Hc (Ha & Hp & Hr) (p' & Hp' & He). exists p'. split; [|done]. split_and!; [congruence|done|]. pose proof (f_equal thread He : thread p' = thread p) as E. by rewrite E.
Qed.

(** The thread once it has no cleanup handlers left and cannot be cancelled. *)
Definition closing (p : pthread_info) : pthread_info := set_cancelbuffer None (set_cancelstate PTHREAD_CANCEL_DISABLE p).

Lemma closing_wf n s a p : wf n s -> infos s !! a = Some p -> wf n (put a (closing p) s).
Proof.
  intros [Hc [N1 N2 N3]] Hp. destruct (info_slot n s a p Hc Hp) as (i & Hi & [O1 O2 O3 O4]). split.
  - apply (core_put n s i a p); [done|done|done|by split|exact (fun l => co_data _ _ _ _ _ _ _ _ Hc a p l Hp)|exists []; split; [done|cbn; lia]].
  - split; rewrite (counts_put n s i a p (closing p)) by done; cbn; lia.
Qed.

(** The end, when only data and keys have changed since. *)
Lemma wp_exit_leave n s s3 a p v (P : bool -> st -> Prop) : wf n s -> held s = false -> runs s a p -> kept n (put a (closing p) s) s3 ->
  (forall b s', b = all_ended (vexit (threads s) (id p) v) -> threads s' = vexit (threads s) (id p) v -> (b = false -> wf n s' /\ pres s s') -> called s' = called s3 -> P b s') -> wp (leave a v) P s3.
Proof.
  intros Hw Hh Hrun Hk HP. destruct (runs_at n s a p (proj1 Hw) Hrun) as (i & Hat & Hs & Hst). pose proof Hrun as (Ha & Hp & Hr). pose proof Hat as (Hi & _ & Ho & _ & Hx).
  set (p2 := closing p) in *. pose proof (closing_wf n s a p Hw Hp) as Hwp2. fold p2 in Hwp2. pose proof (proj1 Hwp2) as Hcp2.
  assert (wf n s3) as Hw3 by (split; [apply Hk|exact (rest_counts _ _ (proj2 Hk) (proj2 Hwp2))]).
  destruct (rest_info _ _ a p2 (proj2 Hk) (info_put_at _ _ _)) as (p4 & Hp4 & Ep4). destruct (rest_inv _ _ (proj2 Hk)) as (Es3 & Eh3 & _). cbn in Es3, Eh3.
  assert (threads s3 = <[id p := mkVT (status_of p) (cancelpending p) PTHREAD_CANCEL_DISABLE (canceltype p)]> (threads s)) as Et3.
  { rewrite (rest_threads _ _ (proj2 Hk)). rewrite (view_put n s i a p p2) by first [done|apply Hw|apply Hwp2]. change (state p2) with (state p). rewrite (proj2 (Z.eqb_neq _ _) Hx). done. }
  assert (pres s s3) as Hpr3.
  { pose proof (rest_pres n _ _ (proj1 Hwp2) Hk) as [P1 P2 P3 P4]. split; [done..|]. intros x j b r H. pose proof (pres_put n s i a p p2 (proj1 Hw) Hcp2 Hi Hp eq_refl) as Hpp.
    destruct (pr_at _ _ Hpp x j b r H) as [Hnone|[r' Hr']]; [left; by rewrite (rest_threads _ _ (proj2 Hk))|by apply (P4 x j b r')]. }
  assert (remaining (thread p4) = None) as Hr4 by (pose proof (f_equal thread Ep4 : thread p4 = thread p) as E; by rewrite E).
  apply (wp_leave n s3 a p4); [done|congruence|split_and!; [congruence|done|done]|]. intros b s4 m Hb Et4 Hw4 Ec4.
  assert (m = vexit (threads s) (id p) v) as Em.
  { pose proof (f_equal state Ep4 : state p4 = state p) as F1. pose proof (f_equal id Ep4 : id p4 = id p) as F2. pose proof (f_equal cancelpending Ep4 : cancelpending p4 = cancelpending p) as F3.
    pose proof (f_equal cancelstate Ep4 : cancelstate p4 = PTHREAD_CANCEL_DISABLE) as F4. pose proof (f_equal canceltype Ep4 : canceltype p4 = canceltype p) as F5.
    unfold m, vexit. rewrite F1, F2, F3, F4, F5, Et3, (thread_at_view n s _ i a p (proj1 Hw) Hat). cbn [view_thread v_status v_pending v_canceltype]. rewrite Hst.
    destruct (state p =? PTHREAD_STATE_DETACHED); [by rewrite delete_insert_eq|by rewrite insert_insert_eq]. }
  apply HP; [congruence|congruence| |done]. intros Hb0. destruct (Hw4 Hb0) as [Hw4' [Q1 Q2 Q3 Q4]]. split; [done|]. destruct Hpr3 as [P1 P2 P3 P4]. split; [congruence..|]. intros x j c r H.
  destruct (P4 x j c r H) as [Hnone|[r' Hr']]; [|by apply (Q4 x j c r')]. left. rewrite Et4, Em. unfold vexit. rewrite Et3 in Hnone. rewrite lookup_insert_None in Hnone. destruct Hnone as [Hn1 Hn2].
  rewrite (thread_at_view n s _ i a p (proj1 Hw) Hat). cbn [view_thread v_status]. rewrite Hst. destruct (state p =? PTHREAD_STATE_DETACHED); [by rewrite lookup_delete_None; right|by rewrite lookup_insert_ne].
Qed.

Lemma wp_exit n fuel s a p v (P : bool -> st -> Prop) : wf n s -> held s = false -> runs s a p -> (n <= fuel)%nat ->
  (forall b s', b = all_ended (vexit (threads s) (id p) v) -> threads s' = vexit (threads s) (id p) v -> (b = false -> wf n s' /\ pres s s') -> P b s') -> wp (pthread_exit fuel v) P s.
Proof.
  intros Hw Hh Hrun Hf HP. destruct (runs_at n s a p (proj1 Hw) Hrun) as (i & Hat & _). pose proof Hrun as (Ha & Hp & Hr).
  unfold pthread_exit. apply wp_bind, (wp_self_ptr a); [done|]. apply wp_bind, (wp_setcancelstate _ s a p); [done..|by right|]. set (p1 := set_cancelstate PTHREAD_CANCEL_DISABLE p). set (s1 := put a p1 s).
  destruct (put_steps n s i a p p1 (id p) Hw Hat eq_refl eq_refl eq_refl eq_refl eq_refl eq_refl) as (Hw1 & _ & _). fold s1 in Hw1.
  destruct (co_chain _ _ _ _ _ _ _ _ (proj1 Hw1) a p1 (info_put_at _ _ _)) as (l & Hl & Hn). apply wp_bind, (wp_cleanup kint routines_ok n fuel s1 a p1 l); [apply Hw1|done|done|apply info_put_at|done|done|lia|].
  intros s2 Hk2 _. change (set_cancelbuffer None p1) with (closing p) in Hk2. assert (put a (closing p) s1 = put a (closing p) s) as Epp by (unfold s1; apply info_put_put). rewrite Epp in Hk2.
  destruct (rest_info _ _ a (closing p) (proj2 Hk2) (info_put_at _ _ _)) as (p3 & Hp3 & _). destruct (rest_inv _ _ (proj2 Hk2)) as (Es2 & Eh2 & _). cbn in Es2, Eh2.
  apply wp_bind, (wp_run_destructors n s2 a p3); [apply Hk2|congruence|congruence|done|]. intros s3 Hk3 _.
  apply (wp_exit_leave n s s3 a p); [done..|by eapply kept_chain|]. intros b s' H1 H2 H3 _. by apply HP.
Qed.

End Calls.
