(* ===== verification/PthreadProps.v ===== *)
(** * Properties of the POSIX threads

    Sequences of calls refine the map of threads; joins that wait; keys, cleanup handlers and
    destructors. *)

From stdpp Require Import gmap.
From S2P Require Import Prelude.
From S2P Require Import Hal.
From S2P Require Import Pthread.
From S2P Require Import PthreadFacts.
From S2P Require Import PthreadCalls.

(** A call that may be a join. *)
Inductive call := Do (o : act) | Join (thread : Z) (wanted : bool).

Section Props.
Context {kt : KThread} {cfg : PthreadConfig} {rt : Routines}.
Context (kint : keys_int) (routines_ok : forall r x, Forall rop_ok (routine_ops r x)).
Context (errors : EINVAL <> 0 /\ ESRCH <> 0 /\ EDEADLK <> 0 /\ EAGAIN <> 0).

Definition id_ok (x : Z) : Prop := (index_of x < THREADS_MAX)%nat.

(** Stacks come from [malloc]. *)
Definition act_ok (o : act) : Prop :=
  match o with
  | Create a _ _ => stackaddr_valid (default default_attr a) = false
  | Detach x | Cancel x => id_ok x
  | _ => True
  end.

Definition acted (n : nat) (s : st) (t : Z) (o : act) (r : fate) (s' : st) : Prop :=
  (r <> Ends true -> wf n s' /\ pres s s') /\ vact (threads s) t o r (threads s').

Lemma acted_steps n s t o r s' : steps n s t o r s' -> acted n s t o r s'.
Proof. intros (H1 & H2 & H3). split; [by auto|done]. Qed.

Lemma wp_run_act n fuel s a p o : wf n s -> held s = false -> runs s a p -> (n <= fuel)%nat -> act_ok o -> wp (run_act fuel o) (fun r s' => acted n s (id p) o r s') s.
Proof.
  intros Hw Hh Hrun Hf Ho. destruct o as [u r x|v|x|x|v|v]; cbn [run_act]; apply wp_bind.
  - assert (can_create s u) as Hcc.
    { destruct Hrun as (Ha & Hp & Hr). split; [unfold self_fine; rewrite Ha; exists p; by split_and!|by rewrite Ha|]. cbn in Ho. congruence. }
    eapply wp_mono; [exact (wp_thread_create n s (id p) u r x Hw Hh Hcc)|]. intros v s' H. by apply wp_ret, acted_steps.
  - apply (wp_exit kint routines_ok n fuel s a p); [done..|]. intros b s' Hb Et Hw'. apply wp_ret. split; [intros Hne; apply Hw'; by destruct b|]. rewrite Et, Hb. constructor.
  - eapply wp_mono; [exact (wp_thread_detach n s (id p) x Hw Hh Ho)|]. intros v s' H. by apply wp_ret, acted_steps.
  - eapply wp_mono; [exact (wp_cancel n s (id p) x Hw Hh Ho)|]. intros v s' H. by apply wp_ret, acted_steps.
  - eapply wp_mono; [exact (proj1 (set_steps n s a p v Hw Hh Hrun))|]. intros r s' H. by apply wp_ret, acted_steps.
  - eapply wp_mono; [exact (proj2 (set_steps n s a p v Hw Hh Hrun))|]. intros r s' H. by apply wp_ret, acted_steps.
Qed.

(** A thread makes a call. *)
Lemma by_thread_cases {A} n s t (m : M st A) : core n s -> id_ok t ->
  (by_thread t m s = Ret (None, s) /\ (forall v, threads s !! t = Some v -> running v = false)) \/
  (exists a p v, runs (set_self (Some a) s) a p /\ id p = t /\ threads s !! t = Some v /\ running v = true /\
    by_thread t m s = match m (set_self (Some a) s) with Ret (r, s') => Ret (Some r, set_self (self s) s') | UB => UB | NoFuel => NoFuel end).
Proof.
  intros Hc Ht. assert (wp (pthread_info_id t) (fun r s' => s' = s /\ match r with
    | None => threads s !! t = None
    | Some a => exists p i, thread_at s t i a p
    end) s) as H.
  { apply (wp_info_id n); [done..|]. intros i a p Hi Hp Ho Hx Hs _. split; [done|]. exists p, i. by split_and!. }
  destruct (proj1 (wp_Ret _ _ _) H) as (r & s' & E & -> & Hr). unfold by_thread. rewrite (bind_Ret _ _ _ _ _ E). destruct r as [a|].
  2: { left. split; [done|]. intros v Hv. congruence. }
  destruct Hr as (p & i & Hat). pose proof (thread_at_view n s t i a p Hc Hat) as Hv. destruct Hat as (Hi & Hp & [O1 O2 O3 O4] & Hx & Hs).
  assert (info_at a s = Ret (p, s)) as Ei by (unfold info_at; by rewrite Hp). rewrite (bind_Ret _ _ _ _ _ Ei).
  assert (running (view_thread p) = match remaining (thread p) with None => true | Some _ => false end) as Er.
  { unfold running, view_thread, status_of. cbn. destruct (Z.eqb_spec (state p) PTHREAD_STATE_JOIN) as [E1|E1].
    - destruct O4 as [k ->]; [by rewrite E1|done].
    - by destruct (remaining (thread p)). }
  destruct (remaining (thread p)) as [k|] eqn:Ek.
  - left. split; [done|]. intros v Hv'. congruence.
  - right. exists a, p, (view_thread p). split_and!; try done.
Qed.

(** One turn of a sequence of calls of acts. *)
Definition vturn (m : gmap Z vthread) (t : Z) (o : act) (r : option fate) (m' : gmap Z vthread) : Prop :=
  match r with
  | Some r => (exists v, m !! t = Some v /\ running v = true) /\ vact m t o r m'
  | None => (forall v, m !! t = Some v -> running v = false) /\ m' = m
  end.

Lemma pres_self v s s' : pres (set_self v s) s' -> pres s (set_self (self s) s').
Proof. intros [P1 P2 P3 P4]. by split. Qed.

Lemma wp_turn n fuel s t o : wf n s -> held s = false -> id_ok t -> (n <= fuel)%nat -> act_ok o ->
  wp (by_thread t (run_act fuel o)) (fun r s' => (r <> Some (Ends true) -> wf n s' /\ pres s s') /\ vturn (threads s) t o r (threads s')) s.
Proof.
  intros Hw Hh Ht Hf Ho. destruct (by_thread_cases n s t (run_act fuel o) (proj1 Hw) Ht) as [[E Hv]|(a & p & v & Hrun & Hx & Hv & Hr & E)].
  - apply (wp_eq _ _ _ _ _ E). split; [by split; [|apply pres_refl]|done].
  - pose proof (wp_run_act n fuel (set_self (Some a) s) a p o Hw Hh Hrun Hf Ho) as H. destruct (proj1 (wp_Ret _ _ _) H) as (r & s' & E' & H1 & H2). rewrite E' in E.
    apply (wp_eq _ _ _ _ _ E). split.
    + intros Hne. destruct H1 as [H1 H3]; [congruence|]. split; [exact H1|by apply pres_self in H3].
    + rewrite Hx in H2. split; [by exists v|exact H2].
Qed.

(** ** Joining *)

Definition cancels (v : vthread) : bool := v_pending v && (v_cancelstate v =? PTHREAD_CANCEL_ENABLE).

Lemma wp_testcancel n fuel s a p (P : option bool -> st -> Prop) : wf n s -> held s = false -> runs s a p -> (n <= fuel)%nat ->
  (cancels (view_thread p) = false -> P None s) ->
  (forall b s', cancels (view_thread p) = true -> b = all_ended (vexit (threads s) (id p) PTHREAD_CANCELED) -> threads s' = vexit (threads s) (id p) PTHREAD_CANCELED ->
    (b = false -> wf n s' /\ pres s s') -> P (Some b) s') -> wp (pthread_testcancel fuel) P s.
Proof.
  intros Hw Hh Hrun Hf H0 H1. pose proof Hrun as (Ha & Hp & Hr). unfold pthread_testcancel, checkforcancel, pthread_self_info. apply wp_bind, wp_bind, wp_gets. rewrite Ha.
  apply wp_bind, (wp_info_at _ p); [done|]. apply wp_ret. change (cancelpending p && (cancelstate p =? PTHREAD_CANCEL_ENABLE)) with (cancels (view_thread p)).
  destruct (cancels (view_thread p)); [|by apply wp_ret, H0]. apply wp_bind, (wp_exit kint routines_ok n fuel s a p); [done..|]. intros b s' Hb Et Hw'. by apply wp_ret, H1.
Qed.

(** The thread has been joined. *)
Record joined (n : nat) (s s' : st) (x : Z) : Prop := {
  jd_wf : wf n s';
  jd_threads : threads s' = delete x (threads s);
  jd_same : self s' = self s /\ held s' = held s /\ wakes s' = wakes s;
  jd_at : forall y i a p, y <> x -> thread_at s y i a p -> thread_at s' y i a p;
}.

Lemma wp_joined n s x i a p v (P : Z * option Z -> st -> Prop) : wf n s -> thread_at s x i a p -> state p = PTHREAD_STATE_JOIN -> (forall s', joined n s s' x -> P v s') ->
  wp (upd_info a (set_state PTHREAD_STATE_EXITED);; modify (fun s => set_pthreads_exited (pthreads_exited s + 1) s);;
      modify (fun s => set_pthreads_tobejoined (pthreads_tobejoined s - 1) s);; pthread_reap;; mret v) P s.
Proof.
  intros Hw (Hi & Hp & Ho & Hx & Hs) Hj HP. pose proof Hw as [Hc [N1 N2 N3]]. apply wp_bind, (wp_upd_info _ _ p); [done|]. apply wp_bind, wp_modify, wp_bind, wp_modify.
  set (q := set_state PTHREAD_STATE_EXITED p). match goal with |- wp _ _ ?s' => set (s1 := s') end.
  assert (row_ok i q) as Hoq.
  { destruct Ho as [O1 O2 O3 O4]. rewrite Hj in *. split; cbn; [done|done|done|]. intros _. by apply O4. }
  assert (core n (put a q s)) as Hcq by (apply (core_put n s i a p); [done..|exact (fun l => co_data _ _ _ _ _ _ _ _ Hc a p l Hp)|exact (co_chain _ _ _ _ _ _ _ _ Hc a p Hp)]).
  assert (wf n s1) as Hw1.
  { split; [exact Hcq|]. split; change (rows s1) with (rows (put a q s)); rewrite (counts_put n s i a p q) by done; unfold s1, q; cbn; rewrite ?Hj; cbn; lia. }
  assert (threads s1 = delete x (threads s)) as Et1.
  { change (threads s1) with (threads (put a q s)). rewrite (view_put n s i a p q) by done. by rewrite Hx. }
  apply wp_bind, (wp_reap n); [done|]. intros s2 Hr. destruct (frame_inv _ _ (rp_frame _ _ _ Hr)) as (E1 & E2 & _ & E3 & _). apply wp_ret, HP. split.
  - exact (rp_wf _ _ _ Hr).
  - by rewrite (rp_threads _ _ _ Hr).
  - done.
  - intros y j b r Hne (Hj' & Hp' & Hor & Hy & Hsr). apply (reaped_at n s1 s2); [done|done|]. split_and!; try done. change (infos s1) with (<[a := q]> (infos s)).
    rewrite lookup_insert_ne; [done|]. intros ->. congruence.
Qed.

(** What the join of a thread that does not run any more, or cannot be joined, does. *)
Definition vjoin (m : gmap Z vthread) (t x : Z) : option (Z * option Z * gmap Z vthread) :=
  match m !! x with
  | None => Some (ESRCH, None, m)
  | Some u =>
      if x =? t then Some (EDEADLK, None, m)
      else match v_status u with
           | Running false => None
           | Ended v => Some (0, Some v, delete x m)
           | _ => Some (EINVAL, None, m)
           end
  end.

Lemma runs_cancels n s a p : core n s -> runs s a p -> threads s !! id p = Some (view_thread p).
Proof. intros Hc Hrun. destruct (runs_at n s a p Hc Hrun) as (i & Hat & _). by apply (thread_at_view n s _ i a). Qed.

(** The end of a join: the mutex is free again, and nobody has cancelled the caller. *)
Lemma wp_join_end n fuel s a p (r : Z * option Z) (P : fate -> st -> Prop) : wf n s -> runs s a p -> cancels (view_thread p) = false -> (n <= fuel)%nat -> P (Returns r.1 r.2) (set_held false s) ->
  wp (unlock;; c ← pthread_testcancel fuel; match c with Some b => mret (Ends b) | None => mret (Returns r.1 r.2) end) P s.
Proof.
  intros Hw Hrun Hcn Hf HP. apply wp_bind, wp_modify, wp_bind, (wp_testcancel n fuel (set_held false s) a p); [exact Hw|done|exact Hrun|done| |].
  - intros _. by apply wp_ret.
  - intros b s' Hc. congruence.
Qed.

(** [wpb B m Q s]: the same as [wp] when a thread may be left waiting, if [B]. *)
Definition wpb {A} (B : Prop) (m : M st A) (Q : A -> st -> Prop) (s : st) : Prop :=
  match m s with Ret (a, s') => Q a s' | NoFuel => B | UB => False end.

Lemma wpb_bind {A C} B (m : M st A) (f : A -> M st C) Q s : wpb B m (fun a s' => wpb B (f a) Q s') s -> wpb B (m ≫= f) Q s.
Proof. unfold wpb, mbind, M_bind. by destruct (m s) as [[]| |]. Qed.

Lemma wpb_wp {A} B (m : M st A) Q s : wp m Q s -> wpb B m Q s.
Proof. unfold wpb, wp. by destruct (m s) as [[]| |]. Qed.

Lemma wp_wpb {A} (m : M st A) Q s : wpb False m Q s -> wp m Q s.
Proof. unfold wpb, wp. by destruct (m s) as [[]| |]. Qed.

(** What a wait for a thread leaves of the other threads while the mutex is held. *)
Record tidy (n : nat) (s s' : st) : Prop := {
  td_wf : wf n s';
  td_threads : threads s' = threads s;
  td_same : self s' = self s /\ held s' = true /\ wakes s' = wakes s;
  td_at : forall y i a p, thread_at s y i a p -> thread_at s' y i a p;
}.

Lemma tidy_runs n s s' a p : core n s -> tidy n s s' -> runs s a p -> runs s' a p.
Proof.
  intros Hc [_ _ (E1 & _) H4] Hrun. destruct (runs_at n s a p Hc Hrun) as (i & Hat & _). destruct (H4 _ _ _ _ Hat) as (_ & Hp & _). destruct Hrun as (Ha & _ & Hr). split_and!; [congruence|done|done].
Qed.

Lemma wpb_join B n fuel s a p x w (Q : fate -> st -> Prop) : wf n s -> held s = false -> runs s a p -> (n <= fuel)%nat -> id_ok x -> cancels (view_thread p) = false ->
  (forall s' e, tidy n s s' -> (threads s !! x = None /\ e = ESRCH \/ x = id p /\ e = EDEADLK) -> Q (Returns e None) (set_held false s')) ->
  (forall s' i b q, tidy n s s' -> thread_at s' x i b q -> x <> id p ->
    wpb B (join_at fuel b w) (fun r s2 => wpb B (unlock;; c ← pthread_testcancel fuel; match c with Some b => mret (Ends b) | None => mret (Returns r.1 r.2) end) Q s2) s') ->
  wpb B (pthread_join fuel x w) Q s.
Proof.
  intros Hw Hh Hrun Hf Hx Hcn HQ HJ. pose proof (proj1 Hw) as Hc. unfold pthread_join. apply wpb_bind, wpb_wp, (wp_testcancel n fuel s a p); [done..| |intros b s' H; congruence].
  intros _. apply wpb_bind, wpb_wp, wp_plock; [done|]. apply wpb_bind, wpb_wp, (wp_reap n); [exact Hw|]. intros s1 Hr.
  destruct (frame_inv _ _ (rp_frame _ _ _ Hr)) as (E1 & E2 & _ & E3 & _). cbn in E1, E2, E3.
  assert (tidy n s s1) as Ht.
  { split; [exact (rp_wf _ _ _ Hr)|exact (rp_threads _ _ _ Hr)|done|]. intros y i b q H. by apply (reaped_at n (set_held true s) s1). }
  pose proof (tidy_runs n s s1 a p Hc Ht Hrun) as Hrun1. pose proof (td_wf _ _ _ Ht) as Hw1.
  assert (forall e, (threads s !! x = None /\ e = ESRCH \/ x = id p /\ e = EDEADLK) ->
    wpb B (unlock;; c ← pthread_testcancel fuel; match c with Some b => mret (Ends b) | None => mret (Returns (e, @None Z).1 (e, None).2) end) Q s1) as Herr.
  { intros e He. apply wpb_wp, (wp_join_end n fuel s1 a p); [done..|]. by apply HQ. }
  unfold pthread_self_info. apply wpb_bind, wpb_wp, wp_gets. rewrite E1. apply wpb_bind, wpb_wp, (wp_info_id n); [exact (proj1 Hw1)|done| |].
  - intros Hn. rewrite (td_threads _ _ _ Ht) in Hn. apply wpb_bind, wpb_wp, wp_ret, Herr. by left.
  - intros i b q Hi Hq Ho Hxq Hs _. assert (thread_at s1 x i b q) as Hat by by split_and!. pose proof Hrun as (Ha & Hp & _). rewrite Ha. apply wpb_bind. case_bool_decide as Hba.
    + injection Hba as ->. apply wpb_wp, wp_ret, Herr. right. split; [|done]. destruct Hrun1 as (_ & Hp1 & _). congruence.
    + apply (HJ s1 i b q Ht Hat). intros ->. apply Hba. f_equal. destruct (runs_at n s1 a p (proj1 Hw1) Hrun1) as (j & (Hj & _ & Hoj & _) & _).
      assert (j = i) as -> by (by rewrite <- (ro_id _ _ Ho), <- (ro_id _ _ Hoj), Hxq). congruence.
Qed.

(** The thread has ended. *)
Lemma wp_join_ended n fuel s a p x i b q (w : bool) (Q : fate -> st -> Prop) : wf n s -> runs s a p -> cancels (view_thread p) = false -> (n <= fuel)%nat -> x <> id p ->
  thread_at s x i b q -> state q = PTHREAD_STATE_JOIN -> (forall s', joined n s s' x -> Q (Returns 0 (if w then Some (retval q) else None)) (set_held false s')) ->
  wp (p ← info_at b; upd_info b (set_state PTHREAD_STATE_EXITED);; modify (fun s => set_pthreads_exited (pthreads_exited s + 1) s);;
      modify (fun s => set_pthreads_tobejoined (pthreads_tobejoined s - 1) s);; pthread_reap;; mret (0, if w then Some (retval p) else None))
    (fun r s2 => wp (unlock;; c ← pthread_testcancel fuel; match c with Some b => mret (Ends b) | None => mret (Returns r.1 r.2) end) Q s2) s.
Proof.
  intros Hw Hrun Hcn Hf Hne Hat Hj HQ. pose proof Hat as (Hi & Hq & _). apply wp_bind, (wp_info_at _ q); [done|]. apply (wp_joined n s x i b q); [done..|]. intros s' Hjd.
  destruct (runs_at n s a p (proj1 Hw) Hrun) as (j & Hatp & _). destruct (jd_at _ _ _ _ Hjd _ _ _ _ (not_eq_sym Hne) Hatp) as (_ & Hp' & _). destruct (jd_same _ _ _ _ Hjd) as (E1 & E2 & E3).
  destruct Hrun as (Ha & Hp & Hr). apply (wp_join_end n fuel s' a p); [exact (jd_wf _ _ _ _ Hjd)|split_and!; [congruence|done|done]|done|done|]. by apply HQ.
Qed.

(** ** Sequences of calls *)

Definition cancelled (m : gmap Z vthread) (t : Z) : bool := match m !! t with Some v => cancels v | None => false end.

(** A call as a step on the map. *)
Inductive vcall (m : gmap Z vthread) (t : Z) : call -> fate -> gmap Z vthread -> Prop :=
| vc_do o r m' : vact m t o r m' -> vcall m t (Do o) r m'
| vc_cancelled x w : cancelled m t = true -> vcall m t (Join x w) (Ends (all_ended (vexit m t PTHREAD_CANCELED))) (vexit m t PTHREAD_CANCELED)
| vc_join x w e v m' : cancelled m t = false -> vjoin m t x = Some (e, v, m') -> vcall m t (Join x w) (Returns e (if w : bool then v else None)) m'.

(** A join that waits. *)
Definition vwaits (m : gmap Z vthread) (t : Z) (c : call) : Prop := match c with Do _ => False | Join x _ => cancelled m t = false /\ vjoin m t x = None end.

Definition runs_in (m : gmap Z vthread) (t : Z) : bool := match m !! t with Some v => running v | None => false end.

(** The calls of threads, one after the other: a thread that does not run makes none, and
    the last may end the program. *)
Inductive vruns : gmap Z vthread -> list (Z * call) -> list (option fate) -> gmap Z vthread -> Prop :=
| vr_nil m : vruns m [] [] m
| vr_skip m t c l rs m' : runs_in m t = false -> vruns m l rs m' -> vruns m ((t, c) :: l) (None :: rs) m'
| vr_call m t c r m1 l rs m' : runs_in m t = true -> vcall m t c r m1 -> r <> Ends true -> vruns m1 l rs m' -> vruns m ((t, c) :: l) (Some r :: rs) m'
| vr_end m t c m' l : runs_in m t = true -> vcall m t c (Ends true) m' -> vruns m ((t, c) :: l) [Some (Ends true)] m'.

(** Some thread waits in a join. *)
Inductive vstuck : gmap Z vthread -> list (Z * call) -> Prop :=
| vs_here m t c l : runs_in m t = true -> vwaits m t c -> vstuck m ((t, c) :: l)
| vs_skip m t c l : runs_in m t = false -> vstuck m l -> vstuck m ((t, c) :: l)
| vs_call m t c r m1 l : runs_in m t = true -> vcall m t c r m1 -> r <> Ends true -> vstuck m1 l -> vstuck m ((t, c) :: l).

Definition do_call (fuel : nat) (c : call) : M st fate := match c with Do o => run_act fuel o | Join x w => pthread_join fuel x w end.

Fixpoint run_calls (fuel : nat) (l : list (Z * call)) : M st (list (option fate)) :=
  match l with
  | [] => mret []
  | (t, c) :: l =>
      r ← by_thread t (do_call fuel c);
      match r with
      | Some (Ends true) => mret [r]
      | _ => rs ← run_calls fuel l; mret (r :: rs)
      end
  end.

Definition call_ok (c : call) : Prop := match c with Do o => act_ok o | Join x _ => id_ok x end.

Definition called_as (n : nat) (s : st) (t : Z) (c : call) (r : fate) (s' : st) : Prop := (r <> Ends true -> wf n s' /\ pres s s') /\ vcall (threads s) t c r (threads s').

Lemma pres_tidy n s s' : tidy n s s' -> held s = false -> pres s (set_held false s').
Proof. intros [_ _ (E1 & _ & E3) H4] Hh. split; [done|by rewrite Hh|done|]. intros x i a p H. right. exists p. by apply H4. Qed.

Lemma pres_joined n s s1 s' x : tidy n s s1 -> held s = false -> joined n s1 s' x -> pres s (set_held false s').
Proof.
  intros [_ _ (E1 & _ & E3) H4] Hh [_ J2 (F1 & _ & F3) J4]. split; [cbn; congruence|by rewrite Hh|cbn; congruence|]. intros y i a p H.
  destruct (decide (y = x)) as [->|Hne]; [left; change (threads (set_held false s')) with (threads s'); rewrite J2; apply lookup_delete_eq|]. right. exists p. by apply J4, H4.
Qed.

(** The state of a thread, and what a join of it does. *)
Lemma vjoin_at n s t x i b q : core n s -> thread_at s x i b q -> x <> t ->
  vjoin (threads s) t x = if state q =? PTHREAD_STATE_JOIN then Some (0, Some (retval q), delete x (threads s)) else if state q =? PTHREAD_STATE_RUNNING then None else Some (EINVAL, None, threads s).
Proof.
  intros Hc Hat Hne. unfold vjoin. rewrite (thread_at_view n s x i b q Hc Hat), (proj2 (Z.eqb_neq x t)) by done. cbn [view_thread v_status]. unfold status_of.
  destruct Hat as (_ & _ & [_ O2 O3 O4] & _ & Hs). destruct (Z.eqb_spec (state q) PTHREAD_STATE_JOIN); [done|]. destruct (Z.eqb_spec (state q) PTHREAD_STATE_RUNNING) as [E|E].
  - by rewrite (O3 E), E.
  - replace (state q) with PTHREAD_STATE_DETACHED; [by destruct (remaining (thread q))|].
    unfold PTHREAD_STATE_DETACHED, PTHREAD_STATE_EXITED, PTHREAD_STATE_RUNNING, PTHREAD_STATE_JOIN in *. lia.
Qed.

Lemma wpb_join_call n fuel s a p x w : wf n s -> held s = false -> runs s a p -> (n <= fuel)%nat -> id_ok x -> wakes s = [] ->
  wpb (vwaits (threads s) (id p) (Join x w)) (pthread_join fuel x w) (fun r s' => called_as n s (id p) (Join x w) r s') s.
Proof.
  intros Hw Hh Hrun Hf Hx Hwk. pose proof (runs_cancels n s a p (proj1 Hw) Hrun) as Hv. assert (cancelled (threads s) (id p) = cancels (view_thread p)) as Ecn by (unfold cancelled; by rewrite Hv).
  destruct (cancels (view_thread p)) eqn:Hcn.
  { unfold pthread_join. apply wpb_bind, wpb_wp, (wp_testcancel n fuel s a p); [done..|congruence|]. intros b s' _ Hb Et Hw'. apply wpb_wp, wp_ret.
    split; [intros Hne; apply Hw'; by destruct b|]. rewrite Et, Hb. by constructor. }
  apply (wpb_join _ n fuel s a p); [done..| |].
  - intros s' e Ht He. split; [intros _; split; [exact (td_wf _ _ _ Ht)|by eapply pres_tidy]|]. change (threads (set_held false s')) with (threads s'). rewrite (td_threads _ _ _ Ht).
    replace (@None Z) with (if w then @None Z else None) by by destruct w. apply vc_join; [done|]. unfold vjoin. destruct He as [[-> ->]|[-> ->]]; [done|]. by rewrite Hv, Z.eqb_refl.
  - intros s' i b q Ht Hat Hne. pose proof (proj1 (td_wf _ _ _ Ht)) as Hc'. pose proof (vjoin_at n s' (id p) x i b q Hc' Hat Hne) as Evj. rewrite (td_threads _ _ _ Ht) in Evj.
    pose proof (tidy_runs n s s' a p (proj1 Hw) Ht Hrun) as Hrun'. destruct (td_same _ _ _ Ht) as (_ & _ & Ewk). pose proof Hat as (_ & Hq & _).
    unfold join_at. apply wpb_bind. unfold join_error. apply wpb_bind, wpb_wp, (wp_info_at _ q); [done|]. destruct (Z.eqb_spec (state q) PTHREAD_STATE_RUNNING) as [Er|Er].
    + rewrite Er in Evj. cbn in Evj. apply wpb_bind, wpb_wp, wp_gets. rewrite Ewk, Hwk. cbn [length]. unfold wpb. cbn [join_loop]. unfold mbind, M_bind, info_at. rewrite Hq, Er. by split.
    + destruct (Z.eqb_spec (state q) PTHREAD_STATE_JOIN) as [Ej|Ej]; apply wpb_wp, wp_ret.
      * apply wpb_wp. eapply wp_mono; [|intros r s2 H; by apply wpb_wp, H]. apply (wp_join_ended n fuel s' a p x i b q w); [exact (td_wf _ _ _ Ht)|done..|].
        intros s2 Hjd. split; [intros _; split; [exact (jd_wf _ _ _ _ Hjd)|by apply (pres_joined n s s' s2 x)]|]. change (threads (set_held false s2)) with (threads s2).
        rewrite (jd_threads _ _ _ _ Hjd), (td_threads _ _ _ Ht). apply vc_join; [done|by rewrite Evj].
      * destruct errors as (He & _). rewrite (proj2 (Z.eqb_neq _ _) He). apply wpb_wp, wp_ret, wpb_wp, (wp_join_end n fuel s' a p (EINVAL, None)); [exact (td_wf _ _ _ Ht)|done..|].
        split; [intros _; split; [exact (td_wf _ _ _ Ht)|by eapply pres_tidy]|]. change (threads (set_held false s')) with (threads s'). rewrite (td_threads _ _ _ Ht).
        cbn [fst snd]. replace (@None Z) with (if w then @None Z else None) by by destruct w. apply vc_join; [done|by rewrite Evj].
Qed.

Lemma running_in n s t v : core n s -> threads s !! t = Some v -> runs_in (threads s) t = running v.
Proof. intros Hc Hv. unfold runs_in. by rewrite Hv. Qed.

Lemma wpb_do_call n fuel s a p c : wf n s -> held s = false -> runs s a p -> (n <= fuel)%nat -> call_ok c -> wakes s = [] ->
  wpb (vwaits (threads s) (id p) c) (do_call fuel c) (fun r s' => called_as n s (id p) c r s') s.
Proof.
  intros Hw Hh Hrun Hf Hc Hwk. destruct c as [o|x w]; cbn [do_call]; [|by apply (wpb_join_call n fuel s a)].
  apply wpb_wp. eapply wp_mono; [by apply (wp_run_act n fuel s a)|]. intros r s' [H1 H2]. split; [done|by constructor].
Qed.

Definition turn_ok (x : Z * call) : Prop := id_ok x.1 /\ call_ok x.2.

(** C28: Calls of any threads, in any order, do what they do to a map from ids to threads:
    creation adds a thread under a new id unless there are as many as the table holds,
    detaching, cancelling and the cancel states change one thread, ending a thread leaves
    its value for a join or takes it away, a join gives the value and takes the thread
    away; errors are as the map says, and ending ends the program exactly when no thread
    runs any more.  Nothing goes wrong in between, and a sequence stops only at a join of a
    thread that still runs. *)
Theorem threads_refine n fuel s l : wf n s -> held s = false -> wakes s = [] -> (n <= fuel)%nat -> Forall turn_ok l ->
  match run_calls fuel l s with
  | Ret (rs, s') => vruns (threads s) l rs (threads s')
  | NoFuel => vstuck (threads s) l
  | UB => False
  end.
Proof.
  intros Hw Hh Hwk Hf. revert s Hw Hh Hwk. induction l as [|[t c] l IH]; intros s Hw Hh Hwk Hl; cbn [run_calls]; [constructor|].
  apply list.Forall_cons in Hl as [[Ht Hc] Hl]. destruct (by_thread_cases n s t (do_call fuel c) (proj1 Hw) Ht) as [[E Hv]|(a & p & v & Hrun & Hx & Hv & Hr & E)]; cbn [fst snd] in *.
  - rewrite (bind_Ret _ _ _ _ _ E). assert (runs_in (threads s) t = false) as Hni by (unfold runs_in; destruct (threads s !! t) eqn:Et; [by apply Hv|done]).
    specialize (IH s Hw Hh Hwk Hl). unfold mbind, M_bind. destruct (run_calls fuel l s) as [[rs s']| |]; [by constructor|done|by apply vs_skip].
  - assert (runs_in (threads s) t = true) as Hin by (unfold runs_in; by rewrite Hv). pose proof (wpb_do_call n fuel (set_self (Some a) s) a p c Hw Hh Hrun Hf Hc Hwk) as H.
    unfold wpb in H. rewrite Hx in H. unfold mbind, M_bind. rewrite E. destruct (do_call fuel c (set_self (Some a) s)) as [[r s1]| |]; [|done|by apply vs_here].
    destruct H as [H1 H2]. change (threads (set_self (Some a) s)) with (threads s) in H2. set (s2 := set_self (self s) s1). change (threads s1) with (threads s2) in H2.
    assert (r <> Ends true -> match (rs ← run_calls fuel l; mret (Some r :: rs)) s2 with Ret (rs, s') => vruns (threads s) ((t, c) :: l) rs (threads s') | UB => False | NoFuel => vstuck (threads s) ((t, c) :: l) end) as Hgo.
    { intros Hne. destruct (H1 Hne) as [Hw1 [_ P2 P3 _]]. cbn in P2, P3. specialize (IH s2 Hw1 (eq_trans P2 Hh) (eq_trans P3 Hwk) Hl).
      unfold mbind, M_bind. destruct (run_calls fuel l s2) as [[rs s']| |]; [by apply (vr_call _ _ _ _ (threads s2))|done|by apply (vs_call _ _ _ r (threads s2))]. }
    destruct r as [e v'|[]]; [by apply Hgo|by apply vr_end|by apply Hgo].
Qed.

(** ** Joins that wait *)

(** The value with which a thread ends in a list of calls. *)
Fixpoint first_exit (x : Z) (l : list (Z * act)) : option Z :=
  match l with
  | [] => None
  | (t, o) :: l => match o with Exit v => if t =? x then Some v else first_exit x l | _ => first_exit x l end
  end.

(** Calls of other threads in turn. *)
Inductive vturns : gmap Z vthread -> list (Z * act) -> gmap Z vthread -> Prop :=
| vt_nil m : vturns m [] m
| vt_cons m t o r m1 l m' : vturn m t o r m1 -> vturns m1 l m' -> vturns m ((t, o) :: l) m'.

Lemma vturns_app m l m1 l' m' : vturns m l m1 -> vturns m1 l' m' -> vturns m (l ++ l') m'.
Proof. intros H. induction H; [done|]. intros H'. econstructor; [done|]. by apply IHvturns. Qed.

(** A call of another thread leaves a thread alone, unless it cancels or detaches it. *)
Lemma vturn_other m t o r m' y v : vturn m t o r m' -> t <> y -> o <> Cancel y -> o <> Detach y -> m !! y = Some v -> m' !! y = Some v.
Proof.
  intros H Hne Hnc Hnd Hy. destruct r as [r|]; cbn in H; [|by destruct H as [_ ->]]. destruct H as [_ H]. destruct H; try done.
  - rewrite lookup_insert_ne; [done|]. intros ->. congruence.
  - unfold vexit. destruct (m !! t) as [w|]; [|done]. destruct (v_status w) as [[]|u|]; [|by rewrite lookup_insert_ne|done..]. by rewrite lookup_delete_ne.
  - unfold vdetach. destruct (m !! x) as [w|]; [|done]. destruct (v_status w) as [[]|u|]; cbn; [done|by rewrite lookup_insert_ne by congruence|by rewrite lookup_insert_ne by congruence|done].
  - unfold vcancel. destruct (m !! x) as [w|]; cbn; [by rewrite lookup_insert_ne by congruence|done].
  - by rewrite lookup_insert_ne.
  - by rewrite lookup_insert_ne.
Qed.

(** A joinable thread stays so until it ends; then it waits to be joined. *)
Definition joinable (m : gmap Z vthread) (x : Z) (e : option Z) : Prop :=
  exists v, m !! x = Some v /\ v_status v = match e with None => Running false | Some u => Ended u end.

Lemma vturn_joinable m t o r m' x e : vturn m t o r m' -> o <> Detach x -> joinable m x e -> joinable m' x (match e with Some u => Some u | None => first_exit x [(t, o)] end).
Proof.
  intros H Hnd (v & Hx & Hst). destruct r as [r|]; cbn in H.
  2: { destruct H as [Hnr ->]. exists v. split; [done|]. destruct e as [u|]; [done|]. cbn. destruct o; try done. destruct (Z.eqb_spec t x) as [->|]; [|done].
       specialize (Hnr v Hx). unfold running in Hnr. by rewrite Hst in Hnr. }
  destruct H as [(w & Ht & Hr) H]. assert (e = None \/ t <> x) as Hor. { destruct e; [right; intros ->|by left]. unfold running in Hr. assert (w = v) as -> by congruence. by rewrite Hst in Hr. }
  assert (forall m1 f, (forall z, v_status (f z) = v_status z) -> m1 = m \/ (exists k z, m !! k = Some z /\ m1 = <[k := f z]> m) -> joinable m1 x e) as Hsame.
  { intros m1 f Hf [->|(k & z & Hk & ->)]; [by exists v|]. destruct (decide (k = x)) as [->|Hkx]; [|exists v; by rewrite lookup_insert_ne].
    assert (z = v) as -> by congruence. exists (f v). rewrite lookup_insert_eq, Hf. done. }
  assert (match o with Exit _ => False | _ => True end -> joinable m' x e -> joinable m' x (match e with Some u => Some u | None => first_exit x [(t, o)] end)) as Hne by (destruct e, o; done).
  destruct H; try (apply Hne; [exact I|]; clear Hne); try (by exists v).
  - exists v. split; [|done]. rewrite lookup_insert_ne; [done|]. intros ->. congruence.
  - unfold vexit. rewrite Ht. unfold running in Hr. cbn. destruct (Z.eqb_spec t x) as [->|Hne'].
    + destruct Hor as [->|]; [|done]. assert (w = v) as -> by congruence. rewrite Hst. eexists. by rewrite lookup_insert_eq.
    + assert (joinable (match v_status w with Running true => delete t m | Running false => <[t := mkVT (Ended v0) (v_pending w) PTHREAD_CANCEL_DISABLE (v_canceltype w)]> m | _ => m end) x e) as Hj.
      { destruct (v_status w) as [[]|u|]; exists v; [by rewrite lookup_delete_ne|by rewrite lookup_insert_ne|done..]. }
      by destruct e.
  - unfold vdetach. destruct (m !! x0) as [z|] eqn:Hz; [|by exists v]. assert (x0 <> x) as Hx0 by congruence.
    destruct (v_status z) as [[]|u|]; exists v; cbn [snd]; [done|by rewrite lookup_insert_ne|by rewrite lookup_insert_ne|done].
  - unfold vcancel. destruct (m !! x0) as [z|] eqn:Hz; [|by exists v]. apply (Hsame _ (fun z => mkVT (v_status z) true (v_cancelstate z) (v_canceltype z))); [done|]. right. by exists x0, z.
  - apply (Hsame _ (fun z => mkVT (v_status z) (v_pending z) v0 (v_canceltype z))); [done|]. right. by exists t, w0.
  - apply (Hsame _ (fun z => mkVT (v_status z) (v_pending z) (v_cancelstate z) v0)); [done|]. right. by exists t, w0.
Qed.

Definition ends (x : Z) (e : option Z) (l : list (Z * act)) : option Z := match e with Some u => Some u | None => first_exit x l end.

Lemma ends_cons x e t o l : ends x (ends x e [(t, o)]) l = ends x e ((t, o) :: l).
Proof. destruct e; [done|]. cbn. destruct o; try done. by destruct (t =? x). Qed.

Lemma first_exit_app x l l' : first_exit x (l ++ l') = match first_exit x l with Some v => Some v | None => first_exit x l' end.
Proof. induction l as [|[t o] l IH]; cbn; [done|]. destruct o; try done. by destruct (t =? x). Qed.

(** Calls of threads while [me] waits for [x]: none by the waiting thread, which nobody cancels
    or detaches, and nobody detaches [x].  An [act] is not a join, so nobody else joins [x]
    either. *)
Definition meanwhile (me x : Z) (c : Z * act) : Prop :=
  (id_ok c.1 /\ act_ok c.2) /\ c.1 <> me /\ c.2 <> Cancel me /\ c.2 <> Detach me /\ c.2 <> Detach x.

(** The structure of a thread is where it was. *)
Definition stays (y : Z) (s s' : st) : Prop := forall i a p, thread_at s y i a p -> exists p', thread_at s' y i a p'.

Lemma still_runs m t o r m' me v : vturn m t o r m' -> m' !! me = Some v -> running v = true -> r <> Some (Ends true).
Proof.
  intros H Hme Hv ->. destruct H as [_ H]. inversion H as [| | | |v0 E1 E2 E3| | | | | |]; subst. unfold all_ended in E2. apply bool_decide_eq_true in E2.
  match goal with H : context [vexit m t ?u] |- _ => specialize (E2 me v) end. rewrite Hme in E2. specialize (E2 eq_refl). cbn in E2. congruence.
Qed.

Lemma wp_run_acts n fuel l s me vb x e : wf n s -> held s = false -> (n <= fuel)%nat -> Forall (meanwhile me x) l -> threads s !! me = Some vb -> running vb = true -> joinable (threads s) x e ->
  wp (run_acts fuel l) (fun _ s' => wf n s' /\ vturns (threads s) l (threads s') /\ (self s' = self s /\ held s' = false /\ wakes s' = wakes s) /\
    threads s' !! me = Some vb /\ joinable (threads s') x (ends x e l) /\ stays me s s' /\ stays x s s') s.
Proof.
  intros Hw Hh Hf Hl Hme Hvb Hj. induction l as [|[t o] l IH] in s, e, Hw, Hh, Hl, Hme, Hj |- *; cbn [run_acts].
  - apply wp_ret. split_and!; [done|constructor|done|done|done|done|by destruct e|intros i a p H; by exists p|intros i a p H; by exists p].
  - apply list.Forall_cons in Hl as [((Ht & Ho) & Hne & Hnc & Hnd & Hnx) Hl]. cbn [fst snd] in *. apply wp_bind. eapply wp_mono; [exact (wp_turn n fuel s t o Hw Hh Ht Hf Ho)|].
    intros r s1 [H1 H2]. cbn beta in H1, H2. pose proof (vturn_other _ _ _ _ _ me vb H2 Hne Hnc Hnd Hme) as Hme1. destruct (H1 (still_runs _ _ _ _ _ me vb H2 Hme1 Hvb)) as [Hw1 [P1 P2 P3 P4]].
    pose proof (vturn_joinable _ _ _ _ _ x e H2 Hnx Hj) as Hj1. eapply wp_mono; [apply (IH s1 (ends x e [(t, o)])); [done|congruence|done|done|exact Hj1]|].
    intros [] s2 (Hw2 & Hv2 & (E1 & E2 & E3) & Hme2 & Hj2 & S1 & S2). rewrite ends_cons in Hj2. split_and!; [done|by econstructor|congruence|done|congruence|done|done| |].
    + intros i a p H. destruct (P4 me i a p H) as [Hn|[p' Hp']]; [congruence|by apply (S1 i a p')].
    + intros i a p H. destruct (P4 x i a p H) as [Hn|[p' Hp']]; [destruct Hj1 as (v & Hv & _); congruence|by apply (S2 i a p')].
Qed.

Lemma joinable_state n s x i a q e : core n s -> thread_at s x i a q -> joinable (threads s) x e ->
  match e with None => state q = PTHREAD_STATE_RUNNING | Some v => state q = PTHREAD_STATE_JOIN /\ retval q = v end.
Proof.
  intros Hc Hat (v & Hv & Hs). rewrite (thread_at_view n s x i a q Hc Hat) in Hv. injection Hv as <-. cbn in Hs. unfold status_of in Hs. destruct Hat as (_ & _ & [_ O2 O3 O4] & _ & Hx).
  destruct (Z.eqb_spec (state q) PTHREAD_STATE_JOIN) as [E|E].
  - destruct e; [injection Hs as <-; done|done].
  - destruct (remaining (thread q)); destruct e; try done. injection Hs as Hs. apply Z.eqb_neq in Hs.
    unfold PTHREAD_STATE_DETACHED, PTHREAD_STATE_EXITED, PTHREAD_STATE_RUNNING, PTHREAD_STATE_JOIN in *. lia.
Qed.

(** What holds while a thread waits in a join. *)
Record waiting (n : nat) (me j b : _) (vb : vthread) (x i a : _) (e : option Z) (s : st) : Prop := {
  wt_wf : wf n s;
  wt_held : held s = true;
  wt_self : self s = Some b;
  wt_me : exists p, thread_at s me j b p;
  wt_view : threads s !! me = Some vb;
  wt_at : exists q, thread_at s x i a q;
  wt_joinable : joinable (threads s) x e;
}.

Lemma wp_join_loop n fuel me j b vb x i a e w s v (P : bool -> st -> Prop) : (n <= fuel)%nat -> running vb = true -> cancels vb = false ->
  waiting n me j b vb x i a e s -> wakes s = w -> Forall (meanwhile me x) (concat w.*1) -> ends x e (concat w.*1) = Some v ->
  (forall s' k, waiting n me j b vb x i a (Some v) s' -> wakes s' = drop k w -> vturns (threads s) (concat (take k w.*1)) (threads s') ->
    (forall k', (k' < k)%nat -> ends x e (concat (take k' w.*1)) = None) -> P false s') -> wp (join_loop fuel (length w) a) P s.
Proof.
  intros Hf Hvb Hcn. induction w as [|[l r] w IH] in s, e, P |- *; intros Hwt Hwk Hl Hv HP; pose proof Hwt as [W1 W2 W3 (p & W4) W5 (q & W6) W7];
    pose proof (joinable_state n s x i a q e (proj1 W1) W6 W7) as Hst; pose proof W6 as (_ & Hq & _).
  all: assert (e = Some v -> wp (mret false) P s) as Hdone by (intros ->; apply wp_ret, (HP s 0%nat); [done|by rewrite drop_0|constructor|intros k' Hk; lia]).
  all: destruct e as [u|]; cbn [ends] in Hv.
  1, 3: injection Hv as ->; destruct Hst as [Hst _]; cbn [length join_loop]; apply wp_bind, (wp_info_at _ q); [done|]; rewrite Hst; by apply Hdone.
  - done.
  - clear Hdone. cbn [length join_loop]. apply wp_bind, (wp_info_at _ q); [done|]. rewrite Hst. cbn [Z.eqb negb]. change (PTHREAD_STATE_RUNNING =? PTHREAD_STATE_RUNNING) with true. cbn [negb].
    rewrite fmap_cons in Hl, Hv. cbn [fst concat] in Hl, Hv. apply Forall_app in Hl as [Hl1 Hl2]. apply wp_bind. unfold joiner_wait.
    assert (wp (unlock;; run_acts fuel l;; lock;; mret r) (fun r' s2 => r' = r /\ waiting n me j b vb x i a (first_exit x l) s2 /\ wakes s2 = w /\ vturns (threads s) l (threads s2)) (set_wakes w s)) as Hwait.
    { apply wp_bind, wp_modify, wp_bind. eapply wp_mono; [apply (wp_run_acts n fuel l (set_held false (set_wakes w s)) me vb x None); [exact W1|done|done|done|exact W5|done|exact W7]|].
      intros [] s1 (Hw1 & Hv1 & (E1 & E2 & E3) & Hme1 & Hj1 & S1 & S2). apply wp_bind, wp_plock; [done|]. apply wp_ret. split_and!; [done| |done|exact Hv1].
      split; [exact Hw1|done|cbn in *; congruence|destruct (S1 j b p W4) as [p' Hp']; by exists p'|exact Hme1|destruct (S2 i a q W6) as [q' Hq']; by exists q'|exact Hj1]. }
    unfold wp at 1. rewrite Hwk. fold (wp (unlock;; run_acts fuel l;; lock;; mret r) (fun r' s' => wp (c ← (if negb r' then checkforcancel else mret false); if c : bool then mret true else join_loop fuel (length w) a) P s') (set_wakes w s)).
    eapply wp_mono; [exact Hwait|]. intros r' s2 (-> & Hwt2 & Hwk2 & Hv2). apply wp_bind.
    assert (wp (join_loop fuel (length w) a) P s2) as Hnext.
    { rewrite first_exit_app in Hv. apply (IH (first_exit x l) s2); [done|done|done|unfold ends; by destruct (first_exit x l)|]. intros s3 k Hwt3 Hwk3 Hv3 Hmin.
      apply (HP s3 (S k)); [done|done|rewrite fmap_cons; cbn [fst take concat]; by eapply vturns_app|].
      intros [|k'] Hk; [done|]. rewrite fmap_cons. cbn [take concat fst ends]. rewrite first_exit_app. specialize (Hmin k' ltac:(lia)). unfold ends in Hmin. by destruct (first_exit x l). }
    destruct r; cbn [negb]; [by apply wp_ret|]. destruct Hwt2 as [V1 _ V3 (p2 & V4) V5 _ _]. pose proof V4 as (_ & Hp2 & _).
    unfold checkforcancel, pthread_self_info. apply wp_bind, wp_gets. rewrite V3. apply wp_bind, (wp_info_at _ p2); [done|]. apply wp_ret.
    rewrite (thread_at_view n s2 me j b p2) in V5; [|exact (proj1 V1)|done]. injection V5 as V5. assert (cancelpending p2 && (cancelstate p2 =? PTHREAD_CANCEL_ENABLE) = false) as ->; [|done].
    by rewrite <- Hcn, <- V5.
Qed.

(** C29: A join of another thread, which runs, is joinable and is to end in one of the coming
    waits, by a thread that has not been cancelled.  Meanwhile other threads create threads,
    end, detach and cancel threads and set their cancel states and types, with ids that
    index the table; but they join no thread, nobody detaches the thread that is waited
    for, and nobody cancels or detaches the one that waits.  Then the join waits on, whatever
    woke it, until the first wake after the thread has ended, and not longer; it returns 0
    with the value the thread ended with; and the map of threads is what those calls made of
    it, without the thread that was joined. *)
Theorem join_waits n fuel s a p x w v : wf n s -> held s = false -> runs s a p -> (n <= fuel)%nat -> id_ok x -> x <> id p -> cancels (view_thread p) = false ->
  joinable (threads s) x None -> Forall (meanwhile (id p) x) (concat (wakes s).*1) -> first_exit x (concat (wakes s).*1) = Some v ->
  wp (pthread_join fuel x w) (fun r s' => r = Returns 0 (if w then Some v else None) /\ exists k m, wakes s' = drop k (wakes s) /\
    (forall k', (k' < k)%nat -> first_exit x (concat (take k' (wakes s).*1)) = None) /\ vturns (threads s) (concat (take k (wakes s).*1)) m /\ threads s' = delete x m) s.
Proof.
  intros Hw Hh Hrun Hf Hx Hxp Hcn Hj Hl Hv. pose proof (runs_cancels n s a p (proj1 Hw) Hrun) as Hme. destruct (runs_at n s a p (proj1 Hw) Hrun) as (j & Hat & _ & Hst).
  apply wp_wpb, (wpb_join False n fuel s a p); [done..| |].
  - intros s' e _ [[Hn _]|[E _]]; [destruct Hj as (u & Hu & _); congruence|done].
  - intros s1 i b q Ht Hq _. apply wpb_wp. eapply (wp_mono _ (fun r s2 => wp (unlock;; c ← pthread_testcancel fuel; match c with Some b => mret (Ends b) | None => mret (Returns r.1 r.2) end) _ s2)); [|intros r s2 H; by apply wpb_wp, H].
    pose proof (td_wf _ _ _ Ht) as Hw1. destruct (td_same _ _ _ Ht) as (E1 & E2 & E3). rewrite <- (td_threads _ _ _ Ht), <- ?E3 in *.
    pose proof (joinable_state n s1 x i b q None (proj1 Hw1) Hq Hj) as Hsq. pose proof Hq as (_ & Hqb & _). unfold join_at. apply wp_bind. unfold join_error. apply wp_bind, (wp_info_at _ q); [done|].
    rewrite Hsq. cbn [Z.eqb]. change (PTHREAD_STATE_RUNNING =? PTHREAD_STATE_RUNNING) with true. cbn match. apply wp_bind, wp_gets, wp_bind.
    apply (wp_join_loop n fuel (id p) j a (view_thread p) x i b None (wakes s1) s1 v); [done|unfold running; cbn; by rewrite Hst|done| |done|done|done|].
    + split; [done|done|rewrite E1; apply Hrun|exists p; by apply (td_at _ _ _ Ht)|done|by exists q|done].
    + intros s2 k [V1 V2 V3 (p2 & V4) V5 (q2 & V6) V7] Ewk Hv2 Hmin. pose proof (joinable_state n s2 x i b q2 (Some v) (proj1 V1) V6 V7) as [Hj2 Hr2]. pose proof V6 as (_ & Hq2 & _).
      apply wp_bind, (wp_info_at _ q2); [done|]. rewrite Hj2. apply wp_ret. pose proof V4 as (_ & Hp2 & Ho2 & Hi2 & _).
      rewrite (thread_at_view n s2 (id p) j a p2 (proj1 V1) V4) in V5. injection V5 as Evw F1 F2 F3. assert (view_thread p2 = view_thread p) as Ev by (unfold view_thread; congruence).
      assert (remaining (thread p2) = None) as Hrem.
      { assert (status_of p2 = Running (state p =? PTHREAD_STATE_DETACHED)) as Es by congruence. unfold status_of in Es. destruct (state p2 =? PTHREAD_STATE_JOIN); [done|]. by destruct (remaining (thread p2)). }
      apply (wp_join_ended n fuel s2 a p2 x i b q2 w); [done|by split_and!|by rewrite Ev|done|congruence|done|done|].
      intros s3 Hjd. rewrite Hr2. split; [done|]. exists k, (threads s2). destruct (jd_same _ _ _ _ Hjd) as (_ & _ & G3). split_and!; [cbn; congruence|done|done|exact (jd_threads _ _ _ _ Hjd)].
Qed.

(** ** Keys *)

(** The value of a thread for a key. *)
Definition value_of (p : pthread_info) (k : Z) : Z := default 0 (data_of p !! Z.to_nat k).

Lemma value_clr k p j : 0 <= k -> 0 <= j -> value_of (clr (Z.to_nat k) p) j = if j =? k then 0 else value_of p j.
Proof.
  intros Hk Hj. unfold value_of, data_of, clr. cbn. destruct (thread_data p) as [l|]; cbn.
  - destruct (Z.eqb_spec j k) as [->|Hne]; [|by rewrite list_lookup_insert_ne by lia]. destruct (decide (Z.to_nat k < length l)%nat) as [Hlt|Hge]; [by rewrite list_lookup_insert_eq|].
    rewrite lookup_ge_None_2; [done|]. rewrite length_insert. lia.
  - assert (default 0 (replicate PTHREAD_KEYS_MAX 0 !! Z.to_nat j) = 0) as ->; [|by destruct (j =? k)]. destruct (replicate PTHREAD_KEYS_MAX 0 !! Z.to_nat j) as [z|] eqn:E; [|done]. by apply lookup_replicate in E as [-> _].
Qed.

(** C31: A new key is the lowest that was free; it has its destructor, it is not free any
    more, and its value is null in every thread while those of all other keys stay.  There
    is no new key exactly when none was free, and then nothing changes. *)
Theorem key_create_lowest n s d : core n s -> held s = false ->
  wp (pthread_key_create d) (fun r s' =>
    ((forall k, key_ok k -> is_free s k = false) /\ r = (EAGAIN, None) /\ s' = s) \/
    exists k, r = (0, Some k) /\ key_ok k /\ is_free s k = true /\ (forall j, 0 <= j < k -> is_free s j = false) /\ core n s' /\
      (forall j, key_ok j -> is_free s' j = is_free s j && negb (j =? k)) /\ key_destructor s' = <[Z.to_nat k := d]> (key_destructor s) /\
      forall b, match infos s !! b, infos s' !! b with
        | Some p, Some p' => forall j, key_ok j -> value_of p' j = if j =? k then 0 else value_of p j
        | None, None => True
        | _, _ => False
        end) s.
Proof.
  intros Hc Hh. apply (wp_key_create kint n); [done|done|by left|]. intros k Hk Hfree Hlow. right. exists k. destruct (with_key_kept n s k d Hc Hk) as [Hc' _]. split_and!; [done..| | |].
  - intros j Hj. exact (take_free kint n s k d j Hc Hk Hj).
  - done.
  - intros b. unfold with_key, take_key. cbn. rewrite lookup_fmap. destruct (infos s !! b) as [p|]; cbn; [|done]. intros j [Hj _]. destruct Hk. by apply value_clr.
Qed.

(** C32: What a thread sets under a key in use is what it gets; its values under other keys
    stay, and keys that are not in use give null and take nothing. *)
Theorem specific_roundtrip n s a p k v : core n s -> self s = Some a -> infos s !! a = Some p -> key_ok k ->
  wp (pthread_setspecific k v) (fun e s' => e = (if is_free s k then EINVAL else 0) /\
    forall j, key_ok j -> pthread_getspecific j s' = Ret (if is_free s j then 0 else if negb (is_free s k) && (j =? k) then v else value_of p j, s')) s.
Proof.
  intros Hc Ha Hp Hk.
  assert (forall s' p' j, core n s' -> thread_key s' = thread_key s -> self s' = Some a -> infos s' !! a = Some p' -> key_ok j ->
    pthread_getspecific j s' = Ret (if is_free s j then 0 else value_of p' j, s')) as Hget.
  { intros s' p' j Hc' Ek Ha' Hp' Hj. assert (wp (pthread_getspecific j) (fun r s'' => r = (if is_free s j then 0 else value_of p' j) /\ s'' = s') s') as H.
    2: { by destruct (proj1 (wp_Ret _ _ _) H) as (r & s'' & -> & -> & ->). }
    unfold pthread_getspecific. apply wp_bind, (wp_key_free kint n); [done|done|]. assert (is_free s' j = is_free s j) as -> by (unfold is_free; by rewrite Ek). destruct (is_free s j); [by apply wp_ret|].
    apply wp_bind, (wp_self_ptr a); [done|]. apply wp_bind, (wp_info_at _ p'); [done|]. unfold value_of, data_of. destruct (thread_data p') as [l|] eqn:El; cbn.
    - rewrite (key_u32 kint) by done. destruct (data_lookup l j) as [x Hx]; [by eapply (co_data _ _ _ _ _ _ _ _ Hc')|done|]. rewrite Hx. by apply (wp_data_at _ _ x).
    - apply wp_ret. split; [|done]. destruct (replicate PTHREAD_KEYS_MAX 0 !! Z.to_nat j) as [z|] eqn:E; [|done]. by apply lookup_replicate in E as [-> _]. }
  apply (wp_setspecific kint n s a p); [done..| |]; intros Hf; rewrite Hf; cbn [negb andb]; (split; [done|]); intros j Hj; [by apply Hget|].
  assert (length (data_of p) = PTHREAD_KEYS_MAX) as Hlen.
  { unfold data_of. destruct (thread_data p) eqn:E; cbn; [by eapply (co_data _ _ _ _ _ _ _ _ Hc)|apply length_replicate]. }
  rewrite (Hget _ (set_thread_data (Some (<[Z.to_nat k := v]> (data_of p))) p) j); [|by apply kept_data; [| |rewrite length_insert]|done|done|apply info_put_at|done].
  destruct Hj as [Hj1 Hj2], Hk as [Hk1 Hk2]. do 2 f_equal. destruct (is_free s j); [done|]. unfold value_of at 1. unfold data_of at 1. cbn. destruct (Z.eqb_spec j k) as [->|Hne].
  - rewrite list_lookup_insert_eq by lia. done.
  - by rewrite list_lookup_insert_ne by lia.
Qed.

(** ** Destructors and cleanup handlers *)

(** The destructors of a thread that ends are called at most as often as there are keys
    in each of a fixed number of passes, whatever they do with keys and values: the thread
    ends. *)
Theorem destructors_end n s a p : core n s -> held s = false -> self s = Some a -> infos s !! a = Some p ->
  wp (run_destructors a) (fun _ s' => (length (called s') <= length (called s) + S DESTRUCTOR_ITERATIONS * PTHREAD_KEYS_MAX)%nat /\ threads s' = threads s) s.
Proof. intros Hc Hh Ha Hp. apply (wp_run_destructors kint routines_ok n s a p); [done..|]. intros s' Hk Hn. split; [done|exact (rest_threads _ _ (proj2 Hk))]. Qed.

(** The destructor that is due for a key, with its value. *)
Definition due (s : st) (l : list Z) (k : nat) : option (Z * Z) :=
  match key_destructor s !! k, l !! k with
  | Some d, Some v => if is_free s (Z.of_nat k) || (d =? 0) || (v =? 0) then None else Some (d, v)
  | _, _ => None
  end.

(** The data after the destructors of [m] keys from [key] on. *)
Fixpoint wiped (s : st) (l : list Z) (key m : nat) : list Z :=
  match m with O => l | S m => wiped s (match due s l key with Some _ => <[key := 0]> l | None => l end) (S key) m end.

Lemma due_insert s l key k x : key <> k -> due s (<[key := x]> l) k = due s l k.
Proof. intros H. unfold due. by rewrite list_lookup_insert_ne. Qed.

Lemma wiped_length s l key m : length (wiped s l key m) = length l.
Proof. induction m as [|m IH] in l, key |- *; cbn; [done|]. rewrite IH. destruct (due s l key); [by rewrite length_insert|done]. Qed.

Lemma wiped_due s m key l k : due s (wiped s l key m) k = if (key <=? k)%nat && (k <? key + m)%nat then None else due s l k.
Proof.
  induction m as [|m IH] in key, l |- *; cbn [wiped].
  - destruct (Nat.leb_spec key k), (Nat.ltb_spec k (key + 0)); done || lia.
  - rewrite IH. destruct (decide (k = key)) as [->|Hne].
    + rewrite Nat.leb_refl, (proj2 (Nat.leb_gt (S key) key)), (proj2 (Nat.ltb_lt key (key + S m))) by lia. cbn. destruct (due s l key) as [x|] eqn:E; [|done]. unfold due in *.
      destruct (key_destructor s !! key); [|done]. destruct (l !! key) as [v|] eqn:Ev; [|done]. rewrite list_lookup_insert_eq by by eapply lookup_lt_Some. by rewrite orb_true_r.
    + assert (due s (match due s l key with Some _ => <[key := 0]> l | None => l end) k = due s l k) as ->.
      { destruct (due s l key); [by apply due_insert|done]. }
      destruct (Nat.leb_spec (S key) k), (Nat.leb_spec key k), (Nat.ltb_spec k (S key + m)), (Nat.ltb_spec k (key + S m)); done || lia.
Qed.

(** The state in the middle of a pass. *)
Definition passing (a : Z) (p : pthread_info) (l : list Z) (c : list (Z * Z)) (s : st) : st := set_called c (put a (set_thread_data (Some l) p) s).

Lemma wp_routine_quiet r x (P : unit -> st -> Prop) s : routine_ops r x = [] -> P tt (set_called ((r, x) :: called s) s) -> wp (call_routine r x) P s.
Proof. intros Hq HP. unfold call_routine. apply wp_bind, wp_modify. by rewrite Hq. Qed.

Lemma wp_pass_quiet n s a p (P : bool -> st -> Prop) m key l cl c : core n s -> infos s !! a = Some p -> (forall d x, d ∈ key_destructor s -> routine_ops d x = []) ->
  (key + m = PTHREAD_KEYS_MAX)%nat -> length l = PTHREAD_KEYS_MAX ->
  P (c || negb (bool_decide (omap (due s l) (seq key m) = []))) (passing a p (wiped s l key m) (rev (omap (due s l) (seq key m)) ++ cl) s) -> wp (key_pass a key m c) P (passing a p l cl s).
Proof.
  intros Hc Hp Hq. induction m as [|m IH] in key, l, cl, c |- *; intros Hk Hl HP; cbn [key_pass]; [apply wp_ret; by rewrite orb_false_r in HP|].
  assert (key_ok (Z.of_nat key)) as Hok by (split; lia). pose proof (kept_data n s a p l Hc Hp Hl) as [Hcp _]. destruct (co_keys _ _ _ _ _ _ _ _ Hc) as (_ & _ & Hd & _).
  destruct (lookup_lt_is_Some_2 (key_destructor s) key) as [d Hdk]; [lia|]. destruct (lookup_lt_is_Some_2 l key) as [v Hv]; [lia|].
  assert (due s l key = if is_free s (Z.of_nat key) || (d =? 0) || (v =? 0) then None else Some (d, v)) as Edue by (unfold due; by rewrite Hdk, Hv).
  assert (due s l key = None -> wp (key_pass a (S key) m c) P (passing a p l cl s)) as Hskip.
  { intros E. apply IH; [lia|done|]. cbn [seq omap list_omap wiped] in HP. by rewrite E in HP. }
  apply wp_bind, (wp_key_free kint n); [exact Hcp|done|]. change (is_free (passing a p l cl s)) with (is_free s). destruct (is_free s (Z.of_nat key)); [by apply Hskip; rewrite Edue|].
  apply wp_bind, (wp_eq _ _ _ d (passing a p l cl s)); [unfold destructor_at; cbn; by rewrite Hdk|]. destruct (d =? 0); [by apply Hskip; rewrite Edue|].
  apply wp_bind, (wp_info_at _ (set_thread_data (Some l) p)); [apply info_put_at|]. cbn [thread_data set_thread_data]. apply wp_bind, (wp_data_at _ _ v); [done|]. destruct (v =? 0); [by apply Hskip; rewrite Edue|].
  cbn [orb] in Edue. apply wp_bind, (wp_upd_info _ _ (set_thread_data (Some l) p)); [apply info_put_at|]. apply wp_bind, wp_routine_quiet; [by apply Hq; eapply list_elem_of_lookup_2|].
  assert (set_called ((d, v) :: called (put a (set_thread_data (Some (<[key := 0]> l)) (set_thread_data (Some l) p)) (passing a p l cl s))) (put a (set_thread_data (Some (<[key := 0]> l)) (set_thread_data (Some l) p)) (passing a p l cl s))
    = passing a p (<[key := 0]> l) ((d, v) :: cl) s) as ->.
  { unfold passing, put. unfold set_called, set_infos. cbn. by rewrite insert_insert_eq. }
  apply IH; [lia|by rewrite length_insert|]. cbn [seq omap list_omap wiped] in HP. rewrite Edue in HP. cbn [rev] in HP. rewrite <- app_assoc, orb_true_r in HP. cbn [orb].
  assert (omap (due s (<[key := 0]> l)) (seq (S key) m) = omap (due s l) (seq (S key) m)) as ->; [|done].
  apply list_omap_ext. apply Forall2_same_length_lookup. split; [done|]. intros i x y Hx Hy. assert (x = y) as <- by congruence. apply lookup_seq in Hx as [-> _]. apply due_insert. lia.
Qed.

Lemma wiped_none s l m key : (forall k, (key <= k < key + m)%nat -> due s l k = None) -> wiped s l key m = l.
Proof. induction m as [|m IH] in key |- *; intros H; cbn [wiped]; [done|]. rewrite (H key) by lia. apply IH. intros k Hk. apply H. lia. Qed.

Lemma due_wiped s l k : (k < PTHREAD_KEYS_MAX)%nat -> due s (wiped s l 0 PTHREAD_KEYS_MAX) k = None.
Proof. intros Hk. rewrite wiped_due, (proj2 (Nat.leb_le 0 k)), (proj2 (Nat.ltb_lt k (0 + PTHREAD_KEYS_MAX))) by lia. done. Qed.

Lemma wp_destructors_quiet n s a p l (P : unit -> st -> Prop) : core n s -> infos s !! a = Some p -> thread_data p = Some l -> (forall d x, d ∈ key_destructor s -> routine_ops d x = []) ->
  P tt (passing a p (wiped s l 0 PTHREAD_KEYS_MAX) (rev (omap (due s l) (seq 0 PTHREAD_KEYS_MAX)) ++ called s) s) -> wp (run_destructors a) P s.
Proof.
  intros Hc Hp Hl Hq HP. pose proof (co_data _ _ _ _ _ _ _ _ Hc a p l Hp Hl) as Hlen. unfold run_destructors. apply wp_bind, (wp_info_at _ p); [done|]. rewrite Hl.
  assert (s = passing a p l (called s) s) as Es.
  { unfold passing. replace (set_thread_data (Some l) p) with p by (rewrite <- Hl; by destruct p). rewrite info_put_same by done. by destruct s. }
  set (l' := wiped s l 0 PTHREAD_KEYS_MAX) in *. set (cl := rev (omap (due s l) (seq 0 PTHREAD_KEYS_MAX)) ++ called s) in *.
  assert (omap (due s l') (seq 0 PTHREAD_KEYS_MAX) = []) as Ed.
  { apply elem_of_nil_inv. intros x (k & Hk & Hd)%list_elem_of_omap. apply elem_of_seq in Hk. unfold l' in Hd. rewrite due_wiped in Hd by lia. done. }
  assert (wiped s l' 0 PTHREAD_KEYS_MAX = l') as Ew by (apply wiped_none; intros k Hk; apply due_wiped; lia).
  assert (forall m k, wp (passes m a k) P (passing a p l' cl s)) as Hnext.
  { intros [|m] k; cbn [passes]; [by apply wp_ret|]. apply wp_bind, (wp_pass_quiet n s a p); [done..|by unfold l'; rewrite wiped_length|]. rewrite Ed, Ew. cbn. by apply wp_ret. }
  assert (wp (passes (S DESTRUCTOR_ITERATIONS) a 0) P (passing a p l (called s) s)) as H; [|by rewrite <- Es in H]. cbn [passes].
  apply wp_bind, (wp_pass_quiet n s a p); [done..|]. fold l' cl. destruct (_ && _); [apply Hnext|by apply wp_ret].
Qed.

Lemma wp_cleanup_quiet fuel s a p l (P : unit -> st -> Prop) : infos s !! a = Some p -> chain (buffers s) (cancelbuffer p) l -> (length l <= fuel)%nat ->
  (forall r x, (r, x) ∈ handlers (buffers s) l -> routine_ops r x = []) ->
  P tt (set_called (rev (handlers (buffers s) l) ++ called s) (put a (set_cancelbuffer None p) s)) -> wp (cleanup_loop fuel a) P s.
Proof.
  intros Hp Hch Hf Hq HP. induction l as [|b l IH] in fuel, s, p, P, Hp, Hch, Hf, Hq, HP |- *.
  - cbn in Hch. assert (P tt s) as Hend.
    { cbn in HP. assert (set_called (called s) (put a (set_cancelbuffer None p) s) = s) as E; [|by rewrite E in HP]. rewrite <- Hch. replace (set_cancelbuffer (cancelbuffer p) p) with p by by destruct p. rewrite info_put_same by done. by destruct s. }
    destruct fuel; cbn [cleanup_loop]; (apply wp_bind, (wp_info_at _ p); [done|]; rewrite Hch; by apply wp_ret).
  - destruct Hch as (Hx & c & Hb & Hch). destruct fuel as [|fuel]; [cbn in Hf; lia|]. cbn [cleanup_loop length handlers] in *. rewrite Hb in Hq, HP. apply wp_bind, (wp_info_at _ p); [done|]. rewrite Hx.
    apply wp_bind, (wp_eq _ _ _ c s); [unfold buffer_at; by rewrite Hb|]. apply wp_bind, (wp_upd_info _ _ p); [done|]. apply wp_bind, wp_routine_quiet; [by apply Hq; left|].
    apply (IH _ _ (set_cancelbuffer (prev c) p)); [apply info_put_at|done|lia|intros r x Hr; apply Hq; by right|].
    cbn [rev] in HP. rewrite <- app_assoc in HP. assert (put a (set_cancelbuffer None (set_cancelbuffer (prev c) p)) (set_called ((routine c, arg c) :: called (put a (set_cancelbuffer (prev c) p) s)) (put a (set_cancelbuffer (prev c) p) s))
      = set_called ((routine c, arg c) :: called s) (put a (set_cancelbuffer None p) s)) as E by (unfold put, set_called, set_infos; cbn; by rewrite insert_insert_eq).
    rewrite E. exact HP.
Qed.

(** C30: A thread that ends, when its cleanup handlers and the destructors of the keys make no
    calls of this library themselves: it calls its cleanup handlers, the last pushed first,
    and then, for each key in use in turn that has a destructor and a value that is not
    null, the destructor with that value, each once, and nothing else; the program ends
    exactly when no other thread runs.  (A destructor that sets its value again is called
    in each pass, at most [DESTRUCTOR_ITERATIONS] times after the first:
    [destructors_end], for any destructors.) *)
Theorem exit_order n fuel s a p l v : wf n s -> held s = false -> runs s a p -> chain (buffers s) (cancelbuffer p) l -> (length l <= fuel)%nat ->
  (forall r x, (r, x) ∈ handlers (buffers s) l -> routine_ops r x = []) -> (forall d x, d ∈ key_destructor s -> routine_ops d x = []) ->
  wp (pthread_exit fuel v) (fun b s' =>
    called s' = rev (handlers (buffers s) l ++ match thread_data p with None => [] | Some data => omap (due s data) (seq 0 PTHREAD_KEYS_MAX) end) ++ called s /\
    b = all_ended (vexit (threads s) (id p) v)) s.
Proof.
  intros Hw Hh Hrun Hch Hf Hqh Hqd. pose proof Hrun as (Ha & Hp & Hr). pose proof (closing_wf n s a p Hw Hp) as [Hcp _].
  unfold pthread_exit. apply wp_bind, (wp_self_ptr a); [done|]. apply wp_bind, (wp_setcancelstate _ s a p); [done..|by right|].
  apply wp_bind, (wp_cleanup_quiet fuel _ a (set_cancelstate PTHREAD_CANCEL_DISABLE p) l); [apply info_put_at|done|done|done|]. change (set_cancelbuffer None (set_cancelstate PTHREAD_CANCEL_DISABLE p)) with (closing p).
  rewrite info_put_put. set (h := rev (handlers (buffers s) l) ++ called s). set (s2 := set_called h (put a (closing p) s)).
  assert (forall s3, kept n (put a (closing p) s) s3 -> called s3 = rev (handlers (buffers s) l ++ match thread_data p with None => [] | Some data => omap (due s data) (seq 0 PTHREAD_KEYS_MAX) end) ++ called s ->
    wp (leave a v) (fun b s' => called s' = rev (handlers (buffers s) l ++ match thread_data p with None => [] | Some data => omap (due s data) (seq 0 PTHREAD_KEYS_MAX) end) ++ called s /\
    b = all_ended (vexit (threads s) (id p) v)) s3) as Hend.
  { intros s3 Hk Ec. apply (wp_exit_leave n s s3 a p); [done..|]. intros b s' Hb _ _ Ec'. split; [congruence|done]. }
  apply wp_bind. destruct (thread_data p) as [data|] eqn:Ed.
  - apply (wp_destructors_quiet n s2 a (closing p) data); [exact Hcp|apply info_put_at|done|done|]. apply Hend.
    + destruct (kept_data n (put a (closing p) s) a (closing p) (wiped s2 data 0 PTHREAD_KEYS_MAX) Hcp (info_put_at _ _ _)) as [Hc3 Er3]; [rewrite wiped_length; exact (co_data _ _ _ _ _ _ _ _ (proj1 Hw) a p data Hp Ed)|].
      split; [exact Hc3|exact Er3].
    + cbn [called set_called passing]. unfold s2 at 2, h. cbn [called set_called]. rewrite rev_app_distr, <- app_assoc. done.
  - unfold run_destructors. apply wp_bind, (wp_info_at _ (closing p)); [apply info_put_at|]. change (thread_data (closing p)) with (thread_data p). rewrite Ed. apply wp_ret, Hend; [split; [exact Hcp|done]|]. by rewrite app_nil_r.
Qed.

(** ** Start *)

(** The state before the main thread is made. *)
Definition start_state (keys : list Z) (dtors mem : list Z) : st :=
  mkSt ∅ ∅ (replicate THREADS_MAX None) 0 0 0 keys dtors 0 THREAD_ID_COOKIE_INC None false mem [] [] [].

Lemma start_rows keys dtors mem : rows (start_state keys dtors mem) = replicate THREADS_MAX None.
Proof. unfold rows, rows_of. cbn. by rewrite fmap_replicate. Qed.

Lemma cnt_none f m : f None = false -> cnt f (replicate m None) = 0.
Proof. intros Hf. apply cnt_0. intros i x Hi. by apply lookup_replicate in Hi as [-> _]. Qed.

Lemma start_core (mem keys dtors : list Z) : (0 < THREADS_MAX <= 1024)%nat -> (PTHREAD_KEYS_MAX mod 32 = 0)%nat -> length dtors = PTHREAD_KEYS_MAX -> wf 0 (start_state all_keys_free dtors mem).
Proof.
  intros Hm Hk Hd. split; [split; cbn|by unfold counts; rewrite start_rows; split; rewrite cnt_none].
  - apply length_replicate.
  - done.
  - lia.
  - split; [done|]. unfold THREAD_ID_COOKIE_INC. lia.
  - intros i a Hi. by apply lookup_replicate in Hi as [? _].
  - done.
  - unfold all_keys_free. split_and!; [done|by rewrite length_replicate|done|]. apply Forall_replicate. by vm_compute.
  - done.
  - done.
Qed.

Lemma start_threads keys dtors mem : threads (start_state keys dtors mem) = ∅.
Proof. unfold threads. rewrite start_rows, fmap_replicate. induction THREADS_MAX as [|m IH]; [done|exact IH]. Qed.

(** After the start there is one thread, the main one, and all keys are free. *)
Theorem start_ok keys dtors mem priority main_stack size call_main : (0 < THREADS_MAX <= 1024)%nat -> (PTHREAD_KEYS_MAX mod 32 = 0)%nat -> length dtors = PTHREAD_KEYS_MAX ->
  STACK_MIN <= size -> call_main <> 0 ->
  wp (cyg_posix_pthread_start priority main_stack size call_main) (fun _ s' => wf 0 s' /\ self s' = None /\ held s' = false /\ wakes s' = [] /\
    exists nid, threads s' = {[nid := mkVT (Running false) false PTHREAD_CANCEL_ENABLE PTHREAD_CANCEL_DEFERRED]}) (start_state keys dtors mem).
Proof.
  intros Hm Hk Hd Hsize Hcm. unfold cyg_posix_pthread_start. apply wp_bind, wp_modify. change (set_thread_key all_keys_free (start_state keys dtors mem)) with (start_state all_keys_free dtors mem).
  pose proof (start_core mem keys dtors Hm Hk Hd) as Hw. set (s := start_state all_keys_free dtors mem) in *. set (u := main_attr priority main_stack size).
  assert (exists d, u = Some d /\ inheritsched d = PTHREAD_EXPLICIT_SCHED /\ stackaddr_valid d = true /\ detachstate d = PTHREAD_CREATE_JOINABLE) as (d & Eu & E1 & E2 & E3).
  { unfold u, main_attr, pthread_attr_init, pthread_attr_setinheritsched, pthread_attr_setstackaddr, pthread_attr_setstacksize. cbn. rewrite (proj2 (Z.ltb_ge size STACK_MIN)) by done. cbn.
    rewrite Z.eqb_refl, !orb_true_r. by eexists. }
  assert (can_create s u) as Hcc by (rewrite Eu; split; cbn; [done|by rewrite E1|by intros _]).
  apply wp_bind. eapply wp_mono; [exact (wp_thread_create 0 s 0 u call_main 0 Hw eq_refl Hcc)|]. intros [r x] s' (Hw' & Hv & [P1 P2 P3 _]). apply wp_ret. split; [by apply Hw'|]. split_and!; [done|done|done|].
  rewrite (start_threads all_keys_free dtors mem : threads s = ∅) in Hv. rewrite Eu in Hv. inversion Hv as [| |? ? ? ? Hsz|a r0 x0 nid Hr Hsz Hnid| | | | | | |]; subst.
  - done.
  - cbn in *. congruence.
  - rewrite map_size_empty in Hsz. lia.
  - exists nid. unfold detaches. cbn. by rewrite E3, insert_empty.
Qed.

(** ** Pushing a cleanup handler *)

Lemma chain_unused b b0 x c l : chain b c l -> b0 ∉ l -> chain (<[b0 := x]> b) c l.
Proof.
  induction l as [|y l IH] in c |- *; cbn; [done|]. intros (-> & z & Hz & Hl) Hn. apply not_elem_of_cons in Hn as [Hn1 Hn2]. split; [done|]. exists z. split; [by rewrite lookup_insert_ne|by apply IH].
Qed.

Lemma chain_in b c l x : chain b c l -> x ∈ l -> is_Some (b !! x).
Proof.
  induction l as [|y l IH] in c |- *; cbn; [by intros _ H%elem_of_nil|]. intros (_ & z & Hz & Hl) [->|Hx]%elem_of_cons; [by eexists|by eapply IH].
Qed.

(** A handler in a buffer that no thread uses comes first. *)
Lemma wp_cleanup_push n s a p b r x (P : unit -> st -> Prop) : wf n s -> self s = Some a -> infos s !! a = Some p ->
  (forall c q l, infos s !! c = Some q -> chain (buffers s) (cancelbuffer q) l -> b ∉ l) ->
  (let s' := put a (set_cancelbuffer (Some b) p) (set_buffers (<[b := mkBuf (cancelbuffer p) r x]> (buffers s)) s) in wf (S n) s' -> P tt s') ->
  wp (pthread_cleanup_push_inner b r x) P s.
Proof.
  intros [Hc [N1 N2 N3]] Ha Hp Hb HP. unfold pthread_cleanup_push_inner. apply wp_bind, (wp_self_ptr a); [done|]. apply wp_bind, (wp_info_at _ p); [done|]. apply wp_bind, wp_modify.
  apply (wp_upd_info _ _ p); [done|]. apply HP. destruct (info_slot n s a p Hc Hp) as (i & Hi & [O1 O2 O3 O4]). set (q := set_cancelbuffer (Some b) p). set (s1 := set_buffers _ s).
  assert (core (S n) s1) as Hc1.
  { pose proof Hc as [C1 C2 C3 C4 C5 C6 C7 C8 C9]. split; try done. cbn. intros c p' Hp'. destruct (C9 c p' Hp') as (l & Hl & Hn). exists l. split; [|lia]. apply chain_unused; [done|by apply (Hb c p')]. }
  split.
  - apply (core_put (S n) s1 i a p); [done|done|done|by split|exact (fun l => co_data _ _ _ _ _ _ _ _ Hc a p l Hp)|].
    destruct (co_chain _ _ _ _ _ _ _ _ Hc a p Hp) as (l & Hl & Hn). exists (b :: l). split; [|cbn; lia]. split; [done|]. exists (mkBuf (cancelbuffer p) r x). split; [apply lookup_insert_eq|].
    cbn. apply chain_unused; [done|by apply (Hb a p)].
  - split; rewrite (counts_put (S n) s1 i a p q) by done; change (rows s1) with (rows s); cbn; lia.
Qed.

End Props.

(** ** A small system: four threads, thirty-two keys, two passes of destructors *)

Module PthreadDemo.

#[local] Instance kernel : KThread.
Proof.
  refine {| Cyg_Thread := option nat; thread_new := fun _ _ _ => None; thread_timeslice := fun _ t => t; thread_priority := fun _ t => t; thread_asr := fun t => t;
    thread_release := fun t => t; thread_resume := fun t => t; thread_exit := fun _ => Some 2%nat; thread_yield := fun t => match t with Some (S n) => Some n | _ => t end;
    current_priority := 5; remaining := fun t => t |}; try done. by intros t n ->.
Defined.

#[local] Instance config : PthreadConfig := {|
  THREADS_MAX := 4; PTHREAD_KEYS_MAX := 32; DESTRUCTOR_ITERATIONS := 2; STACK_MIN := 1000; sizeof_pthread_info := 100; CYG_THREAD_MIN_PRIORITY := 30;
  SCHED_FIFO := 1; SCHED_RR := 2; SCHED_OTHER := 3; PTHREAD_CANCELED := 77; EINVAL := 22; ESRCH := 3; EAGAIN := 11; ENOMEM := 12; EDEADLK := 35; ENOTSUP := 134 |}.

(** The routine at 7 sets the value that it was given again. *)
#[local] Instance routines : Routines := {| routine_ops := fun r x => if r =? 7 then [SetSpecific 0 x] else [] |}.

Lemma routines_ok r x : Forall rop_ok (routine_ops r x).
Proof. cbn. destruct (r =? 7); [|constructor]. constructor; [|constructor]. split; cbn; lia. Qed.

Lemma kint : keys_int.
Proof. done. Qed.

Lemma errors : EINVAL <> 0 /\ ESRCH <> 0 /\ EDEADLK <> 0 /\ EAGAIN <> 0.
Proof. done. Qed.

Definition empty : st := start_state [] (replicate 32 0) [20000; 30000; 40000].

Definition after {A} (m : M st A) (s : st) : st := match m s with Ret (_, s') => s' | _ => s end.

Lemma after_wp {A} (m : M st A) (Q : A -> st -> Prop) s : wp m Q s -> exists r, Q r (after m s).
Proof. unfold wp, after. destruct (m s) as [[r s']| |]; [|done..]. intros H. by exists r. Qed.

(** Only the main thread, 2048, its structure at 9000. *)
Definition main : st := set_self (Some 9000) (after (cyg_posix_pthread_start 10 10000 1000 1) empty).

Lemma wf_self n v s : wf n s /\ held s = false /\ wakes s = [] -> wf n (set_self v s) /\ held (set_self v s) = false /\ wakes (set_self v s) = [].
Proof. done. Qed.

Lemma main_wf : wf 0 main /\ held main = false /\ wakes main = [].
Proof.
  apply wf_self. destruct (after_wp _ _ _ (start_ok (kt := kernel) (cfg := config) [] (replicate 32 0) [20000; 30000; 40000] 10 10000 1000 1 ltac:(cbn; lia) eq_refl eq_refl ltac:(cbn; lia) ltac:(done)))
    as [_ (H1 & _ & H2 & H3 & _)]. exact (conj H1 (conj H2 H3)).
Qed.

(** The thread with id [t], its structure at [a], runs and has not been cancelled. *)
Definition runs_now (s : st) (t a : Z) : bool :=
  match infos s !! a with
  | Some p => bool_decide (self s = Some a) && bool_decide (remaining (thread p) = None) && (id p =? t) && negb (cancels (view_thread p))
  | None => false
  end.

Lemma runs_now_ok s t a : runs_now s t a = true -> exists p, runs s a p /\ id p = t /\ cancels (view_thread p) = false.
Proof.
  unfold runs_now. destruct (infos s !! a) as [p|] eqn:E; [|done]. intros [[[H1 H2]%andb_prop H3]%andb_prop H4]%andb_prop. exists p.
  apply bool_decide_eq_true in H1, H2. apply Z.eqb_eq in H3. by apply negb_true_iff in H4.
Qed.

Lemma main_runs : exists p, runs main 9000 p /\ id p = 2048 /\ cancels (view_thread p) = false.
Proof. apply runs_now_ok. by vm_compute. Qed.

Definition joinable_now (s : st) (x : Z) : bool := match PthreadFacts.threads s !! x with Some v => match v_status v with Running false => true | _ => false end | None => false end.

Lemma joinable_now_ok s x : joinable_now s x = true -> joinable (PthreadFacts.threads s) x None.
Proof. unfold joinable_now, joinable. destruct (PthreadFacts.threads s !! x) as [v|]; [|done]. intros H. exists v. split; [done|]. by destruct (v_status v) as [[]| |]. Qed.

Lemma wf_wakes n w s : wf n s /\ held s = false -> wf n (set_wakes w s) /\ held (set_wakes w s) = false.
Proof. done. Qed.

(** Main makes a thread, which ends with 9; main joins it, and ends the program. *)
Definition story : list (Z * call) :=
  [(2048, Do (Create None 50 0)); (3073, Do (Exit 9)); (3073, Do (Detach 2048)); (2048, Join 2048 true); (2048, Join 3073 true); (2048, Do (Detach 3073)); (2048, Do (Exit 0))].

Definition story_fates : list (option fate) :=
  [Some (Returns 0 (Some 3073)); Some (Ends false); None; Some (Returns EDEADLK None); Some (Returns 0 (Some 9)); Some (Returns ESRCH None); Some (Ends true)].

Lemma threads_refine_witness : exists s', run_calls 0 story main = Ret (story_fates, s') /\ vruns (PthreadFacts.threads main) story story_fates (PthreadFacts.threads s').
Proof.
  assert (match run_calls 0 story main with Ret (rs, _) => rs = story_fates | _ => False end) as E by by vm_compute.
  assert (Forall turn_ok story) as Hl by (repeat constructor; cbn; try done; unfold id_ok; vm_compute; lia).
  destruct main_wf as (H1 & H2 & H3). pose proof (threads_refine kint routines_ok errors 0 0 main story H1 H2 H3 (le_n 0) Hl) as H.
  destruct (run_calls 0 story main) as [[rs s']| |]; [|destruct H|destruct E]. subst rs. exists s'. exact (conj eq_refl H).
Defined.

(** Main waits for 3073 through three waits; in the third it ends. *)
Definition waits : list (list (Z * act) * bool) := [([], false); ([(3073, Setcanceltype 1)], true); ([(3073, Exit 9)], true); ([], true)].

Definition made : st := after (pthread_create true None 50 0) main.

Lemma made_wf : wf 0 made /\ held made = false.
Proof.
  destruct main_wf as (H1 & H2 & _), main_runs as (p & Hrun & _). assert (can_create main None) as Hcc by (split; [by exists p|by intros _; eexists|done]).
  destruct (after_wp _ _ _ (wp_thread_create 0 main 2048 None 50 0 H1 H2 Hcc)) as [r (Hw & _ & [_ P2 _ _])]. split; [by apply Hw|exact (eq_trans P2 H2)].
Qed.

Definition waiting_main : st := set_wakes waits made.

Lemma join_waits_witness : exists s', pthread_join 0 3073 true waiting_main = Ret (Returns 0 (Some 9), s') /\ PthreadFacts.threads s' !! 3073 = None /\ wakes s' = [([], true)].
Proof.
  assert (exists p, runs waiting_main 9000 p /\ id p = 2048 /\ cancels (view_thread p) = false) as (p & Hrun & Hid & Hcn) by (apply runs_now_ok; by vm_compute).
  destruct (wf_wakes 0 waits made made_wf) as [Hw Hh]. change (set_wakes waits made) with waiting_main in Hw, Hh. assert (Forall (meanwhile 2048 3073) (concat (wakes waiting_main).*1)) as Hl.
  { repeat constructor; cbn; try done; unfold id_ok; vm_compute; lia. }
  assert (joinable (PthreadFacts.threads waiting_main) 3073 None) as Hj by (apply joinable_now_ok; by vm_compute).
  assert (id_ok 3073) as Hok by (unfold id_ok; vm_compute; lia). assert (3073 <> id p) as Hne by by rewrite Hid. rewrite <- Hid in Hl.
  pose proof (join_waits kint routines_ok 0 0 waiting_main 9000 p 3073 true 9 Hw Hh Hrun (le_n 0) Hok Hne Hcn Hj Hl eq_refl) as H.
  assert (match pthread_join 0 3073 true waiting_main with Ret (_, s') => wakes s' = [([], true)] | _ => False end) as E by by vm_compute.
  destruct (proj1 (wp_Ret _ _ _) H) as (r & s' & Er & -> & k & m & _ & _ & _ & Ht). rewrite Er in E. exists s'. split; [exact Er|]. split; [rewrite Ht; apply lookup_delete_eq|exact E].
Defined.

(** Two keys with destructors and values, and a third without a destructor. *)
Definition with_values : st := after (run_rops [KeyCreate 8; KeyCreate 0; KeyCreate 9; SetSpecific 0 5; SetSpecific 1 6; SetSpecific 2 4]) main.

Lemma rops_wf n s a l : wf n s -> held s = false -> self s = Some a -> is_Some (infos s !! a) -> Forall rop_ok l ->
  (wf n (after (run_rops l) s) /\ held (after (run_rops l) s) = false /\ self (after (run_rops l) s) = Some a) /\ is_Some (infos (after (run_rops l) s) !! a).
Proof.
  intros Hw Hh Ha Hp Hl. assert (wp (run_rops l) (fun _ s' => kept n s s') s) as H by (apply (wp_run_rops kint n s a); [apply Hw|done..|by intros s' Hk]).
  destruct (after_wp _ _ _ H) as [_ Hk]. generalize dependent (after (run_rops l) s). intros s' Hk. destruct (kept_self _ _ _ Hk) as [E1 E2].
  split_and!; [split; [apply Hk|exact (rest_counts _ _ (proj2 Hk) (proj2 Hw))]|congruence|congruence|by eapply kept_has].
Qed.

Lemma main_rops l : Forall rop_ok l -> (wf 0 (after (run_rops l) main) /\ held (after (run_rops l) main) = false /\ self (after (run_rops l) main) = Some 9000) /\ is_Some (infos (after (run_rops l) main) !! 9000).
Proof. intros Hl. destruct main_wf as (Hw & Hh & _), main_runs as (p & (Ha & Hp & _) & _). apply rops_wf; [exact Hw|exact Hh|exact Ha|by exists p|exact Hl]. Qed.

Lemma values_wf : wf 0 with_values /\ held with_values = false /\ self with_values = Some 9000.
Proof. unfold with_values. apply main_rops. repeat constructor; cbn; lia. Qed.

Lemma push_wf n s a b r x : wf n s -> self s = Some a -> bool_decide (is_Some (infos s !! a)) && bool_decide (buffers s !! b = None) = true ->
  wf (S n) (after (pthread_cleanup_push_inner b r x) s).
Proof.
  intros Hw Ha [[p Hp]%bool_decide_eq_true Hb%bool_decide_eq_true]%andb_prop.
  assert (wp (pthread_cleanup_push_inner b r x) (fun _ s' => wf (S n) s') s) as H.
  { apply (wp_cleanup_push n s a p); [done|done|done| |by intros s' H]. intros c q l _ Hl Hin. destruct (chain_in _ _ _ _ Hl Hin) as [z Hz]. congruence. }
  by destruct (after_wp _ _ _ H).
Qed.

Definition one_handler : st := after (pthread_cleanup_push_inner 900 60 1) with_values.

Definition with_handlers : st := after (pthread_cleanup_push_inner 901 61 2) one_handler.

Definition self_now (s : st) (a : Z) : bool := bool_decide (self s = Some a).

Lemma self_now_ok s a : self_now s a = true -> self s = Some a.
Proof. apply bool_decide_eq_true. Qed.

(** What the thread at [a] is to end with: its list of handlers, and its data. *)
Definition ends_with (s : st) (a : Z) (l : list Z) (d : list Z) : Prop :=
  exists p, runs s a p /\ chain (buffers s) (cancelbuffer p) l /\ thread_data p = Some d.

Fixpoint chain_now (b : gmap Z cleanup_buffer) (c : option Z) (l : list Z) : bool :=
  match l with
  | [] => bool_decide (c = None)
  | x :: l => bool_decide (c = Some x) && match b !! x with Some z => chain_now b (prev z) l | None => false end
  end.

Lemma chain_now_ok b c l : chain_now b c l = true -> chain b c l.
Proof.
  induction l as [|x l IH] in c |- *; cbn; [apply bool_decide_eq_true|]. intros [H1%bool_decide_eq_true H2]%andb_prop. split; [done|].
  destruct (b !! x) as [z|]; [|done]. exists z. split; [done|by apply IH].
Qed.

Definition ends_now (s : st) (a : Z) (l : list Z) (d : list Z) : bool :=
  match infos s !! a with
  | Some p => bool_decide (self s = Some a) && bool_decide (remaining (thread p) = None) && chain_now (buffers s) (cancelbuffer p) l && bool_decide (thread_data p = Some d)
  | None => false
  end.

Lemma ends_now_ok s a l d : ends_now s a l d = true -> ends_with s a l d.
Proof.
  unfold ends_now. destruct (infos s !! a) as [p|] eqn:E; [|done]. intros [[[H1 H2]%andb_prop H3]%andb_prop H4]%andb_prop. exists p.
  apply bool_decide_eq_true in H1, H2, H4. by apply chain_now_ok in H3.
Qed.

(** No routine does anything but that at 7. *)
Lemma quiet_list (l : list (Z * Z)) : forallb (fun x => negb (x.1 =? 7)) l = true -> forall r x, (r, x) ∈ l -> routine_ops r x = [].
Proof. intros H r x Hin. rewrite forallb_forall in H. specialize (H (r, x) (proj1 (list_elem_of_In _ _) Hin)). cbn in *. by destruct (r =? 7). Qed.

Lemma quiet_routines (l : list Z) : forallb (fun r => negb (r =? 7)) l = true -> forall r x, r ∈ l -> routine_ops r x = [].
Proof. intros H r x Hin. rewrite forallb_forall in H. specialize (H r (proj1 (list_elem_of_In _ _) Hin)). cbn in *. by destruct (r =? 7). Qed.

Lemma exit_order_witness : exists b s', pthread_exit 2 0 with_handlers = Ret (b, s') /\ called s' = [(9, 4); (8, 5); (60, 1); (61, 2)].
Proof.
  destruct values_wf as (Hw & Hh & Ha). assert (wf 1 one_handler) as Hw1 by (apply (push_wf 0 with_values 9000 900 60 1 Hw Ha); by vm_compute).
  assert (self one_handler = Some 9000) as Ha1 by (apply self_now_ok; by vm_compute). assert (wf 2 with_handlers) as Hw2 by (apply (push_wf 1 one_handler 9000 901 61 2 Hw1 Ha1); by vm_compute).
  assert (bool_decide (held with_handlers = false) = true) as Hh2%bool_decide_eq_true by by vm_compute.
  assert (ends_with with_handlers 9000 [901; 900] ([5; 6; 4] ++ replicate 29 0)) as (p & Hrun & Hch & Hd) by (apply ends_now_ok; by vm_compute).
  assert (forallb (fun x => negb (x.1 =? 7)) (handlers (buffers with_handlers) [901; 900]) = true) as Hq1 by by vm_compute.
  assert (forallb (fun r => negb (r =? 7)) (key_destructor with_handlers) = true) as Hq2 by by vm_compute.
  pose proof (exit_order kint 2 2 with_handlers 9000 p [901; 900] 0 Hw2 Hh2 Hrun Hch (le_n 2) (quiet_list _ Hq1) (quiet_routines _ Hq2)) as H. rewrite Hd in H.
  assert (bool_decide (rev (handlers (buffers with_handlers) [901; 900] ++ omap (due with_handlers ([5; 6; 4] ++ replicate 29 0)) (seq 0 PTHREAD_KEYS_MAX)) ++ called with_handlers
    = [(9, 4); (8, 5); (60, 1); (61, 2)]) = true) as Ec%bool_decide_eq_true by by vm_compute.
  destruct (proj1 (wp_Ret _ _ _) H) as (b & s' & Er & Hc & _). exists b, s'. split; [exact Er|exact (eq_trans Hc Ec)].
Defined.

Lemma key_create_lowest_witness : exists s', pthread_key_create 5 with_values = Ret ((0, Some 3), s').
Proof.
  destruct values_wf as (Hw & Hh & Ha). pose proof (key_create_lowest kint 0 with_values 5 (proj1 Hw) Hh) as H. assert (match pthread_key_create 5 with_values with Ret (r, _) => r = (0, Some 3) | _ => False end) as E by by vm_compute.
  destruct (proj1 (wp_Ret _ _ _) H) as (r & s' & Er & _). rewrite Er in E. rewrite E in Er. by exists s'.
Defined.

Lemma specific_roundtrip_witness : exists s', pthread_setspecific 1 70 with_values = Ret (0, s') /\ pthread_getspecific 1 s' = Ret (70, s') /\ pthread_getspecific 2 s' = Ret (4, s').
Proof.
  destruct values_wf as (Hw & Hh & Ha). assert (match infos with_values !! 9000 with Some p => value_of p 2 =? 4 | None => false end = true) as Hpv by by vm_compute.
  destruct (infos with_values !! 9000) as [p|] eqn:Hp; [|destruct (diff_false_true Hpv)]. apply Z.eqb_eq in Hpv as Hv.
  assert (forall j, 0 <= j < 32 -> key_ok j) as Hok by (intros j Hj; split; cbn; lia).
  pose proof (specific_roundtrip kint 0 with_values 9000 p 1 70 (proj1 Hw) Ha Hp (Hok 1 ltac:(lia))) as H. assert (is_free with_values 1 = false /\ is_free with_values 2 = false) as [E1 E2] by (split; by vm_compute).
  destruct (proj1 (wp_Ret _ _ _) H) as (e & s' & E & -> & Hget). rewrite E1 in E. exists s'.
  pose proof (Hget 1 (Hok 1 ltac:(lia))) as G1. pose proof (Hget 2 (Hok 2 ltac:(lia))) as G2. rewrite E1 in G1, G2. rewrite E2, Hv in G2. exact (conj E (conj G1 G2)).
Defined.

(** One destructor, which sets its value again: it is called three times. *)
Definition persistent : st := after (run_rops [KeyCreate 7; SetSpecific 0 5]) main.

Lemma persistent_wf : (wf 0 persistent /\ held persistent = false /\ self persistent = Some 9000) /\ is_Some (infos persistent !! 9000).
Proof. unfold persistent. apply main_rops. repeat constructor; cbn; lia. Qed.

Lemma destructors_end_witness : exists s', run_destructors 9000 persistent = Ret (tt, s') /\ called s' = replicate (S DESTRUCTOR_ITERATIONS) (7, 5) /\ PthreadFacts.threads s' = PthreadFacts.threads persistent.
Proof.
  destruct persistent_wf as ((Hw & Hh & Ha) & [q Hq]). pose proof (destructors_end kint routines_ok 0 persistent 9000 q (proj1 Hw) Hh Ha Hq) as Hd.
  assert (match run_destructors 9000 persistent with Ret (_, s') => called s' = replicate (S DESTRUCTOR_ITERATIONS) (7, 5) | _ => False end) as E by by vm_compute.
  destruct (proj1 (wp_Ret _ _ _) Hd) as ([] & s' & Er & _ & Ht). rewrite Er in E. exists s'. split; [exact Er|]. split; [exact E|exact Ht].
Defined.

End PthreadDemo.
