(* ===== verification/Mqueue.v ===== *)
(** * POSIX message queues
    (tools/gcc4libstdxx/ecos/compat/posix: mqueue.cxx)

    The table of named queues, its descriptors, and the calls of POSIX on the message
    queues of the kernel.  Queues and descriptors are blocks of allocated memory, by
    address; a descriptor is the address of its block.  The kernel's queue is a class
    with its documented effect; a call that has to wait ends when the kernel interrupts
    it or its time is over, and the calls of all threads are taken in the order in which
    they end.

    Descriptors are validated with a magic number and notifications are configured. *)

From stdpp Require Import gmap.
From S2P Require Import Prelude.

Definition MQ_VALID_MAGIC : Z := 0x6db256c1.

(** The flags and error codes of the C library, and the sizes of the configuration. *)
Class MqConfig := {
  O_RDONLY : Z; O_WRONLY : Z; O_RDWR : Z; O_CREAT : Z; O_EXCL : Z; O_NONBLOCK : Z;
  EBADF : Z; EINVAL : Z; ENOENT : Z; EEXIST : Z; ENFILE : Z; ENOSPC : Z; EMSGSIZE : Z;
  EINTR : Z; EAGAIN : Z; ETIMEDOUT : Z; EBUSY : Z;
  MQ_OPEN_MAX : Z; MQ_PRIO_MAX : Z; PATH_MAX : nat; CYGNUM_POSIX_MQUEUE_OPEN_MAX : nat;
}.

(** ** The queues of the kernel *)

Definition message : Type := Z * list Z.

(** A message goes behind those of its priority and of higher ones. *)
Fixpoint insert_prio (m : message) (l : list message) : list message :=
  match l with
  | [] => [m]
  | x :: l' => if m.1 <=? x.1 then x :: insert_prio m l' else m :: l
  end.

(** [mq_put] says also whether the kernel calls the notification, if there is one. *)
Class Kernel := {
  Cyg_Mqueue : Type;
  mq_view : Cyg_Mqueue -> list message;
  mq_cap : Cyg_Mqueue -> Z;
  mq_new : Z -> Z -> Cyg_Mqueue;
  mq_put : message -> Cyg_Mqueue -> option (Cyg_Mqueue * bool);
  mq_get : Cyg_Mqueue -> option (message * Cyg_Mqueue);
  mq_count : Cyg_Mqueue -> Z;
  mq_new_spec : forall n size, mq_view (mq_new n size) = [] /\ mq_cap (mq_new n size) = n;
  mq_put_full : forall m q, mq_cap q <= Z.of_nat (length (mq_view q)) -> mq_put m q = None;
  mq_put_spec : forall m q, Z.of_nat (length (mq_view q)) < mq_cap q ->
    exists q' c, mq_put m q = Some (q', c) /\ mq_view q' = insert_prio m (mq_view q) /\ mq_cap q' = mq_cap q;
  mq_get_empty : forall q, mq_view q = [] -> mq_get q = None;
  mq_get_spec : forall q m l, mq_view q = m :: l ->
    exists q', mq_get q = Some (m, q') /\ mq_view q' = l /\ mq_cap q' = mq_cap q;
  mq_count_spec : forall q, mq_count q = Z.of_nat (length (mq_view q));
}.

Inductive qerr := OK | NOMEM | INTR | WOULDBLOCK | TIMEOUT.

(** ** State *)

(** A descriptor. *)
Record mquser := mkUser {
  flags : Z;
  tabent : nat;
  next : Z;
  notifieruser : bool;
  magic : Z
}.

Definition set_flags (v : Z) (u : mquser) : mquser := mkUser v (tabent u) (next u) (notifieruser u) (magic u).
Definition set_next (v : Z) (u : mquser) : mquser := mkUser (flags u) (tabent u) v (notifieruser u) (magic u).
Definition set_notifier (v : bool) (u : mquser) : mquser := mkUser (flags u) (tabent u) (next u) v (magic u).
Definition set_magic (v : Z) (u : mquser) : mquser := mkUser (flags u) (tabent u) (next u) (notifieruser u) v.

(** An entry of the table; [name] is the string in its array. *)
Record mqtabent := mkEnt {
  name : list Z;
  mq : Z;
  maxmsg : Z;
  msgsize : Z;
  unlinkme : bool;
  users : Z;
  sigev : Z
}.

Definition set_name (v : list Z) (e : mqtabent) : mqtabent := mkEnt v (mq e) (maxmsg e) (msgsize e) (unlinkme e) (users e) (sigev e).
Definition set_mq (v : Z) (e : mqtabent) : mqtabent := mkEnt (name e) v (maxmsg e) (msgsize e) (unlinkme e) (users e) (sigev e).
Definition set_unlinkme (v : bool) (e : mqtabent) : mqtabent := mkEnt (name e) (mq e) (maxmsg e) (msgsize e) v (users e) (sigev e).
Definition set_users (v : Z) (e : mqtabent) : mqtabent := mkEnt (name e) (mq e) (maxmsg e) (msgsize e) (unlinkme e) v (sigev e).
Definition set_sigev (v : Z) (e : mqtabent) : mqtabent := mkEnt (name e) (mq e) (maxmsg e) (msgsize e) (unlinkme e) (users e) v.

Record mq_attr := mkAttr { mq_flags : Z; mq_maxmsg : Z; mq_msgsize : Z; mq_curmsgs : Z }.

Section Calls.
Context {cfg : MqConfig} {kern : Kernel}.

(** A queue with the argument of its notification, 0 for none. *)
Record kqueue := mkQ { kq : Cyg_Mqueue; callback : Z }.

Record st := mkSt {
  mqtab : list mqtabent;
  heap : gmap Z mquser;
  queues : gmap Z kqueue;
  errno : Z;
  mqtab_mut : bool;  (* held *)
  mallocs : list (Z * bool);  (* what the coming allocations give; the bit is what the memory holds *)
  kmem : list bool;  (* whether the kernel has memory for the coming queues *)
  waits : nat -> bool;  (* whether the coming waits are interrupted, or timed out *)
  signals : list Z  (* the notifications that were queued *)
}.

Definition set_mqtab (v : list mqtabent) (s : st) : st := mkSt v (heap s) (queues s) (errno s) (mqtab_mut s) (mallocs s) (kmem s) (waits s) (signals s).
Definition set_heap (v : gmap Z mquser) (s : st) : st := mkSt (mqtab s) v (queues s) (errno s) (mqtab_mut s) (mallocs s) (kmem s) (waits s) (signals s).
Definition set_queues (v : gmap Z kqueue) (s : st) : st := mkSt (mqtab s) (heap s) v (errno s) (mqtab_mut s) (mallocs s) (kmem s) (waits s) (signals s).
Definition set_errno (v : Z) (s : st) : st := mkSt (mqtab s) (heap s) (queues s) v (mqtab_mut s) (mallocs s) (kmem s) (waits s) (signals s).
Definition set_mut (v : bool) (s : st) : st := mkSt (mqtab s) (heap s) (queues s) (errno s) v (mallocs s) (kmem s) (waits s) (signals s).
Definition set_mallocs (v : list (Z * bool)) (s : st) : st := mkSt (mqtab s) (heap s) (queues s) (errno s) (mqtab_mut s) v (kmem s) (waits s) (signals s).
Definition set_kmem (v : list bool) (s : st) : st := mkSt (mqtab s) (heap s) (queues s) (errno s) (mqtab_mut s) (mallocs s) v (waits s) (signals s).
Definition set_waits (v : nat -> bool) (s : st) : st := mkSt (mqtab s) (heap s) (queues s) (errno s) (mqtab_mut s) (mallocs s) (kmem s) v (signals s).
Definition set_signals (v : list Z) (s : st) : st := mkSt (mqtab s) (heap s) (queues s) (errno s) (mqtab_mut s) (mallocs s) (kmem s) (waits s) v.

(** ** Memory *)

Definition user_at (p : Z) : M st mquser := fun s =>
  match heap s !! p with Some u => Ret (u, s) | None => UB end.

Definition put_user (p : Z) (u : mquser) : M st unit := modify (fun s => set_heap (<[p := u]> (heap s)) s).

Definition upd_user (p : Z) (f : mquser -> mquser) : M st unit := u ← user_at p; put_user p (f u).

Definition ent_at (i : nat) : M st mqtabent := fun s =>
  match mqtab s !! i with Some e => Ret (e, s) | None => UB end.

Definition upd_ent (i : nat) (f : mqtabent -> mqtabent) : M st unit :=
  e ← ent_at i; modify (fun s => set_mqtab (<[i := f e]> (mqtab s)) s).

Definition queue_at (p : Z) : M st kqueue := fun s =>
  match queues s !! p with Some q => Ret (q, s) | None => UB end.

Definition put_queue (p : Z) (q : kqueue) : M st unit := modify (fun s => set_queues (<[p := q]> (queues s)) s).

(** The null pointer, or a block that is not in use. *)
Definition malloc : M st (Z * bool) := fun s =>
  match mallocs s with
  | [] => Ret ((0, false), s)
  | (a, b) :: l =>
      Ret (if bool_decide (0 < a /\ heap s !! a = None /\ queues s !! a = None) then (a, b) else (0, false), set_mallocs l s)
  end.

Definition free_user (p : Z) : M st unit := user_at p;; modify (fun s => set_heap (delete p (heap s)) s).

(** The destructor of a queue, and its memory. *)
Definition free_queue (p : Z) : M st unit := queue_at p;; modify (fun s => set_queues (delete p (queues s)) s).

Definition fail (e : Z) : M st Z := modify (set_errno e);; mret (-1).

(** ** The kernel's calls *)

(** The constructor, in memory that was allocated. *)
Definition construct (p n size : Z) : M st qerr := fun s =>
  match kmem s with
  | false :: l => Ret (NOMEM, set_kmem l s)
  | l => Ret (OK, set_kmem (tail l) (set_queues (<[p := mkQ (mq_new n size) 0]> (queues s)) s))
  end.

Definition setnotify (p data : Z) : M st unit := q ← queue_at p; put_queue p (mkQ (kq q) data).

(** The callback for queue [q] with the descriptor [data]. *)
Definition notifyme (q data : Z) : M st unit :=
  user ← user_at data;
  e ← ent_at (tabent user);
  if sigev e =? 0 then mret tt
  else
    let ev := sigev e in
    setnotify q 0;;
    upd_ent (tabent user) (set_sigev 0);;
    upd_user data (set_notifier false);;
    modify (fun s => set_signals (signals s ++ [ev]) s).

(** A call that waits. *)
Definition wait (timed : bool) : M st qerr := fun s =>
  Ret (if waits s 0 || negb timed then INTR else TIMEOUT, set_waits (fun n => waits s (S n)) s).

Definition kput (p : Z) (m : message) (block timed : bool) : M st qerr :=
  q ← queue_at p;
  match mq_put m (kq q) with
  | Some (q', c) =>
      put_queue p (mkQ q' (callback q));;
      when (c && negb (callback q =? 0)) (notifyme p (callback q));;
      mret OK
  | None => if block then wait timed else mret WOULDBLOCK
  end.

Definition kget (p : Z) (block timed : bool) : M st (qerr * option message) :=
  q ← queue_at p;
  match mq_get (kq q) with
  | Some (m, q') => put_queue p (mkQ q' (callback q));; mret (OK, Some m)
  | None => if block then e ← wait timed; mret (e, None) else mret (WOULDBLOCK, None)
  end.

(** ** The table *)

Definition has (mask f : Z) : bool := Z.land f mask =? mask.

(** What is compared and stored of a name. *)
Definition key (n : list Z) : list Z := take PATH_MAX n.

(** [strncmp] over the table. *)
Fixpoint find_name (k : list Z) (i : nat) (t : list mqtabent) : option nat :=
  match t with
  | [] => None
  | e :: t => if decide (key (name e) = k) then Some i else find_name k (S i) t
  end.

Fixpoint find_free (i : nat) (t : list mqtabent) : option nat :=
  match t with
  | [] => None
  | e :: t => if mq e =? 0 then Some i else find_free (S i) t
  end.

Definition lock : M st unit := fun s => if mqtab_mut s then NoFuel else Ret (tt, set_mut true s).

Definition unlock : M st unit := modify (set_mut false).

(** The real unlink of a queue. *)
Definition do_mq_unlink (i : nat) : M st unit :=
  upd_ent i (set_name []);;
  e ← ent_at i;
  free_queue (mq e);;
  upd_ent i (set_mq 0).

(** ** Opening *)

Definition default_attr : mq_attr := mkAttr 0 MQ_OPEN_MAX 128 0.

Definition check_attr (attr : option mq_attr) : option mq_attr :=
  match attr with
  | None => Some default_attr
  | Some a => if (mq_maxmsg a <=? 0) || (mq_msgsize a <=? 0) then None else Some a
  end.

(** A new queue in entry [i]. *)
Definition create (i : nat) (nm : list Z) (oflag : Z) (attr : mq_attr) : M st Z :=
  h ← malloc;
  let mqholder := h.1 in
  if mqholder =? 0 then fail ENOSPC
  else
    err ← construct mqholder (mq_maxmsg attr) (mq_msgsize attr);
    upd_ent i (set_mq mqholder);;
    match err with
    | NOMEM => fail ENOSPC
    | _ =>
        u ← malloc;
        upd_ent i (set_users u.1);;
        if u.1 =? 0 then free_queue mqholder;; fail ENOSPC
        else
          upd_ent i (fun e => mkEnt (key nm) (mq e) (mq_maxmsg attr) (mq_msgsize attr) false (users e) 0);;
          put_user u.1 (mkUser (Z.lor oflag (Z.land (mq_flags attr) O_NONBLOCK)) i 0 false MQ_VALID_MAGIC);;
          mret u.1
    end.

(** Another descriptor for entry [i]. *)
Definition join (i : nat) (oflag : Z) : M st Z :=
  e ← ent_at i;
  if unlinkme e then fail EINVAL
  else
    u ← malloc;
    if u.1 =? 0 then fail ENOSPC
    else
      put_user u.1 (mkUser oflag i (users e) u.2 MQ_VALID_MAGIC);;
      upd_ent i (set_users u.1);;
      mret u.1.

Definition mq_open (nm : list Z) (oflag : Z) (attr : option mq_attr) : M st Z :=
  if negb (has O_RDONLY oflag) && negb (has O_WRONLY oflag) && negb (has O_RDWR oflag) then fail EINVAL
  else
    lock;;
    t ← gets mqtab;
    retval ←
      match find_name (key nm) 0 t with
      | Some i => if has O_EXCL oflag then fail EEXIST else join i oflag
      | None =>
          if negb (has O_CREAT oflag) then fail ENOENT
          else
            match find_free 0 t with
            | None => fail ENFILE
            | Some i =>
                match check_attr attr with
                | None => fail EINVAL
                | Some a => create i nm oflag a
                end
            end
      end;
    unlock;;
    mret retval.

(** ** Closing and unlinking *)

(** The descriptor before [user] in the list from [p] on; the list is not longer than
    [fuel]. *)
Fixpoint previous (fuel : nat) (user p : Z) : M st Z :=
  u ← user_at p;
  if next u =? 0 then mret p
  else if next u =? user then mret p
  else match fuel with O => no_fuel | S k => previous k user (next u) end.

(** The descriptor leaves the list of its entry and is freed. *)
Definition remove_user (fuel : nat) (d : Z) (u : mquser) (e : mqtabent) : M st unit :=
  (if users e =? d then upd_ent (tabent u) (set_users (next u))
   else p ← previous fuel d (users e); upd_user p (set_next (next u)));;
  upd_user d (set_magic 0);;
  free_user d.

Definition mq_close (fuel : nat) (user : Z) : M st Z :=
  u ← user_at user;
  if negb (magic u =? MQ_VALID_MAGIC) then fail EBADF
  else
    lock;;
    e ← ent_at (tabent u);
    when (notifieruser u) (setnotify (mq e) 0;; upd_ent (tabent u) (set_sigev 0));;
    remove_user fuel user u e;;
    e ← ent_at (tabent u);
    when (unlinkme e && (users e =? 0)) (do_mq_unlink (tabent u));;
    unlock;;
    mret 0.

Definition mq_unlink (nm : list Z) : M st Z :=
  lock;;
  t ← gets mqtab;
  retval ←
    match find_name (key nm) 0 t with
    | None => fail ENOENT
    | Some i =>
        e ← ent_at i;
        (if negb (users e =? 0) then upd_ent i (set_unlinkme true) else do_mq_unlink i);;
        mret 0
    end;
  unlock;;
  mret retval.

(** ** Messages *)

Definition writable (f : Z) : bool := has O_WRONLY f || has O_RDWR f.
Definition readable (f : Z) : bool := has O_RDONLY f || has O_RDWR f.

(** The checks of a sender; [put] is what follows. *)
Definition checked_send (mqdes : Z) (msg : list Z) (prio : Z) (put : mquser -> mqtabent -> M st Z) : M st Z :=
  user ← user_at mqdes;
  e ← ent_at (tabent user);
  if negb (magic user =? MQ_VALID_MAGIC) then fail EBADF
  else if Z.of_nat (length msg) >? msgsize e then fail EMSGSIZE
  else if prio >? MQ_PRIO_MAX then fail EINVAL
  else if negb (writable (flags user)) then fail EBADF
  else put user e.

Definition mq_send (mqdes : Z) (msg : list Z) (prio : Z) : M st Z :=
  checked_send mqdes msg prio (fun user e =>
    err ← kput (mq e) (prio, msg) (negb (has O_NONBLOCK (flags user))) false;
    match err with
    | INTR => fail EINTR
    | WOULDBLOCK => fail EAGAIN
    | OK => mret 0
    | _ => mret (-1)
    end).

(** [bad]: the nanoseconds of the time are out of range. *)
Definition mq_timedsend (mqdes : Z) (msg : list Z) (prio : Z) (tv_nsec : Z) : M st Z :=
  checked_send mqdes msg prio (fun user e =>
    let nonblocking := has O_NONBLOCK (flags user) in
    let bad := (tv_nsec <? 0) || (tv_nsec >? 999999999) in
    err ← kput (mq e) (prio, msg) false true;
    err ← match err with
          | WOULDBLOCK => if negb nonblocking && negb bad then kput (mq e) (prio, msg) true true else mret err
          | _ => mret err
          end;
    match err with
    | INTR => fail EINTR
    | WOULDBLOCK => if bad then fail EINVAL else fail EAGAIN
    | TIMEOUT => fail ETIMEDOUT
    | OK => mret 0
    | _ => mret (-1)
    end).

(** The checks of a receiver with a buffer of [msg_len]. *)
Definition checked_receive (mqdes msg_len : Z) (get : mquser -> mqtabent -> M st (Z * option message)) : M st (Z * option message) :=
  user ← user_at mqdes;
  e ← ent_at (tabent user);
  if negb (magic user =? MQ_VALID_MAGIC) then r ← fail EBADF; mret (r, None)
  else if negb (readable (flags user)) then r ← fail EBADF; mret (r, None)
  else if msg_len <? msgsize e then r ← fail EMSGSIZE; mret (r, None)
  else get user e.

(** The result of a call, with the message that was stored. *)
Definition received (err : qerr) (m : option message) (timed bad : bool) : M st (Z * option message) :=
  match err with
  | INTR => r ← fail EINTR; mret (r, None)
  | WOULDBLOCK => r ← (if bad then fail EINVAL else fail EAGAIN); mret (r, None)
  | TIMEOUT => if timed then r ← fail ETIMEDOUT; mret (r, None) else mret (-1, None)
  | OK => match m with Some x => mret (Z.of_nat (length x.2), m) | None => mret (-1, None) end
  | _ => mret (-1, None)
  end.

Definition mq_receive (mqdes msg_len : Z) : M st (Z * option message) :=
  checked_receive mqdes msg_len (fun user e =>
    x ← kget (mq e) (negb (has O_NONBLOCK (flags user))) false;
    received x.1 x.2 false false).

Definition mq_timedreceive (mqdes msg_len : Z) (tv_nsec : Z) : M st (Z * option message) :=
  checked_receive mqdes msg_len (fun user e =>
    let nonblocking := has O_NONBLOCK (flags user) in
    let bad := (tv_nsec <? 0) || (tv_nsec >? 999999999) in
    x ← kget (mq e) false true;
    x ← match x.1 with
        | WOULDBLOCK => if negb nonblocking && negb bad then kget (mq e) true true else mret x
        | _ => mret x
        end;
    received x.1 x.2 true bad).

(** ** Notification and attributes *)

(** [notification] is the address of the event, 0 for none. *)
Definition mq_notify (mqdes notification : Z) : M st Z :=
  user ← user_at mqdes;
  e ← ent_at (tabent user);
  if negb (magic user =? MQ_VALID_MAGIC) then fail EBADF
  else if notification =? 0 then
    setnotify (mq e) 0;; upd_ent (tabent user) (set_sigev 0);; mret 0
  else if negb (sigev e =? 0) then fail EBUSY
  else
    upd_ent (tabent user) (set_sigev notification);;
    upd_user mqdes (set_notifier true);;
    setnotify (mq e) mqdes;;
    mret 0.

Definition mq_getattr (mqdes : Z) : M st (Z * option mq_attr) :=
  user ← user_at mqdes;
  e ← ent_at (tabent user);
  if negb (magic user =? MQ_VALID_MAGIC) then r ← fail EBADF; mret (r, None)
  else
    q ← queue_at (mq e);
    mret (0, Some (mkAttr (flags user) (maxmsg e) (msgsize e) (mq_count (kq q)))).

(** [old]: whether the old attributes are asked for. *)
Definition mq_setattr (mqdes : Z) (mqstat : mq_attr) (old : bool) : M st (Z * option mq_attr) :=
  user ← user_at mqdes;
  if negb (magic user =? MQ_VALID_MAGIC) then r ← fail EBADF; mret (r, None)
  else
    o ← (if old then x ← mq_getattr mqdes; mret x.2 else mret None);
    upd_user mqdes (fun u => set_flags (Z.land (flags u) (Z.lnot O_NONBLOCK)) u);;
    when (has O_NONBLOCK (mq_flags mqstat)) (upd_user mqdes (fun u => set_flags (Z.lor (flags u) O_NONBLOCK) u));;
    mret (0, o).

(** The table before the first call. *)
Definition initial_table : list mqtabent := replicate CYGNUM_POSIX_MQUEUE_OPEN_MAX (mkEnt [] 0 0 0 false 0 0).

End Calls.
