(* ===== verification/MqueueFacts.v ===== *)
(** * The table and the descriptors in memory

    The relation between the memory of the code and the abstract queues, and the pieces of
    the code that change it. *)

From stdpp Require Import gmap.
From S2P Require Import Prelude.
From S2P Require Import Mqueue.

(** * What message queues promise

    An abstract machine of named queues and descriptors, the calls as its steps, and
    clients as trees of calls. *)

(** ** States *)

Record aqueue := mkAq {
  a_name : list Z;
  a_max : Z;
  a_size : Z;
  a_msgs : list message;
  a_unlinked : bool
}.

Definition set_msgs (v : list message) (q : aqueue) : aqueue := mkAq (a_name q) (a_max q) (a_size q) v (a_unlinked q).
Definition set_unlinked (q : aqueue) : aqueue := mkAq (a_name q) (a_max q) (a_size q) (a_msgs q) true.

(** The queues by number; the open descriptors, with the number of the queue and the
    flags. *)
Record astate := mkAst { aqs : gmap nat aqueue; ads : gmap Z (nat * Z) }.

Definition set_aqs (v : gmap nat aqueue) (a : astate) : astate := mkAst v (ads a).
Definition set_ads (v : gmap Z (nat * Z)) (a : astate) : astate := mkAst (aqs a) v.

(** ** Calls *)

Inductive call :=
| Open (nm : list Z) (oflag : Z) (attr : option mq_attr)
| Close (d : Z)
| Unlink (nm : list Z)
| Send (d : Z) (msg : list Z) (prio : Z)
| TimedSend (d : Z) (msg : list Z) (prio tv_nsec : Z)
| Receive (d len : Z)
| TimedReceive (d len tv_nsec : Z)
| Notify (d notification : Z)
| GetAttr (d : Z)
| SetAttr (d : Z) (attr : mq_attr) (old : bool).

(** The value of a call, its error, and what it stores for the caller. *)
Record res := mkRes { r_value : Z; r_errno : option Z; r_msg : option message; r_attr : option mq_attr }.

Definition value (v : Z) : res := mkRes v None None None.
Definition error (e : Z) : res := mkRes (-1) (Some e) None None.

(** A client: what it calls next depends on the results. *)
Inductive prog := Done | Call (c : call) (k : res -> prog).

Section Spec.
Context {cfg : MqConfig} {kern : Kernel}.

(** ** The calls of the code *)

(** The error is that of a failed call. *)
Definition result (r : Z) (m : option message) (x : option mq_attr) (s : st) : res :=
  mkRes r (if r =? -1 then Some (errno s) else None) m x.

Definition do_call (c : call) : M st res :=
  match c with
  | Open nm oflag attr => r ← mq_open nm oflag attr; gets (result r None None)
  | Close d => n ← gets (fun s => size (heap s)); r ← mq_close n d; gets (result r None None)
  | Unlink nm => r ← mq_unlink nm; gets (result r None None)
  | Send d msg prio => r ← mq_send d msg prio; gets (result r None None)
  | TimedSend d msg prio ns => r ← mq_timedsend d msg prio ns; gets (result r None None)
  | Receive d len => r ← mq_receive d len; gets (result r.1 r.2 None)
  | TimedReceive d len ns => r ← mq_timedreceive d len ns; gets (result r.1 r.2 None)
  | Notify d n => r ← mq_notify d n; gets (result r None None)
  | GetAttr d => r ← mq_getattr d; gets (result r.1 None r.2)
  | SetAttr d attr old => r ← mq_setattr d attr old; gets (result r.1 None r.2)
  end.

Fixpoint exec (p : prog) : M st (list (call * res)) :=
  match p with
  | Done => mret []
  | Call c k => r ← do_call c; l ← exec (k r); mret ((c, r) :: l)
  end.

(** ** The steps of the machine *)

Definition named (a : astate) (k : list Z) (i : nat) : Prop := exists q, aqs a !! i = Some q /\ a_name q = k.

Definition unnamed (a : astate) (k : list Z) : Prop := forall i q, aqs a !! i = Some q -> a_name q <> k.

Definition mode (oflag : Z) : bool := has O_RDONLY oflag || has O_WRONLY oflag || has O_RDWR oflag.

Definition new_queue (nm : list Z) (x : mq_attr) : aqueue := mkAq (key nm) (mq_maxmsg x) (mq_msgsize x) [] false.

Inductive aopen (a : astate) (nm : list Z) (oflag : Z) (attr : option mq_attr) : res -> astate -> Prop :=
| ao_mode : mode oflag = false -> aopen a nm oflag attr (error EINVAL) a
| ao_exists i : mode oflag = true -> named a (key nm) i -> has O_EXCL oflag = true -> aopen a nm oflag attr (error EEXIST) a
| ao_unlinked i q :
    mode oflag = true -> aqs a !! i = Some q -> a_name q = key nm -> has O_EXCL oflag = false -> a_unlinked q = true ->
    aopen a nm oflag attr (error EINVAL) a
| ao_join i q d :
    mode oflag = true -> aqs a !! i = Some q -> a_name q = key nm -> has O_EXCL oflag = false -> a_unlinked q = false ->
    0 < d -> ads a !! d = None ->
    aopen a nm oflag attr (value d) (set_ads (<[d := (i, oflag)]> (ads a)) a)
| ao_nospace : mode oflag = true -> aopen a nm oflag attr (error ENOSPC) a
| ao_noent : mode oflag = true -> unnamed a (key nm) -> has O_CREAT oflag = false -> aopen a nm oflag attr (error ENOENT) a
| ao_full : mode oflag = true -> unnamed a (key nm) -> has O_CREAT oflag = true -> aopen a nm oflag attr (error ENFILE) a
| ao_attr : mode oflag = true -> unnamed a (key nm) -> has O_CREAT oflag = true -> check_attr attr = None -> aopen a nm oflag attr (error EINVAL) a
| ao_create i d x :
    mode oflag = true -> unnamed a (key nm) -> has O_CREAT oflag = true -> check_attr attr = Some x ->
    aqs a !! i = None -> 0 < d -> ads a !! d = None ->
    aopen a nm oflag attr (value d)
      (mkAst (<[i := new_queue nm x]> (aqs a)) (<[d := (i, Z.lor oflag (Z.land (mq_flags x) O_NONBLOCK))]> (ads a))).

(** No descriptor of queue [i] is open. *)
Definition unused (ds : gmap Z (nat * Z)) (i : nat) : Prop := forall d f, ds !! d <> Some (i, f).

Inductive aclose (a : astate) (d : Z) : res -> astate -> Prop :=
| ac_last i f q :
    ads a !! d = Some (i, f) -> aqs a !! i = Some q -> a_unlinked q = true -> unused (delete d (ads a)) i ->
    aclose a d (value 0) (mkAst (delete i (aqs a)) (delete d (ads a)))
| ac_more i f q :
    ads a !! d = Some (i, f) -> aqs a !! i = Some q -> a_unlinked q = false \/ ~ unused (delete d (ads a)) i ->
    aclose a d (value 0) (set_ads (delete d (ads a)) a).

Inductive aunlink (a : astate) (nm : list Z) : res -> astate -> Prop :=
| au_noent : unnamed a (key nm) -> aunlink a nm (error ENOENT) a
| au_now i : named a (key nm) i -> unused (ads a) i -> aunlink a nm (value 0) (set_aqs (delete i (aqs a)) a)
| au_later i q : aqs a !! i = Some q -> a_name q = key nm -> ~ unused (ads a) i ->
    aunlink a nm (value 0) (set_aqs (<[i := set_unlinked q]> (aqs a)) a).

(** Errors of a call that would wait. *)
Definition wait_errors (timed : bool) (f : Z) (bad : bool) : list Z :=
  if timed && bad then [EINVAL] else if has O_NONBLOCK f then [EAGAIN] else if timed then [EINTR; ETIMEDOUT] else [EINTR].

Definition bad_nsec (ns : Z) : bool := (ns <? 0) || (ns >? 999999999).

Inductive asend (a : astate) (timed bad : bool) (d : Z) (msg : list Z) (prio : Z) : res -> astate -> Prop :=
| as_error i f q e :
    ads a !! d = Some (i, f) -> aqs a !! i = Some q ->
    e = (if Z.of_nat (length msg) >? a_size q then EMSGSIZE else if prio >? MQ_PRIO_MAX then EINVAL else EBADF) ->
    Z.of_nat (length msg) > a_size q \/ prio > MQ_PRIO_MAX \/ writable f = false ->
    asend a timed bad d msg prio (error e) a
| as_sent i f q :
    ads a !! d = Some (i, f) -> aqs a !! i = Some q ->
    Z.of_nat (length msg) <= a_size q -> prio <= MQ_PRIO_MAX -> writable f = true -> Z.of_nat (length (a_msgs q)) < a_max q ->
    asend a timed bad d msg prio (value 0) (set_aqs (<[i := set_msgs (insert_prio (prio, msg) (a_msgs q)) q]> (aqs a)) a)
| as_full i f q e :
    ads a !! d = Some (i, f) -> aqs a !! i = Some q ->
    Z.of_nat (length msg) <= a_size q -> prio <= MQ_PRIO_MAX -> writable f = true -> a_max q <= Z.of_nat (length (a_msgs q)) ->
    e ∈ wait_errors timed f bad -> asend a timed bad d msg prio (error e) a.

Inductive areceive (a : astate) (timed bad : bool) (d len : Z) : res -> astate -> Prop :=
| ar_error i f q e :
    ads a !! d = Some (i, f) -> aqs a !! i = Some q -> e = (if readable f then EMSGSIZE else EBADF) ->
    readable f = false \/ len < a_size q -> areceive a timed bad d len (error e) a
| ar_received i f q m l :
    ads a !! d = Some (i, f) -> aqs a !! i = Some q -> readable f = true -> a_size q <= len -> a_msgs q = m :: l ->
    areceive a timed bad d len (mkRes (Z.of_nat (length m.2)) None (Some m) None) (set_aqs (<[i := set_msgs l q]> (aqs a)) a)
| ar_empty i f q e :
    ads a !! d = Some (i, f) -> aqs a !! i = Some q -> readable f = true -> a_size q <= len -> a_msgs q = [] ->
    e ∈ wait_errors timed f bad -> areceive a timed bad d len (error e) a.

Definition attr_of (f : Z) (q : aqueue) : mq_attr := mkAttr f (a_max q) (a_size q) (Z.of_nat (length (a_msgs q))).

Definition new_flags (f : Z) (x : mq_attr) : Z :=
  let f := Z.land f (Z.lnot O_NONBLOCK) in if has O_NONBLOCK (mq_flags x) then Z.lor f O_NONBLOCK else f.

Inductive astep (a : astate) : call -> res -> astate -> Prop :=
| at_open nm oflag attr r a' : aopen a nm oflag attr r a' -> astep a (Open nm oflag attr) r a'
| at_close d r a' : aclose a d r a' -> astep a (Close d) r a'
| at_unlink nm r a' : aunlink a nm r a' -> astep a (Unlink nm) r a'
| at_send d msg prio r a' : asend a false false d msg prio r a' -> astep a (Send d msg prio) r a'
| at_timedsend d msg prio ns r a' : asend a true (bad_nsec ns) d msg prio r a' -> astep a (TimedSend d msg prio ns) r a'
| at_receive d len r a' : areceive a false false d len r a' -> astep a (Receive d len) r a'
| at_timedreceive d len ns r a' : areceive a true (bad_nsec ns) d len r a' -> astep a (TimedReceive d len ns) r a'
| at_notify d n r : r = value 0 \/ r = error EBUSY /\ n <> 0 -> astep a (Notify d n) r a
| at_getattr d i f q : ads a !! d = Some (i, f) -> aqs a !! i = Some q ->
    astep a (GetAttr d) (mkRes 0 None None (Some (attr_of f q))) a
| at_setattr d x old i f q : ads a !! d = Some (i, f) -> aqs a !! i = Some q ->
    astep a (SetAttr d x old) (mkRes 0 None None (if old : bool then Some (attr_of f q) else None))
      (set_ads (<[d := (i, new_flags f x)]> (ads a)) a).

Inductive asteps : astate -> prog -> list (call * res) -> astate -> Prop :=
| asteps_done a : asteps a Done [] a
| asteps_call a c k r a' l a'' : astep a c r a' -> asteps a' (k r) l a'' -> asteps a (Call c k) ((c, r) :: l) a''.

(** ** What a client must respect: names are not empty, descriptors are open. *)

Definition valid (a : astate) (c : call) : Prop :=
  match c with
  | Open nm _ _ | Unlink nm => key nm <> []
  | Close d | Send d _ _ | TimedSend d _ _ _ | Receive d _ | TimedReceive d _ _ | Notify d _ | GetAttr d | SetAttr d _ _ =>
      is_Some (ads a !! d)
  end.

Fixpoint safe (a : astate) (p : prog) : Prop :=
  match p with
  | Done => True
  | Call c k => valid a c /\ forall r a', astep a c r a' -> safe a' (k r)
  end.

End Spec.

(** * The theorems *)

(** ** The descriptors of a queue *)

Fixpoint chain (h : gmap Z mquser) (p : Z) (us : list Z) : Prop :=
  match us with
  | [] => p = 0
  | u :: us => p = u /\ u <> 0 /\ exists r, h !! u = Some r /\ chain h (next r) us
  end.

Lemma chain_frame h h' p us :
  (forall u, u ∈ us -> next <$> h' !! u = next <$> h !! u) -> chain h p us -> chain h' p us.
Proof.
  induction us as [|u us IH] in p |- *; intros Hf; [done|]. intros (-> & Hu & r & Hr & Hc).
  pose proof (Hf u ltac:(by left)) as E. rewrite Hr in E. destruct (h' !! u) as [r'|] eqn:Er'; [|done]. cbn in E. injection E as E.
  split_and!; [done|done|]. exists r'. split; [done|]. rewrite E. apply IH; [|done]. intros x Hx. apply Hf. by right.
Qed.

Lemma chain_split h p us d :
  chain h p us -> d ∈ us -> p <> d -> exists us1 c us2, us = us1 ++ c :: d :: us2.
Proof.
  induction us as [|u us IH] in p |- *; intros Hc Hd Hp; [by apply not_elem_of_nil in Hd|]. destruct Hc as (-> & Hu & r & Hr & Hc).
  apply elem_of_cons in Hd as [->|Hd]; [done|]. destruct us as [|v us]; [by apply not_elem_of_nil in Hd|].
  destruct (decide (v = d)) as [->|Hne]; [by exists [], u, us|]. pose proof Hc as (Hv & _).
  destruct (IH (next r)) as (us1 & c & us2 & ->); [done|done|congruence|]. by exists (u :: us1), c, us2.
Qed.

Lemma chain_middle h p us1 c us2 :
  chain h p (us1 ++ c :: us2) -> exists r, h !! c = Some r /\ chain h (next r) us2.
Proof. induction us1 as [|u us1 IH] in p |- *; cbn; [|intros (_ & _ & r & _ & H); eauto]. intros (_ & _ & r & H1 & H2). eauto. Qed.

(** The link of [c] is changed. *)
Lemma chain_relink h p us1 c us2 us2' r v :
  chain h p (us1 ++ c :: us2) -> c ∉ us1 -> c ∉ us2' -> h !! c = Some r -> chain (<[c := set_next v r]> h) v us2' ->
  chain (<[c := set_next v r]> h) p (us1 ++ c :: us2').
Proof.
  induction us1 as [|u us1 IH] in p |- *; cbn [app chain].
  - intros (-> & Hc & _) _ _ Hr Hv. split_and!; [done|done|]. exists (set_next v r). by rewrite lookup_insert_eq.
  - intros (-> & Hu & x & Hx & Hc) Hn1 Hn2 Hr Hv. apply not_elem_of_cons in Hn1 as [Hne Hn1].
    split_and!; [done|done|]. exists x. rewrite lookup_insert_ne by done. split; [done|]. by apply IH.
Qed.

Section Facts.
Context {cfg : MqConfig} {kern : Kernel}.

(** ** The relation *)

Definition member (h : gmap Z mquser) (i : nat) (d : Z) : Prop := exists u, h !! d = Some u /\ tabent u = i.

(** Every entry lists its descriptors. *)
Definition chains (t : list mqtabent) (h : gmap Z mquser) : Prop := forall i e, t !! i = Some e ->
  exists us, chain h (users e) us /\ NoDup us /\ forall d, d ∈ us <-> member h i d.

(** A queue in its entry. *)
Record live (s : st) (i : nat) (e : mqtabent) (q : aqueue) : Prop := {
  li_name : name e = a_name q;
  li_key : key (a_name q) = a_name q;
  li_nonempty : a_name q <> [];
  li_max : maxmsg e = a_max q;
  li_size : msgsize e = a_size q;
  li_unlink : unlinkme e = a_unlinked q;
  li_mq : mq e <> 0;
  li_queue : exists k, queues s !! mq e = Some k /\ mq_view (kq k) = a_msgs q /\ mq_cap (kq k) = a_max q /\
    (callback k <> 0 -> exists u, heap s !! callback k = Some u /\ tabent u = i /\ notifieruser u = true);
}.

Record core (s : st) (a : astate) : Prop := {
  co_ads : ads a = (fun u => (tabent u, flags u)) <$> heap s;
  co_user : forall d u, heap s !! d = Some u -> magic u = MQ_VALID_MAGIC /\ 0 < d /\ is_Some (aqs a !! tabent u);
  co_live : forall i q, aqs a !! i = Some q -> exists e, mqtab s !! i = Some e /\ live s i e q;
  co_dead : forall i e, mqtab s !! i = Some e -> aqs a !! i = None -> name e = [];
  co_chain : chains (mqtab s) (heap s);
  co_names : forall i j q q', aqs a !! i = Some q -> aqs a !! j = Some q' -> a_name q = a_name q' -> i = j;
  co_mqs : forall i j e e', mqtab s !! i = Some e -> mqtab s !! j = Some e' -> is_Some (aqs a !! i) -> is_Some (aqs a !! j) -> mq e = mq e' -> i = j;
}.

(** Unlinked queues are those that are still open. *)
Definition pending (a : astate) : Prop := forall i q, aqs a !! i = Some q -> a_unlinked q = true -> ~ unused (ads a) i.

Record R (s : st) (a : astate) : Prop := {
  R_core : core s a;
  R_pending : pending a;
  R_mut : mqtab_mut s = false;
}.

Lemma core_same s s' a : core s a -> mqtab s' = mqtab s -> heap s' = heap s -> queues s' = queues s -> core s' a.
Proof.
  intros [C1 C2 C3 C4 C5 C6 C7] E1 E2 E3. split; rewrite ?E1, ?E2; try done.
  intros i q Hq. destruct (C3 i q Hq) as (e & He & [L1 L2 L3 L4 L5 L6 L7 L8]). exists e. split; [done|]. split; try done. by rewrite E2, E3.
Qed.

(** ** Reading *)

(** The descriptor [d] of queue [i]. *)
Lemma core_desc s a d i f : core s a -> ads a !! d = Some (i, f) ->
  exists u q e, heap s !! d = Some u /\ tabent u = i /\ flags u = f /\ magic u = MQ_VALID_MAGIC /\ 0 < d /\
    aqs a !! i = Some q /\ mqtab s !! i = Some e /\ live s i e q.
Proof.
  intros Hc Hd. rewrite (co_ads _ _ Hc), lookup_fmap in Hd. destruct (heap s !! d) as [u|] eqn:Hu; [|done]. injection Hd as <- <-.
  destruct (co_user _ _ Hc _ _ Hu) as (Hm & Hp & [q Hq]). destruct (co_live _ _ Hc _ _ Hq) as (e & He & Hl). by exists u, q, e.
Qed.

Lemma wp_user_at p u (Q : mquser -> st -> Prop) s : heap s !! p = Some u -> Q u s -> wp (user_at p) Q s.
Proof. intros H HQ. apply (wp_eq _ _ _ u s); [unfold user_at; by rewrite H|done]. Qed.

Lemma wp_ent_at i e (Q : mqtabent -> st -> Prop) s : mqtab s !! i = Some e -> Q e s -> wp (ent_at i) Q s.
Proof. intros H HQ. apply (wp_eq _ _ _ e s); [unfold ent_at; by rewrite H|done]. Qed.

Lemma wp_queue_at p q (Q : kqueue -> st -> Prop) s : queues s !! p = Some q -> Q q s -> wp (queue_at p) Q s.
Proof. intros H HQ. apply (wp_eq _ _ _ q s); [unfold queue_at; by rewrite H|done]. Qed.

Lemma wp_upd_ent i f e (Q : unit -> st -> Prop) s :
  mqtab s !! i = Some e -> Q tt (set_mqtab (<[i := f e]> (mqtab s)) s) -> wp (upd_ent i f) Q s.
Proof. intros H HQ. unfold upd_ent. by apply wp_bind, (wp_ent_at _ e), wp_modify. Qed.

Lemma wp_upd_user p f u (Q : unit -> st -> Prop) s :
  heap s !! p = Some u -> Q tt (set_heap (<[p := f u]> (heap s)) s) -> wp (upd_user p f) Q s.
Proof. intros H HQ. unfold upd_user. by apply wp_bind, (wp_user_at _ u), wp_modify. Qed.

Lemma wp_setnotify p v k (Q : unit -> st -> Prop) s :
  queues s !! p = Some k -> Q tt (set_queues (<[p := mkQ (kq k) v]> (queues s)) s) -> wp (setnotify p v) Q s.
Proof. intros H HQ. unfold setnotify. by apply wp_bind, (wp_queue_at _ k), wp_modify. Qed.

Lemma wp_mq_fail e (Q : Z -> st -> Prop) s : Q (-1) (set_errno e s) -> wp (fail e) Q s.
Proof. intros HQ. unfold fail. by apply wp_bind, wp_modify, wp_ret. Qed.

(** ** Small changes *)

(** The entry [i] keeps all but the event. *)
Lemma core_sigev s a i e v : core s a -> mqtab s !! i = Some e -> core (set_mqtab (<[i := set_sigev v e]> (mqtab s)) s) a.
Proof.
  intros [C1 C2 C3 C4 C5 C6 C7] He. pose proof (lookup_lt_Some _ _ _ He) as Hlt.
  assert (forall j e', <[i := set_sigev v e]> (mqtab s) !! j = Some e' -> exists e0, mqtab s !! j = Some e0 /\
    name e' = name e0 /\ users e' = users e0 /\ mq e' = mq e0) as Hsame.
  { intros j e' Hj. apply list_lookup_insert_Some in Hj as [(<- & <- & _)|[_ Hj]]; [by exists e|by exists e']. }
  split; cbn; try done.
  - intros j q Hq. destruct (C3 j q Hq) as (e' & He' & [L1 L2 L3 L4 L5 L6 L7 L8]). destruct (decide (i = j)) as [<-|Hne].
    + rewrite He in He'. injection He' as <-. exists (set_sigev v e). rewrite list_lookup_insert_eq by done. split; [done|]. by split.
    + exists e'. rewrite list_lookup_insert_ne by done. split; [done|]. by split.
  - intros j e' Hj Hq. destruct (Hsame j e' Hj) as (e0 & H0 & -> & _). by apply (C4 j).
  - intros j e' Hj. destruct (Hsame j e' Hj) as (e0 & H0 & _ & -> & _). by apply (C5 j).
  - intros j1 j2 e1 e2 H1 H2. destruct (Hsame _ _ H1) as (f1 & F1 & _ & _ & ->). destruct (Hsame _ _ H2) as (f2 & F2 & _ & _ & ->). by apply C7.
Qed.

(** A descriptor keeps its place. *)
Lemma core_user_change s a d u u' :
  core s a -> heap s !! d = Some u -> tabent u' = tabent u -> next u' = next u -> magic u' = magic u ->
  (notifieruser u = true -> notifieruser u' = true \/ forall i e k, is_Some (aqs a !! i) -> mqtab s !! i = Some e -> queues s !! mq e = Some k -> callback k <> d) ->
  core (set_heap (<[d := u']> (heap s)) s) (set_ads (<[d := (tabent u, flags u')]> (ads a)) a).
Proof.
  intros [C1 C2 C3 C4 C5 C6 C7] Hu Ht Hn Hm Hnot. split; cbn; try done.
  - by rewrite C1, fmap_insert, Ht.
  - intros d' v Hv. apply lookup_insert_Some in Hv as [[<- <-]|[_ Hv]]; [|by apply C2]. rewrite Hm, Ht. by apply C2.
  - intros i q Hq. destruct (C3 i q Hq) as (e & He & [L1 L2 L3 L4 L5 L6 L7 (k & Hk & K1 & K2 & K3)]). exists e. split; [done|].
    split; try done. exists k. split_and!; try done. intros Hcb. destruct (K3 Hcb) as (v & Hv & Hvt & Hvn). cbn.
    destruct (decide (callback k = d)) as [E|Hne]; [|exists v; by rewrite lookup_insert_ne].
    rewrite E in *. rewrite Hu in Hv. injection Hv as <-. exists u'. rewrite lookup_insert_eq. split_and!; [done|congruence|].
    destruct (Hnot Hvn) as [|Hno]; [done|]. by destruct (Hno i e k).
  - intros i e He. destruct (C5 i e He) as (us & Hc & Hnd & Hm'). exists us. split_and!; [|done|].
    + apply (chain_frame (heap s)); [|done]. intros x _. destruct (decide (x = d)) as [->|Hne].
      * rewrite lookup_insert_eq, Hu. cbn. by rewrite Hn.
      * by rewrite lookup_insert_ne.
    + intros x. rewrite Hm'. unfold member. destruct (decide (x = d)) as [->|Hne].
      * rewrite lookup_insert_eq, Hu. split; intros (v & [= <-] & Hv); eexists; split; try done; congruence.
      * by rewrite lookup_insert_ne.
Qed.

(** The notification of a queue. *)
Lemma core_callback s a i e q k v :
  core s a -> aqs a !! i = Some q -> mqtab s !! i = Some e -> queues s !! mq e = Some k ->
  (v <> 0 -> exists u, heap s !! v = Some u /\ tabent u = i /\ notifieruser u = true) ->
  core (set_queues (<[mq e := mkQ (kq k) v]> (queues s)) s) a.
Proof.
  intros [C1 C2 C3 C4 C5 C6 C7] Hq He Hk Hv. split; cbn; try done.
  intros j q' Hq'. destruct (C3 j q' Hq') as (e' & He' & [L1 L2 L3 L4 L5 L6 L7 (k' & Hk' & K1 & K2 & K3)]). exists e'. split; [done|].
  split; try done. destruct (decide (mq e' = mq e)) as [E|Hne].
  - assert (j = i) as -> by (eapply C7; eauto). rewrite He in He'. injection He' as <-. rewrite Hk in Hk'. injection Hk' as <-.
    exists (mkQ (kq k) v). cbn. by rewrite lookup_insert_eq.
  - exists k'. cbn. by rewrite lookup_insert_ne.
Qed.

(** The messages of a queue. *)
Lemma core_msgs s a i e q k q' l :
  core s a -> aqs a !! i = Some q -> mqtab s !! i = Some e -> queues s !! mq e = Some k ->
  mq_view q' = l -> mq_cap q' = mq_cap (kq k) ->
  core (set_queues (<[mq e := mkQ q' (callback k)]> (queues s)) s) (set_aqs (<[i := set_msgs l q]> (aqs a)) a).
Proof.
  intros [C1 C2 C3 C4 C5 C6 C7] Hq He Hk Hl Hcap.
  assert (forall j, is_Some (<[i := set_msgs l q]> (aqs a) !! j) <-> is_Some (aqs a !! j)) as Hdom.
  { intros j. destruct (decide (j = i)) as [->|]; [rewrite lookup_insert_eq, Hq; by split; eauto|by rewrite lookup_insert_ne]. }
  assert (forall j q0, <[i := set_msgs l q]> (aqs a) !! j = Some q0 -> exists q1, aqs a !! j = Some q1 /\ a_name q0 = a_name q1) as Hnm.
  { intros j q0 Hj. apply lookup_insert_Some in Hj as [[<- <-]|[_ Hj]]; eauto. }
  split; cbn; try done.
  - intros d u Hu. rewrite Hdom. by apply C2.
  - intros j q0 Hj. apply lookup_insert_Some in Hj as [[<- <-]|[Hne Hj]].
    + destruct (C3 i q Hq) as (e' & He' & [L1 L2 L3 L4 L5 L6 L7 (k' & Hk' & K1 & K2 & K3)]). rewrite He in He'. injection He' as <-.
      rewrite Hk in Hk'. injection Hk' as <-. exists e. split; [done|]. split; try done.
      exists (mkQ q' (callback k)). cbn. rewrite lookup_insert_eq. split_and!; [done|done|congruence|done].
    + destruct (C3 j q0 Hj) as (e' & He' & [L1 L2 L3 L4 L5 L6 L7 (k' & Hk' & K1 & K2 & K3)]). exists e'. split; [done|].
      split; try done. exists k'. cbn. rewrite lookup_insert_ne; [done|]. intros E. apply Hne. symmetry. eapply C7; eauto.
  - intros j e' He' Hj. apply (C4 j); [done|]. apply eq_None_not_Some. rewrite <- Hdom, Hj. by apply is_Some_None.
  - intros j1 j2 q1 q2 H1 H2 E. destruct (Hnm _ _ H1) as (p1 & P1 & E1). destruct (Hnm _ _ H2) as (p2 & P2 & E2).
    apply (C6 j1 j2 p1 p2); congruence.
  - intros j1 j2 e1 e2 H1 H2. rewrite !Hdom. by apply C7.
Qed.

Lemma pending_msgs a i q l : pending a -> aqs a !! i = Some q -> pending (set_aqs (<[i := set_msgs l q]> (aqs a)) a).
Proof.
  intros Hp Hq j q' Hj Hu. cbn in *. apply lookup_insert_Some in Hj as [[<- <-]|[_ Hj]]; [by apply (Hp i q)|by apply (Hp j q')].
Qed.

(** ** Entries and their descriptors *)

Lemma chain_nil h us : chain h 0 us -> us = [].
Proof. destruct us as [|u us]; [done|]. by intros (<- & ? & _). Qed.

Lemma member_ads s a i d : core s a -> member (heap s) i d <-> exists f, ads a !! d = Some (i, f).
Proof.
  intros Hc. rewrite (co_ads _ _ Hc), lookup_fmap. split.
  - intros (u & -> & <-). by exists (flags u).
  - intros (f & Hf). destruct (heap s !! d) as [u|] eqn:Hu; [|done]. injection Hf as <- <-. by exists u.
Qed.

(** The list is empty exactly when no descriptor is open. *)
Lemma users_unused s a i e : core s a -> mqtab s !! i = Some e -> users e = 0 <-> unused (ads a) i.
Proof.
  intros Hc He. destruct (co_chain _ _ Hc _ _ He) as (us & Hus & _ & Hm). split.
  - intros E. rewrite E in Hus. apply chain_nil in Hus as ->. intros d f Hd. apply (not_elem_of_nil d), Hm, (member_ads s a i d Hc). eauto.
  - intros Hu. destruct us as [|d us]; [done|]. destruct (proj1 (member_ads s a i d Hc)) as (f & Hf); [apply Hm; by left|]. by apply Hu in Hf.
Qed.

Lemma dead_users s a i e : core s a -> mqtab s !! i = Some e -> aqs a !! i = None -> users e = 0.
Proof.
  intros Hc He Hq. apply (users_unused s a i e Hc He). intros d f Hd. destruct (core_desc s a d i f Hc Hd) as (u & q & e' & _ & _ & _ & _ & _ & Hq' & _).
  congruence.
Qed.

Lemma lookup_entry (t : list mqtabent) i e' j e0 :
  <[i := e']> t !! j = Some e0 -> i = j /\ e0 = e' \/ i <> j /\ t !! j = Some e0.
Proof. intros Hj. apply list_lookup_insert_Some in Hj as [(<- & <- & _)|[? ?]]; auto. Qed.

(** An entry that is not in use. *)
Lemma core_unused_entry s a i e e' :
  core s a -> mqtab s !! i = Some e -> aqs a !! i = None -> name e' = [] -> users e' = 0 ->
  core (set_mqtab (<[i := e']> (mqtab s)) s) a.
Proof.
  intros Hc He Hq Hn Hu. pose proof (dead_users s a i e Hc He Hq) as E0. destruct Hc as [C1 C2 C3 C4 C5 C6 C7].
  split; cbn; try done.
  - intros j q' Hj. destruct (C3 j q' Hj) as (e0 & He0 & [L1 L2 L3 L4 L5 L6 L7 L8]). exists e0.
    rewrite list_lookup_insert_ne by congruence. split; [done|]. by split.
  - intros j e0 Hj Hj'. apply lookup_entry in Hj as [[<- ->]|[_ Hj]]; [done|by apply (C4 j)].
  - intros j e0 Hj. apply lookup_entry in Hj as [[<- ->]|[_ Hj]]; [|by apply C5].
    destruct (C5 i e He) as (us & Hus & ?). exists us. by rewrite Hu, <- E0.
  - intros j1 j2 e1 e2 H1 H2 S1 S2. apply lookup_entry in H1 as [[<- ->]|[_ H1]]; [rewrite Hq in S1; by apply is_Some_None in S1|].
    apply lookup_entry in H2 as [[<- ->]|[_ H2]]; [rewrite Hq in S2; by apply is_Some_None in S2|]. by apply C7.
Qed.

(** *** A new descriptor *)

Lemma chain_fresh h p us d u : h !! d = None -> chain h p us -> (forall x, x ∈ us -> is_Some (h !! x)) -> chain (<[d := u]> h) p us.
Proof.
  intros Hd Hc Hx. apply (chain_frame h); [|done]. intros x Hin. rewrite lookup_insert_ne; [done|]. intros <-.
  destruct (Hx d Hin) as [? ?]. congruence.
Qed.

(** The lists of all entries after a fresh descriptor [d] of entry [i]. *)
Lemma chains_fresh s a i e e' d u :
  core s a -> mqtab s !! i = Some e -> heap s !! d = None -> 0 < d -> tabent u = i -> next u = users e -> users e' = d ->
  chains (<[i := e']> (mqtab s)) (<[d := u]> (heap s)).
Proof.
  intros Hc He Hd Hp Ht Hn Hu j e0 Hj.
  assert (forall j (us : list Z), (forall x, x ∈ us <-> member (heap s) j x) -> forall x, x ∈ us -> is_Some (heap s !! x)) as Hin.
  { intros k us Hm x Hx. apply Hm in Hx as (v & -> & _). eauto. }
  apply lookup_entry in Hj as [[<- ->]|[Hne Hj]].
  - destruct (co_chain _ _ Hc i e He) as (us & Hus & Hnd & Hm). exists (d :: us). split_and!.
    + cbn. split_and!; [done|lia|]. exists u. rewrite lookup_insert_eq, Hn. split; [done|]. apply chain_fresh; eauto.
    + apply list.NoDup_cons. split; [|done]. intros Hx. destruct (Hin i us Hm d Hx) as [? ?]. congruence.
    + intros x. rewrite elem_of_cons, Hm. unfold member. destruct (decide (x = d)) as [->|Hne].
      * rewrite lookup_insert_eq. split; [by eauto|by left].
      * rewrite lookup_insert_ne by done. split; [by intros [|]|by right].
  - destruct (co_chain _ _ Hc j e0 Hj) as (us & Hus & Hnd & Hm). exists us. split_and!; [apply chain_fresh; eauto|done|].
    intros x. rewrite Hm. unfold member. destruct (decide (x = d)) as [->|Hx]; [|by rewrite lookup_insert_ne].
    rewrite lookup_insert_eq, Hd. split; intros (v & [= <-] & Hv). congruence.
Qed.

Lemma ads_insert s a d u : core s a -> <[d := (tabent u, flags u)]> (ads a) = (fun v => (tabent v, flags v)) <$> <[d := u]> (heap s).
Proof. intros Hc. by rewrite (co_ads _ _ Hc), fmap_insert. Qed.

(** A descriptor more for a queue that is there. *)
Lemma core_join s a i e q d u :
  core s a -> aqs a !! i = Some q -> mqtab s !! i = Some e -> heap s !! d = None -> 0 < d ->
  tabent u = i -> next u = users e -> magic u = MQ_VALID_MAGIC ->
  core (set_mqtab (<[i := set_users d e]> (mqtab s)) (set_heap (<[d := u]> (heap s)) s)) (set_ads (<[d := (i, flags u)]> (ads a)) a).
Proof.
  intros Hc Hq He Hd Hp Ht Hn Hm. pose proof (lookup_lt_Some _ _ _ He) as Hlt. split; cbn.
  - rewrite <- Ht. by apply ads_insert.
  - intros x v Hv. apply lookup_insert_Some in Hv as [[<- <-]|[_ Hv]]; [rewrite Ht; eauto|by apply (co_user _ _ Hc)].
  - intros j q0 Hj. destruct (co_live _ _ Hc j q0 Hj) as (e0 & He0 & [L1 L2 L3 L4 L5 L6 L7 (k & Hk & K1 & K2 & K3)]).
    assert (exists e1, <[i := set_users d e]> (mqtab s) !! j = Some e1 /\ (e1 = e0 \/ e1 = set_users d e0)) as (e1 & -> & He1).
    { destruct (decide (i = j)) as [<-|Hne].
      - rewrite He in He0. injection He0 as <-. rewrite list_lookup_insert_eq by done. eauto.
      - rewrite list_lookup_insert_ne by done. eauto. }
    exists e1. split; [done|].
    assert (exists k', queues s !! mq e0 = Some k' /\ mq_view (kq k') = a_msgs q0 /\ mq_cap (kq k') = a_max q0 /\
      (callback k' <> 0 -> exists v, <[d := u]> (heap s) !! callback k' = Some v /\ tabent v = j /\ notifieruser v = true)).
    { exists k. split_and!; try done. intros Hcb. destruct (K3 Hcb) as (v & Hv & ?). exists v. by rewrite lookup_insert_ne by congruence. }
    by destruct He1 as [-> | ->].
  - intros j e0 Hj Hj0. apply lookup_entry in Hj as [[<- ->]|[_ Hj]]; [congruence|by apply (co_dead _ _ Hc j)].
  - by apply (chains_fresh s a i e).
  - apply (co_names _ _ Hc).
  - intros j1 j2 e1 e2 H1 H2.
    apply lookup_entry in H1 as [[<- ->]|[N1 H1]]; apply lookup_entry in H2 as [[<- ->]|[N2 H2]]; cbn; try done; by apply (co_mqs _ _ Hc).
Qed.

(** A queue with its first descriptor. *)
Lemma core_create s a i e q d u h x s' :
  core s a -> mqtab s !! i = Some e -> aqs a !! i = None -> queues s !! h = None -> h <> 0 -> heap s !! d = None -> 0 < d ->
  a_name q <> [] -> key (a_name q) = a_name q -> unnamed a (a_name q) -> a_unlinked q = false ->
  mq_view x = a_msgs q -> mq_cap x = a_max q ->
  tabent u = i -> next u = 0 -> magic u = MQ_VALID_MAGIC ->
  mqtab s' = <[i := mkEnt (a_name q) h (a_max q) (a_size q) false d 0]> (mqtab s) ->
  heap s' = <[d := u]> (heap s) -> queues s' = <[h := mkQ x 0]> (queues s) ->
  core s' (mkAst (<[i := q]> (aqs a)) (<[d := (i, flags u)]> (ads a))).
Proof.
  intros Hc He Hq Hh Hh0 Hd Hp Hnm Hk Hun Hul Hv Hcap Ht Hn Hm E1 E2 E3. pose proof (lookup_lt_Some _ _ _ He) as Hlt.
  pose proof (dead_users s a i e Hc He Hq) as Hu0.
  assert (forall j q0 e0, aqs a !! j = Some q0 -> mqtab s !! j = Some e0 -> mq e0 <> h) as Hfresh.
  { intros j q0 e0 Hj He0 E. destruct (co_live _ _ Hc j q0 Hj) as (e1 & He1 & [_ _ _ _ _ _ _ (k & Hk' & _)]). congruence. }
  split; cbn.
  - rewrite E2, <- Ht. by apply ads_insert.
  - rewrite E2. intros y v Hy. apply lookup_insert_Some in Hy as [[<- <-]|[_ Hy]].
    + rewrite Ht, lookup_insert_eq. eauto.
    + destruct (co_user _ _ Hc y v Hy) as (M1 & M2 & M3). split_and!; [done|done|]. rewrite lookup_insert_ne; [done|]. intros E. rewrite <- E, Hq in M3. by apply is_Some_None in M3.
  - rewrite E1. intros j q0 Hj. apply lookup_insert_Some in Hj as [[<- <-]|[Hne Hj]].
    + eexists. rewrite list_lookup_insert_eq by done. split; [done|]. split; cbn; try done. exists (mkQ x 0). rewrite E3, lookup_insert_eq. by split_and!.
    + destruct (co_live _ _ Hc j q0 Hj) as (e0 & He0 & [L1 L2 L3 L4 L5 L6 L7 (k & Hk' & K1 & K2 & K3)]). exists e0.
      rewrite list_lookup_insert_ne by done. split; [done|]. split; try done. exists k. rewrite E3, lookup_insert_ne by (intros E; by apply (Hfresh j q0 e0)).
      split_and!; try done. intros Hcb. destruct (K3 Hcb) as (v & Hv' & ?). exists v. by rewrite E2, lookup_insert_ne by congruence.
  - rewrite E1. intros j e0 Hj Hj0. apply lookup_insert_None in Hj0 as [Hj0 Hne]. apply lookup_entry in Hj as [[<- ->]|[_ Hj]]; [done|by apply (co_dead _ _ Hc j)].
  - rewrite E1, E2. apply (chains_fresh s a i e); try done. congruence.
  - intros j1 j2 q1 q2 H1 H2 E. apply lookup_insert_Some in H1 as [[<- <-]|[_ H1]]; apply lookup_insert_Some in H2 as [[<- <-]|[_ H2]]; try done.
    + by destruct (Hun j2 q2 H2).
    + by destruct (Hun j1 q1 H1).
    + by apply (co_names _ _ Hc j1 j2 q1 q2).
  - rewrite E1. intros j1 j2 e1 e2 H1 H2 S1 S2 E.
    apply lookup_entry in H1 as [[<- ->]|[N1 H1]]; apply lookup_entry in H2 as [[<- ->]|[N2 H2]]; cbn in E; try done.
    + rewrite lookup_insert_ne in S2 by done. destruct S2 as [q2 S2]. by destruct (Hfresh j2 q2 e2 S2 H2).
    + rewrite lookup_insert_ne in S1 by done. destruct S1 as [q1 S1]. by destruct (Hfresh j1 q1 e1 S1 H1).
    + rewrite lookup_insert_ne in S1, S2 by done. by apply (co_mqs _ _ Hc j1 j2 e1 e2).
Qed.

(** *** Removing *)

(** A descriptor that no notification names, after its list is relinked. *)
Lemma core_remove s a i e q d u v us s' :
  core s a -> aqs a !! i = Some q -> mqtab s !! i = Some e -> heap s !! d = Some u -> tabent u = i ->
  (forall k, queues s !! mq e = Some k -> callback k <> d) ->
  (forall x, x <> d -> set_next 0 <$> heap s' !! x = set_next 0 <$> heap s !! x) -> heap s' !! d = None ->
  (forall x w, heap s !! x = Some w -> tabent w <> i -> heap s' !! x = Some w) ->
  mqtab s' = <[i := set_users v e]> (mqtab s) -> queues s' = queues s ->
  chain (heap s') v us -> NoDup us -> (forall x, x ∈ us <-> x <> d /\ member (heap s) i x) ->
  core s' (set_ads (delete d (ads a)) a).
Proof.
  intros Hc Hq He Hd Ht Hcb Hs Hsd Hoth E1 E3 Hus Hnd Hm. pose proof (lookup_lt_Some _ _ _ He) as Hlt.
  assert (forall x w, heap s' !! x = Some w -> x <> d /\ exists w0, heap s !! x = Some w0 /\
    flags w = flags w0 /\ tabent w = tabent w0 /\ notifieruser w = notifieruser w0 /\ magic w = magic w0) as Hback.
  { intros x w Hw. assert (x <> d) as Hx by congruence. split; [done|]. specialize (Hs x Hx). rewrite Hw in Hs.
    destruct (heap s !! x) as [w0|]; [|done]. injection Hs as H1 H2 H3 H4. eauto 6. }
  assert (forall x w0, heap s !! x = Some w0 -> x <> d -> exists w, heap s' !! x = Some w /\
    flags w = flags w0 /\ tabent w = tabent w0 /\ notifieruser w = notifieruser w0) as Hforth.
  { intros x w0 Hw Hx. specialize (Hs x Hx). rewrite Hw in Hs.
    destruct (heap s' !! x) as [w|]; [|done]. injection Hs as H1 H2 H3 H4. eauto 6. }
  split; cbn.
  - apply map_eq. intros x. rewrite (co_ads _ _ Hc), lookup_fmap. destruct (decide (x = d)) as [->|Hx]; [by rewrite lookup_delete_eq, Hsd|].
    rewrite lookup_delete_ne, lookup_fmap by done. destruct (heap s !! x) as [w0|] eqn:Hw.
    + destruct (Hforth x w0 Hw Hx) as (w & -> & F1 & F2 & _). cbn. by rewrite F1, F2.
    + specialize (Hs x Hx). rewrite Hw in Hs. by destruct (heap s' !! x).
  - intros x w Hw. destruct (Hback x w Hw) as (_ & w0 & Hw0 & _ & -> & _ & ->). by apply (co_user _ _ Hc).
  - rewrite E1. intros j q0 Hj. destruct (co_live _ _ Hc j q0 Hj) as (e0 & He0 & [L1 L2 L3 L4 L5 L6 L7 (k & Hk & K1 & K2 & K3)]).
    assert (exists k', queues s' !! mq e0 = Some k' /\ mq_view (kq k') = a_msgs q0 /\ mq_cap (kq k') = a_max q0 /\
      (callback k' <> 0 -> exists w, heap s' !! callback k' = Some w /\ tabent w = j /\ notifieruser w = true)) as Hk'.
    { exists k. rewrite E3. split_and!; try done. intros H0. destruct (K3 H0) as (w & Hw & Hwt & Hwn).
      assert (callback k <> d) as Hne.
      { intros E. apply (Hcb k); [|done]. rewrite E, Hd in Hw. injection Hw as <-. assert (i = j) as <- by congruence.
        rewrite He in He0. by injection He0 as <-. }
      destruct (Hforth _ _ Hw Hne) as (w' & Hw' & _ & F2 & F3). exists w'. by rewrite Hw', F2, F3. }
    destruct (decide (i = j)) as [<-|Hne].
    + rewrite He in He0. injection He0 as <-. exists (set_users v e). rewrite list_lookup_insert_eq by done. split; [done|]. by split.
    + exists e0. rewrite list_lookup_insert_ne by done. split; [done|]. by split.
  - rewrite E1. intros j e0 Hj Hj0. apply lookup_entry in Hj as [[<- ->]|[_ Hj]]; [congruence|by apply (co_dead _ _ Hc j)].
  - rewrite E1. intros j e0 Hj. apply lookup_entry in Hj as [[<- ->]|[Hne Hj]].
    + exists us. split_and!; [done|done|]. intros x. rewrite Hm. split.
      * intros (Hx & w0 & Hw & Hwt). destruct (Hforth x w0 Hw Hx) as (w & Hw' & _ & H2 & _). exists w. by rewrite H2.
      * intros (w & Hw & Hwt). destruct (Hback x w Hw) as (Hx & w0 & Hw0 & _ & H2 & _). split; [done|]. exists w0. by rewrite <- H2.
    + destruct (co_chain _ _ Hc j e0 Hj) as (vs & Hvs & Hnd' & Hm'). exists vs.
      assert (forall x w, heap s !! x = Some w -> tabent w = j -> heap s' !! x = Some w) as Hkeep by (intros x w Hw Hwt; apply Hoth; congruence).
      split_and!; [|done|].
      * apply (chain_frame (heap s)); [|done]. intros x Hx. apply Hm' in Hx as (w & Hw & Hwt). by rewrite Hw, (Hkeep x w).
      * intros x. rewrite Hm'. split; intros (w & Hw & Hwt); [by exists w; rewrite (Hkeep x w)|].
        destruct (Hback x w Hw) as (Hx & w0 & Hw0 & _ & H2 & _). exists w0. by rewrite <- H2.
  - apply (co_names _ _ Hc).
  - rewrite E1. intros j1 j2 e1 e2 H1 H2.
    apply lookup_entry in H1 as [[<- ->]|[N1 H1]]; apply lookup_entry in H2 as [[<- ->]|[N2 H2]]; cbn; try done; by apply (co_mqs _ _ Hc).
Qed.

(** A queue without descriptors. *)
Lemma core_delete s a i e q v :
  core s a -> aqs a !! i = Some q -> mqtab s !! i = Some e -> unused (ads a) i -> name v = [] -> users v = users e ->
  core (set_mqtab (<[i := v]> (mqtab s)) (set_queues (delete (mq e) (queues s)) s)) (set_aqs (delete i (aqs a)) a).
Proof.
  intros Hc Hq He Hun Hn Hu. pose proof (lookup_lt_Some _ _ _ He) as Hlt. split; cbn.
  - apply (co_ads _ _ Hc).
  - intros x u Hx. destruct (co_user _ _ Hc x u Hx) as (M1 & M2 & M3). split_and!; [done|done|]. rewrite lookup_delete_ne; [done|].
    intros E. apply (Hun x (flags u)). rewrite (co_ads _ _ Hc), lookup_fmap, Hx, E. done.
  - intros j q0 Hj. apply lookup_delete_Some in Hj as [Hne Hj]. destruct (co_live _ _ Hc j q0 Hj) as (e0 & He0 & [L1 L2 L3 L4 L5 L6 L7 (k & Hk & ?)]).
    exists e0. rewrite list_lookup_insert_ne by done. split; [done|]. split; try done. exists k. cbn. rewrite lookup_delete_ne; [done|].
    intros E. apply Hne. eapply (co_mqs _ _ Hc); eauto.
  - intros j e0 Hj Hj0. apply lookup_entry in Hj as [[<- ->]|[Hne Hj]]; [done|]. apply (co_dead _ _ Hc j); [done|]. by rewrite lookup_delete_ne in Hj0.
  - intros j e0 Hj. apply lookup_entry in Hj as [[<- ->]|[_ Hj]]; [|by apply (co_chain _ _ Hc)]. rewrite Hu. by apply (co_chain _ _ Hc).
  - intros j1 j2 q1 q2 H1 H2. apply lookup_delete_Some in H1 as [_ H1]. apply lookup_delete_Some in H2 as [_ H2]. by apply (co_names _ _ Hc j1 j2 q1 q2).
  - intros j1 j2 e1 e2 H1 H2 [q1 S1] [q2 S2]. apply lookup_delete_Some in S1 as [N1 S1]. apply lookup_delete_Some in S2 as [N2 S2].
    apply lookup_entry in H1 as [[<- ->]|[_ H1]]; [done|]. apply lookup_entry in H2 as [[<- ->]|[_ H2]]; [done|]. eapply (co_mqs _ _ Hc); eauto.
Qed.

(** A queue that is still in use is unlinked. *)
Lemma core_unlink s a i e q :
  core s a -> aqs a !! i = Some q -> mqtab s !! i = Some e ->
  core (set_mqtab (<[i := set_unlinkme true e]> (mqtab s)) s) (set_aqs (<[i := set_unlinked q]> (aqs a)) a).
Proof.
  intros Hc Hq He. pose proof (lookup_lt_Some _ _ _ He) as Hlt.
  assert (forall j, is_Some (<[i := set_unlinked q]> (aqs a) !! j) <-> is_Some (aqs a !! j)) as Hdom.
  { intros j. destruct (decide (j = i)) as [->|]; [rewrite lookup_insert_eq, Hq; by split; eauto|by rewrite lookup_insert_ne]. }
  split; cbn.
  - apply (co_ads _ _ Hc).
  - intros d u Hu. rewrite Hdom. by apply (co_user _ _ Hc).
  - intros j q0 Hj. apply lookup_insert_Some in Hj as [[<- <-]|[Hne Hj]].
    + destruct (co_live _ _ Hc i q Hq) as (e0 & He0 & [L1 L2 L3 L4 L5 L6 L7 L8]). rewrite He in He0. injection He0 as <-.
      exists (set_unlinkme true e). rewrite list_lookup_insert_eq by done. split; [done|]. by split.
    + destruct (co_live _ _ Hc j q0 Hj) as (e0 & He0 & [L1 L2 L3 L4 L5 L6 L7 L8]).
      exists e0. rewrite list_lookup_insert_ne by done. split; [done|]. by split.
  - intros j e0 Hj Hj0. apply lookup_insert_None in Hj0 as [Hj0 Hne]. apply lookup_entry in Hj as [[<- ->]|[_ Hj]]; [done|by apply (co_dead _ _ Hc j)].
  - intros j e0 Hj. apply lookup_entry in Hj as [[<- ->]|[_ Hj]]; [by apply (co_chain _ _ Hc i e)|by apply (co_chain _ _ Hc)].
  - assert (forall j q0, <[i := set_unlinked q]> (aqs a) !! j = Some q0 -> exists q1, aqs a !! j = Some q1 /\ a_name q0 = a_name q1) as Hnm.
    { intros j q0 Hj. apply lookup_insert_Some in Hj as [[<- <-]|[_ Hj]]; eauto. }
    intros j1 j2 q1 q2 H1 H2 E. destruct (Hnm _ _ H1) as (p1 & P1 & E1). destruct (Hnm _ _ H2) as (p2 & P2 & E2).
    apply (co_names _ _ Hc j1 j2 p1 p2); congruence.
  - intros j1 j2 e1 e2 H1 H2. rewrite !Hdom.
    apply lookup_entry in H1 as [[<- ->]|[N1 H1]]; apply lookup_entry in H2 as [[<- ->]|[N2 H2]]; cbn; try done; by apply (co_mqs _ _ Hc).
Qed.

End Facts.
