(* ===== verification/MqueueProps.v ===== *)
(** * What is proved of the message queues

    The calls refine the abstract machine, the queues stay well formed, and the cases in
    which the code leaves its contract. *)

From stdpp Require Import gmap.
From Stdlib Require Import Sorted.
From S2P Require Import Prelude.
From S2P Require Import Mqueue.
From S2P Require Import MqueueFacts.

(** * The calls of message queues implement the abstract machine

    Each call, from a memory that represents an abstract state, ends in one that represents
    the state after a step of the machine with the same result. *)

Section Calls.
Context {cfg : MqConfig} {kern : Kernel}.

(** ** Ends of calls *)

(** A call of the table, and one that holds its lock. *)
Definition ends (P : res -> astate -> Prop) : Z -> st -> Prop :=
  fun r s' => exists a', P (result r None None s') a' /\ R s' a'.

Definition ends_locked (P : res -> astate -> Prop) : Z -> st -> Prop :=
  fun r s' => exists a', P (result r None None s') a' /\ core s' a' /\ pending a'.

Lemma result_value v s : v <> -1 -> result v None None s = value v.
Proof. intros H. unfold result. by destruct (Z.eqb_spec v (-1)). Qed.

Lemma R_same s s' a : R s a -> mqtab s' = mqtab s -> heap s' = heap s -> queues s' = queues s -> mqtab_mut s' = mqtab_mut s -> R s' a.
Proof. intros [Hc Hp Hm] E1 E2 E3 E4. split; [by apply (core_same s)|done|by rewrite E4]. Qed.

Lemma ends_fail (P : res -> astate -> Prop) e s a : P (error e) a -> R s a -> wp (fail e) (ends P) s.
Proof. intros HP HR. apply wp_mq_fail. exists a. split; [done|]. by apply (R_same s). Qed.

Lemma ends_locked_fail (P : res -> astate -> Prop) e s a : P (error e) a -> core s a -> pending a -> wp (fail e) (ends_locked P) s.
Proof. intros HP Hc Hp. apply wp_mq_fail. exists a. split_and!; [done| |done]. by apply (core_same s). Qed.

Lemma wp_lock (Q : unit -> st -> Prop) s : mqtab_mut s = false -> Q tt (set_mut true s) -> wp lock Q s.
Proof. intros H HQ. apply (wp_eq _ _ _ tt (set_mut true s)); [unfold lock; by rewrite H|done]. Qed.

Lemma wp_unlock P r s : ends_locked P r s -> wp (unlock;; mret r) (ends P) s.
Proof.
  intros (a' & HP & Hc & Hp). unfold unlock. apply wp_bind, wp_modify, wp_ret. exists a'. split; [done|].
  split; [by apply (core_same s)|done|done].
Qed.

Lemma wp_malloc (Q : Z * bool -> st -> Prop) s :
  (forall l b, Q (0, b) (set_mallocs l s)) ->
  (forall l p b, 0 < p -> heap s !! p = None -> queues s !! p = None -> Q (p, b) (set_mallocs l s)) -> wp malloc Q s.
Proof.
  intros H0 H1. apply wp_Ret. unfold malloc. destruct (mallocs s) as [|[p b] l] eqn:E.
  - eexists _, _. split; [done|]. specialize (H0 [] false). by destruct s; cbn in *; subst.
  - eexists _, _. split; [done|]. case_bool_decide as Hp; [|by apply H0]. destruct Hp as (? & ? & ?). by apply H1.
Qed.

Lemma wp_mq_construct p n size (Q : qerr -> st -> Prop) s :
  (forall l, Q NOMEM (set_kmem l s)) ->
  (forall l, Q OK (set_kmem l (set_queues (<[p := mkQ (mq_new n size) 0]> (queues s)) s))) -> wp (construct p n size) Q s.
Proof.
  intros H0 H1. apply wp_Ret. unfold construct. destruct (kmem s) as [|[] l]; eexists _, _; (split; [done|]); auto.
Qed.

(** ** Searching the table *)

Lemma key_key nm : key (key nm) = key nm.
Proof. unfold key. by rewrite take_take, Nat.min_id. Qed.

Lemma find_name_Some k i0 t i : find_name k i0 t = Some i -> (i0 <= i)%nat /\ exists e, t !! (i - i0)%nat = Some e /\ key (name e) = k.
Proof.
  induction t as [|e t IH] in i0 |- *; cbn; [done|]. destruct (decide (key (name e) = k)) as [E|_].
  - intros [= <-]. split; [lia|]. exists e. by rewrite Nat.sub_diag.
  - intros H. destruct (IH _ H) as (Hle & e' & He & E). split; [lia|]. exists e'. by replace (i - i0)%nat with (S (i - S i0)) by lia.
Qed.

Lemma find_name_None k i0 t : find_name k i0 t = None -> forall i e, t !! i = Some e -> key (name e) <> k.
Proof.
  induction t as [|x t IH] in i0 |- *; cbn; [done|]. destruct (decide (key (name x) = k)) as [E|Hne]; [done|].
  intros H [|i] e; cbn; [by intros [= <-]|by apply (IH _ H)].
Qed.

Lemma find_free_Some i0 t i : find_free i0 t = Some i -> (i0 <= i)%nat /\ exists e, t !! (i - i0)%nat = Some e /\ mq e = 0.
Proof.
  induction t as [|e t IH] in i0 |- *; cbn; [done|]. destruct (Z.eqb_spec (mq e) 0) as [E|_].
  - intros [= <-]. split; [lia|]. exists e. by rewrite Nat.sub_diag.
  - intros H. destruct (IH _ H) as (Hle & e' & He & E). split; [lia|]. exists e'. by replace (i - i0)%nat with (S (i - S i0)) by lia.
Qed.

(** An entry of that name is a queue, when the name is not that of an unused entry. *)
Lemma find_name_queue s a k i :
  core s a -> k <> [] -> find_name k 0 (mqtab s) = Some i ->
  exists q e, aqs a !! i = Some q /\ a_name q = k /\ mqtab s !! i = Some e /\ live s i e q.
Proof.
  intros Hc Hk Hf. apply find_name_Some in Hf as (_ & e & He & E). rewrite Nat.sub_0_r in He.
  destruct (aqs a !! i) as [q|] eqn:Hq.
  - destruct (co_live _ _ Hc i q Hq) as (e' & He' & Hl). assert (e' = e) as -> by congruence. exists q, e. split_and!; try done.
    by rewrite <- (li_key _ _ _ _ Hl), <- (li_name _ _ _ _ Hl).
  - rewrite (co_dead _ _ Hc i e He Hq) in E. unfold key in E. rewrite take_nil in E. congruence.
Qed.

Lemma find_name_unnamed s a k : core s a -> find_name k 0 (mqtab s) = None -> unnamed a k.
Proof.
  intros Hc Hf i q Hq E. destruct (co_live _ _ Hc i q Hq) as (e & He & Hl). apply (find_name_None _ _ _ Hf i e He).
  by rewrite (li_name _ _ _ _ Hl), (li_key _ _ _ _ Hl).
Qed.

Lemma find_free_entry s a i : core s a -> find_free 0 (mqtab s) = Some i -> exists e, mqtab s !! i = Some e /\ aqs a !! i = None.
Proof.
  intros Hc Hf. apply find_free_Some in Hf as (_ & e & He & E). rewrite Nat.sub_0_r in He. exists e. split; [done|].
  destruct (aqs a !! i) as [q|] eqn:Hq; [|done]. destruct (co_live _ _ Hc i q Hq) as (e' & He' & Hl).
  assert (e' = e) as -> by congruence. by destruct (li_mq _ _ _ _ Hl).
Qed.

(** ** Opening *)

Lemma fresh_desc s a d : core s a -> heap s !! d = None -> ads a !! d = None.
Proof. intros Hc Hd. by rewrite (co_ads _ _ Hc), lookup_fmap, Hd. Qed.

Lemma unused_insert (ds : gmap Z (nat * Z)) d x i : ds !! d = None -> unused (<[d := x]> ds) i -> unused ds i.
Proof. intros Hd Hu y f Hy. apply (Hu y f). by rewrite lookup_insert_ne by congruence. Qed.

Lemma wp_join s a i e q oflag nm attr :
  core s a -> pending a -> mode oflag = true -> has O_EXCL oflag = false ->
  aqs a !! i = Some q -> a_name q = key nm -> mqtab s !! i = Some e -> live s i e q ->
  wp (join i oflag) (ends_locked (aopen a nm oflag attr)) s.
Proof.
  intros Hc Hp Hmode Hex Hq Hnm He Hl. unfold join. apply wp_bind, (wp_ent_at _ e); [done|]. rewrite (li_unlink _ _ _ _ Hl).
  destruct (a_unlinked q) eqn:Hu; [by apply (ends_locked_fail _ _ _ a); [eapply ao_unlinked|..]|].
  apply wp_bind, wp_malloc.
  - intros l b. cbn. apply (ends_locked_fail _ _ _ a); [by apply ao_nospace|by apply (core_same s)|done].
  - intros l d b Hd0 Hd Hdq. cbn [fst snd]. destruct (Z.eqb_spec d 0); [lia|]. unfold put_user.
    apply wp_bind, wp_modify, wp_bind, (wp_upd_ent _ _ e), wp_ret; [done|]. eexists. rewrite result_value by lia.
    pose proof (fresh_desc s a d Hc Hd) as Hda. split_and!; [by eapply ao_join| |].
    + eapply core_same; [by apply (core_join s a i e q d (mkUser oflag i (users e) b MQ_VALID_MAGIC))|done..].
    + intros j q' Hj Hj' Hun. cbn in Hj, Hun. apply (Hp j q' Hj Hj'). by eapply unused_insert.
Qed.

Lemma wp_create s a i e oflag nm attr x :
  core s a -> pending a -> mode oflag = true -> unnamed a (key nm) -> has O_CREAT oflag = true -> check_attr attr = Some x ->
  key nm <> [] -> mqtab s !! i = Some e -> aqs a !! i = None ->
  wp (create i nm oflag x) (ends_locked (aopen a nm oflag attr)) s.
Proof.
  intros Hc Hp Hmode Hun Hcr Hx Hk He Hq. pose proof (lookup_lt_Some _ _ _ He) as Hlt.
  pose proof (co_dead _ _ Hc i e He Hq) as Hn0. pose proof (dead_users s a i e Hc He Hq) as Hu0.
  assert (forall s1 e', mqtab s1 = <[i := e']> (mqtab s) -> heap s1 = heap s -> queues s1 = queues s -> name e' = [] -> users e' = 0 ->
    wp (fail ENOSPC) (ends_locked (aopen a nm oflag attr)) s1) as Hfail.
  { intros s1 e' E1 E2 E3 Hn Hu. apply (ends_locked_fail _ _ _ a); [by apply ao_nospace| |done].
    eapply core_same; [by apply (core_unused_entry s a i e e')|done..]. }
  unfold create. apply wp_bind, wp_malloc.
  { intros l b. cbn. apply (Hfail _ e); try done. cbn. by rewrite list_insert_id. }
  intros l h b Hh0 _ Hh. cbn [fst snd]. destruct (Z.eqb_spec h 0); [lia|].
  apply wp_bind, wp_mq_construct; intros l'; apply wp_bind, (wp_upd_ent _ _ e); try done.
  { by apply (Hfail _ (set_mq h e)). }
  apply wp_bind, wp_malloc.
  - intros l1 b1. cbn [fst snd]. eapply wp_bind, wp_upd_ent; [cbn; by apply list_lookup_insert_eq|]. cbn.
    unfold free_queue. apply wp_bind, wp_bind. eapply wp_queue_at; [cbn; by apply lookup_insert_eq|].
    apply wp_modify. apply (Hfail _ (set_users 0 (set_mq h e))); cbn; try done; [by rewrite list_insert_insert_eq|].
    by rewrite delete_insert_id.
  - intros l1 d b1 Hd0 Hd Hdq. cbn in Hd, Hdq. cbn [fst snd]. eapply wp_bind, wp_upd_ent; [cbn; by apply list_lookup_insert_eq|].
    destruct (Z.eqb_spec d 0); [lia|]. eapply wp_bind, wp_upd_ent; [cbn; rewrite list_insert_insert_eq; by apply list_lookup_insert_eq|].
    unfold put_user. apply wp_bind, wp_modify, wp_ret. pose proof (fresh_desc s a d Hc Hd) as Hda. eexists. rewrite result_value by lia.
    split_and!; [by eapply (ao_create a nm oflag attr i d x)| |].
    + eapply (core_create s a i e (new_queue nm x) d
        (mkUser (Z.lor oflag (Z.land (mq_flags x) O_NONBLOCK)) i 0 false MQ_VALID_MAGIC) h (mq_new (mq_maxmsg x) (mq_msgsize x))); cbn; try done.
      * by rewrite key_key.
      * apply mq_new_spec.
      * apply mq_new_spec.
      * by rewrite !list_insert_insert_eq.
    + intros j q' Hj Hj' Hunu. cbn in Hj, Hunu. apply lookup_insert_Some in Hj as [[<- <-]|[_ Hj]]; [done|].
      apply (Hp j q' Hj Hj'). by eapply unused_insert.
Qed.

Lemma wp_mq_open s a nm oflag attr : R s a -> key nm <> [] -> wp (mq_open nm oflag attr) (ends (aopen a nm oflag attr)) s.
Proof.
  intros HR Hk. unfold mq_open.
  destruct (negb (has O_RDONLY oflag) && negb (has O_WRONLY oflag) && negb (has O_RDWR oflag)) eqn:Hm.
  { apply (ends_fail _ _ _ a); [|done]. apply ao_mode. unfold mode. by destruct (has O_RDONLY oflag), (has O_WRONLY oflag), (has O_RDWR oflag). }
  assert (mode oflag = true) as Hmode by (unfold mode; by destruct (has O_RDONLY oflag), (has O_WRONLY oflag), (has O_RDWR oflag)). clear Hm.
  destruct HR as [Hc Hp Hmu]. apply wp_bind, wp_lock; [done|].
  assert (core (set_mut true s) a) as Hc' by by apply (core_same s). revert Hc'. generalize (set_mut true s) as s1. clear s Hc Hmu. intros s Hc.
  apply wp_bind. apply (wp_eq _ _ _ (mqtab s) s); [done|]. apply wp_bind. eapply wp_mono; [|intros r s'; apply wp_unlock].
  destruct (find_name (key nm) 0 (mqtab s)) as [i|] eqn:Hf.
  - destruct (find_name_queue s a (key nm) i) as (q & e & Hq & Hn & He & Hl); try done. destruct (has O_EXCL oflag) eqn:Hex.
    + apply (ends_locked_fail _ _ _ a); [|done..]. eapply ao_exists; [done| |done]. by exists q.
    + by eapply wp_join.
  - pose proof (find_name_unnamed s a (key nm) Hc Hf) as Hun. destruct (has O_CREAT oflag) eqn:Hcr; cbn [negb].
    2: { apply (ends_locked_fail _ _ _ a); [by apply ao_noent|done..]. }
    destruct (find_free 0 (mqtab s)) as [i|] eqn:Hff; [|apply (ends_locked_fail _ _ _ a); [by apply ao_full|done..]].
    destruct (find_free_entry s a i Hc Hff) as (e & He & Hq).
    destruct (check_attr attr) as [x|] eqn:Hx; [by eapply wp_create|]. apply (ends_locked_fail _ _ _ a); [by apply ao_attr|done..].
Qed.

(** ** Unlinking *)

Lemma wp_do_mq_unlink s a i e q :
  core s a -> aqs a !! i = Some q -> mqtab s !! i = Some e -> unused (ads a) i ->
  wp (do_mq_unlink i) (fun _ s' => core s' (set_aqs (delete i (aqs a)) a)) s.
Proof.
  intros Hc Hq He Hun. pose proof (lookup_lt_Some _ _ _ He) as Hlt.
  destruct (co_live _ _ Hc i q Hq) as (e' & He' & Hl). assert (e' = e) as -> by congruence. destruct (li_queue _ _ _ _ Hl) as (k & Hk & _).
  unfold do_mq_unlink, free_queue. apply wp_bind, (wp_upd_ent _ _ e); [done|].
  eapply wp_bind, wp_ent_at; [cbn; by apply list_lookup_insert_eq|]. cbn.
  apply wp_bind, wp_bind. eapply wp_queue_at; [done|]. apply wp_modify. eapply wp_upd_ent; [cbn; by apply list_lookup_insert_eq|].
  eapply core_same; [by apply (core_delete s a i e q (set_mq 0 (set_name [] e)))|cbn; by rewrite ?list_insert_insert_eq..].
Qed.

Lemma pending_delete a i : pending a -> pending (set_aqs (delete i (aqs a)) a).
Proof. intros Hp j q Hj. cbn in *. apply lookup_delete_Some in Hj as [_ Hj]. by apply Hp. Qed.

Lemma wp_mq_unlink s a nm : R s a -> key nm <> [] -> wp (mq_unlink nm) (ends (aunlink a nm)) s.
Proof.
  intros [Hc Hp Hmu] Hk. unfold mq_unlink. apply wp_bind, wp_lock; [done|].
  assert (core (set_mut true s) a) as Hc' by by apply (core_same s). revert Hc'. generalize (set_mut true s) as s1. clear s Hc Hmu. intros s Hc.
  apply wp_bind. apply (wp_eq _ _ _ (mqtab s) s); [done|]. apply wp_bind. eapply wp_mono; [|intros r s'; apply wp_unlock].
  destruct (find_name (key nm) 0 (mqtab s)) as [i|] eqn:Hf.
  2: { apply (ends_locked_fail _ _ _ a); [|done..]. apply au_noent. by eapply find_name_unnamed. }
  destruct (find_name_queue s a (key nm) i) as (q & e & Hq & Hn & He & Hl); try done.
  apply wp_bind, (wp_ent_at _ e); [done|]. apply wp_bind. pose proof (users_unused s a i e Hc He) as Hun.
  destruct (Z.eqb_spec (users e) 0) as [E|E]; cbn [negb].
  - eapply wp_mono; [apply (wp_do_mq_unlink s a i e q); try done; by apply Hun|]. intros [] s' Hc'. apply wp_ret. eexists. rewrite result_value by done.
    split_and!; [|done|by apply pending_delete]. apply au_now; [by exists q|by apply Hun].
  - apply (wp_upd_ent _ _ e); [done|]. apply wp_ret. eexists. rewrite result_value by done. split_and!; [eapply au_later; try done; by rewrite <- Hun|by apply core_unlink|].
    intros j q' Hj Hj'. cbn in *. apply lookup_insert_Some in Hj as [[<- <-]|[_ Hj]]; [by rewrite <- Hun|by apply (Hp j q')].
Qed.

(** ** Closing *)

(** The search for the descriptor before [d]. *)
Lemma wp_previous h us1 c d us2 fuel p s :
  heap s = h -> chain h p (us1 ++ c :: d :: us2) -> NoDup (us1 ++ c :: d :: us2) -> (length us1 <= fuel)%nat ->
  wp (previous fuel d p) (fun r s' => r = c /\ s' = s) s.
Proof.
  intros <-. induction us1 as [|u us1 IH] in fuel, p |- *; intros Hch Hnd Hl; destruct Hch as (-> & Hu & r & Hr & Hch); unfold previous; fold previous.
  - destruct Hch as (Hn & Hd & _). destruct fuel; cbn; (apply wp_bind, (wp_user_at _ r); [done|]); destruct (Z.eqb_spec (next r) 0); try done;
      rewrite Hn, Z.eqb_refl; by apply wp_ret.
  - assert (exists v vs, us1 ++ c :: d :: us2 = v :: vs) as (v & vs & Ev) by (destruct us1; cbn; eauto).
    assert (v <> d) as Hvd.
    { intros ->. cbn in Hnd. apply list.NoDup_cons in Hnd as [_ Hnd]. destruct us1 as [|w us1]; injection Ev as -> <-.
      - apply list.NoDup_cons in Hnd as [Hnd _]. apply Hnd. by left.
      - cbn in Hnd. apply list.NoDup_cons in Hnd as [Hnd _]. apply Hnd. apply elem_of_app. right. by right; left. }
    assert (next r = v /\ v <> 0) as [Hn Hv0] by (rewrite Ev in Hch; by destruct Hch as (? & ? & _)).
    destruct fuel as [|fuel]; [cbn in Hl; lia|]. cbn. apply wp_bind, (wp_user_at _ r); [done|].
    destruct (Z.eqb_spec (next r) 0); [congruence|]. destruct (Z.eqb_spec (next r) d); [congruence|].
    apply IH; [done| |cbn in Hl; lia]. cbn in Hnd. by apply list.NoDup_cons in Hnd as [_ ?].
Qed.

Lemma chain_length (h : gmap Z mquser) (us : list Z) : NoDup us -> (forall x, x ∈ us -> is_Some (h !! x)) -> (length us <= size h)%nat.
Proof.
  intros Hnd Hin. rewrite <- size_dom, <- (size_list_to_set (C := gset Z) us) by done. apply subseteq_size. intros x Hx.
  apply elem_of_list_to_set in Hx. by apply elem_of_dom, Hin.
Qed.

(** No queue names the descriptor for its notification. *)
Definition detached (s : st) (e : mqtabent) (d : Z) : Prop := forall k, queues s !! mq e = Some k -> callback k <> d.

Lemma wp_detach s a i f d u e q :
  core s a -> ads a !! d = Some (i, f) -> heap s !! d = Some u -> tabent u = i -> aqs a !! i = Some q -> mqtab s !! i = Some e ->
  wp (when (notifieruser u) (setnotify (mq e) 0;; upd_ent i (set_sigev 0)))
    (fun _ s' => core s' a /\ heap s' = heap s /\ exists e', mqtab s' !! i = Some e' /\ users e' = users e /\ detached s' e' d) s.
Proof.
  intros Hc Hd Hu Ht Hq He. pose proof (lookup_lt_Some _ _ _ He) as Hlt. destruct (co_user _ _ Hc d u Hu) as (_ & Hd0 & _).
  destruct (co_live _ _ Hc i q Hq) as (e' & He' & Hl). assert (e' = e) as -> by congruence. destruct (li_queue _ _ _ _ Hl) as (k & Hk & _ & _ & Hcb).
  apply wp_when; intros Hn.
  - apply wp_bind, (wp_setnotify _ _ k); [done|]. apply (wp_upd_ent _ _ e); [done|].
    pose proof (core_callback s a i e q k 0 Hc Hq He Hk ltac:(done)) as Hc1. split_and!; [by apply (core_sigev _ a i e)|done|].
    exists (set_sigev 0 e). cbn. rewrite list_lookup_insert_eq by done. split_and!; [done|done|]. intros k'. cbn. rewrite lookup_insert_eq. intros [= <-]. cbn. lia.
  - split_and!; [done|done|]. exists e. split_and!; [done|done|]. intros k' Hk' E. assert (k' = k) as -> by congruence.
    destruct (Hcb ltac:(lia)) as (v & Hv & _ & Hvn). congruence.
Qed.

Lemma next_update (h : gmap Z mquser) c rc v x : h !! c = Some rc -> set_next 0 <$> <[c := set_next v rc]> h !! x = set_next 0 <$> h !! x.
Proof. intros Hc. destruct (decide (x = c)) as [->|]; [by rewrite lookup_insert_eq, Hc|by rewrite lookup_insert_ne]. Qed.

(** The list without its first descriptor, and without a later one. *)
Lemma chain_tail h d us u : chain h d (d :: us) -> NoDup (d :: us) -> h !! d = Some u -> chain (delete d h) (next u) us.
Proof.
  intros (_ & _ & r & Hr & Hch) Hnd Hu. assert (r = u) as -> by congruence. apply list.NoDup_cons in Hnd as [Hni _].
  apply (chain_frame h); [|done]. intros x Hx. by rewrite lookup_delete_ne by congruence.
Qed.

Lemma chain_without h p us1 c d us2 u rc :
  chain h p (us1 ++ c :: d :: us2) -> NoDup (us1 ++ c :: d :: us2) -> h !! d = Some u -> h !! c = Some rc ->
  chain (delete d (<[c := set_next (next u) rc]> h)) p (us1 ++ c :: us2).
Proof.
  intros Hch Hnd Hu Hrc. pose proof Hnd as (Hnd1 & Hdis & Hnd2)%list.NoDup_app.
  apply list.NoDup_cons in Hnd2 as [Hc2 Hnd2]. apply list.NoDup_cons in Hnd2 as [Hd2 _]. apply not_elem_of_cons in Hc2 as [Hcd Hc2].
  assert (c ∉ us1) as Hc1 by (intros H; apply (Hdis c H); by left). assert (d ∉ us1) as Hd1 by (intros H; apply (Hdis d H); by right; left).
  apply (chain_frame (<[c := set_next (next u) rc]> h)).
  { intros x Hx. rewrite lookup_delete_ne; [done|]. intros <-. apply elem_of_app in Hx as [Hx|Hx]; [done|].
    apply elem_of_cons in Hx as [Hx|Hx]; congruence. }
  apply (chain_relink h p us1 c (d :: us2)); try done.
  replace (us1 ++ c :: d :: us2) with ((us1 ++ [c]) ++ d :: us2) in Hch by by rewrite <- app_assoc.
  apply chain_middle in Hch as (r & Hr & Hch). assert (r = u) as -> by congruence. apply (chain_frame h); [|done].
  intros x Hx. rewrite lookup_insert_ne; [done|]. intros <-. done.
Qed.

Lemma without_middle (us1 : list Z) c d us2 : NoDup (us1 ++ c :: d :: us2) ->
  c <> d /\ NoDup (us1 ++ c :: us2) /\ forall y, y ∈ us1 ++ c :: us2 <-> y <> d /\ y ∈ us1 ++ c :: d :: us2.
Proof.
  intros Hnd. assert (us1 ++ c :: d :: us2 ≡ₚ d :: us1 ++ c :: us2) as Hp.
  { rewrite (Permutation_swap d c us2). by rewrite <- Permutation_middle. }
  rewrite Hp in Hnd. apply list.NoDup_cons in Hnd as [Hni Hnd]. split_and!; [|done|].
  - intros ->. apply Hni, elem_of_app. right. by left.
  - intros y. rewrite Hp, elem_of_cons. split; [|tauto]. intros Hy. split; [congruence|by right].
Qed.

Lemma wp_remove_user s a i f d u e e0 q :
  core s a -> ads a !! d = Some (i, f) -> heap s !! d = Some u -> tabent u = i -> aqs a !! i = Some q ->
  mqtab s !! i = Some e -> detached s e d -> users e0 = users e ->
  wp (remove_user (size (heap s)) d u e0)
    (fun _ s' => core s' (set_ads (delete d (ads a)) a) /\ exists v, mqtab s' !! i = Some (set_users v e)) s.
Proof.
  intros Hc Hd Hu Ht Hq He Hdet Hue. pose proof (lookup_lt_Some _ _ _ He) as Hlt.
  destruct (co_chain _ _ Hc i e He) as (us & Hch & Hnd & Hm).
  assert (d ∈ us) as Hdus by (apply Hm; by exists u). unfold remove_user, free_user. rewrite Hue. apply wp_bind.
  destruct (Z.eqb_spec (users e) d) as [E|E].
  - rewrite Ht. apply (wp_upd_ent _ _ e); [done|]. eapply wp_bind, wp_upd_user; [done|].
    eapply wp_bind, wp_user_at; [cbn; by apply lookup_insert_eq|]. apply wp_modify. cbn. split; [|eexists; by apply list_lookup_insert_eq].
    rewrite E in Hch. destruct us as [|x us]; [by apply not_elem_of_nil in Hdus|]. pose proof Hch as (<- & _).
    pose proof (chain_tail _ _ _ _ Hch Hnd Hu) as Hch'. apply list.NoDup_cons in Hnd as [Hni Hnd].
    eapply (core_remove s a i e q d u (next u) us); try done; cbn; rewrite ?delete_insert_eq.
    + intros y Hy. by rewrite lookup_delete_ne.
    + by rewrite lookup_delete_eq.
    + intros y w Hy Hw. rewrite lookup_delete_ne; [done|]. congruence.
    + done.
    + intros y. rewrite <- Hm, elem_of_cons. split; [|tauto]. intros Hy. split; [congruence|by right].
  - destruct (chain_split _ _ _ _ Hch Hdus E) as (us1 & c & us2 & ->).
    destruct (chain_middle _ _ _ _ _ Hch) as (rc & Hrc & _).
    apply wp_bind. eapply wp_mono; [apply (wp_previous (heap s) us1 c d us2); try done|].
    { etrans; [|apply (chain_length (heap s) _ Hnd)]; [rewrite length_app; lia|]. intros x Hx. apply Hm in Hx as (w & -> & _). eauto. }
    intros ? ? [-> ->]. destruct (without_middle _ _ _ _ Hnd) as (Hcd & Hnd' & Hus').
    assert (tabent rc = i) as Hrci.
    { assert (c ∈ us1 ++ c :: d :: us2) as Hin by (apply elem_of_app; right; by left). apply Hm in Hin as (w & Hw & Hwt). congruence. }
    apply (wp_upd_user _ _ rc); [done|]. eapply wp_bind, wp_upd_user; [cbn; rewrite lookup_insert_ne; done|].
    eapply wp_bind, wp_user_at; [cbn; by apply lookup_insert_eq|]. apply wp_modify. cbn. split; [|by exists (users e); destruct e].
    pose proof (chain_without _ _ _ _ _ _ _ _ Hch Hnd Hu Hrc) as Hch'.
    eapply (core_remove s a i e q d u (users e) (us1 ++ c :: us2)); try done; cbn; rewrite ?delete_insert_eq.
    + intros y Hy. rewrite lookup_delete_ne by done. by apply next_update.
    + by rewrite lookup_delete_eq.
    + intros y w Hy Hw. rewrite lookup_delete_ne, lookup_insert_ne; congruence.
    + rewrite list_insert_id; [done|]. rewrite He. by destruct e.
    + done.
    + intros y. by rewrite Hus', Hm.
Qed.

Lemma pending_close a d i f : pending a -> ads a !! d = Some (i, f) ->
  (forall q, aqs a !! i = Some q -> a_unlinked q = true -> ~ unused (delete d (ads a)) i) -> pending (set_ads (delete d (ads a)) a).
Proof.
  intros Hp Hd Hi j q Hj Hu Hun. cbn in Hj, Hun. destruct (decide (j = i)) as [->|Hne]; [by apply (Hi q)|].
  apply (Hp j q Hj Hu). intros y g Hy. apply (Hun y g). rewrite lookup_delete_ne; [done|]. congruence.
Qed.

Lemma wp_mq_close s a d : R s a -> is_Some (ads a !! d) -> wp (mq_close (size (heap s)) d) (ends (aclose a d)) s.
Proof.
  intros [Hc Hp Hmu] [[i f] Hd]. destruct (core_desc s a d i f Hc Hd) as (u & q & e & Hu & Ht & Hf & Hmag & Hd0 & Hq & He & Hl).
  unfold mq_close. apply wp_bind, (wp_user_at _ u); [done|]. rewrite Hmag, Z.eqb_refl. cbn [negb]. apply wp_bind, wp_lock; [done|].
  assert (core (set_mut true s) a) as Hc' by by apply (core_same s). change (heap s) with (heap (set_mut true s)).
  change (heap s) with (heap (set_mut true s)) in Hu. change (mqtab s) with (mqtab (set_mut true s)) in He. revert Hc' Hu He.
  generalize (set_mut true s) as s1. clear s Hc Hmu Hl. intros s Hc Hu He. rewrite Ht.
  apply wp_bind, (wp_ent_at _ e); [done|]. apply wp_bind.
  eapply wp_mono; [by apply (wp_detach s a i f d u e q)|]. cbn beta. intros _ s1 (Hc1 & Hh & e1 & He1 & Hue & Hdet). rewrite <- Hh in Hu |- *.
  apply wp_bind. eapply wp_mono; [by apply (wp_remove_user s1 a i f d u e1 e q)|]. cbn beta. intros _ s2 (Hc2 & v & He2).
  apply wp_bind, (wp_ent_at _ (set_users v e1)); [done|]. apply wp_bind.
  destruct (co_live _ _ Hc1 i q Hq) as (e1' & He1' & Hl). assert (e1' = e1) as -> by congruence. clear He1'.
  pose proof (users_unused _ _ _ _ Hc2 He2) as Hun. cbn in Hun |- *. rewrite (li_unlink _ _ _ _ Hl).
  apply wp_when; intros Hb.
  - apply andb_true_iff in Hb as [Hul Hv%Z.eqb_eq]. eapply wp_mono; [apply (wp_do_mq_unlink s2 _ i (set_users v e1) q Hc2); [done|done|by apply Hun]|].
    intros ? s3 Hc3. apply wp_unlock. eexists. rewrite result_value by done. split_and!; [by eapply ac_last; try done; apply Hun|done|].
    intros j q' Hj Hj' Hju. cbn in Hj, Hju. apply lookup_delete_Some in Hj as [Hne Hj]. apply (Hp j q' Hj Hj').
    intros y g Hy. apply (Hju y g). rewrite lookup_delete_ne; [done|]. congruence.
  - apply wp_unlock. eexists. rewrite result_value by done.
    assert (a_unlinked q = false \/ ~ unused (delete d (ads a)) i) as Hor.
    { apply andb_false_iff in Hb as [|Hv]; [by left|right]. intros Hx%Hun. by rewrite Hx in Hv. }
    split_and!; [by eapply ac_more|done|]. eapply pending_close; [done..|]. intros q' Hq' Hul. assert (q' = q) as -> by congruence.
    destruct Hor; [congruence|done].
Qed.

(** ** The kernel's queues *)

Lemma R_queue s a i q e : R s a -> aqs a !! i = Some q -> mqtab s !! i = Some e ->
  live s i e q /\ exists k, queues s !! mq e = Some k /\ mq_view (kq k) = a_msgs q /\ mq_cap (kq k) = a_max q.
Proof.
  intros HR Hq He. destruct (co_live _ _ (R_core _ _ HR) i q Hq) as (e' & He' & Hl). assert (e' = e) as -> by congruence. split; [done|].
  destruct (li_queue _ _ _ _ Hl) as (k & Hk & Hv & Hcap & _). eauto.
Qed.

Lemma ads_id s a d u : core s a -> heap s !! d = Some u -> set_ads (<[d := (tabent u, flags u)]> (ads a)) a = a.
Proof. intros Hc Hu. pose proof (co_ads _ _ Hc) as E. destruct a as [qs ds]. unfold set_ads. cbn in *. f_equal. apply insert_id. by rewrite E, lookup_fmap, Hu. Qed.

(** A descriptor that is not registered any more. *)
Lemma core_notifier_off s a i e q d u :
  core s a -> aqs a !! i = Some q -> mqtab s !! i = Some e -> heap s !! d = Some u -> tabent u = i -> detached s e d -> d <> 0 ->
  core (set_heap (<[d := set_notifier false u]> (heap s)) s) a.
Proof.
  intros Hc Hq He Hu Ht Hdet Hd.
  pose proof (ads_id s a d u Hc Hu) as Ea.
  rewrite <- Ea. apply (core_user_change s a d u (set_notifier false u)); try done. intros _. right. intros j ej kj [qj Hqj] Hej Hkj E.
  destruct (co_live _ _ Hc j qj Hqj) as (e2 & He2 & Hl2). assert (e2 = ej) as -> by congruence.
  destruct (li_queue _ _ _ _ Hl2) as (k2 & Hk2 & _ & _ & Hu2). assert (k2 = kj) as -> by congruence.
  destruct (Hu2 ltac:(congruence)) as (v & Hv & Hvt & _). assert (v = u) as -> by congruence.
  assert (j = i) as -> by congruence. assert (ej = e) as -> by congruence. by apply (Hdet kj).
Qed.

(** A notification changes nothing a caller of this interface sees. *)
Lemma wp_notifyme s a i q e k :
  R s a -> aqs a !! i = Some q -> mqtab s !! i = Some e -> queues s !! mq e = Some k -> callback k <> 0 ->
  wp (notifyme (mq e) (callback k)) (fun _ s' => R s' a) s.
Proof.
  intros HR Hq He Hk Hcb. pose proof (lookup_lt_Some _ _ _ He) as Hlt. destruct HR as [Hc Hp Hmu].
  destruct (co_live _ _ Hc i q Hq) as (e' & He' & Hl). assert (e' = e) as -> by congruence.
  destruct (li_queue _ _ _ _ Hl) as (k' & Hk' & _ & _ & Hu). assert (k' = k) as -> by congruence. destruct (Hu Hcb) as (u & Hu' & Ht & Hn).
  unfold notifyme. apply wp_bind, (wp_user_at _ u); [done|]. rewrite Ht. apply wp_bind, (wp_ent_at _ e); [done|].
  destruct (Z.eqb_spec (sigev e) 0); [by apply wp_ret|]. apply wp_bind, (wp_setnotify _ _ k); [done|].
  apply wp_bind, (wp_upd_ent _ _ e); [done|]. apply wp_bind, (wp_upd_user _ _ u); [done|]. apply wp_modify.
  pose proof (core_callback s a i e q k 0 Hc Hq He Hk ltac:(done)) as Hc1.
  pose proof (core_sigev _ a i e 0 Hc1 He) as Hc2. split; [|done|done].
  eapply core_same; [apply (core_notifier_off _ a i (set_sigev 0 e) q (callback k) u Hc2); cbn; try done|done..].
  - by rewrite list_lookup_insert_eq.
  - intros k2. cbn. rewrite lookup_insert_eq. by intros [= <-].
Qed.

(** How a call ends that finds no room or no message. *)
Definition waits_for (block timed : bool) : list qerr := if block then if timed then [INTR; TIMEOUT] else [INTR] else [WOULDBLOCK].

Lemma wp_wait s a timed (Q : qerr -> st -> Prop) :
  R s a -> (forall r s', mqtab s' = mqtab s -> R s' a -> r ∈ waits_for true timed -> Q r s') -> wp (wait timed) Q s.
Proof.
  intros HR HQ. apply wp_Ret. unfold wait. eexists _, _. split; [done|]. apply HQ; [done|by apply (R_same s)|].
  destruct (waits s 0), timed; cbn; set_solver.
Qed.

Lemma wp_kput s a i q e m block timed (Q : qerr -> st -> Prop) :
  R s a -> aqs a !! i = Some q -> mqtab s !! i = Some e ->
  (Z.of_nat (length (a_msgs q)) < a_max q -> forall s', R s' (set_aqs (<[i := set_msgs (insert_prio m (a_msgs q)) q]> (aqs a)) a) -> Q OK s') ->
  (a_max q <= Z.of_nat (length (a_msgs q)) -> forall r s', mqtab s' = mqtab s -> R s' a -> r ∈ waits_for block timed -> Q r s') ->
  wp (kput (mq e) m block timed) Q s.
Proof.
  intros HR Hq He Hroom Hfull. destruct (R_queue s a i q e HR Hq He) as (Hl & k & Hk & Hv & Hcap).
  unfold kput. apply wp_bind, (wp_queue_at _ k); [done|].
  destruct (Z.lt_ge_cases (Z.of_nat (length (a_msgs q))) (a_max q)) as [Hlt|Hge].
  - rewrite <- Hv, <- Hcap in Hlt. destruct (mq_put_spec m (kq k) Hlt) as (q' & c & -> & Hv' & Hcap'). rewrite Hv, Hcap in Hlt.
    unfold put_queue. apply wp_bind, wp_modify.
    assert (R (set_queues (<[mq e := mkQ q' (callback k)]> (queues s)) s) (set_aqs (<[i := set_msgs (insert_prio m (a_msgs q)) q]> (aqs a)) a)) as HR'.
    { destruct HR as [Hc Hp Hmu]. split; [|by apply pending_msgs|done]. apply core_msgs; congruence. }
    apply wp_bind, wp_when; [|intros _; apply wp_ret; by apply Hroom]. intros [_ Hcb%negb_true_iff%Z.eqb_neq]%andb_true_iff.
    eapply wp_mono; [eapply (wp_notifyme _ _ i _ e (mkQ q' (callback k)) HR'); cbn; [by rewrite lookup_insert_eq|done|by rewrite lookup_insert_eq|done]|].
    intros ? s' HR2. apply wp_ret. by apply Hroom.
  - rewrite mq_put_full by (rewrite Hv, Hcap; lia). destruct block; [eapply wp_wait; [done|]; by apply Hfull|]. apply wp_ret. apply Hfull; [lia|done..|set_solver].
Qed.

Lemma wp_kget s a i q e block timed (Q : qerr * option message -> st -> Prop) :
  R s a -> aqs a !! i = Some q -> mqtab s !! i = Some e ->
  (forall m l, a_msgs q = m :: l -> forall s', R s' (set_aqs (<[i := set_msgs l q]> (aqs a)) a) -> Q (OK, Some m) s') ->
  (a_msgs q = [] -> forall r s', mqtab s' = mqtab s -> R s' a -> r ∈ waits_for block timed -> Q (r, None) s') ->
  wp (kget (mq e) block timed) Q s.
Proof.
  intros HR Hq He Hmsg Hempty. destruct (R_queue s a i q e HR Hq He) as (Hl & k & Hk & Hv & Hcap).
  unfold kget. apply wp_bind, (wp_queue_at _ k); [done|]. destruct (a_msgs q) as [|m l] eqn:Em.
  - rewrite mq_get_empty by done. destruct block; [|apply wp_ret; apply Hempty; [done..|set_solver]].
    apply wp_bind. eapply wp_wait; [done|]. intros r s' E HR' Hr. apply wp_ret. by apply Hempty.
  - destruct (mq_get_spec (kq k) m l) as (q' & -> & Hv' & Hcap'); [congruence|]. unfold put_queue. apply wp_bind, wp_modify, wp_ret.
    apply (Hmsg m l eq_refl). destruct HR as [Hc Hp Hmu]. split; [|by apply pending_msgs|done]. apply core_msgs; congruence.
Qed.

(** ** Messages *)

Lemma R_desc s a d : R s a -> is_Some (ads a !! d) ->
  exists i f u q e, ads a !! d = Some (i, f) /\ heap s !! d = Some u /\ tabent u = i /\ flags u = f /\ magic u = MQ_VALID_MAGIC /\
    aqs a !! i = Some q /\ mqtab s !! i = Some e /\ maxmsg e = a_max q /\ msgsize e = a_size q.
Proof.
  intros HR [[i f] Hd]. destruct (core_desc s a d i f (R_core _ _ HR) Hd) as (u & q & e & Hu & Ht & Hf & Hm & _ & Hq & He & Hl).
  destruct Hl. exists i, f, u, q, e. split_and!; done.
Qed.

(** The checks leave a call that may send. *)
Lemma wp_checked_send s a timed bad d msg prio put :
  R s a -> is_Some (ads a !! d) ->
  (forall i u q e, ads a !! d = Some (i, flags u) -> aqs a !! i = Some q -> mqtab s !! i = Some e ->
     Z.of_nat (length msg) <= a_size q -> prio <= MQ_PRIO_MAX -> writable (flags u) = true ->
     wp (put u e) (ends (asend a timed bad d msg prio)) s) ->
  wp (checked_send d msg prio put) (ends (asend a timed bad d msg prio)) s.
Proof.
  intros HR Hv Hput. destruct (R_desc s a d HR Hv) as (i & f & u & q & e & Hd & Hu & Ht & <- & Hm & Hq & He & _ & Hsz).
  unfold checked_send. apply wp_bind, (wp_user_at _ u); [done|]. rewrite Ht. apply wp_bind, (wp_ent_at _ e); [done|].
  rewrite Hm, Z.eqb_refl, Hsz. cbn [negb]. unfold writable.
  assert (forall x, x = (if Z.of_nat (length msg) >? a_size q then EMSGSIZE else if prio >? MQ_PRIO_MAX then EINVAL else EBADF) ->
    Z.of_nat (length msg) > a_size q \/ prio > MQ_PRIO_MAX \/ writable (flags u) = false -> wp (fail x) (ends (asend a timed bad d msg prio)) s) as Hfail.
  { intros x Hx Hor. apply (ends_fail _ _ _ a); [|done]. by eapply as_error. }
  destruct (Z.gtb_spec (Z.of_nat (length msg)) (a_size q)); [apply Hfail; [done|lia]|].
  destruct (Z.gtb_spec prio MQ_PRIO_MAX); [apply Hfail; [done|lia]|].
  destruct (has O_WRONLY (flags u) || has O_RDWR (flags u)) eqn:Hw; cbn [negb]; [|apply Hfail; [done|by right; right]].
  by apply (Hput i u q e).
Qed.

Lemma ends_sent s' a timed bad d msg prio i f q :
  ads a !! d = Some (i, f) -> aqs a !! i = Some q -> Z.of_nat (length msg) <= a_size q -> prio <= MQ_PRIO_MAX -> writable f = true ->
  Z.of_nat (length (a_msgs q)) < a_max q -> R s' (set_aqs (<[i := set_msgs (insert_prio (prio, msg) (a_msgs q)) q]> (aqs a)) a) ->
  ends (asend a timed bad d msg prio) 0 s'.
Proof. intros. eexists. rewrite result_value by done. split; [by eapply as_sent|done]. Qed.

Lemma wp_mq_send s a d msg prio : R s a -> is_Some (ads a !! d) -> wp (mq_send d msg prio) (ends (asend a false false d msg prio)) s.
Proof.
  intros HR Hv. unfold mq_send. eapply wp_checked_send; [done..|]. intros i u q e Hd Hq He Hlen Hprio Hw. apply wp_bind.
  eapply wp_kput; [done..| |].
  - intros Hroom s' HR'. apply wp_ret. by eapply ends_sent.
  - intros Hfull r s' _ HR' Hr.
    assert (forall x, x ∈ wait_errors false (flags u) false -> wp (fail x) (ends (asend a false false d msg prio)) s') as Hfail.
    { intros x Hx. apply (ends_fail _ _ _ a); [|done]. by eapply as_full. }
    unfold wait_errors in Hfail. cbn in Hfail. destruct (has O_NONBLOCK (flags u)); cbn in Hr; apply list_elem_of_singleton in Hr as ->; apply Hfail; set_solver.
Qed.

Lemma wp_mq_timedsend s a d msg prio ns :
  R s a -> is_Some (ads a !! d) -> wp (mq_timedsend d msg prio ns) (ends (asend a true (bad_nsec ns) d msg prio)) s.
Proof.
  intros HR Hv. unfold mq_timedsend. eapply wp_checked_send; [done..|]. intros i u q e Hd Hq He Hlen Hprio Hw. cbn zeta. fold (bad_nsec ns).
  apply wp_bind. eapply wp_kput; [done..| |].
  - intros Hroom s' HR'. apply wp_bind, wp_ret, wp_ret. by eapply ends_sent.
  - intros Hfull r s' E HR' Hr. cbn in Hr. apply list_elem_of_singleton in Hr as ->. rewrite <- E in He. clear s E HR. rename s' into s, HR' into HR.
    assert (forall x s', R s' a -> x ∈ wait_errors true (flags u) (bad_nsec ns) -> wp (fail x) (ends (asend a true (bad_nsec ns) d msg prio)) s') as Hfail.
    { intros x s' HR' Hx. apply (ends_fail _ _ _ a); [|done]. by eapply as_full. }
    unfold wait_errors in Hfail. cbn in Hfail. apply wp_bind.
    destruct (bad_nsec ns); rewrite ?andb_false_r, ?andb_true_r; [apply wp_ret, Hfail; [done|set_solver]|].
    destruct (has O_NONBLOCK (flags u)); cbn [negb]; [apply wp_ret, Hfail; [done|set_solver]|].
    eapply wp_kput; [done..|intros ?; lia|]. intros _ r s' _ HR' Hr. cbn in Hr.
    apply elem_of_cons in Hr as [-> | ->%list_elem_of_singleton]; (apply Hfail; [done|set_solver]).
Qed.

(** A call that stores a message. *)
Definition ends_msg (P : res -> astate -> Prop) : Z * option message -> st -> Prop :=
  fun r s' => exists a', P (result r.1 r.2 None s') a' /\ R s' a'.

Lemma ends_msg_fail (P : res -> astate -> Prop) e s a : P (error e) a -> R s a -> wp (r ← fail e; mret (r, None)) (ends_msg P) s.
Proof. intros HP HR. apply wp_bind, wp_mq_fail, wp_ret. exists a. split; [done|]. by apply (R_same s). Qed.

Lemma wp_checked_receive s a timed bad d len get :
  R s a -> is_Some (ads a !! d) ->
  (forall i u q e, ads a !! d = Some (i, flags u) -> aqs a !! i = Some q -> mqtab s !! i = Some e ->
     readable (flags u) = true -> a_size q <= len -> wp (get u e) (ends_msg (areceive a timed bad d len)) s) ->
  wp (checked_receive d len get) (ends_msg (areceive a timed bad d len)) s.
Proof.
  intros HR Hv Hget. destruct (R_desc s a d HR Hv) as (i & f & u & q & e & Hd & Hu & Ht & <- & Hm & Hq & He & _ & Hsz).
  unfold checked_receive. apply wp_bind, (wp_user_at _ u); [done|]. rewrite Ht. apply wp_bind, (wp_ent_at _ e); [done|].
  rewrite Hm, Z.eqb_refl, Hsz. cbn [negb].
  destruct (readable (flags u)) eqn:Hr; cbn [negb].
  - destruct (Z.ltb_spec len (a_size q)); [|by apply (Hget i u q e)]. apply (ends_msg_fail _ _ _ a); [|done].
    eapply ar_error; [done..|by rewrite Hr|by right].
  - apply (ends_msg_fail _ _ _ a); [|done]. eapply ar_error; [done..|by rewrite Hr|by left].
Qed.

Lemma ends_received s' a timed bad d len i f q m l b1 b2 :
  ads a !! d = Some (i, f) -> aqs a !! i = Some q -> readable f = true -> a_size q <= len -> a_msgs q = m :: l ->
  R s' (set_aqs (<[i := set_msgs l q]> (aqs a)) a) ->
  wp (received OK (Some m) b1 b2) (ends_msg (areceive a timed bad d len)) s'.
Proof.
  intros. apply wp_ret. eexists. split; [|done]. unfold result. cbn [fst snd].
  destruct (Z.eqb_spec (Z.of_nat (length m.2)) (-1)); [lia|]. by eapply ar_received.
Qed.

Lemma wp_mq_receive s a d len : R s a -> is_Some (ads a !! d) -> wp (mq_receive d len) (ends_msg (areceive a false false d len)) s.
Proof.
  intros HR Hv. unfold mq_receive. eapply wp_checked_receive; [done..|]. intros i u q e Hd Hq He Hr Hlen. apply wp_bind.
  eapply wp_kget; [done..| |].
  - intros m l Hm s' HR'. by eapply ends_received.
  - intros Hempty r s' _ HR' Hin.
    assert (forall x, x ∈ wait_errors false (flags u) false -> wp (r ← fail x; mret (r, None)) (ends_msg (areceive a false false d len)) s') as Hfail.
    { intros x Hx. apply (ends_msg_fail _ _ _ a); [|done]. by eapply ar_empty. }
    unfold wait_errors in Hfail. cbn in Hfail. destruct (has O_NONBLOCK (flags u)); cbn in Hin; apply list_elem_of_singleton in Hin as ->; apply Hfail; set_solver.
Qed.

Lemma wp_mq_timedreceive s a d len ns :
  R s a -> is_Some (ads a !! d) -> wp (mq_timedreceive d len ns) (ends_msg (areceive a true (bad_nsec ns) d len)) s.
Proof.
  intros HR Hv. unfold mq_timedreceive. eapply wp_checked_receive; [done..|]. intros i u q e Hd Hq He Hr Hlen. cbn zeta. fold (bad_nsec ns).
  apply wp_bind. eapply wp_kget; [done..| |].
  - intros m l Hm s' HR'. apply wp_bind, wp_ret. by eapply ends_received.
  - intros Hempty r s' E HR' Hin. cbn in Hin. apply list_elem_of_singleton in Hin as ->. rewrite <- E in He. clear s E HR. rename s' into s, HR' into HR.
    assert (forall x s', R s' a -> x ∈ wait_errors true (flags u) (bad_nsec ns) ->
      wp (r ← fail x; mret (r, None)) (ends_msg (areceive a true (bad_nsec ns) d len)) s') as Hfail.
    { intros x s' HR' Hx. apply (ends_msg_fail _ _ _ a); [|done]. by eapply ar_empty. }
    unfold wait_errors in Hfail. cbn in Hfail. apply wp_bind. cbn [fst snd].
    destruct (bad_nsec ns); rewrite ?andb_false_r, ?andb_true_r; [apply wp_ret, Hfail; [done|set_solver]|].
    destruct (has O_NONBLOCK (flags u)); cbn [negb]; [apply wp_ret, Hfail; [done|set_solver]|].
    eapply wp_kget; [done..|intros m l; congruence|]. intros _ r s' _ HR' Hin. cbn in Hin.
    apply elem_of_cons in Hin as [-> | ->%list_elem_of_singleton]; (apply Hfail; [done|set_solver]).
Qed.

(** ** Notification and attributes *)

Lemma wp_mq_notify s a d n :
  R s a -> is_Some (ads a !! d) -> wp (mq_notify d n) (ends (fun r a' => a' = a /\ (r = value 0 \/ r = error EBUSY /\ n <> 0))) s.
Proof.
  intros HR Hv. destruct (R_desc s a d HR Hv) as (i & f & u & q & e & Hd & Hu & Ht & _ & Hm & Hq & He & _).
  destruct (R_queue s a i q e HR Hq He) as (_ & k & Hk & _). pose proof (lookup_lt_Some _ _ _ He) as Hlt.
  unfold mq_notify. apply wp_bind, (wp_user_at _ u); [done|]. rewrite Ht. apply wp_bind, (wp_ent_at _ e); [done|].
  rewrite Hm, Z.eqb_refl. cbn [negb]. destruct HR as [Hc Hp Hmu]. destruct (Z.eqb_spec n 0) as [->|Hn].
  - apply wp_bind, (wp_setnotify _ _ k); [done|]. apply wp_bind, (wp_upd_ent _ _ e); [done|]. apply wp_ret. exists a.
    rewrite result_value by done. split; [by split; [|left]|]. split; [|done|done]. by apply core_sigev, He; apply (core_callback s a i e q k 0 Hc Hq He Hk).
  - destruct (Z.eqb_spec (sigev e) 0) as [_|_]; cbn [negb]; [|by apply (ends_fail _ _ _ a); [split; [|right]|]].
    apply wp_bind, (wp_upd_ent _ _ e); [done|]. apply wp_bind, (wp_upd_user _ _ u); [done|]. apply wp_bind, (wp_setnotify _ _ k); [done|].
    apply wp_ret. exists a. rewrite result_value by done. split; [by split; [|left]|]. split; [|done|done].
    pose proof (core_sigev s a i e n Hc He) as Hc1.
    pose proof (core_user_change _ a d u (set_notifier true u) Hc1 Hu eq_refl eq_refl eq_refl ltac:(by left)) as Hc2.
    cbn in Hc2. rewrite (ads_id s a d u Hc Hu) in Hc2.
    apply (core_callback _ a i (set_sigev n e) q k d Hc2 Hq); [cbn; by rewrite list_lookup_insert_eq|done|].
    intros _. exists (set_notifier true u). cbn. by rewrite lookup_insert_eq.
Qed.

Lemma wp_mq_getattr s a d : R s a -> is_Some (ads a !! d) ->
  wp (mq_getattr d) (fun r s' => s' = s /\ exists i f q, ads a !! d = Some (i, f) /\ aqs a !! i = Some q /\ r = (0, Some (attr_of f q))) s.
Proof.
  intros HR Hv. destruct (R_desc s a d HR Hv) as (i & f & u & q & e & Hd & Hu & Ht & Hf & Hm & Hq & He & Hmax & Hsz).
  destruct (R_queue s a i q e HR Hq He) as (_ & k & Hk & Hkv & _).
  unfold mq_getattr. apply wp_bind, (wp_user_at _ u); [done|]. rewrite Ht. apply wp_bind, (wp_ent_at _ e); [done|].
  rewrite Hm, Z.eqb_refl. cbn [negb]. apply wp_bind, (wp_queue_at _ k); [done|]. apply wp_ret. split; [done|]. exists i, f, q.
  split_and!; [done|done|]. unfold attr_of. by rewrite Hf, Hmax, Hsz, mq_count_spec, Hkv.
Qed.

(** The flags of a descriptor. *)
Lemma R_flags s a d u f s' : R s a -> heap s !! d = Some u ->
  mqtab s' = mqtab s -> heap s' = <[d := set_flags f u]> (heap s) -> queues s' = queues s -> mqtab_mut s' = mqtab_mut s ->
  R s' (set_ads (<[d := (tabent u, f)]> (ads a)) a).
Proof.
  intros [Hc Hp Hmu] Hu E1 E2 E3 E4. split; [| |by rewrite E4].
  - eapply core_same; [by apply (core_user_change s a d u (set_flags f u) Hc Hu eq_refl eq_refl eq_refl); left|done..].
  - intros i q Hq Hul Hun. apply (Hp i q Hq Hul). intros y g Hy. destruct (decide (y = d)) as [->|Hne].
    + apply (Hun d f). cbn. rewrite lookup_insert_eq. rewrite (co_ads _ _ Hc), lookup_fmap, Hu in Hy. cbn in Hy. congruence.
    + apply (Hun y g). cbn. by rewrite lookup_insert_ne.
Qed.

Lemma wp_mq_setattr s a d x old : R s a -> is_Some (ads a !! d) ->
  wp (mq_setattr d x old) (fun r s' => exists i f q, ads a !! d = Some (i, f) /\ aqs a !! i = Some q /\
    r = (0, if old then Some (attr_of f q) else None) /\ R s' (set_ads (<[d := (i, new_flags f x)]> (ads a)) a)) s.
Proof.
  intros HR Hv. destruct (R_desc s a d HR Hv) as (i & f & u & q & e & Hd & Hu & Ht & Hf & Hm & Hq & He & _).
  unfold mq_setattr. apply wp_bind, (wp_user_at _ u); [done|]. rewrite Hm, Z.eqb_refl. cbn [negb]. apply wp_bind.
  apply (wp_mono _ (fun o s' => s' = s /\ o = if old then Some (attr_of f q) else None)).
  { destruct old; [|by apply wp_ret]. apply wp_bind. eapply wp_mono; [by apply (wp_mq_getattr s a d)|].
    intros r s' (-> & i' & f' & q' & Hd' & Hq' & ->). apply wp_ret. cbn. split; [done|]. congruence. }
  intros o s' [-> ->]. apply wp_bind, (wp_upd_user _ _ u); [done|]. apply wp_bind. unfold new_flags.
  destruct (has O_NONBLOCK (mq_flags x)) eqn:Hx; cbn [when].
  - eapply wp_upd_user; [cbn; by apply lookup_insert_eq|]. apply wp_ret. exists i, f, q. split_and!; [done..|]. rewrite <- Ht, <- Hf.
    apply (R_flags s a d u); cbn; try done. by rewrite insert_insert_eq.
  - apply wp_ret, wp_ret. exists i, f, q. split_and!; [done..|]. rewrite <- Ht, <- Hf. by apply (R_flags s a d u).
Qed.

(** ** Every call *)

Lemma wp_result (P : res -> astate -> Prop) (m : M st Z) s :
  wp m (ends P) s -> wp (r ← m; gets (result r None None)) (fun r s' => exists a', P r a' /\ R s' a') s.
Proof. intros H. apply wp_bind. eapply wp_mono; [done|]. intros r s' (a' & HP & HR). apply (wp_eq _ _ _ (result r None None s') s'); eauto. Qed.

Lemma wp_result_msg (P : res -> astate -> Prop) (m : M st (Z * option message)) s :
  wp m (ends_msg P) s -> wp (r ← m; gets (result r.1 r.2 None)) (fun r s' => exists a', P r a' /\ R s' a') s.
Proof. intros H. apply wp_bind. eapply wp_mono; [done|]. intros r s' (a' & HP & HR). apply (wp_eq _ _ _ (result r.1 r.2 None s') s'); eauto. Qed.

Lemma wp_do_call s a c : R s a -> valid a c -> wp (do_call c) (fun r s' => exists a', astep a c r a' /\ R s' a') s.
Proof.
  intros HR Hv.
  assert (forall (P : res -> astate -> Prop) (m : M st res), (forall r a', P r a' -> astep a c r a') ->
    wp m (fun r s' => exists a', P r a' /\ R s' a') s -> wp m (fun r s' => exists a', astep a c r a' /\ R s' a') s) as Hstep.
  { intros P m HP H. eapply wp_mono; [done|]. intros r s' (a' & H1 & H2). eauto. }
  destruct c; cbn in Hv |- *.
  - eapply Hstep; [by apply at_open|by apply wp_result, wp_mq_open].
  - eapply Hstep; [by apply at_close|]. apply wp_bind, (wp_eq _ _ _ (size (heap s)) s); [done|]. by apply wp_result, wp_mq_close.
  - eapply Hstep; [by apply at_unlink|by apply wp_result, wp_mq_unlink].
  - eapply Hstep; [by apply at_send|by apply wp_result, wp_mq_send].
  - eapply Hstep; [by apply at_timedsend|by apply wp_result, wp_mq_timedsend].
  - eapply Hstep; [by apply at_receive|by apply wp_result_msg, wp_mq_receive].
  - eapply Hstep; [by apply at_timedreceive|by apply wp_result_msg, wp_mq_timedreceive].
  - eapply Hstep; [|by apply wp_result, wp_mq_notify]. intros r a' [-> Hr]. by apply at_notify.
  - apply wp_bind. eapply wp_mono; [by apply wp_mq_getattr|]. intros r s' (-> & i & f & q & Hd & Hq & ->).
    apply (wp_eq _ _ _ (mkRes 0 None None (Some (attr_of f q))) s); [done|]. exists a. split; [by eapply at_getattr|done].
  - apply wp_bind. eapply wp_mono; [by apply wp_mq_setattr|]. intros r s' (i & f & q & Hd & Hq & -> & HR').
    eapply wp_eq; [done|]. eexists. split; [by eapply at_setattr|done].
Qed.

End Calls.

(** * The theorems *)

Section Props.
Context {cfg : MqConfig} {kern : Kernel}.

(** Before the first call. *)
Definition fresh (s : st) : Prop := mqtab s = initial_table /\ heap s = ∅ /\ queues s = ∅ /\ mqtab_mut s = false.

Definition no_queues : astate := mkAst ∅ ∅.

Lemma R_fresh s : fresh s -> R s no_queues.
Proof.
  intros (Ht & Hh & Hq & Hm). split; [|intros i q Hi; cbn in Hi; by rewrite lookup_empty in Hi|done]. split; cbn; rewrite ?Ht, ?Hh; try done.
  - intros i e He _. by apply lookup_replicate in He as [-> _].
  - intros i e He. apply lookup_replicate in He as [-> _]. exists []. split_and!; [done|constructor|]. intros d. split; [by intros ?%not_elem_of_nil|].
    intros (u & Hu & _). by rewrite lookup_empty in Hu.
  - intros i j e e' _ _ H. cbn in H. rewrite lookup_empty in H. by apply is_Some_None in H.
Qed.

Lemma wp_exec p s a : R s a -> safe a p -> wp (exec p) (fun l s' => exists a', asteps a p l a' /\ R s' a') s.
Proof.
  induction p as [|c k IH] in s, a |- *; intros HR Hs; unfold exec; fold exec.
  - apply wp_ret. exists a. split; [constructor|done].
  - destruct Hs as [Hv Hs]. apply wp_bind. eapply wp_mono; [by apply wp_do_call|]. intros r s' (a' & Hst & HR').
    apply wp_bind. eapply wp_mono; [apply (IH r s' a' HR'); by apply Hs|]. intros l s'' (a'' & Hsts & HR''). apply wp_ret.
    exists a''. split; [by econstructor|done].
Qed.

(** ** Well-formed queues *)

Definition higher (m n : message) : Prop := n.1 <= m.1.

(** What a queue with room for [max] messages of [size] bytes may hold. *)
Definition messages_ok (max size : Z) (l : list message) : Prop :=
  StronglySorted higher l /\ Z.of_nat (length l) <= max /\
  Forall (fun m => Z.of_nat (length m.2) <= size /\ m.1 <= MQ_PRIO_MAX) l.

Definition wf (a : astate) : Prop := forall i q, aqs a !! i = Some q -> messages_ok (a_max q) (a_size q) (a_msgs q).

Lemma insert_prio_perm m l : insert_prio m l ≡ₚ m :: l.
Proof. induction l as [|x l IH]; cbn; [done|]. destruct (m.1 <=? x.1); [|done]. rewrite IH. constructor. Qed.

Lemma insert_prio_sorted m l : StronglySorted higher l -> StronglySorted higher (insert_prio m l).
Proof.
  induction 1 as [|x l Hs IH Hx]; cbn; [by repeat constructor|]. destruct (Z.leb_spec m.1 x.1) as [Hle|Hgt].
  - constructor; [done|]. rewrite insert_prio_perm. by constructor.
  - constructor; [by constructor|]. constructor; [unfold higher; lia|]. revert Hx. apply Forall_impl. unfold higher. intros y Hy. lia.
Qed.

Lemma messages_ok_insert max size m l :
  messages_ok max size l -> Z.of_nat (length l) < max -> Z.of_nat (length m.2) <= size -> m.1 <= MQ_PRIO_MAX ->
  messages_ok max size (insert_prio m l).
Proof.
  intros (Hs & Hl & Hf) Hroom Hsz Hp. split_and!; [by apply insert_prio_sorted| |].
  - rewrite insert_prio_perm. cbn. lia.
  - rewrite insert_prio_perm. by constructor.
Qed.

Lemma messages_ok_tail max size m l : messages_ok max size (m :: l) -> messages_ok max size l.
Proof. intros (Hs & Hl & Hf). cbn in Hl. split_and!; [by inversion Hs|lia|by inversion Hf]. Qed.

Lemma wf_insert a i q : wf a -> messages_ok (a_max q) (a_size q) (a_msgs q) -> wf (set_aqs (<[i := q]> (aqs a)) a).
Proof. intros Hw Hq j q' Hj. cbn in Hj. apply lookup_insert_Some in Hj as [[_ <-]|[_ Hj]]; [done|by apply (Hw j)]. Qed.

Lemma wf_delete a i : wf a -> wf (set_aqs (delete i (aqs a)) a).
Proof. intros Hw j q' Hj. cbn in Hj. apply lookup_delete_Some in Hj as [_ Hj]. by apply (Hw j). Qed.

Lemma wf_step a c r a' : 0 <= MQ_OPEN_MAX -> wf a -> astep a c r a' -> wf a'.
Proof.
  intros Hmax Hw Hst.
  assert (forall timed bad d msg prio, asend a timed bad d msg prio r a' -> wf a') as Hsend.
  { intros timed bad d msg prio H. inversion H; subst; try done. apply wf_insert; [done|]. cbn. apply messages_ok_insert; [by eapply Hw|done..]. }
  assert (forall timed bad d len, areceive a timed bad d len r a' -> wf a') as Hrec.
  { intros timed bad d len H. inversion H as [| i f q m l Hd Hq Hr Hlen Hm |]; subst; try done. apply wf_insert; [done|]. cbn.
    apply (messages_ok_tail _ _ m). rewrite <- Hm. by eapply Hw. }
  inversion Hst as [? ? ? ? ? H|? ? ? H|? ? ? H|? ? ? ? ? H|? ? ? ? ? ? H|? ? ? ? H|? ? ? ? ? H|? ? ? H| |]; subst; try done; eauto.
  - inversion H as [| | | | | | | |i d x Hm Hun Hcr Hx]; subst; try done. change (wf (set_aqs (<[i := new_queue nm x]> (aqs a)) a)). apply wf_insert; [done|].
    split_and!; cbn; [constructor| |constructor]. destruct attr as [y|]; cbn in Hx; [|by injection Hx as <-].
    destruct (Z.leb_spec (mq_maxmsg y) 0); [done|]. cbn in Hx. destruct (mq_msgsize y <=? 0); [done|]. injection Hx as <-. lia.
  - inversion H; subst; [|done]. change (wf (set_aqs (delete i (aqs a)) a)). by apply wf_delete.
  - inversion H; subst; [done|by apply wf_delete|]. apply wf_insert; [done|]. cbn. by eapply Hw.
Qed.

Lemma wf_steps a p l a' : 0 <= MQ_OPEN_MAX -> wf a -> asteps a p l a' -> wf a'.
Proof. intros Hmax Hw Hs. induction Hs; [done|]. apply IHHs. by eapply wf_step. Qed.

(** C33: From the table before the first call, every client that opens queues by names
    that are not empty and uses only descriptors that are open, and whose calls may depend
    on all results so far, runs to its end, whatever the allocations give and whichever
    waits are interrupted or time out: the calls give exactly results that the abstract
    machine of named queues and descriptors can give - which errors, which messages in
    which order, which attributes - and leave the table representing its state. *)
Theorem message_queues_refine s p :
  fresh s -> safe no_queues p ->
  exists l s' a', exec p s = Ret (l, s') /\ asteps no_queues p l a' /\ R s' a'.
Proof.
  intros Hf Hs. destruct (proj1 (wp_Ret _ _ _) (wp_exec p s no_queues (R_fresh s Hf) Hs)) as (l & s' & E & a' & H1 & H2). by exists l, s', a'.
Qed.

(** C34: After any such client, the queue of every open descriptor holds its messages in
    the order of their priorities, the highest first, not more of them than the queue was
    made for, each not longer than the size of the queue and with a priority of at most
    [MQ_PRIO_MAX]; and its entry is the one the descriptor points to. *)
Theorem message_queues_well_formed s p l s' d u :
  fresh s -> safe no_queues p -> 0 <= MQ_OPEN_MAX -> exec p s = Ret (l, s') -> heap s' !! d = Some u ->
  magic u = MQ_VALID_MAGIC /\ mqtab_mut s' = false /\
  exists e k, mqtab s' !! tabent u = Some e /\ queues s' !! mq e = Some k /\ messages_ok (maxmsg e) (msgsize e) (mq_view (kq k)).
Proof.
  intros Hf Hs Hmax E Hu. destruct (proj1 (wp_Ret _ _ _) (wp_exec p s no_queues (R_fresh s Hf) Hs)) as (l' & s'' & E' & a' & Hst & HR).
  rewrite E in E'. injection E' as <- <-. destruct (co_user _ _ (R_core _ _ HR) d u Hu) as (Hm & _ & [q Hq]). split_and!; [done|by apply HR|].
  destruct (co_live _ _ (R_core _ _ HR) _ q Hq) as (e & He & Hl). destruct (R_queue s' a' _ q e HR Hq He) as (_ & k & Hk & Hv & _).
  exists e, k. split_and!; [done|done|]. rewrite Hv, (li_max _ _ _ _ Hl), (li_size _ _ _ _ Hl).
  eapply wf_steps; [done| |done|done]. intros i q' Hi. cbn in Hi. by rewrite lookup_empty in Hi.
Qed.

End Props.

(** ** An instance *)

Definition small_config : MqConfig := {|
  O_RDONLY := 1; O_WRONLY := 2; O_RDWR := 3; O_CREAT := 8; O_EXCL := 16; O_NONBLOCK := 512;
  EBADF := 9; EINVAL := 22; ENOENT := 2; EEXIST := 17; ENFILE := 23; ENOSPC := 28; EMSGSIZE := 90;
  EINTR := 4; EAGAIN := 11; ETIMEDOUT := 116; EBUSY := 16;
  MQ_OPEN_MAX := 8; MQ_PRIO_MAX := 32; PATH_MAX := 16; CYGNUM_POSIX_MQUEUE_OPEN_MAX := 1
|}.

(** A queue is its messages and its size; it notifies of a message in an empty queue. *)
Definition list_put (m : message) (q : list message * Z) : option (list message * Z * bool) :=
  if Z.of_nat (length q.1) <? q.2 then Some ((insert_prio m q.1, q.2), match q.1 with [] => true | _ => false end) else None.

Definition list_get (q : list message * Z) : option (message * (list message * Z)) :=
  match q.1 with [] => None | m :: l => Some (m, (l, q.2)) end.

Lemma list_put_full m q : q.2 <= Z.of_nat (length q.1) -> list_put m q = None.
Proof. intros H. unfold list_put. by destruct (Z.ltb_spec (Z.of_nat (length q.1)) q.2); [lia|]. Qed.

Lemma list_put_spec m q : Z.of_nat (length q.1) < q.2 ->
  exists q' c, list_put m q = Some (q', c) /\ q'.1 = insert_prio m q.1 /\ q'.2 = q.2.
Proof. intros H. unfold list_put. destruct (Z.ltb_spec (Z.of_nat (length q.1)) q.2); [eauto|lia]. Qed.

Lemma list_get_empty q : q.1 = [] -> list_get q = None.
Proof. intros H. unfold list_get. by rewrite H. Qed.

Lemma list_get_spec q m l : q.1 = m :: l -> exists q', list_get q = Some (m, q') /\ q'.1 = l /\ q'.2 = q.2.
Proof. intros H. unfold list_get. rewrite H. eauto. Qed.

Definition list_kernel : Kernel := {|
  Cyg_Mqueue := list message * Z; mq_view := fst; mq_cap := snd; mq_new := fun n _ => ([], n);
  mq_put := list_put; mq_get := list_get; mq_count := fun q => Z.of_nat (length q.1);
  mq_new_spec := fun n size => conj eq_refl eq_refl; mq_put_full := list_put_full; mq_put_spec := list_put_spec;
  mq_get_empty := list_get_empty; mq_get_spec := list_get_spec; mq_count_spec := fun q => eq_refl
|}.

#[local] Existing Instance small_config.
#[local] Existing Instance list_kernel.

Definition start (m : list (Z * bool)) : st := mkSt initial_table ∅ ∅ 0 false m [] (fun _ => false) [].

(** Opens a queue, sends two messages, and may close it. *)
Definition client (close : bool) : prog :=
  Call (Open [47; 113] 11 (Some (mkAttr 0 2 4 0))) (fun r =>
    if r_value r =? -1 then Done
    else Call (Send (r_value r) [1; 2] 5) (fun _ => Call (Send (r_value r) [3] 9) (fun _ =>
      if close then Call (Receive (r_value r) 4) (fun _ => Call (Close (r_value r)) (fun _ => Done)) else Done))).

Lemma ads_send a d msg prio r a' : astep a (Send d msg prio) r a' -> ads a' = ads a.
Proof. intros H. inversion H as [| | |? ? ? ? ? H'| | | | | |]; subst. by inversion H'. Qed.

Lemma ads_receive a d len r a' : astep a (Receive d len) r a' -> ads a' = ads a.
Proof. intros H. inversion H as [| | | | |? ? ? ? H'| | | |]; subst. by inversion H'. Qed.

Lemma client_safe close : safe no_queues (client close).
Proof.
  split; [by vm_compute|]. intros r a H. inversion H as [? ? ? ? ? H'| | | | | | | | |]; subst. clear H.
  assert (r_value r = -1 \/ is_Some (ads a !! r_value r)) as Hr.
  { inversion H'; subst; cbn; auto; [match goal with H : aqs _ !! _ = Some _ |- _ => cbn in H; by rewrite lookup_empty in H end|]. right. by rewrite lookup_insert_eq. }
  destruct (Z.eqb_spec (r_value r) (-1)); [done|]. destruct Hr as [|Hr]; [done|]. cbn.
  split; [done|]. intros r1 a1 H1. rewrite <- (ads_send _ _ _ _ _ _ H1) in Hr.
  split; [done|]. intros r2 a2 H2. rewrite <- (ads_send _ _ _ _ _ _ H2) in Hr. destruct close; [|done].
  split; [done|]. intros r3 a3 H3. rewrite <- (ads_receive _ _ _ _ _ H3) in Hr. split; [done|]. done.
Qed.

Lemma start_fresh m : fresh (start m).
Proof. done. Qed.

Lemma message_queues_refine_witness :
  exists l s' a', exec (client true) (start [(100, false); (200, false)]) = Ret (l, s') /\ asteps no_queues (client true) l a' /\ R s' a'.
Proof. apply (message_queues_refine _ _ (start_fresh _) (client_safe true)). Defined.

Lemma message_queues_well_formed_witness :
  exists l s' u, exec (client false) (start [(100, false); (200, false)]) = Ret (l, s') /\ heap s' !! 200 = Some u /\
    exists e k, mqtab s' !! tabent u = Some e /\ queues s' !! mq e = Some k /\ mq_view (kq k) = [(9, [3]); (5, [1; 2])] /\
      messages_ok (maxmsg e) (msgsize e) (mq_view (kq k)).
Proof.
  eexists _, _, _. split; [vm_compute; reflexivity|]. split; [vm_compute; reflexivity|].
  edestruct message_queues_well_formed with (s := start [(100, false); (200, false)]) (p := client false) (d := 200) as (_ & _ & e & k & He & Hk & Hok);
    [apply start_fresh|apply client_safe|vm_compute; discriminate|vm_compute; reflexivity|vm_compute; reflexivity|].
  exists e, k. split; [exact He|]. split; [exact Hk|]. split; [|exact Hok].
  vm_compute in He. injection He as <-. vm_compute in Hk. by injection Hk as <-.
Defined.

(** ** Where the code leaves its contract *)

(** What the calls return, and the state after them. *)
Definition trace (p : prog) (s : st) : option (list Z) :=
  match exec p s with Ret (l, _) => Some ((fun x => r_value x.2) <$> l) | _ => None end.

Definition calls (l : list call) : prog := fold_right (fun c p => Call c (fun _ => p)) Done l.

(** The empty name is that of every unused entry: opening it, without the flag to create,
    gives a descriptor without a queue, and unlinking it destroys a queue that is not there. *)
Example open_empty_name : trace (calls [Open [] 3 None]) (start [(100, false)]) = Some [100].
Proof. by vm_compute. Qed.

Example send_to_empty_name : exec (calls [Open [] 3 None; Send 100 [] 0]) (start [(100, false)]) = UB.
Proof. by vm_compute. Qed.

Example unlink_empty_name : exec (calls [Unlink []]) (start []) = UB.
Proof. by vm_compute. Qed.

(** When there is no memory for the descriptor of a new queue the entry keeps the pointer to
    the memory that was freed, and is never free again: the table of one entry is full,
    though no queue exists. *)
Example failed_open_loses_entry :
  trace (calls [Open [47; 113] 11 None]) (start [(100, false); (0, false); (100, false); (200, false)]) = Some [-1] /\
  (exists l s', exec (calls [Open [47; 113] 11 None; Open [47; 113] 11 None]) (start [(100, false); (0, false); (100, false); (200, false)]) = Ret (l, s') /\
     errno s' = ENFILE /\ queues s' = ∅ /\ (mq <$> mqtab s') = [100]).
Proof. split; [by vm_compute|]. eexists _, _. split; [vm_compute; reflexivity|]. by vm_compute. Qed.

(** A second descriptor registers for notification after the first has given it up; closing
    the first ends the registration of the second. *)
Example close_drops_registration_of_another :
  exists l s', exec (calls [Open [47; 113] 11 None; Open [47; 113] 3 None; Notify 200 1; Notify 200 0; Notify 300 2; Close 200])
    (start [(100, false); (200, false); (300, false)]) = Ret (l, s') /\
    (sigev <$> mqtab s') = [0] /\ (callback <$> queues s' !! 100) = Some 0 /\ (notifieruser <$> heap s' !! 300) = Some true.
Proof. eexists _, _. split; [vm_compute; reflexivity|]. by vm_compute. Qed.

(** The flag of a second descriptor is what its memory held: closing it ends a registration
    it never made. *)
Example close_drops_registration_by_chance :
  exists l s', exec (calls [Open [47; 113] 11 None; Open [47; 113] 3 None; Notify 200 1; Close 300])
    (start [(100, false); (200, false); (300, true)]) = Ret (l, s') /\
    (sigev <$> mqtab s') = [0] /\ (callback <$> queues s' !! 100) = Some 0 /\ (notifieruser <$> heap s' !! 200) = Some true.
Proof. eexists _, _. split; [vm_compute; reflexivity|]. by vm_compute. Qed.
